(* ===== verification/_CoqProject ===== *)
-Q . S2P
Prelude.v
GoStd.v
GoEncoding.v
Sql.v
StoreBase.v
Domain.v
Execution.v
Replay.v
SlotLedger.v
Scheduler.v
SchedulerFacts.v
RunnerLease.v
RunnerPackage.v
Transport.v
RunnerUpdate.v
Fence.v
GitHubState.v
Projection.v
Reconcile.v
ReconcileInv.v
RestoreInv.v
RestoreSuccess.v
PassFacts.v
ReconcileFacts.v
ReaderViews.v
ReconcileProps.v
FleetProps.v
Effects.v
RunnerJournal.v
RunnerRuntime.v
RunnerContract.v
RunnerSafety.v
RunnerSystem.v
RunnerProps.v
AgentStore.v
AgentJournal.v
AgentStoreSpec.v
AgentStoreFacts.v
AgentHistory.v
AgentStoreProps.v
AgentJournalProps.v
AgentSession.v
JoinCode.v
EnrollRegistry.v
EnrollPKI.v
EnrollService.v
EnrollProps.v
WorkTables.v
ControllerStore.v
StoreCheck.v
StoreEnroll.v
AuditTrail.v
Management.v
WorkStore.v
WorkAgent.v
WorkReport.v
WorkGitHub.v
RestartStore.v
SnapshotConsumer.v
ControllerSpec.v
ControllerFacts.v
WorkFacts.v
WorkFrame.v
WorkSpec.v
ControllerHistory.v
ControllerProps.v
ControllerRegistry.v
ControllerInterface.v
WorkProps.v
SnapshotProps.v
TeardownProps.v
RestartWf.v
RestartProps.v
ConsumerProps.v
