(* ===== verification/Prelude.v ===== *)
(** * SpareRunner: a verification development of its authorities

    SpareRunner lends idle computers to GitHub Actions.  A Controller keeps the
    desired state (which execution owns which concrete runner slot of which
    node), Agents on the nodes run the executions and report what they observe,
    and GitHub is the provider whose runner registrations may be ambiguous after
    a crash.  This development models the Go packages in which those three
    authorities meet, the Agent's own runner lifecycle, the enrollment of nodes and
    the two databases that make their decisions durable, and proves what makes them
    safe together.

    ** Parts and files

    The files are listed in dependency order; each names the Go file it models,
    and every definition that models code carries a line with the file, the lines
    and the symbol it translates.

    - [Prelude]: Go errors and results with the notations for early returns,
      machine integers, the automation, and counting over finite maps.  [GoStd]:
      what the packages use of Go's standard library (TrimSpace, byte predicates,
      hex.EncodeToString, path.Base, errors.Is, the order of strings, sort.Slice).
    - [Domain], [Execution], [Replay], [SlotLedger] (internal/domain): entities
      and their validation; the execution lifecycle with its breadth-first
      reachability; the at-most-once journal of commands; the ledger that says
      who owns a slot.  [SlotLedger.OwnershipStore] is the interface a client
      relies on; the ledger is its instance.
    - [Scheduler], [SchedulerFacts] (internal/scheduler/scheduler.go): the data
      and every method, then the invariant [sched_ok] and the properties.  The
      proofs about ownership go through the ledger's interface.
    - [Transport] (internal/transport, internal/agentstate): the messages a
      Controller and an Agent accept, the snapshot digest, the one-shot secret of
      a start command.
    - [RunnerUpdate], [GitHubState], [Fence] (internal/reconcile): the support
      window of pinned runners, the last-known provider state, and the provider
      fences with the resolution of their ambiguity.
    - [Projection], [Reconcile] (internal/reconcile/controller.go): the
      Controller's in-memory projection, its restoration from durable state, and
      every method that changes or reads it.  [Reconcile.event] has one
      constructor per method that changes the projection, [Reconcile.step] runs
      one, and [Reconcile.run] folds a history of them.  A method that stores an entity
      and then folds it into the snapshot is written once, over how it ends
      ([Reconcile.Tail]): with [refold] it is the method, with [in_progress] what the
      others see while it is between the two.
    - [ReconcileInv] (the invariant [ctl_ok] and that every step keeps it),
      [RestoreInv] (restoration establishes it), [RestoreSuccess] (when it succeeds),
      [PassFacts] (what one pass over a snapshot adds), [ReconcileFacts] (what
      histories keep), [ReaderViews] (the states a reader can meet, those inside a
      method included), [ReconcileProps] (the Controller's properties) and [FleetProps]
      (the Controller's fleet can always be given back to the scheduler).
    - [RunnerLease], [RunnerPackage], [RunnerJournal] (internal/runner: process.go,
      package.go, journal.go): the one-shot lease on a start secret, the pinned
      packages, the durable record with its validity and the in-memory journal.
    - [Effects]: programs as trees of calls to their environment, and a program
      logic over the dialogue so far.  [RunnerRuntime] (internal/runner/runtime.go):
      every method of the Agent's Manager as such a program over the actions of its
      journal, package cache, workspace authority, supervisor and file system.
    - [RunnerContract] states which call is permitted after which dialogue and what
      [lifecycle] a durable record follows; [RunnerSafety] proves that each
      operation keeps this contract against every environment; [RunnerSystem] runs
      any number of Managers over one journal, with crashes and journal failures;
      [RunnerProps] has the properties, and a concrete environment in which a runner
      is started and destroyed.
    - [GoEncoding] (base64, encoding/binary, strconv and crypto/rand's reader as the
      packages use them), [JoinCode], [EnrollRegistry], [EnrollPKI], [EnrollService]
      (internal/enroll): join codes and their one spelling; the registry's interface
      ([Registry], with the laws [RegistryLaws] that the service relies on) and the
      registry in memory; certificates over the standard library's X.509, which is a
      parameter with its laws; and the service.  [EnrollProps] has the properties and
      [Toy], a concrete standard library in which the laws hold.
    - [Sql]: programs over an SQLite database through a connection that says which
      statements fail and what becomes of each commit; [Follows], [ReadOnly], [Atomic]
      and [AllOrNothing] are the classes by which a method's undisturbed run carries
      over to every other.  [StoreBase] (internal/store/store.go): what the two stores
      share.
    - [AgentStore], [AgentJournal] (internal/store: agent.go, agent_*.go,
      runner_journal.go): every method of the Agent's database and of the runner journal
      kept in it.  [AgentStoreSpec] says what the tables may become, [AgentStoreFacts]
      and [AgentHistory] that no method and no history does more, [AgentStoreProps] and
      [AgentJournalProps] have the properties; [AgentSession] (internal/app/agent.go)
      joins journal, database and snapshot.
    - [ControllerStore], [StoreEnroll], [AuditTrail], [Management] (internal/store:
      enroll.go, management.go): the Controller's tables of tokens, nodes, replays, node
      states, configuration and evidence, and every method over them.
      [ControllerSpec] has the invariant [controller_wf] and the changes that keep it,
      [ControllerFacts] what each method does when it succeeds, [ControllerHistory] the
      methods as data and the histories of one database, those of work included, under
      failures, [ControllerProps] the properties.  [ControllerRegistry] relates the database to
      the registry in memory, which it refines, and [ControllerInterface] makes it an
      instance of [RegistryLaws], so that the service's theorems hold over the database.
    - [WorkTables], [WorkStore], [WorkAgent], [WorkReport], [WorkGitHub] (internal/store:
      controller.go, controller_agent.go, controller_node_availability.go,
      controller_github.go): the tables of executions, leases, messages, commands,
      snapshots and updates; assignment and commands; the owner's state; what Agents
      report and what is decided on the authority of a snapshot.  Of the provider's
      claims and attempts, [WorkGitHub] has the transactions that change executions and
      leases.  [StoreCheck] (store.go) has the queries that refuse a database whose
      leases disagree.
    - [WorkFacts] has the methods of work as data ([work_method], [work_program]),
      [WorkFrame] which tables each of them may touch, [WorkSpec] how executions and
      leases move together ([lease_wf], [lease_step]); [WorkProps], [SnapshotProps] and
      [TeardownProps] have the properties.
    - [RestartStore] (internal/store: controller.go, controller_github.go) reads what a
      restarted Controller needs, in the records of [Projection]; [RestartWf] has the
      invariants of a database's histories under which it can be read ([restart_wf]) and
      [RestartProps] that [Projection.RestoreRestart] accepts it.  [SnapshotConsumer]
      (internal/reconcile/snapshot_consumer.go) joins the two sides at the activation of
      an Agent's session: the database first, then the projection; [ConsumerProps] has
      what this order guarantees.

    ** How state and operations correspond to the code

    A Go struct is a Record with the same fields, a string type with constants is
    [string] with a Definition per constant, a map is a [gmap], and an [int] or
    [int64] is [Z], with wrap-around written out where the code can reach it (the
    scheduler's [uint64] grant identifiers, [UnixNano]).  [time.Time] is a number
    of nanoseconds since Go's zero time.  A method that may fail returns
    [error] or [result]; a method that changes its receiver returns the new state
    with its result, and when it fails after it has changed something, it returns
    the changed state.  The methods that change a component hold its mutex (the
    Controller: [applyMu]) for their whole body, so each is one atomic step for the
    others of them, and concurrent callers are covered by the theorems about arbitrary
    sequences of calls.  The Controller's readers, [Admission] and [FleetSnapshot], hold
    [mu] only, which a method that changes the projection releases between storing an
    entity and folding it into the retained snapshot: they may see the state in between,
    and what is said of what a Controller is offered is said of those states too
    ([ReaderViews.view]).  The Manager of internal/runner is different: it shares its journal with other
    processes and releases its mutex between steps, so its methods are not steps
    but programs, [Lock] and [Unlock] are calls among others, and the two maps it
    guards are part of the environment, which is only assumed to remember them
    within a critical section.
    Slices and structs that the code clones are values.  A nil receiver is
    modelled only where the method reads through it.  Where Go iterates over a
    map, the model follows one order and the results do not depend on it;
    sort.Slice is modelled as a stable sort, and where the order is total this is
    the only outcome.

    A database is a Record of its tables: a table is a map from its primary key to its
    row, or the list of its rows by rowid; CHECK, UNIQUE and REFERENCES clauses and the
    triggers of the migrations are written out in the statements that meet them.  A
    commit that reports an error either took effect or was rolled back before the next
    statement.  A rowid that reaches the largest [int64] counts as a full table.  The
    process-local flag by which a Controller's store stops audited changes is what its
    methods read of it ([cs_auditHealthy], [cs_auditGate]: another call may degrade it in
    between), and the call that clears it marks its error ([degraded]).

    SHA-256 and encoding/json belong to Go's standard library and appear as
    parameters ([sha256], [marshal]); the theorems hold for every choice of them,
    and the one theorem that needs that they do not confuse two inputs says so.
    The runner files only need that a sum has 32 bytes.

    ** What the theorems show

    - Lifecycle and ledger ([Execution], [Replay], [SlotLedger]): reachability is
      computed exactly, executions end, commands run at most once, and the ledger
      refines a map from slots to owners.
    - Scheduler: its indexes always agree, it grants only legitimate places, the
      best one first, it is work-conserving and fair, releases are final,
      exclusions only take away, and restoration is exact.
    - Protocol: the secret is delivered once and the digest identifies what the
      journal says and nothing else.
    - Provider: pinned runners and provider state fail closed, fence tokens only
      move forward, and resolving one never destroys a runner whose start command the
      Agent's journal has, and waits where a start is recorded under its command.
    - Controller: after any history the projection is consistent and has only
      advanced; capacity is offered only where desired and observed state agree, but
      for the one entity a concurrent method has stored and not folded in yet;
      updates are applied whole or not at all; recovery replays nothing but
      prepare commands; disconnecting or restarting withdraws capacity and keeps
      the work; quarantine and cleared fences stay; and the scheduler can be
      rebuilt from the fleet.
    - Runner lifecycle: every record written is valid and every update a step of
      the lifecycle with its evidence, so the journal refines the lifecycle however
      many Managers use it, and teardown is final; a process is started only from
      one's own durable record and its secret handed out at most once, after the
      workspace was verified; a workspace is removed only by who recorded the cleanup
      or recovers a record that says so, after its runner was stopped, and a cleanup is
      remembered only with such a record; recovery and teardown start nothing; success is reported
      only of a durable record; and every method ends.
    - Enrollment: a join code has one spelling, a token is spent once, a delivered code
      enrolls a node and a lost answer can be asked for again, certificates prove the
      identity they were issued for, renewals are due in their window.
    - Agent's database: every history of failing statements, lost and unreported commits
      keeps it consistent; a reported success is durable and repeating an attempt is
      safe; commands are admitted once and forgotten only with the acknowledgement of
      their execution's last update, observations never regress, the outbox is a
      queue; its runner journal refines the interface the Manager uses, and a snapshot
      built from what it holds always passes the snapshot's own validation.
    - Controller's database: every history keeps it consistent; an audited change and
      its evidence are one transaction; one configuration is applied per revision, and
      none that disturbs running work; the trail is enumerated by its pages; and the
      database refines the registry in memory, so revocation is final in it too.
    - The Controller's work: after every history the leases are exactly the slots of the
      executions that are not over, and desired states only advance; a message is
      assigned once and a redelivery answered with the same execution; a command is
      durable before it is delivered, and an execution update is applied once; a slot is
      given back only with evidence that its runner is gone, from the node it is placed on
      or from the provider; an accepted snapshot
      becomes the authority over its node whole, and no report is ever taken back; and
      tearing down what is left of an execution touches neither its desired state nor a
      lease, and whether a command may be such a teardown is decided when it is issued.
    - Database and projection: after every history a Controller can be restarted from its
      database and then has exactly the stored executions, slots and commands; the
      projection never runs ahead of the database; and a node that enrolled meanwhile
      joins without a restart.
    - [ReconcileProps] ends with histories in which the code departs from its
      comments (a revoked node reactivated through quarantine, quarantine left
      through draining, an owner change left behind half applied, a node shrunk
      below its active runtimes, capacity offered next to a claim that is stored and not
      folded in).  [Fence] has a fence that is resolved by removing a runner that was
      started, [RestartStore] a claim that keeps every scale set from being read.
      [RestartProps] and [ConsumerProps] end with two more
      (a macOS node whose slots stop the restart, an execution that fails in the database
      and not in the projection).

    ** Bounds and fuel

    [Execution.reach_loop] has one round per state and one more; a state enters
    the queue at most once, and [can_reach_iff] shows that this decides
    reachability.  [GoStd.strip_runes] has one round per byte and removes at least
    one byte in each ([strip_runes_done]).  The loop of
    [RunnerRuntime.claim_started] has a round per newer revision of one record, so
    more rounds than the largest [uint64] are enough ([RunnerProps.methods_end]).
    The rejection sampling of crypto/rand is given as many rounds as the reader has
    bytes and one more, and each round consumes one; [FormatUint] writes the twenty
    digits of a [uint64].  [ControllerProps.follow_pages], the reader of the trail, needs
    one page more than there are events.
    All other recursion is structural.
    Lists that are restored have at most [max_int64] elements, as Go's slices do.

    ** What is not modelled

    JSON decoding, the envelope of the transport with its bound of 2 MiB (a snapshot
    whose encoding is longer is refused when it is sent) and its sequencing, TLS and discovery; in the
    Controller's database the provider's scale sets, sessions, claims, JIT attempts and
    cleanup (internal/store/controller_github.go), of which only the transactions that
    change executions and leases and the reading of a restart are modelled; backup,
    restore and migration of databases; saving and loading of private keys; the GitHub client,
    authentication, platform adapters, packaging, generated code and the composition in
    internal/app, which are input and output around the modelled state.  Of
    internal/runner, the package cache, archive extraction and the platform's processes
    are the environment of the Manager, and its constructor, which only checks that its
    parts are present, is left out. *)

From Stdlib Require Export ZArith Lia.
From stdpp Require Export base tactics strings gmap list fin_maps sorting.

(** ** Errors and results *)

(** The dynamic error values the modelled packages build.  The first four
    constructors are the struct types [*domain.ValidationError],
    [*scheduler.Error], [*reconcile.Error] and [*config.ValidationError];
    [PlainError] is an [errors.New] sentinel or an [fmt.Errorf] without a
    wrapped cause, [SentinelError] an [errors.New] sentinel whose text another
    sentinel shares, named by its variable, [WrappedError] is
    [fmt.Errorf("prefix: %w", cause)], and [JoinedError] is [errors.Join] of two
    errors that are not [nil]. *)
Inductive GoError :=
  | DomainError (code field message : string)
  | SchedulerError (code field message : string)
  | ReconcileError (code field message : string)
  | ConfigError (code field : string)
  | PlainError (text : string)
  | SentinelError (variable text : string)
  | WrappedError (prefix : string) (cause : GoError)
  | JoinedError (first second : GoError).

(** A Go [error] result: [None] is [nil]. *)
Abbreviation error := (option GoError).

(** A Go [(T, error)] result. *)
Inductive result (A : Type) :=
  | Ok (value : A)
  | Err (err : GoError).
Arguments Ok {A} value.
Arguments Err {A} err.

#[export] Instance GoError_eq_dec : EqDecision GoError.
Proof. solve_decision. Defined.

Declare Scope go_scope.
Delimit Scope go_scope with go.

(** Go's [==] and [!=] on comparable values. *)
Notation "a == b" := (bool_decide (a = b)) (at level 70, no associativity) : go_scope.
Notation "a != b" := (negb (bool_decide (a = b))) (at level 70, no associativity) : go_scope.

(** [if err := e; err != nil { return err }; k] in a function that returns
    [error], and in one that returns [(T, error)]. *)
Notation "'try' e ;; k" := (match e with Some err => Some err | None => k end)
  (at level 100, e at next level, right associativity) : go_scope.
Notation "'tryr' e ;; k" := (match e with Some err => Err err | None => k end)
  (at level 100, e at next level, right associativity) : go_scope.
(** [x, err := e; if err != nil { return T{}, err }; k]. *)
Notation "'let!' x := e ;; k" := (match e with Err err => Err err | Ok x => k end)
  (at level 100, x pattern, e at next level, right associativity) : go_scope.

Open Scope string_scope.
Open Scope Z_scope.
Open Scope list_scope.
Open Scope go_scope.

(** ** Automation

    [go]: facts that close the side conditions the components' proofs share.
    [go_bool]: the boolean conditions of the code, as the propositions they
    decide; [conditions] applies it to the goal and to the hypotheses. *)
Create HintDb go.
Create Rewrite HintDb go_bool.

#[export] Hint Rewrite andb_true_iff andb_false_iff orb_true_iff orb_false_iff negb_true_iff
  negb_false_iff Z.gtb_ltb Z.geb_leb Z.ltb_lt Z.ltb_ge Z.leb_le Z.leb_gt : go_bool.
#[export] Hint Rewrite @bool_decide_eq_true @bool_decide_eq_false : go_bool.

Ltac conditions := autorewrite with go_bool in *.

(** Every branch of the conditionals left in the goal. *)
Ltac branches := repeat match goal with |- context [if ?b then _ else _] => destruct b end; simpl.

(** ** Machine integers *)

(** The largest [uint64], and the wrap-around of [uint64] arithmetic. *)
Definition max_uint64 : Z := 18446744073709551615.
Definition wrap_uint64 (z : Z) : Z := z mod 18446744073709551616.

(** The largest [int64], and two's complement wrap-around of [int64]. *)
Definition max_int64 : Z := 9223372036854775807.
Definition wrap_int64 (z : Z) : Z :=
  (z + 9223372036854775808) mod 18446744073709551616 - 9223372036854775808.

Lemma wrap_uint64_range z : 0 <= wrap_uint64 z <= max_uint64.
Proof. unfold wrap_uint64, max_uint64. pose proof (Z.mod_pos_bound z 18446744073709551616). lia. Qed.

Lemma wrap_uint64_small z : 0 <= z <= max_uint64 -> wrap_uint64 z = z.
Proof. unfold wrap_uint64, max_uint64. intros. apply Z.mod_small. lia. Qed.

Lemma wrap_int64_small z : - max_int64 - 1 <= z <= max_int64 -> wrap_int64 z = z.
Proof. unfold wrap_int64, max_int64. intros. rewrite Z.mod_small; lia. Qed.

#[export] Hint Resolve wrap_uint64_range : go.

(** ** Lists *)

Lemma filter_all {A} (P : A -> Prop) `{!forall x, Decision (P x)} l : Forall P l -> filter P l = l.
Proof.
  induction 1 as [|x l Hx _ IH]; [done|]. by rewrite filter_cons, decide_True, IH.
Qed.

(** ** Counting the entries of a map

    The loops [for k, v := range m { if p(k, v) { n++ } }]. *)

Section count_map.
Context {K A : Type} `{Countable K}.
Implicit Types (p : K -> A -> bool) (m : gmap K A).

Definition count_list p (l : list (K * A)) : Z :=
  foldr (fun '(k, v) n => if p k v then 1 + n else n) 0 l.
Definition count_map p m : Z := count_list p (map_to_list m).

Lemma count_list_perm p l1 l2 : l1 ≡ₚ l2 -> count_list p l1 = count_list p l2.
Proof.
  induction 1 as [|[k v] l1 l2 _ IH|[k1 v1] [k2 v2] l|]; simpl; try congruence.
  - by rewrite IH.
  - destruct (p k1 v1), (p k2 v2); lia.
Qed.

Lemma count_list_bounds p l : 0 <= count_list p l <= Z.of_nat (length l).
Proof. induction l as [|[k v] l IH]; simpl; [lia|]. destruct (p k v); lia. Qed.

Lemma count_list_ext p q l :
  (forall k v, (k, v) ∈ l -> p k v = q k v) -> count_list p l = count_list q l.
Proof.
  induction l as [|[k v] l IH]; intros Hpq; simpl; [done|].
  rewrite (Hpq k v) by set_solver. rewrite IH; [done|]. set_solver.
Qed.

Lemma count_map_empty p : count_map p ∅ = 0.
Proof. unfold count_map. by rewrite map_to_list_empty. Qed.

Lemma count_map_bounds p m : 0 <= count_map p m <= Z.of_nat (size m).
Proof.
  unfold count_map. rewrite <- length_map_to_list. apply count_list_bounds.
Qed.

Lemma count_map_insert_new p m k v :
  m !! k = None -> count_map p (<[k := v]> m) = count_map p m + (if p k v then 1 else 0).
Proof.
  intros Hk. unfold count_map. rewrite (count_list_perm p _ _ (map_to_list_insert m k v Hk)).
  simpl. destruct (p k v); lia.
Qed.

Lemma count_map_delete p m k v :
  m !! k = Some v -> count_map p (delete k m) = count_map p m - (if p k v then 1 else 0).
Proof.
  intros Hk. rewrite <- (insert_delete_id m k v Hk) at 2.
  rewrite count_map_insert_new by apply lookup_delete_eq. lia.
Qed.

Lemma count_map_insert p m k v v' :
  m !! k = Some v ->
  count_map p (<[k := v']> m) =
  count_map p m - (if p k v then 1 else 0) + (if p k v' then 1 else 0).
Proof.
  intros Hk. rewrite <- insert_delete_eq, count_map_insert_new by apply lookup_delete_eq.
  by rewrite (count_map_delete p m k v Hk).
Qed.

Lemma count_map_ext p q m :
  (forall k v, m !! k = Some v -> p k v = q k v) -> count_map p m = count_map q m.
Proof. intros Hpq. apply count_list_ext. intros k v Hkv%elem_of_map_to_list. auto. Qed.

Lemma count_map_all p m :
  (forall k v, m !! k = Some v -> p k v = true) -> count_map p m = Z.of_nat (size m).
Proof.
  intros Hp. rewrite (count_map_ext p (fun _ _ => true)) by done.
  unfold count_map. rewrite <- length_map_to_list.
  induction (map_to_list m) as [|[k v] l IH]; simpl; [done|]. rewrite IH. lia.
Qed.

Lemma count_map_zero p m :
  (forall k v, m !! k = Some v -> p k v = false) -> count_map p m = 0.
Proof.
  intros Hp. rewrite (count_map_ext p (fun _ _ => false)) by done.
  unfold count_map. induction (map_to_list m) as [|[k v] l IH]; simpl; done.
Qed.

Lemma count_map_pos p m k v : m !! k = Some v -> p k v = true -> 1 <= count_map p m.
Proof.
  intros Hk Hp. pose proof (count_map_delete p m k v Hk) as Hd. rewrite Hp in Hd.
  pose proof (count_map_bounds p (delete k m)). lia.
Qed.
End count_map.

#[export] Hint Resolve count_map_empty count_map_zero count_map_all : go.
