(* ===== verification/GoStd.v ===== *)
(** * The parts of the Go standard library the packages call

    [strings.TrimSpace], byte predicates used by [range] loops over a string,
    [hex.EncodeToString], [path.Base], [errors.Is], [sort.Slice] and the string order Go's [<] implements.  A Go string is a
    sequence of bytes; it is modelled by [string], whose characters are the 256
    byte values. *)

From S2P Require Import Prelude.
From Stdlib Require Import Ascii NArith.

(** ** strings.TrimSpace *)

(** The UTF-8 encodings of the code points for which [unicode.IsSpace] holds:
    the ASCII ones, U+0085, U+00A0, U+1680, U+2000 to U+200A, U+2028, U+2029,
    U+202F, U+205F and U+3000. *)
Definition space_encodings : list (list ascii) :=
  map (map ascii_of_nat)
    [ [9]; [10]; [11]; [12]; [13]; [32];
      [194; 133]; [194; 160]; [225; 154; 128];
      [226; 128; 128]; [226; 128; 129]; [226; 128; 130]; [226; 128; 131];
      [226; 128; 132]; [226; 128; 133]; [226; 128; 134]; [226; 128; 135];
      [226; 128; 136]; [226; 128; 137]; [226; 128; 138]; [226; 128; 168];
      [226; 128; 169]; [226; 128; 175]; [226; 129; 159]; [227; 128; 128] ]%nat.

(** The rest of [bytes] after a non-empty [prefix]. *)
Fixpoint strip_prefix (prefix bytes : list ascii) : option (list ascii) :=
  match prefix, bytes with
  | [], _ => Some bytes
  | p :: prefix', b :: bytes' =>
      if Ascii.eqb p b then strip_prefix prefix' bytes' else None
  | _ :: _, [] => None
  end.

(** Strip one leading rune out of [runes]. *)
Fixpoint strip_rune (runes : list (list ascii)) (bytes : list ascii) : option (list ascii) :=
  match runes with
  | [] => None
  | rune :: runes' =>
      match strip_prefix rune bytes with
      | Some rest => Some rest
      | None => strip_rune runes' bytes
      end
  end.

(** Strip leading runes; every rune has at least one byte, so [length bytes]
    rounds are enough. *)
Fixpoint strip_runes (fuel : nat) (runes : list (list ascii)) (bytes : list ascii) : list ascii :=
  match fuel with
  | O => bytes
  | S fuel' =>
      match strip_rune runes bytes with
      | Some rest => strip_runes fuel' runes rest
      | None => bytes
      end
  end.

Definition trim_left (bytes : list ascii) : list ascii :=
  strip_runes (length bytes) space_encodings bytes.
(** A UTF-8 string ends with a rune exactly when it ends with its encoding. *)
Definition trim_right (bytes : list ascii) : list ascii :=
  rev (strip_runes (length bytes) (map (@rev ascii) space_encodings) (rev bytes)).

Definition TrimSpace (s : string) : string :=
  String.string_of_list_ascii (trim_right (trim_left (String.list_ascii_of_string s))).

Example TrimSpace_ascii : TrimSpace " node 1
" = "node 1".
Proof. reflexivity. Qed.
Example TrimSpace_nbsp :
  TrimSpace (String (ascii_of_nat 194) (String (ascii_of_nat 160) "x")) = "x".
Proof. reflexivity. Qed.

Lemma strip_prefix_length p bs rest :
  strip_prefix p bs = Some rest -> (length bs = length p + length rest)%nat.
Proof.
  revert bs. induction p as [|c p IH]; intros [|b bs]; simpl; intros H; simplify_eq; try done.
  destruct (Ascii.eqb c b); [|done]. apply IH in H. lia.
Qed.

Lemma strip_rune_shorter runes bs rest :
  Forall (fun r => r <> []) runes -> strip_rune runes bs = Some rest ->
  (length rest < length bs)%nat.
Proof.
  induction 1 as [|r runes Hr _ IH]; simpl; [done|].
  destruct (strip_prefix r bs) eqn:E; intros H; simplify_eq; [|auto].
  apply strip_prefix_length in E. destruct r; simpl in *; [done|lia].
Qed.

(** The fuel is enough: what is left does not start with a listed rune. *)
Lemma strip_runes_done runes bs fuel :
  Forall (fun r => r <> []) runes -> (length bs <= fuel)%nat ->
  strip_rune runes (strip_runes fuel runes bs) = None.
Proof.
  intros Hr. revert bs. induction fuel as [|fuel IH]; intros bs Hlen; simpl.
  - destruct bs; simpl in *; [|lia].
    clear Hlen. induction Hr as [|r rs Hne _ IH]; simpl; [done|].
    destruct r; [done|]. simpl. done.
  - destruct (strip_rune runes bs) eqn:E; [|done].
    apply strip_rune_shorter in E; [|done]. apply IH. lia.
Qed.

(** ** Bytes *)

Definition byte_val (c : ascii) : Z := Z.of_N (N_of_ascii c).

(** [for _, character := range s { if !p(character) { return false } }] for a
    predicate that no rune above 0x7f satisfies differently from the others:
    such runes come exactly from the bytes above 0x7f. *)
Definition all_bytes (p : Z -> bool) (s : string) : bool :=
  forallb (fun c => p (byte_val c)) (String.list_ascii_of_string s).

(** [(c >= '0' && c <= '9') || (c >= 'a' && c <= 'f')] *)
Definition lower_hex_byte (c : Z) : bool :=
  ((48 <=? c) && (c <=? 57)) || ((97 <=? c) && (c <=? 102)).

(** [character < 0x20 || character == 0x7f] *)
Definition control_byte (c : Z) : bool := (c <? 32) || (c =? 127).

(** [len(s)]: the number of bytes. *)
Definition len_string (s : string) : Z := Z.of_nat (String.length s).

(** [hex.EncodeToString]. *)
Definition hex_digit (d : Z) : ascii :=
  ascii_of_N (Z.to_N (if d <? 10 then 48 + d else 87 + d)).
Fixpoint hex_encode (bytes : string) : string :=
  match bytes with
  | EmptyString => EmptyString
  | String c rest =>
      String (hex_digit (Z.shiftr (byte_val c) 4))
        (String (hex_digit (Z.land (byte_val c) 15)) (hex_encode rest))
  end.

Lemma byte_val_range c : 0 <= byte_val c < 256.
Proof. unfold byte_val. pose proof (N_ascii_bounded c). lia. Qed.

Lemma hex_digit_lower d : 0 <= d < 16 -> lower_hex_byte (byte_val (hex_digit d)) = true.
Proof.
  intros Hd. assert (d ∈ seqZ 0 16) as Hin by (apply elem_of_seqZ; lia).
  clear Hd. revert d Hin. apply Forall_forall. vm_compute. repeat (constructor; [done|]). constructor.
Qed.

Lemma hex_encode_lower s : all_bytes lower_hex_byte (hex_encode s) = true.
Proof.
  unfold all_bytes. induction s as [|c s IH]; [done|]. cbn [hex_encode String.list_ascii_of_string].
  pose proof (byte_val_range c). cbn [forallb]. rewrite IH, !hex_digit_lower; [done| |].
  - change 15 with (Z.ones 4). rewrite Z.land_ones by lia. apply Z.mod_pos_bound. lia.
  - rewrite Z.shiftr_div_pow2 by lia. change (2 ^ 4) with 16.
    split; [apply Z.div_pos; lia|apply Z.div_lt_upper_bound; lia].
Qed.

Lemma hex_encode_length s : len_string (hex_encode s) = 2 * len_string s.
Proof.
  unfold len_string. induction s as [|c s IH]; [done|]. cbn [hex_encode String.length]. lia.
Qed.

(** ** path.Base *)

Definition slash : ascii := ascii_of_nat 47.

(** The bytes up to the first slash. *)
Fixpoint until_slash (bytes : list ascii) : list ascii :=
  match bytes with
  | [] => []
  | c :: rest => if Ascii.eqb c slash then [] else c :: until_slash rest
  end.
Fixpoint drop_slashes (bytes : list ascii) : list ascii :=
  match bytes with
  | [] => []
  | c :: rest => if Ascii.eqb c slash then drop_slashes rest else bytes
  end.

(** The last element of a slash-separated path: trailing slashes are removed
    first, an empty path is [.] and a path of slashes only is [/]. *)
Definition path_Base (path : string) : string :=
  match String.list_ascii_of_string path with
  | [] => "."
  | bytes =>
      match until_slash (drop_slashes (rev bytes)) with
      | [] => "/"
      | base => String.string_of_list_ascii (rev base)
      end
  end.

Example path_Base_examples :
  map path_Base [""; "/"; "a/b//"; "exec-1"; "../exec"; "."] =
    ["."; "/"; "b"; "exec-1"; "exec"; "."].
Proof. reflexivity. Qed.

(** ** The order of strings *)

(** Go's [<] on strings compares byte by byte. *)
Definition string_less (a b : string) : bool := String.ltb a b.

Lemma ascii_compare_eq a b : Ascii.compare a b = Eq <-> a = b.
Proof.
  unfold Ascii.compare. rewrite N.compare_eq_iff. split; [|congruence].
  intros H. rewrite <- (ascii_N_embedding a), <- (ascii_N_embedding b). congruence.
Qed.

Lemma string_compare_eq a b : String.compare a b = Eq <-> a = b.
Proof.
  revert b. induction a as [|x a IH]; intros [|y b]; simpl; try (split; congruence).
  destruct (Ascii.compare x y) eqn:E.
  - apply ascii_compare_eq in E as ->. rewrite IH. split; congruence.
  - split; [congruence|]. intros [= -> ->].
    pose proof (proj2 (ascii_compare_eq y y) eq_refl). congruence.
  - split; [congruence|]. intros [= -> ->].
    pose proof (proj2 (ascii_compare_eq y y) eq_refl). congruence.
Qed.

Lemma string_compare_lt_trans a b c :
  String.compare a b = Lt -> String.compare b c = Lt -> String.compare a c = Lt.
Proof.
  revert b c. induction a as [|x a IH]; intros [|y b] [|z c]; simpl; try congruence.
  destruct (Ascii.compare x y) eqn:Exy; try congruence;
  destruct (Ascii.compare y z) eqn:Eyz; try congruence; intros H1 H2.
  - apply ascii_compare_eq in Exy as ->. rewrite Eyz. eauto.
  - apply ascii_compare_eq in Exy as ->. by rewrite Eyz.
  - apply ascii_compare_eq in Eyz as ->. by rewrite Exy.
  - unfold Ascii.compare in *. rewrite N.compare_lt_iff in *.
    destruct (N.compare_spec (N_of_ascii x) (N_of_ascii z)); try done; lia.
Qed.

(** [string_less] is a strict total order. *)
Lemma string_less_irrefl a : string_less a a = false.
Proof. unfold string_less, String.ltb. by rewrite (proj2 (string_compare_eq a a) eq_refl). Qed.
Lemma string_less_trans a b c :
  string_less a b = true -> string_less b c = true -> string_less a c = true.
Proof.
  unfold string_less, String.ltb. intros H1 H2.
  destruct (String.compare a b) eqn:E1; try done. destruct (String.compare b c) eqn:E2; try done.
  by rewrite (string_compare_lt_trans _ _ _ E1 E2).
Qed.
Lemma string_less_total a b : string_less a b = false -> string_less b a = false -> a = b.
Proof.
  unfold string_less, String.ltb. rewrite (String.compare_antisym a b).
  destruct (String.compare b a) eqn:E; simpl; try done.
  intros _ _. symmetry. by apply string_compare_eq.
Qed.

(** ** errors.Is *)

(** [errors.Is(err, target)] for a sentinel [target]: some error of the tree is
    the target. *)
Fixpoint is_error_chain (err target : GoError) : bool :=
  (err == target) ||
  match err with
  | WrappedError _ cause => is_error_chain cause target
  | JoinedError first second => is_error_chain first target || is_error_chain second target
  | _ => false
  end.
Definition errors_Is (err : error) (target : GoError) : bool :=
  match err with Some err => is_error_chain err target | None => false end.

(** ** time *)

(** [time.Time] is a number of nanoseconds since Go's zero time, [time.Duration]
    one of nanoseconds. *)
Definition IsZero (t : Z) : bool := t == 0.
Definition Before (t u : Z) : bool := t <? u.
Definition After (t u : Z) : bool := u <? t.
(** [t.Sub(u)], which saturates at the bounds of a [time.Duration]. *)
Definition Sub (t u : Z) : Z := Z.max (- max_int64 - 1) (Z.min max_int64 (t - u)).

(** The Unix epoch, [time.Unix(0, n)], and [t.UnixNano()]: nanoseconds since 1970
    as an [int64]. *)
Definition unix_epoch : Z := 62135596800000000000.
Definition unix_time (n : Z) : Z := unix_epoch + n.
Definition UnixNano (t : Z) : Z := wrap_int64 (t - unix_epoch).

Definition Minute : Z := 60000000000.
Definition Hour : Z := 3600000000000.

(** ** sort.Slice *)

(** The comparison functions the code passes to [sort.Slice]: [less] is
    asymmetric and its negation is transitive. *)
Class WeakOrder {A} (less : A -> A -> bool) := {
  wo_asym a b : less a b = true -> less b a = false;
  wo_ntrans a b c : less b a = false -> less c b = false -> less c a = false;
}.
(** Elements that compare equal are equal: then the order determines the sorted
    list, and the instability of [sort.Slice] cannot be observed. *)
Class StrictOrderOn {A} (less : A -> A -> bool) := {
  so_weak :: WeakOrder less;
  so_total a b : less a b = false -> less b a = false -> a = b;
}.

(** [sort.Slice(l, func(i, j int) bool { return less(l[i], l[j]) })].  Ties of
    [less] are kept in their original order, one of the outcomes Go allows. *)
Definition sort_slice {A} (less : A -> A -> bool) (l : list A) : list A :=
  @merge_sort A (fun a b => less b a = false)
    (fun a b => decide (less b a = false)) l.

#[export] Instance string_less_order : StrictOrderOn string_less.
Proof.
  assert (Hasym : forall a b, string_less a b = true -> string_less b a = false).
  { intros a b Hab. destruct (string_less b a) eqn:Hba; [|done].
    pose proof (string_less_trans _ _ _ Hab Hba). by rewrite string_less_irrefl in *. }
  split; [split; [exact Hasym|]|apply string_less_total].
  intros a b c Hba Hcb. destruct (string_less c a) eqn:Hca; [|done].
  destruct (string_less a b) eqn:Hab.
  - pose proof (string_less_trans _ _ _ Hca Hab). congruence.
  - rewrite (string_less_total a b) in Hca by done. congruence.
Qed.

#[export] Instance Z_ltb_order : StrictOrderOn Z.ltb.
Proof. split; [split|]; intros *; rewrite ?Z.ltb_lt, ?Z.ltb_ge; lia. Qed.
#[export] Instance Z_gtb_order : StrictOrderOn Z.gtb.
Proof. split; [split|]; intros *; rewrite !Z.gtb_ltb, ?Z.ltb_lt, ?Z.ltb_ge; lia. Qed.

Lemma WeakOrder_ext {A} (f g : A -> A -> bool) :
  (forall a b, f a b = g a b) -> WeakOrder g -> WeakOrder f.
Proof.
  intros E [H1 H2]. split; [intros a b; rewrite !E; apply H1|intros a b c; rewrite !E; apply H2].
Qed.

Lemma lex_weak {A K} `{EqDecision K} (key : A -> K) (lessK : K -> K -> bool)
    (rest : A -> A -> bool) :
  StrictOrderOn lessK -> WeakOrder rest ->
  WeakOrder (fun l r => if key l != key r then lessK (key l) (key r) else rest l r).
Proof.
  intros HK HR. split.
  - intros a b. destruct (decide (key a = key b)) as [E|E].
    + rewrite !bool_decide_eq_true_2 by congruence. simpl. apply wo_asym.
    + rewrite !bool_decide_eq_false_2 by congruence. simpl. apply wo_asym.
  - intros a b c. destruct (decide (key b = key a)) as [E1|E1], (decide (key c = key b)) as [E2|E2];
      destruct (decide (key c = key a)) as [E3|E3]; try congruence;
      repeat first [rewrite bool_decide_eq_true_2 by congruence
                   |rewrite bool_decide_eq_false_2 by congruence]; simpl;
      rewrite ?E1, ?E2, ?E3; try done; try (apply wo_ntrans).
    rewrite <- E3. intros H1 H2. destruct E1. rewrite <- E3. by apply so_total.
Qed.

Section sort_slice.
Context {A : Type} (less : A -> A -> bool).

Lemma sort_slice_perm l : sort_slice less l ≡ₚ l.
Proof. apply merge_sort_Permutation. Qed.

Lemma elem_of_sort_slice x l : x ∈ sort_slice less l <-> x ∈ l.
Proof. by rewrite sort_slice_perm. Qed.

Context `{!WeakOrder less}.

Lemma sort_slice_sorted l : StronglySorted (fun a b => less b a = false) (sort_slice less l).
Proof.
  apply StronglySorted_merge_sort.
  - intros a b c H1 H2. by eapply wo_ntrans.
  - intros a b. destruct (less b a) eqn:E; [right|by left]. by apply wo_asym.
Qed.

(** The head of the sorted list is minimal. *)
Lemma sort_slice_head x l t y : sort_slice less l = x :: t -> y ∈ l -> less y x = false.
Proof.
  intros Hs Hy. pose proof (sort_slice_sorted l) as Hsort. rewrite Hs in Hsort.
  apply StronglySorted_cons in Hsort as [Hall _].
  rewrite <- (elem_of_sort_slice y l), Hs in Hy. apply elem_of_cons in Hy as [->|Hy].
  - destruct (less x x) eqn:E; [|done]. pose proof (wo_asym _ _ E). congruence.
  - rewrite Forall_forall in Hall. by apply Hall.
Qed.
End sort_slice.

(** Any two ways of sorting the same elements under a strict order agree. *)
Lemma sort_slice_unique {A} (less : A -> A -> bool) `{!StrictOrderOn less} l l' :
  l' ≡ₚ l -> StronglySorted (fun a b => less b a = false) l' -> l' = sort_slice less l.
Proof.
  intros Hp Hs. eapply StronglySorted_unique_strong; [| |apply sort_slice_sorted; apply _|].
  - intros a b _ _ H1 H2. by apply so_total.
  - done.
  - by rewrite sort_slice_perm.
Qed.
