(* ===== verification/GoEncoding.v ===== *)
(** * The encodings and address forms of Go's standard library the packages use

    [encoding/base64] in its raw URL alphabet, the big-endian 16-bit integers of
    [encoding/binary], [strconv.ParseUint] and [strconv.FormatUint] in base ten,
    [net.SplitHostPort], [net.JoinHostPort] and the byte searches of [strings].
    A byte slice is a [list ascii]; [byte_val] reads a byte and [to_byte] is the
    conversion [byte(z)], which drops the higher bits. *)

From S2P Require Import Prelude GoStd.
From Stdlib Require Import Ascii NArith.

(** ** Bytes and strings *)

(** [[]byte]. *)
Abbreviation bytes := (list ascii).

(** The conversions [[]byte(s)] and [string(b)]. *)
Abbreviation bytes_of := String.list_ascii_of_string.
Abbreviation string_of := String.string_of_list_ascii.

(** [byte(z)]. *)
Definition to_byte (z : Z) : ascii := ascii_of_N (Z.to_N (z mod 256)).

Lemma byte_val_to_byte z : byte_val (to_byte z) = z mod 256.
Proof.
  unfold byte_val, to_byte. pose proof (Z.mod_pos_bound z 256).
  rewrite N_ascii_embedding by lia. lia.
Qed.
Lemma to_byte_val c : to_byte (byte_val c) = c.
Proof.
  unfold to_byte. rewrite Z.mod_small by apply byte_val_range.
  unfold byte_val. by rewrite N2Z.id, ascii_N_embedding.
Qed.
Lemma byte_val_inj a b : byte_val a = byte_val b -> a = b.
Proof. intros E. by rewrite <- (to_byte_val a), <- (to_byte_val b), E. Qed.

Lemma string_of_bytes_of s : string_of (bytes_of s) = s.
Proof. apply String.string_of_list_ascii_of_string. Qed.
Lemma bytes_of_string_of l : bytes_of (string_of l) = l.
Proof. apply String.list_ascii_of_string_of_list_ascii. Qed.
Lemma length_bytes_of s : length (bytes_of s) = String.length s.
Proof. induction s; simpl; congruence. Qed.
Lemma bytes_of_app a b : bytes_of (String.append a b) = (bytes_of a ++ bytes_of b)%list.
Proof. induction a as [|c a IH]; [done|]. simpl. by rewrite IH. Qed.

Create Rewrite HintDb go_bytes.
#[export] Hint Rewrite byte_val_to_byte to_byte_val string_of_bytes_of bytes_of_string_of
  length_bytes_of : go_bytes.

(** [strings.IndexByte(s, c)]; [None] is [-1]. *)
Fixpoint index_byte (c : ascii) (l : bytes) : option nat :=
  match l with
  | [] => None
  | x :: l' => if Ascii.eqb x c then Some O else option_map S (index_byte c l')
  end.
(** [strings.LastIndexByte(s, c)]. *)
Fixpoint last_index_byte (c : ascii) (l : bytes) : option nat :=
  match l with
  | [] => None
  | x :: l' =>
      match last_index_byte c l' with
      | Some i => Some (S i)
      | None => if Ascii.eqb x c then Some O else None
      end
  end.
Definition contains_byte (c : ascii) (l : bytes) : bool :=
  match index_byte c l with Some _ => true | None => false end.
(** [strings.ContainsAny(s, chars)] for ASCII [chars]. *)
Definition contains_any (chars : string) (s : string) : bool :=
  existsb (fun c => contains_byte c (bytes_of chars)) (bytes_of s).
(** [strings.HasPrefix(s, prefix)] and [strings.TrimPrefix(s, prefix)]. *)
Definition has_prefix (prefix s : string) : bool :=
  match strip_prefix (bytes_of prefix) (bytes_of s) with Some _ => true | None => false end.
Definition trim_prefix (prefix s : string) : string :=
  match strip_prefix (bytes_of prefix) (bytes_of s) with
  | Some rest => string_of rest
  | None => s
  end.

Lemma strip_prefix_app p l : strip_prefix p (p ++ l) = Some l.
Proof. induction p as [|c p IH]; simpl; [done|]. by rewrite Ascii.eqb_refl. Qed.
Lemma strip_prefix_Some p l rest : strip_prefix p l = Some rest -> l = p ++ rest.
Proof.
  revert l. induction p as [|c p IH]; intros [|b l]; simpl; intros H; simplify_eq; try done.
  destruct (Ascii.eqb_spec c b) as [->|]; [|done]. f_equal. auto.
Qed.
Lemma trim_prefix_app p s : has_prefix p s = true -> s = String.append p (trim_prefix p s).
Proof.
  unfold has_prefix, trim_prefix. destruct (strip_prefix _ _) as [rest|] eqn:E; [|done].
  intros _. apply strip_prefix_Some in E.
  rewrite <- (string_of_bytes_of s), E at 1. rewrite <- (bytes_of_string_of rest) at 1.
  by rewrite <- bytes_of_app, string_of_bytes_of.
Qed.

Lemma has_prefix_append p s : has_prefix p (String.append p s) = true.
Proof. unfold has_prefix. by rewrite bytes_of_app, strip_prefix_app. Qed.
Lemma trim_prefix_append p s : trim_prefix p (String.append p s) = s.
Proof. unfold trim_prefix. by rewrite bytes_of_app, strip_prefix_app, string_of_bytes_of. Qed.
Lemma len_string_append a b : len_string (String.append a b) = len_string a + len_string b.
Proof. unfold len_string. rewrite <- !length_bytes_of, bytes_of_app, length_app. lia. Qed.
Lemma contains_byte_elem c l : contains_byte c l = true <-> c ∈ l.
Proof.
  unfold contains_byte. induction l as [|x l IH]; simpl; [split; [done|by intros ?%elem_of_nil]|].
  rewrite elem_of_cons. destruct (Ascii.eqb_spec x c) as [->|]; [naive_solver|].
  destruct (index_byte c l); simpl; naive_solver.
Qed.
Lemma contains_any_false chars s :
  Forall (fun c => c ∉ bytes_of chars) (bytes_of s) -> contains_any chars s = false.
Proof.
  unfold contains_any. induction 1 as [|c l Hc _ IH]; simpl; [done|]. rewrite IH.
  destruct (contains_byte c (bytes_of chars)) eqn:E; [|done]. by apply contains_byte_elem in E.
Qed.

(** ** binary.BigEndian *)

(** [PutUint16(b, v)] and [Uint16(b)], for the two bytes of [b]. *)
Definition put_uint16 (v : Z) : bytes := [to_byte (Z.shiftr v 8); to_byte v].
Definition get_uint16 (b : bytes) : Z :=
  match b with
  | hi :: lo :: _ => Z.lor (byte_val lo) (Z.shiftl (byte_val hi) 8)
  | _ => 0
  end.
(** [uint16(n)]. *)
Definition wrap_uint16 (n : Z) : Z := n mod 65536.
Definition max_uint16 : Z := 65535.

(** Bits that do not overlap add up. *)

(** Bits that do not overlap add up. *)
Lemma lor_shiftl_add lo hi n :
  0 <= n -> 0 <= lo < 2 ^ n -> Z.lor lo (Z.shiftl hi n) = lo + hi * 2 ^ n.
Proof.
  intros Hn Hlo. rewrite <- (Z.shiftl_mul_pow2 hi n) by lia.
  rewrite <- Z.add_lor_land. enough (Z.land lo (Z.shiftl hi n) = 0) as -> by lia.
  apply Z.bits_inj'. intros i Hi. rewrite Z.land_spec, Z.bits_0, Z.shiftl_spec by lia.
  destruct (decide (i < n)).
  - rewrite (Z.testbit_neg_r hi) by lia. by rewrite andb_false_r.
  - rewrite <- (Z.mod_small lo (2 ^ n)) by lia. rewrite Z.mod_pow2_bits_high by lia. done.
Qed.

Lemma get_put_uint16 v rest : get_uint16 (put_uint16 v ++ rest) = wrap_uint16 v.
Proof.
  unfold put_uint16, get_uint16, wrap_uint16. simpl. rewrite !byte_val_to_byte.
  pose proof (Z.mod_pos_bound v 256).
  rewrite lor_shiftl_add, Z.shiftr_div_pow2 by (simpl; lia).
  change (2 ^ 8) with 256. Z.to_euclidean_division_equations. lia.
Qed.
Lemma put_get_uint16 hi lo : put_uint16 (get_uint16 [hi; lo]) = [hi; lo].
Proof.
  unfold put_uint16, get_uint16. pose proof (byte_val_range hi). pose proof (byte_val_range lo).
  rewrite lor_shiftl_add by (simpl; lia). rewrite Z.shiftr_div_pow2 by lia. change (2 ^ 8) with 256.
  f_equal; [|f_equal]; apply byte_val_inj; rewrite byte_val_to_byte;
    Z.to_euclidean_division_equations; lia.
Qed.
Lemma get_uint16_range b : 0 <= get_uint16 b <= max_uint16.
Proof.
  unfold get_uint16, max_uint16. destruct b as [|hi [|lo b]]; try lia.
  pose proof (byte_val_range hi). pose proof (byte_val_range lo).
  rewrite lor_shiftl_add by (simpl; lia). lia.
Qed.

(** ** base64.RawURLEncoding *)

(** The alphabet and its inverse (the encoding's [decodeMap]). *)
Definition base64_char (d : Z) : ascii :=
  to_byte (if d <? 26 then 65 + d else if d <? 52 then 71 + d
           else if d <? 62 then d - 4 else if d =? 62 then 45 else 95).
Definition base64_digit (c : ascii) : option Z :=
  let c := byte_val c in
  if (65 <=? c) && (c <=? 90) then Some (c - 65)
  else if (97 <=? c) && (c <=? 122) then Some (c - 71)
  else if (48 <=? c) && (c <=? 57) then Some (c + 4)
  else if c =? 45 then Some 62 else if c =? 95 then Some 63 else None.

(** [EncodeToString]: 24 bits in four digits, and the remaining one or two bytes
    in two or three digits without padding. *)
Definition base64_val3 (a b c : Z) : Z :=
  Z.lor (Z.lor c (Z.shiftl b 8)) (Z.shiftl a 16).
Definition base64_sextet (val shift : Z) : ascii :=
  base64_char (Z.land (Z.shiftr val shift) 63).
Fixpoint base64_encode (src : bytes) : bytes :=
  match src with
  | a :: b :: c :: rest =>
      let val := base64_val3 (byte_val a) (byte_val b) (byte_val c) in
      base64_sextet val 18 :: base64_sextet val 12 :: base64_sextet val 6 :: base64_sextet val 0
        :: base64_encode rest
  | [a; b] =>
      let val := base64_val3 (byte_val a) (byte_val b) 0 in
      [base64_sextet val 18; base64_sextet val 12; base64_sextet val 6]
  | [a] =>
      let val := base64_val3 (byte_val a) 0 0 in
      [base64_sextet val 18; base64_sextet val 12]
  | [] => []
  end.

(** [DecodeString], which skips line breaks and ignores the unused bits of the
    last digit; [None] is a [CorruptInputError]. *)
Definition base64_val4 (a b c d : Z) : Z :=
  Z.lor (Z.lor (Z.lor d (Z.shiftl c 6)) (Z.shiftl b 12)) (Z.shiftl a 18).
Fixpoint base64_quanta (digits : list Z) : option bytes :=
  match digits with
  | a :: b :: c :: d :: rest =>
      let val := base64_val4 a b c d in
      option_map (fun decoded => to_byte (Z.shiftr val 16) :: to_byte (Z.shiftr val 8) :: to_byte val :: decoded)
        (base64_quanta rest)
  | [a; b; c] =>
      let val := base64_val4 a b c 0 in
      Some [to_byte (Z.shiftr val 16); to_byte (Z.shiftr val 8)]
  | [a; b] => Some [to_byte (Z.shiftr (base64_val4 a b 0 0) 16)]
  | [_] => None
  | [] => Some []
  end.
Definition line_break (c : ascii) : bool := (byte_val c =? 10) || (byte_val c =? 13).
Definition base64_decode (src : bytes) : option bytes :=
  mapM base64_digit (filter (fun c => line_break c = false) src) ≫= base64_quanta.

Example base64_example :
  string_of (base64_encode (bytes_of "SPR?>")) = "U1BSPz4" /\
  base64_decode (bytes_of "U1BSPz4") = Some (bytes_of "SPR?>").
Proof. split; reflexivity. Qed.

Lemma base64_val3_sum a b c :
  0 <= a < 256 -> 0 <= b < 256 -> 0 <= c < 256 -> base64_val3 a b c = c + b * 256 + a * 65536.
Proof.
  intros. unfold base64_val3. rewrite (lor_shiftl_add c b 8) by (simpl; lia).
  rewrite lor_shiftl_add by (simpl; lia). lia.
Qed.
Lemma base64_val4_sum a b c d :
  0 <= a < 64 -> 0 <= b < 64 -> 0 <= c < 64 -> 0 <= d < 64 ->
  base64_val4 a b c d = d + c * 64 + b * 4096 + a * 262144.
Proof.
  intros. unfold base64_val4. rewrite (lor_shiftl_add d c 6) by (simpl; lia).
  rewrite (lor_shiftl_add _ b 12) by (simpl; lia). rewrite lor_shiftl_add by (simpl; lia). lia.
Qed.

(** The digit at a bit position. *)
Definition sextet (val k : Z) : Z := Z.land (Z.shiftr val k) 63.
Lemma sextet_div val k : 0 <= k -> sextet val k = (val / 2 ^ k) mod 64.
Proof.
  intros. unfold sextet. rewrite Z.shiftr_div_pow2 by lia.
  change 63 with (Z.ones 6). by rewrite Z.land_ones by lia.
Qed.
Lemma sextet_range val k : 0 <= k -> 0 <= sextet val k < 64.
Proof. intros. rewrite sextet_div by done. apply Z.mod_pos_bound. lia. Qed.

Lemma base64_digit_char d :
  0 <= d < 64 -> base64_digit (base64_char d) = Some d /\ line_break (base64_char d) = false.
Proof.
  intros Hd. assert (d ∈ seqZ 0 64) as Hin by (apply elem_of_seqZ; lia).
  assert (forallb (fun d => bool_decide (base64_digit (base64_char d) = Some d) &&
    negb (line_break (base64_char d))) (seqZ 0 64) = true) as Hall by (vm_compute; reflexivity).
  rewrite forallb_forall in Hall. apply list_elem_of_In in Hin. specialize (Hall d Hin).
  conditions. naive_solver.
Qed.

(** Four digits hold 24 bits. *)
Lemma sextets_sum v :
  0 <= v < 16777216 ->
  base64_val4 (sextet v 18) (sextet v 12) (sextet v 6) (sextet v 0) = v.
Proof.
  intros Hv. rewrite base64_val4_sum by (apply sextet_range; lia). rewrite !sextet_div by lia.
  change (2 ^ 18) with (64 * 64 * 64). change (2 ^ 12) with (64 * 64). change (2 ^ 6) with 64.
  change (2 ^ 0) with 1. rewrite Z.div_1_r, <- !Z.div_div by lia.
  rewrite (Z.mod_small (v / 64 / 64 / 64) 64)
    by (rewrite !Z.div_div by lia; split; [apply Z.div_pos|apply Z.div_lt_upper_bound]; lia).
  assert (Hq : forall x, x = 64 * (x / 64) + x mod 64) by (intros x; apply Z.div_mod; lia).
  pose proof (Hq v) as E1. pose proof (Hq (v / 64)) as E2. pose proof (Hq (v / 64 / 64)) as E3. clear Hq.
  generalize dependent (v / 64 / 64 / 64). generalize dependent ((v / 64 / 64) mod 64).
  generalize dependent (v / 64 / 64). generalize dependent ((v / 64) mod 64).
  generalize dependent (v / 64). generalize dependent (v mod 64). intros. lia.
Qed.

(** The three bytes of 24 bits. *)
Lemma base64_bytes3 a b c :
  let val := base64_val3 (byte_val a) (byte_val b) (byte_val c) in
  0 <= val < 16777216 /\
  to_byte (Z.shiftr val 16) = a /\ to_byte (Z.shiftr val 8) = b /\ to_byte val = c.
Proof.
  pose proof (byte_val_range a). pose proof (byte_val_range b). pose proof (byte_val_range c).
  intros val. assert (val = byte_val c + byte_val b * 256 + byte_val a * 65536) as ->
    by (by apply base64_val3_sum).
  split_and!; [lia|lia|..]; apply byte_val_inj; rewrite byte_val_to_byte, ?Z.shiftr_div_pow2 by lia.
  - change (2 ^ 16) with 65536. rewrite Z.div_add, Z.div_small, Z.mod_small by lia. lia.
  - change (2 ^ 8) with 256. replace (_ + _ + _) with (byte_val c + (byte_val b + byte_val a * 256) * 256) by lia.
    rewrite Z.div_add, Z.div_small, Z.add_0_l, Z.mod_add, Z.mod_small by lia. lia.
  - replace (_ + _ + _) with (byte_val c + (byte_val b + byte_val a * 256) * 256) by lia.
    rewrite Z.mod_add, Z.mod_small by lia. lia.
Qed.

(** Induction three bytes at a time, as the encoder walks. *)
Lemma bytes3_ind (P : bytes -> Prop) :
  P [] -> (forall a, P [a]) -> (forall a b, P [a; b]) ->
  (forall a b c rest, P rest -> P (a :: b :: c :: rest)) -> forall l, P l.
Proof.
  intros H0 H1 H2 H3. fix IH 1. intros [|a [|b [|c rest]]]; [exact H0|apply H1|apply H2|apply H3, IH].
Qed.

(** The digits of a group decode to its bytes, and the last two or three
    digits carry one or two bytes. *)
Lemma base64_group a b c :
  let val := base64_val3 (byte_val a) (byte_val b) (byte_val c) in
  let val4 := base64_val4 (sextet val 18) (sextet val 12) (sextet val 6) (sextet val 0) in
  to_byte (Z.shiftr val4 16) = a /\ to_byte (Z.shiftr val4 8) = b /\ to_byte val4 = c.
Proof.
  destruct (base64_bytes3 a b c) as (Hv & Ha & Hb & Hc). intros val val4. unfold val4.
  by rewrite sextets_sum.
Qed.

(** With no byte in the low bits the low digits are zero. *)
Lemma sextet_low a b : 0 <= a < 256 -> 0 <= b < 256 -> sextet (base64_val3 a b 0) 0 = 0.
Proof.
  intros. rewrite sextet_div, base64_val3_sum by lia. change (2 ^ 0) with 1. rewrite Z.div_1_r.
  replace (0 + b * 256 + a * 65536) with ((b * 4 + a * 1024) * 64) by lia. by apply Z.mod_mul.
Qed.
Lemma sextet_low2 a : 0 <= a < 256 -> sextet (base64_val3 a 0 0) 6 = 0.
Proof.
  intros. rewrite sextet_div, base64_val3_sum by lia. change (2 ^ 6) with 64.
  replace (0 + 0 * 256 + a * 65536) with (a * 16 * 64 * 64) by lia.
  rewrite Z.div_mul by lia. by apply Z.mod_mul.
Qed.

Lemma base64_encode_digits l :
  exists digits, Forall (fun d => 0 <= d < 64) digits /\
    base64_encode l = map base64_char digits /\ base64_quanta digits = Some l.
Proof.
  assert (H0 : byte_val (to_byte 0) = 0) by done.
  induction l as [|a|a b|a b c rest (ds & Hr & He & Hq)] using bytes3_ind.
  - by exists [].
  - destruct (base64_group a (to_byte 0) (to_byte 0)) as (Ha & _). pose proof (byte_val_range a).
    exists [sextet (base64_val3 (byte_val a) 0 0) 18; sextet (base64_val3 (byte_val a) 0 0) 12].
    split_and!; [repeat constructor; apply sextet_range; lia|done|].
    rewrite H0, sextet_low, sextet_low2 in Ha by lia. cbn [base64_quanta]. by rewrite Ha.
  - destruct (base64_group a b (to_byte 0)) as (Ha & Hb & _).
    pose proof (byte_val_range a). pose proof (byte_val_range b).
    exists (map (sextet (base64_val3 (byte_val a) (byte_val b) 0)) [18; 12; 6]).
    split_and!; [repeat constructor; apply sextet_range; lia|done|].
    rewrite H0, sextet_low in Ha, Hb by lia. cbn [base64_quanta map]. by rewrite Ha, Hb.
  - destruct (base64_group a b c) as (Ha & Hb & Hc).
    exists (map (sextet (base64_val3 (byte_val a) (byte_val b) (byte_val c))) [18; 12; 6; 0] ++ ds).
    split_and!.
    + apply Forall_app. split; [|done]. repeat constructor; apply sextet_range; lia.
    + simpl. by rewrite He.
    + cbn [base64_quanta map app]. rewrite Hq. simpl. by rewrite Ha, Hb, Hc.
Qed.

Lemma base64_digits_map ds :
  Forall (fun d => 0 <= d < 64) ds ->
  mapM base64_digit (filter (fun c => line_break c = false) (map base64_char ds)) = Some ds.
Proof.
  induction 1 as [|d ds Hd _ IH]; [done|]. destruct (base64_digit_char d Hd) as [E1 E2].
  cbn [map]. rewrite filter_cons, decide_True by done. cbn [mapM]. by rewrite E1, IH.
Qed.

(** Decoding an encoding gives the bytes back. *)
Theorem base64_roundtrip l : base64_decode (base64_encode l) = Some l.
Proof.
  destruct (base64_encode_digits l) as (ds & Hr & -> & Hq). unfold base64_decode.
  by rewrite base64_digits_map.
Qed.

(** Encodings use the alphabet only. *)
Lemma base64_encode_alphabet l :
  Forall (fun c => is_Some (base64_digit c)) (base64_encode l).
Proof.
  destruct (base64_encode_digits l) as (ds & Hr & -> & _). apply Forall_map.
  eapply Forall_impl; [done|]. intros d Hd. simpl. destruct (base64_digit_char d Hd) as [-> _]. eauto.
Qed.
Lemma base64_encode_nonempty l : l <> [] -> base64_encode l <> [].
Proof. destruct l as [|a [|b [|c l]]]; done. Qed.

(** ** strconv *)

Definition digit_value (c : ascii) : option Z :=
  let c := byte_val c in if (48 <=? c) && (c <=? 57) then Some (c - 48) else None.
(** [ParseUint(s, 10, bits)] for [max] the largest value of [bits] bits; [None]
    is an [ErrSyntax] or an [ErrRange]. *)
Definition ParseUint (max : Z) (s : string) : option Z :=
  match bytes_of s with
  | [] => None
  | digits =>
      match mapM digit_value digits with
      | Some values =>
          let n := foldl (fun n d => n * 10 + d) 0 values in
          if n <=? max then Some n else None
      | None => None
      end
  end.
(** [FormatUint(n, 10)]. *)
Fixpoint format_digits (fuel : nat) (n : Z) (suffix : bytes) : bytes :=
  match fuel with
  | O => suffix
  | S fuel' =>
      let suffix := to_byte (48 + n mod 10) :: suffix in
      if n <? 10 then suffix else format_digits fuel' (n / 10) suffix
  end.
(** A [uint64] has at most 20 digits. *)
Definition FormatUint (n : Z) : string := string_of (format_digits 20 n []).

Example strconv_examples :
  (ParseUint max_uint16 "08443", ParseUint max_uint16 "65536", ParseUint max_uint16 "",
   ParseUint max_uint16 "+1", FormatUint 8443, FormatUint 0, FormatUint max_uint64) =
  (Some 8443, None, None, None, "8443", "0", "18446744073709551615").
Proof. reflexivity. Qed.

Lemma digit_value_to_byte d : 0 <= d < 10 -> digit_value (to_byte (48 + d)) = Some d.
Proof.
  intros Hd. unfold digit_value. rewrite byte_val_to_byte, Z.mod_small by lia.
  replace ((48 <=? 48 + d) && (48 + d <=? 57)) with true by (symmetry; conditions; lia).
  f_equal. lia.
Qed.
Lemma format_digits_values fuel n suffix values :
  0 <= n < 10 ^ Z.of_nat (S fuel) -> mapM digit_value suffix = Some values ->
  exists ds, mapM digit_value (format_digits (S fuel) n suffix) = Some (ds ++ values) /\
    foldl (fun n d => n * 10 + d) 0 ds = n /\ format_digits (S fuel) n suffix <> [].
Proof.
  revert n suffix values. induction fuel as [|fuel IH]; intros n suffix values Hn Hs;
    remember (S fuel) as fuel' eqn:Hfuel || idtac; cbn [format_digits].
  - rewrite Z.mod_small by (simpl in Hn; lia).
    destruct (Z.ltb_spec n 10); [|simpl in Hn; lia]. exists [n]. split; [|done].
    change (mapM digit_value (to_byte (48 + n) :: suffix)) with
      (v ← digit_value (to_byte (48 + n)); vs ← mapM digit_value suffix; Some (v :: vs)).
    by rewrite digit_value_to_byte, Hs by lia.
  - pose proof (Z.mod_pos_bound n 10 ltac:(lia)) as Hm.
    assert (mapM digit_value (to_byte (48 + n mod 10) :: suffix) = Some (n mod 10 :: values)) as Hs'.
    { change (mapM digit_value (to_byte (48 + n mod 10) :: suffix)) with
        (v ← digit_value (to_byte (48 + n mod 10)); vs ← mapM digit_value suffix; Some (v :: vs)).
      by rewrite digit_value_to_byte, Hs by lia. }
    destruct (Z.ltb_spec n 10).
    + exists [n]. rewrite Hs', Z.mod_small by lia. done.
    + subst fuel'. destruct (IH (n / 10) _ _ ltac:(split; [apply Z.div_pos; lia|
        apply Z.div_lt_upper_bound; [lia|]; rewrite <- Z.pow_succ_r by lia; rewrite <- Nat2Z.inj_succ; lia]) Hs')
        as (ds & E & Hf & Hne).
      exists (ds ++ [n mod 10]). rewrite E, <- app_assoc. split; [done|]. split; [|done].
      rewrite foldl_app, Hf. simpl. pose proof (Z.div_mod n 10). lia.
Qed.
Lemma ParseUint_FormatUint max n :
  0 <= n <= max -> n <= max_uint64 -> ParseUint max (FormatUint n) = Some n.
Proof.
  intros Hn Hmax. unfold ParseUint, FormatUint. rewrite bytes_of_string_of.
  destruct (format_digits_values 19 n [] []) as (ds & E & Hf & Hne);
    [unfold max_uint64 in *; simpl; lia|done|].
  rewrite app_nil_r in E. destruct (format_digits 20 n []) as [|c l] eqn:El; [done|].
  rewrite E, Hf. by rewrite (proj2 (Z.leb_le n max)) by lia.
Qed.

Lemma ParseUint_range max s n : ParseUint max s = Some n -> 0 <= n <= max.
Proof.
  unfold ParseUint. destruct (bytes_of s) as [|c l]; [done|].
  destruct (mapM digit_value (c :: l)) as [values|] eqn:E; [|done].
  destruct (Z.leb_spec (foldl (fun n d => n * 10 + d) 0 values) max); [|done]. intros [= <-]. split; [|done].
  assert (Forall (fun d => 0 <= d) values) as Hd.
  { apply mapM_Some in E. clear H. induction E as [|x y l' k Hxy _ IH]; constructor; [|done].
    unfold digit_value in Hxy. destruct (_ && _) eqn:Hb; [|done]. conditions. simplify_eq. lia. }
  clear E H. assert (forall a, 0 <= a -> 0 <= foldl (fun n d => n * 10 + d) a values) as Hf; [|by apply Hf].
  induction Hd as [|d values Hd _ IH]; intros a Ha; simpl; [done|]. apply IH. lia.
Qed.

(** ** net *)

Definition colon : ascii := ascii_of_nat 58.
Definition open_bracket : ascii := ascii_of_nat 91.
Definition close_bracket : ascii := ascii_of_nat 93.

(** [SplitHostPort]: the port starts after the last colon; a host in brackets may
    hold colons.  [None] is an [*AddrError]. *)
Definition SplitHostPort (hostport : string) : option (string * string) :=
  let bs := bytes_of hostport in
  match last_index_byte colon bs with
  | None => None
  | Some i =>
      let port := string_of (drop (S i) bs) in
      let brackets host j k :=
        if contains_byte open_bracket (drop j bs) || contains_byte close_bracket (drop k bs)
        then None else Some (string_of host, port) in
      match bs with
      | c :: _ =>
          if Ascii.eqb c open_bracket then
            match index_byte close_bracket bs with
            | Some e => if Nat.eqb (S e) i then brackets (take (e - 1) (drop 1 bs)) 1%nat (S e) else None
            | None => None
            end
          else if contains_byte colon (take i bs) then None
          else brackets (take i bs) O O
      | [] => None
      end
  end.

Definition JoinHostPort (host port : string) : string :=
  if contains_byte colon (bytes_of host)
  then String.append "[" (String.append host (String.append "]:" port))
  else String.append host (String.append ":" port).

Example SplitHostPort_examples :
  map SplitHostPort ["a:1"; "[::1]:443"; "::1:443"; "a"; "[::1]"; "a:"; ":1"; "[a]b:1"] =
  [Some ("a", "1"); Some ("::1", "443"); None; None; None; Some ("a", ""); Some ("", "1"); None].
Proof. reflexivity. Qed.
