(* ===== verification/Sql.v ===== *)
(** * Programs over an SQLite database

    The store packages run Go code around SQL statements.  A program of type
    [sql DB A] reads and writes a database of type [DB] through a [connection];
    the connection says in advance which statements will fail for reasons of
    their own ([outages]: a full disk, a lost context, contention) and what will
    become of each commit ([commits]).  A commit that reports an error may or may
    not have reached the disk.

    [in_tx] is BeginTx, a body and Commit or the deferred Rollback.  A program
    [Follows] when an outage can only make it fail, and is [Atomic] when it leaves
    either the database it found or the one an undisturbed run produces, and
    succeeds only with the latter.  The theorems about what a store does are proved
    for undisturbed runs ([calm]) and carry over by atomicity. *)

From S2P Require Import Prelude.
From Stdlib Require Import Ascii.

(** What a commit does: it succeeds; it fails; or it takes effect and yet
    reports an error. *)
Inductive commit_outcome := Committed | CommitFailed | CommitUnreported.

(** How the body of a transaction ends: commit, or return through the deferred
    rollback. *)
Inductive tx_end (A : Type) := CommitWith (a : A) | RollbackWith (a : A).
Arguments CommitWith {A}. Arguments RollbackWith {A}.

(** The error of an outage, and that of a commit. *)
Definition ErrDatabase : GoError := PlainError "database/sql: statement failed".
Definition ErrCommit : GoError := PlainError "database/sql: commit failed".

Record connection (DB : Type) := mkConnection {
  database : DB; outages : list bool; commits : list commit_outcome }.
Arguments mkConnection {DB}. Arguments database {DB}. Arguments outages {DB}. Arguments commits {DB}.

(** A connection on which nothing goes wrong. *)
Definition calm {DB} (db : DB) : connection DB := mkConnection db [] [].

Definition sql (DB A : Type) : Type := connection DB -> result A * connection DB.

Section programs.
Context {DB : Type}.

#[export] Instance sql_ret : MRet (sql DB) := fun A a c => (Ok a, c).
#[export] Instance sql_bind : MBind (sql DB) := fun A B f m c =>
  match m c with (Ok a, c) => f a c | (Err e, c) => (Err e, c) end.
Definition throw {A} (e : GoError) : sql DB A := fun c => (Err e, c).

(** Whether the next statement suffers an outage. *)
Definition next_outage (c : connection DB) : bool * connection DB :=
  match outages c with
  | [] => (false, c)
  | out :: rest => (out, mkConnection (database c) rest (commits c))
  end.
Definition next_commit (c : connection DB) : commit_outcome * connection DB :=
  match commits c with
  | [] => (Committed, c)
  | outcome :: rest => (outcome, mkConnection (database c) (outages c) rest)
  end.

(** A statement: what it answers and the database after it, or the violation of
    a constraint, which changes nothing. *)
Definition statement {A} (f : DB -> result (A * DB)) : sql DB A := fun c =>
  let '(out, c) := next_outage c in
  if out then (Err ErrDatabase, c)
  else match f (database c) with
  | Ok (a, db) => (Ok a, mkConnection db (outages c) (commits c))
  | Err e => (Err e, c)
  end.
Definition query {A} (f : DB -> result A) : sql DB A :=
  statement (fun db => let! a := f db ;; Ok (a, db)).
Definition exec (f : DB -> result DB) : sql DB unit :=
  statement (fun db => let! db := f db ;; Ok (tt, db)).

(** BeginTx, the body, and Commit or Rollback; [on_commit_error] is what the
    code does when Commit reports an error. *)
Definition in_tx_recovering {A} (body : sql DB (tx_end A)) (on_commit_error : GoError -> A -> sql DB A)
    : sql DB A := fun c =>
  let '(out, c) := next_outage c in
  if out then (Err ErrDatabase, c) else
  match body c with
  | (Err e, c') => (Err e, mkConnection (database c) (outages c') (commits c'))
  | (Ok (RollbackWith a), c') => (Ok a, mkConnection (database c) (outages c') (commits c'))
  | (Ok (CommitWith a), c') =>
      let '(outcome, c') := next_commit c' in
      match outcome with
      | Committed => (Ok a, c')
      | CommitFailed =>
          on_commit_error ErrCommit a (mkConnection (database c) (outages c') (commits c'))
      | CommitUnreported => on_commit_error ErrCommit a c'
      end
  end.
Definition in_tx {A} (body : sql DB (tx_end A)) : sql DB A :=
  in_tx_recovering body (fun e _ => throw e).

(** [if err := e; err != nil { return err }]. *)
Definition require (e : error) : sql DB unit := match e with Some e => throw e | None => mret tt end.
Definition lift {A} (r : result A) : sql DB A := match r with Ok a => mret a | Err e => throw e end.

(** [a, err := m] where the code goes on whatever [err] is. *)
Definition attempt {A} (m : sql DB A) : sql DB (result A) := fun c => let '(r, c) := m c in (Ok r, c).

(** [for _, x := range l { f(x) }] that stops at an error. *)
Fixpoint each {A} (f : A -> sql DB unit) (l : list A) : sql DB unit :=
  match l with
  | [] => mret tt
  | x :: l => f x ≫= fun _ => each f l
  end.

(** ** Outages *)

(** A run on which nothing goes wrong, from a database to an answer and a
    database. *)
Definition run {A} (m : sql DB A) (db : DB) : result A * DB :=
  let '(r, c) := m (calm db) in (r, database c).

(** Outages only make a program fail; an undisturbed run leaves the connection
    undisturbed. *)
Class Follows {A} (m : sql DB A) := {
  follows_calm db : (m (calm db)).2 = calm (database (m (calm db)).2);
  follows_ok c a c' : m c = (Ok a, c') -> m (calm (database c)) = (Ok a, calm (database c')) }.

(** A program that does not write. *)
Class ReadOnly {A} (m : sql DB A) := read_only c : database (m c).2 = database c.

(** All or nothing. *)
Class Atomic {A} (m : sql DB A) := {
  atomic_db c : database (m c).2 = database c \/ database (m c).2 = (run m (database c)).2;
  atomic_ok c a c' : m c = (Ok a, c') -> run m (database c) = (Ok a, database c') }.

#[export] Instance ret_follows {A} (a : A) : Follows (mret (M := sql DB) a).
Proof. split; [done|]. by intros c b c' [= <- <-]. Qed.
#[export] Instance throw_follows {A} e : Follows (throw (A := A) e).
Proof. split; done. Qed.
#[export] Instance statement_follows {A} (f : DB -> result (A * DB)) : Follows (statement f).
Proof.
  split.
  - intros db. unfold statement, next_outage. simpl. by destruct (f db) as [[a db']|e].
  - intros c a c'. unfold statement. destruct (next_outage c) as [out c1] eqn:E.
    assert (database c1 = database c) as <-
      by (unfold next_outage in E; by destruct (outages c); injection E as <- <-).
    destruct out; [done|]. simpl. destruct (f (database c1)) as [[b db']|e]; [|done]. by intros [= <- <-].
Qed.
#[export] Instance query_follows {A} (f : DB -> result A) : Follows (query f).
Proof. apply _. Qed.
#[export] Instance exec_follows (f : DB -> result DB) : Follows (exec f).
Proof. apply _. Qed.
#[export] Instance require_follows e : Follows (require e).
Proof. destruct e; apply _. Qed.
#[export] Instance lift_follows {A} (r : result A) : Follows (lift r).
Proof. destruct r; apply _. Qed.

Lemma bind_unfold {A B} (m : sql DB A) (f : A -> sql DB B) c :
  (m ≫= f) c = match m c with (Ok a, c) => f a c | (Err e, c) => (Err e, c) end.
Proof. done. Qed.

#[export] Instance bind_follows {A B} (m : sql DB A) (f : A -> sql DB B) :
  Follows m -> (forall a, Follows (f a)) -> Follows (m ≫= f).
Proof.
  intros Hm Hf. split.
  - intros db. rewrite bind_unfold. pose proof (follows_calm (m := m) db) as Hc.
    destruct (m (calm db)) as [[a|e] c]; simpl in *; rewrite Hc; [apply follows_calm|done].
  - intros c b c'. rewrite !bind_unfold. destruct (m c) as [[a|e] c1] eqn:E; [|done].
    rewrite (follows_ok (m := m) _ _ _ E). apply follows_ok.
Qed.

#[export] Instance each_follows {A} (f : A -> sql DB unit) l : (forall x, Follows (f x)) -> Follows (each f l).
Proof. intros Hf. induction l; simpl; apply _. Qed.

Lemma next_outage_db c out c' : next_outage c = (out, c') -> database c' = database c.
Proof. unfold next_outage. destruct (outages c); by intros [= <- <-]. Qed.
Lemma next_commit_db c outcome c' : next_commit c = (outcome, c') -> database c' = database c.
Proof. unfold next_commit. destruct (commits c); by intros [= <- <-]. Qed.

#[export] Instance ret_read_only {A} (a : A) : ReadOnly (mret (M := sql DB) a).
Proof. done. Qed.
#[export] Instance throw_read_only {A} e : ReadOnly (throw (A := A) e).
Proof. done. Qed.
#[export] Instance require_read_only e : ReadOnly (require e).
Proof. by destruct e. Qed.
#[export] Instance lift_read_only {A} (r : result A) : ReadOnly (lift r).
Proof. by destruct r. Qed.
#[export] Instance query_read_only {A} (f : DB -> result A) : ReadOnly (query f).
Proof.
  intros c. unfold query, statement. destruct (next_outage c) as [out c1] eqn:E.
  apply next_outage_db in E. destruct out; [done|]. by destruct (f (database c1)).
Qed.
#[export] Instance bind_read_only {A B} (m : sql DB A) (f : A -> sql DB B) :
  ReadOnly m -> (forall a, ReadOnly (f a)) -> ReadOnly (m ≫= f).
Proof.
  intros Hm Hf c. rewrite bind_unfold. pose proof (read_only (m := m) c) as Hc.
  destruct (m c) as [[a|e] c1]; simpl in *; [|done]. by rewrite read_only.
Qed.

#[export] Instance each_read_only {A} (f : A -> sql DB unit) l :
  (forall x, ReadOnly (f x)) -> ReadOnly (each f l).
Proof. intros Hf. induction l; simpl; apply _. Qed.

#[export] Instance attempt_read_only {A} (m : sql DB A) : ReadOnly m -> ReadOnly (attempt m).
Proof.
  intros Hm c. unfold attempt. pose proof (read_only (m := m) c) as Hc. by destruct (m c).
Qed.
#[export] Instance in_tx_read_only {A} (body : sql DB (tx_end A)) : ReadOnly body -> ReadOnly (in_tx body).
Proof.
  intros Hb c. unfold in_tx, in_tx_recovering. destruct (next_outage c) as [out c0] eqn:E0.
  apply next_outage_db in E0. destruct out; [done|].
  pose proof (read_only (m := body) c0) as Hc. destruct (body c0) as [[[a|a]|e] c1]; simpl in *; try done.
  destruct (next_commit c1) as [outcome c2] eqn:E2. apply next_commit_db in E2.
  destruct outcome; simpl; congruence.
Qed.

(** Reading is atomic, and so is reading before something atomic. *)
Lemma sql_run_ok {A} (m : sql DB A) c a c' : Follows m -> m c = (Ok a, c') ->
  run m (database c) = (Ok a, database c').
Proof. intros Hf E. unfold run. by rewrite (follows_ok (m := m) _ _ _ E). Qed.
Lemma run_bind {A B} (m : sql DB A) (f : A -> sql DB B) db :
  Follows m ->
  run (m ≫= f) db = match run m db with (Ok a, db') => run (f a) db' | (Err e, db') => (Err e, db') end.
Proof.
  intros Hm. unfold run. rewrite bind_unfold. pose proof (follows_calm (m := m) db) as Hc.
  destruct (m (calm db)) as [[a|e] c]; simpl in *; by rewrite Hc.
Qed.

Lemma read_atomic {A} (m : sql DB A) : Follows m -> ReadOnly m -> Atomic m.
Proof.
  intros Hf Hr. split; [intros c; left; apply read_only|]. intros c a c'. by apply sql_run_ok.
Qed.
#[export] Instance bind_atomic {A B} (m : sql DB A) (f : A -> sql DB B) :
  Follows m -> ReadOnly m -> (forall a, Atomic (f a)) -> Atomic (m ≫= f).
Proof.
  intros Hm Hr Hf. split.
  - intros c. rewrite run_bind by done. rewrite !bind_unfold. pose proof (read_only (m := m) c) as Hc.
    destruct (m c) as [[a|e] c1] eqn:E; simpl in *; [|by left].
    rewrite (sql_run_ok m _ _ _ Hm E), <- Hc. apply atomic_db.
  - intros c b c'. rewrite run_bind, !bind_unfold by done. pose proof (read_only (m := m) c) as Hc.
    destruct (m c) as [[a|e] c1] eqn:E; simpl in *; [|done]. intros E2.
    rewrite (sql_run_ok m _ _ _ Hm E). by apply atomic_ok.
Qed.
#[export] Instance require_atomic e : Atomic (require e).
Proof. apply read_atomic; apply _. Qed.
#[export] Instance lift_atomic {A} (r : result A) : Atomic (lift r).
Proof. apply read_atomic; apply _. Qed.
#[export] Instance query_atomic {A} (f : DB -> result A) : Atomic (query f).
Proof. apply read_atomic; apply _. Qed.
#[export] Instance ret_atomic {A} (a : A) : Atomic (mret (M := sql DB) a).
Proof. apply read_atomic; apply _. Qed.
#[export] Instance throw_atomic {A} e : Atomic (throw (A := A) e).
Proof. apply read_atomic; apply _. Qed.

(** ** Transactions *)

(** An undisturbed transaction. *)
Definition tx_run {A} (body : sql DB (tx_end A)) (db : DB) : result A * DB :=
  match run body db with
  | (Err e, _) => (Err e, db)
  | (Ok (RollbackWith a), _) => (Ok a, db)
  | (Ok (CommitWith a), db') => (Ok a, db')
  end.

Lemma in_tx_recovering_calm {A} (body : sql DB (tx_end A)) rec db :
  Follows body -> in_tx_recovering body rec (calm db) = ((tx_run body db).1, calm (tx_run body db).2).
Proof.
  intros Hb. unfold in_tx_recovering, tx_run, run. simpl. pose proof (follows_calm (m := body) db) as Hc.
  destruct (body (calm db)) as [[[a|a]|e] c] eqn:E; simpl in *; rewrite Hc; done.
Qed.
Lemma run_in_tx_recovering {A} (body : sql DB (tx_end A)) rec db :
  Follows body -> run (in_tx_recovering body rec) db = tx_run body db.
Proof. intros Hb. unfold run. rewrite in_tx_recovering_calm by done. by destruct (tx_run body db). Qed.
Lemma run_in_tx {A} (body : sql DB (tx_end A)) db : Follows body -> run (in_tx body) db = tx_run body db.
Proof. apply run_in_tx_recovering. Qed.

(** The cases of a transaction that may be disturbed: an error that left the
    database alone, the undisturbed run, or the recovery from a commit error,
    with the undisturbed effect or without it. *)
Lemma in_tx_recovering_cases {A} (body : sql DB (tx_end A)) rec c :
  Follows body ->
  let '(r, c') := in_tx_recovering body rec c in
  ((exists e, r = Err e) /\ database c' = database c) \/
  (r = (tx_run body (database c)).1 /\ database c' = (tx_run body (database c)).2) \/
  exists a c1, (tx_run body (database c)).1 = Ok a /\ rec ErrCommit a c1 = (r, c') /\
    (database c1 = database c \/ database c1 = (tx_run body (database c)).2).
Proof.
  intros Hb. unfold in_tx_recovering. destruct (next_outage c) as [out c0] eqn:E0.
  pose proof (next_outage_db _ _ _ E0) as Hdb. destruct out; [left; eauto|].
  unfold tx_run. rewrite <- Hdb. destruct (body c0) as [[[a|a]|e] c1] eqn:E.
  - rewrite (sql_run_ok body _ _ _ Hb E). destruct (next_commit c1) as [outcome c2] eqn:E2.
    pose proof (next_commit_db _ _ _ E2) as Hdb2. destruct outcome.
    + right. left. done.
    + destruct (rec ErrCommit a _) as [r c3] eqn:Hr. right. right. eexists _, _.
      split; [done|]. split; [exact Hr|]. left. done.
    + destruct (rec ErrCommit a _) as [r c3] eqn:Hr. right. right. eexists _, _.
      split; [done|]. split; [exact Hr|]. right. done.
  - rewrite (sql_run_ok body _ _ _ Hb E). right. left. done.
  - left. eauto.
Qed.

#[export] Instance in_tx_atomic {A} (body : sql DB (tx_end A)) : Follows body -> Atomic (in_tx body).
Proof.
  intros Hb. split.
  - intros c. rewrite run_in_tx by done.
    pose proof (in_tx_recovering_cases body (fun e _ => throw e) c Hb) as H. unfold in_tx in *.
    destruct (in_tx_recovering _ _ c) as [r c'].
    destruct H as [[_ H]|[[_ H]|(a & c1 & _ & Hr & H)]]; [by left|by right|].
    unfold throw in Hr. simplify_eq. done.
  - intros c a c' E. rewrite run_in_tx by done.
    pose proof (in_tx_recovering_cases body (fun e _ => throw e) c Hb) as H. unfold in_tx in E.
    rewrite E in H. destruct H as [[[e He] _]|[[H1 H2]|(b & c1 & _ & Hr & H)]]; [done| |done].
    by destruct (tx_run body (database c)); simpl in *; subst.
Qed.

#[export] Instance in_tx_follows {A} (body : sql DB (tx_end A)) : Follows body -> Follows (in_tx body).
Proof.
  intros Hb. split.
  - intros db. unfold in_tx. by rewrite in_tx_recovering_calm.
  - intros c a c' E. pose proof (atomic_ok (m := in_tx body) _ _ _ E) as Hrun.
    unfold in_tx in *. rewrite run_in_tx_recovering in Hrun by done.
    by rewrite in_tx_recovering_calm, Hrun by done.
Qed.

(** A transaction that recovers by reading leaves all or nothing as well. *)
Lemma in_tx_recovering_db {A} (body : sql DB (tx_end A)) rec c :
  Follows body -> (forall e a, ReadOnly (rec e a)) ->
  database (in_tx_recovering body rec c).2 = database c \/
  database (in_tx_recovering body rec c).2 = (tx_run body (database c)).2.
Proof.
  intros Hb Hr. pose proof (in_tx_recovering_cases body rec c Hb) as H.
  destruct (in_tx_recovering body rec c) as [r c']. simpl.
  destruct H as [[_ H]|[[_ H]|(a & c1 & _ & Hrec & H)]]; [by left|by right|].
  pose proof (read_only (m := rec ErrCommit a) c1) as Hro. rewrite Hrec in Hro. simpl in Hro.
  by rewrite Hro.
Qed.

(** What an undisturbed program computes. *)
Lemma run_ret {A} (a : A) db : run (mret (M := sql DB) a) db = (Ok a, db).
Proof. done. Qed.
Lemma run_throw {A} e db : run (throw (A := A) e) db = (Err e, db).
Proof. done. Qed.
Lemma run_query {A} (f : DB -> result A) db : run (query f) db = (f db, db).
Proof. unfold run, query, statement. simpl. by destruct (f db). Qed.
Lemma run_statement {A} (f : DB -> result (A * DB)) db :
  run (statement f) db = match f db with Ok (a, db') => (Ok a, db') | Err e => (Err e, db) end.
Proof. unfold run, statement. simpl. by destruct (f db) as [[]|]. Qed.
Lemma run_exec (f : DB -> result DB) db :
  run (exec f) db = match f db with Ok db' => (Ok tt, db') | Err e => (Err e, db) end.
Proof. unfold exec. rewrite run_statement. by destruct (f db). Qed.
Lemma run_require e db : run (require e) db = match e with None => (Ok tt, db) | Some e => (Err e, db) end.
Proof. by destruct e. Qed.
Lemma run_lift {A} (r : result A) db : run (lift r) db = (r, db).
Proof. by destruct r. Qed.
(** A read-only program leaves the database alone. *)
Lemma run_read_only {A} (m : sql DB A) db : ReadOnly m -> (run m db).2 = db.
Proof. intros Hr. unfold run. pose proof (read_only (m := m) (calm db)). by destruct (m (calm db)). Qed.

(** ** Effects

    Whatever goes wrong, [m] leaves the database as it found it or as a successful
    undisturbed run would. *)
Class AllOrNothing {A} (m : sql DB A) :=
  all_or_nothing c : database (m c).2 = database c \/
    exists a, run m (database c) = (Ok a, database (m c).2).

#[export] Instance read_all_or_nothing {A} (m : sql DB A) : ReadOnly m -> AllOrNothing m.
Proof. intros Hm c. left. apply Hm. Qed.
#[export] Instance bind_all_or_nothing {A B} (m : sql DB A) (f : A -> sql DB B) :
  Follows m -> ReadOnly m -> (forall a, AllOrNothing (f a)) -> AllOrNothing (m ≫= f).
Proof.
  intros Hm Hr Hf c. rewrite run_bind, bind_unfold by done. pose proof (read_only (m := m) c) as Hc.
  destruct (m c) as [[a|e] c1] eqn:E; simpl in *; [|by left].
  rewrite (sql_run_ok m _ _ _ Hm E), <- Hc. apply Hf.
Qed.
#[export] Instance in_tx_recovering_all_or_nothing {A} (body : sql DB (tx_end A)) rec :
  Follows body -> (forall e a, ReadOnly (rec e a)) -> AllOrNothing (in_tx_recovering body rec).
Proof.
  intros Hb Hr c. rewrite run_in_tx_recovering by done.
  destruct (in_tx_recovering_db body rec c Hb Hr) as [->| ->]; [by left|].
  unfold tx_run. destruct (run body (database c)) as [[[a|a]|e] db'] eqn:E; simpl; eauto.
Qed.
#[export] Instance in_tx_all_or_nothing {A} (body : sql DB (tx_end A)) :
  Follows body -> AllOrNothing (in_tx body).
Proof. intros Hb. apply in_tx_recovering_all_or_nothing; apply _. Qed.

(** Inversion of a successful undisturbed run. *)
Lemma run_bind_ok {A B} (m : sql DB A) (f : A -> sql DB B) db b db' :
  Follows m -> run (m ≫= f) db = (Ok b, db') ->
  exists a db1, run m db = (Ok a, db1) /\ run (f a) db1 = (Ok b, db').
Proof.
  intros Hm. rewrite run_bind by done. destruct (run m db) as [[a|e] db1]; [|done]. eauto.
Qed.
Lemma run_ret_ok {A} (a b : A) db db' : run (mret (M := sql DB) a) db = (Ok b, db') -> a = b /\ db = db'.
Proof. rewrite run_ret. by intros [= -> ->]. Qed.
Lemma run_query_ok {A} (f : DB -> result A) db a db' :
  run (query f) db = (Ok a, db') -> f db = Ok a /\ db = db'.
Proof. rewrite run_query. by intros [= -> ->]. Qed.
Lemma run_statement_ok {A} (f : DB -> result (A * DB)) db a db' :
  run (statement f) db = (Ok a, db') -> f db = Ok (a, db').
Proof. rewrite run_statement. destruct (f db) as [[]|]; [|done]. by intros [= -> ->]. Qed.
Lemma run_exec_ok (f : DB -> result DB) db u db' : run (exec f) db = (Ok u, db') -> f db = Ok db'.
Proof. rewrite run_exec. destruct (f db); [|done]. by intros [= _ ->]. Qed.
Lemma run_require_ok e db u db' : run (require e) db = (Ok u, db') -> e = None /\ db = db'.
Proof. rewrite run_require. by destruct e; intros [=]. Qed.
Lemma run_lift_ok {A} (r : result A) db a db' : run (lift r) db = (Ok a, db') -> r = Ok a /\ db = db'.
Proof. rewrite run_lift. by intros [= -> ->]. Qed.
Lemma run_throw_ok {A} e db (a : A) db' : run (throw e) db = (Ok a, db') -> False.
Proof. by rewrite run_throw. Qed.
Lemma run_require_bind {A} e (f : unit -> sql DB A) db :
  run (require e ≫= f) db = match e with Some e => (Err e, db) | None => run (f tt) db end.
Proof. by destruct e. Qed.
Lemma run_lift_bind {A B} (r : result A) (f : A -> sql DB B) db :
  run (lift r ≫= f) db = match r with Ok a => run (f a) db | Err e => (Err e, db) end.
Proof. by destruct r. Qed.
Lemma run_query_bind {A B} (q : DB -> result A) (f : A -> sql DB B) db :
  run (query q ≫= f) db = match q db with Ok a => run (f a) db | Err e => (Err e, db) end.
Proof. rewrite run_bind, run_query by apply _. by destruct (q db). Qed.

(** A loop runs its rounds one after the other; what each round keeps, the loop
    keeps. *)
Lemma each_ok {A} (f : A -> sql DB unit) l db db' :
  (forall x, Follows (f x)) -> run (each f l) db = (Ok tt, db') ->
  match l with
  | [] => db' = db
  | x :: l => exists mid, run (f x) db = (Ok tt, mid) /\ run (each f l) mid = (Ok tt, db')
  end.
Proof.
  intros Hf E. destruct l as [|x l]; simpl in E.
  - by apply run_ret_ok in E as [_ <-].
  - apply run_bind_ok in E as ([] & mid & Hx & E); [eauto|apply Hf].
Qed.
Lemma each_invariant {A} (f : A -> sql DB unit) (P : list A -> DB -> Prop) all db db' :
  (forall x, Follows (f x)) ->
  (forall pre x post db db', all = pre ++ x :: post -> P pre db -> run (f x) db = (Ok tt, db') ->
    P (pre ++ [x]) db') ->
  P [] db -> run (each f all) db = (Ok tt, db') -> P all db'.
Proof.
  intros Hf Hstep HP E.
  assert (H : forall todo pre db, all = pre ++ todo -> P pre db -> run (each f todo) db = (Ok tt, db') -> P all db').
  { induction todo as [|x todo IH]; intros pre db1 Hall HP1 E1; apply each_ok in E1; try done.
    - rewrite app_nil_r in Hall. by subst.
    - destruct E1 as (mid & Hx & E1). apply (IH (pre ++ [x]) mid); [|by eapply Hstep|done].
      by rewrite Hall, <- app_assoc. }
  by apply (H all [] db).
Qed.

(** The same in a disturbed run. *)
Lemma require_bind {A} e (f : unit -> sql DB A) c :
  (require e ≫= f) c = match e with Some e => (Err e, c) | None => f tt c end.
Proof. by destruct e. Qed.
Lemma lift_bind {A B} (r : result A) (f : A -> sql DB B) c :
  (lift r ≫= f) c = match r with Ok a => f a c | Err e => (Err e, c) end.
Proof. by destruct r. Qed.
Lemma in_tx_recovering_answer {A} (body : sql DB (tx_end A)) rec c a c' :
  Follows body -> in_tx_recovering body rec c = (Ok a, c') ->
  run (in_tx_recovering body rec) (database c) = (Ok a, database c') \/
  exists b c1, (tx_run body (database c)).1 = Ok b /\ rec ErrCommit b c1 = (Ok a, c') /\
    (database c1 = database c \/ database c1 = (tx_run body (database c)).2).
Proof.
  intros Hb E. pose proof (in_tx_recovering_cases body rec c Hb) as H. rewrite E in H.
  rewrite run_in_tx_recovering by done. destruct H as [[[e He] _]|[[H1 H2]|H]]; [done| |by right].
  left. destruct (tx_run body (database c)). simpl in *. congruence.
Qed.

Lemma run_in_tx_recovering_ok {A} (body : sql DB (tx_end A)) rec db a db' :
  Follows body -> run (in_tx_recovering body rec) db = (Ok a, db') ->
  exists end_ db1, run body db = (Ok end_, db1) /\
    ((end_ = CommitWith a /\ db1 = db') \/ (end_ = RollbackWith a /\ db' = db)).
Proof.
  intros Hb. rewrite run_in_tx_recovering by done. unfold tx_run.
  destruct (run body db) as [[[b|b]|e] db1] eqn:E; [| |done]; intros [= <- <-]; eauto 10.
Qed.

(** ** What successful runs do

    [Steps R m]: a successful undisturbed run of [m] is a sequence of changes in [R]. *)
Class Steps (R : DB -> DB -> Prop) {A} (m : sql DB A) :=
  run_steps db a db' : run m db = (Ok a, db') -> rtc R db db'.
#[export] Instance read_steps R {A} (m : sql DB A) : ReadOnly m -> Steps R m | 1.
Proof.
  intros Hm db a db' E. pose proof (run_read_only m db Hm) as Hr. rewrite E in Hr. simpl in Hr. by subst.
Qed.
#[export] Instance bind_steps R {A B} (m : sql DB A) (f : A -> sql DB B) :
  Follows m -> Steps R m -> (forall a, Steps R (f a)) -> Steps R (m ≫= f) | 2.
Proof.
  intros Hf Hm Hs db b db' (a & mid & E1 & E2)%run_bind_ok; [|done].
  transitivity mid; [by apply (Hm db a)|by apply (Hs a mid b)].
Qed.
Lemma statement_steps (R : DB -> DB -> Prop) {A} (f : DB -> result (A * DB)) :
  (forall db a db', f db = Ok (a, db') -> rtc R db db') -> Steps R (statement f).
Proof. intros H db a db' E%run_statement_ok. eauto. Qed.
Lemma exec_steps (R : DB -> DB -> Prop) (f : DB -> result DB) :
  (forall db db', f db = Ok db' -> rtc R db db') -> Steps R (exec f).
Proof. intros H db a db' E%run_exec_ok. eauto. Qed.
#[export] Instance each_steps R {A} (f : A -> sql DB unit) l :
  (forall x, Follows (f x)) -> (forall x, Steps R (f x)) -> Steps R (each f l) | 2.
Proof.
  intros Hf Hs. induction l as [|x l IH]; simpl; apply _.
Qed.
#[export] Instance in_tx_recovering_steps R {A} (body : sql DB (tx_end A)) rec :
  Follows body -> Steps R body -> Steps R (in_tx_recovering body rec) | 2.
Proof.
  intros Hf Hs db a db' (end_ & db1 & E & H)%run_in_tx_recovering_ok; [|done].
  destruct H as [[-> ->]|[-> ->]]; [by apply (Hs db (CommitWith a))|done].
Qed.
#[export] Instance in_tx_steps R {A} (body : sql DB (tx_end A)) :
  Follows body -> Steps R body -> Steps R (in_tx body) | 2.
Proof. apply in_tx_recovering_steps. Qed.
End programs.

(** A branching program has a property of programs when each branch has it. *)
#[export] Hint Extern 2 (Follows (match ?x with _ => _ end)) => destruct x : typeclass_instances.
#[export] Hint Extern 2 (ReadOnly (match ?x with _ => _ end)) => destruct x : typeclass_instances.
#[export] Hint Extern 2 (AllOrNothing (match ?x with _ => _ end)) => destruct x : typeclass_instances.
#[export] Hint Extern 2 (Steps _ (match ?x with _ => _ end)) => destruct x : typeclass_instances.
#[export] Hint Extern 2 (Atomic (match ?x with _ => _ end)) => destruct x : typeclass_instances.

(** Evaluate an undisturbed method up to its transaction. *)
Ltac enter_tx :=
  repeat first [rewrite run_require_bind|rewrite run_lift_bind];
  unfold in_tx; rewrite run_in_tx_recovering by typeclasses eauto; unfold tx_run.
(** One step of the inversion of [run m db = (Ok a, db')]; [invert_run] inverts as
    far as the program's shape is known, [invert_run_more] by the lemmas of a
    component. *)
Ltac invert_run_more := fail.
Ltac invert_run_step :=
  match goal with
  | H : run (mbind _ _) _ = (Ok _, _) |- _ =>
      apply run_bind_ok in H as (? & ? & ? & ?); [|typeclasses eauto]
  | H : run (mret _) _ = (Ok _, _) |- _ => apply run_ret_ok in H as [? ?]
  | H : run (query _) _ = (Ok _, _) |- _ => apply run_query_ok in H as [? ?]
  | H : run (exec _) _ = (Ok _, _) |- _ => apply run_exec_ok in H
  | H : run (statement _) _ = (Ok _, _) |- _ => apply run_statement_ok in H
  | H : run (require _) _ = (Ok _, _) |- _ => apply run_require_ok in H as [? ?]
  | H : run (lift _) _ = (Ok _, _) |- _ => apply run_lift_ok in H as [? ?]
  | H : run (in_tx _) _ = (Ok _, _) |- _ => unfold in_tx in H
  | H : run (in_tx_recovering _ _) _ = (Ok _, _) |- _ =>
      apply run_in_tx_recovering_ok in H as (? & ? & ? & ?); [|typeclasses eauto]
  | H : (CommitWith _ = CommitWith _ /\ _) \/ (CommitWith _ = RollbackWith _ /\ _) |- _ =>
      destruct H as [[? ?]|[? ?]]
  | H : (RollbackWith _ = CommitWith _ /\ _) \/ (RollbackWith _ = RollbackWith _ /\ _) |- _ =>
      destruct H as [[? ?]|[? ?]]
  | H : run (throw _) _ = (Ok _, _) |- _ => destruct (run_throw_ok _ _ _ _ H)
  | H : run (match ?x with _ => _ end) _ = (Ok _, _) |- _ => destruct x eqn:?
  end.
Ltac invert_run := repeat (first [invert_run_more|invert_run_step]; simplify_eq).

(** ** Tables *)

(** A row whose key is new is inserted; a second one violates the primary key, and
    a row that violates a CHECK is refused. *)
Definition ErrConstraint : GoError := PlainError "database/sql: constraint failed".
Definition insert_row {K A} `{Countable K} (check : bool) (k : K) (row : A) (t : gmap K A)
    : result (gmap K A) :=
  if negb check then Err ErrConstraint
  else match t !! k with Some _ => Err ErrConstraint | None => Ok (<[k := row]> t) end.
(** [ON CONFLICT(k) DO UPDATE SET] every other column. *)
Definition upsert_row {K A} `{Countable K} (check : bool) (k : K) (row : A) (t : gmap K A)
    : result (gmap K A) :=
  if negb check then Err ErrConstraint else Ok (<[k := row]> t).
(** [ON CONFLICT(k) DO NOTHING]; a violated CHECK still fails. *)
Definition insert_missing {K A} `{Countable K} (check : bool) (k : K) (row : A) (t : gmap K A)
    : result (gmap K A) :=
  if negb check then Err ErrConstraint
  else Ok match t !! k with Some _ => t | None => <[k := row]> t end.

(** [length(text) > 0]: SQLite counts the characters before the first NUL. *)
Definition sql_nonempty (text : string) : bool :=
  match text with EmptyString => false | String c _ => negb (Ascii.eqb c Ascii.zero) end.

Lemma insert_row_ok {K A} `{Countable K} check (k : K) (row : A) t t' :
  insert_row check k row t = Ok t' -> check = true /\ t !! k = None /\ t' = <[k := row]> t.
Proof.
  unfold insert_row. destruct check; [|done]. simpl. destruct (t !! k); [done|]. by intros [= <-].
Qed.
Lemma upsert_row_ok {K A} `{Countable K} check (k : K) (row : A) t t' :
  upsert_row check k row t = Ok t' -> check = true /\ t' = <[k := row]> t.
Proof. unfold upsert_row. destruct check; [|done]. by intros [= <-]. Qed.
Lemma insert_missing_ok {K A} `{Countable K} check (k : K) (row : A) t t' :
  insert_missing check k row t = Ok t' ->
  check = true /\ ((exists old, t !! k = Some old /\ t' = t) \/ (t !! k = None /\ t' = <[k := row]> t)).
Proof.
  unfold insert_missing. destruct check; [|done]. simpl. destruct (t !! k); intros [= <-]; eauto.
Qed.
Lemma sql_nonempty_ne text : sql_nonempty text = true -> text <> "".
Proof. by intros H ->. Qed.
