(* ===== verification/StoreBase.v ===== *)
(** * What the stores share (internal/store/store.go)

    The sentinel errors, the readiness guard, the clock reading as a positive
    SQLite INTEGER, numeric metadata, and the checks of a SHA-256 digest.  A store
    value is [baseStore]: the error that put it in recovery mode, if any, and what
    its clock reads during the call; the database itself is in the connection. *)

From S2P Require Import Prelude GoStd GoEncoding Sql.
From Stdlib Require Import Ascii.

(* src: internal/store/store.go:30-30 maxSQLiteInteger *)
Definition maxSQLiteInteger : Z := max_int64.
(* src: internal/store/store.go:43-43 ErrRecoveryMode *)
Definition ErrRecoveryMode : GoError := PlainError "store is in recovery mode".
(* src: internal/store/store.go:44-44 ErrReplayMismatch *)
Definition ErrReplayMismatch : GoError := PlainError "store replay identity mismatch".
(* src: internal/store/store.go:51-51 ErrStaleControllerEpoch *)
Definition ErrStaleControllerEpoch : GoError :=
  PlainError "store command is from a stale controller epoch".
(** [sql.ErrNoRows]. *)
Definition ErrNoRows : GoError := PlainError "sql: no rows in result set".

(* src: internal/store/store.go:65-71 baseStore *)
Record baseStore := mkBaseStore { store_recovery : error; store_now : Z }.

(* src: internal/store/store.go:75-80 baseStore.Ready *)
Definition Ready (s : baseStore) : error :=
  match store_recovery s with Some _ => Some (WrappedError "" ErrRecoveryMode) | None => None end.
(* src: internal/store/store.go:82-82 baseStore.requireReady *)
Definition requireReady (s : baseStore) : error := Ready s.

(* src: internal/store/store.go:1353-1360 storeUnixNano *)
Definition storeUnixNano (moment : Z) : result Z :=
  let minimum := unix_time 1 in
  let maximum := unix_time max_int64 in
  if Before moment minimum || After moment maximum then
    Err (PlainError "store timestamp is outside SQLite's positive signed INTEGER range")
  else Ok (UnixNano moment).

Lemma storeUnixNano_range t at_ : storeUnixNano t = Ok at_ -> 0 < at_ <= max_int64 /\ t = unix_time at_.
Proof.
  unfold storeUnixNano, Before, After, unix_time, UnixNano.
  destruct (_ || _) eqn:E; [done|]. conditions. intros [= <-].
  rewrite wrap_int64_small by (unfold max_int64 in *; lia). lia.
Qed.
Lemma storeUnixNano_at n : 0 < n <= max_int64 -> storeUnixNano (unix_time n) = Ok n.
Proof.
  intros Hn. unfold storeUnixNano, Before, After, unix_time, UnixNano.
  replace (_ || _) with false by (symmetry; conditions; lia).
  replace (unix_epoch + n - unix_epoch) with n by lia. rewrite wrap_int64_small; [done|]. lia.
Qed.

(* src: internal/store/controller.go:109-119 isLowerSHA256 *)
Definition isLowerSHA256 (value : string) : bool :=
  if len_string value != 64 then false else all_bytes lower_hex_byte value.

(** ** Metadata

    [store_metadata] maps keys to text; a number is stored in decimal. *)

(** [SELECT value FROM store_metadata WHERE key = ?] and its parsing. *)
(* src: internal/store/store.go:1339-1351 readUintMetadata *)
Definition readUintMetadata (metadata : gmap string string) (key : string) : result Z :=
  match metadata !! key with
  | None => Err ErrNoRows
  | Some raw =>
      match ParseUint max_uint64 raw with
      | None => Err (WrappedError (String.append "invalid metadata " key) (PlainError "strconv.ParseUint"))
      | Some value => Ok value
      end
  end.
(** [UPDATE store_metadata SET value = ? WHERE key = ?]. *)
Definition update_metadata (key : string) (value : Z) (metadata : gmap string string) : gmap string string :=
  alter (fun _ => FormatUint value) key metadata.

Lemma read_update_metadata metadata key v n :
  readUintMetadata metadata key = Ok v -> 0 <= n <= max_uint64 ->
  readUintMetadata (update_metadata key n metadata) key = Ok n.
Proof.
  unfold readUintMetadata, update_metadata. rewrite lookup_alter_eq.
  destruct (metadata !! key) as [raw|]; [|done]. simpl. intros _ Hn.
  rewrite ParseUint_FormatUint; [done|lia|lia].
Qed.
Lemma readUintMetadata_range metadata key v : readUintMetadata metadata key = Ok v -> 0 <= v <= max_uint64.
Proof.
  unfold readUintMetadata. destruct (metadata !! key) as [raw|]; [|done].
  destruct (ParseUint max_uint64 raw) as [n|] eqn:E; [|done]. intros [= <-].
  by eapply ParseUint_range.
Qed.

(** ** Reading tables in order *)

(** The rows of a table by ascending primary key. *)
Definition rows_by_key {A} (t : gmap string A) : list (string * A) :=
  sort_slice (fun a b => string_less a.1 b.1) (map_to_list t).

(** [for rows.Next() { scan; validate; append }]: the first row that does not pass
    ends the loop. *)
Fixpoint scan_rows {A B} (scan : A -> result B) (rows : list A) : result (list B) :=
  match rows with
  | [] => Ok []
  | row :: rows =>
      let! item := scan row ;;
      let! items := scan_rows scan rows ;;
      Ok (item :: items)
  end.

Lemma scan_rows_ok {A B} (scan : A -> result B) (f : A -> B) rows :
  Forall (fun row => scan row = Ok (f row)) rows -> scan_rows scan rows = Ok (map f rows).
Proof. induction 1 as [|row rows E _ IH]; simpl; [done|]. by rewrite E, IH. Qed.
Lemma scan_rows_length {A B} (scan : A -> result B) rows items :
  scan_rows scan rows = Ok items -> Forall2 (fun row item => scan row = Ok item) rows items.
Proof.
  revert items. induction rows as [|row rows IH]; simpl; intros items E; [by simplify_eq|].
  destruct (scan row) as [item|] eqn:E1; [|done]. destruct (scan_rows scan rows) as [rest|] eqn:E2; [|done].
  simplify_eq. constructor; auto.
Qed.
Lemma elem_of_rows_by_key {A} (t : gmap string A) k row : (k, row) ∈ rows_by_key t <-> t !! k = Some row.
Proof. unfold rows_by_key. by rewrite elem_of_sort_slice, elem_of_map_to_list. Qed.

Lemma StronglySorted_mono {A} (R S : A -> A -> Prop) l :
  (forall a b, R a b -> S a b) -> StronglySorted R l -> StronglySorted S l.
Proof. intros HRS. induction 1; constructor; [done|]. eapply Forall_impl; eauto. Qed.
Lemma StronglySorted_filter {A} (R : A -> A -> Prop) (P : A -> Prop) `{!forall a, Decision (P a)} l :
  StronglySorted R l -> StronglySorted R (filter P l).
Proof.
  induction 1 as [|a l _ IH Ha]; [constructor|]. rewrite filter_cons. destruct (decide (P a)); [|done].
  constructor; [done|]. rewrite Forall_forall in *. intros b [_ Hb]%list_elem_of_filter. auto.
Qed.
