(* ===== verification/Domain.v ===== *)
(** * Domain contracts (internal/domain)

    The value types of domain.go, target_id.go, execution_result.go and
    availability.go with their [Validate] methods, and the command identity and
    replay journal of command.go.  The execution lifecycle is in Execution.v and
    the slot ledger in SlotLedger.v. *)

From S2P Require Import Prelude GoStd.

(** ** Errors *)

(* src: internal/domain/domain.go:46-48 invalid *)
Definition domain_invalid (code field message : string) : GoError :=
  DomainError code field message.

(* src: internal/domain/domain.go:50-55 required *)
Definition required (value field : string) : error :=
  if TrimSpace value == "" then Some (domain_invalid "required" field "must not be empty")
  else None.

(** ** Identifiers and enumerations

    Go's string types are open: a value may be any string, and [Validate] picks
    out the declared constants.  They are modelled by [string]. *)

Abbreviation NodeID := string (only parsing).
Abbreviation TargetID := string (only parsing).
Abbreviation RunnerProfileID := string (only parsing).
Abbreviation ExecutionID := string (only parsing).
Abbreviation CommandID := string (only parsing).
Abbreviation ControllerEpoch := Z (only parsing).

(* src: internal/domain/domain.go:23-23 MacOSNativeRunnerMaxRunners *)
Definition MacOSNativeRunnerMaxRunners : Z := 1.

(* src: internal/domain/domain.go:60-60 OSLinux *)
Definition OSLinux := "linux".
(* src: internal/domain/domain.go:61-61 OSMacOS *)
Definition OSMacOS := "macos".
(* src: internal/domain/domain.go:62-62 OSWindows *)
Definition OSWindows := "windows".

(* src: internal/domain/domain.go:65-72 OperatingSystem.Validate *)
Definition OperatingSystem_Validate (o field : string) : error :=
  if bool_decide (o ∈ [OSLinux; OSMacOS; OSWindows]) then None
  else Some (domain_invalid "invalid_operating_system" field "must be linux, macos, or windows").

(* src: internal/domain/domain.go:77-77 ArchAMD64 *)
Definition ArchAMD64 := "amd64".
(* src: internal/domain/domain.go:78-78 ArchARM64 *)
Definition ArchARM64 := "arm64".

(* src: internal/domain/domain.go:81-88 Architecture.Validate *)
Definition Architecture_Validate (a field : string) : error :=
  if bool_decide (a ∈ [ArchAMD64; ArchARM64]) then None
  else Some (domain_invalid "invalid_architecture" field "must be amd64 or arm64").

(* src: internal/domain/domain.go:93-93 NodeActive *)
Definition NodeActive := "active".
(* src: internal/domain/domain.go:94-94 NodeDraining *)
Definition NodeDraining := "draining".
(* src: internal/domain/domain.go:95-95 NodeQuarantined *)
Definition NodeQuarantined := "quarantined".
(* src: internal/domain/domain.go:96-96 NodeRevoked *)
Definition NodeRevoked := "revoked".

(* src: internal/domain/domain.go:99-106 NodeAdministrativeState.Validate *)
Definition NodeAdministrativeState_Validate (s field : string) : error :=
  if bool_decide (s ∈ [NodeActive; NodeDraining; NodeQuarantined; NodeRevoked]) then None
  else Some (domain_invalid "invalid_node_administrative_state" field
               "must be active, draining, quarantined, or revoked").

(* src: internal/domain/domain.go:111-111 NodeOnline *)
Definition NodeOnline := "online".
(* src: internal/domain/domain.go:112-112 NodeOffline *)
Definition NodeOffline := "offline".
(* src: internal/domain/domain.go:113-113 NodeStale *)
Definition NodeStale := "stale".
(* src: internal/domain/domain.go:114-114 NodeReconciling *)
Definition NodeReconciling := "reconciling".

(* src: internal/domain/domain.go:117-124 NodeObservedState.Validate *)
Definition NodeObservedState_Validate (s field : string) : error :=
  if bool_decide (s ∈ [NodeOnline; NodeOffline; NodeStale; NodeReconciling]) then None
  else Some (domain_invalid "invalid_node_observed_state" field
               "must be online, offline, stale, or reconciling").

(** ** Nodes *)

(* src: internal/domain/domain.go:128-138 Node *)
Record Node := mkNode {
  node_ID : NodeID;
  node_DisplayName : string;
  node_CertificateSerial : string;
  node_CredentialEpoch : Z;
  node_OS : string;
  node_Architecture : string;
  node_MaxRunners : Z;
  node_AdministrativeState : string;
  node_ObservedState : string;
}.
#[export] Instance Node_eq_dec : EqDecision Node.
Proof. solve_decision. Defined.

(* src: internal/domain/domain.go:140-167 Node.Validate *)
Definition Node_Validate (n : Node) : error :=
  try required (node_ID n) "node.id" ;;
  try required (node_DisplayName n) "node.display_name" ;;
  try OperatingSystem_Validate (node_OS n) "node.os" ;;
  try Architecture_Validate (node_Architecture n) "node.architecture" ;;
  if node_MaxRunners n <? 1 then
    Some (domain_invalid "invalid_max_runners" "node.max_runners" "must be at least one")
  else if (node_OS n == OSMacOS) && (node_MaxRunners n >? MacOSNativeRunnerMaxRunners) then
    Some (domain_invalid "native_runner_capacity_exceeded" "node.max_runners"
            "macOS native mode currently owns exactly one runner slot")
  else
  try NodeAdministrativeState_Validate (node_AdministrativeState n) "node.administrative_state" ;;
  NodeObservedState_Validate (node_ObservedState n) "node.observed_state".

(** ** Targets and runner profiles *)

(* src: internal/domain/domain.go:172-172 TargetRepository *)
Definition TargetRepository := "repository".
(* src: internal/domain/domain.go:173-173 TargetOrganization *)
Definition TargetOrganization := "organization".
(* src: internal/domain/domain.go:178-178 TargetPrivate *)
Definition TargetPrivate := "private".

(* src: internal/domain/domain.go:182-191 GitHubTarget *)
Record GitHubTarget := mkGitHubTarget {
  target_ID : TargetID;
  target_InstallationID : string;
  target_ScopeKind : string;
  target_Scope : string;
  target_Visibility : string;
  target_RunnerGroupAccessSafe : bool;
  target_ScaleSetName : string;
  target_RunnerProfileID : RunnerProfileID;
}.
#[export] Instance GitHubTarget_eq_dec : EqDecision GitHubTarget.
Proof. solve_decision. Defined.

(* src: internal/domain/domain.go:193-218 GitHubTarget.Validate *)
Definition GitHubTarget_Validate (t : GitHubTarget) : error :=
  try required (target_ID t) "target.id" ;;
  try required (target_InstallationID t) "target.installation_id" ;;
  if negb (bool_decide (target_ScopeKind t ∈ [TargetRepository; TargetOrganization])) then
    Some (domain_invalid "invalid_target_scope_kind" "target.scope_kind"
            "must be repository or organization")
  else
  try required (target_Scope t) "target.scope" ;;
  if target_Visibility t != TargetPrivate then
    Some (domain_invalid "target_not_private" "target.visibility" "must be verified private")
  else if negb (target_RunnerGroupAccessSafe t) then
    Some (domain_invalid "unsafe_runner_group_access" "target.runner_group_access_safe"
            "must be verified safe")
  else
  try required (target_ScaleSetName t) "target.scale_set_name" ;;
  required (target_RunnerProfileID t) "target.runner_profile_id".

(* src: internal/domain/domain.go:222-222 RuntimeNative *)
Definition RuntimeNative := "native".
(* src: internal/domain/domain.go:227-227 RunnerVersionAutoUpdate *)
Definition RunnerVersionAutoUpdate := "auto_update".
(* src: internal/domain/domain.go:228-228 RunnerVersionPinned *)
Definition RunnerVersionPinned := "pinned".

(* src: internal/domain/domain.go:232-240 RunnerProfile *)
Record RunnerProfile := mkRunnerProfile {
  profile_ID : RunnerProfileID;
  profile_Label : string;
  profile_OS : option string;
  profile_Architecture : option string;
  profile_MinAvailableMemoryBytes : Z;
  profile_VersionPolicy : string;
  profile_Runtime : string;
}.
#[export] Instance RunnerProfile_eq_dec : EqDecision RunnerProfile.
Proof. solve_decision. Defined.

(* src: internal/domain/domain.go:242-268 RunnerProfile.Validate *)
Definition RunnerProfile_Validate (p : RunnerProfile) : error :=
  try required (profile_ID p) "runner_profile.id" ;;
  try required (profile_Label p) "runner_profile.label" ;;
  try (match profile_OS p with
       | Some os => OperatingSystem_Validate os "runner_profile.os"
       | None => None
       end) ;;
  try (match profile_Architecture p with
       | Some arch => Architecture_Validate arch "runner_profile.architecture"
       | None => None
       end) ;;
  if negb (bool_decide (profile_VersionPolicy p ∈ [RunnerVersionAutoUpdate; RunnerVersionPinned]))
  then Some (domain_invalid "invalid_runner_version_policy" "runner_profile.version_policy"
               "must be auto_update or pinned")
  else if profile_Runtime p != RuntimeNative then
    Some (domain_invalid "unsupported_runner_runtime" "runner_profile.runtime" "must be native")
  else None.

(** ** Controller epochs *)

(* src: internal/domain/domain.go:270-275 ControllerEpoch.Validate *)
Definition ControllerEpoch_Validate (e : ControllerEpoch) : error :=
  if e == 0 then
    Some (domain_invalid "invalid_controller_epoch" "controller_epoch" "must be greater than zero")
  else None.

(* src: internal/domain/domain.go:277-282 NextControllerEpoch *)
Definition NextControllerEpoch (previous : ControllerEpoch) : result ControllerEpoch :=
  if previous == max_uint64 then
    Err (domain_invalid "controller_epoch_exhausted" "controller_epoch"
           "cannot advance past uint64 maximum")
  else Ok (wrap_uint64 (previous + 1)).

(** ** Target identifiers *)

(* src: internal/domain/target_id.go:10-10 MaxTargetIDBytes *)
Definition MaxTargetIDBytes : Z := 128.

(* src: internal/domain/target_id.go:18-35 TargetID.ValidateShape *)
Definition TargetID_ValidateShape (id : TargetID) (field : string) : error :=
  let value := id in
  if value == "" then Some (domain_invalid "required" field "must not be empty")
  else if TrimSpace value != value then
    Some (domain_invalid "invalid_target_id" field "must not be surrounded by whitespace")
  else if len_string value >? MaxTargetIDBytes then
    Some (domain_invalid "invalid_target_id" field "is longer than the identifier boundary")
  else if negb (all_bytes (fun c => negb (control_byte c)) value) then
    Some (domain_invalid "invalid_target_id" field "must not contain control characters")
  else None.

(** ** Availability *)

(* src: internal/domain/availability.go:11-11 AvailabilityAccepting *)
Definition AvailabilityAccepting := "accepting".
(* src: internal/domain/availability.go:12-12 AvailabilityStopped *)
Definition AvailabilityStopped := "stopped".

(* src: internal/domain/availability.go:15-22 AvailabilityIntent.Validate *)
Definition AvailabilityIntent_Validate (intent field : string) : error :=
  if bool_decide (intent ∈ [AvailabilityAccepting; AvailabilityStopped]) then None
  else Some (domain_invalid "invalid_availability_intent" field "must be accepting or stopped").

(* src: internal/domain/availability.go:26-28 AvailabilityIntent.Accepts *)
Definition AvailabilityIntent_Accepts (intent : string) : bool := intent == AvailabilityAccepting.
