(* ===== verification/Execution.v ===== *)
(** * The execution lifecycle (internal/domain/execution.go, execution_result.go)

    The state machine of one runner execution: the states, the allowed
    transitions, the breadth-first search [CanReachExecutionState] that
    reconciliation uses, the mutable [Execution] object and the combination rule
    for execution results. *)

From S2P Require Import Prelude GoStd Domain.

(** ** Slots and states *)

(* src: internal/domain/slot_ledger.go:11-14 SlotKey *)
Record SlotKey := mkSlotKey { slot_NodeID : NodeID; slot_Index : Z }.
#[export] Instance SlotKey_eq_dec : EqDecision SlotKey.
Proof. solve_decision. Defined.
#[export] Instance SlotKey_countable : Countable SlotKey.
Proof.
  refine (inj_countable' (fun k => (slot_NodeID k, slot_Index k))
            (fun '(n, i) => mkSlotKey n i) _). by intros [].
Defined.

(* src: internal/domain/execution.go:8-8 ExecutionPending *)
Definition ExecutionPending := "pending".
(* src: internal/domain/execution.go:9-9 ExecutionReserved *)
Definition ExecutionReserved := "reserved".
(* src: internal/domain/execution.go:10-10 ExecutionPreparing *)
Definition ExecutionPreparing := "preparing".
(* src: internal/domain/execution.go:11-11 ExecutionRunning *)
Definition ExecutionRunning := "running".
(* src: internal/domain/execution.go:12-12 ExecutionCleaning *)
Definition ExecutionCleaning := "cleaning".
(* src: internal/domain/execution.go:13-13 ExecutionReleased *)
Definition ExecutionReleased := "released".
(* src: internal/domain/execution.go:14-14 ExecutionFailed *)
Definition ExecutionFailed := "failed".
(* src: internal/domain/execution.go:15-15 ExecutionCleanupFailed *)
Definition ExecutionCleanupFailed := "cleanup_failed".
(* src: internal/domain/execution.go:16-16 ExecutionQuarantined *)
Definition ExecutionQuarantined := "quarantined".

(** The array [states] of [CanReachExecutionState]. *)
(* src: internal/domain/execution.go:149-159 CanReachExecutionState *)
Definition execution_states : list string :=
  [ExecutionPending; ExecutionReserved; ExecutionPreparing; ExecutionRunning;
   ExecutionCleaning; ExecutionReleased; ExecutionFailed; ExecutionCleanupFailed;
   ExecutionQuarantined].

(* src: internal/domain/execution.go:186-195 isKnownExecutionState *)
Definition isKnownExecutionState (state : string) : bool :=
  bool_decide (state ∈ [ExecutionPending; ExecutionReserved; ExecutionPreparing;
    ExecutionRunning; ExecutionCleaning; ExecutionReleased; ExecutionFailed;
    ExecutionCleanupFailed; ExecutionQuarantined]).

(* src: internal/domain/execution.go:177-184 isTerminalExecutionState *)
Definition isTerminalExecutionState (state : string) : bool :=
  bool_decide (state ∈ [ExecutionReleased; ExecutionFailed; ExecutionQuarantined]).

(* src: internal/domain/execution.go:19-24 ExecutionState.Validate *)
Definition ExecutionState_Validate (s field : string) : error :=
  if isKnownExecutionState s then None
  else Some (domain_invalid "invalid_execution_state" field "is not a known execution state").

(* src: internal/domain/execution.go:117-134 validExecutionTransition *)
Definition validExecutionTransition (current next : string) : bool :=
  if current == ExecutionPending then next == ExecutionReserved
  else if current == ExecutionReserved then
    (next == ExecutionPreparing) || (next == ExecutionFailed)
  else if current == ExecutionPreparing then
    (next == ExecutionRunning) || (next == ExecutionFailed)
  else if current == ExecutionRunning then
    (next == ExecutionCleaning) || (next == ExecutionFailed)
  else if current == ExecutionCleaning then
    (next == ExecutionReleased) || (next == ExecutionCleanupFailed)
  else if current == ExecutionCleanupFailed then next == ExecutionQuarantined
  else false.

(** The inner loop over [states]: [None] is the early [return true], otherwise
    the updated [visited] map and [queue]. *)
(* src: internal/domain/execution.go:163-172 CanReachExecutionState *)
Fixpoint reach_scan (state next : string) (states : list string)
    (visited : gset string) (queue : list string) : option (gset string * list string) :=
  match states with
  | [] => Some (visited, queue)
  | candidate :: states' =>
      if bool_decide (candidate ∈ visited) || negb (validExecutionTransition state candidate)
      then reach_scan state next states' visited queue
      else if candidate == next then None
      else reach_scan state next states' ({[candidate]} ∪ visited) (queue ++ [candidate])
  end.

(** The outer [for len(queue) > 0] loop.  A state enters the queue at most
    once, so as many rounds as there are states suffice; with no fuel left and
    a queue that is not empty the model answers [false]. *)
(* src: internal/domain/execution.go:160-174 CanReachExecutionState *)
Fixpoint reach_loop (fuel : nat) (next : string) (visited : gset string)
    (queue : list string) : bool :=
  match fuel, queue with
  | O, _ | _, [] => false
  | S fuel', state :: queue' =>
      match reach_scan state next execution_states visited queue' with
      | None => true
      | Some (visited', queue'') => reach_loop fuel' next visited' queue''
      end
  end.

(* src: internal/domain/execution.go:140-175 CanReachExecutionState *)
Definition CanReachExecutionState (current next : string) : bool :=
  if negb (isKnownExecutionState current) || negb (isKnownExecutionState next) then false
  else if current == next then true
  else reach_loop (S (length execution_states)) next {[current]} [current].

(** ** Executions *)

(* src: internal/domain/execution.go:38-43 ExecutionSnapshot *)
Record ExecutionSnapshot := mkExecutionSnapshot {
  exec_ID : ExecutionID;
  exec_TargetID : TargetID;
  exec_Slot : SlotKey;
  exec_State : string;
}.
#[export] Instance ExecutionSnapshot_eq_dec : EqDecision ExecutionSnapshot.
Proof. solve_decision. Defined.

(* src: internal/domain/execution.go:68-82 ExecutionSnapshot.Validate *)
Definition ExecutionSnapshot_Validate (s : ExecutionSnapshot) : error :=
  try required (exec_ID s) "execution.id" ;;
  try required (exec_TargetID s) "execution.target_id" ;;
  try required (slot_NodeID (exec_Slot s)) "execution.slot.node_id" ;;
  if slot_Index (exec_Slot s) <? 0 then
    Some (domain_invalid "invalid_slot_index" "execution.slot.index" "must not be negative")
  else ExecutionState_Validate (exec_State s) "execution.state".

(** The live object; its mutex makes every method one atomic step. *)
(* src: internal/domain/execution.go:27-33 Execution *)
Record Execution := mkExecution {
  live_id : ExecutionID;
  live_targetID : TargetID;
  live_slot : SlotKey;
  live_state : string;
}.

(* src: internal/domain/execution.go:56-66 RestoreExecution *)
Definition RestoreExecution (snapshot : ExecutionSnapshot) : result Execution :=
  tryr ExecutionSnapshot_Validate snapshot ;;
  Ok (mkExecution (exec_ID snapshot) (exec_TargetID snapshot) (exec_Slot snapshot)
        (exec_State snapshot)).

(* src: internal/domain/execution.go:45-52 NewExecution *)
Definition NewExecution (id : ExecutionID) (targetID : TargetID) (slot : SlotKey)
    : result Execution :=
  RestoreExecution (mkExecutionSnapshot id targetID slot ExecutionPending).

(* src: internal/domain/execution.go:84-93 Execution.Snapshot *)
Definition Execution_Snapshot (e : Execution) : ExecutionSnapshot :=
  mkExecutionSnapshot (live_id e) (live_targetID e) (live_slot e) (live_state e).

(* src: internal/domain/execution.go:95-99 Execution.CurrentState *)
Definition Execution_CurrentState (e : Execution) : string := live_state e.

(* src: internal/domain/execution.go:101-109 Execution.Transition *)
Definition Execution_Transition (e : Execution) (next : string) : Execution * error :=
  if negb (validExecutionTransition (live_state e) next) then
    (e, Some (domain_invalid "invalid_execution_transition" "execution.state"
                "transition is not allowed"))
  else (mkExecution (live_id e) (live_targetID e) (live_slot e) next, None).

(* src: internal/domain/execution.go:111-115 Execution.IsTerminal *)
Definition Execution_IsTerminal (e : Execution) : bool := isTerminalExecutionState (live_state e).

(** ** Execution results *)

(* src: internal/domain/execution_result.go:9-9 ExecutionErrorNone *)
Definition ExecutionErrorNone := "".
(* src: internal/domain/execution_result.go:10-10 ExecutionErrorConflict *)
Definition ExecutionErrorConflict := "execution_conflict".
(* src: internal/domain/execution_result.go:11-11 ExecutionErrorReconciliation *)
Definition ExecutionErrorReconciliation := "reconciliation_required".
(* src: internal/domain/execution_result.go:12-12 ExecutionErrorQuarantined *)
Definition ExecutionErrorQuarantined := "quarantined".
(* src: internal/domain/execution_result.go:13-13 ExecutionErrorCleanup *)
Definition ExecutionErrorCleanup := "cleanup_failed".
(* src: internal/domain/execution_result.go:14-14 ExecutionErrorStart *)
Definition ExecutionErrorStart := "start_failed".
(* src: internal/domain/execution_result.go:15-15 ExecutionErrorPlatform *)
Definition ExecutionErrorPlatform := "platform_unavailable".
(* src: internal/domain/execution_result.go:16-16 ExecutionErrorJournal *)
Definition ExecutionErrorJournal := "journal_failed".
(* src: internal/domain/execution_result.go:17-17 ExecutionErrorCommandRejected *)
Definition ExecutionErrorCommandRejected := "command_rejected".
(* src: internal/domain/execution_result.go:22-22 ExecutionErrorTargetExcluded *)
Definition ExecutionErrorTargetExcluded := "target_excluded".

(* src: internal/domain/execution_result.go:25-35 ExecutionErrorCode.Validate *)
Definition ExecutionErrorCode_Validate (code field : string) : error :=
  if bool_decide (code ∈ [ExecutionErrorNone; ExecutionErrorConflict;
       ExecutionErrorReconciliation; ExecutionErrorQuarantined; ExecutionErrorCleanup;
       ExecutionErrorStart; ExecutionErrorPlatform; ExecutionErrorJournal;
       ExecutionErrorCommandRejected; ExecutionErrorTargetExcluded]) then None
  else Some (domain_invalid "invalid_execution_error_code" field
               "is not a known execution error code").

(* src: internal/domain/execution_result.go:39-57 ValidateExecutionResult *)
Definition ValidateExecutionResult (state code field : string) : error :=
  try ExecutionState_Validate state (String.append field ".state") ;;
  try ExecutionErrorCode_Validate code (String.append field ".error_code") ;;
  if bool_decide (state ∈ [ExecutionFailed; ExecutionCleanupFailed; ExecutionQuarantined]) then
    if code == ExecutionErrorNone then
      Some (domain_invalid "missing_execution_error_code" (String.append field ".error_code")
              "is required for a failed execution state")
    else None
  else if code != ExecutionErrorNone then
    Some (domain_invalid "unexpected_execution_error_code" (String.append field ".error_code")
            "is not allowed for a non-failed execution state")
  else None.

(* src: internal/domain/execution_result.go:65-65 CleanupVerificationFailed *)
Definition CleanupVerificationFailed := "cleanup_verification_failed".
(* src: internal/domain/execution_result.go:66-66 CleanupProcessResidue *)
Definition CleanupProcessResidue := "process_residue".
(* src: internal/domain/execution_result.go:67-67 CleanupWorkspaceRemoval *)
Definition CleanupWorkspaceRemoval := "workspace_removal_failed".

(* src: internal/domain/execution_result.go:70-77 CleanupFailureCode.Validate *)
Definition CleanupFailureCode_Validate (code field : string) : error :=
  if bool_decide (code ∈ [CleanupVerificationFailed; CleanupProcessResidue;
       CleanupWorkspaceRemoval]) then None
  else Some (domain_invalid "invalid_cleanup_failure_code" field
               "is not a known cleanup failure code").

(** ** Specifications *)

(** One step of the lifecycle, between known states. *)
Definition execution_step (s1 s2 : string) : Prop := validExecutionTransition s1 s2 = true.

(** How far a state is along the lifecycle. *)
Definition execution_rank (s : string) : nat :=
  if s == ExecutionPending then 0
  else if s == ExecutionReserved then 1
  else if s == ExecutionPreparing then 2
  else if s == ExecutionRunning then 3
  else if s == ExecutionCleaning then 4
  else if s == ExecutionCleanupFailed then 5
  else 6.

(** A client that calls [Transition] with each of [inputs] and goes on after a
    refusal; the states entered, in order. *)
Fixpoint Execution_run (e : Execution) (inputs : list string) : Execution * list string :=
  match inputs with
  | [] => (e, [])
  | next :: inputs' =>
      match Execution_Transition e next with
      | (e', None) => let '(e'', entered) := Execution_run e' inputs' in (e'', next :: entered)
      | (e', Some _) => Execution_run e' inputs'
      end
  end.

(** ** Lemmas *)

Lemma isKnown_elem s : isKnownExecutionState s = true <-> s ∈ execution_states.
Proof. unfold isKnownExecutionState. by rewrite bool_decide_eq_true. Qed.

(** Case analysis on known states by computation: a decidable statement about
    known states holds when it evaluates to [true] on the nine of them. *)
Lemma known_forall (P : string -> bool) :
  forallb P execution_states = true -> forall s, isKnownExecutionState s = true -> P s = true.
Proof.
  rewrite forallb_forall. intros H s Hs%isKnown_elem. apply H. by apply list_elem_of_In.
Qed.
Lemma known_forall2 (P : string -> string -> bool) :
  forallb (fun a => forallb (P a) execution_states) execution_states = true ->
  forall a b, isKnownExecutionState a = true -> isKnownExecutionState b = true -> P a b = true.
Proof. intros H a b Ha Hb. pose proof (known_forall _ H a Ha). by apply known_forall. Qed.

Lemma known_forall3 (P : string -> string -> string -> bool) :
  forallb (fun a => forallb (fun b => forallb (P a b) execution_states) execution_states)
    execution_states = true ->
  forall a b c, isKnownExecutionState a = true -> isKnownExecutionState b = true ->
  isKnownExecutionState c = true -> P a b c = true.
Proof. intros H a b c Ha Hb. pose proof (known_forall2 _ H a b Ha Hb). by apply known_forall. Qed.

Lemma transition_known s1 s2 :
  validExecutionTransition s1 s2 = true ->
  isKnownExecutionState s1 = true /\ isKnownExecutionState s2 = true.
Proof.
  unfold validExecutionTransition. repeat case_bool_decide; simpl; try done;
    subst; intros; by vm_compute.
Qed.

Lemma transition_rank s1 s2 :
  validExecutionTransition s1 s2 = true -> (execution_rank s1 < execution_rank s2)%nat.
Proof.
  intros H. destruct (transition_known _ _ H) as [H1 H2].
  pose proof (known_forall2
    (fun a b => implb (validExecutionTransition a b) (execution_rank a <? execution_rank b)%nat)
    ltac:(by vm_compute) s1 s2 H1 H2) as Hi.
  simpl in Hi. rewrite H in Hi. by apply Nat.ltb_lt.
Qed.

Lemma execution_rank_bound s : (execution_rank s <= 6)%nat.
Proof. unfold execution_rank. repeat case_bool_decide; lia. Qed.

Lemma can_reach_known a b :
  CanReachExecutionState a b = true ->
  isKnownExecutionState a = true /\ isKnownExecutionState b = true.
Proof. unfold CanReachExecutionState. destruct (isKnownExecutionState a), (isKnownExecutionState b); done. Qed.

Lemma can_reach_refl a : isKnownExecutionState a = true -> CanReachExecutionState a a = true.
Proof. intros H. unfold CanReachExecutionState. rewrite H. by rewrite bool_decide_eq_true_2. Qed.

Lemma can_reach_step a b c :
  CanReachExecutionState a b = true -> validExecutionTransition b c = true ->
  CanReachExecutionState a c = true.
Proof.
  intros Hab Hbc. destruct (can_reach_known _ _ Hab) as [Ha Hb].
  destruct (transition_known _ _ Hbc) as [_ Hc].
  pose proof (known_forall3 (fun a b c => implb (CanReachExecutionState a b &&
    validExecutionTransition b c) (CanReachExecutionState a c))
    ltac:(by vm_compute) a b c Ha Hb Hc) as H.
  cbv beta in H. by rewrite Hab, Hbc in H.
Qed.

(** A search that succeeds makes progress: there is a first transition. *)
Lemma can_reach_first a b :
  CanReachExecutionState a b = true -> a <> b ->
  exists c, validExecutionTransition a c = true /\ CanReachExecutionState c b = true.
Proof.
  intros Hab Hne. destruct (can_reach_known _ _ Hab) as [Ha Hb].
  pose proof (known_forall2 (fun a b => implb (CanReachExecutionState a b)
    ((a == b) || existsb (fun c => validExecutionTransition a c && CanReachExecutionState c b)
       execution_states)) ltac:(by vm_compute) a b Ha Hb) as H. cbv beta in H.
  rewrite Hab, bool_decide_eq_false_2 in H by done. cbn [implb orb] in H.
  apply existsb_exists in H as (c & _ & [H1 H2]%andb_true_iff). eauto.
Qed.

(** ** Properties *)

Lemma can_reach_rtc a b : CanReachExecutionState a b = true -> rtc execution_step a b.
Proof.
  intros H. remember (6 - execution_rank a)%nat as n eqn:Hn. revert a H Hn.
  induction n as [n IH] using lt_wf_ind. intros a H ->.
  destruct (decide (a = b)) as [->|Hne]; [apply rtc_refl|].
  destruct (can_reach_first _ _ H Hne) as (c & Hac & Hcb).
  apply (rtc_l _ a c b Hac). eapply IH; [|exact Hcb|done].
  pose proof (transition_rank _ _ Hac). pose proof (execution_rank_bound c). lia.
Qed.

Lemma execution_step_rank a b :
  rtc execution_step a b -> a = b \/ (execution_rank a < execution_rank b)%nat.
Proof.
  induction 1 as [|a b c Hab _ IH]; [by left|]. right. pose proof (transition_rank _ _ Hab).
  destruct IH as [<-|?]; lia.
Qed.

(** [CanReachExecutionState] computes reachability: it answers true exactly
    when the first state is a known state and some sequence of valid transitions
    leads to the second.  The breadth-first search neither misses a state nor
    runs out of rounds. *)
Theorem can_reach_iff a b :
  CanReachExecutionState a b = true <->
  isKnownExecutionState a = true /\ rtc execution_step a b.
Proof.
  split.
  - intros H. split; [by destruct (can_reach_known _ _ H)|by apply can_reach_rtc].
  - intros [Ha Hr]. pattern b. eapply rtc_ind_r; [|intros y z _ Hyz IH|exact Hr].
    + by apply can_reach_refl.
    + by apply (can_reach_step a y z).
Qed.

(** The lifecycle has no cycles: two states that can each reach the other
    are the same state, so reconciliation can order any two observations. *)
Theorem can_reach_antisym a b :
  CanReachExecutionState a b = true -> CanReachExecutionState b a = true -> a = b.
Proof.
  intros H1%can_reach_rtc H2%can_reach_rtc.
  apply execution_step_rank in H1, H2. destruct H1, H2; auto; lia.
Qed.

(** The terminal states are exactly the known states without a successor:
    an execution in one of them refuses every transition and is left unchanged. *)
Theorem terminal_iff_stuck e :
  isKnownExecutionState (live_state e) = true ->
  Execution_IsTerminal e = true <->
  forall next, Execution_Transition e next =
    (e, Some (domain_invalid "invalid_execution_transition" "execution.state"
                "transition is not allowed")).
Proof.
  intros Hk. unfold Execution_IsTerminal, Execution_Transition. split.
  - intros Ht next. destruct (validExecutionTransition (live_state e) next) eqn:Hv; [|done].
    destruct (transition_known _ _ Hv) as [_ Hn].
    pose proof (known_forall2 (fun a b => implb (isTerminalExecutionState a)
      (negb (validExecutionTransition a b))) ltac:(by vm_compute) _ _ Hk Hn) as H.
    cbv beta in H. rewrite Ht, Hv in H. done.
  - intros Hstuck. destruct (isTerminalExecutionState (live_state e)) eqn:Ht; [done|].
    pose proof (known_forall (fun a => isTerminalExecutionState a ||
      existsb (validExecutionTransition a) execution_states) ltac:(by vm_compute) _ Hk) as H.
    cbv beta in H. rewrite Ht in H. cbn [orb] in H. apply existsb_exists in H as (next & _ & Hv).
    specialize (Hstuck next). rewrite Hv in Hstuck. done.
Qed.

Lemma Execution_run_rank e inputs :
  (length (Execution_run e inputs).2 + execution_rank (live_state e) <=
   execution_rank (live_state (Execution_run e inputs).1))%nat.
Proof.
  revert e. induction inputs as [|next inputs IH]; intros e; simpl; [done|].
  unfold Execution_Transition. destruct (validExecutionTransition (live_state e) next) eqn:Hv; simpl; [|auto].
  apply transition_rank in Hv.
  specialize (IH (mkExecution (live_id e) (live_targetID e) (live_slot e) next)).
  destruct (Execution_run _ inputs) as [e'' entered]. simpl in *. lia.
Qed.

(** An execution changes state at most six times in its life, whatever
    sequence of transitions is requested, and the identity and slot it was
    created with never change. *)
Theorem execution_life_bounded id targetID slot e inputs :
  NewExecution id targetID slot = Ok e ->
  let '(e', entered) := Execution_run e inputs in
  (length entered <= 6)%nat /\ live_id e' = id /\ live_targetID e' = targetID /\ live_slot e' = slot.
Proof.
  unfold NewExecution, RestoreExecution. destruct (ExecutionSnapshot_Validate _); [done|].
  intros [= <-]. simpl.
  pose proof (Execution_run_rank (mkExecution id targetID slot ExecutionPending) inputs) as Hr.
  pose proof (execution_rank_bound (live_state
    (Execution_run (mkExecution id targetID slot ExecutionPending) inputs).1)) as Hb.
  assert (Hid : forall e0, let e1 := (Execution_run e0 inputs).1 in
    live_id e1 = live_id e0 /\ live_targetID e1 = live_targetID e0 /\ live_slot e1 = live_slot e0).
  { clear. induction inputs as [|next inputs IH]; intros e0; simpl; [done|].
    unfold Execution_Transition. destruct (validExecutionTransition _ _); simpl; [|apply IH].
    specialize (IH (mkExecution (live_id e0) (live_targetID e0) (live_slot e0) next)).
    by destruct (Execution_run _ inputs). }
  specialize (Hid (mkExecution id targetID slot ExecutionPending)).
  destruct (Execution_run _ inputs) as [e' entered]. simpl in *. split; [lia|done].
Qed.

(** ** The hypotheses can hold *)

Definition example_execution : Execution :=
  mkExecution "e1" "t1" (mkSlotKey "n1" 0) ExecutionPending.
Lemma example_execution_new : NewExecution "e1" "t1" (mkSlotKey "n1" 0) = Ok example_execution.
Proof. vm_compute. reflexivity. Qed.

Lemma can_reach_antisym_witness :
  CanReachExecutionState ExecutionRunning ExecutionRunning = true /\
  ExecutionRunning = ExecutionRunning.
Proof.
  split; [by vm_compute|]. apply can_reach_antisym; by vm_compute.
Defined.

Lemma terminal_iff_stuck_witness :
  Execution_Transition (mkExecution "e1" "t1" (mkSlotKey "n1" 0) ExecutionReleased) ExecutionRunning =
    (mkExecution "e1" "t1" (mkSlotKey "n1" 0) ExecutionReleased,
     Some (domain_invalid "invalid_execution_transition" "execution.state" "transition is not allowed")).
Proof. apply terminal_iff_stuck; by vm_compute. Defined.

Lemma execution_life_bounded_witness :
  let '(e', entered) := Execution_run example_execution
    [ExecutionReserved; ExecutionRunning; ExecutionPreparing; ExecutionRunning] in
  (length entered <= 6)%nat /\ live_id e' = "e1" /\ live_targetID e' = "t1" /\
  live_slot e' = mkSlotKey "n1" 0.
Proof.
  exact (execution_life_bounded _ _ _ _
    [ExecutionReserved; ExecutionRunning; ExecutionPreparing; ExecutionRunning] example_execution_new).
Defined.
