(* ===== verification/Replay.v ===== *)
(** * Command identities and the replay journal (internal/domain/command.go)

    A command is delivered at least once; [CommandReplay.Record] decides whether
    a delivery is new, an exact replay, or a conflicting reuse of an identifier. *)

From S2P Require Import Prelude GoStd Domain Execution.

(* src: internal/domain/command.go:10-10 CommandPrepare *)
Definition CommandPrepare := "prepare".
(* src: internal/domain/command.go:11-11 CommandStart *)
Definition CommandStart := "start".
(* src: internal/domain/command.go:12-12 CommandCancel *)
Definition CommandCancel := "cancel".

(* src: internal/domain/command.go:15-22 CommandType.Validate *)
Definition CommandType_Validate (commandType field : string) : error :=
  if bool_decide (commandType ∈ [CommandPrepare; CommandStart; CommandCancel]) then None
  else Some (domain_invalid "invalid_command_type" field "must be prepare, start, or cancel").

(* src: internal/domain/command.go:26-32 Command *)
Record Command := mkCommand {
  command_ID : CommandID;
  command_ControllerEpoch : ControllerEpoch;
  command_ExecutionID : ExecutionID;
  command_ExpectedState : string;
  command_PayloadDigest : string;
}.
#[export] Instance Command_eq_dec : EqDecision Command.
Proof. solve_decision. Defined.

(* src: internal/domain/command.go:34-59 Command.Validate *)
Definition Command_Validate (c : Command) : error :=
  try required (command_ID c) "command.id" ;;
  try ControllerEpoch_Validate (command_ControllerEpoch c) ;;
  try required (command_ExecutionID c) "command.execution_id" ;;
  try ExecutionState_Validate (command_ExpectedState c) "command.expected_state" ;;
  try required (command_PayloadDigest c) "command.payload_digest" ;;
  if len_string (command_PayloadDigest c) != 64 then
    Some (domain_invalid "invalid_payload_digest" "command.payload_digest"
            "must be a SHA-256 hex digest")
  else if negb (all_bytes lower_hex_byte (command_PayloadDigest c)) then
    Some (domain_invalid "invalid_payload_digest" "command.payload_digest"
            "must be a lowercase SHA-256 hex digest")
  else None.

(** The journal; its mutex makes [Record] one atomic step. *)
(* src: internal/domain/command.go:63-66 CommandReplay *)
Record CommandReplay := mkCommandReplay { replay_commands : gmap string Command }.

(* src: internal/domain/command.go:68-70 NewCommandReplay *)
Definition NewCommandReplay : CommandReplay := mkCommandReplay ∅.

(* src: internal/domain/command.go:74-92 CommandReplay.Record *)
Definition CommandReplay_Record (r : CommandReplay) (command : Command)
    : CommandReplay * (bool * error) :=
  match Command_Validate command with
  | Some err => (r, (false, Some err))
  | None =>
      match replay_commands r !! command_ID command with
      | None =>
          (mkCommandReplay (<[command_ID command := command]> (replay_commands r)),
           (false, None))
      | Some existing =>
          if command_PayloadDigest existing != command_PayloadDigest command then
            (r, (false, Some (domain_invalid "command_payload_mismatch" "command.payload_digest"
                                "does not match the command ID already recorded")))
          else if existing != command then
            (r, (false, Some (domain_invalid "command_replay_mismatch" "command"
                                "does not match the command ID already recorded")))
          else (r, (true, None))
      end
  end.

(** ** Specification: a journal run over a delivery sequence *)

Fixpoint CommandReplay_run (r : CommandReplay) (deliveries : list Command)
    : CommandReplay * list (bool * error) :=
  match deliveries with
  | [] => (r, [])
  | c :: deliveries' =>
      let '(r', outcome) := CommandReplay_Record r c in
      let '(r'', outcomes) := CommandReplay_run r' deliveries' in (r'', outcome :: outcomes)
  end.

(** The deliveries the journal admits for execution: accepted and not replayed. *)
Definition replay_admitted (outcome : bool * error) : bool :=
  negb outcome.1 && bool_decide (outcome.2 = None).
Fixpoint admitted_commands (deliveries : list Command) (outcomes : list (bool * error))
    : list Command :=
  match deliveries, outcomes with
  | c :: deliveries', o :: outcomes' =>
      (if replay_admitted o then [c] else []) ++ admitted_commands deliveries' outcomes'
  | _, _ => []
  end.

(** ** Lemmas *)

(** The three outcomes of [Record] with a nil error or a mismatch. *)
Lemma Record_cases r c :
  let '(r', (replayed, err)) := CommandReplay_Record r c in
  (Command_Validate c = None /\ replay_commands r !! command_ID c = None /\ replayed = false /\
     err = None /\ r' = mkCommandReplay (<[command_ID c := c]> (replay_commands r))) \/
  (replay_commands r !! command_ID c = Some c /\ replayed = true /\ err = None /\ r' = r) \/
  (replayed = false /\ err <> None /\ r' = r).
Proof.
  unfold CommandReplay_Record. destruct (Command_Validate c) eqn:Hv; [naive_solver|].
  destruct (replay_commands r !! command_ID c) as [existing|] eqn:Hl; [|naive_solver].
  repeat case_bool_decide; simpl; naive_solver.
Qed.

Lemma Record_keeps r c id existing :
  replay_commands r !! id = Some existing ->
  replay_commands (CommandReplay_Record r c).1 !! id = Some existing.
Proof.
  intros Hl. pose proof (Record_cases r c) as Hc.
  destruct (CommandReplay_Record r c) as [r' [replayed err]]. simpl.
  destruct Hc as [(_ & Hn & _ & _ & ->)|[(_ & _ & _ & ->)|(_ & _ & ->)]]; simpl; try done.
  destruct (decide (id = command_ID c)) as [->|Hne]; [congruence|].
  by rewrite lookup_insert_ne.
Qed.

Lemma admitted_fresh r deliveries :
  let '(r', outcomes) := CommandReplay_run r deliveries in
  Forall (fun c => replay_commands r !! command_ID c = None /\
                   replay_commands r' !! command_ID c = Some c)
    (admitted_commands deliveries outcomes) /\
  (forall id existing, replay_commands r !! id = Some existing ->
                       replay_commands r' !! id = Some existing).
Proof.
  revert r. induction deliveries as [|c deliveries IH]; intros r; simpl; [by split|].
  pose proof (Record_cases r c) as Hc. pose proof (fun id e => Record_keeps r c id e) as Hk.
  destruct (CommandReplay_Record r c) as [r' [replayed err]]. simpl in *.
  specialize (IH r'). destruct (CommandReplay_run r' deliveries) as [r'' outcomes].
  destruct IH as [Hf Hkeep]. split; [|by auto].
  apply Forall_app. split.
  - unfold replay_admitted; simpl.
    destruct Hc as [(_ & Hn & -> & -> & ->)|[(_ & -> & _ & _)|(-> & Hne & _)]]; simpl.
    + apply Forall_singleton. split; [done|]. apply Hkeep. simpl. by rewrite lookup_insert_eq.
    + apply Forall_nil_2.
    + rewrite bool_decide_eq_false_2 by done. apply Forall_nil_2.
  - eapply Forall_impl; [exact Hf|]. intros c' [Hn ?]. split; [|done].
    destruct (replay_commands r !! command_ID c') eqn:E; [|done].
    apply Hk in E. congruence.
Qed.

(** ** Properties *)

(** At most once: in any sequence of deliveries starting from an empty
    journal, the commands the journal admits for execution have pairwise
    different identifiers, so redelivery never executes a command twice and a
    reused identifier never executes a different payload. *)
Theorem replay_admits_once deliveries :
  let '(_, outcomes) := CommandReplay_run NewCommandReplay deliveries in
  NoDup (map command_ID (admitted_commands deliveries outcomes)).
Proof.
  generalize NewCommandReplay. induction deliveries as [|c deliveries IH]; intros r; simpl;
    [constructor|].
  pose proof (Record_cases r c) as Hc.
  destruct (CommandReplay_Record r c) as [r' [replayed err]].
  pose proof (admitted_fresh r' deliveries) as Hf. specialize (IH r').
  destruct (CommandReplay_run r' deliveries) as [r'' outcomes].
  destruct (replay_admitted (replayed, err)) eqn:Ha; simpl; [|done].
  unfold replay_admitted in Ha. simpl in Ha.
  destruct Hc as [(_ & _ & -> & -> & ->)|[(_ & -> & -> & _)|(-> & Hne & _)]]; [|done|].
  - constructor; [|done]. intros (c' & Heq & Hin)%list_elem_of_fmap.
    destruct Hf as [Hf _]. rewrite Forall_forall in Hf. destruct (Hf c' Hin) as [Hn _].
    simpl in Hn. rewrite <- Heq, lookup_insert_eq in Hn. done.
  - by rewrite bool_decide_eq_false_2 in Ha.
Qed.

(** A recorded command stays recorded: after a successful [Record] of a new
    command and any further deliveries, delivering exactly it again reports a
    replay and changes nothing, while any other valid command with the same
    identifier is refused and changes nothing. *)
Theorem replay_recorded_forever r c deliveries :
  (CommandReplay_Record r c).2 = (false, None) ->
  let r' := (CommandReplay_run (CommandReplay_Record r c).1 deliveries).1 in
  CommandReplay_Record r' c = (r', (true, None)) /\
  forall c', command_ID c' = command_ID c -> c' <> c ->
    exists err, CommandReplay_Record r' c' = (r', (false, Some err)).
Proof.
  intros H0 r'.
  assert (Command_Validate c = None /\
    replay_commands (CommandReplay_Record r c).1 !! command_ID c = Some c) as [Hv Hl].
  { pose proof (Record_cases r c) as Hc. destruct (CommandReplay_Record r c) as [r1 [? ?]].
    simpl in *. destruct Hc as [(? & _ & _ & _ & ->)|[(_ & -> & _)|(_ & ? & _)]]; [|done|naive_solver].
    split; [done|]. simpl. by rewrite lookup_insert_eq. }
  assert (Hl' : replay_commands r' !! command_ID c = Some c).
  { unfold r'. pose proof (admitted_fresh (CommandReplay_Record r c).1 deliveries) as Ha.
    destruct (CommandReplay_run _ deliveries) as [r2 outcomes]. by apply Ha. }
  split.
  - unfold CommandReplay_Record. rewrite Hv, Hl'. by rewrite !bool_decide_eq_true_2.
  - intros c' Hid Hne. unfold CommandReplay_Record.
    destruct (Command_Validate c'); [eauto|]. rewrite Hid, Hl'.
    case_bool_decide; simpl; [|eauto]. rewrite bool_decide_eq_false_2 by congruence. simpl. eauto.
Qed.

(** ** The hypotheses can hold *)

Definition example_command : Command :=
  mkCommand "c1" 1 "e1" ExecutionReserved
    "0123456789abcdef0123456789abcdef0123456789abcdef0123456789abcdef".
Lemma example_recorded : (CommandReplay_Record NewCommandReplay example_command).2 = (false, None).
Proof. vm_compute. reflexivity. Qed.

Lemma replay_recorded_forever_witness :
  let r' := (CommandReplay_run (CommandReplay_Record NewCommandReplay example_command).1
               [example_command]).1 in
  CommandReplay_Record r' example_command = (r', (true, None)).
Proof. exact (proj1 (replay_recorded_forever _ _ [example_command] example_recorded)). Defined.
