(* ===== verification/SlotLedger.v ===== *)
(** * The slot ledger (internal/domain/slot_ledger.go)

    Which target owns which concrete runner slot.  [slot.Owner] is a pointer in
    the source, but it is always a fresh copy reachable from one map entry only
    ([Claim] copies the caller's value, [Slots] copies it out), so an owner is a
    value here.  The ledger's mutex makes every method one atomic step. *)

From S2P Require Import Prelude GoStd Domain Execution.

(** ** Data *)

(* src: internal/domain/slot_ledger.go:18-21 SlotOwner *)
Record SlotOwner := mkSlotOwner {
  owner_TargetID : TargetID;
  owner_ExecutionID : ExecutionID;
}.
#[export] Instance SlotOwner_eq_dec : EqDecision SlotOwner.
Proof. solve_decision. Defined.

(* src: internal/domain/slot_ledger.go:23-25 SlotOwner.Validate *)
Definition SlotOwner_Validate (o : SlotOwner) : error :=
  required (owner_TargetID o) "slot.owner.target_id".

(* src: internal/domain/slot_ledger.go:27-30 Slot *)
Record Slot := mkSlot { slot_Key : SlotKey; slot_Owner : option SlotOwner }.
#[export] Instance Slot_eq_dec : EqDecision Slot.
Proof. solve_decision. Defined.

(* src: internal/domain/slot_ledger.go:34-39 SlotLedger *)
Record SlotLedger := mkSlotLedger {
  ledger_slots : gmap SlotKey Slot;
  ledger_fleetMaximum : Z;
  ledger_claimed : Z;
}.

(** ** Construction *)

(** [for index := 0; index < node.MaxRunners; index++]: the free slots of one
    node added to the map. *)
(* src: internal/domain/slot_ledger.go:52-55 NewSlotLedger *)
Definition add_node_slots (node : Node) (slots : gmap SlotKey Slot) : gmap SlotKey Slot :=
  foldl (fun slots index =>
           let key := mkSlotKey (node_ID node) index in <[key := mkSlot key None]> slots)
    slots (seqZ 0 (node_MaxRunners node)).

(** The loop over [nodes]. *)
(* src: internal/domain/slot_ledger.go:44-56 NewSlotLedger *)
Fixpoint add_nodes (nodes : list Node) (nodeIDs : gset string) (slots : gmap SlotKey Slot)
    : result (gmap SlotKey Slot) :=
  match nodes with
  | [] => Ok slots
  | node :: nodes' =>
      tryr Node_Validate node ;;
      if bool_decide (node_ID node ∈ nodeIDs) then
        Err (domain_invalid "duplicate_node_id" "nodes" "contains duplicate node id")
      else add_nodes nodes' ({[node_ID node]} ∪ nodeIDs) (add_node_slots node slots)
  end.

(* src: internal/domain/slot_ledger.go:41-70 NewSlotLedger *)
Definition NewSlotLedger (nodes : list Node) (fleetMaximum : option Z) : result SlotLedger :=
  let! slots := add_nodes nodes ∅ ∅ ;;
  let capacity := Z.of_nat (size slots) in
  match fleetMaximum with
  | None => Ok (mkSlotLedger slots capacity 0)
  | Some fleetMaximum =>
      if fleetMaximum <? 1 then
        Err (domain_invalid "invalid_fleet_maximum" "fleet_maximum" "must be at least one")
      else if fleetMaximum >? capacity then
        Err (domain_invalid "fleet_maximum_exceeds_slots" "fleet_maximum"
               "must not exceed the concrete slot capacity")
      else Ok (mkSlotLedger slots fleetMaximum 0)
  end.

(** ** Operations *)

(* src: internal/domain/slot_ledger.go:80-80 SlotLedger.Claim *)
Definition slot_not_found : GoError :=
  domain_invalid "slot_not_found" "slot" "does not identify a configured concrete slot".

(* src: internal/domain/slot_ledger.go:72-93 SlotLedger.Claim *)
Definition SlotLedger_Claim (l : SlotLedger) (key : SlotKey) (owner : SlotOwner)
    : SlotLedger * error :=
  match SlotOwner_Validate owner with
  | Some err => (l, Some err)
  | None =>
      match ledger_slots l !! key with
      | None => (l, Some slot_not_found)
      | Some slot =>
          match slot_Owner slot with
          | Some _ => (l, Some (domain_invalid "slot_already_claimed" "slot" "is already owned"))
          | None =>
              if ledger_claimed l >=? ledger_fleetMaximum l then
                (l, Some (domain_invalid "fleet_capacity_exhausted" "fleet_maximum"
                            "has no remaining backed capacity"))
              else
                (mkSlotLedger (<[key := mkSlot (slot_Key slot) (Some owner)]> (ledger_slots l))
                   (ledger_fleetMaximum l) (ledger_claimed l + 1), None)
          end
      end
  end.

(* src: internal/domain/slot_ledger.go:97-119 SlotLedger.BindExecution *)
Definition SlotLedger_BindExecution (l : SlotLedger) (key : SlotKey) (targetID : TargetID)
    (executionID : ExecutionID) : SlotLedger * error :=
  match required executionID "slot.owner.execution_id" with
  | Some err => (l, Some err)
  | None =>
      match ledger_slots l !! key with
      | None => (l, Some slot_not_found)
      | Some slot =>
          match slot_Owner slot with
          | None => (l, Some (domain_invalid "slot_not_claimed" "slot"
                                "must be reserved before binding an execution"))
          | Some owner =>
              if owner_TargetID owner != targetID then
                (l, Some (domain_invalid "slot_owner_mismatch" "slot.owner.target_id"
                            "does not match the existing reservation"))
              else if (owner_ExecutionID owner != "") &&
                      (owner_ExecutionID owner != executionID) then
                (l, Some (domain_invalid "slot_execution_already_bound" "slot.owner.execution_id"
                            "is already bound to another execution"))
              else
                (mkSlotLedger
                   (<[key := mkSlot (slot_Key slot)
                               (Some (mkSlotOwner (owner_TargetID owner) executionID))]>
                      (ledger_slots l))
                   (ledger_fleetMaximum l) (ledger_claimed l), None)
          end
      end
  end.

(* src: internal/domain/slot_ledger.go:121-141 SlotLedger.Release *)
Definition SlotLedger_Release (l : SlotLedger) (key : SlotKey) (owner : SlotOwner)
    : SlotLedger * error :=
  match SlotOwner_Validate owner with
  | Some err => (l, Some err)
  | None =>
      match ledger_slots l !! key with
      | None => (l, Some slot_not_found)
      | Some slot =>
          match slot_Owner slot with
          | None => (l, Some (domain_invalid "slot_not_claimed" "slot" "is already free"))
          | Some current =>
              if current != owner then
                (l, Some (domain_invalid "slot_owner_mismatch" "slot.owner"
                            "does not match the current owner"))
              else
                (mkSlotLedger (<[key := mkSlot (slot_Key slot) None]> (ledger_slots l))
                   (ledger_fleetMaximum l) (ledger_claimed l - 1), None)
          end
      end
  end.

(* src: internal/domain/slot_ledger.go:143-147 SlotLedger.FleetMaximum *)
Definition SlotLedger_FleetMaximum (l : SlotLedger) : Z := ledger_fleetMaximum l.

(* src: internal/domain/slot_ledger.go:149-153 SlotLedger.Claimed *)
Definition SlotLedger_Claimed (l : SlotLedger) : Z := ledger_claimed l.

(** The comparison [Slots] sorts with. *)
(* src: internal/domain/slot_ledger.go:166-171 SlotLedger.Slots *)
Definition slot_less (a b : Slot) : bool :=
  if slot_NodeID (slot_Key a) != slot_NodeID (slot_Key b) then
    string_less (slot_NodeID (slot_Key a)) (slot_NodeID (slot_Key b))
  else slot_Index (slot_Key a) <? slot_Index (slot_Key b).

(* src: internal/domain/slot_ledger.go:155-173 SlotLedger.Slots *)
Definition SlotLedger_Slots (l : SlotLedger) : list Slot :=
  sort_slice slot_less (map snd (map_to_list (ledger_slots l))).

(** The loop of [Validate] over the slots, with its running count. *)
(* src: internal/domain/slot_ledger.go:187-197 SlotLedger.Validate *)
Fixpoint validate_slots (entries : list (SlotKey * Slot)) (claimed : Z) : result Z :=
  match entries with
  | [] => Ok claimed
  | (key, slot) :: entries' =>
      if key != slot_Key slot then
        Err (PlainError "domain ledger invalid: slot key mismatch")
      else
        match slot_Owner slot with
        | Some owner => tryr SlotOwner_Validate owner ;; validate_slots entries' (claimed + 1)
        | None => validate_slots entries' claimed
        end
  end.

(* src: internal/domain/slot_ledger.go:177-205 SlotLedger.Validate *)
Definition SlotLedger_Validate (l : SlotLedger) : error :=
  if ledger_fleetMaximum l <? 0 then
    Some (PlainError "domain ledger invalid: negative fleet maximum")
  else if ledger_fleetMaximum l >? Z.of_nat (size (ledger_slots l)) then
    Some (PlainError "domain ledger invalid: fleet maximum exceeds slots")
  else
    match validate_slots (map_to_list (ledger_slots l)) 0 with
    | Err err => Some err
    | Ok claimed =>
        if claimed != ledger_claimed l then
          Some (PlainError "domain ledger invalid: claimed count mismatch")
        else if claimed >? ledger_fleetMaximum l then
          Some (PlainError "domain ledger invalid: capacity overflow")
        else None
    end.

(** ** Specifications *)

Definition slot_claimed (_ : SlotKey) (s : Slot) : bool := bool_decide (is_Some (slot_Owner s)).

(** A slot is stored under its own key, and an owner names a target. *)
Definition slot_ok (key : SlotKey) (s : Slot) : Prop :=
  slot_Key s = key /\ forall o, slot_Owner s = Some o -> SlotOwner_Validate o = None.

(** The ledger's invariant. *)
Record ledger_wf (l : SlotLedger) : Prop := {
  lwf_slots : map_Forall slot_ok (ledger_slots l);
  lwf_count : ledger_claimed l = count_map slot_claimed (ledger_slots l);
  lwf_max : 0 <= ledger_fleetMaximum l <= Z.of_nat (size (ledger_slots l));
  lwf_bound : ledger_claimed l <= ledger_fleetMaximum l;
}.

(** The abstract ledger: a set of slots, a bound, and a partial map from slots
    to owners. *)
Record ownership := mkOwnership {
  own_slots : gset SlotKey;
  own_max : Z;
  own_owners : gmap SlotKey SlotOwner;
}.

Definition ledger_abs (l : SlotLedger) : ownership :=
  mkOwnership (dom (ledger_slots l)) (ledger_fleetMaximum l)
    (omap slot_Owner (ledger_slots l)).

Inductive own_op :=
  | OpClaim (key : SlotKey) (owner : SlotOwner)
  | OpBind (key : SlotKey) (targetID : TargetID) (executionID : ExecutionID)
  | OpRelease (key : SlotKey) (owner : SlotOwner).

(** What the ledger promises: a slot is claimed only when it is free and the
    bound leaves room; an execution is bound to the claim it belongs to, at most
    one per claim; a claim ends only for its exact current owner. *)
Inductive own_step : ownership -> own_op -> ownership -> Prop :=
  | own_claim slots max owners key owner :
      required (owner_TargetID owner) "slot.owner.target_id" = None ->
      key ∈ slots -> owners !! key = None -> Z.of_nat (size owners) < max ->
      own_step (mkOwnership slots max owners) (OpClaim key owner)
        (mkOwnership slots max (<[key := owner]> owners))
  | own_bind slots max owners key targetID current executionID :
      required executionID "slot.owner.execution_id" = None ->
      owners !! key = Some (mkSlotOwner targetID current) ->
      current = "" \/ current = executionID ->
      own_step (mkOwnership slots max owners) (OpBind key targetID executionID)
        (mkOwnership slots max (<[key := mkSlotOwner targetID executionID]> owners))
  | own_release slots max owners key owner :
      required (owner_TargetID owner) "slot.owner.target_id" = None ->
      owners !! key = Some owner ->
      own_step (mkOwnership slots max owners) (OpRelease key owner)
        (mkOwnership slots max (delete key owners)).

Definition ledger_apply (l : SlotLedger) (op : own_op) : SlotLedger * error :=
  match op with
  | OpClaim key owner => SlotLedger_Claim l key owner
  | OpBind key targetID executionID => SlotLedger_BindExecution l key targetID executionID
  | OpRelease key owner => SlotLedger_Release l key owner
  end.

(** ** Lemmas *)

#[export] Instance slot_less_order : WeakOrder slot_less.
Proof.
  apply (lex_weak (fun s => slot_NodeID (slot_Key s)) string_less
           (fun a b => slot_Index (slot_Key a) <? slot_Index (slot_Key b))); [apply _|].
  split; intros *; rewrite ?Z.ltb_lt, ?Z.ltb_ge; lia.
Qed.

Lemma required_nonempty value field : required value field = None -> value <> "".
Proof. intros H ->. by vm_compute in H. Qed.

Lemma slot_claimed_Some k s o : slot_Owner s = Some o -> slot_claimed k s = true.
Proof. intros H. apply bool_decide_eq_true_2. rewrite H. by eexists. Qed.
Lemma slot_claimed_None k s : slot_Owner s = None -> slot_claimed k s = false.
Proof. intros H. apply bool_decide_eq_false_2. rewrite H. by intros [? ?]. Qed.

Lemma omap_claimed (slots : gmap SlotKey Slot) :
  count_map slot_claimed slots = Z.of_nat (size (omap slot_Owner slots)).
Proof.
  induction slots as [|k s slots Hk IH] using map_ind.
  { by rewrite count_map_empty, omap_empty, map_size_empty. }
  rewrite count_map_insert_new, IH by done.
  destruct (slot_Owner s) as [o|] eqn:Ho.
  - rewrite omap_insert_Some with (y := o) by done. rewrite (slot_claimed_Some k s o) by done.
    rewrite map_size_insert_None by (rewrite lookup_omap, Hk; done). lia.
  - rewrite omap_insert_None by done. rewrite (slot_claimed_None k s) by done.
    rewrite delete_id by (rewrite lookup_omap, Hk; done). lia.
Qed.

Lemma validate_slots_spec entries n :
  (forall c, validate_slots entries n = Ok c ->
     c = n + count_list slot_claimed entries /\ Forall (fun '(k, s) => slot_ok k s) entries) /\
  (Forall (fun '(k, s) => slot_ok k s) entries ->
     validate_slots entries n = Ok (n + count_list slot_claimed entries)).
Proof.
  revert n. induction entries as [|[k s] entries IH]; intros n; simpl.
  { split; [intros c [= <-]; split; [lia|constructor]|intros _; f_equal; lia]. }
  destruct (slot_Owner s) as [o|] eqn:Ho;
    [rewrite (slot_claimed_Some k s o) by done|rewrite (slot_claimed_None k s) by done]; split.
  - intros c. case_bool_decide as Hk; simpl; [|done].
    destruct (SlotOwner_Validate o) eqn:Hv; [done|]. intros [-> Hf]%IH.
    split; [lia|]. constructor; [|done]. split; [done|]. intros o' Ho'. congruence.
  - intros [[<- Hv] Hf]%Forall_cons. rewrite bool_decide_eq_true_2 by done. simpl.
    rewrite (Hv o Ho). destruct (IH (n + 1)) as [_ ->]; [|done]. f_equal. lia.
  - intros c. case_bool_decide as Hk; simpl; [|done]. intros [-> Hf]%IH.
    split; [lia|]. constructor; [|done]. split; [done|]. intros o' Ho'. congruence.
  - intros [[<- Hv] Hf]%Forall_cons. rewrite bool_decide_eq_true_2 by done. simpl.
    by destruct (IH n) as [_ ->].
Qed.

(** [Validate] decides the invariant. *)
Lemma SlotLedger_Validate_iff l : SlotLedger_Validate l = None <-> ledger_wf l.
Proof.
  unfold SlotLedger_Validate.
  destruct (validate_slots_spec (map_to_list (ledger_slots l)) 0) as [Hok Hwf].
  split.
  - destruct (Z.ltb_spec (ledger_fleetMaximum l) 0); [done|].
    rewrite Z.gtb_ltb. destruct (Z.ltb_spec (Z.of_nat (size (ledger_slots l))) (ledger_fleetMaximum l)); [done|].
    destruct (validate_slots _ _) as [c|] eqn:E; [|done].
    destruct (Hok _ eq_refl) as [-> Hf]. case_bool_decide as Hc; simpl; [|done].
    rewrite Z.gtb_ltb. destruct (Z.ltb_spec (ledger_fleetMaximum l) (0 + count_list slot_claimed (map_to_list (ledger_slots l)))); [done|].
    intros _. split; [by apply map_Forall_to_list|unfold count_map; lia|lia|lia].
  - intros [Hs Hc Hm Hb]. rewrite (proj2 (Z.ltb_ge _ _)) by lia.
    rewrite Z.gtb_ltb, (proj2 (Z.ltb_ge _ _)) by lia.
    rewrite Hwf by (by apply map_Forall_to_list in Hs).
    change (count_list slot_claimed _) with (count_map slot_claimed (ledger_slots l)).
    rewrite bool_decide_eq_true_2 by lia. simpl.
    by rewrite Z.gtb_ltb, (proj2 (Z.ltb_ge _ _)) by lia.
Qed.

(** Replacing the owner of an existing slot. *)
Lemma ledger_set_owner_wf l key s owner claimed :
  ledger_wf l -> ledger_slots l !! key = Some s ->
  (forall o, owner = Some o -> SlotOwner_Validate o = None) ->
  claimed = ledger_claimed l - (if slot_claimed key s then 1 else 0)
            + (if bool_decide (is_Some owner) then 1 else 0) ->
  claimed <= ledger_fleetMaximum l ->
  ledger_wf (mkSlotLedger (<[key := mkSlot (slot_Key s) owner]> (ledger_slots l))
               (ledger_fleetMaximum l) claimed).
Proof.
  intros [Hs Hc Hm Hb] Hk Ho -> Hle. split; simpl; try done.
  - apply map_Forall_insert_2; [|done]. destruct (Hs _ _ Hk) as [<- _]. by split.
  - rewrite (count_map_insert _ _ _ _ _ Hk). 
    change (slot_claimed key (mkSlot _ owner)) with (bool_decide (is_Some owner)). lia.
  - rewrite map_size_insert_Some by eauto. done.
Qed.

Lemma ledger_set_owner_abs l key s owner claimed :
  ledger_slots l !! key = Some s ->
  ledger_abs (mkSlotLedger (<[key := mkSlot (slot_Key s) owner]> (ledger_slots l))
                (ledger_fleetMaximum l) claimed) =
  mkOwnership (dom (ledger_slots l)) (ledger_fleetMaximum l)
    (match owner with
     | Some o => <[key := o]> (omap slot_Owner (ledger_slots l))
     | None => delete key (omap slot_Owner (ledger_slots l))
     end).
Proof.
  intros Hk. unfold ledger_abs. simpl. f_equal.
  - rewrite dom_insert_L. apply elem_of_dom_2 in Hk. set_solver.
  - destruct owner as [o|]; [by apply omap_insert_Some|by apply omap_insert_None].
Qed.

Lemma ledger_abs_owner l key :
  own_owners (ledger_abs l) !! key = (ledger_slots l !! key) ≫= slot_Owner.
Proof. apply lookup_omap. Qed.

Lemma ledger_abs_size l : ledger_wf l -> Z.of_nat (size (own_owners (ledger_abs l))) = ledger_claimed l.
Proof. intros Hw. simpl. by rewrite <- omap_claimed, (lwf_count _ Hw). Qed.

(** An owner in the abstraction is the owner of a configured slot. *)
Lemma ledger_abs_lookup l key owner :
  own_owners (ledger_abs l) !! key = Some owner ->
  exists s, ledger_slots l !! key = Some s /\ slot_Owner s = Some owner.
Proof. rewrite ledger_abs_owner. intros (s & Hs & Ho)%bind_Some. eauto. Qed.

(** [op] leaves the ledger alone, and the abstract ledger refuses it too. *)
Definition op_refused (l : SlotLedger) (op : own_op) (l' : SlotLedger) : Prop :=
  l' = l /\ forall o', ~ own_step (ledger_abs l) op o'.

(** Refute an abstract step that contradicts what the operation found. *)
Ltac refute_own_step :=
  split; [done|]; intros o' Hstep; inversion Hstep; subst; clear Hstep;
  repeat match goal with
  | H : _ ∈ dom _ |- _ => apply elem_of_dom in H as [? ?]
  | H : omap slot_Owner (ledger_slots ?l) !! _ = Some _ |- _ =>
      apply (ledger_abs_lookup l) in H as (? & ? & ?)
  | H : omap slot_Owner _ !! _ = None |- _ => rewrite lookup_omap in H
  | H : ledger_slots _ !! _ = Some _ |- _ => rewrite H in *; clear H
  | H1 : slot_Owner ?s = Some _, H2 : slot_Owner ?s = Some _ |- _ => rewrite H1 in H2
  | H : Some _ = Some _ |- _ => injection H as H; subst
  end; unfold SlotOwner_Validate in *; simplify_eq/=; try congruence.

Lemma Claim_refines l key owner :
  ledger_wf l ->
  let '(l', err) := SlotLedger_Claim l key owner in
  ledger_wf l' /\
  match err with
  | None => own_step (ledger_abs l) (OpClaim key owner) (ledger_abs l')
  | Some _ => op_refused l (OpClaim key owner) l'
  end.
Proof.
  intros Hw. unfold SlotLedger_Claim.
  destruct (SlotOwner_Validate owner) as [err|] eqn:Hv; [split; [done|refute_own_step]|].
  destruct (ledger_slots l !! key) as [s|] eqn:Hk; [|split; [done|refute_own_step]].
  destruct (slot_Owner s) as [o|] eqn:Ho; [split; [done|refute_own_step]|].
  pose proof (ledger_abs_size l Hw) as Hsize. simpl in Hsize.
  rewrite Z.geb_leb. destruct (Z.leb_spec (ledger_fleetMaximum l) (ledger_claimed l)).
  { split; [done|]. refute_own_step. lia. }
  split.
  - apply ledger_set_owner_wf; try done; [by intros ? [= ->]| |lia].
    rewrite (slot_claimed_None key s Ho), bool_decide_eq_true_2 by eauto. lia.
  - rewrite ledger_set_owner_abs by done. unfold ledger_abs. constructor; [done| | |simpl; lia].
    + by eapply elem_of_dom_2.
    + rewrite lookup_omap, Hk. done.
Qed.

Lemma Bind_refines l key targetID executionID :
  ledger_wf l ->
  let '(l', err) := SlotLedger_BindExecution l key targetID executionID in
  ledger_wf l' /\
  match err with
  | None => own_step (ledger_abs l) (OpBind key targetID executionID) (ledger_abs l')
  | Some _ => op_refused l (OpBind key targetID executionID) l'
  end.
Proof.
  intros Hw. unfold SlotLedger_BindExecution.
  destruct (required executionID _) as [err|] eqn:Hv; [split; [done|refute_own_step]|].
  destruct (ledger_slots l !! key) as [s|] eqn:Hk; [|split; [done|refute_own_step]].
  destruct (slot_Owner s) as [[t0 e0]|] eqn:Ho; [|split; [done|refute_own_step]].
  case_bool_decide as Ht; simpl in *; [|split; [done|refute_own_step]].
  destruct (decide (e0 = "" \/ e0 = executionID)) as [He|He].
  2: { rewrite !bool_decide_eq_false_2 by tauto. simpl. split; [done|]. refute_own_step. }
  assert ((e0 != "") && (e0 != executionID) = false) as ->.
  { destruct He as [He|He]; rewrite (bool_decide_eq_true_2 _ He); simpl; [done|by rewrite andb_false_r]. }
  split.
  - apply ledger_set_owner_wf; try done.
    + intros o' [= <-]. exact (proj2 (lwf_slots _ Hw _ _ Hk) _ Ho).
    + rewrite (slot_claimed_Some key s _ Ho), bool_decide_eq_true_2 by eauto. lia.
    + apply (lwf_bound _ Hw).
  - rewrite ledger_set_owner_abs by done. subst targetID. unfold ledger_abs.
    apply own_bind with (current := e0); [done| |done].
    rewrite lookup_omap, Hk. done.
Qed.

Lemma Release_refines l key owner :
  ledger_wf l ->
  let '(l', err) := SlotLedger_Release l key owner in
  ledger_wf l' /\
  match err with
  | None => own_step (ledger_abs l) (OpRelease key owner) (ledger_abs l')
  | Some _ => op_refused l (OpRelease key owner) l'
  end.
Proof.
  intros Hw. unfold SlotLedger_Release.
  destruct (SlotOwner_Validate owner) as [err|] eqn:Hv; [split; [done|refute_own_step]|].
  destruct (ledger_slots l !! key) as [s|] eqn:Hk; [|split; [done|refute_own_step]].
  destruct (slot_Owner s) as [o|] eqn:Ho; [|split; [done|refute_own_step]].
  case_bool_decide as Heq; simpl; [|split; [done|refute_own_step]]. subst o.
  pose proof (lwf_bound _ Hw). split.
  - apply ledger_set_owner_wf; try done; [|lia].
    rewrite (slot_claimed_Some key s owner Ho), bool_decide_eq_false_2 by (by intros [? ?]). lia.
  - rewrite ledger_set_owner_abs by done. unfold ledger_abs. apply own_release; [done|].
    rewrite lookup_omap, Hk. done.
Qed.

(** *** Construction *)

(** [node] contributes the slot [key]. *)
Definition node_has_slot (key : SlotKey) (node : Node) : bool :=
  (slot_NodeID key == node_ID node) && (0 <=? slot_Index key) &&
  (slot_Index key <? node_MaxRunners node).

Definition add_slots (id : NodeID) (indices : list Z) (slots : gmap SlotKey Slot) :=
  foldl (fun slots index => let key := mkSlotKey id index in <[key := mkSlot key None]> slots)
    slots indices.

Lemma add_slots_lookup id indices slots key :
  add_slots id indices slots !! key =
  if bool_decide (slot_NodeID key = id /\ slot_Index key ∈ indices)
  then Some (mkSlot key None) else slots !! key.
Proof.
  revert slots. induction indices as [|i indices IH]; intros slots; simpl.
  { by rewrite bool_decide_eq_false_2 by set_solver. }
  rewrite IH. destruct (decide (key = mkSlotKey id i)) as [->|Hne]; simpl.
  - rewrite lookup_insert_eq. rewrite (bool_decide_eq_true_2 (id = id /\ i ∈ i :: indices)) by set_solver.
    by destruct (bool_decide _).
  - rewrite lookup_insert_ne by done.
    rewrite (bool_decide_ext (slot_NodeID key = id /\ slot_Index key ∈ i :: indices)
               (slot_NodeID key = id /\ slot_Index key ∈ indices)); [done|].
    rewrite elem_of_cons. split; [|tauto]. intros [Hid [Hi|?]]; [|tauto].
    destruct Hne. destruct key; simpl in *; congruence.
Qed.

Lemma add_slots_size id indices slots :
  NoDup indices -> (forall i, slots !! mkSlotKey id i = None) ->
  size (add_slots id indices slots) = (length indices + size slots)%nat.
Proof.
  intros Hnd Hfresh. enough (forall l, NoDup l -> (forall i, i ∈ l -> slots !! mkSlotKey id i = None) ->
    size (add_slots id l slots) = (length l + size slots)%nat) by auto.
  clear. intros l Hnd. revert slots. induction Hnd as [|i l Hi _ IH]; intros slots Hf; simpl; [done|].
  rewrite IH.
  - rewrite map_size_insert_None by (apply Hf; set_solver). lia.
  - intros j Hj. rewrite lookup_insert_ne; [apply Hf; set_solver|]. intros [= ->]. contradiction.
Qed.

Lemma node_slots_lookup node slots key :
  add_node_slots node slots !! key =
  if node_has_slot key node then Some (mkSlot key None) else slots !! key.
Proof.
  change (add_node_slots node slots) with
    (add_slots (node_ID node) (seqZ 0 (node_MaxRunners node)) slots).
  rewrite add_slots_lookup. unfold node_has_slot.
  destruct (decide (slot_NodeID key = node_ID node)) as [He|He].
  - rewrite (bool_decide_eq_true_2 _ He). simpl.
    destruct (Z.leb_spec 0 (slot_Index key)), (Z.ltb_spec (slot_Index key) (node_MaxRunners node)); simpl;
      [rewrite bool_decide_eq_true_2; [done|]|rewrite bool_decide_eq_false_2; [done|]..];
      rewrite elem_of_seqZ; [split; [done|lia]|intros [_ ?]; lia..].
  - rewrite !bool_decide_eq_false_2; [done|done|tauto].
Qed.

Lemma node_slots_size node slots :
  0 <= node_MaxRunners node -> (forall i, slots !! mkSlotKey (node_ID node) i = None) ->
  Z.of_nat (size (add_node_slots node slots)) = node_MaxRunners node + Z.of_nat (size slots).
Proof.
  intros Hmax Hf. change (add_node_slots node slots) with
    (add_slots (node_ID node) (seqZ 0 (node_MaxRunners node)) slots).
  rewrite add_slots_size by (done || apply NoDup_seqZ). rewrite length_seqZ. lia.
Qed.

Definition total_runners (nodes : list Node) : Z :=
  foldr (fun node n => node_MaxRunners node + n) 0 nodes.

Lemma Node_Validate_max node : Node_Validate node = None -> 1 <= node_MaxRunners node.
Proof.
  unfold Node_Validate. repeat case_match; try done. intros _.
  match goal with H : (_ <? 1) = false |- _ => apply Z.ltb_ge in H; lia end.
Qed.

Lemma add_nodes_spec nodes ids slots slots' :
  (forall key s, slots !! key = Some s -> slot_NodeID key ∈ ids) ->
  add_nodes nodes ids slots = Ok slots' ->
  (forall key, slots' !! key = if existsb (node_has_slot key) nodes then Some (mkSlot key None)
                               else slots !! key) /\
  Z.of_nat (size slots') = total_runners nodes + Z.of_nat (size slots) /\
  Forall (fun node => Node_Validate node = None /\ node_ID node ∉ ids) nodes /\
  NoDup (map node_ID nodes).
Proof.
  revert ids slots. induction nodes as [|node nodes IH]; intros ids slots Hids; simpl.
  { intros [= <-]. split_and!; [done|lia|constructor|constructor]. }
  destruct (Node_Validate node) eqn:Hv; [done|]. case_bool_decide as Hin; [done|].
  intros Hadd. apply IH in Hadd as (Hl & Hs & Hf & Hnd).
  - split_and!.
    + intros key. rewrite Hl, node_slots_lookup.
      destruct (node_has_slot key node), (existsb _ nodes); done.
    + rewrite Hs, node_slots_size; [fold (total_runners nodes); lia| |].
      * apply Node_Validate_max in Hv. lia.
      * intros i. destruct (slots !! _) eqn:E; [|done]. by apply Hids in E.
    + constructor; [done|]. eapply Forall_impl; [exact Hf|]. intros n [? Hn]. split; [done|].
      set_solver.
    + simpl. constructor; [|done]. intros (n & Heq & Hn)%list_elem_of_fmap.
      rewrite Forall_forall in Hf. destruct (Hf n Hn) as [_ Hni]. set_solver.
  - intros key s. rewrite node_slots_lookup. destruct (node_has_slot key node) eqn:Hh.
    + unfold node_has_slot in Hh. apply andb_prop in Hh as [[Hh _]%andb_prop _].
      apply bool_decide_eq_true_1 in Hh. set_solver.
    + intros ?%Hids. set_solver.
Qed.

(** What [NewSlotLedger] builds. *)
Lemma NewSlotLedger_spec nodes fleetMaximum l :
  NewSlotLedger nodes fleetMaximum = Ok l ->
  ledger_wf l /\ own_owners (ledger_abs l) = ∅ /\ ledger_claimed l = 0 /\
  (forall key, is_Some (ledger_slots l !! key) <-> exists node, node ∈ nodes /\ node_has_slot key node = true) /\
  Z.of_nat (size (ledger_slots l)) = total_runners nodes /\
  ledger_fleetMaximum l = default (total_runners nodes) fleetMaximum /\
  Forall (fun node => Node_Validate node = None) nodes /\ NoDup (map node_ID nodes).
Proof.
  unfold NewSlotLedger. destruct (add_nodes nodes ∅ ∅) as [slots|] eqn:Ha; [|done].
  apply add_nodes_spec in Ha as (Hl & Hs & Hf & Hnd); [|intros *; by rewrite lookup_empty].
  rewrite map_size_empty, Z.add_0_r in Hs.
  assert (Hfree : forall key s, slots !! key = Some s -> s = mkSlot key None).
  { intros key s. rewrite Hl, lookup_empty. destruct (existsb _ _); congruence. }
  assert (Hnone : omap slot_Owner slots = ∅).
  { apply map_eq. intros key. rewrite lookup_omap, lookup_empty.
    destruct (slots !! key) as [s|] eqn:E; [|done]. simpl. by rewrite (Hfree _ _ E). }
  intros Hok.
  assert (exists m, l = mkSlotLedger slots m 0 /\ 0 <= m <= Z.of_nat (size slots) /\
            m = default (total_runners nodes) fleetMaximum) as (m & -> & Hm & Hd).
  { destruct fleetMaximum as [m|]; [|injection Hok as <-; eexists; split; [done|simpl; lia]].
    destruct (Z.ltb_spec m 1); [done|]. rewrite Z.gtb_ltb in Hok.
    destruct (Z.ltb_spec (Z.of_nat (size slots)) m); [done|]. injection Hok as <-.
    exists m. simpl. split; [done|lia]. }
  split_and!; simpl; try done.
  - split; simpl; [|by rewrite omap_claimed, Hnone, map_size_empty|lia|lia].
    intros key s Hk. rewrite (Hfree _ _ Hk). by split.
  - intros key. rewrite Hl, lookup_empty. setoid_rewrite list_elem_of_In.
    destruct (existsb (node_has_slot key) nodes) eqn:E.
    + apply existsb_exists in E. naive_solver.
    + split; [by intros [? ?]|]. intros Hex. apply existsb_exists in Hex. congruence.
  - eapply Forall_impl; [exact Hf|]. by intros n [? _].
Qed.

(** ** The interface the scheduler relies on *)

(** A store of slot ownership: operations that implement the abstract steps,
    succeed whenever the abstract step is allowed, and otherwise change nothing. *)
Class OwnershipStore (L : Type) := {
  store_wf : L -> Prop;
  store_abs : L -> ownership;
  store_apply : L -> own_op -> L * error;
  store_apply_spec l op : store_wf l ->
    let '(l', err) := store_apply l op in
    store_wf l' /\
    match err with
    | None => own_step (store_abs l) op (store_abs l')
    | Some _ => l' = l /\ forall o', ~ own_step (store_abs l) op o'
    end;
}.

#[global] Arguments store_wf {L _} l : simpl never.
#[global] Arguments store_abs {L _} l : simpl never.
#[global] Arguments store_apply {L _} l op : simpl never.

#[export] Instance SlotLedger_store : OwnershipStore SlotLedger.
Proof.
  refine {| store_wf := ledger_wf; store_abs := ledger_abs; store_apply := ledger_apply |}.
  intros l op Hw. destruct op; simpl;
    [by apply Claim_refines|by apply Bind_refines|by apply Release_refines].
Defined.

Lemma own_step_det o op o1 o2 : own_step o op o1 -> own_step o op o2 -> o1 = o2.
Proof. intros H1 H2. destruct H1; inversion H2; subst; done. Qed.

Section store.
Context {L : Type} `{!OwnershipStore L}.
Implicit Types l : L.

Lemma store_applied l op l' :
  store_wf l -> store_apply l op = (l', None) ->
  store_wf l' /\ own_step (store_abs l) op (store_abs l').
Proof. intros Hw Ha. pose proof (store_apply_spec l op Hw) as H. by rewrite Ha in H. Qed.

Lemma store_allowed l op o' :
  store_wf l -> own_step (store_abs l) op o' ->
  exists l', store_apply l op = (l', None) /\ store_abs l' = o'.
Proof.
  intros Hw Hs. pose proof (store_apply_spec l op Hw) as H.
  destruct (store_apply l op) as [l' [err|]].
  - destruct H as (_ & _ & Hno). by destruct (Hno o').
  - destruct H as [_ Hs']. exists l'. split; [done|]. by eapply own_step_det.
Qed.

(** The three operations by what they do to the owners. *)
Lemma store_claimed l key owner l' :
  store_wf l -> store_apply l (OpClaim key owner) = (l', None) ->
  store_wf l' /\ own_slots (store_abs l') = own_slots (store_abs l) /\
  own_max (store_abs l') = own_max (store_abs l) /\
  own_owners (store_abs l') = <[key := owner]> (own_owners (store_abs l)) /\
  own_owners (store_abs l) !! key = None /\ key ∈ own_slots (store_abs l) /\
  Z.of_nat (size (own_owners (store_abs l))) < own_max (store_abs l).
Proof.
  intros Hw Ha. destruct (store_applied _ _ _ Hw Ha) as [Hw' Hs]. split; [done|].
  inversion Hs as [slots max owners ? ? Hr Hin Hf Hm E1 E2 E3| |]; subst. simpl. by split_and!.
Qed.

Lemma store_bound l key targetID executionID l' :
  store_wf l -> store_apply l (OpBind key targetID executionID) = (l', None) ->
  store_wf l' /\ own_slots (store_abs l') = own_slots (store_abs l) /\
  own_max (store_abs l') = own_max (store_abs l) /\
  own_owners (store_abs l') =
    <[key := mkSlotOwner targetID executionID]> (own_owners (store_abs l)).
Proof.
  intros Hw Ha. destruct (store_applied _ _ _ Hw Ha) as [Hw' Hs]. split; [done|].
  inversion Hs; subst. simpl. by split_and!.
Qed.

Lemma store_released l key owner l' :
  store_wf l -> store_apply l (OpRelease key owner) = (l', None) ->
  store_wf l' /\ own_slots (store_abs l') = own_slots (store_abs l) /\
  own_max (store_abs l') = own_max (store_abs l) /\
  own_owners (store_abs l') = delete key (own_owners (store_abs l)).
Proof.
  intros Hw Ha. destruct (store_applied _ _ _ Hw Ha) as [Hw' Hs]. split; [done|].
  inversion Hs; subst. simpl. by split_and!.
Qed.

Lemma store_claim_allowed l key owner :
  store_wf l -> required (owner_TargetID owner) "slot.owner.target_id" = None ->
  key ∈ own_slots (store_abs l) -> own_owners (store_abs l) !! key = None ->
  Z.of_nat (size (own_owners (store_abs l))) < own_max (store_abs l) ->
  exists l', store_apply l (OpClaim key owner) = (l', None).
Proof.
  intros Hw Hr Hk Hf Hm.
  destruct (store_abs l) as [slots max owners] eqn:Habs. simpl in *.
  edestruct (store_allowed l (OpClaim key owner)) as (l' & Ha & _); [done| |eauto].
  rewrite Habs. by apply own_claim.
Qed.

Lemma store_bind_allowed l key targetID current executionID :
  store_wf l -> required executionID "slot.owner.execution_id" = None ->
  own_owners (store_abs l) !! key = Some (mkSlotOwner targetID current) ->
  current = "" \/ current = executionID ->
  exists l', store_apply l (OpBind key targetID executionID) = (l', None).
Proof.
  intros Hw Hr Hk Hc.
  destruct (store_abs l) as [slots max owners] eqn:Habs. simpl in *.
  edestruct (store_allowed l (OpBind key targetID executionID)) as (l' & Ha & _); [done| |eauto].
  rewrite Habs. by apply own_bind with current.
Qed.

Lemma store_release_allowed l key owner :
  store_wf l -> required (owner_TargetID owner) "slot.owner.target_id" = None ->
  own_owners (store_abs l) !! key = Some owner ->
  exists l', store_apply l (OpRelease key owner) = (l', None).
Proof.
  intros Hw Hr Hk.
  destruct (store_abs l) as [slots max owners] eqn:Habs. simpl in *.
  edestruct (store_allowed l (OpRelease key owner)) as (l' & Ha & _); [done| |eauto].
  rewrite Habs. by apply own_release.
Qed.
End store.

(** ** Properties *)

(** The ledger implements the abstract ownership map.  Every operation keeps
    the invariant; it succeeds exactly when the abstract operation is allowed,
    with the abstract effect; and a refused operation changes nothing. *)
Theorem ledger_refines l op :
  ledger_wf l ->
  let '(l', err) := ledger_apply l op in
  ledger_wf l' /\
  match err with
  | None => own_step (ledger_abs l) op (ledger_abs l')
  | Some _ => l' = l /\ forall o', ~ own_step (ledger_abs l) op o'
  end.
Proof.
  intros Hw. destruct op; simpl;
    [by apply Claim_refines|by apply Bind_refines|by apply Release_refines].
Qed.

(** A ledger built from nodes has exactly the slots [0 .. MaxRunners-1] of
    each node, all free; its capacity is the sum of the node maxima, which is
    also the fleet maximum when none is given; and it passes [Validate]. *)
Theorem new_ledger_slots nodes fleetMaximum l :
  NewSlotLedger nodes fleetMaximum = Ok l ->
  SlotLedger_Validate l = None /\ SlotLedger_Claimed l = 0 /\
  (forall id i, is_Some (ledger_slots l !! mkSlotKey id i) <->
     exists node, node ∈ nodes /\ node_ID node = id /\ 0 <= i < node_MaxRunners node) /\
  Z.of_nat (length (SlotLedger_Slots l)) = total_runners nodes /\
  SlotLedger_FleetMaximum l = default (total_runners nodes) fleetMaximum.
Proof.
  intros H. apply NewSlotLedger_spec in H as (Hw & Ho & Hc & Hs & Hsz & Hm & _).
  split_and!; try done.
  - by apply SlotLedger_Validate_iff.
  - intros id i. rewrite Hs. unfold node_has_slot. simpl.
    setoid_rewrite andb_true_iff. setoid_rewrite andb_true_iff.
    setoid_rewrite bool_decide_eq_true. setoid_rewrite Z.leb_le. setoid_rewrite Z.ltb_lt. naive_solver.
  - unfold SlotLedger_Slots. rewrite sort_slice_perm, length_map, length_map_to_list. done.
Qed.

(** ** The hypotheses can hold *)

Definition example_ledger : SlotLedger :=
  mkSlotLedger {[mkSlotKey "a" 0 := mkSlot (mkSlotKey "a" 0) None]} 1 0.
Lemma example_ledger_new :
  NewSlotLedger [mkNode "a" "a" "s" 1 OSLinux ArchAMD64 1 NodeActive NodeOnline] None = Ok example_ledger.
Proof. vm_compute. reflexivity. Qed.
Lemma example_ledger_wf : ledger_wf example_ledger.
Proof. apply SlotLedger_Validate_iff. vm_compute. reflexivity. Qed.

Lemma ledger_refines_witness :
  ledger_wf (SlotLedger_Claim example_ledger (mkSlotKey "a" 0) (mkSlotOwner "t" "")).1.
Proof.
  pose proof (ledger_refines example_ledger (OpClaim (mkSlotKey "a" 0) (mkSlotOwner "t" ""))
                example_ledger_wf) as H. exact (proj1 H).
Defined.

Lemma new_ledger_slots_witness :
  SlotLedger_Validate example_ledger = None /\ SlotLedger_Claimed example_ledger = 0.
Proof.
  destruct (new_ledger_slots _ _ _ example_ledger_new) as (H1 & H2 & _). by split.
Defined.
