(* ===== verification/Scheduler.v ===== *)
(** * The scheduler (internal/scheduler/scheduler.go): data and operations

    The scheduler hands concrete runner slots to GitHub targets in round-robin
    order and keeps three indexes of who owns what: the domain ledger, [grants]
    by grant identifier and [grantBySlot] by slot.  Every exported method holds
    the scheduler's mutex for its whole body, so it is one atomic step here; a
    method that changes state returns the new state with its result.  Slices and
    pointers that the code copies on the way in are values.

    SchedulerFacts.v proves the invariant and the properties. *)

From S2P Require Import Prelude GoStd Domain Execution SlotLedger.

(** ** Data *)

(* src: internal/scheduler/scheduler.go:24-26 invalid *)
Definition scheduler_invalid (code field message : string) : GoError :=
  SchedulerError code field message.

(* src: internal/scheduler/scheduler.go:32-44 NodeSnapshot *)
Record NodeSnapshot := mkNodeSnapshot {
  ns_Node : Node;
  ns_Reconciled : bool;
  ns_NativeReady : bool;
  ns_AvailableMemoryBytes : Z;
  ns_ActiveExecutions : list ExecutionID;
  ns_CachedRunnerPackages : list string;
  ns_ExcludedTargets : list TargetID;
}.
#[export] Instance NodeSnapshot_eq_dec : EqDecision NodeSnapshot.
Proof. solve_decision. Defined.

(** The loop of [Validate] over the active executions. *)
(* src: internal/scheduler/scheduler.go:54-63 NodeSnapshot.Validate *)
Fixpoint validate_active (executionIDs : list ExecutionID) (executions : gset string) : error :=
  match executionIDs with
  | [] => None
  | executionID :: rest =>
      if TrimSpace executionID == "" then
        Some (scheduler_invalid "invalid_active_execution" "node.active_executions"
                "must not contain an empty execution id")
      else if bool_decide (executionID ∈ executions) then
        Some (scheduler_invalid "duplicate_active_execution" "node.active_executions"
                "must not contain a duplicate execution id")
      else validate_active rest ({[executionID]} ∪ executions)
  end.

(* src: internal/scheduler/scheduler.go:47-75 NodeSnapshot.Validate *)
Definition NodeSnapshot_Validate (snapshot : NodeSnapshot) : error :=
  try Node_Validate (ns_Node snapshot) ;;
  if Z.of_nat (length (ns_ActiveExecutions snapshot)) >? node_MaxRunners (ns_Node snapshot) then
    Some (scheduler_invalid "active_runners_exceed_node_maximum" "node.active_executions"
            "must not exceed node.max_runners")
  else
  try validate_active (ns_ActiveExecutions snapshot) ∅ ;;
  if existsb (fun packageID => TrimSpace packageID == "") (ns_CachedRunnerPackages snapshot) then
    Some (scheduler_invalid "invalid_cached_runner_package" "node.cached_runner_packages"
            "must not contain an empty package identifier")
  else if existsb (fun targetID => TrimSpace targetID == "") (ns_ExcludedTargets snapshot) then
    Some (scheduler_invalid "invalid_excluded_target" "node.excluded_targets"
            "must not contain an empty target identifier")
  else None.

(* src: internal/scheduler/scheduler.go:79-83 TargetSpec *)
Record TargetSpec := mkTargetSpec {
  spec_Target : GitHubTarget;
  spec_Profile : RunnerProfile;
  spec_RunnerPackage : string;
}.

(* src: internal/scheduler/scheduler.go:86-100 TargetSpec.Validate *)
Definition TargetSpec_Validate (spec : TargetSpec) : error :=
  try GitHubTarget_Validate (spec_Target spec) ;;
  try RunnerProfile_Validate (spec_Profile spec) ;;
  if target_RunnerProfileID (spec_Target spec) != profile_ID (spec_Profile spec) then
    Some (scheduler_invalid "target_profile_mismatch" "target.runner_profile_id"
            "must match the supplied runner profile")
  else if TrimSpace (spec_RunnerPackage spec) != spec_RunnerPackage spec then
    Some (scheduler_invalid "invalid_runner_package" "target.runner_package"
            "must not contain leading or trailing whitespace")
  else None.

(** [GrantRef] and [Grant] have the same four fields; [Grant.Ref] copies them. *)
(* src: internal/scheduler/scheduler.go:110-115 GrantRef *)
Record GrantRef := mkGrantRef {
  ref_ID : Z;
  ref_TargetID : TargetID;
  ref_Slot : SlotKey;
  ref_ExecutionID : ExecutionID;
}.
#[export] Instance GrantRef_eq_dec : EqDecision GrantRef.
Proof. solve_decision. Defined.

(* src: internal/scheduler/scheduler.go:117-131 GrantRef.validate *)
Definition GrantRef_validate (ref : GrantRef) : error :=
  if ref_ID ref == 0 then
    Some (scheduler_invalid "invalid_grant_id" "grant.id" "must be greater than zero")
  else if TrimSpace (ref_TargetID ref) == "" then
    Some (scheduler_invalid "invalid_grant_target" "grant.target_id" "must not be empty")
  else if TrimSpace (slot_NodeID (ref_Slot ref)) == "" then
    Some (scheduler_invalid "invalid_grant_slot" "grant.slot.node_id" "must not be empty")
  else if slot_Index (ref_Slot ref) <? 0 then
    Some (scheduler_invalid "invalid_grant_slot" "grant.slot.index" "must not be negative")
  else None.

(* src: internal/scheduler/scheduler.go:135-140 Grant *)
Record Grant := mkGrant {
  grant_ID : Z;
  grant_TargetID : TargetID;
  grant_Slot : SlotKey;
  grant_ExecutionID : ExecutionID;
}.
#[export] Instance Grant_eq_dec : EqDecision Grant.
Proof. solve_decision. Defined.

(* src: internal/scheduler/scheduler.go:143-150 Grant.Ref *)
Definition Grant_Ref (grant : Grant) : GrantRef :=
  mkGrantRef (grant_ID grant) (grant_TargetID grant) (grant_Slot grant) (grant_ExecutionID grant).

(* src: internal/scheduler/scheduler.go:154-157 TargetCapacity *)
Record TargetCapacity := mkTargetCapacity {
  capacity_TargetID : TargetID;
  capacity_Advertised : Z;
}.

(* src: internal/scheduler/scheduler.go:161-165 RestoredReservation *)
Record RestoredReservation := mkRestoredReservation {
  restored_TargetID : TargetID;
  restored_Slot : SlotKey;
  restored_ExecutionID : ExecutionID;
}.
#[export] Instance RestoredReservation_eq_dec : EqDecision RestoredReservation.
Proof. solve_decision. Defined.

(* src: internal/scheduler/scheduler.go:167-171 nodeState *)
Record nodeState := mkNodeState {
  state_snapshot : NodeSnapshot;
  state_cached : gset string;
  state_excluded : gset string;
}.

(* src: internal/scheduler/scheduler.go:175-188 Scheduler *)
Record Scheduler := mkScheduler {
  sched_ledger : SlotLedger;
  sched_nodes : gmap string nodeState;
  sched_targets : gmap string TargetSpec;
  sched_targetOrder : list TargetID;
  sched_nextTarget : Z;
  sched_nextGrantID : Z;
  sched_grants : gmap Z Grant;
  sched_grantBySlot : gmap SlotKey Z;
}.

(** ** Reads under the lock *)

(** [for _, grant := range scheduler.grants { if p(grant) { return true } }]. *)
Definition any_grant (p : Grant -> bool) (s : Scheduler) : bool :=
  existsb (fun '(_, grant) => p grant) (map_to_list (sched_grants s)).

(* src: internal/scheduler/scheduler.go:649-656 Scheduler.executionBackedOnNodeLocked *)
Definition executionBackedOnNodeLocked (s : Scheduler) (nodeID : NodeID)
    (executionID : ExecutionID) : bool :=
  any_grant (fun grant => (slot_NodeID (grant_Slot grant) == nodeID) &&
                          (grant_ExecutionID grant == executionID)) s.

(* src: internal/scheduler/scheduler.go:636-647 Scheduler.nodeOwnershipAlignedLocked *)
Definition nodeOwnershipAlignedLocked (s : Scheduler) (nodeID : NodeID) : bool :=
  match sched_nodes s !! nodeID with
  | None => false
  | Some node =>
      forallb (executionBackedOnNodeLocked s nodeID) (ns_ActiveExecutions (state_snapshot node))
  end.

(* src: internal/scheduler/scheduler.go:658-672 Scheduler.nodeReportsActiveExecutionLocked *)
Definition nodeReportsActiveExecutionLocked (s : Scheduler) (nodeID : NodeID)
    (executionID : ExecutionID) : bool :=
  if executionID == "" then false
  else
    match sched_nodes s !! nodeID with
    | None => false
    | Some node =>
        existsb (fun active => active == executionID) (ns_ActiveExecutions (state_snapshot node))
    end.

(* src: internal/scheduler/scheduler.go:674-684 Scheduler.unbackedActiveCountLocked *)
Definition unbackedActiveCountLocked (s : Scheduler) : Z :=
  foldr (fun '(nodeID, node) count =>
           foldr (fun executionID count =>
                    if negb (executionBackedOnNodeLocked s nodeID executionID)
                    then 1 + count else count)
             count (ns_ActiveExecutions (state_snapshot node)))
    0 (map_to_list (sched_nodes s)).

(* src: internal/scheduler/scheduler.go:686-688 Scheduler.occupiedCapacityLocked *)
Definition occupiedCapacityLocked (s : Scheduler) : Z :=
  SlotLedger_Claimed (sched_ledger s) + unbackedActiveCountLocked s.

(* src: internal/scheduler/scheduler.go:626-634 Scheduler.capacityLocked *)
Definition capacityLocked (s : Scheduler) (targetID : TargetID) : Z :=
  count_map (fun _ grant => grant_TargetID grant == targetID) (sched_grants s).

(* src: internal/scheduler/scheduler.go:602-609 Scheduler.Capacity *)
Definition Capacity (s : Scheduler) (targetID : TargetID) : result Z :=
  match sched_targets s !! targetID with
  | None => Err (scheduler_invalid "target_not_found" "target.id"
                   "does not identify a configured target")
  | Some _ => Ok (capacityLocked s targetID)
  end.

(* src: internal/scheduler/scheduler.go:613-624 Scheduler.Capacities *)
Definition Capacities (s : Scheduler) : list TargetCapacity :=
  map (fun targetID => mkTargetCapacity targetID (capacityLocked s targetID))
    (sched_targetOrder s).

(* src: internal/scheduler/scheduler.go:691-702 Scheduler.Grants *)
Definition Grants (s : Scheduler) : list Grant :=
  sort_slice (fun a b => grant_ID a <? grant_ID b) (map snd (map_to_list (sched_grants s))).

(* src: internal/scheduler/scheduler.go:705-707 Scheduler.FleetMaximum *)
Definition FleetMaximum (s : Scheduler) : Z := SlotLedger_FleetMaximum (sched_ledger s).

(* src: internal/scheduler/scheduler.go:710-714 Scheduler.ActiveGrantCount *)
Definition ActiveGrantCount (s : Scheduler) : Z := Z.of_nat (size (sched_grants s)).

(* src: internal/scheduler/scheduler.go:718-722 Scheduler.OccupiedCapacity *)
Definition OccupiedCapacity (s : Scheduler) : Z := occupiedCapacityLocked s.

(** ** Construction *)

(** Strings and slices are values here, so the copies [newNodeState] takes are
    the snapshot itself. *)
(* src: internal/scheduler/scheduler.go:256-272 newNodeState *)
Definition newNodeState (snapshot : NodeSnapshot) : result nodeState :=
  tryr NodeSnapshot_Validate snapshot ;;
  Ok (mkNodeState snapshot (list_to_set (ns_CachedRunnerPackages snapshot))
        (list_to_set (ns_ExcludedTargets snapshot))).

(** The comparison [restoreReservations] sorts with. *)
(* src: internal/scheduler/scheduler.go:276-284 Scheduler.restoreReservations *)
Definition reservation_less (a b : RestoredReservation) : bool :=
  if slot_NodeID (restored_Slot a) != slot_NodeID (restored_Slot b) then
    string_less (slot_NodeID (restored_Slot a)) (slot_NodeID (restored_Slot b))
  else if slot_Index (restored_Slot a) != slot_Index (restored_Slot b) then
    slot_Index (restored_Slot a) <? slot_Index (restored_Slot b)
  else string_less (restored_TargetID a) (restored_TargetID b).

(** The first loop of [restoreReservations]: it only reads. *)
(* src: internal/scheduler/scheduler.go:290-312 Scheduler.restoreReservations *)
Fixpoint check_reservations (targets : gmap string TargetSpec) (configuredSlots : gset SlotKey)
    (reservations : list RestoredReservation) (seenSlots : gset SlotKey)
    (seenExecutions : gset string) : error :=
  match reservations with
  | [] => None
  | reservation :: rest =>
      if targets !! restored_TargetID reservation == None then
        Some (scheduler_invalid "target_not_found" "reservation.target_id"
                "does not identify a configured target")
      else if negb (bool_decide (restored_Slot reservation ∈ configuredSlots)) then
        Some (scheduler_invalid "slot_not_found" "reservation.slot"
                "does not identify a configured concrete slot")
      else if bool_decide (restored_Slot reservation ∈ seenSlots) then
        Some (scheduler_invalid "duplicate_restored_slot" "reservation.slot"
                "must occur at most once")
      else
        let seenSlots := {[restored_Slot reservation]} ∪ seenSlots in
        if restored_ExecutionID reservation != "" then
          if TrimSpace (restored_ExecutionID reservation) == "" then
            Some (scheduler_invalid "invalid_execution_id" "reservation.execution_id"
                    "must not be whitespace")
          else if bool_decide (restored_ExecutionID reservation ∈ seenExecutions) then
            Some (scheduler_invalid "duplicate_restored_execution" "reservation.execution_id"
                    "must occur at most once")
          else check_reservations targets configuredSlots rest seenSlots
                 ({[restored_ExecutionID reservation]} ∪ seenExecutions)
        else check_reservations targets configuredSlots rest seenSlots seenExecutions
  end.

(** Record a grant under both indexes and advance the [uint64] identifier. *)
(* src: internal/scheduler/scheduler.go:336-338 Scheduler.restoreReservations *)
Definition index_grant (s : Scheduler) (ledger : SlotLedger) (grant : Grant) : Scheduler :=
  mkScheduler ledger (sched_nodes s) (sched_targets s) (sched_targetOrder s) (sched_nextTarget s)
    (wrap_uint64 (sched_nextGrantID s + 1))
    (<[grant_ID grant := grant]> (sched_grants s))
    (<[grant_Slot grant := grant_ID grant]> (sched_grantBySlot s)).

(** One round of the second loop of [restoreReservations]. *)
(* src: internal/scheduler/scheduler.go:318-338 Scheduler.restoreReservations *)
Definition restore_reservation (s : Scheduler) (reservation : RestoredReservation)
    : result Scheduler :=
  let slot := restored_Slot reservation in
  let targetID := restored_TargetID reservation in
  let executionID := restored_ExecutionID reservation in
  let '(ledger, err) := SlotLedger_Claim (sched_ledger s) slot (mkSlotOwner targetID "") in
  match err with
  | Some err => Err (WrappedError "restore claimed slot" err)
  | None =>
      let '(ledger, err) :=
        if executionID != "" then SlotLedger_BindExecution ledger slot targetID executionID
        else (ledger, None) in
      match err with
      | Some err => Err (WrappedError "restore execution binding" err)
      | None => Ok (index_grant s ledger (mkGrant (sched_nextGrantID s) targetID slot executionID))
      end
  end.

(* src: internal/scheduler/scheduler.go:317-339 Scheduler.restoreReservations *)
Fixpoint restore_loop (s : Scheduler) (reservations : list RestoredReservation)
    : result Scheduler :=
  match reservations with
  | [] => Ok s
  | reservation :: rest => let! s' := restore_reservation s reservation ;; restore_loop s' rest
  end.

(* src: internal/scheduler/scheduler.go:274-341 Scheduler.restoreReservations *)
Definition restoreReservations (s : Scheduler) (reservations : list RestoredReservation)
    : result Scheduler :=
  let reservations := sort_slice reservation_less reservations in
  let configuredSlots := list_to_set (map slot_Key (SlotLedger_Slots (sched_ledger s))) in
  tryr check_reservations (sched_targets s) configuredSlots reservations ∅ ∅ ;;
  if Z.of_nat (length reservations) >? SlotLedger_FleetMaximum (sched_ledger s) then
    Err (scheduler_invalid "restored_capacity_exceeds_fleet_maximum" "reservations"
           "contains more claims than fleetMaximum")
  else restore_loop s reservations.

(** The loop of [NewWithReservations] over the nodes. *)
(* src: internal/scheduler/scheduler.go:207-217 NewWithReservations *)
Fixpoint add_node_states (nodes : list NodeSnapshot) (nodeStates : gmap string nodeState)
    : result (gmap string nodeState) :=
  match nodes with
  | [] => Ok nodeStates
  | snapshot :: rest =>
      let! state := newNodeState snapshot ;;
      if nodeStates !! node_ID (ns_Node snapshot) is Some _ then
        Err (scheduler_invalid "duplicate_node_id" "nodes" "contains duplicate node id")
      else add_node_states rest (<[node_ID (ns_Node snapshot) := state]> nodeStates)
  end.

(** The loop over the targets; [cloneTargetSpec] copies the two profile pointers,
    which are values here. *)
(* src: internal/scheduler/scheduler.go:226-236 NewWithReservations *)
Fixpoint add_target_specs (targets : list TargetSpec) (targetSpecs : gmap string TargetSpec)
    : result (gmap string TargetSpec) :=
  match targets with
  | [] => Ok targetSpecs
  | spec :: rest =>
      tryr TargetSpec_Validate spec ;;
      if targetSpecs !! target_ID (spec_Target spec) is Some _ then
        Err (scheduler_invalid "duplicate_target_id" "targets" "contains duplicate target id")
      else add_target_specs rest (<[target_ID (spec_Target spec) := spec]> targetSpecs)
  end.

(* src: internal/scheduler/scheduler.go:199-254 NewWithReservations *)
Definition NewWithReservations (nodes : list NodeSnapshot) (targets : list TargetSpec)
    (fleetMaximum : option Z) (reservations : list RestoredReservation) : result Scheduler :=
  let! nodeStates := add_node_states nodes ∅ ;;
  let! ledger := NewSlotLedger (map ns_Node nodes) fleetMaximum ;;
  let! targetSpecs := add_target_specs targets ∅ ;;
  let targetOrder := sort_slice string_less (map (fun spec => target_ID (spec_Target spec)) targets) in
  restoreReservations (mkScheduler ledger nodeStates targetSpecs targetOrder 0 1 ∅ ∅) reservations.

(* src: internal/scheduler/scheduler.go:192-194 New *)
Definition New (nodes : list NodeSnapshot) (targets : list TargetSpec) (fleetMaximum : option Z)
    : result Scheduler :=
  NewWithReservations nodes targets fleetMaximum [].

(** ** Placement *)

(* src: internal/scheduler/scheduler.go:357-375 Scheduler.UpdateNode *)
Definition UpdateNode (s : Scheduler) (snapshot : NodeSnapshot) : Scheduler * error :=
  match newNodeState snapshot with
  | Err err => (s, Some err)
  | Ok state =>
      match sched_nodes s !! node_ID (ns_Node snapshot) with
      | None => (s, Some (scheduler_invalid "node_not_found" "node.id"
                            "does not identify a configured node"))
      | Some current =>
          let old := ns_Node (state_snapshot current) in
          if (node_OS old != node_OS (ns_Node snapshot)) ||
             (node_Architecture old != node_Architecture (ns_Node snapshot)) ||
             (node_MaxRunners old != node_MaxRunners (ns_Node snapshot)) then
            (s, Some (scheduler_invalid "node_topology_mismatch" "node"
                        "cannot change operating system, architecture, or maxRunners in place"))
          else
            (mkScheduler (sched_ledger s)
               (<[node_ID (ns_Node snapshot) := state]> (sched_nodes s))
               (sched_targets s) (sched_targetOrder s) (sched_nextTarget s) (sched_nextGrantID s)
               (sched_grants s) (sched_grantBySlot s), None)
      end
  end.

(* src: internal/scheduler/scheduler.go:504-518 eligible *)
Definition eligible (snapshot : NodeSnapshot) (profile : RunnerProfile) : bool :=
  if (node_AdministrativeState (ns_Node snapshot) != NodeActive) ||
     (node_ObservedState (ns_Node snapshot) != NodeOnline) ||
     negb (ns_Reconciled snapshot) || negb (ns_NativeReady snapshot) then false
  else if (if profile_OS profile is Some os then node_OS (ns_Node snapshot) != os else false)
  then false
  else if (if profile_Architecture profile is Some architecture
           then node_Architecture (ns_Node snapshot) != architecture else false) then false
  else ns_AvailableMemoryBytes snapshot >=? profile_MinAvailableMemoryBytes profile.

(* src: internal/scheduler/scheduler.go:435-440 candidate *)
Record candidate := mkCandidate {
  cand_slot : SlotKey;
  cand_activeRunners : Z;
  cand_availableMemory : Z;
  cand_packageCached : bool;
}.
#[export] Instance candidate_eq_dec : EqDecision candidate.
Proof. solve_decision. Defined.

(** The comparison of the ranking. *)
(* src: internal/scheduler/scheduler.go:485-500 Scheduler.candidatesLocked *)
Definition candidate_less (left right : candidate) : bool :=
  if cand_activeRunners left != cand_activeRunners right then
    cand_activeRunners left <? cand_activeRunners right
  else if cand_availableMemory left != cand_availableMemory right then
    cand_availableMemory left >? cand_availableMemory right
  else if cand_packageCached left != cand_packageCached right then cand_packageCached left
  else if slot_NodeID (cand_slot left) != slot_NodeID (cand_slot right) then
    string_less (slot_NodeID (cand_slot left)) (slot_NodeID (cand_slot right))
  else slot_Index (cand_slot left) <? slot_Index (cand_slot right).

(** [claimedByNode[nodeID]] after the first loop of [candidatesLocked]. *)
(* src: internal/scheduler/scheduler.go:443-446 Scheduler.candidatesLocked *)
Definition claimedByNode (s : Scheduler) (nodeID : NodeID) : Z :=
  count_map (fun slot _ => slot_NodeID slot == nodeID) (sched_grantBySlot s).

(** One round of the loop over the slots: the candidate the slot gives, if any. *)
(* src: internal/scheduler/scheduler.go:450-483 Scheduler.candidatesLocked *)
Definition slot_candidate (s : Scheduler) (target : TargetSpec) (slot : Slot)
    : option candidate :=
  match slot_Owner slot with
  | Some _ => None
  | None =>
      match sched_nodes s !! slot_NodeID (slot_Key slot) with
      | None => None
      | Some node =>
          if negb (eligible (state_snapshot node) (spec_Profile target)) ||
             negb (nodeOwnershipAlignedLocked s (slot_NodeID (slot_Key slot))) then None
          else if bool_decide (target_ID (spec_Target target) ∈ state_excluded node) then None
          else
            let activeRunners := Z.of_nat (length (ns_ActiveExecutions (state_snapshot node))) in
            let claimed := claimedByNode s (slot_NodeID (slot_Key slot)) in
            Some (mkCandidate (slot_Key slot)
                    (if claimed >? activeRunners then claimed else activeRunners)
                    (ns_AvailableMemoryBytes (state_snapshot node))
                    (if spec_RunnerPackage target == "" then false
                     else bool_decide (spec_RunnerPackage target ∈ state_cached node)))
      end
  end.

(* src: internal/scheduler/scheduler.go:442-502 Scheduler.candidatesLocked *)
Definition candidatesLocked (s : Scheduler) (target : TargetSpec) : list candidate :=
  sort_slice candidate_less (omap (slot_candidate s target) (SlotLedger_Slots (sched_ledger s))).

(** The loop of [GrantNext] that builds [demanded]. *)
(* src: internal/scheduler/scheduler.go:385-394 Scheduler.GrantNext *)
Fixpoint demand_set (targets : gmap string TargetSpec) (demand : list TargetID)
    (demanded : gset string) : result (gset string) :=
  match demand with
  | [] => Ok demanded
  | targetID :: rest =>
      if targets !! targetID == None then
        Err (scheduler_invalid "target_not_found" "demand.target_id"
               "does not identify a configured target")
      else if bool_decide (targetID ∈ demanded) then
        Err (scheduler_invalid "duplicate_demand_target" "demand.target_id"
               "must occur at most once")
      else demand_set targets rest ({[targetID]} ∪ demanded)
  end.

(** [scheduler.targets[targetID]]: the zero value when the key is absent. *)
Definition zero_TargetSpec : TargetSpec :=
  mkTargetSpec (mkGitHubTarget "" "" "" "" "" false "" "")
    (mkRunnerProfile "" "" None None 0 "" "") "".
(* src: internal/scheduler/scheduler.go:412-412 Scheduler.GrantNext *)
Definition target_spec (s : Scheduler) (targetID : TargetID) : TargetSpec :=
  default zero_TargetSpec (sched_targets s !! targetID).

(** A successful round: the grant, the indexes and the cursor. *)
(* src: internal/scheduler/scheduler.go:416-430 Scheduler.GrantNext *)
Definition grant_slot (s : Scheduler) (targetIndex : Z) (targetID : TargetID) (slot : SlotKey)
    : Scheduler * result (option Grant) :=
  let '(ledger, err) := SlotLedger_Claim (sched_ledger s) slot (mkSlotOwner targetID "") in
  match err with
  | Some err => (s, Err (WrappedError "claim ranked slot" err))
  | None =>
      let grant := mkGrant (sched_nextGrantID s) targetID slot "" in
      let s' := index_grant s ledger grant in
      (mkScheduler (sched_ledger s') (sched_nodes s') (sched_targets s') (sched_targetOrder s')
         (Z.rem (targetIndex + 1) (Z.of_nat (length (sched_targetOrder s))))
         (sched_nextGrantID s') (sched_grants s') (sched_grantBySlot s'),
       Ok (Some grant))
  end.

(** The round-robin loop over the offsets.  An index outside [targetOrder] would
    panic; the invariant excludes it. *)
(* src: internal/scheduler/scheduler.go:405-432 Scheduler.GrantNext *)
Fixpoint grant_scan (s : Scheduler) (demanded : gset string) (offsets : list Z)
    : Scheduler * result (option Grant) :=
  match offsets with
  | [] => (s, Ok None)
  | offset :: rest =>
      let targetIndex := Z.rem (sched_nextTarget s + offset)
                           (Z.of_nat (length (sched_targetOrder s))) in
      match (if targetIndex <? 0 then None else sched_targetOrder s !! Z.to_nat targetIndex) with
      | None => (s, Err (PlainError "panic: index out of range"))
      | Some targetID =>
          if negb (bool_decide (targetID ∈ demanded)) then grant_scan s demanded rest
          else
            match candidatesLocked s (target_spec s targetID) with
            | [] => grant_scan s demanded rest
            | best :: _ => grant_slot s targetIndex targetID (cand_slot best)
            end
      end
  end.

(** [Ok (Some grant)] is [(grant, true, nil)] and [Ok None] is [(Grant{}, false, nil)]. *)
(* src: internal/scheduler/scheduler.go:380-433 Scheduler.GrantNext *)
Definition GrantNext (s : Scheduler) (demand : list TargetID)
    : Scheduler * result (option Grant) :=
  match demand_set (sched_targets s) demand ∅ with
  | Err err => (s, Err err)
  | Ok demanded =>
      if (Z.of_nat (size demanded) == 0) || (Z.of_nat (length (sched_targetOrder s)) == 0)
      then (s, Ok None)
      else if occupiedCapacityLocked s >=? SlotLedger_FleetMaximum (sched_ledger s)
      then (s, Ok None)
      else if sched_nextGrantID s == 0 then
        (s, Err (scheduler_invalid "grant_id_exhausted" "grant.id"
                   "cannot allocate another unique grant id"))
      else grant_scan s demanded (seqZ 0 (Z.of_nat (length (sched_targetOrder s))))
  end.

(** ** Ownership changes *)

(* src: internal/scheduler/scheduler.go:590-599 Scheduler.lookupGrantIdentityLocked *)
Definition lookupGrantIdentityLocked (s : Scheduler) (ref : GrantRef) : result Grant :=
  match sched_grants s !! ref_ID ref with
  | None => Err (scheduler_invalid "grant_not_active" "grant.id"
                   "does not identify an active grant")
  | Some grant =>
      if (grant_ID grant != ref_ID ref) || (grant_TargetID grant != ref_TargetID ref) ||
         (grant_Slot grant != ref_Slot ref) then
        Err (scheduler_invalid "grant_reference_mismatch" "grant"
               "does not match the active grant identity")
      else Ok grant
  end.

(* src: internal/scheduler/scheduler.go:522-556 Scheduler.BindExecution *)
Definition BindExecution (s : Scheduler) (ref : GrantRef) (executionID : ExecutionID)
    : Scheduler * result Grant :=
  match GrantRef_validate ref with
  | Some err => (s, Err err)
  | None =>
  if TrimSpace executionID == "" then
    (s, Err (scheduler_invalid "invalid_execution_id" "execution.id" "must not be empty"))
  else
  match lookupGrantIdentityLocked s ref with
  | Err err => (s, Err err)
  | Ok grant =>
      if (ref_ExecutionID ref != "") && (ref_ExecutionID ref != grant_ExecutionID grant) then
        (s, Err (scheduler_invalid "grant_reference_mismatch" "grant.execution_id"
                   "does not match the active grant binding"))
      else if grant_ExecutionID grant != "" then
        if grant_ExecutionID grant != executionID then
          (s, Err (scheduler_invalid "grant_execution_mismatch" "execution.id"
                     "grant is already bound to another execution"))
        else (s, Ok grant)
      else if any_grant (fun existing => (grant_ID existing != grant_ID grant) &&
                                         (grant_ExecutionID existing == executionID)) s then
        (s, Err (scheduler_invalid "execution_already_bound" "execution.id"
                   "is already bound to another active grant"))
      else
        let '(ledger, err) := SlotLedger_BindExecution (sched_ledger s) (grant_Slot grant)
                                (grant_TargetID grant) executionID in
        match err with
        | Some err => (s, Err (WrappedError "bind execution to claimed slot" err))
        | None =>
            let grant := mkGrant (grant_ID grant) (grant_TargetID grant) (grant_Slot grant)
                           executionID in
            (mkScheduler ledger (sched_nodes s) (sched_targets s) (sched_targetOrder s)
               (sched_nextTarget s) (sched_nextGrantID s)
               (<[grant_ID grant := grant]> (sched_grants s)) (sched_grantBySlot s),
             Ok grant)
        end
  end
  end.

(* src: internal/scheduler/scheduler.go:561-588 Scheduler.Release *)
Definition Release (s : Scheduler) (ref : GrantRef) : Scheduler * error :=
  match GrantRef_validate ref with
  | Some err => (s, Some err)
  | None =>
  match lookupGrantIdentityLocked s ref with
  | Err err => (s, Some err)
  | Ok grant =>
      if grant_ExecutionID grant != ref_ExecutionID ref then
        (s, Some (scheduler_invalid "grant_reference_mismatch" "grant.execution_id"
                    "does not match the active grant binding"))
      else if nodeReportsActiveExecutionLocked s (slot_NodeID (grant_Slot grant))
                (grant_ExecutionID grant) then
        (s, Some (scheduler_invalid "execution_still_active" "grant.execution_id"
                    "cannot release capacity while the node still reports the execution active"))
      else
        let '(ledger, err) :=
          SlotLedger_Release (sched_ledger s) (grant_Slot grant)
            (mkSlotOwner (grant_TargetID grant) (grant_ExecutionID grant)) in
        match err with
        | Some err => (s, Some (WrappedError "release claimed slot" err))
        | None =>
            (mkScheduler ledger (sched_nodes s) (sched_targets s) (sched_targetOrder s)
               (sched_nextTarget s) (sched_nextGrantID s)
               (delete (grant_ID grant) (sched_grants s))
               (delete (grant_Slot grant) (sched_grantBySlot s)), None)
        end
  end
  end.

(** ** The scheduler's own consistency check *)

Definition scheduler_violated (what : string) : error :=
  Some (PlainError (String.append "scheduler invariant violated: " what)).

(** The loop over [scheduler.grants]. *)
(* src: internal/scheduler/scheduler.go:759-778 Scheduler.Validate *)
Fixpoint validate_grants (s : Scheduler) (ledgerSlots : gmap SlotKey (option SlotOwner))
    (grants : list (Z * Grant)) : error :=
  match grants with
  | [] => None
  | (id, grant) :: rest =>
      if (grant_ID grant != id) || (grant_ID grant == 0) then
        scheduler_violated "grant id index mismatch"
      else if sched_targets s !! grant_TargetID grant == None then
        scheduler_violated "grant references unknown target"
      else if sched_grantBySlot s !! grant_Slot grant != Some (grant_ID grant) then
        scheduler_violated "slot index does not reference grant"
      else
        match ledgerSlots !! grant_Slot grant with
        | None | Some None => scheduler_violated "grant slot is free or missing in ledger"
        | Some (Some owner) =>
            if owner != mkSlotOwner (grant_TargetID grant) (grant_ExecutionID grant) then
              scheduler_violated "ledger owner differs from grant"
            else validate_grants s ledgerSlots rest
        end
  end.

(** The loop that looks for an execution bound twice. *)
(* src: internal/scheduler/scheduler.go:779-788 Scheduler.Validate *)
Fixpoint validate_executions (grants : list Grant) (executions : gset string) : error :=
  match grants with
  | [] => None
  | grant :: rest =>
      if grant_ExecutionID grant == "" then validate_executions rest executions
      else if bool_decide (grant_ExecutionID grant ∈ executions) then
        scheduler_violated "execution is bound to two grants"
      else validate_executions rest ({[grant_ExecutionID grant]} ∪ executions)
  end.

(** [ledgerSlots] as [Validate] builds it from the copies [Slots] returns. *)
(* src: internal/scheduler/scheduler.go:749-757 Scheduler.Validate *)
Definition ledger_slot_owners (s : Scheduler) : gmap SlotKey (option SlotOwner) :=
  list_to_map (map (fun slot => (slot_Key slot, slot_Owner slot))
                 (rev (SlotLedger_Slots (sched_ledger s)))).

(* src: internal/scheduler/scheduler.go:726-798 Scheduler.Validate *)
Definition Scheduler_Validate (s : Scheduler) : error :=
  match SlotLedger_Validate (sched_ledger s) with
  | Some err => Some (WrappedError "scheduler invariant violated: ledger" err)
  | None =>
  if Z.of_nat (size (sched_grants s)) != Z.of_nat (size (sched_grantBySlot s)) then
    scheduler_violated "grant indexes differ in size"
  else if SlotLedger_Claimed (sched_ledger s) != Z.of_nat (size (sched_grants s)) then
    scheduler_violated "ledger claimed count differs from grants"
  else if Z.of_nat (size (sched_grants s)) >? SlotLedger_FleetMaximum (sched_ledger s) then
    scheduler_violated "grants exceed fleet maximum"
  else if sched_nextGrantID s == 0 then
    scheduler_violated "grant id space is exhausted"
  else if (Z.of_nat (length (sched_targetOrder s)) >? 0) &&
          ((sched_nextTarget s <? 0) ||
           (sched_nextTarget s >=? Z.of_nat (length (sched_targetOrder s)))) then
    scheduler_violated "target cursor is out of range"
  else
  try validate_grants s (ledger_slot_owners s) (map_to_list (sched_grants s)) ;;
  try validate_executions (map snd (map_to_list (sched_grants s))) ∅ ;;
  if existsb (fun '(slot, owner) =>
                match owner with
                | Some _ => sched_grantBySlot s !! slot == None
                | None => false
                end) (map_to_list (ledger_slot_owners s)) then
    scheduler_violated "ledger owner lacks scheduler grant"
  else None
  end.
