(* ===== verification/SchedulerFacts.v ===== *)
(** * The scheduler: invariant and properties

    The invariant has two halves.  [topology_ok] is what construction fixes:
    the configured slots are exactly those of the configured nodes, the target
    order is the sorted list of the configured targets, the cursor is inside it.
    [index_ok] ties the three indexes together: every grant owns its slot in the
    ledger and in [grantBySlot], and nothing else is owned.  Both are kept by
    every operation, and they imply what the code's own [Validate] checks. *)

From S2P Require Import Prelude GoStd Domain Execution SlotLedger Scheduler.

(** ** Specifications *)

(** Who owns a slot, according to the ledger. *)
Definition store_owners (l : SlotLedger) : gmap SlotKey SlotOwner := own_owners (store_abs l).
#[global] Arguments store_owners l : simpl never.
Definition owners (s : Scheduler) : gmap SlotKey SlotOwner := store_owners (sched_ledger s).

Definition grant_owner (g : Grant) : SlotOwner :=
  mkSlotOwner (grant_TargetID g) (grant_ExecutionID g).

(** Grant [g], stored under [id], owns its slot in every index. *)
Definition grant_ok (s : Scheduler) (id : Z) (g : Grant) : Prop :=
  grant_ID g = id /\ 1 <= id /\ is_Some (sched_targets s !! grant_TargetID g) /\
  sched_grantBySlot s !! grant_Slot g = Some id /\
  owners s !! grant_Slot g = Some (grant_owner g).

Definition fresh_above (next : Z) (grants : gmap Z Grant) : Prop :=
  0 <= next <= max_uint64 /\ (next = 0 \/ map_Forall (fun id _ => id < next) grants).

Record index_ok (s : Scheduler) : Prop := {
  ix_ledger : store_wf (sched_ledger s);
  ix_grant : map_Forall (grant_ok s) (sched_grants s);
  ix_slot : map_Forall (fun slot id => exists g, sched_grants s !! id = Some g /\
                                         grant_Slot g = slot) (sched_grantBySlot s);
  ix_owner : map_Forall (fun slot _ => is_Some (sched_grantBySlot s !! slot)) (owners s);
  ix_exec : forall id1 id2 g1 g2,
    sched_grants s !! id1 = Some g1 -> sched_grants s !! id2 = Some g2 ->
    grant_ExecutionID g1 = grant_ExecutionID g2 -> grant_ExecutionID g1 <> "" -> id1 = id2;
  ix_size : size (sched_grants s) = size (sched_grantBySlot s);
  ix_next : fresh_above (sched_nextGrantID s) (sched_grants s);
}.

Definition node_state_ok (id : NodeID) (st : nodeState) : Prop :=
  newNodeState (state_snapshot st) = Ok st /\ node_ID (ns_Node (state_snapshot st)) = id.

Record topology_ok (s : Scheduler) : Prop := {
  tp_nodes : map_Forall node_state_ok (sched_nodes s);
  tp_slots : forall key, key ∈ own_slots (store_abs (sched_ledger s)) <->
    exists st, sched_nodes s !! slot_NodeID key = Some st /\
               0 <= slot_Index key < node_MaxRunners (ns_Node (state_snapshot st));
  tp_targets : map_Forall (fun id spec => target_ID (spec_Target spec) = id /\
                             TargetSpec_Validate spec = None) (sched_targets s);
  tp_order : NoDup (sched_targetOrder s);
  tp_known : forall t, t ∈ sched_targetOrder s <-> is_Some (sched_targets s !! t);
  tp_cursor : 0 <= sched_nextTarget s /\
    (sched_targetOrder s = [] /\ sched_nextTarget s = 0 \/
     sched_nextTarget s < Z.of_nat (length (sched_targetOrder s)));
}.

Record sched_ok (s : Scheduler) : Prop := {
  ok_topology : topology_ok s;
  ok_index : index_ok s;
}.

(** One call of a mutating method, and a sequence of them. *)
Inductive sched_op :=
  | OpUpdateNode (snapshot : NodeSnapshot)
  | OpGrantNext (demand : list TargetID)
  | OpBindExecution (ref : GrantRef) (executionID : ExecutionID)
  | OpReleaseGrant (ref : GrantRef).

Definition sched_apply (s : Scheduler) (op : sched_op) : Scheduler :=
  match op with
  | OpUpdateNode snapshot => fst (UpdateNode s snapshot)
  | OpGrantNext demand => fst (GrantNext s demand)
  | OpBindExecution ref executionID => fst (BindExecution s ref executionID)
  | OpReleaseGrant ref => fst (Release s ref)
  end.

Definition sched_run (s : Scheduler) (ops : list sched_op) : Scheduler :=
  foldl sched_apply s ops.

(** ** The indexes *)

(** [index_ok] does not look at the nodes or at the cursor. *)
Lemma index_ok_ext s s' :
  sched_ledger s' = sched_ledger s -> sched_targets s' = sched_targets s ->
  sched_nextGrantID s' = sched_nextGrantID s -> sched_grants s' = sched_grants s ->
  sched_grantBySlot s' = sched_grantBySlot s -> index_ok s -> index_ok s'.
Proof.
  destruct s, s'; simpl. intros -> -> -> -> -> [H1 H2 H3 H4 H5 H6 H7]. split; [done|exact H2|done..].
Qed.

Section index.
Context (s : Scheduler) (Hs : index_ok s).

Lemma ix_claimed : SlotLedger_Claimed (sched_ledger s) = Z.of_nat (size (sched_grants s)).
Proof using Hs.
  unfold SlotLedger_Claimed. rewrite <- (ledger_abs_size (sched_ledger s)) by apply Hs.
  change (own_owners (ledger_abs (sched_ledger s))) with (owners s).
  rewrite (ix_size s Hs), <- (size_dom (owners s)), <- (size_dom (sched_grantBySlot s)).
  do 2 f_equal. apply set_eq. intros slot. rewrite !elem_of_dom. split.
  - intros [o Ho]. exact (ix_owner s Hs _ _ Ho).
  - intros [id Hid]. destruct (ix_slot s Hs _ _ Hid) as (g & Hg & <-).
    destruct (ix_grant s Hs _ _ Hg) as (_ & _ & _ & _ & ->). eauto.
Qed.

(** A free slot has no grant. *)
Lemma ix_free slot : owners s !! slot = None -> sched_grantBySlot s !! slot = None.
Proof using Hs.
  intros Hf. destruct (sched_grantBySlot s !! slot) as [id|] eqn:E; [|done].
  destruct (ix_slot s Hs _ _ E) as (g & Hg & <-).
  destruct (ix_grant s Hs _ _ Hg) as (_ & _ & _ & _ & Ho). congruence.
Qed.

Lemma ix_slot_inj id1 id2 g1 g2 :
  sched_grants s !! id1 = Some g1 -> sched_grants s !! id2 = Some g2 ->
  grant_Slot g1 = grant_Slot g2 -> id1 = id2.
Proof using Hs.
  intros H1 H2 E. destruct (ix_grant s Hs _ _ H1) as (_ & _ & _ & E1 & _).
  destruct (ix_grant s Hs _ _ H2) as (_ & _ & _ & E2 & _). congruence.
Qed.

Lemma ix_fresh : sched_nextGrantID s <> 0 -> sched_grants s !! sched_nextGrantID s = None.
Proof using Hs.
  intros Hn. destruct (sched_grants s !! sched_nextGrantID s) as [g|] eqn:E; [|done].
  destruct (ix_next s Hs) as [_ [?|Hlt]]; [done|]. apply Hlt in E. lia.
Qed.

(** A new grant on a slot nobody owns. *)
Lemma index_grant_ok ledger g :
  sched_nextGrantID s <> 0 -> grant_ID g = sched_nextGrantID s ->
  is_Some (sched_targets s !! grant_TargetID g) -> owners s !! grant_Slot g = None ->
  (grant_ExecutionID g <> "" ->
   map_Forall (fun _ g' => grant_ExecutionID g' <> grant_ExecutionID g) (sched_grants s)) ->
  store_wf ledger ->
  store_owners ledger = <[grant_Slot g := grant_owner g]> (owners s) ->
  index_ok (index_grant s ledger g).
Proof using Hs.
  intros Hn Hid Ht Hfree Hex Hw Hown.
  pose proof (ix_fresh Hn) as Hnew. pose proof (ix_free _ Hfree) as Hslot.
  destruct (ix_next s Hs) as [Hr [?|Hlt]]; [done|].
  split; unfold index_grant; simpl; unfold owners; simpl; rewrite ?Hown; rewrite ?Hid; [done|..].
  - apply map_Forall_insert_2.
    + unfold grant_ok, owners. simpl. rewrite Hown, Hid, !lookup_insert_eq. split_and!; try done. lia.
    + intros id g' Hg'. destruct (ix_grant s Hs _ _ Hg') as (? & ? & ? & Hb & Ho).
      unfold grant_ok, owners. simpl. rewrite Hown.
      assert (grant_Slot g <> grant_Slot g') by congruence.
      by rewrite !lookup_insert_ne.
  - apply map_Forall_insert_2; [exists g; by rewrite lookup_insert_eq|].
    intros slot id Hb. destruct (ix_slot s Hs _ _ Hb) as (g' & Hg' & <-).
    exists g'. rewrite lookup_insert_ne by congruence. done.
  - apply map_Forall_insert_2; [by rewrite lookup_insert_eq|].
    intros slot o Ho. destruct (decide (grant_Slot g = slot)) as [->|];
      [by rewrite lookup_insert_eq|rewrite lookup_insert_ne by done; exact (ix_owner s Hs _ _ Ho)].
  - intros id1 id2 g1 g2. rewrite !lookup_insert_Some.
    intros [[<- <-]|[? H1]] [[<- <-]|[? H2]] E Hne; [done| | |by eapply (ix_exec s Hs)].
    + destruct (Hex Hne _ _ H2). done.
    + rewrite E in Hne. destruct (Hex Hne _ _ H1). done.
  - rewrite !map_size_insert_None by done. by rewrite (ix_size s Hs).
  - split; [apply wrap_uint64_range|]. unfold wrap_uint64, max_uint64 in *.
    destruct (decide (sched_nextGrantID s = 18446744073709551615)) as [->|]; [by left|right].
    rewrite Z.mod_small by lia. apply map_Forall_insert_2; [lia|].
    intros id g' Hg'. apply Hlt in Hg'. lia.
Qed.

(** Binding an execution to an unbound grant. *)
Lemma bind_grant_ok ledger id g executionID :
  sched_grants s !! id = Some g ->
  (executionID <> "" ->
   map_Forall (fun id' g' => id' <> id -> grant_ExecutionID g' <> executionID) (sched_grants s)) ->
  store_wf ledger ->
  store_owners ledger =
    <[grant_Slot g := mkSlotOwner (grant_TargetID g) executionID]> (owners s) ->
  index_ok (mkScheduler ledger (sched_nodes s) (sched_targets s) (sched_targetOrder s)
              (sched_nextTarget s) (sched_nextGrantID s)
              (<[id := mkGrant (grant_ID g) (grant_TargetID g) (grant_Slot g) executionID]>
                 (sched_grants s)) (sched_grantBySlot s)).
Proof using Hs.
  intros Hg Hex Hw Hown.
  destruct (ix_grant s Hs _ _ Hg) as (Hid & Hpos & Ht & Hb & Ho).
  assert (Hsame : forall slot, is_Some (<[grant_Slot g := mkSlotOwner (grant_TargetID g) executionID]>
                    (owners s) !! slot) -> is_Some (owners s !! slot)).
  { intros slot. destruct (decide (grant_Slot g = slot)) as [<-|];
      [rewrite Ho; eauto|by rewrite lookup_insert_ne]. }
  split; simpl; unfold owners; simpl; rewrite ?Hown; [done|..].
  - intros id' g'. unfold grant_ok, owners. simpl. rewrite Hown, lookup_insert_Some.
    intros [[<- <-]|[Hne Hg']]; [by rewrite lookup_insert_eq|].
    destruct (ix_grant s Hs _ _ Hg') as (? & ? & ? & Hb' & Ho').
    rewrite lookup_insert_ne by congruence. done.
  - intros slot id' Hb'. destruct (ix_slot s Hs _ _ Hb') as (g' & Hg' & <-).
    destruct (decide (id = id')) as [<-|]; [|exists g'; by rewrite lookup_insert_ne].
    rewrite lookup_insert_eq. eexists. split; [done|]. simpl. congruence.
  - intros slot o Hso. destruct (Hsame slot) as [o' Ho']; [eauto|]. exact (ix_owner s Hs _ _ Ho').
  - intros id1 id2 g1 g2. rewrite !lookup_insert_Some.
    intros [[<- <-]|[? H1]] [[<- <-]|[? H2]] E Hne; simpl in *; [done| | |by eapply (ix_exec s Hs)].
    + destruct (Hex Hne _ _ H2); congruence.
    + rewrite E in Hne. destruct (Hex Hne _ _ H1); congruence.
  - rewrite map_size_insert_Some by eauto. apply Hs.
  - destruct (ix_next s Hs) as [Hr Hlt]. split; [done|]. destruct Hlt as [?|Hlt]; [by left|right].
    apply map_Forall_insert_2; [by eapply Hlt|done].
Qed.

(** Giving a slot back. *)
Lemma release_grant_ok ledger id g :
  sched_grants s !! id = Some g -> store_wf ledger ->
  store_owners ledger = delete (grant_Slot g) (owners s) ->
  index_ok (mkScheduler ledger (sched_nodes s) (sched_targets s) (sched_targetOrder s)
              (sched_nextTarget s) (sched_nextGrantID s)
              (delete id (sched_grants s)) (delete (grant_Slot g) (sched_grantBySlot s))).
Proof using Hs.
  intros Hg Hw Hown.
  destruct (ix_grant s Hs _ _ Hg) as (Hid & Hpos & Ht & Hb & Ho).
  split; simpl; unfold owners; simpl; rewrite ?Hown; [done|..].
  - intros id' g'. unfold grant_ok, owners. simpl. rewrite Hown, lookup_delete_Some.
    intros [Hne Hg']. destruct (ix_grant s Hs _ _ Hg') as (? & ? & ? & Hb' & Ho').
    rewrite !lookup_delete_ne by congruence. done.
  - intros slot id'. rewrite lookup_delete_Some. intros [Hne Hb'].
    destruct (ix_slot s Hs _ _ Hb') as (g' & Hg' & <-).
    exists g'. rewrite lookup_delete_ne by congruence. done.
  - intros slot o. rewrite lookup_delete_Some. intros [Hne Hso].
    rewrite lookup_delete_ne by done. exact (ix_owner s Hs _ _ Hso).
  - intros id1 id2 g1 g2 [_ H1]%lookup_delete_Some [_ H2]%lookup_delete_Some.
    by eapply (ix_exec s Hs).
  - rewrite !map_size_delete_Some by eauto. by rewrite (ix_size s Hs).
  - destruct (ix_next s Hs) as [Hr Hlt]. split; [done|]. destruct Hlt as [?|Hlt]; [by left|right].
    intros id' g' [_ Hg']%lookup_delete_Some. by eapply Hlt.
Qed.
End index.

(** ** Placement *)

(** What makes a slot a legitimate place for a target: it is configured and
    free, its node is administratively active, online, reconciled, ready, fits
    the profile, its owner has not withdrawn the target, and every execution the
    node reports is backed by a grant on that same node. *)
Record placeable (s : Scheduler) (spec : TargetSpec) (slot : SlotKey) : Prop := {
  pl_slot : slot ∈ own_slots (store_abs (sched_ledger s));
  pl_free : owners s !! slot = None;
  pl_node : exists node, sched_nodes s !! slot_NodeID slot = Some node /\
    let snapshot := state_snapshot node in
    node_AdministrativeState (ns_Node snapshot) = NodeActive /\
    node_ObservedState (ns_Node snapshot) = NodeOnline /\
    ns_Reconciled snapshot = true /\ ns_NativeReady snapshot = true /\
    (forall os, profile_OS (spec_Profile spec) = Some os -> node_OS (ns_Node snapshot) = os) /\
    (forall arch, profile_Architecture (spec_Profile spec) = Some arch ->
       node_Architecture (ns_Node snapshot) = arch) /\
    profile_MinAvailableMemoryBytes (spec_Profile spec) <= ns_AvailableMemoryBytes snapshot /\
    (target_ID (spec_Target spec) ∉ ns_ExcludedTargets snapshot) /\
    (forall e, e ∈ ns_ActiveExecutions snapshot -> exists id g,
       sched_grants s !! id = Some g /\ slot_NodeID (grant_Slot g) = slot_NodeID slot /\
       grant_ExecutionID g = e);
}.

Lemma any_grant_iff p s :
  any_grant p s = true <-> exists id g, sched_grants s !! id = Some g /\ p g = true.
Proof.
  unfold any_grant. rewrite existsb_exists. split.
  - intros ([id g] & Hin & Hp). exists id, g. by rewrite <- elem_of_map_to_list, list_elem_of_In.
  - intros (id & g & Hg & Hp). exists (id, g). by rewrite <- list_elem_of_In, elem_of_map_to_list.
Qed.

Lemma backed_iff s nodeID e :
  executionBackedOnNodeLocked s nodeID e = true <->
  exists id g, sched_grants s !! id = Some g /\ slot_NodeID (grant_Slot g) = nodeID /\
               grant_ExecutionID g = e.
Proof.
  unfold executionBackedOnNodeLocked. rewrite any_grant_iff.
  setoid_rewrite andb_true_iff. by setoid_rewrite bool_decide_eq_true.
Qed.

Lemma aligned_iff s nodeID node :
  sched_nodes s !! nodeID = Some node ->
  nodeOwnershipAlignedLocked s nodeID = true <->
  forall e, e ∈ ns_ActiveExecutions (state_snapshot node) -> exists id g,
    sched_grants s !! id = Some g /\ slot_NodeID (grant_Slot g) = nodeID /\ grant_ExecutionID g = e.
Proof.
  intros Hn. unfold nodeOwnershipAlignedLocked. rewrite Hn, forallb_forall.
  setoid_rewrite backed_iff. by setoid_rewrite list_elem_of_In.
Qed.

Lemma eligible_iff snapshot profile :
  eligible snapshot profile = true <->
  node_AdministrativeState (ns_Node snapshot) = NodeActive /\
  node_ObservedState (ns_Node snapshot) = NodeOnline /\
  ns_Reconciled snapshot = true /\ ns_NativeReady snapshot = true /\
  (forall os, profile_OS profile = Some os -> node_OS (ns_Node snapshot) = os) /\
  (forall arch, profile_Architecture profile = Some arch -> node_Architecture (ns_Node snapshot) = arch) /\
  profile_MinAvailableMemoryBytes profile <= ns_AvailableMemoryBytes snapshot.
Proof.
  unfold eligible.
  destruct (decide (node_AdministrativeState (ns_Node snapshot) = NodeActive)) as [H1|H1];
    [rewrite (bool_decide_eq_true_2 _ H1)|rewrite (bool_decide_eq_false_2 _ H1); simpl; naive_solver].
  destruct (decide (node_ObservedState (ns_Node snapshot) = NodeOnline)) as [H2|H2];
    [rewrite (bool_decide_eq_true_2 _ H2)|rewrite (bool_decide_eq_false_2 _ H2); simpl; naive_solver].
  destruct (ns_Reconciled snapshot); simpl; [|naive_solver].
  destruct (ns_NativeReady snapshot); simpl; [|naive_solver].
  rewrite Z.geb_leb.
  destruct (profile_OS profile) as [os|], (profile_Architecture profile) as [arch|];
    repeat (case_bool_decide; simpl); rewrite ?Z.leb_le; naive_solver.
Qed.

Lemma newNodeState_sets snapshot st :
  newNodeState snapshot = Ok st ->
  NodeSnapshot_Validate snapshot = None /\ state_snapshot st = snapshot /\
  state_cached st = list_to_set (ns_CachedRunnerPackages snapshot) /\
  state_excluded st = list_to_set (ns_ExcludedTargets snapshot).
Proof. unfold newNodeState. destruct (NodeSnapshot_Validate snapshot); [done|]. by intros [= <-]. Qed.

(** The ledger's list of slots is its map. *)
Lemma elem_of_ledger_slots l slot :
  ledger_wf l -> (slot ∈ SlotLedger_Slots l) <-> ledger_slots l !! slot_Key slot = Some slot.
Proof.
  intros Hw. unfold SlotLedger_Slots. rewrite elem_of_sort_slice, list_elem_of_fmap. split.
  - intros ([k s] & -> & Hk%elem_of_map_to_list). simpl. by destruct (lwf_slots _ Hw _ _ Hk) as [-> _].
  - intros Hs. exists (slot_Key slot, slot). by rewrite elem_of_map_to_list.
Qed.

Lemma owners_lookup s slot :
  owners s !! slot = ((ledger_slots (sched_ledger s) !! slot) ≫= slot_Owner).
Proof. apply ledger_abs_owner. Qed.

Lemma store_slots_iff l slot :
  slot ∈ own_slots (store_abs l) <-> is_Some (ledger_slots l !! slot).
Proof. apply elem_of_dom. Qed.

Section placement.
Context (s : Scheduler) (Hs : sched_ok s).

Lemma slot_candidate_iff spec slot :
  ledger_slots (sched_ledger s) !! slot_Key slot = Some slot ->
  is_Some (slot_candidate s spec slot) <-> placeable s spec (slot_Key slot).
Proof using Hs.
  intros Hslot. unfold slot_candidate.
  assert (Hown : owners s !! slot_Key slot = slot_Owner slot).
  { rewrite owners_lookup, Hslot. done. }
  destruct (slot_Owner slot) as [o|].
  { split; [by intros [? ?]|]. intros [_ Hf _]. congruence. }
  destruct (sched_nodes s !! slot_NodeID (slot_Key slot)) as [node|] eqn:Hn.
  2:{ split; [by intros [? ?]|]. intros [_ _ (? & ? & _)]. congruence. }
  destruct (tp_nodes s (ok_topology s Hs) _ _ Hn) as [Hst _].
  destruct (newNodeState_sets _ _ Hst) as (_ & _ & _ & Hexc).
  pose proof (eligible_iff (state_snapshot node) (spec_Profile spec)) as He.
  pose proof (aligned_iff s _ _ Hn) as Ha.
  rewrite Hexc. split.
  - destruct (eligible _ _); simpl; [|by intros [? ?]].
    destruct (nodeOwnershipAlignedLocked _ _); simpl; [|by intros [? ?]].
    case_bool_decide as Hx; [by intros [? ?]|]. intros _.
    split; [by apply store_slots_iff; eauto|done|].
    exists node. split; [done|]. rewrite elem_of_list_to_set in Hx. naive_solver.
  - intros [_ _ (node' & Hn' & Hp)]. assert (node' = node) as -> by congruence.
    cbv zeta in Hp. destruct_and! Hp.
    rewrite (proj2 He) by done. rewrite (proj2 Ha) by done. simpl.
    rewrite bool_decide_eq_false_2 by (by rewrite elem_of_list_to_set). eauto.
Qed.

Lemma slot_candidate_slot spec slot c : slot_candidate s spec slot = Some c -> cand_slot c = slot_Key slot.
Proof using Type.
  unfold slot_candidate. repeat case_match; try done; by intros [= <-].
Qed.

(** The candidates are exactly the legitimate places. *)
Lemma candidates_iff spec slot :
  slot ∈ map cand_slot (candidatesLocked s spec) <-> placeable s spec slot.
Proof using Hs.
  pose proof (ix_ledger s (ok_index s Hs)) as Hw.
  unfold candidatesLocked. rewrite list_elem_of_fmap. setoid_rewrite elem_of_sort_slice.
  setoid_rewrite list_elem_of_omap. setoid_rewrite elem_of_ledger_slots; [|exact Hw].
  split.
  - intros (c & -> & sl & Hsl & Hc). rewrite (slot_candidate_slot _ _ _ Hc).
    apply slot_candidate_iff; eauto.
  - intros Hp. destruct (proj1 (store_slots_iff _ _) (pl_slot _ _ _ Hp)) as [sl Hsl].
    destruct (lwf_slots _ Hw _ _ Hsl) as [<- _].
    destruct (proj2 (slot_candidate_iff spec sl Hsl) Hp) as [c Hc].
    exists c. split; [by rewrite (slot_candidate_slot _ _ _ Hc)|]. eauto.
Qed.

Lemma known_target_id t : is_Some (sched_targets s !! t) ->
  target_ID (spec_Target (target_spec s t)) = t /\
  required t "slot.owner.target_id" = None.
Proof using Hs.
  intros [spec Ht]. unfold target_spec. rewrite Ht. simpl.
  destruct (tp_targets s (ok_topology s Hs) _ _ Ht) as [Hid Hv]. split; [done|].
  unfold TargetSpec_Validate, GitHubTarget_Validate in Hv. rewrite Hid in Hv.
  unfold required in *. by destruct (TrimSpace t == "").
Qed.
End placement.

(** The claim [GrantNext] makes. *)
Lemma grant_slot_spec s targetIndex t slot :
  sched_ok s -> sched_nextGrantID s <> 0 -> is_Some (sched_targets s !! t) ->
  slot ∈ own_slots (store_abs (sched_ledger s)) -> owners s !! slot = None ->
  SlotLedger_Claimed (sched_ledger s) < SlotLedger_FleetMaximum (sched_ledger s) ->
  exists ledger,
    let g := mkGrant (sched_nextGrantID s) t slot "" in
    grant_slot s targetIndex t slot =
      (mkScheduler ledger (sched_nodes s) (sched_targets s) (sched_targetOrder s)
         (Z.rem (targetIndex + 1) (Z.of_nat (length (sched_targetOrder s))))
         (wrap_uint64 (sched_nextGrantID s + 1))
         (<[sched_nextGrantID s := g]> (sched_grants s))
         (<[slot := sched_nextGrantID s]> (sched_grantBySlot s)), Ok (Some g)) /\
    index_ok (index_grant s ledger g) /\
    own_slots (store_abs ledger) = own_slots (store_abs (sched_ledger s)) /\
    own_max (store_abs ledger) = own_max (store_abs (sched_ledger s)) /\
    store_owners ledger = <[slot := mkSlotOwner t ""]> (owners s).
Proof.
  intros [Ht Hi] Hn Hk Hslot Hfree Hcl.
  destruct (known_target_id s (Build_sched_ok _ Ht Hi) t Hk) as [_ Hreq].
  pose proof (ix_ledger s Hi) as Hw.
  destruct (store_claim_allowed (sched_ledger s) slot (mkSlotOwner t "")) as [ledger Hc]; try done.
  { change (Z.of_nat (size (own_owners (ledger_abs (sched_ledger s)))) <
            ledger_fleetMaximum (sched_ledger s)).
    rewrite ledger_abs_size by done. done. }
  exists ledger. simpl. pose proof (store_claimed _ _ _ _ Hw Hc) as (Hw' & Hsl & Hm & Ho & _).
  split_and!; try done.
  - unfold grant_slot. change (SlotLedger_Claim (sched_ledger s) slot (mkSlotOwner t "")) with
      (store_apply (sched_ledger s) (OpClaim slot (mkSlotOwner t ""))). by rewrite Hc.
  - by apply index_grant_ok.
Qed.

(** ** The round-robin loop *)

(** The target the cursor reaches after [offset] steps. *)
Definition round_target (s : Scheduler) (offset : Z) : option TargetID :=
  sched_targetOrder s !! Z.to_nat ((sched_nextTarget s + offset) mod
                                     Z.of_nat (length (sched_targetOrder s))).

(** A target the loop passes over: not demanded, or with no place to go. *)
Definition passed_over (s : Scheduler) (demand : list TargetID) (t : TargetID) : Prop :=
  t ∉ demand \/ forall slot, ~ placeable s (target_spec s t) slot.

Lemma demand_set_spec targets demand acc d :
  demand_set targets demand acc = Ok d ->
  (forall t, t ∈ d <-> t ∈ acc \/ t ∈ demand) /\
  Forall (fun t => is_Some (targets !! t)) demand /\ NoDup demand /\
  (forall t, t ∈ demand -> t ∉ acc).
Proof.
  revert acc. induction demand as [|t demand IH]; intros acc; simpl.
  { intros [= <-]. split_and!; [set_solver|constructor|constructor|set_solver]. }
  case_bool_decide as Ht; [done|]. case_bool_decide as Hin; [done|].
  intros (Hd & Hf & Hnd & Hacc)%IH. split_and!.
  - intros t'. rewrite Hd. set_solver.
  - constructor; [by apply not_eq_None_Some|done].
  - constructor; [|done]. intros Hin'. apply (Hacc _ Hin'). set_solver.
  - set_solver.
Qed.

Lemma demand_set_complete targets demand acc :
  Forall (fun t => is_Some (targets !! t)) demand -> NoDup demand ->
  (forall t, t ∈ demand -> t ∉ acc) -> exists d, demand_set targets demand acc = Ok d.
Proof.
  intros Hf. revert acc. induction Hf as [|t demand Ht _ IH]; intros acc Hnd Hacc; simpl; [eauto|].
  apply NoDup_cons in Hnd as [Hni Hnd].
  rewrite bool_decide_eq_false_2 by (by apply not_eq_None_Some).
  rewrite bool_decide_eq_false_2 by set_solver. apply IH; [done|set_solver].
Qed.

Section scan.
Context (s : Scheduler) (Hs : sched_ok s) (demand : list TargetID).

Let n := Z.of_nat (length (sched_targetOrder s)).

Lemma round_index offset : 0 < n -> 0 <= offset ->
  Z.rem (sched_nextTarget s + offset) n = (sched_nextTarget s + offset) mod n /\
  0 <= (sched_nextTarget s + offset) mod n < n /\
  exists t, round_target s offset = Some t /\ is_Some (sched_targets s !! t).
Proof using Hs.
  intros Hn Ho. destruct (tp_cursor s (ok_topology s Hs)) as [Hc _].
  rewrite Z.rem_mod_nonneg by lia.
  pose proof (Z.mod_pos_bound (sched_nextTarget s + offset) n Hn) as Hb.
  split_and!; [done|lia..|]. unfold round_target. fold n.
  destruct (lookup_lt_is_Some_2 (sched_targetOrder s)
              (Z.to_nat ((sched_nextTarget s + offset) mod n))) as [t Ht]; [unfold n in *; lia|].
  exists t. split; [done|]. apply (tp_known s (ok_topology s Hs)).
  by eapply list_elem_of_lookup_2.
Qed.

Lemma no_candidates t :
  candidatesLocked s (target_spec s t) = [] <-> forall slot, ~ placeable s (target_spec s t) slot.
Proof using Hs.
  setoid_rewrite <- (candidates_iff s Hs). split.
  - intros -> slot. simpl. apply not_elem_of_nil.
  - intros Hno. destruct (candidatesLocked _ _) as [|c cs]; [done|].
    destruct (Hno (cand_slot c)). simpl. set_solver.
Qed.

(** What the loop over the offsets [k .. k + count - 1] gives: nothing, when
    it passes over every target; otherwise the best candidate of the first
    target that is demanded and has one. *)
Inductive scan_result (k count : Z) : Scheduler * result (option Grant) -> Prop :=
  | scan_none :
      (forall o t, k <= o < k + count -> round_target s o = Some t -> passed_over s demand t) ->
      scan_result k count (s, Ok None)
  | scan_grant offset t best rest :
      k <= offset < k + count -> round_target s offset = Some t -> t ∈ demand ->
      candidatesLocked s (target_spec s t) = best :: rest ->
      (forall o t', k <= o < offset -> round_target s o = Some t' -> passed_over s demand t') ->
      scan_result k count
        (grant_slot s ((sched_nextTarget s + offset) mod n) t (cand_slot best)).

Lemma scan_skip k count r t :
  round_target s k = Some t -> passed_over s demand t ->
  scan_result (Z.succ k) (Z.pred count) r -> scan_result k count r.
Proof using Type.
  intros Ht Hp [Hall|o t' best rest Ho H1 H2 H3 H4].
  - constructor. intros o t' Ho Ht'. destruct (decide (o = k)) as [->|]; [congruence|].
    apply (Hall o); [lia|done].
  - apply (scan_grant _ _ o t' best rest); try done; [lia|].
    intros o' t'' Ho' Ht''. destruct (decide (o' = k)) as [->|]; [congruence|].
    apply (H4 o'); [lia|done].
Qed.

Lemma grant_scan_spec demanded k count :
  (forall t, t ∈ demanded <-> t ∈ demand) -> 0 < n -> 0 <= k ->
  scan_result k count (grant_scan s demanded (seqZ k count)).
Proof using Hs.
  intros Hdemand Hn. remember (Z.to_nat count) as c eqn:Ec. revert k count Ec.
  induction c as [|c IH]; intros k count Ec Hk.
  { rewrite seqZ_nil by lia. constructor. intros; lia. }
  rewrite seqZ_cons by lia. simpl. fold n.
  destruct (round_index k Hn Hk) as (-> & Hb & t & Ht & Hknown).
  pose proof Ht as Ht'. unfold round_target in Ht'. fold n in Ht'.
  rewrite (proj2 (Z.ltb_ge _ _)), Ht' by lia.
  specialize (IH (Z.succ k) (Z.pred count)).
  case_bool_decide as Hd; simpl.
  - destruct (candidatesLocked s (target_spec s t)) as [|best rest] eqn:Hcand.
    + apply (scan_skip _ _ _ t); [done|right; by apply no_candidates|apply IH; lia].
    + apply (scan_grant _ _ k t best rest); try done; [lia|by apply Hdemand|]. intros; lia.
  - apply (scan_skip _ _ _ t); [done|left; by rewrite <- Hdemand|apply IH; lia].
Qed.
End scan.

Lemma unbacked_nonneg s : 0 <= unbackedActiveCountLocked s.
Proof.
  unfold unbackedActiveCountLocked. induction (map_to_list (sched_nodes s)) as [|[id node] l IH]; simpl; [lia|].
  induction (ns_ActiveExecutions (state_snapshot node)) as [|e es IHe]; simpl; [done|].
  destruct (negb _); lia.
Qed.

(** Every known target is reached within one turn of the cursor. *)
Lemma round_target_reaches s t :
  topology_ok s -> is_Some (sched_targets s !! t) ->
  exists offset, 0 <= offset < Z.of_nat (length (sched_targetOrder s)) /\
                 round_target s offset = Some t.
Proof.
  intros Ht Hk. apply (tp_known s Ht) in Hk. apply list_elem_of_lookup in Hk as [i Hi].
  pose proof (lookup_lt_Some _ _ _ Hi) as Hlt.
  set (n := Z.of_nat (length (sched_targetOrder s))).
  exists ((Z.of_nat i - sched_nextTarget s) mod n).
  split; [apply Z.mod_pos_bound; lia|]. unfold round_target. fold n.
  rewrite Zplus_mod_idemp_r. replace (_ + _) with (Z.of_nat i) by lia.
  rewrite Z.mod_small by lia. by rewrite Nat2Z.id.
Qed.

(** Changing the ledger, the cursor, the counter and the grant indexes keeps the
    topology as long as the slots stay. *)
Lemma topology_ok_ext s ledger next nextID grants bySlot :
  topology_ok s -> own_slots (store_abs ledger) = own_slots (store_abs (sched_ledger s)) ->
  0 <= next -> (sched_targetOrder s = [] /\ next = 0 \/ next < Z.of_nat (length (sched_targetOrder s))) ->
  topology_ok (mkScheduler ledger (sched_nodes s) (sched_targets s) (sched_targetOrder s)
                 next nextID grants bySlot).
Proof.
  intros [H1 H2 H3 H4 H5 H6] Hsl Hn Hc. split; try done.
  intros key. cbn [sched_ledger sched_nodes]. rewrite Hsl. apply H2.
Qed.

(** What [GrantNext] does, on every branch. *)
Inductive grant_next_result (s : Scheduler) (demand : list TargetID)
    : Scheduler * result (option Grant) -> Prop :=
  | gn_error err :
      sched_nextGrantID s = 0 \/
      ~ (Forall (fun t => is_Some (sched_targets s !! t)) demand /\ NoDup demand) ->
      grant_next_result s demand (s, Err err)
  | gn_none :
      FleetMaximum s <= OccupiedCapacity s \/
      (forall t slot, t ∈ demand -> ~ placeable s (target_spec s t) slot) ->
      grant_next_result s demand (s, Ok None)
  | gn_granted s' g offset best rest :
      OccupiedCapacity s < FleetMaximum s -> sched_nextGrantID s <> 0 ->
      grant_TargetID g ∈ demand ->
      0 <= offset < Z.of_nat (length (sched_targetOrder s)) ->
      round_target s offset = Some (grant_TargetID g) ->
      (forall o t, 0 <= o < offset -> round_target s o = Some t -> passed_over s demand t) ->
      candidatesLocked s (target_spec s (grant_TargetID g)) = best :: rest ->
      g = mkGrant (sched_nextGrantID s) (grant_TargetID g) (cand_slot best) "" ->
      sched_ok s' -> sched_nodes s' = sched_nodes s -> sched_targets s' = sched_targets s ->
      sched_targetOrder s' = sched_targetOrder s ->
      sched_nextTarget s' =
        (sched_nextTarget s + offset + 1) mod Z.of_nat (length (sched_targetOrder s)) ->
      sched_nextGrantID s' = wrap_uint64 (sched_nextGrantID s + 1) ->
      sched_grants s' = <[grant_ID g := g]> (sched_grants s) ->
      owners s' = <[grant_Slot g := grant_owner g]> (owners s) ->
      FleetMaximum s' = FleetMaximum s ->
      grant_next_result s demand (s', Ok (Some g)).

Lemma GrantNext_cases s demand : sched_ok s -> grant_next_result s demand (GrantNext s demand).
Proof.
  intros Hs. destruct Hs as [Htop Hix] eqn:E; clear E. unfold GrantNext.
  destruct (demand_set (sched_targets s) demand ∅) as [demanded|err] eqn:Hdem.
  2:{ constructor. right. intros [Hf Hnd].
      edestruct (demand_set_complete (sched_targets s) demand ∅) as [? ?]; [done|done|set_solver|congruence]. }
  destruct (demand_set_spec _ _ _ _ Hdem) as (Hd & Hknown & _ & _).
  assert (Hd' : forall t, t ∈ demanded <-> t ∈ demand) by set_solver.
  set (n := Z.of_nat (length (sched_targetOrder s))) in *.
  case_bool_decide as Hz1; simpl.
  { constructor. right. intros t slot Ht%Hd'.
    assert (Hsz : size demanded = 0%nat) by lia. apply size_empty_inv in Hsz. set_solver. }
  case_bool_decide as Hz2; simpl.
  { constructor. right. intros t slot Ht _. rewrite Forall_forall in Hknown.
    destruct (round_target_reaches s t Htop (Hknown t Ht)) as (o & Ho & _). lia. }
  rewrite Z.geb_leb. destruct (Z.leb_spec (SlotLedger_FleetMaximum (sched_ledger s)) (occupiedCapacityLocked s)).
  { constructor. by left. }
  case_bool_decide as Hid; [constructor; by left|].
  pose proof (grant_scan_spec s Hs demand demanded 0 n Hd' ltac:(lia) ltac:(lia)) as Hscan.
  inversion Hscan as [Hall Hr|offset t best rest Ho Ht Hin Hc Hp Hr]; clear Hscan.
  { constructor. right. intros t slot Hin Hpl. rewrite Forall_forall in Hknown.
    destruct (round_target_reaches s t Htop (Hknown t Hin)) as (o & Ho & Hot).
    destruct (Hall o t Ho Hot) as [?|Hno]; [done|by apply (Hno slot)]. }
  rewrite Forall_forall in Hknown.
  assert (Hpl : placeable s (target_spec s t) (cand_slot best)).
  { apply (candidates_iff s Hs). rewrite Hc. simpl. set_solver. }
  fold n in Hr. destruct (round_index s Hs offset ltac:(lia) ltac:(lia)) as (_ & Hb & _). fold n in Hb.
  pose proof (unbacked_nonneg s). unfold occupiedCapacityLocked in *.
  destruct (grant_slot_spec s ((sched_nextTarget s + offset) mod n) t (cand_slot best))
    as (ledger & Hg & Hix' & Hsl & Hm & Ho'); [done|done|by apply Hknown|apply Hpl|apply Hpl|lia|].
  fold n in Hg. fold n. rewrite Hg. simpl in *.
  assert (Hmod : Z.rem ((sched_nextTarget s + offset) mod n + 1) n = (sched_nextTarget s + offset + 1) mod n).
  { rewrite Z.rem_mod_nonneg by lia. by rewrite Zplus_mod_idemp_l. }
  eapply (gn_granted s demand _ _ offset best rest); simpl; try done.
  split.
  - apply topology_ok_ext; [done|done|..]; rewrite Hmod;
      pose proof (Z.mod_pos_bound (sched_nextTarget s + offset + 1) n); lia.
  - by eapply index_ok_ext; [..|exact Hix'].
Qed.

(** ** The other operations *)

Lemma lookupGrant_iff s ref g : sched_ok s ->
  lookupGrantIdentityLocked s ref = Ok g <->
  sched_grants s !! ref_ID ref = Some g /\ grant_TargetID g = ref_TargetID ref /\
  grant_Slot g = ref_Slot ref.
Proof.
  intros Hs. unfold lookupGrantIdentityLocked. destruct (sched_grants s !! ref_ID ref) as [g'|] eqn:Hg;
    [|naive_solver].
  destruct (ix_grant s (ok_index s Hs) _ _ Hg) as [Hid _].
  repeat (case_bool_decide; simpl); naive_solver.
Qed.

(** An active grant's identity passes the checks on references. *)
Lemma grant_ref_valid s id g ref : sched_ok s ->
  sched_grants s !! id = Some g -> ref_ID ref = id -> ref_TargetID ref = grant_TargetID g ->
  ref_Slot ref = grant_Slot g -> GrantRef_validate ref = None.
Proof.
  intros Hs Hg Hid Ht Hsl. unfold GrantRef_validate. rewrite Hid, Ht, Hsl.
  destruct (ix_grant s (ok_index s Hs) _ _ Hg) as (Hgid & Hpos & Hk & Hb & Ho).
  rewrite bool_decide_eq_false_2 by lia.
  destruct (known_target_id s Hs _ Hk) as [_ Hreq]. unfold required in Hreq.
  destruct (TrimSpace (grant_TargetID g) == ""); [done|].
  assert (Hin : grant_Slot g ∈ own_slots (store_abs (sched_ledger s))).
  { apply store_slots_iff. rewrite owners_lookup in Ho. destruct (ledger_slots _ !! _); [eauto|done]. }
  apply (tp_slots s (ok_topology s Hs)) in Hin as (st & Hst & Hidx).
  destruct (tp_nodes s (ok_topology s Hs) _ _ Hst) as [Hnew Hnid].
  apply newNodeState_sets in Hnew as [Hv _]. rewrite <- Hnid.
  unfold NodeSnapshot_Validate, Node_Validate, required in Hv.
  destruct (TrimSpace (node_ID _) == ""); [done|].
  by rewrite (proj2 (Z.ltb_ge _ _)) by lia.
Qed.

Inductive bind_result (s : Scheduler) (ref : GrantRef) (e : ExecutionID)
    : Scheduler * result Grant -> Prop :=
  | bind_same g :
      lookupGrantIdentityLocked s ref = Ok g -> e <> "" ->
      ref_ExecutionID ref = "" \/ ref_ExecutionID ref = e ->
      grant_ExecutionID g = e -> bind_result s ref e (s, Ok g)
  | bind_new s' g :
      lookupGrantIdentityLocked s ref = Ok g -> TrimSpace e <> "" ->
      ref_ExecutionID ref = "" -> grant_ExecutionID g = "" ->
      (forall id g', sched_grants s !! id = Some g' -> grant_ExecutionID g' <> e) ->
      let g' := mkGrant (grant_ID g) (grant_TargetID g) (grant_Slot g) e in
      sched_ok s' -> sched_nodes s' = sched_nodes s -> sched_targets s' = sched_targets s ->
      sched_targetOrder s' = sched_targetOrder s -> sched_nextTarget s' = sched_nextTarget s ->
      sched_nextGrantID s' = sched_nextGrantID s ->
      sched_grants s' = <[grant_ID g := g']> (sched_grants s) ->
      owners s' = <[grant_Slot g := grant_owner g']> (owners s) ->
      FleetMaximum s' = FleetMaximum s ->
      bind_result s ref e (s', Ok g')
  | bind_error err : bind_result s ref e (s, Err err).

Lemma BindExecution_cases s ref e : sched_ok s -> bind_result s ref e (BindExecution s ref e).
Proof.
  intros Hs. unfold BindExecution. destruct (GrantRef_validate ref) eqn:Hv; [constructor|].
  case_bool_decide as He; [constructor|].
  assert (e <> "") by (intros ->; by vm_compute in He).
  destruct (lookupGrantIdentityLocked s ref) as [g|] eqn:Hl; [|constructor].
  pose proof (proj1 (lookupGrant_iff s ref g Hs) Hl) as (Hg & Ht & Hsl).
  pose proof (ix_grant s (ok_index s Hs) _ _ Hg) as (Hid & _ & _ & _ & Ho).
  destruct (decide (ref_ExecutionID ref = "" \/ ref_ExecutionID ref = grant_ExecutionID g)) as [Hr|Hr].
  2:{ rewrite !bool_decide_eq_false_2 by tauto. constructor. }
  assert ((ref_ExecutionID ref != "") && (ref_ExecutionID ref != grant_ExecutionID g) = false) as ->.
  { destruct Hr as [Hr|Hr]; rewrite (bool_decide_eq_true_2 _ Hr); simpl; [done|by rewrite andb_false_r]. }
  case_bool_decide as Hge; simpl.
  2:{ case_bool_decide; simpl; [|constructor]. apply bind_same; try done. destruct Hr; [tauto|right; congruence]. }
  destruct (any_grant _ s) eqn:Hany; [constructor|].
  assert (Hfresh : forall id g', sched_grants s !! id = Some g' -> grant_ExecutionID g' <> e).
  { intros id g' Hg' <-. apply not_true_iff_false in Hany. destruct Hany. apply any_grant_iff.
    exists id, g'. split; [done|]. rewrite (bool_decide_eq_true_2 (_ = grant_ExecutionID g')) by done.
    rewrite andb_true_r, negb_true_iff. apply bool_decide_eq_false_2.
    destruct (ix_grant s (ok_index s Hs) _ _ Hg') as [-> _]. rewrite Hid. intros ->. congruence. }
  destruct (SlotLedger_BindExecution _ _ _ _) as [ledger [err|]] eqn:Hb; [constructor|].
  pose proof (store_bound _ _ _ _ _ (ix_ledger s (ok_index s Hs)) Hb) as (Hw & Hsl' & Hm & Hown).
  assert (Hgid : sched_grants s !! grant_ID g = Some g) by (by rewrite Hid).
  eapply bind_new; simpl; try done; [destruct Hr; congruence|]. split.
  - apply topology_ok_ext; [apply Hs|done|apply (tp_cursor s (ok_topology s Hs))..].
  - apply (bind_grant_ok s (ok_index s Hs)); [done| |done|done].
    intros _ id' g' Hg' _. by eapply Hfresh.
Qed.

Inductive release_result (s : Scheduler) (ref : GrantRef) : Scheduler * error -> Prop :=
  | release_done s' g :
      sched_grants s !! ref_ID ref = Some g -> Grant_Ref g = ref ->
      nodeReportsActiveExecutionLocked s (slot_NodeID (ref_Slot ref)) (ref_ExecutionID ref) = false ->
      sched_ok s' -> sched_nodes s' = sched_nodes s -> sched_targets s' = sched_targets s ->
      sched_targetOrder s' = sched_targetOrder s -> sched_nextTarget s' = sched_nextTarget s ->
      sched_nextGrantID s' = sched_nextGrantID s ->
      sched_grants s' = delete (ref_ID ref) (sched_grants s) ->
      owners s' = delete (ref_Slot ref) (owners s) ->
      FleetMaximum s' = FleetMaximum s ->
      release_result s ref (s', None)
  | release_error err :
      (forall g, sched_grants s !! ref_ID ref = Some g -> Grant_Ref g = ref ->
         nodeReportsActiveExecutionLocked s (slot_NodeID (ref_Slot ref)) (ref_ExecutionID ref) = true) ->
      release_result s ref (s, Some err).

Lemma Release_cases s ref : sched_ok s -> release_result s ref (Release s ref).
Proof.
  intros Hs. unfold Release. destruct (GrantRef_validate ref) as [err|] eqn:Hv.
  { constructor. intros g Hg <-. by rewrite (grant_ref_valid s _ _ (Grant_Ref g) Hs Hg) in Hv. }
  destruct (lookupGrantIdentityLocked s ref) as [g|] eqn:Hl.
  2:{ constructor. intros g Hg <-. rewrite (proj2 (lookupGrant_iff s (Grant_Ref g) g Hs)) in Hl; done. }
  pose proof (proj1 (lookupGrant_iff s ref g Hs) Hl) as (Hg & Ht & Hsl).
  pose proof (ix_grant s (ok_index s Hs) _ _ Hg) as (Hid & _ & Hk & _ & Ho).
  case_bool_decide as He; simpl.
  2:{ constructor. intros g' Hg' <-. simpl in *. congruence. }
  rewrite He, Hsl. destruct (nodeReportsActiveExecutionLocked _ _ _) eqn:Hrep.
  { constructor. intros. done. }
  destruct (store_release_allowed (sched_ledger s) (grant_Slot g) (grant_owner g)) as [ledger Hr].
  { apply Hs. } { by apply (known_target_id s Hs). } { done. }
  change (store_apply (sched_ledger s) (OpRelease (grant_Slot g) (grant_owner g))) with
    (SlotLedger_Release (sched_ledger s) (grant_Slot g) (mkSlotOwner (grant_TargetID g) (grant_ExecutionID g))) in Hr.
  rewrite Hsl, He in Hr. rewrite Hr.
  assert (Ha : store_apply (sched_ledger s) (OpRelease (grant_Slot g) (grant_owner g)) = (ledger, None)).
  { unfold grant_owner. rewrite Hsl, He. done. }
  pose proof (store_released _ _ _ _ (ix_ledger s (ok_index s Hs)) Ha) as (Hw & Hsl' & Hm & Hown).
  eapply (release_done s ref _ g); simpl; try done; rewrite ?Hid; try done.
  - destruct ref; unfold Grant_Ref; simpl in *; by subst.
  - split.
    + apply topology_ok_ext; [apply Hs|done|apply (tp_cursor s (ok_topology s Hs))..].
    + rewrite <- Hsl. by apply (release_grant_ok s (ok_index s Hs)).
  - unfold owners. simpl. rewrite <- Hsl. done.
Qed.

Lemma UpdateNode_cases s snapshot : sched_ok s ->
  let '(s', err) := UpdateNode s snapshot in
  match err with
  | Some _ => s' = s
  | None => sched_ok s' /\ exists st, newNodeState snapshot = Ok st /\
      s' = mkScheduler (sched_ledger s) (<[node_ID (ns_Node snapshot) := st]> (sched_nodes s))
             (sched_targets s) (sched_targetOrder s) (sched_nextTarget s) (sched_nextGrantID s)
             (sched_grants s) (sched_grantBySlot s)
  end.
Proof.
  intros Hs. unfold UpdateNode. destruct (newNodeState snapshot) as [st|] eqn:Hst; [|done].
  destruct (sched_nodes s !! _) as [cur|] eqn:Hc; [|done].
  destruct (newNodeState_sets _ _ Hst) as (_ & Hsn & _).
  case_bool_decide as H1; simpl; [|done]. case_bool_decide as H2; simpl; [|done].
  case_bool_decide as H3; simpl; [|done].
  split; [|eauto]. split; [|by eapply index_ok_ext; [..|apply Hs]].
  destruct (ok_topology s Hs) as [T1 T2 T3 T4 T5 T6]. split; try done.
  - simpl. apply map_Forall_insert_2; [|done]. split; rewrite Hsn; done.
  - intros key. cbn [sched_ledger sched_nodes]. rewrite T2.
    destruct (decide (node_ID (ns_Node snapshot) = slot_NodeID key)) as [E|E].
    + rewrite <- E, lookup_insert_eq, Hc. split; intros (st' & [= <-] & Hi); eexists; (split; [done|]);
        rewrite Hsn in *; congruence || lia.
    + by rewrite lookup_insert_ne.
Qed.

Lemma sched_apply_ok s op : sched_ok s -> sched_ok (sched_apply s op).
Proof.
  intros Hs. destruct op as [snapshot|demand|ref e|ref]; simpl.
  - pose proof (UpdateNode_cases s snapshot Hs) as H. destruct (UpdateNode s snapshot) as [s' [err|]]; simpl;
      [by subst|apply H].
  - by destruct (GrantNext_cases s demand Hs).
  - by destruct (BindExecution_cases s ref e Hs).
  - by destruct (Release_cases s ref Hs).
Qed.

Lemma sched_run_ok s ops : sched_ok s -> sched_ok (sched_run s ops).
Proof.
  revert s. induction ops as [|op ops IH]; intros s Hs; simpl; [done|].
  apply IH. by apply sched_apply_ok.
Qed.

(** ** Construction and restoration *)

Lemma add_node_states_spec nodes acc states :
  add_node_states nodes acc = Ok states ->
  forall id st, states !! id = Some st <->
    acc !! id = Some st \/ exists sn, sn ∈ nodes /\ newNodeState sn = Ok st /\ node_ID (ns_Node sn) = id.
Proof.
  revert acc. induction nodes as [|sn nodes IH]; intros acc; simpl.
  { intros [= <-] id st. split; [by left|]. intros [?|(? & Hin & _)]; [done|set_solver]. }
  destruct (newNodeState sn) as [st0|] eqn:Hst; [|done].
  destruct (acc !! node_ID (ns_Node sn)) eqn:Hacc; [done|].
  intros Hadd id st. rewrite (IH _ Hadd), lookup_insert_Some. split.
  - intros [[[<- <-]|[? ?]]|(sn' & ? & ? & ?)]; [right|by left|right]; eexists; split_and!;
      [apply list_elem_of_here|done|done|apply list_elem_of_further; done|done|done].
  - intros [Ha|(sn' & [->|Hin]%elem_of_cons & Hn & <-)]; [left; right| |right; eauto].
    + split; [|done]. intros <-. congruence.
    + left. left. split; congruence.
Qed.

(** A node that reached the map passed [Validate]. *)
Lemma add_node_states_valid nodes acc states sn :
  add_node_states nodes acc = Ok states -> sn ∈ nodes -> exists st, newNodeState sn = Ok st.
Proof.
  revert acc. induction nodes as [|sn' nodes IH]; intros acc; [set_solver|]. simpl. intros Hadd Hin.
  destruct (newNodeState sn') as [st|] eqn:Hnew; [|done].
  destruct (acc !! _); [done|]. apply elem_of_cons in Hin as [->|Hin]; [eauto|by eapply IH].
Qed.

Lemma add_target_specs_spec targets acc specs :
  add_target_specs targets acc = Ok specs ->
  (forall t spec, specs !! t = Some spec -> acc !! t = Some spec \/
     target_ID (spec_Target spec) = t /\ TargetSpec_Validate spec = None) /\
  (forall t, is_Some (specs !! t) <->
     is_Some (acc !! t) \/ t ∈ map (fun spec => target_ID (spec_Target spec)) targets) /\
  NoDup (map (fun spec => target_ID (spec_Target spec)) targets) /\
  (forall t, t ∈ map (fun spec => target_ID (spec_Target spec)) targets -> acc !! t = None).
Proof.
  revert acc. induction targets as [|sp targets IH]; intros acc; simpl.
  { intros [= <-]. split_and!; [by left|set_solver|constructor|set_solver]. }
  destruct (TargetSpec_Validate sp) eqn:Hv; [done|].
  destruct (acc !! target_ID (spec_Target sp)) eqn:Hacc; [done|].
  intros (H1 & H2 & H3 & H4)%IH. split_and!.
  - intros t spec [Ha|?]%H1; [|by right]. rewrite lookup_insert_Some in Ha. naive_solver.
  - intros t. rewrite H2, elem_of_cons, lookup_insert_is_Some'. naive_solver.
  - constructor; [|done]. intros Hin%H4. by rewrite lookup_insert_eq in Hin.
  - intros t [->|Hin]%elem_of_cons; [done|]. pose proof (H4 t Hin) as Hn.
    by apply lookup_insert_None in Hn as [? _].
Qed.

(** What can be restored on top of [s]: known targets, configured slots, no slot
    twice, no execution twice, and no more than the fleet maximum. *)
Definition restorable_one (s : Scheduler) (r : RestoredReservation) : Prop :=
  is_Some (sched_targets s !! restored_TargetID r) /\
  restored_Slot r ∈ own_slots (store_abs (sched_ledger s)) /\
  (restored_ExecutionID r = "" \/ TrimSpace (restored_ExecutionID r) <> "").

Definition bound_executions (rs : list RestoredReservation) : list ExecutionID :=
  filter (fun e => e <> "") (map restored_ExecutionID rs).

Definition restorable (s : Scheduler) (rs : list RestoredReservation) : Prop :=
  Forall (restorable_one s) rs /\ NoDup (map restored_Slot rs) /\
  NoDup (bound_executions rs) /\ Z.of_nat (length rs) <= FleetMaximum s.

(** The reservations a scheduler's grants stand for. *)
Definition reservation_of (g : Grant) : RestoredReservation :=
  mkRestoredReservation (grant_TargetID g) (grant_Slot g) (grant_ExecutionID g).
Definition reservations_of (s : Scheduler) : list RestoredReservation :=
  map (fun '(_, g) => reservation_of g) (map_to_list (sched_grants s)).

Lemma elem_of_reservations_of s r :
  r ∈ reservations_of s <-> exists id g, sched_grants s !! id = Some g /\ reservation_of g = r.
Proof.
  unfold reservations_of. rewrite list_elem_of_fmap. split.
  - intros ([id g] & -> & Hin%elem_of_map_to_list). eauto.
  - intros (id & g & Hg & <-). exists (id, g). by rewrite elem_of_map_to_list.
Qed.

#[export] Instance restorable_perm s : Proper ((≡ₚ) ==> iff) (restorable s).
Proof.
  assert (Himp : forall rs1 rs2, rs1 ≡ₚ rs2 -> restorable s rs1 -> restorable s rs2).
  { intros rs1 rs2 Hp (H1 & H2 & H3 & H4).
    pose proof (Permutation_map restored_Slot Hp) as Hp1.
    pose proof (Permutation_map restored_ExecutionID Hp) as Hp2.
    pose proof (Permutation_length Hp) as Hlen. split_and!; [by rewrite <- Hp|by rewrite <- Hp1| |lia].
    unfold bound_executions in *. by rewrite <- Hp2. }
  intros rs1 rs2 Hp. split; apply Himp; [done|by symmetry].
Qed.

(** Adding an element to the ones already seen. *)
Lemma fresh_cons `{Countable A} (x : A) l (seen : gset A) :
  ((forall k, k ∈ x :: l -> k ∉ seen) /\ (x ∉ l)) <->
  ((x ∉ seen) /\ forall k, k ∈ l -> k ∉ {[x]} ∪ seen).
Proof.
  setoid_rewrite elem_of_cons. setoid_rewrite not_elem_of_union.
  setoid_rewrite not_elem_of_singleton. split.
  - intros [Hf Hx]. split; [by apply Hf; left|]. intros k Hk. split; [congruence|]. by apply Hf; right.
  - intros [Hx Hf]. split; [intros k [->|Hk]; [done|by apply Hf]|]. intros Hin. by destruct (Hf x Hin).
Qed.

Lemma check_reservations_spec s slots rs seenS seenE :
  (forall k, k ∈ slots <-> k ∈ own_slots (store_abs (sched_ledger s))) ->
  check_reservations (sched_targets s) slots rs seenS seenE = None <->
  Forall (restorable_one s) rs /\ NoDup (map restored_Slot rs) /\ NoDup (bound_executions rs) /\
  (forall k, k ∈ map restored_Slot rs -> k ∉ seenS) /\
  (forall e, e ∈ bound_executions rs -> e ∉ seenE).
Proof.
  intros Hsl. revert seenS seenE. induction rs as [|r rs IH]; intros seenS seenE.
  { simpl. split; [|done]. intros _. split_and!; [constructor|constructor|constructor|set_solver|].
    intros e He. by apply not_elem_of_nil in He. }
  assert (Hbe : bound_executions (r :: rs) =
    if decide (restored_ExecutionID r = "") then bound_executions rs
    else restored_ExecutionID r :: bound_executions rs).
  { unfold bound_executions. simpl. rewrite filter_cons. repeat case_decide; tauto || done. }
  rewrite Hbe, Forall_cons. unfold restorable_one at 1. simpl. rewrite NoDup_cons, <- Hsl.
  pose proof (fresh_cons (restored_Slot r) (map restored_Slot rs) seenS) as Hfs.
  pose proof (fresh_cons (restored_ExecutionID r) (bound_executions rs) seenE) as Hfe.
  case_bool_decide as Ht; [split; [done|]; rewrite Ht; intros [[[[? [=]] _] _] _]|].
  apply not_eq_None_Some in Ht.
  case_bool_decide as Hk; simpl; [|split; [done|tauto]].
  case_bool_decide as Hs1; simpl; [split; [done|tauto]|].
  case_bool_decide as He; simpl.
  - rewrite decide_True by done. rewrite IH. tauto.
  - rewrite decide_False by done. rewrite NoDup_cons.
    case_bool_decide as Hw; [split; [done|tauto]|].
    case_bool_decide as Hs2; [split; [done|tauto]|].
    rewrite IH. tauto.
Qed.

Lemma restore_reservation_ok s r :
  sched_ok s -> sched_nextGrantID s <> 0 -> restorable_one s r ->
  owners s !! restored_Slot r = None ->
  (restored_ExecutionID r <> "" -> restored_ExecutionID r ∉ map restored_ExecutionID (reservations_of s)) ->
  ActiveGrantCount s < FleetMaximum s ->
  exists s' ledger, restore_reservation s r = Ok s' /\ sched_ok s' /\
    s' = index_grant s ledger (mkGrant (sched_nextGrantID s) (restored_TargetID r) (restored_Slot r)
                                 (restored_ExecutionID r)) /\
    own_slots (store_abs ledger) = own_slots (store_abs (sched_ledger s)) /\
    FleetMaximum s' = FleetMaximum s /\
    owners s' = <[restored_Slot r := mkSlotOwner (restored_TargetID r) (restored_ExecutionID r)]> (owners s).
Proof.
  intros Hs Hn (Ht & Hk & He) Hfree Hex Hcount. destruct r as [t slot e]; simpl in *.
  pose proof (ix_ledger s (ok_index s Hs)) as Hw.
  destruct (known_target_id s Hs t Ht) as [_ Hreq].
  assert (Hroom : Z.of_nat (size (own_owners (store_abs (sched_ledger s)))) < own_max (store_abs (sched_ledger s))).
  { unfold ActiveGrantCount in Hcount. rewrite <- (ix_claimed s (ok_index s Hs)) in Hcount.
    change (Z.of_nat (size (own_owners (ledger_abs (sched_ledger s)))) < ledger_fleetMaximum (sched_ledger s)).
    by rewrite ledger_abs_size. }
  destruct (store_claim_allowed (sched_ledger s) slot (mkSlotOwner t "")) as [l1 Hc]; try done.
  pose proof (store_claimed _ _ _ _ Hw Hc) as (Hw1 & Hsl1 & Hm1 & Ho1 & _).
  assert (exists l2, (if e != "" then SlotLedger_BindExecution l1 slot t e else (l1, None)) = (l2, None) /\
    store_wf l2 /\ own_slots (store_abs l2) = own_slots (store_abs (sched_ledger s)) /\
    own_max (store_abs l2) = own_max (store_abs (sched_ledger s)) /\
    store_owners l2 = <[slot := mkSlotOwner t e]> (owners s)) as (l2 & Hb & Hw2 & Hsl2 & Hm2 & Ho2).
  { case_bool_decide as Hee; simpl; [exists l1; by subst|].
    destruct (store_bind_allowed l1 slot t "" e) as [l2 Hb].
    - done.
    - destruct He as [?|He]; [done|]. unfold required. by rewrite bool_decide_eq_false_2.
    - by rewrite Ho1, lookup_insert_eq.
    - by left.
    - exists l2. split; [exact Hb|]. pose proof (store_bound _ _ _ _ _ Hw1 Hb) as (H2 & Hsl2 & Hm2 & Ho2).
      split_and!; [done|exact (eq_trans Hsl2 Hsl1)|exact (eq_trans Hm2 Hm1)|].
      transitivity (<[slot := mkSlotOwner t e]> (own_owners (store_abs l1))); [exact Ho2|].
      rewrite Ho1. apply insert_insert_eq. }
  exists (index_grant s l2 (mkGrant (sched_nextGrantID s) t slot e)), l2. split_and!; try done.
  - unfold restore_reservation. simpl.
    change (SlotLedger_Claim (sched_ledger s) slot (mkSlotOwner t "")) with
      (store_apply (sched_ledger s) (OpClaim slot (mkSlotOwner t ""))). rewrite Hc, Hb. done.
  - split; [apply topology_ok_ext; [apply Hs|done|apply (tp_cursor s (ok_topology s Hs))..]|].
    apply index_grant_ok; try done; [apply Hs|]. simpl. intros Hne id g' Hg' E. apply (Hex Hne).
    apply list_elem_of_fmap. exists (reservation_of g'). split; [done|]. apply elem_of_reservations_of. eauto.
Qed.

Lemma reservations_of_index_grant s ledger g :
  sched_ok s -> sched_nextGrantID s <> 0 -> grant_ID g = sched_nextGrantID s ->
  reservations_of (index_grant s ledger g) ≡ₚ reservation_of g :: reservations_of s.
Proof.
  intros Hs Hn Hid. unfold reservations_of, index_grant. simpl. rewrite Hid.
  rewrite map_to_list_insert by (by apply ix_fresh; [apply Hs|]). done.
Qed.

Lemma bound_executions_cons r rs :
  bound_executions (r :: rs) =
  if decide (restored_ExecutionID r = "") then bound_executions rs
  else restored_ExecutionID r :: bound_executions rs.
Proof. unfold bound_executions. simpl. rewrite filter_cons. repeat case_decide; tauto || done. Qed.

Lemma elem_of_bound_executions e rs :
  e ∈ bound_executions rs <-> e <> "" /\ e ∈ map restored_ExecutionID rs.
Proof. unfold bound_executions. by rewrite list_elem_of_filter. Qed.

Lemma restorable_one_ext s s' r :
  sched_targets s' = sched_targets s ->
  own_slots (store_abs (sched_ledger s')) = own_slots (store_abs (sched_ledger s)) ->
  restorable_one s r -> restorable_one s' r.
Proof. unfold restorable_one. by intros -> ->. Qed.

(** The second loop of [restoreReservations] cannot fail after the first. *)
Lemma restore_loop_ok rs : forall s,
  sched_ok s -> Forall (restorable_one s) rs -> NoDup (map restored_Slot rs) ->
  NoDup (bound_executions rs) ->
  (forall r, r ∈ rs -> owners s !! restored_Slot r = None) ->
  (forall e, e ∈ bound_executions rs -> e ∉ map restored_ExecutionID (reservations_of s)) ->
  1 <= sched_nextGrantID s -> sched_nextGrantID s + Z.of_nat (length rs) <= max_uint64 ->
  ActiveGrantCount s + Z.of_nat (length rs) <= FleetMaximum s ->
  exists s', restore_loop s rs = Ok s' /\ sched_ok s' /\
    reservations_of s' ≡ₚ rs ++ reservations_of s /\
    sched_nextGrantID s' = sched_nextGrantID s + Z.of_nat (length rs).
Proof.
  induction rs as [|r rs IH]; intros s Hs Hall Hslots Hexecs Hfree Hfresh Hid1 Hid2 Hcap; simpl.
  { exists s. split_and!; [done|done|done|simpl; lia]. }
  rewrite bound_executions_cons in Hexecs. simpl length in *.
  apply Forall_cons in Hall as [Hr Hall]. simpl in Hslots. apply NoDup_cons in Hslots as [Hns Hslots].
  destruct (restore_reservation_ok s r Hs) as (s1 & ledger & -> & Hs1 & E & Hsl & Hmax & Hown);
    [lia|done|apply Hfree; set_solver| |lia|].
  { intros Hne. apply Hfresh, elem_of_bound_executions. split; [done|]. simpl. set_solver. }
  pose proof (reservations_of_index_grant s ledger (mkGrant (sched_nextGrantID s)
    (restored_TargetID r) (restored_Slot r) (restored_ExecutionID r)) Hs ltac:(lia) eq_refl) as Hres.
  rewrite <- E in Hres. replace (reservation_of _) with r in Hres by (by destruct r).
  assert (Hnext : sched_nextGrantID s1 = sched_nextGrantID s + 1).
  { rewrite E. simpl. apply wrap_uint64_small. lia. }
  assert (Hcount : ActiveGrantCount s1 = ActiveGrantCount s + 1).
  { rewrite E. unfold ActiveGrantCount. simpl. rewrite map_size_insert_None; [lia|].
    apply ix_fresh; [apply Hs|lia]. }
  destruct (IH s1) as (s' & Hloop & Hs' & Hperm & Hn'); try done; try lia.
  - eapply Forall_impl; [exact Hall|]. intros r'. apply restorable_one_ext; by rewrite E.
  - by case_decide; [|apply NoDup_cons in Hexecs as [_ ?]].
  - intros r' Hr'. rewrite Hown, lookup_insert_ne; [apply Hfree; set_solver|].
    intros Heq. apply Hns. rewrite Heq. by apply list_elem_of_fmap_2.
  - intros e He. rewrite (Permutation_map restored_ExecutionID Hres). simpl.
    rewrite not_elem_of_cons. pose proof (proj1 (elem_of_bound_executions _ _) He) as [Hne _]. split.
    + intros ->. rewrite decide_False in Hexecs by done. by apply NoDup_cons in Hexecs as [? _].
    + apply Hfresh. rewrite bound_executions_cons. case_decide; [done|]. by right.
  - exists s'. split_and!; [done|done| |lia]. rewrite Hperm, Hres. by rewrite <- Permutation_middle.
Qed.

(** The state [NewWithReservations] builds before it restores anything. *)
Lemma New_topology nodes targets fleetMaximum states ledger specs :
  add_node_states nodes ∅ = Ok states -> NewSlotLedger (map ns_Node nodes) fleetMaximum = Ok ledger ->
  add_target_specs targets ∅ = Ok specs ->
  let order := sort_slice string_less (map (fun spec => target_ID (spec_Target spec)) targets) in
  sched_ok (mkScheduler ledger states specs order 0 1 ∅ ∅) /\ ledger_claimed ledger = 0 /\
  own_owners (store_abs ledger) = ∅.
Proof.
  intros Hstates Hledger Hspecs order.
  apply NewSlotLedger_spec in Hledger as (Hw & Hown & Hcl & Hslots & _ & _ & _ & Hnd).
  pose proof (add_node_states_spec _ _ _ Hstates) as Hst.
  destruct (add_target_specs_spec _ _ _ Hspecs) as (Hsp1 & Hsp2 & Hsp3 & _).
  split; [|done]. split; split; cbn [sched_ledger sched_nodes sched_targets sched_targetOrder
    sched_nextTarget sched_nextGrantID sched_grants sched_grantBySlot].
  - intros id st [Ha|(sn & Hin & Hnew & Hid)]%Hst; [by rewrite lookup_empty in Ha|].
    destruct (newNodeState_sets _ _ Hnew) as (_ & Hsn & _). split; by rewrite Hsn.
  - intros key. rewrite (store_slots_iff ledger key), Hslots. split.
    + intros (node & (sn & -> & Hin)%list_elem_of_fmap & Hh).
      unfold node_has_slot in Hh. apply andb_true_iff in Hh as [[Hid Hlo]%andb_true_iff Hhi].
      apply bool_decide_eq_true_1 in Hid. apply Z.leb_le in Hlo. apply Z.ltb_lt in Hhi.
      destruct (add_node_states_valid _ _ _ sn Hstates Hin) as [st Hnew].
      exists st. destruct (newNodeState_sets _ _ Hnew) as (_ & Hsn & _). rewrite Hsn.
      split; [|done]. apply Hst. right. exists sn. by rewrite Hid.
    + intros (st & [Ha|(sn & Hin & Hnew & Hid)]%Hst & Hi); [by rewrite lookup_empty in Ha|].
      destruct (newNodeState_sets _ _ Hnew) as (_ & Hsn & _). rewrite Hsn in Hi.
      exists (ns_Node sn). split; [by apply list_elem_of_fmap_2|]. unfold node_has_slot.
      rewrite bool_decide_eq_true_2 by done. apply andb_true_iff. rewrite Z.ltb_lt. simpl.
      rewrite Z.leb_le. done.
  - intros t spec Ht. destruct (Hsp1 _ _ Ht) as [Ha|[? ?]]; [by rewrite lookup_empty in Ha|done].
  - unfold order. by rewrite sort_slice_perm.
  - intros t. unfold order. rewrite sort_slice_perm, Hsp2, lookup_empty. split; [by right|].
    by intros [[? ?]|?].
  - split; [lia|]. destruct order; [by left|right; simpl; lia].
  - exact Hw.
  - apply map_Forall_empty.
  - apply map_Forall_empty.
  - unfold owners, store_owners. simpl in *. rewrite Hown. apply map_Forall_empty.
  - intros *. by rewrite lookup_empty.
  - by rewrite !map_size_empty.
  - split; [done|]. right. apply map_Forall_empty.
Qed.

Lemma configured_slots_iff s k : sched_ok s ->
  k ∈ (list_to_set (map slot_Key (SlotLedger_Slots (sched_ledger s))) : gset SlotKey) <->
  k ∈ own_slots (store_abs (sched_ledger s)).
Proof.
  intros Hs. pose proof (ix_ledger s (ok_index s Hs)) as Hw.
  rewrite store_slots_iff, elem_of_list_to_set, list_elem_of_fmap.
  setoid_rewrite elem_of_ledger_slots; [|exact Hw]. split.
  - intros (sl & -> & Hsl). eauto.
  - intros [sl Hsl]. destruct (lwf_slots _ Hw _ _ Hsl) as [<- _]. eauto.
Qed.

(** Restoring onto a scheduler without grants. *)
Lemma restoreReservations_ok s rs :
  sched_ok s -> sched_grants s = ∅ -> sched_nextGrantID s = 1 -> Z.of_nat (length rs) <= max_int64 ->
  (restorable s rs -> exists s', restoreReservations s rs = Ok s') /\
  (forall s', restoreReservations s rs = Ok s' ->
     sched_ok s' /\ restorable s rs /\ reservations_of s' ≡ₚ rs /\
     sched_nextGrantID s' = 1 + Z.of_nat (length rs)).
Proof.
  intros Hs Hempty Hnext Hlen. unfold restoreReservations.
  pose proof (sort_slice_perm reservation_less rs) as Hp.
  set (sorted := sort_slice reservation_less rs) in *. rewrite (Permutation_length Hp).
  assert (Hno : reservations_of s = []) by (unfold reservations_of; by rewrite Hempty, map_to_list_empty).
  assert (Hfree : forall k, owners s !! k = None).
  { intros k. destruct (owners s !! k) eqn:E; [|done].
    destruct (ix_owner s (ok_index s Hs) _ _ E) as [id Hid].
    destruct (ix_slot s (ok_index s Hs) _ _ Hid) as (g & Hg & _). by rewrite Hempty, lookup_empty in Hg. }
  pose proof (check_reservations_spec s _ sorted ∅ ∅ (fun k => configured_slots_iff s k Hs)) as Hcheck.
  assert (Hloop : restorable s sorted -> exists s', restore_loop s sorted = Ok s' /\ sched_ok s' /\
            reservations_of s' ≡ₚ rs /\ sched_nextGrantID s' = 1 + Z.of_nat (length rs)).
  { intros (H1 & H2 & H3 & H4). rewrite (Permutation_length Hp) in H4.
    destruct (restore_loop_ok sorted s) as (s' & ? & ? & Hperm & Hid); try done;
      rewrite ?(Permutation_length Hp), ?Hno; try (unfold max_int64, max_uint64 in *; lia).
    - intros e _. simpl. apply not_elem_of_nil.
    - unfold ActiveGrantCount. rewrite Hempty, map_size_empty. lia.
    - exists s'. rewrite Hno, app_nil_r, Hp in Hperm. rewrite Hnext, (Permutation_length Hp) in Hid. done. }
  rewrite Z.gtb_ltb. unfold FleetMaximum in *. split.
  - intros Hr. rewrite <- Hp in Hr. destruct (Hloop Hr) as (s' & Hok & _).
    destruct Hr as (H1 & H2 & H3 & H4). rewrite (Permutation_length Hp) in H4.
    rewrite (proj2 Hcheck) by (split_and!; [done|done|done|set_solver|intros; apply not_elem_of_empty]).
    rewrite (proj2 (Z.ltb_ge _ _)) by done. eauto.
  - intros s'. destruct (check_reservations _ _ _ _ _); [done|].
    destruct (Z.ltb_spec (SlotLedger_FleetMaximum (sched_ledger s)) (Z.of_nat (length rs))) as [|Hcap]; [done|].
    destruct (proj1 Hcheck eq_refl) as (H1 & H2 & H3 & _).
    assert (Hr : restorable s sorted) by (split_and!; try done; by rewrite (Permutation_length Hp)).
    destruct (Hloop Hr) as (s2 & -> & ?). intros [= <-]. rewrite <- Hp at 1. naive_solver.
Qed.

Lemma NewWithReservations_ok nodes targets fleetMaximum s0 rs :
  New nodes targets fleetMaximum = Ok s0 -> Z.of_nat (length rs) <= max_int64 ->
  (restorable s0 rs -> exists s, NewWithReservations nodes targets fleetMaximum rs = Ok s) /\
  (forall s, NewWithReservations nodes targets fleetMaximum rs = Ok s ->
     sched_ok s /\ restorable s0 rs /\ reservations_of s ≡ₚ rs /\
     sched_nextGrantID s = 1 + Z.of_nat (length rs)).
Proof.
  unfold New, NewWithReservations. intros Hnew Hlen.
  destruct (add_node_states nodes ∅) as [states|] eqn:Hst; [|done].
  destruct (NewSlotLedger _ _) as [ledger|] eqn:Hl; [|done].
  destruct (add_target_specs targets ∅) as [specs|] eqn:Hsp; [|done].
  destruct (New_topology _ _ _ _ _ _ Hst Hl Hsp) as (Hs & _).
  set (s1 := mkScheduler ledger states specs _ 0 1 ∅ ∅) in *.
  assert (s0 = s1) as ->.
  { unfold restoreReservations in Hnew. simpl in Hnew. destruct (_ >? _); congruence. }
  by apply restoreReservations_ok.
Qed.

(** Whatever was restored, restoring nothing would have worked too. *)
Lemma NewWithReservations_New nodes targets fleetMaximum rs s :
  NewWithReservations nodes targets fleetMaximum rs = Ok s ->
  exists s0, New nodes targets fleetMaximum = Ok s0.
Proof.
  unfold New, NewWithReservations. 
  destruct (add_node_states nodes ∅) as [states|] eqn:Hst; [|done].
  destruct (NewSlotLedger _ _) as [ledger|] eqn:Hl; [|done].
  destruct (add_target_specs targets ∅) as [specs|] eqn:Hsp; [|done].
  destruct (New_topology _ _ _ _ _ _ Hst Hl Hsp) as (Hs & _). intros _.
  eapply (proj1 (restoreReservations_ok _ [] Hs eq_refl eq_refl _)).
  Unshelve. 2: done.
  split_and!; [constructor|constructor|constructor|].
  apply (lwf_max _ (ix_ledger _ (ok_index _ Hs))).
Qed.

(** ** The code's own consistency check *)

Lemma ledger_slot_owners_lookup s k : sched_ok s ->
  ledger_slot_owners s !! k = slot_Owner <$> ledger_slots (sched_ledger s) !! k.
Proof.
  intros Hs. pose proof (ix_ledger s (ok_index s Hs)) as Hw. unfold ledger_slot_owners.
  set (f := fun slot => (slot_Key slot, slot_Owner slot)).
  set (slots := ledger_slots (sched_ledger s)) in *.
  assert (Hp : map f (rev (SlotLedger_Slots (sched_ledger s))) ≡ₚ map f (map snd (map_to_list slots))).
  { apply Permutation_map. rewrite <- Permutation_rev. apply sort_slice_perm. }
  assert (Hkeys : map fst (map f (map snd (map_to_list slots))) = map fst (map_to_list slots)).
  { rewrite !map_map. apply map_ext_in. intros [k' sl] Hin%list_elem_of_In%elem_of_map_to_list.
    by destruct (lwf_slots _ Hw _ _ Hin) as [<- _]. }
  assert (Hnd : NoDup (map fst (map f (rev (SlotLedger_Slots (sched_ledger s)))))).
  { rewrite Hp, Hkeys. apply NoDup_fst_map_to_list. }
  apply option_eq. intros o. rewrite <- (elem_of_list_to_map _ _ _ Hnd), Hp, list_elem_of_fmap, fmap_Some.
  setoid_rewrite list_elem_of_fmap. split.
  - intros (sl & [= -> ->] & [k' sl'] & -> & Hin%elem_of_map_to_list). simpl.
    destruct (lwf_slots _ Hw _ _ Hin) as [-> _]. eauto.
  - intros (sl & Hsl & ->). destruct (lwf_slots _ Hw _ _ Hsl) as [<- _].
    exists sl. split; [done|]. exists (slot_Key sl, sl). by rewrite elem_of_map_to_list.
Qed.

Lemma validate_grants_ok s l : sched_ok s ->
  Forall (fun '(id, g) => sched_grants s !! id = Some g) l ->
  validate_grants s (ledger_slot_owners s) l = None.
Proof.
  intros Hs. induction 1 as [|[id g] l Hg _ IH]; simpl; [done|].
  destruct (ix_grant s (ok_index s Hs) _ _ Hg) as (-> & Hpos & Ht & Hb & Ho).
  rewrite bool_decide_eq_true_2, bool_decide_eq_false_2 by lia. simpl.
  rewrite bool_decide_eq_false_2 by (by apply not_eq_None_Some).
  rewrite Hb, bool_decide_eq_true_2 by done. simpl.
  rewrite ledger_slot_owners_lookup by done. rewrite owners_lookup in Ho.
  destruct (ledger_slots (sched_ledger s) !! grant_Slot g) as [sl|]; [|done]. simpl in *. rewrite Ho.
  by rewrite bool_decide_eq_true_2.
Qed.

Lemma validate_executions_ok grants seen :
  NoDup (filter (fun e => e <> "") (map grant_ExecutionID grants)) ->
  (forall g, g ∈ grants -> grant_ExecutionID g ∉ seen) ->
  validate_executions grants seen = None.
Proof.
  revert seen. induction grants as [|g grants IH]; intros seen; simpl; [done|].
  rewrite filter_cons. intros Hnd Hseen. case_bool_decide as He.
  - rewrite decide_False in Hnd by tauto. apply IH; [done|]. intros g' Hg'. apply Hseen. by right.
  - rewrite decide_True in Hnd by done. apply NoDup_cons in Hnd as [Hni Hnd].
    rewrite bool_decide_eq_false_2 by (apply Hseen; by left). apply IH; [done|].
    intros g' Hg'. apply not_elem_of_union. split; [|apply Hseen; by right].
    apply not_elem_of_singleton. intros E. apply Hni, list_elem_of_filter. split; [done|].
    rewrite <- E. by apply list_elem_of_fmap_2.
Qed.

(** No execution is bound to two grants. *)
Lemma grant_executions_NoDup s : sched_ok s ->
  NoDup (filter (fun e => e <> "") (map grant_ExecutionID (map snd (map_to_list (sched_grants s))))).
Proof.
  intros Hs. pose proof (ix_exec s (ok_index s Hs)) as Hex.
  assert (Hin : Forall (fun '(id, g) => sched_grants s !! id = Some g) (map_to_list (sched_grants s))).
  { apply Forall_forall. intros [id g]. by rewrite elem_of_map_to_list. }
  pose proof (NoDup_fst_map_to_list (sched_grants s)) as Hnd.
  induction (map_to_list (sched_grants s)) as [|[id g] l IH]; simpl; [constructor|].
  apply Forall_cons in Hin as [Hg Hin]. apply NoDup_cons in Hnd as [Hni Hnd]. rewrite filter_cons.
  case_decide as He; [|by apply IH]. constructor; [|by apply IH].
  intros [_ (g' & E & (p & -> & Hp)%list_elem_of_fmap)%list_elem_of_fmap]%list_elem_of_filter.
  rewrite Forall_forall in Hin. specialize (Hin _ Hp). destruct p as [id' g']. simpl in *.
  apply Hni. rewrite (Hex id id' g g' Hg Hin E He). by apply (list_elem_of_fmap_2 fst) in Hp.
Qed.

(** [Validate] accepts every good state, until the identifiers run out. *)
Lemma Scheduler_Validate_ok s : sched_ok s -> sched_nextGrantID s <> 0 -> Scheduler_Validate s = None.
Proof.
  intros Hs Hid. unfold Scheduler_Validate.
  pose proof (ix_ledger s (ok_index s Hs)) as Hw. pose proof (ix_claimed s (ok_index s Hs)) as Hcl.
  rewrite (proj2 (SlotLedger_Validate_iff _) Hw). rewrite (ix_size s (ok_index s Hs)) in *.
  rewrite bool_decide_eq_true_2 by done. rewrite Hcl, bool_decide_eq_true_2 by done. simpl.
  pose proof (lwf_bound _ Hw) as Hb. unfold SlotLedger_Claimed, SlotLedger_FleetMaximum in *.
  rewrite Z.gtb_ltb, (proj2 (Z.ltb_ge _ _)) by lia.
  rewrite bool_decide_eq_false_2 by done.
  destruct (tp_cursor s (ok_topology s Hs)) as [Hc1 Hc2].
  assert ((Z.of_nat (length (sched_targetOrder s)) >? 0) &&
    ((sched_nextTarget s <? 0) || (sched_nextTarget s >=? Z.of_nat (length (sched_targetOrder s)))) = false) as ->.
  { rewrite (proj2 (Z.ltb_ge _ _)) by lia. rewrite Z.gtb_ltb, Z.geb_leb. simpl.
    destruct Hc2 as [[-> _]|Hc2]; [done|]. rewrite (proj2 (Z.leb_gt _ _)) by done. apply andb_false_r. }
  rewrite validate_grants_ok; [|done|].
  2:{ apply Forall_forall. intros [id g]. by rewrite elem_of_map_to_list. }
  rewrite validate_executions_ok; [|by apply grant_executions_NoDup|set_solver].
  destruct (existsb _ _) eqn:E; [|done]. exfalso. apply existsb_exists in E as ([k [o|]] & Hin & Hb'); [|done].
  apply list_elem_of_In, elem_of_map_to_list in Hin. rewrite ledger_slot_owners_lookup in Hin by done.
  apply bool_decide_eq_true_1 in Hb'.
  assert (Ho : owners s !! k = Some o).
  { rewrite owners_lookup. destruct (ledger_slots _ !! k); [|done]. simpl in *. congruence. }
  destruct (ix_owner s (ok_index s Hs) _ _ Ho). congruence.
Qed.

(** ** Counting *)

Lemma sum_by_target (grants : gmap Z Grant) order :
  NoDup order -> map_Forall (fun _ g => grant_TargetID g ∈ order) grants ->
  foldr Z.add 0 (map (fun t => count_map (fun _ g => grant_TargetID g == t) grants) order) =
  Z.of_nat (size grants).
Proof.
  intros Hnd. induction grants as [|id g grants Hid IH] using map_ind; intros Hall.
  { rewrite map_size_empty. clear. induction order as [|t order IH]; simpl; [done|].
    rewrite count_map_empty. lia. }
  apply map_Forall_insert in Hall as [Hg Hall]; [|done].
  rewrite map_size_insert_None by done. rewrite Nat2Z.inj_succ, <- (IH Hall). clear IH Hall.
  induction order as [|t order IH]; [by apply not_elem_of_nil in Hg|]. simpl.
  rewrite count_map_insert_new by done. apply NoDup_cons in Hnd as [Hni Hnd].
  destruct (decide (grant_TargetID g = t)) as [<-|Hne].
  - rewrite bool_decide_eq_true_2 by done.
    enough (foldr Z.add 0 (map (fun t => count_map (fun _ g' => grant_TargetID g' == t) (<[id:=g]> grants)) order) =
            foldr Z.add 0 (map (fun t => count_map (fun _ g' => grant_TargetID g' == t) grants) order)) by lia.
    f_equal. apply map_ext_in. intros t Ht%list_elem_of_In. rewrite count_map_insert_new by done.
    rewrite bool_decide_eq_false_2 by congruence. lia.
  - rewrite bool_decide_eq_false_2 by done. apply elem_of_cons in Hg as [?|Hg]; [congruence|].
    rewrite (IH Hnd Hg). lia.
Qed.

Lemma count_list_filter {K A} `{Countable K} (p : K -> A -> bool) (l : list (K * A)) :
  count_list p l = Z.of_nat (length (filter (fun kv => p kv.1 kv.2 = true) l)).
Proof.
  induction l as [|[k v] l IH]; simpl; [done|]. rewrite filter_cons. simpl. rewrite IH.
  destruct (p k v) eqn:E; [rewrite decide_True by done; simpl; lia|by rewrite decide_False by congruence].
Qed.

(** A node never holds more grants than it has slots. *)
Lemma claimedByNode_le s id st : sched_ok s -> sched_nodes s !! id = Some st ->
  claimedByNode s id <= node_MaxRunners (ns_Node (state_snapshot st)).
Proof.
  intros Hs Hst. unfold claimedByNode, count_map. rewrite count_list_filter.
  set (l := filter _ _). set (max := node_MaxRunners _).
  assert (Hl : forall k gid, (k, gid) ∈ l -> sched_grantBySlot s !! k = Some gid /\ slot_NodeID k = id).
  { intros k gid [Hp Hin]%list_elem_of_filter. simpl in Hp.
    split; [by apply elem_of_map_to_list|by apply bool_decide_eq_true_1 in Hp]. }
  assert (Hsub : map (fun kv => slot_Index kv.1) l ⊆ seqZ 0 max).
  { intros i ([k gid] & -> & Hin)%list_elem_of_fmap. destruct (Hl _ _ Hin) as [Hb Hid]. simpl.
    destruct (ix_slot s (ok_index s Hs) _ _ Hb) as (g & Hg & <-).
    destruct (ix_grant s (ok_index s Hs) _ _ Hg) as (_ & _ & _ & _ & Ho).
    assert (Hcfg : grant_Slot g ∈ own_slots (store_abs (sched_ledger s))).
    { apply store_slots_iff. rewrite owners_lookup in Ho. destruct (ledger_slots _ !! _); [eauto|done]. }
    apply (tp_slots s (ok_topology s Hs)) in Hcfg as (st' & Hst' & Hi). rewrite Hid, Hst in Hst'.
    injection Hst' as <-. apply elem_of_seqZ. unfold max. lia. }
  assert (Hnd : NoDup (map (fun kv => slot_Index kv.1) l)).
  { apply NoDup_fmap_2_strong; [|apply NoDup_filter, NoDup_map_to_list].
    intros [k gid] [k' gid'] Hin Hin' E. simpl in E.
    destruct (Hl _ _ Hin) as [Hb Hid], (Hl _ _ Hin') as [Hb' Hid'].
    destruct k, k'; simpl in *; congruence. }
  pose proof (NoDup_incl_length (l := map (fun kv => slot_Index kv.1) l) (l' := seqZ 0 max)) as Hlen.
  rewrite length_map, length_seqZ in Hlen.
  destruct (tp_nodes s (ok_topology s Hs) _ _ Hst) as [Hnew _].
  apply newNodeState_sets in Hnew as [Hv _]. unfold NodeSnapshot_Validate in Hv.
  destruct (Node_Validate (ns_Node (state_snapshot st))) eqn:Hnv; [done|]. apply Node_Validate_max in Hnv.
  fold max in Hnv. enough (length l <= Z.to_nat max)%nat by lia. apply Hlen.
  - by apply NoDup_ListNoDup.
  - intros i Hi%list_elem_of_In. apply list_elem_of_In. by apply Hsub.
Qed.

#[export] Instance bool_first_order : StrictOrderOn (fun l r : bool => l && negb r).
Proof. split; [split|]; intros; repeat match goal with b : bool |- _ => destruct b end; done. Qed.

(** The ranking is a weak order: fewer runners, then more memory, then a cached
    package, then the slot. *)
#[export] Instance candidate_less_order : WeakOrder candidate_less.
Proof.
  assert (Hw : WeakOrder (fun l r : candidate =>
    if cand_packageCached l != cand_packageCached r
    then cand_packageCached l && negb (cand_packageCached r)
    else if slot_NodeID (cand_slot l) != slot_NodeID (cand_slot r)
    then string_less (slot_NodeID (cand_slot l)) (slot_NodeID (cand_slot r))
    else slot_Index (cand_slot l) <? slot_Index (cand_slot r))).
  { apply (lex_weak cand_packageCached (fun l r => l && negb r)); [apply _|].
    apply (lex_weak (fun c => slot_NodeID (cand_slot c)) string_less); [apply _|].
    split; intros *; rewrite ?Z.ltb_lt, ?Z.ltb_ge; lia. }
  eapply WeakOrder_ext; [|apply (lex_weak cand_activeRunners Z.ltb); [apply _|];
    apply (lex_weak cand_availableMemory Z.gtb); [apply _|exact Hw]].
  intros l r. unfold candidate_less. repeat (case_bool_decide; simpl; [|done]).
  by destruct (cand_packageCached l), (cand_packageCached r).
Qed.

(** A node's observation after its owner withdrew [more] targets as well. *)
Definition withdraw_more (snapshot : NodeSnapshot) (more : list TargetID) : NodeSnapshot :=
  mkNodeSnapshot (ns_Node snapshot) (ns_Reconciled snapshot) (ns_NativeReady snapshot)
    (ns_AvailableMemoryBytes snapshot) (ns_ActiveExecutions snapshot)
    (ns_CachedRunnerPackages snapshot) (ns_ExcludedTargets snapshot ++ more).

(** ** Sequences of calls *)

(** The target one call grants, if any. *)
Definition granted_by (s : Scheduler) (op : sched_op) : list TargetID :=
  match op with
  | OpGrantNext demand =>
      match snd (GrantNext s demand) with
      | Ok (Some g) => [grant_TargetID g]
      | _ => []
      end
  | _ => []
  end.

(** The targets granted along a sequence of calls, in order. *)
Fixpoint granted_targets (s : Scheduler) (ops : list sched_op) : list TargetID :=
  match ops with
  | [] => []
  | op :: ops' => granted_by s op ++ granted_targets (sched_apply s op) ops'
  end.

(** [t] waits: each time [GrantNext] is called, it is demanded and has a place. *)
Fixpoint waiting (s : Scheduler) (ops : list sched_op) (t : TargetID) : Prop :=
  match ops with
  | [] => True
  | op :: ops' =>
      match op with
      | OpGrantNext demand =>
          t ∈ demand /\ exists slot, placeable s (target_spec s t) slot
      | _ => True
      end /\ waiting (sched_apply s op) ops' t
  end.

(** A call that grants nothing leaves the rotation alone. *)
Lemma apply_rotation s op : sched_ok s -> granted_by s op = [] ->
  sched_targetOrder (sched_apply s op) = sched_targetOrder s /\
  sched_nextTarget (sched_apply s op) = sched_nextTarget s.
Proof.
  intros Hs. destruct op as [snapshot|demand|ref e|ref]; simpl; intros Hop.
  - pose proof (UpdateNode_cases s snapshot Hs) as H. destruct (UpdateNode s snapshot) as [s' [err|]];
      [by subst|]. by destruct H as (_ & st & _ & ->).
  - by destruct (GrantNext_cases s demand Hs).
  - by destruct (BindExecution_cases s ref e Hs).
  - by destruct (Release_cases s ref Hs).
Qed.

Lemma round_target_ext s s' o : sched_targetOrder s' = sched_targetOrder s ->
  sched_nextTarget s' = sched_nextTarget s -> round_target s' o = round_target s o.
Proof. unfold round_target. by intros -> ->. Qed.

(** While [t] waits, [d] grants to others are all that [d] turns of the cursor
    allow. *)
Lemma waiting_bound t ops : forall s d, sched_ok s -> waiting s ops t ->
  0 <= d < Z.of_nat (length (sched_targetOrder s)) -> round_target s d = Some t ->
  t ∉ granted_targets s ops -> Z.of_nat (length (granted_targets s ops)) <= d.
Proof.
  induction ops as [|op ops IH]; intros s d Hs Hw Hd Ht Hno; simpl in *; [lia|].
  destruct Hw as [Hop Hw]. pose proof (sched_apply_ok s op Hs) as Hs'.
  destruct (decide (granted_by s op = [])) as [Hng|Hg].
  { destruct (apply_rotation s op Hs Hng) as [Ho Hn]. rewrite Hng in *.
    apply (IH _ d Hs' Hw); [by rewrite Ho|by rewrite (round_target_ext s)|done]. }
  destruct op as [?|demand|? ?|?]; try done. simpl in *.
  destruct Hop as (Hin & slot & Hp).
  destruct (GrantNext_cases s demand Hs)
    as [err _|_|s' g offset best rest _ _ _ Ho Hrt Hpass _ _ _ _ Htg Hord Hnext _ _ _ _];
    simpl in *; [done|done|].
  apply not_elem_of_cons in Hno as [Hne Hno].
  set (n := Z.of_nat (length (sched_targetOrder s))) in *.
  assert (Hlt : offset < d).
  { destruct (Z.lt_trichotomy offset d) as [?|[->|Hgt]]; [done|congruence|].
    destruct (Hpass d t) as [?|Hnp]; [lia|done|done|by apply Hnp in Hp]. }
  pose proof (IH s' (d - offset - 1)) as H. rewrite Hord in H. fold n in H.
  enough (Z.of_nat (length (granted_targets s' ops)) <= d - offset - 1) by lia.
  apply H; try done; [lia|]. unfold round_target in *. rewrite Hord, Hnext. fold n in Ht |- *.
  rewrite Zplus_mod_idemp_l. rewrite <- Ht. do 3 f_equal. lia.
Qed.

(** An identifier that no grant carries and that will not be handed out again. *)
Definition retired (id : Z) (s : Scheduler) : Prop :=
  sched_grants s !! id = None /\ 1 <= id /\ (sched_nextGrantID s = 0 \/ id < sched_nextGrantID s).

Lemma retired_apply id s op : sched_ok s -> retired id s -> retired id (sched_apply s op).
Proof.
  intros Hs (Hnone & Hpos & Hlt). destruct op as [snapshot|demand|ref e|ref]; simpl.
  - pose proof (UpdateNode_cases s snapshot Hs) as H. destruct (UpdateNode s snapshot) as [s' [err|]];
      [by subst|]. by destruct H as (_ & st & _ & ->).
  - destruct (GrantNext_cases s demand Hs)
      as [|?|s' g offset best rest _ Hn _ _ _ _ _ Hg _ _ _ _ _ Hnext Hgr _ _]; simpl; [done|done|].
    destruct Hlt as [?|Hlt]; [done|]. assert (Hgid : grant_ID g = sched_nextGrantID s) by (by rewrite Hg).
    unfold retired. rewrite Hgr, Hnext, lookup_insert_ne by lia. split_and!; [done|done|].
    destruct (ix_next s (ok_index s Hs)) as [Hr _]. unfold wrap_uint64, max_uint64 in *.
    destruct (decide (sched_nextGrantID s = 18446744073709551615)) as [->|]; [by left|right].
    rewrite Z.mod_small; lia.
  - destruct (BindExecution_cases s ref e Hs) as [|s' g Hl _ _ _ _ g' _ _ _ _ _ Hnext Hgr _ _|]; simpl; [done| |done].
    unfold retired. rewrite Hgr, Hnext, lookup_insert_ne; [done|].
    apply (lookupGrant_iff s ref g Hs) in Hl as [Hl _].
    destruct (ix_grant s (ok_index s Hs) _ _ Hl) as [-> _]. congruence.
  - destruct (Release_cases s ref Hs) as [s' g _ _ _ _ _ _ _ _ Hnext Hgr _ _|]; simpl; [|done].
    unfold retired. rewrite Hgr, Hnext, lookup_delete_None. naive_solver.
Qed.

Lemma retired_run id ops : forall s, sched_ok s -> retired id s -> retired id (sched_run s ops).
Proof.
  induction ops as [|op ops IH]; intros s Hs Hr; simpl; [done|].
  apply IH; [by apply sched_apply_ok|by apply retired_apply].
Qed.

(** A call that names a retired grant is refused. *)
Lemma retired_refused ref s : sched_ok s -> retired (ref_ID ref) s ->
  (exists err, Release s ref = (s, Some err)) /\
  (forall e, exists err, BindExecution s ref e = (s, Err err)).
Proof.
  intros Hs (Hnone & _). split.
  - destruct (Release_cases s ref Hs); [congruence|eauto].
  - intros e. assert (Hl : forall g, lookupGrantIdentityLocked s ref <> Ok g).
    { intros g Hg%lookupGrant_iff; [|done]. destruct Hg as [? _]. congruence. }
    destruct (BindExecution_cases s ref e Hs) as [g Hg|s' g Hg|]; [by apply Hl in Hg|by apply Hl in Hg|eauto].
Qed.

(** ** Properties *)

(** C3 Whatever is restored and whatever calls follow, in any order, the
    scheduler's indexes agree: its own [Validate] passes as long as grant
    identifiers remain; a slot and an execution belong to at most one grant; the
    ledger counts exactly the grants, never more than the fleet maximum; and no
    node holds more grants than its [MaxRunners]. *)
Theorem scheduler_always_consistent nodes targets fleetMaximum rs s0 ops :
  NewWithReservations nodes targets fleetMaximum rs = Ok s0 ->
  Z.of_nat (length rs) <= max_int64 ->
  let s := sched_run s0 ops in
  (Scheduler_Validate s = None \/ sched_nextGrantID s = 0) /\
  (forall id1 id2 g1 g2, sched_grants s !! id1 = Some g1 -> sched_grants s !! id2 = Some g2 ->
     grant_Slot g1 = grant_Slot g2 \/
     (grant_ExecutionID g1 = grant_ExecutionID g2 /\ grant_ExecutionID g1 <> "") -> id1 = id2) /\
  SlotLedger_Claimed (sched_ledger s) = ActiveGrantCount s /\
  ActiveGrantCount s <= FleetMaximum s /\
  (forall id node, sched_nodes s !! id = Some node ->
     claimedByNode s id <= node_MaxRunners (ns_Node (state_snapshot node))).
Proof.
  intros Hnew Hlen s. destruct (NewWithReservations_New _ _ _ _ _ Hnew) as [s1 Hs1].
  destruct (proj2 (NewWithReservations_ok _ _ _ _ _ Hs1 Hlen) _ Hnew) as [Hs0 _].
  assert (Hs : sched_ok s) by (by apply sched_run_ok). clearbody s.
  pose proof (ix_claimed s (ok_index s Hs)) as Hcl. split_and!.
  - destruct (decide (sched_nextGrantID s = 0)); [by right|left]. by apply Scheduler_Validate_ok.
  - intros id1 id2 g1 g2 H1 H2 [E|[E Hne]];
      [by eapply (ix_slot_inj s (ok_index s Hs))|by eapply (ix_exec s (ok_index s Hs))].
  - done.
  - unfold ActiveGrantCount. rewrite <- Hcl. apply (lwf_bound _ (ix_ledger s (ok_index s Hs))).
  - intros id node Hn. by apply claimedByNode_le.
Qed.

(** The advertised capacities are sound: the slots granted to the configured
    targets sum to the number of active grants, which is what the ledger counts
    as claimed. *)
Theorem capacities_sum s :
  sched_ok s ->
  foldr Z.add 0 (map capacity_Advertised (Capacities s)) = ActiveGrantCount s /\
  ActiveGrantCount s = SlotLedger_Claimed (sched_ledger s) /\
  map capacity_TargetID (Capacities s) = sched_targetOrder s /\
  forall t, is_Some (sched_targets s !! t) -> Capacity s t = Ok (capacityLocked s t).
Proof.
  intros Hs. unfold Capacities. rewrite !map_map. simpl. split_and!.
  - apply sum_by_target; [apply (tp_order s (ok_topology s Hs))|]. intros id g Hg.
    apply (tp_known s (ok_topology s Hs)). by destruct (ix_grant s (ok_index s Hs) _ _ Hg) as (_ & _ & ? & _).
  - symmetry. apply (ix_claimed s (ok_index s Hs)).
  - apply map_id.
  - intros t [spec Ht]. unfold Capacity. by rewrite Ht.
Qed.

(** C36 [GrantNext] grants only legitimate places: the target is demanded, the
    slot was free and its node admits the target, the fleet had room even counting
    executions nobody owns, and the grant is new.  Its effect is exactly that one
    claim. *)
Theorem grant_next_safe s demand s' g :
  sched_ok s -> GrantNext s demand = (s', Ok (Some g)) ->
  grant_TargetID g ∈ demand /\
  placeable s (target_spec s (grant_TargetID g)) (grant_Slot g) /\
  OccupiedCapacity s < FleetMaximum s /\
  sched_grants s !! grant_ID g = None /\ grant_ExecutionID g = "" /\
  sched_ok s' /\ sched_nodes s' = sched_nodes s /\
  sched_grants s' = <[grant_ID g := g]> (sched_grants s) /\
  owners s' = <[grant_Slot g := mkSlotOwner (grant_TargetID g) ""]> (owners s).
Proof.
  intros Hs E. pose proof (GrantNext_cases s demand Hs) as H. rewrite E in H.
  inversion H as [| |s1 g1 offset best rest Hocc Hn Hin Ho Hr Hp Hc Hg Hs' Hnodes _ _ _ _ Hgr Hown _]; subst.
  assert (grant_ID g = sched_nextGrantID s /\ grant_Slot g = cand_slot best /\ grant_ExecutionID g = "")
    as (Hid & Hsl & He) by (by rewrite Hg).
  split_and!; try done.
  - rewrite Hsl. apply (candidates_iff s Hs). rewrite Hc. simpl. by left.
  - rewrite Hid. apply ix_fresh; [apply Hs|done].
  - rewrite Hown. unfold grant_owner. by rewrite He.
Qed.

(** C37 [GrantNext] leaves no demand unserved that it could serve: when it grants
    nothing although the demand is well formed and identifiers remain, either the
    fleet is full or no demanded target has a legitimate place. *)
Theorem grant_next_work_conserving s demand :
  sched_ok s -> sched_nextGrantID s <> 0 ->
  Forall (fun t => is_Some (sched_targets s !! t)) demand -> NoDup demand ->
  OccupiedCapacity s < FleetMaximum s ->
  (exists t slot, t ∈ demand /\ placeable s (target_spec s t) slot) ->
  exists s' g, GrantNext s demand = (s', Ok (Some g)).
Proof.
  intros Hs Hn Hf Hnd Hocc (t & slot & Ht & Hp).
  destruct (GrantNext_cases s demand Hs) as [err [?|Hbad]|[?|Hno]|s' g]; [done|by destruct Hbad|lia| |eauto].
  by destruct (Hno t slot Ht).
Qed.


(** The granted slot is the best one: no legitimate place for the target has
    a node with fewer runners, or as many runners and more memory, or both equal
    and the package cached where the granted node has not. *)
Theorem grant_next_best s demand s' g :
  sched_ok s -> GrantNext s demand = (s', Ok (Some g)) ->
  exists best, best ∈ candidatesLocked s (target_spec s (grant_TargetID g)) /\
    cand_slot best = grant_Slot g /\
    forall c, c ∈ candidatesLocked s (target_spec s (grant_TargetID g)) ->
      cand_activeRunners best < cand_activeRunners c \/
      cand_activeRunners best = cand_activeRunners c /\
      (cand_availableMemory c < cand_availableMemory best \/
       cand_availableMemory best = cand_availableMemory c /\
       (cand_packageCached c = true -> cand_packageCached best = true)).
Proof.
  intros Hs E. pose proof (GrantNext_cases s demand Hs) as H. rewrite E in H.
  inversion H as [| |s1 g1 offset best rest _ _ _ _ _ _ Hc Hg]; subst.
  exists best. rewrite Hc. split_and!; [by left|by rewrite Hg|].
  intros c Hin. rewrite <- Hc in Hin. unfold candidatesLocked in *.
  rewrite elem_of_sort_slice in Hin. pose proof (sort_slice_head candidate_less _ _ _ c Hc Hin) as Hless.
  revert Hless. unfold candidate_less. case_bool_decide as Hr; simpl; intros Hless.
  2:{ left. apply Z.ltb_ge in Hless. lia. }
  right. split; [lia|]. revert Hless. case_bool_decide as Hm; simpl; intros Hless.
  2:{ left. rewrite Z.gtb_ltb in Hless. apply Z.ltb_ge in Hless. lia. }
  right. split; [lia|]. intros Hcc. destruct (cand_packageCached best) eqn:Hb; [done|].
  rewrite Hcc in Hless. simpl in Hless. done.
Qed.

(** Round robin is fair: a target that is demanded and has a place whenever
    [GrantNext] is called is granted before the others have received, together,
    as many grants as there are targets; calls in between do not matter. *)
Theorem grant_next_bounded_wait s ops t :
  sched_ok s -> is_Some (sched_targets s !! t) -> waiting s ops t ->
  (length (sched_targetOrder s) <= length (granted_targets s ops))%nat ->
  t ∈ granted_targets s ops.
Proof.
  intros Hs Ht Hw Hlen. destruct (round_target_reaches s t (ok_topology s Hs) Ht) as (d & Hd & Hrt).
  destruct (decide (t ∈ granted_targets s ops)) as [|Hno]; [done|].
  pose proof (waiting_bound t ops s d Hs Hw Hd Hrt Hno). lia.
Qed.

(** A released grant is gone for good.  [Release] succeeds only for the exact
    current grant and frees its slot; afterwards, whatever calls follow, the same
    reference can neither release nor bind anything, even if its slot has a new
    owner. *)
Theorem release_is_final s ref s' ops :
  sched_ok s -> Release s ref = (s', None) ->
  (exists g, sched_grants s !! ref_ID ref = Some g /\ Grant_Ref g = ref) /\
  owners s' = delete (ref_Slot ref) (owners s) /\
  let later := sched_run s' ops in
  (exists err, Release later ref = (later, Some err)) /\
  (forall e, exists err, BindExecution later ref e = (later, Err err)).
Proof.
  intros Hs E. pose proof (Release_cases s ref Hs) as H. rewrite E in H.
  inversion H as [s1 g Hg Hr _ Hs' _ _ _ _ Hnext Hgr Hown _ E1|]. subst s1.
  split_and!; [eauto|done|].
  apply retired_refused; [by apply sched_run_ok|]. apply retired_run; [done|].
  destruct (ix_grant s (ok_index s Hs) _ _ Hg) as (_ & Hpos & _).
  destruct (ix_next s (ok_index s Hs)) as [_ Hlt]. unfold retired. rewrite Hgr, Hnext.
  split_and!; [apply lookup_delete_eq|done|]. destruct Hlt as [?|Hlt]; [by left|right]. by eapply Hlt.
Qed.

(** The node owner's exclusions only ever subtract: withdrawing more targets
    from a node removes exactly that node's slots from the withdrawn targets'
    candidates, adds no candidate to any target, and takes no grant away. *)
Theorem exclusions_only_subtract s snapshot node more s' t slot :
  sched_ok s -> sched_nodes s !! node_ID (ns_Node snapshot) = Some node ->
  state_snapshot node = snapshot -> is_Some (sched_targets s !! t) ->
  UpdateNode s (withdraw_more snapshot more) = (s', None) ->
  sched_grants s' = sched_grants s /\
  (slot ∈ map cand_slot (candidatesLocked s' (target_spec s' t)) <->
   slot ∈ map cand_slot (candidatesLocked s (target_spec s t)) /\
   ~ (slot_NodeID slot = node_ID (ns_Node snapshot) /\ t ∈ more)).
Proof.
  intros Hs Hnode Hsn Hk E. pose proof (UpdateNode_cases s (withdraw_more snapshot more) Hs) as H. rewrite E in H. simpl in H.
  destruct H as (Hs' & st & Hst & Heq). split; [by rewrite Heq|].
  destruct (newNodeState_sets _ _ Hst) as (_ & Hss & _).
  rewrite (candidates_iff s Hs), (candidates_iff s' Hs').
  destruct (known_target_id s Hs t Hk) as [Hid _].
  assert (target_spec s' t = target_spec s t) as -> by (unfold target_spec; by rewrite Heq).
  split.
  - intros [Hp1 Hp2 (node' & Hn' & Hp)]. rewrite Heq in Hp1, Hp2, Hn', Hp. simpl in Hn'. cbv zeta in Hp.
    destruct (decide (node_ID (ns_Node snapshot) = slot_NodeID slot)) as [Hi|Hi].
    + rewrite <- Hi, lookup_insert_eq in Hn'. injection Hn' as <-. rewrite Hss in Hp. simpl in Hp.
      rewrite elem_of_app, Hid in Hp. split; [|tauto].
      split; [done|done|]. exists node. rewrite <- Hi. split; [done|]. rewrite Hsn, Hid. rewrite <- Hi in Hp.
      cbv zeta. tauto.
    + rewrite lookup_insert_ne in Hn' by done. split; [|intuition congruence].
      split; [done|done|]. exists node'. by split.
  - intros [[Hp1 Hp2 (node' & Hn' & Hp)] Hnot]. cbv zeta in Hp. rewrite Heq. split; [done|done|].
    destruct (decide (node_ID (ns_Node snapshot) = slot_NodeID slot)) as [Hi|Hi].
    + rewrite <- Hi, Hnode in Hn'. injection Hn' as <-. exists st. simpl. rewrite <- Hi, lookup_insert_eq.
      split; [done|]. rewrite Hss. simpl. rewrite Hid, Hsn, <- Hi in *. rewrite elem_of_app. cbv zeta. tauto.
    + exists node'. simpl. rewrite lookup_insert_ne by done. by split.
Qed.

(** Restoration is exact: reservations are accepted exactly when every one
    names a configured target and slot, no slot and no execution occurs twice and
    the fleet maximum holds them; the restored scheduler then holds exactly those
    grants, nothing more, under the identifiers that follow. *)
Theorem restore_exact nodes targets fleetMaximum s0 rs :
  New nodes targets fleetMaximum = Ok s0 -> Z.of_nat (length rs) <= max_int64 ->
  (restorable s0 rs <-> exists s, NewWithReservations nodes targets fleetMaximum rs = Ok s) /\
  (forall s, NewWithReservations nodes targets fleetMaximum rs = Ok s ->
     reservations_of s ≡ₚ rs /\ sched_nextGrantID s = 1 + Z.of_nat (length rs) /\
     Scheduler_Validate s = None).
Proof.
  intros Hnew Hlen. destruct (NewWithReservations_ok _ _ _ _ rs Hnew Hlen) as [H1 H2]. split.
  - split; [exact H1|]. intros [s Hs]. by destruct (H2 s Hs) as (_ & ? & _).
  - intros s Hs. destruct (H2 s Hs) as (Hok & _ & Hp & Hid). split_and!; [done|done|].
    apply Scheduler_Validate_ok; [done|lia].
Qed.

(** ** A concrete fleet

    Two Linux nodes with two slots each and two targets; [b] has more memory. *)

Definition example_snapshot (id : NodeID) (memory : Z) : NodeSnapshot :=
  mkNodeSnapshot (mkNode id id "serial" 1 OSLinux ArchAMD64 2 NodeActive NodeOnline)
    true true memory [] [] [].
Definition example_target (id : TargetID) : TargetSpec :=
  mkTargetSpec (mkGitHubTarget id "1" TargetRepository "o/r" TargetPrivate true id "p")
    (mkRunnerProfile "p" "spare" (Some OSLinux) None 100 RunnerVersionAutoUpdate RuntimeNative) "".
Definition example_nodes : list NodeSnapshot := [example_snapshot "a" 200; example_snapshot "b" 300].
Definition example_targets : list TargetSpec := [example_target "t1"; example_target "t2"].
Definition empty_scheduler : Scheduler := mkScheduler (mkSlotLedger ∅ 0 0) ∅ ∅ [] 0 0 ∅ ∅.
Definition example_scheduler (rs : list RestoredReservation) : Scheduler :=
  match NewWithReservations example_nodes example_targets (Some 3) rs with
  | Ok s => s
  | Err _ => empty_scheduler
  end.
Definition example_reservation : RestoredReservation :=
  mkRestoredReservation "t1" (mkSlotKey "b" 0) "e1".
Definition example_ref : GrantRef := mkGrantRef 1 "t1" (mkSlotKey "b" 0) "e1".

Lemma example_new : New example_nodes example_targets (Some 3) = Ok (example_scheduler []).
Proof. vm_compute. reflexivity. Qed.
Lemma example_restored :
  NewWithReservations example_nodes example_targets (Some 3) [example_reservation] =
  Ok (example_scheduler [example_reservation]).
Proof. vm_compute. reflexivity. Qed.

Lemma example_ok rs : Z.of_nat (length rs) <= max_int64 ->
  NewWithReservations example_nodes example_targets (Some 3) rs = Ok (example_scheduler rs) ->
  sched_ok (example_scheduler rs).
Proof. intros Hlen Hrs. by destruct (proj2 (NewWithReservations_ok _ _ _ _ _ example_new Hlen) _ Hrs). Qed.

Lemma example_sched_ok : sched_ok (example_scheduler []).
Proof. apply example_ok; [done|exact example_new]. Qed.
Lemma example_restored_ok : sched_ok (example_scheduler [example_reservation]).
Proof. apply example_ok; [done|exact example_restored]. Qed.

(** The first grant of [t1] goes to the node with more memory. *)
Definition example_grant : Grant := mkGrant 1 "t1" (mkSlotKey "b" 0) "".
Example example_grant_next :
  snd (GrantNext (example_scheduler []) ["t2"; "t1"]) = Ok (Some example_grant).
Proof. vm_compute. reflexivity. Qed.
Definition example_granted : Scheduler := fst (GrantNext (example_scheduler []) ["t2"; "t1"]).
Lemma example_granted_eq :
  GrantNext (example_scheduler []) ["t2"; "t1"] = (example_granted, Ok (Some example_grant)).
Proof. vm_compute. reflexivity. Qed.

Lemma example_placeable t : t = "t1" \/ t = "t2" ->
  placeable (example_scheduler []) (target_spec (example_scheduler []) t) (mkSlotKey "a" 1).
Proof.
  intros Ht. apply (candidates_iff _ example_sched_ok). destruct Ht as [-> | ->]; vm_compute; set_solver.
Qed.

Lemma example_len : Z.of_nat (length [example_reservation]) <= max_int64.
Proof. vm_compute. congruence. Qed.

Lemma scheduler_always_consistent_witness :
  exists s0, NewWithReservations example_nodes example_targets (Some 3) [example_reservation] = Ok s0 /\
  let s := sched_run s0 [OpGrantNext ["t1"; "t2"]; OpReleaseGrant example_ref] in
  ActiveGrantCount s <= FleetMaximum s.
Proof.
  exists (example_scheduler [example_reservation]). split; [exact example_restored|].
  exact (proj1 (proj2 (proj2 (proj2 (scheduler_always_consistent _ _ _ _ _
           [OpGrantNext ["t1"; "t2"]; OpReleaseGrant example_ref] example_restored example_len))))).
Defined.

Lemma capacities_sum_witness :
  foldr Z.add 0 (map capacity_Advertised (Capacities (example_scheduler [example_reservation]))) =
  ActiveGrantCount (example_scheduler [example_reservation]).
Proof. exact (proj1 (capacities_sum _ example_restored_ok)). Defined.

Lemma grant_next_safe_witness :
  grant_TargetID example_grant ∈ ["t2"; "t1"] /\ sched_ok example_granted.
Proof.
  destruct (grant_next_safe _ _ _ _ example_sched_ok example_granted_eq) as (H & _ & _ & _ & _ & Hok & _).
  by split.
Defined.

Lemma grant_next_work_conserving_witness :
  exists s' g, GrantNext (example_scheduler []) ["t2"] = (s', Ok (Some g)).
Proof.
  apply (grant_next_work_conserving _ _ example_sched_ok).
  - by vm_compute.
  - constructor; [vm_compute; eauto|constructor].
  - constructor; [apply not_elem_of_nil|constructor].
  - by vm_compute.
  - exists "t2", (mkSlotKey "a" 1). split; [by left|]. apply example_placeable. by right.
Defined.

Lemma grant_next_best_witness :
  exists best, cand_slot best = mkSlotKey "b" 0 /\
    best ∈ candidatesLocked (example_scheduler []) (target_spec (example_scheduler []) "t1").
Proof.
  destruct (grant_next_best _ _ _ _ example_sched_ok example_granted_eq) as (best & H1 & H2 & _).
  by exists best.
Defined.

Lemma example_placeable_granted :
  placeable example_granted (target_spec example_granted "t2") (mkSlotKey "a" 1).
Proof.
  assert (Hok : sched_ok example_granted).
  { pose proof (sched_apply_ok _ (OpGrantNext ["t2"; "t1"]) example_sched_ok) as H. exact H. }
  apply (candidates_iff _ Hok). vm_compute. set_solver.
Qed.

Lemma grant_next_bounded_wait_witness :
  "t2" ∈ granted_targets (example_scheduler []) [OpGrantNext ["t2"; "t1"]; OpGrantNext ["t1"; "t2"]].
Proof.
  apply (grant_next_bounded_wait _ _ _ example_sched_ok).
  - vm_compute. eauto.
  - split; [|split; [|done]].
    + split; [by left|]. exists (mkSlotKey "a" 1). apply example_placeable. by right.
    + split; [by right; left|]. exists (mkSlotKey "a" 1). exact example_placeable_granted.
  - vm_compute. lia.
Defined.

Definition example_released : Scheduler := fst (Release (example_scheduler [example_reservation]) example_ref).
Lemma example_released_eq :
  Release (example_scheduler [example_reservation]) example_ref = (example_released, None).
Proof. vm_compute. reflexivity. Qed.

Lemma release_is_final_witness :
  let later := sched_run example_released [OpGrantNext ["t1"]] in
  exists err, Release later example_ref = (later, Some err).
Proof.
  exact (proj1 (proj2 (proj2 (release_is_final _ _ _ [OpGrantNext ["t1"]] example_restored_ok
                                example_released_eq)))).
Defined.

Definition example_withdrawn : Scheduler :=
  fst (UpdateNode (example_scheduler []) (withdraw_more (example_snapshot "b" 300) ["t1"])).
Lemma example_withdrawn_eq :
  UpdateNode (example_scheduler []) (withdraw_more (example_snapshot "b" 300) ["t1"]) =
  (example_withdrawn, None).
Proof. vm_compute. reflexivity. Qed.
Lemma example_node_b : sched_nodes (example_scheduler []) !! "b" =
  Some (mkNodeState (example_snapshot "b" 300) ∅ ∅).
Proof. vm_compute. reflexivity. Qed.
Lemma example_t1 : is_Some (sched_targets (example_scheduler []) !! "t1").
Proof. vm_compute. eauto. Qed.

Lemma exclusions_only_subtract_witness :
  sched_grants example_withdrawn = sched_grants (example_scheduler []).
Proof.
  exact (proj1 (exclusions_only_subtract (example_scheduler []) (example_snapshot "b" 300) _ ["t1"]
                  example_withdrawn "t1" (mkSlotKey "b" 0) example_sched_ok example_node_b eq_refl
                  example_t1 example_withdrawn_eq)).
Defined.

Lemma restore_exact_witness :
  reservations_of (example_scheduler [example_reservation]) ≡ₚ [example_reservation].
Proof.
  exact (proj1 (proj2 (restore_exact _ _ _ _ _ example_new example_len) _ example_restored)).
Defined.
