(* ===== verification/RunnerLease.v ===== *)
(** * The lease on a start secret (internal/runner/process.go)

    A [StartRequest] gives a platform adapter one chance to verify the workspace
    and then one chance to receive the JIT configuration.  All copies of a request
    share one [jitLease]; its mutex is released while the platform's callbacks
    run, so each of [VerifyWorkspaceAtExec] and [DeliverJIT] is two atomic
    sections, between which any other section of any copy may run.  [finishStart]
    is one atomic section. *)

From S2P Require Import Prelude GoStd.

(** ** Errors *)

(* src: internal/runner/errors.go:9-9 ErrInvalidRequest *)
Definition ErrInvalidRequest : GoError := PlainError "runner: invalid request".
(* src: internal/runner/errors.go:10-10 ErrUnsupportedPlatform *)
Definition ErrUnsupportedPlatform : GoError := PlainError "runner: unsupported platform".
(* src: internal/runner/errors.go:11-11 ErrPackageIntegrity *)
Definition ErrPackageIntegrity : GoError := PlainError "runner: package integrity check failed".
(* src: internal/runner/errors.go:14-14 ErrExecutionConflict *)
Definition ErrExecutionConflict : GoError := PlainError "runner: execution specification conflict".
(* src: internal/runner/errors.go:15-15 ErrExecutionNotFound *)
Definition ErrExecutionNotFound : GoError := PlainError "runner: execution not found".
(* src: internal/runner/errors.go:16-16 ErrReconciliationRequired *)
Definition ErrReconciliationRequired : GoError := PlainError "runner: reconciliation required".
(* src: internal/runner/errors.go:17-17 ErrQuarantined *)
Definition ErrQuarantined : GoError := PlainError "runner: node is quarantined".
(* src: internal/runner/errors.go:18-18 ErrCleanupFailed *)
Definition ErrCleanupFailed : GoError := PlainError "runner: cleanup verification failed".
(* src: internal/runner/errors.go:19-19 ErrWorkspaceChanged *)
Definition ErrWorkspaceChanged : GoError := PlainError "runner: workspace identity changed".
(* src: internal/runner/errors.go:20-20 ErrStartFenced *)
Definition ErrStartFenced : GoError := PlainError "runner: start fence was revoked".
(* src: internal/runner/errors.go:21-21 ErrStartFailed *)
Definition ErrStartFailed : GoError := PlainError "runner: process start failed".
(* src: internal/runner/errors.go:22-22 ErrStrongOwnershipUnavailable *)
Definition ErrStrongOwnershipUnavailable : GoError :=
  PlainError "runner: strong descendant ownership unavailable".
(* src: internal/runner/errors.go:23-23 ErrJournal *)
Definition ErrJournal : GoError := PlainError "runner: journal operation failed".

(** ** The lease *)

(* src: internal/runner/process.go:138-148 jitLease *)
Record jitLease := mkLease {
  lease_value : string;
  lease_verificationAttempted : bool;
  lease_workspaceVerified : bool;
  lease_consumed : bool;
  lease_deliveryInProgress : bool;
  lease_deliverySucceeded : bool;
  lease_contractFailed : bool;
  lease_revoked : bool;
}.
#[export] Instance jitLease_eq_dec : EqDecision jitLease.
Proof. solve_decision. Defined.

(* src: internal/runner/process.go:150-152 newJITArgument *)
Definition newJITArgument (value : string) : jitLease :=
  mkLease value false false false false false false false.

(** [lease.contractFailed = true; lease.consumed = true; lease.value = ""]. *)
(* src: internal/runner/process.go:45-47 StartRequest.VerifyWorkspaceAtExec *)
Definition spoil (l : jitLease) : jitLease :=
  mkLease "" (lease_verificationAttempted l) (lease_workspaceVerified l) true
    (lease_deliveryInProgress l) (lease_deliverySucceeded l) true (lease_revoked l).
(* src: internal/runner/process.go:85-85 StartRequest.DeliverJIT *)
Definition fail_contract (l : jitLease) : jitLease :=
  mkLease (lease_value l) (lease_verificationAttempted l) (lease_workspaceVerified l)
    (lease_consumed l) (lease_deliveryInProgress l) (lease_deliverySucceeded l) true
    (lease_revoked l).

(** The section before [request.verify] is called; an error ends the call. *)
(* src: internal/runner/process.go:42-53 StartRequest.VerifyWorkspaceAtExec *)
Definition verify_begin (l : jitLease) : jitLease * error :=
  if lease_revoked l || lease_verificationAttempted l || lease_consumed l then
    (if negb (lease_revoked l) then spoil l else l, Some ErrWorkspaceChanged)
  else
    (mkLease (lease_value l) true (lease_workspaceVerified l) (lease_consumed l)
       (lease_deliveryInProgress l) (lease_deliverySucceeded l) (lease_contractFailed l)
       (lease_revoked l), None).

(** The section after it returned [verifyErr]. *)
(* src: internal/runner/process.go:56-67 StartRequest.VerifyWorkspaceAtExec *)
Definition verify_end (l : jitLease) (verifyErr : error) : jitLease * error :=
  if (verifyErr != None) || lease_revoked l || lease_consumed l || lease_contractFailed l then
    (if negb (lease_revoked l) then spoil l else l, Some ErrWorkspaceChanged)
  else
    (mkLease (lease_value l) (lease_verificationAttempted l) true (lease_consumed l)
       (lease_deliveryInProgress l) (lease_deliverySucceeded l) (lease_contractFailed l)
       (lease_revoked l), None).

(** The section before the platform's callback; [Ok value] is what it is given. *)
(* src: internal/runner/process.go:79-100 StartRequest.DeliverJIT *)
Definition deliver_begin (l : jitLease) : jitLease * result string :=
  if lease_revoked l then (l, Err ErrInvalidRequest)
  else if lease_consumed l then (fail_contract l, Err ErrInvalidRequest)
  else if negb (lease_workspaceVerified l) || lease_contractFailed l then
    (spoil l, Err ErrWorkspaceChanged)
  else
    (mkLease "" (lease_verificationAttempted l) (lease_workspaceVerified l) true true
       (lease_deliverySucceeded l) (lease_contractFailed l) (lease_revoked l),
     Ok (lease_value l)).

(** The section after the callback returned [deliverErr]. *)
(* src: internal/runner/process.go:103-111 StartRequest.DeliverJIT *)
Definition deliver_end (l : jitLease) (deliverErr : error) : jitLease * error :=
  let l := mkLease (lease_value l) (lease_verificationAttempted l) (lease_workspaceVerified l)
             (lease_consumed l) false (lease_deliverySucceeded l) (lease_contractFailed l)
             (lease_revoked l) in
  if (deliverErr != None) || lease_revoked l || lease_contractFailed l then
    (fail_contract l, Some ErrStartFailed)
  else
    (mkLease (lease_value l) (lease_verificationAttempted l) (lease_workspaceVerified l)
       (lease_consumed l) (lease_deliveryInProgress l) true (lease_contractFailed l)
       (lease_revoked l), None).

(* src: internal/runner/process.go:117-132 StartRequest.finishStart *)
Definition finishStart (l : jitLease) : jitLease * bool :=
  (mkLease "" (lease_verificationAttempted l) (lease_workspaceVerified l) (lease_consumed l)
     (lease_deliveryInProgress l) (lease_deliverySucceeded l) (lease_contractFailed l) true,
   lease_workspaceVerified l && lease_deliverySucceeded l && negb (lease_deliveryInProgress l) &&
   negb (lease_contractFailed l) && negb (lease_revoked l)).

(** ** Every interleaving of the sections *)

Inductive lease_op :=
  | VerifyBegin
  | VerifyEnd (verifyErr : error)
  | DeliverBegin
  | DeliverEnd (deliverErr : error)
  | Finish.

Inductive lease_out :=
  | OutError (err : error)
  | OutValue (value : string)
  | OutFinished (satisfied : bool).

Definition lease_step (l : jitLease) (op : lease_op) : jitLease * lease_out :=
  match op with
  | VerifyBegin => let '(l, err) := verify_begin l in (l, OutError err)
  | VerifyEnd verifyErr => let '(l, err) := verify_end l verifyErr in (l, OutError err)
  | DeliverBegin =>
      match deliver_begin l with
      | (l, Ok value) => (l, OutValue value)
      | (l, Err err) => (l, OutError (Some err))
      end
  | DeliverEnd deliverErr => let '(l, err) := deliver_end l deliverErr in (l, OutError err)
  | Finish => let '(l, satisfied) := finishStart l in (l, OutFinished satisfied)
  end.

(** The sections run in the given order, with what each produced. *)
Fixpoint lease_run (l : jitLease) (ops : list lease_op) : jitLease * list (lease_op * lease_out) :=
  match ops with
  | [] => (l, [])
  | op :: rest =>
      let '(l, out) := lease_step l op in
      let '(l, trace) := lease_run l rest in (l, (op, out) :: trace)
  end.

(** The values handed to the platform. *)
Definition exposed (trace : list (lease_op * lease_out)) : list string :=
  omap (fun '(_, out) => match out with OutValue value => Some value | _ => None end) trace.

Definition is_error (entry : lease_op * lease_out) : bool :=
  match entry.2 with OutError (Some _) => true | _ => false end.

(** What the lease's fields say about the sections that have run. *)
Record lease_inv (value : string) (past : list (lease_op * lease_out)) (l : jitLease) : Prop := {
  li_fresh : lease_consumed l = false -> exposed past = [] /\
    (lease_revoked l = false -> lease_value l = value);
  li_once : exposed past = [] \/ exposed past = [value];
  li_verified : lease_workspaceVerified l = true -> (VerifyEnd None, OutError None) ∈ past;
  li_delivered : lease_deliverySucceeded l = true -> (DeliverEnd None, OutError None) ∈ past;
  li_open : lease_revoked l = false -> Forall (fun entry => entry.1 <> Finish) past;
  li_clean : lease_revoked l = false -> lease_contractFailed l = false ->
    Forall (fun entry => is_error entry = false) past;
}.

Lemma exposed_app past entry : exposed (past ++ [entry]) = exposed past ++ exposed [entry].
Proof. unfold exposed. by rewrite omap_app. Qed.

(** A section that hands out no value only has to keep the flags honest. *)
Lemma lease_inv_silent value past l l' entry :
  lease_inv value past l -> exposed [entry] = [] ->
  (lease_consumed l' = false -> lease_consumed l = false) ->
  (lease_revoked l' = false -> lease_revoked l = false /\ entry.1 <> Finish /\
     (lease_consumed l' = false -> lease_value l' = lease_value l) /\
     (lease_contractFailed l' = false -> lease_contractFailed l = false /\ is_error entry = false)) ->
  (lease_workspaceVerified l' = true ->
     lease_workspaceVerified l = true \/ entry = (VerifyEnd None, OutError None)) ->
  (lease_deliverySucceeded l' = true ->
     lease_deliverySucceeded l = true \/ entry = (DeliverEnd None, OutError None)) ->
  lease_inv value (past ++ [entry]) l'.
Proof.
  intros [Hf Ho Hv Hd Hop Hc] He Hcon Hrev Hver Hdel. rewrite <- (app_nil_r (exposed past)) in Ho, Hf.
  split; rewrite ?exposed_app, ?He, ?Forall_app, ?elem_of_app, ?list_elem_of_singleton.
  - intros Hl. destruct (Hf (Hcon Hl)) as [Hx Hval]. split; [done|]. intros Hr.
    destruct (Hrev Hr) as (Hr' & _ & Hval' & _). rewrite Hval' by done. auto.
  - done.
  - intros Hl. destruct (Hver Hl); auto.
  - intros Hl. destruct (Hdel Hl); auto.
  - intros Hl. destruct (Hrev Hl) as (Hr & Hne & _). auto.
  - intros Hl Hcf. destruct (Hrev Hl) as (Hr & _ & _ & Hk). destruct (Hk Hcf). auto.
Qed.

Ltac lease_silent :=
  eapply lease_inv_silent; [eassumption|..]; simpl; intuition (try congruence).

Lemma lease_step_inv value past l op :
  lease_inv value past l ->
  let '(l', out) := lease_step l op in lease_inv value (past ++ [(op, out)]) l'.
Proof.
  intros Hl. destruct op as [|e| |e|]; unfold lease_step.
  - unfold verify_begin. destruct (_ || _ || _) eqn:Hg; [|lease_silent].
    destruct (lease_revoked l) eqn:Hr; simpl; lease_silent.
  - unfold verify_end. destruct (_ || _ || _ || _) eqn:Hg.
    + destruct (lease_revoked l) eqn:Hr; simpl; lease_silent.
    + conditions. destruct Hg as (((Hg & _) & _) & _). subst e. lease_silent.
  - unfold deliver_begin. destruct (lease_revoked l) eqn:Hr; [lease_silent|].
    destruct (lease_consumed l) eqn:Hcon; [lease_silent|].
    destruct (_ || _) eqn:Hg; [lease_silent|]. conditions. destruct Hg as [Hver Hcf].
    destruct Hl as [Hf Ho Hv Hd Hop Hc]. destruct (Hf Hcon) as [Hx Hval].
    rewrite (Hval Hr) in *.
    split; simpl; rewrite ?exposed_app, ?Forall_app, ?elem_of_app, ?Hx; simpl; auto; try done.
  - unfold deliver_end. destruct (_ || _ || _) eqn:Hg; [lease_silent|].
    conditions. destruct Hg as ((Hg & _) & _). subst e. lease_silent.
  - unfold finishStart. lease_silent.
Qed.

Lemma lease_run_inv value past l ops :
  lease_inv value past l ->
  lease_inv value (past ++ (lease_run l ops).2) (lease_run l ops).1 /\
  forall pre entry post, (lease_run l ops).2 = pre ++ entry :: post ->
    exists l0, lease_inv value (past ++ pre) l0 /\ lease_step l0 entry.1 = ((lease_step l0 entry.1).1, entry.2).
Proof.
  revert past l. induction ops as [|op ops IH]; intros past l Hl; simpl.
  { rewrite app_nil_r. split; [done|]. by intros [|e1 pre] e2 post. }
  pose proof (lease_step_inv value past l op Hl) as Hstep.
  destruct (lease_step l op) as [l1 out] eqn:Hop. destruct (IH _ _ Hstep) as [Hend Hmid].
  destruct (lease_run l1 ops) as [l2 trace]. simpl in *. split.
  - by rewrite <- app_assoc in Hend.
  - intros [|e1 pre] e2 post; simpl; intros Heq; injection Heq as <- Heq.
    + exists l. rewrite app_nil_r. simpl. by rewrite Hop.
    + destruct (Hmid pre e2 post Heq) as (l0 & Hl0 & Hs). exists l0. by rewrite <- app_assoc in Hl0.
Qed.

Lemma new_lease_inv value : lease_inv value [] (newJITArgument value).
Proof. by split; simpl; auto. Qed.

(** ** Properties *)

(** A start secret reaches the platform at most once, and only after its
    workspace check.  However the sections of any number of calls on copies of a
    request interleave, at most one callback receives the secret, it does so after
    a verification that succeeded and before the request is finished, and if the
    request is found satisfied, then the workspace had been verified, a delivery
    callback had succeeded and no call on the request had failed. *)
Theorem start_lease_contract value ops :
  let trace := (lease_run (newJITArgument value) ops).2 in
  (exposed trace = [] \/ exposed trace = [value]) /\
  (forall pre op v post, trace = pre ++ (op, OutValue v) :: post ->
     v = value /\ exposed pre = [] /\ (VerifyEnd None, OutError None) ∈ pre /\
     Forall (fun entry => entry.1 <> Finish) pre) /\
  (forall pre op post, trace = pre ++ (op, OutFinished true) :: post ->
     (VerifyEnd None, OutError None) ∈ pre /\ (DeliverEnd None, OutError None) ∈ pre /\
     Forall (fun entry => is_error entry = false) pre).
Proof.
  intros trace. destruct (lease_run_inv value [] _ ops (new_lease_inv value)) as [Hend Hmid].
  split_and!; [apply (li_once _ _ _ Hend)| |].
  - intros pre op v post Heq. destruct (Hmid _ _ _ Heq) as (l & [Hf Ho Hv Hd Hop Hc] & Hs).
    revert Hs. simpl. destruct op; simpl; try (repeat case_match; congruence).
    unfold deliver_begin. destruct (lease_revoked l) eqn:Hr; [done|].
    destruct (lease_consumed l) eqn:Hcon; [done|]. destruct (_ || _) eqn:Hg; [done|].
    intros [= <-]. conditions. destruct (Hf eq_refl) as [Hx Hval]. rewrite <- Hval by done. naive_solver.
  - intros pre op post Heq. destruct (Hmid _ _ _ Heq) as (l & [Hf Ho Hv Hd Hop Hc] & Hs).
    revert Hs. simpl. destruct op; simpl; try (repeat case_match; congruence).
    intros [= Hsat]. conditions. naive_solver.
Qed.
