(* ===== verification/RunnerPackage.v ===== *)
(** * The pinned runner packages (internal/runner/package.go)

    Six official release assets are pinned by version, platform, name, checksum and
    size; a package is valid when it is one of them. *)

From S2P Require Import Prelude GoStd RunnerLease.

(* src: internal/runner/package.go:10-10 OfficialRunnerVersion *)
Definition OfficialRunnerVersion := "2.336.0".

(* src: internal/runner/package.go:14-17 Platform *)
Record Platform := mkPlatform { platform_OS : string; platform_Arch : string }.
#[export] Instance Platform_eq_dec : EqDecision Platform.
Proof. solve_decision. Defined.

(* src: internal/runner/package.go:24-24 ArchiveTarGz *)
Definition ArchiveTarGz := "tar.gz".
(* src: internal/runner/package.go:25-25 ArchiveZIP *)
Definition ArchiveZIP := "zip".

(* src: internal/runner/package.go:30-37 Package *)
Record Package := mkPackage {
  package_Version : string;
  package_Platform : Platform;
  package_Asset : string;
  package_Checksum : string;
  package_Size : Z;
  package_Format : string;
}.
#[export] Instance Package_eq_dec : EqDecision Package.
Proof. solve_decision. Defined.

(* src: internal/runner/package.go:39-41 Package.URL *)
Definition Package_URL (p : Package) : string :=
  "https://github.com/actions/runner/releases/download/v" +:+ package_Version p +:+ "/" +:+
  package_Asset p.

(* src: internal/runner/package.go:43-45 Package.key *)
Definition Package_key (p : Package) : string :=
  package_Version p +:+ "-" +:+ platform_OS (package_Platform p) +:+ "-" +:+
  platform_Arch (package_Platform p) +:+ "-" +:+ package_Checksum p.

(* src: internal/runner/package.go:78-85 OfficialPackage *)
Definition packages : gmap string Package := list_to_map [
  ("windows/amd64", mkPackage OfficialRunnerVersion (mkPlatform "windows" "amd64")
     "actions-runner-win-x64-2.336.0.zip"
     "d59123a43003e357b0805b5d0f611d0bd2f65ab67d51bd070dd4e7a0f685c162" 103253740 ArchiveZIP);
  ("windows/arm64", mkPackage OfficialRunnerVersion (mkPlatform "windows" "arm64")
     "actions-runner-win-arm64-2.336.0.zip"
     "b3799e9cf754fe4dfcb3d220c9701c924829737ee815dbeb674f8bd076794504" 94445234 ArchiveZIP);
  ("darwin/amd64", mkPackage OfficialRunnerVersion (mkPlatform "darwin" "amd64")
     "actions-runner-osx-x64-2.336.0.tar.gz"
     "f79c43232761ca495fc18df550bb2865aa99984b37c173c0aa1f8c09d0d548fe" 131517013 ArchiveTarGz);
  ("darwin/arm64", mkPackage OfficialRunnerVersion (mkPlatform "darwin" "arm64")
     "actions-runner-osx-arm64-2.336.0.tar.gz"
     "8e8839c49b7060b6b2154f4931f815df330c27f167d53ef2239ee3dfce28b079" 127389671 ArchiveTarGz);
  ("linux/amd64", mkPackage OfficialRunnerVersion (mkPlatform "linux" "amd64")
     "actions-runner-linux-x64-2.336.0.tar.gz"
     "04cf0be1aff4c3ec3554466c39124ca250e3effd8873bb7e8d68535aa9505d5d" 226035903 ArchiveTarGz);
  ("linux/arm64", mkPackage OfficialRunnerVersion (mkPlatform "linux" "arm64")
     "actions-runner-linux-arm64-2.336.0.tar.gz"
     "58b758e420b87093fbd4bfddd368074960053e2f1388f01848c82624b90f27d1" 138824064 ArchiveTarGz)].

(* src: internal/runner/package.go:72-91 OfficialPackage *)
Definition OfficialPackage (platform : Platform) : result Package :=
  let os := if platform_OS platform == "macos" then "darwin" else platform_OS platform in
  let key := os +:+ "/" +:+ platform_Arch platform in
  match packages !! key with
  | Some p => Ok p
  | None => Err ErrUnsupportedPlatform
  end.

(* src: internal/runner/package.go:57-68 Package.valid *)
Definition Package_valid (p : Package) : bool :=
  if (package_Version p != OfficialRunnerVersion) || (len_string (package_Checksum p) != 64) ||
     (package_Asset p == "") || (package_Size p <=? 0) then false
  else if negb (all_bytes lower_hex_byte (package_Checksum p)) then false
  else match OfficialPackage (package_Platform p) with
       | Ok expected => expected == p
       | Err _ => false
       end.

(* src: internal/runner/package.go:50-55 Package.CacheKey *)
Definition Package_CacheKey (p : Package) : result string :=
  if negb (Package_valid p) then Err ErrInvalidRequest else Ok (Package_key p).

(** A valid package is one of the pinned ones, and every pinned one is valid; the
    alias macos of a pinned platform is accepted for lookup only. *)
Lemma pinned_valid : forallb (fun kp => Package_valid kp.2) (map_to_list packages) = true.
Proof. vm_compute. reflexivity. Qed.

Lemma Package_valid_iff p :
  Package_valid p = true <-> exists key, packages !! key = Some p.
Proof.
  split.
  - unfold Package_valid, OfficialPackage. destruct (_ || _); [done|]. destruct (negb _); [done|].
    destruct (packages !! _) eqn:Hp; [|done]. intros ->%bool_decide_eq_true. eauto.
  - intros [key Hkey]. pose proof pinned_valid as Hall. rewrite forallb_forall in Hall.
    apply elem_of_map_to_list, list_elem_of_In in Hkey. exact (Hall _ Hkey).
Qed.

Lemma packages_apart :
  forallb (fun kp => forallb (fun kq =>
    implb (Package_key kp.2 == Package_key kq.2) (kp.2 == kq.2)) (map_to_list packages))
    (map_to_list packages) = true.
Proof. vm_compute. reflexivity. Qed.

(** The cache key identifies the package. *)
Lemma CacheKey_injective p q key :
  Package_CacheKey p = Ok key -> Package_CacheKey q = Ok key -> p = q.
Proof.
  unfold Package_CacheKey.
  destruct (Package_valid p) eqn:Hp; [|done]. destruct (Package_valid q) eqn:Hq; [|done].
  cbn [negb]. intros Hkp Hkq.
  assert (Hkey : Package_key p = Package_key q) by congruence. clear Hkp Hkq.
  apply Package_valid_iff in Hp as [kp Hp%elem_of_map_to_list].
  apply Package_valid_iff in Hq as [kq Hq%elem_of_map_to_list].
  pose proof packages_apart as Hall. rewrite forallb_forall in Hall.
  specialize (Hall _ (proj1 (list_elem_of_In _ _) Hp)). rewrite forallb_forall in Hall.
  specialize (Hall _ (proj1 (list_elem_of_In _ _) Hq)).
  revert Hall. cbn [snd]. rewrite (bool_decide_eq_true_2 _ Hkey). simpl. by rewrite bool_decide_eq_true.
Qed.
