(* ===== verification/Transport.v ===== *)
(** * The Agent protocol's typed messages (internal/transport, internal/agentstate)

    What the Controller and the Agent accept from each other: the reconciliation
    snapshot, the heartbeat, execution updates, the target lists and the three
    commands, each with its validation; and the one-shot secret of a start
    command.  JSON encoding and SHA-256 belong to Go's standard library: the
    digests are built from a parameter [sha256] (32 bytes of any input) and, for
    the snapshot, a parameter [marshal] (the JSON bytes of the canonical
    snapshot). *)

From S2P Require Import Prelude GoStd Domain Execution Replay RunnerPackage.
From Stdlib Require Import Ascii NArith.

(* src: internal/transport/command.go:18-18 ErrInvalidCommand *)
Definition ErrInvalidCommand : GoError := PlainError "invalid agent command".
(* src: internal/transport/command.go:19-19 ErrCommandSecret *)
Definition ErrCommandSecret : GoError := PlainError "agent command secret delivery failed".

(** [if e != nil { return ErrInvalidCommand }] *)
Notation "'rejecting' e ;; k" := (match e with Some _ => Some ErrInvalidCommand | None => k end)
  (at level 100, e at next level, right associativity) : go_scope.

(** The loop shared by the validations of lists of identities: reject an invalid
    entry or a repeated key. *)
(* src: internal/transport/snapshot.go:124-133 AgentSnapshot.Validate *)
Fixpoint validate_unique {A} (check : A -> error) (key : A -> string) (entries : list A)
    (seen : gset string) : error :=
  match entries with
  | [] => None
  | entry :: rest =>
      try check entry ;;
      if bool_decide (key entry ∈ seen) then Some ErrInvalidCommand
      else validate_unique check key rest ({[key entry]} ∪ seen)
  end.

(** ** Target lists *)

(* src: internal/transport/eligibility.go:12-12 MaxEligibleTargets *)
Definition MaxEligibleTargets : Z := 256.

(* src: internal/transport/eligibility.go:20-30 EligibleTarget *)
Record EligibleTarget := mkEligibleTarget {
  eligible_TargetID : TargetID;
  eligible_ScopeKind : string;
  eligible_Scope : string;
  eligible_ScaleSetName : string;
  eligible_Excluded : bool;
}.

(* src: internal/transport/eligibility.go:32-45 EligibleTarget.Validate *)
Definition EligibleTarget_Validate (target : EligibleTarget) : error :=
  if TrimSpace (eligible_TargetID target) == "" then Some ErrInvalidCommand
  else if negb (bool_decide (eligible_ScopeKind target ∈ [TargetRepository; TargetOrganization]))
  then Some ErrInvalidCommand
  else if (TrimSpace (eligible_Scope target) == "") || (TrimSpace (eligible_ScaleSetName target) == "")
  then Some ErrInvalidCommand
  else None.

(* src: internal/transport/eligibility.go:51-66 ValidateEligibleTargets *)
Definition ValidateEligibleTargets (targets : list EligibleTarget) : error :=
  if Z.of_nat (length targets) >? MaxEligibleTargets then Some ErrInvalidCommand
  else validate_unique EligibleTarget_Validate eligible_TargetID targets ∅.

(* src: internal/transport/eligibility.go:73-88 ValidateExcludedTargets *)
Definition ValidateExcludedTargets (targetIDs : list TargetID) : error :=
  if Z.of_nat (length targetIDs) >? MaxEligibleTargets then Some ErrInvalidCommand
  else validate_unique
         (fun targetID => if TrimSpace targetID == "" then Some ErrInvalidCommand else None)
         (fun targetID => targetID) targetIDs ∅.

(** ** The reconciliation snapshot *)

(* src: internal/transport/snapshot.go:53-57 AgentExecutionObservation *)
Record AgentExecutionObservation := mkObservation {
  obs_ExecutionID : ExecutionID;
  obs_State : string;
  obs_ObservedAtUnixNano : Z;
}.
#[export] Instance AgentExecutionObservation_eq_dec : EqDecision AgentExecutionObservation.
Proof. solve_decision. Defined.

(* src: internal/transport/snapshot.go:59-63 AgentCleanupTombstone *)
Record AgentCleanupTombstone := mkTombstone {
  tomb_ExecutionID : ExecutionID;
  tomb_FailureCode : string;
  tomb_RecordedAtUnixNano : Z;
}.
#[export] Instance AgentCleanupTombstone_eq_dec : EqDecision AgentCleanupTombstone.
Proof. solve_decision. Defined.

(** [ExcludedTargets] and [SharedRunnerIdentity] are pointers whose [nil] means
    "not reported". *)
(* src: internal/transport/snapshot.go:68-97 AgentSnapshot *)
Record AgentSnapshot := mkAgentSnapshot {
  snap_NodeID : NodeID;
  snap_OS : string;
  snap_Arch : string;
  snap_RunnerVersion : string;
  snap_NativeRunnerReady : bool;
  snap_AvailabilityIntent : string;
  snap_ExcludedTargets : option (list TargetID);
  snap_SharedRunnerIdentity : option bool;
  snap_MaxControllerEpoch : ControllerEpoch;
  snap_Commands : list Command;
  snap_Observations : list AgentExecutionObservation;
  snap_CleanupTombstones : list AgentCleanupTombstone;
}.
#[export] Instance AgentSnapshot_eq_dec : EqDecision AgentSnapshot.
Proof. solve_decision. Defined.

(* src: internal/transport/snapshot.go:126-128 AgentSnapshot.Validate *)
Definition validate_snapshot_command (maxEpoch : ControllerEpoch) (command : Command) : error :=
  rejecting Command_Validate command ;;
  if command_ControllerEpoch command >? maxEpoch then Some ErrInvalidCommand else None.

(* src: internal/transport/snapshot.go:136-139 AgentSnapshot.Validate *)
Definition validate_observation (observation : AgentExecutionObservation) : error :=
  if (obs_ExecutionID observation == "") || (obs_ObservedAtUnixNano observation <=? 0) then
    Some ErrInvalidCommand
  else
  rejecting ExecutionState_Validate (obs_State observation) "agent_snapshot.observation.state" ;;
  None.

(* src: internal/transport/snapshot.go:147-150 AgentSnapshot.Validate *)
Definition validate_tombstone (tombstone : AgentCleanupTombstone) : error :=
  if (tomb_ExecutionID tombstone == "") || (tomb_RecordedAtUnixNano tombstone <=? 0) then
    Some ErrInvalidCommand
  else
  rejecting CleanupFailureCode_Validate (tomb_FailureCode tombstone)
              "agent_snapshot.cleanup_tombstone.failure_code" ;;
  None.

(* src: internal/transport/snapshot.go:99-157 AgentSnapshot.Validate *)
Definition AgentSnapshot_Validate (snapshot : AgentSnapshot) : error :=
  if snap_NodeID snapshot == "" then Some ErrInvalidCommand
  else
  rejecting OperatingSystem_Validate (snap_OS snapshot) "agent_snapshot.os" ;;
  rejecting Architecture_Validate (snap_Arch snapshot) "agent_snapshot.architecture" ;;
  rejecting (if snap_AvailabilityIntent snapshot != "" then
               AvailabilityIntent_Validate (snap_AvailabilityIntent snapshot)
                 "agent_snapshot.availability_intent"
             else None) ;;
  rejecting (match snap_ExcludedTargets snapshot with
             | Some targetIDs => ValidateExcludedTargets targetIDs
             | None => None
             end) ;;
  if (snap_RunnerVersion snapshot != "") &&
     ((TrimSpace (snap_RunnerVersion snapshot) != snap_RunnerVersion snapshot) ||
      (len_string (snap_RunnerVersion snapshot) >? 64)) then Some ErrInvalidCommand
  else
  try validate_unique (validate_snapshot_command (snap_MaxControllerEpoch snapshot)) command_ID
        (snap_Commands snapshot) ∅ ;;
  try validate_unique validate_observation obs_ExecutionID (snap_Observations snapshot) ∅ ;;
  validate_unique validate_tombstone tomb_ExecutionID (snap_CleanupTombstones snapshot) ∅.

(** *** The snapshot digest *)

(** [agentstate.Snapshot]; its observations and tombstones have the transport
    types' fields. *)
(* src: internal/agentstate/snapshot.go:27-36 Snapshot *)
Record CanonicalSnapshot := mkCanonicalSnapshot {
  canon_NodeID : NodeID;
  canon_OS : string;
  canon_Arch : string;
  canon_RunnerVersion : string;
  canon_MaxControllerEpoch : ControllerEpoch;
  canon_Commands : list Command;
  canon_Observations : list AgentExecutionObservation;
  canon_CleanupTombstones : list AgentCleanupTombstone;
}.

(* src: internal/transport/snapshot.go:33-51 canonicalAgentSnapshot *)
Definition canonicalAgentSnapshot (snapshot : AgentSnapshot) : CanonicalSnapshot :=
  mkCanonicalSnapshot (snap_NodeID snapshot) (snap_OS snapshot) (snap_Arch snapshot)
    (snap_RunnerVersion snapshot) (snap_MaxControllerEpoch snapshot) (snap_Commands snapshot)
    (snap_Observations snapshot) (snap_CleanupTombstones snapshot).

(** [hex.EncodeToString]: two lowercase digits per byte. *)
Definition hex_digit (n : N) : ascii :=
  ascii_of_N (if (n <? 10)%N then 48 + n else 87 + n)%N.
Fixpoint hex_EncodeToString (bytes : string) : string :=
  match bytes with
  | "" => ""
  | String c rest =>
      String (hex_digit (N_of_ascii c / 16)) (String (hex_digit (N_of_ascii c mod 16))
        (hex_EncodeToString rest))
  end.

Section digests.
  Context (marshal : CanonicalSnapshot -> result string) (sha256 : string -> string).

(* src: internal/agentstate/snapshot.go:38-59 Digest *)
Definition agentstate_Digest (snapshot : CanonicalSnapshot) : result string :=
  let! encoded := marshal snapshot ;;
  Ok (hex_EncodeToString (sha256 encoded)).

(* src: internal/transport/snapshot.go:26-31 AgentSnapshotDigest *)
Definition AgentSnapshotDigest (snapshot : AgentSnapshot) : result string :=
  tryr AgentSnapshot_Validate snapshot ;;
  agentstate_Digest (canonicalAgentSnapshot snapshot).
End digests.

(** ** Execution updates and heartbeats *)

(* src: internal/transport/update.go:29-36 ExecutionUpdate *)
Record ExecutionUpdate := mkExecutionUpdate {
  update_NodeID : NodeID;
  update_CommandID : CommandID;
  update_ExecutionID : ExecutionID;
  update_State : string;
  update_Replayed : bool;
  update_ErrorCode : string;
}.

(* src: internal/transport/update.go:38-46 ExecutionUpdate.Validate *)
Definition ExecutionUpdate_Validate (update : ExecutionUpdate) : error :=
  if (update_NodeID update == "") || (update_CommandID update == "") ||
     (update_ExecutionID update == "") then Some ErrInvalidCommand
  else
  rejecting ValidateExecutionResult (update_State update) (update_ErrorCode update)
              "execution_update" ;;
  None.

(* src: internal/transport/heartbeat.go:14-33 AgentHeartbeat *)
Record AgentHeartbeat := mkAgentHeartbeat {
  beat_NodeID : NodeID;
  beat_NativeRunnerReady : bool;
  beat_AvailabilityIntent : string;
  beat_ExcludedTargets : option (list TargetID);
  beat_SharedRunnerIdentity : option bool;
}.

(* src: internal/transport/heartbeat.go:35-53 AgentHeartbeat.Validate *)
Definition AgentHeartbeat_Validate (heartbeat : AgentHeartbeat) : error :=
  if beat_NodeID heartbeat == "" then Some ErrInvalidCommand
  else
  rejecting (if beat_AvailabilityIntent heartbeat != "" then
               AvailabilityIntent_Validate (beat_AvailabilityIntent heartbeat)
                 "agent_heartbeat.availability_intent"
             else None) ;;
  rejecting (match beat_ExcludedTargets heartbeat with
             | Some targetIDs => ValidateExcludedTargets targetIDs
             | None => None
             end) ;;
  None.

(** ** Commands *)

(* src: internal/transport/envelope.go:39-39 MessagePrepare *)
Definition MessagePrepare := "prepare".
(* src: internal/transport/envelope.go:40-40 MessageStart *)
Definition MessageStart := "start".
(* src: internal/transport/envelope.go:41-41 MessageCancel *)
Definition MessageCancel := "cancel".

(* src: internal/transport/command.go:42-46 CommandTarget *)
Record CommandTarget := mkCommandTarget {
  ctarget_TargetID : TargetID;
  ctarget_Scope : string;
  ctarget_ScopeKind : string;
}.
#[export] Instance CommandTarget_eq_dec : EqDecision CommandTarget.
Proof. solve_decision. Defined.

(* src: internal/transport/command.go:48-63 CommandTarget.Validate *)
Definition CommandTarget_Validate (target : CommandTarget) : error :=
  rejecting TargetID_ValidateShape (ctarget_TargetID target) "command.target_id" ;;
  if negb (bool_decide (ctarget_ScopeKind target ∈ [TargetRepository; TargetOrganization])) then
    Some ErrInvalidCommand
  else if TrimSpace (ctarget_Scope target) == "" then Some ErrInvalidCommand
  else None.

(* src: internal/transport/command.go:26-36 CommandMetadata *)
Record CommandMetadata := mkCommandMetadata {
  meta_CommandID : CommandID;
  meta_ControllerEpoch : ControllerEpoch;
  meta_ExecutionID : ExecutionID;
  meta_ExpectedState : string;
  meta_Target : CommandTarget;
}.
#[export] Instance CommandMetadata_eq_dec : EqDecision CommandMetadata.
Proof. solve_decision. Defined.

Definition zero_CommandTarget : CommandTarget := mkCommandTarget "" "" "".

(* src: internal/transport/command.go:106-116 prepareCommandWire *)
Record prepareCommandWire := mkPrepareWire {
  pw_CommandID : CommandID;
  pw_ControllerEpoch : ControllerEpoch;
  pw_ExecutionID : ExecutionID;
  pw_ExpectedState : string;
  pw_TargetID : TargetID;
  pw_Scope : string;
  pw_ScopeKind : string;
  pw_RunnerVersion : string;
  pw_DisableUpdate : bool;
}.
(* src: internal/transport/command.go:250-261 startCommandWire *)
Record startCommandWire := mkStartWire {
  sw_CommandID : CommandID;
  sw_ControllerEpoch : ControllerEpoch;
  sw_ExecutionID : ExecutionID;
  sw_ExpectedState : string;
  sw_TargetID : TargetID;
  sw_Scope : string;
  sw_ScopeKind : string;
  sw_RunnerVersion : string;
  sw_DisableUpdate : bool;
  sw_JITConfig : string;
}.
(* src: internal/transport/command.go:337-342 cancelCommandWire *)
Record cancelCommandWire := mkCancelWire {
  cw_CommandID : CommandID;
  cw_ControllerEpoch : ControllerEpoch;
  cw_ExecutionID : ExecutionID;
  cw_ExpectedState : string;
}.

(* src: internal/transport/command.go:152-164 prepareWireMetadata *)
Definition prepareWireMetadata (wire : prepareCommandWire) : CommandMetadata :=
  mkCommandMetadata (pw_CommandID wire) (pw_ControllerEpoch wire) (pw_ExecutionID wire)
    (pw_ExpectedState wire)
    (mkCommandTarget (pw_TargetID wire) (pw_Scope wire) (pw_ScopeKind wire)).

(* src: internal/transport/command.go:303-315 startWireMetadata *)
Definition startWireMetadata (wire : startCommandWire) : CommandMetadata :=
  mkCommandMetadata (sw_CommandID wire) (sw_ControllerEpoch wire) (sw_ExecutionID wire)
    (sw_ExpectedState wire)
    (mkCommandTarget (sw_TargetID wire) (sw_Scope wire) (sw_ScopeKind wire)).

Section commands.
  Context (sha256 : string -> string).

(** The hash runs over the kind, one zero byte and the payload. *)
(* src: internal/transport/command.go:79-87 PayloadDigest *)
Definition PayloadDigest (kind payload : string) : string :=
  sha256 (String.append kind (String zero payload)).

(* src: internal/transport/command.go:65-74 CommandMetadata.replayIdentity *)
Definition replayIdentity (metadata : CommandMetadata) (kind payload : string) : Command :=
  mkCommand (meta_CommandID metadata) (meta_ControllerEpoch metadata) (meta_ExecutionID metadata)
    (meta_ExpectedState metadata) (hex_EncodeToString (PayloadDigest kind payload)).

(* src: internal/transport/command.go:166-175 validatePrepareWire *)
Definition validatePrepareWire (wire : prepareCommandWire) : error :=
  let metadata := prepareWireMetadata wire in
  if (pw_RunnerVersion wire != OfficialRunnerVersion) ||
     (meta_ExpectedState metadata != ExecutionReserved) then Some ErrInvalidCommand
  else
  try CommandTarget_Validate (meta_Target metadata) ;;
  Command_Validate (replayIdentity metadata MessagePrepare "{}").

(* src: internal/transport/command.go:317-326 validateStartWire *)
Definition validateStartWire (wire : startCommandWire) : error :=
  let metadata := startWireMetadata wire in
  if (sw_JITConfig wire == "") || (sw_RunnerVersion wire != OfficialRunnerVersion) ||
     (meta_ExpectedState metadata != ExecutionPreparing) then Some ErrInvalidCommand
  else
  try CommandTarget_Validate (meta_Target metadata) ;;
  Command_Validate (replayIdentity metadata MessageStart "{}").

(* src: internal/transport/command.go:374-387 validateCancelWire *)
Definition validateCancelWire (wire : cancelCommandWire) : error :=
  let metadata := mkCommandMetadata (cw_CommandID wire) (cw_ControllerEpoch wire)
                    (cw_ExecutionID wire) (cw_ExpectedState wire) zero_CommandTarget in
  if (meta_ExpectedState metadata != ExecutionPreparing) &&
     (meta_ExpectedState metadata != ExecutionRunning) &&
     (meta_ExpectedState metadata != ExecutionCleaning) then Some ErrInvalidCommand
  else Command_Validate (replayIdentity metadata MessageCancel "{}").
End commands.

(** ** The one-shot secret of a start command

    A [StartCommand] holds a pointer to its [commandSecret], so every copy of the
    command shares one secret; the secret's mutex makes [Discard] and the taking
    of the value in [Deliver] atomic steps.  The command is modelled by that
    shared secret. *)

(* src: internal/transport/command.go:186-191 commandSecret *)
Record commandSecret := mkCommandSecret {
  secret_value : string;
  secret_digest : string;
  secret_consumed : bool;
}.

(* src: internal/transport/command.go:201-208 StartCommand.Digest *)
Definition StartCommand_Digest (secret : option commandSecret) : string :=
  match secret with None => "" | Some s => secret_digest s end.

(* src: internal/transport/command.go:213-221 StartCommand.Discard *)
Definition StartCommand_Discard (secret : commandSecret) : commandSecret :=
  mkCommandSecret "" (secret_digest secret) true.

(** [deliver] is the callback; the result says which value it was given, if it
    was called at all. *)
(* src: internal/transport/command.go:223-242 StartCommand.Deliver *)
Definition StartCommand_Deliver (secret : commandSecret) (deliver : string -> error)
    : commandSecret * (option string * error) :=
  if secret_consumed secret || (secret_value secret == "") then
    (secret, (None, Some ErrCommandSecret))
  else
    let value := secret_value secret in
    (mkCommandSecret "" (secret_digest secret) true,
     (Some value, match deliver value with Some _ => Some ErrCommandSecret | None => None end)).

(** The calls made on copies of one command, in the order in which they take the
    lock, and the values their callbacks receive. *)
Inductive secret_op :=
  | OpDeliver (deliver : string -> error)
  | OpDiscard.

Fixpoint secret_run (secret : commandSecret) (ops : list secret_op) : commandSecret * list string :=
  match ops with
  | [] => (secret, [])
  | OpDiscard :: rest => secret_run (StartCommand_Discard secret) rest
  | OpDeliver deliver :: rest =>
      let '(secret', (given, _)) := StartCommand_Deliver secret deliver in
      let '(secret'', values) := secret_run secret' rest in
      (secret'', match given with Some value => value :: values | None => values end)
  end.

(** ** Lemmas *)

Lemma validate_unique_iff {A} check (key : A -> string) entries seen :
  validate_unique check key entries seen = None <->
  Forall (fun e => check e = None) entries /\ NoDup (map key entries) /\
  Forall (fun e => key e ∉ seen) entries.
Proof.
  revert seen. induction entries as [|e entries IH]; intros seen; simpl.
  { split; [|done]. intros _. split_and!; constructor. }
  rewrite !Forall_cons, NoDup_cons. destruct (check e) as [err|]; [split; [done|naive_solver]|].
  case_bool_decide as Hin; [split; [done|tauto]|].
  rewrite IH, !Forall_forall. setoid_rewrite not_elem_of_union. setoid_rewrite not_elem_of_singleton.
  rewrite list_elem_of_fmap. split.
  - intros (H1 & H2 & H3). split_and!; try done; [|by intros x Hx; apply H3].
    intros (x & Hk & Hx). by destruct (H3 x Hx).
  - intros ([_ H1] & [Hni H2] & [_ H3]). split_and!; try done. intros x Hx. split; [|by apply H3].
    intros Heq. apply Hni. by exists x.
Qed.

(** What validation guarantees about a snapshot. *)
Record snapshot_valid (snapshot : AgentSnapshot) : Prop := {
  sv_node : snap_NodeID snapshot <> "";
  sv_commands : Forall (fun c => Command_Validate c = None /\
    command_ControllerEpoch c <= snap_MaxControllerEpoch snapshot) (snap_Commands snapshot);
  sv_command_ids : NoDup (map command_ID (snap_Commands snapshot));
  sv_observations : Forall (fun o => obs_ExecutionID o <> "" /\ 0 < obs_ObservedAtUnixNano o /\
    isKnownExecutionState (obs_State o) = true) (snap_Observations snapshot);
  sv_observation_ids : NoDup (map obs_ExecutionID (snap_Observations snapshot));
  sv_tombstone_ids : NoDup (map tomb_ExecutionID (snap_CleanupTombstones snapshot));
  sv_excluded : forall l, snap_ExcludedTargets snapshot = Some l ->
    Z.of_nat (length l) <= MaxEligibleTargets /\ NoDup l /\ Forall (fun t => TrimSpace t <> "") l;
}.

Lemma rejecting_None (e k : error) : (rejecting e ;; k) = None -> e = None /\ k = None.
Proof. by destruct e. Qed.

Lemma ValidateExcludedTargets_iff l :
  ValidateExcludedTargets l = None <->
  Z.of_nat (length l) <= MaxEligibleTargets /\ NoDup l /\ Forall (fun t => TrimSpace t <> "") l.
Proof.
  unfold ValidateExcludedTargets. rewrite Z.gtb_ltb.
  destruct (Z.ltb_spec MaxEligibleTargets (Z.of_nat (length l))); [split; [done|lia]|].
  rewrite validate_unique_iff, map_id.
  assert (Hf : Forall (fun t : TargetID => (if TrimSpace t == "" then Some ErrInvalidCommand else None) = None) l <->
          Forall (fun t => TrimSpace t <> "") l).
  { split; intros Hl; (eapply Forall_impl; [exact Hl|]); intros t; simpl; by case_bool_decide. }
  rewrite Hf. split; [tauto|]. intros (? & ? & ?). split_and!; try done.
  apply Forall_forall. intros. apply not_elem_of_empty.
Qed.

Lemma AgentSnapshot_Validate_valid snapshot :
  AgentSnapshot_Validate snapshot = None -> snapshot_valid snapshot.
Proof.
  unfold AgentSnapshot_Validate. case_bool_decide as Hn; [done|].
  intros (_ & (_ & (_ & (Hex & H)%rejecting_None)%rejecting_None)%rejecting_None)%rejecting_None.
  revert H. destruct (_ && _); [done|].
  destruct (validate_unique _ command_ID _ _) eqn:Hc; [done|].
  destruct (validate_unique _ obs_ExecutionID _ _) eqn:Ho; [done|]. intros Ht.
  apply validate_unique_iff in Hc as (Hc1 & Hc2 & _), Ho as (Ho1 & Ho2 & _), Ht as (_ & Ht2 & _).
  split; try done.
  - eapply Forall_impl; [exact Hc1|]. intros c. unfold validate_snapshot_command.
    intros [Hv H]%rejecting_None. revert H. rewrite Z.gtb_ltb.
    destruct (Z.ltb_spec (snap_MaxControllerEpoch snapshot) (command_ControllerEpoch c)); done.
  - eapply Forall_impl; [exact Ho1|]. intros o. unfold validate_observation.
    case_bool_decide as He; simpl; [done|].
    destruct (Z.leb_spec (obs_ObservedAtUnixNano o) 0); [done|].
    intros [Hs _]%rejecting_None. split_and!; [done|lia|].
    unfold ExecutionState_Validate in Hs. by destruct (isKnownExecutionState (obs_State o)).
  - intros l Hl. rewrite Hl in Hex. by apply ValidateExcludedTargets_iff.
Qed.

Lemma secret_consumed_run secret ops :
  secret_consumed secret = true -> (secret_run secret ops).2 = [].
Proof.
  revert secret. induction ops as [|[deliver|] ops IH]; intros secret Hc; simpl; [done| |by apply IH].
  unfold StartCommand_Deliver. rewrite Hc. simpl. specialize (IH secret Hc).
  destruct (secret_run secret ops). simpl in *. done.
Qed.

(** Distinct byte strings have distinct hexadecimal digits. *)
Lemma hex_digit_inj a b : (a < 16)%N -> (b < 16)%N -> hex_digit a = hex_digit b -> a = b.
Proof.
  assert (Hall : forall k, (k < 16)%N -> k ∈ (N.of_nat <$> seq 0 16)).
  { intros k Hk. apply list_elem_of_fmap. exists (N.to_nat k). split; [lia|]. apply elem_of_seq. lia. }
  assert (Hcheck : forallb (fun a => forallb (fun b => bool_decide (hex_digit a <> hex_digit b \/ a = b))
            (N.of_nat <$> seq 0 16)) (N.of_nat <$> seq 0 16) = true) by (vm_compute; reflexivity).
  intros Ha%Hall Hb%Hall Heq. rewrite forallb_forall in Hcheck.
  specialize (Hcheck a (proj1 (list_elem_of_In _ _) Ha)). rewrite forallb_forall in Hcheck.
  specialize (Hcheck b (proj1 (list_elem_of_In _ _) Hb)).
  apply bool_decide_eq_true in Hcheck. by destruct Hcheck.
Qed.

Lemma hex_inj a b : hex_EncodeToString a = hex_EncodeToString b -> a = b.
Proof.
  revert b. induction a as [|x a IH]; intros [|y b]; try done. intros H.
  cbn [hex_EncodeToString] in H. injection H as H1 H2 H3.
  pose proof (N_ascii_bounded x) as Hx. pose proof (N_ascii_bounded y) as Hy.
  apply hex_digit_inj in H1; [|by apply N.Div0.div_lt_upper_bound..].
  apply hex_digit_inj in H2; [|by apply N.mod_lt..].
  assert (Hxy : N_of_ascii x = N_of_ascii y).
  { rewrite (N.div_mod' (N_of_ascii x) 16), (N.div_mod' (N_of_ascii y) 16). congruence. }
  f_equal; [|by apply IH]. by rewrite <- (ascii_N_embedding x), Hxy, ascii_N_embedding.
Qed.

Lemma digest_of marshal sha256 s e :
  AgentSnapshot_Validate s = None -> marshal (canonicalAgentSnapshot s) = Ok e ->
  AgentSnapshotDigest marshal sha256 s = Ok (hex_EncodeToString (sha256 e)).
Proof. unfold AgentSnapshotDigest, agentstate_Digest. by intros -> ->. Qed.

(** ** Properties *)

(** A start command's secret is delivered at most once.  Whatever sequence of
    [Deliver] and [Discard] calls the holders of a command make, at most one
    callback receives a value, the value is the original one, and after the first
    call that takes or drops it no callback is ever called again. *)
Theorem start_secret_once secret ops :
  let '(secret', values) := secret_run secret ops in
  (values = [] \/ values = [secret_value secret]) /\
  secret_digest secret' = secret_digest secret /\
  (ops <> [] -> secret_value secret <> "" ->
   secret_consumed secret' = true /\ (secret_consumed secret = false -> secret_value secret' = "")).
Proof.
  assert (Hconsumed : forall s l, secret_consumed s = true ->
    secret_consumed (secret_run s l).1 = true /\ secret_digest (secret_run s l).1 = secret_digest s /\
    (secret_value s = "" -> secret_value (secret_run s l).1 = "")).
  { intros s l. revert s. induction l as [|[d|] l IH]; intros s Hc; simpl; [done| |].
    - unfold StartCommand_Deliver. rewrite Hc. simpl. specialize (IH s Hc).
      by destruct (secret_run s l).
    - destruct (IH (StartCommand_Discard s) eq_refl) as (H1 & H2 & H3). split_and!; try done.
      intros _. by apply H3. }
  revert secret. induction ops as [|[deliver|] ops IH]; intros secret; simpl.
  - by split_and!; [left|..].
  - unfold StartCommand_Deliver. destruct (secret_consumed secret) eqn:Hc; simpl.
    + pose proof (secret_consumed_run secret ops Hc) as Hnil.
      destruct (Hconsumed secret ops Hc) as (H1 & H2 & _).
      destruct (secret_run secret ops). simpl in *. subst. by split_and!; [left|..].
    + case_bool_decide as Hv; simpl.
      * specialize (IH secret). destruct (secret_run secret ops) as [s values].
        destruct IH as (H1 & H2 & _). by split_and!.
      * set (s1 := mkCommandSecret "" (secret_digest secret) true).
        pose proof (secret_consumed_run s1 ops eq_refl) as Hnil.
        destruct (Hconsumed s1 ops eq_refl) as (H1 & H2 & H3).
        destruct (secret_run s1 ops). simpl in *. subst. split_and!; [by right|done|]. intros _ _. auto.
  - pose proof (secret_consumed_run (StartCommand_Discard secret) ops eq_refl) as Hnil.
    destruct (Hconsumed (StartCommand_Discard secret) ops eq_refl) as (H1 & H2 & H3).
    destruct (secret_run _ ops). simpl in *. subst. split_and!; [by left|done|]. intros _ _. auto.
Qed.

(** The digest of a snapshot identifies exactly what its journal says.  For two
    valid snapshots that encode, and whose encodings neither the encoder nor the
    hash confuses, the digests are equal if and only if the node, platform, runner
    version, epoch, commands, observations and tombstones are; readiness,
    availability intent, exclusions and the isolation flag never matter, so a
    heartbeat does not invalidate what is keyed to the digest. *)
Theorem digest_identifies_journal marshal sha256 s1 s2 e1 e2 :
  AgentSnapshot_Validate s1 = None -> AgentSnapshot_Validate s2 = None ->
  marshal (canonicalAgentSnapshot s1) = Ok e1 -> marshal (canonicalAgentSnapshot s2) = Ok e2 ->
  (e1 = e2 -> canonicalAgentSnapshot s1 = canonicalAgentSnapshot s2) ->
  (sha256 e1 = sha256 e2 -> e1 = e2) ->
  AgentSnapshotDigest marshal sha256 s1 = AgentSnapshotDigest marshal sha256 s2 <->
  snap_NodeID s1 = snap_NodeID s2 /\ snap_OS s1 = snap_OS s2 /\ snap_Arch s1 = snap_Arch s2 /\
  snap_RunnerVersion s1 = snap_RunnerVersion s2 /\
  snap_MaxControllerEpoch s1 = snap_MaxControllerEpoch s2 /\
  snap_Commands s1 = snap_Commands s2 /\ snap_Observations s1 = snap_Observations s2 /\
  snap_CleanupTombstones s1 = snap_CleanupTombstones s2.
Proof.
  intros Hv1 Hv2 He1 He2 Hmarshal Hsha. rewrite (digest_of marshal sha256 s1 e1),
    (digest_of marshal sha256 s2 e2) by done. split.
  - intros [= H]. apply hex_inj, Hsha, Hmarshal in H. unfold canonicalAgentSnapshot in H. injection H; intros; by split_and!.
  - intros (H1 & H2 & H3 & H4 & H5 & H6 & H7 & H8). do 3 f_equal.
    enough (canonicalAgentSnapshot s1 = canonicalAgentSnapshot s2) by congruence.
    unfold canonicalAgentSnapshot. congruence.
Qed.

(** ** The hypotheses can hold *)

Definition example_canonical_marshal (s : CanonicalSnapshot) : result string := Ok (canon_NodeID s).
Definition example_snapshot : AgentSnapshot :=
  mkAgentSnapshot "n1" OSLinux ArchAMD64 "" true "" None None 3
    [] [mkObservation "e1" ExecutionRunning 10] [].
Definition example_snapshot_later : AgentSnapshot :=
  mkAgentSnapshot "n1" OSLinux ArchAMD64 "" false "" (Some ["t1"]) (Some true) 3
    [] [mkObservation "e1" ExecutionRunning 10] [].

Lemma digest_identifies_journal_witness :
  AgentSnapshotDigest example_canonical_marshal (fun s => s) example_snapshot =
  AgentSnapshotDigest example_canonical_marshal (fun s => s) example_snapshot_later.
Proof.
  apply (digest_identifies_journal example_canonical_marshal (fun s => s) example_snapshot
           example_snapshot_later "n1" "n1");
    [vm_compute; reflexivity..| |exact id|vm_compute; repeat split].
  intros _. vm_compute. reflexivity.
Defined.
