(* ===== verification/RunnerUpdate.v ===== *)
(** * Runner updates (internal/reconcile/runner_update.go)

    Whether a node whose profile pins the runner version is still inside GitHub's
    support window.  [time.Time] is a number of nanoseconds since Go's zero time,
    so [IsZero] is equality with 0, [Before] is [<] and [Add] is [+]. *)

From S2P Require Import Prelude GoStd Domain.

(** ** Errors *)

(* src: internal/reconcile/errors.go:19-21 invalid *)
Definition reconcile_invalid (code field message : string) : GoError :=
  ReconcileError code field message.

(* src: internal/reconcile/runner_update.go:13-13 GitHubRunnerUpdateWindow *)
Definition GitHubRunnerUpdateWindow : Z := 30 * 24 * 3600 * 1000000000.

(** ** Data *)

(* src: internal/reconcile/runner_update.go:18-18 RunnerUpdateManaged *)
Definition RunnerUpdateManaged := "managed".
(* src: internal/reconcile/runner_update.go:19-19 RunnerUpdateCurrent *)
Definition RunnerUpdateCurrent := "current".
(* src: internal/reconcile/runner_update.go:20-20 RunnerUpdateDue *)
Definition RunnerUpdateDue := "update_due".
(* src: internal/reconcile/runner_update.go:21-21 RunnerUpdateExpired *)
Definition RunnerUpdateExpired := "expired".
(* src: internal/reconcile/runner_update.go:22-22 RunnerUpdateUnknown *)
Definition RunnerUpdateUnknown := "unknown".

(* src: internal/reconcile/runner_update.go:27-34 RunnerReleaseObservation *)
Record RunnerReleaseObservation := mkRelease {
  release_HasValue : bool;
  release_PinnedVersion : string;
  release_LatestVersion : string;
  release_LatestReleasedAt : Z;
  release_ObservedAt : Z;
  release_Stale : bool;
}.

(* src: internal/reconcile/runner_update.go:38-46 RunnerUpdateStatus *)
Record RunnerUpdateStatus := mkUpdateStatus {
  upd_State : string;
  upd_PinnedVersion : string;
  upd_LatestVersion : string;
  upd_LatestReleasedAt : Z;
  upd_Deadline : Z;
  upd_ObservedAt : Z;
  upd_FreshUntil : Z;
}.
#[export] Instance RunnerUpdateStatus_eq_dec : EqDecision RunnerUpdateStatus.
Proof. solve_decision. Defined.

(** ** Operations *)

(* src: internal/reconcile/runner_update.go:48-50 ManagedRunnerUpdate *)
Definition ManagedRunnerUpdate : RunnerUpdateStatus :=
  mkUpdateStatus RunnerUpdateManaged "" "" 0 0 0 0.

(* src: internal/reconcile/runner_update.go:52-68 RunnerUpdateStatus.AllowsAdmissionAt *)
Definition AllowsAdmissionAt (status : RunnerUpdateStatus) (now : Z) : bool :=
  if upd_State status == RunnerUpdateManaged then true
  else if upd_State status == RunnerUpdateCurrent then
    negb (IsZero now) && negb (Before now (upd_ObservedAt status)) &&
    Before now (upd_FreshUntil status)
  else if upd_State status == RunnerUpdateDue then
    negb (IsZero now) && negb (Before now (upd_ObservedAt status)) &&
    Before now (upd_Deadline status) && Before now (upd_FreshUntil status)
  else false.

(* src: internal/reconcile/runner_update.go:220-222 validVersion *)
Definition validVersion (version : string) : bool :=
  (TrimSpace version == version) && (version != "").

Definition invalid_status (field message : string) : error :=
  Some (reconcile_invalid "invalid_runner_update_status" field message).

(* src: internal/reconcile/runner_update.go:83-141 RunnerUpdateStatus.Validate *)
Definition RunnerUpdateStatus_Validate (s : RunnerUpdateStatus) : error :=
  if upd_State s == RunnerUpdateManaged then
    if (upd_PinnedVersion s != "") || (upd_LatestVersion s != "") ||
       negb (IsZero (upd_LatestReleasedAt s)) || negb (IsZero (upd_Deadline s)) ||
       negb (IsZero (upd_ObservedAt s)) || negb (IsZero (upd_FreshUntil s)) then
      invalid_status "runner_update" "managed status must not carry pinned release evidence"
    else None
  else if upd_State s == RunnerUpdateCurrent then
    if negb (validVersion (upd_PinnedVersion s)) || (upd_PinnedVersion s != upd_LatestVersion s) ||
       IsZero (upd_LatestReleasedAt s) || IsZero (upd_ObservedAt s) ||
       Before (upd_ObservedAt s) (upd_LatestReleasedAt s) ||
       negb (IsZero (upd_Deadline s)) ||
       (upd_FreshUntil s != upd_ObservedAt s + GitHubRunnerUpdateWindow) then
      invalid_status "runner_update" "current status requires equal versions and a successful observation"
    else None
  else if (upd_State s == RunnerUpdateDue) || (upd_State s == RunnerUpdateExpired) then
    if negb (validVersion (upd_PinnedVersion s)) || negb (validVersion (upd_LatestVersion s)) ||
       (upd_PinnedVersion s == upd_LatestVersion s) ||
       IsZero (upd_LatestReleasedAt s) || IsZero (upd_ObservedAt s) ||
       Before (upd_ObservedAt s) (upd_LatestReleasedAt s) ||
       (upd_Deadline s != upd_LatestReleasedAt s + GitHubRunnerUpdateWindow) ||
       (upd_FreshUntil s != upd_ObservedAt s + GitHubRunnerUpdateWindow) then
      invalid_status "runner_update" "mismatched pinned versions require observation and deadline evidence"
    else None
  else if upd_State s == RunnerUpdateUnknown then
    if negb (validVersion (upd_PinnedVersion s)) then
      invalid_status "runner_update" "unknown status requires a pinned version"
    else if upd_LatestVersion s == "" then
      if negb (IsZero (upd_LatestReleasedAt s)) || negb (IsZero (upd_Deadline s)) ||
         negb (IsZero (upd_ObservedAt s)) || negb (IsZero (upd_FreshUntil s)) then
        invalid_status "runner_update" "never-observed status must not carry release evidence"
      else None
    else if negb (validVersion (upd_LatestVersion s)) ||
            IsZero (upd_LatestReleasedAt s) || IsZero (upd_ObservedAt s) ||
            Before (upd_ObservedAt s) (upd_LatestReleasedAt s) ||
            (upd_FreshUntil s != upd_ObservedAt s + GitHubRunnerUpdateWindow) then
      invalid_status "runner_update" "unknown status requires retained release identity and observation time"
    else if (upd_PinnedVersion s == upd_LatestVersion s) && negb (IsZero (upd_Deadline s)) then
      invalid_status "runner_update.deadline" "current versions must not carry an update deadline"
    else if (upd_PinnedVersion s != upd_LatestVersion s) &&
            (upd_Deadline s != upd_LatestReleasedAt s + GitHubRunnerUpdateWindow) then
      invalid_status "runner_update.deadline" "must preserve the provider support window"
    else None
  else invalid_status "runner_update.state" "is not a known runner update state".

(* src: internal/reconcile/runner_update.go:70-81 RunnerUpdateStatus.MatchesPolicy *)
Definition MatchesPolicy (status : RunnerUpdateStatus) (policy : string) : bool :=
  if policy == RunnerVersionAutoUpdate then upd_State status == RunnerUpdateManaged
  else if policy == RunnerVersionPinned then
    (upd_State status != RunnerUpdateManaged) && (upd_State status != "") &&
    (RunnerUpdateStatus_Validate status == None)
  else false.

(** The function returns the status and the error together, because the
    never-observed branch returns both. *)
(* src: internal/reconcile/runner_update.go:146-218 EvaluateRunnerUpdate *)
Definition EvaluateRunnerUpdate (now : Z) (policy : string) (release : RunnerReleaseObservation)
    : RunnerUpdateStatus * error :=
  let zero := mkUpdateStatus "" "" "" 0 0 0 0 in
  let fail code field message := (zero, Some (reconcile_invalid code field message)) in
  if IsZero now then fail "invalid_runner_update_time" "runner_update.now" "must not be zero"
  else if policy == RunnerVersionAutoUpdate then (ManagedRunnerUpdate, None)
  else if policy != RunnerVersionPinned then
    fail "invalid_runner_update_policy" "runner_update.policy" "must be auto_update or pinned"
  else if negb (validVersion (release_PinnedVersion release)) then
    fail "missing_runner_release_evidence" "runner_update.pinned_version"
      "pinned version must be configured"
  else if negb (release_HasValue release) then
    let status := mkUpdateStatus RunnerUpdateUnknown (release_PinnedVersion release) "" 0 0 0 0 in
    (status, RunnerUpdateStatus_Validate status)
  else if negb (validVersion (release_LatestVersion release)) then
    fail "missing_runner_release_evidence" "runner_update.version"
      "pinned and latest versions must be observed"
  else if IsZero (release_LatestReleasedAt release) || IsZero (release_ObservedAt release) then
    fail "missing_runner_release_evidence" "runner_update.observed_at"
      "release and observation times must be present"
  else if Before (release_ObservedAt release) (release_LatestReleasedAt release) then
    fail "invalid_runner_release_evidence" "runner_update.observed_at"
      "cannot precede the observed release"
  else if Before now (release_LatestReleasedAt release) then
    fail "invalid_runner_release_evidence" "runner_update.latest_released_at"
      "cannot be in the future"
  else if Before now (release_ObservedAt release) then
    fail "invalid_runner_release_evidence" "runner_update.observed_at" "cannot be in the future"
  else
    let differ := release_PinnedVersion release != release_LatestVersion release in
    let freshUntil := release_ObservedAt release + GitHubRunnerUpdateWindow in
    let deadline := if differ then release_LatestReleasedAt release + GitHubRunnerUpdateWindow
                    else 0 in
    let status state :=
      (mkUpdateStatus state (release_PinnedVersion release) (release_LatestVersion release)
         (release_LatestReleasedAt release) deadline (release_ObservedAt release) freshUntil,
       None) in
    if release_Stale release then status RunnerUpdateUnknown
    else if differ && negb (Before now deadline) then status RunnerUpdateExpired
    else if negb (Before now freshUntil) then status RunnerUpdateUnknown
    else if release_PinnedVersion release == release_LatestVersion release then
      status RunnerUpdateCurrent
    else status RunnerUpdateDue.

(** ** Properties *)

(** Evidence that keeps a pinned runner admissible at [t]: a release was
    observed, is not stale, the observation is younger than the window, and a
    newer release, if any, came out less than a window ago. *)
Definition pinned_within_window (release : RunnerReleaseObservation) (t : Z) : Prop :=
  release_HasValue release = true /\ release_Stale release = false /\
  release_ObservedAt release <= t < release_ObservedAt release + GitHubRunnerUpdateWindow /\
  (release_PinnedVersion release = release_LatestVersion release \/
   t < release_LatestReleasedAt release + GitHubRunnerUpdateWindow).

Lemma AllowsAdmissionAt_unknown s t : upd_State s = RunnerUpdateUnknown -> AllowsAdmissionAt s t = false.
Proof. unfold AllowsAdmissionAt. by intros ->. Qed.
Lemma AllowsAdmissionAt_expired s t : upd_State s = RunnerUpdateExpired -> AllowsAdmissionAt s t = false.
Proof. unfold AllowsAdmissionAt. by intros ->. Qed.
Lemma AllowsAdmissionAt_current s t : upd_State s = RunnerUpdateCurrent ->
  AllowsAdmissionAt s t = true <-> t <> 0 /\ upd_ObservedAt s <= t < upd_FreshUntil s.
Proof.
  unfold AllowsAdmissionAt, IsZero, Before. intros ->. simpl.
  conditions. tauto.
Qed.
Lemma AllowsAdmissionAt_due s t : upd_State s = RunnerUpdateDue ->
  AllowsAdmissionAt s t = true <->
  t <> 0 /\ upd_ObservedAt s <= t < upd_FreshUntil s /\ t < upd_Deadline s.
Proof.
  unfold AllowsAdmissionAt, IsZero, Before. intros ->. simpl.
  conditions. tauto.
Qed.

(** The checks of the pinned branch, and the status they lead to. *)
Lemma Evaluate_pinned now release status :
  EvaluateRunnerUpdate now RunnerVersionPinned release = (status, None) ->
  now <> 0 /\ validVersion (release_PinnedVersion release) = true /\
  (release_HasValue release = false /\
   status = mkUpdateStatus RunnerUpdateUnknown (release_PinnedVersion release) "" 0 0 0 0 \/
   release_HasValue release = true /\ validVersion (release_LatestVersion release) = true /\
   release_LatestReleasedAt release <> 0 /\ release_ObservedAt release <> 0 /\
   release_LatestReleasedAt release <= release_ObservedAt release <= now /\
   let window := GitHubRunnerUpdateWindow in
   let same := bool_decide (release_PinnedVersion release = release_LatestVersion release) in
   let deadline := if same then 0 else release_LatestReleasedAt release + window in
   status = mkUpdateStatus
     (if release_Stale release then RunnerUpdateUnknown
      else if negb same && (deadline <=? now) then RunnerUpdateExpired
      else if release_ObservedAt release + window <=? now then RunnerUpdateUnknown
      else if same then RunnerUpdateCurrent else RunnerUpdateDue)
     (release_PinnedVersion release) (release_LatestVersion release)
     (release_LatestReleasedAt release) deadline (release_ObservedAt release)
     (release_ObservedAt release + window)).
Proof.
  unfold EvaluateRunnerUpdate, IsZero, Before.
  case_bool_decide as Hnow; [done|]. cbv zeta.
  rewrite (bool_decide_eq_false_2 (RunnerVersionPinned = RunnerVersionAutoUpdate)) by done.
  rewrite (bool_decide_eq_true_2 (RunnerVersionPinned = RunnerVersionPinned)) by done. simpl negb.
  destruct (validVersion (release_PinnedVersion release)) eqn:Hp; [|done]. simpl negb.
  destruct (release_HasValue release); simpl negb.
  2:{ intros [= <- _]. split_and!; [done|done|by left]. }
  destruct (validVersion (release_LatestVersion release)) eqn:Hl; [|done]. simpl negb.
  case_bool_decide as Hz1; simpl; [done|]. case_bool_decide as Hz2; simpl; [done|].
  destruct (Z.ltb_spec (release_ObservedAt release) (release_LatestReleasedAt release)); [done|].
  destruct (Z.ltb_spec now (release_LatestReleasedAt release)); [done|].
  destruct (Z.ltb_spec now (release_ObservedAt release)); [done|].
  intros Hs. split_and!; [done|done|right]. split_and!; try done.
  set (same := bool_decide (release_PinnedVersion release = release_LatestVersion release)) in *.
  rewrite <- !Z.leb_antisym in Hs. destruct same; simpl in *.
  - destruct (release_Stale release); [by injection Hs as <-|].
    destruct (_ <=? now); by injection Hs as <-.
  - destruct (release_Stale release); [by injection Hs as <-|].
    destruct (_ <=? now); [by injection Hs as <-|]. destruct (_ <=? now); by injection Hs as <-.
Qed.

(** The statuses the pinned branch builds are valid. *)
Lemma pinned_status_valid pinned latest released observed state :
  let window := GitHubRunnerUpdateWindow in
  let same := bool_decide (pinned = latest) in
  let deadline := if same then 0 else released + window in
  validVersion pinned = true -> validVersion latest = true -> released <> 0 -> observed <> 0 ->
  released <= observed ->
  state = RunnerUpdateUnknown \/ (state = RunnerUpdateCurrent /\ same = true) \/
  ((state = RunnerUpdateDue \/ state = RunnerUpdateExpired) /\ same = false) ->
  RunnerUpdateStatus_Validate
    (mkUpdateStatus state pinned latest released deadline observed (observed + window)) = None.
Proof.
  intros window same deadline Hp Hl Hr Ho Hord Hstate.
  assert (Hlne : latest <> "") by (intros ->; by vm_compute in Hl).
  unfold RunnerUpdateStatus_Validate. simpl. rewrite Hp, Hl. unfold IsZero, Before. fold window.
  rewrite (bool_decide_eq_false_2 (released = 0)), (bool_decide_eq_false_2 (observed = 0)),
    (bool_decide_eq_false_2 (latest = "")), (proj2 (Z.ltb_ge _ _)) by done.
  rewrite (bool_decide_eq_true_2 (observed + window = observed + window)) by done. fold same.
  assert (Hd : same = true -> bool_decide (deadline = 0) = true).
  { unfold deadline. intros ->. done. }
  assert (Hd' : same = false -> bool_decide (deadline = released + window) = true).
  { unfold deadline. intros ->. by apply bool_decide_eq_true_2. }
  destruct Hstate as [->|[[-> Hsame]|[[-> | ->] Hsame]]]; simpl; [|rewrite Hsame, Hd by done; done|..];
    [|rewrite Hsame, Hd' by done; done..].
  destruct same; [rewrite Hd by done|rewrite Hd' by done]; done.
Qed.

(** The state the pinned branch gives to a status with complete evidence. *)
Definition pinned_state (stale same : bool) (deadline freshUntil now : Z) : string :=
  if stale then RunnerUpdateUnknown
  else if negb same && (deadline <=? now) then RunnerUpdateExpired
  else if freshUntil <=? now then RunnerUpdateUnknown
  else if same then RunnerUpdateCurrent else RunnerUpdateDue.

Lemma pinned_state_cases stale same deadline freshUntil now :
  let state := pinned_state stale same deadline freshUntil now in
  state = RunnerUpdateUnknown \/
  (state = RunnerUpdateCurrent /\ same = true /\ stale = false /\ now < freshUntil) \/
  ((state = RunnerUpdateDue /\ stale = false /\ now < freshUntil /\ now < deadline \/
    state = RunnerUpdateExpired) /\ same = false).
Proof.
  unfold pinned_state. destruct stale, same; simpl; [by left..| |];
    destruct (Z.leb_spec freshUntil now); try destruct (Z.leb_spec deadline now); tauto.
Qed.

(** When such a status admits, and that it does at the evaluation if the evidence
    is inside the window. *)
Lemma pinned_status_admits stale pinned latest released observed now t :
  let window := GitHubRunnerUpdateWindow in
  let same := bool_decide (pinned = latest) in
  let deadline := if same then 0 else released + window in
  let status := mkUpdateStatus (pinned_state stale same deadline (observed + window) now)
                  pinned latest released deadline observed (observed + window) in
  AllowsAdmissionAt status t = true ->
  stale = false /\ observed <= t < observed + window /\ (pinned = latest \/ t < released + window).
Proof.
  intros window same deadline status Ht.
  destruct (pinned_state_cases stale same deadline (observed + window) now)
    as [Hu|[(Hc & Hsame & Hs & _)|[[(Hd & Hs & _)|He] Hsame]]].
  - by rewrite (AllowsAdmissionAt_unknown status t Hu) in Ht.
  - apply (AllowsAdmissionAt_current status t Hc) in Ht. apply bool_decide_eq_true in Hsame.
    simpl in Ht. tauto.
  - apply (AllowsAdmissionAt_due status t Hd) in Ht. simpl in Ht. unfold deadline in Ht.
    rewrite Hsame in Ht. tauto.
  - by rewrite (AllowsAdmissionAt_expired status t He) in Ht.
Qed.

Lemma pinned_status_admitted pinned latest released observed now :
  let window := GitHubRunnerUpdateWindow in
  let same := bool_decide (pinned = latest) in
  let deadline := if same then 0 else released + window in
  let status := mkUpdateStatus (pinned_state false same deadline (observed + window) now)
                  pinned latest released deadline observed (observed + window) in
  now <> 0 -> observed <= now < observed + window -> pinned = latest \/ now < released + window ->
  AllowsAdmissionAt status now = true.
Proof.
  intros window same deadline status Hnow Hfresh Hver.
  assert (Hf : (observed + window <=? now) = false) by (apply Z.leb_gt; lia).
  destruct (bool_decide (pinned = latest)) eqn:Es.
  - apply (AllowsAdmissionAt_current status now); [|simpl; lia].
    unfold status, pinned_state. simpl. subst same. by rewrite Hf.
  - assert (Hd : (deadline <=? now) = false).
    { apply Z.leb_gt. unfold deadline, same. apply bool_decide_eq_false in Es. destruct Hver; [done|lia]. }
    apply (AllowsAdmissionAt_due status now); [|apply Z.leb_gt in Hd; simpl; lia].
    unfold status, pinned_state. simpl. subst same. by rewrite Hd, Hf.
Qed.

(** The other policies: only the automatic one is accepted. *)
Lemma Evaluate_unpinned now policy release status :
  policy <> RunnerVersionPinned -> EvaluateRunnerUpdate now policy release = (status, None) ->
  RunnerUpdateStatus_Validate status = None /\ MatchesPolicy status policy = true.
Proof.
  unfold EvaluateRunnerUpdate. cbv zeta. intros Hne. destruct (IsZero now); [done|].
  destruct (decide (policy = RunnerVersionAutoUpdate)) as [->|Hna].
  - rewrite bool_decide_eq_true_2 by done. intros [= <-]. by vm_compute.
  - by rewrite bool_decide_eq_false_2, bool_decide_eq_false_2 by done.
Qed.

Lemma MatchesPolicy_pinned status :
  RunnerUpdateStatus_Validate status = None ->
  upd_State status <> RunnerUpdateManaged -> upd_State status <> "" ->
  MatchesPolicy status RunnerVersionPinned = true.
Proof.
  unfold MatchesPolicy. intros -> Hm He. simpl. by rewrite !bool_decide_eq_false_2.
Qed.

(** [EvaluateRunnerUpdate] is sound and fails closed.  The status it returns
    is valid and matches the policy; under the pinned policy it admits exactly
    while the evidence is inside the support window, at the moment of evaluation
    and at every later moment the status is consulted. *)
Theorem runner_update_fails_closed now policy release status :
  EvaluateRunnerUpdate now policy release = (status, None) ->
  RunnerUpdateStatus_Validate status = None /\ MatchesPolicy status policy = true /\
  (policy = RunnerVersionPinned ->
   (AllowsAdmissionAt status now = true <-> pinned_within_window release now) /\
   forall t, now <= t -> t <> 0 -> AllowsAdmissionAt status t = true -> pinned_within_window release t).
Proof.
  intros H. destruct (decide (policy = RunnerVersionPinned)) as [->|Hne].
  2:{ by destruct (Evaluate_unpinned now policy release status Hne H). }
  apply Evaluate_pinned in H as (Hnow & Hp & [[Hv ->]|(Hv & Hl & Hr & Ho & Hord & Hstatus)]).
  - assert (Hval : RunnerUpdateStatus_Validate
      (mkUpdateStatus RunnerUpdateUnknown (release_PinnedVersion release) "" 0 0 0 0) = None).
    { unfold RunnerUpdateStatus_Validate. simpl. by rewrite Hp. }
    split_and!; [done|by apply MatchesPolicy_pinned|].
    intros _. unfold pinned_within_window. rewrite Hv. by split; [split; [done|]; intros (? & _)|].
  - cbv zeta in Hstatus. fold (pinned_state (release_Stale release)
      (bool_decide (release_PinnedVersion release = release_LatestVersion release))
      (if bool_decide (release_PinnedVersion release = release_LatestVersion release) then 0
       else release_LatestReleasedAt release + GitHubRunnerUpdateWindow)
      (release_ObservedAt release + GitHubRunnerUpdateWindow) now) in Hstatus.
    pose proof (pinned_state_cases (release_Stale release)
      (bool_decide (release_PinnedVersion release = release_LatestVersion release))
      (if bool_decide (release_PinnedVersion release = release_LatestVersion release) then 0
       else release_LatestReleasedAt release + GitHubRunnerUpdateWindow)
      (release_ObservedAt release + GitHubRunnerUpdateWindow) now) as Hstate. cbv zeta in Hstate.
    assert (Hval : RunnerUpdateStatus_Validate status = None).
    { rewrite Hstatus. apply pinned_status_valid; try done; [lia|]. clear Hstatus. tauto. }
    split_and!; [done| |].
    { apply MatchesPolicy_pinned; [done|..]; rewrite Hstatus; simpl;
        destruct Hstate as [-> |[[-> _]|[[[-> _]| ->] _]]]; done. }
    intros _. rewrite Hstatus. unfold pinned_within_window. rewrite Hv.
    split; [split|]; [intros Ht| |intros t _ _ Ht].
    + by apply pinned_status_admits in Ht.
    + intros (_ & -> & Hfresh & Hver). by apply pinned_status_admitted.
    + by apply pinned_status_admits in Ht.
Qed.

Definition example_release : RunnerReleaseObservation := mkRelease true "2.1" "2.2" 1000 2000 false.
Lemma runner_update_fails_closed_witness :
  RunnerUpdateStatus_Validate (EvaluateRunnerUpdate 3000 RunnerVersionPinned example_release).1 = None /\
  AllowsAdmissionAt (EvaluateRunnerUpdate 3000 RunnerVersionPinned example_release).1 3000 = true.
Proof.
  split.
  - apply (runner_update_fails_closed 3000 RunnerVersionPinned example_release). vm_compute. reflexivity.
  - apply (runner_update_fails_closed 3000 RunnerVersionPinned example_release);
      [vm_compute; reflexivity|reflexivity|]. vm_compute. repeat split; try congruence. by right.
Defined.
