(* ===== verification/Fence.v ===== *)
(** * Provider fences and ambiguity (internal/reconcile: controller.go, ambiguity.go)

    A [GitHubFence] records that the Controller does not know whether a runner
    exists at GitHub.  This file models when a fence token is valid, when one may
    replace another, what action it asks for, and how [ResolveGitHubFence] decides
    what to do about it.  The claim and attempt states are the store's constants
    (internal/store/controller_github.go). *)

From S2P Require Import Prelude GoStd Domain Execution Replay Transport RunnerUpdate.

(** ** States of a claim and of a JIT attempt *)

(* src: internal/store/controller_github.go:115-115 GitHubClaimAcquireAmbiguous *)
Definition GitHubClaimAcquireAmbiguous := "acquire_ambiguous".
(* src: internal/store/controller_github.go:119-119 GitHubClaimJITIntent *)
Definition GitHubClaimJITIntent := "jit_intent".
(* src: internal/store/controller_github.go:120-120 GitHubClaimJITGenerationAmbiguous *)
Definition GitHubClaimJITGenerationAmbiguous := "jit_generation_ambiguous".
(* src: internal/store/controller_github.go:121-121 GitHubClaimJITGenerated *)
Definition GitHubClaimJITGenerated := "jit_generated".
(* src: internal/store/controller_github.go:122-122 GitHubClaimStartDispatching *)
Definition GitHubClaimStartDispatching := "start_dispatching".
(* src: internal/store/controller_github.go:123-123 GitHubClaimStartAmbiguous *)
Definition GitHubClaimStartAmbiguous := "start_ambiguous".
(* src: internal/store/controller_github.go:125-125 GitHubClaimReconciliationRequired *)
Definition GitHubClaimReconciliationRequired := "reconciliation_required".

(* src: internal/store/controller_github.go:239-239 GitHubJITIntent *)
Definition GitHubJITIntent := "intent".
(* src: internal/store/controller_github.go:240-240 GitHubJITGenerationAmbiguous *)
Definition GitHubJITGenerationAmbiguous := "generation_ambiguous".
(* src: internal/store/controller_github.go:241-241 GitHubJITGenerated *)
Definition GitHubJITGenerated := "generated".
(* src: internal/store/controller_github.go:242-242 GitHubJITStartDispatching *)
Definition GitHubJITStartDispatching := "start_dispatching".
(* src: internal/store/controller_github.go:243-243 GitHubJITStartAmbiguous *)
Definition GitHubJITStartAmbiguous := "start_ambiguous".
(* src: internal/store/controller_github.go:244-244 GitHubJITStarted *)
Definition GitHubJITStarted := "started".
(* src: internal/store/controller_github.go:245-245 GitHubJITAgentAccepted *)
Definition GitHubJITAgentAccepted := "agent_accepted".
(* src: internal/store/controller_github.go:246-246 GitHubJITRemovalPending *)
Definition GitHubJITRemovalPending := "removal_pending".

(** ** Data *)

(* src: internal/store/controller_github.go:250-260 GitHubJITAttempt *)
Record GitHubJITAttempt := mkAttempt {
  att_ScaleSetID : Z;
  att_ClaimKey : Z;
  att_Attempt : Z;
  att_ControllerEpoch : ControllerEpoch;
  att_RunnerName : string;
  att_State : string;
  att_RunnerID : Z;
  att_JITDigest : string;
  att_StartCommandID : CommandID;
}.
#[export] Instance GitHubJITAttempt_eq_dec : EqDecision GitHubJITAttempt.
Proof. solve_decision. Defined.

(** [Attempt] is a pointer the fence owns ([cloneGitHubFence] copies the value). *)
(* src: internal/reconcile/controller.go:51-57 GitHubFence *)
Record GitHubFence := mkFence {
  fence_ExecutionID : ExecutionID;
  fence_ScaleSetID : Z;
  fence_ClaimKey : Z;
  fence_ClaimState : string;
  fence_Attempt : option GitHubJITAttempt;
}.
#[export] Instance GitHubFence_eq_dec : EqDecision GitHubFence.
Proof. solve_decision. Defined.

(* src: internal/reconcile/controller.go:42-46 IssuedCommand *)
Record IssuedCommand := mkIssued {
  issued_NodeID : NodeID;
  issued_Type : string;
  issued_Command : Command;
}.
#[export] Instance IssuedCommand_eq_dec : EqDecision IssuedCommand.
Proof. solve_decision. Defined.

(** ** Valid fences *)

(* src: internal/reconcile/controller.go:634-656 githubFenceStatesMatch *)
Definition githubFenceStatesMatch (claim attempt : string) : bool :=
  if claim == GitHubClaimJITIntent then attempt == GitHubJITIntent
  else if claim == GitHubClaimJITGenerationAmbiguous then attempt == GitHubJITGenerationAmbiguous
  else if claim == GitHubClaimJITGenerated then attempt == GitHubJITGenerated
  else if claim == GitHubClaimStartDispatching then attempt == GitHubJITStartDispatching
  else if claim == GitHubClaimStartAmbiguous then attempt == GitHubJITStartAmbiguous
  else if claim == GitHubClaimReconciliationRequired then
    (attempt == GitHubJITStarted) || (attempt == GitHubJITAgentAccepted) ||
    (attempt == GitHubJITRemovalPending)
  else false.

Definition invalid_fence (field message : string) : error :=
  Some (reconcile_invalid "invalid_github_fence" field message).

(* src: internal/reconcile/controller.go:593-632 validateGitHubFence *)
Definition validateGitHubFence (fence : GitHubFence) : error :=
  if (fence_ExecutionID fence == "") || (fence_ScaleSetID fence == 0) || (fence_ClaimKey fence == 0)
  then invalid_fence "github_fences.claim_identity"
         "requires execution, scale-set, and claim identity"
  else if fence_ClaimState fence == GitHubClaimAcquireAmbiguous then
    match fence_Attempt fence with
    | Some _ => invalid_fence "github_fences.attempt"
                  "acquire ambiguity must not claim a JIT attempt"
    | None => None
    end
  else if bool_decide (fence_ClaimState fence ∈
            [GitHubClaimJITIntent; GitHubClaimJITGenerationAmbiguous; GitHubClaimJITGenerated;
             GitHubClaimStartDispatching; GitHubClaimStartAmbiguous;
             GitHubClaimReconciliationRequired]) then
    match fence_Attempt fence with
    | None => invalid_fence "github_fences.attempt"
                "JIT ambiguity requires durable attempt identity"
    | Some attempt =>
        if (att_Attempt attempt <? 1) || (att_ControllerEpoch attempt == 0) ||
           (att_RunnerName attempt == "") then
          invalid_fence "github_fences.attempt" "JIT ambiguity requires durable attempt identity"
        else if (att_ScaleSetID attempt != fence_ScaleSetID fence) ||
                (att_ClaimKey attempt != fence_ClaimKey fence) then
          Some (reconcile_invalid "github_fence_claim_mismatch" "github_fences.attempt"
                  "does not belong to the durable claim identity")
        else if negb (githubFenceStatesMatch (fence_ClaimState fence) (att_State attempt)) then
          Some (reconcile_invalid "github_fence_state_mismatch" "github_fences.attempt.state"
                  "does not match the durable claim state")
        else if ((fence_ClaimState fence == GitHubClaimStartDispatching) ||
                 (fence_ClaimState fence == GitHubClaimStartAmbiguous)) &&
                (att_StartCommandID attempt == "") then
          invalid_fence "github_fences.attempt.start_command_id"
            "start ambiguity requires exact command identity"
        else None
    end
  else invalid_fence "github_fences.claim_state"
         "does not represent a recovery-only GitHub state".

(** ** Replacing a fence *)

(* src: internal/reconcile/controller.go:2190-2195 githubAttemptsEqual *)
Definition githubAttemptsEqual (l r : option GitHubJITAttempt) : bool :=
  match l, r with
  | Some l, Some r => l == r
  | None, None => true
  | _, _ => false
  end.

(* src: internal/reconcile/controller.go:2104-2110 githubFencesEqual *)
Definition githubFencesEqual (l r : GitHubFence) : bool :=
  (fence_ExecutionID l == fence_ExecutionID r) &&
  (fence_ScaleSetID l == fence_ScaleSetID r) &&
  (fence_ClaimKey l == fence_ClaimKey r) &&
  (fence_ClaimState l == fence_ClaimState r) &&
  githubAttemptsEqual (fence_Attempt l) (fence_Attempt r).

(* src: internal/reconcile/controller.go:2142-2188 githubJITFenceStateCanAdvance *)
Definition githubJITFenceStateCanAdvance (current next : string) : bool :=
  if current == GitHubJITIntent then
    bool_decide (next ∈ [GitHubJITGenerationAmbiguous; GitHubJITGenerated;
      GitHubJITStartDispatching; GitHubJITStartAmbiguous; GitHubJITAgentAccepted;
      GitHubJITStarted; GitHubJITRemovalPending])
  else if current == GitHubJITGenerationAmbiguous then next == GitHubJITRemovalPending
  else if current == GitHubJITGenerated then
    bool_decide (next ∈ [GitHubJITStartDispatching; GitHubJITStartAmbiguous;
      GitHubJITAgentAccepted; GitHubJITStarted; GitHubJITRemovalPending])
  else if current == GitHubJITStartDispatching then
    bool_decide (next ∈ [GitHubJITStartAmbiguous; GitHubJITAgentAccepted; GitHubJITStarted;
      GitHubJITRemovalPending])
  else if current == GitHubJITStartAmbiguous then
    bool_decide (next ∈ [GitHubJITAgentAccepted; GitHubJITStarted; GitHubJITRemovalPending])
  else if current == GitHubJITAgentAccepted then
    (next == GitHubJITStarted) || (next == GitHubJITRemovalPending)
  else if current == GitHubJITStarted then next == GitHubJITRemovalPending
  else false.

(* src: internal/reconcile/controller.go:2112-2140 githubFenceCanAdvance *)
Definition githubFenceCanAdvance (current next : GitHubFence) : bool :=
  if (fence_ExecutionID current != fence_ExecutionID next) ||
     (fence_ScaleSetID current != fence_ScaleSetID next) ||
     (fence_ClaimKey current != fence_ClaimKey next) then false
  else
    match fence_Attempt current, fence_Attempt next with
    | None, Some _ => true
    | None, None | Some _, None => false
    | Some a, Some b =>
        if att_Attempt b != att_Attempt a then
          (att_Attempt b >? att_Attempt a) && (att_ControllerEpoch b >? att_ControllerEpoch a)
        else if (att_ControllerEpoch b != att_ControllerEpoch a) ||
                (att_RunnerName b != att_RunnerName a) ||
                negb (githubJITFenceStateCanAdvance (att_State a) (att_State b)) then false
        else
          ((att_RunnerID a == 0) || (att_RunnerID a == att_RunnerID b)) &&
          ((att_JITDigest a == "") || (att_JITDigest a == att_JITDigest b)) &&
          ((att_StartCommandID a == "") || (att_StartCommandID a == att_StartCommandID b))
    end.

(** ** Resolving an ambiguity *)

(* src: internal/reconcile/ambiguity.go:21-25 GitHubRunnerIdentity *)
Record GitHubRunnerIdentity := mkRunnerIdentity {
  rid_ScaleSetID : Z;
  rid_ID : Z;
  rid_Name : string;
}.

(* src: internal/reconcile/ambiguity.go:30-40 GitHubReconciliationObservation *)
Record GitHubReconciliationObservation := mkGitHubObservation {
  gobs_ObservedAt : Z;
  gobs_Stale : bool;
  gobs_ScaleSetID : Z;
  gobs_ClaimKey : Z;
  gobs_JobObserved : bool;
  gobs_JobState : string;
  gobs_RunnerObserved : bool;
  gobs_RunnerName : string;
  gobs_Runner : option GitHubRunnerIdentity;
}.

(* src: internal/reconcile/ambiguity.go:45-45 AmbiguityHold *)
Definition AmbiguityHold := "hold".
(* src: internal/reconcile/ambiguity.go:46-46 AmbiguityConfirmAgentAccepted *)
Definition AmbiguityConfirmAgentAccepted := "confirm_agent_accepted".
(* src: internal/reconcile/ambiguity.go:47-47 AmbiguityAwaitAgentObservation *)
Definition AmbiguityAwaitAgentObservation := "await_agent_observation".
(* src: internal/reconcile/ambiguity.go:48-48 AmbiguityRemoveRunner *)
Definition AmbiguityRemoveRunner := "remove_runner".
(* src: internal/reconcile/ambiguity.go:49-49 AmbiguityMarkRunnerAbsent *)
Definition AmbiguityMarkRunnerAbsent := "mark_runner_absent".

(* src: internal/reconcile/ambiguity.go:55-61 AmbiguityResolution *)
Record AmbiguityResolution := mkResolution {
  res_Kind : string;
  res_ExecutionID : ExecutionID;
  res_StartCommandID : CommandID;
  res_Runner : option GitHubRunnerIdentity;
  res_PersistBeforeRetry : bool;
}.

(** The last loop of [exactAgentStartAccepted]. *)
(* src: internal/reconcile/ambiguity.go:171-180 exactAgentStartAccepted *)
Fixpoint find_start (commands : list Command) (issued : Command) : result bool :=
  match commands with
  | [] => Ok false
  | command :: rest =>
      if command_ID command != command_ID issued then find_start rest issued
      else if command != issued then
        Err (reconcile_invalid "agent_command_authority_mismatch" "agent_snapshot.commands"
               "start command differs from Controller authority")
      else Ok true
  end.

(** The caller guarantees that the fence has an attempt, which is passed here. *)
(* src: internal/reconcile/ambiguity.go:147-181 exactAgentStartAccepted *)
Definition exactAgentStartAccepted (fence : GitHubFence) (attempt : GitHubJITAttempt)
    (issued : option IssuedCommand) (nodeID : NodeID) (commands : list Command) : result bool :=
  match issued with
  | None =>
      if existsb (fun command => command_ID command == att_StartCommandID attempt) commands then
        Err (reconcile_invalid "start_command_authority_required" "issued_start"
               "Agent reported a start command without exact Controller authority")
      else Ok false
  | Some issued =>
      if (issued_NodeID issued != nodeID) || (issued_Type issued != CommandStart) ||
         (command_ID (issued_Command issued) != att_StartCommandID attempt) ||
         (command_ExecutionID (issued_Command issued) != fence_ExecutionID fence) ||
         (command_ControllerEpoch (issued_Command issued) != att_ControllerEpoch attempt) ||
         (command_ExpectedState (issued_Command issued) != ExecutionPreparing) then
        Err (reconcile_invalid "start_command_authority_mismatch" "issued_start"
               "does not match the fence and Agent node")
      else
      tryr Command_Validate (issued_Command issued) ;;
      find_start commands (issued_Command issued)
  end.

Definition with_kind (result : AmbiguityResolution) (kind : string)
    (runner : option GitHubRunnerIdentity) : AmbiguityResolution :=
  mkResolution kind (res_ExecutionID result) (res_StartCommandID result) runner
    (res_PersistBeforeRetry result).

(** The part of [ResolveGitHubFence] that reads the provider observation. *)
(* src: internal/reconcile/ambiguity.go:109-144 ResolveGitHubFence *)
Definition resolve_observation (fence : GitHubFence) (result : AmbiguityResolution)
    (observation : GitHubReconciliationObservation) : Prelude.result AmbiguityResolution :=
  if gobs_Stale observation || IsZero (gobs_ObservedAt observation) then Ok result
  else if fence_ClaimState fence == GitHubClaimAcquireAmbiguous then Ok result
  else if negb (gobs_RunnerObserved observation) then Ok result
  else
    match fence_Attempt fence with
    | None => Err (reconcile_invalid "github_attempt_required" "github_fence.attempt"
                     "runner observation requires a durable JIT attempt")
    | Some attempt =>
        if (gobs_ScaleSetID observation != fence_ScaleSetID fence) ||
           (gobs_ClaimKey observation != fence_ClaimKey fence) ||
           (gobs_RunnerName observation != att_RunnerName attempt) then
          Err (reconcile_invalid "github_runner_query_identity_mismatch" "github_observation"
                 "was not produced by the exact durable runner query")
        else
          match gobs_Runner observation with
          | None => Ok (with_kind result AmbiguityMarkRunnerAbsent None)
          | Some runner =>
              if (rid_ScaleSetID runner == 0) || (rid_ID runner <=? 0) || (rid_Name runner == "") then
                Err (reconcile_invalid "invalid_github_runner_observation"
                       "github_observation.runner" "contains incomplete runner identity")
              else if (rid_ScaleSetID runner != att_ScaleSetID attempt) ||
                      (rid_Name runner != att_RunnerName attempt) ||
                      ((att_RunnerID attempt >? 0) && (rid_ID runner != att_RunnerID attempt)) then
                Err (reconcile_invalid "github_runner_identity_mismatch"
                       "github_observation.runner" "does not match durable JIT identity")
              else Ok (with_kind result AmbiguityRemoveRunner (Some runner))
          end
    end.

(* src: internal/reconcile/ambiguity.go:65-145 ResolveGitHubFence *)
Definition ResolveGitHubFence (fence : GitHubFence) (issuedStart : option IssuedCommand)
    (agent : AgentSnapshot) (observation : GitHubReconciliationObservation)
    : result AmbiguityResolution :=
  tryr validateGitHubFence fence ;;
  match AgentSnapshot_Validate agent with
  | Some _ => Err (reconcile_invalid "invalid_agent_snapshot" "agent_snapshot"
                     "failed typed validation")
  | None =>
  match fence_Attempt fence with
  | Some attempt =>
      let result := mkResolution AmbiguityHold (fence_ExecutionID fence)
                      (att_StartCommandID attempt) None true in
      if att_StartCommandID attempt != "" then
        let! accepted := exactAgentStartAccepted fence attempt issuedStart (snap_NodeID agent)
                           (snap_Commands agent) ;;
        if (att_State attempt == GitHubJITAgentAccepted) || (att_State attempt == GitHubJITStarted)
        then Ok (with_kind result AmbiguityAwaitAgentObservation None)
        else if (att_State attempt == GitHubJITRemovalPending) && accepted then
          Err (reconcile_invalid "agent_start_after_removal" "agent_snapshot.commands"
                 "contradicts the durable runner-removal fence")
        else if accepted then Ok (with_kind result AmbiguityConfirmAgentAccepted None)
        else resolve_observation fence result observation
      else
        match issuedStart with
        | Some _ => Err (reconcile_invalid "unexpected_start_authority" "issued_start"
                           "fence has no start command")
        | None => resolve_observation fence result observation
        end
  | None =>
      match issuedStart with
      | Some _ => Err (reconcile_invalid "unexpected_start_authority" "issued_start"
                         "acquire ambiguity has no start command")
      | None =>
          resolve_observation fence
            (mkResolution AmbiguityHold (fence_ExecutionID fence) "" None true) observation
      end
  end
  end.

(** ** Specification: tokens are ordered

    A fence token is ranked by its attempt number, then by how far that attempt
    has come; a token without an attempt comes first. *)

Definition jit_rank (state : string) : Z :=
  if state == GitHubJITIntent then 0
  else if state == GitHubJITGenerationAmbiguous then 1
  else if state == GitHubJITGenerated then 1
  else if state == GitHubJITStartDispatching then 2
  else if state == GitHubJITStartAmbiguous then 3
  else if state == GitHubJITAgentAccepted then 4
  else if state == GitHubJITStarted then 5
  else 6.

Definition fence_attempt_rank (fence : GitHubFence) : Z * Z :=
  match fence_Attempt fence with
  | None => (0, 0)
  | Some attempt => (att_Attempt attempt, jit_rank (att_State attempt))
  end.

Definition rank_lt (a b : Z * Z) : Prop := fst a < fst b \/ fst a = fst b /\ snd a < snd b.

Definition same_claim (a b : GitHubFence) : Prop :=
  fence_ExecutionID a = fence_ExecutionID b /\ fence_ScaleSetID a = fence_ScaleSetID b /\
  fence_ClaimKey a = fence_ClaimKey b.

(** ** Lemmas *)

Lemma rank_lt_irrefl a : ~ rank_lt a a.
Proof. unfold rank_lt. lia. Qed.
Lemma rank_lt_trans a b c : rank_lt a b -> rank_lt b c -> rank_lt a c.
Proof. unfold rank_lt. lia. Qed.
#[export] Hint Resolve rank_lt_irrefl : go.

Lemma githubFencesEqual_iff a b : githubFencesEqual a b = true <-> a = b.
Proof.
  unfold githubFencesEqual, githubAttemptsEqual. rewrite !andb_true_iff, !bool_decide_eq_true.
  destruct a as [? ? ? ? [x|]], b as [? ? ? ? [y|]]; simpl; rewrite ?bool_decide_eq_true; naive_solver.
Qed.

Lemma jit_advance_rank a b : githubJITFenceStateCanAdvance a b = true -> jit_rank a < jit_rank b.
Proof.
  unfold githubJITFenceStateCanAdvance.
  repeat match goal with
    | |- (if bool_decide (a = ?x) then _ else _) = true -> _ =>
        destruct (decide (a = x)) as [->|?];
          [rewrite (bool_decide_eq_true_2 (x = x)) by done; intros H
          |rewrite (bool_decide_eq_false_2 (a = x)) by done]
    end; try done;
    repeat match goal with
    | H : bool_decide _ = true |- _ => apply bool_decide_eq_true_1 in H
    | H : _ || _ = true |- _ => apply orb_true_iff in H as [H|H]
    | H : _ ∈ _ :: _ |- _ => apply elem_of_cons in H as [->|H]
    | H : _ ∈ [] |- _ => by apply not_elem_of_nil in H
    end; subst; by vm_compute.
Qed.

(** What validation says about the attempt. *)
Lemma validateGitHubFence_attempt fence attempt :
  validateGitHubFence fence = None -> fence_Attempt fence = Some attempt ->
  1 <= att_Attempt attempt /\ att_ScaleSetID attempt = fence_ScaleSetID fence /\
  att_ClaimKey attempt = fence_ClaimKey fence.
Proof.
  unfold validateGitHubFence, invalid_fence. intros H Ha. rewrite Ha in H. revert H.
  destruct (_ || _); [done|]. case_bool_decide; [done|]. case_bool_decide; [|done].
  destruct (Z.ltb_spec (att_Attempt attempt) 1); [done|]. simpl. destruct (_ || _); [done|].
  case_bool_decide; simpl; [|done]. case_bool_decide; simpl; [|done]. intros _. split_and!; [lia|done|done].
Qed.

Lemma fence_advance_rank a b :
  validateGitHubFence b = None -> githubFenceCanAdvance a b = true ->
  same_claim a b /\ rank_lt (fence_attempt_rank a) (fence_attempt_rank b).
Proof.
  intros Hv. unfold githubFenceCanAdvance, same_claim, rank_lt, fence_attempt_rank.
  do 3 (case_bool_decide; simpl; [|done]). intros Hadv. split; [done|].
  destruct (fence_Attempt b) as [y|] eqn:Hb; [|by destruct (fence_Attempt a)].
  pose proof (validateGitHubFence_attempt b y Hv Hb) as (Hy & _).
  destruct (fence_Attempt a) as [x|]; simpl; [|lia].
  case_bool_decide as Heq; simpl in Hadv.
  - right. split; [done|]. revert Hadv. do 2 (case_bool_decide; simpl; [|done]).
    destruct (githubJITFenceStateCanAdvance _ _) eqn:Hs; simpl; [|done]. intros _.
    by apply jit_advance_rank.
  - apply andb_true_iff in Hadv as [Hgt _]. rewrite Z.gtb_lt in Hgt. by left.
Qed.

(** *** Resolution *)

Lemma find_start_spec commands issued accepted :
  find_start commands issued = Ok accepted ->
  (accepted = true -> issued ∈ commands) /\
  (accepted = false -> forall c, c ∈ commands -> command_ID c <> command_ID issued).
Proof.
  revert accepted. induction commands as [|c commands IH]; intros accepted; simpl.
  { intros [= <-]. split; [done|]. intros _ c Hc. by apply not_elem_of_nil in Hc. }
  case_bool_decide as Hid; simpl.
  - case_bool_decide as Hc; simpl; [|done]. intros [= <-]. split; [|done]. intros _. subst. by left.
  - intros [H1 H2]%IH. split; [intros; right; by apply H1|].
    intros Ha c' [->|Hc']%elem_of_cons; [done|by apply H2].
Qed.

Lemma exactAgentStartAccepted_spec fence attempt issued nodeID commands accepted :
  exactAgentStartAccepted fence attempt issued nodeID commands = Ok accepted ->
  (accepted = true -> exists i, issued = Some i /\ issued_Command i ∈ commands /\
     issued_Type i = CommandStart /\ issued_NodeID i = nodeID /\
     command_ID (issued_Command i) = att_StartCommandID attempt) /\
  (accepted = false -> forall c, c ∈ commands -> command_ID c <> att_StartCommandID attempt).
Proof.
  unfold exactAgentStartAccepted. destruct issued as [i|].
  - do 6 (case_bool_decide; simpl; [|done]). destruct (Command_Validate _); [done|].
    intros [H1' H2']%find_start_spec. split; [|intros Ha c Hc Heq; apply (H2' Ha c Hc); congruence].
    intros Ha. exists i. split_and!; auto.
  - destruct (existsb _ commands) eqn:E; [done|]. intros [= <-]. split; [done|].
    intros _ c Hc Hid. apply not_true_iff_false in E. apply E, existsb_exists.
    exists c. split; [by apply list_elem_of_In|]. by apply bool_decide_eq_true_2.
Qed.

(** What a resolution that touches the provider rests on. *)
Definition provider_evidence (fence : GitHubFence) (observation : GitHubReconciliationObservation)
    (runner : option GitHubRunnerIdentity) : Prop :=
  gobs_Stale observation = false /\ gobs_ObservedAt observation <> 0 /\
  gobs_RunnerObserved observation = true /\
  exists attempt, fence_Attempt fence = Some attempt /\
    gobs_ScaleSetID observation = fence_ScaleSetID fence /\
    gobs_ClaimKey observation = fence_ClaimKey fence /\
    gobs_RunnerName observation = att_RunnerName attempt /\
    gobs_Runner observation = runner /\
    forall r, runner = Some r -> rid_ScaleSetID r = fence_ScaleSetID fence /\
      rid_Name r = att_RunnerName attempt /\ 0 < rid_ID r /\
      (0 < att_RunnerID attempt -> rid_ID r = att_RunnerID attempt).

Lemma resolve_observation_spec fence res0 observation res :
  validateGitHubFence fence = None -> resolve_observation fence res0 observation = Ok res ->
  res = res0 \/
  (res = with_kind res0 AmbiguityMarkRunnerAbsent None /\ provider_evidence fence observation None) \/
  exists r, res = with_kind res0 AmbiguityRemoveRunner (Some r) /\
            provider_evidence fence observation (Some r).
Proof.
  intros Hv. unfold resolve_observation, IsZero, provider_evidence.
  destruct (gobs_Stale observation); simpl; [intros [= <-]; by left|].
  case_bool_decide; [intros [= <-]; by left|]. case_bool_decide; [intros [= <-]; by left|].
  destruct (gobs_RunnerObserved observation); simpl; [|intros [= <-]; by left].
  destruct (fence_Attempt fence) as [attempt|] eqn:Ha; [|done].
  pose proof (validateGitHubFence_attempt fence attempt Hv Ha) as (_ & Hss & _).
  do 3 (case_bool_decide; simpl; [|done]).
  destruct (gobs_Runner observation) as [r|].
  2:{ intros [= <-]. right. left. split; [done|]. split_and!; try done. exists attempt. by split_and!. }
  case_bool_decide; simpl; [done|]. destruct (Z.leb_spec (rid_ID r) 0); simpl; [done|].
  case_bool_decide; simpl; [done|]. do 2 (case_bool_decide; simpl; [|done]).
  destruct ((att_RunnerID attempt >? 0) && (rid_ID r != att_RunnerID attempt)) eqn:E; [done|].
  intros [= <-]. right. right. exists r. split; [done|]. split_and!; try done.
  exists attempt. split_and!; try done. intros r' [= <-]. split_and!; [congruence|done|lia|].
  intros Hpos. rewrite (proj2 (Z.gtb_lt _ _) Hpos) in E. simpl in E.
  by apply negb_false_iff, bool_decide_eq_true_1 in E.
Qed.

(** ** Properties *)

(** Fence tokens only move forward.  A valid token that may replace another
    one is for the same claim and has a strictly higher rank, so no chain of
    replacements ever returns to a token it has left. *)
Theorem fence_advance_acyclic (fences : list GitHubFence) a b :
  Forall (fun f => validateGitHubFence f = None) (fences ++ [b]) ->
  (forall i x y, (a :: fences ++ [b]) !! i = Some x -> (a :: fences ++ [b]) !! S i = Some y ->
     githubFenceCanAdvance x y = true) ->
  same_claim a b /\ rank_lt (fence_attempt_rank a) (fence_attempt_rank b) /\ a <> b.
Proof.
  intros Hv Hstep.
  enough (same_claim a b /\ rank_lt (fence_attempt_rank a) (fence_attempt_rank b)) as [? Hr].
  { split_and!; try done. intros ->. by apply rank_lt_irrefl in Hr. }
  revert a Hstep. induction fences as [|f fences IH]; intros a Hstep; simpl in *.
  - apply Forall_cons in Hv as [Hv _]. apply fence_advance_rank; [done|]. by apply (Hstep 0%nat).
  - apply Forall_cons in Hv as [Hvf Hv].
    destruct (fence_advance_rank a f Hvf) as [(? & ? & ?) Hr1]; [by apply (Hstep 0%nat)|].
    destruct (IH Hv f) as [(? & ? & ?) Hr2].
    { intros i x y Hx Hy. by apply (Hstep (S i)). }
    split; [|by eapply rank_lt_trans]. unfold same_claim. split_and!; congruence.
Qed.

(** A snapshot accepted by [Validate] names every command it lists. *)
Lemma snapshot_command_named snapshot c :
  AgentSnapshot_Validate snapshot = None -> c ∈ snap_Commands snapshot -> command_ID c <> "".
Proof.
  intros Hv Hc. pose proof (sv_commands _ (AgentSnapshot_Validate_valid _ Hv)) as H.
  rewrite Forall_forall in H. destruct (H c Hc) as [Hcv _]. intros Hid.
  unfold Command_Validate, required in Hcv. by rewrite Hid in Hcv.
Qed.

(** An accepted fence whose attempt is past the acceptance by the Agent is one that
    needs reconciliation. *)
Lemma started_fence_claim fence attempt :
  validateGitHubFence fence = None -> fence_Attempt fence = Some attempt ->
  att_State attempt = GitHubJITAgentAccepted \/ att_State attempt = GitHubJITStarted ->
  fence_ClaimState fence = GitHubClaimReconciliationRequired.
Proof.
  unfold validateGitHubFence. intros Hv Ha Hst. revert Hv. rewrite Ha.
  destruct (_ || _); [done|]. case_bool_decide; [done|]. destruct (bool_decide _); [|done].
  destruct (_ || _); [done|]. destruct (_ || _); [done|].
  destruct (githubFenceStatesMatch _ _) eqn:Hm; [|done]. intros _. revert Hm.
  unfold githubFenceStatesMatch.
  destruct (decide (fence_ClaimState fence = GitHubClaimReconciliationRequired)) as [|Hne]; [done|].
  rewrite (bool_decide_eq_false_2 _ Hne).
  destruct Hst as [-> | ->]; by do 5 (destruct (bool_decide (fence_ClaimState fence = _)); [done|]).
Qed.

(** C32 Resolving a fence never destroys a runner whose start was accepted under a
    known command.  A resolution that removes the runner or marks it absent rests
    on a fresh provider read of exactly this attempt, names exactly this attempt's
    runner, and is never given when the Agent's journal contains the attempt's
    start command; it is given for an attempt recorded as accepted or started only
    when that record names no start command at all, which a fence may only do in
    [reconciliation_required].  An accepted or started attempt that names its
    command always waits for the Agent; confirming acceptance requires the exact
    start command in the journal; and nothing may be retried before the resolution
    is persisted. *)
Theorem resolve_fence_safe fence issued agent observation res :
  ResolveGitHubFence fence issued agent observation = Ok res ->
  res_ExecutionID res = fence_ExecutionID fence /\ res_PersistBeforeRetry res = true /\
  (res_Kind res = AmbiguityRemoveRunner \/ res_Kind res = AmbiguityMarkRunnerAbsent ->
   provider_evidence fence observation (res_Runner res) /\
   (res_Kind res = AmbiguityRemoveRunner -> is_Some (res_Runner res)) /\
   forall attempt, fence_Attempt fence = Some attempt ->
     (forall c, c ∈ snap_Commands agent -> command_ID c <> att_StartCommandID attempt) /\
     (att_State attempt = GitHubJITAgentAccepted \/ att_State attempt = GitHubJITStarted ->
      att_StartCommandID attempt = "" /\
      fence_ClaimState fence = GitHubClaimReconciliationRequired)) /\
  (forall attempt, fence_Attempt fence = Some attempt -> att_StartCommandID attempt <> "" ->
   att_State attempt = GitHubJITAgentAccepted \/ att_State attempt = GitHubJITStarted ->
   res_Kind res = AmbiguityAwaitAgentObservation) /\
  (res_Kind res = AmbiguityConfirmAgentAccepted ->
   exists attempt i, fence_Attempt fence = Some attempt /\ issued = Some i /\
     issued_Type i = CommandStart /\ command_ID (issued_Command i) = att_StartCommandID attempt /\
     issued_Command i ∈ snap_Commands agent).
Proof.
  unfold ResolveGitHubFence. destruct (validateGitHubFence fence) eqn:Hv; [done|].
  destruct (AgentSnapshot_Validate agent) eqn:Hagent; [done|].
  assert (Hobs : forall res0, res_ExecutionID res0 = fence_ExecutionID fence ->
    res_PersistBeforeRetry res0 = true -> res_Kind res0 = AmbiguityHold ->
    resolve_observation fence res0 observation = Ok res ->
    res_ExecutionID res = fence_ExecutionID fence /\ res_PersistBeforeRetry res = true /\
    res_Kind res <> AmbiguityConfirmAgentAccepted /\
    (res_Kind res = AmbiguityRemoveRunner \/ res_Kind res = AmbiguityMarkRunnerAbsent ->
     provider_evidence fence observation (res_Runner res) /\
     (res_Kind res = AmbiguityRemoveRunner -> is_Some (res_Runner res)))).
  { intros res0 He Hp Hk Hr. apply resolve_observation_spec in Hr as [->|[[-> Hev]|(r & -> & Hev)]]; [| | |done].
    - rewrite Hk. split_and!; try done. by intros [?|?].
    - by split_and!.
    - by split_and!. }
  destruct (fence_Attempt fence) as [attempt|] eqn:Ha.
  - case_bool_decide as Hsid; simpl.
    + destruct issued; [done|]. intros (H1 & H2 & H3 & H4)%Hobs; try done.
      split_and!; try done; [|by intros ? [= <-] ?]. intros Hk. destruct (H4 Hk) as [? ?].
      split_and!; try done. intros attempt' [= <-]. rewrite Hsid. split.
      * intros c. by apply snapshot_command_named.
      * intros Hst. split; [done|]. by eapply started_fence_claim.
    + destruct (exactAgentStartAccepted _ _ _ _ _) as [accepted|] eqn:Hacc; [|done].
      apply exactAgentStartAccepted_spec in Hacc as [Hyes Hno].
      case_bool_decide as Hs1; simpl; [intros [= <-]; split_and!; try done; by intros [?|?]|].
      case_bool_decide as Hs2; simpl; [intros [= <-]; split_and!; try done; by intros [?|?]|].
      assert (Hwait : forall attempt', Some attempt = Some attempt' ->
        att_StartCommandID attempt' <> "" ->
        att_State attempt' = GitHubJITAgentAccepted \/ att_State attempt' = GitHubJITStarted ->
        res_Kind res = AmbiguityAwaitAgentObservation) by (by intros ? [= <-] _ [?|?]).
      destruct (_ && accepted); [done|]. destruct accepted.
      * intros [= <-]. split_and!; try done; [by intros [?|?]|]. intros _.
        destruct (Hyes eq_refl) as (i & ? & ? & ? & ? & ?). by exists attempt, i.
      * intros (H1 & H2 & H3 & H4)%Hobs; try done. split_and!; try done.
        intros Hk. destruct (H4 Hk) as [? ?]. split_and!; try done.
        intros attempt' [= <-]. split; [by apply Hno|by intros [?|?]].
  - destruct issued; [done|]. intros (H1 & H2 & H3 & H4)%Hobs; try done.
    split_and!; try done. intros Hk. destruct (H4 Hk) as [? ?]. by split_and!.
Qed.

(** ** The hypotheses can hold *)

Definition example_attempt (state : string) : GitHubJITAttempt :=
  mkAttempt 7 9 1 1 "runner-1" state 5 "" "start-1".
Definition example_fence (claim state : string) : GitHubFence :=
  mkFence "e1" 7 9 claim (Some (example_attempt state)).

Lemma fence_advance_acyclic_witness :
  let a := example_fence GitHubClaimJITGenerated GitHubJITGenerated in
  let b := example_fence GitHubClaimReconciliationRequired GitHubJITRemovalPending in
  rank_lt (fence_attempt_rank a) (fence_attempt_rank b).
Proof.
  refine (proj1 (proj2 (fence_advance_acyclic [] _ _ _ _))).
  - constructor; [by vm_compute|constructor].
  - intros [|[|i]] x y; simpl; intros Hx Hy; simplify_eq; by vm_compute.
Defined.

Lemma resolve_fence_safe_witness :
  let fence := example_fence GitHubClaimStartAmbiguous GitHubJITStartAmbiguous in
  let agent := mkAgentSnapshot "n1" OSLinux ArchAMD64 "" true "" None None 1 [] [] [] in
  let runner := mkRunnerIdentity 7 5 "runner-1" in
  let observation := mkGitHubObservation 100 false 7 9 false "unknown" true "runner-1" (Some runner) in
  provider_evidence fence observation (Some runner).
Proof.
  intros fence agent runner observation.
  refine (proj1 (proj1 (proj2 (proj2 (resolve_fence_safe fence None agent observation
            (mkResolution AmbiguityRemoveRunner "e1" "start-1" (Some runner) true) _))) _)).
  - vm_compute. reflexivity.
  - by left.
Defined.

(** ** Where the code differs from its description

    A fence that records the runner as started without naming a start command
    passes [validateGitHubFence], and a provider read that finds the runner makes
    [ResolveGitHubFence] ask for its removal: the states that wait for the Agent are
    looked at only under a start command.  The store's own reader of fences refuses
    such a row ([RestartStore.restart_attempt_names_start]), the type does not. *)
Definition started_without_command : GitHubFence :=
  mkFence "e1" 7 9 GitHubClaimReconciliationRequired
    (Some (mkAttempt 7 9 1 1 "runner-1" GitHubJITStarted 5 "" "")).
Lemma started_runner_removed :
  let agent := mkAgentSnapshot "n1" OSLinux ArchAMD64 "" true "" None None 1 [] [] [] in
  let runner := mkRunnerIdentity 7 5 "runner-1" in
  validateGitHubFence started_without_command = None /\
  ResolveGitHubFence started_without_command None agent
    (mkGitHubObservation 100 false 7 9 false "unknown" true "runner-1" (Some runner)) =
  Ok (mkResolution AmbiguityRemoveRunner "e1" "" (Some runner) true).
Proof. vm_compute. split; reflexivity. Qed.
