(* ===== verification/GitHubState.v ===== *)
(** * Last-known provider state (internal/reconcile/github_state.go)

    [LastKnown] keeps the last complete observation of GitHub together with its
    staleness.  The value's type [T], its zero value and the [clone] function are
    parameters, as they are of the Go type; the mutex makes each method one
    atomic step.  A [nil] receiver and a missing [clone], which the constructor
    and every method refuse, are not represented. *)

From S2P Require Import Prelude GoStd Domain RunnerUpdate.

(** ** Failures *)

(* src: internal/reconcile/github_state.go:12-12 GitHubFailureServer *)
Definition GitHubFailureServer := "server".
(* src: internal/reconcile/github_state.go:13-13 GitHubFailureTimeout *)
Definition GitHubFailureTimeout := "timeout".
(* src: internal/reconcile/github_state.go:14-14 GitHubFailureTransport *)
Definition GitHubFailureTransport := "transport".
(* src: internal/reconcile/github_state.go:15-15 GitHubFailurePermission *)
Definition GitHubFailurePermission := "permission".
(* src: internal/reconcile/github_state.go:16-16 GitHubFailureUnknown *)
Definition GitHubFailureUnknown := "unknown".

(* src: internal/reconcile/github_state.go:22-25 GitHubFailure *)
Record GitHubFailure := mkFailure { failure_Kind : string; failure_StatusCode : Z }.
#[export] Instance GitHubFailure_eq_dec : EqDecision GitHubFailure.
Proof. solve_decision. Defined.

Definition invalid_failure (field message : string) : error :=
  Some (reconcile_invalid "invalid_github_failure" field message).

(* src: internal/reconcile/github_state.go:27-49 GitHubFailure.Validate *)
Definition GitHubFailure_Validate (f : GitHubFailure) : error :=
  if failure_Kind f == GitHubFailureServer then
    if (failure_StatusCode f <? 500) || (failure_StatusCode f >? 599) then
      invalid_failure "github_failure.status_code" "server failures require a 5xx status"
    else None
  else if (failure_Kind f == GitHubFailureTimeout) || (failure_Kind f == GitHubFailureTransport) then
    if failure_StatusCode f != 0 then
      invalid_failure "github_failure.status_code" "non-HTTP failures must not carry a status"
    else None
  else if failure_Kind f == GitHubFailurePermission then
    if (failure_StatusCode f != 401) && (failure_StatusCode f != 403) then
      invalid_failure "github_failure.status_code" "permission failures require a 401 or 403 status"
    else None
  else if failure_Kind f == GitHubFailureUnknown then
    if failure_StatusCode f != 0 then
      invalid_failure "github_failure.status_code"
        "unknown failures must not carry an unverified HTTP status"
    else None
  else invalid_failure "github_failure.kind" "is not a safe GitHub failure classification".

(** ** The retained state *)

(* src: internal/reconcile/github_state.go:51-59 GitHubState *)
Record GitHubState (T : Type) := mkGitHubState {
  gh_Value : T;
  gh_HasValue : bool;
  gh_ObservedAt : Z;
  gh_Stale : bool;
  gh_StaleSince : Z;
  gh_FailureAt : Z;
  gh_Failure : GitHubFailure;
}.
Arguments mkGitHubState {T}.
Arguments gh_Value {T}.
Arguments gh_HasValue {T}.
Arguments gh_ObservedAt {T}.
Arguments gh_Stale {T}.
Arguments gh_StaleSince {T}.
Arguments gh_FailureAt {T}.
Arguments gh_Failure {T}.

(* src: internal/reconcile/github_state.go:63-65 GitHubState.AllowsNewDesired *)
Definition AllowsNewDesired {T} (s : GitHubState T) : bool := gh_HasValue s && negb (gh_Stale s).

Section last_known.
  Context {T : Type} (zero : T) (clone : T -> T).
  Implicit Types s : GitHubState T.

Definition zero_GitHubState : GitHubState T :=
  mkGitHubState zero false 0 false 0 0 (mkFailure "" 0).

(** [clone] is mandatory: without it there is no state. *)
(* src: internal/reconcile/github_state.go:87-92 NewLastKnown *)
Definition NewLastKnown : GitHubState T := zero_GitHubState.

(* src: internal/reconcile/github_state.go:94-115 LastKnown.RecordSuccess *)
Definition RecordSuccess s (value : T) (observedAt : Z) : GitHubState T * error :=
  if IsZero observedAt then
    (s, Some (reconcile_invalid "invalid_github_observation_time" "github_state.observed_at"
                "must not be zero"))
  else if gh_HasValue s && Before observedAt (gh_ObservedAt s) then
    (s, Some (reconcile_invalid "github_observation_regressed" "github_state.observed_at"
                "must not precede the retained observation"))
  else if gh_Stale s && Before observedAt (gh_FailureAt s) then
    (s, Some (reconcile_invalid "github_observation_precedes_failure" "github_state.observed_at"
                "cannot clear a later retained failure"))
  else
    (mkGitHubState (clone value) true observedAt false 0 0 (mkFailure "" 0), None).

(* src: internal/reconcile/github_state.go:117-145 LastKnown.RecordFailure *)
Definition RecordFailure s (failure : GitHubFailure) (failedAt : Z) : GitHubState T * error :=
  match GitHubFailure_Validate failure with
  | Some err => (s, Some err)
  | None =>
  if IsZero failedAt then
    (s, Some (reconcile_invalid "invalid_github_failure_time" "github_state.failed_at"
                "must not be zero"))
  else if gh_HasValue s && Before failedAt (gh_ObservedAt s) then
    (s, Some (reconcile_invalid "github_failure_precedes_observation" "github_state.failed_at"
                "must not precede the retained observation"))
  else if gh_Stale s && Before failedAt (gh_FailureAt s) then
    (s, Some (reconcile_invalid "github_failure_regressed" "github_state.failed_at"
                "must not precede the retained failure"))
  else
    let staleSince :=
      if negb (gh_Stale s) then failedAt
      else if Before failedAt (gh_StaleSince s) then failedAt else gh_StaleSince s in
    let '(failureAt, retained) :=
      if negb (gh_Stale s) || negb (Before failedAt (gh_FailureAt s)) then (failedAt, failure)
      else (gh_FailureAt s, gh_Failure s) in
    (mkGitHubState (gh_Value s) (gh_HasValue s) (gh_ObservedAt s) true staleSince failureAt
       retained, None)
  end.

(** [observed] is what the observer returned, [classify] the classifier. *)
(* src: internal/reconcile/github_state.go:152-173 LastKnown.Refresh *)
Definition Refresh s (observed : result T) (classify : GoError -> option GitHubFailure)
    (observedAt : Z) : GitHubState T * error :=
  match observed with
  | Ok value => RecordSuccess s value observedAt
  | Err err =>
      let failure := default (mkFailure GitHubFailureUnknown 0) (classify err) in
      let '(s', markErr) := RecordFailure s failure observedAt in
      match markErr with
      | Some markErr => (s', Some markErr)
      | None => (s', Some err)
      end
  end.

(* src: internal/reconcile/github_state.go:175-186 LastKnown.Snapshot *)
Definition LastKnown_Snapshot s : GitHubState T :=
  if gh_HasValue s then
    mkGitHubState (clone (gh_Value s)) (gh_HasValue s) (gh_ObservedAt s) (gh_Stale s)
      (gh_StaleSince s) (gh_FailureAt s) (gh_Failure s)
  else s.

(** A sequence of refreshes. *)
Inductive refresh_call := mkRefresh (observed : result T) (classify : GoError -> option GitHubFailure)
    (observedAt : Z).
Definition refresh_apply s (call : refresh_call) : GitHubState T :=
  let 'mkRefresh observed classify observedAt := call in (Refresh s observed classify observedAt).1.
Definition refresh_run s (calls : list refresh_call) : GitHubState T := foldl refresh_apply s calls.

(** ** Invariant *)

(** The retained times are consistent: staleness lies between the observation
    and the last failure. *)
Record state_ok s : Prop := {
  sk_fresh : gh_Stale s = false -> gh_FailureAt s = 0 /\ gh_StaleSince s = 0 /\ gh_Failure s = mkFailure "" 0;
  sk_value : gh_HasValue s = true -> gh_ObservedAt s <> 0;
  sk_stale : gh_Stale s = true -> gh_StaleSince s <= gh_FailureAt s /\
    GitHubFailure_Validate (gh_Failure s) = None /\
    (gh_HasValue s = true -> gh_ObservedAt s <= gh_StaleSince s);
}.

Lemma NewLastKnown_ok : state_ok NewLastKnown.
Proof. by split. Qed.

Lemma RecordSuccess_ok s value t : state_ok s -> state_ok (RecordSuccess s value t).1.
Proof.
  intros Hs. unfold RecordSuccess, IsZero. case_bool_decide; simpl; [done|].
  destruct (_ && _); simpl; [done|]. destruct (_ && _); simpl; [done|]. by split.
Qed.

Lemma RecordFailure_cases s failure t : state_ok s ->
  let '(s', err) := RecordFailure s failure t in
  state_ok s' /\
  match err with
  | Some _ => s' = s
  | None => gh_Stale s' = true /\ gh_FailureAt s' = t /\ gh_Failure s' = failure /\
      gh_Value s' = gh_Value s /\ gh_HasValue s' = gh_HasValue s /\
      gh_ObservedAt s' = gh_ObservedAt s /\ t <> 0
  end.
Proof.
  intros Hs. unfold RecordFailure, IsZero, Before.
  destruct (GitHubFailure_Validate failure) eqn:Hv; [done|]. case_bool_decide; [done|].
  destruct (gh_HasValue s && (t <? gh_ObservedAt s)) eqn:E1; [done|].
  destruct (gh_Stale s && (t <? gh_FailureAt s)) eqn:E2; [done|].
  destruct Hs as [H1 H2 H3]. destruct (gh_Stale s) eqn:Hst; simpl in *.
  - rewrite E2. simpl. apply Z.ltb_ge in E2. destruct (H3 eq_refl) as (H4 & H5 & H6).
    split; [split; simpl; [done|done|]|done]. intros _. split_and!; [|done|].
    + destruct (Z.ltb_spec t (gh_StaleSince s)); lia.
    + intros Hv'. specialize (H6 Hv'). rewrite Hv' in E1. simpl in E1. apply Z.ltb_ge in E1.
      destruct (Z.ltb_spec t (gh_StaleSince s)); lia.
  - split; [split; simpl; [done|done|]|done]. intros _. split_and!; [lia|done|].
    intros Hv'. rewrite Hv' in E1. simpl in E1. by apply Z.ltb_ge in E1.
Qed.

Lemma refresh_apply_ok s call : state_ok s -> state_ok (refresh_apply s call).
Proof.
  intros Hs. destruct call as [[value|err] classify t]; simpl; [by apply RecordSuccess_ok|].
  pose proof (RecordFailure_cases s (default (mkFailure GitHubFailureUnknown 0) (classify err)) t Hs) as H.
  destruct (RecordFailure _ _ _) as [s' [?|]]; by destruct H.
Qed.

Lemma refresh_run_ok s calls : state_ok s -> state_ok (refresh_run s calls).
Proof.
  revert s. induction calls as [|c calls IH]; intros s Hs; simpl; [done|].
  apply IH. by apply refresh_apply_ok.
Qed.
End last_known.
Arguments mkRefresh {T}.

(** ** Properties *)

(** A refresh that cannot count as newer evidence than [t]: it carries no time or
    an earlier one, or a failure that has no safe classification. *)
Definition no_newer_evidence {T} (t : Z) (call : refresh_call) : Prop :=
  let 'mkRefresh observed classify at_ := call in
  at_ = 0 \/ at_ < t \/
  exists err, (observed : result T) = Err err /\
    GitHubFailure_Validate (default (mkFailure GitHubFailureUnknown 0) (classify err)) <> None.

Section evidence.
Context {T : Type} (zero : T) (clone : T -> T).

Lemma admission_step (s : GitHubState T) call :
  AllowsNewDesired (refresh_apply clone s call) = true ->
  (exists value classify t, call = mkRefresh (Ok value) classify t /\
     refresh_apply clone s call = mkGitHubState (clone value) true t false 0 0 (mkFailure "" 0)) \/
  (refresh_apply clone s call = s /\ no_newer_evidence (gh_ObservedAt s) call).
Proof.
  unfold AllowsNewDesired. destruct call as [[value|err] classify t]; simpl.
  - unfold RecordSuccess, IsZero, Before. case_bool_decide as H0; [by right; split; [|left]|].
    destruct (gh_HasValue s && (t <? gh_ObservedAt s)) eqn:E1; simpl.
    { intros _. right. split; [done|]. right; left. apply andb_true_iff in E1 as [_ E1]. by apply Z.ltb_lt. }
    destruct (gh_Stale s && (t <? gh_FailureAt s)) eqn:E2; simpl.
    { intros Ha. apply andb_true_iff in E2 as [Hst _]. by rewrite Hst, andb_false_r in Ha. }
    intros _. left. by exists value, classify, t.
  - unfold RecordFailure, IsZero, Before.
    destruct (GitHubFailure_Validate _) eqn:Hv.
    { simpl. intros _. right. split; [done|]. right; right. exists err. split; [done|congruence]. }
    case_bool_decide as H0; [simpl; by right; split; [|left]|].
    destruct (gh_HasValue s && (t <? gh_ObservedAt s)) eqn:E1; simpl.
    { intros _. right. split; [done|]. right; left. apply andb_true_iff in E1 as [_ E1]. by apply Z.ltb_lt. }
    destruct (gh_Stale s && (t <? gh_FailureAt s)) eqn:E2; simpl.
    { intros Ha. apply andb_true_iff in E2 as [Hst _]. by rewrite Hst, andb_false_r in Ha. }
    destruct (gh_Stale s); simpl in *; [rewrite E2|]; simpl; by rewrite andb_false_r.
Qed.
End evidence.

(** Provider state fails closed.  If it admits new work after any sequence of
    refreshes, then some refresh succeeded, the retained value and time are
    exactly that refresh's, and no later refresh was a success or a classified
    failure at that time or after it: a failure is never forgotten, and evidence
    never goes back in time. *)
Theorem provider_state_latest_evidence (T : Type) (zero : T) (clone : T -> T) calls :
  AllowsNewDesired (refresh_run clone (NewLastKnown zero) calls) = true ->
  exists pre value classify t post,
    calls = pre ++ mkRefresh (Ok value) classify t :: post /\
    gh_Value (refresh_run clone (NewLastKnown zero) calls) = clone value /\
    gh_ObservedAt (refresh_run clone (NewLastKnown zero) calls) = t /\
    Forall (no_newer_evidence t) post.
Proof.
  induction calls as [|call calls IH] using rev_ind; [done|].
  unfold refresh_run. rewrite foldl_app. simpl. fold (refresh_run clone (NewLastKnown zero) calls).
  intros Ha. destruct (admission_step _ _ _ Ha) as [(value & classify & t & -> & ->)|[Heq Hno]].
  - exists calls, value, classify, t, []. by split_and!.
  - rewrite Heq in *. destruct (IH Ha) as (pre & value & classify & t & post & -> & Hv & Ht & Hf).
    exists pre, value, classify, t, (post ++ [call]). rewrite <- app_assoc. split_and!; try done.
    apply Forall_app. split; [done|]. constructor; [|constructor]. by rewrite Ht in Hno.
Qed.

Lemma provider_state_latest_evidence_witness :
  let calls := [mkRefresh (Ok 5) (fun _ => None) 10; mkRefresh (Err (PlainError "late")) (fun _ => None) 9] in
  AllowsNewDesired (refresh_run (fun v => v) (NewLastKnown 0) calls) = true /\
  exists pre value classify t post,
    calls = pre ++ mkRefresh (Ok value) classify t :: post /\
    gh_Value (refresh_run (fun v => v) (NewLastKnown 0) calls) = value.
Proof.
  intros calls. assert (H : AllowsNewDesired (refresh_run (fun v => v) (NewLastKnown 0) calls) = true)
    by (vm_compute; reflexivity). split; [exact H|].
  destruct (provider_state_latest_evidence Z 0 (fun v => v) calls H)
    as (pre & value & classify & t & post & H1 & H2 & _).
  by exists pre, value, classify, t, post.
Defined.
