(* ===== verification/Projection.v ===== *)
(** * The Controller's projection: data and restoration (internal/reconcile/controller.go)

    The [Controller] joins three authorities in memory: desired executions,
    Agent observations and provider fences.  This file models its state and how a
    process rebuilds it from the durable snapshot; Reconcile.v models the methods
    that change it afterwards.

    [applyMu] and [mu] make every method one atomic step.  The clock [now] is an
    argument of the methods that read it.  The [change] channel is a counter: a
    channel obtained at one value is closed once the counter has moved on.
    Slices and maps are cloned at every boundary, so they are values here. *)

From S2P Require Import Prelude GoStd Domain Execution Replay SlotLedger Scheduler Transport.
From S2P Require Import RunnerUpdate Fence.

(** ** Node phases, reasons and actions

    The source calls the phases [NodeOffline], [NodeReady], ..., names the domain
    package also uses for its own states. *)

(* src: internal/reconcile/controller.go:69-69 NodeOffline *)
Definition PhaseOffline := "offline".
(* src: internal/reconcile/controller.go:70-70 NodeReconciling *)
Definition PhaseReconciling := "reconciling".
(* src: internal/reconcile/controller.go:71-71 NodeReady *)
Definition PhaseReady := "ready".
(* src: internal/reconcile/controller.go:72-72 NodeDraining *)
Definition PhaseDraining := "draining".
(* src: internal/reconcile/controller.go:73-73 NodeQuarantined *)
Definition PhaseQuarantined := "quarantined".
(* src: internal/reconcile/controller.go:74-74 NodeRevoked *)
Definition PhaseRevoked := "revoked".
(* src: internal/reconcile/controller.go:75-75 NodeDegraded *)
Definition PhaseDegraded := "degraded".

(* src: internal/reconcile/controller.go:81-81 ReasonNone *)
Definition ReasonNone := "".
(* src: internal/reconcile/controller.go:82-82 ReasonAgentOffline *)
Definition ReasonAgentOffline := "agent_offline".
(* src: internal/reconcile/controller.go:83-83 ReasonSnapshotMismatch *)
Definition ReasonSnapshotMismatch := "snapshot_mismatch".
(* src: internal/reconcile/controller.go:84-84 ReasonNativeRunnerUnavailable *)
Definition ReasonNativeRunnerUnavailable := "native_runner_unavailable".
(* src: internal/reconcile/controller.go:85-85 ReasonRunnerUpdateUnavailable *)
Definition ReasonRunnerUpdateUnavailable := "runner_update_unavailable".
(* src: internal/reconcile/controller.go:86-86 ReasonAdministrativeDrain *)
Definition ReasonAdministrativeDrain := "administrative_drain".
(* src: internal/reconcile/controller.go:87-87 ReasonCleanupUncertain *)
Definition ReasonCleanupUncertain := "cleanup_uncertain".
(* src: internal/reconcile/controller.go:88-88 ReasonCredentialRevoked *)
Definition ReasonCredentialRevoked := "credential_revoked".

(* src: internal/reconcile/controller.go:101-101 ActionReplayCommand *)
Definition ActionReplayCommand := "replay_command".
(* src: internal/reconcile/controller.go:102-102 ActionIssuePrepare *)
Definition ActionIssuePrepare := "issue_prepare".
(* src: internal/reconcile/controller.go:103-103 ActionAdoptObservation *)
Definition ActionAdoptObservation := "adopt_observation".
(* src: internal/reconcile/controller.go:104-104 ActionInspectAndDestroy *)
Definition ActionInspectAndDestroy := "inspect_and_destroy".
(* src: internal/reconcile/controller.go:105-105 ActionPersistQuarantine *)
Definition ActionPersistQuarantine := "persist_quarantine".
(* src: internal/reconcile/controller.go:106-106 ActionObserveGitHubClaim *)
Definition ActionObserveGitHubClaim := "observe_github_claim".
(* src: internal/reconcile/controller.go:107-107 ActionObserveGitHubRunner *)
Definition ActionObserveGitHubRunner := "observe_github_runner".
(* src: internal/reconcile/controller.go:108-108 ActionConfirmAgentStartAccepted *)
Definition ActionConfirmAgentStartAccepted := "confirm_agent_start_accepted".
(* src: internal/reconcile/controller.go:109-109 ActionAwaitAgentObservation *)
Definition ActionAwaitAgentObservation := "await_agent_observation".
(* src: internal/reconcile/controller.go:110-110 ActionFailDesired *)
Definition ActionFailDesired := "fail_desired".

(** ** Data *)

(* src: internal/reconcile/controller.go:25-32 NodeDefinition *)
Record NodeDefinition := mkNodeDefinition {
  def_Node : Node;
  def_PlatformUnknown : bool;
  def_AvailableMemoryBytes : Z;
  def_CachedRunnerPackages : list string;
  def_RunnerVersionPolicy : string;
  def_RunnerUpdate : RunnerUpdateStatus;
}.

(* src: internal/reconcile/controller.go:36-40 NodeConfiguration *)
Record NodeConfiguration := mkNodeConfiguration {
  conf_NodeID : NodeID;
  conf_DisplayName : string;
  conf_MaxRunners : Z;
}.

(* src: internal/reconcile/controller.go:59-64 Config *)
Record Config := mkConfig {
  config_Nodes : list NodeDefinition;
  config_Commands : list IssuedCommand;
  config_GitHubFences : list GitHubFence;
}.

(* src: internal/reconcile/controller.go:91-96 NodeStatus *)
Record NodeStatus := mkNodeStatus {
  status_NodeID : NodeID;
  status_Phase : string;
  status_Reason : string;
  status_RunnerUpdate : RunnerUpdateStatus;
}.
#[export] Instance NodeStatus_eq_dec : EqDecision NodeStatus.
Proof. solve_decision. Defined.

(* src: internal/reconcile/controller.go:116-126 Action *)
Record Action := mkAction {
  action_Kind : string;
  action_NodeID : NodeID;
  action_ExecutionID : ExecutionID;
  action_CommandID : CommandID;
  action_ControllerEpoch : ControllerEpoch;
  action_ExpectedState : string;
  action_ObservedState : string;
  action_ObservedAtNano : Z;
  action_SnapshotDigest : string;
}.
#[export] Instance Action_eq_dec : EqDecision Action.
Proof. solve_decision. Defined.

(* src: internal/reconcile/controller.go:128-133 NodeResult *)
Record NodeResult := mkNodeResult {
  result_Scheduler : NodeSnapshot;
  result_Status : NodeStatus;
  result_Actions : list Action;
  result_SuppressedReservations : list RestoredReservation;
}.

(* src: internal/reconcile/controller.go:135-142 FleetSnapshot *)
Record FleetSnapshot := mkFleetSnapshot {
  fleet_Epoch : ControllerEpoch;
  fleet_Nodes : list NodeSnapshot;
  fleet_Reservations : list RestoredReservation;
  fleet_SuppressedReservations : list RestoredReservation;
  fleet_Statuses : list NodeStatus;
  fleet_Actions : list Action;
}.

(* src: internal/reconcile/controller.go:149-157 NodeAdmission *)
Record NodeAdmission := mkNodeAdmission {
  adm_Node : NodeSnapshot;
  adm_Status : NodeStatus;
  adm_Actions : list Action;
  adm_AllowsNewCapacity : bool;
  adm_AllowsRecovery : bool;
  adm_RecheckAt : Z;
  adm_Change : Z;
}.

(* src: internal/reconcile/controller.go:159-167 nodeRuntime *)
Record nodeRuntime := mkNodeRuntime {
  rt_scheduler : NodeSnapshot;
  rt_status : NodeStatus;
  rt_runnerPolicy : string;
  rt_platformKnown : bool;
  rt_actions : list Action;
  rt_snapshot : AgentSnapshot;
  rt_seen : bool;
}.

(* src: internal/reconcile/controller.go:173-192 Controller *)
Record Controller := mkController {
  ctl_epoch : ControllerEpoch;
  ctl_nodes : gmap string nodeRuntime;
  ctl_executions : gmap string ExecutionSnapshot;
  ctl_executionIDs : list ExecutionID;
  ctl_reservations : gmap string RestoredReservation;
  ctl_commands : gmap string IssuedCommand;
  ctl_commandByExecution : gmap string (list IssuedCommand);
  ctl_fences : gmap string GitHubFence;
  ctl_clearedFences : gmap string GitHubFence;
  ctl_change : Z;
  ctl_managementProjectionHealthy : bool;
}.

(** *** Field updates *)

Definition set_nodes (c : Controller) nodes : Controller :=
  mkController (ctl_epoch c) nodes (ctl_executions c) (ctl_executionIDs c) (ctl_reservations c)
    (ctl_commands c) (ctl_commandByExecution c) (ctl_fences c) (ctl_clearedFences c)
    (ctl_change c) (ctl_managementProjectionHealthy c).
Definition set_executions (c : Controller) executions ids : Controller :=
  mkController (ctl_epoch c) (ctl_nodes c) executions ids (ctl_reservations c)
    (ctl_commands c) (ctl_commandByExecution c) (ctl_fences c) (ctl_clearedFences c)
    (ctl_change c) (ctl_managementProjectionHealthy c).
Definition set_reservations (c : Controller) reservations : Controller :=
  mkController (ctl_epoch c) (ctl_nodes c) (ctl_executions c) (ctl_executionIDs c) reservations
    (ctl_commands c) (ctl_commandByExecution c) (ctl_fences c) (ctl_clearedFences c)
    (ctl_change c) (ctl_managementProjectionHealthy c).
Definition set_commands (c : Controller) commands byExecution : Controller :=
  mkController (ctl_epoch c) (ctl_nodes c) (ctl_executions c) (ctl_executionIDs c)
    (ctl_reservations c) commands byExecution (ctl_fences c) (ctl_clearedFences c)
    (ctl_change c) (ctl_managementProjectionHealthy c).
Definition set_fences (c : Controller) fences cleared : Controller :=
  mkController (ctl_epoch c) (ctl_nodes c) (ctl_executions c) (ctl_executionIDs c)
    (ctl_reservations c) (ctl_commands c) (ctl_commandByExecution c) fences cleared
    (ctl_change c) (ctl_managementProjectionHealthy c).

(* src: internal/reconcile/controller.go:729-732 Controller.signalChangeLocked *)
Definition signalChangeLocked (c : Controller) : Controller :=
  mkController (ctl_epoch c) (ctl_nodes c) (ctl_executions c) (ctl_executionIDs c)
    (ctl_reservations c) (ctl_commands c) (ctl_commandByExecution c) (ctl_fences c)
    (ctl_clearedFences c) (ctl_change c + 1) (ctl_managementProjectionHealthy c).

Definition set_node (c : Controller) (nodeID : NodeID) (node : nodeRuntime) : Controller :=
  set_nodes c (<[nodeID := node]> (ctl_nodes c)).

Definition node_with_admin (n : Node) (state : string) : Node :=
  mkNode (node_ID n) (node_DisplayName n) (node_CertificateSerial n) (node_CredentialEpoch n)
    (node_OS n) (node_Architecture n) (node_MaxRunners n) state (node_ObservedState n).
Definition node_with_observed (n : Node) (state : string) : Node :=
  mkNode (node_ID n) (node_DisplayName n) (node_CertificateSerial n) (node_CredentialEpoch n)
    (node_OS n) (node_Architecture n) (node_MaxRunners n) (node_AdministrativeState n) state.
Definition node_with_platform (n : Node) (os arch : string) : Node :=
  mkNode (node_ID n) (node_DisplayName n) (node_CertificateSerial n) (node_CredentialEpoch n)
    os arch (node_MaxRunners n) (node_AdministrativeState n) (node_ObservedState n).
Definition node_with_limits (n : Node) (displayName : string) (maxRunners : Z) : Node :=
  mkNode (node_ID n) displayName (node_CertificateSerial n) (node_CredentialEpoch n)
    (node_OS n) (node_Architecture n) maxRunners (node_AdministrativeState n) (node_ObservedState n).

(** [snapshot] with another node and other readiness flags. *)
Definition snapshot_with (s : NodeSnapshot) (node : Node) (reconciled ready : bool) : NodeSnapshot :=
  mkNodeSnapshot node reconciled ready (ns_AvailableMemoryBytes s) (ns_ActiveExecutions s)
    (ns_CachedRunnerPackages s) (ns_ExcludedTargets s).

Definition status_with (s : NodeStatus) (phase reason : string) : NodeStatus :=
  mkNodeStatus (status_NodeID s) phase reason (status_RunnerUpdate s).

Definition zero_AgentSnapshot : AgentSnapshot :=
  mkAgentSnapshot "" "" "" "" false "" None None 0 [] [] [].

(** ** The durable snapshot *)

(* src: internal/store/controller.go:40-43 NodeAdministration *)
Record NodeAdministration := mkNodeAdministration {
  admin_NodeID : NodeID;
  admin_State : string;
}.
(* src: internal/store/controller.go:27-30 SlotReservation *)
Record SlotReservation := mkSlotReservation {
  resv_Slot : SlotKey;
  resv_Owner : SlotOwner;
}.
(** [ProcessedMessages] is not read by the projection. *)
(* src: internal/store/controller.go:45-51 ControllerSnapshot *)
Record ControllerSnapshot := mkControllerSnapshot {
  cs_ControllerEpoch : ControllerEpoch;
  cs_Nodes : list NodeAdministration;
  cs_Reservations : list SlotReservation;
  cs_Executions : list ExecutionSnapshot;
}.
(** The fields the projection reads. *)
(* src: internal/store/controller.go:58-72 RestartNodeTopology *)
Record RestartNodeTopology := mkTopology {
  topo_NodeID : NodeID;
  topo_DisplayName : string;
  topo_CertificateSerial : string;
  topo_CredentialEpoch : Z;
  topo_AdministrativeState : string;
  topo_MaxRunners : Z;
  topo_PlatformObserved : bool;
  topo_OS : string;
  topo_Architecture : string;
}.

(* src: internal/store/controller_github.go:137-137 GitHubClaimFromJobAvailable *)
Definition GitHubClaimFromJobAvailable := "job_available".
(* src: internal/store/controller_github.go:142-142 GitHubClaimFromAssignedDemand *)
Definition GitHubClaimFromAssignedDemand := "assigned_demand".
(* src: internal/store/controller_github.go:152-161 GitHubJobClaim *)
Record GitHubJobClaim := mkGitHubJobClaim {
  claim_ScaleSetID : Z;
  claim_ClaimKey : Z;
  claim_Origin : string;
  claim_RunnerRequestID : Z;
  claim_SourceMessageID : Z;
  claim_Execution : ExecutionSnapshot;
  claim_State : string;
  claim_CurrentAttempt : Z;
}.
(* src: internal/store/controller.go:77-80 GitHubReconciliationFence *)
Record GitHubReconciliationFence := mkPersistedFence {
  pfence_Claim : GitHubJobClaim;
  pfence_Attempt : option GitHubJITAttempt;
}.
(* src: internal/store/controller.go:85-91 ControllerRestartSnapshot *)
Record ControllerRestartSnapshot := mkRestartSnapshot {
  rs_Controller : ControllerSnapshot;
  rs_FleetMaxRunners : option Z;
  rs_NodeTopology : list RestartNodeTopology;
  rs_IssuedCommands : list IssuedCommand;
  rs_GitHubFences : list GitHubReconciliationFence;
}.

(** ** Restoration

    [Restore] builds a controller that it drops on the first error, so its parts
    are functions from the durable snapshot to a [result]. *)

(* src: internal/reconcile/controller.go:2329-2336 terminalExecution *)
Definition terminalExecution (state : string) : bool :=
  bool_decide (state ∈ [ExecutionReleased; ExecutionFailed; ExecutionQuarantined]).

(* src: internal/reconcile/controller.go:413-443 validateNodeDefinition *)
Definition validateNodeDefinition (definition : NodeDefinition) : error :=
  let node := def_Node definition in
  try (if def_PlatformUnknown definition then
         if (TrimSpace (node_ID node) == "") || (TrimSpace (node_DisplayName node) == "") ||
            (node_MaxRunners node <? 1) || (node_OS node != "") || (node_Architecture node != "")
         then Some (reconcile_invalid "invalid_unknown_node_topology" "nodes"
                "unknown platform definitions require node identity, display name, slots, and no inferred platform")
         else
         try NodeAdministrativeState_Validate (node_AdministrativeState node)
               "node.administrative_state" ;;
         NodeObservedState_Validate (node_ObservedState node) "node.observed_state"
       else Node_Validate node) ;;
  try RunnerUpdateStatus_Validate (def_RunnerUpdate definition) ;;
  if negb (MatchesPolicy (def_RunnerUpdate definition) (def_RunnerVersionPolicy definition)) then
    Some (reconcile_invalid "runner_update_policy_mismatch" "nodes.runner_update"
            "does not match the configured runner version policy")
  else if existsb (fun packageID => (TrimSpace packageID != packageID) || (packageID == ""))
            (def_CachedRunnerPackages definition) then
    Some (reconcile_invalid "invalid_cached_runner_package" "nodes.cached_runner_packages"
            "must contain non-empty canonical identifiers")
  else None.

(* src: internal/reconcile/controller.go:445-467 runtimeForNodeDefinition *)
Definition runtimeForNodeDefinition (definition : NodeDefinition) (administrativeState : string)
    : nodeRuntime :=
  let node := node_with_observed (node_with_admin (def_Node definition) administrativeState)
                NodeOffline in
  mkNodeRuntime
    (mkNodeSnapshot node false false (def_AvailableMemoryBytes definition) []
       (def_CachedRunnerPackages definition) [])
    (mkNodeStatus (node_ID node) PhaseOffline ReasonAgentOffline (def_RunnerUpdate definition))
    (def_RunnerVersionPolicy definition) (negb (def_PlatformUnknown definition)) []
    zero_AgentSnapshot false.

(** The loop over the durable administration. *)
(* src: internal/reconcile/controller.go:377-389 Controller.restoreNodes *)
Fixpoint index_administration (administration : list NodeAdministration)
    (adminByNode : gmap string string) : result (gmap string string) :=
  match administration with
  | [] => Ok adminByNode
  | node :: rest =>
      if TrimSpace (admin_NodeID node) == "" then
        Err (reconcile_invalid "invalid_node_authority" "controller_snapshot.nodes"
               "contains an empty node ID")
      else
      tryr NodeAdministrativeState_Validate (admin_State node) "controller_snapshot.node.state" ;;
      if adminByNode !! admin_NodeID node != None then
        Err (reconcile_invalid "duplicate_node_authority" "controller_snapshot.nodes"
               "contains a duplicate node ID")
      else index_administration rest (<[admin_NodeID node := admin_State node]> adminByNode)
  end.

(** The loop over the definitions. *)
(* src: internal/reconcile/controller.go:390-406 Controller.restoreNodes *)
Fixpoint restore_definitions (definitions : list NodeDefinition) (adminByNode : gmap string string)
    (nodes : gmap string nodeRuntime) : result (gmap string string * gmap string nodeRuntime) :=
  match definitions with
  | [] => Ok (adminByNode, nodes)
  | definition :: rest =>
      tryr validateNodeDefinition definition ;;
      let nodeID := node_ID (def_Node definition) in
      match adminByNode !! nodeID with
      | None => Err (reconcile_invalid "node_definition_not_enrolled" "nodes"
                       "contains a node absent from durable Controller authority")
      | Some administrativeState =>
          if nodes !! nodeID != None then
            Err (reconcile_invalid "duplicate_node_definition" "nodes"
                   "contains a duplicate node ID")
          else restore_definitions rest (delete nodeID adminByNode)
                 (<[nodeID := runtimeForNodeDefinition definition administrativeState]> nodes)
      end
  end.

(* src: internal/reconcile/controller.go:373-411 Controller.restoreNodes *)
Definition restoreNodes (administration : list NodeAdministration)
    (definitions : list NodeDefinition) : result (gmap string nodeRuntime) :=
  let! adminByNode := index_administration administration ∅ ;;
  let! (adminByNode, nodes) := restore_definitions definitions adminByNode ∅ ;;
  if adminByNode != ∅ then
    Err (reconcile_invalid "missing_node_definition" "nodes"
           "does not describe every enrolled Controller node")
  else Ok nodes.

(** The loop over the reservations. *)
(* src: internal/reconcile/controller.go:473-498 Controller.restoreDesired *)
Fixpoint restore_reservations (nodes : gmap string nodeRuntime)
    (reservations : list SlotReservation) (slotOwners : gset SlotKey)
    (restored : gmap string RestoredReservation) : result (gmap string RestoredReservation) :=
  match reservations with
  | [] => Ok restored
  | reservation :: rest =>
      let slot := resv_Slot reservation in
      let owner := resv_Owner reservation in
      if (slot_NodeID slot == "") || (slot_Index slot <? 0) || (owner_ExecutionID owner == "") then
        Err (reconcile_invalid "invalid_slot_reservation" "controller_snapshot.reservations"
               "contains an incomplete reservation")
      else
      tryr SlotOwner_Validate owner ;;
      if match nodes !! slot_NodeID slot with
         | None => true
         | Some node => slot_Index slot >=? node_MaxRunners (ns_Node (rt_scheduler node))
         end then
        Err (reconcile_invalid "reservation_slot_not_configured" "controller_snapshot.reservations"
               "references a slot outside configured node topology")
      else if bool_decide (slot ∈ slotOwners) then
        Err (reconcile_invalid "duplicate_slot_reservation" "controller_snapshot.reservations"
               "contains duplicate concrete slot ownership")
      else if restored !! owner_ExecutionID owner != None then
        Err (reconcile_invalid "duplicate_execution_reservation" "controller_snapshot.reservations"
               "contains duplicate execution ownership")
      else restore_reservations nodes rest ({[slot]} ∪ slotOwners)
             (<[owner_ExecutionID owner :=
                 mkRestoredReservation (owner_TargetID owner) slot (owner_ExecutionID owner)]>
               restored)
  end.

(** The loop over the executions. *)
(* src: internal/reconcile/controller.go:499-522 Controller.restoreDesired *)
Fixpoint restore_executions (nodes : gmap string nodeRuntime)
    (reservations : gmap string RestoredReservation) (executions : list ExecutionSnapshot)
    (restored : gmap string ExecutionSnapshot) (executionIDs : list ExecutionID)
    : result (gmap string ExecutionSnapshot * list ExecutionID) :=
  match executions with
  | [] => Ok (restored, executionIDs)
  | execution :: rest =>
      tryr ExecutionSnapshot_Validate execution ;;
      if nodes !! slot_NodeID (exec_Slot execution) == None then
        Err (reconcile_invalid "execution_node_not_configured" "controller_snapshot.executions"
               "references an unknown node")
      else if restored !! exec_ID execution != None then
        Err (reconcile_invalid "duplicate_execution" "controller_snapshot.executions"
               "contains a duplicate execution ID")
      else
        let restored := <[exec_ID execution := execution]> restored in
        let executionIDs := executionIDs ++ [exec_ID execution] in
        if terminalExecution (exec_State execution) then
          if reservations !! exec_ID execution != None then
            Err (reconcile_invalid "terminal_execution_reserved" "controller_snapshot.reservations"
                   "terminal executions must not retain slot ownership")
          else restore_executions nodes reservations rest restored executionIDs
        else if match reservations !! exec_ID execution with
                | None => true
                | Some reservation =>
                    (restored_TargetID reservation != exec_TargetID execution) ||
                    (restored_Slot reservation != exec_Slot execution)
                end then
          Err (reconcile_invalid "execution_reservation_mismatch" "controller_snapshot.reservations"
                 "every non-terminal execution requires one exact reservation")
        else restore_executions nodes reservations rest restored executionIDs
  end.

(* src: internal/reconcile/controller.go:469-532 Controller.restoreDesired *)
Definition restoreDesired (nodes : gmap string nodeRuntime) (executions : list ExecutionSnapshot)
    (reservations : list SlotReservation)
    : result (gmap string ExecutionSnapshot * list ExecutionID * gmap string RestoredReservation) :=
  let! reserved := restore_reservations nodes reservations ∅ ∅ ;;
  let! (restored, executionIDs) := restore_executions nodes reserved executions ∅ [] ;;
  if existsb (fun '(executionID, _) => restored !! executionID == None) (map_to_list reserved) then
    Err (reconcile_invalid "reservation_execution_missing" "controller_snapshot.reservations"
           "references an execution absent from desired state")
  else Ok (restored, sort_slice string_less executionIDs, reserved).

(* src: internal/reconcile/controller.go:658-671 commandTypeMatchesExpectedState *)
Definition commandTypeMatchesExpectedState (commandType state : string) : bool :=
  if commandType == CommandPrepare then state == ExecutionReserved
  else if commandType == CommandStart then state == ExecutionPreparing
  else if commandType == CommandCancel then
    (state == ExecutionPreparing) || (state == ExecutionRunning) || (state == ExecutionCleaning)
  else false.

(** The order of [commandByExecution]: newest epoch first. *)
(* src: internal/reconcile/controller.go:563-570 Controller.restoreCommands *)
Definition command_less (l r : IssuedCommand) : bool :=
  if command_ControllerEpoch (issued_Command l) != command_ControllerEpoch (issued_Command r) then
    command_ControllerEpoch (issued_Command l) >? command_ControllerEpoch (issued_Command r)
  else string_less (command_ID (issued_Command l)) (command_ID (issued_Command r)).

(** [commandByExecution[id]], a nil slice when absent. *)
Definition commands_of (byExecution : gmap string (list IssuedCommand)) (executionID : ExecutionID)
    : list IssuedCommand := default [] (byExecution !! executionID).

(** The loop over the commands. *)
(* src: internal/reconcile/controller.go:535-561 Controller.restoreCommands *)
Fixpoint restore_command_loop (epoch : ControllerEpoch) (executions : gmap string ExecutionSnapshot)
    (issued : list IssuedCommand) (commands : gmap string IssuedCommand)
    (byExecution : gmap string (list IssuedCommand))
    : result (gmap string IssuedCommand * gmap string (list IssuedCommand)) :=
  match issued with
  | [] => Ok (commands, byExecution)
  | issued :: rest =>
      let command := issued_Command issued in
      if issued_NodeID issued == "" then
        Err (reconcile_invalid "invalid_issued_command" "commands.node_id" "must not be empty")
      else
      tryr CommandType_Validate (issued_Type issued) "commands.type" ;;
      tryr Command_Validate command ;;
      if command_ControllerEpoch command >? epoch then
        Err (reconcile_invalid "future_command_epoch" "commands.controller_epoch"
               "cannot exceed the active Controller epoch")
      else if match executions !! command_ExecutionID command with
              | None => true
              | Some execution => slot_NodeID (exec_Slot execution) != issued_NodeID issued
              end then
        Err (reconcile_invalid "command_execution_mismatch" "commands.execution_id"
               "does not reference an execution owned by the command node")
      else if negb (commandTypeMatchesExpectedState (issued_Type issued)
                      (command_ExpectedState command)) then
        Err (reconcile_invalid "command_expected_state_mismatch" "commands.expected_state"
               "does not match the command type")
      else if commands !! command_ID command != None then
        Err (reconcile_invalid "duplicate_command" "commands.command_id" "must be globally unique")
      else restore_command_loop epoch executions rest (<[command_ID command := issued]> commands)
             (<[command_ExecutionID command :=
                 commands_of byExecution (command_ExecutionID command) ++ [issued]]> byExecution)
  end.

(* src: internal/reconcile/controller.go:534-573 Controller.restoreCommands *)
Definition restoreCommands (epoch : ControllerEpoch) (executions : gmap string ExecutionSnapshot)
    (issued : list IssuedCommand)
    : result (gmap string IssuedCommand * gmap string (list IssuedCommand)) :=
  let! (commands, byExecution) := restore_command_loop epoch executions issued ∅ ∅ ;;
  Ok (commands, sort_slice command_less <$> byExecution).

(* src: internal/reconcile/controller.go:575-591 Controller.restoreFences *)
Fixpoint restoreFences (executions : gmap string ExecutionSnapshot) (fences : list GitHubFence)
    (restored : gmap string GitHubFence) : result (gmap string GitHubFence) :=
  match fences with
  | [] => Ok restored
  | fence :: rest =>
      if executions !! fence_ExecutionID fence == None then
        Err (reconcile_invalid "github_fence_execution_mismatch" "github_fences.execution_id"
               "must reference durable desired execution")
      else if restored !! fence_ExecutionID fence != None then
        Err (reconcile_invalid "duplicate_github_fence" "github_fences.execution_id"
               "must occur at most once")
      else
      tryr validateGitHubFence fence ;;
      restoreFences executions rest (<[fence_ExecutionID fence := fence]> restored)
  end.

(* src: internal/reconcile/controller.go:217-257 Restore *)
Definition Restore (epoch : ControllerEpoch) (snapshot : ControllerSnapshot) (config : Config)
    : result Controller :=
  tryr ControllerEpoch_Validate epoch ;;
  if cs_ControllerEpoch snapshot != epoch then
    Err (reconcile_invalid "controller_epoch_mismatch" "controller_snapshot.controller_epoch"
           "does not match the supplied process epoch")
  else
  let! nodes := restoreNodes (cs_Nodes snapshot) (config_Nodes config) ;;
  let! (executions, executionIDs, reservations) :=
    restoreDesired nodes (cs_Executions snapshot) (cs_Reservations snapshot) ;;
  let! (commands, byExecution) := restoreCommands epoch executions (config_Commands config) ;;
  let! fences := restoreFences executions (config_GitHubFences config) ∅ ;;
  Ok (mkController epoch nodes executions executionIDs reservations commands byExecution fences ∅
        0 true).

(** The durable startup boundary: what the store promises to the projection. *)
(* src: internal/reconcile/controller.go:20-23 ControllerAuthority *)
Class ControllerAuthority (A : Type) := {
  AdvanceEpoch : A -> A * result ControllerEpoch;
  authority_Snapshot : A -> result ControllerSnapshot;
}.

(* src: internal/reconcile/controller.go:196-212 Start *)
Definition Start {A} `{ControllerAuthority A} (authority : option A) (config : Config)
    : option A * result Controller :=
  match authority with
  | None => (None, Err (reconcile_invalid "controller_authority_required" "authority"
                          "must not be nil"))
  | Some authority =>
      let '(authority, epoch) := AdvanceEpoch authority in
      (Some authority,
       let! epoch := epoch ;;
       let! snapshot := authority_Snapshot authority ;;
       if cs_ControllerEpoch snapshot != epoch then
         Err (reconcile_invalid "controller_epoch_mismatch" "controller_snapshot.controller_epoch"
                "does not match the committed startup epoch")
       else Restore epoch snapshot config)
  end.

(* src: internal/reconcile/controller.go:301-328 restartNodeDefinition *)
Definition restartNodeDefinition (topology : RestartNodeTopology) : result NodeDefinition :=
  if (topo_NodeID topology == "") || (topo_DisplayName topology == "") ||
     (topo_CertificateSerial topology == "") || (topo_CredentialEpoch topology == 0) ||
     (topo_MaxRunners topology <? 1) then
    Err (reconcile_invalid "invalid_restart_node_topology" "restart_snapshot.node_topology"
           "contains incomplete node authority")
  else
    let observed := topo_PlatformObserved topology in
    Ok (mkNodeDefinition
          (mkNode (topo_NodeID topology) (topo_DisplayName topology)
             (topo_CertificateSerial topology) (topo_CredentialEpoch topology)
             (if observed then topo_OS topology else "")
             (if observed then topo_Architecture topology else "")
             (topo_MaxRunners topology) (topo_AdministrativeState topology) NodeOffline)
          (negb observed) 0 [] RunnerVersionAutoUpdate ManagedRunnerUpdate).

(* src: internal/reconcile/controller.go:268-275 RestoreRestart *)
Fixpoint restart_definitions (topologies : list RestartNodeTopology)
    : result (list NodeDefinition) :=
  match topologies with
  | [] => Ok []
  | topology :: rest =>
      let! definition := restartNodeDefinition topology ;;
      let! definitions := restart_definitions rest ;;
      Ok (definition :: definitions)
  end.

(* src: internal/reconcile/controller.go:263-299 RestoreRestart *)
Definition RestoreRestart (snapshot : ControllerRestartSnapshot) : result Controller :=
  let! definitions := restart_definitions (rs_NodeTopology snapshot) ;;
  Restore (cs_ControllerEpoch (rs_Controller snapshot)) (rs_Controller snapshot)
    (mkConfig definitions (rs_IssuedCommands snapshot)
       (map (fun persisted =>
               mkFence (exec_ID (claim_Execution (pfence_Claim persisted)))
                 (claim_ScaleSetID (pfence_Claim persisted))
                 (claim_ClaimKey (pfence_Claim persisted)) (claim_State (pfence_Claim persisted))
                 (pfence_Attempt persisted))
          (rs_GitHubFences snapshot))).

(** ** Operator entry points that do not reconcile *)

(* src: internal/reconcile/controller.go:333-371 Controller.EnsureRestartNode *)
Definition EnsureRestartNode (c : Controller) (topology : RestartNodeTopology)
    : Controller * error :=
  match restartNodeDefinition topology with
  | Err err => (c, Some err)
  | Ok definition =>
      match validateNodeDefinition definition with
      | Some err => (c, Some err)
      | None =>
          match ctl_nodes c !! topo_NodeID topology with
          | Some current =>
              let node := ns_Node (rt_scheduler current) in
              if (node_CertificateSerial node != topo_CertificateSerial topology) ||
                 (node_DisplayName node != topo_DisplayName topology) ||
                 (node_CredentialEpoch node != topo_CredentialEpoch topology) ||
                 (node_MaxRunners node != topo_MaxRunners topology) ||
                 (node_AdministrativeState node != topo_AdministrativeState topology) ||
                 (rt_platformKnown current &&
                  (negb (topo_PlatformObserved topology) ||
                   (node_OS node != topo_OS topology) ||
                   (node_Architecture node != topo_Architecture topology))) then
                (c, Some (reconcile_invalid "restart_node_authority_mismatch"
                            "restart_snapshot.node_topology" "changed existing node authority"))
              else (c, None)
          | None =>
              (signalChangeLocked
                 (set_node c (topo_NodeID topology)
                    (runtimeForNodeDefinition definition (topo_AdministrativeState topology))),
               None)
          end
      end
  end.

(* src: internal/reconcile/controller.go:673-680 Controller.Epoch *)
Definition Epoch (c : option Controller) : ControllerEpoch :=
  match c with None => 0 | Some c => ctl_epoch c end.

(* src: internal/reconcile/controller.go:701-708 Controller.ManagementProjectionHealthy *)
Definition ManagementProjectionHealthy (c : option Controller) : bool :=
  match c with None => false | Some c => ctl_managementProjectionHealthy c end.

(* src: internal/reconcile/controller.go:714-727 Controller.MarkManagementProjectionUnavailable *)
Definition MarkManagementProjectionUnavailable (c : Controller) : Controller :=
  if negb (ctl_managementProjectionHealthy c) then c
  else
    signalChangeLocked
      (mkController (ctl_epoch c) (ctl_nodes c) (ctl_executions c) (ctl_executionIDs c)
         (ctl_reservations c) (ctl_commands c) (ctl_commandByExecution c) (ctl_fences c)
         (ctl_clearedFences c) (ctl_change c) false).
