(* ===== verification/Reconcile.v ===== *)
(** * Reconciliation (internal/reconcile/controller.go): the methods

    Each method of the [Controller] as a function from the projection to the
    projection and what the method returns; a nil receiver is not modelled.  A
    method that fails after it has changed the projection returns the changed
    one.  [now] is what the controller's clock returns during the call.

    [marshal] and [sha256] stand for Go's JSON encoder and SHA-256 (Transport.v).
    ReconcileFacts.v proves the invariant and the properties. *)

From S2P Require Import Prelude GoStd Domain Execution Replay SlotLedger Scheduler Transport.
From S2P Require Import RunnerUpdate Fence Projection.

(** ** Helpers *)

(* src: internal/reconcile/controller.go:2317-2327 localRuntimeMayExist *)
Definition localRuntimeMayExist (state : string) : bool :=
  bool_decide (state ∈ [ExecutionPreparing; ExecutionRunning; ExecutionCleaning;
                        ExecutionCleanupFailed]).

(* src: internal/reconcile/controller.go:2304-2315 activeObservationIDs *)
Definition activeObservationIDs (observations : list AgentExecutionObservation)
    : list ExecutionID :=
  sort_slice string_less
    (map obs_ExecutionID (filter (fun o => Is_true (localRuntimeMayExist (obs_State o)))
                            observations)).

(* src: internal/reconcile/controller.go:2271-2278 actionSuppressesExecution *)
Definition actionSuppressesExecution (actions : list Action) (executionID : ExecutionID) : bool :=
  existsb (fun action => action_ExecutionID action == executionID) actions.

(* src: internal/reconcile/controller.go:2280-2287 appendUniqueAction *)
Definition appendUniqueAction (actions : list Action) (action : Action) : list Action :=
  if existsb (fun existing => existing == action) actions then actions else actions ++ [action].

(** The comparison of [sortActions].  Actions that agree on the four keys keep
    their order here; Go leaves it open. *)
(* src: internal/reconcile/controller.go:2290-2301 sortActions *)
Definition action_less (l r : Action) : bool :=
  if action_NodeID l != action_NodeID r then string_less (action_NodeID l) (action_NodeID r)
  else if action_ExecutionID l != action_ExecutionID r then
    string_less (action_ExecutionID l) (action_ExecutionID r)
  else if action_Kind l != action_Kind r then string_less (action_Kind l) (action_Kind r)
  else string_less (action_CommandID l) (action_CommandID r).

(* src: internal/reconcile/controller.go:2289-2302 sortActions *)
Definition sortActions (actions : list Action) : list Action := sort_slice action_less actions.

(* src: internal/reconcile/controller.go:2259-2267 Controller.sortedReservationsLocked *)
Definition restored_less (l r : RestoredReservation) : bool :=
  if slot_NodeID (restored_Slot l) != slot_NodeID (restored_Slot r) then
    string_less (slot_NodeID (restored_Slot l)) (slot_NodeID (restored_Slot r))
  else if slot_Index (restored_Slot l) != slot_Index (restored_Slot r) then
    slot_Index (restored_Slot l) <? slot_Index (restored_Slot r)
  else string_less (restored_ExecutionID l) (restored_ExecutionID r).

(* src: internal/reconcile/controller.go:2254-2269 Controller.sortedReservationsLocked *)
Definition sortedReservationsLocked (c : Controller) : list RestoredReservation :=
  sort_slice restored_less (map snd (map_to_list (ctl_reservations c))).

(* src: internal/reconcile/controller.go:2242-2252 Controller.allReservationIDsForNode *)
Definition allReservationIDsForNode (c : Controller) (nodeID : NodeID) : gset string :=
  dom (filter (fun '(_, reservation) => slot_NodeID (restored_Slot reservation) = nodeID)
         (ctl_reservations c)).

(* src: internal/reconcile/controller.go:2226-2240 effectiveNode *)
Definition effectiveNode (node : nodeRuntime) (now : Z) : NodeSnapshot * NodeStatus :=
  let schedulerNode := rt_scheduler node in
  let status := rt_status node in
  if (node_ObservedState (ns_Node schedulerNode) != NodeOffline) &&
     negb (AllowsAdmissionAt (status_RunnerUpdate status) now) then
    (snapshot_with schedulerNode (node_with_observed (ns_Node schedulerNode) NodeStale) false false,
     if (status_Phase status != PhaseQuarantined) && (status_Phase status != PhaseRevoked) then
       status_with status PhaseDegraded ReasonRunnerUpdateUnavailable
     else status)
  else (schedulerNode, status).

(** [controller.fences[executionID].ExecutionID != ""]. *)
(* src: internal/reconcile/controller.go:1381-1381 Controller.FleetSnapshot *)
Definition has_fence (c : Controller) (executionID : ExecutionID) : bool :=
  match ctl_fences c !! executionID with
  | Some fence => fence_ExecutionID fence != ""
  | None => false
  end.

(** The condition under which a reservation of a node stays suppressed, shared by
    [nodeResultLocked] and [FleetSnapshot]. *)
(* src: internal/reconcile/controller.go:1379-1382 Controller.FleetSnapshot *)
Definition reservation_suppressed (c : Controller) (schedulerNode : NodeSnapshot)
    (actions : list Action) (reservation : RestoredReservation) : bool :=
  negb (ns_Reconciled schedulerNode) || negb (ns_NativeReady schedulerNode) ||
  (node_AdministrativeState (ns_Node schedulerNode) != NodeActive) ||
  has_fence c (restored_ExecutionID reservation) ||
  actionSuppressesExecution actions (restored_ExecutionID reservation).

(** A missing node reads as Go's zero value. *)
Definition zero_nodeRuntime : nodeRuntime :=
  mkNodeRuntime (mkNodeSnapshot (mkNode "" "" "" 0 "" "" 0 "" "") false false 0 [] [] [])
    (mkNodeStatus "" "" "" (mkUpdateStatus "" "" "" 0 0 0 0)) "" false [] zero_AgentSnapshot false.
Definition node_at (c : Controller) (nodeID : NodeID) : nodeRuntime :=
  default zero_nodeRuntime (ctl_nodes c !! nodeID).
Definition zero_ExecutionSnapshot : ExecutionSnapshot :=
  mkExecutionSnapshot "" "" (mkSlotKey "" 0) "".
Definition execution_at (c : Controller) (executionID : ExecutionID) : ExecutionSnapshot :=
  default zero_ExecutionSnapshot (ctl_executions c !! executionID).

(* src: internal/reconcile/controller.go:2197-2224 Controller.nodeResultLocked *)
Definition nodeResultLocked (c : Controller) (nodeID : NodeID) (explicitSuppression : gset string)
    (now : Z) : NodeResult :=
  let node := node_at c nodeID in
  let '(schedulerNode, status) := effectiveNode node now in
  mkNodeResult schedulerNode status (rt_actions node)
    (filter (fun reservation => Is_true
               ((slot_NodeID (restored_Slot reservation) == nodeID) &&
                (bool_decide (restored_ExecutionID reservation ∈ explicitSuppression) ||
                 reservation_suppressed c schedulerNode (rt_actions node) reservation)))
       (sortedReservationsLocked c)).

(** ** What to do about one execution *)

Definition mk_action (kind : string) (nodeID : NodeID) (executionID : ExecutionID)
    (expected observed : string) (observedAt : Z) : Action :=
  mkAction kind nodeID executionID "" 0 expected observed observedAt "".

(* src: internal/reconcile/controller.go:1040-1085 Controller.recoveryAction *)
Definition recoveryAction (c : Controller) (nodeID : NodeID) (execution : ExecutionSnapshot)
    : Action * bool :=
  let replayable issued :=
    (issued_Type issued == CommandPrepare) &&
    negb ((command_ExpectedState (issued_Command issued) != exec_State execution) &&
          negb ((issued_Type issued == CommandPrepare) &&
                (exec_State execution == ExecutionPreparing) &&
                (command_ExpectedState (issued_Command issued) == ExecutionReserved))) in
  match List.find replayable (commands_of (ctl_commandByExecution c) (exec_ID execution)) with
  | Some issued =>
      (mkAction ActionReplayCommand nodeID (exec_ID execution)
         (command_ID (issued_Command issued)) (command_ControllerEpoch (issued_Command issued))
         (exec_State execution) "" 0 "", true)
  | None =>
      if exec_State execution == ExecutionReserved then
        (mkAction ActionIssuePrepare nodeID (exec_ID execution) "" (ctl_epoch c)
           (exec_State execution) "" 0 "", true)
      else
        (mk_action ActionInspectAndDestroy nodeID (exec_ID execution) (exec_State execution) "" 0,
         false)
  end.

(** An action about a fence's attempt. *)
(* src: internal/reconcile/controller.go:1101-1111 githubFenceAction *)
Definition attempt_action (kind : string) (nodeID : NodeID) (fence : GitHubFence)
    (attempt : GitHubJITAttempt) : Action :=
  mkAction kind nodeID (fence_ExecutionID fence) (att_StartCommandID attempt)
    (att_ControllerEpoch attempt) "" "" 0 "".

(* src: internal/reconcile/controller.go:1087-1128 githubFenceAction *)
Definition githubFenceAction (nodeID : NodeID) (fence : GitHubFence)
    (reported : gmap string Command) : Action :=
  if fence_ClaimState fence == GitHubClaimAcquireAmbiguous then
    mk_action ActionObserveGitHubClaim nodeID (fence_ExecutionID fence) "" "" 0
  else
    match fence_Attempt fence with
    | None => mk_action ActionObserveGitHubRunner nodeID (fence_ExecutionID fence) "" "" 0
    | Some attempt =>
        if (att_State attempt == GitHubJITAgentAccepted) || (att_State attempt == GitHubJITStarted)
        then attempt_action ActionAwaitAgentObservation nodeID fence attempt
        else if att_State attempt == GitHubJITRemovalPending then
          attempt_action ActionObserveGitHubRunner nodeID fence attempt
        else if (att_StartCommandID attempt != "") &&
                (reported !! att_StartCommandID attempt != None) then
          attempt_action ActionConfirmAgentStartAccepted nodeID fence attempt
        else attempt_action ActionObserveGitHubRunner nodeID fence attempt
    end.

(** ** One pass over a snapshot

    The local variables [candidate.actions], [blocked], [quarantined] and
    [suppress] of [reconcileAgentSnapshotAt]. *)

(* src: internal/reconcile/controller.go:820-823 Controller.reconcileAgentSnapshotAt *)
Record pass := mkPass {
  pass_actions : list Action;
  pass_blocked : bool;
  pass_quarantined : bool;
  pass_suppress : gset string;
}.

Definition pass_start : pass := mkPass [] false false ∅.
Definition pass_act (p : pass) (action : Action) : pass :=
  mkPass (appendUniqueAction (pass_actions p) action) (pass_blocked p) (pass_quarantined p)
    (pass_suppress p).
Definition pass_block (p : pass) : pass :=
  mkPass (pass_actions p) true (pass_quarantined p) (pass_suppress p).
Definition pass_quarantine (p : pass) : pass :=
  mkPass (pass_actions p) (pass_blocked p) true (pass_suppress p).
Definition pass_hold (p : pass) (executionID : ExecutionID) : pass :=
  mkPass (pass_actions p) (pass_blocked p) (pass_quarantined p) ({[executionID]} ∪ pass_suppress p).

(* src: internal/reconcile/controller.go:824-833 Controller.reconcileAgentSnapshotAt *)
Definition scan_tombstone (nodeID : NodeID) (p : pass) (tombstone : AgentCleanupTombstone) : pass :=
  pass_act (pass_hold (pass_quarantine p) (tomb_ExecutionID tombstone))
    (mk_action ActionPersistQuarantine nodeID (tomb_ExecutionID tombstone) "" "" 0).

(* src: internal/reconcile/controller.go:835-849 Controller.reconcileAgentSnapshotAt *)
Definition scan_unknown (c : Controller) (nodeID : NodeID) (p : pass)
    (observation : AgentExecutionObservation) : pass :=
  if ctl_executions c !! obs_ExecutionID observation != None then p
  else if localRuntimeMayExist (obs_State observation) then
    pass_act (pass_block p)
      (mk_action ActionInspectAndDestroy nodeID (obs_ExecutionID observation) ""
         (obs_State observation) (obs_ObservedAtUnixNano observation))
  else p.

(** The recovery of an execution the Agent does not report as far as desired:
    [action, safeReplay := recoveryAction(...); append; blocked ||= !safeReplay]. *)
(* src: internal/reconcile/controller.go:933-936 Controller.reconcileAgentSnapshotAt *)
Definition recover (c : Controller) (nodeID : NodeID) (desired : ExecutionSnapshot) (p : pass)
    : pass :=
  let '(action, safeReplay) := recoveryAction c nodeID desired in
  let p := pass_act p action in
  if negb safeReplay then pass_block p else p.

(* src: internal/reconcile/controller.go:939-948 Controller.reconcileAgentSnapshotAt *)
Definition inspect (nodeID : NodeID) (executionID : ExecutionID) (desired : ExecutionSnapshot)
    (observation : AgentExecutionObservation) (p : pass) : pass :=
  pass_act (pass_block p)
    (mk_action ActionInspectAndDestroy nodeID executionID (exec_State desired)
       (obs_State observation) (obs_ObservedAtUnixNano observation)).

(** The branch [if observed] for a desired execution that is not terminal. *)
(* src: internal/reconcile/controller.go:885-951 Controller.reconcileAgentSnapshotAt *)
Definition scan_observed (c : Controller) (nodeID : NodeID) (executionID : ExecutionID)
    (desired : ExecutionSnapshot) (ambiguous : bool) (observation : AgentExecutionObservation)
    (p : pass) : pass :=
  let observed := obs_State observation in
  if (observed == ExecutionCleanupFailed) || (observed == ExecutionQuarantined) then
    pass_act (pass_hold (pass_quarantine p) executionID)
      (mk_action ActionPersistQuarantine nodeID executionID "" "" 0)
  else if observed == exec_State desired then
    if (exec_State desired == ExecutionPending) || (exec_State desired == ExecutionReserved) then
      inspect nodeID executionID desired observation (pass_hold p executionID)
    else p
  else if CanReachExecutionState (exec_State desired) observed then
    pass_act (pass_hold p executionID)
      (mk_action ActionAdoptObservation nodeID executionID (exec_State desired) observed
         (obs_ObservedAtUnixNano observation))
  else if CanReachExecutionState observed (exec_State desired) then
    let p := pass_hold p executionID in
    if ambiguous then pass_block p else recover c nodeID desired p
  else inspect nodeID executionID desired observation (pass_hold p executionID).

(** The rest of the loop body: no observation of a live desired execution. *)
(* src: internal/reconcile/controller.go:953-988 Controller.reconcileAgentSnapshotAt *)
Definition scan_absent (c : Controller) (nodeID : NodeID) (executionID : ExecutionID)
    (desired : ExecutionSnapshot) (ambiguous : bool) (p : pass) : pass :=
  let state := exec_State desired in
  let p := pass_hold p executionID in
  if ambiguous then p
  else if (state == ExecutionReserved) || (state == ExecutionPreparing) then recover c nodeID desired p
  else if state == ExecutionCleanupFailed then
    pass_act (pass_quarantine p) (mk_action ActionPersistQuarantine nodeID executionID "" "" 0)
  else if (state == ExecutionRunning) || (state == ExecutionCleaning) then
    pass_act (pass_block p) (mk_action ActionInspectAndDestroy nodeID executionID state "" 0)
  else pass_act (pass_block p) (mk_action ActionFailDesired nodeID executionID state "" 0).

(** One round of the loop over [controller.executionIDs]. *)
(* src: internal/reconcile/controller.go:851-989 Controller.reconcileAgentSnapshotAt *)
Definition scan_execution (c : Controller) (nodeID : NodeID)
    (observations : gmap string AgentExecutionObservation) (reported : gmap string Command)
    (tombstones : gset string) (p : pass) (executionID : ExecutionID) : pass :=
  let desired := execution_at c executionID in
  if slot_NodeID (exec_Slot desired) != nodeID then p
  else
    let observation := observations !! executionID in
    let fence := ctl_fences c !! executionID in
    if terminalExecution (exec_State desired) then
      let p := match fence with
               | Some fence => pass_act p (githubFenceAction nodeID fence reported)
               | None => p
               end in
      match observation with
      | Some observation =>
          if localRuntimeMayExist (obs_State observation) then
            inspect nodeID executionID desired observation p
          else p
      | None => p
      end
    else if bool_decide (executionID ∈ tombstones) then p
    else
      let p := match fence with
               | Some fence =>
                   pass_act (pass_hold p executionID) (githubFenceAction nodeID fence reported)
               | None => p
               end in
      let ambiguous := fence != None in
      match observation with
      | Some observation => scan_observed c nodeID executionID desired ambiguous observation p
      | None => scan_absent c nodeID executionID desired ambiguous p
      end.

(** The maps by identifier: a later entry of the same key replaces an earlier
    one. *)
(* src: internal/reconcile/controller.go:783-790 Controller.reconcileAgentSnapshotAt *)
Definition reported_commands (commands : list Command) : gmap string Command :=
  foldl (fun m command => <[command_ID command := command]> m) ∅ commands.
(* src: internal/reconcile/controller.go:816-819 Controller.reconcileAgentSnapshotAt *)
Definition observations_by_id (observations : list AgentExecutionObservation)
    : gmap string AgentExecutionObservation :=
  foldl (fun m observation => <[obs_ExecutionID observation := observation]> m) ∅ observations.

(** The three loops. *)
(* src: internal/reconcile/controller.go:820-851 Controller.reconcileAgentSnapshotAt *)
Definition scan (c : Controller) (snapshot : AgentSnapshot) : pass :=
  let nodeID := snap_NodeID snapshot in
  let reported := reported_commands (snap_Commands snapshot) in
  let observations := observations_by_id (snap_Observations snapshot) in
  let tombstones := list_to_set (map tomb_ExecutionID (snap_CleanupTombstones snapshot)) in
  let p := foldl (scan_tombstone nodeID) pass_start (snap_CleanupTombstones snapshot) in
  let p := foldl (scan_unknown c nodeID) p (snap_Observations snapshot) in
  foldl (scan_execution c nodeID observations reported tombstones) p (ctl_executionIDs c).

(** ** The state a pass leaves a node in *)

Record settled := mkSettled {
  settled_Node : Node;
  settled_Reconciled : bool;
  settled_NativeReady : bool;
  settled_Phase : string;
  settled_Reason : string;
}.

(* src: internal/reconcile/controller.go:991-1029 Controller.reconcileAgentSnapshotAt *)
Definition settle (node : Node) (update : RunnerUpdateStatus) (nativeReady : bool) (p : pass)
    (now : Z) : settled :=
  if pass_quarantined p then
    mkSettled (node_with_admin node NodeQuarantined) false false PhaseQuarantined
      ReasonCleanupUncertain
  else if node_AdministrativeState node == NodeRevoked then
    mkSettled node false false PhaseRevoked ReasonCredentialRevoked
  else if negb (AllowsAdmissionAt update now) then
    mkSettled (node_with_observed node NodeStale) false false PhaseDegraded
      ReasonRunnerUpdateUnavailable
  else if negb nativeReady then
    mkSettled (node_with_observed node NodeStale) false false PhaseDegraded
      ReasonNativeRunnerUnavailable
  else if pass_blocked p then
    mkSettled (node_with_observed node NodeReconciling) false false PhaseReconciling
      ReasonSnapshotMismatch
  else if node_AdministrativeState node == NodeDraining then
    mkSettled node true nativeReady PhaseDraining ReasonAdministrativeDrain
  else
    mkSettled node true nativeReady
      (match pass_actions p with [] => PhaseReady | _ => PhaseReconciling end) ReasonNone.

(* src: internal/reconcile/controller.go:1031-1033 Controller.reconcileAgentSnapshotAt *)
Definition action_with_digest (digest : string) (action : Action) : Action :=
  mkAction (action_Kind action) (action_NodeID action) (action_ExecutionID action)
    (action_CommandID action) (action_ControllerEpoch action) (action_ExpectedState action)
    (action_ObservedState action) (action_ObservedAtNano action) digest.

(** The candidate that replaces [current]. *)
(* src: internal/reconcile/controller.go:792-814 Controller.reconcileAgentSnapshotAt *)
Definition candidate_node (current : nodeRuntime) (snapshot : AgentSnapshot) (digest : string)
    (p : pass) (now : Z) : nodeRuntime :=
  let old := rt_scheduler current in
  let node := if rt_platformKnown current then ns_Node old
              else node_with_platform (ns_Node old) (snap_OS snapshot) (snap_Arch snapshot) in
  let status := rt_status current in
  let s := settle (node_with_observed node NodeOnline) (status_RunnerUpdate status)
             (snap_NativeRunnerReady snapshot) p now in
  mkNodeRuntime
    (mkNodeSnapshot (settled_Node s) (settled_Reconciled s) (settled_NativeReady s)
       (ns_AvailableMemoryBytes old) (activeObservationIDs (snap_Observations snapshot))
       (ns_CachedRunnerPackages old)
       (match snap_ExcludedTargets snapshot with
        | Some targetIDs => targetIDs
        | None => ns_ExcludedTargets old
        end))
    (status_with status (settled_Phase s) (settled_Reason s))
    (rt_runnerPolicy current) true
    (sortActions (map (action_with_digest digest) (pass_actions p))) snapshot true.

Section methods.
  Context (marshal : CanonicalSnapshot -> result string) (sha256 : string -> string).

(** *** Accepting a snapshot *)

(** The loop over the reported commands, in [reconcileAgentSnapshotAt] and in
    [validateFoldedAgentSnapshotLocked]. *)
(* src: internal/reconcile/controller.go:784-790 Controller.reconcileAgentSnapshotAt *)
Fixpoint check_commands (c : Controller) (nodeID : NodeID) (commands : list Command) : error :=
  match commands with
  | [] => None
  | command :: rest =>
      if match ctl_commands c !! command_ID command with
         | None => true
         | Some issued => (issued_NodeID issued != nodeID) || (issued_Command issued != command)
         end then
        Some (reconcile_invalid "agent_command_authority_mismatch" "agent_snapshot.commands"
                "contains a command not issued exactly by this Controller")
      else check_commands c nodeID rest
  end.

(** The checks that follow the clock's, in both functions. *)
(* src: internal/reconcile/controller.go:771-814 Controller.reconcileAgentSnapshotAt *)
Definition check_authority (c : Controller) (snapshot : AgentSnapshot) : result nodeRuntime :=
  match ctl_nodes c !! snap_NodeID snapshot with
  | None => Err (reconcile_invalid "node_not_found" "agent_snapshot.node_id"
                   "does not identify a configured node")
  | Some node =>
      if snap_MaxControllerEpoch snapshot >? ctl_epoch c then
        Err (reconcile_invalid "future_agent_epoch" "agent_snapshot.max_controller_epoch"
               "exceeds the active Controller epoch")
      else if rt_platformKnown node &&
              ((snap_OS snapshot != node_OS (ns_Node (rt_scheduler node))) ||
               (snap_Arch snapshot != node_Architecture (ns_Node (rt_scheduler node)))) then
        Err (reconcile_invalid "node_platform_mismatch" "agent_snapshot"
               "does not match immutable node platform authority")
      else
      tryr check_commands c (snap_NodeID snapshot) (snap_Commands snapshot) ;;
      if Z.of_nat (length (activeObservationIDs (snap_Observations snapshot))) >?
         node_MaxRunners (ns_Node (rt_scheduler node)) then
        Err (reconcile_invalid "active_runners_exceed_node_maximum" "agent_snapshot.observations"
               "contains more active runtimes than node.maxRunners")
      else Ok node
  end.

(* src: internal/reconcile/controller.go:758-764 Controller.reconcileAgentSnapshotAt *)
Definition check_snapshot (snapshot : AgentSnapshot) : result string :=
  match AgentSnapshot_Validate snapshot with
  | Some _ => Err (reconcile_invalid "invalid_agent_snapshot" "agent_snapshot"
                     "failed typed validation")
  | None =>
      match AgentSnapshotDigest marshal sha256 snapshot with
      | Err _ => Err (reconcile_invalid "invalid_agent_snapshot_digest" "agent_snapshot"
                        "failed canonical digest")
      | Ok digest => Ok digest
      end
  end.

(* src: internal/reconcile/controller.go:766-766 Controller.reconcileAgentSnapshotAt *)
Definition clock_unavailable : GoError :=
  reconcile_invalid "runner_update_clock_unavailable" "clock" "returned a zero time".

(* src: internal/reconcile/controller.go:1964-1997 Controller.validateFoldedAgentSnapshotLocked *)
Definition validateFoldedAgentSnapshotLocked (c : Controller) (snapshot : AgentSnapshot) : error :=
  match check_snapshot snapshot with
  | Err err => Some err
  | Ok _ =>
      match check_authority c snapshot with
      | Err err => Some err
      | Ok _ => None
      end
  end.

(* src: internal/reconcile/controller.go:754-850 Controller.reconcileAgentSnapshotAt *)
Definition reconcileAgentSnapshotAt (c : Controller) (snapshot : AgentSnapshot) (now : Z)
    : Controller * result NodeResult :=
  match
    (let! digest := check_snapshot snapshot ;;
     if IsZero now then Err clock_unavailable
     else let! current := check_authority c snapshot ;; Ok (digest, current))
  with
  | Err err => (c, Err err)
  | Ok (digest, current) =>
      let p := scan c snapshot in
      let c := signalChangeLocked
                 (set_node c (snap_NodeID snapshot)
                    (candidate_node current snapshot digest p now)) in
      (c, Ok (nodeResultLocked c (snap_NodeID snapshot) (pass_suppress p) now))
  end.

(* src: internal/reconcile/controller.go:737-752 Controller.ReconcileAgentSnapshot *)
Definition ReconcileAgentSnapshot (c : Controller) (snapshot : AgentSnapshot) (now : Z)
    : Controller * result NodeResult := reconcileAgentSnapshotAt c snapshot now.

(** The tail of the methods that change the projection and then fold the retained
    snapshot back in: [if seen { _, err := controller.reconcile...; return err }].
    These methods hold [applyMu] throughout, but release [mu] before the tail, so
    a reader under [mu.RLock] can see the projection the tail starts from.  Each of
    them is therefore written with its tail as a parameter, [tail c seen snapshot
    now]: the method itself takes [refold], and [in_progress] below takes
    [released], which stops where [mu] is released. *)
(* src: internal/reconcile/controller.go:1507-1511 Controller.ApplyGitHubClaim *)
Definition refold (c : Controller) (seen : bool) (snapshot : AgentSnapshot) (now : Z)
    : Controller * error :=
  if seen then
    match reconcileAgentSnapshotAt c snapshot now with
    | (c, Err err) => (c, Some err)
    | (c, Ok _) => (c, None)
    end
  else (c, None).

(** *** Sessions and operators *)

(* src: internal/reconcile/controller.go:1133-1168 Controller.Disconnect *)
Definition Disconnect (c : Controller) (nodeID : NodeID) (now : Z)
    : Controller * result NodeResult :=
  match ctl_nodes c !! nodeID with
  | None => (c, Err (reconcile_invalid "node_not_found" "node_id"
                       "does not identify a configured node"))
  | Some node =>
      let scheduler := rt_scheduler node in
      let admin := node_AdministrativeState (ns_Node scheduler) in
      let status :=
        if admin == NodeQuarantined then
          status_with (rt_status node) PhaseQuarantined ReasonCleanupUncertain
        else if admin == NodeRevoked then
          status_with (rt_status node) PhaseRevoked ReasonCredentialRevoked
        else if admin == NodeDraining then
          status_with (rt_status node) PhaseDraining ReasonAgentOffline
        else status_with (rt_status node) PhaseOffline ReasonAgentOffline in
      let node := mkNodeRuntime
                    (snapshot_with scheduler (node_with_observed (ns_Node scheduler) NodeOffline)
                       false false)
                    status (rt_runnerPolicy node) (rt_platformKnown node) [] (rt_snapshot node)
                    (rt_seen node) in
      let c := signalChangeLocked (set_node c nodeID node) in
      (c, Ok (nodeResultLocked c nodeID (allReservationIDsForNode c nodeID) now))
  end.

(** [canceled] is [ctx.Err()]. *)
(* src: internal/reconcile/controller.go:1172-1181 Controller.HandleAgentDisconnect *)
Definition HandleAgentDisconnect (c : Controller) (canceled : error) (nodeID : NodeID) (now : Z)
    : Controller * error :=
  match canceled with
  | Some err => (c, Some err)
  | None =>
      match Disconnect c nodeID now with
      | (c, Err err) => (c, Some err)
      | (c, Ok _) => (c, None)
      end
  end.

(* src: internal/reconcile/controller.go:1186-1235 Controller.SetAdministrativeState *)
Definition SetAdministrativeState (c : Controller) (nodeID : NodeID) (next : string)
    (cleanupRemediated : bool) : Controller * error :=
  match NodeAdministrativeState_Validate next "node.administrative_state" with
  | Some err => (c, Some err)
  | None =>
      match ctl_nodes c !! nodeID with
      | None => (c, Some (reconcile_invalid "node_not_found" "node_id"
                            "does not identify a configured node"))
      | Some node =>
          let scheduler := rt_scheduler node in
          let current := node_AdministrativeState (ns_Node scheduler) in
          if (current == NodeRevoked) && (next != NodeRevoked) then
            (c, Some (reconcile_invalid "revoked_node_terminal" "node.administrative_state"
                        "revoked nodes cannot be reactivated"))
          else if (current == NodeQuarantined) && (next == NodeActive) && negb cleanupRemediated then
            (c, Some (reconcile_invalid "cleanup_remediation_required" "node.administrative_state"
                        "quarantine requires explicit successful cleanup remediation"))
          else
            let status :=
              if next == NodeQuarantined then
                status_with (rt_status node) PhaseQuarantined ReasonCleanupUncertain
              else if next == NodeRevoked then
                status_with (rt_status node) PhaseRevoked ReasonCredentialRevoked
              else if next == NodeDraining then
                status_with (rt_status node) PhaseDraining ReasonAdministrativeDrain
              else status_with (rt_status node) PhaseReconciling ReasonSnapshotMismatch in
            let node' := node_with_observed (node_with_admin (ns_Node scheduler) next)
                           NodeReconciling in
            (signalChangeLocked
               (set_node c nodeID
                  (mkNodeRuntime (snapshot_with scheduler node' false false) status
                     (rt_runnerPolicy node) (rt_platformKnown node) [] (rt_snapshot node) false)),
             None)
      end
  end.

(** The loop that indexes the configurations. *)
(* src: internal/reconcile/controller.go:1259-1285 Controller.ApplyNodeConfigurations *)
Fixpoint index_configurations (c : Controller) (configurations : list NodeConfiguration)
    (byNode : gmap string NodeConfiguration) : result (gmap string NodeConfiguration) :=
  match configurations with
  | [] => Ok byNode
  | configuration :: rest =>
      if (TrimSpace (conf_NodeID configuration) == "") ||
         (TrimSpace (conf_DisplayName configuration) == "") ||
         (conf_MaxRunners configuration <? 1) then
        Err (reconcile_invalid "invalid_node_configuration" "nodes"
               "contains an invalid node configuration")
      else if byNode !! conf_NodeID configuration != None then
        Err (reconcile_invalid "duplicate_node_configuration" "nodes"
               "contains a duplicate node ID")
      else
      match ctl_nodes c !! conf_NodeID configuration with
      | None => Err (reconcile_invalid "node_configuration_set_mismatch" "nodes"
                       "contains a node outside the current projection")
      | Some _ =>
          index_configurations c rest (<[conf_NodeID configuration := configuration]> byNode)
      end
  end.

(** One round of the loop that applies them. *)
(* src: internal/reconcile/controller.go:1299-1307 Controller.ApplyNodeConfigurations *)
Definition configure (nodeID : NodeID) (configuration : NodeConfiguration)
    (state : gmap string nodeRuntime * bool) : gmap string nodeRuntime * bool :=
  let '(nodes, changed) := state in
  let node := default zero_nodeRuntime (nodes !! nodeID) in
  let scheduler := rt_scheduler node in
  if (node_DisplayName (ns_Node scheduler) == conf_DisplayName configuration) &&
     (node_MaxRunners (ns_Node scheduler) == conf_MaxRunners configuration) then (nodes, changed)
  else
    let node' := node_with_limits (ns_Node scheduler) (conf_DisplayName configuration)
                   (conf_MaxRunners configuration) in
    (<[nodeID :=
        mkNodeRuntime
          (snapshot_with scheduler node' (ns_Reconciled scheduler) (ns_NativeReady scheduler))
          (rt_status node) (rt_runnerPolicy node) (rt_platformKnown node) (rt_actions node)
          (rt_snapshot node) (rt_seen node)]> nodes, true).

(* src: internal/reconcile/controller.go:1241-1313 Controller.ApplyNodeConfigurations *)
Definition ApplyNodeConfigurations (c : Controller) (configurations : list NodeConfiguration)
    : Controller * error :=
  if Z.of_nat (length configurations) != Z.of_nat (size (ctl_nodes c)) then
    (c, Some (reconcile_invalid "node_configuration_set_mismatch" "nodes"
                "must describe every configured node exactly once"))
  else
    match index_configurations c configurations ∅ with
    | Err err => (c, Some err)
    | Ok byNode =>
        if existsb (fun '(_, reservation) =>
                      match byNode !! slot_NodeID (restored_Slot reservation) with
                      | Some configuration =>
                          slot_Index (restored_Slot reservation) >=? conf_MaxRunners configuration
                      | None => slot_Index (restored_Slot reservation) >=? 0
                      end) (map_to_list (ctl_reservations c)) then
          (c, Some (reconcile_invalid "node_capacity_below_reservation" "nodes.max_runners"
                      "would strand an existing concrete slot reservation"))
        else
          let '(nodes, changed) := map_fold configure (ctl_nodes c, false) byNode in
          let c := set_nodes c nodes in
          (if changed then signalChangeLocked c else c, None)
    end.

(* src: internal/reconcile/controller.go:1318-1351 Controller.SetRunnerUpdateStatus *)
Definition SetRunnerUpdateStatus (c : Controller) (nodeID : NodeID) (update : RunnerUpdateStatus)
    : Controller * error :=
  match RunnerUpdateStatus_Validate update with
  | Some err => (c, Some err)
  | None =>
      match ctl_nodes c !! nodeID with
      | None => (c, Some (reconcile_invalid "node_not_found" "node_id"
                            "does not identify a configured node"))
      | Some node =>
          if negb (MatchesPolicy update (rt_runnerPolicy node)) then
            (c, Some (reconcile_invalid "runner_update_policy_mismatch" "runner_update"
                        "does not match the configured runner version policy"))
          else
            let scheduler := rt_scheduler node in
            let offline := node_ObservedState (ns_Node scheduler) == NodeOffline in
            let node' := if offline then ns_Node scheduler
                         else node_with_observed (ns_Node scheduler) NodeStale in
            let old := rt_status node in
            let status :=
              if offline then mkNodeStatus (status_NodeID old) (status_Phase old)
                                (status_Reason old) update
              else mkNodeStatus (status_NodeID old) PhaseDegraded ReasonRunnerUpdateUnavailable
                     update in
            (signalChangeLocked
               (set_node c nodeID
                  (mkNodeRuntime (snapshot_with scheduler node' false false) status
                     (rt_runnerPolicy node) (rt_platformKnown node) (rt_actions node)
                     (rt_snapshot node) false)),
             None)
      end
  end.

(** *** Reads *)

(* src: internal/reconcile/controller.go:1353-1388 Controller.FleetSnapshot *)
Definition Controller_FleetSnapshot (c : Controller) (now : Z) : FleetSnapshot :=
  let nodeIDs := sort_slice string_less (map fst (map_to_list (ctl_nodes c))) in
  let effective nodeID := effectiveNode (node_at c nodeID) now in
  let reservations := sortedReservationsLocked c in
  mkFleetSnapshot (ctl_epoch c)
    (flat_map (fun nodeID => if rt_platformKnown (node_at c nodeID) then [(effective nodeID).1]
                             else []) nodeIDs)
    reservations
    (filter (fun reservation => Is_true
               (let nodeID := slot_NodeID (restored_Slot reservation) in
                reservation_suppressed c (effective nodeID).1 (rt_actions (node_at c nodeID))
                  reservation)) reservations)
    (map (fun nodeID => (effective nodeID).2) nodeIDs)
    (sortActions (flat_map (fun nodeID => rt_actions (node_at c nodeID)) nodeIDs)).

(* src: internal/reconcile/controller.go:1435-1445 Controller.nodeHasGitHubFenceLocked *)
Definition nodeHasGitHubFenceLocked (c : Controller) (nodeID : NodeID) : bool :=
  existsb (fun '(executionID, _) =>
             match ctl_executions c !! executionID with
             | Some execution => slot_NodeID (exec_Slot execution) == nodeID
             | None => false
             end) (map_to_list (ctl_fences c)).

(* src: internal/reconcile/controller.go:1390-1433 Controller.Admission *)
Definition Admission (c : Controller) (nodeID : NodeID) (now : Z) : result NodeAdmission :=
  if IsZero now then Err clock_unavailable
  else
    match ctl_nodes c !! nodeID with
    | None => Err (reconcile_invalid "node_not_found" "node_id"
                     "does not identify a configured node")
    | Some node =>
        let '(schedulerNode, status) := effectiveNode node now in
        let update := status_RunnerUpdate status in
        let transportReady :=
          rt_seen node && (node_ObservedState (ns_Node schedulerNode) == NodeOnline) &&
          (node_AdministrativeState (ns_Node schedulerNode) == NodeActive) &&
          ns_NativeReady schedulerNode && AllowsAdmissionAt update now in
        let allowsNewCapacity :=
          transportReady && ctl_managementProjectionHealthy c && ns_Reconciled schedulerNode &&
          (status_Phase status == PhaseReady) && (Z.of_nat (length (rt_actions node)) =? 0) &&
          negb (nodeHasGitHubFenceLocked c nodeID) in
        let recheckAt :=
          if AllowsAdmissionAt update now then
            if (upd_State update == RunnerUpdateDue) &&
               Before (upd_Deadline update) (upd_FreshUntil update) then upd_Deadline update
            else upd_FreshUntil update
          else 0 in
        Ok (mkNodeAdmission schedulerNode status (rt_actions node) allowsNewCapacity
              transportReady recheckAt (ctl_change c))
    end.

(** *** Mirroring durable commits *)

Definition Tail : Type := Controller -> bool -> AgentSnapshot -> Z -> Controller * error.

(** The new execution of a claim, with its reservation unless it is terminal. *)
(* src: internal/reconcile/controller.go:1487-1505 Controller.ApplyGitHubClaim *)
Definition commit_claim (c : Controller) (execution : ExecutionSnapshot) : Controller :=
  let c := set_executions c (<[exec_ID execution := execution]> (ctl_executions c))
             (sort_slice string_less (ctl_executionIDs c ++ [exec_ID execution])) in
  let c :=
    if negb (terminalExecution (exec_State execution)) then
      set_reservations c
        (<[exec_ID execution :=
            mkRestoredReservation (exec_TargetID execution) (exec_Slot execution)
              (exec_ID execution)]> (ctl_reservations c))
    else c in
  signalChangeLocked c.

(* src: internal/reconcile/controller.go:1450-1512 Controller.ApplyGitHubClaim *)
Definition ApplyGitHubClaim_with (tail : Tail) (c : Controller) (claim : GitHubJobClaim) (now : Z)
    : Controller * error :=
  let execution := claim_Execution claim in
  let slot := exec_Slot execution in
  if (claim_ScaleSetID claim == 0) || (claim_ClaimKey claim == 0) ||
     ((claim_Origin claim == GitHubClaimFromJobAvailable) && (claim_SourceMessageID claim == 0)) ||
     (claim_State claim == "") then
    (c, Some (reconcile_invalid "invalid_github_claim" "github_claim"
                "contains incomplete durable identity"))
  else
    match ExecutionSnapshot_Validate execution with
    | Some err => (c, Some err)
    | None =>
        let mismatch := (c, Some (reconcile_invalid "github_claim_slot_mismatch"
                                    "github_claim.execution.slot"
                                    "does not reference configured node capacity")) in
        match ctl_nodes c !! slot_NodeID slot with
        | None => mismatch
        | Some node =>
            if (slot_Index slot <? 0) ||
               (slot_Index slot >=? node_MaxRunners (ns_Node (rt_scheduler node))) then mismatch
            else
              match ctl_executions c !! exec_ID execution with
              | Some existing =>
                  if existing != execution then
                    (c, Some (reconcile_invalid "github_claim_execution_mismatch"
                                "github_claim.execution" "differs from the retained execution"))
                  else tail c (rt_seen node) (rt_snapshot node) now
              | None =>
                  if existsb (fun '(executionID, reservation) =>
                                (restored_Slot reservation == slot) &&
                                (executionID != exec_ID execution))
                       (map_to_list (ctl_reservations c)) then
                    (c, Some (reconcile_invalid "github_claim_slot_conflict"
                                "github_claim.execution.slot"
                                "is already owned by another execution"))
                  else tail (commit_claim c execution) (rt_seen node) (rt_snapshot node) now
              end
        end
    end.
(* src: internal/reconcile/controller.go:1450-1512 Controller.ApplyGitHubClaim *)
Definition ApplyGitHubClaim (c : Controller) (claim : GitHubJobClaim) (now : Z)
    : Controller * error := ApplyGitHubClaim_with refold c claim now.

(* src: internal/reconcile/controller.go:1547-1560 Controller.ApplyIssuedCommand *)
Definition commit_command (c : Controller) (issued : IssuedCommand) : Controller :=
  let executionID := command_ExecutionID (issued_Command issued) in
  signalChangeLocked
    (set_commands c (<[command_ID (issued_Command issued) := issued]> (ctl_commands c))
       (<[executionID :=
           sort_slice command_less
             (commands_of (ctl_commandByExecution c) executionID ++ [issued])]>
          (ctl_commandByExecution c))).

(* src: internal/reconcile/controller.go:1517-1567 Controller.ApplyIssuedCommand *)
Definition ApplyIssuedCommand_with (tail : Tail) (c : Controller) (issued : IssuedCommand) (now : Z)
    : Controller * error :=
  let command := issued_Command issued in
  let executionID := command_ExecutionID command in
  if (issued_NodeID issued == "") ||
     (CommandType_Validate (issued_Type issued) "issued_command.type" != None) then
    (c, Some (reconcile_invalid "invalid_issued_command" "issued_command"
                "contains incomplete identity"))
  else
    match Command_Validate command with
    | Some err => (c, Some err)
    | None =>
        if negb (commandTypeMatchesExpectedState (issued_Type issued)
                   (command_ExpectedState command)) then
          (c, Some (reconcile_invalid "command_expected_state_mismatch"
                      "issued_command.expected_state" "does not match the command type"))
        else
          let node := node_at c (issued_NodeID issued) in
          if (ctl_executions c !! executionID == None) ||
             (node_ID (ns_Node (rt_scheduler node)) == "") ||
             (slot_NodeID (exec_Slot (execution_at c executionID)) != issued_NodeID issued) then
            (c, Some (reconcile_invalid "command_execution_mismatch" "issued_command.execution_id"
                        "does not belong to the command node"))
          else
            match ctl_commands c !! command_ID command with
            | Some existing =>
                if existing != issued then
                  (c, Some (reconcile_invalid "duplicate_command" "issued_command.command_id"
                              "was reused with different authority"))
                else (c, None)
            | None => tail (commit_command c issued) (rt_seen node) (rt_snapshot node) now
            end
    end.
(* src: internal/reconcile/controller.go:1517-1567 Controller.ApplyIssuedCommand *)
Definition ApplyIssuedCommand (c : Controller) (issued : IssuedCommand) (now : Z)
    : Controller * error := ApplyIssuedCommand_with refold c issued now.

(* src: internal/reconcile/controller.go:1946-1958 monotonicObservationTimestamp *)
Definition monotonicObservationTimestamp (now previous : Z) : result Z :=
  if now >? previous then Ok now
  else if previous == max_int64 then
    Err (reconcile_invalid "agent_observation_timestamp_exhausted" "execution_update.observed_at"
           "cannot advance the retained Agent observation timestamp")
  else Ok (previous + 1).

(** The command of an update joined to the retained evidence. *)
(* src: internal/reconcile/controller.go:1613-1632 Controller.ApplyExecutionUpdate *)
Definition fold_command (snapshot : AgentSnapshot) (command : Command) : result AgentSnapshot :=
  let commands :=
    match List.find (fun existing => command_ID existing == command_ID command)
            (snap_Commands snapshot) with
    | Some existing =>
        if existing != command then
          Err (reconcile_invalid "agent_command_authority_mismatch" "execution_update.command_id"
                 "conflicts with retained Agent evidence")
        else Ok (snap_Commands snapshot)
    | None =>
        Ok (sort_slice (fun l r => string_less (command_ID l) (command_ID r))
              (snap_Commands snapshot ++ [command]))
    end in
  let! commands := commands ;;
  Ok (mkAgentSnapshot (snap_NodeID snapshot) (snap_OS snapshot) (snap_Arch snapshot)
        (snap_RunnerVersion snapshot) (snap_NativeRunnerReady snapshot)
        (snap_AvailabilityIntent snapshot) (snap_ExcludedTargets snapshot)
        (snap_SharedRunnerIdentity snapshot)
        (if command_ControllerEpoch command >? snap_MaxControllerEpoch snapshot
         then command_ControllerEpoch command else snap_MaxControllerEpoch snapshot)
        commands (snap_Observations snapshot) (snap_CleanupTombstones snapshot)).

(** The loop over the retained observations: the first one of the execution takes
    the new state, and without one it is appended.  [admissible] is the check
    made on the observation that is replaced. *)
(* src: internal/reconcile/controller.go:1889-1923 Controller.ApplyReconciliationExecutionUpdate *)
Fixpoint fold_observation (admissible : AgentExecutionObservation -> error)
    (executionID : ExecutionID) (state : string) (observedAt : Z)
    (observations : list AgentExecutionObservation) : result (list AgentExecutionObservation) :=
  match observations with
  | [] => Ok [mkObservation executionID state observedAt]
  | observation :: rest =>
      if obs_ExecutionID observation != executionID then
        let! rest := fold_observation admissible executionID state observedAt rest ;;
        Ok (observation :: rest)
      else
      tryr admissible observation ;;
      let! observedAt :=
        monotonicObservationTimestamp observedAt (obs_ObservedAtUnixNano observation) ;;
      Ok (mkObservation executionID state observedAt :: rest)
  end.

Definition snapshot_with_observations (s : AgentSnapshot) observations : AgentSnapshot :=
  mkAgentSnapshot (snap_NodeID s) (snap_OS s) (snap_Arch s) (snap_RunnerVersion s)
    (snap_NativeRunnerReady s) (snap_AvailabilityIntent s) (snap_ExcludedTargets s)
    (snap_SharedRunnerIdentity s) (snap_MaxControllerEpoch s) (snap_Commands s) observations
    (snap_CleanupTombstones s).
Definition snapshot_with_owner (s : AgentSnapshot) (ready : bool) (intent : string)
    (excluded : option (list TargetID)) : AgentSnapshot :=
  mkAgentSnapshot (snap_NodeID s) (snap_OS s) (snap_Arch s) (snap_RunnerVersion s)
    ready intent excluded (snap_SharedRunnerIdentity s) (snap_MaxControllerEpoch s)
    (snap_Commands s) (snap_Observations s) (snap_CleanupTombstones s).
Definition node_with_snapshot (node : nodeRuntime) (snapshot : AgentSnapshot) : nodeRuntime :=
  mkNodeRuntime (rt_scheduler node) (rt_status node) (rt_runnerPolicy node)
    (rt_platformKnown node) (rt_actions node) snapshot (rt_seen node).
(* src: internal/reconcile/controller.go:1676-1680 Controller.ApplyExecutionUpdate *)
Definition node_quarantined (node : nodeRuntime) : nodeRuntime :=
  let s := rt_scheduler node in
  mkNodeRuntime
    (snapshot_with s (node_with_admin (ns_Node s) NodeQuarantined) (ns_Reconciled s)
       (ns_NativeReady s))
    (rt_status node) (rt_runnerPolicy node) (rt_platformKnown node) (rt_actions node)
    (rt_snapshot node) (rt_seen node).

(** The detached candidate both update methods build: the command, then the
    observation, then the mirrored validation when the node has been seen. *)
(* src: internal/reconcile/controller.go:1612-1669 Controller.ApplyExecutionUpdate *)
Definition fold_update (c : Controller) (node : nodeRuntime) (command : Command)
    (admissible : AgentExecutionObservation -> error) (update : ExecutionUpdate) (now : Z)
    : result nodeRuntime :=
  let! snapshot := fold_command (rt_snapshot node) command ;;
  let! observations := fold_observation admissible (update_ExecutionID update)
                         (update_State update) (UnixNano now) (snap_Observations snapshot) ;;
  let snapshot := snapshot_with_observations snapshot observations in
  tryr (if rt_seen node then validateFoldedAgentSnapshotLocked c snapshot else None) ;;
  Ok (node_with_snapshot node snapshot).

Definition exec_with_state (e : ExecutionSnapshot) (state : string) : ExecutionSnapshot :=
  mkExecutionSnapshot (exec_ID e) (exec_TargetID e) (exec_Slot e) state.

(** The checks [ApplyExecutionUpdate] makes before it builds the candidate. *)
(* src: internal/reconcile/controller.go:1589-1606 Controller.ApplyExecutionUpdate *)
Definition check_update (c : Controller) (update : ExecutionUpdate)
    : result (ExecutionSnapshot * nodeRuntime * IssuedCommand) :=
  let authority := Err (reconcile_invalid "execution_update_authority_mismatch" "execution_update"
                          "does not belong to the retained node execution") in
  match ctl_executions c !! update_ExecutionID update, ctl_nodes c !! update_NodeID update with
  | Some execution, Some node =>
      if slot_NodeID (exec_Slot execution) != update_NodeID update then authority
      else
        let mismatch := Err (reconcile_invalid "execution_update_command_mismatch"
                               "execution_update.command_id"
                               "does not reference exact Controller command authority") in
        match ctl_commands c !! update_CommandID update with
        | None => mismatch
        | Some issued =>
            if (issued_NodeID issued != update_NodeID update) ||
               (command_ExecutionID (issued_Command issued) != update_ExecutionID update) then
              mismatch
            else if (exec_State execution != update_State update) &&
                    negb (CanReachExecutionState (exec_State execution) (update_State update)) then
              Err (reconcile_invalid "execution_update_regressed" "execution_update.state"
                     "cannot advance the retained execution")
            else Ok (execution, node, issued)
        end
  | _, _ => authority
  end.

(** The candidate and the execution's new state made visible. *)
(* src: internal/reconcile/controller.go:1671-1685 Controller.ApplyExecutionUpdate *)
Definition commit_update (c : Controller) (update : ExecutionUpdate)
    (execution : ExecutionSnapshot) (node : nodeRuntime) : Controller :=
  let executionID := update_ExecutionID update in
  let state := update_State update in
  let c := set_executions c
             (<[executionID := exec_with_state execution state]> (ctl_executions c))
             (ctl_executionIDs c) in
  let c :=
    if bool_decide (state ∈ [ExecutionReleased; ExecutionFailed; ExecutionQuarantined]) then
      set_reservations c (delete executionID (ctl_reservations c))
    else c in
  signalChangeLocked (set_node c (update_NodeID update) node).

(** An uncertain cleanup quarantines the node. *)
(* src: internal/reconcile/controller.go:1930-1933 Controller.ApplyReconciliationExecutionUpdate *)
Definition quarantine_on (state : string) (node : nodeRuntime) : nodeRuntime :=
  if (state == ExecutionCleanupFailed) || (state == ExecutionQuarantined) then node_quarantined node
  else node.

(* src: internal/reconcile/controller.go:1573-1692 Controller.ApplyExecutionUpdate *)
Definition ApplyExecutionUpdate_with (tail : Tail) (c : Controller) (update : ExecutionUpdate) (now : Z)
    : Controller * error :=
  match
    (tryr ExecutionUpdate_Validate update ;;
     if IsZero now then Err clock_unavailable
     else
     let! (execution, node, issued) := check_update c update ;;
     let! node := fold_update c node (issued_Command issued) (fun _ => None) update now ;;
     Ok (execution, node))
  with
  | Err err => (c, Some err)
  | Ok (execution, node) =>
      tail (commit_update c update execution (quarantine_on (update_State update) node))
        (rt_seen node) (rt_snapshot node) now
  end.
(* src: internal/reconcile/controller.go:1573-1692 Controller.ApplyExecutionUpdate *)
Definition ApplyExecutionUpdate (c : Controller) (update : ExecutionUpdate) (now : Z)
    : Controller * error := ApplyExecutionUpdate_with refold c update now.

(* src: internal/reconcile/controller.go:1698-1723 Controller.ApplyAgentReadiness *)
Definition ApplyAgentReadiness_with (tail : Tail) (c : Controller) (nodeID : NodeID) (ready : bool) (now : Z)
    : Controller * error :=
  if nodeID == "" then
    (c, Some (reconcile_invalid "node_not_found" "agent_readiness.node_id" "is empty"))
  else
    let node := node_at c nodeID in
    if (ctl_nodes c !! nodeID == None) || negb (rt_seen node) then
      (c, Some (reconcile_invalid "node_not_found" "agent_readiness.node_id"
                  "does not identify an active reconciled node"))
    else
      let snapshot := rt_snapshot node in
      let snapshot := snapshot_with_owner snapshot ready (snap_AvailabilityIntent snapshot)
                        (snap_ExcludedTargets snapshot) in
      tail (signalChangeLocked (set_node c nodeID (node_with_snapshot node snapshot))) true
        snapshot now.
(* src: internal/reconcile/controller.go:1698-1723 Controller.ApplyAgentReadiness *)
Definition ApplyAgentReadiness (c : Controller) (nodeID : NodeID) (ready : bool) (now : Z)
    : Controller * error := ApplyAgentReadiness_with refold c nodeID ready now.

(** [exclusions] is [None] for a nil slice. *)
(* src: internal/reconcile/controller.go:1731-1774 Controller.ApplyNodeOwnerState *)
Definition ApplyNodeOwnerState_with (tail : Tail) (c : Controller) (nodeID : NodeID) (intent : string)
    (exclusions : option (list TargetID)) (now : Z)
    : Controller * error :=
  if nodeID == "" then
    (c, Some (reconcile_invalid "node_not_found" "node_owner_state.node_id" "is empty"))
  else if (intent != "") &&
          (AvailabilityIntent_Validate intent "node_owner_state.availability_intent" != None) then
    (c, Some (reconcile_invalid "invalid_availability_intent" "node_owner_state.availability_intent"
                "is not a known intent"))
  else if existsb (fun targetID => TrimSpace targetID == "") (default [] exclusions) then
    (c, Some (reconcile_invalid "invalid_excluded_target" "node_owner_state.excluded_targets"
                "must not contain an empty target identifier"))
  else if (intent == "") && (exclusions == None) then (c, None)
  else
    let node := node_at c nodeID in
    if (ctl_nodes c !! nodeID == None) || negb (rt_seen node) then
      (c, Some (reconcile_invalid "node_not_found" "node_owner_state.node_id"
                  "does not identify an active reconciled node"))
    else
      let snapshot := rt_snapshot node in
      let snapshot :=
        snapshot_with_owner snapshot (snap_NativeRunnerReady snapshot)
          (if intent != "" then intent else snap_AvailabilityIntent snapshot)
          (if exclusions != None then exclusions else snap_ExcludedTargets snapshot) in
      tail (signalChangeLocked (set_node c nodeID (node_with_snapshot node snapshot))) true
        snapshot now.
(* src: internal/reconcile/controller.go:1731-1774 Controller.ApplyNodeOwnerState *)
Definition ApplyNodeOwnerState (c : Controller) (nodeID : NodeID) (intent : string)
    (exclusions : option (list TargetID)) (now : Z)
    : Controller * error := ApplyNodeOwnerState_with refold c nodeID intent exclusions now.

(* src: internal/reconcile/controller.go:1807-1813 Controller.ApplyDesiredExecution *)
Definition commit_desired (c : Controller) (next : ExecutionSnapshot) : Controller :=
  let c := set_executions c (<[exec_ID next := next]> (ctl_executions c)) (ctl_executionIDs c) in
  signalChangeLocked
    (if terminalExecution (exec_State next) then
       set_reservations c (delete (exec_ID next) (ctl_reservations c))
     else c).

(* src: internal/reconcile/controller.go:1779-1820 Controller.ApplyDesiredExecution *)
Definition ApplyDesiredExecution_with (tail : Tail) (c : Controller) (next : ExecutionSnapshot) (now : Z)
    : Controller * error :=
  match ExecutionSnapshot_Validate next with
  | Some err => (c, Some err)
  | None =>
      let current := execution_at c (exec_ID next) in
      if (ctl_executions c !! exec_ID next == None) ||
         (exec_TargetID current != exec_TargetID next) || (exec_Slot current != exec_Slot next) then
        (c, Some (reconcile_invalid "execution_authority_mismatch" "execution"
                    "does not match retained desired identity"))
      else if (exec_State current != exec_State next) &&
              negb (CanReachExecutionState (exec_State current) (exec_State next)) then
        (c, Some (reconcile_invalid "execution_update_regressed" "execution.state"
                    "cannot advance retained desired state"))
      else
        let node := node_at c (slot_NodeID (exec_Slot next)) in
        if node_ID (ns_Node (rt_scheduler node)) == "" then
          (c, Some (reconcile_invalid "node_not_found" "execution.slot.node_id"
                      "does not identify a retained node"))
        else tail (commit_desired c next) (rt_seen node) (rt_snapshot node) now
  end.
(* src: internal/reconcile/controller.go:1779-1820 Controller.ApplyDesiredExecution *)
Definition ApplyDesiredExecution (c : Controller) (next : ExecutionSnapshot) (now : Z)
    : Controller * error := ApplyDesiredExecution_with refold c next now.

(** The checks [ApplyReconciliationExecutionUpdate] makes before it builds the
    candidate. *)
(* src: internal/reconcile/controller.go:1841-1862 Controller.ApplyReconciliationExecutionUpdate *)
Definition check_teardown (c : Controller) (update : ExecutionUpdate)
    : result (nodeRuntime * IssuedCommand) :=
  let authority := Err (reconcile_invalid "reconciliation_update_authority_mismatch"
                          "execution_update"
                          "does not belong to a terminal desired execution") in
  match ctl_executions c !! update_ExecutionID update, ctl_nodes c !! update_NodeID update with
  | Some execution, Some node =>
      if (slot_NodeID (exec_Slot execution) != update_NodeID update) ||
         negb (terminalExecution (exec_State execution)) then authority
      else
        let mismatch := Err (reconcile_invalid "execution_update_command_mismatch"
                               "execution_update.command_id"
                               "does not reference exact reconciliation Cancel authority") in
        match ctl_commands c !! update_CommandID update with
        | None => mismatch
        | Some issued =>
            if (issued_NodeID issued != update_NodeID update) ||
               (issued_Type issued != CommandCancel) ||
               (command_ExecutionID (issued_Command issued) != update_ExecutionID update) then
              mismatch
            else if negb (bool_decide (update_State update ∈
                            [ExecutionCleaning; ExecutionReleased; ExecutionFailed;
                             ExecutionCleanupFailed; ExecutionQuarantined])) then
              Err (reconcile_invalid "invalid_reconciliation_update" "execution_update.state"
                     "does not report teardown state")
            else Ok (node, issued)
        end
  | _, _ => authority
  end.

(** The Agent's own observation must not go back. *)
(* src: internal/reconcile/controller.go:1895-1899 Controller.ApplyReconciliationExecutionUpdate *)
Definition observation_advances (update : ExecutionUpdate)
    (observation : AgentExecutionObservation) : error :=
  if (obs_State observation != update_State update) &&
     negb (CanReachExecutionState (obs_State observation) (update_State update)) then
    Some (reconcile_invalid "agent_observation_regressed" "execution_update.state"
            "cannot advance retained Agent observation")
  else None.

(* src: internal/reconcile/controller.go:1825-1944 Controller.ApplyReconciliationExecutionUpdate *)
Definition ApplyReconciliationExecutionUpdate_with (tail : Tail) (c : Controller) (update : ExecutionUpdate) (now : Z)
    : Controller * error :=
  match
    (tryr ExecutionUpdate_Validate update ;;
     if IsZero now then Err clock_unavailable
     else
     let! (node, issued) := check_teardown c update ;;
     fold_update c node (issued_Command issued) (observation_advances update) update now)
  with
  | Err err => (c, Some err)
  | Ok node =>
      tail (signalChangeLocked
                (set_node c (update_NodeID update) (quarantine_on (update_State update) node)))
        (rt_seen node) (rt_snapshot node) now
  end.
(* src: internal/reconcile/controller.go:1825-1944 Controller.ApplyReconciliationExecutionUpdate *)
Definition ApplyReconciliationExecutionUpdate (c : Controller) (update : ExecutionUpdate) (now : Z)
    : Controller * error := ApplyReconciliationExecutionUpdate_with refold c update now.

(** *** Provider fences *)

(* src: internal/reconcile/controller.go:2034-2039 Controller.ApplyGitHubFence *)
Definition commit_fence (c : Controller) (fence : GitHubFence) : Controller :=
  signalChangeLocked
    (set_fences c (<[fence_ExecutionID fence := fence]> (ctl_fences c))
       (delete (fence_ExecutionID fence) (ctl_clearedFences c))).
(* src: internal/reconcile/controller.go:2083-2087 Controller.ClearGitHubFence *)
Definition commit_clear (c : Controller) (current : GitHubFence) (executionID : ExecutionID)
    : Controller :=
  signalChangeLocked
    (set_fences c (delete executionID (ctl_fences c))
       (<[executionID := current]> (ctl_clearedFences c))).

(* src: internal/reconcile/controller.go:2003-2046 Controller.ApplyGitHubFence *)
Definition ApplyGitHubFence_with (tail : Tail) (c : Controller) (fence : GitHubFence) (now : Z)
    : Controller * error :=
  match validateGitHubFence fence with
  | Some err => (c, Some err)
  | None =>
      let executionID := fence_ExecutionID fence in
      let node := node_at c (slot_NodeID (exec_Slot (execution_at c executionID))) in
      if (ctl_executions c !! executionID == None) ||
         (node_ID (ns_Node (rt_scheduler node)) == "") then
        (c, Some (reconcile_invalid "github_fence_execution_mismatch" "github_fence.execution_id"
                    "does not reference retained desired state"))
      else
        let regressed := (c, Some (reconcile_invalid "github_fence_update_regressed" "github_fence"
                            "does not advance the retained durable fence authority")) in
        let applied := tail (commit_fence c fence) (rt_seen node) (rt_snapshot node) now in
        match ctl_fences c !! executionID, ctl_clearedFences c !! executionID with
        | Some current, _ =>
            if githubFencesEqual current fence then (c, None)
            else if negb (githubFenceCanAdvance current fence) then regressed
            else applied
        | None, Some cleared =>
            if negb (githubFenceCanAdvance cleared fence) then regressed else applied
        | None, None => applied
        end
  end.
(* src: internal/reconcile/controller.go:2003-2046 Controller.ApplyGitHubFence *)
Definition ApplyGitHubFence (c : Controller) (fence : GitHubFence) (now : Z)
    : Controller * error := ApplyGitHubFence_with refold c fence now.

(* src: internal/reconcile/controller.go:2051-2094 Controller.ClearGitHubFence *)
Definition ClearGitHubFence_with (tail : Tail) (c : Controller) (expected : GitHubFence) (now : Z)
    : Controller * error :=
  match validateGitHubFence expected with
  | Some err => (c, Some err)
  | None =>
      let executionID := fence_ExecutionID expected in
      let node := node_at c (slot_NodeID (exec_Slot (execution_at c executionID))) in
      if (ctl_executions c !! executionID == None) ||
         (node_ID (ns_Node (rt_scheduler node)) == "") then
        (c, Some (reconcile_invalid "github_fence_execution_mismatch" "github_fence.execution_id"
                    "does not reference retained desired state"))
      else
        let mismatch := (c, Some (reconcile_invalid "github_fence_clear_mismatch" "github_fence"
                            "does not match the full retained durable fence token")) in
        match ctl_fences c !! executionID with
        | None =>
            match ctl_clearedFences c !! executionID with
            | None => (c, Some (reconcile_invalid "github_fence_clear_mismatch" "github_fence"
                                  "does not match any active or exactly-cleared durable fence token"))
            | Some cleared =>
                if negb (githubFencesEqual cleared expected) then mismatch else (c, None)
            end
        | Some current =>
            if negb (githubFencesEqual current expected) then mismatch
            else
              tail (commit_clear c current executionID) (rt_seen node) (rt_snapshot node) now
        end
  end.
(* src: internal/reconcile/controller.go:2051-2094 Controller.ClearGitHubFence *)
Definition ClearGitHubFence (c : Controller) (expected : GitHubFence) (now : Z)
    : Controller * error := ClearGitHubFence_with refold c expected now.

(** ** Histories *)

(** The methods that change a controller, with their arguments. *)
Inductive event :=
  | EvEnsureNode (topology : RestartNodeTopology)
  | EvUnhealthy
  | EvSnapshot (snapshot : AgentSnapshot)
  | EvDisconnect (nodeID : NodeID)
  | EvAdministrative (nodeID : NodeID) (next : string) (cleanupRemediated : bool)
  | EvConfigurations (configurations : list NodeConfiguration)
  | EvRunnerUpdate (nodeID : NodeID) (update : RunnerUpdateStatus)
  | EvClaim (claim : GitHubJobClaim)
  | EvCommand (issued : IssuedCommand)
  | EvUpdate (update : ExecutionUpdate)
  | EvReadiness (nodeID : NodeID) (ready : bool)
  | EvOwner (nodeID : NodeID) (intent : string) (exclusions : option (list TargetID))
  | EvDesired (next : ExecutionSnapshot)
  | EvTeardown (update : ExecutionUpdate)
  | EvFence (fence : GitHubFence)
  | EvClearFence (expected : GitHubFence).

Definition error_of {A} (r : result A) : error :=
  match r with Ok _ => None | Err err => Some err end.

(** One call, at the clock reading [now]. *)
Definition step (c : Controller) (now : Z) (e : event) : Controller * error :=
  match e with
  | EvEnsureNode topology => EnsureRestartNode c topology
  | EvUnhealthy => (MarkManagementProjectionUnavailable c, None)
  | EvSnapshot snapshot => let '(c, r) := ReconcileAgentSnapshot c snapshot now in (c, error_of r)
  | EvDisconnect nodeID => let '(c, r) := Disconnect c nodeID now in (c, error_of r)
  | EvAdministrative nodeID next cleanupRemediated =>
      SetAdministrativeState c nodeID next cleanupRemediated
  | EvConfigurations configurations => ApplyNodeConfigurations c configurations
  | EvRunnerUpdate nodeID update => SetRunnerUpdateStatus c nodeID update
  | EvClaim claim => ApplyGitHubClaim c claim now
  | EvCommand issued => ApplyIssuedCommand c issued now
  | EvUpdate update => ApplyExecutionUpdate c update now
  | EvReadiness nodeID ready => ApplyAgentReadiness c nodeID ready now
  | EvOwner nodeID intent exclusions => ApplyNodeOwnerState c nodeID intent exclusions now
  | EvDesired next => ApplyDesiredExecution c next now
  | EvTeardown update => ApplyReconciliationExecutionUpdate c update now
  | EvFence fence => ApplyGitHubFence c fence now
  | EvClearFence expected => ClearGitHubFence c expected now
  end.

Definition run (c : Controller) (history : list (Z * event)) : Controller :=
  foldl (fun c '(now, e) => (step c now e).1) c history.

(** *** What a reader can see inside a call *)

(** The projection [Admission] and [FleetSnapshot] read when they take [mu.RLock]
    between the release of [mu] in a call and its tail; [c] itself for the methods
    that have one critical section, and where the call returned before the tail. *)
Definition released : Tail := fun c _ _ _ => (c, None).
(* src: internal/reconcile/controller.go:1506-1507 Controller.ApplyGitHubClaim *)
Definition in_progress (c : Controller) (now : Z) (e : event) : Controller :=
  match e with
  | EvClaim claim => (ApplyGitHubClaim_with released c claim now).1
  | EvCommand issued => (ApplyIssuedCommand_with released c issued now).1
  | EvUpdate update => (ApplyExecutionUpdate_with released c update now).1
  | EvReadiness nodeID ready => (ApplyAgentReadiness_with released c nodeID ready now).1
  | EvOwner nodeID intent exclusions =>
      (ApplyNodeOwnerState_with released c nodeID intent exclusions now).1
  | EvDesired next => (ApplyDesiredExecution_with released c next now).1
  | EvTeardown update => (ApplyReconciliationExecutionUpdate_with released c update now).1
  | EvFence fence => (ApplyGitHubFence_with released c fence now).1
  | EvClearFence expected => (ClearGitHubFence_with released c expected now).1
  | _ => c
  end.

(** The execution such a call is changing. *)
Definition in_flight (e : event) : option ExecutionID :=
  match e with
  | EvClaim claim => Some (exec_ID (claim_Execution claim))
  | EvUpdate update | EvTeardown update => Some (update_ExecutionID update)
  | EvDesired next => Some (exec_ID next)
  | _ => None
  end.
End methods.
