(* ===== verification/ReconcileInv.v ===== *)
(** * The Controller's invariant (internal/reconcile/controller.go)

    What every sequence of calls keeps true of the projection: the desired
    executions and the slot reservations describe each other exactly, concrete
    slots have one owner inside the configured capacity, and every command and
    fence belongs to an execution the projection knows. *)

From S2P Require Import Prelude GoStd Domain Execution Replay SlotLedger Scheduler Transport.
From S2P Require Import RunnerUpdate Fence Projection Reconcile.

(** ** The invariant *)

(** What the desired side reads of the nodes: their identities and slot counts. *)
Definition node_limit (n : nodeRuntime) : string * Z :=
  (node_ID (ns_Node (rt_scheduler n)), node_MaxRunners (ns_Node (rt_scheduler n))).
Definition node_limits (c : Controller) : gmap string (string * Z) := node_limit <$> ctl_nodes c.

Definition reservation_of_execution (e : ExecutionSnapshot) : RestoredReservation :=
  mkRestoredReservation (exec_TargetID e) (exec_Slot e) (exec_ID e).

(** Desired executions and reservations against the configured slots. *)
Record desired_ok (limits : gmap string (string * Z)) (executions : gmap string ExecutionSnapshot)
    (executionIDs : list ExecutionID) (reservations : gmap string RestoredReservation) : Prop := {
  do_nodes id limit : limits !! id = Some limit -> limit.1 = id /\ id <> "";
  do_execution id e : executions !! id = Some e ->
    exec_ID e = id /\ ExecutionSnapshot_Validate e = None /\
    is_Some (limits !! slot_NodeID (exec_Slot e));
  do_ids_unique : NoDup executionIDs;
  do_ids id : id ∈ executionIDs <-> is_Some (executions !! id);
  do_reservation id r : reservations !! id = Some r <->
    exists e, executions !! id = Some e /\ terminalExecution (exec_State e) = false /\
              r = reservation_of_execution e;
  do_slots id1 id2 r1 r2 : reservations !! id1 = Some r1 -> reservations !! id2 = Some r2 ->
    restored_Slot r1 = restored_Slot r2 -> id1 = id2;
  do_capacity id r limit : reservations !! id = Some r ->
    limits !! slot_NodeID (restored_Slot r) = Some limit ->
    0 <= slot_Index (restored_Slot r) < limit.2;
}.

(** Issued commands against the executions. *)
Record commands_ok (executions : gmap string ExecutionSnapshot)
    (commands : gmap string IssuedCommand) (byExecution : gmap string (list IssuedCommand)) : Prop := {
  co_command id i : commands !! id = Some i ->
    command_ID (issued_Command i) = id /\ Command_Validate (issued_Command i) = None /\
    commandTypeMatchesExpectedState (issued_Type i) (command_ExpectedState (issued_Command i)) = true /\
    exists e, executions !! command_ExecutionID (issued_Command i) = Some e /\
              slot_NodeID (exec_Slot e) = issued_NodeID i;
  co_index e i : i ∈ commands_of byExecution e <->
    commands !! command_ID (issued_Command i) = Some i /\
    command_ExecutionID (issued_Command i) = e;
}.

(** Active and cleared fence tokens. *)
Record fences_ok (executions : gmap string ExecutionSnapshot)
    (fences cleared : gmap string GitHubFence) : Prop := {
  fo_active id f : fences !! id = Some f ->
    fence_ExecutionID f = id /\ validateGitHubFence f = None /\ is_Some (executions !! id);
  fo_cleared id f : cleared !! id = Some f ->
    fence_ExecutionID f = id /\ validateGitHubFence f = None /\ is_Some (executions !! id);
  fo_disjoint id : fences !! id = None \/ cleared !! id = None;
}.

Record ctl_ok (c : Controller) : Prop := {
  ok_desired : desired_ok (node_limits c) (ctl_executions c) (ctl_executionIDs c) (ctl_reservations c);
  ok_commands : commands_ok (ctl_executions c) (ctl_commands c) (ctl_commandByExecution c);
  ok_fences : fences_ok (ctl_executions c) (ctl_fences c) (ctl_clearedFences c);
}.

(** ** Frames *)

(** Executions may change state and be added, never moved or removed. *)
Definition executions_kept (old new : gmap string ExecutionSnapshot) : Prop :=
  forall id e, old !! id = Some e ->
    exists e', new !! id = Some e' /\ exec_Slot e' = exec_Slot e /\ exec_TargetID e' = exec_TargetID e.

Lemma commands_ok_kept old new commands by_ :
  executions_kept old new -> commands_ok old commands by_ -> commands_ok new commands by_.
Proof.
  intros Hk [H1 H2]. split; [|exact H2]. intros id i (? & ? & ? & e & He & Hn)%H1.
  destruct (Hk _ _ He) as (e' & He' & Hs & _). split_and!; try done. exists e'. by rewrite Hs.
Qed.

Lemma fences_ok_kept old new fences cleared :
  executions_kept old new -> fences_ok old fences cleared -> fences_ok new fences cleared.
Proof.
  intros Hk [H1 H2 H3]. split; [| |exact H3]; intros id f Hf.
  - destruct (H1 _ _ Hf) as (? & ? & e & He). destruct (Hk _ _ He) as (e' & He' & _). eauto.
  - destruct (H2 _ _ Hf) as (? & ? & e & He). destruct (Hk _ _ He) as (e' & He' & _). eauto.
Qed.

(** Nothing but nodes and the change counter differs. *)
Record same_desired (c c' : Controller) : Prop := {
  sd_epoch : ctl_epoch c' = ctl_epoch c;
  sd_executions : ctl_executions c' = ctl_executions c;
  sd_ids : ctl_executionIDs c' = ctl_executionIDs c;
  sd_reservations : ctl_reservations c' = ctl_reservations c;
  sd_commands : ctl_commands c' = ctl_commands c;
  sd_by : ctl_commandByExecution c' = ctl_commandByExecution c;
  sd_fences : ctl_fences c' = ctl_fences c;
  sd_cleared : ctl_clearedFences c' = ctl_clearedFences c;
  sd_healthy : ctl_managementProjectionHealthy c' = ctl_managementProjectionHealthy c;
}.

#[export] Instance same_desired_refl : Reflexive same_desired.
Proof. by intros c. Qed.
#[export] Instance same_desired_trans : Transitive same_desired.
Proof. intros c1 c2 c3 [] []. split; congruence. Qed.

Lemma ctl_ok_frame c c' :
  same_desired c c' -> node_limits c' = node_limits c -> ctl_ok c -> ctl_ok c'.
Proof.
  intros [] Hl [H1 H2 H3]. split.
  - by rewrite Hl, sd_executions0, sd_ids0, sd_reservations0.
  - by rewrite sd_executions0, sd_commands0, sd_by0.
  - by rewrite sd_executions0, sd_fences0, sd_cleared0.
Qed.

(** Replacing a node by one with the same identity and slots. *)
Lemma node_limits_set_node c id n n' :
  ctl_nodes c !! id = Some n -> node_limit n' = node_limit n ->
  node_limits (set_node c id n') = node_limits c.
Proof.
  intros Hn Hl. unfold node_limits, set_node. simpl. rewrite fmap_insert, Hl.
  apply insert_id. by rewrite lookup_fmap, Hn.
Qed.

Lemma same_desired_set_node c id n : same_desired c (signalChangeLocked (set_node c id n)).
Proof. by split. Qed.

(** ** What reconciling a snapshot does *)

Section methods.
Context (marshal : CanonicalSnapshot -> result string) (sha256 : string -> string).

(** Either every check passes and the snapshot's node is replaced, or nothing
    changes. *)
Inductive reconciled (c : Controller) (snapshot : AgentSnapshot) (now : Z)
    : Controller * result NodeResult -> Prop :=
  | reconciled_refused err : reconciled c snapshot now (c, Err err)
  | reconciled_accepted digest current :
      check_snapshot marshal sha256 snapshot = Ok digest -> now <> 0 ->
      check_authority c snapshot = Ok current ->
      let node := candidate_node current snapshot digest (scan c snapshot) now in
      let c' := signalChangeLocked (set_node c (snap_NodeID snapshot) node) in
      reconciled c snapshot now
        (c', Ok (nodeResultLocked c' (snap_NodeID snapshot) (pass_suppress (scan c snapshot)) now)).

Lemma reconcile_cases c snapshot now :
  reconciled c snapshot now (reconcileAgentSnapshotAt marshal sha256 c snapshot now).
Proof.
  unfold reconcileAgentSnapshotAt.
  destruct (check_snapshot marshal sha256 snapshot) as [digest|err] eqn:Hs; [|apply reconciled_refused].
  unfold IsZero. case_bool_decide as Hz; [apply reconciled_refused|].
  destruct (check_authority c snapshot) as [current|err] eqn:Ha; [|apply reconciled_refused].
  by eapply reconciled_accepted.
Qed.

(** The checks that find the node. *)
Lemma check_authority_node c snapshot current :
  check_authority c snapshot = Ok current ->
  ctl_nodes c !! snap_NodeID snapshot = Some current /\
  snap_MaxControllerEpoch snapshot <= ctl_epoch c /\
  check_commands c (snap_NodeID snapshot) (snap_Commands snapshot) = None /\
  Z.of_nat (length (activeObservationIDs (snap_Observations snapshot))) <=
    node_MaxRunners (ns_Node (rt_scheduler current)).
Proof.
  unfold check_authority. destruct (ctl_nodes c !! _) as [node|]; [|done].
  rewrite !Z.gtb_ltb. destruct (Z.ltb_spec (ctl_epoch c) (snap_MaxControllerEpoch snapshot)); [done|].
  destruct (_ && _); [done|]. destruct (check_commands _ _ _); [done|].
  match goal with |- context [?a <? ?b] => destruct (Z.ltb_spec a b) end; [done|].
  intros [= <-]. split_and!; [done|lia|done|lia].
Qed.

Lemma settle_node node update ready p now :
  let n := settled_Node (settle node update ready p now) in
  node_ID n = node_ID node /\ node_MaxRunners n = node_MaxRunners node.
Proof. unfold settle. by repeat (case_match; try done). Qed.

Lemma candidate_limit current snapshot digest p now :
  node_limit (candidate_node current snapshot digest p now) = node_limit current.
Proof.
  unfold candidate_node, node_limit. simpl.
  match goal with |- context [settle ?a ?b ?c ?d ?e] => destruct (settle_node a b c d e) as [-> ->] end.
  by destruct (rt_platformKnown current).
Qed.

Lemma reconcile_frame c snapshot now :
  let c' := (reconcileAgentSnapshotAt marshal sha256 c snapshot now).1 in
  same_desired c c' /\ node_limits c' = node_limits c.
Proof.
  destruct (reconcile_cases c snapshot now) as [|digest current _ _ Ha node c']; [done|].
  split; [apply same_desired_set_node|]. eapply node_limits_set_node; [|apply candidate_limit].
  apply (check_authority_node _ _ _ Ha).
Qed.

Lemma refold_frame c seen snapshot now :
  let c' := (refold marshal sha256 c seen snapshot now).1 in
  same_desired c c' /\ node_limits c' = node_limits c.
Proof.
  unfold refold. destruct seen; [|done]. pose proof (reconcile_frame c snapshot now) as H.
  by destruct (reconcileAgentSnapshotAt _ _ c snapshot now) as [c' [r|err]].
Qed.

Lemma refold_ok c seen snapshot now :
  ctl_ok c -> ctl_ok (refold marshal sha256 c seen snapshot now).1.
Proof.
  intros Hok. destruct (refold_frame c seen snapshot now). by eapply ctl_ok_frame.
Qed.
End methods.

(** ** Preservation, one lemma per kind of change *)

Lemma terminal_cannot_leave a b :
  isKnownExecutionState a = true -> terminalExecution a = true ->
  CanReachExecutionState a b = true -> b = a.
Proof.
  intros Ha Ht Hr. destruct (can_reach_known _ _ Hr) as [_ Hb].
  pose proof (known_forall2 (fun a b => implb (terminalExecution a && CanReachExecutionState a b)
    (b == a)) ltac:(by vm_compute) a b Ha Hb) as H. cbv beta in H. rewrite Ht, Hr in H.
  by apply bool_decide_eq_true_1 in H.
Qed.

Lemma ExecutionSnapshot_Validate_inv e :
  ExecutionSnapshot_Validate e = None ->
  exec_ID e <> "" /\ slot_NodeID (exec_Slot e) <> "" /\ 0 <= slot_Index (exec_Slot e) /\
  isKnownExecutionState (exec_State e) = true.
Proof.
  unfold ExecutionSnapshot_Validate, ExecutionState_Validate.
  destruct (required (exec_ID e) _) eqn:H1; [done|]. destruct (required (exec_TargetID e) _); [done|].
  destruct (required (slot_NodeID _) _) eqn:H2; [done|].
  destruct (Z.ltb_spec (slot_Index (exec_Slot e)) 0); [done|].
  destruct (isKnownExecutionState _) eqn:Hk; [|done]. intros _.
  apply required_nonempty in H1, H2. by split_and!.
Qed.

Lemma ExecutionSnapshot_Validate_state e state :
  ExecutionSnapshot_Validate e = None -> isKnownExecutionState state = true ->
  ExecutionSnapshot_Validate (exec_with_state e state) = None.
Proof.
  unfold ExecutionSnapshot_Validate, ExecutionState_Validate, exec_with_state. simpl. intros H ->.
  revert H. destruct (required (exec_ID e) _); [done|]. destruct (required (exec_TargetID e) _); [done|].
  destruct (required (slot_NodeID _) _); [done|]. by destruct (_ <? 0).
Qed.

(** An execution advances; its reservation goes when the new state is terminal. *)
Lemma desired_ok_advance limits executions ids reservations id e state :
  desired_ok limits executions ids reservations ->
  executions !! id = Some e -> isKnownExecutionState state = true ->
  exec_State e = state \/ CanReachExecutionState (exec_State e) state = true ->
  desired_ok limits (<[id := exec_with_state e state]> executions) ids
    (if terminalExecution state then delete id reservations else reservations).
Proof.
  intros [Hn Hx Hu Hi Hr Hs Hc] He Hk Hadv. destruct (Hx _ _ He) as (Hid & Hv & Hnode).
  assert (Hstay : terminalExecution (exec_State e) = true -> terminalExecution state = true).
  { destruct Hadv as [<-|Hadv]; [done|]. intros Ht.
    apply terminal_cannot_leave in Hadv; [by subst| |done]. by apply ExecutionSnapshot_Validate_inv. }
  set (rs := if terminalExecution state then delete id reservations else reservations).
  assert (Hsub : forall id' r, rs !! id' = Some r -> reservations !! id' = Some r).
  { intros id' r. unfold rs. destruct (terminalExecution state); [|done].
    rewrite lookup_delete_Some. tauto. }
  split; try done.
  - intros id' e'. rewrite lookup_insert_Some. intros [[<- <-]|[_ ?]]; [|by apply Hx].
    split_and!; [done|by apply ExecutionSnapshot_Validate_state|done].
  - intros id'. rewrite Hi, lookup_insert_is_Some. destruct (decide (id = id')) as [<-|]; [|naive_solver].
    split; eauto.
  - intros id' r. unfold rs. destruct (decide (id = id')) as [<-|Hne].
    + rewrite lookup_insert_eq. destruct (terminalExecution state) eqn:Ht.
      * rewrite lookup_delete_eq. split; [done|]. intros (? & [= <-] & Ht' & _). simpl in Ht'. congruence.
      * rewrite Hr. split.
        -- intros (e0 & He0 & _ & ->). rewrite He in He0. injection He0 as <-.
           by exists (exec_with_state e state).
        -- intros (e0 & [= <-] & _ & ->). exists e. split_and!; [done| |done].
           destruct (terminalExecution (exec_State e)); [|done]. discriminate (Hstay eq_refl).
    + rewrite lookup_insert_ne by done.
      transitivity (reservations !! id' = Some r); [|apply Hr].
      destruct (terminalExecution state); [|done]. by rewrite lookup_delete_ne.
  - intros id1 id2 r1 r2 H1%Hsub H2%Hsub. by apply Hs.
  - intros id' r limit H%Hsub. by eapply Hc.
Qed.

Lemma executions_kept_advance executions id e state :
  executions !! id = Some e -> executions_kept executions (<[id := exec_with_state e state]> executions).
Proof.
  intros He id' e' He'. destruct (decide (id = id')) as [<-|Hne].
  - rewrite He in He'. injection He' as <-. exists (exec_with_state e state).
    by rewrite lookup_insert_eq.
  - exists e'. by rewrite lookup_insert_ne.
Qed.

(** A new execution with a free configured slot. *)
Lemma desired_ok_claim limits executions ids reservations e limit :
  desired_ok limits executions ids reservations ->
  executions !! exec_ID e = None -> ExecutionSnapshot_Validate e = None ->
  limits !! slot_NodeID (exec_Slot e) = Some limit -> slot_Index (exec_Slot e) < limit.2 ->
  (forall id r, reservations !! id = Some r -> restored_Slot r = exec_Slot e -> id = exec_ID e) ->
  desired_ok limits (<[exec_ID e := e]> executions) (sort_slice string_less (ids ++ [exec_ID e]))
    (if negb (terminalExecution (exec_State e))
     then <[exec_ID e := reservation_of_execution e]> reservations else reservations).
Proof.
  intros [Hn Hx Hu Hi Hr Hs Hc] He Hv Hl Hidx Hfree.
  assert (Hnone : reservations !! exec_ID e = None).
  { destruct (reservations !! exec_ID e) as [r|] eqn:E; [|done].
    apply Hr in E as (? & ? & _). congruence. }
  assert (Hcases : forall id r, (if negb (terminalExecution (exec_State e))
       then <[exec_ID e := reservation_of_execution e]> reservations else reservations) !! id = Some r ->
     id = exec_ID e /\ r = reservation_of_execution e \/ id <> exec_ID e /\ reservations !! id = Some r).
  { intros id r. destruct (terminalExecution (exec_State e)); simpl.
    - intros H. right. split; [|done]. congruence.
    - rewrite lookup_insert_Some. naive_solver. }
  split; try done.
  - intros id e'. rewrite lookup_insert_Some. intros [[<- <-]|[_ ?]]; [|by apply Hx]. by split_and!.
  - rewrite sort_slice_perm. apply NoDup_app. split_and!; [done| |apply NoDup_singleton].
    intros x Hx1%Hi Hx2%list_elem_of_singleton. subst. rewrite He in Hx1. by destruct Hx1.
  - intros id. rewrite elem_of_sort_slice, elem_of_app, list_elem_of_singleton, Hi, lookup_insert_is_Some.
    destruct (decide (exec_ID e = id)); naive_solver.
  - intros id r. destruct (decide (id = exec_ID e)) as [->|Hne].
    + rewrite lookup_insert_eq. destruct (terminalExecution (exec_State e)) eqn:Ht; simpl.
      * rewrite Hnone. split; [done|]. intros (? & [= <-] & ? & _). congruence.
      * rewrite lookup_insert_eq. split; [intros [= <-]; by exists e|]. by intros (? & [= <-] & _ & ->).
    + rewrite lookup_insert_ne by done. destruct (terminalExecution (exec_State e)); simpl; [apply Hr|].
      by rewrite lookup_insert_ne.
  - intros id1 id2 r1 r2 [[-> ->]|[? H1]]%Hcases [[-> ->]|[? H2]]%Hcases Heq; simpl in *; try done.
    + by rewrite (Hfree _ _ H2).
    + by rewrite (Hfree _ _ H1).
    + by eapply Hs.
  - intros id r limit' [[-> ->]|[_ H]]%Hcases; [|by eapply Hc]. simpl. rewrite Hl. intros [= <-].
    split; [|done]. by apply ExecutionSnapshot_Validate_inv.
Qed.

Lemma executions_kept_insert executions e :
  executions !! exec_ID e = None -> executions_kept executions (<[exec_ID e := e]> executions).
Proof.
  intros He id e' He'. exists e'. split_and!; [|done|done]. rewrite lookup_insert_ne; [done|congruence].
Qed.

(** ** The outcomes of the methods

    Each lemma says which calls change nothing, and what the others do before
    they fold the retained snapshot back in. *)

Lemma runtime_limit definition admin :
  node_limit (runtimeForNodeDefinition definition admin) =
  (node_ID (def_Node definition), node_MaxRunners (def_Node definition)).
Proof. done. Qed.

Lemma restartNodeDefinition_node topology definition :
  restartNodeDefinition topology = Ok definition ->
  node_ID (def_Node definition) = topo_NodeID topology /\ topo_NodeID topology <> "" /\
  node_ObservedState (def_Node definition) = NodeOffline.
Proof.
  unfold restartNodeDefinition. case_bool_decide as Hid; [done|]. destruct (_ || _); [done|].
  by intros [= <-].
Qed.

Lemma ensure_cases c topology :
  (exists err, EnsureRestartNode c topology = (c, err)) \/
  exists definition, restartNodeDefinition topology = Ok definition /\
    ctl_nodes c !! topo_NodeID topology = None /\
    EnsureRestartNode c topology =
    (signalChangeLocked (set_node c (topo_NodeID topology)
       (runtimeForNodeDefinition definition (topo_AdministrativeState topology))), None).
Proof.
  unfold EnsureRestartNode. destruct (restartNodeDefinition topology) as [definition|] eqn:Hd; [|eauto].
  destruct (validateNodeDefinition definition); [eauto|].
  destruct (ctl_nodes c !! topo_NodeID topology) eqn:Hn.
  - case_match; eauto.
  - right. eauto.
Qed.

(** [Disconnect], [SetAdministrativeState] and [SetRunnerUpdateStatus] replace one
    node by one that reports no capacity. *)
Record withdrawn (n n' : nodeRuntime) : Prop := {
  wd_limit : node_limit n' = node_limit n;
  wd_reconciled : ns_Reconciled (rt_scheduler n') = false;
  wd_ready : ns_NativeReady (rt_scheduler n') = false;
  wd_active : ns_ActiveExecutions (rt_scheduler n') = ns_ActiveExecutions (rt_scheduler n);
  wd_snapshot : rt_snapshot n' = rt_snapshot n;
  wd_seen : rt_seen n' = true -> rt_seen n = true;
}.

Lemma disconnect_cases c nodeID now :
  (exists err, Disconnect c nodeID now = (c, Err err)) \/
  exists n n', ctl_nodes c !! nodeID = Some n /\ withdrawn n n' /\ rt_actions n' = [] /\
    let c' := signalChangeLocked (set_node c nodeID n') in
    Disconnect c nodeID now = (c', Ok (nodeResultLocked c' nodeID (allReservationIDsForNode c' nodeID) now)).
Proof.
  unfold Disconnect. destruct (ctl_nodes c !! nodeID) as [n|] eqn:Hn; [|eauto]. right.
  eexists n, _. split_and!; [done|..|reflexivity]; [by split|done].
Qed.

Lemma administrative_cases c nodeID next remediated :
  (exists err, SetAdministrativeState c nodeID next remediated = (c, Some err)) \/
  exists n n', ctl_nodes c !! nodeID = Some n /\ withdrawn n n' /\ rt_seen n' = false /\
    SetAdministrativeState c nodeID next remediated =
    (signalChangeLocked (set_node c nodeID n'), None).
Proof.
  unfold SetAdministrativeState. destruct (NodeAdministrativeState_Validate _ _); [eauto|].
  destruct (ctl_nodes c !! nodeID) as [n|] eqn:Hn; [|eauto].
  destruct (_ && _); [eauto|]. destruct (_ && _ && _); [eauto|]. right.
  eexists n, _. split_and!; [done|..|reflexivity]; [by split|done].
Qed.

Lemma runner_update_cases c nodeID update :
  (exists err, SetRunnerUpdateStatus c nodeID update = (c, Some err)) \/
  exists n n', ctl_nodes c !! nodeID = Some n /\ withdrawn n n' /\ rt_seen n' = false /\
    SetRunnerUpdateStatus c nodeID update = (signalChangeLocked (set_node c nodeID n'), None).
Proof.
  unfold SetRunnerUpdateStatus. destruct (RunnerUpdateStatus_Validate update); [eauto|].
  destruct (ctl_nodes c !! nodeID) as [n|] eqn:Hn; [|eauto].
  destruct (negb _); [eauto|]. right.
  eexists n, _. split_and!; [done|..|reflexivity]; [|done].
  split; try done. unfold node_limit. simpl. by case_bool_decide.
Qed.

Section outcomes.
Context (marshal : CanonicalSnapshot -> result string) (sha256 : string -> string).

(** What a method that folds the retained snapshot back in comes to, for any tail:
    it fails or answers without a change, or it reaches its tail with the change
    committed. *)
Definition claim_outcomes (tail : Tail) (r : Controller * error) c claim now : Prop :=
  let e := claim_Execution claim in
  (exists err, r = (c, Some err)) \/
  exists n, ctl_nodes c !! slot_NodeID (exec_Slot e) = Some n /\
    ExecutionSnapshot_Validate e = None /\ slot_Index (exec_Slot e) < (node_limit n).2 /\
    ((ctl_executions c !! exec_ID e = Some e /\
      r = tail c (rt_seen n) (rt_snapshot n) now) \/
     (ctl_executions c !! exec_ID e = None /\
      (forall id r, ctl_reservations c !! id = Some r -> restored_Slot r = exec_Slot e ->
         id = exec_ID e) /\
      r = tail (commit_claim c e) (rt_seen n) (rt_snapshot n) now)).

Lemma claim_with_cases tail c claim now :
  claim_outcomes tail (ApplyGitHubClaim_with tail c claim now) c claim now.
Proof.
  unfold claim_outcomes, ApplyGitHubClaim_with. set (e := claim_Execution claim). destruct (_ || _); [eauto|].
  destruct (ExecutionSnapshot_Validate e) eqn:Hv; [eauto|].
  destruct (ctl_nodes c !! slot_NodeID (exec_Slot e)) as [n|] eqn:Hn; [|eauto].
  destruct (_ || _) eqn:Hidx; [eauto|].
  assert (slot_Index (exec_Slot e) < (node_limit n).2).
  { apply orb_false_iff in Hidx as [_ Hidx]. rewrite Z.geb_leb in Hidx.
    by apply Z.leb_gt in Hidx. }
  destruct (ctl_executions c !! exec_ID e) as [existing|] eqn:He.
  - case_bool_decide as Heq; simpl; [|eauto]. subst existing. right. exists n. eauto 10.
  - destruct (existsb _ _) eqn:Hex; [eauto|]. right. exists n. split_and!; try done. right.
    split_and!; try done. intros id r Hr Hslot.
    destruct (decide (id = exec_ID e)) as [|Hne]; [done|]. exfalso.
    apply not_true_iff_false in Hex. apply Hex, existsb_exists. exists (id, r).
    rewrite <- list_elem_of_In, elem_of_map_to_list. split; [done|].
    by rewrite bool_decide_eq_true_2, bool_decide_eq_false_2.
Qed.

Lemma claim_cases c claim now :
  claim_outcomes (refold marshal sha256)
    (ApplyGitHubClaim marshal sha256 c claim now) c claim now.
Proof. apply claim_with_cases. Qed.

Definition command_outcomes (tail : Tail) (r : Controller * error) c i now : Prop :=
  (exists err, r = (c, err)) \/
  exists e n, ctl_nodes c !! issued_NodeID i = Some n /\
    ctl_executions c !! command_ExecutionID (issued_Command i) = Some e /\
    slot_NodeID (exec_Slot e) = issued_NodeID i /\ Command_Validate (issued_Command i) = None /\
    commandTypeMatchesExpectedState (issued_Type i) (command_ExpectedState (issued_Command i)) = true /\
    ctl_commands c !! command_ID (issued_Command i) = None /\
    r = tail (commit_command c i) (rt_seen n) (rt_snapshot n) now.

Lemma command_with_cases tail c i now :
  command_outcomes tail (ApplyIssuedCommand_with tail c i now) c i now.
Proof.
  unfold command_outcomes, ApplyIssuedCommand_with. destruct (_ || _); [eauto|].
  destruct (Command_Validate (issued_Command i)) eqn:Hv; [eauto|].
  destruct (commandTypeMatchesExpectedState _ _) eqn:Hm; simpl; [|eauto].
  unfold node_at, execution_at.
  destruct (ctl_executions c !! command_ExecutionID (issued_Command i)) as [e|] eqn:He;
    simpl; [|eauto].
  destruct (ctl_nodes c !! issued_NodeID i) as [n|] eqn:Hn; simpl; [|eauto].
  destruct (bool_decide (node_ID _ = "")); simpl; [eauto|].
  case_bool_decide as Hs; simpl; [|eauto].
  destruct (ctl_commands c !! command_ID (issued_Command i)) eqn:Hc; [case_match; eauto|].
  right. exists e, n. by split_and!.
Qed.

Lemma command_cases c i now :
  command_outcomes (refold marshal sha256)
    (ApplyIssuedCommand marshal sha256 c i now) c i now.
Proof. apply command_with_cases. Qed.

(** The candidate of an update differs from the node in its retained snapshot. *)
Definition folded (n n' : nodeRuntime) : Prop :=
  rt_scheduler n' = rt_scheduler n /\ rt_status n' = rt_status n /\
  rt_runnerPolicy n' = rt_runnerPolicy n /\ rt_platformKnown n' = rt_platformKnown n /\
  rt_actions n' = rt_actions n /\ rt_seen n' = rt_seen n.

Lemma fold_update_folded c n command admissible update now n' :
  fold_update marshal sha256 c n command admissible update now = Ok n' ->
  folded n n' /\
  (rt_seen n = true -> validateFoldedAgentSnapshotLocked marshal sha256 c (rt_snapshot n') = None).
Proof.
  unfold fold_update. destruct (fold_command _ _) as [s|]; [|done].
  destruct (fold_observation _ _ _ _ _) as [os|]; [|done].
  destruct (rt_seen n) eqn:Hs.
  - destruct (validateFoldedAgentSnapshotLocked _ _ _ _) eqn:Hv; [done|]. intros [= <-].
    by split_and!.
  - intros [= <-]. split; [|done]. by split_and!.
Qed.

Lemma quarantine_on_limit state n : node_limit (quarantine_on state n) = node_limit n.
Proof. unfold quarantine_on. by destruct (_ || _). Qed.

Lemma check_update_inv c update e n i :
  check_update c update = Ok (e, n, i) ->
  ctl_executions c !! update_ExecutionID update = Some e /\
  ctl_nodes c !! update_NodeID update = Some n /\
  slot_NodeID (exec_Slot e) = update_NodeID update /\
  ctl_commands c !! update_CommandID update = Some i /\
  (exec_State e = update_State update \/
   CanReachExecutionState (exec_State e) (update_State update) = true).
Proof.
  unfold check_update. destruct (ctl_executions c !! _) as [e0|]; [|done].
  destruct (ctl_nodes c !! _) as [n0|]; [|done].
  case_bool_decide as Hn; simpl; [|done]. destruct (ctl_commands c !! _) as [i0|]; [|done].
  destruct (_ || _); [done|]. case_bool_decide as Hst; simpl; [intros [= <- <- <-]; auto 10|].
  destruct (CanReachExecutionState _ _) eqn:Hr; simpl; [|done]. intros [= <- <- <-]. auto 10.
Qed.

Lemma ExecutionUpdate_Validate_known update :
  ExecutionUpdate_Validate update = None -> isKnownExecutionState (update_State update) = true.
Proof.
  unfold ExecutionUpdate_Validate, ValidateExecutionResult, ExecutionState_Validate.
  destruct (_ || _); [done|]. by destruct (isKnownExecutionState _).
Qed.

Definition update_outcomes (tail : Tail) (r : Controller * error) c update now : Prop :=
  (exists err, r = (c, Some err)) \/
  exists e n n' i, check_update c update = Ok (e, n, i) /\ now <> 0 /\
    isKnownExecutionState (update_State update) = true /\ folded n n' /\
    fold_update marshal sha256 c n (issued_Command i) (fun _ => None) update now = Ok n' /\
    r = tail (commit_update c update e (quarantine_on (update_State update) n'))
      (rt_seen n') (rt_snapshot n') now.

Lemma update_with_cases tail c update now :
  update_outcomes tail (ApplyExecutionUpdate_with marshal sha256 tail c update now) c update now.
Proof.
  unfold update_outcomes, ApplyExecutionUpdate_with. destruct (ExecutionUpdate_Validate update) eqn:Hv; [eauto|].
  unfold IsZero. case_bool_decide as Hz; [eauto|].
  destruct (check_update c update) as [[[e n] i]|] eqn:Hc; [|eauto].
  destruct (fold_update _ _ _ _ _ _ _ _) as [n'|] eqn:Hf; [|eauto]. right. exists e, n, n', i.
  destruct (fold_update_folded _ _ _ _ _ _ _ Hf) as [? _].
  apply ExecutionUpdate_Validate_known in Hv. by split_and!.
Qed.

Lemma update_cases c update now :
  update_outcomes (refold marshal sha256)
    (ApplyExecutionUpdate marshal sha256 c update now) c update now.
Proof. apply update_with_cases. Qed.

Lemma check_teardown_inv c update n i :
  check_teardown c update = Ok (n, i) ->
  ctl_nodes c !! update_NodeID update = Some n /\
  ctl_commands c !! update_CommandID update = Some i /\ issued_Type i = CommandCancel /\
  exists e, ctl_executions c !! update_ExecutionID update = Some e /\
    slot_NodeID (exec_Slot e) = update_NodeID update /\ terminalExecution (exec_State e) = true.
Proof.
  unfold check_teardown. destruct (ctl_executions c !! _) as [e0|]; [|done].
  destruct (ctl_nodes c !! _) as [n0|]; [|done].
  case_bool_decide as Hn; simpl; [|done].
  destruct (terminalExecution (exec_State e0)) eqn:Ht; simpl; [|done].
  destruct (ctl_commands c !! _) as [i0|]; [|done].
  case_bool_decide; simpl; [|done]. case_bool_decide as Htype; simpl; [|done].
  case_bool_decide; simpl; [|done]. destruct (negb _); [done|]. intros [= <- <-]. eauto 10.
Qed.

Definition teardown_outcomes (tail : Tail) (r : Controller * error) c update now : Prop :=
  (exists err, r = (c, Some err)) \/
  exists n n' i, check_teardown c update = Ok (n, i) /\ now <> 0 /\ folded n n' /\
    fold_update marshal sha256 c n (issued_Command i) (observation_advances update) update now = Ok n' /\
    r = tail (signalChangeLocked (set_node c (update_NodeID update) (quarantine_on (update_State update) n')))
      (rt_seen n') (rt_snapshot n') now.

Lemma teardown_with_cases tail c update now :
  teardown_outcomes tail
    (ApplyReconciliationExecutionUpdate_with marshal sha256 tail c update now) c update now.
Proof.
  unfold teardown_outcomes, ApplyReconciliationExecutionUpdate_with. destruct (ExecutionUpdate_Validate update); [eauto|].
  unfold IsZero. case_bool_decide as Hz; [eauto|].
  destruct (check_teardown c update) as [[n i]|] eqn:Hc; [|eauto].
  destruct (fold_update _ _ _ _ _ _ _ _) as [n'|] eqn:Hf; [|eauto]. right. exists n, n', i.
  destruct (fold_update_folded _ _ _ _ _ _ _ Hf) as [? _]. by split_and!.
Qed.

Lemma teardown_cases c update now :
  teardown_outcomes (refold marshal sha256)
    (ApplyReconciliationExecutionUpdate marshal sha256 c update now) c update now.
Proof. apply teardown_with_cases. Qed.

(** [ApplyAgentReadiness] and [ApplyNodeOwnerState] change the owner's part of the
    retained snapshot of a node that has been seen. *)
Definition readiness_outcomes (tail : Tail) (r : Controller * error) c nodeID ready now : Prop :=
  (exists err, r = (c, Some err)) \/
  exists n intent excluded, ctl_nodes c !! nodeID = Some n /\ rt_seen n = true /\
    let snapshot := snapshot_with_owner (rt_snapshot n) ready intent excluded in
    r = tail (signalChangeLocked (set_node c nodeID (node_with_snapshot n snapshot)))
      true snapshot now.

Lemma readiness_with_cases tail c nodeID ready now :
  readiness_outcomes tail (ApplyAgentReadiness_with tail c nodeID ready now) c nodeID ready now.
Proof.
  unfold readiness_outcomes, ApplyAgentReadiness_with, node_at. destruct (bool_decide (nodeID = "")); [eauto|].
  destruct (ctl_nodes c !! nodeID) as [n|] eqn:Hn; simpl; [|eauto].
  destruct (rt_seen n) eqn:Hs; simpl; [|eauto]. right. exists n. eauto.
Qed.

Lemma readiness_cases c nodeID ready now :
  readiness_outcomes (refold marshal sha256)
    (ApplyAgentReadiness marshal sha256 c nodeID ready now) c nodeID ready now.
Proof. apply readiness_with_cases. Qed.

Definition owner_outcomes (tail : Tail) (r : Controller * error) c nodeID now : Prop :=
  (exists err, r = (c, err)) \/
  exists n intent' excluded, ctl_nodes c !! nodeID = Some n /\ rt_seen n = true /\
    let snapshot := snapshot_with_owner (rt_snapshot n) (snap_NativeRunnerReady (rt_snapshot n))
                      intent' excluded in
    r = tail (signalChangeLocked (set_node c nodeID (node_with_snapshot n snapshot)))
      true snapshot now.

Lemma owner_with_cases tail c nodeID intent exclusions now :
  owner_outcomes tail (ApplyNodeOwnerState_with tail c nodeID intent exclusions now) c nodeID now.
Proof.
  unfold owner_outcomes, ApplyNodeOwnerState_with, node_at. destruct (bool_decide (nodeID = "")); [eauto|].
  destruct (_ && _); [eauto|]. destruct (existsb _ _); [eauto|]. destruct (_ && _); [eauto|].
  destruct (ctl_nodes c !! nodeID) as [n|] eqn:Hn; simpl; [|eauto].
  destruct (rt_seen n) eqn:Hs; simpl; [|eauto]. right. exists n. eauto.
Qed.

Lemma owner_cases c nodeID intent exclusions now :
  owner_outcomes (refold marshal sha256)
    (ApplyNodeOwnerState marshal sha256 c nodeID intent exclusions now) c nodeID now.
Proof. apply owner_with_cases. Qed.

Definition desired_outcomes (tail : Tail) (r : Controller * error) c next now : Prop :=
  (exists err, r = (c, Some err)) \/
  exists e n, ctl_executions c !! exec_ID next = Some e /\
    ctl_nodes c !! slot_NodeID (exec_Slot next) = Some n /\
    exec_TargetID e = exec_TargetID next /\ exec_Slot e = exec_Slot next /\
    ExecutionSnapshot_Validate next = None /\
    (exec_State e = exec_State next \/
     CanReachExecutionState (exec_State e) (exec_State next) = true) /\
    r = tail (commit_desired c next) (rt_seen n) (rt_snapshot n) now.

Lemma desired_with_cases tail c next now :
  desired_outcomes tail (ApplyDesiredExecution_with tail c next now) c next now.
Proof.
  unfold desired_outcomes, ApplyDesiredExecution_with, execution_at, node_at.
  destruct (ExecutionSnapshot_Validate next) eqn:Hv; [eauto|].
  destruct (ctl_executions c !! exec_ID next) as [e|] eqn:He; simpl; [|eauto].
  case_bool_decide as Ht; simpl; [|eauto]. case_bool_decide as Hs; simpl; [|eauto].
  destruct (bool_decide (exec_State e = exec_State next)) eqn:Hst; simpl.
  2: destruct (CanReachExecutionState (exec_State e) (exec_State next)) eqn:Hr; simpl; [|eauto].
  all: destruct (ctl_nodes c !! slot_NodeID (exec_Slot next)) as [n|] eqn:Hn; simpl; [|eauto].
  all: destruct (bool_decide (node_ID _ = "")); [eauto|]; right; exists e, n; split_and!; auto.
  apply bool_decide_eq_true_1 in Hst. by left.
Qed.

Lemma desired_cases c next now :
  desired_outcomes (refold marshal sha256)
    (ApplyDesiredExecution marshal sha256 c next now) c next now.
Proof. apply desired_with_cases. Qed.

(** The token the projection retains for an execution, active or cleared. *)
Definition token (c : Controller) (id : ExecutionID) : option GitHubFence :=
  match ctl_fences c !! id with Some f => Some f | None => ctl_clearedFences c !! id end.

Lemma node_at_some c id :
  node_ID (ns_Node (rt_scheduler (node_at c id))) <> "" -> ctl_nodes c !! id = Some (node_at c id).
Proof. unfold node_at. by destruct (ctl_nodes c !! id). Qed.

Definition fence_outcomes (tail : Tail) (r : Controller * error) c f now : Prop :=
  let id := fence_ExecutionID f in
  (exists err, r = (c, err)) \/
  exists e n, ctl_executions c !! id = Some e /\ ctl_nodes c !! slot_NodeID (exec_Slot e) = Some n /\
    validateGitHubFence f = None /\
    (forall t, token c id = Some t -> githubFenceCanAdvance t f = true) /\
    r = tail (commit_fence c f) (rt_seen n) (rt_snapshot n) now.

Lemma fence_with_cases tail c f now :
  fence_outcomes tail (ApplyGitHubFence_with tail c f now) c f now.
Proof.
  unfold fence_outcomes, ApplyGitHubFence_with, token. set (id := fence_ExecutionID f).
  destruct (validateGitHubFence f) eqn:Hv; [eauto|]. unfold execution_at.
  destruct (ctl_executions c !! id) as [e|] eqn:He; simpl; [|eauto].
  case_bool_decide as Hid; simpl; [eauto|]. apply node_at_some in Hid.
  destruct (ctl_fences c !! id) as [cur|] eqn:Hf.
  - destruct (githubFencesEqual cur f); [eauto|].
    destruct (githubFenceCanAdvance cur f) eqn:Hadv; simpl; [|eauto].
    right. exists e, (node_at c (slot_NodeID (exec_Slot e))). split_and!; try done. by intros ? [= <-].
  - destruct (ctl_clearedFences c !! id) as [cl|] eqn:Hcl.
    + destruct (githubFenceCanAdvance cl f) eqn:Hadv; simpl; [|eauto].
      right. exists e, (node_at c (slot_NodeID (exec_Slot e))). split_and!; try done. by intros ? [= <-].
    + right. by exists e, (node_at c (slot_NodeID (exec_Slot e))).
Qed.

Lemma fence_cases c f now :
  fence_outcomes (refold marshal sha256)
    (ApplyGitHubFence marshal sha256 c f now) c f now.
Proof. apply fence_with_cases. Qed.

Definition clear_outcomes (tail : Tail) (r : Controller * error) c f now : Prop :=
  let id := fence_ExecutionID f in
  (exists err, r = (c, err)) \/
  exists e n, ctl_executions c !! id = Some e /\ ctl_nodes c !! slot_NodeID (exec_Slot e) = Some n /\
    ctl_fences c !! id = Some f /\ validateGitHubFence f = None /\
    r = tail (commit_clear c f id) (rt_seen n) (rt_snapshot n) now.

Lemma clear_with_cases tail c f now :
  clear_outcomes tail (ClearGitHubFence_with tail c f now) c f now.
Proof.
  unfold clear_outcomes, ClearGitHubFence_with. set (id := fence_ExecutionID f).
  destruct (validateGitHubFence f) eqn:Hv; [eauto|]. unfold execution_at.
  destruct (ctl_executions c !! id) as [e|] eqn:He; simpl; [|eauto].
  case_bool_decide as Hid; simpl; [eauto|]. apply node_at_some in Hid.
  destruct (ctl_fences c !! id) as [cur|] eqn:Hf.
  - destruct (githubFencesEqual cur f) eqn:Heq; simpl; [|eauto].
    apply githubFencesEqual_iff in Heq as ->.
    right. by exists e, (node_at c (slot_NodeID (exec_Slot e))).
  - destruct (ctl_clearedFences c !! id); [case_match; eauto|eauto].
Qed.

Lemma clear_cases c f now :
  clear_outcomes (refold marshal sha256)
    (ClearGitHubFence marshal sha256 c f now) c f now.
Proof. apply clear_with_cases. Qed.

(** Reconfiguring changes only display names and slot counts. *)
Definition reconfigured (n n' : nodeRuntime) : Prop :=
  node_ID (ns_Node (rt_scheduler n')) = node_ID (ns_Node (rt_scheduler n)) /\
  node_AdministrativeState (ns_Node (rt_scheduler n')) =
    node_AdministrativeState (ns_Node (rt_scheduler n)) /\
  ns_Reconciled (rt_scheduler n') = ns_Reconciled (rt_scheduler n) /\
  rt_status n' = rt_status n /\ rt_actions n' = rt_actions n /\
  rt_snapshot n' = rt_snapshot n /\ rt_seen n' = rt_seen n.

Lemma configure_fold c byNode :
  (forall id conf, byNode !! id = Some conf -> is_Some (ctl_nodes c !! id)) ->
  forall id, match (map_fold configure (ctl_nodes c, false) byNode).1 !! id, ctl_nodes c !! id with
             | Some n', Some n =>
                 reconfigured n n' /\
                 (node_limit n').2 = match byNode !! id with
                                     | Some conf => conf_MaxRunners conf
                                     | None => (node_limit n).2
                                     end
             | None, None => True
             | _, _ => False
             end.
Proof.
  apply (map_fold_weak_ind (fun r byNode =>
    (forall id conf, byNode !! id = Some conf -> is_Some (ctl_nodes c !! id)) ->
    forall id, match r.1 !! id, ctl_nodes c !! id with
             | Some n', Some n =>
                 reconfigured n n' /\
                 (node_limit n').2 = match byNode !! id with
                                     | Some conf => conf_MaxRunners conf
                                     | None => (node_limit n).2
                                     end
             | None, None => True
             | _, _ => False
             end)).
  - intros _ id. simpl. destruct (ctl_nodes c !! id); [|done]. rewrite lookup_empty.
    split; [by split_and!|done].
  - intros id conf m [nodes changed] Hm IH Hdom id'. simpl in *.
    assert (Hdom' : forall id conf, m !! id = Some conf -> is_Some (ctl_nodes c !! id)).
    { intros i cf Hi. eapply Hdom. rewrite lookup_insert_ne; [exact Hi|congruence]. }
    specialize (IH Hdom'). destruct (Hdom id conf) as [n Hn]; [by rewrite lookup_insert_eq|].
    pose proof (IH id) as Hid. rewrite Hn, Hm in Hid.
    destruct (nodes !! id) as [n1|] eqn:Hn1; [|done]. simpl.
    destruct (bool_decide (_ = conf_DisplayName conf) && _) eqn:Hsame; simpl.
    + destruct (decide (id = id')) as [<-|Hne].
      * rewrite Hn1, Hn, lookup_insert_eq. destruct Hid as [? ?]. split; [done|].
        apply andb_true_iff in Hsame as [_ Hmax]. apply bool_decide_eq_true_1 in Hmax. exact Hmax.
      * rewrite lookup_insert_ne by done. apply IH.
    + destruct (decide (id = id')) as [<-|Hne].
      * rewrite !lookup_insert_eq, Hn. destruct Hid as [Hre _]. split; [|done]. exact Hre.
      * rewrite !lookup_insert_ne by done. apply IH.
Qed.

Lemma index_configurations_spec c configurations : forall byNode byNode',
  index_configurations c configurations byNode = Ok byNode' ->
  (forall id conf, byNode !! id = Some conf -> is_Some (ctl_nodes c !! id)) ->
  (forall id conf, byNode' !! id = Some conf -> is_Some (ctl_nodes c !! id)) /\
  size byNode' = (size byNode + length configurations)%nat.
Proof.
  induction configurations as [|conf rest IH]; simpl; intros byNode byNode'.
  { intros [= <-] H. split; [done|lia]. }
  destruct (_ || _); [done|]. case_bool_decide as Hnew; simpl; [|done].
  destruct (ctl_nodes c !! conf_NodeID conf) as [n|] eqn:Hn; [|done]. intros Hrest Hdom.
  destruct (IH _ _ Hrest) as [H1 H2].
  { intros id cf. rewrite lookup_insert_Some. intros [[<- _]|[_ Hi]]; [by rewrite Hn|by eapply Hdom]. }
  split; [exact H1|]. rewrite H2, map_size_insert_None by done. lia.
Qed.

(** When every node is configured, the outcome is determined node by node. *)
Lemma configurations_cases c configurations :
  (exists err, ApplyNodeConfigurations c configurations = (c, Some err)) \/
  exists c' (byNode : gmap string NodeConfiguration),
    ApplyNodeConfigurations c configurations = (c', None) /\ same_desired c c' /\
    (forall id r, ctl_reservations c !! id = Some r ->
       slot_Index (restored_Slot r) <
       default 0 (conf_MaxRunners <$> byNode !! slot_NodeID (restored_Slot r))) /\
    forall id, match ctl_nodes c' !! id, ctl_nodes c !! id with
               | Some n', Some n =>
                   reconfigured n n' /\
                   (node_limit n').2 = match byNode !! id with
                                       | Some conf => conf_MaxRunners conf
                                       | None => (node_limit n).2
                                       end
               | None, None => True
               | _, _ => False
               end.
Proof.
  unfold ApplyNodeConfigurations. destruct (negb _); [eauto|].
  destruct (index_configurations c configurations ∅) as [byNode|] eqn:Hi; [|eauto].
  apply index_configurations_spec in Hi as [Hdom _]; [|by intros ?? ?%lookup_empty_Some].
  destruct (existsb _ _) eqn:Hex; [eauto|]. right.
  pose proof (configure_fold c byNode Hdom) as Hfold.
  destruct (map_fold configure _ byNode) as [nodes changed]. simpl in Hfold.
  eexists _, byNode. split; [reflexivity|]. split; [by destruct changed|]. split.
  - intros id r Hr. apply not_true_iff_false in Hex. apply Z.lt_nge. intros Hge.
    apply Hex, existsb_exists. exists (id, r).
    rewrite <- list_elem_of_In, elem_of_map_to_list. split; [done|].
    destruct (byNode !! slot_NodeID (restored_Slot r)); rewrite Z.geb_leb; by apply Z.leb_le.
  - by destruct changed.
Qed.
End outcomes.

(** ** Every call keeps the invariant *)

Lemma desired_ok_limits limits limits' executions ids reservations :
  (forall id l, limits' !! id = Some l -> l.1 = id /\ id <> "") ->
  (forall id, is_Some (limits !! id) -> is_Some (limits' !! id)) ->
  (forall id r l, reservations !! id = Some r -> limits' !! slot_NodeID (restored_Slot r) = Some l ->
     slot_Index (restored_Slot r) < l.2) ->
  desired_ok limits executions ids reservations -> desired_ok limits' executions ids reservations.
Proof.
  intros Hid Hdom Hcap [Hn Hx Hu Hi Hr Hs Hc]. split; try done.
  - intros id e He. destruct (Hx id e He) as (? & ? & ?). split_and!; try done. by apply Hdom.
  - intros id r l Hres Hl. split; [|by eapply Hcap]. apply Hr in Hres as (e & He & _ & ->). simpl.
    apply Hx in He as (_ & Hv & _). by apply ExecutionSnapshot_Validate_inv.
Qed.

Lemma ctl_ok_claim c e n :
  ctl_ok c -> ctl_nodes c !! slot_NodeID (exec_Slot e) = Some n ->
  ExecutionSnapshot_Validate e = None -> slot_Index (exec_Slot e) < (node_limit n).2 ->
  ctl_executions c !! exec_ID e = None ->
  (forall id r, ctl_reservations c !! id = Some r -> restored_Slot r = exec_Slot e -> id = exec_ID e) ->
  ctl_ok (commit_claim c e).
Proof.
  intros [Hd Hc Hf] Hn Hv Hidx He Hfree.
  assert (Hk := executions_kept_insert (ctl_executions c) e He). split.
  - assert (Hl : node_limits c !! slot_NodeID (exec_Slot e) = Some (node_limit n)).
    { unfold node_limits. by rewrite lookup_fmap, Hn. }
    pose proof (desired_ok_claim _ _ _ _ _ _ Hd He Hv Hl Hidx Hfree) as H.
    unfold commit_claim. by destruct (terminalExecution (exec_State e)).
  - unfold commit_claim. destruct (terminalExecution _); by eapply commands_ok_kept.
  - unfold commit_claim. destruct (terminalExecution _); by eapply fences_ok_kept.
Qed.

Lemma ctl_ok_command c i e :
  ctl_ok c -> ctl_executions c !! command_ExecutionID (issued_Command i) = Some e ->
  slot_NodeID (exec_Slot e) = issued_NodeID i -> Command_Validate (issued_Command i) = None ->
  commandTypeMatchesExpectedState (issued_Type i) (command_ExpectedState (issued_Command i)) = true ->
  ctl_commands c !! command_ID (issued_Command i) = None ->
  ctl_ok (commit_command c i).
Proof.
  intros [Hd [Hc1 Hc2] Hf] He Hs Hv Hm Hnew. split; [done| |done]. split.
  - intros id j. simpl. rewrite lookup_insert_Some. intros [[<- <-]|[_ Hj]]; [|by apply Hc1].
    split_and!; try done. by exists e.
  - intros x j. unfold commands_of. simpl.
    assert (Hj : forall k, ctl_commands c !! command_ID (issued_Command k) = Some k -> k <> i).
    { intros k Hk ->. congruence. }
    destruct (decide (command_ExecutionID (issued_Command i) = x)) as [<-|Hne].
    + rewrite lookup_insert_eq. simpl. rewrite elem_of_sort_slice, elem_of_app, list_elem_of_singleton.
      unfold commands_of in *. rewrite Hc2, lookup_insert_Some. split.
      * intros [[H1 H2]| ->]; [|by split; [left|]]. split; [|done]. right. split; [|done].
        intros E. rewrite <- E in H1. congruence.
      * intros [[[E ->]|[_ H1]] H2]; [by right|by left].
    + rewrite lookup_insert_ne by done. fold (commands_of (ctl_commandByExecution c) x).
      rewrite Hc2, lookup_insert_Some. split.
      * intros [H1 H2]. split; [|done]. right. split; [|done]. intros E. rewrite <- E in H1. congruence.
      * intros [[[E ->]|[_ H1]] H2]; [congruence|done].
Qed.

Lemma ctl_ok_advance c id e state nodes :
  ctl_ok c -> ctl_executions c !! id = Some e -> isKnownExecutionState state = true ->
  exec_State e = state \/ CanReachExecutionState (exec_State e) state = true ->
  node_limit <$> nodes = node_limits c ->
  ctl_ok (signalChangeLocked
    (set_nodes (set_reservations (set_executions c (<[id := exec_with_state e state]> (ctl_executions c))
                                    (ctl_executionIDs c))
                  (if terminalExecution state then delete id (ctl_reservations c)
                   else ctl_reservations c)) nodes)).
Proof.
  intros [Hd Hc Hf] He Hk Hadv Hl. assert (Hkept := executions_kept_advance _ id e state He). split.
  - unfold node_limits. simpl. rewrite Hl. by apply desired_ok_advance.
  - simpl. by eapply commands_ok_kept.
  - simpl. by eapply fences_ok_kept.
Qed.

Lemma ctl_ok_fence c f :
  ctl_ok c -> is_Some (ctl_executions c !! fence_ExecutionID f) -> validateGitHubFence f = None ->
  ctl_ok (commit_fence c f).
Proof.
  intros [Hd Hc [H1 H2 H3]] He Hv. split; [done|done|]. split; simpl.
  - intros id g. rewrite lookup_insert_Some. intros [[<- <-]|[_ ?]]; [|by apply H1]. by split_and!.
  - intros id g. rewrite lookup_delete_Some. intros [_ ?]. by apply H2.
  - intros id. destruct (decide (fence_ExecutionID f = id)) as [<-|Hne].
    + right. by rewrite lookup_delete_eq.
    + rewrite lookup_insert_ne, lookup_delete_ne by done. apply H3.
Qed.

Lemma ctl_ok_clear c f :
  ctl_ok c -> ctl_fences c !! fence_ExecutionID f = Some f -> ctl_ok (commit_clear c f (fence_ExecutionID f)).
Proof.
  intros [Hd Hc [H1 H2 H3]] Hf. split; [done|done|]. split; simpl.
  - intros id g. rewrite lookup_delete_Some. intros [_ ?]. by apply H1.
  - intros id g. rewrite lookup_insert_Some. intros [[<- <-]|[_ ?]]; [|by apply H2]. by apply H1.
  - intros id. destruct (decide (fence_ExecutionID f = id)) as [<-|Hne].
    + left. by rewrite lookup_delete_eq.
    + rewrite lookup_delete_ne, lookup_insert_ne by done. apply H3.
Qed.

Lemma ctl_ok_ensure c topology definition :
  ctl_ok c -> restartNodeDefinition topology = Ok definition ->
  ctl_nodes c !! topo_NodeID topology = None ->
  ctl_ok (signalChangeLocked (set_node c (topo_NodeID topology)
            (runtimeForNodeDefinition definition (topo_AdministrativeState topology)))).
Proof.
  intros [Hd Hc Hf] Hdef Hnew. apply restartNodeDefinition_node in Hdef as (Hid & Hne & _).
  split; [|done|done]. unfold node_limits. simpl. rewrite fmap_insert, runtime_limit, Hid.
  fold (node_limits c). apply (desired_ok_limits (node_limits c)); [| | |done].
  - intros id l. rewrite lookup_insert_Some. intros [[<- <-]|[_ ?]]; [done|]. by apply Hd.
  - intros id [l Hl]. rewrite lookup_insert_is_Some. destruct (decide (topo_NodeID topology = id)); eauto.
  - intros id r l Hr. rewrite lookup_insert_Some. intros [[Heq <-]|[_ Hl]].
    + exfalso. apply Hd in Hr as (e & He & _ & ->). apply Hd in He as (_ & _ & [l Hl]).
      simpl in Heq. unfold node_limits in Hl. rewrite <- Heq, lookup_fmap, Hnew in Hl. done.
    + by eapply Hd.
Qed.

Lemma ctl_ok_set_node c id n n' :
  ctl_ok c -> ctl_nodes c !! id = Some n -> node_limit n' = node_limit n ->
  ctl_ok (signalChangeLocked (set_node c id n')).
Proof.
  intros Hok Hn Hl. eapply ctl_ok_frame; [apply same_desired_set_node| |exact Hok].
  by apply (node_limits_set_node c id n n').
Qed.

Lemma commit_update_eq c update e n :
  commit_update c update e n =
  signalChangeLocked
    (set_nodes (set_reservations
        (set_executions c (<[update_ExecutionID update := exec_with_state e (update_State update)]>
                             (ctl_executions c)) (ctl_executionIDs c))
        (if terminalExecution (update_State update)
         then delete (update_ExecutionID update) (ctl_reservations c) else ctl_reservations c))
      (<[update_NodeID update := n]> (ctl_nodes c))).
Proof. unfold commit_update, terminalExecution. by destruct (bool_decide _). Qed.

Lemma exec_with_state_eq e e' :
  exec_ID e = exec_ID e' -> exec_TargetID e = exec_TargetID e' -> exec_Slot e = exec_Slot e' ->
  exec_with_state e (exec_State e') = e'.
Proof. destruct e, e'. simpl. by intros -> -> ->. Qed.

Lemma commit_desired_eq c next e :
  exec_ID e = exec_ID next -> exec_TargetID e = exec_TargetID next -> exec_Slot e = exec_Slot next ->
  commit_desired c next =
  signalChangeLocked
    (set_nodes (set_reservations
        (set_executions c (<[exec_ID next := exec_with_state e (exec_State next)]> (ctl_executions c))
           (ctl_executionIDs c))
        (if terminalExecution (exec_State next)
         then delete (exec_ID next) (ctl_reservations c) else ctl_reservations c)) (ctl_nodes c)).
Proof.
  intros H1 H2 H3. rewrite exec_with_state_eq by done. unfold commit_desired.
  by destruct (terminalExecution _).
Qed.

Lemma folded_limit n n' : folded n n' -> node_limit n' = node_limit n.
Proof. unfold folded, node_limit. by intros (-> & _). Qed.

Lemma ctl_ok_configured c c' byNode :
  ctl_ok c -> same_desired c c' ->
  (forall id r, ctl_reservations c !! id = Some r ->
     slot_Index (restored_Slot r) <
     default 0 (conf_MaxRunners <$> (byNode : gmap string NodeConfiguration) !! slot_NodeID (restored_Slot r))) ->
  (forall id, match ctl_nodes c' !! id, ctl_nodes c !! id with
              | Some n', Some n =>
                  reconfigured n n' /\
                  (node_limit n').2 = match byNode !! id with
                                      | Some conf => conf_MaxRunners conf
                                      | None => (node_limit n).2
                                      end
              | None, None => True
              | _, _ => False
              end) ->
  ctl_ok c'.
Proof.
  intros [Hd Hc Hf] [] Hcap Hnodes. split; [|congruence|congruence].
  rewrite sd_executions0, sd_ids0, sd_reservations0. apply (desired_ok_limits (node_limits c)); [| | |done].
  - intros id l. unfold node_limits. rewrite lookup_fmap, fmap_Some. intros (n' & Hn' & ->).
    specialize (Hnodes id). rewrite Hn' in Hnodes. destruct (ctl_nodes c !! id) as [n|] eqn:Hn; [|done].
    destruct Hnodes as [(Hid & _) _]. destruct (do_nodes _ _ _ _ Hd id (node_limit n)) as [H1 H2].
    { unfold node_limits. by rewrite lookup_fmap, Hn. }
    split; [|done]. unfold node_limit in *. simpl in *. congruence.
  - intros id [l Hl]. unfold node_limits in *. rewrite lookup_fmap in *. specialize (Hnodes id).
    destruct (ctl_nodes c !! id); [|done]. by destruct (ctl_nodes c' !! id).
  - intros id r l Hr Hl. pose proof (Hcap id r Hr) as Hlt. unfold node_limits in Hl.
    rewrite lookup_fmap, fmap_Some in Hl. destruct Hl as (n' & Hn' & ->).
    specialize (Hnodes (slot_NodeID (restored_Slot r))). rewrite Hn' in Hnodes.
    destruct (ctl_nodes c !! slot_NodeID (restored_Slot r)) as [n|] eqn:Hn; [|done].
    destruct Hnodes as [_ Hmax]. rewrite Hmax. destruct (byNode !! slot_NodeID (restored_Slot r)); [done|].
    simpl in Hlt. assert (0 <= slot_Index (restored_Slot r)); [|lia].
    apply (do_capacity _ _ _ _ Hd id r (node_limit n) Hr). unfold node_limits. by rewrite lookup_fmap, Hn.
Qed.

Section steps.
Context (marshal : CanonicalSnapshot -> result string) (sha256 : string -> string).

Lemma step_ok c now e : ctl_ok c -> ctl_ok (step marshal sha256 c now e).1.
Proof.
  intros Hok. destruct e as [topology| |snapshot|nodeID|nodeID next rem|confs|nodeID update|claim|i|
    update|nodeID ready|nodeID intent excl|next|update|f|f]; simpl.
  - destruct (ensure_cases c topology) as [[err ->]|(d & Hd & Hn & ->)]; [done|]. by apply ctl_ok_ensure.
  - unfold MarkManagementProjectionUnavailable.
    destruct (ctl_managementProjectionHealthy c); [|done]. by destruct Hok.
  - unfold ReconcileAgentSnapshot. destruct (reconcile_frame marshal sha256 c snapshot now).
    destruct (reconcileAgentSnapshotAt _ _ _ _ _). by eapply ctl_ok_frame.
  - destruct (disconnect_cases c nodeID now) as [[err ->]|(n & n' & Hn & [] & _ & ->)]; [done|].
    by eapply ctl_ok_set_node.
  - destruct (administrative_cases c nodeID next rem) as [[err ->]|(n & n' & Hn & [] & _ & ->)]; [done|].
    by eapply ctl_ok_set_node.
  - destruct (configurations_cases c confs) as [[err ->]|(c' & byNode & -> & ? & ? & ?)]; [done|].
    by eapply ctl_ok_configured.
  - destruct (runner_update_cases c nodeID update) as [[err ->]|(n & n' & Hn & [] & _ & ->)]; [done|].
    by eapply ctl_ok_set_node.
  - destruct (claim_cases marshal sha256 c claim now) as [[err ->]|(n & Hn & Hv & Hi & [[_ ->]|(? & ? & ->)])];
      [done|by apply refold_ok|]. apply refold_ok. by eapply ctl_ok_claim.
  - destruct (command_cases marshal sha256 c i now) as [[err ->]|(e & n & ? & ? & ? & ? & ? & ? & ->)]; [done|].
    apply refold_ok. by eapply ctl_ok_command.
  - destruct (update_cases marshal sha256 c update now) as [[err ->]|(e & n & n' & i & Hc & _ & Hk & Hf & _ & ->)];
      [done|]. apply refold_ok. apply check_update_inv in Hc as (He & Hn & _ & _ & Hadv).
    rewrite commit_update_eq. apply ctl_ok_advance; try done. rewrite fmap_insert.
    rewrite quarantine_on_limit, (folded_limit _ _ Hf). apply insert_id. unfold node_limits. by rewrite lookup_fmap, Hn.
  - destruct (readiness_cases marshal sha256 c nodeID ready now) as [[err ->]|(n & ? & ? & Hn & _ & ->)]; [done|].
    apply refold_ok. by eapply ctl_ok_set_node.
  - destruct (owner_cases marshal sha256 c nodeID intent excl now) as [[err ->]|(n & ? & ? & Hn & _ & ->)]; [done|].
    apply refold_ok. by eapply ctl_ok_set_node.
  - destruct (desired_cases marshal sha256 c next now) as [[err ->]|(e & n & He & Hn & ? & ? & Hv & Hadv & ->)];
      [done|]. apply refold_ok. destruct (do_execution _ _ _ _ (ok_desired c Hok) _ _ He) as (Hid & _).
    rewrite (commit_desired_eq c next e) by done. apply ctl_ok_advance; try done.
    by apply ExecutionSnapshot_Validate_inv.
  - destruct (teardown_cases marshal sha256 c update now) as [[err ->]|(n & n' & i & Hc & _ & Hf & _ & ->)];
      [done|]. apply refold_ok. apply check_teardown_inv in Hc as (Hn & _). eapply ctl_ok_set_node; [done..|].
    by rewrite quarantine_on_limit, (folded_limit _ _ Hf).
  - destruct (fence_cases marshal sha256 c f now) as [[err ->]|(e & n & ? & ? & ? & ? & ->)]; [done|].
    apply refold_ok. by apply ctl_ok_fence.
  - destruct (clear_cases marshal sha256 c f now) as [[err ->]|(e & n & ? & ? & ? & ? & ->)]; [done|].
    apply refold_ok. by apply ctl_ok_clear.
Qed.

Lemma run_ok history : forall c, ctl_ok c -> ctl_ok (run marshal sha256 c history).
Proof.
  induction history as [|[now e] history IH]; intros c Hok; [done|]. by apply IH, step_ok.
Qed.
End steps.
