(* ===== verification/RestoreInv.v ===== *)
(** * Restoration establishes the invariant (internal/reconcile/controller.go)

    Each loop of [Restore] builds its part of the invariant of ReconcileInv.v, so
    a controller that [Restore], [Start] or [RestoreRestart] returns satisfies it. *)

From S2P Require Import Prelude GoStd Domain Execution Replay SlotLedger Scheduler Transport.
From S2P Require Import RunnerUpdate Fence Projection Reconcile ReconcileInv.

(** ** Nodes *)

(** A node as restoration leaves it: topology only, offline, no evidence. *)
Definition fresh_node (id : NodeID) (n : nodeRuntime) : Prop :=
  exists definition admin, n = runtimeForNodeDefinition definition admin /\
    node_ID (def_Node definition) = id /\ validateNodeDefinition definition = None.

Lemma validateNodeDefinition_id d : validateNodeDefinition d = None -> node_ID (def_Node d) <> "".
Proof.
  unfold validateNodeDefinition. destruct (def_PlatformUnknown d).
  - case_bool_decide as Hid; [done|]. intros _ E. apply Hid. rewrite E. by vm_compute.
  - unfold Node_Validate. destruct (required (node_ID (def_Node d)) _) eqn:Hr; [done|].
    intros _. by apply required_nonempty in Hr.
Qed.

Lemma restore_definitions_spec definitions : forall admins nodes admins' nodes',
  restore_definitions definitions admins nodes = Ok (admins', nodes') ->
  map_Forall fresh_node nodes -> map_Forall fresh_node nodes'.
Proof.
  induction definitions as [|d rest IH]; simpl; intros admins nodes admins' nodes'.
  { by intros [= _ <-]. }
  destruct (validateNodeDefinition d) eqn:Hv; [done|].
  destruct (admins !! node_ID (def_Node d)) as [a|] eqn:Ha; [|done].
  destruct (negb _); [done|]. intros Hrest Hn. apply IH in Hrest; [done|].
  apply map_Forall_insert_2; [|done]. by exists d, a.
Qed.

Lemma restoreNodes_spec administration definitions nodes :
  restoreNodes administration definitions = Ok nodes -> map_Forall fresh_node nodes.
Proof.
  unfold restoreNodes. destruct (index_administration _ _) as [admins|]; [|done].
  destruct (restore_definitions _ _ _) as [[admins' nodes']|] eqn:Hd; [|done].
  destruct (negb _); [done|]. intros [= <-]. by eapply restore_definitions_spec.
Qed.

(** ** Reservations and executions *)

(** The reservations read so far own distinct configured slots. *)
Record reservations_read (nodes : gmap string nodeRuntime) (slots : gset SlotKey)
    (restored : gmap string RestoredReservation) : Prop := {
  rr_entry id r : restored !! id = Some r ->
    restored_ExecutionID r = id /\ restored_Slot r ∈ slots /\
    exists n, nodes !! slot_NodeID (restored_Slot r) = Some n /\
      0 <= slot_Index (restored_Slot r) < (node_limit n).2;
  rr_slots id1 id2 r1 r2 : restored !! id1 = Some r1 -> restored !! id2 = Some r2 ->
    restored_Slot r1 = restored_Slot r2 -> id1 = id2;
}.

Lemma restore_reservations_spec nodes reservations : forall slots restored restored',
  restore_reservations nodes reservations slots restored = Ok restored' ->
  reservations_read nodes slots restored -> exists slots', reservations_read nodes slots' restored'.
Proof.
  induction reservations as [|r rest IH]; simpl; intros slots restored restored'.
  { intros [= <-]. eauto. }
  destruct (_ || _) eqn:Hshape; [done|]. destruct (SlotOwner_Validate _); [done|].
  destruct (nodes !! slot_NodeID (resv_Slot r)) as [n|] eqn:Hn; [|done].
  rewrite Z.geb_leb. destruct (Z.leb_spec (node_MaxRunners (ns_Node (rt_scheduler n)))
    (slot_Index (resv_Slot r))); [done|].
  apply orb_false_iff in Hshape as [[_ Hidx]%orb_false_iff _]. apply Z.ltb_ge in Hidx.
  case_bool_decide as Hslot; [done|]. case_bool_decide as Hex; simpl; [|done].
  intros Hrest [He Hs]. eapply IH; [exact Hrest|]. split.
  - intros id r'. rewrite lookup_insert_Some. intros [[<- <-]|[_ Hr]]; simpl.
    + split_and!; [done|set_solver|]. exists n. split; [done|]. unfold node_limit. simpl. lia.
    + destruct (He _ _ Hr) as (? & ? & ?). split_and!; [done|set_solver|done].
  - intros id1 id2 r1 r2 H1 H2. apply lookup_insert_Some in H1 as [[<- <-]|[_ H1]],
      H2 as [[<- <-]|[_ H2]]; simpl; try done.
    + intros E. exfalso. apply Hslot. destruct (He _ _ H2) as (_ & Hin & _). by rewrite E.
    + intros E. exfalso. apply Hslot. destruct (He _ _ H1) as (_ & Hin & _). by rewrite <- E.
    + by eapply Hs.
Qed.

(** The executions read so far agree with the reservations. *)
Record executions_read (nodes : gmap string nodeRuntime)
    (reservations : gmap string RestoredReservation) (restored : gmap string ExecutionSnapshot)
    (ids : list ExecutionID) : Prop := {
  er_entry id e : restored !! id = Some e ->
    exec_ID e = id /\ ExecutionSnapshot_Validate e = None /\
    is_Some (nodes !! slot_NodeID (exec_Slot e)) /\
    if terminalExecution (exec_State e) then reservations !! id = None
    else exists r, reservations !! id = Some r /\ restored_TargetID r = exec_TargetID e /\
                   restored_Slot r = exec_Slot e;
  er_unique : NoDup ids;
  er_ids id : id ∈ ids <-> is_Some (restored !! id);
}.

Lemma executions_read_add nodes reservations restored ids e :
  executions_read nodes reservations restored ids ->
  restored !! exec_ID e = None -> ExecutionSnapshot_Validate e = None ->
  is_Some (nodes !! slot_NodeID (exec_Slot e)) ->
  (if terminalExecution (exec_State e) then reservations !! exec_ID e = None
   else exists r, reservations !! exec_ID e = Some r /\ restored_TargetID r = exec_TargetID e /\
                  restored_Slot r = exec_Slot e) ->
  executions_read nodes reservations (<[exec_ID e := e]> restored) (ids ++ [exec_ID e]).
Proof.
  intros [H1 H2 H3] Hnew Hv Hn Hr. split.
  - intros id e'. rewrite lookup_insert_Some. intros [[<- <-]|[_ ?]]; [|by apply H1]. by split_and!.
  - apply NoDup_app. split_and!; [done| |apply NoDup_singleton].
    intros x Hx%H3 ->%list_elem_of_singleton. rewrite Hnew in Hx. by destruct Hx.
  - intros id. rewrite elem_of_app, list_elem_of_singleton, H3, lookup_insert_is_Some.
    destruct (decide (exec_ID e = id)); naive_solver.
Qed.

Lemma restore_executions_spec nodes reservations executions : forall restored ids restored' ids',
  restore_executions nodes reservations executions restored ids = Ok (restored', ids') ->
  executions_read nodes reservations restored ids -> executions_read nodes reservations restored' ids'.
Proof.
  induction executions as [|e rest IH]; simpl; intros restored ids restored' ids'.
  { by intros [= <- <-]. }
  destruct (ExecutionSnapshot_Validate e) eqn:Hv; [done|].
  destruct (nodes !! slot_NodeID (exec_Slot e)) as [n|] eqn:Hn; simpl; [|done].
  case_bool_decide as Hnew; simpl; [|done].
  destruct (terminalExecution (exec_State e)) eqn:Ht.
  - case_bool_decide as Hr; simpl; [|done]. intros Hrest Hread. eapply IH; [exact Hrest|].
    apply executions_read_add; try done. by rewrite Ht.
  - destruct (reservations !! exec_ID e) as [r|] eqn:Hr; [|done].
    case_bool_decide as Htarget; simpl; [|done]. case_bool_decide as Hslot; simpl; [|done].
    intros Hrest Hread. eapply IH; [exact Hrest|].
    apply executions_read_add; try done. rewrite Ht. eauto.
Qed.

Lemma restoreDesired_ok nodes executions reservations restored ids reserved :
  map_Forall fresh_node nodes ->
  restoreDesired nodes executions reservations = Ok (restored, ids, reserved) ->
  desired_ok (node_limit <$> nodes) restored ids reserved.
Proof.
  intros Hfresh. unfold restoreDesired.
  destruct (restore_reservations _ _ _ _) as [rs|] eqn:Hr; [|done].
  destruct (restore_executions _ _ _ _ _) as [[es is_]|] eqn:He; [|done].
  destruct (existsb _ _) eqn:Hex; [done|]. intros [= <- <- <-].
  apply restore_reservations_spec in Hr as [slots [Hr1 Hr2]].
  2:{ split; intros *; by rewrite lookup_empty. }
  apply restore_executions_spec in He as [He1 He2 He3].
  2:{ split; [intros *; by rewrite lookup_empty|constructor|]. intros id. rewrite lookup_empty.
      split; [by intros ?%not_elem_of_nil|by intros []]. }
  split; try done.
  - intros id l. rewrite lookup_fmap, fmap_Some. intros (n & Hn & ->).
    destruct (Hfresh _ _ Hn) as (d & a & -> & <- & Hv). rewrite runtime_limit. simpl.
    split; [done|by apply validateNodeDefinition_id].
  - intros id e (? & ? & [n Hn] & _)%He1. rewrite lookup_fmap, Hn. split_and!; eauto.
  - by rewrite sort_slice_perm.
  - intros id. by rewrite elem_of_sort_slice.
  - intros id r. split.
    + intros Hid. assert (is_Some (es !! id)) as [e Hes].
      { destruct (es !! id) eqn:E; [eauto|]. exfalso. apply not_true_iff_false in Hex. apply Hex.
        apply existsb_exists. exists (id, r). rewrite <- list_elem_of_In, elem_of_map_to_list.
        split; [done|]. by rewrite E. }
      exists e. destruct (He1 _ _ Hes) as (Heid & _ & _ & Hm).
      destruct (terminalExecution (exec_State e)); [congruence|]. split_and!; try done.
      destruct Hm as (r' & Hr' & Ht & Hs). rewrite Hr' in Hid. injection Hid as ->.
      destruct (Hr1 _ _ Hr') as (Hx & _). destruct r. unfold reservation_of_execution. simpl in *.
      congruence.
    + intros (e & Hes & Ht & ->). destruct (He1 _ _ Hes) as (Heid & _ & _ & Hm). rewrite Ht in Hm.
      destruct Hm as (r' & Hr' & Htgt & Hs). rewrite Hr'. f_equal. destruct (Hr1 _ _ Hr') as (Hx & _).
      destruct r'. unfold reservation_of_execution. simpl in *. congruence.
  - intros id r l Hid. destruct (Hr1 _ _ Hid) as (_ & _ & n & Hn & Hb). rewrite lookup_fmap, Hn.
    by intros [= <-].
Qed.

(** ** Commands and fences *)

Lemma commands_of_insert by_ x y l :
  commands_of (<[x := l]> by_) y = if decide (x = y) then l else commands_of by_ y.
Proof.
  unfold commands_of. destruct (decide (x = y)) as [<-|]; [by rewrite lookup_insert_eq|].
  by rewrite lookup_insert_ne.
Qed.

Lemma restore_command_loop_ok epoch executions issued : forall commands by_ commands' by_',
  restore_command_loop epoch executions issued commands by_ = Ok (commands', by_') ->
  commands_ok executions commands by_ -> commands_ok executions commands' by_'.
Proof.
  induction issued as [|i rest IH]; simpl; intros commands by_ commands' by_'.
  { by intros [= <- <-]. }
  destruct (bool_decide _); [done|]. destruct (CommandType_Validate _ _); [done|].
  destruct (Command_Validate (issued_Command i)) eqn:Hv; [done|]. destruct (_ >? _); [done|].
  destruct (executions !! command_ExecutionID (issued_Command i)) as [e|] eqn:He; [|done].
  case_bool_decide as Hnode; simpl; [|done].
  destruct (commandTypeMatchesExpectedState _ _) eqn:Hm; simpl; [|done].
  case_bool_decide as Hnew; simpl; [|done]. intros Hrest [Hc1 Hc2]. eapply IH; [exact Hrest|]. split.
  - intros id j. rewrite lookup_insert_Some. intros [[<- <-]|[_ Hj]]; [|by apply Hc1].
    split_and!; try done. by exists e.
  - intros x j. rewrite commands_of_insert, lookup_insert_Some. destruct (decide _) as [<-|Hne].
    + rewrite elem_of_app, list_elem_of_singleton, Hc2. split.
      * intros [[H1 H2]| ->]; [|by split; [left|]]. split; [|done]. right. split; [|done].
        intros E. rewrite <- E in H1. congruence.
      * intros [[[_ ->]|[_ H1]] H2]; [by right|by left].
    + rewrite Hc2. split.
      * intros [H1 H2]. split; [|done]. right. split; [|done]. intros E. rewrite <- E in H1. congruence.
      * intros [[[_ ->]|[_ H1]] H2]; [congruence|done].
Qed.

Lemma restoreCommands_ok epoch executions issued commands by_ :
  restoreCommands epoch executions issued = Ok (commands, by_) -> commands_ok executions commands by_.
Proof.
  unfold restoreCommands. destruct (restore_command_loop _ _ _ _ _) as [[cs bs]|] eqn:Hl; [|done].
  intros [= <- <-]. apply restore_command_loop_ok in Hl as [H1 H2].
  - split; [done|]. intros x i. unfold commands_of. rewrite lookup_fmap. rewrite <- H2.
    unfold commands_of. destruct (bs !! x); simpl; [|done]. apply elem_of_sort_slice.
  - split; [by intros ?? ?%lookup_empty_Some|]. intros x i. unfold commands_of.
    rewrite !lookup_empty. simpl. split; [by intros ?%not_elem_of_nil|by intros [? _]].
Qed.

Lemma restoreFences_ok executions issued : forall fences fences',
  restoreFences executions issued fences = Ok fences' ->
  fences_ok executions fences ∅ -> fences_ok executions fences' ∅.
Proof.
  induction issued as [|f rest IH]; simpl; intros fences fences'; [by intros [= <-]|].
  destruct (executions !! fence_ExecutionID f) as [e|] eqn:He; simpl; [|done].
  case_bool_decide as Hnew; simpl; [|done]. destruct (validateGitHubFence f) eqn:Hv; [done|].
  intros Hrest [H1 H2 H3]. eapply IH; [exact Hrest|]. split; [|done|].
  - intros id g. rewrite lookup_insert_Some. intros [[<- <-]|[_ ?]]; [|by apply H1]. split_and!; eauto.
  - intros id. right. apply lookup_empty.
Qed.

(** ** Restore *)

Lemma Restore_spec epoch snapshot config c :
  Restore epoch snapshot config = Ok c ->
  ctl_ok c /\ map_Forall fresh_node (ctl_nodes c) /\ ctl_epoch c = epoch /\ epoch <> 0 /\
  cs_ControllerEpoch snapshot = epoch /\ ctl_clearedFences c = ∅.
Proof.
  unfold Restore. unfold ControllerEpoch_Validate. case_bool_decide as Hz; [done|].
  case_bool_decide as Hepoch; simpl; [|done].
  destruct (restoreNodes _ _) as [nodes|] eqn:Hn; [|done]. apply restoreNodes_spec in Hn.
  destruct (restoreDesired _ _ _) as [[[executions ids] reservations]|] eqn:Hd; [|done].
  destruct (restoreCommands _ _ _) as [[commands by_]|] eqn:Hc; [|done].
  destruct (restoreFences _ _ _) as [fences|] eqn:Hf; [|done]. intros [= <-].
  split_and!; try done. split; simpl.
  - by eapply restoreDesired_ok.
  - by eapply restoreCommands_ok.
  - eapply restoreFences_ok; [exact Hf|]. split.
    + intros id f. by rewrite lookup_empty.
    + intros id f. by rewrite lookup_empty.
    + intros id. left. apply lookup_empty.
Qed.
