(* ===== verification/RestoreSuccess.v ===== *)
(** * When restoration succeeds (internal/reconcile/controller.go)

    RestoreInv.v shows what a restored Controller satisfies.  This file has the converse:
    each loop of [Restore] accepts lists without repetitions whose items are valid and
    agree with each other, and indexes exactly them. *)

From S2P Require Import Prelude GoStd Domain Execution Replay SlotLedger Scheduler Transport.
From S2P Require Import RunnerUpdate Fence Projection.

(** ** Indexing a list *)

Section indexing.
Context {X V : Type} {K : Type} `{Countable K} (key : X -> K) (val : X -> V).

(** [m] is [acc] with the items of [l] under their keys. *)
Definition indexed (l : list X) (acc m : gmap K V) : Prop :=
  forall k v, m !! k = Some v <-> (exists x, x ∈ l /\ key x = k /\ val x = v) \/ acc !! k = Some v.
(** The items have keys of their own. *)
Definition fresh_keys {W} (l : list X) (acc : gmap K W) : Prop :=
  NoDup (map key l) /\ forall x, x ∈ l -> acc !! key x = None.

Lemma indexed_nil acc : indexed [] acc acc.
Proof.
  intros k v. split; [by right|]. intros [(x & Hx & _)|?]; [|done]. by apply elem_of_nil in Hx.
Qed.
Lemma indexed_cons x l acc m :
  acc !! key x = None -> indexed l (<[key x := val x]> acc) m -> indexed (x :: l) acc m.
Proof.
  intros Hnew Hm k v. rewrite (Hm k v). clear Hm. split.
  - intros [(y & Hy & Hk & Hv)|[[<- <-]|[_ Hk]]%lookup_insert_Some]; [left|left|by right].
    + exists y. split; [by constructor|done].
    + exists x. split; [constructor|done].
  - intros [(y & [->|Hy]%elem_of_cons & Hk & Hv)|Hk].
    + right. rewrite <- Hk, <- Hv. apply lookup_insert_eq.
    + left. eauto.
    + right. rewrite lookup_insert_ne; [done|]. congruence.
Qed.
Lemma fresh_keys_cons {W} x l (acc : gmap K W) :
  fresh_keys (x :: l) acc -> acc !! key x = None /\ forall v, fresh_keys l (<[key x := v]> acc).
Proof.
  intros [[Hx Hl]%NoDup_cons Hacc]. split; [apply Hacc; constructor|]. intros v. split; [done|].
  intros y Hy. rewrite lookup_insert_ne; [apply Hacc; by constructor|]. intros Heq. apply Hx. rewrite Heq.
  by apply list_elem_of_fmap_2.
Qed.
Lemma indexed_lookup l acc m x :
  indexed l acc m -> x ∈ l -> m !! key x = Some (val x).
Proof. intros Hm Hx. apply Hm. left. by exists x. Qed.
Lemma indexed_empty l m k v : indexed l ∅ m -> m !! k = Some v -> exists x, x ∈ l /\ key x = k /\ val x = v.
Proof. intros Hm [?|Hk]%Hm; [done|]. by rewrite lookup_empty in Hk. Qed.
End indexing.

(** ** Nodes *)

Definition authority_valid (n : NodeAdministration) : Prop :=
  TrimSpace (admin_NodeID n) <> "" /\
  NodeAdministrativeState_Validate (admin_State n) "controller_snapshot.node.state" = None.
Lemma index_administration_indexed admins acc :
  Forall authority_valid admins -> fresh_keys admin_NodeID admins acc ->
  exists m, index_administration admins acc = Ok m /\ indexed admin_NodeID admin_State admins acc m.
Proof.
  intros Hv. revert acc. induction Hv as [|n admins [Hid Hst] _ IH]; intros acc Hf; simpl.
  { exists acc. split; [done|apply indexed_nil]. }
  apply fresh_keys_cons in Hf as [Hnew Hf]. rewrite bool_decide_eq_false_2, Hst, Hnew by done. simpl.
  destruct (IH _ (Hf (admin_State n))) as (m & Hm & Hi). exists m. split; [exact Hm|by apply indexed_cons].
Qed.

Definition def_ID (d : NodeDefinition) : NodeID := node_ID (def_Node d).
Lemma restore_definitions_indexed definitions : forall admins nodes,
  Forall (fun d => validateNodeDefinition d = None) definitions -> fresh_keys def_ID definitions nodes ->
  (forall d, d ∈ definitions -> is_Some (admins !! def_ID d)) ->
  exists admins' nodes', restore_definitions definitions admins nodes = Ok (admins', nodes') /\
    (forall id, admins' !! id = if bool_decide (id ∈ map def_ID definitions) then None else admins !! id) /\
    (forall id n, nodes' !! id = Some n <->
       (exists d state, d ∈ definitions /\ def_ID d = id /\ admins !! id = Some state /\
          n = runtimeForNodeDefinition d state) \/ nodes !! id = Some n).
Proof.
  induction definitions as [|d definitions IH]; intros admins nodes Hv Hf Ha; simpl.
  { exists admins, nodes. split; [done|]. split; [done|]. intros id n. split; [by right|].
    intros [(d & st & Hd & _)|?]; [|done]. by apply elem_of_nil in Hd. }
  apply Forall_cons in Hv as [-> Hv]. simpl. destruct (Ha d) as [state Hst]; [constructor|].
  fold (def_ID d). rewrite Hst. pose proof (proj1 Hf) as Hnd. apply fresh_keys_cons in Hf as [Hnew Hf]. rewrite Hnew. simpl.
  apply NoDup_cons in Hnd as [Hnd _].
  destruct (IH (delete (def_ID d) admins) (<[def_ID d := runtimeForNodeDefinition d state]> nodes))
    as (admins' & nodes' & E & Hadm & Hnodes); [done|apply Hf| |].
  { intros d' Hd'. rewrite lookup_delete_ne; [apply Ha; by constructor|]. intros Heq. apply Hnd. rewrite Heq.
    by apply list_elem_of_fmap_2. }
  exists admins', nodes'. split; [exact E|]. split.
  - intros id. rewrite Hadm. destruct (decide (id = def_ID d)) as [->|Hne].
    + rewrite bool_decide_eq_false_2 by done. rewrite bool_decide_eq_true_2 by constructor. apply lookup_delete_eq.
    + rewrite lookup_delete_ne by done. destruct (decide (id ∈ map def_ID definitions)) as [Hin|Hin].
      * rewrite !bool_decide_eq_true_2; [done|by constructor|done].
      * rewrite !bool_decide_eq_false_2; [done| |done]. by intros [?|?]%elem_of_cons.
  - intros id n. rewrite Hnodes. split.
    + intros [(d' & st & Hd' & <- & Hst' & ->)|[[<- <-]|[Hne Hn]]%lookup_insert_Some]; [left|left|by right].
      * exists d', st. apply lookup_delete_Some in Hst' as [_ Hst']. split; [by constructor|done].
      * exists d, state. split; [constructor|done].
    + intros [(d' & st & [->|Hd']%elem_of_cons & <- & Hst' & ->)|Hn].
      * right. rewrite Hst in Hst'. injection Hst' as ->. apply lookup_insert_eq.
      * left. exists d', st. split; [done|]. split; [done|]. split; [|done]. apply lookup_delete_Some. split; [|done].
        intros Heq. apply Hnd. rewrite Heq. by apply list_elem_of_fmap_2.
      * right. rewrite lookup_insert_ne; [done|]. congruence.
Qed.

(** Every node has one definition and one state. *)
Record nodes_restorable (administration : list NodeAdministration) (definitions : list NodeDefinition) : Prop := {
  nr_states : Forall authority_valid administration;
  nr_states_unique : NoDup (map admin_NodeID administration);
  nr_definitions : Forall (fun d => validateNodeDefinition d = None) definitions;
  nr_definitions_unique : NoDup (map def_ID definitions);
  nr_same : forall id, id ∈ map def_ID definitions <-> id ∈ map admin_NodeID administration }.
Lemma restoreNodes_succeeds administration definitions :
  nodes_restorable administration definitions ->
  exists nodes, restoreNodes administration definitions = Ok nodes /\
    forall id n, nodes !! id = Some n <-> exists d a, d ∈ definitions /\ a ∈ administration /\
      def_ID d = id /\ admin_NodeID a = id /\ n = runtimeForNodeDefinition d (admin_State a).
Proof.
  intros [Hs Hsu Hd Hdu Hsame]. unfold restoreNodes.
  destruct (index_administration_indexed administration ∅ Hs) as (m & -> & Hm); [by split|]. simpl.
  destruct (restore_definitions_indexed definitions m ∅ Hd) as (admins' & nodes & -> & Hadm & Hnodes); [by split| |].
  { intros d Hin. assert (H : def_ID d ∈ map admin_NodeID administration) by (by apply Hsame, list_elem_of_fmap_2).
    apply list_elem_of_fmap in H as (a & Ha & Hin'). rewrite Ha. exists (admin_State a).
    by apply (indexed_lookup _ _ _ _ _ _ Hm). }
  simpl. rewrite bool_decide_eq_true_2.
  - exists nodes. split; [done|]. intros id n. rewrite Hnodes, lookup_empty. split.
    + intros [(d & st & Hin & <- & Hst & ->)|?]; [|done].
      destruct (indexed_empty _ _ _ _ _ _ Hm Hst) as (a & Ha & Hid & <-). by exists d, a.
    + intros (d & a & Hin & Ha & <- & Hid & ->). left. exists d, (admin_State a). split; [done|]. split; [done|].
      split; [|done]. rewrite <- Hid. by apply (indexed_lookup _ _ _ _ _ _ Hm).
  - apply map_eq. intros id. rewrite Hadm, lookup_empty. case_bool_decide as Hin; [done|].
    destruct (m !! id) as [st|] eqn:Hid; [|done]. destruct (indexed_empty _ _ _ _ _ _ Hm Hid) as (a & Ha & <- & _).
    destruct Hin. apply Hsame. by apply list_elem_of_fmap_2.
Qed.

(** ** Desired state *)

Definition resv_ID (r : SlotReservation) : ExecutionID := owner_ExecutionID (resv_Owner r).
Definition restored_of (r : SlotReservation) : RestoredReservation :=
  mkRestoredReservation (owner_TargetID (resv_Owner r)) (resv_Slot r) (resv_ID r).
(** A reservation names a slot its node has. *)
Definition reservation_placed (nodes : gmap string nodeRuntime) (r : SlotReservation) : Prop :=
  slot_NodeID (resv_Slot r) <> "" /\ resv_ID r <> "" /\ SlotOwner_Validate (resv_Owner r) = None /\
  exists node, nodes !! slot_NodeID (resv_Slot r) = Some node /\
    0 <= slot_Index (resv_Slot r) < node_MaxRunners (ns_Node (rt_scheduler node)).
Lemma restore_reservations_indexed nodes reservations : forall slots restored,
  Forall (reservation_placed nodes) reservations -> NoDup (map resv_Slot reservations) ->
  (forall r, r ∈ reservations -> resv_Slot r ∉ slots) -> fresh_keys resv_ID reservations restored ->
  exists m, restore_reservations nodes reservations slots restored = Ok m /\
    indexed resv_ID restored_of reservations restored m.
Proof.
  induction reservations as [|r reservations IH]; intros slots restored Hp Hnd Hs Hf; simpl.
  { exists restored. split; [done|apply indexed_nil]. }
  apply Forall_cons in Hp as [(Hnode & Hid & Hv & node & Hn & Hindex) Hp]. apply NoDup_cons in Hnd as [Hslot Hnd].
  apply fresh_keys_cons in Hf as [Hnew Hf]. rewrite Hv, Hn. fold (resv_ID r). rewrite Hnew.
  rewrite (bool_decide_eq_false_2 (slot_NodeID _ = _)), (bool_decide_eq_false_2 (resv_ID r = _)) by done.
  rewrite (bool_decide_eq_false_2 (resv_Slot r ∈ slots)) by (apply Hs; constructor).
  replace (slot_Index (resv_Slot r) <? 0) with false by (symmetry; apply Z.ltb_ge; lia).
  rewrite Z.geb_leb. replace (_ <=? slot_Index (resv_Slot r)) with false by (symmetry; apply Z.leb_gt; lia). simpl.
  destruct (IH ({[resv_Slot r]} ∪ slots) (<[resv_ID r := restored_of r]> restored)) as (m & E & Hm); try done.
  { intros r' Hr' [Heq%elem_of_singleton|Hin]%elem_of_union.
    - apply Hslot. rewrite <- Heq. by apply list_elem_of_fmap_2.
    - by apply (Hs r'); [constructor|]. }
  exists m. split; [exact E|by apply indexed_cons].
Qed.

(** An execution is on a known node and has exactly the reservation it needs. *)
Definition execution_restorable (nodes : gmap string nodeRuntime) (reserved : gmap string RestoredReservation)
    (e : ExecutionSnapshot) : Prop :=
  ExecutionSnapshot_Validate e = None /\ is_Some (nodes !! slot_NodeID (exec_Slot e)) /\
  if terminalExecution (exec_State e) then reserved !! exec_ID e = None
  else exists r, reserved !! exec_ID e = Some r /\ restored_TargetID r = exec_TargetID e /\
         restored_Slot r = exec_Slot e.
Lemma restore_executions_indexed nodes reserved executions : forall restored ids,
  Forall (execution_restorable nodes reserved) executions -> fresh_keys exec_ID executions restored ->
  exists m ids', restore_executions nodes reserved executions restored ids = Ok (m, ids') /\
    indexed exec_ID id executions restored m.
Proof.
  induction executions as [|e executions IH]; intros restored ids He Hf; simpl.
  { exists restored, ids. split; [done|apply indexed_nil]. }
  apply Forall_cons in He as [(Hv & [node Hn] & Hr) He]. apply fresh_keys_cons in Hf as [Hnew Hf].
  rewrite Hv, Hn, Hnew. simpl.
  destruct (IH (<[exec_ID e := e]> restored) (ids ++ [exec_ID e]) He (Hf e)) as (m & ids' & E & Hm).
  exists m, ids'. split; [|by apply indexed_cons]. destruct (terminalExecution _).
  - rewrite Hr. simpl. exact E.
  - destruct Hr as (r & -> & Ht & Hs). rewrite Ht, Hs, !bool_decide_eq_true_2 by done. simpl. exact E.
Qed.

Record desired_restorable (nodes : gmap string nodeRuntime) (executions : list ExecutionSnapshot)
    (reservations : list SlotReservation) : Prop := {
  dr_placed : Forall (reservation_placed nodes) reservations;
  dr_slots : NoDup (map resv_Slot reservations);
  dr_owners : NoDup (map resv_ID reservations);
  dr_owned : forall r, r ∈ reservations -> exists e, e ∈ executions /\ exec_ID e = resv_ID r;
  dr_unique : NoDup (map exec_ID executions);
  dr_valid : Forall (fun e => ExecutionSnapshot_Validate e = None /\ is_Some (nodes !! slot_NodeID (exec_Slot e))) executions;
  dr_terminal : forall e, e ∈ executions -> terminalExecution (exec_State e) = true ->
    forall r, r ∈ reservations -> resv_ID r <> exec_ID e;
  dr_active : forall e, e ∈ executions -> terminalExecution (exec_State e) = false ->
    exists r, r ∈ reservations /\ resv_ID r = exec_ID e /\ owner_TargetID (resv_Owner r) = exec_TargetID e /\
      resv_Slot r = exec_Slot e }.
Lemma restoreDesired_succeeds nodes executions reservations :
  desired_restorable nodes executions reservations ->
  exists m ids reserved, restoreDesired nodes executions reservations = Ok (m, ids, reserved) /\
    indexed exec_ID id executions ∅ m /\ indexed resv_ID restored_of reservations ∅ reserved.
Proof.
  intros [Hp Hs Ho Hown Hu Hv Ht Ha]. unfold restoreDesired.
  destruct (restore_reservations_indexed nodes reservations ∅ ∅ Hp Hs) as (reserved & -> & Hr);
    [set_solver|by split|]. simpl.
  destruct (restore_executions_indexed nodes reserved executions ∅ []) as (m & ids & -> & Hm); [|by split|].
  { apply Forall_forall. intros e He. rewrite Forall_forall in Hv. destruct (Hv e He) as [H1 H2]. split; [done|].
    split; [done|]. destruct (terminalExecution _) eqn:Hst.
    - destruct (reserved !! exec_ID e) as [r|] eqn:E; [|done].
      destruct (indexed_empty _ _ _ _ _ _ Hr E) as (r' & Hin & Hid & _). by destruct (Ht e He Hst r' Hin).
    - destruct (Ha e He Hst) as (r & Hin & Hid & Htg & Hsl). exists (restored_of r). rewrite <- Hid.
      split; [by apply (indexed_lookup _ _ _ _ _ _ Hr)|done]. }
  simpl. destruct (existsb _ _) eqn:Hex; [exfalso|by eexists _, _, _].
  apply existsb_exists in Hex as ([id r] & Hin & Hnone). apply list_elem_of_In, elem_of_map_to_list in Hin.
  destruct (indexed_empty _ _ _ _ _ _ Hr Hin) as (r' & Hin' & <- & _). destruct (Hown r' Hin') as (e & He & Hid).
  pose proof (indexed_lookup _ _ _ _ _ _ Hm He) as Hlook. rewrite Hid in Hlook. by rewrite Hlook in Hnone.
Qed.

(** ** Commands and fences *)

Definition issued_ID (i : IssuedCommand) : CommandID := command_ID (issued_Command i).
Definition command_restorable (epoch : ControllerEpoch) (executions : gmap string ExecutionSnapshot)
    (i : IssuedCommand) : Prop :=
  issued_NodeID i <> "" /\ CommandType_Validate (issued_Type i) "commands.type" = None /\
  Command_Validate (issued_Command i) = None /\ command_ControllerEpoch (issued_Command i) <= epoch /\
  (exists e, executions !! command_ExecutionID (issued_Command i) = Some e /\
     slot_NodeID (exec_Slot e) = issued_NodeID i) /\
  commandTypeMatchesExpectedState (issued_Type i) (command_ExpectedState (issued_Command i)) = true.
Lemma restore_command_loop_indexed epoch executions issued : forall commands by_,
  Forall (command_restorable epoch executions) issued -> fresh_keys issued_ID issued commands ->
  exists commands' by_', restore_command_loop epoch executions issued commands by_ = Ok (commands', by_') /\
    indexed issued_ID id issued commands commands'.
Proof.
  induction issued as [|i issued IH]; intros commands by_ Hi Hf; simpl.
  { exists commands, by_. split; [done|apply indexed_nil]. }
  apply Forall_cons in Hi as [(Hn & Ht & Hc & He & (e & Hex & Hnode) & Hm) Hi]. apply fresh_keys_cons in Hf as [Hnew Hf].
  rewrite (bool_decide_eq_false_2 (issued_NodeID i = _)), Ht, Hc by done.
  rewrite Z.gtb_ltb. replace (_ <? _) with false by (symmetry; apply Z.ltb_ge; lia).
  rewrite Hex, Hnode, bool_decide_eq_true_2, Hm by done. fold (issued_ID i). rewrite Hnew. simpl.
  destruct (IH (<[issued_ID i := i]> commands)
    (<[command_ExecutionID (issued_Command i) := commands_of by_ (command_ExecutionID (issued_Command i)) ++ [i]]> by_)
    Hi (Hf i)) as (commands' & by_' & E & Hm').
  exists commands', by_'. split; [exact E|by apply indexed_cons].
Qed.
Lemma restoreCommands_succeeds epoch executions issued :
  Forall (command_restorable epoch executions) issued -> NoDup (map issued_ID issued) ->
  exists commands by_, restoreCommands epoch executions issued = Ok (commands, by_) /\
    indexed issued_ID id issued ∅ commands.
Proof.
  intros Hi Hnd. unfold restoreCommands.
  destruct (restore_command_loop_indexed epoch executions issued ∅ ∅ Hi) as (commands & by_ & -> & Hm); [by split|].
  simpl. by eexists _, _.
Qed.
Lemma restoreFences_succeeds executions fences : forall restored,
  Forall (fun f => is_Some (executions !! fence_ExecutionID f) /\ validateGitHubFence f = None) fences ->
  fresh_keys fence_ExecutionID fences restored ->
  exists m, restoreFences executions fences restored = Ok m /\ indexed fence_ExecutionID id fences restored m.
Proof.
  induction fences as [|f fences IH]; intros restored Hv Hf; simpl.
  { exists restored. split; [done|apply indexed_nil]. }
  apply Forall_cons in Hv as [[[e He] Hv] Hvs]. apply fresh_keys_cons in Hf as [Hnew Hf]. rewrite He, Hnew, Hv. simpl.
  destruct (IH _ Hvs (Hf f)) as (m & E & Hm). exists m. split; [exact E|by apply indexed_cons].
Qed.
