(* ===== verification/PassFacts.v ===== *)
(** * Lemmas about one pass over a snapshot (internal/reconcile/controller.go)

    What it means for desired and observed state to agree about a node, what a
    pass that asks for nothing or holds an execution back has seen, what [Admission]
    allows, and which actions a pass may ask for. *)

From S2P Require Import Prelude GoStd Domain Execution Replay SlotLedger Scheduler Transport.
From S2P Require Import RunnerUpdate Fence Projection Reconcile ReconcileInv.

(** ** Executions only advance *)

Lemma can_reach_trans a b c :
  CanReachExecutionState a b = true -> CanReachExecutionState b c = true ->
  CanReachExecutionState a c = true.
Proof.
  intros Hab Hbc. destruct (can_reach_known _ _ Hab) as [Ha Hb], (can_reach_known _ _ Hbc) as [_ Hc].
  pose proof (known_forall3 (fun a b c => implb (CanReachExecutionState a b &&
    CanReachExecutionState b c) (CanReachExecutionState a c)) ltac:(by vm_compute) a b c Ha Hb Hc) as H.
  cbv beta in H. by rewrite Hab, Hbc in H.
Qed.

(** Every execution is kept with its target and slot, in a state the lifecycle
    reaches from the old one. *)
Definition executions_advance (old new : gmap string ExecutionSnapshot) : Prop :=
  forall id e, old !! id = Some e ->
    exists e', new !! id = Some e' /\ exec_Slot e' = exec_Slot e /\ exec_TargetID e' = exec_TargetID e /\
      CanReachExecutionState (exec_State e) (exec_State e') = true.

Definition valid_executions (executions : gmap string ExecutionSnapshot) : Prop :=
  map_Forall (fun id e => exec_ID e = id /\ isKnownExecutionState (exec_State e) = true) executions.

Lemma ctl_ok_valid c : ctl_ok c -> valid_executions (ctl_executions c).
Proof.
  intros Hok id e He. destruct (do_execution _ _ _ _ (ok_desired c Hok) _ _ He) as (? & Hv & _).
  split; [done|]. by apply ExecutionSnapshot_Validate_inv.
Qed.

Lemma executions_advance_refl executions :
  valid_executions executions -> executions_advance executions executions.
Proof. intros Hv id e He. exists e. split_and!; try done. apply can_reach_refl. by eapply Hv. Qed.

Lemma executions_advance_trans e1 e2 e3 :
  executions_advance e1 e2 -> executions_advance e2 e3 -> executions_advance e1 e3.
Proof.
  intros H12 H23 id e He. destruct (H12 _ _ He) as (e' & He' & ? & ? & ?).
  destruct (H23 _ _ He') as (e'' & He'' & ? & ? & ?). exists e''.
  split_and!; [done|congruence|congruence|]. by eapply can_reach_trans.
Qed.

Lemma executions_advance_state executions id e state :
  valid_executions executions -> executions !! id = Some e ->
  exec_State e = state \/ CanReachExecutionState (exec_State e) state = true ->
  executions_advance executions (<[id := exec_with_state e state]> executions).
Proof.
  intros Hv He Hadv id' e' He'. destruct (decide (id = id')) as [<-|Hne].
  - exists (exec_with_state e state). rewrite lookup_insert_eq. rewrite He in He'. injection He' as <-.
    split_and!; try done. simpl. destruct Hadv as [<-|]; [|done]. apply can_reach_refl. by eapply Hv.
  - rewrite lookup_insert_ne by done. exact (executions_advance_refl _ Hv id' e' He').
Qed.

Lemma executions_advance_new executions e :
  valid_executions executions -> executions !! exec_ID e = None ->
  executions_advance executions (<[exec_ID e := e]> executions).
Proof.
  intros Hv Hnew id e' He'. rewrite lookup_insert_ne by congruence.
  exact (executions_advance_refl _ Hv id e' He').
Qed.

(** ** Capacity means agreement *)

(** Desired state and the Agent's snapshot agree about a node: every live desired
    execution is observed running in exactly its desired state, nothing else runs,
    no cleanup is uncertain and no provider fence is open. *)
Record agreement (c : Controller) (nodeID : NodeID) (snapshot : AgentSnapshot) : Prop := {
  ag_live id e : ctl_executions c !! id = Some e -> slot_NodeID (exec_Slot e) = nodeID ->
    terminalExecution (exec_State e) = false ->
    exec_State e ∈ [ExecutionPreparing; ExecutionRunning; ExecutionCleaning] /\
    exists o, o ∈ snap_Observations snapshot /\ obs_ExecutionID o = id /\ obs_State o = exec_State e;
  ag_terminal id e o : ctl_executions c !! id = Some e -> slot_NodeID (exec_Slot e) = nodeID ->
    terminalExecution (exec_State e) = true ->
    o ∈ snap_Observations snapshot -> obs_ExecutionID o = id -> localRuntimeMayExist (obs_State o) = false;
  ag_known o : o ∈ snap_Observations snapshot -> localRuntimeMayExist (obs_State o) = true ->
    is_Some (ctl_executions c !! obs_ExecutionID o);
  ag_tombstones : snap_CleanupTombstones snapshot = [];
  ag_fences id e : ctl_executions c !! id = Some e -> slot_NodeID (exec_Slot e) = nodeID ->
    ctl_fences c !! id = None;
}.

(** Executions and fences of the node are the same; other executions are kept. *)
Lemma agreement_ext c c' nodeID snapshot :
  (forall id e, ctl_executions c' !! id = Some e -> slot_NodeID (exec_Slot e) = nodeID ->
     ctl_executions c !! id = Some e) ->
  (forall id, is_Some (ctl_executions c !! id) -> is_Some (ctl_executions c' !! id)) ->
  (forall id e, ctl_executions c' !! id = Some e -> slot_NodeID (exec_Slot e) = nodeID ->
     ctl_fences c !! id = None -> ctl_fences c' !! id = None) ->
  agreement c nodeID snapshot -> agreement c' nodeID snapshot.
Proof. intros Hx Hk Hf []. split; eauto. Qed.

Lemma agreement_same c c' nodeID snapshot :
  ctl_executions c' = ctl_executions c -> ctl_fences c' = ctl_fences c ->
  agreement c nodeID snapshot -> agreement c' nodeID snapshot.
Proof. intros Hx Hf. apply agreement_ext; rewrite ?Hx, ?Hf; eauto. Qed.

(** The same about every execution but the one a call is changing, [busy]: what the
    Agent runs still belongs to a known execution, no cleanup is uncertain and no
    provider fence is open. *)
Record agreement_but (busy : option ExecutionID) (c : Controller) (nodeID : NodeID)
    (snapshot : AgentSnapshot) : Prop := {
  ab_live id e : Some id <> busy ->
    ctl_executions c !! id = Some e -> slot_NodeID (exec_Slot e) = nodeID ->
    terminalExecution (exec_State e) = false ->
    exec_State e ∈ [ExecutionPreparing; ExecutionRunning; ExecutionCleaning] /\
    exists o, o ∈ snap_Observations snapshot /\ obs_ExecutionID o = id /\ obs_State o = exec_State e;
  ab_terminal id e o : Some id <> busy ->
    ctl_executions c !! id = Some e -> slot_NodeID (exec_Slot e) = nodeID ->
    terminalExecution (exec_State e) = true ->
    o ∈ snap_Observations snapshot -> obs_ExecutionID o = id -> localRuntimeMayExist (obs_State o) = false;
  ab_known o : o ∈ snap_Observations snapshot -> localRuntimeMayExist (obs_State o) = true ->
    is_Some (ctl_executions c !! obs_ExecutionID o);
  ab_tombstones : snap_CleanupTombstones snapshot = [];
  ab_fences id e : ctl_executions c !! id = Some e -> slot_NodeID (exec_Slot e) = nodeID ->
    ctl_fences c !! id = None;
}.

Lemma agreement_but_of busy c nodeID snapshot :
  agreement c nodeID snapshot -> agreement_but busy c nodeID snapshot.
Proof. intros []. split; eauto. Qed.

Lemma agreement_but_None c nodeID snapshot :
  agreement_but None c nodeID snapshot -> agreement c nodeID snapshot.
Proof. intros []. split; eauto. Qed.

(** One execution changed or added. *)
Lemma agreement_but_insert c c' e nodeID snapshot :
  ctl_executions c' = <[exec_ID e := e]> (ctl_executions c) -> ctl_fences c' = ctl_fences c ->
  ctl_fences c !! exec_ID e = None \/ slot_NodeID (exec_Slot e) <> nodeID ->
  agreement c nodeID snapshot -> agreement_but (Some (exec_ID e)) c' nodeID snapshot.
Proof.
  intros Hx Hf Hnone []. split; rewrite ?Hx, ?Hf; try done.
  - intros id e' Hne. rewrite lookup_insert_ne by congruence. eauto.
  - intros id e' o Hne. rewrite lookup_insert_ne by congruence. eauto.
  - intros o Ho Hrun. apply lookup_insert_is_Some. destruct (decide (exec_ID e = obs_ExecutionID o)); eauto.
  - intros id e'. rewrite lookup_insert_Some. intros [[<- <-]|[_ ?]] Hnode; [|eauto].
    by destruct Hnone.
Qed.

(** The observations of one known execution changed. *)
Lemma agreement_but_observations k c nodeID snapshot snapshot' :
  (forall o, obs_ExecutionID o <> k ->
     o ∈ snap_Observations snapshot' <-> o ∈ snap_Observations snapshot) ->
  snap_CleanupTombstones snapshot' = snap_CleanupTombstones snapshot ->
  is_Some (ctl_executions c !! k) ->
  agreement_but (Some k) c nodeID snapshot -> agreement_but (Some k) c nodeID snapshot'.
Proof.
  intros Ho Ht Hk [Hlive Hterm Hknown Htomb Hfences]. split; [| | | |done].
  - intros id e Hne He Hnode Hst. destruct (Hlive id e Hne He Hnode Hst) as (Hin & o & Hoin & Hid & Hs).
    split; [done|]. exists o. rewrite Ho by congruence. done.
  - intros id e o Hne He Hnode Hst Hoin Hid. apply Ho in Hoin; [|congruence]. eauto.
  - intros o Hoin Hrun. destruct (decide (obs_ExecutionID o = k)) as [->|Hne]; [done|].
    apply Ho in Hoin; eauto.
  - by rewrite Ht.
Qed.

(** *** A pass without actions *)

Lemma appendUniqueAction_not_nil actions action : appendUniqueAction actions action <> [].
Proof. unfold appendUniqueAction. destruct (existsb _ _) eqn:E; by destruct actions. Qed.

Lemma foldl_quiet {A} (f : pass -> A -> pass) l : forall p,
  (forall p x, pass_actions (f p x) = [] -> pass_actions p = []) ->
  pass_actions (foldl f p l) = [] ->
  pass_actions p = [] /\ forall x, x ∈ l -> exists p', pass_actions (f p' x) = [].
Proof.
  induction l as [|x l IH]; simpl; intros p Hf Hnil.
  { split; [done|]. by intros x ?%not_elem_of_nil. }
  destruct (IH _ Hf Hnil) as [Hp Hall]. split; [by eapply Hf|].
  intros y [->|Hy]%elem_of_cons; eauto.
Qed.

Lemma recover_loud c nodeID desired p : pass_actions (recover c nodeID desired p) <> [].
Proof.
  unfold recover. destruct (recoveryAction _ _ _) as [a []]; simpl; apply appendUniqueAction_not_nil.
Qed.

Lemma scan_observed_quiet c nodeID id desired ambiguous o p :
  pass_actions (scan_observed c nodeID id desired ambiguous o p) = [] ->
  ambiguous = true \/
  (obs_State o = exec_State desired /\ pass_actions p = [] /\
   obs_State o <> ExecutionCleanupFailed /\ obs_State o <> ExecutionQuarantined /\
   exec_State desired <> ExecutionPending /\ exec_State desired <> ExecutionReserved).
Proof.
  unfold scan_observed. destruct ambiguous; [by left|]. right. revert H.
  case_bool_decide as H1; simpl; [by intros ?%appendUniqueAction_not_nil|].
  case_bool_decide as H2; simpl; [by intros ?%appendUniqueAction_not_nil|].
  case_bool_decide as H3; simpl.
  - case_bool_decide as H4; simpl; [by intros ?%appendUniqueAction_not_nil|].
    case_bool_decide as H5; simpl; [by intros ?%appendUniqueAction_not_nil|]. done.
  - destruct (CanReachExecutionState (exec_State desired) _); simpl;
      [by intros ?%appendUniqueAction_not_nil|].
    destruct (CanReachExecutionState _ _); simpl; [by intros ?%recover_loud|].
    by intros ?%appendUniqueAction_not_nil.
Qed.

Lemma scan_absent_quiet c nodeID id desired ambiguous p :
  pass_actions (scan_absent c nodeID id desired ambiguous p) = [] ->
  ambiguous = true /\ pass_actions p = [].
Proof.
  unfold scan_absent. destruct ambiguous; simpl; [done|]. intros H. exfalso. revert H.
  branches; first [apply recover_loud|apply appendUniqueAction_not_nil].
Qed.

Lemma scan_execution_quiet c nodeID observations reported tombstones p id :
  pass_actions (scan_execution c nodeID observations reported tombstones p id) = [] ->
  pass_actions p = [] /\
  let desired := execution_at c id in
  (slot_NodeID (exec_Slot desired) = nodeID -> id ∉ tombstones ->
   ctl_fences c !! id = None /\
   if terminalExecution (exec_State desired) then
     forall o, observations !! id = Some o -> localRuntimeMayExist (obs_State o) = false
   else
     exists o, observations !! id = Some o /\ obs_State o = exec_State desired /\
       obs_State o <> ExecutionCleanupFailed /\
       exec_State desired <> ExecutionPending /\ exec_State desired <> ExecutionReserved).
Proof.
  unfold scan_execution. set (desired := execution_at c id). cbv zeta.
  case_bool_decide as Hn; simpl; [|done].
  destruct (terminalExecution (exec_State desired)) eqn:Ht.
  - intros H.
    assert (Hobs : pass_actions (match ctl_fences c !! id with
        | Some fence => pass_act p (githubFenceAction nodeID fence reported) | None => p end) = [] /\
      forall o, observations !! id = Some o -> localRuntimeMayExist (obs_State o) = false).
    { destruct (observations !! id) as [o|]; [|done].
      destruct (localRuntimeMayExist (obs_State o)) eqn:Hl.
      - by apply appendUniqueAction_not_nil in H.
      - split; [done|]. by intros ? [= <-]. }
    destruct Hobs as [Hp Ho]. destruct (ctl_fences c !! id); [by apply appendUniqueAction_not_nil in Hp|].
    split; [done|]. by intros _ _.
  - case_bool_decide as Htomb; [by split; [|intros _ ?]|].
    destruct (ctl_fences c !! id) as [f|] eqn:Hf; simpl.
    + intros H. exfalso. destruct (observations !! id) as [o|].
      * revert H. unfold scan_observed. repeat case_match; simpl; apply appendUniqueAction_not_nil.
      * by apply appendUniqueAction_not_nil in H.
    + destruct (observations !! id) as [o|].
      * intros [?|(H1 & H2 & H3 & H4 & H5 & H6)]%scan_observed_quiet; [done|].
        split; [done|]. intros _ _. split; [done|]. by exists o.
      * intros H. by destruct (scan_absent_quiet c nodeID id desired false p H).
Qed.

Lemma scan_unknown_quiet c nodeID p o :
  pass_actions (scan_unknown c nodeID p o) = [] ->
  pass_actions p = [] /\
  (localRuntimeMayExist (obs_State o) = true -> is_Some (ctl_executions c !! obs_ExecutionID o)).
Proof.
  unfold scan_unknown. destruct (ctl_executions c !! obs_ExecutionID o) eqn:He; simpl; [eauto|].
  destruct (localRuntimeMayExist (obs_State o)); [|done].
  by intros ?%appendUniqueAction_not_nil.
Qed.

(** The map of observations: IDs are unique in a valid snapshot. *)
Lemma observations_lookup os id o : forall m : gmap string AgentExecutionObservation,
  foldl (fun m o => <[obs_ExecutionID o := o]> m) m os !! id = Some o ->
  (o ∈ os /\ obs_ExecutionID o = id) \/ m !! id = Some o.
Proof.
  induction os as [|x os IH]; simpl; intros m H; [by right|].
  destruct (IH _ H) as [[? ?]|H']; [left; split; [by right|done]|].
  apply lookup_insert_Some in H' as [[<- <-]|[_ ?]]; [|by right]. left. split; [by left|done].
Qed.

Lemma observations_unique os o : forall m : gmap string AgentExecutionObservation,
  NoDup (map obs_ExecutionID os) -> o ∈ os ->
  foldl (fun m o => <[obs_ExecutionID o := o]> m) m os !! obs_ExecutionID o = Some o.
Proof.
  induction os as [|x os IH]; simpl; intros m Hd Ho; [by apply not_elem_of_nil in Ho|].
  apply NoDup_cons in Hd as [Hx Hd]. apply elem_of_cons in Ho as [->|Ho]; [|by apply IH].
  clear IH. assert (Hkeep : forall m : gmap string AgentExecutionObservation,
    m !! obs_ExecutionID x = Some x ->
    foldl (fun m o => <[obs_ExecutionID o := o]> m) m os !! obs_ExecutionID x = Some x).
  { clear Hd m. induction os as [|y os IH]; simpl in *; intros m Hm; [done|].
    apply not_elem_of_cons in Hx as [Hne Hx]. apply (IH Hx).
    by rewrite lookup_insert_ne. }
  apply Hkeep. apply lookup_insert_eq.
Qed.

Lemma running_states s :
  isKnownExecutionState s = true -> terminalExecution s = false -> s <> ExecutionPending ->
  s <> ExecutionReserved -> s <> ExecutionCleanupFailed ->
  s ∈ [ExecutionPreparing; ExecutionRunning; ExecutionCleaning].
Proof.
  intros Hk Ht H1 H2 H3. eapply bool_decide_eq_true_1.
  pose proof (known_forall (fun s => terminalExecution s || (s == ExecutionPending) ||
    (s == ExecutionReserved) || (s == ExecutionCleanupFailed) ||
    bool_decide (s ∈ [ExecutionPreparing; ExecutionRunning; ExecutionCleaning]))
    ltac:(by vm_compute) s Hk) as H. cbv beta in H.
  by rewrite Ht, !bool_decide_eq_false_2 in H by done.
Qed.

(** A pass that asks for nothing has found agreement. *)
Lemma scan_quiet_agreement c snapshot :
  ctl_ok c -> snapshot_valid snapshot -> pass_actions (scan c snapshot) = [] ->
  agreement c (snap_NodeID snapshot) snapshot.
Proof.
  intros Hok Hsv. unfold scan. set (nodeID := snap_NodeID snapshot).
  set (observations := observations_by_id _). set (reported := reported_commands _).
  set (tombstones := list_to_set (map _ _)). intros Hnil.
  apply foldl_quiet in Hnil as [Hnil Hexec]; [|by intros ?? [? _]%scan_execution_quiet].
  apply foldl_quiet in Hnil as [Hnil Hknown]; [|by intros ?? [? _]%scan_unknown_quiet].
  assert (Htomb : snap_CleanupTombstones snapshot = []).
  { destruct (snap_CleanupTombstones snapshot) as [|t ts]; [done|]. exfalso.
    apply foldl_quiet in Hnil as [_ Hall]; [|by intros ?? ?%appendUniqueAction_not_nil].
    destruct (Hall t ltac:(by left)) as [p' Hp']. by apply appendUniqueAction_not_nil in Hp'. }
  assert (Hempty : tombstones = ∅) by (unfold tombstones; by rewrite Htomb).
  assert (Hat : forall id e, ctl_executions c !! id = Some e -> slot_NodeID (exec_Slot e) = nodeID ->
    ctl_fences c !! id = None /\
    if terminalExecution (exec_State e) then
      forall o, observations !! id = Some o -> localRuntimeMayExist (obs_State o) = false
    else
      exists o, observations !! id = Some o /\ obs_State o = exec_State e /\
        obs_State o <> ExecutionCleanupFailed /\
        exec_State e <> ExecutionPending /\ exec_State e <> ExecutionReserved).
  { intros id e He Hnode. destruct (Hexec id) as [p' Hp'].
    { apply (do_ids _ _ _ _ (ok_desired c Hok)). by rewrite He. }
    apply scan_execution_quiet in Hp' as [_ Hp']. unfold execution_at in Hp'. rewrite He in Hp'.
    apply Hp'; [done|]. rewrite Hempty. apply not_elem_of_empty. }
  split.
  - intros id e He Hnode Ht. destruct (Hat id e He Hnode) as [_ Hobs]. rewrite Ht in Hobs.
    destruct Hobs as (o & Ho & Hst & H1 & H2 & H3). split.
    + destruct (do_execution _ _ _ _ (ok_desired c Hok) _ _ He) as (_ & Hv & _).
      apply ExecutionSnapshot_Validate_inv in Hv as (_ & _ & _ & Hk).
      rewrite Hst in H1. by apply running_states.
    + apply observations_lookup in Ho as [[? ?]|Ho]; [by exists o|]. by rewrite lookup_empty in Ho.
  - intros id e o He Hnode Ht Ho Hid. destruct (Hat id e He Hnode) as [_ Hobs]. rewrite Ht in Hobs.
    apply Hobs. rewrite <- Hid. apply observations_unique; [|done]. by apply sv_observation_ids.
  - intros o Ho. destruct (Hknown o Ho) as [p' Hp']. by apply scan_unknown_quiet in Hp' as [_ ?].
  - done.
  - intros id e He Hnode. by destruct (Hat id e He Hnode).
Qed.

(** *** Admission *)

Lemma effectiveNode_cases n now :
  effectiveNode n now = (rt_scheduler n, rt_status n) \/
  ns_Reconciled (effectiveNode n now).1 = false /\ ns_NativeReady (effectiveNode n now).1 = false.
Proof. unfold effectiveNode. destruct (_ && _); [by right|by left]. Qed.

Lemma Admission_inv c nodeID now adm :
  Admission c nodeID now = Ok adm -> adm_AllowsNewCapacity adm = true ->
  adm_AllowsRecovery adm = true /\ ctl_managementProjectionHealthy c = true /\
  exists n, ctl_nodes c !! nodeID = Some n /\ rt_seen n = true /\
    adm_Node adm = rt_scheduler n /\ adm_Status adm = rt_status n /\ rt_actions n = [] /\
    ns_Reconciled (rt_scheduler n) = true /\ ns_NativeReady (rt_scheduler n) = true /\
    node_ObservedState (ns_Node (rt_scheduler n)) = NodeOnline /\
    node_AdministrativeState (ns_Node (rt_scheduler n)) = NodeActive /\
    status_Phase (rt_status n) = PhaseReady /\
    AllowsAdmissionAt (status_RunnerUpdate (rt_status n)) now = true.
Proof.
  unfold Admission, IsZero. case_bool_decide; [done|].
  destruct (ctl_nodes c !! nodeID) as [n|] eqn:Hn; [|done].
  destruct (effectiveNode n now) as [sn st] eqn:He. intros [= <-]. simpl.
  rewrite !andb_true_iff, !bool_decide_eq_true, Z.eqb_eq.
  intros ((((([[[[H1 H2] H3] H4] H5] & H6) & H7) & H8) & H9) & _).
  destruct (effectiveNode_cases n now) as [Hsame|[Hrec _]]; rewrite He in *; simpl in *; [|congruence].
  injection Hsame as -> ->. split; [|split; [done|]].
  - by split_and!.
  - exists n. split_and!; try done. by destruct (rt_actions n).
Qed.

Lemma Admission_unfenced c nodeID now adm :
  Admission c nodeID now = Ok adm -> adm_AllowsNewCapacity adm = true ->
  nodeHasGitHubFenceLocked c nodeID = false.
Proof.
  unfold Admission. destruct (IsZero now); [done|]. destruct (ctl_nodes c !! nodeID); [|done].
  destruct (effectiveNode _ now). intros [= <-]. simpl. rewrite !andb_true_iff, negb_true_iff. by intros [_ ?].
Qed.

Lemma unfenced_node c nodeID id e :
  nodeHasGitHubFenceLocked c nodeID = false -> ctl_executions c !! id = Some e ->
  slot_NodeID (exec_Slot e) = nodeID -> ctl_fences c !! id = None.
Proof.
  unfold nodeHasGitHubFenceLocked. intros Hf He Hn.
  destruct (ctl_fences c !! id) as [f|] eqn:Hid; [|done]. exfalso.
  apply not_true_iff_false in Hf. apply Hf, existsb_exists. exists (id, f).
  rewrite <- list_elem_of_In, elem_of_map_to_list, He. split; [done|]. by apply bool_decide_eq_true_2.
Qed.

(** *** What a reconciliation result reports *)

(** The suppression set only grows during a pass. *)
Definition grows (p p' : pass) : Prop := pass_suppress p ⊆ pass_suppress p'.
#[local] Instance grows_refl : Reflexive grows.
Proof. intros p. by unfold grows. Qed.
#[local] Instance grows_trans : Transitive grows.
Proof. unfold grows. intros p q r. apply transitivity. Qed.

Lemma recover_suppress c nodeID desired p :
  pass_suppress (recover c nodeID desired p) = pass_suppress p.
Proof. unfold recover. by destruct (recoveryAction _ _ _) as [a []]. Qed.

Ltac grow :=
  unfold grows; repeat case_match; rewrite ?recover_suppress; simpl;
  solve [reflexivity | apply union_subseteq_r
        | etransitivity; apply union_subseteq_r].

Lemma grows_scan_observed c nodeID id desired ambiguous o p :
  grows p (scan_observed c nodeID id desired ambiguous o p).
Proof. unfold scan_observed. grow. Qed.
Lemma grows_scan_absent c nodeID id desired ambiguous p :
  grows (pass_hold p id) (scan_absent c nodeID id desired ambiguous p).
Proof. unfold scan_absent. grow. Qed.
Lemma grows_scan_tombstone nodeID p t : grows p (scan_tombstone nodeID p t).
Proof. unfold scan_tombstone. grow. Qed.
Lemma grows_scan_unknown c nodeID p o : grows p (scan_unknown c nodeID p o).
Proof. unfold scan_unknown. grow. Qed.

Lemma grows_scan_execution c nodeID observations reported tombstones p id :
  grows p (scan_execution c nodeID observations reported tombstones p id).
Proof.
  unfold scan_execution. destruct (negb _); [reflexivity|].
  destruct (terminalExecution _); [grow|]. destruct (bool_decide (id ∈ tombstones)); [reflexivity|].
  destruct (ctl_fences c !! id), (observations !! id);
    (eapply grows_trans; [|first [apply grows_scan_observed|apply grows_scan_absent]]); grow.
Qed.

Lemma grows_foldl {A} (f : pass -> A -> pass) l : (forall p x, grows p (f p x)) ->
  forall p, grows p (foldl f p l).
Proof.
  intros Hf. induction l as [|x l IH]; intros p; [reflexivity|]. by etransitivity; [apply Hf|apply IH].
Qed.

Lemma foldl_in {A} (f : pass -> A -> pass) l x p : (forall p x, grows p (f p x)) -> x ∈ l ->
  exists p', grows (f p' x) (foldl f p l).
Proof.
  intros Hf. revert p. induction l as [|y l IH]; intros p Hx; [by apply not_elem_of_nil in Hx|].
  apply elem_of_cons in Hx as [->|Hx]; [|by apply IH]. exists p. simpl. by apply grows_foldl.
Qed.

(** An execution that is not held back is running as desired and has no fence. *)
Lemma scan_execution_clear c nodeID observations reported tombstones p id :
  let desired := execution_at c id in
  slot_NodeID (exec_Slot desired) = nodeID -> terminalExecution (exec_State desired) = false ->
  id ∉ tombstones ->
  id ∉ pass_suppress (scan_execution c nodeID observations reported tombstones p id) ->
  ctl_fences c !! id = None /\
  exists o, observations !! id = Some o /\ obs_State o = exec_State desired /\
    obs_State o <> ExecutionCleanupFailed /\
    exec_State desired <> ExecutionPending /\ exec_State desired <> ExecutionReserved.
Proof.
  intros desired Hn Ht Htomb. unfold scan_execution. fold desired.
  rewrite bool_decide_eq_true_2 by done. simpl. rewrite Ht, bool_decide_eq_false_2 by done.
  assert (Hin : forall p p' : pass, grows (pass_hold p id) p' -> id ∉ pass_suppress p' -> False).
  { intros q q' Hg Hni. apply Hni, Hg. simpl. set_solver. }
  destruct (ctl_fences c !! id) as [f|].
  { intros Hni. exfalso. destruct (observations !! id).
    - eapply Hin; [|exact Hni]. eapply grows_trans; [|apply grows_scan_observed]. grow.
    - eapply Hin; [|exact Hni]. apply grows_scan_absent. }
  destruct (observations !! id) as [o|].
  2:{ intros Hni. exfalso. eapply Hin; [|exact Hni]. apply grows_scan_absent. }
  intros Hni. split; [done|]. exists o. split; [done|]. revert Hni. unfold scan_observed.
  case_bool_decide as H1; simpl; [set_solver|]. case_bool_decide as H2; simpl; [set_solver|].
  case_bool_decide as H3; simpl.
  - case_bool_decide as H4; simpl; [set_solver|]. case_bool_decide as H5; simpl; [set_solver|]. done.
  - destruct (CanReachExecutionState (exec_State desired) _); simpl; [set_solver|].
    destruct (CanReachExecutionState _ _); simpl; [rewrite recover_suppress|]; set_solver.
Qed.

(** [scan_execution_clear] for a whole pass. *)
Lemma scan_suppression c snapshot e :
  ctl_ok c -> snapshot_valid snapshot -> ctl_executions c !! exec_ID e = Some e ->
  slot_NodeID (exec_Slot e) = snap_NodeID snapshot -> terminalExecution (exec_State e) = false ->
  exec_ID e ∉ pass_suppress (scan c snapshot) ->
  ctl_fences c !! exec_ID e = None /\
  exists o, o ∈ snap_Observations snapshot /\ obs_ExecutionID o = exec_ID e /\
    obs_State o = exec_State e /\
    exec_State e ∈ [ExecutionPreparing; ExecutionRunning; ExecutionCleaning].
Proof.
  intros Hok Hsv He Hn Ht. unfold scan. set (nodeID := snap_NodeID snapshot) in *.
  set (observations := observations_by_id _). set (reported := reported_commands _).
  set (tombstones := list_to_set (map _ _)). intros Hni.
  assert (Hids : exec_ID e ∈ ctl_executionIDs c).
  { apply (do_ids _ _ _ _ (ok_desired c Hok)). by rewrite He. }
  assert (Htomb : exec_ID e ∉ tombstones).
  { intros Hin. apply elem_of_list_to_set, list_elem_of_fmap in Hin as (t & Hid & Htin). apply Hni.
    apply (grows_foldl _ _ (grows_scan_execution c nodeID observations reported tombstones)).
    apply (grows_foldl _ _ (grows_scan_unknown c nodeID)).
    destruct (foldl_in (scan_tombstone nodeID) (snap_CleanupTombstones snapshot) t pass_start
      (grows_scan_tombstone nodeID) Htin) as [p' Hg].
    apply Hg. rewrite Hid. simpl. set_solver. }
  edestruct (foldl_in (scan_execution c nodeID observations reported tombstones)
    (ctl_executionIDs c) (exec_ID e)) as [p' Hg]; [apply grows_scan_execution|exact Hids|].
  assert (Hx : execution_at c (exec_ID e) = e) by (unfold execution_at; by rewrite He).
  destruct (scan_execution_clear c nodeID observations reported tombstones p' (exec_ID e))
    as (Hf & o & Ho & Hst & H1 & H2 & H3); rewrite ?Hx; try done.
  { intros Hin. by apply Hni, Hg. }
  rewrite Hx in *. split; [done|]. exists o.
  apply observations_lookup in Ho as [[? ?]|Ho]; [|by rewrite lookup_empty in Ho].
  split_and!; try done. rewrite Hst in H1. apply running_states; try done.
  destruct (do_execution _ _ _ _ (ok_desired c Hok) _ _ He) as (_ & Hv & _).
  by apply ExecutionSnapshot_Validate_inv in Hv as (_ & _ & _ & Hk).
Qed.

(** ** What recovery may ask for *)

(** An action that makes the Agent run something is for a live execution of the
    node without a provider fence; a replay is of an issued prepare command. *)
Record action_sound (c : Controller) (nodeID : NodeID) (a : Action) : Prop := {
  as_node : action_NodeID a = nodeID;
  as_work : action_Kind a = ActionReplayCommand \/ action_Kind a = ActionIssuePrepare ->
    exists e, ctl_executions c !! action_ExecutionID a = Some e /\
      slot_NodeID (exec_Slot e) = nodeID /\ ctl_fences c !! action_ExecutionID a = None /\
      exec_State e ∈ [ExecutionReserved; ExecutionPreparing];
  as_replay : action_Kind a = ActionReplayCommand ->
    exists i, ctl_commands c !! action_CommandID a = Some i /\ issued_Type i = CommandPrepare /\
      command_ExecutionID (issued_Command i) = action_ExecutionID a /\
      command_ControllerEpoch (issued_Command i) = action_ControllerEpoch a;
}.

Definition sound (c : Controller) (nodeID : NodeID) (p : pass) : Prop :=
  Forall (action_sound c nodeID) (pass_actions p).

Lemma sound_act c nodeID p a : sound c nodeID p -> action_sound c nodeID a -> sound c nodeID (pass_act p a).
Proof.
  unfold sound. simpl. unfold appendUniqueAction. intros Hp Ha. destruct (existsb _ _); [done|].
  apply Forall_app. split; [done|]. by constructor.
Qed.

(** The other kinds of action ask for nothing new. *)
Lemma sound_other c nodeID a : action_NodeID a = nodeID ->
  action_Kind a <> ActionReplayCommand -> action_Kind a <> ActionIssuePrepare -> action_sound c nodeID a.
Proof. intros H1 H2 H3. split; [done| |]; naive_solver. Qed.

Lemma sound_fence_action c nodeID f reported : action_sound c nodeID (githubFenceAction nodeID f reported).
Proof.
  unfold githubFenceAction, attempt_action, mk_action.
  repeat case_match; apply sound_other; done.
Qed.

Lemma sound_recover c nodeID id e p :
  ctl_ok c -> ctl_executions c !! id = Some e -> slot_NodeID (exec_Slot e) = nodeID ->
  ctl_fences c !! id = None -> sound c nodeID p -> sound c nodeID (recover c nodeID e p).
Proof.
  intros Hok He Hn Hf Hp. destruct (ctl_ok_valid c Hok _ _ He) as [Hid _].
  unfold recover, recoveryAction. destruct (List.find _ _) as [i|] eqn:Hfind.
  - apply List.find_some in Hfind as [Hin Hrep]. apply list_elem_of_In in Hin.
    apply (co_index _ _ _ (ok_commands c Hok)) in Hin as [Hc Hexec].
    destruct (co_command _ _ _ (ok_commands c Hok) _ _ Hc) as (_ & _ & Hm & _).
    apply andb_true_iff in Hrep as [Htype Hstate]. apply bool_decide_eq_true_1 in Htype.
    unfold commandTypeMatchesExpectedState in Hm. rewrite bool_decide_eq_true_2 in Hm by done.
    apply bool_decide_eq_true_1 in Hm. rewrite Hm in Hstate.
    assert (exec_State e ∈ [ExecutionReserved; ExecutionPreparing]).
    { revert Hstate. case_bool_decide as Hs; [rewrite <- Hs; intros _; by left|]. simpl.
      rewrite negb_true_iff, negb_false_iff, !andb_true_iff. intros [[_ Hs'] _].
      apply bool_decide_eq_true_1 in Hs'. rewrite Hs'. right. by left. }
    simpl. apply sound_act; [done|]. split; simpl; [done| |].
    + intros _. exists e. rewrite Hid. by split_and!.
    + intros _. exists i. rewrite Hid in *. by split_and!.
  - clear Hfind. case_bool_decide as Hs; simpl.
    + apply sound_act; [done|]. split; simpl; [done| |done]. intros _. exists e.
      rewrite Hid. split_and!; try done. rewrite Hs. by left.
    + by apply sound_act; [|apply sound_other].
Qed.

Ltac sound_branches :=
  repeat match goal with |- sound _ _ (if ?b then _ else _) => destruct b end; try done;
  try (by apply sound_act; [|apply sound_other]).

Lemma sound_scan_observed c nodeID id e ambiguous o p :
  ctl_ok c -> ctl_executions c !! id = Some e -> slot_NodeID (exec_Slot e) = nodeID ->
  (ambiguous = false -> ctl_fences c !! id = None) ->
  sound c nodeID p -> sound c nodeID (scan_observed c nodeID id e ambiguous o p).
Proof.
  intros Hok He Hn Hf Hp. unfold scan_observed, inspect. destruct ambiguous; sound_branches.
  apply (sound_recover c nodeID id e); try done. by apply Hf.
Qed.

Lemma sound_scan_absent c nodeID id e ambiguous p :
  ctl_ok c -> ctl_executions c !! id = Some e -> slot_NodeID (exec_Slot e) = nodeID ->
  (ambiguous = false -> ctl_fences c !! id = None) ->
  sound c nodeID p -> sound c nodeID (scan_absent c nodeID id e ambiguous p).
Proof.
  intros Hok He Hn Hf Hp. unfold scan_absent. destruct ambiguous; sound_branches.
  apply (sound_recover c nodeID id e); try done. by apply Hf.
Qed.

Lemma sound_scan_execution c nodeID observations reported tombstones p id :
  ctl_ok c -> id ∈ ctl_executionIDs c -> sound c nodeID p ->
  sound c nodeID (scan_execution c nodeID observations reported tombstones p id).
Proof.
  intros Hok Hid Hp. apply (do_ids _ _ _ _ (ok_desired c Hok)) in Hid as [e He].
  unfold scan_execution, execution_at. rewrite He. simpl.
  case_bool_decide as Hn; simpl; [|done]. destruct (terminalExecution _).
  - assert (sound c nodeID (match ctl_fences c !! id with
      | Some fence => pass_act p (githubFenceAction nodeID fence reported) | None => p end)).
    { destruct (ctl_fences c !! id); [|done]. apply sound_act; [done|]. apply sound_fence_action. }
    destruct (observations !! id); [|done]. unfold inspect. sound_branches.
  - destruct (bool_decide (id ∈ tombstones)); [done|].
    assert (sound c nodeID (match ctl_fences c !! id with
      | Some fence => pass_act (pass_hold p id) (githubFenceAction nodeID fence reported)
      | None => p end)).
    { destruct (ctl_fences c !! id); [|done]. apply sound_act; [done|]. apply sound_fence_action. }
    assert (negb (bool_decide (ctl_fences c !! id = None)) = false -> ctl_fences c !! id = None).
    { intros Hf%negb_false_iff. by apply bool_decide_eq_true_1 in Hf. }
    destruct (observations !! id); [by apply sound_scan_observed|by apply sound_scan_absent].
Qed.

Lemma sound_foldl {A} c nodeID (f : pass -> A -> pass) l :
  (forall p x, x ∈ l -> sound c nodeID p -> sound c nodeID (f p x)) ->
  forall p, sound c nodeID p -> sound c nodeID (foldl f p l).
Proof.
  induction l as [|x l IH]; intros Hf p Hp; [done|]. simpl. apply IH.
  - intros q y Hy. apply Hf. by right.
  - apply Hf; [by left|done].
Qed.

Lemma sound_scan c snapshot : ctl_ok c -> sound c (snap_NodeID snapshot) (scan c snapshot).
Proof.
  intros Hok. unfold scan. apply sound_foldl; [by intros; apply sound_scan_execution|].
  apply sound_foldl; [|apply sound_foldl; [|by constructor]].
  - intros p o _ Hp. unfold scan_unknown. sound_branches.
  - intros p t _ Hp. unfold scan_tombstone. by apply sound_act; [|apply sound_other].
Qed.

