(* ===== verification/ReconcileFacts.v ===== *)
(** * Lemmas about histories of the Controller (internal/reconcile/controller.go)

    What one call and a history of calls do to executions, fence tokens,
    administrative states and the agreement between desired and observed state.
    ReconcileProps.v states the properties. *)

From S2P Require Import Prelude GoStd Domain Execution Replay SlotLedger Scheduler Transport.
From S2P Require Import RunnerUpdate Fence Projection Reconcile ReconcileInv RestoreInv PassFacts.

Section histories.
Context (marshal : CanonicalSnapshot -> result string) (sha256 : string -> string).
Notation step := (step marshal sha256).
Notation run := (run marshal sha256).

(** What one call does to the desired side. *)
Inductive effect (c c' : Controller) : Prop :=
  | effect_nodes (Hsame : same_desired c c')
  | effect_unhealthy (Hsame : c' = MarkManagementProjectionUnavailable c)
  | effect_claim e (Hnew : ctl_executions c !! exec_ID e = None)
      (Hsame : same_desired (commit_claim c e) c')
  | effect_command i (Hsame : same_desired (commit_command c i) c')
  | effect_advance id e state (He : ctl_executions c !! id = Some e)
      (Hadv : exec_State e = state \/ CanReachExecutionState (exec_State e) state = true)
      (Hexecutions : ctl_executions c' = <[id := exec_with_state e state]> (ctl_executions c))
      (Hepoch : ctl_epoch c' = ctl_epoch c)
      (Hfences : ctl_fences c' = ctl_fences c)
      (Hcleared : ctl_clearedFences c' = ctl_clearedFences c)
  | effect_fence f (Hvalid : validateGitHubFence f = None)
      (Hadv : forall t, token c (fence_ExecutionID f) = Some t -> githubFenceCanAdvance t f = true)
      (Hsame : same_desired (commit_fence c f) c')
  | effect_clear f (Hf : ctl_fences c !! fence_ExecutionID f = Some f)
      (Hsame : same_desired (commit_clear c f (fence_ExecutionID f)) c').

Lemma same_desired_refold c c1 seen snapshot now :
  same_desired c c1 -> same_desired c (refold marshal sha256 c1 seen snapshot now).1.
Proof.
  intros H. destruct (refold_frame marshal sha256 c1 seen snapshot now) as [H' _].
  by etransitivity.
Qed.

Lemma step_effect c now e : ctl_ok c -> effect c (step c now e).1.
Proof.
  intros Hok.
  destruct e as [topology| |snapshot|nodeID|nodeID next rem|confs|nodeID update|claim|i|
    update|nodeID ready|nodeID intent excl|next|update|f|f]; simpl.
  - apply effect_nodes. by destruct (ensure_cases c topology) as [[err ->]|(d & _ & _ & ->)].
  - by apply effect_unhealthy.
  - apply effect_nodes. unfold ReconcileAgentSnapshot.
    by destruct (reconcile_cases marshal sha256 c snapshot now).
  - apply effect_nodes. by destruct (disconnect_cases c nodeID now) as [[err ->]|(n & n' & _ & _ & _ & ->)].
  - apply effect_nodes.
    by destruct (administrative_cases c nodeID next rem) as [[err ->]|(n & n' & _ & _ & _ & ->)].
  - apply effect_nodes. by destruct (configurations_cases c confs) as [[err ->]|(c' & byNode & -> & ? & _)].
  - apply effect_nodes.
    by destruct (runner_update_cases c nodeID update) as [[err ->]|(n & n' & _ & _ & _ & ->)].
  - destruct (claim_cases marshal sha256 c claim now) as [[err ->]|(n & Hn & _ & _ & [[_ ->]|(Hnew & _ & ->)])];
      [by apply effect_nodes|apply effect_nodes; by apply same_desired_refold|].
    eapply effect_claim; [done|]. by apply same_desired_refold.
  - destruct (command_cases marshal sha256 c i now) as [[err ->]|(e & n & _ & _ & _ & _ & _ & _ & ->)];
      [by apply effect_nodes|]. eapply effect_command. by apply same_desired_refold.
  - destruct (update_cases marshal sha256 c update now) as [[err ->]|(e & n & n' & i & Hc & _ & _ & _ & _ & ->)];
      [by apply effect_nodes|]. apply check_update_inv in Hc as (He & _ & _ & _ & Hadv).
    match goal with |- effect c (refold _ _ ?c1 ?a ?b ?d).1 =>
      destruct (refold_frame marshal sha256 c1 a b d) as [[] _] end.
    rewrite commit_update_eq in *. by eapply effect_advance.
  - destruct (readiness_cases marshal sha256 c nodeID ready now) as [[err ->]|(n & ? & ? & _ & _ & ->)];
      apply effect_nodes; [done|]. by apply same_desired_refold.
  - destruct (owner_cases marshal sha256 c nodeID intent excl now) as [[err ->]|(n & ? & ? & _ & _ & ->)];
      apply effect_nodes; [done|]. by apply same_desired_refold.
  - destruct (desired_cases marshal sha256 c next now) as [[err ->]|(e & n & He & _ & ? & ? & _ & Hadv & ->)];
      [by apply effect_nodes|]. destruct (do_execution _ _ _ _ (ok_desired c Hok) _ _ He) as (Hid & _).
    match goal with |- effect c (refold _ _ ?c1 ?a ?b ?d).1 =>
      destruct (refold_frame marshal sha256 c1 a b d) as [[] _] end.
    rewrite (commit_desired_eq c next e) in * by done. by eapply effect_advance.
  - destruct (teardown_cases marshal sha256 c update now) as [[err ->]|(n & n' & i & _ & _ & _ & _ & ->)];
      apply effect_nodes; [done|]. by apply same_desired_refold.
  - destruct (fence_cases marshal sha256 c f now) as [[err ->]|(e & n & _ & _ & Hv & Hadv & ->)];
      [by apply effect_nodes|]. eapply effect_fence; [done..|]. by apply same_desired_refold.
  - destruct (clear_cases marshal sha256 c f now) as [[err ->]|(e & n & _ & _ & Hf & _ & ->)];
      [by apply effect_nodes|]. eapply effect_clear; [done|]. by apply same_desired_refold.
Qed.

Lemma commit_claim_fields c e :
  ctl_executions (commit_claim c e) = <[exec_ID e := e]> (ctl_executions c) /\
  ctl_epoch (commit_claim c e) = ctl_epoch c /\ ctl_fences (commit_claim c e) = ctl_fences c /\
  ctl_clearedFences (commit_claim c e) = ctl_clearedFences c.
Proof. unfold commit_claim. by destruct (negb _). Qed.

Lemma unhealthy_same c :
  let c' := MarkManagementProjectionUnavailable c in
  ctl_executions c' = ctl_executions c /\ ctl_epoch c' = ctl_epoch c /\
  ctl_fences c' = ctl_fences c /\ ctl_clearedFences c' = ctl_clearedFences c.
Proof. unfold MarkManagementProjectionUnavailable. by destruct (negb _). Qed.

Lemma effect_executions c c' :
  ctl_ok c -> effect c c' ->
  executions_advance (ctl_executions c) (ctl_executions c') /\ ctl_epoch c' = ctl_epoch c.
Proof.
  intros Hok. pose proof (ctl_ok_valid c Hok) as Hv.
  pose proof (executions_advance_refl _ Hv) as Hrefl. intros [].
  - by rewrite (sd_executions _ _ Hsame), (sd_epoch _ _ Hsame).
  - subst. by destruct (unhealthy_same c) as (-> & -> & _).
  - destruct (commit_claim_fields c e) as (H1 & H2 & _).
    rewrite (sd_executions _ _ Hsame), (sd_epoch _ _ Hsame), H1, H2. split; [by apply executions_advance_new|done].
  - by rewrite (sd_executions _ _ Hsame), (sd_epoch _ _ Hsame).
  - rewrite Hexecutions. split; [by apply executions_advance_state|done].
  - by rewrite (sd_executions _ _ Hsame), (sd_epoch _ _ Hsame).
  - by rewrite (sd_executions _ _ Hsame), (sd_epoch _ _ Hsame).
Qed.

Lemma run_executions history : forall c,
  ctl_ok c ->
  executions_advance (ctl_executions c) (ctl_executions (run c history)) /\
  ctl_epoch (run c history) = ctl_epoch c.
Proof.
  induction history as [|[now e] history IH]; intros c Hok.
  - split; [|done]. apply executions_advance_refl. by apply ctl_ok_valid.
  - destruct (effect_executions _ _ Hok (step_effect c now e Hok)) as [H1 H2].
    destruct (IH (step c now e).1) as [H3 H4]; [by apply step_ok|].
    split; [by eapply executions_advance_trans|]. unfold run in *. simpl. congruence.
Qed.

(** ** Fence tokens *)

(** A retained token stays or gives way to a newer one of the same claim, and a
    cleared one does not become active again unless it is newer. *)
Definition token_advances (c c' : Controller) : Prop :=
  forall id t, token c id = Some t ->
    exists t', token c' id = Some t' /\
      ((t' = t /\ (ctl_fences c !! id = None -> ctl_fences c' !! id = None)) \/
       (same_claim t t' /\ rank_lt (fence_attempt_rank t) (fence_attempt_rank t'))).

Lemma token_advances_same c c' :
  ctl_fences c' = ctl_fences c -> ctl_clearedFences c' = ctl_clearedFences c -> token_advances c c'.
Proof. intros Hf Hc id t. unfold token. rewrite Hf, Hc. intros ->. eauto. Qed.

Lemma token_advances_trans c1 c2 c3 :
  token_advances c1 c2 -> token_advances c2 c3 -> token_advances c1 c3.
Proof.
  intros H12 H23 id t Ht. destruct (H12 _ _ Ht) as (t2 & Ht2 & Hr12).
  destruct (H23 _ _ Ht2) as (t3 & Ht3 & Hr23). exists t3. split; [done|].
  destruct Hr12 as [[-> Hi12]|[Hs12 Hr12]], Hr23 as [[-> Hi23]|[Hs23 Hr23]].
  - left. auto.
  - by right.
  - by right.
  - right. split; [|by eapply rank_lt_trans].
    destruct Hs12 as (? & ? & ?), Hs23 as (? & ? & ?). unfold same_claim. split_and!; congruence.
Qed.

Lemma token_fence c f id :
  token (commit_fence c f) id = if decide (fence_ExecutionID f = id) then Some f else token c id.
Proof.
  unfold token. simpl. destruct (decide _) as [<-|Hne]; [by rewrite lookup_insert_eq|].
  by rewrite lookup_insert_ne, lookup_delete_ne.
Qed.

Lemma token_clear c f id :
  ctl_fences c !! fence_ExecutionID f = Some f ->
  token (commit_clear c f (fence_ExecutionID f)) id = token c id.
Proof.
  intros Hf. unfold token. simpl. destruct (decide (fence_ExecutionID f = id)) as [<-|Hne].
  - by rewrite lookup_delete_eq, lookup_insert_eq, Hf.
  - by rewrite lookup_delete_ne, lookup_insert_ne.
Qed.

Lemma effect_tokens c c' : ctl_ok c -> effect c c' -> token_advances c c'.
Proof.
  intros Hok [].
  - apply token_advances_same; apply Hsame.
  - subst. apply token_advances_same; apply (unhealthy_same c).
  - destruct (commit_claim_fields c e) as (_ & _ & Hf & Hc). apply token_advances_same.
    + by rewrite (sd_fences _ _ Hsame).
    + by rewrite (sd_cleared _ _ Hsame).
  - apply token_advances_same; apply Hsame.
  - by apply token_advances_same.
  - eapply token_advances_trans; [|apply (token_advances_same (commit_fence c f)); apply Hsame].
    intros id t Ht. rewrite token_fence. destruct (decide _) as [<-|Hne].
    + exists f. split; [done|]. right. by apply fence_advance_rank, Hadv.
    + exists t. split; [done|]. left. split; [done|]. simpl. by rewrite lookup_insert_ne.
  - eapply token_advances_trans; [|apply (token_advances_same _ c'); apply Hsame].
    intros id t Ht. rewrite token_clear by done. exists t. split; [done|]. left. split; [done|].
    simpl. rewrite lookup_delete_None. by right.
Qed.

Lemma run_tokens history : forall c, ctl_ok c -> token_advances c (run c history).
Proof.
  induction history as [|[now e] history IH]; intros c Hok; [by apply token_advances_same|].
  eapply token_advances_trans; [by eapply effect_tokens, (step_effect c now e)|].
  apply IH. by apply step_ok.
Qed.

(** A fence that is not newer than the retained token is refused, or is the
    active token itself. *)
Lemma fence_refused c f now t :
  token c (fence_ExecutionID f) = Some t -> ctl_fences c !! fence_ExecutionID f <> Some f ->
  ~ rank_lt (fence_attempt_rank t) (fence_attempt_rank f) ->
  exists err, ApplyGitHubFence marshal sha256 c f now = (c, Some err).
Proof.
  intros Ht Hne Hr. unfold ApplyGitHubFence, ApplyGitHubFence_with. destruct (validateGitHubFence f) eqn:Hv; [eauto|].
  destruct (_ || _); [eauto|].
  assert (Hadv : githubFenceCanAdvance t f = false).
  { destruct (githubFenceCanAdvance t f) eqn:E; [|done]. by apply fence_advance_rank in E as [_ ?]. }
  unfold token in Ht. destruct (ctl_fences c !! fence_ExecutionID f) as [cur|] eqn:Hcur.
  - injection Ht as ->. destruct (githubFencesEqual t f) eqn:He.
    { apply githubFencesEqual_iff in He as ->. done. }
    rewrite Hadv. simpl. eauto.
  - rewrite Ht, Hadv. simpl. eauto.
Qed.

(** ** An update is applied whole or not at all *)

(** What [check_authority] reads of a node. *)
Definition node_authority (n : nodeRuntime) : bool * string * string * Z :=
  (rt_platformKnown n, node_OS (ns_Node (rt_scheduler n)),
   node_Architecture (ns_Node (rt_scheduler n)), node_MaxRunners (ns_Node (rt_scheduler n))).

Lemma check_commands_ext c c' nodeID commands :
  ctl_commands c' = ctl_commands c -> check_commands c' nodeID commands = check_commands c nodeID commands.
Proof. intros Hc. induction commands as [|x rest IH]; simpl; [done|]. by rewrite Hc, IH. Qed.

Lemma check_authority_ext c c' snapshot n :
  ctl_epoch c' = ctl_epoch c -> ctl_commands c' = ctl_commands c ->
  node_authority <$> ctl_nodes c' !! snap_NodeID snapshot =
  node_authority <$> ctl_nodes c !! snap_NodeID snapshot ->
  check_authority c snapshot = Ok n -> exists n', check_authority c' snapshot = Ok n'.
Proof.
  intros He Hc Hn. unfold check_authority. rewrite He, (check_commands_ext c c') by done.
  destruct (ctl_nodes c !! _) as [m|], (ctl_nodes c' !! _) as [m'|]; simplify_eq/=; [|done].
  unfold node_authority in *. simplify_eq. destruct (_ >? ctl_epoch c); [done|].
  repeat match goal with H : _ = _ |- _ => rewrite H; clear H end.
  destruct (_ && _); [done|]. destruct (check_commands _ _ _); [done|].
  destruct (_ >? _); [done|]. eauto.
Qed.

Lemma refold_succeeds c c' snapshot now :
  validateFoldedAgentSnapshotLocked marshal sha256 c snapshot = None -> now <> 0 ->
  ctl_epoch c' = ctl_epoch c -> ctl_commands c' = ctl_commands c ->
  (forall id, node_authority <$> ctl_nodes c' !! id = node_authority <$> ctl_nodes c !! id) ->
  exists digest current node, check_authority c' snapshot = Ok current /\
    node = candidate_node current snapshot digest (scan c' snapshot) now /\
    refold marshal sha256 c' true snapshot now =
    (signalChangeLocked (set_node c' (snap_NodeID snapshot) node), None).
Proof.
  intros Hv Hnow He Hc Hn. unfold validateFoldedAgentSnapshotLocked in Hv.
  destruct (check_snapshot marshal sha256 snapshot) as [digest|] eqn:Hs; [|done].
  destruct (check_authority c snapshot) as [n|] eqn:Ha; [|done].
  destruct (check_authority_ext c c' snapshot n He Hc (Hn _) Ha) as [n' Ha'].
  exists digest, n', (candidate_node n' snapshot digest (scan c' snapshot) now).
  split_and!; try done. unfold refold, reconcileAgentSnapshotAt. rewrite Hs. unfold IsZero.
  by rewrite bool_decide_eq_false_2, Ha'.
Qed.

Lemma quarantine_on_authority state n : node_authority (quarantine_on state n) = node_authority n.
Proof. unfold quarantine_on. by destruct (_ || _). Qed.

Lemma folded_authority n n' : folded n n' -> node_authority n' = node_authority n.
Proof. unfold folded, node_authority. by intros (-> & _ & _ & -> & _). Qed.

Lemma quarantine_on_snapshot state n : rt_snapshot (quarantine_on state n) = rt_snapshot n.
Proof. unfold quarantine_on. by destruct (_ || _). Qed.

(** Folding a validated candidate back in succeeds and keeps its snapshot. *)
Lemma refold_candidate c c1 nodeID n n' state now :
  ctl_nodes c !! nodeID = Some n -> folded n n' -> now <> 0 ->
  (rt_seen n = true -> validateFoldedAgentSnapshotLocked marshal sha256 c (rt_snapshot n') = None) ->
  ctl_epoch c1 = ctl_epoch c -> ctl_commands c1 = ctl_commands c ->
  ctl_nodes c1 = <[nodeID := quarantine_on state n']> (ctl_nodes c) ->
  let r := refold marshal sha256 c1 (rt_seen n') (rt_snapshot n') now in
  r.2 = None /\ same_desired c1 r.1 /\
  exists m, ctl_nodes r.1 !! nodeID = Some m /\ rt_snapshot m = rt_snapshot n'.
Proof.
  intros Hn Hf Hnow Hv He Hc Hnodes r. pose proof Hf as (_ & _ & _ & _ & _ & Hseen).
  destruct (refold_frame marshal sha256 c1 (rt_seen n') (rt_snapshot n') now) as [Hsame _].
  fold r in Hsame. destruct (rt_seen n) eqn:Hs.
  - destruct (refold_succeeds c c1 (rt_snapshot n') now (Hv eq_refl) Hnow He Hc) as (d & cur & m & _ & -> & Hr).
    { intros id. rewrite Hnodes. destruct (decide (nodeID = id)) as [<-|Hne].
      - rewrite lookup_insert_eq, Hn. simpl. by rewrite quarantine_on_authority, (folded_authority _ _ Hf).
      - by rewrite lookup_insert_ne. }
    unfold r in *. rewrite Hseen in *. rewrite Hr in *. split_and!; [done|done|]. simpl.
    destruct (decide (snap_NodeID (rt_snapshot n') = nodeID)) as [<-|Hne].
    + rewrite lookup_insert_eq. by eexists.
    + rewrite lookup_insert_ne, Hnodes, lookup_insert_eq by done. eexists. split; [done|].
      apply quarantine_on_snapshot.
  - unfold r in *. rewrite Hseen in *. split_and!; [done|done|]. simpl.
    rewrite Hnodes, lookup_insert_eq. eexists. split; [done|]. apply quarantine_on_snapshot.
Qed.

Lemma monotonic_timestamp now previous t :
  monotonicObservationTimestamp now previous = Ok t ->
  previous < t /\ now <= t /\ (now <= max_int64 -> previous <= max_int64 -> t <= max_int64).
Proof.
  unfold monotonicObservationTimestamp. rewrite Z.gtb_ltb.
  destruct (Z.ltb_spec previous now); [intros [= <-]; lia|].
  case_bool_decide; [done|]. intros [= <-]. lia.
Qed.

(** Exactly one observation carries the new state: the first one of the execution,
    with a later time, or a new last one. *)
Lemma fold_observation_spec admissible id state at_ os os' :
  fold_observation admissible id state at_ os = Ok os' ->
  (exists pre p post t, os = pre ++ p :: post /\ os' = pre ++ mkObservation id state t :: post /\
     obs_ExecutionID p = id /\ Forall (fun o => obs_ExecutionID o <> id) pre /\
     admissible p = None /\ monotonicObservationTimestamp at_ (obs_ObservedAtUnixNano p) = Ok t) \/
  (Forall (fun o => obs_ExecutionID o <> id) os /\ os' = os ++ [mkObservation id state at_]).
Proof.
  revert os'. induction os as [|o os IH]; simpl; intros os'.
  { intros [= <-]. right. by split. }
  case_bool_decide as Hid; simpl.
  - destruct (admissible o) eqn:Ha; [done|].
    destruct (monotonicObservationTimestamp _ _) as [t|] eqn:Ht; [|done]. intros [= <-].
    left. exists [], o, os, t. by split_and!.
  - destruct (fold_observation _ _ _ _ _) as [rest|]; [|done]. intros [= <-].
    destruct (IH rest eq_refl) as [(pre & p & post & t & -> & -> & ? & ? & ? & ?)|[? ->]].
    + left. exists (o :: pre), p, post, t. split_and!; try done. by constructor.
    + right. split; [by constructor|done].
Qed.

Lemma fold_update_observations c n command admissible update now n' :
  fold_update marshal sha256 c n command admissible update now = Ok n' ->
  fold_observation admissible (update_ExecutionID update) (update_State update) (UnixNano now)
    (snap_Observations (rt_snapshot n)) = Ok (snap_Observations (rt_snapshot n')).
Proof.
  unfold fold_update. destruct (fold_command _ _) as [s|] eqn:Hs; [|done].
  assert (snap_Observations s = snap_Observations (rt_snapshot n)) as <-.
  { unfold fold_command in Hs. destruct (List.find _ _).
    - destruct (negb _); [done|]. by injection Hs as <-.
    - by injection Hs as <-. }
  destruct (fold_observation _ _ _ _ _) as [os|] eqn:Ho; [|done].
  destruct (if rt_seen n then _ else _); [done|]. by intros [= <-].
Qed.

Definition reports (n : nodeRuntime) (id : ExecutionID) (state : string) : Prop :=
  exists o, o ∈ snap_Observations (rt_snapshot n) /\ obs_ExecutionID o = id /\ obs_State o = state.

Lemma fold_update_reports c n command admissible update now n' :
  fold_update marshal sha256 c n command admissible update now = Ok n' ->
  reports n' (update_ExecutionID update) (update_State update).
Proof.
  unfold reports. intros H%fold_update_observations%fold_observation_spec.
  destruct H as [(pre & p & post & t & _ & -> & _)|[_ ->]];
    eexists; (split; [apply elem_of_app; right; by left|done]).
Qed.

Lemma reports_ext n n' id state : rt_snapshot n' = rt_snapshot n -> reports n id state -> reports n' id state.
Proof. unfold reports. by intros ->. Qed.

(** ** Capacity means agreement *)

Lemma check_snapshot_valid snapshot digest :
  check_snapshot marshal sha256 snapshot = Ok digest -> snapshot_valid snapshot.
Proof.
  unfold check_snapshot. destruct (AgentSnapshot_Validate snapshot) eqn:Hv; [done|].
  intros _. by apply AgentSnapshot_Validate_valid.
Qed.

(** *** The invariant *)

Definition coherent_at (c : Controller) (id : NodeID) : Prop :=
  forall n, ctl_nodes c !! id = Some n -> rt_seen n = true ->
    snap_NodeID (rt_snapshot n) = id /\
    (ns_Reconciled (rt_scheduler n) = true -> rt_actions n = [] -> agreement c id (rt_snapshot n)).
Definition coherent (c : Controller) : Prop := forall id, coherent_at c id.

Lemma coherent_at_same c c' id :
  ctl_nodes c' !! id = ctl_nodes c !! id ->
  (forall snapshot, agreement c id snapshot -> agreement c' id snapshot) ->
  coherent_at c id -> coherent_at c' id.
Proof.
  intros Hn Ha Hc n Hlookup Hseen. rewrite Hn in Hlookup. destruct (Hc n Hlookup Hseen) as [? Hag].
  split; [done|]. intros. by apply Ha, Hag.
Qed.

Lemma sorted_actions_nil digest actions :
  sortActions (map (action_with_digest digest) actions) = [] -> actions = [].
Proof.
  intros H. assert (Hp := sort_slice_perm action_less (map (action_with_digest digest) actions)).
  unfold sortActions in H. rewrite H in Hp. apply Permutation_nil in Hp. by destruct actions.
Qed.

(** Accepting a snapshot makes its node coherent and keeps the others. *)
Lemma coherent_reconcile c snapshot now c' r :
  ctl_ok c -> (forall id, id <> snap_NodeID snapshot -> coherent_at c id) ->
  reconcileAgentSnapshotAt marshal sha256 c snapshot now = (c', Ok r) -> coherent c'.
Proof.
  intros Hok Hother Hr. pose proof (reconcile_cases marshal sha256 c snapshot now) as Hcases.
  rewrite Hr in Hcases. inversion Hcases as [|digest current Hs Hnow Ha]. subst c'.
  assert (Hag : forall id s, agreement c id s ->
    agreement (signalChangeLocked (set_node c (snap_NodeID snapshot)
      (candidate_node current snapshot digest (scan c snapshot) now))) id s).
  { intros id s. by apply agreement_same. }
  intros id. destruct (decide (id = snap_NodeID snapshot)) as [->|Hne].
  - intros n. simpl. rewrite lookup_insert_eq. intros [= <-] _. split; [done|].
    intros _ Hnil. apply Hag. apply scan_quiet_agreement; [done| |].
    + by eapply check_snapshot_valid.
    + by apply sorted_actions_nil in Hnil.
  - apply (coherent_at_same c); [|apply Hag|by apply Hother]. simpl. by rewrite lookup_insert_ne.
Qed.

(** A change about the executions of one node, folded back in without an error. *)
Lemma coherent_refold c c1 nodeID n now :
  coherent c -> ctl_ok c1 -> ctl_nodes c1 !! nodeID = Some n ->
  (rt_seen n = true -> snap_NodeID (rt_snapshot n) = nodeID) ->
  (forall id, id <> nodeID -> ctl_nodes c1 !! id = ctl_nodes c !! id) ->
  (forall id snapshot, id <> nodeID -> agreement c id snapshot -> agreement c1 id snapshot) ->
  let r := refold marshal sha256 c1 (rt_seen n) (rt_snapshot n) now in
  r.2 = None -> coherent r.1.
Proof.
  intros Hc Hok Hn Hid Hnodes Hag. unfold refold.
  assert (Hother : forall id, id <> nodeID -> coherent_at c1 id).
  { intros id Hne. apply (coherent_at_same c); eauto. }
  destruct (rt_seen n) eqn:Hs; simpl.
  - specialize (Hid eq_refl).
    destruct (reconcileAgentSnapshotAt marshal sha256 c1 (rt_snapshot n) now) as [c' [r|err]] eqn:Hr; [|done].
    intros _. simpl. eapply coherent_reconcile; [done| |exact Hr]. by rewrite Hid.
  - intros _ id. destruct (decide (id = nodeID)) as [->|Hne]; [|by apply Hother].
    intros n' Hn' Hseen. congruence.
Qed.

Lemma coherent_id c id n : coherent c -> ctl_nodes c !! id = Some n -> rt_seen n = true ->
  snap_NodeID (rt_snapshot n) = id.
Proof. intros Hc Hn Hs. by destruct (Hc id n Hn Hs). Qed.

(** One node replaced by one that is unseen or claims no capacity. *)
Lemma coherent_withdraw c id n n' :
  coherent c -> ctl_nodes c !! id = Some n -> withdrawn n n' ->
  coherent (signalChangeLocked (set_node c id n')).
Proof.
  intros Hc Hn Hw id'. destruct (decide (id' = id)) as [->|Hne].
  - intros m. simpl. rewrite lookup_insert_eq. intros [= <-] Hs. split.
    + rewrite (wd_snapshot _ _ Hw). eapply coherent_id; [done..|]. by apply (wd_seen _ _ Hw).
    + by rewrite (wd_reconciled _ _ Hw).
  - apply (coherent_at_same c); [|intros s; by apply agreement_same|apply Hc].
    simpl. by rewrite lookup_insert_ne.
Qed.

(** Agreement elsewhere when one execution of a node changes. *)
Lemma agreement_elsewhere_insert c c' e id snapshot :
  ctl_executions c' = <[exec_ID e := e]> (ctl_executions c) -> ctl_fences c' = ctl_fences c ->
  id <> slot_NodeID (exec_Slot e) ->
  agreement c id snapshot -> agreement c' id snapshot.
Proof.
  intros Hx Hf Hne. apply agreement_ext; rewrite Hx, ?Hf; [| |done].
  - intros k e'. rewrite lookup_insert_Some. intros [[_ <-]|[_ ?]] Hnode; [congruence|done].
  - intros k Hk. rewrite lookup_insert_is_Some. destruct (decide (exec_ID e = k)); auto.
Qed.

Lemma agreement_elsewhere_fence c c' e f id snapshot :
  ctl_executions c' = ctl_executions c -> ctl_executions c !! fence_ExecutionID f = Some e ->
  (forall k, k <> fence_ExecutionID f -> ctl_fences c' !! k = ctl_fences c !! k) ->
  id <> slot_NodeID (exec_Slot e) ->
  agreement c id snapshot -> agreement c' id snapshot.
Proof.
  intros Hx He Hf Hne. apply agreement_ext; rewrite Hx; [done|done|].
  intros k e' He' Hnode. destruct (decide (k = fence_ExecutionID f)) as [->|Hk]; [congruence|].
  by rewrite Hf.
Qed.

Lemma fold_update_node_id c n command admissible update now n' :
  fold_update marshal sha256 c n command admissible update now = Ok n' ->
  snap_NodeID (rt_snapshot n') = snap_NodeID (rt_snapshot n).
Proof.
  unfold fold_update. destruct (fold_command _ _) as [s|] eqn:Hs; [|done].
  assert (snap_NodeID s = snap_NodeID (rt_snapshot n)) as <-.
  { unfold fold_command in Hs. destruct (List.find _ _).
    - destruct (negb _); [done|]. by injection Hs as <-.
    - by injection Hs as <-. }
  destruct (fold_observation _ _ _ _ _); [|done].
  destruct (if rt_seen n then _ else _); [done|]. by intros [= <-].
Qed.

Lemma quarantine_on_seen state n : rt_seen (quarantine_on state n) = rt_seen n.
Proof. unfold quarantine_on. by destruct (_ || _). Qed.

Lemma quarantine_on_reconciled state n :
  ns_Reconciled (rt_scheduler (quarantine_on state n)) = ns_Reconciled (rt_scheduler n).
Proof. unfold quarantine_on. by destruct (_ || _). Qed.

Lemma quarantine_on_actions state n : rt_actions (quarantine_on state n) = rt_actions n.
Proof. unfold quarantine_on. by destruct (_ || _). Qed.

(** [coherent_refold] for a method that also replaced the node. *)
Lemma coherent_refold_node c c1 nodeID n n1 seen snapshot now :
  coherent c -> ctl_ok c1 -> ctl_nodes c !! nodeID = Some n ->
  ctl_nodes c1 = <[nodeID := n1]> (ctl_nodes c) ->
  rt_seen n1 = rt_seen n -> seen = rt_seen n1 -> snapshot = rt_snapshot n1 ->
  snap_NodeID snapshot = snap_NodeID (rt_snapshot n) ->
  (forall id s, id <> nodeID -> agreement c id s -> agreement c1 id s) ->
  let r := refold marshal sha256 c1 seen snapshot now in
  r.2 = None -> coherent r.1.
Proof.
  intros Hc Hok Hn Hnodes Hseen -> -> Hid Hag. apply (coherent_refold c c1 nodeID n1); try done.
  - by rewrite Hnodes, lookup_insert_eq.
  - rewrite Hid. intros Hs. apply (coherent_id c); [done..|]. by rewrite <- Hseen.
  - intros id Hne. by rewrite Hnodes, lookup_insert_ne.
Qed.

(** The methods one by one: each leaves a coherent projection coherent, unless it
    fails after it has changed something. *)
Definition keeps_coherent (c : Controller) (r : Controller * error) : Prop :=
  ctl_ok c -> coherent c -> r.2 = None -> coherent r.1.

Lemma coherent_ensure c topology : keeps_coherent c (EnsureRestartNode c topology).
Proof.
  intros Hok Hc. destruct (ensure_cases c topology) as [[err ->]|(d & _ & Hn & ->)]; [done|]. intros _ id.
  destruct (decide (id = topo_NodeID topology)) as [->|Hne].
  - intros n. simpl. rewrite lookup_insert_eq. by intros [= <-].
  - apply (coherent_at_same c); [|intros s; by apply agreement_same|apply Hc]. simpl.
    by rewrite lookup_insert_ne.
Qed.

Lemma coherent_configurations c confs : keeps_coherent c (ApplyNodeConfigurations c confs).
Proof.
  intros Hok Hc. destruct (configurations_cases c confs)
    as [[err ->]|(c' & byNode & -> & Hsame & _ & Hnodes)]; [done|].
  intros _ id n' Hn' Hseen. specialize (Hnodes id). simpl in Hn'. rewrite Hn' in Hnodes.
  destruct (ctl_nodes c !! id) as [n|] eqn:Hn; [|done].
  destruct Hnodes as [(_ & _ & H1 & _ & H2 & H3 & H4) _]. rewrite H4 in Hseen.
  destruct (Hc id n Hn Hseen) as [Hid Hag]. rewrite H1, H2, H3. split; [done|]. intros Hr Ha.
  apply (agreement_same c); [apply Hsame|apply Hsame|by apply Hag].
Qed.

Lemma coherent_claim c claim now : keeps_coherent c (ApplyGitHubClaim marshal sha256 c claim now).
Proof.
  intros Hok Hc. destruct (claim_cases marshal sha256 c claim now)
    as [[err ->]|(n & Hn & Hv & Hi & [[_ ->]|(Hnew & Hfree & ->)])]; [done|..].
  - apply (coherent_refold c c (slot_NodeID (exec_Slot (claim_Execution claim))) n); try done.
    intros Hs. by eapply coherent_id.
  - set (e := claim_Execution claim) in *. destruct (commit_claim_fields c e) as (Hx & _ & Hf & _).
    apply (coherent_refold c _ (slot_NodeID (exec_Slot e)) n); try done.
    + by eapply ctl_ok_claim.
    + unfold commit_claim. by destruct (negb _).
    + intros Hs. by eapply coherent_id.
    + intros. unfold commit_claim. by destruct (negb _).
    + intros id s Hne. by apply (agreement_elsewhere_insert c _ e).
Qed.

Lemma coherent_command c i now : keeps_coherent c (ApplyIssuedCommand marshal sha256 c i now).
Proof.
  intros Hok Hc. destruct (command_cases marshal sha256 c i now)
    as [[err ->]|(e & n & Hn & He & Hs & Hv & Hm & Hnew & ->)]; [done|].
  apply (coherent_refold c _ (issued_NodeID i) n); try done.
  - by eapply ctl_ok_command.
  - intros Hseen. by eapply coherent_id.
  - intros id s _. by apply agreement_same.
Qed.

Lemma coherent_update c update now :
  keeps_coherent c (ApplyExecutionUpdate marshal sha256 c update now).
Proof.
  intros Hok Hc. destruct (update_cases marshal sha256 c update now)
    as [[err ->]|(e & n & n' & i & Hcu & _ & Hk & Hf & Hfold & ->)]; [done|].
  apply check_update_inv in Hcu as (He & Hn & Hnode & _ & Hadv).
  destruct (ctl_ok_valid c Hok _ _ He) as [Hid _].
  apply (coherent_refold_node c _ (update_NodeID update) n (quarantine_on (update_State update) n'));
    try done.
  - rewrite commit_update_eq. apply ctl_ok_advance; try done. rewrite fmap_insert.
    rewrite quarantine_on_limit, (folded_limit _ _ Hf). apply insert_id. unfold node_limits.
    by rewrite lookup_fmap, Hn.
  - by rewrite commit_update_eq.
  - rewrite quarantine_on_seen. apply Hf.
  - by rewrite quarantine_on_seen.
  - by rewrite quarantine_on_snapshot.
  - by eapply fold_update_node_id.
  - intros id s Hne. apply (agreement_elsewhere_insert c _ (exec_with_state e (update_State update)));
      rewrite ?commit_update_eq; simpl; rewrite ?Hid; congruence.
Qed.

Lemma coherent_desired c next now :
  keeps_coherent c (ApplyDesiredExecution marshal sha256 c next now).
Proof.
  intros Hok Hc. destruct (desired_cases marshal sha256 c next now)
    as [[err ->]|(e & n & He & Hn & Ht & Hs & Hv & Hadv & ->)]; [done|].
  destruct (ctl_ok_valid c Hok _ _ He) as [Hid _].
  rewrite (commit_desired_eq c next e) by done.
  apply (coherent_refold c _ (slot_NodeID (exec_Slot next)) n); try done.
  - apply ctl_ok_advance; try done. by apply ExecutionSnapshot_Validate_inv.
  - intros Hseen. by eapply coherent_id.
  - intros id s Hne. apply (agreement_elsewhere_insert c _ (exec_with_state e (exec_State next)));
      simpl; congruence.
Qed.

Lemma coherent_teardown c update now :
  keeps_coherent c (ApplyReconciliationExecutionUpdate marshal sha256 c update now).
Proof.
  intros Hok Hc. destruct (teardown_cases marshal sha256 c update now)
    as [[err ->]|(n & n' & i & Hct & _ & Hf & Hfold & ->)]; [done|].
  apply check_teardown_inv in Hct as (Hn & _).
  apply (coherent_refold_node c _ (update_NodeID update) n (quarantine_on (update_State update) n'));
    try done.
  - eapply ctl_ok_set_node; [done..|]. by rewrite quarantine_on_limit, (folded_limit _ _ Hf).
  - rewrite quarantine_on_seen. apply Hf.
  - by rewrite quarantine_on_seen.
  - by rewrite quarantine_on_snapshot.
  - by eapply fold_update_node_id.
  - intros id s _. by apply agreement_same.
Qed.

(** Readiness and owner state replace the retained snapshot of one seen node. *)
Lemma coherent_owner c nodeID n n' now :
  rt_scheduler n' = rt_scheduler n -> rt_seen n' = rt_seen n ->
  snap_NodeID (rt_snapshot n') = snap_NodeID (rt_snapshot n) ->
  ctl_nodes c !! nodeID = Some n -> rt_seen n = true ->
  keeps_coherent c (refold marshal sha256 (signalChangeLocked (set_node c nodeID n')) true
    (rt_snapshot n') now).
Proof.
  intros Hsched Hseen Hid Hn Hs Hok Hc.
  apply (coherent_refold_node c _ nodeID n n'); try done.
  - eapply ctl_ok_set_node; [done..|]. unfold node_limit. by rewrite Hsched.
  - by rewrite Hseen.
  - intros id s _. by apply agreement_same.
Qed.

Lemma coherent_fence c f now : keeps_coherent c (ApplyGitHubFence marshal sha256 c f now).
Proof.
  intros Hok Hc. destruct (fence_cases marshal sha256 c f now)
    as [[err ->]|(e & n & He & Hn & Hv & Hadv & ->)]; [done|].
  apply (coherent_refold c _ (slot_NodeID (exec_Slot e)) n); try done.
  - by apply ctl_ok_fence.
  - intros Hseen. by eapply coherent_id.
  - intros id s Hne. apply (agreement_elsewhere_fence c _ e f); try done.
    intros k Hk. simpl. by rewrite lookup_insert_ne.
Qed.

Lemma coherent_clear c f now : keeps_coherent c (ClearGitHubFence marshal sha256 c f now).
Proof.
  intros Hok Hc. destruct (clear_cases marshal sha256 c f now)
    as [[err ->]|(e & n & He & Hn & Hf & Hv & ->)]; [done|].
  apply (coherent_refold c _ (slot_NodeID (exec_Slot e)) n); try done.
  - by apply ctl_ok_clear.
  - intros Hseen. by eapply coherent_id.
  - intros id s Hne. apply (agreement_elsewhere_fence c _ e f); try done.
    intros k Hk. simpl. by rewrite lookup_delete_ne.
Qed.

Lemma step_coherent c now e :
  ctl_ok c -> coherent c ->
  (step c now e).2 = None \/ (step c now e).1 = c -> coherent (step c now e).1.
Proof.
  intros Hok Hc [Herr|Heq]; [|by rewrite Heq]. revert Herr.
  destruct e as [topology| |snapshot|nodeID|nodeID next rem|confs|nodeID update|claim|i|
    update|nodeID ready|nodeID intent excl|next|update|f|f]; simpl in *;
    [by apply coherent_ensure| | | | |by apply coherent_configurations| |by apply coherent_claim
    |by apply coherent_command|by apply coherent_update| | |by apply coherent_desired
    |by apply coherent_teardown|by apply coherent_fence|by apply coherent_clear].
  - intros _ id. apply (coherent_at_same c); [|intros s; apply agreement_same|apply Hc];
      unfold MarkManagementProjectionUnavailable; by destruct (negb _).
  - unfold ReconcileAgentSnapshot.
    destruct (reconcileAgentSnapshotAt marshal sha256 c snapshot now) as [c' [r|err]] eqn:Hr; [|done].
    intros _. simpl. eapply coherent_reconcile; [done| |exact Hr]. intros; apply Hc.
  - destruct (disconnect_cases c nodeID now) as [[err ->]|(n & n' & Hn & Hw & _ & ->)]; [done|].
    intros _. by eapply coherent_withdraw.
  - destruct (administrative_cases c nodeID next rem) as [[err ->]|(n & n' & Hn & Hw & _ & ->)]; [done|].
    intros _. by eapply coherent_withdraw.
  - destruct (runner_update_cases c nodeID update) as [[err ->]|(n & n' & Hn & Hw & _ & ->)]; [done|].
    intros _. by eapply coherent_withdraw.
  - destruct (readiness_cases marshal sha256 c nodeID ready now) as [[err ->]|(n & ? & ? & Hn & Hs & ->)]; [done|].
    by refine (coherent_owner c nodeID n (node_with_snapshot n _) now _ _ _ Hn Hs Hok Hc).
  - destruct (owner_cases marshal sha256 c nodeID intent excl now) as [[err ->]|(n & ? & ? & Hn & Hs & ->)]; [done|].
    by refine (coherent_owner c nodeID n (node_with_snapshot n _) now _ _ _ Hn Hs Hok Hc).
Qed.

(** Every call so far either succeeded or changed nothing: no method failed after
    it had changed the projection. *)
Fixpoint settled_history (c : Controller) (history : list (Z * event)) : Prop :=
  match history with
  | [] => True
  | (now, e) :: rest =>
      ((step c now e).2 = None \/ (step c now e).1 = c) /\ settled_history (step c now e).1 rest
  end.

Lemma run_coherent history : forall c,
  ctl_ok c -> coherent c -> settled_history c history -> coherent (run c history).
Proof.
  induction history as [|[now e] history IH]; intros c Hok Hc Hs; [done|].
  destruct Hs as [Hstep Hs]. apply IH; [by apply step_ok|by apply step_coherent|done].
Qed.

Lemma coherent_fresh c : map_Forall fresh_node (ctl_nodes c) -> coherent c.
Proof. intros Hf id n Hn. by destruct (Hf _ _ Hn) as (d & a & -> & _). Qed.

(** ** Administrative state *)

Definition admin (n : nodeRuntime) : string := node_AdministrativeState (ns_Node (rt_scheduler n)).

(** Nodes stay, and their administrative state stays or becomes quarantined. *)
Definition admin_kept (c c' : Controller) : Prop :=
  forall id n, ctl_nodes c !! id = Some n ->
    exists n', ctl_nodes c' !! id = Some n' /\ (admin n' = admin n \/ admin n' = NodeQuarantined).

Lemma admin_kept_nodes c c' : ctl_nodes c' = ctl_nodes c -> admin_kept c c'.
Proof. intros H id n Hn. exists n. rewrite H. auto. Qed.

Lemma admin_kept_trans c1 c2 c3 : admin_kept c1 c2 -> admin_kept c2 c3 -> admin_kept c1 c3.
Proof.
  intros H12 H23 id n Hn. destruct (H12 _ _ Hn) as (n2 & Hn2 & Ha2).
  destruct (H23 _ _ Hn2) as (n3 & Hn3 & Ha3). exists n3. split; [done|].
  destruct Ha3 as [->|?]; [|by right]. done.
Qed.

Lemma admin_kept_set c c' id n n' :
  ctl_nodes c !! id = Some n -> ctl_nodes c' = <[id := n']> (ctl_nodes c) ->
  admin n' = admin n \/ admin n' = NodeQuarantined -> admin_kept c c'.
Proof.
  intros Hn Hc Ha id' m Hm. rewrite Hc. destruct (decide (id = id')) as [<-|Hne].
  - rewrite lookup_insert_eq. exists n'. rewrite Hn in Hm. by injection Hm as <-.
  - rewrite lookup_insert_ne by done. eauto.
Qed.

Lemma candidate_admin current snapshot digest p now :
  admin (candidate_node current snapshot digest p now) = admin current \/
  admin (candidate_node current snapshot digest p now) = NodeQuarantined.
Proof.
  unfold candidate_node, admin, settle. simpl. destruct (rt_platformKnown current); branches; auto.
Qed.

Lemma admin_kept_reconcile c snapshot now :
  admin_kept c (reconcileAgentSnapshotAt marshal sha256 c snapshot now).1.
Proof.
  destruct (reconcile_cases marshal sha256 c snapshot now) as [|digest current _ _ Ha node c'];
    [by apply admin_kept_nodes|].
  eapply admin_kept_set; [apply (check_authority_node _ _ _ Ha)|reflexivity|apply candidate_admin].
Qed.

Lemma admin_kept_refold c seen snapshot now : admin_kept c (refold marshal sha256 c seen snapshot now).1.
Proof.
  unfold refold. destruct seen; [|by apply admin_kept_nodes].
  pose proof (admin_kept_reconcile c snapshot now).
  by destruct (reconcileAgentSnapshotAt _ _ c snapshot now) as [c' [r|err]].
Qed.

Lemma admin_kept_commit c c1 seen snapshot now :
  admin_kept c c1 -> admin_kept c (refold marshal sha256 c1 seen snapshot now).1.
Proof. intros H. eapply admin_kept_trans; [exact H|apply admin_kept_refold]. Qed.

Lemma quarantine_on_admin state n :
  admin (quarantine_on state n) = admin n \/ admin (quarantine_on state n) = NodeQuarantined.
Proof. unfold quarantine_on. destruct (_ || _); [by right|by left]. Qed.

Lemma quarantine_candidate_admin state n n' : folded n n' ->
  admin (quarantine_on state n') = admin n \/ admin (quarantine_on state n') = NodeQuarantined.
Proof.
  intros (Hs & _). destruct (quarantine_on_admin state n') as [->|]; [left|by right].
  unfold admin. by rewrite Hs.
Qed.

(** The administrative state is an operator's: no other call changes it, except
    that uncertain cleanup quarantines. *)
Lemma step_admin_nodes c now e :
  match e with
  | EvEnsureNode _ | EvUnhealthy | EvSnapshot _ | EvDisconnect _ | EvConfigurations _
  | EvRunnerUpdate _ _ => True
  | _ => False
  end -> admin_kept c (step c now e).1.
Proof.
  destruct e as [topology| |snapshot|nodeID| |confs|nodeID update| | | | | | | | |]; simpl; try done;
    intros _.
  - destruct (ensure_cases c topology) as [[err ->]|(d & _ & Hnew & ->)]; [by apply admin_kept_nodes|].
    intros id n Hn. simpl. exists n. split; [|by left]. rewrite lookup_insert_ne; [done|congruence].
  - unfold MarkManagementProjectionUnavailable. destruct (negb _); by apply admin_kept_nodes.
  - unfold ReconcileAgentSnapshot. pose proof (admin_kept_reconcile c snapshot now).
    by destruct (reconcileAgentSnapshotAt _ _ c snapshot now).
  - unfold Disconnect. destruct (ctl_nodes c !! nodeID) as [n|] eqn:Hn; [|by apply admin_kept_nodes].
    eapply admin_kept_set; [done|reflexivity|by left].
  - destruct (configurations_cases c confs) as [[err ->]|(c' & byNode & -> & _ & _ & Hnodes)];
      [by apply admin_kept_nodes|]. intros id n Hn. specialize (Hnodes id). rewrite Hn in Hnodes. simpl.
    destruct (ctl_nodes c' !! id) as [n'|]; [|done]. exists n'. split; [done|]. left. apply Hnodes.
  - unfold SetRunnerUpdateStatus. destruct (RunnerUpdateStatus_Validate update); [by apply admin_kept_nodes|].
    destruct (ctl_nodes c !! nodeID) as [n|] eqn:Hn; [|by apply admin_kept_nodes].
    destruct (negb _); [by apply admin_kept_nodes|].
    eapply admin_kept_set; [done|reflexivity|]. left. unfold admin. simpl. by case_bool_decide.
Qed.

Lemma step_admin_mirror c now e :
  match e with
  | EvClaim _ | EvCommand _ | EvUpdate _ | EvReadiness _ _ | EvOwner _ _ _ | EvDesired _
  | EvTeardown _ | EvFence _ | EvClearFence _ => True
  | _ => False
  end -> admin_kept c (step c now e).1.
Proof.
  destruct e as [| | | | | | |claim|i|update|nodeID ready|nodeID intent excl|next|update|f|f];
    simpl; try done; intros _.
  - destruct (claim_cases marshal sha256 c claim now) as [[err ->]|(n & _ & _ & _ & [[_ ->]|(_ & _ & ->)])];
      [by apply admin_kept_nodes|apply admin_kept_refold|]. apply admin_kept_commit, admin_kept_nodes.
    unfold commit_claim. by destruct (negb _).
  - destruct (command_cases marshal sha256 c i now) as [[err ->]|(e & n & _ & _ & _ & _ & _ & _ & ->)];
      [by apply admin_kept_nodes|]. by apply admin_kept_commit, admin_kept_nodes.
  - destruct (update_cases marshal sha256 c update now)
      as [[err ->]|(e & n & n' & i & Hcu & _ & _ & Hf & _ & ->)]; [by apply admin_kept_nodes|].
    apply check_update_inv in Hcu as (_ & Hn & _). apply admin_kept_commit.
    eapply admin_kept_set; [exact Hn|by rewrite commit_update_eq|by apply quarantine_candidate_admin].
  - destruct (readiness_cases marshal sha256 c nodeID ready now) as [[err ->]|(n & ? & ? & Hn & _ & ->)];
      [by apply admin_kept_nodes|]. apply admin_kept_commit.
    eapply admin_kept_set; [exact Hn|reflexivity|by left].
  - destruct (owner_cases marshal sha256 c nodeID intent excl now) as [[err ->]|(n & ? & ? & Hn & _ & ->)];
      [by apply admin_kept_nodes|]. apply admin_kept_commit.
    eapply admin_kept_set; [exact Hn|reflexivity|by left].
  - destruct (desired_cases marshal sha256 c next now) as [[err ->]|(e & n & _ & _ & _ & _ & _ & _ & ->)];
      [by apply admin_kept_nodes|]. apply admin_kept_commit, admin_kept_nodes.
    unfold commit_desired. by destruct (terminalExecution _).
  - destruct (teardown_cases marshal sha256 c update now) as [[err ->]|(n & n' & i & Hct & _ & Hf & _ & ->)];
      [by apply admin_kept_nodes|]. apply check_teardown_inv in Hct as (Hn & _). apply admin_kept_commit.
    eapply admin_kept_set; [exact Hn|reflexivity|by apply quarantine_candidate_admin].
  - destruct (fence_cases marshal sha256 c f now) as [[err ->]|(e & n & _ & _ & _ & _ & ->)];
      [by apply admin_kept_nodes|]. by apply admin_kept_commit, admin_kept_nodes.
  - destruct (clear_cases marshal sha256 c f now) as [[err ->]|(e & n & _ & _ & _ & _ & ->)];
      [by apply admin_kept_nodes|]. by apply admin_kept_commit, admin_kept_nodes.
Qed.

Lemma step_admin c now e :
  admin_kept c (step c now e).1 \/
  exists nodeID next rem n, e = EvAdministrative nodeID next rem /\ ctl_nodes c !! nodeID = Some n /\
    (admin n = NodeRevoked -> next = NodeRevoked) /\
    (admin n = NodeQuarantined -> next = NodeActive -> rem = true) /\
    forall id m, id <> nodeID -> ctl_nodes c !! id = Some m -> ctl_nodes (step c now e).1 !! id = Some m.
Proof.
  destruct e as [| | | |nodeID next rem| | | | | | | | | | |];
    try (left; by apply step_admin_nodes); try (left; by apply step_admin_mirror). simpl.
  unfold SetAdministrativeState.
  destruct (NodeAdministrativeState_Validate _ _); [left; by apply admin_kept_nodes|].
  destruct (ctl_nodes c !! nodeID) as [n|] eqn:Hn; [|left; by apply admin_kept_nodes].
  destruct (_ && _) eqn:Hrev; [left; by apply admin_kept_nodes|].
  destruct (_ && _ && _) eqn:Hq; [left; by apply admin_kept_nodes|].
  right. exists nodeID, next, rem, n. unfold admin. split_and!; try done.
  - intros Ha. rewrite Ha in Hrev. simpl in Hrev. apply negb_false_iff in Hrev.
    by apply bool_decide_eq_true_1 in Hrev.
  - intros Ha ->. rewrite Ha in Hq. simpl in Hq. by destruct rem.
  - intros id m Hne Hm. simpl. by rewrite lookup_insert_ne.
Qed.

(** ** Replays *)

Lemma node_at_limit c c' id : node_limits c' = node_limits c ->
  node_limit (node_at c' id) = node_limit (node_at c id).
Proof.
  intros Hl. assert (Hid : node_limits c' !! id = node_limits c !! id) by by rewrite Hl.
  unfold node_limits in Hid. rewrite !lookup_fmap in Hid. unfold node_at.
  destruct (ctl_nodes c !! id), (ctl_nodes c' !! id); simpl in *; congruence.
Qed.

Lemma node_at_id c c' id : node_limits c' = node_limits c ->
  node_ID (ns_Node (rt_scheduler (node_at c' id))) = node_ID (ns_Node (rt_scheduler (node_at c id))).
Proof. intros Hl. apply (node_at_limit c c' id) in Hl. unfold node_limit in Hl. congruence. Qed.

(** The guards of the two fence methods, and what makes an exact replay pass. *)
Definition fence_guard (c : Controller) (f : GitHubFence) : Prop :=
  validateGitHubFence f = None /\
  exists e, ctl_executions c !! fence_ExecutionID f = Some e /\
    node_ID (ns_Node (rt_scheduler (node_at c (slot_NodeID (exec_Slot e))))) <> "".

Lemma fence_guard_frame c c' f :
  same_desired c c' -> node_limits c' = node_limits c -> fence_guard c f -> fence_guard c' f.
Proof.
  intros Hs Hl (Hv & e & He & Hn). split; [done|]. exists e.
  rewrite (sd_executions _ _ Hs), (node_at_id c c') by done. done.
Qed.

Lemma fence_replay_passes c f now : fence_guard c f -> ctl_fences c !! fence_ExecutionID f = Some f ->
  ApplyGitHubFence marshal sha256 c f now = (c, None).
Proof.
  intros (Hv & e & He & Hn) Hf. unfold ApplyGitHubFence, ApplyGitHubFence_with, execution_at. rewrite Hv, He, Hf. simpl.
  rewrite bool_decide_eq_false_2 by done. simpl.
  by rewrite (proj2 (githubFencesEqual_iff f f)).
Qed.

Lemma fence_replay c c' f now later :
  ApplyGitHubFence marshal sha256 c f now = (c', None) ->
  ApplyGitHubFence marshal sha256 c' f later = (c', None).
Proof.
  intros H. assert (Hg : fence_guard c f /\ (c' = c /\ ctl_fences c !! fence_ExecutionID f = Some f \/
    exists n, (refold marshal sha256 (commit_fence c f) (rt_seen n) (rt_snapshot n) now).1 = c')).
  { revert H. unfold ApplyGitHubFence, ApplyGitHubFence_with, fence_guard, execution_at.
    destruct (validateGitHubFence f); [done|].
    destruct (ctl_executions c !! fence_ExecutionID f) as [e|]; simpl; [|done].
    case_bool_decide as Hn; simpl; [done|]. intros H. split; [eauto|]. revert H.
    destruct (ctl_fences c !! fence_ExecutionID f) as [cur|].
    - destruct (githubFencesEqual cur f) eqn:Heq.
      + intros [= <-]. apply githubFencesEqual_iff in Heq as ->. by left.
      + destruct (githubFenceCanAdvance cur f); simpl; [|done]. intros H. right. eexists. by rewrite H.
    - destruct (ctl_clearedFences c !! fence_ExecutionID f) as [cl|].
      + destruct (githubFenceCanAdvance cl f); simpl; [|done]. intros H. right. eexists. by rewrite H.
      + intros H. right. eexists. by rewrite H. }
  destruct Hg as [Hg [[-> Hf]|[n <-]]]; [by apply fence_replay_passes|].
  destruct (refold_frame marshal sha256 (commit_fence c f) (rt_seen n) (rt_snapshot n) now) as [Hs Hl].
  apply fence_replay_passes.
  - by apply (fence_guard_frame (commit_fence c f)).
  - rewrite (sd_fences _ _ Hs). simpl. apply lookup_insert_eq.
Qed.

Lemma clear_replay_passes c f now : fence_guard c f -> ctl_fences c !! fence_ExecutionID f = None ->
  ctl_clearedFences c !! fence_ExecutionID f = Some f ->
  ClearGitHubFence marshal sha256 c f now = (c, None).
Proof.
  intros (Hv & e & He & Hn) Hf Hcl. unfold ClearGitHubFence, ClearGitHubFence_with, execution_at. rewrite Hv, He, Hf, Hcl. simpl.
  rewrite bool_decide_eq_false_2 by done. simpl.
  by rewrite (proj2 (githubFencesEqual_iff f f)).
Qed.

Lemma clear_replay c c' f now later :
  ClearGitHubFence marshal sha256 c f now = (c', None) ->
  ClearGitHubFence marshal sha256 c' f later = (c', None).
Proof.
  intros H. assert (Hg : fence_guard c f /\ (c' = c /\ ctl_fences c !! fence_ExecutionID f = None /\
      ctl_clearedFences c !! fence_ExecutionID f = Some f \/
    exists n, (refold marshal sha256 (commit_clear c f (fence_ExecutionID f)) (rt_seen n)
                 (rt_snapshot n) now).1 = c')).
  { revert H. unfold ClearGitHubFence, ClearGitHubFence_with, fence_guard, execution_at.
    destruct (validateGitHubFence f); [done|].
    destruct (ctl_executions c !! fence_ExecutionID f) as [e|]; simpl; [|done].
    case_bool_decide as Hn; simpl; [done|]. intros H. split; [eauto|]. revert H.
    destruct (ctl_fences c !! fence_ExecutionID f) as [cur|].
    - destruct (githubFencesEqual cur f) eqn:Heq; simpl; [|done].
      apply githubFencesEqual_iff in Heq as ->. intros H. right. eexists. by rewrite H.
    - destruct (ctl_clearedFences c !! fence_ExecutionID f) as [cl|]; [|done].
      destruct (githubFencesEqual cl f) eqn:Heq; simpl; [|done].
      apply githubFencesEqual_iff in Heq as ->. intros [= <-]. by left. }
  destruct Hg as [Hg [(-> & Hf & Hcl)|[n <-]]]; [by apply clear_replay_passes|].
  destruct (refold_frame marshal sha256 (commit_clear c f (fence_ExecutionID f)) (rt_seen n)
    (rt_snapshot n) now) as [Hs Hl].
  apply clear_replay_passes.
  - by apply (fence_guard_frame (commit_clear c f (fence_ExecutionID f))).
  - rewrite (sd_fences _ _ Hs). simpl. apply lookup_delete_eq.
  - rewrite (sd_cleared _ _ Hs). simpl. apply lookup_insert_eq.
Qed.

(** The guards of [ApplyIssuedCommand]. *)
Definition command_guard (c : Controller) (i : IssuedCommand) : Prop :=
  issued_NodeID i <> "" /\ CommandType_Validate (issued_Type i) "issued_command.type" = None /\
  Command_Validate (issued_Command i) = None /\
  commandTypeMatchesExpectedState (issued_Type i) (command_ExpectedState (issued_Command i)) = true /\
  exists e, ctl_executions c !! command_ExecutionID (issued_Command i) = Some e /\
    slot_NodeID (exec_Slot e) = issued_NodeID i /\
    node_ID (ns_Node (rt_scheduler (node_at c (issued_NodeID i)))) <> "".

Lemma command_replay_passes c i now : command_guard c i ->
  ctl_commands c !! command_ID (issued_Command i) = Some i ->
  ApplyIssuedCommand marshal sha256 c i now = (c, None).
Proof.
  intros (Hid & Ht & Hv & Hm & e & He & Hs & Hn) Hc. unfold ApplyIssuedCommand, ApplyIssuedCommand_with, execution_at.
  rewrite Ht, Hv, Hm, He, Hc. simpl. rewrite !bool_decide_eq_false_2 by done. simpl.
  by rewrite !bool_decide_eq_true_2 by done.
Qed.

Lemma command_replay c c' i now later :
  ApplyIssuedCommand marshal sha256 c i now = (c', None) ->
  ApplyIssuedCommand marshal sha256 c' i later = (c', None).
Proof.
  intros H. assert (Hg : command_guard c i /\
    (c' = c /\ ctl_commands c !! command_ID (issued_Command i) = Some i \/
     exists n, (refold marshal sha256 (commit_command c i) (rt_seen n) (rt_snapshot n) now).1 = c')).
  { revert H. unfold ApplyIssuedCommand, ApplyIssuedCommand_with, command_guard, execution_at.
    case_bool_decide as Hid; simpl; [done|].
    destruct (CommandType_Validate _ _); simpl; [done|].
    destruct (Command_Validate (issued_Command i)); [done|].
    destruct (commandTypeMatchesExpectedState _ _); simpl; [|done].
    destruct (ctl_executions c !! command_ExecutionID (issued_Command i)) as [e|]; simpl; [|done].
    destruct (bool_decide (node_ID _ = "")) eqn:Hn; simpl; [done|]. apply bool_decide_eq_false_1 in Hn.
    destruct (bool_decide (slot_NodeID (exec_Slot e) = issued_NodeID i)) eqn:Hs; simpl; [|done].
    apply bool_decide_eq_true_1 in Hs. intros H. split; [eauto 10|]. revert H.
    destruct (ctl_commands c !! command_ID (issued_Command i)) as [j|].
    - case_bool_decide as Hj; simpl; [|done]. intros [= <-]. subst j. by left.
    - intros H. right. eexists. by rewrite H. }
  destruct Hg as [Hg [[-> Hc]|[n <-]]]; [by apply command_replay_passes|].
  destruct (refold_frame marshal sha256 (commit_command c i) (rt_seen n) (rt_snapshot n) now) as [Hs Hl].
  apply command_replay_passes.
  - destruct Hg as (? & ? & ? & ? & e & He & Hslot & Hn). split_and!; try done. exists e.
    rewrite (sd_executions _ _ Hs), (node_at_id (commit_command c i)) by done. done.
  - rewrite (sd_commands _ _ Hs). simpl. apply lookup_insert_eq.
Qed.
End histories.
