(* ===== verification/ReaderViews.v ===== *)
(** * Reconciliation: what readers see (internal/reconcile/controller.go)

    [Admission] and [FleetSnapshot] take only [mu.RLock].  A method that folds the
    retained snapshot back in releases [mu] after it has committed its change, so a
    reader can run before the refolding.  [view] is every projection a reader can
    get: one between two calls, or one inside a call ([Reconcile.in_progress]).
    Inside a call the retained snapshot may disagree with the execution the call is
    changing, and with nothing else. *)

From S2P Require Import Prelude GoStd Domain Execution Replay SlotLedger Scheduler Transport.
From S2P Require Import RunnerUpdate Fence Projection Reconcile ReconcileInv RestoreInv PassFacts ReconcileFacts.

Section readers.
  Context (marshal : CanonicalSnapshot -> result string) (sha256 : string -> string).
  Notation run := (run marshal sha256).
  Notation in_progress := (in_progress marshal sha256).

(** The projections a reader can see after a history of calls, with the execution a
    call is changing at that moment. *)
Inductive view (c0 : Controller) (history : list (Z * event)) :
    Controller -> option ExecutionID -> Prop :=
  | view_between : view c0 history (run c0 history) None
  | view_inside now e : view c0 history (in_progress (run c0 history) now e) (in_flight e).

(** Where the node claims capacity, its retained snapshot agrees up to [busy]. *)
Definition agrees_inside (busy : option ExecutionID) (c : Controller) : Prop :=
  forall nodeID n, ctl_nodes c !! nodeID = Some n -> rt_seen n = true ->
    ns_Reconciled (rt_scheduler n) = true -> rt_actions n = [] ->
    nodeHasGitHubFenceLocked c nodeID = false -> agreement_but busy c nodeID (rt_snapshot n).

Lemma agrees_coherent busy c : coherent c -> agrees_inside busy c.
Proof.
  intros Hc nodeID n Hn Hs Hr Ha _. apply agreement_but_of.
  destruct (Hc nodeID n Hn Hs) as [_ Hag]. by apply Hag.
Qed.

(** The commit of a call that leaves the nodes alone. *)
Lemma agrees_commit busy c c1 :
  coherent c -> ctl_nodes c1 = ctl_nodes c ->
  (forall nodeID s, nodeHasGitHubFenceLocked c1 nodeID = false -> agreement c nodeID s ->
     agreement_but busy c1 nodeID s) -> agrees_inside busy c1.
Proof.
  intros Hc Hnodes Hag nodeID n. rewrite Hnodes. intros Hn Hs Hr Ha Hf. apply Hag; [done|].
  destruct (Hc nodeID n Hn Hs) as [_ H]. by apply H.
Qed.

(** No fence is held for an execution the projection does not know. *)
Lemma fence_of_unknown c id : ctl_ok c -> ctl_executions c !! id = None -> ctl_fences c !! id = None.
Proof.
  intros Hok Hx. destruct (ctl_fences c !! id) as [f|] eqn:Hf; [|done].
  destruct (fo_active _ _ _ (ok_fences c Hok) _ _ Hf) as (_ & _ & [? ?]). congruence.
Qed.

(** Agreement after one execution of a node changed or was added. *)
Lemma agrees_insert c c' e nodeID s :
  ctl_ok c -> ctl_executions c' = <[exec_ID e := e]> (ctl_executions c) ->
  ctl_fences c' = ctl_fences c ->
  (forall old, ctl_executions c !! exec_ID e = Some old -> exec_Slot old = exec_Slot e) ->
  agreement c nodeID s -> agreement_but (Some (exec_ID e)) c' nodeID s.
Proof.
  intros Hok Hx Hf Hslot Hag. apply (agreement_but_insert c); try done.
  destruct (ctl_executions c !! exec_ID e) as [old|] eqn:He.
  - destruct (decide (slot_NodeID (exec_Slot e) = nodeID)) as [Hn|]; [|by right]. left.
    eapply (ag_fences _ _ _ Hag); [exact He|]. by rewrite (Hslot old).
  - left. by apply fence_of_unknown.
Qed.

(** Replacing a node's runtime state by one with another snapshot. *)
Lemma agrees_set_node busy c c1 id n n' :
  coherent c -> ctl_nodes c !! id = Some n -> ctl_nodes c1 = <[id := n']> (ctl_nodes c) ->
  rt_seen n' = rt_seen n -> ns_Reconciled (rt_scheduler n') = ns_Reconciled (rt_scheduler n) ->
  rt_actions n' = rt_actions n ->
  (forall nodeID s, agreement c nodeID s -> agreement_but busy c1 nodeID s) ->
  (agreement_but busy c1 id (rt_snapshot n) -> agreement_but busy c1 id (rt_snapshot n')) ->
  agrees_inside busy c1.
Proof.
  intros Hc Hn Hnodes Hs Hr Ha Hag Hsnap nodeID m. rewrite Hnodes.
  destruct (decide (nodeID = id)) as [->|Hne].
  - rewrite lookup_insert_eq. intros [= <-]. rewrite Hs, Hr, Ha. intros H1 H2 H3 _.
    apply Hsnap, Hag. destruct (Hc id n Hn H1) as [_ H]. by apply H.
  - rewrite lookup_insert_ne by done. intros Hm H1 H2 H3 _. apply Hag.
    destruct (Hc nodeID m Hm H1) as [_ H]. by apply H.
Qed.

(** What an update folds into the retained snapshot. *)
Lemma fold_update_outside c n command admissible update now n' :
  fold_update marshal sha256 c n command admissible update now = Ok n' ->
  (forall o, obs_ExecutionID o <> update_ExecutionID update ->
     o ∈ snap_Observations (rt_snapshot n') <-> o ∈ snap_Observations (rt_snapshot n)) /\
  snap_CleanupTombstones (rt_snapshot n') = snap_CleanupTombstones (rt_snapshot n).
Proof.
  intros Hfold. split.
  - intros o Hne. apply fold_update_observations, fold_observation_spec in Hfold
      as [(pre & p & post & t & -> & -> & Hp & _)|[_ ->]]; set_unfold.
    + split; intros [?|[->|?]]; simpl in *; auto; congruence.
    + split; [intros [?|[->|[]]]|]; simpl in *; auto; congruence.
  - revert Hfold. unfold fold_update, fold_command.
    destruct (List.find _ _); [destruct (negb _)|]; simpl; try done;
      (destruct (fold_observation _ _ _ _ _); [|done]); simpl;
      (destruct (if rt_seen n then _ else _); [done|]); by intros [= <-].
Qed.

(** *** The methods with two critical sections *)

Lemma inside_claim c claim now :
  ctl_ok c -> coherent c ->
  agrees_inside (Some (exec_ID (claim_Execution claim))) (ApplyGitHubClaim_with released c claim now).1.
Proof.
  intros Hok Hc. destruct (claim_with_cases released c claim now)
    as [[err ->]|(n & _ & _ & _ & [[_ ->]|(Hnew & _ & ->)])]; [by apply agrees_coherent..|].
  destruct (commit_claim_fields c (claim_Execution claim)) as (Hx & _ & Hf & _).
  apply (agrees_commit _ c); [done|unfold commit_claim; by destruct (negb _)|].
  intros nodeID s _. apply agrees_insert; [done..|]. by rewrite Hnew.
Qed.

Lemma inside_command c i now :
  coherent c -> agrees_inside None (ApplyIssuedCommand_with released c i now).1.
Proof.
  intros Hc. destruct (command_with_cases released c i now)
    as [[err ->]|(e & n & _ & _ & _ & _ & _ & _ & ->)]; [by apply agrees_coherent|].
  apply (agrees_commit _ c); [done..|]. intros nodeID s _ Hag.
  by apply agreement_but_of, (agreement_same c).
Qed.

Lemma inside_desired c next now :
  ctl_ok c -> coherent c ->
  agrees_inside (Some (exec_ID next)) (ApplyDesiredExecution_with released c next now).1.
Proof.
  intros Hok Hc. destruct (desired_with_cases released c next now)
    as [[err ->]|(e & n & He & Hn & Ht & Hs & _ & _ & ->)]; [by apply agrees_coherent|].
  destruct (ctl_ok_valid c Hok _ _ He) as [Hid _]. rewrite (commit_desired_eq c next e) by done.
  apply (agrees_commit _ c); [done..|]. intros nodeID s _. rewrite <- Hid.
  apply (agrees_insert c _ (exec_with_state e (exec_State next))); simpl; try done.
  intros old. rewrite Hid, He. by intros [= <-].
Qed.

(** An update changes its execution and what the retained snapshot says of it. *)
Lemma inside_update c update now :
  ctl_ok c -> coherent c ->
  agrees_inside (Some (update_ExecutionID update))
    (ApplyExecutionUpdate_with marshal sha256 released c update now).1.
Proof.
  intros Hok Hc. destruct (update_with_cases marshal sha256 released c update now)
    as [[err ->]|(e & n & n' & i & Hcu & _ & _ & Hf & Hfold & ->)]; [by apply agrees_coherent|].
  apply check_update_inv in Hcu as (He & Hn & _). destruct (ctl_ok_valid c Hok _ _ He) as [Hid _].
  rewrite commit_update_eq. destruct Hf as (Hsched & _ & _ & _ & Hact & Hseen).
  apply (agrees_set_node _ c _ (update_NodeID update) n (quarantine_on (update_State update) n')); try done.
  - by rewrite quarantine_on_seen.
  - rewrite quarantine_on_reconciled. by rewrite Hsched.
  - by rewrite quarantine_on_actions.
  - intros nodeID s. rewrite <- Hid.
    apply (agrees_insert c _ (exec_with_state e (update_State update))); simpl; try done.
    intros old. rewrite Hid, He. by intros [= <-].
  - rewrite quarantine_on_snapshot. apply agreement_but_observations; [by eapply fold_update_outside..|].
    simpl. rewrite lookup_insert_eq. eauto.
Qed.

Lemma inside_teardown c update now :
  coherent c ->
  agrees_inside (Some (update_ExecutionID update))
    (ApplyReconciliationExecutionUpdate_with marshal sha256 released c update now).1.
Proof.
  intros Hc. destruct (teardown_with_cases marshal sha256 released c update now)
    as [[err ->]|(n & n' & i & Hct & _ & Hf & Hfold & ->)]; [by apply agrees_coherent|].
  apply check_teardown_inv in Hct as (Hn & _ & _ & e & He & _).
  destruct Hf as (Hsched & _ & _ & _ & Hact & Hseen).
  apply (agrees_set_node _ c _ (update_NodeID update) n (quarantine_on (update_State update) n')); try done.
  - by rewrite quarantine_on_seen.
  - rewrite quarantine_on_reconciled. by rewrite Hsched.
  - by rewrite quarantine_on_actions.
  - intros nodeID s Hag. by apply agreement_but_of, (agreement_same c).
  - rewrite quarantine_on_snapshot. apply agreement_but_observations; [by eapply fold_update_outside..|].
    simpl. by exists e.
Qed.

(** Readiness and owner state leave observations and tombstones alone. *)
Lemma inside_owner c nodeID n ready intent excluded :
  coherent c -> ctl_nodes c !! nodeID = Some n ->
  agrees_inside None (signalChangeLocked (set_node c nodeID
    (node_with_snapshot n (snapshot_with_owner (rt_snapshot n) ready intent excluded)))).
Proof.
  intros Hc Hn. eapply (agrees_set_node _ c _ nodeID n); try done.
  - intros id s Hag. by apply agreement_but_of, (agreement_same c).
  - intros []. by split.
Qed.

(** A node with an open fence is offered nothing. *)
Lemma inside_fence c f now :
  coherent c -> agrees_inside None (ApplyGitHubFence_with released c f now).1.
Proof.
  intros Hc. destruct (fence_with_cases released c f now)
    as [[err ->]|(e & n & He & _ & _ & _ & ->)]; [by apply agrees_coherent|].
  apply (agrees_commit _ c); [done..|]. intros nodeID s Hfree [H1 H2 H3 H4 _].
  split; [intros ? ? _; eauto|intros ? ? ? _; eauto|done|done|].
  intros id x Hx Hnode. by eapply unfenced_node.
Qed.

Lemma inside_clear c f now :
  coherent c -> agrees_inside None (ClearGitHubFence_with released c f now).1.
Proof.
  intros Hc. destruct (clear_with_cases released c f now)
    as [[err ->]|(e & n & He & _ & _ & _ & ->)]; [by apply agrees_coherent|].
  apply (agrees_commit _ c); [done..|]. intros nodeID s Hfree [H1 H2 H3 H4 _].
  split; [intros ? ? _; eauto|intros ? ? ? _; eauto|done|done|].
  intros id x Hx Hnode. by eapply unfenced_node.
Qed.

Lemma inside_agrees c now e :
  ctl_ok c -> coherent c -> agrees_inside (in_flight e) (in_progress c now e).
Proof.
  intros Hok Hc. destruct e as [topology| |snapshot|nodeID|nodeID next rem|confs|nodeID update|claim|i|
    update|nodeID ready|nodeID intent excl|next|update|f|f]; simpl; try by apply agrees_coherent.
  - by apply inside_claim.
  - by apply inside_command.
  - by apply inside_update.
  - destruct (readiness_with_cases released c nodeID ready now) as [[err ->]|(n & ? & ? & Hn & _ & ->)];
      [by apply agrees_coherent|by apply inside_owner].
  - destruct (owner_with_cases released c nodeID intent excl now) as [[err ->]|(n & ? & ? & Hn & _ & ->)];
      [by apply agrees_coherent|by apply inside_owner].
  - by apply inside_desired.
  - by apply inside_teardown.
  - by apply inside_fence.
  - by apply inside_clear.
Qed.

(** Every view of a coherent projection. *)
Lemma view_agrees c0 history c busy :
  ctl_ok c0 -> coherent c0 -> settled_history marshal sha256 c0 history ->
  view c0 history c busy -> agrees_inside busy c.
Proof.
  intros Hok Hc Hset Hv. assert (coherent (run c0 history)) by by apply run_coherent.
  destruct Hv; [by apply agrees_coherent|]. apply inside_agrees; [by apply run_ok|done].
Qed.

End readers.
