(* ===== verification/ReconcileProps.v ===== *)
(** * The Controller's properties (internal/reconcile/controller.go)

    Properties of every history of calls: the projection stays consistent and
    only advances, fence tokens never go back, an update is applied whole or not
    at all, capacity is offered only where desired and observed state agree,
    recovery never replays a start, and losing an Agent or restarting never
    creates capacity. *)

From S2P Require Import Prelude GoStd Domain Execution Replay SlotLedger Scheduler Transport.
From S2P Require Import RunnerUpdate Fence Projection Reconcile ReconcileInv RestoreInv PassFacts ReconcileFacts ReaderViews.

Section properties.
  Context (marshal : CanonicalSnapshot -> result string) (sha256 : string -> string).
  Notation run := (run marshal sha256).
  Notation settled_history := (settled_history marshal sha256).

(** C1 The Controller's projection is consistent in every reachable state.  After
    a successful restoration, whatever methods are called in whatever order,
    reservations are exactly the non-terminal executions, every reserved slot has
    one owner inside the node's configured capacity, every command and fence
    belongs to a known execution, the epoch does not change, and no execution is
    lost, moved or taken back along its lifecycle. *)
Theorem projection_always_consistent epoch snapshot config c0 history :
  Restore epoch snapshot config = Ok c0 ->
  let c := run c0 history in
  ctl_ok c /\ ctl_epoch c = epoch /\ executions_advance (ctl_executions c0) (ctl_executions c).
Proof.
  intros (Hok & _ & <- & _)%Restore_spec c. destruct (run_executions marshal sha256 history c0 Hok).
  split_and!; [by apply run_ok|done|done].
Qed.

(** C2 Capacity is offered only where desired and observed state agree.  In every
    history in which no method failed half-way, and whatever the reader of
    [Admission] sees, the projection between two calls or the one inside a call
    that has released [mu] and not yet refolded the snapshot: a node that is
    allowed to take new work is active, online, reconciled and ready, asks for no
    action, and its retained snapshot shows every live desired execution running in
    exactly its desired state, no runtime the Controller does not know or believes
    finished, no uncertain cleanup and no open provider fence.  Inside a claim, an
    execution update, a desired-state change or a teardown update the one execution
    that call is changing is excepted, and no other. *)
Theorem capacity_means_agreement epoch snapshot config c0 history c busy nodeID now adm :
  Restore epoch snapshot config = Ok c0 -> settled_history c0 history ->
  view marshal sha256 c0 history c busy ->
  Admission c nodeID now = Ok adm -> adm_AllowsNewCapacity adm = true ->
  adm_AllowsRecovery adm = true /\ ctl_managementProjectionHealthy c = true /\
  node_AdministrativeState (ns_Node (adm_Node adm)) = NodeActive /\
  node_ObservedState (ns_Node (adm_Node adm)) = NodeOnline /\
  ns_Reconciled (adm_Node adm) = true /\ ns_NativeReady (adm_Node adm) = true /\
  adm_Actions adm = [] /\
  exists n, ctl_nodes c !! nodeID = Some n /\ agreement_but busy c nodeID (rt_snapshot n) /\
    (busy = None -> agreement c nodeID (rt_snapshot n)).
Proof.
  intros (Hok & Hfresh & _)%Restore_spec Hset Hview Hadm Hcap.
  assert (Hag : agrees_inside busy c) by (eapply view_agrees; eauto using coherent_fresh).
  assert (Hact : forall n, ctl_nodes c !! nodeID = Some n -> adm_Actions adm = rt_actions n).
  { intros n Hn. revert Hadm. unfold Admission. destruct (IsZero now); [done|]. rewrite Hn.
    destruct (effectiveNode n now). by intros [= <-]. }
  destruct (Admission_inv c nodeID now adm Hadm Hcap)
    as (Hrec & Hh & n & Hn & Hs & -> & _ & Ha & Hr & Hnr & Ho & Had & _).
  assert (agreement_but busy c nodeID (rt_snapshot n)).
  { apply Hag; try done. by eapply Admission_unfenced. }
  split_and!; try done; [by rewrite (Hact n Hn)|]. exists n. split_and!; [done..|].
  intros ->. by apply agreement_but_None.
Qed.

(** A restored Controller starts closed.  Until an Agent has been reconciled in
    the new process, no node may take new work or recovery, every reservation is
    suppressed, and nothing is asked of any Agent. *)
Theorem restore_starts_closed epoch snapshot config c :
  Restore epoch snapshot config = Ok c ->
  (forall nodeID now adm, Admission c nodeID now = Ok adm ->
     adm_AllowsNewCapacity adm = false /\ adm_AllowsRecovery adm = false /\ adm_Actions adm = []) /\
  forall now, let fleet := Controller_FleetSnapshot c now in
    fleet_Epoch fleet = epoch /\ fleet_Actions fleet = [] /\
    fleet_SuppressedReservations fleet = fleet_Reservations fleet /\
    fleet_Reservations fleet ≡ₚ map snd (map_to_list (ctl_reservations c)).
Proof.
  intros (Hok & Hfresh & Hepoch & _)%Restore_spec.
  assert (Hat : forall id, rt_actions (node_at c id) = [] /\ rt_seen (node_at c id) = false /\
    ns_Reconciled (rt_scheduler (node_at c id)) = false).
  { intros id. unfold node_at. destruct (ctl_nodes c !! id) as [n|] eqn:Hn; [|done].
    by destruct (Hfresh _ _ Hn) as (d & a & -> & _). }
  split.
  - intros nodeID now adm. unfold Admission. destruct (IsZero now); [done|].
    destruct (ctl_nodes c !! nodeID) as [n|] eqn:Hn; [|done].
    destruct (Hfresh _ _ Hn) as (d & a & -> & _). destruct (effectiveNode _ now).
    by intros [= <-].
  - intros now. cbv zeta. unfold Controller_FleetSnapshot. simpl. split_and!; [done| | |apply sort_slice_perm].
    + assert (Hnil : forall l, flat_map (fun nodeID => rt_actions (node_at c nodeID)) l = []).
      { induction l as [|id l IH]; simpl; [done|]. destruct (Hat id) as [-> _]. done. }
      by rewrite Hnil.
    + apply filter_all. apply Forall_forall. intros r _. apply Is_true_true_2.
      unfold reservation_suppressed. destruct (Hat (slot_NodeID (restored_Slot r))) as (_ & _ & Hrec).
      assert (ns_Reconciled (effectiveNode (node_at c (slot_NodeID (restored_Slot r))) now).1 = false) as ->.
      { destruct (effectiveNode_cases (node_at c (slot_NodeID (restored_Slot r))) now) as [->|[? _]]; done. }
      done.
Qed.

(** C33 An execution update is applied whole or not at all.  Either the call fails
    and the projection is exactly what it was, or it succeeds, the execution takes
    the reported state, its reservation is released exactly when that state is
    terminal, and the retained snapshot reports the new state; the refolding that
    follows the commit never fails. *)
Theorem update_all_or_nothing c update now :
  match ApplyExecutionUpdate marshal sha256 c update now with
  | (c', Some _) => c' = c
  | (c', None) =>
      (exists e, ctl_executions c !! update_ExecutionID update = Some e /\
        ctl_executions c' =
        <[update_ExecutionID update := exec_with_state e (update_State update)]> (ctl_executions c)) /\
      ctl_reservations c' = (if terminalExecution (update_State update)
                             then delete (update_ExecutionID update) (ctl_reservations c)
                             else ctl_reservations c) /\
      exists n, ctl_nodes c' !! update_NodeID update = Some n /\
        reports n (update_ExecutionID update) (update_State update)
  end.
Proof.
  destruct (update_cases marshal sha256 c update now)
    as [[err ->]|(e & n & n' & i & Hcu & Hnow & _ & Hf & Hfold & ->)]; [done|].
  apply check_update_inv in Hcu as (He & Hn & _). rewrite commit_update_eq.
  match goal with |- context [refold _ _ ?c1 _ _ _] =>
    destruct (refold_candidate marshal sha256 c c1 (update_NodeID update) n n' (update_State update) now)
      as (Herr & Hsame & m & Hm & Hsnap); try done end.
  { by eapply fold_update_folded. }
  destruct (refold _ _ _ _ _ _) as [c' err]. simpl in *. subst err.
  rewrite (sd_executions _ _ Hsame), (sd_reservations _ _ Hsame). simpl.
  split_and!; [by exists e|done|]. exists m. split; [done|].
  apply (reports_ext n'); [done|]. by eapply fold_update_reports.
Qed.

(** Teardown evidence never moves a desired execution.  A reconciliation update
    either fails and changes nothing, or records its state in the retained snapshot
    and leaves every execution, reservation and fence as it is; it is only ever
    accepted for a terminal execution of the node under an issued cancel command. *)
Theorem teardown_keeps_desired c update now :
  match ApplyReconciliationExecutionUpdate marshal sha256 c update now with
  | (c', Some _) => c' = c
  | (c', None) =>
      same_desired c c' /\
      (exists e i, ctl_executions c !! update_ExecutionID update = Some e /\
         terminalExecution (exec_State e) = true /\
         ctl_commands c !! update_CommandID update = Some i /\ issued_Type i = CommandCancel) /\
      exists n, ctl_nodes c' !! update_NodeID update = Some n /\
        reports n (update_ExecutionID update) (update_State update)
  end.
Proof.
  destruct (teardown_cases marshal sha256 c update now)
    as [[err ->]|(n & n' & i & Hct & Hnow & Hf & Hfold & ->)]; [done|].
  apply check_teardown_inv in Hct as (Hn & Hi & Htype & e & He & _ & Ht).
  match goal with |- context [refold _ _ ?c1 _ _ _] =>
    destruct (refold_candidate marshal sha256 c c1 (update_NodeID update) n n' (update_State update) now)
      as (Herr & Hsame & m & Hm & Hsnap); try done end.
  { by eapply fold_update_folded. }
  destruct (refold _ _ _ _ _ _) as [c' err]. simpl in *. subst err.
  split_and!; [by etransitivity; [|exact Hsame]|by exists e, i|]. exists m. split; [done|].
  apply (reports_ext n'); [done|]. by eapply fold_update_reports.
Qed.

(** Observation times of an execution strictly increase.  When an update of an
    execution that the retained snapshot already observes succeeds, the snapshot
    keeps every other observation, and the one of this execution gets a later time
    that still fits in an [int64]. *)
Theorem observation_time_advances c update now c' n o :
  ApplyExecutionUpdate marshal sha256 c update now = (c', None) ->
  ctl_nodes c !! update_NodeID update = Some n ->
  NoDup (map obs_ExecutionID (snap_Observations (rt_snapshot n))) ->
  o ∈ snap_Observations (rt_snapshot n) -> obs_ObservedAtUnixNano o <= max_int64 ->
  exists n' o', ctl_nodes c' !! update_NodeID update = Some n' /\
    o' ∈ snap_Observations (rt_snapshot n') /\ obs_ExecutionID o' = obs_ExecutionID o /\
    if obs_ExecutionID o == update_ExecutionID update then
      obs_State o' = update_State update /\
      obs_ObservedAtUnixNano o < obs_ObservedAtUnixNano o' <= max_int64
    else o' = o.
Proof.
  intros Happly Hn Hd Ho Hmax.
  destruct (update_cases marshal sha256 c update now)
    as [[err Heq]|(e & n0 & n' & i & Hcu & Hnow & _ & Hf & Hfold & Heq)]; [congruence|].
  apply check_update_inv in Hcu as (_ & Hn0 & _). rewrite Hn in Hn0. injection Hn0 as <-.
  rewrite Happly, commit_update_eq in Heq.
  match type of Heq with _ = refold _ _ ?c1 _ _ _ =>
    destruct (refold_candidate marshal sha256 c c1 (update_NodeID update) n n' (update_State update) now)
      as (_ & _ & m & Hm & Hsnap); try done end.
  { by eapply fold_update_folded. }
  rewrite <- Heq in Hm. exists m. rewrite Hsnap.
  apply fold_update_observations, fold_observation_spec in Hfold
    as [(pre & p & post & t & Hos & Hos' & Hp & Hpre & _ & Ht)|[Hall Hos']]; rewrite Hos'.
  - destruct (monotonic_timestamp _ _ _ Ht) as (Hlt & _ & Hfit).
    case_bool_decide as Hid.
    + exists (mkObservation (update_ExecutionID update) (update_State update) t).
      assert (o = p) as ->.
      { rewrite Hos in Hd, Ho. rewrite map_app in Hd. simpl in Hd. apply NoDup_app in Hd as (_ & _ & Hd).
        apply NoDup_cons in Hd as [Hnp _]. apply elem_of_app in Ho as [Ho|[->|Ho]%elem_of_cons]; [|done|].
        - rewrite Forall_forall in Hpre. by destruct (Hpre o Ho).
        - exfalso. apply Hnp. rewrite Hp, <- Hid. by apply list_elem_of_fmap_2. }
      split_and!; [done|apply elem_of_app; right; by left|done|done|done|]. simpl.
      apply Hfit; [|done]. unfold UnixNano, unix_epoch, wrap_int64, max_int64. 
      pose proof (Z.mod_pos_bound (now - 62135596800000000000 + 9223372036854775808) 18446744073709551616).
      lia.
    + exists o. split_and!; try done. rewrite Hos in Ho.
      apply elem_of_app in Ho as [Ho|[->|Ho]%elem_of_cons]; apply elem_of_app; [by left|done|].
      right. by right.
  - rewrite bool_decide_eq_false_2.
    + exists o. split_and!; try done. apply elem_of_app. by left.
    + rewrite Forall_forall in Hall. by apply Hall.
Qed.

(** C31 A cleared fence is never resurrected.  Once a token has been cleared, then
    after any further history the token the projection retains for that execution
    is the same one, still inactive, or a strictly newer one of the same claim; and
    a delayed [ApplyGitHubFence] of a token that is not newer than the cleared one
    is refused without any change. *)
Theorem fence_never_resurrected c history t f now :
  ctl_ok c -> ctl_clearedFences c !! fence_ExecutionID f = Some t ->
  ~ rank_lt (fence_attempt_rank t) (fence_attempt_rank f) ->
  let c' := run c history in
  (exists t', token c' (fence_ExecutionID f) = Some t' /\
    (t' = t /\ ctl_fences c' !! fence_ExecutionID f = None \/
     same_claim t t' /\ rank_lt (fence_attempt_rank t) (fence_attempt_rank t'))) /\
  exists err, ApplyGitHubFence marshal sha256 c' f now = (c', Some err).
Proof.
  intros Hok Hcl Hnot c'. set (id := fence_ExecutionID f) in *.
  assert (Hinactive : ctl_fences c !! id = None).
  { destruct (fo_disjoint _ _ _ (ok_fences c Hok) id) as [?|?]; congruence. }
  destruct (run_tokens marshal sha256 history c Hok id t) as (t' & Ht' & Hadv).
  { unfold token. by rewrite Hinactive. }
  assert (Hcase : t' = t /\ ctl_fences c' !! id = None \/
     same_claim t t' /\ rank_lt (fence_attempt_rank t) (fence_attempt_rank t')).
  { destruct Hadv as [[-> Hi]|?]; [left; auto|by right]. }
  split; [by exists t'|]. apply (fence_refused marshal sha256 c' f now t').
  - done.
  - intros Hf. fold id in Hf. destruct Hcase as [[_ Hnone]|[_ Hr]]; [congruence|]. apply Hnot.
    assert (Htok : token c' id = Some f) by (unfold token; by rewrite Hf).
    fold c' in Ht'. rewrite Ht' in Htok. by injection Htok as ->.
  - intros Hr. apply Hnot. destruct Hcase as [[-> _]|[_ ?]]; [done|by eapply rank_lt_trans].
Qed.

(** C34 Recovery never replays a start and never acts under a fence.  Every action a
    reconciliation returns is for the snapshot's node; it asks the Agent to run
    something only for an execution of that node which is still reserved or
    preparing and has no open provider fence, and what it replays is always a
    prepare command the Controller issued for exactly that execution. *)
Theorem recovery_never_replays_start c snapshot now c' r a :
  ctl_ok c -> ReconcileAgentSnapshot marshal sha256 c snapshot now = (c', Ok r) ->
  a ∈ result_Actions r -> action_sound c (snap_NodeID snapshot) a.
Proof.
  unfold ReconcileAgentSnapshot. intros Hok Hr Ha.
  pose proof (reconcile_cases marshal sha256 c snapshot now) as Hcases.
  rewrite Hr in Hcases. inversion Hcases as [|digest current Hs Hnow Hau]. subst r. clear Hcases.
  unfold nodeResultLocked, node_at in Ha. simpl in Ha. rewrite lookup_insert_eq in Ha. simpl in Ha.
  destruct (effectiveNode _ now). simpl in Ha. unfold sortActions in Ha.
  rewrite elem_of_sort_slice in Ha. apply list_elem_of_fmap in Ha as (b & -> & Hb).
  pose proof (sound_scan c snapshot Hok) as Hsound. unfold sound in Hsound. rewrite Forall_forall in Hsound.
  by destruct (Hsound b Hb).
Qed.

(** What a reconciliation leaves unsuppressed is running as desired.  A
    reservation of the node that the result does not suppress belongs to an
    execution that the snapshot observes in exactly its desired state, preparing,
    running or cleaning, with no open provider fence, on an active, reconciled and
    ready node. *)
Theorem unsuppressed_runs_as_desired c snapshot now c' r id reservation :
  ctl_ok c -> ReconcileAgentSnapshot marshal sha256 c snapshot now = (c', Ok r) ->
  ctl_reservations c' !! id = Some reservation ->
  slot_NodeID (restored_Slot reservation) = snap_NodeID snapshot ->
  reservation ∉ result_SuppressedReservations r ->
  ns_Reconciled (result_Scheduler r) = true /\ ns_NativeReady (result_Scheduler r) = true /\
  node_AdministrativeState (ns_Node (result_Scheduler r)) = NodeActive /\
  ctl_fences c !! id = None /\
  exists e o, ctl_executions c !! id = Some e /\ reservation = reservation_of_execution e /\
    o ∈ snap_Observations snapshot /\ obs_ExecutionID o = id /\ obs_State o = exec_State e /\
    exec_State e ∈ [ExecutionPreparing; ExecutionRunning; ExecutionCleaning].
Proof.
  unfold ReconcileAgentSnapshot. intros Hok Hr Hres Hnode Hfree.
  pose proof (reconcile_cases marshal sha256 c snapshot now) as Hcases.
  rewrite Hr in Hcases. inversion Hcases as [|digest current Hs Hnow Hau]. subst c' r. clear Hcases.
  simpl in Hres. apply (do_reservation _ _ _ _ (ok_desired c Hok)) in Hres as (e & He & Ht & ->).
  destruct (do_execution _ _ _ _ (ok_desired c Hok) _ _ He) as (Hid & Hv & _). subst id.
  assert (Hrsv : ctl_reservations c !! exec_ID e = Some (reservation_of_execution e)).
  { apply (do_reservation _ _ _ _ (ok_desired c Hok)). by exists e. }
  revert Hfree. unfold nodeResultLocked. destruct (effectiveNode _ now) as [sn st] eqn:Heff. simpl.
  rewrite list_elem_of_filter. intros Hfree.
  assert (Hin : reservation_of_execution e ∈ sortedReservationsLocked
    (signalChangeLocked (set_node c (snap_NodeID snapshot)
       (candidate_node current snapshot digest (scan c snapshot) now)))).
  { unfold sortedReservationsLocked. rewrite elem_of_sort_slice. simpl.
    apply list_elem_of_fmap. exists (exec_ID e, reservation_of_execution e). split; [done|].
    by apply elem_of_map_to_list. }
  assert (Hclear : bool_decide (exec_ID e ∈ pass_suppress (scan c snapshot)) = false /\
    reservation_suppressed (signalChangeLocked (set_node c (snap_NodeID snapshot)
       (candidate_node current snapshot digest (scan c snapshot) now))) sn
       (rt_actions (node_at (signalChangeLocked (set_node c (snap_NodeID snapshot)
       (candidate_node current snapshot digest (scan c snapshot) now))) (snap_NodeID snapshot)))
       (reservation_of_execution e) = false).
  { apply orb_false_iff, not_true_is_false. intros Htrue. apply Hfree. split; [|done].
    apply Is_true_true_2. rewrite bool_decide_eq_true_2 by done. exact Htrue. }
  destruct Hclear as [Hsup Hready]. apply bool_decide_eq_false_1 in Hsup.
  unfold reservation_suppressed in Hready. apply orb_false_iff in Hready as [Hready _].
  apply orb_false_iff in Hready as [Hready _]. rewrite !orb_false_iff, !negb_false_iff in Hready.
  destruct Hready as [[H1 H2] H3]. apply bool_decide_eq_true_1 in H3.
  destruct (scan_suppression c snapshot e Hok (check_snapshot_valid _ _ _ _ Hs) He Hnode Ht Hsup)
    as (Hf & o & Ho & Hoid & Hst & Hrun).
  split_and!; try done. exists e, o. by split_and!.
Qed.

(** Losing an Agent withdraws capacity and nothing else.  [Disconnect] asks the
    Agent for nothing, keeps every execution, reservation, command and fence, the
    node's last-known active runtimes and its retained snapshot, suppresses exactly
    the node's reservations, and afterwards the node may take neither new work nor
    recovery. *)
Theorem disconnect_keeps_work c nodeID now c' r :
  Disconnect c nodeID now = (c', Ok r) ->
  same_desired c c' /\ result_Actions r = [] /\
  (forall x, x ∈ result_SuppressedReservations r <->
     exists id, ctl_reservations c !! id = Some x /\ slot_NodeID (restored_Slot x) = nodeID) /\
  (exists n n', ctl_nodes c !! nodeID = Some n /\ ctl_nodes c' !! nodeID = Some n' /\
     rt_snapshot n' = rt_snapshot n /\
     ns_ActiveExecutions (rt_scheduler n') = ns_ActiveExecutions (rt_scheduler n)) /\
  forall later adm, Admission c' nodeID later = Ok adm ->
    adm_AllowsNewCapacity adm = false /\ adm_AllowsRecovery adm = false.
Proof.
  intros Hd. destruct (disconnect_cases c nodeID now) as [[err Heq]|(n & n' & Hn & Hw & Hact & Heq)];
    rewrite Heq in Hd; [done|]. injection Hd as <- <-.
  set (c' := signalChangeLocked (set_node c nodeID n')).
  assert (Hat : node_at c' nodeID = n').
  { unfold node_at, c'. simpl. by rewrite lookup_insert_eq. }
  assert (Hready : ns_NativeReady (effectiveNode n' now).1 = false).
  { destruct (effectiveNode_cases n' now) as [->|[_ ?]]; [apply Hw|done]. }
  split; [apply same_desired_set_node|]. unfold nodeResultLocked. rewrite Hat.
  destruct (effectiveNode n' now) as [sn st]. simpl in *. split; [done|]. split; [|split].
  - intros x. rewrite list_elem_of_filter. unfold reservation_suppressed. rewrite Hready. simpl.
    rewrite orb_true_r, orb_true_r, andb_true_r, Is_true_true, bool_decide_eq_true.
    unfold sortedReservationsLocked. rewrite elem_of_sort_slice, list_elem_of_fmap. split.
    + intros [Hnode ([id y] & -> & Hy)]. exists id. split; [|done]. by apply elem_of_map_to_list in Hy.
    + intros (id & Hx & Hnode). split; [done|]. exists (id, x). split; [done|].
      by apply elem_of_map_to_list.
  - exists n, n'. split_and!; [done| |apply Hw|apply Hw]. simpl. by rewrite lookup_insert_eq.
  - intros later adm. unfold Admission. destruct (IsZero later); [done|]. simpl.
    rewrite lookup_insert_eq.
    assert (Hr : ns_NativeReady (effectiveNode n' later).1 = false).
    { destruct (effectiveNode_cases n' later) as [->|[_ ?]]; [apply Hw|done]. }
    destruct (effectiveNode n' later). simpl in Hr. intros [= <-]. simpl. rewrite Hr.
    by rewrite andb_false_r.
Qed.

(** Quarantine is left only by an operator.  A quarantined node of the projection
    stays quarantined, and takes neither new work nor recovery, through every
    history without a [SetAdministrativeState] call for it. *)
Theorem quarantine_sticky c history nodeID n :
  ctl_nodes c !! nodeID = Some n -> admin n = NodeQuarantined ->
  Forall (fun '(_, e) => forall next rem, e <> EvAdministrative nodeID next rem) history ->
  let c' := run c history in
  exists n', ctl_nodes c' !! nodeID = Some n' /\ admin n' = NodeQuarantined /\
    forall now adm, Admission c' nodeID now = Ok adm ->
      adm_AllowsNewCapacity adm = false /\ adm_AllowsRecovery adm = false.
Proof.
  intros Hn Hq Hops. cbv zeta.
  assert (Hkeep : exists n', ctl_nodes (run c history) !! nodeID = Some n' /\ admin n' = NodeQuarantined).
  { revert c n Hn Hq. induction Hops as [|[now e] rest He _ IH]; intros c n Hn Hq; [by exists n|].
    assert (Hstep : exists n', ctl_nodes (step marshal sha256 c now e).1 !! nodeID = Some n' /\
      admin n' = NodeQuarantined).
    { destruct (step_admin marshal sha256 c now e) as [Hk|(id & next & rem & m & -> & _ & _ & _ & Hother)].
      - destruct (Hk _ _ Hn) as (n' & Hn' & [Ha|Ha]); exists n'; split; congruence.
      - exists n. split; [|done]. apply Hother; [|done]. intros ->. by eapply He. }
    destruct Hstep as (n' & Hn' & Hq'). by eapply IH. }
  destruct Hkeep as (n' & Hn' & Hq'). exists n'. split_and!; [done|done|].
  intros now adm. unfold Admission. destruct (IsZero now); [done|]. rewrite Hn'.
  assert (Ha : node_AdministrativeState (ns_Node (effectiveNode n' now).1) = NodeQuarantined).
  { unfold effectiveNode. by destruct (_ && _). }
  destruct (effectiveNode n' now) as [sn st]. simpl in Ha. intros [= <-]. simpl. rewrite Ha.
  by rewrite andb_false_r.
Qed.

(** Exact replays are idempotent.  A fence, command or clear that has just been
    applied without an error is accepted again, and the second call changes
    nothing. *)
Theorem replays_idempotent c c' now later :
  (forall f, ApplyGitHubFence marshal sha256 c f now = (c', None) ->
     ApplyGitHubFence marshal sha256 c' f later = (c', None)) /\
  (forall i, ApplyIssuedCommand marshal sha256 c i now = (c', None) ->
     ApplyIssuedCommand marshal sha256 c' i later = (c', None)) /\
  (forall f, ClearGitHubFence marshal sha256 c f now = (c', None) ->
     ClearGitHubFence marshal sha256 c' f later = (c', None)).
Proof.
  split_and!.
  - intros f. apply fence_replay.
  - intros i. apply command_replay.
  - intros f. apply clear_replay.
Qed.
End properties.

(** ** A concrete Controller

    One Linux node with two slots; the execution [e1] owns slot 0 and runs.  The
    encoder and the hash are replaced by concrete functions. *)

Definition example_marshal (_ : CanonicalSnapshot) : result string := Ok "{}".
Definition example_sha256 (bytes : string) : string := bytes.
Definition example_now : Z := 62135596800000001000.
Definition example_digest : string :=
  "0123456789abcdef0123456789abcdef0123456789abcdef0123456789abcdef".

Definition example_definition : NodeDefinition :=
  mkNodeDefinition (mkNode "n1" "Node 1" "serial" 1 OSLinux ArchAMD64 2 NodeActive NodeOffline)
    false 200 [] RunnerVersionAutoUpdate ManagedRunnerUpdate.
Definition example_prepare : Command := mkCommand "p1" 1 "e1" ExecutionReserved example_digest.
Definition example_execution_e1 : ExecutionSnapshot :=
  mkExecutionSnapshot "e1" "t1" (mkSlotKey "n1" 0) ExecutionRunning.
Definition example_durable : ControllerSnapshot :=
  mkControllerSnapshot 2 [mkNodeAdministration "n1" NodeActive]
    [mkSlotReservation (mkSlotKey "n1" 0) (mkSlotOwner "t1" "e1")] [example_execution_e1].
Definition example_config : Config :=
  mkConfig [example_definition] [mkIssued "n1" CommandPrepare example_prepare] [].

(** The Agent reports [observations]. *)
Definition example_report (observations : list AgentExecutionObservation) : AgentSnapshot :=
  mkAgentSnapshot "n1" OSLinux ArchAMD64 "" true "" None None 1 [example_prepare] observations [].
Definition example_running : AgentSnapshot :=
  example_report [mkObservation "e1" ExecutionRunning 10].

Definition example_controller : Controller :=
  match Restore 2 example_durable example_config with
  | Ok c => c
  | Err _ => mkController 0 ∅ ∅ [] ∅ ∅ ∅ ∅ ∅ 0 false
  end.
Definition example_history : list (Z * event) := [(example_now, EvSnapshot example_running)].
Definition example_run (history : list (Z * event)) : Controller :=
  Reconcile.run example_marshal example_sha256 example_controller history.
Definition example_token : GitHubFence :=
  mkFence "e1" 7 9 GitHubClaimAcquireAmbiguous None.

Lemma example_restored_controller : Restore 2 example_durable example_config = Ok example_controller.
Proof. vm_compute. reflexivity. Qed.

Lemma example_run_ok history : ctl_ok (example_run history).
Proof.
  apply run_ok. by apply (Restore_spec 2 example_durable example_config), example_restored_controller.
Qed.

(** ** The hypotheses can hold *)

Lemma projection_always_consistent_witness : ctl_epoch (example_run example_history) = 2.
Proof.
  exact (proj1 (proj2 (projection_always_consistent example_marshal example_sha256 2 _ _ _
                         example_history example_restored_controller))).
Defined.

Definition example_admission : NodeAdmission :=
  match Admission (example_run example_history) "n1" example_now with
  | Ok adm => adm
  | Err _ => mkNodeAdmission (rt_scheduler zero_nodeRuntime) (rt_status zero_nodeRuntime) [] false false 0 0
  end.
Lemma example_admitted :
  Admission (example_run example_history) "n1" example_now = Ok example_admission.
Proof. vm_compute. reflexivity. Qed.
Lemma example_settled :
  ReconcileFacts.settled_history example_marshal example_sha256 example_controller example_history.
Proof. split; [left; vm_compute; reflexivity|exact I]. Qed.

Lemma capacity_means_agreement_witness :
  exists n, ctl_nodes (example_run example_history) !! "n1" = Some n /\
    agreement_but None (example_run example_history) "n1" (rt_snapshot n) /\
    (None (A := ExecutionID) = None -> agreement (example_run example_history) "n1" (rt_snapshot n)).
Proof.
  refine (proj2 (proj2 (proj2 (proj2 (proj2 (proj2 (proj2
    (capacity_means_agreement example_marshal example_sha256 2 _ _ _ example_history _ None "n1" example_now
       example_admission example_restored_controller example_settled
       (view_between _ _ _ _) example_admitted _)))))))).
  vm_compute. reflexivity.
Defined.

Lemma restore_starts_closed_witness :
  fleet_Actions (Controller_FleetSnapshot example_controller example_now) = [].
Proof.
  exact (proj1 (proj2 (proj2 (restore_starts_closed 2 _ _ _ example_restored_controller) example_now))).
Defined.

Definition example_update : ExecutionUpdate := mkExecutionUpdate "n1" "p1" "e1" ExecutionCleaning false "".
Definition example_updated : Controller :=
  (ApplyExecutionUpdate example_marshal example_sha256 (example_run example_history) example_update
     example_now).1.
Definition example_node (c : Controller) : nodeRuntime := node_at c "n1".
Lemma example_update_applied :
  ApplyExecutionUpdate example_marshal example_sha256 (example_run example_history) example_update
    example_now = (example_updated, None).
Proof. vm_compute. reflexivity. Qed.
Lemma example_node_present :
  ctl_nodes (example_run example_history) !! "n1" = Some (example_node (example_run example_history)).
Proof. vm_compute. reflexivity. Qed.

Lemma observation_time_advances_witness :
  exists n', ctl_nodes example_updated !! "n1" = Some n' /\
    exists o', o' ∈ snap_Observations (rt_snapshot n') /\ 10 < obs_ObservedAtUnixNano o'.
Proof.
  destruct (observation_time_advances example_marshal example_sha256 _ _ _ _ _
    (mkObservation "e1" ExecutionRunning 10) example_update_applied example_node_present)
    as (n' & o' & Hn & Ho & _ & Hadv).
  - vm_compute. apply NoDup_singleton.
  - vm_compute. left.
  - vm_compute. discriminate.
  - exists n'. split; [exact Hn|]. exists o'. split; [exact Ho|].
    assert (H : obs_State o' = ExecutionCleaning /\ 10 < obs_ObservedAtUnixNano o' <= max_int64)
      by exact Hadv.
    apply H.
Defined.

Definition example_cleared : Controller :=
  example_run [(example_now, EvFence example_token); (example_now, EvClearFence example_token)].
Lemma example_token_cleared : ctl_clearedFences example_cleared !! "e1" = Some example_token.
Proof. vm_compute. reflexivity. Qed.

Lemma fence_never_resurrected_witness :
  exists err, ApplyGitHubFence example_marshal example_sha256
    (Reconcile.run example_marshal example_sha256 example_cleared example_history)
    example_token example_now =
    (Reconcile.run example_marshal example_sha256 example_cleared example_history, Some err).
Proof.
  refine (proj2 (fence_never_resurrected example_marshal example_sha256 example_cleared example_history
    example_token example_token example_now (example_run_ok _) example_token_cleared _)).
  apply rank_lt_irrefl.
Defined.

Definition example_quarantined : Controller :=
  example_run [(example_now, EvAdministrative "n1" NodeQuarantined false)].

Lemma quarantine_sticky_witness :
  exists n', ctl_nodes (Reconcile.run example_marshal example_sha256 example_quarantined example_history)
    !! "n1" = Some n' /\ admin n' = NodeQuarantined.
Proof.
  destruct (quarantine_sticky example_marshal example_sha256 example_quarantined example_history "n1"
    (example_node example_quarantined)) as (n' & H1 & H2 & _).
  - vm_compute. reflexivity.
  - vm_compute. reflexivity.
  - constructor; [|constructor]. intros next rem H. discriminate.
  - exists n'. split; [exact H1|exact H2].
Defined.

(** Without an observation of [e1] the Controller asks to inspect and destroy it. *)
Definition example_lost : Controller * result NodeResult :=
  ReconcileAgentSnapshot example_marshal example_sha256 example_controller (example_report []) example_now.
Definition example_result (r : result NodeResult) : NodeResult :=
  match r with
  | Ok r => r
  | Err _ => mkNodeResult (rt_scheduler zero_nodeRuntime) (rt_status zero_nodeRuntime) [] []
  end.
Definition example_action : Action :=
  mkAction ActionInspectAndDestroy "n1" "e1" "" 0 ExecutionRunning "" 0 "7b7d".
Lemma example_lost_eq : ReconcileAgentSnapshot example_marshal example_sha256 example_controller
  (example_report []) example_now = (example_lost.1, Ok (example_result example_lost.2)).
Proof. vm_compute. reflexivity. Qed.
Lemma example_lost_action : example_action ∈ result_Actions (example_result example_lost.2).
Proof.
  assert (result_Actions (example_result example_lost.2) = [example_action]) as ->
    by (vm_compute; reflexivity).
  left.
Qed.

Lemma recovery_never_replays_start_witness : action_sound example_controller "n1" example_action.
Proof.
  exact (recovery_never_replays_start example_marshal example_sha256 example_controller
    (example_report []) example_now _ _ _ (example_run_ok []) example_lost_eq example_lost_action).
Defined.

Definition example_found : Controller * result NodeResult :=
  ReconcileAgentSnapshot example_marshal example_sha256 example_controller example_running example_now.
Lemma example_found_eq : ReconcileAgentSnapshot example_marshal example_sha256 example_controller
  example_running example_now = (example_found.1, Ok (example_result example_found.2)).
Proof. vm_compute. reflexivity. Qed.
Lemma example_found_reservation : ctl_reservations example_found.1 !! "e1" =
  Some (mkRestoredReservation "t1" (mkSlotKey "n1" 0) "e1").
Proof. vm_compute. reflexivity. Qed.
Lemma example_found_free : mkRestoredReservation "t1" (mkSlotKey "n1" 0) "e1" ∉
  result_SuppressedReservations (example_result example_found.2).
Proof.
  assert (result_SuppressedReservations (example_result example_found.2) = []) as ->
    by (vm_compute; reflexivity).
  apply not_elem_of_nil.
Qed.

Lemma unsuppressed_runs_as_desired_witness :
  ns_NativeReady (result_Scheduler (example_result example_found.2)) = true.
Proof.
  exact (proj1 (proj2 (unsuppressed_runs_as_desired example_marshal example_sha256 example_controller
    example_running example_now _ _ "e1" _ (example_run_ok []) example_found_eq
    example_found_reservation eq_refl example_found_free))).
Defined.

Definition example_disconnected : Controller * result NodeResult :=
  Disconnect (example_run example_history) "n1" example_now.
Lemma example_disconnected_eq : Disconnect (example_run example_history) "n1" example_now =
  (example_disconnected.1, Ok (example_result example_disconnected.2)).
Proof. vm_compute. reflexivity. Qed.

Lemma disconnect_keeps_work_witness :
  same_desired (example_run example_history) example_disconnected.1.
Proof. exact (proj1 (disconnect_keeps_work _ _ _ _ _ example_disconnected_eq)). Defined.

Definition example_fenced : Controller := example_run [(example_now, EvFence example_token)].
Lemma example_fenced_eq : ApplyGitHubFence example_marshal example_sha256 example_controller example_token
  example_now = (example_fenced, None).
Proof. vm_compute. reflexivity. Qed.

Lemma replays_idempotent_witness : ApplyGitHubFence example_marshal example_sha256 example_fenced
  example_token example_now = (example_fenced, None).
Proof.
  exact (proj1 (replays_idempotent example_marshal example_sha256 _ _ _ example_now) _ example_fenced_eq).
Defined.

(** ** Where the code differs from its description

    Each of these is a concrete history of [example_controller]. *)

Definition example_errors (history : list (Z * event)) : list error :=
  (foldl (fun '(c, errs) '(now, e) =>
            let '(c', err) := step example_marshal example_sha256 c now e in (c', errs ++ [err]))
     (example_controller, []) history).2.

(** [SetAdministrativeState] says revoked nodes cannot be reactivated, but an
    uncertain cleanup reported after the revocation replaces the revoked state by
    quarantine, and a quarantined node can be reactivated. *)
Definition history_revoked : list (Z * event) :=
  [(example_now, EvAdministrative "n1" NodeRevoked false);
   (example_now, EvUpdate (mkExecutionUpdate "n1" "p1" "e1" ExecutionCleanupFailed false
                             ExecutionErrorCleanup));
   (example_now, EvAdministrative "n1" NodeActive true)].
Lemma revoked_node_reactivated :
  example_errors history_revoked = [None; None; None] /\
  admin (example_node (example_run history_revoked)) = NodeActive.
Proof. vm_compute. split; reflexivity. Qed.

(** Clearing quarantine is said to require remediation, but only the direct move to
    active checks it: a node may go through draining. *)
Definition history_quarantined : list (Z * event) :=
  [(example_now, EvAdministrative "n1" NodeQuarantined false);
   (example_now, EvAdministrative "n1" NodeDraining false);
   (example_now, EvAdministrative "n1" NodeActive false)].
Lemma quarantine_left_through_draining :
  example_errors history_quarantined = [None; None; None] /\
  admin (example_node (example_run history_quarantined)) = NodeActive.
Proof. vm_compute. split; reflexivity. Qed.

(** [ApplyNodeOwnerState] checks less of the exclusions than the snapshot validation
    it ends with, so a repeated target is refused only after it was written to the
    retained snapshot; every later refolding of the node then fails, and the node
    keeps offering capacity although a new claim is waiting for it. *)
Definition example_claim : GitHubJobClaim :=
  mkGitHubJobClaim 7 9 GitHubClaimFromJobAvailable 9 1
    (mkExecutionSnapshot "e2" "t1" (mkSlotKey "n1" 1) ExecutionReserved) "acquired" 0.
Definition history_owner : list (Z * event) :=
  example_history ++ [(example_now, EvOwner "n1" "" (Some ["t1"; "t1"])); (example_now, EvClaim example_claim)].
Definition invalid_snapshot_error : GoError :=
  ReconcileError "invalid_agent_snapshot" "agent_snapshot" "failed typed validation".
Definition offers_capacity (history : list (Z * event)) : bool :=
  match Admission (example_run history) "n1" example_now with
  | Ok adm => adm_AllowsNewCapacity adm
  | Err _ => false
  end.
Lemma owner_state_left_behind :
  example_errors history_owner = [None; Some invalid_snapshot_error; Some invalid_snapshot_error] /\
  offers_capacity history_owner = true /\
  offers_capacity (example_history ++ [(example_now, EvClaim example_claim)]) = false.
Proof. vm_compute. split_and!; reflexivity. Qed.

(** [ApplyGitHubClaim] commits the execution, releases [mu] and only then refolds the
    retained snapshot.  [Admission] takes [mu.RLock] alone, so in between it still
    offers capacity on a node whose retained snapshot does not show the execution
    that was just claimed; after the refolding it does not. *)
Lemma claim_seen_before_refold :
  (match Admission (in_progress example_marshal example_sha256 (example_run example_history) example_now
                      (EvClaim example_claim)) "n1" example_now with
   | Ok adm => adm_AllowsNewCapacity adm
   | Err _ => false
   end) = true /\
  option_map exec_State (ctl_executions (in_progress example_marshal example_sha256
    (example_run example_history) example_now (EvClaim example_claim)) !! "e2") = Some ExecutionReserved /\
  offers_capacity (example_history ++ [(example_now, EvClaim example_claim)]) = false.
Proof. vm_compute. split_and!; reflexivity. Qed.

(** [ApplyNodeConfigurations] compares the new slot count with the reservations but
    not with the active runtimes, so the fleet it leaves can contain a node that the
    scheduler refuses. *)
Definition history_shrink : list (Z * event) :=
  [(example_now, EvSnapshot (example_report [mkObservation "e1" ExecutionRunning 10;
                                             mkObservation "e9" ExecutionRunning 10]));
   (example_now, EvConfigurations [mkNodeConfiguration "n1" "Node 1" 1])].
Lemma shrink_below_active :
  example_errors history_shrink = [None; None] /\
  map NodeSnapshot_Validate (fleet_Nodes (Controller_FleetSnapshot (example_run history_shrink) example_now)) =
  [Some (SchedulerError "active_runners_exceed_node_maximum" "node.active_executions"
           "must not exceed node.max_runners")].
Proof. vm_compute. split; reflexivity. Qed.
