(* ===== verification/FleetProps.v ===== *)
(** * The fleet the Controller hands to the scheduler

    [FleetSnapshot] (internal/reconcile/controller.go) is what a scheduler is rebuilt
    from ([NewWithReservations], internal/scheduler/scheduler.go): the Controller's
    invariant implies that its reservations can be restored, whatever happened
    before. *)

From S2P Require Import Prelude GoStd Domain Execution Replay SlotLedger Scheduler SchedulerFacts.
From S2P Require Import Transport RunnerUpdate Fence Projection Reconcile ReconcileInv RestoreInv PassFacts ReconcileProps.

(** ** Lemmas *)

Lemma New_nodes nodes targets fleetMaximum s :
  New nodes targets fleetMaximum = Ok s ->
  sched_ok s /\ add_node_states nodes ∅ = Ok (sched_nodes s).
Proof.
  intros Hnew. split.
  - by apply (NewWithReservations_ok nodes targets fleetMaximum s [] Hnew).
  - revert Hnew. unfold New, NewWithReservations.
    destruct (add_node_states nodes ∅) as [states|]; [|done].
    destruct (NewSlotLedger _ _) as [ledger|]; [|done].
    destruct (add_target_specs targets ∅) as [specs|]; [|done].
    unfold restoreReservations. simpl. destruct (_ >? _); [done|]. by intros [= <-].
Qed.

Lemma fleet_node c now id n :
  ctl_nodes c !! id = Some n -> rt_platformKnown n = true ->
  (effectiveNode n now).1 ∈ fleet_Nodes (Controller_FleetSnapshot c now).
Proof.
  intros Hn Hp. simpl. apply list_elem_of_In, in_flat_map. exists id. split.
  - apply list_elem_of_In, elem_of_sort_slice, list_elem_of_fmap. exists (id, n). split; [done|].
    by apply elem_of_map_to_list.
  - unfold node_at. rewrite Hn. simpl. rewrite Hp. by left.
Qed.

Lemma effectiveNode_limit n now :
  let sn := (effectiveNode n now).1 in
  (node_ID (ns_Node sn), node_MaxRunners (ns_Node sn)) = node_limit n.
Proof. unfold effectiveNode. by destruct (_ && _). Qed.

Lemma elem_of_fleet_reservations c now r :
  r ∈ fleet_Reservations (Controller_FleetSnapshot c now) <-> exists id, ctl_reservations c !! id = Some r.
Proof.
  simpl. unfold sortedReservationsLocked. rewrite elem_of_sort_slice, list_elem_of_fmap. split.
  - intros ([id y] & -> & Hy). exists id. by apply elem_of_map_to_list in Hy.
  - intros [id Hr]. exists (id, r). split; [done|]. by apply elem_of_map_to_list.
Qed.

(** A key of the reservations that determines the entry never repeats. *)
Lemma fleet_reservations_NoDup {K} c now (f : RestoredReservation -> K) :
  (forall id1 id2 r1 r2, ctl_reservations c !! id1 = Some r1 -> ctl_reservations c !! id2 = Some r2 ->
     f r1 = f r2 -> id1 = id2) ->
  NoDup (map f (fleet_Reservations (Controller_FleetSnapshot c now))).
Proof.
  intros Hf. simpl. unfold sortedReservationsLocked. rewrite sort_slice_perm, map_map.
  apply NoDup_fmap_2_strong; [|apply NoDup_map_to_list].
  intros [id1 r1] [id2 r2] H1%elem_of_map_to_list H2%elem_of_map_to_list Heq. simpl in Heq.
  assert (id1 = id2) as <- by (by eapply Hf). congruence.
Qed.

(** ** Properties *)

(** The scheduler can always be rebuilt from the Controller's fleet.  In every
    consistent state of the projection, a scheduler that accepts the fleet's nodes
    and knows the targets of its reservations also restores the reservations, and
    its grants then stand for exactly them, as long as the fleet maximum is not
    smaller than their number. *)
Theorem fleet_restorable c now targets fleetMaximum s0 :
  ctl_ok c ->
  let fleet := Controller_FleetSnapshot c now in
  New (fleet_Nodes fleet) targets fleetMaximum = Ok s0 ->
  (forall id r, ctl_reservations c !! id = Some r ->
     is_Some (sched_targets s0 !! restored_TargetID r) /\
     exists n, ctl_nodes c !! slot_NodeID (restored_Slot r) = Some n /\ rt_platformKnown n = true) ->
  Z.of_nat (length (fleet_Reservations fleet)) <= FleetMaximum s0 ->
  Z.of_nat (length (fleet_Reservations fleet)) <= max_int64 ->
  exists s, NewWithReservations (fleet_Nodes fleet) targets fleetMaximum (fleet_Reservations fleet) = Ok s /\
    reservations_of s ≡ₚ fleet_Reservations fleet /\ Scheduler_Validate s = None.
Proof.
  intros Hok fleet Hnew Hknown Hmax Hlen.
  destruct (New_nodes _ _ _ _ Hnew) as [Hs Hstates].
  destruct (NewWithReservations_ok _ _ _ _ _ Hnew Hlen) as [Hcan Hspec].
  pose proof (ok_desired c Hok) as Hd.
  destruct Hcan as [s Hres].
  - split_and!; [| | |done].
    + apply Forall_forall. intros r [id Hr]%elem_of_fleet_reservations.
      destruct (Hknown id r Hr) as [Ht (n & Hn & Hp)]. split_and!; [done| |].
      * apply (tp_slots s0 (ok_topology s0 Hs)).
        pose proof (fleet_node c now _ n Hn Hp) as Hin.
        destruct (add_node_states_valid _ _ _ _ Hstates Hin) as [st Hst]. exists st.
        destruct (newNodeState_sets _ _ Hst) as (_ & Hsn & _).
        pose proof (effectiveNode_limit n now) as Hl. cbv zeta in Hl.
        assert (Hlim : node_limits c !! slot_NodeID (restored_Slot r) = Some (node_limit n)).
        { unfold node_limits. by rewrite lookup_fmap, Hn. }
        destruct (do_nodes _ _ _ _ Hd _ _ Hlim) as [Hid _].
        pose proof (do_capacity _ _ _ _ Hd _ _ _ Hr Hlim) as Hcap. rewrite <- Hl in Hid, Hcap.
        split; [|by rewrite Hsn].
        apply (add_node_states_spec _ _ _ Hstates). right. by exists (effectiveNode n now).1.
      * right. apply (do_reservation _ _ _ _ Hd) in Hr as (e & He & _ & ->).
        destruct (do_execution _ _ _ _ Hd _ _ He) as (_ & Hv & _). simpl. revert Hv.
        unfold ExecutionSnapshot_Validate, required. by case_bool_decide.
    + apply fleet_reservations_NoDup. apply (do_slots _ _ _ _ Hd).
    + apply NoDup_filter, fleet_reservations_NoDup. intros id1 id2 r1 r2 H1 H2.
      apply (do_reservation _ _ _ _ Hd) in H1 as (e1 & He1 & _ & ->), H2 as (e2 & He2 & _ & ->).
      destruct (do_execution _ _ _ _ Hd _ _ He1) as (<- & _), (do_execution _ _ _ _ Hd _ _ He2) as (<- & _).
      done.
  - exists s. destruct (Hspec s Hres) as (Hsok & _ & Hp & Hid). split_and!; [done|done|].
    apply Scheduler_Validate_ok; [done|lia].
Qed.

(** ** The hypotheses can hold *)

Definition fleet_controller : Controller := example_run example_history.
Definition example_fleet : FleetSnapshot := Controller_FleetSnapshot fleet_controller example_now.
Definition example_targets : list TargetSpec := [SchedulerFacts.example_target "t1"].
Definition fleet_scheduler : Scheduler :=
  match New (fleet_Nodes example_fleet) example_targets None with
  | Ok s => s
  | Err _ => SchedulerFacts.empty_scheduler
  end.

Lemma example_fleet_new :
  New (fleet_Nodes example_fleet) example_targets None = Ok fleet_scheduler.
Proof. vm_compute. reflexivity. Qed.
Lemma example_reservations :
  ctl_reservations fleet_controller = {["e1" := mkRestoredReservation "t1" (mkSlotKey "n1" 0) "e1"]}.
Proof. vm_compute. reflexivity. Qed.
Lemma example_knows_target : is_Some (sched_targets fleet_scheduler !! "t1").
Proof. eexists. vm_compute. reflexivity. Qed.
Lemma example_knows_node :
  exists n, ctl_nodes fleet_controller !! "n1" = Some n /\ rt_platformKnown n = true.
Proof. eexists. split; vm_compute; reflexivity. Qed.
Lemma example_fleet_known id r :
  ctl_reservations fleet_controller !! id = Some r ->
  is_Some (sched_targets fleet_scheduler !! restored_TargetID r) /\
  exists n, ctl_nodes fleet_controller !! slot_NodeID (restored_Slot r) = Some n /\
    rt_platformKnown n = true.
Proof.
  rewrite example_reservations. intros [_ <-]%lookup_singleton_Some.
  exact (conj example_knows_target example_knows_node).
Qed.
Lemma example_fleet_maximum :
  Z.of_nat (length (fleet_Reservations example_fleet)) <= FleetMaximum fleet_scheduler.
Proof. vm_compute. discriminate. Qed.
Lemma example_fleet_length : Z.of_nat (length (fleet_Reservations example_fleet)) <= max_int64.
Proof. vm_compute. discriminate. Qed.

Lemma fleet_restorable_witness :
  exists s, NewWithReservations (fleet_Nodes example_fleet) example_targets None
      (fleet_Reservations example_fleet) = Ok s /\
    reservations_of s ≡ₚ fleet_Reservations example_fleet /\ Scheduler_Validate s = None.
Proof.
  exact (fleet_restorable fleet_controller example_now example_targets None fleet_scheduler
    (example_run_ok example_history) example_fleet_new example_fleet_known
    example_fleet_maximum example_fleet_length).
Defined.
