(* ===== verification/Effects.v ===== *)
(** * Programs that call their environment

    Code whose behaviour is a dialogue with its environment (a durable journal, a
    process supervisor, a file system) is modelled by the tree of its calls: a
    node is a call, with one subtree per answer the environment may give, and a
    leaf is a result.  The environment is not restricted: a theorem about a tree
    holds for every sequence of answers, hence for every interleaving with other
    users of the same environment, unless the theorem says which answers it
    assumes.

    [safe] is the program logic: every call a program makes is allowed by the
    dialogue so far, and every result satisfies a postcondition.  [dialogue]
    gives its meaning, [exec] runs a program against a concrete environment. *)

From S2P Require Import Prelude.

Section effects.
Context {call : Type} {answer : call -> Type}.

Inductive prog (A : Type) :=
  | Ret (result : A)
  | Call (c : call) (k : answer c -> prog A).
#[local] Arguments Ret {A}.
#[local] Arguments Call {A}.

#[local] Instance prog_ret : MRet prog := @Ret.
#[local] Instance prog_bind : MBind prog := fun A B f =>
  fix bind p := match p with
                | Ret x => f x
                | Call c k => Call c (fun a => bind (k a))
                end.

(** A call by itself. *)
Definition ask (c : call) : prog (answer c) := Call c Ret.

(** ** Dialogues *)

(** A call with its answer. *)
Definition event : Type := sigT answer.
Definition said (c : call) (a : answer c) : event := existT c a.

(** [dialogue p t r]: with the answers recorded in [t], [p] makes exactly the
    calls of [t], in that order, and returns [r]. *)
Fixpoint dialogue {A} (p : prog A) (t : list event) (r : A) : Prop :=
  match p with
  | Ret x => t = [] /\ r = x
  | Call c k => exists a t', t = said c a :: t' /\ dialogue (k a) t' r
  end.

(** [exec handler p w]: the run of [p] in which [handler] answers. *)
Section exec.
Context {W : Type} (handler : forall c : call, W -> W * answer c).

Fixpoint exec {A} (p : prog A) (w : W) : W * A :=
  match p with
  | Ret x => (w, x)
  | Call c k => let '(w, a) := handler c w in exec (k a) w
  end.

Fixpoint exec_dialogue {A} (p : prog A) (w : W) : list event :=
  match p with
  | Ret _ => []
  | Call c k => let '(w, a) := handler c w in said c a :: exec_dialogue (k a) w
  end.

Lemma exec_is_dialogue {A} (p : prog A) w : dialogue p (exec_dialogue p w) (exec p w).2.
Proof.
  revert w. induction p as [x|c k IH]; intros w; simpl; [done|].
  destruct (handler c w) as [w' a] eqn:E. eauto.
Qed.
End exec.

(** ** The logic *)

(** [allowed h c]: a program may call [c] after the dialogue [h];
    [believable h c a]: the environment may answer [a] to it. *)
Section safe.
Context (allowed : list event -> call -> Prop)
  (believable : list event -> forall c, answer c -> Prop).

Fixpoint safe {A} (h : list event) (p : prog A) (Q : list event -> A -> Prop) : Prop :=
  match p with
  | Ret x => Q h x
  | Call c k =>
      allowed h c /\ forall a, believable h c a -> safe (h ++ [said c a]) (k a) Q
  end.

Lemma safe_ret {A} h (x : A) Q : Q h x -> safe h (mret x) Q.
Proof. done. Qed.

Lemma safe_mono {A} h (p : prog A) (Q Q' : list event -> A -> Prop) :
  safe h p Q -> (forall h' x, h `prefix_of` h' -> Q h' x -> Q' h' x) -> safe h p Q'.
Proof.
  revert h. induction p as [x|c k IH]; intros h; simpl.
  - intros HQ Himp. by apply Himp.
  - intros [Hc Hk] Himp. split; [done|]. intros a Ha. apply (IH a); [by apply Hk|].
    intros h' x Hpre. apply Himp. etransitivity; [|exact Hpre]. by exists [said c a].
Qed.

Lemma safe_bind {A B} h (p : prog A) (f : A -> prog B) Q :
  safe h p (fun h' x => safe h' (f x) Q) -> safe h (mbind f p) Q.
Proof.
  revert h. induction p as [x|c k IH]; intros h; simpl; [done|].
  intros [Hc Hk]. split; [done|]. intros a Ha. by apply IH, Hk.
Qed.

(** The rule for a step of a program: what is known of the step's result. *)
Lemma safe_step {A B} h (p : prog A) (f : A -> prog B) R Q :
  safe h p R -> (forall h' x, h `prefix_of` h' -> R h' x -> safe h' (f x) Q) ->
  safe h (mbind f p) Q.
Proof. intros Hp Hf. apply safe_bind. eapply safe_mono; [exact Hp|done]. Qed.

Lemma safe_ask h c (Q : list event -> answer c -> Prop) :
  allowed h c -> (forall a, believable h c a -> Q (h ++ [said c a]) a) -> safe h (ask c) Q.
Proof. by split. Qed.

(** Every event of a dialogue is believable after the ones before it. *)
Definition believed (h t : list event) : Prop :=
  forall pre c a post, t = pre ++ said c a :: post -> believable (h ++ pre) c a.

Lemma believed_cons h c a t :
  believed h (said c a :: t) -> believable h c a /\ believed (h ++ [said c a]) t.
Proof.
  intros Hb. split.
  - rewrite <- (app_nil_r h). by apply (Hb [] c a t).
  - intros pre c' a' post ->. rewrite <- app_assoc. by apply (Hb (said c a :: pre) c' a' post).
Qed.

Lemma believed_cons_intro h c a t :
  believable h c a -> believed (h ++ [said c a]) t -> believed h (said c a :: t).
Proof.
  intros Ha Ht [|e1 pre] c' a' post Heq.
  - apply (f_equal (fun l => default (said c a) (head l))) in Heq. simpl in Heq.
    change (believable (h ++ []) (projT1 (said c' a')) (projT2 (said c' a'))).
    rewrite app_nil_r. by rewrite <- Heq.
  - simpl in Heq. injection Heq as Hhd Htl. subst e1. replace (h ++ said c a :: pre) with ((h ++ [said c a]) ++ pre)
      by (by rewrite <- app_assoc).
    by apply (Ht pre c' a' post).
Qed.

(** Adequacy: in every dialogue whose answers are believable, every call is
    allowed after the ones before it, and the result satisfies the postcondition. *)
Lemma safe_adequate {A} h (p : prog A) Q t r :
  safe h p Q -> dialogue p t r -> believed h t ->
  Q (h ++ t) r /\
  forall pre e post, t = pre ++ e :: post -> allowed (h ++ pre) (projT1 e).
Proof.
  revert h t. induction p as [x|c k IH]; intros h t; simpl.
  - intros HQ [-> ->] _. rewrite app_nil_r. split; [done|]. by intros [|e1 pre] e2 post.
  - intros [Hc Hk] (a & t' & -> & Hd) [Ha Hb]%believed_cons.
    destruct (IH a (h ++ [said c a]) t' (Hk a Ha) Hd Hb) as [HQ Hall].
    rewrite <- app_assoc in HQ. split; [done|].
    intros [|e1 pre] e2 post Heq; simpl in Heq; injection Heq as Hhd Htl; subst.
    + by rewrite app_nil_r.
    + specialize (Hall pre e2 post eq_refl). by rewrite <- app_assoc in Hall.
Qed.
End safe.

(** A logic with fewer permissions and more believable answers is stronger. *)
Lemma safe_weaken {A} (allowed allowed' : list event -> call -> Prop)
    (believable believable' : list event -> forall c, answer c -> Prop) h (p : prog A) Q :
  safe allowed believable h p Q ->
  (forall h c, allowed h c -> allowed' h c) ->
  (forall h c a, believable' h c a -> believable h c a) ->
  safe allowed' believable' h p Q.
Proof.
  intros Hs Ha Hb. revert h Hs. induction p as [x|c k IH]; intros h; simpl; [done|].
  intros [Hc Hk]. split; [by apply Ha|]. intros a Hba. by apply IH, Hk, Hb.
Qed.
End effects.

Arguments prog {call} answer A.
Arguments Ret {call answer A}.
Arguments Call {call answer A}.
Arguments ask {call} answer c.
#[export] Existing Instances prog_ret prog_bind.
