(* ===== verification/RunnerJournal.v ===== *)
(** * The runner journal (internal/runner/journal.go)

    The durable record of one runner execution, which records are valid, and the
    in-memory journal with its revision-guarded update.  The record of the code is
    [RunnerRecord] here.  [sha256] stands for SHA-256: it maps a string of bytes to
    the string of the bytes of its sum. *)

From S2P Require Import Prelude GoStd RunnerLease.
From Stdlib Require Import Btauto.

(* src: internal/runner/journal.go:11-11 StatePreparing *)
Definition StatePreparing := "preparing".
(* src: internal/runner/journal.go:12-12 StatePrepared *)
Definition StatePrepared := "prepared".
(* src: internal/runner/journal.go:13-13 StateStarting *)
Definition StateStarting := "starting".
(* src: internal/runner/journal.go:14-14 StateRunning *)
Definition StateRunning := "running".
(* src: internal/runner/journal.go:15-15 StateCleaning *)
Definition StateCleaning := "cleaning".
(* src: internal/runner/journal.go:16-16 StateReleased *)
Definition StateReleased := "released".
(* src: internal/runner/journal.go:17-17 StateFailed *)
Definition StateFailed := "failed".
(* src: internal/runner/journal.go:18-18 StateCleanupFailed *)
Definition StateCleanupFailed := "cleanup_failed".

(* src: internal/runner/journal.go:49-52 WorkspaceRef *)
Record WorkspaceRef := mkWorkspaceRef {
  workspace_Backend : string;
  workspace_OwnerID : string;
}.
#[export] Instance WorkspaceRef_eq_dec : EqDecision WorkspaceRef.
Proof. solve_decision. Defined.

(* src: internal/runner/journal.go:58-65 ContainmentRef *)
Record ContainmentRef := mkContainmentRef {
  containment_Backend : string;
  containment_OwnerID : string;
  containment_Scope : string;
  containment_HostEpoch : string;
  containment_InvocationID : string;
  containment_FenceToken : string;
}.
#[export] Instance ContainmentRef_eq_dec : EqDecision ContainmentRef.
Proof. solve_decision. Defined.

(** [WorkspaceRef{}] and [ContainmentRef{}]. *)
Definition no_workspace : WorkspaceRef := mkWorkspaceRef "" "".
Definition no_containment : ContainmentRef := mkContainmentRef "" "" "" "" "" "".

(* src: internal/runner/journal.go:23-33 Record *)
Record RunnerRecord := mkRecord {
  rec_ExecutionID : string;
  rec_SpecDigest : string;
  rec_JITDigest : string;
  rec_State : string;
  rec_RootName : string;
  rec_PID : Z;
  rec_Tombstone : bool;
  rec_Containment : ContainmentRef;
  rec_WorkspaceRef : WorkspaceRef;
}.
#[export] Instance RunnerRecord_eq_dec : EqDecision RunnerRecord.
Proof. solve_decision. Defined.

(* src: internal/runner/journal.go:40-44 VersionedRecord *)
Record VersionedRecord := mkVersioned {
  vr_Record : RunnerRecord;
  vr_Revision : Z;
  vr_MutationToken : string;
}.
#[export] Instance VersionedRecord_eq_dec : EqDecision VersionedRecord.
Proof. solve_decision. Defined.

Definition no_record : VersionedRecord :=
  mkVersioned (mkRecord "" "" "" "" "" 0 false no_containment no_workspace) 0 "".

(** The fields of the embedded record. *)
Definition vr_ExecutionID (vr : VersionedRecord) : string := rec_ExecutionID (vr_Record vr).
Definition vr_State (vr : VersionedRecord) : string := rec_State (vr_Record vr).

(** Assignments to fields of a record. *)
Definition set_State (state : string) (r : RunnerRecord) : RunnerRecord :=
  mkRecord (rec_ExecutionID r) (rec_SpecDigest r) (rec_JITDigest r) state (rec_RootName r)
    (rec_PID r) (rec_Tombstone r) (rec_Containment r) (rec_WorkspaceRef r).
Definition set_JITDigest (digest : string) (r : RunnerRecord) : RunnerRecord :=
  mkRecord (rec_ExecutionID r) (rec_SpecDigest r) digest (rec_State r) (rec_RootName r)
    (rec_PID r) (rec_Tombstone r) (rec_Containment r) (rec_WorkspaceRef r).
Definition set_PID (pid : Z) (r : RunnerRecord) : RunnerRecord :=
  mkRecord (rec_ExecutionID r) (rec_SpecDigest r) (rec_JITDigest r) (rec_State r) (rec_RootName r)
    pid (rec_Tombstone r) (rec_Containment r) (rec_WorkspaceRef r).
Definition set_Tombstone (tombstone : bool) (r : RunnerRecord) : RunnerRecord :=
  mkRecord (rec_ExecutionID r) (rec_SpecDigest r) (rec_JITDigest r) (rec_State r) (rec_RootName r)
    (rec_PID r) tombstone (rec_Containment r) (rec_WorkspaceRef r).
Definition set_Containment (ref : ContainmentRef) (r : RunnerRecord) : RunnerRecord :=
  mkRecord (rec_ExecutionID r) (rec_SpecDigest r) (rec_JITDigest r) (rec_State r) (rec_RootName r)
    (rec_PID r) (rec_Tombstone r) ref (rec_WorkspaceRef r).
Definition set_WorkspaceRef (ref : WorkspaceRef) (r : RunnerRecord) : RunnerRecord :=
  mkRecord (rec_ExecutionID r) (rec_SpecDigest r) (rec_JITDigest r) (rec_State r) (rec_RootName r)
    (rec_PID r) (rec_Tombstone r) (rec_Containment r) ref.
Definition on_record (f : RunnerRecord -> RunnerRecord) (vr : VersionedRecord) : VersionedRecord :=
  mkVersioned (f (vr_Record vr)) (vr_Revision vr) (vr_MutationToken vr).

(** ** Valid records (runtime.go) *)

(* src: internal/runner/runtime.go:1136-1146 canonicalDigest *)
Definition canonicalDigest (value : string) : bool :=
  if len_string value != 64 then false else all_bytes lower_hex_byte value.

(* src: internal/runner/runtime.go:1156-1166 canonicalOpaqueToken *)
Definition canonicalOpaqueToken (value : string) : bool :=
  if len_string value != 32 then false else all_bytes lower_hex_byte value.

(* src: internal/runner/runtime.go:1168-1168 canonicalFenceToken *)
Definition canonicalFenceToken (value : string) : bool := canonicalOpaqueToken value.

(* src: internal/runner/runtime.go:1210-1212 validContainment *)
Definition validContainment (ref : ContainmentRef) : bool :=
  (containment_Backend ref != "") && (containment_OwnerID ref != "").
(* src: internal/runner/runtime.go:1214-1216 validWorkspaceRef *)
Definition validWorkspaceRef (ref : WorkspaceRef) : bool :=
  (workspace_Backend ref != "") && (workspace_OwnerID ref != "").
(* src: internal/runner/runtime.go:1218-1220 validFencedContainment *)
Definition validFencedContainment (ref : ContainmentRef) : bool :=
  validContainment ref && canonicalFenceToken (containment_FenceToken ref).

(* src: internal/runner/runtime.go:1119-1121 activeState *)
Definition activeState (state : string) : bool :=
  (state == StatePrepared) || (state == StateStarting) || (state == StateRunning).

(* src: internal/runner/runtime.go:1222-1239 sameStartedRuntime *)
Definition sameStartedRuntime (current expected : RunnerRecord) : bool :=
  if (rec_ExecutionID current != rec_ExecutionID expected) ||
     (rec_SpecDigest current != rec_SpecDigest expected) ||
     (rec_JITDigest current != rec_JITDigest expected) ||
     (rec_RootName current != rec_RootName expected) ||
     (rec_WorkspaceRef current != rec_WorkspaceRef expected) ||
     (rec_Containment current != rec_Containment expected) then false
  else if rec_State current == StateStarting then rec_PID current == 0
  else if rec_State current == StateRunning then
    (rec_PID current >? 0) && ((rec_PID expected == 0) || (rec_PID current == rec_PID expected))
  else false.

Section records.
Context (sha256 : string -> string).

(* src: internal/runner/runtime.go:1091-1094 executionRootName *)
Definition executionRootName (executionID : string) : string := hex_encode (sha256 executionID).

(* src: internal/runner/runtime.go:1170-1204 validRecord *)
Definition validRecord (r : RunnerRecord) : bool :=
  let unstarted := (rec_PID r == 0) && (rec_JITDigest r == "") in
  let bare := (rec_WorkspaceRef r == no_workspace) && (rec_Containment r == no_containment) in
  if (rec_ExecutionID r == "") || (rec_RootName r != executionRootName (rec_ExecutionID r)) ||
     negb (canonicalDigest (rec_SpecDigest r)) then false
  else if (rec_JITDigest r != "") && negb (canonicalDigest (rec_JITDigest r)) then false
  else if rec_State r == StatePreparing then unstarted && bare && negb (rec_Tombstone r)
  else if rec_State r == StatePrepared then
    unstarted && validWorkspaceRef (rec_WorkspaceRef r) && (rec_Containment r == no_containment) &&
    negb (rec_Tombstone r)
  else if rec_State r == StateStarting then
    (rec_PID r == 0) && (rec_JITDigest r != "") && validWorkspaceRef (rec_WorkspaceRef r) &&
    validFencedContainment (rec_Containment r) && negb (rec_Tombstone r)
  else if rec_State r == StateRunning then
    (rec_PID r >? 0) && (rec_JITDigest r != "") && validWorkspaceRef (rec_WorkspaceRef r) &&
    validFencedContainment (rec_Containment r) && negb (rec_Tombstone r)
  else if rec_State r == StateCleaning then
    let preparing := unstarted && bare in
    let prepared := unstarted && (rec_Containment r == no_containment) in
    let starting := (rec_PID r == 0) && (rec_JITDigest r != "") &&
                    validFencedContainment (rec_Containment r) in
    let running := (rec_PID r >? 0) && (rec_JITDigest r != "") &&
                   validFencedContainment (rec_Containment r) in
    let active := validWorkspaceRef (rec_WorkspaceRef r) && (prepared || starting || running) in
    negb (rec_Tombstone r) && (preparing || active)
  else if rec_State r == StateReleased then
    let prepared := (rec_JITDigest r == "") && (rec_Containment r == no_containment) in
    let started := (rec_JITDigest r != "") && validFencedContainment (rec_Containment r) in
    (rec_PID r == 0) && validWorkspaceRef (rec_WorkspaceRef r) && negb (rec_Tombstone r) &&
    (prepared || started)
  else if rec_State r == StateFailed then unstarted && bare && negb (rec_Tombstone r)
  else if rec_State r == StateCleanupFailed then rec_Tombstone r
  else false.

(* src: internal/runner/runtime.go:1206-1208 validVersionedRecord *)
Definition validVersionedRecord (vr : VersionedRecord) : bool :=
  (vr_Revision vr >? 0) && canonicalOpaqueToken (vr_MutationToken vr) && validRecord (vr_Record vr).

(* src: internal/runner/journal.go:81-86 ValidateRecord *)
Definition ValidateRecord (r : RunnerRecord) : error :=
  if negb (validRecord r) then Some ErrJournal else None.

(* src: internal/runner/journal.go:90-95 ValidateVersionedRecord *)
Definition ValidateVersionedRecord (vr : VersionedRecord) : error :=
  if negb (validVersionedRecord vr) then Some ErrJournal else None.
End records.

(** ** The in-memory journal

    [None] is a nil receiver.  The journal's mutex makes each method one step. *)

(* src: internal/runner/journal.go:97-100 MemoryJournal *)
Definition MemoryJournal : Type := option (gmap string VersionedRecord).

(* src: internal/runner/journal.go:102-104 NewMemoryJournal *)
Definition NewMemoryJournal : MemoryJournal := Some ∅.

(** A journal method's [(VersionedRecord, bool, error)]. *)
Definition journal_answer : Type := VersionedRecord * bool * error.

(* src: internal/runner/journal.go:106-114 MemoryJournal.Load *)
Definition MemoryJournal_Load (j : MemoryJournal) (executionID : string) : journal_answer :=
  match j with
  | None => (no_record, false, Some ErrJournal)
  | Some records =>
      match records !! executionID with
      | Some record => (record, true, None)
      | None => (no_record, false, None)
      end
  end.

(* src: internal/runner/journal.go:116-128 MemoryJournal.Create *)
Definition MemoryJournal_Create (j : MemoryJournal) (mutationToken : string) (record : RunnerRecord)
    : MemoryJournal * journal_answer :=
  match j with
  | None => (j, (no_record, false, Some ErrJournal))
  | Some records =>
      if (rec_ExecutionID record == "") || negb (canonicalOpaqueToken mutationToken) then
        (j, (no_record, false, Some ErrJournal))
      else match records !! rec_ExecutionID record with
           | Some existing => (j, (existing, false, None))
           | None =>
               let created := mkVersioned record 1 mutationToken in
               (Some (<[rec_ExecutionID record := created]> records), (created, true, None))
           end
  end.

(* src: internal/runner/journal.go:130-146 MemoryJournal.CompareAndSwap *)
Definition MemoryJournal_CompareAndSwap (j : MemoryJournal) (executionID : string)
    (expectedRevision : Z) (mutationToken : string) (next : RunnerRecord)
    : MemoryJournal * journal_answer :=
  match j with
  | None => (j, (no_record, false, Some ErrJournal))
  | Some records =>
      if (executionID == "") || (rec_ExecutionID next != executionID) || (expectedRevision == 0) ||
         negb (canonicalOpaqueToken mutationToken) then (j, (no_record, false, Some ErrJournal))
      else
        let current := default no_record (records !! executionID) in
        if (records !! executionID == None) || (vr_Revision current != expectedRevision) then
          (j, (current, false, None))
        else if expectedRevision == max_uint64 then (j, (no_record, false, Some ErrJournal))
        else
          let updated := mkVersioned next (wrap_uint64 (expectedRevision + 1)) mutationToken in
          (Some (<[executionID := updated]> records), (updated, true, None))
  end.

(** ** What a valid record says in each state *)

(** Comparisons between two states decide themselves. *)
Ltac decide_closed P d :=
  let v := eval vm_compute in (@bool_decide P d) in
  first [constr_eq v true; change (@bool_decide P d) with true in *
        |constr_eq v false; change (@bool_decide P d) with false in *].
Ltac decide_states :=
  repeat match goal with
  | |- context [@bool_decide (@eq string ?a ?b) ?d] => is_const a; is_const b; decide_closed (a = b) d
  | _ : context [@bool_decide (@eq string ?a ?b) ?d] |- _ =>
      is_const a; is_const b; decide_closed (a = b) d
  | |- context [@bool_decide (@elem_of ?A ?B ?C (?a, ?b) ?l) ?d] =>
      is_const a; is_const b; decide_closed (@elem_of A B C (a, b) l) d
  end; cbn [andb orb negb] in *.

Section valid_records.
Context (sha256 : string -> string).

(** What holds of a valid record in every state. *)
Definition identified (r : RunnerRecord) : Prop :=
  rec_ExecutionID r <> "" /\ rec_RootName r = executionRootName sha256 (rec_ExecutionID r) /\
  canonicalDigest (rec_SpecDigest r) = true /\
  (rec_JITDigest r = "" \/ canonicalDigest (rec_JITDigest r) = true).

(** What holds of it in its state. *)
Definition state_valid (r : RunnerRecord) : bool :=
  let fenced := (rec_JITDigest r != "") && validFencedContainment (rec_Containment r) in
  let unfenced := (rec_JITDigest r == "") && (rec_Containment r == no_containment) in
  let bare := (rec_PID r == 0) && unfenced && (rec_WorkspaceRef r == no_workspace) in
  let workspace := validWorkspaceRef (rec_WorkspaceRef r) in
  if rec_State r == StatePreparing then bare && negb (rec_Tombstone r)
  else if rec_State r == StatePrepared then
    (rec_PID r == 0) && unfenced && workspace && negb (rec_Tombstone r)
  else if rec_State r == StateStarting then
    (rec_PID r == 0) && fenced && workspace && negb (rec_Tombstone r)
  else if rec_State r == StateRunning then
    (rec_PID r >? 0) && fenced && workspace && negb (rec_Tombstone r)
  else if rec_State r == StateCleaning then
    (bare || (workspace && (((rec_PID r == 0) && (unfenced || fenced)) || ((rec_PID r >? 0) && fenced))))
    && negb (rec_Tombstone r)
  else if rec_State r == StateReleased then
    (rec_PID r == 0) && workspace && (unfenced || fenced) && negb (rec_Tombstone r)
  else if rec_State r == StateFailed then bare && negb (rec_Tombstone r)
  else if rec_State r == StateCleanupFailed then rec_Tombstone r
  else false.

Lemma validRecord_split r :
  validRecord sha256 r =
  negb ((rec_ExecutionID r == "") || (rec_RootName r != executionRootName sha256 (rec_ExecutionID r)) ||
        negb (canonicalDigest (rec_SpecDigest r))) &&
  negb ((rec_JITDigest r != "") && negb (canonicalDigest (rec_JITDigest r))) && state_valid r.
Proof.
  unfold validRecord, state_valid.
  destruct (_ || _ || _); [done|]. destruct (_ && negb (canonicalDigest _)); [done|].
  cbn [negb andb].
  do 8 (destruct (rec_State r == _); [btauto|]). done.
Qed.

Lemma validRecord_iff r : validRecord sha256 r = true <-> identified r /\ state_valid r = true.
Proof.
  rewrite validRecord_split. unfold identified. conditions.
  destruct (decide (rec_JITDigest r = "")); naive_solver.
Qed.
End valid_records.
