(* ===== verification/RunnerRuntime.v ===== *)
(** * The runner lifecycle (internal/runner/runtime.go)

    [Manager] drives one runner per execution through the journal, the package
    cache, the platform's process supervisor and workspace authority, and the file
    system.  Each method is the tree of its calls ([Effects.prog]).  What the
    environment holds is never copied into the model: the journal, the platform,
    the file system and the two ownership maps of the Manager, which other calls
    change whenever the mutex is free, answer each call as they like.

    Some answers stand for a part of a dialogue rather than for one call.
    [JITDeliver] answers the values the JIT material passes to its callback, one
    after the other, and [JITDelivered] its error, given what the callbacks
    returned; [SupStart] answers the calls the platform
    made on the start request, which drive its lease (RunnerLease.v), and
    [SupStarted] what the platform's [Start] then returned.  Contexts are not
    passed around: [CtxErr] asks for the error of the caller's context. *)

From S2P Require Import Prelude GoStd Effects RunnerLease RunnerPackage RunnerJournal.

(** ** Data *)

(* src: internal/runner/process.go:10-13 Process *)
Record Process := mkProcess { process_PID : Z; process_Containment : ContainmentRef }.
#[export] Instance Process_eq_dec : EqDecision Process.
Proof. solve_decision. Defined.
Definition no_process : Process := mkProcess 0 no_containment.

(** The interface value: its methods are [jit_Digest] and [JITDeliver]. *)
(* src: internal/runner/runtime.go:22-25 JITConfig *)
Record JITConfig := mkJITConfig { jit_Digest : string }.

(* src: internal/runner/runtime.go:27-31 Preparation *)
Record Preparation := mkPreparation {
  preparation_ExecutionID : string;
  preparation_Package : Package;
  preparation_DisableUpdate : bool;
}.

(* src: internal/runner/runtime.go:33-36 Start *)
Record Start := mkStart { start_Preparation : Preparation; start_JIT : option JITConfig }.

(* src: internal/runner/runtime.go:38-44 Snapshot *)
Record Snapshot := mkSnapshot {
  snapshot_ExecutionID : string;
  snapshot_State : string;
  snapshot_Prepared : bool;
  snapshot_Running : bool;
  snapshot_Quarantined : bool;
}.
Definition no_snapshot : Snapshot := mkSnapshot "" "" false false false.

(* src: internal/runner/runtime.go:156-159 runtimeOwnership *)
Record runtimeOwnership := mkOwnership {
  ownership_Revision : Z;
  ownership_Containment : ContainmentRef;
}.
#[export] Instance runtimeOwnership_eq_dec : EqDecision runtimeOwnership.
Proof. solve_decision. Defined.

(** A start request without its lease and its verification callback. *)
(* src: internal/runner/process.go:15-23 StartRequest *)
Record StartRequest := mkStartRequest {
  request_Executable : string;
  request_Directory : string;
  request_Arguments : list string;
  request_WorkspaceRef : WorkspaceRef;
  request_Containment : ContainmentRef;
}.

(** ** The calls and their answers *)

(** The directories the code opens: the runtime root, [executions] in it, and
    [name] in that. *)
Inductive directory := RuntimeRoot | Executions | ExecutionRoot (name : string).

(** The calls a platform makes on a start request before its [Start] returns. *)
Inductive platform_call := VerifyWorkspaceAtExec | DeliverJIT.

Inductive action :=
  | Lock | Unlock
  | CtxErr
  | RandRead
  | JournalLoad (executionID : string)
  | JournalCreate (mutationToken : string) (record : RunnerRecord)
  | JournalCAS (executionID : string) (revision : Z) (mutationToken : string) (next : RunnerRecord)
  | OwnedGet (executionID : string)
  | OwnedSet (executionID : string) (ownership : runtimeOwnership)
  | OwnedDelete (executionID : string)
  | CleanupGet (executionID : string)
  | CleanupSet (executionID : string) (revision : Z)
  | CleanupDelete (executionID : string)
  | CacheEnsure (package : Package)
  | PackageMaterialize
  | PackageClose
  | FsMkdirExecutions
  | FsMkdir (name : string)
  | FsOpen (dir : directory)
  | FsClose (dir : directory)
  | CleanerStrong
  | CleanerBackend
  | CleanerValidateRoot
  | CleanerPrepare (name : string)
  | CleanerRef (name : string)
  | CleanerRemove (name : string)
  | SupStrong
  | SupBackend
  | SupWaiter
  | SupFinalizer
  | SupPrepareContainment (executionID : string)
  | SupStart (request : StartRequest)
  | PlatformDeliver (value : string)
  | SupStarted
  | SupStop (process : Process)
  | SupAlive (process : Process)
  | SupWait (process : Process)
  | SupFinalize (process : Process) (name : string) (expected : WorkspaceRef)
  | SupGarbageCollect (process : Process)
  | JITDeliver
  | JITDelivered (results : list error).

Definition answer (c : action) : Type :=
  match c with
  | Lock | Unlock | OwnedSet _ _ | OwnedDelete _ | CleanupSet _ _ | CleanupDelete _ => unit
  | PackageClose => unit
  | RandRead => result string
  | JournalLoad _ | JournalCreate _ _ | JournalCAS _ _ _ _ => journal_answer
  | OwnedGet _ => option runtimeOwnership
  | CleanupGet _ => option Z
  | CacheEnsure _ => result bool
  | CleanerStrong | SupStrong | SupWaiter | SupFinalizer => bool
  | CleanerBackend | SupBackend => string
  | CleanerPrepare _ | CleanerRef _ => WorkspaceRef * error
  | SupPrepareContainment _ => ContainmentRef * error
  | SupStart _ => list platform_call
  | SupStarted => Process * error
  | SupAlive _ => bool * error
  | JITDeliver => list string
  | _ => error
  end.

Abbreviation prog := (Effects.prog answer).
Abbreviation ask := (Effects.ask answer).

(** A Go [(T, error)] whose value matters also when the error is not nil. *)
Abbreviation outcome := (prog (Snapshot * error)).

(** [m.mu.Lock(); defer m.mu.Unlock(); body]. *)
Definition locked {A} (body : prog A) : prog A :=
  _ ← ask Lock; x ← body; _ ← ask Unlock; mret x.

(** [p] as a part of a program that can run out of fuel. *)
Definition finished {A} (p : prog A) : prog (option A) := x ← p; mret (Some x).

(** [m.mu.Unlock(); return x]. *)
Definition unlock_return {A} (x : A) : prog A := _ ← ask Unlock; mret x.

Section manager.
Context (sha256 : string -> string).
(** [filepath.Join], [runtime.GOOS == "windows"] and the Manager's runtime root. *)
Context (Join : list string -> string) (windows : bool) (runtimeRoot : string).

(** ** Small functions *)

(* src: internal/runner/runtime.go:1075-1080 validatePreparation *)
Definition validatePreparation (request : Preparation) : error :=
  if (preparation_ExecutionID request == "") ||
     (path_Base (preparation_ExecutionID request) != preparation_ExecutionID request) ||
     negb (Package_valid (preparation_Package request)) then Some ErrInvalidRequest
  else None.

(** A string holds a zero byte as the character of code 0. *)
Definition nul : string := String (Ascii.ascii_of_nat 0) "".

(* src: internal/runner/runtime.go:1082-1089 preparationDigest *)
Definition preparationDigest (request : Preparation) : string :=
  let value := preparation_ExecutionID request +:+ nul +:+
               Package_key (preparation_Package request) +:+ nul in
  let value := if preparation_DisableUpdate request then value +:+ "disable-update" else value in
  hex_encode (sha256 value).

(* src: internal/runner/runtime.go:1096-1102 runnerArguments *)
Definition runnerArguments (disableUpdate : bool) : list string :=
  let args := ["--ephemeral"] in if disableUpdate then args ++ ["--disableupdate"] else args.

(* src: internal/runner/runtime.go:1111-1113 executionPath *)
Definition executionPath (name : string) : string := Join [runtimeRoot; "executions"; name].

(* src: internal/runner/runtime.go:1104-1109 runnerExecutable *)
Definition runnerExecutable (name : string) : string :=
  if windows then Join [executionPath name; "run.cmd"] else Join [executionPath name; "run.sh"].

(* src: internal/runner/runtime.go:1115-1117 snapshot *)
Definition snapshot (record : RunnerRecord) : Snapshot :=
  let state := rec_State record in
  mkSnapshot (rec_ExecutionID record) state
    ((state == StatePrepared) || (state == StateStarting) || (state == StateRunning))
    (state == StateRunning) ((state == StateCleanupFailed) || rec_Tombstone record).

(* src: internal/runner/runtime.go:1123-1134 stateError *)
Definition stateError (record : RunnerRecord) : error :=
  let state := rec_State record in
  if state == StateCleanupFailed then Some ErrQuarantined
  else if (state == StatePreparing) || (state == StateStarting) || (state == StateCleaning) then
    Some ErrReconciliationRequired
  else if (state == StateReleased) || (state == StateFailed) then Some ErrExecutionConflict
  else None.

(** ** Ownership maps *)

(* src: internal/runner/runtime.go:930-933 Manager.owns *)
Definition owns (record : VersionedRecord) : prog bool :=
  ownership ← ask (OwnedGet (vr_ExecutionID record));
  mret (match ownership with
        | Some o => (ownership_Revision o == vr_Revision record) &&
                    (ownership_Containment o == rec_Containment (vr_Record record))
        | None => false
        end).

(* src: internal/runner/runtime.go:935-937 Manager.remember *)
Definition remember (record : VersionedRecord) : prog unit :=
  ask (OwnedSet (vr_ExecutionID record)
         (mkOwnership (vr_Revision record) (rec_Containment (vr_Record record)))).

(* src: internal/runner/runtime.go:939-941 Manager.forget *)
Definition forget (executionID : string) : prog unit := ask (OwnedDelete executionID).

(* src: internal/runner/runtime.go:943-946 Manager.ownsCleanup *)
Definition ownsCleanup (record : VersionedRecord) : prog bool :=
  revision ← ask (CleanupGet (vr_ExecutionID record));
  mret (match revision with
        | Some revision => (revision == vr_Revision record) && (vr_State record == StateCleaning)
        | None => false
        end).

(* src: internal/runner/runtime.go:948-950 Manager.rememberCleanup *)
Definition rememberCleanup (record : VersionedRecord) : prog unit :=
  ask (CleanupSet (vr_ExecutionID record) (vr_Revision record)).

(* src: internal/runner/runtime.go:952-954 Manager.forgetCleanup *)
Definition forgetCleanup (executionID : string) : prog unit := ask (CleanupDelete executionID).

(** ** The journal *)

(* src: internal/runner/runtime.go:1148-1154 newOpaqueToken *)
Definition newOpaqueToken : prog (result string) :=
  value ← ask RandRead;
  mret (match value with Err err => Err err | Ok bytes => Ok (hex_encode bytes) end).

(* src: internal/runner/runtime.go:873-879 Manager.load *)
Definition load (id : string) : prog journal_answer :=
  loaded ← ask (JournalLoad id);
  let '(record, found, err) := loaded in
  mret (if err != None then (no_record, false, Some ErrJournal) else (record, found, None)).

(* src: internal/runner/runtime.go:881-894 Manager.create *)
Definition create (record : RunnerRecord) : prog journal_answer :=
  token ← newOpaqueToken;
  match token with
  | Err _ => mret (no_record, false, Some ErrJournal)
  | Ok mutationToken =>
      answered ← ask (JournalCreate mutationToken record);
      let '(created, ok, err) := answered in
      mret (if err != None then (no_record, false, Some ErrJournal)
            else if ok && ((vr_Revision created != 1) ||
                           (vr_MutationToken created != mutationToken) ||
                           (vr_Record created != record)) then
              (no_record, false, Some ErrJournal)
            else (created, ok, None))
  end.

(** What [compareAndSwap] makes of the record it reads back after an error. *)
(* src: internal/runner/runtime.go:902-916 Manager.compareAndSwap *)
Definition resolve_write (record : VersionedRecord) (mutationToken : string)
    (loaded : journal_answer) : VersionedRecord * error :=
  let '(current, found, loadErr) := loaded in
  if loadErr != None then (record, Some ErrJournal)
  else if negb found || negb (validVersionedRecord sha256 current) then
    (record, Some ErrReconciliationRequired)
  else if (vr_Revision record != max_uint64) &&
          (vr_Revision current == wrap_uint64 (vr_Revision record + 1)) &&
          (vr_MutationToken current == mutationToken) && (vr_Record current == vr_Record record) then
    (current, None)
  else if vr_Revision current == vr_Revision record then (current, Some ErrJournal)
  else (current, Some ErrReconciliationRequired).

(* src: internal/runner/runtime.go:896-928 Manager.compareAndSwap *)
Definition compareAndSwap (record : VersionedRecord) : prog (VersionedRecord * error) :=
  token ← newOpaqueToken;
  match token with
  | Err _ => mret (record, Some ErrJournal)
  | Ok mutationToken =>
      answered ← ask (JournalCAS (vr_ExecutionID record) (vr_Revision record) mutationToken
                        (vr_Record record));
      let '(updated, swapped, err) := answered in
      if err != None then
        loaded ← ask (JournalLoad (vr_ExecutionID record));
        mret (resolve_write record mutationToken loaded)
      else if negb swapped then
        if negb (validVersionedRecord sha256 updated) then
          mret (record, Some ErrReconciliationRequired)
        else mret (updated, Some ErrReconciliationRequired)
      else if (vr_Revision record == max_uint64) ||
              (vr_Revision updated != wrap_uint64 (vr_Revision record + 1)) ||
              (vr_MutationToken updated != mutationToken) ||
              (vr_Record updated != vr_Record record) then mret (record, Some ErrJournal)
      else mret (updated, None)
  end.

(** ** The workspace *)

(** [parent, err := os.OpenRoot(m.runtimeRoot); defer parent.Close();
    executions, err := parent.OpenRoot("executions"); defer executions.Close()];
    an error of either ends the function with [failed]. *)
(* src: internal/runner/runtime.go:1020-1029 Manager.removeRoot *)
Definition with_executions {A} (failed : A) (body : prog A) : prog A :=
  err ← ask (FsOpen RuntimeRoot);
  if err != None then mret failed
  else
    err ← ask (FsOpen Executions);
    if err != None then _ ← ask (FsClose RuntimeRoot); mret failed
    else
      x ← body;
      _ ← ask (FsClose Executions);
      _ ← ask (FsClose RuntimeRoot);
      mret x.

(* src: internal/runner/runtime.go:994-1017 Manager.makeExecutionRoot *)
Definition makeExecutionRoot (executionID : string) : prog (result string) :=
  err ← ask (FsOpen RuntimeRoot);
  if err != None then mret (Err ErrCleanupFailed)
  else
    made ← (
      err ← ask FsMkdirExecutions;
      if err != None then mret (Err ErrCleanupFailed)
      else
        err ← ask (FsOpen Executions);
        if err != None then mret (Err ErrCleanupFailed)
        else
          let name := executionRootName sha256 executionID in
          opened ← (
            err ← ask (FsMkdir name);
            if err != None then mret (Err ErrExecutionConflict)
            else
              err ← ask (FsOpen (ExecutionRoot name));
              mret (if err != None then Err ErrCleanupFailed else Ok name));
          _ ← ask (FsClose Executions);
          mret opened);
    _ ← ask (FsClose RuntimeRoot);
    mret made.

(* src: internal/runner/runtime.go:1019-1034 Manager.removeRoot *)
Definition removeRoot (name : string) : prog error :=
  with_executions (Some ErrCleanupFailed) (
    err ← ask (CleanerRemove name);
    mret (if err != None then Some ErrCleanupFailed else None)).

(* src: internal/runner/runtime.go:1036-1048 Manager.workspaceRef *)
Definition workspaceRef (name : string) : prog (WorkspaceRef * error) :=
  with_executions (no_workspace, Some ErrCleanupFailed) (ask (CleanerRef name)).

(* src: internal/runner/runtime.go:1050-1062 Manager.prepareWorkspace *)
Definition prepareWorkspace (name : string) : prog (WorkspaceRef * error) :=
  with_executions (no_workspace, Some ErrCleanupFailed) (ask (CleanerPrepare name)).

(* src: internal/runner/runtime.go:1064-1073 Manager.workspaceMatches *)
Definition workspaceMatches (record : RunnerRecord) : prog bool :=
  if negb (validWorkspaceRef (rec_WorkspaceRef record)) then mret false
  else
    err ← ask CleanerValidateRoot;
    if err != None then mret false
    else
      observed ← workspaceRef (rec_RootName record);
      let '(ref, err) := observed in
      mret ((err == None) && (ref == rec_WorkspaceRef record)).

(** ** Ends of an execution *)

(* src: internal/runner/runtime.go:765-775 Manager.garbageCollectCleanup *)
Definition garbageCollectCleanup (process : Process) : prog unit :=
  _ ← ask (SupGarbageCollect process); mret tt.

(* src: internal/runner/runtime.go:777-798 Manager.finalizeCleanup *)
Definition finalizeCleanup (process : Process) (name : string) (expected : WorkspaceRef)
    : prog error :=
  with_executions (Some ErrCleanupFailed) (
    err ← ask (SupFinalize process name expected);
    mret (if err != None then Some ErrCleanupFailed else None)).

(* src: internal/runner/runtime.go:800-822 Manager.quarantine *)
Definition quarantine (record : VersionedRecord) : outcome :=
  _ ← forget (vr_ExecutionID record);
  loaded ← load (vr_ExecutionID record);
  let '(latest, found, err) := loaded in
  if err != None then mret (no_snapshot, err)
  else if negb found || negb (validVersionedRecord sha256 latest) then
    mret (no_snapshot, Some ErrReconciliationRequired)
  else if vr_State latest == StateCleanupFailed then
    _ ← forgetCleanup (vr_ExecutionID latest);
    mret (snapshot (vr_Record latest), Some ErrQuarantined)
  else
    let record := on_record (set_State StateCleanupFailed) latest in
    let record := on_record (set_Tombstone true) record in
    swapped ← compareAndSwap record;
    let '(record, err) := swapped in
    if err != None then mret (no_snapshot, err)
    else
      _ ← forgetCleanup (vr_ExecutionID record);
      mret (snapshot (vr_Record record), Some ErrQuarantined).

(* src: internal/runner/runtime.go:824-831 Manager.failPreparation *)
Definition failPreparation (record : VersionedRecord) (cause : GoError) : outcome :=
  swapped ← compareAndSwap (on_record (set_State StateFailed) record);
  let '(record, err) := swapped in
  mret (if err != None then (no_snapshot, err) else (snapshot (vr_Record record), Some cause)).

(** [updated] after the first attempt of [commitCleanupTerminal], or the result
    that ends it. *)
(* src: internal/runner/runtime.go:966-978 Manager.commitCleanupTerminal *)
Definition reload_terminal (cleaning updated : VersionedRecord) (terminal : RunnerRecord) (err : error)
    : prog (VersionedRecord + (VersionedRecord * error)) :=
  if errors_Is err ErrJournal then
    loaded ← load (vr_ExecutionID cleaning);
    let '(current, found, loadErr) := loaded in
    mret (if loadErr != None then inr (cleaning, loadErr)
          else if negb found || negb (validVersionedRecord sha256 current) then
            inr (cleaning, Some ErrReconciliationRequired)
          else if vr_Record current == terminal then inr (current, None)
          else inl current)
  else mret (inl updated).

(** Another writer's identical commit counts as one's own. *)
(* src: internal/runner/runtime.go:963-965 Manager.commitCleanupTerminal *)
Definition committed_elsewhere (cleaning updated : VersionedRecord) (terminal : RunnerRecord) : bool :=
  validVersionedRecord sha256 updated && (vr_Revision updated >? vr_Revision cleaning) &&
  (vr_Record updated == terminal).

(* src: internal/runner/runtime.go:956-992 Manager.commitCleanupTerminal *)
Definition commitCleanupTerminal (cleaning : VersionedRecord) (terminal : RunnerRecord)
    : prog (VersionedRecord * error) :=
  swapped ← compareAndSwap (on_record (fun _ => terminal) cleaning);
  let '(updated, err) := swapped in
  if err == None then mret (updated, None)
  else if committed_elsewhere cleaning updated terminal then mret (updated, None)
  else
    reloaded ← reload_terminal cleaning updated terminal err;
    match reloaded with
    | inr result => mret result
    | inl updated =>
        owner ← ownsCleanup updated;
        if negb owner || (vr_Record updated != vr_Record cleaning) then mret (updated, err)
        else
          swapped ← compareAndSwap (on_record (fun _ => terminal) updated);
          let '(updated, retryErr) := swapped in
          if retryErr == None then mret (updated, None)
          else if committed_elsewhere cleaning updated terminal then mret (updated, None)
          else mret (updated, retryErr)
    end.

(** The loop of [failStartedExecution]: claim the cleanup of a started runtime,
    following it through the revisions of its own start.  [None] when [fuel] ran
    out, [Some (Ok record)] when the claim is durable. *)
(* src: internal/runner/runtime.go:834-852 Manager.failStartedExecution *)
Fixpoint claim_started (fuel : nat) (record : VersionedRecord) (expected : RunnerRecord)
    : prog (option (result VersionedRecord)) :=
  match fuel with
  | O => mret None
  | S fuel =>
      let record := on_record (set_State StateCleaning) record in
      swapped ← compareAndSwap record;
      let '(updated, err) := swapped in
      match err with
      | None =>
          _ ← rememberCleanup updated;
          mret (Some (Ok updated))
      | Some cause =>
          if negb (errors_Is err ErrReconciliationRequired) ||
             negb (sameStartedRuntime (vr_Record updated) expected) then mret (Some (Err cause))
          else
            done ← ask CtxErr;
            if done != None then mret (Some (Err ErrReconciliationRequired))
            else claim_started fuel updated expected
      end
  end.

(** [None]: the loop ran out of [fuel]. *)
(* src: internal/runner/runtime.go:833-871 Manager.failStartedExecution *)
Definition failStartedExecution (fuel : nat) (record : VersionedRecord) (expected : RunnerRecord)
    (cause : GoError) : prog (option (Snapshot * error)) :=
  claimed ← claim_started fuel record expected;
  match claimed with
  | None => mret None
  | Some (Err err) => mret (Some (no_snapshot, Some err))
  | Some (Ok record) =>
      finished (
        _ ← forget (vr_ExecutionID record);
        strong ← ask CleanerStrong;
        matches ← (if strong then workspaceMatches (vr_Record record) else mret false);
        if negb strong || negb matches then quarantine record
        else
          err ← removeRoot (rec_RootName (vr_Record record));
          if err != None then quarantine record
          else
            let terminal := set_State StateFailed (vr_Record record) in
            let terminal := set_PID 0 terminal in
            let terminal := set_JITDigest "" terminal in
            let terminal := set_WorkspaceRef no_workspace terminal in
            let terminal := set_Containment no_containment terminal in
            committed ← commitCleanupTerminal record terminal;
            let '(record, err) := committed in
            if err != None then mret (no_snapshot, err)
            else
              _ ← forgetCleanup (vr_ExecutionID record);
              mret (snapshot (vr_Record record), Some cause))
  end.

(** ** Preparing a runner *)

(** From the durable [StatePreparing] record to [StatePrepared]. *)
(* src: internal/runner/runtime.go:350-384 Manager.EnsurePrepared *)
Definition populate (request : Preparation) (record : VersionedRecord) : outcome :=
  let abandon rootName cause :=
    removeErr ← removeRoot rootName;
    if removeErr != None then quarantine record else failPreparation record cause in
  made ← makeExecutionRoot (preparation_ExecutionID request);
  match made with
  | Err _ => quarantine record
  | Ok rootName =>
      err ← ask PackageMaterialize;
      match err with
      | Some err => _ ← ask (FsClose (ExecutionRoot rootName)); abandon rootName err
      | None =>
          err ← ask (FsClose (ExecutionRoot rootName));
          if err != None then abandon rootName ErrCleanupFailed
          else
            prepared ← prepareWorkspace rootName;
            let '(workspaceRef, err) := prepared in
            backend ← (if (err == None) && validWorkspaceRef workspaceRef
                       then ask CleanerBackend else mret "");
            if (err != None) || negb (validWorkspaceRef workspaceRef) ||
               (workspace_Backend workspaceRef != backend) then
              abandon rootName ErrStrongOwnershipUnavailable
            else
              let record := on_record (set_State StatePrepared) record in
              let record := on_record (set_WorkspaceRef workspaceRef) record in
              swapped ← compareAndSwap record;
              let '(record, err) := swapped in
              mret (if err != None then (no_snapshot, err) else (snapshot (vr_Record record), None))
      end
  end.

(** The body of [EnsurePrepared] under the Manager's lock. *)
(* src: internal/runner/runtime.go:310-384 Manager.EnsurePrepared *)
Definition ensurePrepared_locked (request : Preparation) : outcome :=
  loaded ← load (preparation_ExecutionID request);
  let '(record, found, err) := loaded in
  if err != None then mret (no_snapshot, err)
  else
    let digest := preparationDigest request in
    if (found : bool) then
      if negb (validVersionedRecord sha256 record) then
        mret (no_snapshot, Some ErrReconciliationRequired)
      else if rec_SpecDigest (vr_Record record) != digest then
        mret (no_snapshot, Some ErrExecutionConflict)
      else
        matches ← (if activeState (vr_State record) then workspaceMatches (vr_Record record)
                   else mret true);
        mret (if negb matches then
                (snapshot (vr_Record record), Some ErrReconciliationRequired)
              else (snapshot (vr_Record record), stateError (vr_Record record)))
    else
      ensured ← ask (CacheEnsure (preparation_Package request));
      match ensured with
      | Err err => mret (no_snapshot, Some err)
      | Ok false => mret (no_snapshot, Some ErrPackageIntegrity)
      | Ok true =>
          result ← (
            let rootName := executionRootName sha256 (preparation_ExecutionID request) in
            answered ← create (mkRecord (preparation_ExecutionID request) digest ""
                                 StatePreparing rootName 0 false no_containment no_workspace);
            let '(record, created, err) := answered in
            if err != None then mret (no_snapshot, err)
            else if negb created then mret (no_snapshot, Some ErrReconciliationRequired)
            else populate request record);
          _ ← ask PackageClose;
          mret result
      end.

(* src: internal/runner/runtime.go:295-385 Manager.EnsurePrepared *)
Definition EnsurePrepared (request : Preparation) : outcome :=
  match validatePreparation request with
  | Some err => mret (no_snapshot, Some err)
  | None =>
      strong ← ask CleanerStrong;
      if negb strong then mret (no_snapshot, Some ErrStrongOwnershipUnavailable)
      else
        backend ← ask CleanerBackend;
        if backend == "" then mret (no_snapshot, Some ErrStrongOwnershipUnavailable)
        else
          err ← ask CleanerValidateRoot;
          if err != None then mret (no_snapshot, Some ErrStrongOwnershipUnavailable)
          else locked (ensurePrepared_locked request)
  end.

(** ** Starting a runner *)

(** The calls of a platform on a start request: each runs the sections of the
    lease around the request's own verification and the platform's delivery. *)
(* src: internal/runner/process.go:36-112 StartRequest *)
Fixpoint platform_calls (calls : list platform_call) (record : RunnerRecord) (lease : jitLease)
    : prog jitLease :=
  match calls with
  | [] => mret lease
  | VerifyWorkspaceAtExec :: calls =>
      let '(lease, err) := verify_begin lease in
      if err != None then platform_calls calls record lease
      else
        matches ← workspaceMatches record;
        platform_calls calls record
          (verify_end lease (if negb matches then Some ErrWorkspaceChanged else None)).1
  | DeliverJIT :: calls =>
      match deliver_begin lease with
      | (lease, Err _) => platform_calls calls record lease
      | (lease, Ok value) =>
          deliverErr ← ask (PlatformDeliver value);
          platform_calls calls record (deliver_end lease deliverErr).1
      end
  end.

(** The variables [EnsureRunning] shares with its delivery callback. *)
(* src: internal/runner/runtime.go:463-466 Manager.EnsureRunning *)
Record delivery := mkDelivery {
  delivery_process : Process;
  delivery_started : bool;
  delivery_workspaceChanged : bool;
  delivery_supervisorErr : error;
}.

(* src: internal/runner/runtime.go:491-511 Manager.EnsureRunning *)
Definition start_process (request : Start) (record : VersionedRecord) (containment : ContainmentRef)
    (value : string) : prog (Process * error) :=
  let rootName := rec_RootName (vr_Record record) in
  let startRequest :=
    mkStartRequest (runnerExecutable rootName) (executionPath rootName)
      (runnerArguments (preparation_DisableUpdate (start_Preparation request)))
      (rec_WorkspaceRef (vr_Record record)) containment in
  calls ← ask (SupStart startRequest);
  lease ← platform_calls calls (vr_Record record) (newJITArgument value);
  returned ← ask SupStarted;
  let '(process, supervisorErr) := returned in
  let contractSatisfied := (finishStart lease).2 in
  mret (process,
        if (supervisorErr == None) && negb contractSatisfied then Some ErrStartFailed
        else supervisorErr).

(** One call of the callback given to [request.JIT.Deliver], with what it returns. *)
(* src: internal/runner/runtime.go:468-512 Manager.EnsureRunning *)
Definition receive_jit (request : Start) (record : VersionedRecord) (containment : ContainmentRef)
    (jitDigest : string) (value : string) (d : delivery) : prog (delivery * error) :=
  if value == "" then mret (d, Some ErrInvalidRequest)
  else if hex_encode (sha256 value) != jitDigest then mret (d, Some ErrInvalidRequest)
  else if delivery_started d then mret (d, Some ErrReconciliationRequired)
  else
    matches ← workspaceMatches (vr_Record record);
    if negb matches then
      mret (mkDelivery (delivery_process d) (delivery_started d) true (delivery_supervisorErr d),
            Some ErrWorkspaceChanged)
    else
      returned ← start_process request record containment value;
      let '(process, supervisorErr) := returned in
      mret (mkDelivery process true (delivery_workspaceChanged d) supervisorErr, supervisorErr).

(** The callbacks in a row; [results] has what the earlier ones returned. *)
Fixpoint receive_all (request : Start) (record : VersionedRecord) (containment : ContainmentRef)
    (jitDigest : string) (values : list string) (d : delivery) (results : list error)
    : prog (delivery * list error) :=
  match values with
  | [] => mret (d, results)
  | value :: values =>
      received ← receive_jit request record containment jitDigest value d;
      let '(d, err) := received in
      receive_all request record containment jitDigest values d (results ++ [err])
  end.

(** The record as it was before the start. *)
(* src: internal/runner/runtime.go:528-531 Manager.EnsureRunning *)
Definition unstart (record : VersionedRecord) : VersionedRecord :=
  on_record (fun r => set_Containment no_containment (set_PID 0 (set_JITDigest ""
    (set_State StatePrepared r)))) record.

(** [Deliver] returned an error. *)
(* src: internal/runner/runtime.go:512-538 Manager.EnsureRunning *)
Definition delivery_failed (fuel : nat) (record : VersionedRecord) (containment : ContainmentRef)
    (d : delivery) : prog (option (Snapshot * error)) :=
  let process := delivery_process d in
  stopErr ← ask (SupStop (mkProcess (process_PID process) containment));
  if stopErr != None then finished (quarantine record)
  else if (process_Containment process != no_containment) &&
          (process_Containment process != containment) then finished (quarantine record)
  else if delivery_workspaceChanged d || errors_Is (delivery_supervisorErr d) ErrWorkspaceChanged then
    finished (quarantine record)
  else if errors_Is (delivery_supervisorErr d) ErrStartFenced then
    mret (Some (no_snapshot, Some ErrReconciliationRequired))
  else if delivery_started d then failStartedExecution fuel record (vr_Record record) ErrStartFailed
  else
    swapped ← compareAndSwap (unstart record);
    let '(_, saveErr) := swapped in
    mret (Some (no_snapshot, if saveErr != None then saveErr else Some ErrInvalidRequest)).

(** [Deliver] returned no error. *)
(* src: internal/runner/runtime.go:539-580 Manager.EnsureRunning *)
Definition delivery_done (fuel : nat) (record : VersionedRecord) (containment : ContainmentRef)
    (d : delivery) : prog (option (Snapshot * error)) :=
  let process := delivery_process d in
  if negb (delivery_started d) then
    stopErr ← ask (SupStop (mkProcess (process_PID process) containment));
    if stopErr != None then finished (quarantine record)
    else
      swapped ← compareAndSwap (unstart record);
      let '(record, saveErr) := swapped in
      if saveErr != None then finished (quarantine record)
      else mret (Some (no_snapshot, Some ErrInvalidRequest))
  else if (process_PID process <=? 0) || (process_Containment process != containment) then
    stopErr ← ask (SupStop (mkProcess (process_PID process) containment));
    if stopErr != None then finished (quarantine record)
    else if process_Containment process != containment then finished (quarantine record)
    else failStartedExecution fuel record (vr_Record record) ErrStartFailed
  else
    let record := on_record (set_State StateRunning) record in
    let record := on_record (set_PID (process_PID process)) record in
    let record := on_record (set_Containment (process_Containment process)) record in
    let expectedRuntime := vr_Record record in
    swapped ← compareAndSwap record;
    let '(record, err) := swapped in
    match err with
    | Some cause =>
        stopErr ← ask (SupStop process);
        if stopErr != None then finished (quarantine record)
        else if sameStartedRuntime (vr_Record record) expectedRuntime then
          failStartedExecution fuel record expectedRuntime cause
        else mret (Some (no_snapshot, Some cause))
    | None =>
        _ ← remember record;
        mret (Some (snapshot (vr_Record record), None))
    end.

(** The durable [StateStarting] record for a prepared one, then the delivery. *)
(* src: internal/runner/runtime.go:445-580 Manager.EnsureRunning *)
Definition start_prepared (fuel : nat) (request : Start) (jitDigest : string)
    (record : VersionedRecord) : prog (option (Snapshot * error)) :=
  prepared ← ask (SupPrepareContainment (vr_ExecutionID record));
  let '(containment, err) := prepared in
  if (err != None) || negb (validContainment containment) ||
     (containment_FenceToken containment != "") then
    mret (Some (no_snapshot, Some ErrStrongOwnershipUnavailable))
  else
    token ← newOpaqueToken;
    match token with
    | Err _ => mret (Some (no_snapshot, Some ErrStrongOwnershipUnavailable))
    | Ok fenceToken =>
        let containment :=
          mkContainmentRef (containment_Backend containment) (containment_OwnerID containment)
            (containment_Scope containment) (containment_HostEpoch containment)
            (containment_InvocationID containment) fenceToken in
        let record := on_record (set_State StateStarting) record in
        let record := on_record (set_JITDigest jitDigest) record in
        let record := on_record (set_Containment containment) record in
        swapped ← compareAndSwap record;
        let '(record, err) := swapped in
        if err != None then mret (Some (no_snapshot, err))
        else
          values ← ask JITDeliver;
          received ← receive_all request record containment jitDigest values
                       (mkDelivery no_process false false None) [];
          let '(d, results) := received in
          deliverErr ← ask (JITDelivered results);
          if deliverErr != None then delivery_failed fuel record containment d
          else delivery_done fuel record containment d
    end.

(** The body of [EnsureRunning] under the Manager's lock. *)
(* src: internal/runner/runtime.go:406-580 Manager.EnsureRunning *)
Definition ensureRunning_locked (fuel : nat) (request : Start) (jitDigest : string)
    : prog (option (Snapshot * error)) :=
  loaded ← load (preparation_ExecutionID (start_Preparation request));
  let '(record, _, err) := loaded in
  if err != None then mret (Some (no_snapshot, err))
  else if negb (validVersionedRecord sha256 record) then
    mret (Some (no_snapshot, Some ErrReconciliationRequired))
  else
    matches ← (if activeState (vr_State record) then workspaceMatches (vr_Record record)
               else mret true);
    if negb matches then
      mret (Some (snapshot (vr_Record record), Some ErrReconciliationRequired))
    else if vr_State record == StateRunning then
      if rec_JITDigest (vr_Record record) != jitDigest then
        mret (Some (no_snapshot, Some ErrExecutionConflict))
      else
        owner ← owns record;
        if negb owner then
          mret (Some (snapshot (vr_Record record), Some ErrReconciliationRequired))
        else
          observed ← ask (SupAlive (mkProcess (rec_PID (vr_Record record))
                                     (rec_Containment (vr_Record record))));
          let '(alive, err) := observed in
          mret (Some (snapshot (vr_Record record),
                      if (err != None) || negb alive then Some ErrReconciliationRequired else None))
    else if (vr_State record == StateStarting) || (vr_State record == StateCleaning) then
      mret (Some (no_snapshot, Some ErrReconciliationRequired))
    else if vr_State record == StatePrepared then start_prepared fuel request jitDigest record
    else mret (Some (snapshot (vr_Record record), Some ErrExecutionConflict)).

(* src: internal/runner/runtime.go:387-581 Manager.EnsureRunning *)
Definition EnsureRunning (fuel : nat) (request : Start) : prog (option (Snapshot * error)) :=
  match validatePreparation (start_Preparation request), start_JIT request with
  | None, Some jit =>
      if negb (canonicalDigest (jit_Digest jit)) then
        mret (Some (no_snapshot, Some ErrInvalidRequest))
      else
        strong ← ask SupStrong;
        if negb strong then mret (Some (no_snapshot, Some ErrStrongOwnershipUnavailable))
        else
          strong ← ask CleanerStrong;
          if negb strong then mret (Some (no_snapshot, Some ErrStrongOwnershipUnavailable))
          else
            backend ← ask CleanerBackend;
            understood ← (if backend == "" then mret false
                          else
                            supBackend ← ask SupBackend;
                            backend ← ask CleanerBackend;
                            mret (supBackend == backend));
            if negb understood then
              mret (Some (no_snapshot, Some ErrStrongOwnershipUnavailable))
            else
              prepared ← EnsurePrepared (start_Preparation request);
              if prepared.2 != None then mret (Some prepared)
              else locked (ensureRunning_locked fuel request (jit_Digest jit))
  | _, _ => mret (Some (no_snapshot, Some ErrInvalidRequest))
  end.

(** ** Observing a runner *)

(* src: internal/runner/runtime.go:583-612 Manager.Inspect *)
Definition Inspect (executionID : string) : outcome :=
  if executionID == "" then mret (no_snapshot, Some ErrInvalidRequest)
  else locked (
    loaded ← load executionID;
    let '(record, found, err) := loaded in
    if err != None then mret (no_snapshot, err)
    else if negb found then mret (no_snapshot, Some ErrExecutionNotFound)
    else if negb (validVersionedRecord sha256 record) then
      mret (no_snapshot, Some ErrReconciliationRequired)
    else
      let current := snapshot (vr_Record record) in
      matches ← (if activeState (vr_State record) then workspaceMatches (vr_Record record)
                 else mret true);
      if negb matches then mret (current, Some ErrReconciliationRequired)
      else if vr_State record == StateRunning then
        owner ← owns record;
        if negb owner then mret (current, Some ErrReconciliationRequired)
        else
          observed ← ask (SupAlive (mkProcess (rec_PID (vr_Record record))
                                     (rec_Containment (vr_Record record))));
          let '(alive, observeErr) := observed in
          mret (current, if (observeErr != None) || negb alive then Some ErrReconciliationRequired
                         else stateError (vr_Record record))
      else mret (current, stateError (vr_Record record))).

(* src: internal/runner/runtime.go:622-669 Manager.Wait *)
Definition Wait (executionID : string) : outcome :=
  if executionID == "" then mret (no_snapshot, Some ErrInvalidRequest)
  else
    _ ← ask Lock;
    loaded ← load executionID;
    let '(record, found, err) := loaded in
    if err != None then unlock_return (no_snapshot, err)
    else if negb found then unlock_return (no_snapshot, Some ErrExecutionNotFound)
    else if negb (validVersionedRecord sha256 record) then
      unlock_return (no_snapshot, Some ErrReconciliationRequired)
    else
      let current := snapshot (vr_Record record) in
      if vr_State record != StateRunning then
        unlock_return (current, match stateError (vr_Record record) with
                                | Some stateErr => Some stateErr
                                | None => Some ErrExecutionConflict
                                end)
      else
        owner ← owns record;
        if negb owner then unlock_return (current, Some ErrReconciliationRequired)
        else
          supported ← ask SupWaiter;
          strong ← (if supported then ask SupStrong else mret false);
          if negb supported || negb strong then
            unlock_return (current, Some ErrStrongOwnershipUnavailable)
          else
            let process := mkProcess (rec_PID (vr_Record record)) (rec_Containment (vr_Record record)) in
            _ ← ask Unlock;
            err ← ask (SupWait process);
            if err != None then
              done ← ask CtxErr;
              if done != None then ctxErr ← ask CtxErr; mret (current, ctxErr)
              else mret (current, Some ErrReconciliationRequired)
            else mret (current, None).

(** ** Destroying a runner *)

(** Fence and stop the process boundary of a cleaning record. *)
(* src: internal/runner/runtime.go:714-724 Manager.Destroy *)
Definition stop_boundary (r : RunnerRecord) : prog bool :=
  if (rec_PID r >? 0) || validContainment (rec_Containment r) then
    strong ← ask SupStrong;
    if negb strong || negb (validFencedContainment (rec_Containment r)) then mret false
    else
      err ← ask (SupStop (mkProcess (rec_PID r) (rec_Containment r)));
      mret (err == None)
  else mret true.

(** Remove the workspace of a stopped record, through the platform's finalization
    where it has one.  [None]: the execution has to be quarantined; otherwise
    whether the platform supports finalization. *)
(* src: internal/runner/runtime.go:725-747 Manager.Destroy *)
Definition tear_down (r : RunnerRecord) : prog (option bool) :=
  strong ← ask CleanerStrong;
  if negb strong then mret None
  else
    err ← ask CleanerValidateRoot;
    if err != None then mret None
    else if negb (validWorkspaceRef (rec_WorkspaceRef r)) then mret None
    else
      let process := mkProcess (rec_PID r) (rec_Containment r) in
      supportsFinalization ← ask SupFinalizer;
      if supportsFinalization && validFencedContainment (rec_Containment r) then
        err ← finalizeCleanup process (rec_RootName r) (rec_WorkspaceRef r);
        mret (if err != None then None else Some supportsFinalization)
      else
        observed ← workspaceRef (rec_RootName r);
        let '(ref, refErr) := observed in
        if (refErr != None) || (ref != rec_WorkspaceRef r) then mret None
        else
          err ← removeRoot (rec_RootName r);
          mret (if err != None then None else Some supportsFinalization).

(** The teardown of an owned [StateCleaning] record. *)
(* src: internal/runner/runtime.go:713-762 Manager.Destroy *)
Definition destroy_owned (record : VersionedRecord) : outcome :=
  _ ← forget (vr_ExecutionID record);
  stopped ← stop_boundary (vr_Record record);
  if negb stopped then quarantine record
  else
    removed ← tear_down (vr_Record record);
    match removed with
    | None => quarantine record
    | Some supportsFinalization =>
        let process := mkProcess (rec_PID (vr_Record record)) (rec_Containment (vr_Record record)) in
        let terminal := set_PID 0 (set_State StateReleased (vr_Record record)) in
        committed ← commitCleanupTerminal record terminal;
        let '(record, err) := committed in
        if err != None then mret (no_snapshot, err)
        else
          _ ← forgetCleanup (vr_ExecutionID record);
          _ ← (if supportsFinalization && validFencedContainment (rec_Containment (vr_Record record))
               then garbageCollectCleanup process else mret tt);
          mret (snapshot (vr_Record record), None)
    end.

(* src: internal/runner/runtime.go:671-763 Manager.Destroy *)
Definition Destroy (executionID : string) : outcome :=
  if executionID == "" then mret (no_snapshot, Some ErrInvalidRequest)
  else locked (
    loaded ← load executionID;
    let '(record, found, err) := loaded in
    if err != None then mret (no_snapshot, err)
    else if negb found then mret (no_snapshot, Some ErrExecutionNotFound)
    else if negb (validVersionedRecord sha256 record) then
      mret (no_snapshot, Some ErrReconciliationRequired)
    else if (vr_State record == StateReleased) || (vr_State record == StateFailed) then
      _ ← forget (vr_ExecutionID record);
      _ ← forgetCleanup (vr_ExecutionID record);
      mret (snapshot (vr_Record record), None)
    else if vr_State record == StateCleanupFailed then
      _ ← forget (vr_ExecutionID record);
      _ ← forgetCleanup (vr_ExecutionID record);
      mret (snapshot (vr_Record record), Some ErrQuarantined)
    else if vr_State record != StateCleaning then
      swapped ← compareAndSwap (on_record (set_State StateCleaning) record);
      let '(record, err) := swapped in
      if err != None then mret (no_snapshot, err)
      else
        _ ← rememberCleanup record;
        destroy_owned record
    else
      owner ← ownsCleanup record;
      if negb owner then mret (snapshot (vr_Record record), Some ErrReconciliationRequired)
      else destroy_owned record).

(** ** Recovering a runner *)

(* src: internal/runner/runtime.go:257-269 Manager.claimRecoveryCleanup *)
Definition claimRecoveryCleanup (record : VersionedRecord) : prog (VersionedRecord * error) :=
  claimed ← (if vr_State record != StateCleaning
             then compareAndSwap (on_record (set_State StateCleaning) record)
             else mret (record, None));
  let '(record, err) := claimed in
  if err != None then mret (record, err)
  else
    _ ← forget (vr_ExecutionID record);
    _ ← rememberCleanup record;
    mret (record, None).

(** Claim the cleanup, then destroy; the lock is held at the start. *)
(* src: internal/runner/runtime.go:239-254 Manager.Recover *)
Definition recover_cleanup (executionID : string) (record : VersionedRecord) : outcome :=
  claimed ← claimRecoveryCleanup record;
  let '(record, err) := claimed in
  if err != None then unlock_return (snapshot (vr_Record record), err)
  else
    _ ← ask Unlock;
    Destroy executionID.

(* src: internal/runner/runtime.go:168-255 Manager.Recover *)
Definition Recover (executionID : string) : outcome :=
  if executionID == "" then mret (no_snapshot, Some ErrInvalidRequest)
  else
    _ ← ask Lock;
    loaded ← load executionID;
    let '(record, found, err) := loaded in
    let current := snapshot (vr_Record record) in
    let state := vr_State record in
    if err != None then unlock_return (no_snapshot, err)
    else if negb found then unlock_return (no_snapshot, Some ErrExecutionNotFound)
    else if negb (validVersionedRecord sha256 record) then
      unlock_return (no_snapshot, Some ErrReconciliationRequired)
    else if state == StateReleased then
      _ ← forget (vr_ExecutionID record);
      _ ← forgetCleanup (vr_ExecutionID record);
      _ ← ask Unlock;
      finalizer ← ask SupFinalizer;
      _ ← (if finalizer && validFencedContainment (rec_Containment (vr_Record record))
           then garbageCollectCleanup (mkProcess 0 (rec_Containment (vr_Record record)))
           else mret tt);
      mret (current, None)
    else if state == StateFailed then
      _ ← forget (vr_ExecutionID record);
      _ ← forgetCleanup (vr_ExecutionID record);
      unlock_return (current, None)
    else if state == StateCleanupFailed then
      _ ← forget (vr_ExecutionID record);
      _ ← forgetCleanup (vr_ExecutionID record);
      unlock_return (current, Some ErrQuarantined)
    else if state == StatePrepared then unlock_return (current, None)
    else if state == StateRunning then
      strong ← ask SupStrong;
      matches ← (if strong then workspaceMatches (vr_Record record) else mret false);
      if negb strong || negb matches || negb (validFencedContainment (rec_Containment (vr_Record record)))
      then recover_cleanup executionID record
      else
        observed ← ask (SupAlive (mkProcess (rec_PID (vr_Record record))
                                   (rec_Containment (vr_Record record))));
        if observed.2 == None then
          _ ← remember record;
          unlock_return (current, None)
        else recover_cleanup executionID record
    else if (state == StatePreparing) || (state == StateStarting) then
      recover_cleanup executionID record
    else if state == StateCleaning then
      _ ← rememberCleanup record;
      _ ← ask Unlock;
      Destroy executionID
    else unlock_return (current, Some ErrReconciliationRequired).

(** ** Admission *)

(** [absent] says that the Manager, the context or one of its components is nil. *)
(* src: internal/runner/runtime.go:130-154 Manager.Ready *)
Definition Ready (absent : bool) : prog error :=
  if absent then mret (Some ErrStrongOwnershipUnavailable)
  else
    err ← ask CtxErr;
    waiter ← (if err != None then mret false else ask SupWaiter);
    finalizer ← (if negb waiter then mret false else ask SupFinalizer);
    if (err != None) || negb waiter || negb finalizer then
      mret (Some ErrStrongOwnershipUnavailable)
    else
      cleanerBackend ← ask CleanerBackend;
      strong ← ask CleanerStrong;
      strong ← (if (strong : bool) then ask SupStrong else mret false);
      if negb strong || (cleanerBackend == "") then mret (Some ErrStrongOwnershipUnavailable)
      else
        backend ← ask SupBackend;
        if backend != cleanerBackend then mret (Some ErrStrongOwnershipUnavailable)
        else
          err ← ask CleanerValidateRoot;
          mret (if err != None then Some ErrStrongOwnershipUnavailable else None).
End manager.
