(* ===== verification/RunnerContract.v ===== *)
(** * What a runner lifecycle may do to its environment

    The contract of the Manager (RunnerRuntime.v): the steps of a durable record
    ([lifecycle]), and which call is permitted after which dialogue ([permitted]).
    Facts about a dialogue only say that something was said in it, so they stay
    true while it goes on ([Stable]). *)

From S2P Require Import Prelude GoStd Effects RunnerLease RunnerPackage RunnerJournal.
From S2P Require Import RunnerRuntime.

(** ** The lifecycle of a record *)

Definition transitions : list (string * string) :=
  [(StatePreparing, StatePrepared); (StatePreparing, StateFailed); (StatePreparing, StateCleaning);
   (StatePrepared, StateStarting); (StatePrepared, StateCleaning);
   (StateStarting, StateRunning); (StateStarting, StatePrepared); (StateStarting, StateCleaning);
   (StateRunning, StateCleaning); (StateCleaning, StateReleased); (StateCleaning, StateFailed)].

(** [lifecycle a b]: a durable record may go from [a] to [b].  Its identity never
    changes; what it says of the workspace, once prepared, and of the process,
    once started, is kept until the workspace is gone; every record but a
    quarantined one may be quarantined. *)
Definition lifecycle (a b : RunnerRecord) : bool :=
  if rec_State b == StateCleanupFailed then
    (rec_State a != StateCleanupFailed) &&
    (b == set_Tombstone true (set_State StateCleanupFailed a))
  else
    bool_decide ((rec_State a, rec_State b) ∈ transitions) &&
    (rec_ExecutionID b == rec_ExecutionID a) && (rec_SpecDigest b == rec_SpecDigest a) &&
    (rec_RootName b == rec_RootName a) &&
    ((rec_State b == StateFailed) || (rec_State b == StatePrepared) || (rec_State b == StateStarting) ||
     ((rec_JITDigest b == rec_JITDigest a) && (rec_Containment b == rec_Containment a))) &&
    ((rec_State b == StateFailed) || (rec_State a == StatePreparing) ||
     (rec_WorkspaceRef b == rec_WorkspaceRef a)).

(** ** The updates of the Manager are steps of the lifecycle *)

(** Evaluate validity and [lifecycle] on a record of known state. *)
Ltac lifecycle_step :=
  cbv zeta; intros; rewrite ?validRecord_iff in *; unfold identified, state_valid, lifecycle in *;
  cbn [set_State set_JITDigest set_PID set_Tombstone set_Containment set_WorkspaceRef
       rec_ExecutionID rec_SpecDigest rec_JITDigest rec_State rec_RootName rec_PID rec_Tombstone
       rec_Containment rec_WorkspaceRef] in *;
  repeat match goal with H : rec_State _ = _ |- _ => rewrite !H in *; clear H end;
  decide_states; conditions; naive_solver.

Section lifecycle_steps.
Context (sha256 : string -> string).
Implicit Types r : RunnerRecord.
Notation valid r := (validRecord sha256 r = true).

Lemma step_quarantine r :
  rec_State r <> StateCleanupFailed -> valid r ->
  let next := set_Tombstone true (set_State StateCleanupFailed r) in
  valid next /\ lifecycle r next = true.
Proof. lifecycle_step. Qed.

Lemma step_fail_preparation r :
  rec_State r = StatePreparing -> valid r ->
  let next := set_State StateFailed r in valid next /\ lifecycle r next = true.
Proof. lifecycle_step. Qed.

Lemma step_prepared r ref :
  rec_State r = StatePreparing -> valid r -> validWorkspaceRef ref = true ->
  let next := set_WorkspaceRef ref (set_State StatePrepared r) in
  valid next /\ lifecycle r next = true.
Proof. lifecycle_step. Qed.

Lemma step_starting r digest containment :
  rec_State r = StatePrepared -> valid r -> canonicalDigest digest = true ->
  validFencedContainment containment = true ->
  let next := set_Containment containment (set_JITDigest digest (set_State StateStarting r)) in
  valid next /\ lifecycle r next = true.
Proof. lifecycle_step. Qed.

Lemma step_running r pid :
  rec_State r = StateStarting -> valid r -> 0 < pid ->
  let next := set_Containment (rec_Containment r) (set_PID pid (set_State StateRunning r)) in
  valid next /\ lifecycle r next = true.
Proof. lifecycle_step. Qed.

Lemma step_unstart r :
  rec_State r = StateStarting -> valid r ->
  let next := set_Containment no_containment (set_PID 0 (set_JITDigest "" (set_State StatePrepared r))) in
  valid next /\ lifecycle r next = true.
Proof. lifecycle_step. Qed.

Lemma step_cleaning r :
  rec_State r ∈ [StatePreparing; StatePrepared; StateStarting; StateRunning] -> valid r ->
  let next := set_State StateCleaning r in valid next /\ lifecycle r next = true.
Proof.
  rewrite !elem_of_cons, elem_of_nil. intros Hstate. destruct_or!; try done; lifecycle_step.
Qed.

(** A runtime whose running record did not become durable is cleaned up from its
    starting record. *)
Lemma step_cleaning_started r pid :
  rec_State r = StateStarting -> valid r -> 0 < pid ->
  let next := set_State StateCleaning
    (set_Containment (rec_Containment r) (set_PID pid (set_State StateRunning r))) in
  valid next /\ lifecycle r next = true.
Proof. lifecycle_step. Qed.

Lemma step_released r :
  rec_State r = StateCleaning -> valid r -> validWorkspaceRef (rec_WorkspaceRef r) = true ->
  let next := set_PID 0 (set_State StateReleased r) in valid next /\ lifecycle r next = true.
Proof. lifecycle_step. Qed.

Lemma step_fail_started r :
  rec_State r = StateCleaning -> valid r ->
  let next := set_Containment no_containment (set_WorkspaceRef no_workspace
    (set_JITDigest "" (set_PID 0 (set_State StateFailed r)))) in
  valid next /\ lifecycle r next = true.
Proof. lifecycle_step. Qed.
End lifecycle_steps.

(** ** Facts about a dialogue *)

Abbreviation history := (list (event (answer := answer))).
Abbreviation said := (Effects.said (answer := answer)).

Class Stable (P : history -> Prop) :=
  stable h h' : h `prefix_of` h' -> P h -> P h'.

Definition happened (c : action) (a : answer c) (h : history) : Prop := said c a ∈ h.

#[export] Instance happened_stable c a : Stable (happened c a).
Proof. intros h h' [t ->]. unfold happened. rewrite elem_of_app. auto. Qed.
#[export] Instance exists_stable {A} (P : A -> history -> Prop) :
  (forall x, Stable (P x)) -> Stable (fun h => exists x, P x h).
Proof. intros HP h h' Hpre [x Hx]. exists x. by eapply (HP x). Qed.
#[export] Instance and_stable (P Q : history -> Prop) :
  Stable P -> Stable Q -> Stable (fun h => P h /\ Q h).
Proof. intros HP HQ h h' Hpre [H1 H2]. split; [by eapply HP|by eapply HQ]. Qed.
#[export] Instance or_stable (P Q : history -> Prop) :
  Stable P -> Stable Q -> Stable (fun h => P h \/ Q h).
Proof. intros HP HQ h h' Hpre [H|H]; [left; by eapply HP|right; by eapply HQ]. Qed.
#[export] Instance const_stable (P : Prop) : Stable (fun _ => P).
Proof. by intros h h' _. Qed.

(** The records an answer shows. *)
Definition observed (c : action) : answer c -> list VersionedRecord :=
  match c with
  | JournalLoad _ | JournalCreate _ _ | JournalCAS _ _ _ _ =>
      fun '(record, _, err) => if err == None then [record] else []
  | _ => fun _ => []
  end.

(** The answers of a well-behaved environment: [rand.Read] fills its 16 bytes, a
    revision is a [uint64], and JIT material reports the errors of its callback, as
    [JITConfig.Deliver] of internal/github/secret.go does. *)
Definition typed (c : action) (a : answer c) : Prop :=
  match c return answer c -> Prop with
  | RandRead => fun a => match a with Ok bytes => len_string bytes = 16 | Err _ => True end
  | JITDelivered results => fun a => a = None -> Forall (fun err => err = None) results
  | _ => fun _ => True
  end a /\ Forall (fun vr => 0 <= vr_Revision vr <= max_uint64) (observed c a).

(** What the Manager's map of cleanups holds for [id], as far as the current
    critical section tells: nothing is known when the lock is taken. *)
Definition view_step (id : string) (view : option (option Z)) (e : event (answer := answer))
    : option (option Z) :=
  let 'existT c a := e in
  match c return answer c -> option (option Z) with
  | Lock => fun _ => None
  | CleanupGet id' => fun a => if id' == id then Some a else view
  | CleanupSet id' revision => fun _ => if id' == id then Some (Some revision) else view
  | CleanupDelete id' => fun _ => if id' == id then Some None else view
  | _ => fun _ => view
  end a.
Definition cleanup_view (id : string) (h : history) : option (option Z) :=
  foldl (view_step id) None h.

(** The mutex: within a critical section the map holds what was put there. *)
Definition locked_memory (h : history) (c : action) : answer c -> Prop :=
  match c with
  | CleanupGet id => fun a =>
      match cleanup_view id h with Some revision => a = revision | None => True end
  | _ => fun _ => True
  end.

Section contract.
Context (sha256 : string -> string).
Notation validRecord := (validRecord sha256).
Notation validVersionedRecord := (validVersionedRecord sha256).

(** [vr] was shown by the journal and is valid. *)
Definition seen (vr : VersionedRecord) (h : history) : Prop :=
  exists c a, happened c a h /\ vr ∈ observed c a /\ validVersionedRecord vr = true /\
    0 <= vr_Revision vr <= max_uint64.

(** [vr] is the durable outcome of an update made in this dialogue. *)
Definition committed (vr : VersionedRecord) (h : history) : Prop :=
  seen vr h /\ exists a,
    happened (JournalCAS (vr_ExecutionID vr) (vr_Revision vr - 1) (vr_MutationToken vr)
                (vr_Record vr)) a h.

(** The journal's own read showed [vr]. *)
Definition loaded (vr : VersionedRecord) (h : history) : Prop :=
  exists id, happened (JournalLoad id) (vr, true, None) h.

(** What entitles the Manager to remember that it cleans up [vr]: the durable record
    is in [StateCleaning], and either this dialogue won the update to it, or, where a
    takeover is allowed ([takes]), it found the record in that state. *)
Definition entitled (takes : bool) (vr : VersionedRecord) (h : history) : Prop :=
  seen vr h /\ vr_State vr = StateCleaning /\ (committed vr h \/ takes = true /\ loaded vr h).

(** The Manager owns the cleanup of [vr]: this dialogue won the update to
    [StateCleaning], or the Manager remembers the cleanup of exactly this revision.
    Every entry of that memory was put there by a method that was [entitled]. *)
Definition claimed (vr : VersionedRecord) (h : history) : Prop :=
  committed vr h \/ happened (CleanupGet (vr_ExecutionID vr)) (Some (vr_Revision vr)) h.

(** The platform has stopped everything behind the fence of [containment]. *)
Definition stopped (containment : ContainmentRef) (h : history) : Prop :=
  exists pid, happened (SupStop (mkProcess pid containment)) None h.
(** The process boundary [r] names, if it names one, is stopped. *)
Definition quiesced (r : RunnerRecord) (h : history) : Prop :=
  rec_Containment r = no_containment /\ rec_PID r = 0 \/ stopped (rec_Containment r) h.

(** The directory [name] is verifiably gone. *)
Definition removed (name : string) (h : history) : Prop :=
  happened (CleanerRemove name) None h \/
  exists p, exists ref, happened (SupFinalize p name ref) None h.

(** The workspace [name] was observed to be [ref]. *)
Definition verified (name : string) (ref : WorkspaceRef) (h : history) : Prop :=
  happened (CleanerRef name) (ref, None) h.

(** [name] is the directory of an execution this dialogue has created, record and
    directory, and not handed over. *)
Definition own_preparation (name : string) (h : history) : Prop :=
  exists vr, (exists token, happened (JournalCreate token (vr_Record vr)) (vr, true, None) h) /\
    (vr_State vr = StatePreparing /\ rec_RootName (vr_Record vr) = name) /\
    happened (FsMkdir name) None h.

(** A cleaning record that may be torn down. *)
Definition condemned (vr : VersionedRecord) (h : history) : Prop :=
  seen vr h /\ vr_State vr = StateCleaning /\ claimed vr h /\ quiesced (vr_Record vr) h.

(** What must have happened before [a] may become [b]. *)
Definition evidence (a b : RunnerRecord) (h : history) : Prop :=
  (rec_State b = StateReleased \/ rec_State b = StateFailed -> removed (rec_RootName b) h) /\
  (rec_State a = StateStarting -> rec_State b = StatePrepared -> stopped (rec_Containment a) h) /\
  (rec_State b = StateRunning ->
     happened SupStarted (mkProcess (rec_PID b) (rec_Containment b), None) h).

(** [next] may replace the record of [id] at [revision]. *)
Definition claimable (id : string) (revision : Z) (next : RunnerRecord) (h : history) : Prop :=
  exists vr, seen vr h /\ vr_ExecutionID vr = id /\ vr_Revision vr = revision /\
    lifecycle (vr_Record vr) next = true /\ evidence (vr_Record vr) next h.

(** A durable start of this dialogue. *)
Definition starting (vr : VersionedRecord) (h : history) : Prop :=
  committed vr h /\ vr_State vr = StateStarting.

(** [never k h]: no call of the kind [k] was made. *)
Definition never (k : action -> bool) (h : history) : Prop :=
  forall c a, happened c a h -> k c = false.

Definition is_start (c : action) : bool := match c with SupStart _ => true | _ => false end.
Definition is_exposure (c : action) : bool :=
  match c with PlatformDeliver _ => true | _ => false end.

(** The contract of every call; [takes] allows the takeover of a cleanup. *)
Definition permitted (takes : bool) (h : history) (c : action) : Prop :=
  match c with
  | CleanupSet id revision =>
      exists vr, entitled takes vr h /\ vr_ExecutionID vr = id /\ vr_Revision vr = revision
  | JournalCreate token record =>
      canonicalOpaqueToken token = true /\ validRecord record = true /\
      rec_State record = StatePreparing
  | JournalCAS id revision token next =>
      canonicalOpaqueToken token = true /\ validRecord next = true /\ claimable id revision next h
  | CacheEnsure package => Package_valid package = true
  | CleanerRemove name =>
      own_preparation name h \/
      exists vr, condemned vr h /\ rec_RootName (vr_Record vr) = name /\
        verified name (rec_WorkspaceRef (vr_Record vr)) h
  | SupFinalize process name expected =>
      exists vr, condemned vr h /\ rec_RootName (vr_Record vr) = name /\
        process_Containment process = rec_Containment (vr_Record vr) /\
        expected = rec_WorkspaceRef (vr_Record vr)
  | SupStart request =>
      never is_start h /\
      exists vr, starting vr h /\ request_Containment request = rec_Containment (vr_Record vr) /\
        request_WorkspaceRef request = rec_WorkspaceRef (vr_Record vr) /\
        verified (rec_RootName (vr_Record vr)) (request_WorkspaceRef request) h
  | PlatformDeliver value =>
      never is_exposure h /\
      exists vr, starting vr h /\ hex_encode (sha256 value) = rec_JITDigest (vr_Record vr)
  | _ => True
  end.

(** Which kinds of calls a program makes at all: [Quiet] ones leave the lock and
    the Manager's memory of its cleanups alone, [Ending] and [Recovers] ones start
    nothing, and only [Recovers] ones may take over a cleanup they did not begin;
    [Anything] is the union. *)
Inductive level := Quiet | Ending | Recovers | Prepares | Starts | Anything.
Definition takes (l : level) : bool :=
  match l with Recovers | Anything => true | _ => false end.
Definition within (l : level) (c : action) : bool :=
  match c with
  | Lock | Unlock | CleanupGet _ | CleanupSet _ _ | CleanupDelete _ =>
      match l with Quiet => false | _ => true end
  | JournalCreate _ _ | CacheEnsure _ | PackageMaterialize | FsMkdirExecutions | FsMkdir _
  | CleanerPrepare _ => match l with Quiet | Ending | Recovers => false | _ => true end
  | SupPrepareContainment _ | SupStart _ | PlatformDeliver _ | SupStarted | JITDeliver | JITDelivered _ =>
      match l with Starts | Anything => true | _ => false end
  | _ => true
  end.

Definition allowed (l : level) (h : history) (c : action) : Prop :=
  permitted (takes l) h c /\ within l c = true.
(** A journal whose revisions never go back: what it shows is not older than what it
    has shown before, and an update is only refused for another revision. *)
Definition monotone (h : history) (c : action) (a : answer c) : Prop :=
  (forall vr old, vr ∈ observed c a -> validVersionedRecord vr = true -> seen old h ->
     vr_ExecutionID old = vr_ExecutionID vr -> vr_Revision old <= vr_Revision vr) /\
  match c return answer c -> Prop with
  | JournalLoad id => fun '(record, _, err) =>
      err = None -> validVersionedRecord record = true -> vr_ExecutionID record = id
  | JournalCAS id revision _ _ => fun '(record, swapped, err) =>
      err = None -> swapped = false -> validVersionedRecord record = true ->
      vr_ExecutionID record = id /\ vr_Revision record <> revision
  | _ => fun _ => True
  end a.

(** The answers of the environment; those of a [strict] one include a monotone
    journal, which only termination needs. *)
Definition believable (strict : bool) (h : history) (c : action) (a : answer c) : Prop :=
  typed c a /\ locked_memory h c a /\ (strict = true -> monotone h c a).

(** The programs that keep the contract. *)
Abbreviation safely strict l := (safe (allowed l) (believable strict)).
End contract.
