(* ===== verification/RunnerSafety.v ===== *)
(** * The Manager keeps its contract

    Each operation of RunnerRuntime.v only makes calls that RunnerContract.v
    permits, whatever the environment answers.  One lemma per operation, in the
    order in which they call each other. *)

From S2P Require Import Prelude GoStd Effects RunnerLease RunnerPackage RunnerJournal.
From S2P Require Import RunnerRuntime RunnerContract.

#[export] Instance seen_stable sha256 vr : Stable (seen sha256 vr).
Proof. unfold seen. apply _. Qed.
#[export] Instance committed_stable sha256 vr : Stable (committed sha256 vr).
Proof. unfold committed. apply _. Qed.
#[export] Instance claimed_stable sha256 vr : Stable (claimed sha256 vr).
Proof. unfold claimed. apply _. Qed.
#[export] Instance loaded_stable vr : Stable (loaded vr).
Proof. unfold loaded. apply _. Qed.
#[export] Instance stopped_stable c : Stable (stopped c).
Proof. unfold stopped. apply _. Qed.
#[export] Instance quiesced_stable r : Stable (quiesced r).
Proof. unfold quiesced. apply _. Qed.
#[export] Instance removed_stable name : Stable (removed name).
Proof. unfold removed. apply _. Qed.
#[export] Instance verified_stable name ref : Stable (verified name ref).
Proof. unfold verified. apply _. Qed.
#[export] Instance own_preparation_stable name : Stable (own_preparation name).
Proof. unfold own_preparation. apply _. Qed.
#[export] Instance condemned_stable sha256 vr : Stable (condemned sha256 vr).
Proof. unfold condemned. apply _. Qed.
#[export] Instance impl_stable (P : Prop) (Q : history -> Prop) : Stable Q -> Stable (fun h => P -> Q h).
Proof. intros HQ h h' Hpre HP HQ'. eapply HQ; eauto. Qed.
#[export] Instance evidence_stable a b : Stable (evidence a b).
Proof. unfold evidence. apply _. Qed.
#[export] Instance claimable_stable sha256 id rev next : Stable (claimable sha256 id rev next).
Proof. unfold claimable. apply _. Qed.
#[export] Instance starting_stable sha256 vr : Stable (starting sha256 vr).
Proof. unfold starting. apply _. Qed.

(** Carry the facts of a dialogue over to a longer one. *)
Ltac carry :=
  repeat match goal with
  | Hpre : ?h `prefix_of` _, H : ?P ?h |- _ => apply (stable (P := P) _ _ Hpre) in H
  end.

Section safety.
Context (sha256 : string -> string).
Context (Join : list string -> string) (windows : bool) (runtimeRoot : string).
Context (strict : bool).
Hypothesis sha256_size : forall s, len_string (sha256 s) = 32.

Notation validRecord := (validRecord sha256).
Notation validVersionedRecord := (validVersionedRecord sha256).
Notation seen := (seen sha256).
Notation committed := (committed sha256).
Notation claimable := (claimable sha256).
Notation safely l := (safe (allowed sha256 l) (believable sha256 strict)).

Lemma call_step l {A} c (f : answer c -> prog A) Q h :
  allowed sha256 l h c ->
  (forall h' a, h `prefix_of` h' -> happened c a h' -> typed c a -> safely l h' (f a) Q) ->
  safely l h (mbind f (ask c)) Q.
Proof.
  intros Hc Hf. simpl. split; [done|]. intros a (Ha & _). apply Hf; [by exists [said c a]| |done].
  unfold happened. set_solver.
Qed.

(** The same for a call whose answer is compared with the ones before it. *)
Lemma call_step_monotone l {A} c (f : answer c -> prog A) Q h :
  allowed sha256 l h c ->
  (forall h' a, h `prefix_of` h' -> happened c a h' -> typed c a ->
     (strict = true -> monotone sha256 h c a) -> safely l h' (f a) Q) ->
  safely l h (mbind f (ask c)) Q.
Proof.
  intros Hc Hf. simpl. split; [done|]. intros a (Ha & _ & Hm). apply Hf; [by exists [said c a]| |done..].
  unfold happened. set_solver.
Qed.

Lemma cleanup_view_snoc id h c a :
  cleanup_view id (h ++ [said c a]) = view_step id (cleanup_view id h) (said c a).
Proof. unfold cleanup_view. by rewrite foldl_app. Qed.

Lemma permitted_mono t t' h c :
  (t = true -> t' = true) -> permitted sha256 t h c -> permitted sha256 t' h c.
Proof.
  intros Ht. destruct c; try done. intros (vr & (Hs & Hst & Hown) & Hrest).
  exists vr. split; [|exact Hrest]. split_and!; [exact Hs|exact Hst|]. destruct Hown as [?|[? ?]]; auto.
Qed.

(** A program that only makes calls of one level keeps what those calls keep, and
    may be used where more calls are allowed. *)
Lemma level_frame l l' (I : history -> Prop) {A} (p : prog A) R h :
  (forall h c a, within l c = true -> I h -> I (h ++ [said c a])) ->
  (forall c, within l c = true -> within l' c = true) -> (takes l = true -> takes l' = true) ->
  safely l h p R -> I h -> safely l' h p (fun h' x => R h' x /\ I h').
Proof.
  intros HI Hll Ht. revert h. induction p as [x|c k IH]; intros h; simpl; [done|].
  intros [[Hp Hc] Hk] Hh. split; [by split; [eapply permitted_mono|apply Hll]|].
  intros a Ha. apply IH; [by apply Hk|by apply HI].
Qed.

Lemma quiet_frame l id view {A} (p : prog A) R h :
  safely Quiet h p R -> cleanup_view id h = view ->
  safely l h p (fun h' x => R h' x /\ cleanup_view id h' = view).
Proof.
  apply (level_frame Quiet l (fun h => cleanup_view id h = view)).
  - intros h' c a Hc. rewrite cleanup_view_snoc. by destruct c.
  - intros c Hc. by destruct c, l.
  - done.
Qed.

(** A step of the program that is a single call. *)
Ltac call := eapply call_step; [split; [try exact I|try reflexivity; try match goal with |- within ?l _ = true => by destruct l end]|intros ?h ?a ?Hpre ?Hsaid ?Hty; carry].

(** Evaluate the test of an error that is known. *)
Ltac decided := try simpl (_ != _); try simpl (_ == _); cbn [negb andb orb]; cbv iota.
Ltac on_error a := destruct a as [?err|]; decided.

(** A step of the program that has a specification. *)
Ltac step_with spec :=
  eapply safe_step; [eapply spec|intros ?h ?x ?Hpre ?Hspec; carry; cbv beta in *].

(** ** Tokens and the journal *)

Lemma newOpaqueToken_safe l h :
  safely l h newOpaqueToken (fun _ token =>
    match token with Ok t => canonicalOpaqueToken t = true | Err _ => True end).
Proof.
  unfold newOpaqueToken. call. simpl. destruct a as [bytes|err]; [|done].
  destruct Hty as [Hlen _]. unfold canonicalOpaqueToken.
  rewrite hex_encode_length, Hlen, hex_encode_lower. by rewrite bool_decide_eq_true_2.
Qed.

Lemma seen_intro c a vr h :
  happened c a h -> typed c a -> vr ∈ observed c a -> validVersionedRecord vr = true -> seen vr h.
Proof.
  intros Hc [_ Hty] Hvr Hvalid. rewrite Forall_forall in Hty. destruct (Hty _ Hvr).
  by exists c, a.
Qed.

Lemma load_safe l h id :
  safely l h (load id) (fun h' '(r, found, err) =>
    ((err = None \/ err = Some ErrJournal) /\ (err = None -> found = true -> loaded r h')) /\
    (err = None -> validVersionedRecord r = true -> seen r h')).
Proof.
  unfold load. call. destruct a as [[r found] err]. simpl.
  destruct err as [err|]; simpl; [naive_solver|]. split; [split; [by left|]|].
  { intros _ ->. by exists id. }
  intros _ Hr. eapply seen_intro; [exact Hsaid|exact Hty| |exact Hr]. simpl. set_solver.
Qed.

Lemma validVersioned_iff vr :
  validVersionedRecord vr = true <->
  0 < vr_Revision vr /\ canonicalOpaqueToken (vr_MutationToken vr) = true /\
  validRecord (vr_Record vr) = true.
Proof. unfold RunnerJournal.validVersionedRecord. conditions. tauto. Qed.

Lemma seen_valid vr h : seen vr h -> validRecord (vr_Record vr) = true.
Proof. intros (c & a & _ & _ & Hv & _). by apply validVersioned_iff in Hv as (_ & _ & ?). Qed.

(** What an update leaves behind: on success the record is durable and one's own;
    otherwise one is left with what one had or with what the journal showed. *)
Definition swap_post (vr : VersionedRecord) (h : history) (out : VersionedRecord * error) : Prop :=
  match out.2 with
  | None => committed out.1 h /\ vr_Record out.1 = vr_Record vr /\ vr_Revision vr < vr_Revision out.1
  | Some err =>
      (out.1 = vr \/ seen out.1 h) /\ (err = ErrJournal \/ err = ErrReconciliationRequired) /\
      (strict = true -> err = ErrReconciliationRequired ->
       out.1 = vr \/ vr_Revision vr < vr_Revision out.1)
  end.

#[local] Instance swap_post_stable vr out : Stable (fun h => swap_post vr h out).
Proof.
  unfold swap_post. destruct out.2; apply _.
Qed.

(** The record an update made durable, from the answer that shows it. *)
Lemma committed_intro vr token r a c b h :
  happened (JournalCAS (vr_ExecutionID vr) (vr_Revision vr) token (vr_Record vr)) a h ->
  happened c b h -> typed c b -> r ∈ observed c b ->
  0 < vr_Revision vr <= max_uint64 -> vr_Revision vr <> max_uint64 ->
  vr_Revision r = wrap_uint64 (vr_Revision vr + 1) -> vr_MutationToken r = token ->
  vr_Record r = vr_Record vr -> canonicalOpaqueToken token = true ->
  validRecord (vr_Record vr) = true ->
  committed r h /\ vr_Record r = vr_Record vr /\ vr_Revision vr < vr_Revision r.
Proof.
  intros Hcas Hc Hty Hr Hrange Hmax Hrev Htok Hrec Hcan Hvalid.
  rewrite wrap_uint64_small in Hrev by lia. split_and!; [split|done|lia].
  - eapply seen_intro; [done..|]. apply validVersioned_iff. rewrite Htok, Hrec. split_and!; [lia|done..].
  - exists a. unfold vr_ExecutionID in *. rewrite Hrec, Htok.
    by replace (vr_Revision r - 1) with (vr_Revision vr) by lia.
Qed.

Ltac no_swap := simpl; unfold swap_post; simpl; split_and!; auto; intros; try done; auto.

(** A valid record that is not older than [vr] but of another revision is newer. *)
Lemma newer_intro h c a r vr base :
  (strict = true -> monotone sha256 h c a) -> r ∈ observed c a -> validVersionedRecord r = true ->
  seen base h -> vr_ExecutionID base = vr_ExecutionID vr -> vr_Revision base = vr_Revision vr ->
  (monotone sha256 h c a -> vr_ExecutionID r = vr_ExecutionID vr /\ vr_Revision r <> vr_Revision vr) ->
  strict = true -> vr_Revision vr < vr_Revision r.
Proof.
  intros Hm Hr Hvalid Hbase Hid Hrev Hne Hs. specialize (Hm Hs). destruct (Hne Hm) as [Hid' Hne'].
  pose proof (proj1 Hm r base Hr Hvalid Hbase ltac:(congruence)). lia.
Qed.

Lemma resolve_write_safe vr base token a loaded h0 h :
  happened (JournalCAS (vr_ExecutionID vr) (vr_Revision vr) token (vr_Record vr)) a h ->
  happened (JournalLoad (vr_ExecutionID vr)) loaded h ->
  typed (JournalLoad (vr_ExecutionID vr)) loaded ->
  (strict = true -> monotone sha256 h0 (JournalLoad (vr_ExecutionID vr)) loaded) ->
  seen base h0 -> vr_ExecutionID base = vr_ExecutionID vr -> vr_Revision base = vr_Revision vr ->
  0 < vr_Revision vr <= max_uint64 -> canonicalOpaqueToken token = true ->
  validRecord (vr_Record vr) = true ->
  swap_post vr h (resolve_write sha256 vr token loaded).
Proof.
  intros Hcas Hload Hty Hmono Hbase Hid Hrev Hrange Htoken Hvalid.
  unfold resolve_write. destruct loaded as [[current found] loadErr].
  on_error loadErr; [no_swap|].
  destruct (negb found || negb (validVersionedRecord current)) eqn:Hfound; [no_swap|].
  conditions. destruct Hfound as [-> Hcur].
  assert (Hobs : current ∈ observed (JournalLoad (vr_ExecutionID vr)) (current, true, None))
    by (simpl; set_solver).
  assert (Hseen : seen current h) by (eapply seen_intro; [exact Hload|exact Hty|done|done]).
  destruct (_ && _ && _ && _) eqn:Hmatch.
  - conditions. destruct Hmatch as [[[? ?] ?] ?].
    eapply committed_intro; [exact Hcas|exact Hload|exact Hty|..]; done.
  - destruct (vr_Revision current == vr_Revision vr) eqn:Hsame; [no_swap|]. conditions.
    unfold swap_post. split_and!; [by right|auto|]. intros Hs _. right.
    apply (newer_intro h0 _ _ current vr base Hmono); try done.
    intros [_ Hl]. split; [by apply Hl|done].
Qed.

Lemma compareAndSwap_safe l h vr :
  validRecord (vr_Record vr) = true ->
  claimable (vr_ExecutionID vr) (vr_Revision vr) (vr_Record vr) h ->
  safely l h (compareAndSwap sha256 vr) (swap_post vr).
Proof.
  intros Hvalid Hclaim. unfold compareAndSwap.
  assert (Hrange : 0 < vr_Revision vr <= max_uint64).
  { destruct Hclaim as (base & (? & ? & _ & _ & Hb & ?) & _ & <- & _).
    apply validVersioned_iff in Hb. lia. }
  step_with newOpaqueToken_safe. destruct x as [token|err]; [|no_swap].
  pose proof Hclaim as (base & Hbase & Hid & Hrev & _).
  apply call_step_monotone; [split; [by split_and!|done]|].
  intros h1 [[updated swapped] err] Hpre1 Hsaid Hty Hmono.
  on_error err.
  - carry. apply call_step_monotone; [by split|]. intros h2 loaded Hpre2 Hsaid2 Hty2 Hmono2.
    eapply resolve_write_safe; try done. eapply stable; [exact Hpre2|exact Hsaid].
  - destruct swapped; simpl (negb _); cbv iota.
    + destruct (_ || _ || _ || _) eqn:Hmatch; [no_swap|]. conditions.
      destruct Hmatch as [[[? ?] ?] ?].
      eapply committed_intro; [exact Hsaid|exact Hsaid|exact Hty|..]; try done. simpl. set_solver.
    + destruct (negb _) eqn:Hup; [no_swap|]. conditions. unfold swap_post. cbn.
      assert (Hobs : updated ∈ observed (JournalCAS (vr_ExecutionID vr) (vr_Revision vr) token
        (vr_Record vr)) (updated, false, None)) by (simpl; set_solver).
      split_and!; [right|auto|].
      * eapply seen_intro; [exact Hsaid|exact Hty|done|done].
      * intros Hs _. right. apply (newer_intro h0 _ _ updated vr base Hmono); try done.
        intros [_ Hl]. by apply Hl.
Qed.

(** ** The workspace *)

Lemma with_executions_safe l {A} (failed : A) body (R : history -> A -> Prop) h :
  (forall x, Stable (fun h => R h x)) -> (forall h, R h failed) ->
  (forall h', h `prefix_of` h' -> safely l h' body R) ->
  safely l h (with_executions failed body) R.
Proof.
  intros HR Hfailed Hbody. unfold with_executions. call. on_error a; [apply Hfailed|].
  call. on_error a; [call; apply Hfailed|].
  eapply safe_step; [apply Hbody; by etransitivity|]. intros h2 x Hpre1 Hx.
  call. call. simpl. eapply HR; [|exact Hx]. by etransitivity.
Qed.

(** A directory that may be removed. *)
Definition removable (name : string) (h : history) : Prop := permitted sha256 false h (CleanerRemove name).
#[local] Instance removable_stable name : Stable (removable name).
Proof. unfold removable, permitted. apply _. Qed.

Lemma removeRoot_safe l h name :
  removable name h ->
  safely l h (removeRoot name) (fun h' err => err = None -> removed name h').
Proof.
  intros Hname. apply with_executions_safe; [intros x; apply _|done|].
  intros h' Hpre. carry. call; [exact Hname|]. destruct a as [err|]; simpl; [done|].
  intros _. by left.
Qed.

Lemma finalizeCleanup_safe l h process name expected :
  permitted sha256 false h (SupFinalize process name expected) ->
  safely l h (finalizeCleanup process name expected) (fun h' err => err = None -> removed name h').
Proof.
  intros Hname. apply with_executions_safe; [intros x; apply _|done|].
  intros h' Hpre.
  assert (Hname' : permitted sha256 false h' (SupFinalize process name expected)).
  { destruct Hname as (vr & Hc & Hrest). exists vr. carry. done. }
  call; [exact Hname'|]. destruct a as [err|]; simpl; [done|].
  intros _. right. eauto.
Qed.

Lemma workspaceRef_safe l h name :
  safely l h (workspaceRef name) (fun h' '(ref, err) => err = None -> verified name ref h').
Proof.
  apply with_executions_safe; [intros [ref err]; apply _|done|]. intros h' Hpre.
  split; [by split|]. intros [ref err] _ ->. unfold verified, happened. simpl. set_solver.
Qed.

Lemma prepareWorkspace_safe h name :
  safely Prepares h (prepareWorkspace name) (fun _ _ => True).
Proof.
  apply with_executions_safe; [intros x; apply _|done|]. intros h' Hpre.
  by repeat split.
Qed.

Lemma workspaceMatches_safe l h r :
  safely l h (workspaceMatches r) (fun h' matches => matches = true ->
    verified (rec_RootName r) (rec_WorkspaceRef r) h' /\ validWorkspaceRef (rec_WorkspaceRef r) = true).
Proof.
  unfold workspaceMatches. destruct (validWorkspaceRef _) eqn:Hvalid; decided; [|done].
  call. on_error a; [done|]. step_with workspaceRef_safe. destruct x as [ref err]. simpl.
  intros Hmatch. conditions. destruct Hmatch as [-> <-]. auto.
Qed.

(** [activeState(record.State) && !m.workspaceMatches(ctx, record.Record)]. *)
Lemma active_matches_safe l h r :
  safely l h (if activeState (rec_State r) then workspaceMatches r else mret true)
    (fun h' matches => matches = true -> activeState (rec_State r) = true ->
       verified (rec_RootName r) (rec_WorkspaceRef r) h').
Proof.
  destruct (activeState _); [|done]. eapply safe_mono; [apply workspaceMatches_safe|].
  simpl. intros h' x _ Hx ->. by destruct Hx.
Qed.

(** ** Ends of an execution *)

(** A success reports a durable record in one of [states]. *)
Definition reports (states : list string) (h : history) (out : Snapshot * error) : Prop :=
  out.2 = None -> exists vr, seen vr h /\ out.1 = snapshot (vr_Record vr) /\ vr_State vr ∈ states.

Lemma reports_error states h s err : reports states h (s, Some err).
Proof. done. Qed.
#[local] Hint Resolve reports_error : core.

Lemma reports_intro states h vr :
  seen vr h -> vr_State vr ∈ states -> reports states h (snapshot (vr_Record vr), None).
Proof. intros ?? _. eauto. Qed.

Lemma claimable_intro vr next h :
  seen vr h -> lifecycle (vr_Record vr) next = true -> evidence (vr_Record vr) next h ->
  claimable (vr_ExecutionID vr) (vr_Revision vr) next h.
Proof. intros. exists vr. done. Qed.

(** Quarantine never reports success. *)
Lemma quarantine_safe l h vr states :
  l <> Quiet -> safely l h (quarantine sha256 vr) (reports states).
Proof.
  intros Hl. unfold quarantine. call. step_with load_safe. destruct x as [[latest found] err].
  destruct Hspec as [Herr Hseen]. destruct err as [err|]; [done|]. decided.
  destruct (negb found || _) eqn:Hfound; [done|]. conditions. destruct Hfound as [-> Hvalid].
  specialize (Hseen eq_refl Hvalid).
  destruct (vr_State latest == StateCleanupFailed) eqn:Hstate; [by call|]. conditions.
  destruct (step_quarantine sha256 (vr_Record latest)) as [Hnext Hlife];
    [done|by eapply seen_valid|].
  step_with compareAndSwap_safe.
  - done.
  - apply (claimable_intro latest); [done|done|].
    split_and!; simpl; intros; try done; destruct_or!; done.
  - destruct x as [r [err|]]; [done|]. decided. by call.
Qed.

Lemma failPreparation_safe l h vr cause states :
  seen vr h -> vr_State vr = StatePreparing -> removed (rec_RootName (vr_Record vr)) h ->
  safely l h (failPreparation sha256 vr cause) (reports states).
Proof.
  intros Hseen Hstate Hremoved. unfold failPreparation.
  destruct (step_fail_preparation sha256 (vr_Record vr)) as [Hnext Hlife];
    [done|by eapply seen_valid|].
  step_with compareAndSwap_safe.
  - done.
  - apply (claimable_intro vr); [done|done|]. split_and!; simpl; try done.
  - destruct x as [r [err|]]; done.
Qed.

Lemma lifecycle_identity a b :
  lifecycle a b = true -> rec_ExecutionID b = rec_ExecutionID a /\ rec_RootName b = rec_RootName a.
Proof. unfold lifecycle. destruct (_ == StateCleanupFailed); conditions; [|tauto]. by intros [_ ->]. Qed.

(** [terminal] may be committed over [cleaning]. *)
Definition terminal_of (cleaning : VersionedRecord) (terminal : RunnerRecord) (h : history) : Prop :=
  seen cleaning h /\ evidence (vr_Record cleaning) terminal h /\
  (validRecord terminal = true /\ lifecycle (vr_Record cleaning) terminal = true /\
   terminal <> vr_Record cleaning).
#[local] Instance terminal_of_stable cleaning terminal : Stable (terminal_of cleaning terminal).
Proof. unfold terminal_of. apply _. Qed.

(** An update of a record with the content of [cleaning] to [terminal]. *)
Lemma swap_terminal_safe l h cleaning terminal vr :
  terminal_of cleaning terminal h -> seen vr h -> vr_Record vr = vr_Record cleaning ->
  safely l h (compareAndSwap sha256 (on_record (fun _ => terminal) vr))
    (swap_post (on_record (fun _ => terminal) vr)).
Proof.
  intros (Hcl & Hev & Hvalid & Hlife & _) Hvr Heq. apply compareAndSwap_safe; [done|].
  rewrite <- Heq in Hlife, Hev. exists vr. split_and!; try done.
  unfold vr_ExecutionID. simpl. by destruct (lifecycle_identity _ _ Hlife).
Qed.

Lemma ownsCleanup_safe l h vr :
  l <> Quiet -> safely l h (ownsCleanup vr) (fun h' owner => owner = true ->
    happened (CleanupGet (vr_ExecutionID vr)) (Some (vr_Revision vr)) h' /\
    vr_State vr = StateCleaning /\
    cleanup_view (vr_ExecutionID vr) h' = Some (Some (vr_Revision vr)) /\
    forall revision, cleanup_view (vr_ExecutionID vr) h = Some (Some revision) ->
      vr_Revision vr = revision).
Proof.
  intros Hl. split; [by split; [|destruct l]|]. intros [revision|] (_ & Hmem & _); simpl; [|done].
  intros Howner. conditions. destruct Howner as [-> ->]. unfold happened. split_and!; [set_solver|done| |].
  - rewrite cleanup_view_snoc. simpl. by rewrite bool_decide_eq_true_2.
  - intros rev Hrev. simpl in Hmem. rewrite Hrev in Hmem. congruence.
Qed.

Definition terminal_post (terminal : RunnerRecord) (h : history) (out : VersionedRecord * error) :=
  out.2 = None -> seen out.1 h /\ vr_Record out.1 = terminal.

(** What is left after an attempt: success, another writer's, or one's own record. *)
Lemma committed_elsewhere_seen vr cleaning updated terminal h :
  updated = vr \/ seen updated h -> vr_Revision vr = vr_Revision cleaning ->
  committed_elsewhere sha256 cleaning updated terminal = true ->
  seen updated h /\ vr_Record updated = terminal.
Proof.
  unfold committed_elsewhere. intros Hup Hrev Helse. conditions.
  destruct Helse as [[_ Hgt] ->]. destruct Hup as [->|Hup]; [lia|done].
Qed.

Lemma reload_terminal_safe l h cleaning updated terminal err :
  updated = on_record (fun _ => terminal) cleaning \/ seen updated h ->
  safely l h (reload_terminal sha256 cleaning updated terminal err) (fun h' out =>
    match out with
    | inl u => u = on_record (fun _ => terminal) cleaning \/ seen u h'
    | inr res => terminal_post terminal h' res
    end).
Proof.
  intros Hup. unfold reload_terminal. destruct (errors_Is _ _); [|done].
  step_with load_safe. destruct x as [[current found] loadErr]. destruct Hspec as [Herr Hs].
  destruct loadErr as [e|]; decided; [done|].
  destruct (negb found || _) eqn:Hfound; [done|]. conditions. destruct Hfound as [-> Hvalid].
  specialize (Hs eq_refl Hvalid).
  destruct (vr_Record current == terminal) eqn:Hcur; conditions; [done|]. by right.
Qed.

Lemma commitCleanupTerminal_safe l h cleaning terminal :
  l <> Quiet -> terminal_of cleaning terminal h ->
  cleanup_view (vr_ExecutionID cleaning) h = Some (Some (vr_Revision cleaning)) ->
  safely l h (commitCleanupTerminal sha256 cleaning terminal) (terminal_post terminal).
Proof.
  intros Hl Hterm Hview. pose proof Hterm as (Hseen & _ & _ & _ & Hne).
  unfold commitCleanupTerminal.
  eapply safe_step; [apply quiet_frame; [by apply (swap_terminal_safe _ h cleaning)|exact Hview]|].
  intros h1 [updated err] Hpre [Hswap Hview1]. carry. clear Hview.
  destruct err as [err|]; decided; [|intros _; by destruct Hswap as ([??] & ? & _)].
  destruct Hswap as [Hup _]. simpl in Hup.
  destruct (committed_elsewhere _ _ _ _) eqn:Helse.
  { intros _. eapply (committed_elsewhere_seen (on_record _ cleaning)); [exact Hup|done|done]. }
  eapply safe_step; [apply quiet_frame; [by apply reload_terminal_safe|exact Hview1]|].
  intros h2 [u|res] Hpre1 [Hu Hview2]; [|done]. carry. clear Hview1.
  destruct Hu as [->|Hu].
  { step_with (ownsCleanup_safe l h2 (on_record (fun _ => terminal) cleaning)); [done|].
    rewrite (bool_decide_eq_false_2 (vr_Record _ = _)), orb_true_r by done. done. }
  step_with (ownsCleanup_safe l h2 u); [done|].
  destruct (negb x || _) eqn:Howner; [done|]. conditions. destruct Howner as [-> Heq].
  destruct (Hspec eq_refl) as (_ & _ & _ & Hrev). specialize (Hrev (vr_Revision cleaning)).
  unfold vr_ExecutionID in Hrev at 1. rewrite Heq in Hrev. specialize (Hrev Hview2).
  step_with (swap_terminal_safe l h0 cleaning terminal u); [done..|].
  destruct x as [r [e|]]; decided; [|intros _; by destruct Hspec0 as ([??] & ? & _)].
  destruct Hspec0 as [Hr _]. simpl in Hr.
  destruct (committed_elsewhere sha256 cleaning r terminal) eqn:Helse'; [|done].
  intros _. eapply (committed_elsewhere_seen (on_record _ u)); [exact Hr|done|done].
Qed.

Lemma ask_safe l h c :
  allowed sha256 l h c -> safely l h (ask c) (fun h' a => happened c a h' /\ typed c a).
Proof. intros Hc. split; [done|]. intros a (Ha & _). split; [unfold happened; set_solver|done]. Qed.

(** A step that leaves the Manager's memory of its cleanups, known from [Hview], alone. *)
Tactic Notation "quiet_step" uconstr(spec) "as" simple_intropattern(x) simple_intropattern(Hx) :=
  lazymatch goal with Hview : cleanup_view _ _ = _ |- _ =>
    eapply safe_step; [apply quiet_frame; [eapply spec|exact Hview]
                      |clear Hview; intros ?h x ?Hpre [Hx Hview]; carry; cbv beta in *]
  end.
Tactic Notation "quiet_ask" "as" simple_intropattern(x) :=
  quiet_step ask_safe as x ?Hsaid; [by split|].

Lemma rememberCleanup_safe l h vr :
  l <> Quiet -> entitled sha256 (takes l) vr h ->
  safely l h (rememberCleanup vr) (fun h' _ =>
    cleanup_view (vr_ExecutionID vr) h' = Some (Some (vr_Revision vr))).
Proof.
  intros Hl He. split; [by split; [exists vr|destruct l]|]. intros [] _.
  cbn [safe]. rewrite cleanup_view_snoc. simpl. by rewrite bool_decide_eq_true_2.
Qed.

(** A cleaning record of this Manager whose cleanup it remembers. *)
Definition cleaning_claim (vr : VersionedRecord) (h : history) : Prop :=
  committed vr h /\ vr_State vr = StateCleaning.
#[local] Instance cleaning_claim_stable vr : Stable (cleaning_claim vr).
Proof. unfold cleaning_claim. apply _. Qed.

Lemma cleaning_claim_entitled t vr h : cleaning_claim vr h -> entitled sha256 t vr h.
Proof. intros [Hcom Hstate]. split_and!; [apply Hcom|done|by left]. Qed.

Lemma evidence_cleaning a r h : evidence a (set_State StateCleaning r) h.
Proof. split_and!; simpl; intros; try done; destruct_or!; done. Qed.

(** The records a started execution can be cleaned up from. *)
Definition abandonable (vr : VersionedRecord) (expected : RunnerRecord) (h : history) : Prop :=
  claimable (vr_ExecutionID vr) (vr_Revision vr) (set_State StateCleaning (vr_Record vr)) h /\
  (validRecord (set_State StateCleaning (vr_Record vr)) = true /\
   rec_Containment (vr_Record vr) = rec_Containment expected).
#[local] Instance abandonable_stable vr expected : Stable (abandonable vr expected).
Proof. unfold abandonable. apply _. Qed.

Lemma same_started_abandonable vr expected h :
  seen vr h -> sameStartedRuntime (vr_Record vr) expected = true -> abandonable vr expected h.
Proof.
  intros Hseen Hsame. unfold sameStartedRuntime in Hsame.
  destruct (_ || _ || _ || _ || _ || _) eqn:Hid; [done|]. conditions.
  assert (Hstate : vr_State vr ∈ [StatePreparing; StatePrepared; StateStarting; StateRunning]).
  { unfold vr_State. destruct (rec_State (vr_Record vr) == StateStarting) eqn:H1; conditions;
      [rewrite H1; set_solver|].
    destruct (rec_State (vr_Record vr) == StateRunning) eqn:H2; conditions; [|done].
    rewrite H2; set_solver. }
  destruct (step_cleaning sha256 (vr_Record vr)) as [Hnext Hlife]; [done|by eapply seen_valid|].
  split_and!; [apply (claimable_intro vr); [done|done|apply evidence_cleaning]|done|tauto].
Qed.

Lemma same_started_cleaning vr expected :
  sameStartedRuntime (vr_Record (on_record (set_State StateCleaning) vr)) expected = false.
Proof. unfold sameStartedRuntime. by destruct (_ || _ || _ || _ || _ || _). Qed.

Lemma abandonable_range vr expected h :
  abandonable vr expected h -> 0 < vr_Revision vr <= max_uint64.
Proof.
  intros ((base & (? & ? & _ & _ & Hb & ?) & _ & <- & _) & _). apply validVersioned_iff in Hb. lia.
Qed.

(** Under a monotone journal every round of the loop meets a newer revision. *)
Lemma claim_started_safe l h fuel vr expected :
  l <> Quiet -> abandonable vr expected h ->
  safely l h (claim_started sha256 fuel vr expected) (fun h' out =>
    match out with
    | Some (Ok r) => cleaning_claim r h' /\
        rec_Containment (vr_Record r) = rec_Containment expected /\
        cleanup_view (vr_ExecutionID r) h' = Some (Some (vr_Revision r))
    | Some (Err _) => True
    | None => strict = true -> Z.of_nat fuel <= max_uint64 - vr_Revision vr
    end).
Proof.
  intros Hl. revert h vr. induction fuel as [|fuel IH]; intros h vr Habandon.
  { cbn. intros _. apply abandonable_range in Habandon. lia. }
  pose proof Habandon as (Hclaim & Hvalid & Hcont). cbn [claim_started].
  step_with compareAndSwap_safe; [done|exact Hclaim|].
  destruct x as [updated [err|]].
  - destruct (negb _ || negb _) eqn:Hsame; [done|]. conditions. destruct Hsame as [Herr Hsame].
    destruct Hspec as ([Heq|Hup] & Hkind & Hnewer); cbn [fst] in *.
    { by rewrite Heq, same_started_cleaning in Hsame. }
    destruct Hkind as [->| ->]; [done|].
    call. on_error a; [done|].
    eapply safe_mono; [apply IH; by apply same_started_abandonable|].
    intros h' [[r|err]|] _ Hout; [done|done|]. intros Hs. specialize (Hout Hs).
    destruct (Hnewer Hs eq_refl) as [Heq|Hlt].
    { by rewrite Heq, same_started_cleaning in Hsame. }
    cbn in Hlt. lia.
  - destruct Hspec as (Hcom & Hrec & _). cbn [fst] in *. clear Habandon Hclaim.
    assert (Hmine : cleaning_claim updated h0) by (split; [done|unfold vr_State; by rewrite Hrec]).
    step_with rememberCleanup_safe; [done|by apply cleaning_claim_entitled|]. cbn. split_and!; [done| |done]. by rewrite Hrec.
Qed.

(** The outcome of a program that may have run out of fuel. *)
Definition reports_opt (fuel : nat) (states : list string) (h : history)
    (out : option (Snapshot * error)) : Prop :=
  match out with
  | Some out => reports states h out
  | None => strict = true -> Z.of_nat fuel <= max_uint64
  end.

Lemma finished_safe l h (p : outcome) fuel states :
  safely l h p (reports states) -> safely l h (finished p) (reports_opt fuel states).
Proof. intros Hp. unfold finished. by eapply safe_step; [exact Hp|]. Qed.

(** [!strong || !m.workspaceMatches(ctx, record.Record)]. *)
Lemma strong_matches_safe l h (strong : bool) r :
  safely l h (if strong then workspaceMatches r else mret false) (fun h' matches =>
    matches = true -> verified (rec_RootName r) (rec_WorkspaceRef r) h' /\
      validWorkspaceRef (rec_WorkspaceRef r) = true).
Proof. destruct strong; [apply workspaceMatches_safe|done]. Qed.

Lemma committed_seen vr h : committed vr h -> seen vr h.
Proof. by intros [? _]. Qed.

(** A record, owned and stopped, whose workspace is removed next. *)
Lemma condemned_removable vr h :
  condemned sha256 vr h -> verified (rec_RootName (vr_Record vr)) (rec_WorkspaceRef (vr_Record vr)) h ->
  removable (rec_RootName (vr_Record vr)) h.
Proof. intros. right. eauto. Qed.

Lemma failStartedExecution_safe l h fuel vr expected cause states :
  l <> Quiet -> abandonable vr expected h -> stopped (rec_Containment expected) h ->
  safely l h (failStartedExecution sha256 fuel vr expected cause) (reports_opt fuel states).
Proof.
  intros Hl Habandon Hstop. unfold failStartedExecution.
  pose proof (abandonable_range _ _ _ Habandon) as Hrange.
  step_with claim_started_safe; [done..|]. destruct x as [[r|err]|]; [|done|]; cycle 1.
  { intros Hs. specialize (Hspec Hs). lia. }
  destruct Hspec as ([Hcom Hstate] & Hcont & Hview). rewrite <- Hcont in Hstop.
  apply finished_safe. unfold forget. quiet_ask as []. quiet_ask as strong.
  quiet_step strong_matches_safe as matches Hver.
  destruct (negb strong || negb matches) eqn:Hmatch; [by apply quarantine_safe|]. conditions.
  destruct Hmatch as [-> ->]. destruct (Hver eq_refl) as [Hver' _]. clear Hver.
  assert (Hcond : condemned sha256 r h3).
  { split_and!; [by apply committed_seen|done|by left|by right]. }
  quiet_step removeRoot_safe as err Hgone; [by apply condemned_removable|]. on_error err.
  { by apply quarantine_safe. }
  specialize (Hgone eq_refl). apply committed_seen in Hcom.
  destruct (step_fail_started sha256 (vr_Record r)) as [Hnext Hlife]; [done|by eapply seen_valid|].
  step_with commitCleanupTerminal_safe; [done| |done|].
  - split_and!; try done. intros Heq. apply (f_equal rec_State) in Heq. simpl in Heq.
    unfold vr_State in Hstate. by rewrite Hstate in Heq.
  - destruct x as [out [err|]]; decided; [done|]. by call.
Qed.

(** ** Preparing *)

(** The durable first record of an execution, made by this dialogue. *)
Definition created (vr : VersionedRecord) (h : history) : Prop :=
  seen vr h /\ (exists token, happened (JournalCreate token (vr_Record vr)) (vr, true, None) h) /\
  vr_State vr = StatePreparing.
#[local] Instance created_stable vr : Stable (created vr).
Proof. unfold created. apply _. Qed.

Lemma create_safe h record :
  validRecord record = true -> rec_State record = StatePreparing ->
  safely Prepares h (create record) (fun h' '(r, ok, err) =>
    err = None -> ok = true -> created r h' /\ vr_Record r = record).
Proof.
  intros Hvalid Hstate. unfold create. step_with newOpaqueToken_safe.
  destruct x as [token|err]; [|done]. call; [by split_and!|].
  destruct a as [[r ok] err]. cbn. on_error err; [done|].
  destruct (ok && _) eqn:Hcheck; [done|]. intros _ ->. conditions.
  destruct Hcheck as [|[[Hrev Htok] Hrec]]; [done|]. split; [|done]. split_and!.
  - eapply seen_intro; [exact Hsaid|exact Hty|simpl; set_solver|].
    apply validVersioned_iff. rewrite Htok, Hrec. split_and!; [lia|done..].
  - exists token. by rewrite Hrec.
  - unfold vr_State. by rewrite Hrec.
Qed.

Lemma makeExecutionRoot_safe h id :
  safely Prepares h (makeExecutionRoot sha256 id) (fun h' made =>
    forall name, made = Ok name ->
      name = executionRootName sha256 id /\ happened (FsMkdir name) None h').
Proof.
  unfold makeExecutionRoot. call. on_error a; [done|].
  apply (safe_step _ _ _ _ _ (fun h' made => forall name, made = Ok name ->
      name = executionRootName sha256 id /\ happened (FsMkdir name) None h')).
  - call. on_error a; [done|]. call. on_error a; [done|].
    apply (safe_step _ _ _ _ _ (fun h' made => forall name, made = Ok name ->
      name = executionRootName sha256 id /\ happened (FsMkdir name) None h')).
    + call. on_error a; [done|]. call. cbn. destruct a; decided; [done|].
      intros name [= <-]. done.
    + intros h4 made Hpre' Hmade. call. intros name Hn. destruct (Hmade name Hn). by carry.
  - intros h4 made Hpre' Hmade. call. intros name Hn. destruct (Hmade name Hn). by carry.
Qed.

Lemma created_removable vr name h :
  created vr h -> rec_RootName (vr_Record vr) = name -> happened (FsMkdir name) None h ->
  removable name h.
Proof. intros (Hs & Ht & Hstate) Hroot Hm. left. exists vr. done. Qed.

Lemma populate_safe h request vr :
  created vr h -> rec_RootName (vr_Record vr) = executionRootName sha256 (preparation_ExecutionID request) ->
  safely Prepares h (populate sha256 request vr) (reports [StatePrepared]).
Proof.
  intros Hcreated Hroot. unfold populate.
  assert (Habandon : forall h' name cause, created vr h' -> rec_RootName (vr_Record vr) = name ->
    happened (FsMkdir name) None h' ->
    safely Prepares h' (removeErr ← removeRoot name;
      if removeErr != None then quarantine sha256 vr else failPreparation sha256 vr cause)
      (reports [StatePrepared])).
  { intros h' name cause Hc Hn Hm. step_with removeRoot_safe; [by eapply created_removable|].
    on_error x; [by apply quarantine_safe|]. specialize (Hspec eq_refl). subst name.
    destruct Hc as (Hseen & _ & Hstate). by apply failPreparation_safe. }
  step_with makeExecutionRoot_safe. destruct x as [name|err]; [|by apply quarantine_safe].
  destruct (Hspec name eq_refl) as [-> Hmade]. clear Hspec. call. on_error a.
  { call. by apply Habandon. }
  call. on_error a; [by apply Habandon|].
  step_with prepareWorkspace_safe. destruct x as [ref err].
  apply (safe_step _ _ _ _ _ (fun _ _ => True)).
  { destruct (_ && _); [|done]. by call. }
  intros h4 backend Hpre4 _. carry.
  destruct (_ || _ || _) eqn:Hbad; [by apply Habandon|]. conditions.
  destruct Hbad as [[-> Href] _]. destruct Hcreated as (Hseen & _ & Hstate).
  destruct (step_prepared sha256 (vr_Record vr) ref) as [Hnext Hlife]; [done|by eapply seen_valid|done|].
  step_with compareAndSwap_safe; [done| |].
  - apply (claimable_intro vr); [done|done|].
    unfold vr_State in Hstate. split_and!; cbn; rewrite ?Hstate; intros; destruct_or?; done.
  - destruct x as [r [err|]]; cbn; [done|]. destruct Hspec0 as (Hcom & Hrec & _).
    apply reports_intro; [by apply committed_seen|]. cbn [fst] in Hrec. unfold vr_State.
    rewrite Hrec. set_solver.
Qed.

Lemma stateError_none r :
  stateError r = None -> validRecord r = true -> rec_State r ∈ [StatePrepared; StateRunning].
Proof.
  unfold stateError. rewrite validRecord_iff. unfold state_valid. intros Herr [_ Hvalid].
  destruct (rec_State r == StateCleanupFailed) eqn:H1; [done|].
  destruct (rec_State r == StatePreparing) eqn:H2; [done|].
  destruct (rec_State r == StateStarting) eqn:H3; [done|].
  destruct (rec_State r == StateCleaning) eqn:H4; [done|].
  destruct (rec_State r == StateReleased) eqn:H5; [done|].
  destruct (rec_State r == StateFailed) eqn:H6; [done|].
  destruct (rec_State r == StatePrepared) eqn:H7; conditions; [set_solver|].
  destruct (rec_State r == StateRunning) eqn:H8; conditions; [set_solver|done].
Qed.

Lemma sum_digest_canonical s : canonicalDigest (hex_encode (sha256 s)) = true.
Proof.
  unfold canonicalDigest. rewrite hex_encode_length, sha256_size, hex_encode_lower.
  by rewrite bool_decide_eq_true_2.
Qed.

Lemma validatePreparation_none request :
  validatePreparation request = None ->
  preparation_ExecutionID request <> "" /\
  path_Base (preparation_ExecutionID request) = preparation_ExecutionID request /\
  Package_valid (preparation_Package request) = true.
Proof. unfold validatePreparation. destruct (_ || _ || _) eqn:Hbad; [done|]. conditions. tauto. Qed.

Lemma locked_safe l {A} h (body : prog A) (R : history -> A -> Prop) :
  l <> Quiet -> (forall x, Stable (fun h => R h x)) ->
  (forall h', h `prefix_of` h' -> safely l h' body R) -> safely l h (locked body) R.
Proof.
  intros Hl HR Hbody. unfold locked. call. eapply safe_step; [by apply Hbody|].
  intros h1 x Hpre1 Hx. call. simpl. eapply HR; [|exact Hx]. done.
Qed.

#[local] Instance reports_stable states out : Stable (fun h => reports states h out).
Proof. unfold reports. apply _. Qed.
#[local] Instance reports_opt_stable fuel states out : Stable (fun h => reports_opt fuel states h out).
Proof. unfold reports_opt. destruct out; apply _. Qed.

Lemma ensurePrepared_locked_safe h request :
  validatePreparation request = None ->
  safely Prepares h (ensurePrepared_locked sha256 request) (reports [StatePrepared; StateRunning]).
Proof.
  intros (Hid & _ & Hpkg)%validatePreparation_none. unfold ensurePrepared_locked.
  step_with load_safe. destruct x as [[r found] err]. destruct Hspec as [_ Hseen].
  on_error err; [done|]. destruct found.
  - destruct (negb (validVersionedRecord r)) eqn:Hvalid; [done|].
    destruct (_ != preparationDigest _ _); [done|]. conditions. specialize (Hseen eq_refl Hvalid).
    step_with active_matches_safe. destruct x; cbn [negb]; [|done].
    destruct (stateError (vr_Record r)) eqn:Herr; [done|].
    apply reports_intro; [done|]. apply stateError_none; [done|by eapply seen_valid].
  - call; [exact Hpkg|]. destruct a as [[|]|err]; [|done..].
    apply (safe_step _ _ _ _ _ (reports [StatePrepared; StateRunning])).
    + step_with create_safe; [|done|].
      * apply validRecord_iff. split; [|done]. split_and!; cbn; [done..|apply sum_digest_canonical|by left].
      * destruct x as [[vr ok] err]. on_error err; [done|]. destruct ok; [|done].
        destruct (Hspec eq_refl eq_refl) as [Hc Hrec]. decided.
        eapply safe_mono; [apply populate_safe; [done|by rewrite Hrec]|].
        intros h' out _ Hout Hnone. destruct (Hout Hnone) as (v & ? & ? & ?). exists v. set_solver.
    + intros h2 out Hpre2 Hout. call. by eapply reports_stable; [|exact Hout].
Qed.

Lemma EnsurePrepared_safe h request :
  safely Prepares h (EnsurePrepared sha256 request) (reports [StatePrepared; StateRunning]).
Proof.
  unfold EnsurePrepared. destruct (validatePreparation request) eqn:Hval; [done|].
  call. destruct a; decided; [|done]. call. case_bool_decide; [done|]. call. on_error a0; [done|].
  apply locked_safe; [done|apply _|]. intros h' _. by apply ensurePrepared_locked_safe.
Qed.

(** ** Starting *)

Lemma never_snoc k h c a : never k h -> k c = false -> never k (h ++ [said c a]).
Proof.
  intros Hn Hc c' a' Hin. unfold happened in Hin. apply elem_of_app in Hin as [Hin|Hin]; [by eapply Hn|].
  apply list_elem_of_singleton in Hin. apply (f_equal (@projT1 _ _)) in Hin. simpl in Hin. by subst c'.
Qed.

(** Facts about the calls that have not been made. *)
Definition Kept (I : history -> Prop) : Prop :=
  forall h c a, within Quiet c = true -> I h -> I (h ++ [said c a]).
Lemma kept_never_start : Kept (never is_start).
Proof. intros h c a Hc Hn. apply never_snoc; [done|by destruct c]. Qed.
Lemma kept_never_exposure : Kept (never is_exposure).
Proof. intros h c a Hc Hn. apply never_snoc; [done|by destruct c]. Qed.
Lemma kept_impl (P : Prop) I : Kept I -> Kept (fun h => P -> I h).
Proof. intros HI h c a Hc Hn HP. by apply HI, Hn. Qed.
Lemma kept_and I J : Kept I -> Kept J -> Kept (fun h => I h /\ J h).
Proof. intros HI HJ h c a Hc [? ?]. split; [by apply HI|by apply HJ]. Qed.
Lemma kept_const P : Kept (fun _ => P).
Proof. by intros h c a _. Qed.
#[local] Hint Resolve kept_never_start kept_never_exposure kept_impl kept_and kept_const : core.

Lemma quiet_keeps l (I : history -> Prop) {A} (p : prog A) R h :
  Kept I -> safely Quiet h p R -> I h -> safely l h p (fun h' x => R h' x /\ I h').
Proof. intros HI. apply (level_frame Quiet l); [exact HI| |done]. intros c Hc. by destruct c, l. Qed.

(** A lease that can still hand out [value] has not done so. *)
Definition fresh_lease (value : string) (lease : jitLease) (h : history) : Prop :=
  lease_consumed lease = false -> lease_value lease = value /\ never is_exposure h.

Lemma fresh_lease_step value lease lease' h :
  fresh_lease value lease h ->
  (lease_consumed lease' = false ->
     lease_consumed lease = false /\ lease_value lease' = lease_value lease) ->
  fresh_lease value lease' h.
Proof. intros Hf Hl Hc. destruct (Hl Hc) as [Hc' ->]. by apply Hf. Qed.

Lemma verify_begin_fresh value lease h :
  fresh_lease value lease h -> fresh_lease value (verify_begin lease).1 h.
Proof.
  intros Hf. eapply fresh_lease_step; [exact Hf|]. unfold verify_begin.
  destruct (_ || _ || _) eqn:Hg; simpl; [|done]. by destruct (lease_revoked lease).
Qed.
Lemma verify_end_fresh value lease err h :
  fresh_lease value lease h -> fresh_lease value (verify_end lease err).1 h.
Proof.
  intros Hf. eapply fresh_lease_step; [exact Hf|]. unfold verify_end.
  destruct (_ || _ || _ || _) eqn:Hg; simpl; [|done]. by destruct (lease_revoked lease).
Qed.

Lemma platform_calls_safe h calls vr lease value :
  starting sha256 vr h -> hex_encode (sha256 value) = rec_JITDigest (vr_Record vr) ->
  fresh_lease value lease h ->
  safely Starts h (platform_calls calls (vr_Record vr) lease) (fun _ _ => True).
Proof.
  intros Hstart Hdigest. revert h lease Hstart.
  induction calls as [|[|] calls IH]; intros h lease Hstart Hfresh; [done|..]; cbn [platform_calls].
  - apply verify_begin_fresh in Hfresh. destruct (verify_begin lease) as [l1 err].
    cbn [fst] in Hfresh. on_error err; [by apply IH|].
    eapply safe_step; [apply (quiet_keeps _ (fresh_lease value l1));
      [unfold fresh_lease; auto 10|apply workspaceMatches_safe|exact Hfresh]|].
    intros h1 matches Hpre [_ Hf]. carry. by apply IH, verify_end_fresh.
  - unfold deliver_begin. destruct (lease_revoked lease) eqn:Hrev; [by apply IH|].
    destruct (lease_consumed lease) eqn:Hcon.
    { apply IH; [done|]. eapply fresh_lease_step; [exact Hfresh|]. done. }
    destruct (_ || lease_contractFailed lease) eqn:Hbad.
    { apply IH; [done|]. eapply fresh_lease_step; [exact Hfresh|]. done. }
    destruct (Hfresh Hcon) as [-> Hnever]. call; [by split; [|exists vr]|].
    apply IH; [done|]. intros Hcon'. exfalso. revert Hcon'. unfold deliver_end.
    by destruct (_ || _ || _).
Qed.

(** The durable start the delivery is for. *)
Definition start_of (vr : VersionedRecord) (containment : ContainmentRef) (jitDigest : string)
    (h : history) : Prop :=
  starting sha256 vr h /\
  (rec_Containment (vr_Record vr) = containment /\ rec_JITDigest (vr_Record vr) = jitDigest).
#[local] Instance start_of_stable vr c d : Stable (start_of vr c d).
Proof. unfold start_of. apply _. Qed.

Lemma start_process_safe h request vr containment jitDigest value :
  start_of vr containment jitDigest h -> hex_encode (sha256 value) = jitDigest ->
  verified (rec_RootName (vr_Record vr)) (rec_WorkspaceRef (vr_Record vr)) h ->
  never is_start h -> never is_exposure h ->
  safely Starts h (start_process Join windows runtimeRoot request vr containment value)
    (fun h' out => out.2 = None -> happened SupStarted (out.1, None) h').
Proof.
  intros [Hstart [Hcont Hjit]] Hvalue Hver Hns Hne. unfold start_process.
  split. { split; [|done]. split; [done|]. exists vr. by rewrite Hcont. }
  intros calls _. set (h1 := h ++ [said _ calls]).
  assert (Hpre : h `prefix_of` h1) by (by eexists).
  assert (Hne1 : never is_exposure h1) by (by apply never_snoc). clearbody h1. carry.
  change (safely Starts h1 (lease ← platform_calls calls (vr_Record vr) (newJITArgument value);
    returned ← ask SupStarted;
    let '(process, supervisorErr) := returned in
    mret (process, if (supervisorErr == None) && negb (finishStart lease).2 then Some ErrStartFailed
                   else supervisorErr))
    (fun h' out => out.2 = None -> happened SupStarted (out.1, None) h')).
  step_with platform_calls_safe; [done|by rewrite Hvalue|by intros _|].
  call. destruct a as [process err]. cbn. destruct err as [err|]; [done|].
  destruct (_ && _); [done|]. done.
Qed.

(** What is known of the variables the delivery callback shares. *)
Definition unstarted (d : delivery) (h : history) : Prop :=
  delivery_started d = false -> never is_start h /\ never is_exposure h.
Definition started_well (d : delivery) (results : list error) (h : history) : Prop :=
  Forall (fun err => err = None) results -> delivery_started d = true ->
  happened SupStarted (delivery_process d, None) h.
#[local] Instance started_well_stable d results : Stable (started_well d results).
Proof. unfold started_well. apply _. Qed.

Lemma receive_jit_safe h request vr containment jitDigest value d :
  start_of vr containment jitDigest h -> unstarted d h ->
  safely Starts h (receive_jit sha256 Join windows runtimeRoot request vr containment jitDigest value d)
    (fun h' out => unstarted out.1 h' /\
       (out.2 = None -> happened SupStarted (delivery_process out.1, None) h')).
Proof.
  intros Hstart Hun. unfold receive_jit. destruct (value == ""); [done|].
  destruct (hex_encode (sha256 value) != jitDigest) eqn:Hvalue; [done|]. conditions.
  destruct (delivery_started d) eqn:Hd; [done|].
  eapply safe_step; [apply (quiet_keeps _ (unstarted d));
    [unfold unstarted; auto 10|apply workspaceMatches_safe|exact Hun]|].
  intros h1 matches Hpre [Hver Hun1]. carry. destruct matches; decided; cycle 1.
  { cbn. split; [intros _; by apply Hun1|done]. }
  destruct (Hver eq_refl) as [Hver' _]. destruct (Hun1 Hd) as [Hns Hne].
  step_with start_process_safe; [done..|]. by destruct x as [process err].
Qed.

Lemma receive_all_safe h request vr containment jitDigest values d results :
  start_of vr containment jitDigest h -> unstarted d h -> started_well d results h ->
  safely Starts h
    (receive_all sha256 Join windows runtimeRoot request vr containment jitDigest values d results)
    (fun h' out => started_well out.1 out.2 h').
Proof.
  revert h d results. induction values as [|value values IH]; intros h d results Hstart Hun Hwell; [done|].
  cbn [receive_all]. step_with receive_jit_safe; [done..|]. destruct x as [d' err].
  destruct Hspec as [Hun' Hok]. apply IH; [done|done|].
  intros Hall _. apply Hok. apply Forall_app in Hall as [_ Herr]. by rewrite Forall_singleton in Herr.
Qed.

Lemma stop_safe l h pid containment :
  safely l h (ask (SupStop (mkProcess pid containment))) (fun h' err =>
    err = None -> stopped containment h').
Proof. split; [by split|]. intros err _ ->. exists pid. unfold happened. set_solver. Qed.

(** The durable starting record can be cleaned up from, or taken back. *)
Lemma starting_abandonable vr h :
  starting sha256 vr h -> abandonable vr (vr_Record vr) h.
Proof.
  intros [Hcom Hstate]. apply committed_seen in Hcom.
  destruct (step_cleaning sha256 (vr_Record vr)) as [Hnext Hlife];
    [unfold vr_State in Hstate; rewrite Hstate; set_solver|by eapply seen_valid|].
  split_and!; [apply (claimable_intro vr); [done|done|apply evidence_cleaning]|done|done].
Qed.

Lemma unstart_safe h vr :
  starting sha256 vr h -> stopped (rec_Containment (vr_Record vr)) h ->
  safely Starts h (compareAndSwap sha256 (unstart vr)) (swap_post (unstart vr)).
Proof.
  intros [Hcom Hstate] Hstop. apply committed_seen in Hcom.
  destruct (step_unstart sha256 (vr_Record vr)) as [Hnext Hlife]; [done|by eapply seen_valid|].
  apply compareAndSwap_safe; [done|]. apply (claimable_intro vr); [done|done|].
  split_and!; cbn; intros; destruct_or?; done.
Qed.

Lemma delivery_failed_safe h fuel vr d states :
  starting sha256 vr h ->
  safely Starts h (delivery_failed sha256 fuel vr (rec_Containment (vr_Record vr)) d) (reports_opt fuel states).
Proof.
  intros Hstart. unfold delivery_failed. step_with stop_safe. on_error x; [by apply finished_safe, quarantine_safe|].
  specialize (Hspec eq_refl).
  destruct (_ && _); [by apply finished_safe, quarantine_safe|].
  destruct (_ || _); [by apply finished_safe, quarantine_safe|].
  destruct (errors_Is _ _); [done|]. destruct (delivery_started d).
  - apply failStartedExecution_safe; [done|by apply starting_abandonable|done].
  - step_with unstart_safe; [done..|]. destruct x as [r [err|]]; done.
Qed.

(** The record of the process that was started. *)
Definition running_of (vr : VersionedRecord) (process : Process) : VersionedRecord :=
  on_record (set_Containment (process_Containment process))
    (on_record (set_PID (process_PID process)) (on_record (set_State StateRunning) vr)).

Lemma running_safe h vr process :
  starting sha256 vr h -> happened SupStarted (process, None) h -> 0 < process_PID process ->
  process_Containment process = rec_Containment (vr_Record vr) ->
  safely Starts h (compareAndSwap sha256 (running_of vr process)) (swap_post (running_of vr process)).
Proof.
  intros [Hcom Hstate] Hproc Hpid Hcont. apply committed_seen in Hcom.
  destruct (step_running sha256 (vr_Record vr) (process_PID process)) as [Hnext Hlife];
    [done|by eapply seen_valid|done|].
  rewrite <- Hcont in Hnext, Hlife.
  apply compareAndSwap_safe; [done|]. apply (claimable_intro vr); [done|done|].
  split_and!; cbn; intros; destruct_or?; try done. by destruct process.
Qed.

(** Whatever the update to the running record left: it can be cleaned up from. *)
Lemma running_abandonable h vr process r :
  starting sha256 vr h -> 0 < process_PID process ->
  process_Containment process = rec_Containment (vr_Record vr) ->
  r = running_of vr process \/ seen r h ->
  sameStartedRuntime (vr_Record r) (vr_Record (running_of vr process)) = true ->
  abandonable r (vr_Record (running_of vr process)) h.
Proof.
  intros [Hcom Hstate] Hpid Hcont [->|Hr] Hsame; [|by apply same_started_abandonable].
  apply committed_seen in Hcom.
  destruct (step_cleaning_started sha256 (vr_Record vr) (process_PID process)) as [Hnext Hlife];
    [done|by eapply seen_valid|done|]. rewrite <- Hcont in Hnext, Hlife.
  split_and!; [apply (claimable_intro vr); [done|done|apply evidence_cleaning]|done|done].
Qed.

Lemma delivery_done_safe h fuel vr d :
  starting sha256 vr h ->
  (delivery_started d = true -> happened SupStarted (delivery_process d, None) h) ->
  safely Starts h (delivery_done sha256 fuel vr (rec_Containment (vr_Record vr)) d)
    (reports_opt fuel [StateRunning]).
Proof.
  intros Hstart Hproc. unfold delivery_done. destruct (delivery_started d) eqn:Hd; decided; cycle 1.
  { step_with stop_safe. on_error x; [by apply finished_safe, quarantine_safe|].
    step_with unstart_safe; [done|by apply Hspec|]. destruct x as [r [err|]]; decided; [|done].
    by apply finished_safe, quarantine_safe. }
  specialize (Hproc eq_refl). destruct (_ || _) eqn:Hbad.
  { step_with stop_safe. on_error x; [by apply finished_safe, quarantine_safe|].
    destruct (_ != _); [by apply finished_safe, quarantine_safe|].
    apply failStartedExecution_safe; [done|by apply starting_abandonable|by apply Hspec]. }
  conditions. destruct Hbad as [Hpid Hcont]. set (process := delivery_process d) in *.
  step_with running_safe; [exact Hstart|exact Hproc|lia|done|].
  destruct x as [r [err|]]; cycle 1.
  - destruct Hspec as (Hcom & Hrec & _). unfold remember. call.
    apply reports_intro; [by apply committed_seen|]. cbn in Hrec. unfold vr_State. cbn.
    rewrite Hrec. set_solver.
  - destruct Hspec as [Hr _]. cbn [fst] in Hr.
    destruct (sameStartedRuntime (vr_Record r) (vr_Record (running_of vr process))) eqn:Hsame.
    + assert (Hab : abandonable r (vr_Record (running_of vr process)) h0)
        by (by apply running_abandonable; [|lia|..]).
      destruct process as [pid containment] eqn:Hp.
      step_with stop_safe. on_error x; [by apply finished_safe, quarantine_safe|].
      unfold running_of in Hsame. rewrite Hsame. apply failStartedExecution_safe; [done|done|by apply Hspec].
    + destruct process as [pid containment] eqn:Hp. step_with stop_safe.
      on_error x; [by apply finished_safe, quarantine_safe|]. unfold running_of in Hsame. by rewrite Hsame.
Qed.

(** Nothing was started or exposed in the dialogue. *)
Definition untouched (h : history) : Prop := never is_start h /\ never is_exposure h.
Lemma kept_untouched : Kept untouched.
Proof. apply kept_and; auto. Qed.
#[local] Hint Resolve kept_untouched : core.

Lemma call_untouched {A} c (f : answer c -> prog A) Q h :
  allowed sha256 Starts h c -> is_start c = false -> is_exposure c = false -> untouched h ->
  (forall h' a, h `prefix_of` h' -> happened c a h' -> typed c a -> untouched h' ->
     safely Starts h' (f a) Q) ->
  safely Starts h (mbind f (ask c)) Q.
Proof.
  intros Hc Hs He [Hns Hne] Hf. simpl. split; [done|]. intros a [Ha _].
  apply Hf; [by eexists|unfold happened; set_solver|done|split; by apply never_snoc].
Qed.
Ltac call_untouched :=
  eapply call_untouched; [by split|done|done|done|intros ?h ?a ?Hpre ?Hsaid ?Hty ?Hun; carry].

Lemma start_prepared_safe h fuel request jitDigest vr :
  seen vr h -> vr_State vr = StatePrepared -> canonicalDigest jitDigest = true -> untouched h ->
  safely Starts h (start_prepared sha256 Join windows runtimeRoot fuel request jitDigest vr)
    (reports_opt fuel [StateRunning]).
Proof.
  intros Hseen Hstate Hjit Hun. unfold start_prepared. call_untouched.
  destruct a as [containment err]. destruct (_ || _ || _) eqn:Hbad; [done|]. conditions.
  destruct Hbad as [[_ Hcont] _].
  eapply safe_step; [apply (quiet_keeps _ untouched); [done|apply newOpaqueToken_safe|done]|].
  intros h1 token Hpre1 [Htoken Hun1]. carry. destruct token as [token|err']; [|done].
  set (fenced := mkContainmentRef _ _ _ _ _ _).
  assert (Hfenced : validFencedContainment fenced = true).
  { unfold validFencedContainment. conditions. done. }
  destruct (step_starting sha256 (vr_Record vr) jitDigest fenced) as [Hnext Hlife];
    [done|by eapply seen_valid|done|done|].
  eapply safe_step; [apply (quiet_keeps _ untouched); [done|apply compareAndSwap_safe|done]|].
  - done.
  - apply (claimable_intro vr); [done|done|].
    unfold vr_State in Hstate. split_and!; cbn; rewrite ?Hstate; intros; destruct_or?; done.
  - intros h2 [r err'] Hpre2 [Hswap Hun2]. carry. on_error err'; [done|].
    destruct Hswap as (Hcom & Hrec & _). cbn [fst] in *.
    assert (Hstart : starting sha256 r h2) by (split; [done|unfold vr_State; by rewrite Hrec]).
    assert (Hcr : rec_Containment (vr_Record r) = fenced) by (by rewrite Hrec).
    call_untouched. eapply safe_step; [apply receive_all_safe|].
    + split; [exact Hstart|]. split; [exact Hcr|]. by rewrite Hrec.
    + intros _. exact Hun3.
    + by intros _.
    + intros h4 [d results] Hpre4 Hwell. carry. cbn [fst snd] in Hwell. rewrite <- Hcr.
      call. on_error a0; [by apply delivery_failed_safe|].
      apply delivery_done_safe; [done|]. apply Hwell. by apply (proj1 Hty1).
Qed.

Lemma owns_safe l h vr :
  safely l h (owns vr) (fun _ _ => True).
Proof. unfold owns. by call. Qed.

Lemma ensureRunning_locked_safe h fuel request jitDigest :
  canonicalDigest jitDigest = true -> untouched h ->
  safely Starts h (ensureRunning_locked sha256 Join windows runtimeRoot fuel request jitDigest)
    (reports_opt fuel [StateRunning]).
Proof.
  intros Hjit Hun. unfold ensureRunning_locked.
  eapply safe_step; [apply (quiet_keeps _ untouched); [done|apply load_safe|done]|].
  intros h1 [[r found] err] Hpre1 [[_ Hseen] Hun1]. on_error err; [done|].
  destruct (negb (validVersionedRecord r)) eqn:Hvalid; [done|]. conditions.
  specialize (Hseen eq_refl Hvalid).
  eapply safe_step; [apply (quiet_keeps _ untouched); [done|apply active_matches_safe|done]|].
  intros h2 matches Hpre2 [_ Hun2]. carry. destruct matches; decided; [|done].
  destruct (vr_State r == StateRunning) eqn:Hrunning.
  { destruct (_ != _); [done|]. step_with owns_safe. destruct x; decided; [|done]. call.
    destruct a as [alive err]. destruct (_ || _); [done|]. conditions.
    apply reports_intro; [done|]. rewrite Hrunning. set_solver. }
  destruct (_ || _); [done|]. destruct (vr_State r == StatePrepared) eqn:Hprep; [|done]. conditions.
  by apply start_prepared_safe.
Qed.

Lemma EnsureRunning_safe h fuel request :
  untouched h ->
  safely Starts h (EnsureRunning sha256 Join windows runtimeRoot fuel request)
    (reports_opt fuel [StateRunning]).
Proof.
  intros Hun. unfold EnsureRunning. destruct (validatePreparation _); [done|].
  destruct (start_JIT request) as [jit|]; [|done].
  destruct (negb (canonicalDigest (jit_Digest jit))) eqn:Hjit; [done|]. conditions.
  call_untouched. destruct a; decided; [|done]. call_untouched. destruct a; decided; [|done].
  call_untouched.
  eapply (safe_step _ _ _ _ _ (fun h' _ => untouched h')).
  { case_bool_decide; [done|]. call_untouched. by call_untouched. }
  intros h3 understood Hpre3 Hun3. destruct understood; decided; [|done].
  eapply safe_step; [apply (level_frame Prepares Starts untouched);
    [|by intros []|done|apply EnsurePrepared_safe|done]|].
  { intros h' c a' Hc [??]. split; apply never_snoc; try done; by destruct c. }
  intros h4 prepared Hpre4 [_ Hun4]. destruct (_ != None) eqn:Herr.
  { intros Hnone. conditions. done. }
  unfold locked. call_untouched.
  eapply safe_step; [by apply ensureRunning_locked_safe|].
  intros h6 x Hpre6 Hx. call. simpl. eapply reports_opt_stable; [|exact Hx]. done.
Qed.

(** ** Observing *)

Lemma Inspect_safe h id :
  safely Ending h (Inspect sha256 id) (reports [StatePrepared; StateRunning]).
Proof.
  unfold Inspect. destruct (id == ""); [done|]. apply locked_safe; [done|apply _|]. intros h0 _.
  step_with load_safe. destruct x as [[r found] err]. destruct Hspec as [_ Hseen].
  on_error err; [done|]. destruct found; decided; [|done].
  destruct (negb (validVersionedRecord r)) eqn:Hvalid; [done|]. conditions.
  specialize (Hseen eq_refl Hvalid). step_with active_matches_safe. destruct x; decided; [|done].
  assert (Hdone : forall h', seen r h' ->
    reports [StatePrepared; StateRunning] h' (snapshot (vr_Record r), stateError (vr_Record r))).
  { intros h' Hs Hnone. exists r. split_and!; [done|done|].
    apply stateError_none; [done|by eapply seen_valid]. }
  destruct (vr_State r == StateRunning); [|by apply Hdone].
  step_with owns_safe. destruct x; decided; [|done]. call. destruct a as [alive err].
  destruct (_ || _); [done|]. by apply Hdone.
Qed.

Lemma unlock_return_safe l h (out : Snapshot * error) states :
  l <> Quiet -> reports states h out -> safely l h (unlock_return out) (reports states).
Proof. intros Hl Hout. unfold unlock_return. call. by eapply reports_stable. Qed.

Lemma Wait_safe h id : safely Ending h (Wait sha256 id) (reports [StateRunning]).
Proof.
  unfold Wait. destruct (id == ""); [done|]. call. step_with load_safe.
  destruct x as [[r found] err]. destruct Hspec as [_ Hseen].
  on_error err; [by apply unlock_return_safe|]. destruct found; decided; [|by apply unlock_return_safe].
  destruct (negb (validVersionedRecord r)) eqn:Hvalid; [by apply unlock_return_safe|]. conditions.
  specialize (Hseen eq_refl Hvalid). destruct (vr_State r != StateRunning) eqn:Hstate.
  { destruct (stateError _); by apply unlock_return_safe. }
  step_with owns_safe. destruct x; decided; [|by apply unlock_return_safe]. call.
  apply (safe_step _ _ _ _ _ (fun _ _ => True)); [destruct a0; [by call|done]|].
  intros h4 strong Hpre4 _. carry. destruct (_ || _); [by apply unlock_return_safe|].
  call. call. on_error a2.
  - call. on_error a2; [|done]. call. intros Hnone. cbn in Hnone. subst.
    exists r. conditions. split_and!; [done|done|rewrite Hstate; set_solver].
  - apply reports_intro; [done|]. conditions. rewrite Hstate. set_solver.
Qed.

(** ** Destroying and recovering *)

Lemma stop_boundary_safe l h r :
  validRecord r = true -> rec_State r = StateCleaning ->
  safely l h (stop_boundary r) (fun h' ok => ok = true -> quiesced r h').
Proof.
  intros Hvalid Hstate. unfold stop_boundary. destruct (_ || _) eqn:Hb.
  - call. destruct (negb a || _); [done|]. step_with stop_safe. cbn. on_error x; [done|].
    intros _. right. by apply Hspec.
  - cbn. intros _. left. apply validRecord_iff in Hvalid as [_ Hvalid]. revert Hvalid.
    unfold state_valid. rewrite Hstate. decide_states. unfold validFencedContainment.
    conditions. destruct Hb as [Hpid Hc]. unfold validContainment in *. conditions.
    intros [? _]. naive_solver.
Qed.

(** A cleaning record of this Manager. *)
Definition doomed (vr : VersionedRecord) (h : history) : Prop :=
  seen vr h /\ vr_State vr = StateCleaning /\ claimed sha256 vr h.
#[local] Instance doomed_stable vr : Stable (doomed vr).
Proof. unfold doomed. apply _. Qed.

Lemma tear_down_safe l h vr :
  condemned sha256 vr h ->
  safely l h (tear_down (vr_Record vr)) (fun h' out => out <> None ->
    removed (rec_RootName (vr_Record vr)) h' /\ validWorkspaceRef (rec_WorkspaceRef (vr_Record vr)) = true).
Proof.
  intros Hcond. unfold tear_down. call. destruct a; decided; [|done]. call. on_error a; [done|].
  destruct (negb (validWorkspaceRef _)) eqn:Hws; [done|]. conditions. call.
  destruct (_ && _) eqn:Hfin.
  - step_with finalizeCleanup_safe; [exists vr; done|]. cbn. on_error x; [done|]. intros _. auto.
  - step_with workspaceRef_safe. destruct x as [ref err]. destruct (_ || _) eqn:Hbad; [done|].
    conditions. destruct Hbad as [-> ->]. specialize (Hspec eq_refl).
    step_with removeRoot_safe; [by apply condemned_removable|]. cbn. on_error x; [done|]. auto.
Qed.

Lemma destroy_owned_safe l h vr :
  l <> Quiet -> doomed vr h -> cleanup_view (vr_ExecutionID vr) h = Some (Some (vr_Revision vr)) ->
  safely l h (destroy_owned sha256 vr) (reports [StateReleased]).
Proof.
  intros Hl Hdoom Hview. pose proof Hdoom as (Hseen & Hstate & _). unfold destroy_owned, forget.
  quiet_ask as []. pose proof (seen_valid _ _ Hseen) as Hvalid.
  quiet_step stop_boundary_safe as stopped Hstop; [done|done|].
  destruct stopped; decided; [|by apply quarantine_safe]. specialize (Hstop eq_refl).
  assert (Hcond : condemned sha256 vr h1).
  { destruct Hdoom as (? & ? & ?). by split_and!. }
  quiet_step tear_down_safe as supports Hgone; [exact Hcond|].
  destruct supports as [supports|]; [|by apply quarantine_safe].
  destruct (Hgone ltac:(done)) as [Hremoved Hws]. clear Hgone.
  destruct (step_released sha256 (vr_Record vr)) as [Hnext Hlife]; [done..|].
  step_with commitCleanupTerminal_safe; [done| |done|].
  - split_and!; cbn; intros; try done. intros Heq. apply (f_equal rec_State) in Heq. cbn in Heq.
    unfold vr_State in Hstate. by rewrite Hstate in Heq.
  - destruct x as [r [err|]]; decided; [done|]. destruct (Hspec eq_refl) as [Hr Hrec]. cbn [fst] in *.
    unfold forgetCleanup. call.
    apply (safe_step _ _ _ _ _ (fun _ _ => True)); [destruct (_ && _); [|done]; by call|].
    intros h5 [] Hpre5 _. carry. apply reports_intro; [done|].
    unfold vr_State. rewrite Hrec. set_solver.
Qed.

(** Claim the cleanup of a record that is not yet cleaning. *)
Lemma claim_cleaning_safe l h vr :
  seen vr h -> vr_State vr ∈ [StatePreparing; StatePrepared; StateStarting; StateRunning] ->
  safely l h (compareAndSwap sha256 (on_record (set_State StateCleaning) vr)) (fun h' '(r, err) =>
    err = None -> cleaning_claim r h').
Proof.
  intros Hseen Hstate.
  destruct (step_cleaning sha256 (vr_Record vr)) as [Hnext Hlife]; [done|by eapply seen_valid|].
  eapply safe_mono; [apply compareAndSwap_safe|].
  - done.
  - apply (claimable_intro vr); [done|done|apply evidence_cleaning].
  - intros h' [r err] _ Hpost ->. destruct Hpost as (Hcom & Hrec & _). cbn [fst] in *.
    split; [done|]. unfold vr_State. by rewrite Hrec.
Qed.

Lemma cleaning_claim_doomed vr h : cleaning_claim vr h -> doomed vr h.
Proof. intros [Hcom Hstate]. split_and!; [by apply committed_seen|done|by left]. Qed.

(** The states of a valid record. *)
Lemma valid_states vr :
  validRecord (vr_Record vr) = true ->
  vr_State vr ∈ [StatePreparing; StatePrepared; StateStarting; StateRunning; StateCleaning;
                 StateReleased; StateFailed; StateCleanupFailed].
Proof.
  rewrite validRecord_iff. unfold state_valid, vr_State. intros [_ Hvalid].
  repeat (case_bool_decide as H; [rewrite H; set_solver|clear H]). done.
Qed.

Lemma Destroy_safe l h id :
  l <> Quiet -> safely l h (Destroy sha256 id) (reports [StateReleased; StateFailed]).
Proof.
  intros Hl. unfold Destroy. destruct (id == ""); [done|]. apply locked_safe; [done|apply _|]. intros h0 _.
  step_with load_safe. destruct x as [[r found] err]. destruct Hspec as [_ Hseen].
  on_error err; [done|]. destruct found; decided; [|done].
  destruct (negb (validVersionedRecord r)) eqn:Hvalid; [done|]. conditions.
  specialize (Hseen eq_refl Hvalid).
  assert (Hweak : forall h' out, reports [StateReleased] h' out ->
    reports [StateReleased; StateFailed] h' out).
  { intros h' out Hout Hnone. destruct (Hout Hnone) as (v & ? & ? & ?). exists v. set_solver. }
  destruct (_ || (vr_State r == StateFailed)) eqn:Hdone.
  { unfold forget, forgetCleanup. call. call. apply reports_intro; [done|]. conditions.
    destruct Hdone as [-> | ->]; set_solver. }
  destruct (vr_State r == StateCleanupFailed) eqn:Hquar.
  { unfold forget, forgetCleanup. call. by call. }
  destruct (vr_State r != StateCleaning) eqn:Hclean.
  - conditions. pose proof (valid_states r (seen_valid _ _ Hseen)) as Hstates.
    step_with claim_cleaning_safe; [done|set_solver|]. destruct x as [r' err].
    on_error err; [done|]. specialize (Hspec eq_refl).
    step_with rememberCleanup_safe; [done|by apply cleaning_claim_entitled|].
    eapply safe_mono; [apply destroy_owned_safe; [done|by apply cleaning_claim_doomed|done]|].
    intros h' out _. apply Hweak.
  - conditions. step_with ownsCleanup_safe; [done|]. destruct x; decided; [|done].
    destruct (Hspec eq_refl) as (Howned & _ & Hview & _).
    eapply safe_mono; [apply destroy_owned_safe; [done| |done]|intros h' out _; apply Hweak].
    split_and!; [done|done|by right].
Qed.

Lemma recover_cleanup_safe h id vr :
  seen vr h -> vr_State vr ∈ [StatePreparing; StatePrepared; StateStarting; StateRunning] ->
  safely Recovers h (recover_cleanup sha256 id vr)
    (reports [StatePrepared; StateRunning; StateReleased; StateFailed]).
Proof.
  intros Hseen Hstate. unfold recover_cleanup, claimRecoveryCleanup.
  apply (safe_step _ _ _ _ _ (fun _ _ => True)).
  - apply (safe_step _ _ _ _ _ (fun h' '(r, err) => err = None -> cleaning_claim r h')).
    + rewrite bool_decide_eq_false_2 by (intros Heq; rewrite Heq in Hstate; set_solver).
      by apply claim_cleaning_safe.
    + intros h1 [r err] _ Hclaim. on_error err; [done|]. specialize (Hclaim eq_refl).
      unfold forget. call. step_with rememberCleanup_safe; [done|by apply cleaning_claim_entitled|]. done.
  - intros h1 [r err] _ _. on_error err; [by apply unlock_return_safe|]. call.
    eapply safe_mono; [by apply Destroy_safe|]. intros h' out _ Hout Hnone.
    destruct (Hout Hnone) as (v & ? & ? & ?). exists v. set_solver.
Qed.

Lemma Recover_safe h id :
  safely Recovers h (Recover sha256 id)
    (reports [StatePrepared; StateRunning; StateReleased; StateFailed]).
Proof.
  unfold Recover. destruct (id == ""); [done|]. call. step_with load_safe.
  destruct x as [[r found] err]. destruct Hspec as [[_ Hload] Hseen].
  on_error err; [by apply unlock_return_safe|]. destruct found; decided; [|by apply unlock_return_safe].
  destruct (negb (validVersionedRecord r)) eqn:Hvalid; [by apply unlock_return_safe|]. conditions.
  specialize (Hseen eq_refl Hvalid). specialize (Hload eq_refl eq_refl).
  assert (Hok : forall h', seen r h' ->
    vr_State r ∈ [StatePrepared; StateRunning; StateReleased; StateFailed] ->
    reports [StatePrepared; StateRunning; StateReleased; StateFailed] h' (snapshot (vr_Record r), None)).
  { intros h' Hs Hin. by apply reports_intro. }
  destruct (vr_State r == StateReleased) eqn:H1.
  { conditions. unfold forget, forgetCleanup. call. call. call. call.
    apply (safe_step _ _ _ _ _ (fun _ _ => True)); [destruct (_ && _); [|done]; by call|].
    intros h6 [] Hpre6 _. carry. apply Hok; [done|]. rewrite H1. set_solver. }
  destruct (vr_State r == StateFailed) eqn:H2.
  { conditions. unfold forget, forgetCleanup. call. call. apply unlock_return_safe; [done|].
    apply Hok; [done|]. rewrite H2. set_solver. }
  destruct (vr_State r == StateCleanupFailed) eqn:H3.
  { unfold forget, forgetCleanup. call. call. by apply unlock_return_safe. }
  destruct (vr_State r == StatePrepared) eqn:H4.
  { conditions. apply unlock_return_safe; [done|]. apply Hok; [done|]. rewrite H4. set_solver. }
  destruct (vr_State r == StateRunning) eqn:H5.
  { conditions. assert (Hst : vr_State r ∈ [StatePreparing; StatePrepared; StateStarting; StateRunning])
      by (rewrite H5; set_solver).
    call. step_with strong_matches_safe. destruct (_ || _ || _); [by apply recover_cleanup_safe|].
    call. destruct (_ == None); [|by apply recover_cleanup_safe]. unfold remember. call.
    apply unlock_return_safe; [done|]. apply Hok; [done|]. rewrite H5. set_solver. }
  destruct (_ || (vr_State r == StateStarting)) eqn:H6.
  { apply recover_cleanup_safe; [done|]. conditions. destruct H6 as [-> | ->]; set_solver. }
  destruct (vr_State r == StateCleaning) eqn:H7; [|by apply unlock_return_safe].
  conditions. step_with rememberCleanup_safe; [done|split_and!; auto|]. call.
  eapply safe_mono; [by apply Destroy_safe|].
  intros h' out _ Hout Hnone. destruct (Hout Hnone) as (v & ? & ? & ?). exists v. set_solver.
Qed.

Lemma Ready_safe h absent :
  safely Ending h (Ready absent) (fun h' err => err = None ->
    happened CleanerStrong true h' /\ happened SupStrong true h' /\ happened SupWaiter true h' /\
    happened SupFinalizer true h' /\ happened CleanerValidateRoot None h').
Proof.
  unfold Ready. destruct absent; [done|]. call.
  apply (safe_step _ _ _ _ _ (fun h' waiter => waiter = true -> happened SupWaiter true h')).
  { destruct (_ != _); [done|]. split; [by split|]. intros b _ ->. unfold happened. set_solver. }
  intros h1 waiter Hpre1 Hwaiter.
  apply (safe_step _ _ _ _ _ (fun h' fin => fin = true -> waiter = true /\ happened SupFinalizer true h')).
  { destruct waiter; [|done]. split; [by split|]. intros b _ ->. unfold happened. set_solver. }
  intros h2 fin Hpre2 Hfin. destruct (_ || _ || negb fin) eqn:Hno; [done|]. conditions.
  destruct Hno as [[_ ->] ->]. destruct (Hfin eq_refl) as [_ Hf]. specialize (Hwaiter eq_refl). carry.
  call. call.
  apply (safe_step _ _ _ _ _ (fun h' strong => strong = true -> happened SupStrong true h' /\ a1 = true)).
  { destruct a1; [|done]. split; [by split|]. intros b _ ->. unfold happened. set_solver. }
  intros h5 strong Hpre5 Hstrong. carry. destruct (_ || _) eqn:Hno; [done|]. conditions.
  destruct Hno as [-> _]. destruct (Hstrong eq_refl) as [Hs Ha]. subst a1. call.
  destruct (_ != _); [done|]. call. cbn. on_error a2; [done|]. done.
Qed.
End safety.
