(* ===== verification/RunnerSystem.v ===== *)
(** * Many Managers over one journal

    Any number of calls of any number of Managers run at the same time over one
    [MemoryJournal]: a step is one call of one of them, a new call may begin at any
    time, and a call may be abandoned at any point (its Manager crashed) by
    starting another in its place.  The journal may fail before or after the
    effect of a call.  Everything else in the environment answers as it likes
    within [believable].

    The journal then refines the lifecycle: [journal_inv] is kept by every step,
    and a step changes a record as [lifecycle] says or not at all. *)

From S2P Require Import Prelude GoStd Effects RunnerLease RunnerPackage RunnerJournal.
From S2P Require Import RunnerRuntime RunnerContract RunnerSafety.

Section system.
Context (sha256 : string -> string).
Context (Join : list string -> string) (windows : bool) (runtimeRoot : string).
Hypothesis sha256_size : forall s, len_string (sha256 s) = 32.

Notation validVersionedRecord := (validVersionedRecord sha256).
Notation safely strict l := (safe (allowed sha256 l) (believable sha256 strict)).

(** ** The methods of a Manager *)

Inductive operation :=
  | OpEnsurePrepared (request : Preparation)
  | OpEnsureRunning (fuel : nat) (request : Start)
  | OpInspect (executionID : string)
  | OpWait (executionID : string)
  | OpDestroy (executionID : string)
  | OpRecover (executionID : string)
  | OpReady (absent : bool).

Definition perform (op : operation) : prog (option (Snapshot * error)) :=
  match op with
  | OpEnsurePrepared request => finished (EnsurePrepared sha256 request)
  | OpEnsureRunning fuel request => EnsureRunning sha256 Join windows runtimeRoot fuel request
  | OpInspect id => finished (Inspect sha256 id)
  | OpWait id => finished (Wait sha256 id)
  | OpDestroy id => finished (Destroy sha256 id)
  | OpRecover id => finished (Recover sha256 id)
  | OpReady absent => err ← Ready absent; mret (Some (no_snapshot, err))
  end.

(** The most a method does, and the states its success reports. *)
Definition level_of (op : operation) : level :=
  match op with
  | OpEnsurePrepared _ => Prepares
  | OpEnsureRunning _ _ => Starts
  | OpRecover _ => Recovers
  | _ => Ending
  end.
Definition success_states (op : operation) : list string :=
  match op with
  | OpEnsurePrepared _ | OpInspect _ => [StatePrepared; StateRunning]
  | OpEnsureRunning _ _ | OpWait _ => [StateRunning]
  | OpDestroy _ => [StateReleased; StateFailed]
  | OpRecover _ => [StatePrepared; StateRunning; StateReleased; StateFailed]
  | OpReady _ => []
  end.

(** The fuel a method is given: enough for every round of its loop when it exceeds
    the largest revision. *)
Definition fuel_of (op : operation) : nat :=
  match op with OpEnsureRunning fuel _ => fuel | _ => 0%nat end.

Definition success (strict : bool) (op : operation) (h : history) (out : option (Snapshot * error))
    : Prop :=
  match op with
  | OpReady _ => out <> None
  | OpEnsureRunning _ _ => reports_opt sha256 strict (fuel_of op) (success_states op) h out
  | _ => exists result, out = Some result /\ reports sha256 (success_states op) h result
  end.

Lemma finished_success strict l (p : outcome) states :
  safely strict l [] p (reports sha256 states) ->
  safely strict l [] (finished p)
    (fun h out => exists result, out = Some result /\ reports sha256 states h result).
Proof. intros Hp. unfold finished. eapply safe_step; [exact Hp|]. cbn. eauto. Qed.

Lemma perform_safe strict op :
  safely strict (level_of op) [] (perform op) (success strict op).
Proof.
  destruct op; simpl perform; simpl level_of; unfold success.
  - by apply finished_success, EnsurePrepared_safe.
  - apply EnsureRunning_safe; [done|]. split; intros c a Hin; by apply elem_of_nil in Hin.
  - by apply finished_success, Inspect_safe.
  - by apply finished_success, Wait_safe.
  - by apply finished_success, Destroy_safe.
  - by apply finished_success, Recover_safe.
  - eapply safe_step; [by apply Ready_safe|]. done.
Qed.

(** The same where everything is allowed. *)
Lemma perform_anything strict op : safely strict Anything [] (perform op) (fun _ _ => True).
Proof.
  eapply safe_mono; [apply (level_frame sha256 strict (level_of op) Anything (fun _ => True))|done].
  - done.
  - intros c. destruct op; simpl; by destruct c.
  - done.
  - apply perform_safe.
  - done.
Qed.

(** ** The system *)

Definition thread : Type := history * prog (option (Snapshot * error)).

Record system := mkSystem {
  sys_records : gmap string VersionedRecord;
  sys_threads : gmap nat thread;
}.
Definition init : system := mkSystem ∅ ∅.

(** The journal's part of a call. *)
Definition on_journal (records : gmap string VersionedRecord) (c : action)
    : option (MemoryJournal * answer c) :=
  match c with
  | JournalLoad id => Some (Some records, MemoryJournal_Load (Some records) id)
  | JournalCreate token record => Some (MemoryJournal_Create (Some records) token record)
  | JournalCAS id revision token next =>
      Some (MemoryJournal_CompareAndSwap (Some records) id revision token next)
  | _ => None
  end.

(** The answer of a journal call that failed. *)
Definition journal_failure (c : action) : option (answer c) :=
  match c with
  | JournalLoad _ | JournalCreate _ _ | JournalCAS _ _ _ _ =>
      Some (no_record, false, Some ErrJournal)
  | _ => None
  end.

Definition answered (s : system) (i : nat) (h : history) (c : action) (a : answer c)
    (p : prog (option (Snapshot * error))) (records : gmap string VersionedRecord) : system :=
  mkSystem records (<[i := (h ++ [said c a], p)]> (sys_threads s)).

Inductive step : system -> system -> Prop :=
  | step_begin s i op :
      step s (mkSystem (sys_records s) (<[i := ([], perform op)]> (sys_threads s)))
  | step_environment s i h c k a :
      sys_threads s !! i = Some (h, Call c k) -> on_journal (sys_records s) c = None ->
      believable sha256 false h c a -> step s (answered s i h c a (k a) (sys_records s))
  | step_journal s i h c k a records :
      sys_threads s !! i = Some (h, Call c k) ->
      on_journal (sys_records s) c = Some (Some records, a) ->
      step s (answered s i h c a (k a) records)
  | step_journal_fails s i h c k a b records :
      sys_threads s !! i = Some (h, Call c k) ->
      on_journal (sys_records s) c = Some (Some records, b) -> journal_failure c = Some a ->
      step s (answered s i h c a (k a) (sys_records s))
  | step_journal_fails_late s i h c k a b records :
      sys_threads s !! i = Some (h, Call c k) ->
      on_journal (sys_records s) c = Some (Some records, b) -> journal_failure c = Some a ->
      step s (answered s i h c a (k a) records).

(** ** Its invariant *)

Definition records_valid (records : gmap string VersionedRecord) : Prop :=
  forall id vr, records !! id = Some vr ->
    validVersionedRecord vr = true /\ vr_ExecutionID vr = id /\ vr_Revision vr <= max_uint64.

(** What a dialogue has seen is a past or the present state of the journal. *)
Definition current (records : gmap string VersionedRecord) (h : history) : Prop :=
  forall vr, seen sha256 vr h -> exists now, records !! vr_ExecutionID vr = Some now /\
    vr_Revision vr <= vr_Revision now /\ (vr_Revision vr = vr_Revision now -> vr = now).

Definition journal_inv (s : system) : Prop :=
  records_valid (sys_records s) /\
  forall i h p, sys_threads s !! i = Some (h, p) ->
    safely false Anything h p (fun _ _ => True) /\ current (sys_records s) h.

(** [records] may become [records'] in one step. *)
Definition evolves (records records' : gmap string VersionedRecord) : Prop :=
  forall id, match records !! id with
  | None => records' !! id = None \/ exists vr, records' !! id = Some vr /\
      vr_Revision vr = 1 /\ vr_State vr = StatePreparing /\ validVersionedRecord vr = true
  | Some vr => exists vr', records' !! id = Some vr' /\
      (vr' = vr \/ vr_Revision vr' = vr_Revision vr + 1 /\
                   lifecycle (vr_Record vr) (vr_Record vr') = true /\ validVersionedRecord vr' = true)
  end.

Lemma evolves_refl records : evolves records records.
Proof. intros id. destruct (records !! id); eauto. Qed.

Lemma evolves_update records id vr :
  match records !! id with
  | None => vr_Revision vr = 1 /\ vr_State vr = StatePreparing
  | Some old => vr_Revision vr = vr_Revision old + 1 /\
      lifecycle (vr_Record old) (vr_Record vr) = true
  end -> validVersionedRecord vr = true -> evolves records (<[id := vr]> records).
Proof.
  intros Hold Hvalid id'. destruct (decide (id' = id)) as [->|Hne].
  - rewrite lookup_insert_eq. destruct (records !! id); [|naive_solver]. exists vr. naive_solver.
  - rewrite lookup_insert_ne by done. destruct (records !! id'); eauto.
Qed.

Lemma records_valid_update records id vr :
  records_valid records -> validVersionedRecord vr = true -> vr_ExecutionID vr = id ->
  vr_Revision vr <= max_uint64 -> records_valid (<[id := vr]> records).
Proof.
  intros Hr Hvalid Hid Hmax id' vr'. destruct (decide (id' = id)) as [->|Hne].
  - rewrite lookup_insert_eq. intros [= <-]. done.
  - rewrite lookup_insert_ne by done. apply Hr.
Qed.

Lemma current_evolves records records' h :
  evolves records records' -> current records h -> current records' h.
Proof.
  intros He Hc vr Hvr. destruct (Hc vr Hvr) as (now & Hnow & Hle & Heq).
  specialize (He (vr_ExecutionID vr)). rewrite Hnow in He.
  destruct He as (now' & Hnow' & [Hsame|(Hrev & _)]); exists now'; [by subst now'|].
  split_and!; [done|lia|lia].
Qed.

(** What a permitted journal call does and shows. *)
Definition journal_sound (records records' : gmap string VersionedRecord) (c : action) (a : answer c)
    : Prop :=
  evolves records records' /\ records_valid records' /\
  forall vr, vr ∈ observed c a -> vr = no_record \/ records' !! vr_ExecutionID vr = Some vr.

Lemma load_sound records id :
  records_valid records ->
  journal_sound records records (JournalLoad id) (MemoryJournal_Load (Some records) id).
Proof.
  intros Hr. split_and!; [apply evolves_refl|done|]. intros vr. simpl.
  destruct (records !! id) as [old|] eqn:Hold; simpl; intros ->%list_elem_of_singleton; [right|by left].
  by destruct (Hr _ _ Hold) as (_ & -> & _).
Qed.

Lemma create_sound records h token record :
  records_valid records -> permitted sha256 true h (JournalCreate token record) ->
  exists records', (MemoryJournal_Create (Some records) token record).1 = Some records' /\
    journal_sound records records' (JournalCreate token record)
      (MemoryJournal_Create (Some records) token record).2.
Proof.
  intros Hr (Htoken & Hvalid & Hstate). unfold MemoryJournal_Create.
  destruct (_ || _) eqn:Hbad.
  { exists records. split; [done|]. split_and!; [apply evolves_refl|done|]. intros vr. by rewrite elem_of_nil. }
  destruct (records !! rec_ExecutionID record) as [old|] eqn:Hold.
  - exists records. split; [done|]. split_and!; [apply evolves_refl|done|].
    intros vr ->%list_elem_of_singleton. right. by destruct (Hr _ _ Hold) as (_ & -> & _).
  - set (vr := mkVersioned record 1 token).
    assert (Hvr : validVersionedRecord vr = true) by (by apply validVersioned_iff).
    exists (<[rec_ExecutionID record := vr]> records). split; [done|]. split_and!.
    + apply evolves_update; [by rewrite Hold|done].
    + by apply records_valid_update.
    + intros vr' ->%list_elem_of_singleton. right. apply lookup_insert_eq.
Qed.

Lemma cas_sound records h id revision token next :
  records_valid records -> current records h ->
  permitted sha256 true h (JournalCAS id revision token next) ->
  exists records', (MemoryJournal_CompareAndSwap (Some records) id revision token next).1 = Some records' /\
    journal_sound records records' (JournalCAS id revision token next)
      (MemoryJournal_CompareAndSwap (Some records) id revision token next).2.
Proof.
  intros Hr Hcur (Htoken & Hvalid & base & Hseen & <- & <- & Hlife & _).
  assert (Hsame : forall out : journal_answer,
    (forall vr, vr ∈ observed (JournalCAS (vr_ExecutionID base) (vr_Revision base) token next) out ->
       vr = no_record \/ records !! vr_ExecutionID vr = Some vr) ->
    journal_sound records records (JournalCAS (vr_ExecutionID base) (vr_Revision base) token next) out).
  { intros out Hout. split_and!; [apply evolves_refl|done|exact Hout]. }
  destruct (Hcur base Hseen) as (now & Hnow & Hle & Heq).
  destruct Hseen as (_ & _ & _ & _ & Hbase & Hrange). apply validVersioned_iff in Hbase as (Hpos & _ & _).
  unfold MemoryJournal_CompareAndSwap. rewrite Hnow. cbn [default from_option]. unfold Datatypes.id.
  destruct (_ || _ || _ || negb _) eqn:Hbad.
  { exists records. split; [done|]. apply Hsame. intros vr. by rewrite elem_of_nil. }
  destruct ((Some now == None) || _) eqn:Hrev.
  { exists records. split; [done|]. apply Hsame. intros vr ->%list_elem_of_singleton. right.
    by destruct (Hr _ _ Hnow) as (_ & -> & _). }
  destruct (vr_Revision base == max_uint64) eqn:Hmax.
  { exists records. split; [done|]. apply Hsame. intros vr. by rewrite elem_of_nil. }
  conditions. destruct Hrev as [_ Hrev]. rewrite <- (Heq (eq_sym Hrev)) in *. clear Hle Heq Hrev.
  rewrite wrap_uint64_small by lia. set (vr := mkVersioned next (vr_Revision base + 1) token).
  assert (Hvr : validVersionedRecord vr = true).
  { apply validVersioned_iff. split_and!; [cbn; lia|done|done]. }
  assert (Hid : vr_ExecutionID vr = vr_ExecutionID base) by (by apply lifecycle_identity).
  exists (<[vr_ExecutionID base := vr]> records). split; [done|]. split_and!.
  - apply evolves_update; [by rewrite Hnow|done].
  - apply records_valid_update; try done. cbn. lia.
  - intros vr' ->%list_elem_of_singleton. right. fold vr. rewrite Hid. apply lookup_insert_eq.
Qed.

Lemma on_journal_sound records h c j a :
  records_valid records -> current records h -> permitted sha256 true h c ->
  on_journal records c = Some (j, a) ->
  exists records', j = Some records' /\ journal_sound records records' c a.
Proof.
  intros Hr Hcur Hperm Hj. destruct c; try done; cbn [on_journal] in Hj; apply (inj Some) in Hj as Heq.
  - injection Heq as <- <-. exists records. split; [done|]. by apply load_sound.
  - destruct (create_sound _ h _ _ Hr Hperm) as (records' & Hj' & Hs). rewrite Heq in Hj', Hs. eauto.
  - destruct (cas_sound _ h _ _ _ _ Hr Hcur Hperm) as (records' & Hj' & Hs). rewrite Heq in Hj', Hs. eauto.
Qed.

(** The journal's answers are those of a well-behaved and monotone one. *)
Lemma sound_monotone records records' h c j a :
  on_journal records c = Some (j, a) -> records_valid records -> current records h ->
  journal_sound records records' c a -> monotone sha256 h c a.
Proof.
  intros Hj Hr0 Hcur (He & Hr & Hobs). split.
  - intros vr old Hvr Hvalid Hold Hid. destruct (Hobs vr Hvr) as [->|Hin]; [done|].
    destruct (current_evolves _ _ _ He Hcur old Hold) as (now & Hnow & Hle & _).
    rewrite Hid, Hin in Hnow. injection Hnow as <-. done.
  - destruct c; try done; apply (inj Some) in Hj; rename executionID into key.
    + injection Hj as _ <-. destruct (records !! key) eqn:Hold; [|done]. intros _ _.
      by destruct (Hr0 _ _ Hold) as (_ & ? & _).
    + revert Hj. unfold MemoryJournal_CompareAndSwap. destruct (_ || _ || _ || _); [by intros [= _ <-]|].
      destruct (records !! key) as [now|] eqn:Hold; [|by intros [= _ <-]]. cbn [default from_option].
      unfold Datatypes.id. destruct ((Some now == None) || _) eqn:Hrev.
      * intros [= _ <-] _ _ _. conditions. destruct Hrev as [|Hrev]; [done|]. split; [|done].
        by destruct (Hr0 _ _ Hold) as (_ & ? & _).
      * destruct (_ == max_uint64); by intros [= _ <-].
Qed.

Lemma sound_believable strict records records' h c j a :
  on_journal records c = Some (j, a) -> records_valid records -> current records h ->
  journal_sound records records' c a -> believable sha256 strict h c a.
Proof.
  intros Hj Hr0 Hcur Hs. split_and!; [|by destruct c|intros _; by eapply sound_monotone].
  destruct Hs as (_ & Hr & Hobs). split; [by destruct c|].
  apply Forall_forall. intros vr Hvr. destruct (Hobs vr Hvr) as [->|Hin]; [done|].
  destruct (Hr _ _ Hin) as (Hv & _ & Hmax). apply validVersioned_iff in Hv. lia.
Qed.

Lemma failure_believable strict h c a :
  journal_failure c = Some a -> believable sha256 strict h c a.
Proof.
  intros Hf. split_and!; [by destruct c; try done; injection Hf as <-|by destruct c|].
  intros _. destruct c; try done; injection Hf as <-; (split; [|done]); intros vr old Hvr;
    by apply elem_of_nil in Hvr.
Qed.

Lemma seen_snoc vr h c a :
  seen sha256 vr (h ++ [said c a]) ->
  seen sha256 vr h \/ (vr ∈ observed c a /\ validVersionedRecord vr = true).
Proof.
  intros (c' & a' & Hin & Hvr & Hv & Hrange). unfold happened in Hin.
  apply elem_of_app in Hin as [Hin|Hin]; [left; by exists c', a'|right].
  apply list_elem_of_singleton in Hin. unfold Effects.said in Hin.
  apply (f_equal (fun e => let 'existT c a := e in (observed c a))) in Hin. by rewrite <- Hin.
Qed.

Lemma current_snoc records records' h c a :
  journal_sound records records' c a -> current records h -> current records' (h ++ [said c a]).
Proof.
  intros (He & Hr & Hobs) Hcur vr [Hvr|[Hvr Hv]]%seen_snoc.
  - by apply (current_evolves _ _ _ He Hcur).
  - destruct (Hobs vr Hvr) as [->|Hin]; [done|]. exists vr. split_and!; [done|lia|done].
Qed.

Lemma current_snoc_silent records h c a :
  (forall vr, vr ∉ observed c a) -> current records h -> current records (h ++ [said c a]).
Proof.
  intros Hobs Hcur vr [Hvr|[Hvr _]]%seen_snoc; [by apply Hcur|]. by destruct (Hobs vr).
Qed.

(** One thread goes on, the records evolve. *)
Lemma inv_answered s i h c k a records :
  journal_inv s -> sys_threads s !! i = Some (h, Call c k) -> believable sha256 false h c a ->
  evolves (sys_records s) records -> records_valid records -> current records (h ++ [said c a]) ->
  journal_inv (answered s i h c a (k a) records).
Proof.
  intros [Hr Ht] Hi Hbel He Hvalid Hcur. destruct (Ht _ _ _ Hi) as [[_ Hk] _].
  split; [done|]. intros i' h' p'. cbn [answered sys_threads sys_records].
  destruct (decide (i' = i)) as [->|Hne].
  - rewrite lookup_insert_eq. intros [= <- <-]. split; [by apply Hk|done].
  - rewrite lookup_insert_ne by done. intros Hi'. destruct (Ht _ _ _ Hi') as [Hs Hc].
    split; [done|by eapply current_evolves].
Qed.

Lemma silent_unobserved records c a :
  on_journal records c = None -> forall vr, vr ∉ observed c a.
Proof. intros Hc vr. destruct c; try done; simpl; by apply not_elem_of_nil. Qed.
Lemma failure_unobserved c a : journal_failure c = Some a -> forall vr, vr ∉ observed c a.
Proof. intros Hc vr. destruct c; try done; injection Hc as <-; by apply not_elem_of_nil. Qed.

Lemma step_sound s s' :
  journal_inv s -> step s s' ->
  journal_inv s' /\ evolves (sys_records s) (sys_records s').
Proof.
  intros Hinv Hstep. pose proof Hinv as [Hr Ht].
  assert (Hperm : forall i h c k, sys_threads s !! i = Some (h, Call c k) ->
    permitted sha256 true h c /\ current (sys_records s) h).
  { intros i h c k Hi. by destruct (Ht _ _ _ Hi) as [[[Hp _] _] Hc]. }
  destruct Hstep as [s i op|s i h c k a Hi Hc Hbel|s i h c k a records Hi Hc
    |s i h c k a b records Hi Hc Hf|s i h c k a b records Hi Hc Hf].
  - split; [|apply evolves_refl]. split; [done|]. intros i' h' p'. cbn [sys_threads sys_records].
    destruct (decide (i' = i)) as [->|Hne].
    + rewrite lookup_insert_eq. intros [= <- <-]. split; [apply perform_anything|].
      intros vr (c & a & Hin & _). by apply elem_of_nil in Hin.
    + rewrite lookup_insert_ne by done. apply Ht.
  - destruct (Hperm _ _ _ _ Hi) as [_ Hcur]. split; [|apply evolves_refl].
    apply inv_answered; try done; [apply evolves_refl|].
    by apply current_snoc_silent; [eapply silent_unobserved|].
  - destruct (Hperm _ _ _ _ Hi) as [Hp Hcur].
    destruct (on_journal_sound _ _ _ _ _ Hr Hcur Hp Hc) as (records' & Heq & Hs).
    injection Heq as <-. pose proof Hs as (He & Hr' & _). split; [|done].
    apply inv_answered; try done; [by eapply sound_believable|by eapply current_snoc].
  - destruct (Hperm _ _ _ _ Hi) as [_ Hcur]. split; [|apply evolves_refl].
    apply inv_answered; try done; [by apply failure_believable|apply evolves_refl|].
    by apply current_snoc_silent; [apply failure_unobserved|].
  - destruct (Hperm _ _ _ _ Hi) as [Hp Hcur].
    destruct (on_journal_sound _ _ _ _ _ Hr Hcur Hp Hc) as (records' & Heq & (He & Hr' & _)).
    injection Heq as <-. split; [|done].
    apply inv_answered; try done; [by apply failure_believable|].
    apply current_snoc_silent; [by apply failure_unobserved|by eapply current_evolves].
Qed.

Lemma init_inv : journal_inv init.
Proof. split; [by intros id vr|by intros i h p]. Qed.

Lemma reachable_inv s s' : journal_inv s -> rtc step s s' -> journal_inv s'.
Proof. intros Hs. induction 1 as [|s s1 s2 Hstep _ IH]; [done|]. by apply IH, (step_sound s). Qed.

(** ** Teardown is final *)

Definition ending (state : string) : bool :=
  bool_decide (state ∈ [StateCleaning; StateReleased; StateFailed; StateCleanupFailed]).

Lemma lifecycle_ending a b :
  lifecycle a b = true -> ending (rec_State a) = true -> ending (rec_State b) = true.
Proof.
  unfold lifecycle. destruct (rec_State b == StateCleanupFailed) eqn:Hq.
  { conditions. rewrite Hq. intros _ _. apply bool_decide_eq_true. set_solver. }
  intros Hlife Ha. conditions. destruct Hlife as [[[[[Htr _] _] _] _] _].
  revert Ha. unfold transitions in Htr. set_unfold in Htr.
  destruct_or!; try done; injection Htr as -> ->; done.
Qed.

Lemma evolves_ending records records' id vr :
  evolves records records' -> records !! id = Some vr -> ending (vr_State vr) = true ->
  exists vr', records' !! id = Some vr' /\ ending (vr_State vr') = true.
Proof.
  intros He Hid Hend. specialize (He id). rewrite Hid in He.
  destruct He as (vr' & Hvr' & [Heq|(_ & Hlife & _)]); exists vr'; split; try done; [by subst|].
  by eapply lifecycle_ending.
Qed.
End system.
