(* ===== verification/RunnerProps.v ===== *)
(** * What the runner lifecycle guarantees

    The properties of the Manager, each about every dialogue of one of its methods
    or about every history of a system of Managers, and a concrete environment in
    which their hypotheses hold. *)

From S2P Require Import Prelude GoStd Effects RunnerLease RunnerPackage RunnerJournal.
From S2P Require Import RunnerRuntime RunnerContract RunnerSafety RunnerSystem.

(** ** A concrete environment *)

Record world := mkWorld {
  w_journal : gmap string VersionedRecord;
  w_owned : gmap string runtimeOwnership;
  w_cleanup : gmap string Z;
  w_removable : bool;
}.
Definition empty_world : world := mkWorld ∅ ∅ ∅ true.

Definition world_token : string := "0123456789abcdef".
Definition world_fence : ContainmentRef :=
  mkContainmentRef "linux" "unit" "" "" "" (hex_encode world_token).
Definition world_ref : WorkspaceRef := mkWorkspaceRef "linux" "inode 7".

(** It keeps the maps, writes the journal, starts every process as [7] and removes
    directories if [w_removable]. *)
Definition environment (c : action) (w : world) : world * answer c :=
  let journal (out : MemoryJournal * journal_answer) :=
    (mkWorld (default ∅ out.1) (w_owned w) (w_cleanup w) (w_removable w), out.2) in
  let j := Some (w_journal w) in
  match c with
  | Lock | Unlock => (w, tt)
  | RandRead => (w, Ok world_token)
  | JournalLoad id => (w, MemoryJournal_Load j id)
  | JournalCreate token record => journal (MemoryJournal_Create j token record)
  | JournalCAS id revision token next => journal (MemoryJournal_CompareAndSwap j id revision token next)
  | OwnedGet id => (w, w_owned w !! id)
  | OwnedSet id o => (mkWorld (w_journal w) (<[id := o]> (w_owned w)) (w_cleanup w) (w_removable w), tt)
  | OwnedDelete id => (mkWorld (w_journal w) (delete id (w_owned w)) (w_cleanup w) (w_removable w), tt)
  | CleanupGet id => (w, w_cleanup w !! id)
  | CleanupSet id rev => (mkWorld (w_journal w) (w_owned w) (<[id := rev]> (w_cleanup w)) (w_removable w), tt)
  | CleanupDelete id => (mkWorld (w_journal w) (w_owned w) (delete id (w_cleanup w)) (w_removable w), tt)
  | CacheEnsure _ => (w, Ok true)
  | PackageClose => (w, tt)
  | CleanerStrong | SupStrong | SupWaiter => (w, true)
  | SupFinalizer => (w, false)
  | CleanerBackend | SupBackend => (w, "linux")
  | CleanerPrepare _ | CleanerRef _ => (w, (world_ref, None))
  | CleanerRemove _ => (w, if w_removable w then None else Some ErrCleanupFailed)
  | SupPrepareContainment _ => (w, (mkContainmentRef "linux" "unit" "" "" "" "", None))
  | SupStart _ => (w, [VerifyWorkspaceAtExec; DeliverJIT])
  | SupStarted => (w, (mkProcess 7 world_fence, None))
  | SupAlive _ => (w, (true, None))
  | JITDeliver => (w, ["secret"])
  | JITDelivered results =>
      (w, if forallb (fun err => err == None) results then None else Some ErrStartFailed)
  | CtxErr | PackageMaterialize | FsMkdirExecutions | FsMkdir _ | FsOpen _ | FsClose _
  | CleanerValidateRoot | PlatformDeliver _ | SupStop _ | SupWait _ | SupFinalize _ _ _
  | SupGarbageCollect _ => (w, None)
  end.

(** Stand-ins for SHA-256 and [filepath.Join]. *)
Definition world_sha256 (_ : string) : string := "0123456789abcdef0123456789abcdef".
Definition world_Join : list string -> string := String.concat "/".
Lemma world_sha256_size s : len_string (world_sha256 s) = 32.
Proof. reflexivity. Qed.

Definition world_package : Package := default (mkPackage "" (mkPlatform "" "") "" "" 0 "")
  (packages !! "linux/amd64").
Definition world_preparation : Preparation := mkPreparation "execution-1" world_package true.
Definition world_start_with (fuel : nat) : operation :=
  OpEnsureRunning fuel
    (mkStart world_preparation (Some (mkJITConfig (hex_encode (world_sha256 "secret"))))).
Definition world_start : operation := world_start_with 1.
Definition world_destroy : operation := OpDestroy "execution-1".

Abbreviation world_perform := (perform world_sha256 world_Join false "/var/lib/sparerunner").
Abbreviation run_world op w := (exec environment (world_perform op) w).
Abbreviation talk op w := (exec_dialogue environment (world_perform op) w).

(** The journal after a start, and after it is torn down. *)
Definition running_world : world := (run_world world_start empty_world).1.

Example start_then_destroy :
  (run_world world_start empty_world).2 =
    Some (mkSnapshot "execution-1" StateRunning true true false, None) /\
  (run_world world_destroy running_world).2 =
    Some (mkSnapshot "execution-1" StateReleased false false false, None).
Proof. vm_compute. split; reflexivity. Qed.

(** The environment is well behaved. *)
Definition world_ok (w : world) (h : history) : Prop :=
  (forall id view, cleanup_view id h = Some view -> view = w_cleanup w !! id) /\
  forall id vr, w_journal w !! id = Some vr -> 0 <= vr_Revision vr <= max_uint64.

Lemma no_record_range : 0 <= vr_Revision no_record <= max_uint64.
Proof. done. Qed.

(** A journal method keeps revisions in range, and shows revisions in range. *)
Lemma journal_range (records : gmap string VersionedRecord) c j a :
  (forall id vr, records !! id = Some vr -> 0 <= vr_Revision vr <= max_uint64) ->
  on_journal records c = Some (j, a) ->
  exists records', j = Some records' /\
    (forall id vr, records' !! id = Some vr -> 0 <= vr_Revision vr <= max_uint64) /\
    Forall (fun vr => 0 <= vr_Revision vr <= max_uint64) (observed c a).
Proof.
  intros Hr Hj.
  assert (Hset : forall key vr, 0 <= vr_Revision vr <= max_uint64 ->
    forall id vr', <[key := vr]> records !! id = Some vr' -> 0 <= vr_Revision vr' <= max_uint64).
  { intros key vr Hvr id vr' [[_ <-]|[_ ?]]%lookup_insert_Some; eauto. }
  destruct c; try done; apply (inj Some) in Hj; revert Hj.
  - intros [= <- <-]. exists records. split_and!; [done|done|].
    simpl. destruct (records !! executionID) eqn:E; apply Forall_singleton; [by eapply Hr|done].
  - unfold MemoryJournal_Create. destruct (_ || _).
    { intros [= <- <-]. exists records. split_and!; [done|done|constructor]. }
    destruct (records !! _) eqn:E; intros [= <- <-]; (eexists; split; [done|]).
    + split; [done|]. apply Forall_singleton. by eapply Hr.
    + split; [by apply Hset|]. by apply Forall_singleton.
  - unfold MemoryJournal_CompareAndSwap. destruct (_ || _ || _ || _).
    { intros [= <- <-]. exists records. split_and!; [done|done|constructor]. }
    assert (Hd : 0 <= vr_Revision (default no_record (records !! executionID)) <= max_uint64).
    { destruct (records !! executionID) eqn:E; simpl; eauto using no_record_range. }
    destruct (_ || (_ != revision)); [|destruct (revision == max_uint64)]; intros [= <- <-];
      (eexists; split; [done|]).
    + split; [done|]. by apply Forall_singleton.
    + by split; [|constructor].
    + split; [apply Hset, wrap_uint64_range|]. apply Forall_singleton, wrap_uint64_range.
Qed.

Lemma environment_view w h c :
  (forall id view, cleanup_view id h = Some view -> view = w_cleanup w !! id) ->
  forall id view, cleanup_view id (h ++ [said c (environment c w).2]) = Some view ->
  view = w_cleanup (environment c w).1 !! id.
Proof.
  intros Hview id view. rewrite cleanup_view_snoc.
  destruct c; try exact (Hview id view); try done; simpl; case_bool_decide; subst.
  - by intros [= <-].
  - apply Hview.
  - intros [= <-]. by rewrite lookup_insert_eq.
  - rewrite lookup_insert_ne by done. apply Hview.
  - intros [= <-]. by rewrite lookup_delete_eq.
  - rewrite lookup_delete_ne by done. apply Hview.
Qed.

Lemma environment_journal w c j a :
  on_journal (w_journal w) c = Some (Some j, a) ->
  environment c w = (mkWorld j (w_owned w) (w_cleanup w) (w_removable w), a).
Proof.
  destruct c; try done; intros Hj; apply (inj Some) in Hj; unfold environment.
  - injection Hj as <- <-. by destruct w.
  - by rewrite Hj.
  - by rewrite Hj.
Qed.

Lemma environment_silent w c :
  on_journal (w_journal w) c = None ->
  w_journal (environment c w).1 = w_journal w /\ typed c (environment c w).2.
Proof.
  intros Hc. destruct c; try done; (split; [done|]); (split; [|by constructor]); try done.
  simpl. intros Hall. destruct (forallb _ results) eqn:E; [|done]. apply Forall_forall.
  intros err Herr. rewrite forallb_forall in E. specialize (E err). apply list_elem_of_In in Herr.
  by apply E, bool_decide_eq_true in Herr.
Qed.

Lemma environment_ok w h c :
  world_ok w h ->
  believable world_sha256 false h c (environment c w).2 /\
  world_ok (environment c w).1 (h ++ [said c (environment c w).2]).
Proof.
  intros [Hview Hrange]. pose proof (environment_view w h c Hview) as Hview'.
  assert (Hmem : locked_memory h c (environment c w).2).
  { destruct c; try done. simpl. destruct (cleanup_view executionID h) eqn:E; [|done].
    by rewrite (Hview _ _ E). }
  destruct (on_journal (w_journal w) c) as [[j a]|] eqn:Hj.
  - destruct (journal_range _ _ _ _ Hrange Hj) as (records & -> & Hr & Hobs).
    rewrite (environment_journal w c records a Hj) in *. cbn [fst snd] in *.
    split; [|by split]. split_and!; [split; [by destruct c|exact Hobs]|done|done].
  - destruct (environment_silent w c Hj) as [Hw Hty]. split; [by split_and!|].
    split; [done|]. by rewrite Hw.
Qed.

(** Its answers to a program that keeps the contract are also monotone. *)
Lemma environment_believed {A} (p : prog A) Q w h :
  world_ok w h -> records_valid world_sha256 (w_journal w) ->
  current world_sha256 (w_journal w) h ->
  safe (allowed world_sha256 Anything) (believable world_sha256 true) h p Q ->
  believed (believable world_sha256 true) h (exec_dialogue environment p w).
Proof.
  revert w h. induction p as [x|c k IH]; intros w h Hok Hr Hcur Hsafe.
  - by intros [|e1 pre] c a post.
  - simpl. destruct Hsafe as [[Hperm _] Hk].
    pose proof (environment_ok w h c Hok) as [(Hty & Hmem & _) Hok'].
    destruct (on_journal (w_journal w) c) as [[j a]|] eqn:Hj.
    + pose proof Hj as Hsound.
      eapply on_journal_sound in Hsound as (records & -> & Hs); [|exact Hr|exact Hcur|exact Hperm].
      rewrite (environment_journal w c records a Hj) in *. cbn [fst snd] in *.
      assert (Hbel : believable world_sha256 true h c a).
      { split_and!; [done|done|]. intros _.
        by eapply sound_monotone. }
      apply believed_cons_intro; [done|]. apply IH; [done|by apply Hs| |by apply Hk].
      by eapply current_snoc.
    + destruct (environment_silent w c Hj) as [Hw _].
      destruct (environment c w) as [w' a]. cbn [fst snd] in *.
      assert (Hobs : forall vr, vr ∉ observed c a) by (by eapply silent_unobserved).
      assert (Hbel : believable world_sha256 true h c a).
      { split_and!; [done|done|]. intros _. split; [|by destruct c].
        intros vr old Hvr. by destruct (Hobs vr). }
      apply believed_cons_intro; [done|]. apply IH; [done|by rewrite Hw| |by apply Hk].
      rewrite Hw. by apply current_snoc_silent.
Qed.

Lemma believed_weaken sha256 h t :
  believed (believable sha256 true) h t -> believed (believable sha256 false) h t.
Proof. intros Hb pre c a post Heq. by destruct (Hb pre c a post Heq) as (? & ? & _). Qed.

(** A method of the environment runs to its end in the system. *)
Abbreviation world_step := (step world_sha256 world_Join false "/var/lib/sparerunner").

Lemma world_runs p w h s i :
  world_ok w h -> sys_threads s !! i = Some (h, p) -> sys_records s = w_journal w ->
  exists s', rtc world_step s s' /\ sys_records s' = w_journal (exec environment p w).1.
Proof.
  revert w h s. induction p as [x|c k IH]; intros w h s Hok Hi Hs.
  { exists s. by split; [apply rtc_refl|]. }
  simpl. pose proof (environment_ok w h c Hok) as [Hbel Hok'].
  destruct (on_journal (w_journal w) c) as [[j a]|] eqn:Hj.
  - destruct (journal_range _ _ _ _ (proj2 Hok) Hj) as (records & -> & _).
    pose proof (environment_journal w c records a Hj) as Henv. rewrite Henv in *. cbn [fst snd] in *.
    destruct (IH a _ _ (answered s i h c a (k a) records) Hok') as (s' & Hrun & Hrec);
      [apply lookup_insert_eq|done|]. exists s'. split; [|done].
    eapply rtc_l; [|exact Hrun]. apply step_journal; [done|by rewrite Hs].
  - destruct (environment_silent w c Hj) as [Hw _]. destruct (environment c w) as [w' a].
    cbn [fst snd] in *.
    destruct (IH a w' _ (answered s i h c a (k a) (sys_records s)) Hok') as (s' & Hrun & Hrec);
      [apply lookup_insert_eq|by rewrite Hs|]. exists s'. split; [|done].
    eapply rtc_l; [|exact Hrun]. apply step_environment; [done|by rewrite Hs|done].
Qed.

Lemma world_runs_op op w s :
  world_ok w [] -> sys_records s = w_journal w ->
  exists s', rtc world_step s s' /\ sys_records s' = w_journal (run_world op w).1.
Proof.
  intros Hok Hs. destruct (world_runs (world_perform op) w []
    (mkSystem (sys_records s) (<[0%nat := ([], world_perform op)]> (sys_threads s))) 0%nat Hok)
    as (s' & Hrun & Hrec); [apply lookup_insert_eq|done|].
  exists s'. split; [|done]. eapply rtc_l; [apply step_begin|exact Hrun].
Qed.

(** Worlds whose journal a system of Managers can have written. *)
Definition world_reachable (w : world) : Prop :=
  exists s, rtc world_step init s /\ sys_records s = w_journal w.

Lemma empty_reachable : world_reachable empty_world.
Proof. by exists init. Qed.

Lemma reachable_valid w : world_reachable w -> records_valid world_sha256 (w_journal w).
Proof.
  intros (s & Hrun & <-). eapply reachable_inv in Hrun as [Hr _]; [exact Hr|..];
    [apply world_sha256_size|apply init_inv].
Qed.

Lemma reachable_ok w : world_reachable w -> world_ok w [].
Proof.
  intros Hw%reachable_valid. split; [done|]. intros id vr Hvr.
  destruct (Hw id vr Hvr) as (Hv & _ & Hmax). apply validVersioned_iff in Hv. lia.
Qed.

(** A method's talk with the environment is a dialogue with believable answers. *)
Lemma world_talk op w :
  world_reachable w ->
  dialogue (world_perform op) (talk op w) (run_world op w).2 /\
  believed (believable world_sha256 true) [] (talk op w).
Proof.
  intros Hw. split; [apply exec_is_dialogue|].
  eapply environment_believed; [by apply reachable_ok|by apply reachable_valid| |].
  - intros vr (c & a & Hin & _). by apply elem_of_nil in Hin.
  - apply perform_anything, world_sha256_size.
Qed.

Lemma world_reachable_run op w : world_reachable w -> world_reachable (run_world op w).1.
Proof.
  intros Hw. destruct Hw as (s & Hrun & Hs). pose proof (reachable_ok w ltac:(by exists s)) as Hok.
  destruct (world_runs_op op w s Hok Hs) as (s' & Hrun' & Hs').
  exists s'. split; [by etransitivity|done].
Qed.

Lemma running_reachable : world_reachable running_world.
Proof. apply world_reachable_run, empty_reachable. Qed.

Lemma split_at (n : nat) (t : history) c a :
  t !! n = Some (said c a) -> t = take n t ++ said c a :: drop (S n) t.
Proof. intros H. by rewrite take_drop_middle. Qed.

(** ** Every method keeps the contract *)

Section dialogues.
Context (sha256 : string -> string).
Context (Join : list string -> string) (windows : bool) (runtimeRoot : string).
Hypothesis sha256_size : forall s, len_string (sha256 s) = 32.
Notation perform := (perform sha256 Join windows runtimeRoot).
Notation answered_well := (believed (believable sha256 false) []).

Lemma contract_kept strict op t r :
  dialogue (perform op) t r -> believed (believable sha256 strict) [] t ->
  success sha256 strict op t r /\
  forall pre c a post, t = pre ++ said c a :: post ->
    permitted sha256 (takes (level_of op)) pre c /\ within (level_of op) c = true.
Proof.
  intros Hd Hb.
  destruct (safe_adequate _ _ [] _ _ t r
    (perform_safe sha256 Join windows runtimeRoot sha256_size strict op) Hd Hb) as [Hs Hc].
  split; [exact Hs|]. intros pre c a post Heq. exact (Hc pre (said c a) post Heq).
Qed.

Lemma called (c : action) (a : answer c) (t : history) :
  said c a ∈ t -> exists pre post, t = pre ++ said c a :: post.
Proof. intros Hin. by apply list_elem_of_split in Hin. Qed.

(** C38 Every record a Manager writes is valid.  Whatever a method is asked and
    whatever the journal, the platform, the file system and the package cache
    answer, a record given to [Create] is a valid [StatePreparing] record, a record
    given to [CompareAndSwap] is a valid record of the named execution, and both
    carry a canonical mutation token. *)
Theorem written_records_valid op t r :
  dialogue (perform op) t r -> answered_well t ->
  (forall token record a, said (JournalCreate token record) a ∈ t ->
     validRecord sha256 record = true /\ rec_State record = StatePreparing /\
     canonicalOpaqueToken token = true) /\
  (forall id revision token next a, said (JournalCAS id revision token next) a ∈ t ->
     validRecord sha256 next = true /\ rec_ExecutionID next = id /\
     canonicalOpaqueToken token = true).
Proof.
  intros Hd Hb. destruct (contract_kept false op t r Hd Hb) as [_ Hall]. split.
  - intros token record a (pre & post & Heq)%called.
    by destruct (Hall _ _ _ _ Heq) as [(? & ? & ?) _].
  - intros id revision token next a (pre & post & Heq)%called.
    destruct (Hall _ _ _ _ Heq) as [(? & ? & vr & _ & <- & _ & Hlife & _) _].
    split_and!; [done| |done]. by apply lifecycle_identity.
Qed.

(** Every update is a step of the lifecycle with its evidence.  The record that
    [CompareAndSwap] is asked to replace was shown by the journal at the guarding
    revision, and the new record follows it in the lifecycle.  A record becomes
    released or failed only after its workspace was removed and found absent, a
    start is taken back only after the platform stopped its fence, and a record
    becomes running only after the platform's [Start] returned that process without
    an error. *)
Theorem updates_have_evidence op t r pre id revision token next a post :
  dialogue (perform op) t r -> answered_well t ->
  t = pre ++ said (JournalCAS id revision token next) a :: post ->
  exists vr, seen sha256 vr pre /\ vr_ExecutionID vr = id /\ vr_Revision vr = revision /\
    lifecycle (vr_Record vr) next = true /\
    (rec_State next = StateReleased \/ rec_State next = StateFailed ->
       removed (rec_RootName next) pre) /\
    (vr_State vr = StateStarting -> rec_State next = StatePrepared ->
       stopped (rec_Containment (vr_Record vr)) pre) /\
    (rec_State next = StateRunning ->
       said SupStarted (mkProcess (rec_PID next) (rec_Containment next), None) ∈ pre).
Proof.
  intros Hd Hb Heq. destruct (contract_kept false op t r Hd Hb) as [_ Hall].
  destruct (Hall _ _ _ _ Heq) as [(_ & _ & vr & Hseen & Hid & Hrev & Hlife & Hev) _].
  exists vr. by destruct Hev as (? & ? & ?).
Qed.

(** C5 A runner is only started from its own durable record, and its secret reaches
    the platform at most once.  When a method calls the platform's [Start], it has
    not done so before, it has itself committed a [StateStarting] record with
    exactly that fenced containment and workspace, and it has observed that the
    workspace is the recorded one.  When the platform receives a secret, no secret
    was handed out before and the secret is the one whose digest the committed
    record names. *)
Theorem start_only_from_durable_record op t r :
  dialogue (perform op) t r -> answered_well t ->
  (forall pre request calls post, t = pre ++ said (SupStart request) calls :: post ->
     never is_start pre /\
     exists vr, committed sha256 vr pre /\ vr_State vr = StateStarting /\
       request_Containment request = rec_Containment (vr_Record vr) /\
       validFencedContainment (request_Containment request) = true /\
       request_WorkspaceRef request = rec_WorkspaceRef (vr_Record vr) /\
       verified (rec_RootName (vr_Record vr)) (request_WorkspaceRef request) pre) /\
  (forall pre value err post, t = pre ++ said (PlatformDeliver value) err :: post ->
     never is_exposure pre /\
     exists vr, committed sha256 vr pre /\ vr_State vr = StateStarting /\
       hex_encode (sha256 value) = rec_JITDigest (vr_Record vr)).
Proof.
  intros Hd Hb. destruct (contract_kept false op t r Hd Hb) as [_ Hall]. split.
  - intros pre request calls post Heq.
    destruct (Hall _ _ _ _ Heq) as [(Hn & vr & [Hcom Hstate] & Hcont & Hws & Hver) _].
    split; [done|]. exists vr. split_and!; try done. rewrite Hcont.
    pose proof (seen_valid _ _ _ (proj1 Hcom)) as Hvalid. apply validRecord_iff in Hvalid as [_ Hvalid].
    revert Hvalid. unfold state_valid. unfold vr_State in Hstate. rewrite Hstate. decide_states.
    conditions. tauto.
  - intros pre value err post Heq.
    destruct (Hall _ _ _ _ Heq) as [(Hn & vr & [Hcom Hstate] & Hdig) _]. eauto 10.
Qed.


(** Recovery and teardown never start anything.  [Recover], [Destroy], [Inspect],
    [Wait] and [Ready] create no record and no workspace, fetch no package, prepare
    no containment, start no process and touch no secret. *)
Theorem ending_never_starts op t r c a :
  level_of op ∈ [Ending; Recovers] -> dialogue (perform op) t r -> answered_well t -> said c a ∈ t ->
  match c with
  | JournalCreate _ _ | CacheEnsure _ | PackageMaterialize | FsMkdirExecutions | FsMkdir _
  | CleanerPrepare _ | SupPrepareContainment _ | SupStart _ | SupStarted | PlatformDeliver _
  | JITDeliver | JITDelivered _ => False
  | _ => True
  end.
Proof.
  intros Hop Hd Hb (pre & post & Heq)%called.
  destruct (contract_kept false op t r Hd Hb) as [_ Hall].
  destruct (Hall _ _ _ _ Heq) as [_ Hw]. apply elem_of_cons in Hop as [Hop|Hop%list_elem_of_singleton];
    rewrite Hop in Hw; by destruct c.
Qed.

(** Success is only reported of a durable record.  When a method returns a
    snapshot without an error, the snapshot is that of a valid record the journal
    showed in this call, in a state that is a success of the method: prepared or
    running for [EnsurePrepared] and [Inspect], running for [EnsureRunning] and
    [Wait], released or failed for [Destroy], and prepared, running, released or failed
    for [Recover]. *)
Theorem success_reports_durable op t current :
  (forall absent, op <> OpReady absent) ->
  dialogue (perform op) t (Some (current, None)) -> answered_well t ->
  exists vr, seen sha256 vr t /\ current = snapshot (vr_Record vr) /\
    vr_State vr ∈ success_states op.
Proof.
  intros Hready Hd Hb. destruct (contract_kept false op t _ Hd Hb) as [Hs _].
  destruct op; simpl in Hs; try (by destruct (Hready absent));
    first [destruct Hs as ([s' err] & [= <- <-] & Hs); by apply Hs | by apply Hs].
Qed.

(** C39 Every method ends.  Against a journal whose revisions never go back, the loop
    of [failStartedExecution], the only one of the Manager, meets a newer revision
    in every round; so rounds for every [uint64] are enough, whatever else the
    environment answers, and the other methods need none. *)
Theorem methods_end op t r :
  (forall fuel request, op = OpEnsureRunning fuel request -> max_uint64 < Z.of_nat fuel) ->
  dialogue (perform op) t r -> believed (believable sha256 true) [] t ->
  exists result, r = Some result.
Proof.
  intros Hfuel Hd Hb. destruct (contract_kept true op t r Hd Hb) as [Hs _].
  destruct r as [result|]; [by eexists|]. exfalso.
  destruct op; simpl in Hs; try (by destruct Hs as (? & [=] & _)); try done.
  specialize (Hfuel fuel request eq_refl). specialize (Hs eq_refl). lia.
Qed.
End dialogues.

(** ** Histories of a system of Managers *)

(** C4 The journal refines the lifecycle.  However many calls of however many
    Managers run at the same time over one journal, crash and are started again,
    and however often the journal fails before or after the effect of a call: a
    step leaves every durable record as it is, creates it as a valid
    [StatePreparing] record of revision 1, or replaces it by a valid one of the next
    revision that follows it in the lifecycle. *)
Theorem journal_refines_lifecycle sha256 Join windows runtimeRoot s s' :
  (forall text, len_string (sha256 text) = 32) ->
  rtc (step sha256 Join windows runtimeRoot) init s ->
  step sha256 Join windows runtimeRoot s s' ->
  evolves sha256 (sys_records s) (sys_records s').
Proof.
  intros Hsize Hreach Hstep. eapply step_sound; [exact Hsize| |exact Hstep].
  eapply reachable_inv; [exact Hsize|apply init_inv|exact Hreach].
Qed.

(** C35 Teardown is final.  Once an execution's record is cleaning, released, failed
    or quarantined, it is one of these ever after: in whatever interleaving, crash
    or journal failure, no Manager makes it prepared, starting or running again. *)
Theorem teardown_is_final sha256 Join windows runtimeRoot s s' id vr :
  (forall text, len_string (sha256 text) = 32) ->
  rtc (step sha256 Join windows runtimeRoot) init s ->
  sys_records s !! id = Some vr -> ending (vr_State vr) = true ->
  rtc (step sha256 Join windows runtimeRoot) s s' ->
  exists vr', sys_records s' !! id = Some vr' /\ ending (vr_State vr') = true.
Proof.
  intros Hsize Hreach Hvr Hend Hrun.
  assert (Hinv : journal_inv sha256 s) by
    (eapply reachable_inv; [exact Hsize|apply init_inv|exact Hreach]).
  clear Hreach. revert vr Hinv Hvr Hend.
  induction Hrun as [s|s s1 s2 Hstep _ IH]; intros vr Hinv Hvr Hend; [by exists vr|].
  destruct (step_sound _ _ _ _ Hsize _ _ Hinv Hstep) as [Hinv1 Hev].
  eapply evolves_ending in Hev as (vr1 & Hvr1 & Hend1); [|exact Hsize|exact Hvr|exact Hend]. by eapply IH.
Qed.

(** ** The properties at the environment *)

Abbreviation at_world f :=
  (f world_sha256 world_Join false "/var/lib/sparerunner" world_sha256_size).

Lemma world_start_talk :
  dialogue (world_perform world_start) (talk world_start empty_world)
    (Some (mkSnapshot "execution-1" StateRunning true true false, None)) /\
  believed (believable world_sha256 false) [] (talk world_start empty_world).
Proof.
  destruct (world_talk world_start empty_world empty_reachable) as [Hd Hb].
  split; [|by apply believed_weaken]. by rewrite (proj1 start_then_destroy) in Hd.
Qed.
Lemma world_destroy_talk :
  dialogue (world_perform world_destroy) (talk world_destroy running_world)
    (Some (mkSnapshot "execution-1" StateReleased false false false, None)) /\
  believed (believable world_sha256 false) [] (talk world_destroy running_world).
Proof.
  destruct (world_talk world_destroy running_world running_reachable) as [Hd Hb].
  split; [|by apply believed_weaken]. by rewrite (proj2 start_then_destroy) in Hd.
Qed.

Lemma written_records_valid_witness :
  exists record, said (JournalCreate (hex_encode world_token) record)
                   (mkVersioned record 1 (hex_encode world_token), true, None)
                 ∈ talk world_start empty_world /\
  validRecord world_sha256 record = true.
Proof.
  eexists. assert (Hin : talk world_start empty_world !! 12%nat = Some (said (JournalCreate _ _) _))
    by (vm_compute; reflexivity).
  split; [exact (list_elem_of_lookup_2 _ _ _ Hin)|].
  exact (proj1 (proj1 (at_world written_records_valid world_start _ _
    (proj1 world_start_talk) (proj2 world_start_talk)) _ _ _ (list_elem_of_lookup_2 _ _ _ Hin))).
Defined.

Lemma lifecycle_released a b :
  lifecycle a b = true -> rec_State b = StateReleased -> rec_State a = StateCleaning.
Proof.
  unfold lifecycle. intros Hlife Hb. rewrite Hb in Hlife. revert Hlife. decide_states. conditions.
  intros [[[[[Htr _] _] _] _] _].
  unfold transitions in Htr. set_unfold in Htr. destruct_or!; try done; by injection Htr.
Qed.

Lemma updates_have_evidence_witness :
  exists vr, seen world_sha256 vr (take 22 (talk world_destroy running_world)) /\
    vr_State vr = StateCleaning.
Proof.
  assert (Hin : exists next a, talk world_destroy running_world !! 22%nat =
      Some (said (JournalCAS "execution-1" 5 (hex_encode world_token) next) a) /\
      rec_State next = StateReleased)
    by (vm_compute; do 2 eexists; split; reflexivity).
  destruct Hin as (next & a & Hin & Hnext).
  destruct (at_world updates_have_evidence world_destroy _ _ _ _ _ _ _ _ _
    (proj1 world_destroy_talk) (proj2 world_destroy_talk) (split_at _ _ _ _ Hin))
    as (vr & Hseen & _ & _ & Hlife & _).
  exists vr. split; [exact Hseen|]. exact (lifecycle_released _ _ Hlife Hnext).
Defined.

Lemma start_only_from_durable_record_witness :
  exists vr, committed world_sha256 vr (take 51 (talk world_start empty_world)) /\
    vr_State vr = StateStarting.
Proof.
  assert (Hin : exists request calls, talk world_start empty_world !! 51%nat =
      Some (said (SupStart request) calls)) by (vm_compute; do 2 eexists; reflexivity).
  destruct Hin as (request & calls & Hin).
  destruct (proj1 (at_world start_only_from_durable_record world_start _ _
    (proj1 world_start_talk) (proj2 world_start_talk)) _ _ _ _ (split_at _ _ _ _ Hin))
    as (_ & vr & Hcom & Hstate & _).
  exists vr. split; [exact Hcom|exact Hstate].
Defined.


Lemma ending_never_starts_witness :
  length (talk world_destroy running_world) = 25%nat /\
  ~ said JITDeliver ["secret"] ∈ talk world_destroy running_world.
Proof.
  split; [vm_compute; reflexivity|]. intros Hin.
  exact (at_world ending_never_starts world_destroy _ _ JITDeliver ["secret"] ltac:(by left)
    (proj1 world_destroy_talk) (proj2 world_destroy_talk) Hin).
Defined.

Lemma success_reports_durable_witness :
  exists vr, seen world_sha256 vr (talk world_start empty_world) /\ vr_State vr = StateRunning.
Proof.
  destruct (at_world success_reports_durable world_start _ _ ltac:(discriminate)
    (proj1 world_start_talk) (proj2 world_start_talk)) as (vr & Hseen & Hcur & _).
  exists vr. split; [exact Hseen|]. by injection Hcur as _ Hstate _.
Defined.

Lemma enough_fuel m fuel fuel' request request' :
  0 <= m -> fuel = Z.to_nat (m + 1) ->
  OpEnsureRunning fuel request = OpEnsureRunning fuel' request' -> m < Z.of_nat fuel'.
Proof. intros Hm -> [= <- _]. lia. Qed.

Lemma methods_end_witness :
  exists fuel result, max_uint64 < Z.of_nat fuel /\
    (run_world (world_start_with fuel) empty_world).2 = Some result.
Proof.
  assert (Hfuel : exists fuel, fuel = Z.to_nat (max_uint64 + 1)) by (eexists; reflexivity).
  destruct Hfuel as [fuel Hfuel]. exists fuel.
  assert (Henough : forall fuel' request', world_start_with fuel = OpEnsureRunning fuel' request' ->
    max_uint64 < Z.of_nat fuel')
    by (intros fuel' request' Heq; eapply enough_fuel; [discriminate|exact Hfuel|exact Heq]).
  destruct (world_talk (world_start_with fuel) empty_world empty_reachable) as [Hd Hb].
  destruct (at_world methods_end (world_start_with fuel) _ _ Henough Hd Hb) as [result Hr].
  exists result. split; [exact (Henough _ _ eq_refl)|exact Hr].
Defined.

(** A system that has started the execution, and one that has then destroyed it. *)
Lemma world_history :
  exists s vr s', rtc world_step init s /\ rtc world_step s s' /\
    sys_records s = w_journal (run_world world_destroy running_world).1 /\
    sys_records s !! "execution-1" = Some vr /\ ending (vr_State vr) = true /\ world_step s s'.
Proof.
  destruct (world_reachable_run world_destroy running_world running_reachable) as (s & Hrun & Hs).
  assert (Hvr : exists vr, w_journal (run_world world_destroy running_world).1 !! "execution-1" =
    Some vr /\ ending (vr_State vr) = true) by (vm_compute; eexists; split; reflexivity).
  destruct Hvr as (vr & Hvr & Hend). pose proof (step_begin world_sha256 world_Join false
    "/var/lib/sparerunner" s 0%nat world_start) as Hstep.
  exists s, vr. eexists. split_and!; [done|by eapply rtc_once|done|by rewrite Hs|done|done].
Qed.

Lemma journal_refines_lifecycle_witness :
  exists s s', world_step s s' /\ evolves world_sha256 (sys_records s) (sys_records s').
Proof.
  destruct world_history as (s & vr & s' & Hrun & _ & _ & _ & _ & Hstep). exists s, s'.
  split; [done|].
  exact (journal_refines_lifecycle _ _ _ _ s s' world_sha256_size Hrun Hstep).
Defined.

Lemma teardown_is_final_witness :
  exists s s' vr', rtc world_step s s' /\ sys_records s' !! "execution-1" = Some vr' /\
    ending (vr_State vr') = true.
Proof.
  destruct world_history as (s & vr & s' & Hrun & Hrun' & _ & Hvr & Hend & _). exists s, s'.
  destruct (teardown_is_final _ _ _ _ s s' "execution-1" vr world_sha256_size Hrun Hvr Hend Hrun')
    as (vr' & Hvr' & Hend'). exists vr'. split_and!; done.
Defined.
