(* ===== verification/AgentStore.v ===== *)
(** * The Agent's durable journal (internal/store/agent*.go)

    The database an Agent keeps beside its runners: accepted commands with the
    controller epoch fence, execution observations, cleanup tombstones, the outbox of
    execution updates, target attributions, the owner's availability and exclusions,
    and the runner journal's records.  A table is a map from its primary key to its
    rows; what its CHECK, UNIQUE and REFERENCES clauses refuse is written out in the
    statements that could violate them.  Every method runs against a connection
    ([sql AgentDB]), on which any statement may fail and any commit may be lost or
    unreported. *)

From S2P Require Import Prelude GoStd GoEncoding Sql StoreBase Domain Execution Replay RunnerLease RunnerJournal.
From Stdlib Require Import Ascii.

(** ** Records *)

(* src: internal/store/agent.go:12-15 Observation *)
Record Observation := mkStoreObservation {
  observation_ExecutionID : ExecutionID; observation_State : string }.
(* src: internal/store/agent.go:17-20 CleanupTombstone *)
Record CleanupTombstone := mkStoreTombstone {
  tombstone_ExecutionID : ExecutionID; tombstone_FailureCode : string }.
(* src: internal/store/agent.go:22-26 ObservationSnapshot *)
Record ObservationSnapshot := mkObservationSnapshot {
  os_ExecutionID : ExecutionID; os_State : string; os_ObservedAtUnixNano : Z }.
(* src: internal/store/agent.go:28-32 CleanupTombstoneSnapshot *)
Record CleanupTombstoneSnapshot := mkTombstoneSnapshot {
  ts_ExecutionID : ExecutionID; ts_FailureCode : string; ts_RecordedAtUnixNano : Z }.
(* src: internal/store/agent.go:34-39 AgentSnapshot *)
Record AgentStoreSnapshot := mkAgentStoreSnapshot {
  ass_MaxControllerEpoch : ControllerEpoch;
  ass_Commands : list Command;
  ass_Observations : list ObservationSnapshot;
  ass_CleanupTombstones : list CleanupTombstoneSnapshot }.

(* src: internal/store/agent_command_type.go:15-18 AcceptedAgentCommand *)
Record AcceptedAgentCommand := mkAccepted { accepted_Type : string; accepted_Command : Command }.
#[export] Instance AcceptedAgentCommand_eq_dec : EqDecision AcceptedAgentCommand.
Proof. solve_decision. Defined.

(* src: internal/store/agent_outbox.go:16-23 ExecutionUpdateRecord *)
Record ExecutionUpdateRecord := mkUpdateRecord {
  eur_NodeID : NodeID;
  eur_CommandID : CommandID;
  eur_ExecutionID : ExecutionID;
  eur_State : string;
  eur_Replayed : bool;
  eur_ErrorCode : string }.
#[export] Instance ExecutionUpdateRecord_eq_dec : EqDecision ExecutionUpdateRecord.
Proof. solve_decision. Defined.

(* src: internal/store/agent_outbox.go:34-38 PendingExecutionUpdate *)
Record PendingExecutionUpdate := mkPending {
  pending_Sequence : Z; pending_MessageID : string; pending_Update : ExecutionUpdateRecord }.

(* src: internal/store/agent_availability.go:14-19 AvailabilityRecord *)
Record AvailabilityRecord := mkAvailabilityRecord {
  ar_Intent : string; ar_ChangedAtUnixNano : Z; ar_ChangedBy : string; ar_Explicit : bool }.

(* src: internal/store/agent_availability.go:236-241 ExecutionTarget *)
Record ExecutionTarget := mkExecutionTarget {
  et_ExecutionID : ExecutionID; et_TargetID : TargetID; et_Scope : string; et_ScopeKind : string }.
#[export] Instance ExecutionTarget_eq_dec : EqDecision ExecutionTarget.
Proof. solve_decision. Defined.

(* src: internal/store/agent_lifecycle.go:18-29 ExecutionLifecycleCommit *)
Record ExecutionLifecycleCommit := mkLifecycleCommit {
  elc_Observation : Observation;
  elc_CleanupTombstone : option CleanupTombstone;
  elc_MessageID : string;
  elc_Update : ExecutionUpdateRecord;
  elc_Target : option ExecutionTarget }.

(** ** Tables *)

(** A row of [execution_update_outbox] without its primary key; [replayed] is an
    INTEGER. *)
(* src: internal/store/migrations/agent/006_target_exclusions.sql:31-40 execution_update_outbox *)
Record OutboxRow := mkOutboxRow {
  or_MessageID : string;
  or_NodeID : string;
  or_CommandID : string;
  or_ExecutionID : string;
  or_State : string;
  or_Replayed : Z;
  or_ErrorCode : string }.
(* src: internal/store/migrations/agent/005_node_availability.sql:4-9 node_availability *)
Record AvailabilityRow := mkAvailabilityRow {
  av_Intent : string; av_ChangedAt : Z; av_ChangedBy : string }.
(* src: internal/store/migrations/agent/006_target_exclusions.sql:6-15 node_target_exclusions *)
Record ExclusionRow := mkExclusionRow { ex_ChangedAt : Z; ex_ChangedBy : string }.

Record AgentDB := mkAgentDB {
  store_metadata : gmap string string;
  command_replays : gmap string Command;
  accepted_command_types : gmap string string;
  execution_observations : gmap string ObservationSnapshot;
  cleanup_tombstones : gmap string CleanupTombstoneSnapshot;
  execution_update_outbox : gmap Z OutboxRow;
  runner_journal_records : gmap string VersionedRecord;
  execution_targets : gmap string ExecutionTarget;
  node_availability : option AvailabilityRow;
  node_target_exclusions : gmap string ExclusionRow }.

(** The database after the migrations. *)
(* src: internal/store/migrations/agent/001_initial.sql:1-7 store_metadata *)
Definition fresh_agent_db : AgentDB :=
  mkAgentDB (<["role" := "agent"]> {["max_controller_epoch" := "0"]}) ∅ ∅ ∅ ∅ ∅ ∅ ∅ None ∅.

Definition with_metadata t db := mkAgentDB t (command_replays db) (accepted_command_types db)
  (execution_observations db) (cleanup_tombstones db) (execution_update_outbox db)
  (runner_journal_records db) (execution_targets db) (node_availability db) (node_target_exclusions db).
Definition with_commands t db := mkAgentDB (store_metadata db) t (accepted_command_types db)
  (execution_observations db) (cleanup_tombstones db) (execution_update_outbox db)
  (runner_journal_records db) (execution_targets db) (node_availability db) (node_target_exclusions db).
Definition with_types t db := mkAgentDB (store_metadata db) (command_replays db) t
  (execution_observations db) (cleanup_tombstones db) (execution_update_outbox db)
  (runner_journal_records db) (execution_targets db) (node_availability db) (node_target_exclusions db).
Definition with_observations t db := mkAgentDB (store_metadata db) (command_replays db)
  (accepted_command_types db) t (cleanup_tombstones db) (execution_update_outbox db)
  (runner_journal_records db) (execution_targets db) (node_availability db) (node_target_exclusions db).
Definition with_tombstones t db := mkAgentDB (store_metadata db) (command_replays db)
  (accepted_command_types db) (execution_observations db) t (execution_update_outbox db)
  (runner_journal_records db) (execution_targets db) (node_availability db) (node_target_exclusions db).
Definition with_outbox t db := mkAgentDB (store_metadata db) (command_replays db)
  (accepted_command_types db) (execution_observations db) (cleanup_tombstones db) t
  (runner_journal_records db) (execution_targets db) (node_availability db) (node_target_exclusions db).
Definition with_journal t db := mkAgentDB (store_metadata db) (command_replays db)
  (accepted_command_types db) (execution_observations db) (cleanup_tombstones db)
  (execution_update_outbox db) t (execution_targets db) (node_availability db) (node_target_exclusions db).
Definition with_targets t db := mkAgentDB (store_metadata db) (command_replays db)
  (accepted_command_types db) (execution_observations db) (cleanup_tombstones db)
  (execution_update_outbox db) (runner_journal_records db) t (node_availability db)
  (node_target_exclusions db).
Definition with_availability t db := mkAgentDB (store_metadata db) (command_replays db)
  (accepted_command_types db) (execution_observations db) (cleanup_tombstones db)
  (execution_update_outbox db) (runner_journal_records db) (execution_targets db) t
  (node_target_exclusions db).
Definition with_exclusions t db := mkAgentDB (store_metadata db) (command_replays db)
  (accepted_command_types db) (execution_observations db) (cleanup_tombstones db)
  (execution_update_outbox db) (runner_journal_records db) (execution_targets db)
  (node_availability db) t.

(** The CHECK clauses. *)
(* src: internal/store/migrations/agent/001_initial.sql:14-20 command_replays *)
Definition command_check (c : Command) : bool :=
  sql_nonempty (command_ID c) && (command_ControllerEpoch c >? 0) &&
  sql_nonempty (command_ExecutionID c) && isKnownExecutionState (command_ExpectedState c) &&
  isLowerSHA256 (command_PayloadDigest c).
(* src: internal/store/migrations/agent/001_initial.sql:22-26 execution_observations *)
Definition observation_check (o : ObservationSnapshot) : bool :=
  sql_nonempty (os_ExecutionID o) && isKnownExecutionState (os_State o) && (os_ObservedAtUnixNano o >? 0).
(* src: internal/store/migrations/agent/001_initial.sql:28-32 cleanup_tombstones *)
Definition tombstone_check (t : CleanupTombstoneSnapshot) : bool :=
  sql_nonempty (ts_ExecutionID t) &&
  bool_decide (ts_FailureCode t ∈ [CleanupVerificationFailed; CleanupProcessResidue; CleanupWorkspaceRemoval]) &&
  (ts_RecordedAtUnixNano t >? 0).
(* src: internal/store/migrations/agent/004_accepted_command_types.sql:4-8 accepted_command_types *)
Definition command_type_check (commandType : string) : bool :=
  bool_decide (commandType ∈ [CommandPrepare; CommandStart; CommandCancel]).
(* src: internal/store/migrations/agent/006_target_exclusions.sql:31-40 execution_update_outbox *)
Definition outbox_check (r : OutboxRow) : bool :=
  isLowerSHA256 (or_MessageID r) && sql_nonempty (or_NodeID r) && sql_nonempty (or_CommandID r) &&
  sql_nonempty (or_ExecutionID r) && isKnownExecutionState (or_State r) &&
  bool_decide (or_Replayed r ∈ [0; 1]) &&
  bool_decide (or_ErrorCode r ∈ [ExecutionErrorNone; ExecutionErrorConflict; ExecutionErrorReconciliation;
    ExecutionErrorQuarantined; ExecutionErrorCleanup; ExecutionErrorStart; ExecutionErrorPlatform;
    ExecutionErrorJournal; ExecutionErrorCommandRejected; ExecutionErrorTargetExcluded]).
(** SQLite counts characters, of which there are at most as many as bytes. *)
(* src: internal/store/migrations/agent/006_target_exclusions.sql:21-26 execution_targets *)
Definition target_check (t : ExecutionTarget) : bool :=
  sql_nonempty (et_ExecutionID t) && sql_nonempty (et_TargetID t) &&
  (len_string (et_TargetID t) <=? 128) && sql_nonempty (et_Scope t) &&
  bool_decide (et_ScopeKind t ∈ [TargetRepository; TargetOrganization]).
(** [target_id = trim(target_id)]: no space at either end. *)
Definition sql_trimmed (text : string) : bool :=
  match bytes_of text with
  | [] => true
  | c :: rest => negb (Ascii.eqb c " ") && negb (Ascii.eqb (List.last rest c) " ")
  end.
(* src: internal/store/migrations/agent/006_target_exclusions.sql:6-15 node_target_exclusions *)
Definition exclusion_check (targetID : string) (r : ExclusionRow) : bool :=
  sql_nonempty targetID && (len_string targetID <=? 128) && sql_trimmed targetID &&
  all_bytes (fun c => negb (control_byte c)) targetID && (ex_ChangedAt r >? 0) &&
  sql_nonempty (ex_ChangedBy r).
(* src: internal/store/migrations/agent/005_node_availability.sql:4-9 node_availability *)
Definition availability_check (r : AvailabilityRow) : bool :=
  bool_decide (av_Intent r ∈ [AvailabilityAccepting; AvailabilityStopped]) && (av_ChangedAt r >? 0).

Abbreviation program := (sql AgentDB) (only parsing).

(** ** Commands *)

(* src: internal/store/agent.go:63-65 AgentStore.LookupCommand *)
Definition epoch_in_range (command : Command) : error :=
  if command_ControllerEpoch command >? maxSQLiteInteger then
    Some (PlainError "controller epoch exceeds SQLite's signed INTEGER range")
  else None.

(* src: internal/store/agent.go:111-134 lookupCommand *)
Definition lookupCommand (command : Command) (db : AgentDB) : result bool :=
  match command_replays db !! command_ID command with
  | Some existing =>
      if existing == command then Ok true
      else if command_PayloadDigest existing != command_PayloadDigest command then
        Err (WrappedError "command payload digest" ErrReplayMismatch)
      else Err (WrappedError "command identity" ErrReplayMismatch)
  | None => Ok false
  end.

(* src: internal/store/agent.go:56-67 AgentStore.LookupCommand *)
Definition LookupCommand (s : baseStore) (command : Command) : program bool :=
  require (requireReady s) ;;
  require (Command_Validate command) ;;
  require (epoch_in_range command) ;;
  query (lookupCommand command).

(** The statements of the admission of a command. *)
Definition read_max_epoch : program Z :=
  query (fun db => readUintMetadata (store_metadata db) "max_controller_epoch").
(* src: internal/store/agent.go:100-102 AgentStore.RecordCommand *)
Definition insert_command (command : Command) : program unit :=
  exec (fun db =>
    let! t := insert_row (command_check command) (command_ID command) command (command_replays db) ;;
    Ok (with_commands t db)).
(* src: internal/store/agent.go:103-107 AgentStore.RecordCommand *)
Definition raise_max_epoch (command : Command) (maxEpoch : Z) : program unit :=
  if command_ControllerEpoch command >? maxEpoch then
    exec (fun db => Ok (with_metadata
      (update_metadata "max_controller_epoch" (command_ControllerEpoch command) (store_metadata db)) db))
  else mret tt.
(* src: internal/store/agent.go:97-99 AgentStore.RecordCommand *)
Definition fence_epoch (command : Command) (maxEpoch : Z) : error :=
  if command_ControllerEpoch command <? maxEpoch then
    Some (WrappedError "got, accepted" ErrStaleControllerEpoch)
  else None.

(* src: internal/store/agent.go:69-109 AgentStore.RecordCommand *)
Definition RecordCommand (s : baseStore) (command : Command) : program bool :=
  require (requireReady s) ;;
  require (Command_Validate command) ;;
  require (epoch_in_range command) ;;
  in_tx (
    replayed ← query (lookupCommand command);
    if (replayed : bool) then mret (RollbackWith true) else
    maxEpoch ← read_max_epoch;
    require (fence_epoch command maxEpoch) ;;
    insert_command command ;;
    raise_max_epoch command maxEpoch ;;
    mret (CommitWith false)).

(** *** Typed commands (agent_command_type.go) *)

(* src: internal/store/agent_command_type.go:20-44 AcceptedAgentCommand.validate *)
Definition accepted_validate (accepted : AcceptedAgentCommand) : error :=
  try CommandType_Validate (accepted_Type accepted) "accepted_command.type" ;;
  try Command_Validate (accepted_Command accepted) ;;
  let expected := command_ExpectedState (accepted_Command accepted) in
  if accepted_Type accepted == CommandPrepare then
    if expected != ExecutionReserved then
      Some (PlainError "accepted prepare command must expect reserved") else None
  else if accepted_Type accepted == CommandStart then
    if expected != ExecutionPreparing then
      Some (PlainError "accepted start command must expect preparing") else None
  else if accepted_Type accepted == CommandCancel then
    if bool_decide (expected ∈ [ExecutionPreparing; ExecutionRunning; ExecutionCleaning]) then None
    else Some (PlainError "accepted cancel command must expect an active execution")
  else None.

(** [fmt.Errorf("stored accepted command is invalid: %w", err)]. *)
Definition stored_accepted_invalid (err : GoError) : GoError :=
  WrappedError "stored accepted command is invalid: " err.

(* src: internal/store/agent_command_type.go:129-162 lookupTypedCommand *)
Definition lookupTypedCommand (accepted : AcceptedAgentCommand) (db : AgentDB) : result bool :=
  let id := command_ID (accepted_Command accepted) in
  match command_replays db !! id, accepted_command_types db !! id with
  | Some command, Some commandType =>
      let existing := mkAccepted commandType command in
      match accepted_validate existing with
      | Some err => Err (stored_accepted_invalid err)
      | None =>
          if existing != accepted then Err (WrappedError "accepted command identity" ErrReplayMismatch)
          else Ok true
      end
  | _, _ => Ok false
  end.

(* src: internal/store/agent_command_type.go:48-59 AgentStore.LookupTypedCommand *)
Definition LookupTypedCommand (s : baseStore) (accepted : AcceptedAgentCommand) : program bool :=
  require (requireReady s) ;;
  require (accepted_validate accepted) ;;
  query (lookupTypedCommand accepted).

(* src: internal/store/agent_command_type.go:164-177 commandReplayExists *)
Definition commandReplayExists (commandID : CommandID) (db : AgentDB) : result bool :=
  Ok (bool_decide (is_Some (command_replays db !! commandID))).

(** The reference to [command_replays] is checked with the row. *)
(* src: internal/store/agent_command_type.go:115-119 AgentStore.RecordTypedCommand *)
Definition insert_command_type (accepted : AcceptedAgentCommand) : program unit :=
  let id := command_ID (accepted_Command accepted) in
  exec (fun db =>
    let! t := insert_row (command_type_check (accepted_Type accepted) &&
                bool_decide (is_Some (command_replays db !! id))) id (accepted_Type accepted)
                (accepted_command_types db) ;;
    Ok (with_types t db)).

(* src: internal/store/agent_command_type.go:63-127 AgentStore.RecordTypedCommand *)
Definition RecordTypedCommand (s : baseStore) (accepted : AcceptedAgentCommand) : program bool :=
  let command := accepted_Command accepted in
  require (requireReady s) ;;
  require (accepted_validate accepted) ;;
  require (epoch_in_range command) ;;
  in_tx (
    replayed ← query (lookupTypedCommand accepted);
    if (replayed : bool) then mret (RollbackWith true) else
    commandExists ← query (commandReplayExists (command_ID command));
    require (if (commandExists : bool) then
               Some (WrappedError "accepted command type is absent" ErrReplayMismatch) else None) ;;
    maxEpoch ← read_max_epoch;
    require (fence_epoch command maxEpoch) ;;
    insert_command command ;;
    insert_command_type accepted ;;
    raise_max_epoch command maxEpoch ;;
    mret (CommitWith false)).

(** The join of both tables ordered by execution, then command. *)
Definition accepted_less (a b : AcceptedAgentCommand) : bool :=
  let key c := command_ExecutionID (accepted_Command c) in
  if key a != key b then string_less (key a) (key b)
  else string_less (command_ID (accepted_Command a)) (command_ID (accepted_Command b)).
Definition accepted_rows (db : AgentDB) : list AcceptedAgentCommand :=
  sort_slice accepted_less (omap (fun row =>
    match accepted_command_types db !! row.1 with
    | Some commandType => Some (mkAccepted commandType row.2)
    | None => None
    end) (map_to_list (command_replays db))).
(* src: internal/store/agent_command_type.go:180-215 AgentStore.AcceptedAgentCommands *)
Definition AcceptedAgentCommands (s : baseStore) : program (list AcceptedAgentCommand) :=
  require (requireReady s) ;;
  query (fun db => scan_rows (fun accepted =>
    match accepted_validate accepted with
    | Some err => Err (stored_accepted_invalid err)
    | None => Ok accepted
    end) (accepted_rows db)).

(** ** Observations and tombstones *)

(* src: internal/store/agent.go:180-185 validateObservation *)
Definition validateObservation (observation : Observation) : error :=
  if observation_ExecutionID observation == "" then
    Some (PlainError "observation requires execution ID")
  else ExecutionState_Validate (observation_State observation) "observation.state".

(* src: internal/store/agent.go:230-248 loadObservation *)
Definition loadObservation (executionID : ExecutionID) (db : AgentDB) : result (option ObservationSnapshot) :=
  match execution_observations db !! executionID with
  | None => Ok None
  | Some observation =>
      if (os_ExecutionID observation == "") || (os_ObservedAtUnixNano observation <=? 0) ||
         (ExecutionState_Validate (os_State observation) "observation.state" != None) then
        Err (PlainError "stored observation failed validation")
      else Ok (Some observation)
  end.

(* src: internal/store/agent.go:316-324 monotonicAgentTimestamp *)
Definition monotonicAgentTimestamp (candidate previous : Z) (subject : string) : result Z :=
  if candidate >? previous then Ok candidate
  else if previous == max_int64 then Err (PlainError (String.append subject " timestamp is exhausted"))
  else Ok (wrap_int64 (previous + 1)).

(* src: internal/store/agent.go:214-227 recordObservationTx *)
Definition write_observation (observation : Observation) (observedAt : Z) : program ObservationSnapshot :=
  let row := mkObservationSnapshot (observation_ExecutionID observation)
               (observation_State observation) observedAt in
  exec (fun db =>
    let! t := upsert_row (observation_check row) (os_ExecutionID row) row (execution_observations db) ;;
    Ok (with_observations t db)) ;;
  mret row.

(* src: internal/store/agent.go:187-228 recordObservationTx *)
Definition recordObservationTx (observation : Observation) (observedAt : Z) (touchEqual allowAdvanced : bool)
    : program ObservationSnapshot :=
  previous ← query (loadObservation (observation_ExecutionID observation));
  match previous with
  | Some previous =>
      if (os_State previous == observation_State observation) && negb touchEqual then mret previous
      else if negb (CanReachExecutionState (os_State previous) (observation_State observation)) then
        if allowAdvanced && CanReachExecutionState (observation_State observation) (os_State previous)
        then mret previous
        else throw (PlainError "observation state cannot regress")
      else
        observedAt ← lift (monotonicAgentTimestamp observedAt (os_ObservedAtUnixNano previous) "observation");
        write_observation observation observedAt
  | None => write_observation observation observedAt
  end.

(* src: internal/store/agent.go:136-156 AgentStore.RecordObservation *)
Definition RecordObservation (s : baseStore) (observation : Observation) : program unit :=
  require (requireReady s) ;;
  require (validateObservation observation) ;;
  observedAt ← lift (storeUnixNano (store_now s));
  in_tx (recordObservationTx observation observedAt true false ;; mret (CommitWith tt)).

(* src: internal/store/agent.go:250-255 validateCleanupTombstone *)
Definition validateCleanupTombstone (tombstone : CleanupTombstone) : error :=
  if tombstone_ExecutionID tombstone == "" then
    Some (PlainError "cleanup tombstone requires execution ID")
  else CleanupFailureCode_Validate (tombstone_FailureCode tombstone) "cleanup_tombstone.failure_code".

(* src: internal/store/agent.go:296-314 loadCleanupTombstone *)
Definition loadCleanupTombstone (executionID : ExecutionID) (db : AgentDB)
    : result (option CleanupTombstoneSnapshot) :=
  match cleanup_tombstones db !! executionID with
  | None => Ok None
  | Some tombstone =>
      if (ts_ExecutionID tombstone == "") || (ts_RecordedAtUnixNano tombstone <=? 0) ||
         (CleanupFailureCode_Validate (ts_FailureCode tombstone) "cleanup_tombstone.failure_code" != None)
      then Err (PlainError "stored cleanup tombstone failed validation")
      else Ok (Some tombstone)
  end.

(* src: internal/store/agent.go:280-293 recordCleanupTombstoneTx *)
Definition write_tombstone (tombstone : CleanupTombstone) (recordedAt : Z) : program CleanupTombstoneSnapshot :=
  let row := mkTombstoneSnapshot (tombstone_ExecutionID tombstone)
               (tombstone_FailureCode tombstone) recordedAt in
  exec (fun db =>
    let! t := upsert_row (tombstone_check row) (ts_ExecutionID row) row (cleanup_tombstones db) ;;
    Ok (with_tombstones t db)) ;;
  mret row.

(* src: internal/store/agent.go:257-294 recordCleanupTombstoneTx *)
Definition recordCleanupTombstoneTx (tombstone : CleanupTombstone) (recordedAt : Z) (touchEqual : bool)
    : program CleanupTombstoneSnapshot :=
  previous ← query (loadCleanupTombstone (tombstone_ExecutionID tombstone));
  match previous with
  | Some previous =>
      if ts_FailureCode previous != tombstone_FailureCode tombstone then
        throw (PlainError "cleanup tombstone classification is immutable")
      else if negb touchEqual then mret previous
      else
        recordedAt ← lift (monotonicAgentTimestamp recordedAt (ts_RecordedAtUnixNano previous)
                             "cleanup tombstone");
        write_tombstone tombstone recordedAt
  | None => write_tombstone tombstone recordedAt
  end.

(* src: internal/store/agent.go:158-178 AgentStore.RecordCleanupTombstone *)
Definition RecordCleanupTombstone (s : baseStore) (tombstone : CleanupTombstone) : program unit :=
  require (requireReady s) ;;
  require (validateCleanupTombstone tombstone) ;;
  recordedAt ← lift (storeUnixNano (store_now s));
  in_tx (recordCleanupTombstoneTx tombstone recordedAt true ;; mret (CommitWith tt)).

(** *** The restart snapshot *)

(* src: internal/store/agent.go:348-359 AgentStore.Snapshot *)
Definition scan_command (row : string * Command) : result Command :=
  match Command_Validate row.2 with Some err => Err err | None => Ok row.2 end.
(* src: internal/store/agent.go:372-387 AgentStore.Snapshot *)
Definition scan_observation (row : string * ObservationSnapshot) : result ObservationSnapshot :=
  if (os_ExecutionID row.2 == "") || (os_ObservedAtUnixNano row.2 <=? 0) then
    Err (PlainError "stored observation failed validation")
  else match ExecutionState_Validate (os_State row.2) "observation.state" with
  | Some err => Err err
  | None => Ok row.2
  end.
(* src: internal/store/agent.go:400-415 AgentStore.Snapshot *)
Definition scan_tombstone (row : string * CleanupTombstoneSnapshot) : result CleanupTombstoneSnapshot :=
  if (ts_ExecutionID row.2 == "") || (ts_RecordedAtUnixNano row.2 <=? 0) then
    Err (PlainError "stored cleanup tombstone failed validation")
  else match CleanupFailureCode_Validate (ts_FailureCode row.2) "cleanup_tombstone.failure_code" with
  | Some err => Err err
  | None => Ok row.2
  end.
(* src: internal/store/agent.go:329-427 AgentStore.Snapshot *)
Definition AgentStore_Snapshot (s : baseStore) : program AgentStoreSnapshot :=
  require (requireReady s) ;;
  in_tx (
    rawEpoch ← read_max_epoch;
    commands ← query (fun db => scan_rows scan_command (rows_by_key (command_replays db)));
    observations ← query (fun db => scan_rows scan_observation (rows_by_key (execution_observations db)));
    tombstones ← query (fun db => scan_rows scan_tombstone (rows_by_key (cleanup_tombstones db)));
    mret (CommitWith (mkAgentStoreSnapshot rawEpoch commands observations tombstones))).

(** ** The outbox (agent_outbox.go) *)

(* src: internal/store/agent_outbox.go:12-12 ErrExecutionUpdateNotFound *)
Definition ErrExecutionUpdateNotFound : GoError := PlainError "store execution update is not pending".

(* src: internal/store/agent_outbox.go:25-30 ExecutionUpdateRecord.Validate *)
Definition ExecutionUpdateRecord_Validate (update : ExecutionUpdateRecord) : error :=
  if (eur_NodeID update == "") || (eur_CommandID update == "") || (eur_ExecutionID update == "") then
    Some (PlainError "execution update identity is incomplete")
  else ValidateExecutionResult (eur_State update) (eur_ErrorCode update) "execution_update".

(** The row of an update, and its scan. *)
(* src: internal/store/agent_outbox.go:89-99 insertExecutionUpdateTx *)
Definition outbox_row (messageID : string) (update : ExecutionUpdateRecord) : OutboxRow :=
  mkOutboxRow messageID (eur_NodeID update) (eur_CommandID update) (eur_ExecutionID update)
    (eur_State update) (if eur_Replayed update then 1 else 0) (eur_ErrorCode update).
(* src: internal/store/agent_outbox.go:224-245 scanPendingExecutionUpdate *)
Definition scanPendingExecutionUpdate (row : Z * OutboxRow) : result PendingExecutionUpdate :=
  let '(sequence, r) := row in
  let replayed := or_Replayed r in
  let update := mkUpdateRecord (or_NodeID r) (or_CommandID r) (or_ExecutionID r) (or_State r)
                  (replayed == 1) (or_ErrorCode r) in
  if (sequence <=? 0) || negb (isLowerSHA256 (or_MessageID r)) ||
     ((replayed != 0) && (replayed != 1)) || (ExecutionUpdateRecord_Validate update != None) then
    Err (PlainError "stored execution update failed validation")
  else Ok (mkPending sequence (or_MessageID r) update).

(** [ORDER BY sequence], and the row with a message identity: it is UNIQUE, so
    there is at most one. *)
Definition outbox_rows (db : AgentDB) : list (Z * OutboxRow) :=
  sort_slice (fun a b => a.1 <? b.1) (map_to_list (execution_update_outbox db)).
Definition outbox_find (messageID : string) (db : AgentDB) : option (Z * OutboxRow) :=
  find (fun row => or_MessageID row.2 == messageID) (outbox_rows db).

(* src: internal/store/agent_outbox.go:247-260 loadPendingExecutionUpdate *)
Definition loadPendingExecutionUpdate (messageID : string) (db : AgentDB)
    : result (option PendingExecutionUpdate) :=
  match outbox_find messageID db with
  | None => Ok None
  | Some row => let! pending := scanPendingExecutionUpdate row ;; Ok (Some pending)
  end.

(** The INTEGER PRIMARY KEY SQLite chooses: one more than the largest.  When that
    is not an [int64], SQLite looks for a free one at random; here the table is then
    full. *)
Definition next_sequence (db : AgentDB) : Z := 1 + foldr Z.max 0 (map fst (outbox_rows db)).
(* src: internal/store/agent_outbox.go:83-108 insertExecutionUpdateTx *)
Definition insertExecutionUpdateTx (messageID : string) (update : ExecutionUpdateRecord)
    : program PendingExecutionUpdate :=
  sequence ← statement (fun db =>
    let sequence := next_sequence db in
    let row := outbox_row messageID update in
    if sequence >? max_int64 then Err (PlainError "database or disk is full")
    else if bool_decide (is_Some (outbox_find messageID db)) then Err ErrConstraint
    else
      let! t := insert_row (outbox_check row && (sequence >? 0)) sequence row (execution_update_outbox db) ;;
      Ok (sequence, with_outbox t db));
  require (if sequence <=? 0 then Some (PlainError "execution update outbox sequence is invalid") else None) ;;
  mret (mkPending sequence messageID update).

(* src: internal/store/agent_outbox.go:40-81 AgentStore.QueueExecutionUpdate *)
Definition QueueExecutionUpdate (s : baseStore) (messageID : string) (update : ExecutionUpdateRecord)
    : program (PendingExecutionUpdate * bool) :=
  require (requireReady s) ;;
  require (if negb (isLowerSHA256 messageID) || (ExecutionUpdateRecord_Validate update != None) then
             Some (PlainError "execution update outbox input is invalid") else None) ;;
  in_tx_recovering (
    existing ← query (loadPendingExecutionUpdate messageID);
    match existing with
    | Some existing =>
        if pending_Update existing != update then
          throw (WrappedError "execution update message identity" ErrReplayMismatch)
        else mret (RollbackWith (existing, false))
    | None =>
        pending ← insertExecutionUpdateTx messageID update;
        mret (CommitWith (pending, true))
    end)
    (fun err _ =>
      observed ← attempt (query (loadPendingExecutionUpdate messageID));
      match observed with
      | Ok (Some observed) =>
          if pending_Update observed == update then mret (observed, false) else throw err
      | _ => throw err
      end).

(* src: internal/store/agent_outbox.go:110-132 AgentStore.PendingExecutionUpdates *)
Definition PendingExecutionUpdates (s : baseStore) : program (list PendingExecutionUpdate) :=
  require (requireReady s) ;;
  query (fun db => scan_rows scanPendingExecutionUpdate (outbox_rows db)).

(** [SELECT count FROM t WHERE p]. *)
Definition count_rows {K A} `{Countable K} (p : A -> bool) (t : gmap K A) : Z :=
  Z.of_nat (size (filter (fun row => p row.2 = true) t)).
(** [DELETE FROM t WHERE p]. *)
Definition delete_rows {K A} `{Countable K} (p : A -> bool) (t : gmap K A) : gmap K A :=
  filter (fun row => p row.2 = false) t.

(** Deleting a command deletes its type ([ON DELETE CASCADE]). *)
Definition delete_commands (p : Command -> bool) (db : AgentDB) : AgentDB :=
  let remaining := delete_rows p (command_replays db) in
  let doomed (id : string) : bool :=
    bool_decide (is_Some (command_replays db !! id)) && negb (bool_decide (is_Some (remaining !! id))) in
  with_types (filter (fun row => doomed row.1 = false) (accepted_command_types db))
    (with_commands remaining db).

(* src: internal/store/agent_outbox.go:180-218 pruneAcknowledgedTerminalExecution *)
Definition pruneAcknowledgedTerminalExecution (executionID : ExecutionID) : program unit :=
  pending ← query (fun db => Ok (count_rows (fun r => or_ExecutionID r == executionID)
                                   (execution_update_outbox db)));
  require (if pending != 0 then
             Some (PlainError "terminal execution acknowledgement preceded an older outbox update")
           else None) ;;
  tombstones ← query (fun db => Ok (count_rows (fun t => ts_ExecutionID t == executionID)
                                      (cleanup_tombstones db)));
  require (if tombstones != 0 then
             Some (PlainError "clean terminal execution retained cleanup failure evidence")
           else None) ;;
  exec (fun db => Ok (delete_commands (fun c => command_ExecutionID c == executionID) db)) ;;
  exec (fun db => Ok (with_observations
    (delete_rows (fun o => os_ExecutionID o == executionID) (execution_observations db)) db)) ;;
  exec (fun db => Ok (with_journal
    (delete_rows (fun r => vr_ExecutionID r == executionID) (runner_journal_records db)) db)) ;;
  exec (fun db => Ok (with_targets
    (delete_rows (fun t => et_ExecutionID t == executionID) (execution_targets db)) db)).

(** [DELETE FROM execution_update_outbox WHERE message_id = ?], counting. *)
(* src: internal/store/agent_outbox.go:153-163 AgentStore.AcknowledgeExecutionUpdate *)
Definition delete_outbox (messageID : string) : program unit :=
  affected ← statement (fun db =>
    let of_message := fun r => or_MessageID r == messageID in
    Ok (count_rows of_message (execution_update_outbox db),
        with_outbox (delete_rows of_message (execution_update_outbox db)) db));
  require (if affected != 1 then Some ErrExecutionUpdateNotFound else None).

(* src: internal/store/agent_outbox.go:134-178 AgentStore.AcknowledgeExecutionUpdate *)
Definition AcknowledgeExecutionUpdate (s : baseStore) (messageID : string) : program unit :=
  require (requireReady s) ;;
  require (if negb (isLowerSHA256 messageID) then Some ErrExecutionUpdateNotFound else None) ;;
  in_tx_recovering (
    found ← query (loadPendingExecutionUpdate messageID);
    match found with
    | None => throw ErrExecutionUpdateNotFound
    | Some pending =>
        delete_outbox messageID ;;
        (if (eur_State (pending_Update pending) == ExecutionReleased) ||
            (eur_State (pending_Update pending) == ExecutionFailed) then
           pruneAcknowledgedTerminalExecution (eur_ExecutionID (pending_Update pending))
         else mret tt) ;;
        mret (CommitWith tt)
    end)
    (fun err _ =>
      observed ← attempt (query (loadPendingExecutionUpdate messageID));
      match observed with
      | Ok None => mret tt
      | _ => throw err
      end).

(** ** Lifecycle commits (agent_lifecycle.go) *)

(* src: internal/store/agent_lifecycle.go:12-12 ErrLifecycleCommitAmbiguous *)
Definition ErrLifecycleCommitAmbiguous : GoError :=
  PlainError "agent lifecycle commit outcome is ambiguous".

(* src: internal/store/agent_availability.go:243-259 ExecutionTarget.validate *)
Definition ExecutionTarget_validate (target : ExecutionTarget) : error :=
  if et_ExecutionID target == "" then
    Some (PlainError "execution target requires an execution identity")
  else
  try TargetID_ValidateShape (et_TargetID target) "execution_targets.target_id" ;;
  if et_Scope target == "" then Some (PlainError "execution target requires a scope")
  else if bool_decide (et_ScopeKind target ∈ [TargetRepository; TargetOrganization]) then None
  else Some (PlainError "execution target scope kind is not a known kind").

(* src: internal/store/agent_lifecycle.go:31-70 ExecutionLifecycleCommit.validate *)
Definition lifecycle_validate (commit : ExecutionLifecycleCommit) : error :=
  let update := elc_Update commit in
  try validateObservation (elc_Observation commit) ;;
  if negb (isLowerSHA256 (elc_MessageID commit)) then
    Some (PlainError "execution lifecycle message ID is invalid")
  else
  try ExecutionUpdateRecord_Validate update ;;
  if eur_ExecutionID update != observation_ExecutionID (elc_Observation commit) then
    Some (PlainError "execution lifecycle identities do not match")
  else if eur_State update != observation_State (elc_Observation commit) then
    Some (PlainError "execution lifecycle states do not match")
  else
  let requiresTombstone := (eur_State update == ExecutionCleanupFailed) ||
                           (eur_State update == ExecutionQuarantined) in
  if requiresTombstone != (elc_CleanupTombstone commit != None) then
    Some (PlainError "cleanup failure lifecycle requires exactly one cleanup tombstone")
  else
  try (match elc_CleanupTombstone commit with
       | Some tombstone =>
           try validateCleanupTombstone tombstone ;;
           if tombstone_ExecutionID tombstone != eur_ExecutionID update then
             Some (PlainError "cleanup tombstone execution identity does not match lifecycle update")
           else None
       | None => None
       end) ;;
  match elc_Target commit with
  | Some target =>
      try ExecutionTarget_validate target ;;
      if et_ExecutionID target != eur_ExecutionID update then
        Some (PlainError "execution target identity does not match lifecycle update")
      else None
  | None => None
  end.

(* src: internal/store/agent_lifecycle.go:171-182 applyExecutionLifecycle *)
Definition insert_target (target : ExecutionTarget) : program unit :=
  exec (fun db =>
    let! t := insert_missing (target_check target) (et_ExecutionID target) target (execution_targets db) ;;
    Ok (with_targets t db)).

(* src: internal/store/agent_lifecycle.go:138-203 applyExecutionLifecycle *)
Definition applyExecutionLifecycle (commit : ExecutionLifecycleCommit) (nowUnixNano : Z)
    : program (PendingExecutionUpdate * bool) :=
  pending ← query (loadPendingExecutionUpdate (elc_MessageID commit));
  let found := bool_decide (is_Some pending) in
  require (match pending with
           | Some pending =>
               if pending_Update pending != elc_Update commit then
                 Some (WrappedError "execution update message identity" ErrReplayMismatch)
               else None
           | None => None
           end) ;;
  recordObservationTx (elc_Observation commit) nowUnixNano (negb found) found ;;
  match elc_Target commit with Some target => insert_target target | None => mret tt end ;;
  match elc_CleanupTombstone commit with
  | Some tombstone => recordCleanupTombstoneTx tombstone nowUnixNano (negb found) ;; mret tt
  | None => mret tt
  end ;;
  match pending with
  | Some pending => mret (pending, true)
  | None =>
      pending ← insertExecutionUpdateTx (elc_MessageID commit) (elc_Update commit);
      mret (pending, false)
  end.

(** [None] is [PendingExecutionUpdate{}, false, nil]. *)
(* src: internal/store/agent_lifecycle.go:205-247 AgentStore.observeExecutionLifecycleCommit *)
Definition observeExecutionLifecycleCommit (commit : ExecutionLifecycleCommit)
    : program (option PendingExecutionUpdate) :=
  in_tx (
    pending ← query (loadPendingExecutionUpdate (elc_MessageID commit));
    match pending with
    | None => mret (RollbackWith None)
    | Some pending =>
        if pending_Update pending != elc_Update commit then mret (RollbackWith None) else
        observation ← query (loadObservation (observation_ExecutionID (elc_Observation commit)));
        match observation with
        | None => mret (RollbackWith None)
        | Some observation =>
            if (os_State observation != observation_State (elc_Observation commit)) &&
               negb (CanReachExecutionState (observation_State (elc_Observation commit)) (os_State observation))
            then mret (RollbackWith None) else
            match elc_CleanupTombstone commit with
            | None => mret (CommitWith (Some pending))
            | Some expected =>
                tombstone ← query (loadCleanupTombstone (tombstone_ExecutionID expected));
                match tombstone with
                | None => mret (RollbackWith None)
                | Some tombstone =>
                    if ts_FailureCode tombstone != tombstone_FailureCode expected then mret (RollbackWith None)
                    else mret (CommitWith (Some pending))
                end
            end
        end
    end).

(** What [commitExecutionLifecycle] does when Commit reports [err]. *)
(* src: internal/store/agent_lifecycle.go:117-134 AgentStore.commitExecutionLifecycle *)
Definition resolve_lifecycle_commit (commit : ExecutionLifecycleCommit) (err : GoError)
    : program (PendingExecutionUpdate * bool) :=
  observed ← attempt (observeExecutionLifecycleCommit commit);
  match observed with
  | Ok (Some observed) => mret (observed, false)
  | Err observeErr => throw (WrappedError "commit; observe" ErrLifecycleCommitAmbiguous)
  | Ok None => throw (WrappedError "" ErrLifecycleCommitAmbiguous)
  end.

(** The committer is [tx.Commit]; others are test seams. *)
(* src: internal/store/agent_lifecycle.go:89-136 AgentStore.commitExecutionLifecycle *)
Definition CommitExecutionLifecycle (s : baseStore) (commit : ExecutionLifecycleCommit)
    : program (PendingExecutionUpdate * bool) :=
  require (requireReady s) ;;
  require (lifecycle_validate commit) ;;
  nowUnixNano ← lift (storeUnixNano (store_now s));
  in_tx_recovering (
    applied ← applyExecutionLifecycle commit nowUnixNano;
    mret (CommitWith (applied.1, negb applied.2)))
    (fun err _ => resolve_lifecycle_commit commit err).

(** ** The owner's availability and exclusions (agent_availability.go) *)

(* src: internal/store/agent_availability.go:24-24 DefaultAvailabilityIntent *)
Definition DefaultAvailabilityIntent : string := AvailabilityAccepting.

(* src: internal/store/agent_availability.go:28-51 AgentStore.ReadAvailability *)
Definition ReadAvailability (s : baseStore) : program AvailabilityRecord :=
  require (requireReady s) ;;
  query (fun db =>
    match node_availability db with
    | None => Ok (mkAvailabilityRecord DefaultAvailabilityIntent 0 "" false)
    | Some row =>
        match AvailabilityIntent_Validate (av_Intent row) "node_availability.intent" with
        | Some err => Err err
        | None => Ok (mkAvailabilityRecord (av_Intent row) (av_ChangedAt row) (av_ChangedBy row) true)
        end
    end).

(* src: internal/store/agent_availability.go:55-99 AgentStore.SetAvailability *)
Definition SetAvailability (s : baseStore) (intent changedBy : string) : program AvailabilityRecord :=
  require (requireReady s) ;;
  require (AvailabilityIntent_Validate intent "node_availability.intent") ;;
  require (if changedBy == "" then
             Some (PlainError "availability change requires a requesting surface") else None) ;;
  changedAt ← lift (storeUnixNano (store_now s));
  in_tx (
    let row := mkAvailabilityRow intent changedAt changedBy in
    exec (fun db =>
      if negb (availability_check row) then Err ErrConstraint
      else Ok (with_availability (Some row) db)) ;;
    mret (CommitWith (mkAvailabilityRecord intent changedAt changedBy true))).

(* src: internal/store/agent_availability.go:105-105 MaxTargetExclusions *)
Definition MaxTargetExclusions : Z := 256.
(* src: internal/store/agent_availability.go:110-110 ErrTargetExclusionsFull *)
Definition ErrTargetExclusionsFull : GoError := PlainError "node target exclusion set is full".

(* src: internal/store/agent_availability.go:128-139 AgentStore.ListExclusions *)
Definition scan_exclusion (row : string * ExclusionRow) : result TargetID :=
  match TargetID_ValidateShape row.1 "node_target_exclusions.target_id" with
  | Some err => Err err
  | None => Ok row.1
  end.
(* src: internal/store/agent_availability.go:115-144 AgentStore.ListExclusions *)
Definition ListExclusions (s : baseStore) : program (list TargetID) :=
  require (requireReady s) ;;
  query (fun db => scan_rows scan_exclusion (rows_by_key (node_target_exclusions db))).

(* src: internal/store/agent_availability.go:149-207 AgentStore.AddExclusion *)
Definition AddExclusion (s : baseStore) (targetID : TargetID) (changedBy : string) : program unit :=
  require (requireReady s) ;;
  require (TargetID_ValidateShape targetID "node_target_exclusions.target_id") ;;
  require (if changedBy == "" then
             Some (PlainError "target exclusion change requires a requesting surface") else None) ;;
  changedAt ← lift (storeUnixNano (store_now s));
  in_tx (
    existing ← query (fun db => Ok (if decide (is_Some (node_target_exclusions db !! targetID)) then 1 else 0));
    (if existing == 0 then
       total ← query (fun db => Ok (Z.of_nat (size (node_target_exclusions db))));
       require (if total >=? MaxTargetExclusions then Some ErrTargetExclusionsFull else None)
     else mret tt) ;;
    let row := mkExclusionRow changedAt changedBy in
    exec (fun db =>
      let! t := upsert_row (exclusion_check targetID row) targetID row (node_target_exclusions db) ;;
      Ok (with_exclusions t db)) ;;
    mret (CommitWith tt)).

(* src: internal/store/agent_availability.go:211-231 AgentStore.RemoveExclusion *)
Definition RemoveExclusion (s : baseStore) (targetID : TargetID) : program unit :=
  require (requireReady s) ;;
  require (TargetID_ValidateShape targetID "node_target_exclusions.target_id") ;;
  in_tx (
    exec (fun db => Ok (with_exclusions (delete targetID (node_target_exclusions db)) db)) ;;
    mret (CommitWith tt)).

(* src: internal/store/agent_availability.go:278-285 AgentStore.ExecutionTargets *)
Definition scan_target (row : string * ExecutionTarget) : result ExecutionTarget :=
  match ExecutionTarget_validate row.2 with Some err => Err err | None => Ok row.2 end.
(* src: internal/store/agent_availability.go:264-291 AgentStore.ExecutionTargets *)
Definition ExecutionTargets (s : baseStore) : program (gmap ExecutionID ExecutionTarget) :=
  require (requireReady s) ;;
  query (fun db =>
    let! targets := scan_rows scan_target (rows_by_key (execution_targets db)) ;;
    Ok (foldl (fun m target => <[et_ExecutionID target := target]> m) ∅ targets)).
