(* ===== verification/AgentJournal.v ===== *)
(** * The runner journal in the Agent's database (internal/store/runner_journal.go)

    [agentRunnerJournal]: the journal of RunnerJournal.v kept in the table
    [runner_journal_records].  A row holds the fields of a versioned record; the
    boolean [tombstone] is its INTEGER 0 or 1. *)

From S2P Require Import Prelude GoStd Sql StoreBase RunnerLease RunnerJournal AgentStore.

(* src: internal/store/migrations/agent/002_runner_journal.sql:3-21 runner_journal_records *)
Definition journal_check (vr : VersionedRecord) : bool :=
  let r := vr_Record vr in
  let c := rec_Containment r in
  sql_nonempty (rec_ExecutionID r) && canonicalDigest (rec_SpecDigest r) &&
  ((rec_JITDigest r == "") || canonicalDigest (rec_JITDigest r)) &&
  bool_decide (rec_State r ∈ [StatePreparing; StatePrepared; StateStarting; StateRunning;
                              StateCleaning; StateReleased; StateFailed; StateCleanupFailed]) &&
  canonicalDigest (rec_RootName r) && (rec_PID r >=? 0) &&
  ((containment_FenceToken c == "") || canonicalOpaqueToken (containment_FenceToken c)) &&
  (vr_Revision vr >? 0) && canonicalOpaqueToken (vr_MutationToken vr).

Section journal.
Context (sha256 : string -> string).

(** The bounds on [tombstone] hold of a row as it is modelled. *)
(* src: internal/store/runner_journal.go:159-186 loadRunnerJournalRecord *)
Definition loadRunnerJournalRecord (executionID : string) (db : AgentDB) : result (option VersionedRecord) :=
  match runner_journal_records db !! executionID with
  | None => Ok None
  | Some record =>
      let pid := rec_PID (vr_Record record) in
      if (pid <? 0) || (pid >? max_int64) || (vr_Revision record <=? 0) then
        Err (PlainError "runner journal persisted value is outside its supported range")
      else if (vr_Revision record >? maxSQLiteInteger) || (ValidateVersionedRecord sha256 record != None) then
        Err (PlainError "runner journal persisted record is invalid")
      else Ok (Some record)
  end.

(* src: internal/store/runner_journal.go:188-198 insertRunnerJournalRecord *)
Definition insertRunnerJournalRecord (record : VersionedRecord) : program unit :=
  exec (fun db =>
    let! t := insert_row (journal_check record) (vr_ExecutionID record) record (runner_journal_records db) ;;
    Ok (with_journal t db)).

(** [None] is a nil store. *)
(* src: internal/store/runner_journal.go:148-153 agentRunnerJournal.ready *)
Definition journal_ready (j : option baseStore) : error :=
  match j with None => Some ErrJournal | Some s => requireReady s end.

(* src: internal/store/runner_journal.go:66-74 agentRunnerJournal.Load *)
Definition AgentJournal_Load (j : option baseStore) (executionID : string)
    : program (VersionedRecord * bool) :=
  require (journal_ready j) ;;
  require (if executionID == "" then Some ErrJournal else None) ;;
  record ← query (loadRunnerJournalRecord executionID);
  mret match record with Some record => (record, true) | None => (no_record, false) end.

(* src: internal/store/runner_journal.go:76-100 agentRunnerJournal.Create *)
Definition AgentJournal_Create (j : option baseStore) (mutationToken : string) (record : RunnerRecord)
    : program (VersionedRecord * bool) :=
  require (journal_ready j) ;;
  let created := mkVersioned record 1 mutationToken in
  require (if ValidateVersionedRecord sha256 created != None then Some ErrJournal else None) ;;
  in_tx (
    existing ← query (loadRunnerJournalRecord (rec_ExecutionID record));
    match existing with
    | Some existing => mret (RollbackWith (existing, false))
    | None =>
        insertRunnerJournalRecord created ;;
        mret (CommitWith (created, true))
    end).

(** [UPDATE ... WHERE execution_id = ? AND revision = ?] and the rows it
    affected. *)
(* src: internal/store/runner_journal.go:123-141 agentRunnerJournal.CompareAndSwap *)
Definition update_journal (executionID : string) (expectedRevision : Z) (updated : VersionedRecord)
    : program unit :=
  affected ← statement (fun db =>
    match runner_journal_records db !! executionID with
    | Some row =>
        if vr_Revision row == expectedRevision then
          if negb (journal_check updated) then Err ErrConstraint
          else Ok (1, with_journal (<[executionID := updated]> (runner_journal_records db)) db)
        else Ok (0, db)
    | None => Ok (0, db)
    end);
  require (if affected != 1 then Some (PlainError "runner journal CAS lost its serialized record") else None).

(* src: internal/store/runner_journal.go:102-146 agentRunnerJournal.CompareAndSwap *)
Definition AgentJournal_CompareAndSwap (j : option baseStore) (executionID : string)
    (expectedRevision : Z) (mutationToken : string) (next : RunnerRecord)
    : program (VersionedRecord * bool) :=
  require (journal_ready j) ;;
  require (if (executionID == "") || (rec_ExecutionID next != executionID) || (expectedRevision == 0) ||
              (expectedRevision >=? maxSQLiteInteger) then Some ErrJournal else None) ;;
  let updated := mkVersioned next (wrap_uint64 (expectedRevision + 1)) mutationToken in
  require (if ValidateVersionedRecord sha256 updated != None then Some ErrJournal else None) ;;
  in_tx (
    current ← query (loadRunnerJournalRecord executionID);
    match current with
    | None => mret (RollbackWith (no_record, false))
    | Some current =>
        if vr_Revision current != expectedRevision then mret (RollbackWith (current, false)) else
        update_journal executionID expectedRevision updated ;;
        mret (CommitWith (updated, true))
    end).

(* src: internal/store/runner_journal.go:22-60 AgentStore.RunnerJournalRecords *)
Definition RunnerJournalRecords (j : option baseStore) : program (list VersionedRecord) :=
  require (journal_ready j) ;;
  executionIDs ← query (fun db => scan_rows (fun row : string * VersionedRecord =>
    if row.1 == "" then Err ErrJournal else Ok row.1) (rows_by_key (runner_journal_records db)));
  (fix load_all (ids : list string) : program (list VersionedRecord) :=
     match ids with
     | [] => mret []
     | executionID :: ids =>
         record ← query (loadRunnerJournalRecord executionID);
         match record with
         | None => throw ErrJournal
         | Some record => records ← load_all ids; mret (record :: records)
         end
     end) executionIDs.
End journal.
