(* ===== verification/AgentStoreSpec.v ===== *)
(** * What the Agent's database may become

    [agent_change] lists the changes the store is meant to make, one durable fact at
    a time: a command admitted at or above the epoch fence, an observation or a
    tombstone that only moves forward, an update queued at the end of the outbox,
    an acknowledgement that takes it out (and, for a cleanly finished execution,
    everything kept about it), an owner's decision, a journal revision.
    Only the acknowledgement forgets anything; [forgets] says whether it is among the
    changes.  [agent_wf] is what the changes keep true.  AgentStoreFacts.v shows that every
    method makes only such changes. *)

From S2P Require Import Prelude GoStd GoEncoding Sql StoreBase Domain Execution Replay RunnerLease RunnerJournal AgentStore AgentJournal.

(** The controller epoch fence. *)
Definition epoch_fence (db : AgentDB) : result Z :=
  readUintMetadata (store_metadata db) "max_controller_epoch".

(** A command, with its type if it came with one, admitted above the fence [n]. *)
Definition admitted (c : Command) (commandType : option string) (n : Z) (db : AgentDB) : AgentDB :=
  let db := with_commands (<[command_ID c := c]> (command_replays db)) db in
  let db := match commandType with
            | Some t => with_types (<[command_ID c := t]> (accepted_command_types db)) db
            | None => db
            end in
  if command_ControllerEpoch c >? n then
    with_metadata (update_metadata "max_controller_epoch" (command_ControllerEpoch c) (store_metadata db)) db
  else db.

(** Everything kept about an execution but its tombstone and its updates. *)
Definition forget (executionID : ExecutionID) (db : AgentDB) : AgentDB :=
  let db := delete_commands (fun c => command_ExecutionID c == executionID) db in
  let db := with_observations
    (delete_rows (fun o => os_ExecutionID o == executionID) (execution_observations db)) db in
  let db := with_journal
    (delete_rows (fun r => vr_ExecutionID r == executionID) (runner_journal_records db)) db in
  with_targets (delete_rows (fun t => et_ExecutionID t == executionID) (execution_targets db)) db.

Definition observation_valid (id : ExecutionID) (o : ObservationSnapshot) : Prop :=
  os_ExecutionID o = id /\ id <> "" /\ isKnownExecutionState (os_State o) = true /\
  0 < os_ObservedAtUnixNano o <= max_int64.
Definition tombstone_valid (id : ExecutionID) (t : CleanupTombstoneSnapshot) : Prop :=
  ts_ExecutionID t = id /\ id <> "" /\
  CleanupFailureCode_Validate (ts_FailureCode t) "cleanup_tombstone.failure_code" = None /\
  0 < ts_RecordedAtUnixNano t <= max_int64.
Definition update_valid (sequence : Z) (r : OutboxRow) : Prop :=
  0 < sequence <= max_int64 /\ isLowerSHA256 (or_MessageID r) = true /\
  exists u, r = outbox_row (or_MessageID r) u /\ ExecutionUpdateRecord_Validate u = None.
Definition terminal_row (r : OutboxRow) : bool :=
  (or_State r == ExecutionReleased) || (or_State r == ExecutionFailed).

Section changes.
Context (sha256 : string -> string).

Definition journal_valid (id : ExecutionID) (vr : VersionedRecord) : Prop :=
  vr_ExecutionID vr = id /\ validVersionedRecord sha256 vr = true /\ vr_Revision vr <= max_int64 /\
  0 <= rec_PID (vr_Record vr) <= max_int64.

(** The update [messageID] leaves the outbox; with the last update of an execution that
    ended without an uncertain cleanup, all that is kept of the execution goes. *)
Definition acknowledgement (messageID : string) (db db' : AgentDB) : Prop :=
  exists sequence r,
    let db1 := with_outbox (delete_rows (fun r => or_MessageID r == messageID) (execution_update_outbox db)) db in
    outbox_find messageID db = Some (sequence, r) /\
    (terminal_row r = true ->
       (forall seq' r', execution_update_outbox db1 !! seq' = Some r' ->
          or_ExecutionID r' <> or_ExecutionID r) /\
       (forall id t, cleanup_tombstones db1 !! id = Some t -> ts_ExecutionID t <> or_ExecutionID r)) /\
    db' = (if terminal_row r then forget (or_ExecutionID r) db1 else db1).

(** Without [forgets], all changes but acknowledgements. *)
Inductive agent_change (forgets : bool) (db : AgentDB) : AgentDB -> Prop :=
  | change_admit c commandType n :
      command_replays db !! command_ID c = None -> Command_Validate c = None ->
      command_ControllerEpoch c <= max_int64 -> epoch_fence db = Ok n -> n <= command_ControllerEpoch c ->
      (forall t, commandType = Some t -> accepted_validate (mkAccepted t c) = None) ->
      0 < command_ControllerEpoch c ->
      agent_change forgets db (admitted c commandType n db)
  | change_observe o :
      observation_valid (os_ExecutionID o) o ->
      (forall previous, execution_observations db !! os_ExecutionID o = Some previous ->
         CanReachExecutionState (os_State previous) (os_State o) = true /\
         os_ObservedAtUnixNano previous < os_ObservedAtUnixNano o) ->
      agent_change forgets db (with_observations (<[os_ExecutionID o := o]> (execution_observations db)) db)
  | change_tombstone t :
      tombstone_valid (ts_ExecutionID t) t ->
      (forall previous, cleanup_tombstones db !! ts_ExecutionID t = Some previous ->
         ts_FailureCode previous = ts_FailureCode t /\
         ts_RecordedAtUnixNano previous < ts_RecordedAtUnixNano t) ->
      agent_change forgets db (with_tombstones (<[ts_ExecutionID t := t]> (cleanup_tombstones db)) db)
  | change_target t :
      execution_targets db !! et_ExecutionID t = None -> ExecutionTarget_validate t = None ->
      agent_change forgets db (with_targets (<[et_ExecutionID t := t]> (execution_targets db)) db)
  | change_queue messageID u :
      isLowerSHA256 messageID = true -> ExecutionUpdateRecord_Validate u = None ->
      outbox_find messageID db = None -> next_sequence db <= max_int64 ->
      agent_change forgets db
        (with_outbox (<[next_sequence db := outbox_row messageID u]> (execution_update_outbox db)) db)
  | change_acknowledge messageID db' :
      acknowledgement messageID db db' -> forgets = true -> agent_change forgets db db'
  | change_availability row :
      AvailabilityIntent_Validate (av_Intent row) "node_availability.intent" = None ->
      agent_change forgets db (with_availability (Some row) db)
  | change_exclude targetID row :
      TargetID_ValidateShape targetID "node_target_exclusions.target_id" = None ->
      (node_target_exclusions db !! targetID = None ->
         Z.of_nat (size (node_target_exclusions db)) < MaxTargetExclusions) ->
      agent_change forgets db (with_exclusions (<[targetID := row]> (node_target_exclusions db)) db)
  | change_allow targetID :
      agent_change forgets db (with_exclusions (delete targetID (node_target_exclusions db)) db)
  | change_journal_create vr :
      runner_journal_records db !! vr_ExecutionID vr = None -> vr_Revision vr = 1 ->
      journal_valid (vr_ExecutionID vr) vr ->
      agent_change forgets db (with_journal (<[vr_ExecutionID vr := vr]> (runner_journal_records db)) db)
  | change_journal_update old vr :
      runner_journal_records db !! vr_ExecutionID vr = Some old -> vr_Revision vr = vr_Revision old + 1 ->
      journal_valid (vr_ExecutionID vr) vr ->
      agent_change forgets db (with_journal (<[vr_ExecutionID vr := vr]> (runner_journal_records db)) db).

Definition agent_changes (forgets : bool) : AgentDB -> AgentDB -> Prop := rtc (agent_change forgets).

(** ** The invariant *)

Record agent_wf (db : AgentDB) : Prop := {
  wf_fence : exists n, epoch_fence db = Ok n /\ n <= max_int64 /\
    map_Forall (fun _ c => command_ControllerEpoch c <= n) (command_replays db);
  wf_commands : map_Forall (fun id c => command_ID c = id /\ Command_Validate c = None /\
    0 < command_ControllerEpoch c) (command_replays db);
  wf_types : map_Forall (fun id t => exists c, command_replays db !! id = Some c /\
    accepted_validate (mkAccepted t c) = None) (accepted_command_types db);
  wf_observations : map_Forall observation_valid (execution_observations db);
  wf_tombstones : map_Forall tombstone_valid (cleanup_tombstones db);
  wf_outbox : map_Forall update_valid (execution_update_outbox db);
  wf_messages s1 s2 r1 r2 : execution_update_outbox db !! s1 = Some r1 ->
    execution_update_outbox db !! s2 = Some r2 -> or_MessageID r1 = or_MessageID r2 -> s1 = s2;
  wf_journal : map_Forall journal_valid (runner_journal_records db);
  wf_targets : map_Forall (fun id t => et_ExecutionID t = id /\ ExecutionTarget_validate t = None)
    (execution_targets db);
  wf_availability row : node_availability db = Some row ->
    AvailabilityIntent_Validate (av_Intent row) "node_availability.intent" = None;
  wf_exclusions : map_Forall (fun id _ =>
    TargetID_ValidateShape id "node_target_exclusions.target_id" = None) (node_target_exclusions db);
  wf_exclusions_bound : Z.of_nat (size (node_target_exclusions db)) <= MaxTargetExclusions }.

Lemma fresh_agent_wf : agent_wf fresh_agent_db.
Proof.
  split; try match goal with |- map_Forall _ _ => apply map_Forall_empty end; try done.
  exists 0. split; [reflexivity|]. split; [done|]. apply map_Forall_empty.
Qed.
End changes.

(** ** Reading the outbox *)

Lemma elem_of_outbox_rows sequence r db :
  (sequence, r) ∈ outbox_rows db <-> execution_update_outbox db !! sequence = Some r.
Proof. unfold outbox_rows. by rewrite elem_of_sort_slice, elem_of_map_to_list. Qed.
Lemma outbox_find_Some messageID db sequence r :
  outbox_find messageID db = Some (sequence, r) ->
  execution_update_outbox db !! sequence = Some r /\ or_MessageID r = messageID.
Proof.
  unfold outbox_find. intros H. apply find_some in H as [H1 H2]. rewrite bool_decide_eq_true in H2.
  apply list_elem_of_In, elem_of_outbox_rows in H1. done.
Qed.
Lemma outbox_find_None messageID db :
  outbox_find messageID db = None <->
  forall sequence r, execution_update_outbox db !! sequence = Some r -> or_MessageID r <> messageID.
Proof.
  unfold outbox_find. split.
  - intros H sequence r Hr E. apply elem_of_outbox_rows, list_elem_of_In in Hr.
    pose proof (find_none _ _ H _ Hr) as Hf. simpl in Hf. by rewrite bool_decide_eq_false in Hf.
  - intros H. destruct (find _ _) as [[sequence r]|] eqn:E; [|done].
    apply outbox_find_Some in E as [E1 E2]. destruct (H _ _ E1 E2).
Qed.
Lemma next_sequence_above db sequence r :
  execution_update_outbox db !! sequence = Some r -> sequence < next_sequence db.
Proof.
  intros Hr. apply elem_of_outbox_rows in Hr. unfold next_sequence.
  induction (outbox_rows db) as [|[s' r'] rows IH]; [by apply elem_of_nil in Hr|].
  apply elem_of_cons in Hr as [[= -> ->]|Hr]; simpl; [lia|]. specialize (IH Hr). lia.
Qed.
Lemma next_sequence_positive db : 0 < next_sequence db.
Proof.
  unfold next_sequence. induction (outbox_rows db) as [|[s' r'] rows IH]; simpl in *; [done|]. lia.
Qed.
Lemma next_sequence_fresh db : execution_update_outbox db !! next_sequence db = None.
Proof.
  destruct (execution_update_outbox db !! next_sequence db) eqn:E; [|done].
  apply next_sequence_above in E. lia.
Qed.

(** A row written for an update scans to it. *)
Lemma scan_outbox_row sequence messageID u :
  0 < sequence -> isLowerSHA256 messageID = true -> ExecutionUpdateRecord_Validate u = None ->
  scanPendingExecutionUpdate (sequence, outbox_row messageID u) = Ok (mkPending sequence messageID u).
Proof.
  intros Hs Hm Hu. unfold scanPendingExecutionUpdate, outbox_row. simpl.
  assert (mkUpdateRecord (eur_NodeID u) (eur_CommandID u) (eur_ExecutionID u) (eur_State u)
    (bool_decide ((if eur_Replayed u then 1 else 0) = 1)) (eur_ErrorCode u) = u) as ->
    by (destruct u as [? ? ? ? [] ?]; reflexivity).
  rewrite Hm, Hu. replace (sequence <=? 0) with false by (symmetry; conditions; lia).
  by destruct (eur_Replayed u).
Qed.
Lemma scan_pending_inv sequence r p :
  scanPendingExecutionUpdate (sequence, r) = Ok p ->
  pending_Sequence p = sequence /\ pending_MessageID p = or_MessageID r /\
  eur_State (pending_Update p) = or_State r /\ eur_ExecutionID (pending_Update p) = or_ExecutionID r /\
  r = outbox_row (or_MessageID r) (pending_Update p) /\
  isLowerSHA256 (or_MessageID r) = true /\ ExecutionUpdateRecord_Validate (pending_Update p) = None.
Proof.
  unfold scanPendingExecutionUpdate. destruct (_ || _) eqn:E; [done|]. intros [= <-]. simpl.
  apply orb_false_iff in E as [E Hv]. apply orb_false_iff in E as [E Hr]. apply orb_false_iff in E as [_ Hm].
  conditions. split_and!; try done.
  destruct r as [m n c x s rep e]. unfold outbox_row. simpl in *. f_equal.
  destruct Hr as [->|Hr]; [done|]. assert (rep = 1) as -> by tauto. done.
Qed.
Lemma loadPending_ok messageID db p :
  loadPendingExecutionUpdate messageID db = Ok p ->
  match p with
  | None => outbox_find messageID db = None
  | Some p => exists r, outbox_find messageID db = Some (pending_Sequence p, r) /\
      pending_MessageID p = messageID /\ r = outbox_row messageID (pending_Update p) /\
      isLowerSHA256 messageID = true /\ ExecutionUpdateRecord_Validate (pending_Update p) = None
  end.
Proof.
  unfold loadPendingExecutionUpdate. destruct (outbox_find messageID db) as [[sequence r]|] eqn:E.
  - destruct (scanPendingExecutionUpdate _) as [q|] eqn:Hs; [|done]. intros [= <-].
    apply scan_pending_inv in Hs as (<- & Hm & _ & _ & Hrow & Hl & Hv).
    apply outbox_find_Some in E as [E1 E2]. subst. eauto 10.
  - by intros [= <-].
Qed.
