(* ===== verification/AgentStoreFacts.v ===== *)
(** * Every method of the Agent's store makes permitted changes

    The changes of AgentStoreSpec.v keep the invariant; then each method is shown,
    under any outages and commit outcomes, to make only such changes. *)

From S2P Require Import Prelude GoStd GoEncoding Sql StoreBase Domain Execution Replay RunnerLease RunnerJournal AgentStore AgentJournal AgentStoreSpec.

(** ** Tables *)

Lemma map_Forall_delete_rows {K A} `{Countable K} (P : K -> A -> Prop) p (t : gmap K A) :
  map_Forall P t -> map_Forall P (delete_rows p t).
Proof. intros Ht k row Hk. apply map_lookup_filter_Some in Hk as [Hk _]. eauto. Qed.
Lemma lookup_delete_rows {K A} `{Countable K} p (t : gmap K A) k row :
  delete_rows p t !! k = Some row <-> t !! k = Some row /\ p row = false.
Proof. unfold delete_rows. by rewrite map_lookup_filter_Some. Qed.
Lemma count_rows_zero {K A} `{Countable K} p (t : gmap K A) :
  count_rows p t = 0 <-> forall k row, t !! k = Some row -> p row = false.
Proof.
  unfold count_rows. rewrite (Nat2Z.inj_iff _ 0), map_size_empty_iff, map_empty.
  setoid_rewrite map_lookup_filter_None. split.
  - intros Hn k row Hk. destruct (Hn k) as [Hk'|Hp]; [congruence|].
    destruct (p row) eqn:E; [|done]. by destruct (Hp row Hk).
  - intros Hp k. right. intros row Hk. simpl. by rewrite (Hp _ _ Hk).
Qed.

(** ** The invariant is kept *)

Section kept.
Context (sha256 : string -> string).
Notation agent_wf := (agent_wf sha256).
Context (forgets : bool).
Notation agent_change := (agent_change sha256 forgets).

Ltac keep_wf := split; simpl; try eassumption;
  try (apply map_Forall_insert_2; [by auto|eassumption]); try (apply map_Forall_delete; eassumption).


Lemma observe_keeps db o :
  agent_wf db -> observation_valid (os_ExecutionID o) o ->
  agent_wf (with_observations (<[os_ExecutionID o := o]> (execution_observations db)) db).
Proof. intros []. intros. keep_wf. Qed.

Lemma admit_keeps db c commandType n :
  agent_wf db -> command_replays db !! command_ID c = None -> Command_Validate c = None ->
  command_ControllerEpoch c <= max_int64 -> epoch_fence db = Ok n -> n <= command_ControllerEpoch c ->
  (forall t, commandType = Some t -> accepted_validate (mkAccepted t c) = None) ->
  0 < command_ControllerEpoch c -> agent_wf (admitted c commandType n db).
Proof.
  intros [(m & Hm & Hmax & Hle)] Hnew Hv Hmax' Hn Hle' Ht Hpos. rewrite Hn in Hm. simplify_eq.
  assert (Hcmds : map_Forall (fun id c0 => command_ID c0 = id /\ Command_Validate c0 = None /\
    0 < command_ControllerEpoch c0) (<[command_ID c := c]> (command_replays db))) by (apply map_Forall_insert_2; auto).
  assert (Htypes : map_Forall (fun id t => exists c0, <[command_ID c := c]> (command_replays db) !! id = Some c0 /\
      accepted_validate (mkAccepted t c0) = None)
    match commandType with
    | Some t => <[command_ID c := t]> (accepted_command_types db)
    | None => accepted_command_types db
    end).
  { assert (map_Forall (fun id t => exists c0, <[command_ID c := c]> (command_replays db) !! id = Some c0 /\
      accepted_validate (mkAccepted t c0) = None) (accepted_command_types db)) as Hold.
    { intros id t Hid. destruct (wf_types _ _ Hid) as (c0 & Hc0 & Hok). exists c0. split; [|done].
      rewrite lookup_insert_ne; [done|]. intros <-. congruence. }
    destruct commandType as [t|]; [|done]. apply map_Forall_insert_2; [|done].
    exists c. rewrite lookup_insert_eq. auto. }
  unfold admitted. destruct (Z.gtb_spec (command_ControllerEpoch c) m).
  - destruct commandType; split; simpl; try eassumption;
      (exists (command_ControllerEpoch c); split;
       [unfold epoch_fence; simpl; eapply read_update_metadata; [exact Hn|unfold max_int64, max_uint64 in *; lia]
       |split; [done|]; apply map_Forall_insert_2; [lia|];
        eapply map_Forall_impl; [exact Hle|]; simpl; intros; lia]).
  - destruct commandType; split; simpl; try eassumption;
      (exists m; split; [exact Hn|]; split; [done|]; apply map_Forall_insert_2; [lia|done]).
Qed.

Lemma queue_keeps db messageID u :
  agent_wf db -> isLowerSHA256 messageID = true -> ExecutionUpdateRecord_Validate u = None ->
  outbox_find messageID db = None -> next_sequence db <= max_int64 ->
  agent_wf (with_outbox (<[next_sequence db := outbox_row messageID u]> (execution_update_outbox db)) db).
Proof.
  intros [] Hm Hu Hnone Hmax. pose proof (proj1 (outbox_find_None messageID db) Hnone) as Hfresh.
  pose proof (next_sequence_positive db). split; simpl; try eassumption.
  - apply map_Forall_insert_2; [|done]. split; [lia|]. simpl. eauto.
  - intros s1 s2 r1 r2 H1 H2 E. apply lookup_insert_Some in H1, H2.
    destruct H1 as [[<- <-]|[Hne1 H1]], H2 as [[<- <-]|[Hne2 H2]]; simpl in *; try done; [| |eauto].
    + symmetry in E. destruct (Hfresh _ _ H2 E).
    + destruct (Hfresh _ _ H1 E).
Qed.

Lemma forget_keeps db id : agent_wf db -> agent_wf (forget id db).
Proof.
  intros [(m & Hm & Hmax & Hle)]. split; simpl; try eassumption; try (apply map_Forall_delete_rows; eassumption).
  { exists m. split; [exact Hm|]. split; [done|]. by apply map_Forall_delete_rows. }
  intros k t Hk. apply map_lookup_filter_Some in Hk as [Hk Hdoomed].
  destruct (wf_types _ _ Hk) as (c & Hc & Hok). exists c. split; [|done]. simpl in Hdoomed.
  rewrite Hc in Hdoomed. rewrite bool_decide_eq_true_2 in Hdoomed by done. simpl in Hdoomed.
  apply negb_false_iff, bool_decide_eq_true in Hdoomed as [c' Hc'].
  pose proof Hc' as Hc''. apply lookup_delete_rows in Hc'' as [Hc'' _]. congruence.
Qed.

Lemma dequeue_keeps db p :
  agent_wf db -> agent_wf (with_outbox (delete_rows p (execution_update_outbox db)) db).
Proof.
  intros []. split; simpl; try eassumption; try (apply map_Forall_delete_rows; eassumption).
  intros s1 s2 r1 r2 [H1 _]%lookup_delete_rows [H2 _]%lookup_delete_rows. eauto.
Qed.

Lemma change_keeps db db' : agent_wf db -> agent_change db db' -> agent_wf db'.
Proof.
  intros Hwf Hc. destruct Hc.
  - by apply admit_keeps.
  - by apply observe_keeps.
  - destruct Hwf. keep_wf.
  - destruct Hwf. keep_wf.
  - by apply queue_keeps.
  - destruct H as (sequence & r & _ & _ & ->). destruct (terminal_row r); [apply forget_keeps|]; by apply dequeue_keeps.
  - destruct Hwf. split; simpl; try eassumption. by intros row' [= <-].
  - destruct Hwf. keep_wf.
    destruct (node_target_exclusions db !! targetID) eqn:E.
    + by rewrite map_size_insert_Some by done.
    + rewrite map_size_insert_None by done. specialize (H0 eq_refl). lia.
  - destruct Hwf. keep_wf.
    pose proof (map_subseteq_size _ _ (delete_subseteq (node_target_exclusions db) targetID)). lia.
  - destruct Hwf. keep_wf.
  - destruct Hwf. keep_wf.
Qed.
Lemma changes_keep db db' : agent_wf db -> agent_changes sha256 forgets db db' -> agent_wf db'.
Proof. intros Hwf Hc. induction Hc; eauto using change_keeps. Qed.
End kept.

(** ** Outages *)

#[export] Instance read_max_epoch_follows : Follows (read_max_epoch).
Proof. unfold read_max_epoch. apply _. Qed.
#[export] Instance insert_command_follows c : Follows (insert_command c).
Proof. unfold insert_command. apply _. Qed.
#[export] Instance raise_max_epoch_follows c n : Follows (raise_max_epoch c n).
Proof. unfold raise_max_epoch. apply _. Qed.
#[export] Instance insert_command_type_follows a : Follows (insert_command_type a).
Proof. unfold insert_command_type. apply _. Qed.
#[export] Instance write_observation_follows o n : Follows (write_observation o n).
Proof. unfold write_observation. apply _. Qed.
#[export] Instance recordObservationTx_follows o n t b : Follows (recordObservationTx o n t b).
Proof. unfold recordObservationTx. apply _. Qed.
#[export] Instance write_tombstone_follows o n : Follows (write_tombstone o n).
Proof. unfold write_tombstone. apply _. Qed.
#[export] Instance recordCleanupTombstoneTx_follows o n t : Follows (recordCleanupTombstoneTx o n t).
Proof. unfold recordCleanupTombstoneTx. apply _. Qed.
#[export] Instance insertExecutionUpdateTx_follows m u : Follows (insertExecutionUpdateTx m u).
Proof. unfold insertExecutionUpdateTx. apply _. Qed.
#[export] Instance pruneAcknowledgedTerminalExecution_follows id : Follows (pruneAcknowledgedTerminalExecution id).
Proof. unfold pruneAcknowledgedTerminalExecution. apply _. Qed.
#[export] Instance delete_outbox_follows m : Follows (delete_outbox m).
Proof. unfold delete_outbox. apply _. Qed.
#[export] Instance insert_target_follows t : Follows (insert_target t).
Proof. unfold insert_target. apply _. Qed.
#[export] Instance applyExecutionLifecycle_follows c n : Follows (applyExecutionLifecycle c n).
Proof. unfold applyExecutionLifecycle. apply _. Qed.
#[export] Instance insertRunnerJournalRecord_follows r : Follows (insertRunnerJournalRecord r).
Proof. unfold insertRunnerJournalRecord. apply _. Qed.
#[export] Instance update_journal_follows id n r : Follows (update_journal id n r).
Proof. unfold update_journal. apply _. Qed.
#[export] Instance read_max_epoch_read_only : ReadOnly read_max_epoch.
Proof. unfold read_max_epoch. apply _. Qed.
#[export] Instance observeExecutionLifecycleCommit_read_only c : ReadOnly (observeExecutionLifecycleCommit c).
Proof. unfold observeExecutionLifecycleCommit. apply _. Qed.
#[export] Instance resolve_lifecycle_commit_read_only c e : ReadOnly (resolve_lifecycle_commit c e).
Proof. unfold resolve_lifecycle_commit. apply _. Qed.

(** ** Commands *)

(** The checks of the schema follow from the code's validation, but for
    identities that start with a NUL. *)
Lemma Command_Validate_ok c :
  Command_Validate c = None ->
  TrimSpace (command_ID c) <> "" /\ command_ControllerEpoch c <> 0 /\
  TrimSpace (command_ExecutionID c) <> "" /\ isKnownExecutionState (command_ExpectedState c) = true /\
  isLowerSHA256 (command_PayloadDigest c) = true.
Proof.
  unfold Command_Validate, required, ControllerEpoch_Validate, ExecutionState_Validate, isLowerSHA256.
  destruct (bool_decide (TrimSpace (command_ID c) = "")) eqn:?; [done|].
  destruct (bool_decide (command_ControllerEpoch c = 0)) eqn:?; [done|].
  destruct (bool_decide (TrimSpace (command_ExecutionID c) = "")) eqn:?; [done|].
  destruct (isKnownExecutionState _); [|done].
  destruct (bool_decide (TrimSpace (command_PayloadDigest c) = "")); [done|].
  destruct (bool_decide (len_string _ = 64)); [|done]. simpl. destruct (all_bytes _ _); [|done].
  conditions. done.
Qed.

Lemma read_max_epoch_ok db n db' : run read_max_epoch db = (Ok n, db') -> epoch_fence db = Ok n /\ db = db'.
Proof. unfold read_max_epoch. intros H. by invert_run. Qed.

Section steps.
Context (sha256 : string -> string).
Context (forgets : bool).
Notation agent_change := (agent_change sha256 forgets).
Notation agent_changes := (agent_changes sha256 forgets).
Notation agent_wf := (agent_wf sha256).

(** A well-formed database is only changed as permitted. *)
Definition agent_steps (db db' : AgentDB) : Prop := agent_wf db -> agent_changes db db'.
Lemma agent_steps_refl db : agent_steps db db.
Proof. intros _. apply rtc_refl. Qed.
Lemma agent_steps_trans db1 db2 db3 : agent_steps db1 db2 -> agent_steps db2 db3 -> agent_steps db1 db3.
Proof. intros H1 H2 Hwf. etrans; [by apply H1|]. apply H2. eapply changes_keep; eauto. Qed.
Lemma agent_step db db' : agent_change db db' -> agent_steps db db'.
Proof. intros H _. by apply rtc_once. Qed.

(** A method whose successful runs make permitted changes makes no others. *)
Lemma method_steps {A} (m : program A) :
  AllOrNothing m -> (forall db a db', run m db = (Ok a, db') -> agent_steps db db') ->
  forall c, agent_steps (database c) (database (m c).2).
Proof.
  intros Hm Hok c. destruct (all_or_nothing (m := m) c) as [->|[a Ha]]; [apply agent_steps_refl|eauto].
Qed.

Lemma raise_max_epoch_ok c n db u db' :
  run (raise_max_epoch c n) db = (Ok u, db') ->
  db' = if command_ControllerEpoch c >? n
        then with_metadata (update_metadata "max_controller_epoch" (command_ControllerEpoch c)
                              (store_metadata db)) db
        else db.
Proof. unfold raise_max_epoch. destruct (_ >? n); intros H; invert_run; done. Qed.
Lemma fence_epoch_ok c n : fence_epoch c n = None -> n <= command_ControllerEpoch c.
Proof. unfold fence_epoch. destruct (Z.ltb_spec (command_ControllerEpoch c) n); [done|]. lia. Qed.
Lemma insert_command_ok c db u db' :
  run (insert_command c) db = (Ok u, db') ->
  command_check c = true /\ command_replays db !! command_ID c = None /\
  db' = with_commands (<[command_ID c := c]> (command_replays db)) db.
Proof.
  unfold insert_command. intros H. invert_run. destruct (insert_row _ _ _ _) as [t|] eqn:E; [|done].
  simplify_eq. apply insert_row_ok in E as (? & ? & ->). done.
Qed.
Lemma epoch_in_range_ok c : epoch_in_range c = None -> command_ControllerEpoch c <= max_int64.
Proof.
  unfold epoch_in_range, maxSQLiteInteger. intros H.
  destruct (command_ControllerEpoch c >? max_int64) eqn:E; [discriminate|]. conditions. exact E.
Qed.
Lemma command_check_epoch c : command_check c = true -> 0 < command_ControllerEpoch c.
Proof. unfold command_check. rewrite !andb_true_iff, Z.gtb_lt. tauto. Qed.

Lemma insert_command_type_ok a db u db' :
  run (insert_command_type a) db = (Ok u, db') ->
  db' = with_types (<[command_ID (accepted_Command a) := accepted_Type a]> (accepted_command_types db)) db.
Proof.
  unfold insert_command_type. intros H. invert_run. destruct (insert_row _ _ _ _) as [t|] eqn:E; [|done].
  simplify_eq. apply insert_row_ok in E as (_ & _ & ->). done.
Qed.
Ltac invert_run_more ::=
  match goal with
  | H : run read_max_epoch _ = (Ok _, _) |- _ => apply read_max_epoch_ok in H as [? ?]
  | H : run (raise_max_epoch _ _) _ = (Ok _, _) |- _ => apply raise_max_epoch_ok in H
  | H : run (insert_command _) _ = (Ok _, _) |- _ => apply insert_command_ok in H as (? & ? & ?)
  | H : run (insert_command_type _) _ = (Ok _, _) |- _ => apply insert_command_type_ok in H
  end.

Lemma admit_changes c commandType n db :
  command_check c = true -> command_replays db !! command_ID c = None -> Command_Validate c = None ->
  epoch_in_range c = None -> epoch_fence db = Ok n -> fence_epoch c n = None ->
  (forall t, commandType = Some t -> accepted_validate (mkAccepted t c) = None) ->
  agent_steps db (admitted c commandType n db).
Proof.
  intros Hcheck Hnew Hv Hr Hn Hf Ht. apply agent_step. apply change_admit;
    [exact Hnew|exact Hv|by apply epoch_in_range_ok|exact Hn|by apply fence_epoch_ok
    |exact Ht|by apply command_check_epoch].
Qed.

Lemma lookupCommand_ok c db b :
  lookupCommand c db = Ok b ->
  if b then command_replays db !! command_ID c = Some c else command_replays db !! command_ID c = None.
Proof.
  unfold lookupCommand. destruct (command_replays db !! command_ID c) as [existing|]; [|by intros [= <-]].
  destruct (bool_decide (existing = c)) eqn:E; [|by destruct (negb _)]. intros [= <-].
  rewrite bool_decide_eq_true in E. by subst.
Qed.
Lemma lookupTypedCommand_ok a db b :
  lookupTypedCommand a db = Ok b ->
  let id := command_ID (accepted_Command a) in
  if b then command_replays db !! id = Some (accepted_Command a) /\
            accepted_command_types db !! id = Some (accepted_Type a)
  else command_replays db !! id = None \/ accepted_command_types db !! id = None.
Proof.
  unfold lookupTypedCommand. simpl. set (id := command_ID _).
  destruct (command_replays db !! id) as [c|]; [|intros [= <-]; by left].
  destruct (accepted_command_types db !! id) as [t|]; [|intros [= <-]; by right].
  destruct (accepted_validate _); [done|].
  destruct (bool_decide (mkAccepted t c = a)) eqn:E; [|done]. intros [= <-].
  rewrite bool_decide_eq_true in E. by subst.
Qed.

Lemma accepted_validate_command a : accepted_validate a = None -> Command_Validate (accepted_Command a) = None.
Proof.
  unfold accepted_validate. destruct (CommandType_Validate _ _); [done|].
  by destruct (Command_Validate (accepted_Command a)).
Qed.

(** What a successful [RecordCommand] did. *)
Lemma RecordCommand_ok s c db replayed db' :
  run (RecordCommand s c) db = (Ok replayed, db') ->
  Command_Validate c = None /\ command_ControllerEpoch c <= max_int64 /\
  if replayed then db' = db /\ command_replays db !! command_ID c = Some c
  else exists n, epoch_fence db = Ok n /\ n <= command_ControllerEpoch c /\
    command_replays db !! command_ID c = None /\ db' = admitted c None n db /\ agent_steps db db'.
Proof.
  unfold RecordCommand. intros H. invert_run.
  - apply lookupCommand_ok in H2. eauto using epoch_in_range_ok.
  - split; [done|]. split; [by apply epoch_in_range_ok|]. eexists.
    do 2 (split; [by eauto using fence_epoch_ok|]). do 2 (split; [done|]). by apply (admit_changes c None).
Qed.

Lemma RecordTypedCommand_ok s a db replayed db' :
  run (RecordTypedCommand s a) db = (Ok replayed, db') ->
  let c := accepted_Command a in
  accepted_validate a = None /\ command_ControllerEpoch c <= max_int64 /\
  if replayed then db' = db /\ command_replays db !! command_ID c = Some c /\
                   accepted_command_types db !! command_ID c = Some (accepted_Type a)
  else exists n, epoch_fence db = Ok n /\ n <= command_ControllerEpoch c /\
    command_replays db !! command_ID c = None /\ db' = admitted c (Some (accepted_Type a)) n db /\
    agent_steps db db'.
Proof.
  unfold RecordTypedCommand. intros H. invert_run.
  - apply lookupTypedCommand_ok in H2. eauto using epoch_in_range_ok.
  - pose proof (accepted_validate_command a ltac:(done)).
    split; [done|]. split; [by apply epoch_in_range_ok|]. eexists.
    do 2 (split; [by eauto using fence_epoch_ok|]). do 2 (split; [done|]).
    apply (admit_changes (accepted_Command a) (Some (accepted_Type a))); try done.
    intros t [= <-]. by destruct a.
Qed.

(** ** Observations and tombstones *)

Lemma validateObservation_ok o :
  validateObservation o = None ->
  observation_ExecutionID o <> "" /\ isKnownExecutionState (observation_State o) = true.
Proof.
  unfold validateObservation, ExecutionState_Validate.
  destruct (bool_decide _) eqn:E; [done|]. destruct (isKnownExecutionState _); [|done]. by conditions.
Qed.
Lemma validateCleanupTombstone_ok t :
  validateCleanupTombstone t = None ->
  tombstone_ExecutionID t <> "" /\
  CleanupFailureCode_Validate (tombstone_FailureCode t) "cleanup_tombstone.failure_code" = None.
Proof. unfold validateCleanupTombstone. destruct (bool_decide _) eqn:E; [done|]. by conditions. Qed.
Lemma loadObservation_ok id db o : loadObservation id db = Ok o -> execution_observations db !! id = o.
Proof.
  unfold loadObservation. destruct (execution_observations db !! id); [|by intros [= <-]].
  destruct (_ || _); [done|]. by intros [= <-].
Qed.
Lemma loadCleanupTombstone_ok id db t : loadCleanupTombstone id db = Ok t -> cleanup_tombstones db !! id = t.
Proof.
  unfold loadCleanupTombstone. destruct (cleanup_tombstones db !! id); [|by intros [= <-]].
  destruct (_ || _); [done|]. by intros [= <-].
Qed.
Lemma monotonic_ok candidate previous subject n :
  0 <= previous <= max_int64 -> candidate <= max_int64 ->
  monotonicAgentTimestamp candidate previous subject = Ok n -> previous < n <= max_int64.
Proof.
  unfold monotonicAgentTimestamp. intros Hp Hc.
  destruct (candidate >? previous) eqn:E; [|destruct (bool_decide _) eqn:E2; [done|]]; conditions; intros [= <-].
  - lia.
  - rewrite wrap_int64_small by (unfold max_int64 in *; lia). lia.
Qed.

Lemma write_observation_ok o n db r db' :
  run (write_observation o n) db = (Ok r, db') ->
  let id := observation_ExecutionID o in
  r = mkObservationSnapshot id (observation_State o) n /\ observation_check r = true /\
  db' = with_observations (<[id := r]> (execution_observations db)) db.
Proof.
  unfold write_observation. intros H. invert_run. destruct (upsert_row _ _ _ _) as [t|] eqn:E; [|done].
  simplify_eq. by apply upsert_row_ok in E as (? & ->).
Qed.
Lemma write_tombstone_ok t n db r db' :
  run (write_tombstone t n) db = (Ok r, db') ->
  let id := tombstone_ExecutionID t in
  r = mkTombstoneSnapshot id (tombstone_FailureCode t) n /\ tombstone_check r = true /\
  db' = with_tombstones (<[id := r]> (cleanup_tombstones db)) db.
Proof.
  unfold write_tombstone. intros H. invert_run. destruct (upsert_row _ _ _ _) as [t'|] eqn:E; [|done].
  simplify_eq. by apply upsert_row_ok in E as (? & ->).
Qed.
Ltac invert_store :=
  match goal with
  | H : run read_max_epoch _ = (Ok _, _) |- _ => apply read_max_epoch_ok in H as [? ?]
  | H : run (raise_max_epoch _ _) _ = (Ok _, _) |- _ => apply raise_max_epoch_ok in H
  | H : run (insert_command _) _ = (Ok _, _) |- _ => apply insert_command_ok in H as (? & ? & ?)
  | H : run (insert_command_type _) _ = (Ok _, _) |- _ => apply insert_command_type_ok in H
  | H : run (write_observation _ _) _ = (Ok _, _) |- _ => apply write_observation_ok in H as (? & ? & ?)
  | H : run (write_tombstone _ _) _ = (Ok _, _) |- _ => apply write_tombstone_ok in H as (? & ? & ?)
  | H : loadObservation _ _ = Ok _ |- _ => apply loadObservation_ok in H
  | H : loadCleanupTombstone _ _ = Ok _ |- _ => apply loadCleanupTombstone_ok in H
  end.
Ltac invert_run_more ::= invert_store.

(** What the transaction step of an observation did: it kept what was stored, or
    stored the new state with a later time. *)
Lemma recordObservationTx_ok o at_ touch adv db r db' :
  validateObservation o = None -> 0 < at_ <= max_int64 -> agent_wf db ->
  run (recordObservationTx o at_ touch adv) db = (Ok r, db') ->
  let id := observation_ExecutionID o in
  execution_observations db' !! id = Some r /\
  ((db' = db /\ (os_State r = observation_State o \/
                (adv = true /\ CanReachExecutionState (observation_State o) (os_State r) = true))) \/
   (db' = with_observations (<[id := r]> (execution_observations db)) db /\
    os_State r = observation_State o /\ agent_change db db')).
Proof.
  intros Hv Hat Hwf H. apply validateObservation_ok in Hv as [Hid Hknown].
  assert (Hwrite : forall n, 0 < n <= max_int64 ->
    (forall p, execution_observations db !! observation_ExecutionID o = Some p ->
      CanReachExecutionState (os_State p) (observation_State o) = true /\ os_ObservedAtUnixNano p < n) ->
    agent_change db (with_observations (<[observation_ExecutionID o :=
      mkObservationSnapshot (observation_ExecutionID o) (observation_State o) n]> (execution_observations db)) db)).
  { intros n Hn Hp. eapply (change_observe sha256 forgets db (mkObservationSnapshot _ _ n)); [|exact Hp].
    split_and!; simpl; try done; lia. }
  unfold recordObservationTx in H. invert_run; simpl.
  - split; [done|]. left. split; [done|]. rewrite andb_true_iff, bool_decide_eq_true in *. tauto.
  - split; [done|]. left. split; [done|]. rewrite andb_true_iff in *. tauto.
  - rewrite lookup_insert_eq. split; [done|]. right. split; [done|]. split; [done|].
    match goal with H : execution_observations _ !! _ = Some _ |- _ =>
      rename H into Hp; pose proof (wf_observations _ _ Hwf _ _ Hp) as (_ & _ & _ & Hrange) end.
    match goal with H : monotonicAgentTimestamp _ _ _ = Ok _ |- _ => apply monotonic_ok in H; [|lia|lia] end.
    apply Hwrite; [lia|]. intros p Hp'. simplify_eq. rewrite negb_false_iff in *.
    split; [done|lia].
  - rewrite lookup_insert_eq. split; [done|]. right. split; [done|]. split; [done|].
    apply Hwrite; [done|]. intros p Hp. congruence.
Qed.

Lemma recordCleanupTombstoneTx_ok t at_ touch db r db' :
  validateCleanupTombstone t = None -> 0 < at_ <= max_int64 -> agent_wf db ->
  run (recordCleanupTombstoneTx t at_ touch) db = (Ok r, db') ->
  let id := tombstone_ExecutionID t in
  cleanup_tombstones db' !! id = Some r /\ ts_FailureCode r = tombstone_FailureCode t /\
  (db' = db \/ (db' = with_tombstones (<[id := r]> (cleanup_tombstones db)) db /\ agent_change db db')).
Proof.
  intros Hv Hat Hwf H. apply validateCleanupTombstone_ok in Hv as [Hid Hcode].
  assert (Hwrite : forall n, 0 < n <= max_int64 ->
    (forall p, cleanup_tombstones db !! tombstone_ExecutionID t = Some p ->
      ts_FailureCode p = tombstone_FailureCode t /\ ts_RecordedAtUnixNano p < n) ->
    agent_change db (with_tombstones (<[tombstone_ExecutionID t :=
      mkTombstoneSnapshot (tombstone_ExecutionID t) (tombstone_FailureCode t) n]> (cleanup_tombstones db)) db)).
  { intros n Hn Hp. eapply (change_tombstone sha256 forgets db (mkTombstoneSnapshot _ _ n)); [|exact Hp].
    split_and!; simpl; try done; lia. }
  unfold recordCleanupTombstoneTx in H. invert_run; simpl.
  - split; [done|]. split; [|by left].
    match goal with H : (_ != _) = false |- _ => by rewrite negb_false_iff, bool_decide_eq_true in H end.
  - rewrite lookup_insert_eq. split; [done|]. split; [done|]. right. split; [done|].
    match goal with H : cleanup_tombstones _ !! _ = Some _ |- _ =>
      rename H into Hp; pose proof (wf_tombstones _ _ Hwf _ _ Hp) as (_ & _ & _ & Hrange) end.
    match goal with H : monotonicAgentTimestamp _ _ _ = Ok _ |- _ => apply monotonic_ok in H; [|lia|lia] end.
    apply Hwrite; [lia|]. intros p Hp'. simplify_eq.
    match goal with H : (_ != _) = false |- _ => rewrite negb_false_iff, bool_decide_eq_true in H end.
    split; [done|lia].
  - rewrite lookup_insert_eq. split; [done|]. split; [done|]. right. split; [done|].
    apply Hwrite; [done|]. intros p Hp. congruence.
Qed.

(** ** The outbox *)

Lemma outbox_find_ext messageID db db' :
  execution_update_outbox db = execution_update_outbox db' -> outbox_find messageID db = outbox_find messageID db'.
Proof. unfold outbox_find, outbox_rows. by intros ->. Qed.
Lemma next_sequence_ext db db' :
  execution_update_outbox db = execution_update_outbox db' -> next_sequence db = next_sequence db'.
Proof. unfold next_sequence, outbox_rows. by intros ->. Qed.

(** With unique message identities a row is found by its own. *)
Lemma outbox_find_row db sequence r :
  agent_wf db -> execution_update_outbox db !! sequence = Some r ->
  outbox_find (or_MessageID r) db = Some (sequence, r).
Proof.
  intros Hwf Hr. destruct (outbox_find (or_MessageID r) db) as [[s' r']|] eqn:E.
  - apply outbox_find_Some in E as [E1 E2]. assert (s' = sequence) as -> by eauto using wf_messages.
    by simplify_eq.
  - by destruct (proj1 (outbox_find_None _ _) E _ _ Hr).
Qed.

Lemma insertExecutionUpdateTx_ok messageID u db p db' :
  isLowerSHA256 messageID = true -> ExecutionUpdateRecord_Validate u = None ->
  run (insertExecutionUpdateTx messageID u) db = (Ok p, db') ->
  let sequence := next_sequence db in
  p = mkPending sequence messageID u /\ outbox_find messageID db = None /\
  db' = with_outbox (<[sequence := outbox_row messageID u]> (execution_update_outbox db)) db /\
  agent_change db db'.
Proof.
  intros Hm Hu. unfold insertExecutionUpdateTx. intros H. invert_run.
  destruct (next_sequence db >? max_int64) eqn:Hmax; [done|].
  destruct (bool_decide (is_Some (outbox_find messageID db))) eqn:Hfind; [done|].
  destruct (insert_row _ _ _ _) as [t|] eqn:E; [|done]. simplify_eq.
  apply insert_row_ok in E as (_ & _ & ->). conditions. apply eq_None_not_Some in Hfind.
  split; [done|]. split; [done|]. split; [done|]. by apply change_queue.
Qed.

Lemma insert_target_ok t db u db' :
  ExecutionTarget_validate t = None -> run (insert_target t) db = (Ok u, db') ->
  target_check t = true /\ is_Some (execution_targets db' !! et_ExecutionID t) /\
  execution_update_outbox db' = execution_update_outbox db /\
  execution_observations db' = execution_observations db /\ agent_steps db db'.
Proof.
  intros Ht. unfold insert_target. intros H. invert_run. destruct (insert_missing _ _ _ _) as [t'|] eqn:E; [|done].
  simplify_eq. apply insert_missing_ok in E as [Hc [(old & Hold & ->)|[Hnew ->]]]; simpl; (split; [done|]).
  - split; [by rewrite Hold|]. split; [done|]. split; [done|]. destruct db; apply agent_steps_refl.
  - split; [by rewrite lookup_insert_eq|]. split; [done|]. split; [done|]. by apply agent_step, change_target.
Qed.

Lemma delete_outbox_ok messageID db u db' :
  run (delete_outbox messageID) db = (Ok u, db') ->
  db' = with_outbox (delete_rows (fun r => or_MessageID r == messageID) (execution_update_outbox db)) db.
Proof. unfold delete_outbox. intros H. by invert_run. Qed.
Lemma prune_ok id db u db' :
  run (pruneAcknowledgedTerminalExecution id) db = (Ok u, db') ->
  (forall seq r, execution_update_outbox db !! seq = Some r -> or_ExecutionID r <> id) /\
  (forall k t, cleanup_tombstones db !! k = Some t -> ts_ExecutionID t <> id) /\ db' = forget id db.
Proof.
  unfold pruneAcknowledgedTerminalExecution. intros H. invert_run.
  repeat match goal with H : (if ?b then _ else _) = None |- _ => destruct b eqn:?; [done|] end.
  conditions. repeat match goal with H : ~ ~ _ |- _ => apply dec_stable in H end.
  split; [|split; [|done]].
  - intros seq r Hr. eapply (proj1 (count_rows_zero _ _)) in Hr; [|eassumption]. by conditions.
  - intros k t Ht. eapply (proj1 (count_rows_zero _ _)) in Ht; [|eassumption]. by conditions.
Qed.

Lemma QueueExecutionUpdate_ok s messageID u db p created db' :
  run (QueueExecutionUpdate s messageID u) db = (Ok (p, created), db') ->
  isLowerSHA256 messageID = true /\ ExecutionUpdateRecord_Validate u = None /\
  p = mkPending (pending_Sequence p) messageID u /\
  if created then pending_Sequence p = next_sequence db /\ outbox_find messageID db = None /\
    db' = with_outbox (<[next_sequence db := outbox_row messageID u]> (execution_update_outbox db)) db /\
    agent_steps db db'
  else db' = db /\ outbox_find messageID db = Some (pending_Sequence p, outbox_row messageID u).
Proof.
  unfold QueueExecutionUpdate. intros H. invert_run.
  all: match goal with H : (if negb _ || _ then _ else _) = None |- _ =>
    destruct (_ || _) eqn:Hin in H; [done|]; apply orb_false_iff in Hin as [Hm Hu] end;
    rewrite negb_false_iff in Hm; rewrite negb_false_iff, bool_decide_eq_true in Hu.
  - match goal with H : loadPendingExecutionUpdate _ _ = Ok _ |- _ =>
      apply loadPending_ok in H as (r & Hfind & Hid & -> & _) end.
    match goal with H : (_ != _) = false |- _ => rewrite negb_false_iff, bool_decide_eq_true in H; subst end.
    split; [done|]. split; [done|]. split; [by destruct p|]. done.
  - match goal with H : run (insertExecutionUpdateTx _ _) _ = _ |- _ =>
      apply insertExecutionUpdateTx_ok in H as (-> & ? & -> & ?); [|done|done] end.
    split; [done|]. split; [done|]. split; [done|]. split_and!; try done. by apply agent_step.
Qed.

Lemma AcknowledgeExecutionUpdate_ok s messageID db u db' :
  run (AcknowledgeExecutionUpdate s messageID) db = (Ok u, db') -> acknowledgement messageID db db'.
Proof.
  unfold AcknowledgeExecutionUpdate. intros H. invert_run.
  all: match goal with H : loadPendingExecutionUpdate _ _ = Ok _ |- _ =>
      apply loadPending_ok in H as (r & Hfind & Hid & Hrow & _) end;
    match goal with H : run (delete_outbox _) _ = _ |- _ => apply delete_outbox_ok in H end.
  all: assert (Hterm : terminal_row r = (eur_State (pending_Update p) == ExecutionReleased) ||
      (eur_State (pending_Update p) == ExecutionFailed)) by (by subst r).
  all: exists (pending_Sequence p), r; split; [exact Hfind|].
  - match goal with H : run (pruneAcknowledgedTerminalExecution _) _ = _ |- _ =>
      apply prune_ok in H as (Hnone & Htomb & ->) end.
    rewrite Hterm, Heqb. replace (eur_ExecutionID (pending_Update p)) with (or_ExecutionID r) in * by (by subst r).
    by subst.
  - rewrite Hterm, Heqb. by subst.
Qed.
(** Afterwards no update of that identity is pending. *)
Lemma acknowledgement_done messageID db db' : acknowledgement messageID db db' -> outbox_find messageID db' = None.
Proof.
  intros (sequence & r & _ & _ & ->).
  assert (H : forall db1, execution_update_outbox db1 =
    delete_rows (fun r => or_MessageID r == messageID) (execution_update_outbox db) -> outbox_find messageID db1 = None).
  { intros db1 H. destruct (outbox_find messageID db1) as [[seq r']|] eqn:Hfind; [|done]. exfalso.
    apply outbox_find_Some in Hfind as [Hfind Hid]. rewrite H in Hfind.
    apply lookup_delete_rows in Hfind as [_ Hne]. by conditions. }
  apply H. by destruct (terminal_row r).
Qed.

(** ** Lifecycle commits *)

Lemma lifecycle_validate_ok c :
  lifecycle_validate c = None ->
  validateObservation (elc_Observation c) = None /\ isLowerSHA256 (elc_MessageID c) = true /\
  ExecutionUpdateRecord_Validate (elc_Update c) = None /\
  eur_ExecutionID (elc_Update c) = observation_ExecutionID (elc_Observation c) /\
  eur_State (elc_Update c) = observation_State (elc_Observation c) /\
  (forall t, elc_CleanupTombstone c = Some t ->
     validateCleanupTombstone t = None /\ tombstone_ExecutionID t = eur_ExecutionID (elc_Update c)) /\
  (forall t, elc_Target c = Some t ->
     ExecutionTarget_validate t = None /\ et_ExecutionID t = eur_ExecutionID (elc_Update c)).
Proof.
  unfold lifecycle_validate. destruct (validateObservation _); [done|].
  destruct (isLowerSHA256 _); [|done]. cbn [negb]. destruct (ExecutionUpdateRecord_Validate _); [done|].
  destruct (eur_ExecutionID _ != _) eqn:E1; [done|]. destruct (eur_State _ != _) eqn:E2; [done|].
  match goal with |- (if ?b then _ else _) = _ -> _ => destruct b; [done|] end.
  destruct (elc_CleanupTombstone c) as [t|]; [destruct (validateCleanupTombstone t) eqn:Et; [done|];
    destruct (tombstone_ExecutionID t != _) eqn:E3; [done|]|];
  (destruct (elc_Target c) as [g|]; [destruct (ExecutionTarget_validate g) eqn:Eg; [done|];
    destruct (et_ExecutionID g != _) eqn:E4; [done|]|]);
  intros _; rewrite !negb_false_iff, !bool_decide_eq_true in *; split_and!; try done;
  intros ? [= <-]; auto.
Qed.

(** What a lifecycle commit made durable. *)
Record lifecycle_durable (c : ExecutionLifecycleCommit) (sequence : Z) (db : AgentDB) : Prop := {
  durable_update : outbox_find (elc_MessageID c) db = Some (sequence, outbox_row (elc_MessageID c) (elc_Update c));
  durable_observation : exists o, execution_observations db !! eur_ExecutionID (elc_Update c) = Some o /\
    (os_State o = eur_State (elc_Update c) \/
     CanReachExecutionState (eur_State (elc_Update c)) (os_State o) = true);
  durable_tombstone t : elc_CleanupTombstone c = Some t ->
    exists r, cleanup_tombstones db !! eur_ExecutionID (elc_Update c) = Some r /\
      ts_FailureCode r = tombstone_FailureCode t }.

(** The steps of the transaction, with the tables each leaves alone. *)
Lemma lifecycle_observation o at_ touch adv db r db' :
  validateObservation o = None -> 0 < at_ <= max_int64 -> agent_wf db ->
  run (recordObservationTx o at_ touch adv) db = (Ok r, db') ->
  agent_changes db db' /\ execution_update_outbox db' = execution_update_outbox db /\
  execution_observations db' !! observation_ExecutionID o = Some r /\
  (os_State r = observation_State o \/ CanReachExecutionState (observation_State o) (os_State r) = true).
Proof.
  intros Hv Hat Hwf H. apply recordObservationTx_ok in H as (Hr & [[-> Hs]|(-> & Hs & Hc)]); try done.
  - split; [apply rtc_refl|]. naive_solver.
  - split; [by apply rtc_once|]. eauto.
Qed.
Lemma lifecycle_target g id db u db' :
  (forall t, g = Some t -> ExecutionTarget_validate t = None /\ et_ExecutionID t = id) -> agent_wf db ->
  run (match g with Some target => insert_target target | None => mret tt end) db = (Ok u, db') ->
  agent_changes db db' /\ execution_update_outbox db' = execution_update_outbox db /\
  execution_observations db' = execution_observations db /\
  (forall t, g = Some t -> target_check t = true /\ is_Some (execution_targets db' !! id)).
Proof.
  intros Hg Hwf H. destruct g as [t|].
  - destruct (Hg t eq_refl) as [Hv Hid]. apply insert_target_ok in H as (Hcheck & Hs & Ho & Hobs & Hstep); [|done].
    subst id. split; [by apply Hstep|]. split; [done|]. split; [done|]. by intros t' [= <-].
  - invert_run. split; [apply rtc_refl|done].
Qed.
Lemma lifecycle_tombstone g id now touch db u db' :
  (forall t, g = Some t -> validateCleanupTombstone t = None /\ tombstone_ExecutionID t = id) ->
  0 < now <= max_int64 -> agent_wf db ->
  run (match g with
       | Some tombstone => recordCleanupTombstoneTx tombstone now touch ;; mret tt
       | None => mret tt
       end) db = (Ok u, db') ->
  agent_changes db db' /\ execution_update_outbox db' = execution_update_outbox db /\
  execution_observations db' = execution_observations db /\ execution_targets db' = execution_targets db /\
  (forall t, g = Some t -> exists r, cleanup_tombstones db' !! id = Some r /\
     ts_FailureCode r = tombstone_FailureCode t).
Proof.
  intros Hg Hnow Hwf H. destruct g as [t|].
  - destruct (Hg t eq_refl) as [Hv Hid]. invert_run.
    match goal with H : run (recordCleanupTombstoneTx _ _ _) _ = _ |- _ =>
      apply recordCleanupTombstoneTx_ok in H as (Hr & Hcode & Hdb) end; try done.
    destruct Hdb as [->|[-> Hc]]; (split; [by first [apply rtc_refl|apply rtc_once]|]);
      (split; [done|]); (split; [done|]); (split; [done|]); intros t' [= <-]; eauto.
  - invert_run. split; [apply rtc_refl|done].
Qed.

Lemma applyExecutionLifecycle_ok c now db p replayed db' :
  lifecycle_validate c = None -> 0 < now <= max_int64 -> agent_wf db ->
  run (applyExecutionLifecycle c now) db = (Ok (p, replayed), db') ->
  agent_changes db db' /\ p = mkPending (pending_Sequence p) (elc_MessageID c) (elc_Update c) /\
  lifecycle_durable c (pending_Sequence p) db' /\
  (forall t, elc_Target c = Some t -> target_check t = true /\
     is_Some (execution_targets db' !! eur_ExecutionID (elc_Update c))) /\
  if replayed then execution_update_outbox db' = execution_update_outbox db
  else pending_Sequence p = next_sequence db /\ outbox_find (elc_MessageID c) db = None /\
    execution_update_outbox db' =
      <[next_sequence db := outbox_row (elc_MessageID c) (elc_Update c)]> (execution_update_outbox db).
Proof.
  intros Hv Hnow Hwf H. apply lifecycle_validate_ok in Hv as (Ho & Hm & Hu & Hid & Hstate & Ht & Hg).
  unfold applyExecutionLifecycle in H.
  apply run_bind_ok in H as (found & db0 & Hload & H); [|apply _].
  apply run_query_ok in Hload as [Hload <-]. apply loadPending_ok in Hload.
  apply run_bind_ok in H as (u0 & db0' & Hreq & H); [|apply _]. apply run_require_ok in Hreq as [Hreq <-].
  apply run_bind_ok in H as (o & db1 & H1 & H); [|apply _].
  apply lifecycle_observation in H1 as (C1 & O1 & B1 & S1); try done.
  assert (Hwf1 : agent_wf db1) by (eapply changes_keep; eauto).
  apply run_bind_ok in H as (u1 & db2 & H2 & H); [|apply _].
  apply (lifecycle_target _ _ _ _ _ Hg) in H2 as (C2 & O2 & B2 & T2); [|done].
  assert (Hwf2 : agent_wf db2) by (eapply changes_keep; eauto).
  apply run_bind_ok in H as (u2 & db3 & H3 & H); [|apply _].
  apply (lifecycle_tombstone _ _ _ _ _ _ _ Ht) in H3 as (C3 & O3 & B3 & T3 & K3); try done.
  assert (C : agent_changes db db3) by (etrans; [exact C1|]; etrans; [exact C2|exact C3]).
  assert (Hout : execution_update_outbox db3 = execution_update_outbox db) by congruence.
  rewrite <- T3 in T2. rewrite <- Hid, <- B2, <- B3 in B1. rewrite <- Hstate in S1.
  destruct found as [p'|].
  - apply run_ret_ok in H as [[= <- <-] <-]. destruct Hload as (r & Hfind & Hpid & -> & _).
    destruct (negb _) eqn:Heq in Hreq; [done|]. rewrite negb_false_iff, bool_decide_eq_true in Heq.
    split; [done|]. split; [destruct p'; simpl in *; congruence|]. split; [|done].
    split; [|by eauto|exact K3].
    rewrite (outbox_find_ext _ db3 db), Hfind, Heq by done. done.
  - invert_run. match goal with H : run (insertExecutionUpdateTx _ _) _ = _ |- _ =>
      apply insertExecutionUpdateTx_ok in H as (-> & Hnone & -> & Hc); [|done|done] end.
    rewrite (next_sequence_ext db3 db), Hout in * by done.
    split; [eapply rtc_r; eassumption|]. split; [done|]. split; [|done].
    split; simpl; [|by eauto|exact K3].
    eapply (outbox_find_row _ _ (outbox_row _ _)); [eapply changes_keep; [|eapply rtc_r]; eassumption|].
    apply lookup_insert_eq.
Qed.

Lemma observe_lifecycle_ok c db p db' :
  lifecycle_validate c = None -> run (observeExecutionLifecycleCommit c) db = (Ok (Some p), db') ->
  p = mkPending (pending_Sequence p) (elc_MessageID c) (elc_Update c) /\
  lifecycle_durable c (pending_Sequence p) db.
Proof.
  intros Hv H. apply lifecycle_validate_ok in Hv as (_ & _ & _ & Hid & Hstate & Ht & _).
  unfold observeExecutionLifecycleCommit in H. invert_run.
  all: match goal with H : loadPendingExecutionUpdate _ _ = Ok _ |- _ =>
      apply loadPending_ok in H as (r & Hfind & Hpid & -> & _) end.
  all: match goal with H : (pending_Update _ != elc_Update _) = false |- _ =>
      rewrite negb_false_iff, bool_decide_eq_true in H; rename H into Hupdate end.
  all: split; [destruct p; simpl in *; congruence|].
  all: split; [congruence|rewrite Hid, Hstate|intros t' Ht'; simplify_eq].
  - eexists. split; [eassumption|]. rewrite andb_false_iff, !negb_false_iff, bool_decide_eq_true in *. naive_solver.
  - destruct (Ht _ eq_refl) as [_ <-]. eexists. split; [eassumption|].
    match goal with H : (ts_FailureCode _ != _) = false |- _ =>
      by rewrite negb_false_iff, bool_decide_eq_true in H end.
  - eexists. split; [eassumption|]. rewrite andb_false_iff, !negb_false_iff, bool_decide_eq_true in *. naive_solver.
Qed.

Lemma CommitExecutionLifecycle_ok s c db p created db' :
  agent_wf db -> run (CommitExecutionLifecycle s c) db = (Ok (p, created), db') ->
  lifecycle_validate c = None /\ agent_changes db db' /\
  p = mkPending (pending_Sequence p) (elc_MessageID c) (elc_Update c) /\
  lifecycle_durable c (pending_Sequence p) db' /\
  (forall t, elc_Target c = Some t -> target_check t = true /\
     is_Some (execution_targets db' !! eur_ExecutionID (elc_Update c))) /\
  if created then pending_Sequence p = next_sequence db /\ outbox_find (elc_MessageID c) db = None /\
    execution_update_outbox db' =
      <[next_sequence db := outbox_row (elc_MessageID c) (elc_Update c)]> (execution_update_outbox db)
  else execution_update_outbox db' = execution_update_outbox db.
Proof.
  unfold CommitExecutionLifecycle. intros Hwf H. invert_run.
  match goal with H : storeUnixNano _ = Ok _ |- _ => apply storeUnixNano_range in H as [Hnow _] end.
  match goal with H : run (applyExecutionLifecycle _ _) _ = (Ok ?a, _) |- _ => destruct a as [q replayed];
    apply applyExecutionLifecycle_ok in H as (? & ? & ? & ? & Hr); try done end.
  simpl in *. simplify_eq. split; [done|]. split; [done|]. split; [done|]. split; [done|]. split; [done|].
  by destruct replayed.
Qed.

(** ** The owner's decisions *)

Lemma SetAvailability_ok s intent changedBy db r db' :
  run (SetAvailability s intent changedBy) db = (Ok r, db') ->
  exists at_, r = mkAvailabilityRecord intent at_ changedBy true /\ storeUnixNano (store_now s) = Ok at_ /\
    AvailabilityIntent_Validate intent "node_availability.intent" = None /\
    db' = with_availability (Some (mkAvailabilityRow intent at_ changedBy)) db /\ agent_steps db db'.
Proof.
  unfold SetAvailability. intros H. invert_run.
  match goal with H : (if ?b then _ else _) = Ok _ |- _ => destruct b; [done|]; simplify_eq end.
  eexists. do 4 (split; [done|]).
  by apply agent_step, change_availability.
Qed.
Lemma AddExclusion_ok s targetID changedBy db u db' :
  run (AddExclusion s targetID changedBy) db = (Ok u, db') ->
  exists at_, storeUnixNano (store_now s) = Ok at_ /\
    TargetID_ValidateShape targetID "node_target_exclusions.target_id" = None /\
    db' = with_exclusions (<[targetID := mkExclusionRow at_ changedBy]> (node_target_exclusions db)) db /\
    agent_steps db db'.
Proof.
  unfold AddExclusion. intros H. invert_run.
  all: match goal with H : match upsert_row _ _ _ _ with _ => _ end = Ok _ |- _ =>
    destruct (upsert_row _ _ _ _) eqn:E; [|done]; simplify_eq; apply upsert_row_ok in E as (_ & ->) end.
  all: eexists; do 3 (split; [done|]); apply agent_step, change_exclude; [done|].
  - intros _. match goal with H : (if ?b then _ else _) = None |- _ => destruct b eqn:Hfull; [done|] end.
    conditions. lia.
  - intros Hnone. exfalso. destruct (decide _) as [Hs|Hs]; [|done]. by rewrite Hnone in Hs.
Qed.
Lemma RemoveExclusion_ok s targetID db u db' :
  run (RemoveExclusion s targetID) db = (Ok u, db') ->
  db' = with_exclusions (delete targetID (node_target_exclusions db)) db /\ agent_steps db db'.
Proof. unfold RemoveExclusion. intros H. invert_run. split; [done|]. apply agent_step, change_allow. Qed.

Lemma RecordObservation_ok s o db u db' :
  agent_wf db -> run (RecordObservation s o) db = (Ok u, db') ->
  agent_changes db db' /\ exists r, execution_observations db' !! observation_ExecutionID o = Some r /\
    os_State r = observation_State o.
Proof.
  unfold RecordObservation. intros Hwf H. invert_run.
  match goal with H : storeUnixNano _ = Ok _ |- _ => apply storeUnixNano_range in H as [Hnow _] end.
  match goal with H : run (recordObservationTx _ _ _ _) _ = _ |- _ =>
    apply recordObservationTx_ok in H as (Hr & Hcase); try done end.
  destruct Hcase as [[-> [Hs|[? _]]]|(-> & Hs & Hc)]; [|done|].
  - split; [apply rtc_refl|]. eauto.
  - split; [by apply rtc_once|]. eauto.
Qed.
Lemma RecordCleanupTombstone_ok s t db u db' :
  agent_wf db -> run (RecordCleanupTombstone s t) db = (Ok u, db') ->
  agent_changes db db' /\ exists r, cleanup_tombstones db' !! tombstone_ExecutionID t = Some r /\
    ts_FailureCode r = tombstone_FailureCode t.
Proof.
  unfold RecordCleanupTombstone. intros Hwf H. invert_run.
  match goal with H : storeUnixNano _ = Ok _ |- _ => apply storeUnixNano_range in H as [Hnow _] end.
  match goal with H : run (recordCleanupTombstoneTx _ _ _) _ = _ |- _ =>
    apply recordCleanupTombstoneTx_ok in H as (Hr & Hcode & Hcase); try done end.
  destruct Hcase as [->|[-> Hc]]; (split; [by first [apply rtc_refl|apply rtc_once]|]); eauto.
Qed.

(** ** The runner journal *)

Lemma loadRunnerJournalRecord_ok id db r :
  loadRunnerJournalRecord sha256 id db = Ok r -> runner_journal_records db !! id = r.
Proof.
  unfold loadRunnerJournalRecord. destruct (runner_journal_records db !! id) as [vr|]; [|by intros [= <-]].
  destruct (_ || _); [done|]. destruct (_ || _); [done|]. by intros [= <-].
Qed.
Lemma ValidateVersionedRecord_ok vr :
  (if ValidateVersionedRecord sha256 vr != None then Some ErrJournal else None) = None ->
  validVersionedRecord sha256 vr = true.
Proof. unfold ValidateVersionedRecord. by destruct (validVersionedRecord sha256 vr). Qed.

Lemma journal_check_pid vr : journal_check vr = true -> 0 <= rec_PID (vr_Record vr).
Proof. unfold journal_check. rewrite !andb_true_iff. intros H. destruct_and!. conditions. lia. Qed.

Lemma AgentJournal_Create_ok j token record db vr created db' :
  rec_PID record <= max_int64 ->
  run (AgentJournal_Create sha256 j token record) db = (Ok (vr, created), db') ->
  validVersionedRecord sha256 (mkVersioned record 1 token) = true /\
  if created then vr = mkVersioned record 1 token /\
    runner_journal_records db !! rec_ExecutionID record = None /\
    db' = with_journal (<[rec_ExecutionID record := vr]> (runner_journal_records db)) db /\ agent_steps db db'
  else db' = db /\ runner_journal_records db !! rec_ExecutionID record = Some vr.
Proof.
  intros Hpid. unfold AgentJournal_Create. intros H. invert_run.
  all: match goal with H : (if ValidateVersionedRecord _ _ != None then _ else _) = None |- _ =>
      apply ValidateVersionedRecord_ok in H as Hvalid end; (split; [exact Hvalid|]).
  - match goal with H : loadRunnerJournalRecord _ _ _ = Ok _ |- _ => apply loadRunnerJournalRecord_ok in H end. done.
  - match goal with H : loadRunnerJournalRecord _ _ _ = Ok _ |- _ => apply loadRunnerJournalRecord_ok in H as Hnone end.
    match goal with H : run (insertRunnerJournalRecord _) _ = _ |- _ =>
      unfold insertRunnerJournalRecord in H end. invert_run.
    destruct (insert_row _ _ _ _) eqn:E; [|done]. simplify_eq. apply insert_row_ok in E as (Hc & _ & ->).
    apply journal_check_pid in Hc. simpl in *. do 3 (split; [done|]).
    apply agent_step, (change_journal_create sha256 forgets _ (mkVersioned record 1 token)); [done|done|].
    split_and!; simpl; done.
Qed.

Lemma AgentJournal_CompareAndSwap_ok j id revision token next db vr swapped db' :
  rec_PID next <= max_int64 -> 0 <= revision ->
  run (AgentJournal_CompareAndSwap sha256 j id revision token next) db = (Ok (vr, swapped), db') ->
  rec_ExecutionID next = id /\ id <> "" /\ revision <> 0 /\ revision < max_int64 /\
  validVersionedRecord sha256 (mkVersioned next (revision + 1) token) = true /\
  if swapped then vr = mkVersioned next (revision + 1) token /\
    (exists old, runner_journal_records db !! id = Some old /\ vr_Revision old = revision) /\
    db' = with_journal (<[id := vr]> (runner_journal_records db)) db /\ agent_steps db db'
  else db' = db /\ vr = default no_record (runner_journal_records db !! id) /\
    (forall old, runner_journal_records db !! id = Some old -> vr_Revision old <> revision).
Proof.
  intros Hpid Hrev. unfold AgentJournal_CompareAndSwap. intros H. invert_run.
  all: match goal with H : (if (_ || _ || _ || _) then _ else _) = None |- _ =>
    destruct (_ || _ || _ || _) eqn:Hargs in H; [done|] end.
  all: rewrite !orb_false_iff, negb_false_iff, !bool_decide_eq_false, bool_decide_eq_true, Z.geb_leb, Z.leb_gt
    in Hargs; destruct Hargs as [[[Hid Hsame] Hzero] Hmax]; unfold maxSQLiteInteger in Hmax.
  all: match goal with H : loadRunnerJournalRecord _ _ _ = Ok _ |- _ => apply loadRunnerJournalRecord_ok in H as Hold end.
  all: match goal with H : (if ValidateVersionedRecord _ _ != None then _ else _) = None |- _ =>
      apply ValidateVersionedRecord_ok in H as Hvalid end.
  all: rewrite wrap_uint64_small in Hvalid by (unfold max_int64, max_uint64 in *; lia).
  all: do 4 (split; [done|]); (split; [exact Hvalid|]).
  - split; [done|]. rewrite Hold. split; [done|]. intros old [= <-]. by conditions.
  - match goal with H : run (update_journal _ _ _) _ = _ |- _ => unfold update_journal in H end. invert_run.
    rewrite negb_false_iff, bool_decide_eq_true in Heqb. subst revision.
    rewrite Hold, bool_decide_eq_true_2 in * by done.
    destruct (journal_check _) eqn:Hc; [|done]. simpl in *. simplify_eq.
    rewrite wrap_uint64_small in * by (unfold max_int64, max_uint64 in *; lia).
    apply journal_check_pid in Hc. simpl in *. split; [done|]. split; [by eauto|]. split; [done|].
    eapply agent_step, (change_journal_update sha256 forgets _ _ (mkVersioned next _ token)); [exact Hold|done|].
    split_and!; simpl; try done. lia.
  - rewrite Hold. split; [done|]. split; [done|]. done.
Qed.
End steps.
