(* ===== verification/AgentHistory.v ===== *)
(** * Histories of the Agent's store

    The methods of the store as data, and what any sequence of calls does to a
    database while statements fail and commits are lost or unreported.  A fact about an
    execution is kept until one of the calls acknowledges its last update
    ([finished_in], [kept_or_finished]): the history itself says which. *)

From S2P Require Import Prelude GoStd GoEncoding Sql StoreBase Domain Execution Replay RunnerLease RunnerJournal AgentStore AgentJournal AgentStoreSpec AgentStoreFacts.

(** The methods with their arguments. *)
Inductive agent_method :=
  | MLookupCommand (c : Command)
  | MRecordCommand (c : Command)
  | MLookupTypedCommand (a : AcceptedAgentCommand)
  | MRecordTypedCommand (a : AcceptedAgentCommand)
  | MAcceptedAgentCommands
  | MRecordObservation (o : Observation)
  | MRecordCleanupTombstone (t : CleanupTombstone)
  | MSnapshot
  | MCommitExecutionLifecycle (c : ExecutionLifecycleCommit)
  | MQueueExecutionUpdate (messageID : string) (u : ExecutionUpdateRecord)
  | MPendingExecutionUpdates
  | MAcknowledgeExecutionUpdate (messageID : string)
  | MReadAvailability
  | MSetAvailability (intent changedBy : string)
  | MListExclusions
  | MAddExclusion (targetID : TargetID) (changedBy : string)
  | MRemoveExclusion (targetID : TargetID)
  | MExecutionTargets
  | MJournalLoad (executionID : string)
  | MJournalCreate (token : string) (record : RunnerRecord)
  | MJournalCAS (executionID : string) (revision : Z) (token : string) (next : RunnerRecord)
  | MRunnerJournalRecords.

(** The machine integers among the arguments: a PID is an [int], a revision a
    [uint64]. *)
Definition typed (m : agent_method) : Prop :=
  match m with
  | MJournalCreate _ record => rec_PID record <= max_int64
  | MJournalCAS _ revision _ next => rec_PID next <= max_int64 /\ 0 <= revision
  | _ => True
  end.

Section histories.
Context (sha256 : string -> string).

(** The connection after a method, whatever it answers. *)
Definition agent_call (s : baseStore) (m : agent_method) (c : connection AgentDB) : connection AgentDB :=
  match m with
  | MLookupCommand cmd => (LookupCommand s cmd c).2
  | MRecordCommand cmd => (RecordCommand s cmd c).2
  | MLookupTypedCommand a => (LookupTypedCommand s a c).2
  | MRecordTypedCommand a => (RecordTypedCommand s a c).2
  | MAcceptedAgentCommands => (AcceptedAgentCommands s c).2
  | MRecordObservation o => (RecordObservation s o c).2
  | MRecordCleanupTombstone t => (RecordCleanupTombstone s t c).2
  | MSnapshot => (AgentStore_Snapshot s c).2
  | MCommitExecutionLifecycle commit => (CommitExecutionLifecycle s commit c).2
  | MQueueExecutionUpdate messageID u => (QueueExecutionUpdate s messageID u c).2
  | MPendingExecutionUpdates => (PendingExecutionUpdates s c).2
  | MAcknowledgeExecutionUpdate messageID => (AcknowledgeExecutionUpdate s messageID c).2
  | MReadAvailability => (ReadAvailability s c).2
  | MSetAvailability intent changedBy => (SetAvailability s intent changedBy c).2
  | MListExclusions => (ListExclusions s c).2
  | MAddExclusion targetID changedBy => (AddExclusion s targetID changedBy c).2
  | MRemoveExclusion targetID => (RemoveExclusion s targetID c).2
  | MExecutionTargets => (ExecutionTargets s c).2
  | MJournalLoad executionID => (AgentJournal_Load sha256 (Some s) executionID c).2
  | MJournalCreate token record => (AgentJournal_Create sha256 (Some s) token record c).2
  | MJournalCAS executionID revision token next =>
      (AgentJournal_CompareAndSwap sha256 (Some s) executionID revision token next c).2
  | MRunnerJournalRecords => (RunnerJournalRecords sha256 (Some s) c).2
  end.

Fixpoint agent_history (calls : list (baseStore * agent_method)) (c : connection AgentDB)
    : connection AgentDB :=
  match calls with
  | [] => c
  | (s, m) :: calls => agent_history calls (agent_call s m c)
  end.

#[local] Instance RunnerJournalRecords_read_only j : ReadOnly (RunnerJournalRecords sha256 j).
Proof.
  unfold RunnerJournalRecords. apply bind_read_only; [apply _|intros _].
  apply bind_read_only; [apply _|intros ids]. induction ids; simpl; [apply _|].
  apply bind_read_only; [apply _|]. intros [r|]; [|apply _]. apply bind_read_only; [done|]. intros; apply _.
Qed.

(** A reading method leaves the database alone. *)
Lemma read_steps {A} forgets (m : program A) c :
  ReadOnly m -> agent_steps sha256 forgets (database c) (database (m c).2).
Proof. intros Hm. rewrite (read_only (m := m) c). apply agent_steps_refl. Qed.

(** Every method makes permitted changes, and all but [AcknowledgeExecutionUpdate] only
    such as forget nothing. *)
Definition acknowledges (m : agent_method) : bool :=
  match m with MAcknowledgeExecutionUpdate _ => true | _ => false end.
Lemma agent_call_steps s m c :
  typed m -> agent_steps sha256 (acknowledges m) (database c) (database (agent_call s m c)).
Proof.
  intros Hm. destruct m; simpl.
  - unfold LookupCommand. apply read_steps, _.
  - apply method_steps; [unfold RecordCommand; apply _|]. intros db [] db' H;
      apply (RecordCommand_ok sha256 false) in H as (_ & _ & H); [destruct H as [-> _]; apply agent_steps_refl|naive_solver].
  - unfold LookupTypedCommand. apply read_steps, _.
  - apply method_steps; [unfold RecordTypedCommand; apply _|]. intros db [] db' H;
      apply (RecordTypedCommand_ok sha256 false) in H as (_ & _ & H); [destruct H as [-> _]; apply agent_steps_refl|naive_solver].
  - unfold AcceptedAgentCommands. apply read_steps, _.
  - apply method_steps; [unfold RecordObservation; apply _|]. intros db u db' H Hwf.
    by apply (RecordObservation_ok sha256 false) in H as [H _].
  - apply method_steps; [unfold RecordCleanupTombstone; apply _|]. intros db u db' H Hwf.
    by apply (RecordCleanupTombstone_ok sha256 false) in H as [H _].
  - unfold AgentStore_Snapshot. apply read_steps, _.
  - apply method_steps; [unfold CommitExecutionLifecycle; apply _|]. intros db [p b] db' H Hwf.
    by apply (CommitExecutionLifecycle_ok sha256 false) in H as (_ & H & _).
  - apply method_steps; [unfold QueueExecutionUpdate; apply _|]. intros db [p []] db' H;
      apply (QueueExecutionUpdate_ok sha256 false) in H as (_ & _ & _ & H); [tauto|].
    destruct H as [-> _]. apply agent_steps_refl.
  - unfold PendingExecutionUpdates. apply read_steps, _.
  - apply method_steps; [unfold AcknowledgeExecutionUpdate; apply _|]. intros db u db' H.
    apply AcknowledgeExecutionUpdate_ok in H. apply agent_step. by eapply change_acknowledge.
  - unfold ReadAvailability. apply read_steps, _.
  - apply method_steps; [unfold SetAvailability; apply _|]. intros db r db' H.
    apply (SetAvailability_ok sha256 false) in H as (n & _ & _ & _ & _ & H). exact H.
  - unfold ListExclusions. apply read_steps, _.
  - apply method_steps; [unfold AddExclusion; apply _|]. intros db u db' H.
    apply (AddExclusion_ok sha256 false) in H as (n & _ & _ & _ & H). exact H.
  - apply method_steps; [unfold RemoveExclusion; apply _|]. intros db u db' H.
    apply (RemoveExclusion_ok sha256 false) in H as (_ & H). exact H.
  - unfold ExecutionTargets. apply read_steps, _.
  - unfold AgentJournal_Load. apply read_steps, _.
  - apply method_steps; [unfold AgentJournal_Create; apply _|]. intros db [vr []] db' H;
      apply (AgentJournal_Create_ok sha256 false) in H as [_ H']; try done; [tauto|]. destruct H' as [-> _]. apply agent_steps_refl.
  - apply method_steps; [unfold AgentJournal_CompareAndSwap; apply _|]. intros db [vr []] db' H;
      apply (AgentJournal_CompareAndSwap_ok sha256 false) in H as (_ & _ & _ & _ & _ & H'); try apply Hm; [tauto|].
    destruct H' as [-> _]. apply agent_steps_refl.
  - apply read_steps, _.
Qed.

Lemma agent_steps_forget forgets db db' : agent_steps sha256 forgets db db' -> agent_steps sha256 true db db'.
Proof.
  intros H Hwf. specialize (H Hwf). clear Hwf. induction H as [|db1 db2 db3 H1 _ IH]; [apply rtc_refl|].
  eapply rtc_l; [|exact IH]. destruct H1; by econstructor.
Qed.
Lemma agent_history_steps calls c :
  Forall (fun call => typed call.2) calls ->
  agent_steps sha256 true (database c) (database (agent_history calls c)).
Proof.
  intros Hcalls. revert c. induction Hcalls as [|[s m] calls Hm _ IH]; intros c; [apply agent_steps_refl|].
  simpl. eapply agent_steps_trans; [by eapply agent_steps_forget, agent_call_steps|apply IH].
Qed.

(** The databases a history leads to. *)
Lemma agent_history_wf calls c :
  Forall (fun call => typed call.2) calls -> agent_wf sha256 (database c) ->
  agent_wf sha256 (database (agent_history calls c)).
Proof. intros Hcalls Hwf. eapply changes_keep; [exact Hwf|]. by apply agent_history_steps. Qed.

(** ** What is kept until an execution is forgotten *)

(** The update [messageID] is pending and is the last one of [id], which ended without an
    uncertain cleanup: its acknowledgement forgets the execution. *)
Definition finishes (messageID : string) (id : ExecutionID) (db : AgentDB) : Prop :=
  exists sequence r,
    outbox_find messageID db = Some (sequence, r) /\ or_ExecutionID r = id /\ terminal_row r = true /\
    (forall seq' r', execution_update_outbox db !! seq' = Some r' -> or_ExecutionID r' = id ->
       or_MessageID r' = messageID) /\
    (forall k t, cleanup_tombstones db !! k = Some t -> ts_ExecutionID t <> id).
(** One of [calls], made from [c] on, acknowledged that update and the store took it. *)
Definition finished_in (id : ExecutionID) (calls : list (baseStore * agent_method))
    (c : connection AgentDB) : Prop :=
  exists before s messageID after,
    calls = before ++ (s, MAcknowledgeExecutionUpdate messageID) :: after /\
    finishes messageID id (database (agent_history before c)) /\
    outbox_find messageID
      (database (agent_call s (MAcknowledgeExecutionUpdate messageID) (agent_history before c))) = None.

(** A fact about an execution that every change keeps, but an acknowledgement only if it
    does not forget the execution. *)
Record lasting (P : AgentDB -> Prop) (id : ExecutionID) : Prop := {
  lasts_change db1 db2 : agent_wf sha256 db1 -> agent_change sha256 false db1 db2 -> P db1 -> P db2;
  lasts_acknowledgement messageID db1 db2 : agent_wf sha256 db1 -> acknowledgement messageID db1 db2 ->
    P db1 -> P db2 \/ finishes messageID id db1;
}.
Lemma lasting_changes P id db1 db2 :
  lasting P id -> agent_wf sha256 db1 -> agent_changes sha256 false db1 db2 -> P db1 -> P db2.
Proof.
  intros HP Hwf Hc. induction Hc as [|db1 db2 db3 H1 _ IH]; [done|]. intros H.
  apply IH; [by eapply change_keeps|by eapply lasts_change].
Qed.

Lemma call_kept_or_finished P id s m c :
  lasting P id -> agent_wf sha256 (database c) -> typed m -> P (database c) ->
  P (database (agent_call s m c)) \/
  exists messageID, m = MAcknowledgeExecutionUpdate messageID /\ finishes messageID id (database c) /\
    outbox_find messageID (database (agent_call s m c)) = None.
Proof.
  intros HP Hwf Hm H. destruct (acknowledges m) eqn:Ha.
  - destruct m; try done. cbn [agent_call].
    assert (Hall : AllOrNothing (AcknowledgeExecutionUpdate s messageID))
      by (unfold AcknowledgeExecutionUpdate; apply _).
    destruct (all_or_nothing (m := AcknowledgeExecutionUpdate s messageID) c) as [->|[u Hu]]; [by left|].
    apply AcknowledgeExecutionUpdate_ok in Hu.
    destruct (lasts_acknowledgement _ _ HP _ _ _ Hwf Hu H) as [?|?]; [by left|right].
    exists messageID. split_and!; [done|done|]. by eapply acknowledgement_done.
  - left. pose proof (agent_call_steps s m c Hm) as Hsteps. rewrite Ha in Hsteps.
    by eapply lasting_changes; [|exact Hwf|apply Hsteps|].
Qed.

Lemma kept_or_finished P id calls c :
  lasting P id -> agent_wf sha256 (database c) -> Forall (fun call => typed call.2) calls -> P (database c) ->
  P (database (agent_history calls c)) \/ finished_in id calls c.
Proof.
  intros HP Hwf Hcalls. revert c Hwf. induction Hcalls as [|[s m] calls Hm _ IH]; intros c Hwf H; [by left|].
  destruct (call_kept_or_finished P id s m c) as [Hkept|(messageID & Heq & Hf & Hd)]; try done.
  - destruct (IH (agent_call s m c)) as [?|(before & s' & messageID & after & -> & Hf)]; [|done|by left|].
    + by apply (agent_history_wf [(s, m)]); [constructor|].
    + right. by exists ((s, m) :: before), s', messageID, after.
  - right. cbn [snd] in Heq. subst m. by exists [], s, messageID, calls.
Qed.

Lemma acknowledge_finishes messageID sequence r db :
  let db1 := with_outbox (delete_rows (fun r => or_MessageID r == messageID) (execution_update_outbox db)) db in
  outbox_find messageID db = Some (sequence, r) -> terminal_row r = true ->
  (forall seq' r', execution_update_outbox db1 !! seq' = Some r' -> or_ExecutionID r' <> or_ExecutionID r) ->
  (forall id t, cleanup_tombstones db1 !! id = Some t -> ts_ExecutionID t <> or_ExecutionID r) ->
  finishes messageID (or_ExecutionID r) db.
Proof.
  intros db1 Hfind Hterm Hout Htomb. exists sequence, r. split_and!; try done.
  intros seq' r' Hr Hid. destruct (decide (or_MessageID r' = messageID)) as [|Hne]; [done|].
  destruct (Hout seq' r'); [|done]. simpl. apply lookup_delete_rows. split; [done|].
  by apply bool_decide_eq_false.
Qed.
End histories.
