(* ===== verification/AgentStoreProps.v ===== *)
(** * Properties of the Agent's store

    What the journal on an Agent's disk guarantees whatever fails: histories are
    consistent, observations and tombstones only move forward, a command identity is
    admitted once and never below the epoch fence, a lifecycle commit that reports
    success is on disk and one that reports failure can be repeated, and the outbox
    is a queue. *)

From S2P Require Import Prelude GoStd GoEncoding Sql StoreBase Domain Execution Replay RunnerLease RunnerJournal AgentStore AgentJournal AgentStoreSpec AgentStoreFacts AgentHistory.

Section properties.
Context (sha256 : string -> string).
Notation agent_wf := (agent_wf sha256).
Notation agent_change := (agent_change sha256 true).
Notation agent_changes := (agent_changes sha256 true).
Notation finished_in := (finished_in sha256).
Notation agent_history := (agent_history sha256).

(** ** Consistency *)

(** C22 Whatever statements fail and whatever becomes of each commit, any history of
    calls on a fresh database leaves it consistent, by permitted changes only: every
    row valid and under its key, every typed command stored and valid for its type, no
    command above the epoch fence, message identities unique, at most 256
    exclusions. *)
Theorem agent_store_always_consistent calls faults outcomes :
  Forall (fun call => typed call.2) calls ->
  let db := database (agent_history calls (mkConnection fresh_agent_db faults outcomes)) in
  agent_wf db /\ agent_changes fresh_agent_db db.
Proof.
  intros Hcalls. pose proof (fresh_agent_wf sha256) as Hwf. split.
  - by apply agent_history_wf.
  - by apply (agent_history_steps sha256 calls (mkConnection fresh_agent_db faults outcomes)).
Qed.

(** ** Observations *)

Lemma lifecycle_reach_trans a b c :
  CanReachExecutionState a b = true -> CanReachExecutionState b c = true -> CanReachExecutionState a c = true.
Proof. rewrite !can_reach_iff. intros [Ha Hab] [_ Hbc]. split; [done|by etrans]. Qed.

(** [o'] is [o] or a later observation. *)
Definition observed_later (o o' : ObservationSnapshot) : Prop :=
  o' = o \/ (CanReachExecutionState (os_State o) (os_State o') = true /\
             os_ObservedAtUnixNano o < os_ObservedAtUnixNano o').
Lemma observed_later_trans o1 o2 o3 : observed_later o1 o2 -> observed_later o2 o3 -> observed_later o1 o3.
Proof.
  intros [->|[H1 T1]] [->|[H2 T2]]; [by left|by right|by right|].
  right. split; [by eapply lifecycle_reach_trans|lia].
Qed.

Lemma observation_lasts id o :
  lasting sha256 (fun db => exists o', execution_observations db !! id = Some o' /\ observed_later o o') id.
Proof.
  split.
  - intros db1 db2 Hwf Hc (o' & Ho & Hlater). destruct Hc; simpl; eauto; [| |done].
    + unfold admitted. destruct commandType, (_ >? n); simpl; eauto.
    + destruct (decide (os_ExecutionID o0 = id)) as [<-|Hne].
      * rewrite lookup_insert_eq. eexists. split; [done|]. destruct (H0 _ Ho) as [Hreach Ht].
        eapply observed_later_trans; [exact Hlater|]. by right.
      * rewrite lookup_insert_ne by done. eauto.
  - intros messageID db1 db2 Hwf (sequence & r & Hfind & Hlast & ->) (o' & Ho & Hlater).
    destruct (terminal_row r) eqn:Hterm; [|left; simpl; eauto].
    destruct (decide (or_ExecutionID r = id)) as [<-|Hne].
    + right. destruct (Hlast eq_refl) as [Hout Htomb]. by eapply acknowledge_finishes.
    + left. exists o'. split; [|done]. apply lookup_delete_rows. split; [done|].
      destruct (wf_observations _ _ Hwf _ _ Ho) as (-> & _). by apply bool_decide_eq_false.
Qed.

(** What was observed of an execution is never taken back: after any history the
    stored observation is the same or one of a later time whose state can be reached
    from it, unless one of these calls acknowledged the last update of the cleanly
    finished execution. *)
Theorem observations_never_regress calls c id o :
  agent_wf (database c) -> Forall (fun call => typed call.2) calls ->
  execution_observations (database c) !! id = Some o ->
  let db' := database (agent_history calls c) in
  (exists o', execution_observations db' !! id = Some o' /\ observed_later o o') \/
  finished_in id calls c.
Proof.
  intros Hwf Hcalls Ho. apply (kept_or_finished sha256 _ _ _ _ (observation_lasts id o)); [done..|].
  exists o. split; [done|by left].
Qed.

(** ** Commands *)

Lemma epoch_step n db1 db2 :
  agent_change db1 db2 -> (exists m, epoch_fence db1 = Ok m /\ n <= m) ->
  exists m, epoch_fence db2 = Ok m /\ n <= m.
Proof.
  intros Hc (m & Hm & Hle). destruct Hc; eauto.
  - rewrite H2 in Hm. simplify_eq. unfold admitted.
    destruct (Z.gtb_spec (command_ControllerEpoch c) m); [|destruct commandType; eauto].
    exists (command_ControllerEpoch c). split; [|lia].
    destruct commandType; (eapply read_update_metadata; [exact H2|unfold max_int64, max_uint64 in *; lia]).
  - destruct H as (sequence & r & _ & _ & ->). destruct (terminal_row r); eauto.
Qed.
Lemma epoch_steps n db1 db2 :
  agent_changes db1 db2 -> (exists m, epoch_fence db1 = Ok m /\ n <= m) ->
  exists m, epoch_fence db2 = Ok m /\ n <= m.
Proof. induction 1; eauto using epoch_step. Qed.

(** The command and its type are stored. *)
Definition holds_command (a : AcceptedAgentCommand) (db : AgentDB) : Prop :=
  command_replays db !! command_ID (accepted_Command a) = Some (accepted_Command a) /\
  accepted_command_types db !! command_ID (accepted_Command a) = Some (accepted_Type a).

Lemma command_lasts a : lasting sha256 (holds_command a) (command_ExecutionID (accepted_Command a)).
Proof.
  unfold holds_command. split.
  - intros db1 db2 _ Hc [Hcmd Htype]. destruct Hc; eauto; [|done].
    assert (command_ID c <> command_ID (accepted_Command a)) by congruence.
    unfold admitted. destruct commandType, (_ >? n); simpl; rewrite ?lookup_insert_ne by done; done.
  - intros messageID db1 db2 _ (sequence & r & Hfind & Hlast & ->) [Hcmd Htype].
    destruct (terminal_row r) eqn:Hterm; [|by left].
    destruct (decide (or_ExecutionID r = command_ExecutionID (accepted_Command a))) as [E|Hne].
    + right. rewrite <- E. destruct (Hlast eq_refl) as [Hout Htomb]. by eapply acknowledge_finishes.
    + left. simpl. unfold forget. simpl.
      assert (Hkept : delete_rows (fun c => command_ExecutionID c == or_ExecutionID r) (command_replays db1)
        !! command_ID (accepted_Command a) = Some (accepted_Command a)).
      { apply lookup_delete_rows. split; [done|]. apply bool_decide_eq_false. congruence. }
      split; [exact Hkept|]. apply map_lookup_filter_Some. split; [done|]. simpl.
      rewrite Hkept. by rewrite andb_false_r.
Qed.

Lemma RecordTypedCommand_atomic s a : Atomic (RecordTypedCommand s a).
Proof. unfold RecordTypedCommand. apply _. Qed.

(** A stored command is recognised. *)
Lemma holds_command_replayed s a db :
  store_recovery s = None -> accepted_validate a = None -> command_ControllerEpoch (accepted_Command a) <= max_int64 ->
  holds_command a db -> run (RecordTypedCommand s a) db = (Ok true, db).
Proof.
  intros Hready Hv Hmax [Hcmd Htype]. unfold RecordTypedCommand, requireReady, Ready. rewrite Hready.
  rewrite run_require_bind, Hv, run_require_bind. unfold epoch_in_range, maxSQLiteInteger.
  replace (_ >? _) with false by (symmetry; conditions; lia). enter_tx.
  rewrite run_query_bind. unfold lookupTypedCommand. rewrite Hcmd, Htype.
  destruct a as [t cmd]. simpl. rewrite Hv. by rewrite bool_decide_eq_true_2.
Qed.

(** C24 A command identity is admitted once, and the epoch fence never goes down.
    After a typed command was admitted, whatever happens in between: a command newly
    admitted later has at least its epoch; and its identity only answers for it, as a
    replay, even across restarts, unless one of the calls in between acknowledged the
    last pending update of its execution, which had ended without an uncertain cleanup,
    and the store took that acknowledgement. *)
Theorem command_admitted_once s a c c1 calls :
  agent_wf (database c) -> Forall (fun call => typed call.2) calls ->
  RecordTypedCommand s a c = (Ok false, c1) ->
  let command := accepted_Command a in
  let c2 := agent_history calls c1 in
  (forall s' b replayed c3, RecordTypedCommand s' b c2 = (Ok replayed, c3) ->
     replayed = true \/ command_ControllerEpoch command <= command_ControllerEpoch (accepted_Command b)) /\
  (finished_in (command_ExecutionID command) calls c1 \/
   (forall s', store_recovery s' = None -> run (RecordTypedCommand s' a) (database c2) = (Ok true, database c2)) /\
   (forall s' b replayed c3, RecordTypedCommand s' b c2 = (Ok replayed, c3) ->
      command_ID (accepted_Command b) = command_ID command -> replayed = true /\ b = a)).
Proof.
  intros Hwf Hcalls H command c2.
  apply (atomic_ok (Atomic := RecordTypedCommand_atomic s a)), (RecordTypedCommand_ok sha256 true) in H
    as (Hv & Hmax & n & Hn & Hle & Hnew & Hdb & Hstep).
  specialize (Hstep Hwf). pose proof (changes_keep _ _ _ _ Hwf Hstep) as Hwf1.
  pose proof (agent_history_steps sha256 calls c1 Hcalls Hwf1) as Hsteps. fold c2 in Hsteps.
  assert (Hholds : holds_command a (database c1)).
  { rewrite Hdb. unfold holds_command, admitted. destruct (_ >? n); simpl; by rewrite !lookup_insert_eq. }
  split.
  - intros s' b replayed c3 Hb. apply (atomic_ok (Atomic := RecordTypedCommand_atomic s' b)) in Hb.
    apply (RecordTypedCommand_ok sha256 true) in Hb as (_ & _ & Hb). destruct replayed; [by left|right].
    destruct Hb as (m & Hm & Hlem & _).
    assert (Hfence : exists m, epoch_fence (database c1) = Ok m /\ command_ControllerEpoch command <= m).
    { destruct (wf_fence _ _ Hwf1) as (m' & Hm' & _ & Hall). exists m'. split; [done|].
      exact (Hall _ _ (proj1 Hholds)). }
    destruct (epoch_steps _ _ _ Hsteps Hfence) as (m' & Hm' & Hge). rewrite Hm in Hm'.
    injection Hm' as <-. lia.
  - destruct (kept_or_finished sha256 _ _ _ _ (command_lasts a) Hwf1 Hcalls Hholds) as [Hkept|Hf];
      [fold c2 in Hkept; right|by left].
    split; [intros; by apply holds_command_replayed|].
    intros s' b replayed c3 Hb Hid. apply (atomic_ok (Atomic := RecordTypedCommand_atomic s' b)) in Hb.
    apply (RecordTypedCommand_ok sha256 true) in Hb as (_ & _ & Hb). destruct Hkept as [Hcmd Htype].
    destruct replayed.
    + split; [done|]. rewrite Hid in Hb. destruct Hb as (_ & Hcmd' & Htype'). fold command in Hcmd, Htype.
      simplify_eq. by destruct a, b; simpl in *; subst.
    + destruct Hb as (m & _ & _ & Hnone & _). rewrite Hid in Hnone. fold command in Hcmd. congruence.
Qed.

(** ** Lifecycle commits *)

Lemma CommitExecutionLifecycle_durable s commit c p created c' :
  agent_wf (database c) -> CommitExecutionLifecycle s commit c = (Ok (p, created), c') ->
  lifecycle_validate commit = None /\
  p = mkPending (pending_Sequence p) (elc_MessageID commit) (elc_Update commit) /\
  lifecycle_durable commit (pending_Sequence p) (database c') /\
  (created = true -> run (CommitExecutionLifecycle s commit) (database c) = (Ok (p, true), database c')).
Proof.
  intros Hwf H. unfold CommitExecutionLifecycle in H. rewrite !require_bind in H.
  destruct (requireReady s) eqn:Hready; [done|].
  destruct (lifecycle_validate commit) eqn:Hv; [done|]. rewrite lift_bind in H.
  destruct (storeUnixNano (store_now s)) as [now|] eqn:Hnow; [|done].
  apply in_tx_recovering_answer in H; [|apply _].
  assert (Hrun : forall db a db', run (CommitExecutionLifecycle s commit) db = (a, db') <->
    tx_run (applied ← applyExecutionLifecycle commit now; mret (CommitWith (applied.1, negb applied.2))) db = (a, db')).
  { intros. unfold CommitExecutionLifecycle.
    rewrite run_require_bind, Hready, run_require_bind, Hv, run_lift_bind, Hnow.
    by rewrite run_in_tx_recovering by apply _. }
  destruct H as [H|(b & c1 & Htx & Hrec & _)].
  - rewrite run_in_tx_recovering in H by apply _. apply Hrun in H.
    pose proof (CommitExecutionLifecycle_ok sha256 true _ _ _ _ _ _ Hwf H) as (_ & _ & Hp & Hd & _).
    split; [done|]. split; [exact Hp|]. split; [done|]. by intros ->.
  - unfold resolve_lifecycle_commit in Hrec. rewrite bind_unfold in Hrec. unfold attempt in Hrec.
    destruct (observeExecutionLifecycleCommit commit c1) as [[[q|]|e] c2] eqn:Hobs; try done.
    injection Hrec as -> <- <-.
    pose proof (atomic_ok (m := observeExecutionLifecycleCommit commit) _ _ _ Hobs) as Hq.
    pose proof (read_only (m := observeExecutionLifecycleCommit commit) c1) as Hro. rewrite Hobs in Hro.
    simpl in Hro. apply observe_lifecycle_ok in Hq as [Hp Hd]; [|done]. rewrite Hro. split_and!; done.
Qed.

(** C23 [CommitExecutionLifecycle] never reports a success that is not on disk: when it
    answers without an error, even after a commit that reported one, the update is in
    the outbox under its message identity and with the sequence it answered, the
    observation is stored or superseded by a state reachable from it, and a required
    cleanup tombstone is stored. *)
Theorem lifecycle_success_is_durable s commit c p created c' :
  agent_wf (database c) -> CommitExecutionLifecycle s commit c = (Ok (p, created), c') ->
  p = mkPending (pending_Sequence p) (elc_MessageID commit) (elc_Update commit) /\
  lifecycle_durable commit (pending_Sequence p) (database c').
Proof.
  intros Hwf H. apply CommitExecutionLifecycle_durable in H as (_ & Hp & Hd & _); done.
Qed.

(** A lifecycle commit whose facts are stored is answered as a replay. *)
Lemma lifecycle_replayed s commit db sequence :
  agent_wf db -> requireReady s = None -> (exists now, storeUnixNano (store_now s) = Ok now) ->
  lifecycle_validate commit = None -> lifecycle_durable commit sequence db ->
  (forall t, elc_Target commit = Some t -> target_check t = true /\
     is_Some (execution_targets db !! eur_ExecutionID (elc_Update commit))) ->
  run (CommitExecutionLifecycle s commit) db =
    (Ok (mkPending sequence (elc_MessageID commit) (elc_Update commit), false), db).
Proof.
  intros Hwf Hready [now Hnow] Hv [Hfind (o & Ho & Hs) Htomb] Htarget.
  pose proof (lifecycle_validate_ok _ Hv) as (Hobs & Hm & Hu & Hid & Hst & Ht & Hg).
  unfold CommitExecutionLifecycle. rewrite run_require_bind, Hready, run_require_bind, Hv, run_lift_bind, Hnow.
  rewrite run_in_tx_recovering by apply _. unfold tx_run. rewrite run_bind by apply _.
  assert (Happly : run (applyExecutionLifecycle commit now) db =
    (Ok (mkPending sequence (elc_MessageID commit) (elc_Update commit), true), db)); [|by rewrite Happly].
  unfold applyExecutionLifecycle. rewrite run_query_bind. unfold loadPendingExecutionUpdate. rewrite Hfind.
  apply outbox_find_Some in Hfind as [Hrow _]. pose proof (wf_outbox _ _ Hwf _ _ Hrow) as ([Hpos _] & _).
  rewrite scan_outbox_row by done. rewrite run_require_bind. simpl.
  rewrite (bool_decide_eq_true_2 (elc_Update commit = elc_Update commit)) by done. cbn [negb].
  assert (Hobserve : run (recordObservationTx (elc_Observation commit) now false true) db = (Ok o, db)).
  { unfold recordObservationTx. rewrite run_query_bind. rewrite Hid in Ho.
    pose proof (wf_observations _ _ Hwf _ _ Ho) as (Hoid & Hne & Hknown & Hat).
    unfold loadObservation. rewrite Ho. replace (_ || _) with false; [|symmetry].
    2: { rewrite !orb_false_iff, negb_false_iff, bool_decide_eq_false, bool_decide_eq_true. unfold ExecutionState_Validate.
         rewrite Hknown. split_and!; [congruence|lia|done]. }
    rewrite Hst in Hs. destruct (decide (os_State o = observation_State (elc_Observation commit))) as [E|E].
    - by rewrite bool_decide_eq_true_2.
    - rewrite bool_decide_eq_false_2 by done. simpl. destruct Hs as [|Hs]; [done|].
      destruct (CanReachExecutionState (os_State o) _) eqn:Hback; [|simpl; by rewrite Hs].
      destruct E. by apply can_reach_antisym. }
  rewrite run_bind, Hobserve by apply _.
  assert (Hins : run match elc_Target commit with Some target => insert_target target | None => mret () end db
    = (Ok tt, db)).
  { destruct (elc_Target commit) as [t|]; [|done]. destruct (Htarget t eq_refl) as [Hc [old Hold]].
    destruct (Hg t eq_refl) as [_ Hgid]. unfold insert_target. rewrite run_exec. unfold insert_missing.
    rewrite Hc, Hgid, Hold. simpl. by destruct db. }
  rewrite run_bind, Hins by apply _.
  assert (Htb : run match elc_CleanupTombstone commit with
    | Some tombstone => recordCleanupTombstoneTx tombstone now false ;; mret ()
    | None => mret () end db = (Ok tt, db)).
  { destruct (elc_CleanupTombstone commit) as [t|]; [|done]. destruct (Htomb t eq_refl) as (r & Hr & Hcode).
    destruct (Ht t eq_refl) as [_ Htid]. rewrite run_bind by apply _. unfold recordCleanupTombstoneTx.
    rewrite run_query_bind. unfold loadCleanupTombstone. rewrite Htid, Hr.
    pose proof (wf_tombstones _ _ Hwf _ _ Hr) as (Hrid & Hne & Hvalid & Hat).
    replace (_ || _) with false; [|symmetry].
    2: { rewrite !orb_false_iff, negb_false_iff, bool_decide_eq_false, bool_decide_eq_true.
         split_and!; [congruence|lia|done]. }
    by rewrite bool_decide_eq_true_2. }
  rewrite run_bind, Htb by apply _. done.
Qed.

(** A lifecycle commit can always be repeated.  Whatever became of an attempt, the
    database is untouched, or an undisturbed repetition at any later time answers the
    update it queued as a replay and changes nothing: the update is queued once. *)
Theorem lifecycle_attempt_repeatable s s' commit c :
  agent_wf (database c) -> requireReady s' = None -> (exists now, storeUnixNano (store_now s') = Ok now) ->
  let c' := (CommitExecutionLifecycle s commit c).2 in
  database c' = database c \/
  exists sequence,
    execution_update_outbox (database c') !! sequence = Some (outbox_row (elc_MessageID commit) (elc_Update commit)) /\
    run (CommitExecutionLifecycle s' commit) (database c') =
      (Ok (mkPending sequence (elc_MessageID commit) (elc_Update commit), false), database c').
Proof.
  intros Hwf Hready Hnow c'. assert (AllOrNothing (CommitExecutionLifecycle s commit)) as Han
    by (unfold CommitExecutionLifecycle; apply _).
  destruct (Han c) as [Hsame|[[p created] Hrun]]; [by left|right].
  apply (CommitExecutionLifecycle_ok sha256 true) in Hrun as (Hv & Hc & Hp & Hd & Htarget & _); [|done].
  exists (pending_Sequence p). split; [exact (proj1 (outbox_find_Some _ _ _ _ (durable_update _ _ _ Hd)))|].
  apply lifecycle_replayed; try done. by eapply changes_keep.
Qed.

(** ** The outbox *)

Definition ascending (rows : list (Z * OutboxRow)) : Prop := StronglySorted (fun a b => a.1 < b.1) rows.

(** The rows of an outbox are the only ascending list of its rows. *)
Lemma outbox_rows_unique db rows :
  rows ≡ₚ map_to_list (execution_update_outbox db) -> ascending rows -> rows = outbox_rows db.
Proof.
  intros Hp Hs. assert (Hweak : WeakOrder (fun a b : Z * OutboxRow => a.1 <? b.1)).
  { split; intros *; rewrite ?Z.ltb_lt, ?Z.ltb_ge; lia. }
  apply (StronglySorted_unique_strong (fun a b => (b.1 <? a.1) = false)).
  - intros [k1 r1] [k2 r2] H1 H2. rewrite Hp in H1. unfold outbox_rows in H2.
    rewrite elem_of_sort_slice, elem_of_map_to_list in *. simpl. rewrite !Z.ltb_ge. intros.
    assert (k1 = k2) as -> by lia. by simplify_eq.
  - apply (StronglySorted_mono (fun a b => a.1 < b.1)); [|exact Hs]. intros a b. simpl. rewrite Z.ltb_ge. lia.
  - by apply sort_slice_sorted.
  - unfold outbox_rows. by rewrite sort_slice_perm.
Qed.
Lemma outbox_rows_ascending db : ascending (outbox_rows db).
Proof.
  assert (Hweak : WeakOrder (fun a b : Z * OutboxRow => a.1 <? b.1)).
  { split; intros *; rewrite ?Z.ltb_lt, ?Z.ltb_ge; lia. }
  pose proof (sort_slice_sorted (fun a b : Z * OutboxRow => a.1 <? b.1)
    (map_to_list (execution_update_outbox db))) as Hs. fold (outbox_rows db) in Hs.
  assert (Hnd : NoDup (map fst (outbox_rows db))).
  { unfold outbox_rows. rewrite sort_slice_perm. apply NoDup_fst_map_to_list. }
  revert Hs Hnd. generalize (outbox_rows db). induction l as [|a l IH]; intros Hs Hnd; [constructor|].
  apply StronglySorted_inv in Hs as [Hs Ha]. simpl in Hnd. apply NoDup_cons in Hnd as [Hfresh Hnd].
  constructor; [by apply IH|]. rewrite Forall_forall in *. intros b Hb. specialize (Ha b Hb).
  rewrite Z.ltb_ge in Ha. assert (a.1 <> b.1); [|lia]. intros E. apply Hfresh. rewrite E.
  by apply list_elem_of_fmap_2.
Qed.

(** The pending updates in order; on a consistent database every row scans. *)
Definition pending_of (row : Z * OutboxRow) : option PendingExecutionUpdate :=
  match scanPendingExecutionUpdate row with Ok p => Some p | Err _ => None end.
Definition pending_updates (db : AgentDB) : list PendingExecutionUpdate := omap pending_of (outbox_rows db).

Lemma outbox_rows_scan db :
  agent_wf db -> Forall (fun row => exists p, scanPendingExecutionUpdate row = Ok p /\
    pending_MessageID p = or_MessageID row.2) (outbox_rows db).
Proof.
  intros Hwf. apply Forall_forall. intros [sequence r] Hr. apply elem_of_outbox_rows in Hr.
  destruct (wf_outbox _ _ Hwf _ _ Hr) as (Hs & Hm & u & E & Hu). exists (mkPending sequence (or_MessageID r) u).
  split; [|done]. rewrite E. apply scan_outbox_row; [lia|done|done].
Qed.
Lemma scan_outbox db : agent_wf db -> scan_rows scanPendingExecutionUpdate (outbox_rows db) = Ok (pending_updates db).
Proof.
  intros Hwf. pose proof (outbox_rows_scan db Hwf) as Hall. unfold pending_updates.
  induction Hall as [|row rows (p & Hp & _) _ IH]; simpl; [done|].
  unfold pending_of at 1. by rewrite Hp, IH.
Qed.

Lemma pending_append db db' messageID u :
  agent_wf db -> isLowerSHA256 messageID = true -> ExecutionUpdateRecord_Validate u = None ->
  execution_update_outbox db' = <[next_sequence db := outbox_row messageID u]> (execution_update_outbox db) ->
  pending_updates db' = pending_updates db ++ [mkPending (next_sequence db) messageID u].
Proof.
  intros Hwf Hm Hu Hout. unfold pending_updates.
  rewrite <- (outbox_rows_unique db' (outbox_rows db ++ [(next_sequence db, outbox_row messageID u)])).
  - rewrite omap_app. f_equal. simpl. unfold pending_of. rewrite scan_outbox_row; [done| |done|done].
    apply next_sequence_positive.
  - rewrite Hout, map_to_list_insert by apply next_sequence_fresh. rewrite Permutation_app_comm. simpl.
    constructor. unfold outbox_rows. by rewrite sort_slice_perm.
  - apply StronglySorted_app. split_and!; [|apply outbox_rows_ascending|repeat constructor].
    intros [k r] b Hk ->%list_elem_of_singleton. apply elem_of_outbox_rows, next_sequence_above in Hk. done.
Qed.

Lemma pending_removed db db' messageID :
  agent_wf db ->
  execution_update_outbox db' = delete_rows (fun r => or_MessageID r == messageID) (execution_update_outbox db) ->
  pending_updates db' = filter (fun p => pending_MessageID p <> messageID) (pending_updates db).
Proof.
  intros Hwf Hout. pose proof (outbox_rows_scan db Hwf) as Hscan. unfold pending_updates.
  rewrite <- (outbox_rows_unique db' (filter (fun row => or_MessageID row.2 <> messageID) (outbox_rows db))).
  - induction Hscan as [|row rows (p & Hp & Hid) _ IH]; [done|]. rewrite filter_cons.
    assert (Hof : pending_of row = Some p) by (unfold pending_of; by rewrite Hp).
    destruct (decide (or_MessageID row.2 <> messageID)) as [Hne|Heq]; simpl; rewrite !Hof, filter_cons.
    + rewrite decide_True by congruence. by f_equal.
    + by rewrite decide_False by (by rewrite Hid).
  - rewrite Hout. apply NoDup_Permutation; [apply NoDup_filter|apply NoDup_map_to_list|].
    + unfold outbox_rows. rewrite sort_slice_perm. apply NoDup_map_to_list.
    + intros [k r]. rewrite list_elem_of_filter, elem_of_outbox_rows, elem_of_map_to_list, lookup_delete_rows.
      simpl. rewrite bool_decide_eq_false. tauto.
  - apply StronglySorted_filter, outbox_rows_ascending.
Qed.

Lemma QueueExecutionUpdate_created s messageID u c p c' :
  QueueExecutionUpdate s messageID u c = (Ok (p, true), c') ->
  run (QueueExecutionUpdate s messageID u) (database c) = (Ok (p, true), database c').
Proof.
  unfold QueueExecutionUpdate. rewrite !require_bind. intros H. rewrite !run_require_bind.
  destruct (requireReady s); [done|].
  match goal with H : context [if ?b then Some _ else None] |- _ => destruct b; [done|] end.
  apply in_tx_recovering_answer in H as [H|(b & c1 & _ & Hrec & _)]; [exact H| |apply _].
  rewrite bind_unfold in Hrec. unfold attempt in Hrec.
  destruct (query _ c1) as [[[q|]|e] c2]; try done. by destruct (bool_decide _).
Qed.

(** An acknowledgement that reports success took the update out of the outbox, also
    after a commit that reported an error. *)
Lemma AcknowledgeExecutionUpdate_answer s messageID c u c' :
  AcknowledgeExecutionUpdate s messageID c = (Ok u, c') ->
  run (AcknowledgeExecutionUpdate s messageID) (database c) = (Ok u, database c').
Proof.
  unfold AcknowledgeExecutionUpdate. rewrite !require_bind. intros H. rewrite !run_require_bind.
  destruct (requireReady s); [done|].
  destruct (if negb (isLowerSHA256 messageID) then Some ErrExecutionUpdateNotFound else None); [done|].
  apply in_tx_recovering_answer in H as [H|(b & c1 & Htx & Hrec & Hc1)]; [exact H| |apply _].
  rewrite bind_unfold in Hrec. unfold attempt in Hrec.
  destruct (query (loadPendingExecutionUpdate messageID) c1) as [[[q|]|e] c2] eqn:Hq; try done.
  assert (c2 = c') as -> by (by injection Hrec). assert (u = tt) as -> by (by destruct u).
  pose proof (sql_run_ok (query _) _ _ _ (query_follows _) Hq) as Hload. rewrite run_query in Hload.
  assert (Hnone : loadPendingExecutionUpdate messageID (database c1) = Ok None) by congruence.
  pose proof (read_only (m := query (loadPendingExecutionUpdate messageID)) c1) as Hro.
  rewrite Hq in Hro. simpl in Hro. rewrite run_in_tx_recovering by apply _.
  destruct Hc1 as [Hsame|Hdone].
  - exfalso. rewrite Hsame in Hnone. revert Htx. unfold tx_run. rewrite run_query_bind, Hnone. done.
  - rewrite Hro, Hdone. destruct (tx_run _ _) as [r db'] eqn:E. simpl in *. destruct b. by subst.
Qed.

(** The outbox is a queue.  On a consistent database the pending updates can be read
    and come in the order of their sequence numbers; a newly queued update comes after
    all of them; and an acknowledgement that reports success takes out the update it
    names and no other. *)
Theorem outbox_is_a_queue s c :
  agent_wf (database c) -> requireReady s = None ->
  let pending := pending_updates (database c) in
  run (PendingExecutionUpdates s) (database c) = (Ok pending, database c) /\
  StronglySorted (fun p q => pending_Sequence p < pending_Sequence q) pending /\
  (forall s' messageID u p c', QueueExecutionUpdate s' messageID u c = (Ok (p, true), c') ->
     pending_MessageID p = messageID /\ pending_Update p = u /\
     pending_updates (database c') = pending ++ [p]) /\
  (forall s' messageID u c', AcknowledgeExecutionUpdate s' messageID c = (Ok u, c') ->
     (exists p, p ∈ pending /\ pending_MessageID p = messageID) /\
     pending_updates (database c') = filter (fun p => pending_MessageID p <> messageID) pending).
Proof.
  intros Hwf Hready pending. split_and!.
  - unfold PendingExecutionUpdates. by rewrite run_require_bind, Hready, run_query, scan_outbox.
  - unfold pending, pending_updates. pose proof (outbox_rows_ascending (database c)) as Hs.
    induction Hs as [|row rows _ IH Ha]; simpl; [constructor|].
    unfold pending_of at 1. destruct row as [sequence r].
    destruct (scanPendingExecutionUpdate (sequence, r)) as [p|] eqn:Hp; [|done].
    apply scan_pending_inv in Hp as (Hseq & _). constructor; [done|].
    rewrite Forall_forall in Ha. apply Forall_forall. intros q Hq. apply list_elem_of_omap in Hq as ([seq' r'] & Hr' & Hq). specialize (Ha _ Hr'). simpl in Ha.
    unfold pending_of in Hq. destruct (scanPendingExecutionUpdate (seq', r')) as [q'|] eqn:Hq'; [|done].
    simplify_eq. apply scan_pending_inv in Hq' as (Hseq' & _). lia.
  - intros s' messageID u p c' H. apply QueueExecutionUpdate_created, (QueueExecutionUpdate_ok sha256 true) in H
      as (Hm & Hu & -> & Hseq & Hnone & Hdb & _). simpl in *. subst. split; [done|]. split; [done|].
    rewrite Hseq. apply pending_append; try done. by rewrite Hdb.
  - intros s' messageID u c' H. apply AcknowledgeExecutionUpdate_answer, AcknowledgeExecutionUpdate_ok in H
      as (sequence & r & Hfind & _ & Hdb). split.
    + apply outbox_find_Some in Hfind as [Hr Hid]. apply elem_of_outbox_rows in Hr.
      pose proof (outbox_rows_scan _ Hwf) as Hall. rewrite Forall_forall in Hall.
      destruct (Hall _ Hr) as (p & Hp & Hpid). exists p. split; [|by rewrite Hpid].
      apply list_elem_of_omap. exists (sequence, r). split; [done|]. unfold pending_of. by rewrite Hp.
    + apply pending_removed; [done|]. rewrite Hdb. by destruct (terminal_row r).
Qed.
End properties.

(** ** A concrete Agent *)

Module Demo.
(** Bytes that stand for a SHA-256 sum, and a digest. *)
Definition sum (s : string) : string := "0123456789abcdef0123456789abcdef".
Definition digest : string := "0123456789abcdef0123456789abcdef0123456789abcdef0123456789abcdef".
Definition other_digest : string := "fedcba9876543210fedcba9876543210fedcba9876543210fedcba9876543210".
Definition at_time (n : Z) : baseStore := mkBaseStore None (unix_time n).

Definition prepare : AcceptedAgentCommand :=
  mkAccepted CommandPrepare (mkCommand "c1" 7 "e1" ExecutionReserved digest).
Definition update (state : string) : ExecutionUpdateRecord :=
  mkUpdateRecord "n1" "c1" "e1" state false ExecutionErrorNone.
Definition preparing : ExecutionLifecycleCommit :=
  mkLifecycleCommit (mkStoreObservation "e1" ExecutionPreparing) None digest (update ExecutionPreparing)
    (Some (mkExecutionTarget "e1" "t1" "acme/repo" TargetRepository)).
Definition running : ExecutionLifecycleCommit :=
  mkLifecycleCommit (mkStoreObservation "e1" ExecutionRunning) None other_digest (update ExecutionRunning) None.

(** A prepared execution. *)
Definition calls : list (baseStore * agent_method) :=
  [(at_time 1000, MRecordTypedCommand prepare); (at_time 2000, MCommitExecutionLifecycle preparing)].
Definition conn : connection AgentDB := agent_history sum calls (calm fresh_agent_db).
Lemma calls_typed : Forall (fun call => typed call.2) calls.
Proof. repeat constructor. Qed.
Lemma conn_wf : agent_wf sum (database conn).
Proof. apply agent_history_wf; [apply calls_typed|apply fresh_agent_wf]. Qed.
(** The same database, whose next commit takes effect and reports an error. *)
Definition unlucky : connection AgentDB := mkConnection (database conn) [] [CommitUnreported].

Example conn_stored :
  (execution_observations (database conn) !! "e1", map pending_Sequence (pending_updates (database conn))) =
  (Some (mkObservationSnapshot "e1" ExecutionPreparing 2000), [1]).
Proof. vm_compute. reflexivity. Qed.
End Demo.

(** A history in which a statement fails and a commit is lost. *)
Lemma agent_store_always_consistent_witness :
  agent_wf Demo.sum (database (agent_history Demo.sum Demo.calls
    (mkConnection fresh_agent_db [false; true] [CommitFailed; CommitUnreported]))).
Proof. exact (proj1 (agent_store_always_consistent Demo.sum Demo.calls _ _ Demo.calls_typed)). Defined.

Lemma observations_never_regress_witness :
  let db' := database (agent_history Demo.sum [(Demo.at_time 1500, MCommitExecutionLifecycle Demo.running)] Demo.conn) in
  (exists o', execution_observations db' !! "e1" = Some o' /\
     observed_later (mkObservationSnapshot "e1" ExecutionPreparing 2000) o') \/
  finished_in Demo.sum "e1" [(Demo.at_time 1500, MCommitExecutionLifecycle Demo.running)] Demo.conn.
Proof.
  apply (observations_never_regress Demo.sum [(Demo.at_time 1500, MCommitExecutionLifecycle Demo.running)] Demo.conn
    "e1" (mkObservationSnapshot "e1" ExecutionPreparing 2000)).
  - apply Demo.conn_wf.
  - repeat constructor.
  - vm_compute. reflexivity.
Defined.

Lemma command_admitted_once_witness :
  exists c1, RecordTypedCommand (Demo.at_time 1000) Demo.prepare (calm fresh_agent_db) = (Ok false, c1) /\
  (forall s' b replayed c3, RecordTypedCommand s' b c1 = (Ok replayed, c3) ->
     replayed = true \/ 7 <= command_ControllerEpoch (accepted_Command b)).
Proof.
  eexists. split; [vm_compute; reflexivity|].
  apply (command_admitted_once Demo.sum (Demo.at_time 1000) Demo.prepare (calm fresh_agent_db) _ []).
  - apply fresh_agent_wf.
  - constructor.
  - vm_compute. reflexivity.
Defined.

(** The commit took effect and reported an error. *)
Lemma lifecycle_success_is_durable_witness :
  exists p c', CommitExecutionLifecycle (Demo.at_time 3000) Demo.running Demo.unlucky = (Ok (p, false), c') /\
    lifecycle_durable Demo.running (pending_Sequence p) (database c').
Proof.
  eexists _, _. split; [vm_compute; reflexivity|].
  refine (proj2 (lifecycle_success_is_durable Demo.sum (Demo.at_time 3000) Demo.running Demo.unlucky _ false _ _ _)).
  - apply Demo.conn_wf.
  - vm_compute. reflexivity.
Defined.

Lemma lifecycle_attempt_repeatable_witness :
  let c' := (CommitExecutionLifecycle (Demo.at_time 3000) Demo.running Demo.unlucky).2 in
  database c' = database Demo.unlucky \/
  exists sequence,
    execution_update_outbox (database c') !! sequence =
      Some (outbox_row Demo.other_digest (Demo.update ExecutionRunning)) /\
    run (CommitExecutionLifecycle (Demo.at_time 9000) Demo.running) (database c') =
      (Ok (mkPending sequence Demo.other_digest (Demo.update ExecutionRunning), false), database c').
Proof.
  apply (lifecycle_attempt_repeatable Demo.sum (Demo.at_time 3000) (Demo.at_time 9000) Demo.running Demo.unlucky).
  - apply Demo.conn_wf.
  - reflexivity.
  - exists 9000. reflexivity.
Defined.

Lemma outbox_is_a_queue_witness :
  run (PendingExecutionUpdates (Demo.at_time 1)) (database Demo.conn) =
    (Ok (pending_updates (database Demo.conn)), database Demo.conn).
Proof.
  apply (outbox_is_a_queue Demo.sum (Demo.at_time 1) Demo.conn).
  - apply Demo.conn_wf.
  - reflexivity.
Defined.

(** [observeExecutionLifecycleCommit] does not look for the target: a repetition that
    brings one along, whose commit fails, is reported as stored although its target is
    not. *)
Definition running_with_target : ExecutionLifecycleCommit :=
  mkLifecycleCommit (elc_Observation Demo.running) None Demo.other_digest (Demo.update ExecutionRunning)
    (Some (mkExecutionTarget "e1" "t1" "acme/repo" TargetRepository)).
Example lifecycle_recovery_ignores_target :
  let stored := (CommitExecutionLifecycle (Demo.at_time 3000) Demo.running (calm fresh_agent_db)).2 in
  let c := mkConnection (database stored) [] [CommitFailed] in
  let '(r, c') := CommitExecutionLifecycle (Demo.at_time 4000) running_with_target c in
  r = Ok (mkPending 1 Demo.other_digest (Demo.update ExecutionRunning), false) /\
  execution_targets (database c') !! "e1" = None.
Proof. vm_compute. split; reflexivity. Qed.
