(* ===== verification/AgentJournalProps.v ===== *)
(** * The SQL journal is one of the journals of RunnerSystem.v

    The theorems about many Managers over one journal are proved for a journal that
    behaves as [MemoryJournal] or fails, with or without effect.  Here the journal
    in the Agent's database is shown to be one: every call of it, whatever fails
    below, is one of the journal steps of the system. *)

From S2P Require Import Prelude GoStd Sql StoreBase Effects RunnerLease RunnerJournal RunnerRuntime RunnerContract RunnerSafety RunnerSystem AgentStore AgentJournal AgentStoreSpec AgentStoreFacts AgentHistory.

Section sql_journal.
Context (sha256 : string -> string).

(** What the Manager makes of an answer: it only asks whether there was an error. *)
Definition journal_answer_of (r : result (VersionedRecord * bool)) : journal_answer :=
  match r with
  | Ok (vr, ok) => (vr, ok, None)
  | Err _ => (no_record, false, Some ErrJournal)
  end.

(** A journal call of the Manager, against the database. *)
Definition sql_journal (s : baseStore) (c : action) (conn : connection AgentDB)
    : option (answer c * connection AgentDB) :=
  match c return option (answer c * connection AgentDB) with
  | JournalLoad id =>
      let '(r, conn) := AgentJournal_Load sha256 (Some s) id conn in Some (journal_answer_of r, conn)
  | JournalCreate token record =>
      let '(r, conn) := AgentJournal_Create sha256 (Some s) token record conn in
      Some (journal_answer_of r, conn)
  | JournalCAS id revision token next =>
      let '(r, conn) := AgentJournal_CompareAndSwap sha256 (Some s) id revision token next conn in
      Some (journal_answer_of r, conn)
  | _ => None
  end.
(** Its machine integers. *)
Definition typed_call (c : action) : Prop :=
  match c with
  | JournalCreate _ record => rec_PID record <= max_int64
  | JournalCAS _ revision _ next => rec_PID next <= max_int64 /\ 0 <= revision
  | _ => True
  end.

(** [r] and [records'] are an outcome of a call that in memory answers [b] and
    leaves [after]: the same, or a failure without or with the effect. *)
Definition journal_outcome (records after records' : gmap string VersionedRecord)
    (b : journal_answer) (r : result (VersionedRecord * bool)) : Prop :=
  match r with
  | Ok (vr, ok) => b = (vr, ok, None) /\ records' = after
  | Err _ => records' = records \/ records' = after
  end.

(** The case analysis shared by the methods: a disturbed call is a successful
    undisturbed one or a failure that left the database alone or did the same. *)
Lemma disturbed_outcome (m : program (VersionedRecord * bool)) conn after b :
  Atomic m -> AllOrNothing m ->
  (forall vr ok db', run m (database conn) = (Ok (vr, ok), db') ->
     b = (vr, ok, None) /\ runner_journal_records db' = after) ->
  journal_outcome (runner_journal_records (database conn)) after
    (runner_journal_records (database (m conn).2)) b (m conn).1.
Proof.
  intros Ha Hn Hok. destruct (m conn) as [[[vr ok]|e] conn'] eqn:E; simpl.
  - by apply Hok, (atomic_ok (m := m)).
  - pose proof (all_or_nothing (m := m) conn) as H. rewrite E in H. simpl in H.
    destruct H as [->|[[vr ok] Hrun]]; [by left|]. right. by destruct (Hok _ _ _ Hrun).
Qed.

Lemma valid_create record token :
  validVersionedRecord sha256 (mkVersioned record 1 token) = true ->
  rec_ExecutionID record <> "" /\ canonicalOpaqueToken token = true.
Proof.
  unfold validVersionedRecord. rewrite !andb_true_iff. simpl. intros [[_ Ht] Hv]. split; [|done].
  apply validRecord_iff in Hv as [(Hid & _) _]. done.
Qed.

Lemma sql_load_outcome s id conn :
  agent_wf sha256 (database conn) ->
  let records := runner_journal_records (database conn) in
  let m := AgentJournal_Load sha256 (Some s) id in
  journal_outcome records records (runner_journal_records (database (m conn).2))
    (MemoryJournal_Load (Some records) id) (m conn).1.
Proof.
  intros Hwf records m. apply disturbed_outcome; [unfold m, AgentJournal_Load; apply _..|].
  intros vr ok db' H. unfold m, AgentJournal_Load in H. invert_run.
  match goal with H : loadRunnerJournalRecord _ _ _ = Ok ?r |- _ =>
    apply loadRunnerJournalRecord_ok in H; destruct r; simplify_eq; simpl; unfold records; by rewrite H end.
Qed.
Lemma sql_create_outcome s token record conn :
  rec_PID record <= max_int64 ->
  let records := runner_journal_records (database conn) in
  let m := AgentJournal_Create sha256 (Some s) token record in
  let '(after, b) := MemoryJournal_Create (Some records) token record in
  journal_outcome records (default ∅ after) (runner_journal_records (database (m conn).2)) b (m conn).1.
Proof.
  intros Hpid records m. destruct (MemoryJournal_Create _ _ _) as [after b] eqn:Hmem.
  apply disturbed_outcome; [unfold m, AgentJournal_Create; apply _..|].
  intros vr ok db' H. apply (AgentJournal_Create_ok _ true) in H as [Hv H]; [|done].
  apply valid_create in Hv as [Hid Ht]. unfold MemoryJournal_Create in Hmem.
  rewrite Ht, bool_decide_eq_false_2 in Hmem by done. simpl in Hmem. unfold records in *.
  destruct ok.
  - destruct H as (-> & Hnone & -> & _). rewrite Hnone in Hmem. by simplify_eq.
  - destruct H as [-> Hsome]. rewrite Hsome in Hmem. by simplify_eq.
Qed.
Lemma sql_cas_outcome s id revision token next conn :
  rec_PID next <= max_int64 -> 0 <= revision ->
  let records := runner_journal_records (database conn) in
  let m := AgentJournal_CompareAndSwap sha256 (Some s) id revision token next in
  let '(after, b) := MemoryJournal_CompareAndSwap (Some records) id revision token next in
  journal_outcome records (default ∅ after) (runner_journal_records (database (m conn).2)) b (m conn).1.
Proof.
  intros Hpid Hrev records m. destruct (MemoryJournal_CompareAndSwap _ _ _ _ _) as [after b] eqn:Hmem.
  apply disturbed_outcome; [unfold m, AgentJournal_CompareAndSwap; apply _..|].
  intros vr ok db' H. apply (AgentJournal_CompareAndSwap_ok _ true) in H as (Hid & Hne & Hz & Hmax & Hv & H); try done.
  unfold validVersionedRecord in Hv. rewrite !andb_true_iff in Hv. destruct Hv as [[_ Ht] _]. simpl in Ht.
  unfold MemoryJournal_CompareAndSwap in Hmem. rewrite Ht, Hid in Hmem.
  rewrite (bool_decide_eq_false_2 (id = "")), (bool_decide_eq_true_2 (id = id)),
    (bool_decide_eq_false_2 (revision = 0)) in Hmem by done. cbn [orb negb] in Hmem. unfold records in *.
  destruct ok.
  - destruct H as (-> & (old & Hold & Hr) & -> & _). rewrite Hold in Hmem. simpl in Hmem.
    rewrite Hr, (bool_decide_eq_true_2 (revision = revision)),
      (bool_decide_eq_false_2 (revision = max_uint64)) in Hmem
      by (unfold max_uint64, max_int64 in *; first [done|lia]).
    cbn [orb negb] in Hmem. rewrite wrap_uint64_small in Hmem by (unfold max_uint64, max_int64 in *; lia).
    by simplify_eq.
  - destruct H as (-> & -> & Hstale). destruct (runner_journal_records (database conn) !! id) as [old|] eqn:Hold.
    + simpl in *. rewrite (bool_decide_eq_false_2 (vr_Revision old = revision)) in Hmem by auto.
      simpl in Hmem. by simplify_eq.
    + simpl in Hmem. by simplify_eq.
Qed.

(** In every branch of the in-memory journal. *)
Ltac every_answer H :=
  cbv zeta in H; repeat match type of H with (match ?x with _ => _ end) = _ => destruct x end;
  injection H as <- <-; eauto.

(** C25 The journal in the Agent's database is a journal of the system: whatever
    fails below it, a call of a Manager against it is one of the system's journal
    steps (the in-memory answer, or a failure before or after the effect).  So what is
    proved of the system, that a process is only started from a durable record and a
    workspace only removed when its process has stopped, holds with this journal. *)
Theorem sql_journal_refines Join windows runtimeRoot s st i h c k a conn conn' :
  agent_wf sha256 (database conn) -> sys_records s = runner_journal_records (database conn) ->
  sys_threads s !! i = Some (h, Call c k) -> typed_call c ->
  sql_journal st c conn = Some (a, conn') ->
  step sha256 Join windows runtimeRoot s
    (answered s i h c a (k a) (runner_journal_records (database conn'))).
Proof.
  intros Hwf Hs Hi Ht Hc.
  destruct c; try done; cbn [sql_journal] in Hc.
  - pose proof (sql_load_outcome st executionID conn Hwf) as Ho. cbv zeta in Ho.
    destruct (AgentJournal_Load _ _ _ conn) as [r conn1]. simpl in Ho. injection Hc as <- <-.
    rewrite <- Hs in Ho. destruct r as [[vr ok]|e]; simpl in Ho.
    + destruct Ho as [Hb Hr]. rewrite Hr. eapply step_journal; [exact Hi|]. cbn [on_journal journal_answer_of].
      by rewrite <- Hb.
    + assert (Hr : runner_journal_records (database conn1) = sys_records s) by (by destruct Ho). rewrite Hr.
      by eapply step_journal_fails.
  - pose proof (sql_create_outcome st mutationToken record conn Ht) as Ho. cbv zeta in Ho.
    destruct (MemoryJournal_Create _ _ _) as [after b] eqn:Hmem.
    destruct (AgentJournal_Create _ _ _ _ conn) as [r conn1]. simpl in Ho. injection Hc as <- <-.
    rewrite <- Hs in Ho, Hmem.
    assert (exists records, after = Some records) as [records ->].
    { unfold MemoryJournal_Create in Hmem. every_answer Hmem. }
    assert (Hon : on_journal (sys_records s) (JournalCreate mutationToken record) = Some (Some records, b))
      by (cbn [on_journal]; by rewrite Hmem).
    destruct r as [[vr ok]|e]; simpl in Ho.
    + destruct Ho as [-> ->]. by eapply step_journal.
    + destruct Ho as [->| ->]; [by eapply step_journal_fails|by eapply step_journal_fails_late].
  - destruct Ht as [Hpid Hrev].
    pose proof (sql_cas_outcome st executionID revision mutationToken next conn Hpid Hrev) as Ho. cbv zeta in Ho.
    destruct (MemoryJournal_CompareAndSwap _ _ _ _ _) as [after b] eqn:Hmem.
    destruct (AgentJournal_CompareAndSwap _ _ _ _ _ _ conn) as [r conn1]. simpl in Ho. injection Hc as <- <-.
    rewrite <- Hs in Ho, Hmem.
    assert (exists records, after = Some records) as [records ->].
    { unfold MemoryJournal_CompareAndSwap in Hmem. every_answer Hmem. }
    assert (Hon : on_journal (sys_records s) (JournalCAS executionID revision mutationToken next) = Some (Some records, b))
      by (cbn [on_journal]; by rewrite Hmem).
    destruct r as [[vr ok]|e]; simpl in Ho.
    + destruct Ho as [-> ->]. by eapply step_journal.
    + destruct Ho as [->| ->]; [by eapply step_journal_fails|by eapply step_journal_fails_late].
Qed.
End sql_journal.

(** A Manager that loads a record, against a database whose next statement fails. *)
Definition loading : action := JournalLoad "e1".
Definition loader : system :=
  mkSystem ∅ {[0%nat := ([], Call loading (fun _ => Ret None))]}.
Definition failing : connection AgentDB := mkConnection fresh_agent_db [true] [].
Definition toy_sum (s : string) : string := "0123456789abcdef0123456789abcdef".

Lemma sql_journal_refines_witness :
  exists a conn', sql_journal toy_sum (mkBaseStore None 0) loading failing = Some (a, conn') /\
    step toy_sum (String.concat "/") false "/run" loader
      (answered loader 0 [] loading a (Ret None) (runner_journal_records (database conn'))).
Proof.
  eexists _, _. split; [reflexivity|].
  apply (sql_journal_refines toy_sum (String.concat "/") false "/run" loader (mkBaseStore None 0) 0 [] loading
    (fun _ => Ret None) _ failing).
  - apply fresh_agent_wf.
  - reflexivity.
  - reflexivity.
  - exact I.
  - reflexivity.
Defined.
