(* ===== verification/AgentSession.v ===== *)
(** * The snapshot an Agent opens its session with (internal/app/agent.go)

    [buildAgentSnapshot]: what the durable journal says, in the protocol's shape, and
    that what the store holds always passes [AgentSnapshot.Validate].  What comes after,
    the JSON encoding and the envelope with its bound of 2 MiB
    ([transport.MaxEnvelopeBytes]), is not modelled: nothing bounds the journal, and a
    snapshot whose JSON is longer is refused when it is sent. *)

From S2P Require Import Prelude GoStd GoEncoding Sql StoreBase Domain Execution Replay RunnerLease RunnerJournal RunnerPackage Transport AgentStore AgentJournal AgentStoreSpec AgentStoreFacts AgentHistory.

(* src: internal/app/agent.go:428-450 agentPlatform *)
Definition agentPlatform (goos goarch : string) : result (string * string) :=
  let! operatingSystem :=
    (if goos == "linux" then Ok OSLinux
     else if goos == "darwin" then Ok OSMacOS
     else if goos == "windows" then Ok OSWindows
     else Err ErrUnsupportedPlatform) ;;
  let! architecture :=
    (if goarch == "amd64" then Ok ArchAMD64
     else if goarch == "arm64" then Ok ArchARM64
     else Err ErrUnsupportedPlatform) ;;
  Ok (operatingSystem, architecture).

(** An Agent's state: the node it was enrolled as and its store; [None] is a nil
    store. *)
Record AgentState := mkAgentState { state_NodeID : string; state_Store : option baseStore }.

(** [goos] and [goarch] are [runtime.GOOS] and [runtime.GOARCH]. *)
(* src: internal/app/agent.go:371-426 buildAgentSnapshot *)
Definition buildAgentSnapshot (goos goarch : string) (state : option AgentState) (runnerVersion : string)
    (nativeRunnerReady : bool) (availabilityIntent : string) (excludedTargets : option (list TargetID))
    (sharedRunnerIdentity : option bool) : program AgentSnapshot :=
  match state with
  | Some (mkAgentState nodeID (Some store)) =>
      require (if (nodeID == "") || (runnerVersion == "") then Some ErrInvalidCommand else None) ;;
      journal ← AgentStore_Snapshot store;
      platform ← lift (agentPlatform goos goarch);
      let snapshot := mkAgentSnapshot nodeID platform.1 platform.2 runnerVersion nativeRunnerReady
        availabilityIntent excludedTargets sharedRunnerIdentity (ass_MaxControllerEpoch journal)
        (ass_Commands journal)
        (map (fun o => mkObservation (os_ExecutionID o) (os_State o) (os_ObservedAtUnixNano o))
           (ass_Observations journal))
        (map (fun t => mkTombstone (ts_ExecutionID t) (ts_FailureCode t) (ts_RecordedAtUnixNano t))
           (ass_CleanupTombstones journal)) in
      require (AgentSnapshot_Validate snapshot) ;;
      mret snapshot
  | _ => throw ErrInvalidCommand
  end.

Section session.
Context (sha256 : string -> string).
Notation agent_wf := (agent_wf sha256).

(** The rows of a table by key, and their keys. *)
Lemma rows_by_key_forall {A} (P : string -> A -> Prop) (t : gmap string A) :
  map_Forall P t -> Forall (fun row => P row.1 row.2) (rows_by_key t).
Proof.
  intros Ht. apply Forall_forall. intros [k row] Hrow. apply elem_of_rows_by_key in Hrow. by apply Ht.
Qed.
Lemma rows_by_key_NoDup {A} (t : gmap string A) : NoDup (map fst (rows_by_key t)).
Proof. unfold rows_by_key. rewrite sort_slice_perm. apply NoDup_fst_map_to_list. Qed.
(** Rows that hold their key have distinct keys. *)
Lemma rows_keyed_NoDup {A} (key : A -> string) (t : gmap string A) :
  map_Forall (fun k row => key row = k) t -> NoDup (map (fun row => key row.2) (rows_by_key t)).
Proof.
  intros Ht. apply rows_by_key_forall in Ht. pose proof (rows_by_key_NoDup t) as Hnd.
  erewrite map_ext_in; [exact Hnd|]. intros row Hrow. rewrite Forall_forall in Ht.
  apply Ht. by apply list_elem_of_In.
Qed.
Lemma map_Forall_weaken {A} (P Q : string -> A -> Prop) (t : gmap string A) :
  map_Forall P t -> (forall k row, P k row -> Q k row) -> map_Forall Q t.
Proof. intros Ht HPQ k row Hk. auto. Qed.

(** The journal of a consistent database can be read. *)
Definition stored_rows {A} (t : gmap string A) : list A := map snd (rows_by_key t).
Lemma scan_table {A} (scan : string * A -> result A) (t : gmap string A) :
  map_Forall (fun k row => scan (k, row) = Ok row) t -> scan_rows scan (rows_by_key t) = Ok (stored_rows t).
Proof. intros Ht. apply scan_rows_ok. apply rows_by_key_forall in Ht. eapply Forall_impl; [exact Ht|]. by intros []. Qed.

Lemma AgentStore_Snapshot_ok s db :
  agent_wf db -> requireReady s = None ->
  exists n, epoch_fence db = Ok n /\
    run (AgentStore_Snapshot s) db =
      (Ok (mkAgentStoreSnapshot n (stored_rows (command_replays db)) (stored_rows (execution_observations db))
             (stored_rows (cleanup_tombstones db))), db).
Proof.
  intros Hwf Hready. destruct (wf_fence _ _ Hwf) as (n & Hn & _). exists n. split; [done|].
  unfold AgentStore_Snapshot. rewrite run_require_bind, Hready. enter_tx. unfold read_max_epoch.
  rewrite run_query_bind. unfold epoch_fence in Hn. rewrite Hn. rewrite !run_query_bind.
  rewrite (scan_table scan_command).
  2: { eapply map_Forall_weaken; [apply (wf_commands _ _ Hwf)|]. intros k c (_ & Hv & _).
       unfold scan_command. simpl. by rewrite Hv. }
  rewrite run_query_bind, (scan_table scan_observation).
  2: { eapply map_Forall_weaken; [apply (wf_observations _ _ Hwf)|]. intros k o (Hid & Hne & Hs & Ht).
       unfold scan_observation, ExecutionState_Validate. simpl. rewrite Hs, bool_decide_eq_false_2 by congruence.
       by replace (os_ObservedAtUnixNano o <=? 0) with false by (symmetry; conditions; lia). }
  rewrite run_query_bind, (scan_table scan_tombstone); [done|].
  eapply map_Forall_weaken; [apply (wf_tombstones _ _ Hwf)|]. intros k t (Hid & Hne & Hs & Ht).
  unfold scan_tombstone. simpl. rewrite Hs, bool_decide_eq_false_2 by congruence.
  by replace (ts_RecordedAtUnixNano t <=? 0) with false by (symmetry; conditions; lia).
Qed.

Lemma agentPlatform_ok goos goarch os arch :
  agentPlatform goos goarch = Ok (os, arch) ->
  OperatingSystem_Validate os "agent_snapshot.os" = None /\
  Architecture_Validate arch "agent_snapshot.architecture" = None.
Proof.
  unfold agentPlatform.
  repeat match goal with |- context [if ?b then _ else _] => destruct b; [|] end; intros; simplify_eq; done.
Qed.

(** Rows that hold their key and pass a check make a list without duplicates. *)
Lemma stored_rows_unique {A} check (key : A -> string) (t : gmap string A) :
  map_Forall (fun k row => key row = k /\ check row = None) t ->
  validate_unique check key (stored_rows t) ∅ = None.
Proof.
  intros Ht. apply validate_unique_iff. unfold stored_rows. split_and!.
  - apply Forall_map. eapply Forall_impl; [by apply rows_by_key_forall|]. naive_solver.
  - rewrite map_map. apply rows_keyed_NoDup. eapply map_Forall_weaken; [exact Ht|]. naive_solver.
  - apply Forall_forall. set_solver.
Qed.
Lemma validate_unique_map {A B} check (key : B -> string) (f : A -> B) entries seen :
  validate_unique check key (map f entries) seen =
  validate_unique (fun a => check (f a)) (fun a => key (f a)) entries seen.
Proof. revert seen. induction entries as [|a entries IH]; intros seen; simpl; [done|]. by rewrite IH. Qed.

Lemma cleanup_code_valid code field field' :
  CleanupFailureCode_Validate code field = None -> CleanupFailureCode_Validate code field' = None.
Proof. unfold CleanupFailureCode_Validate. by case_bool_decide. Qed.

Lemma map_stored {A B} (f : A -> B) (g : B -> A) rows : (forall a, g (f a) = a) -> map g (map f rows) = rows.
Proof. intros Hgf. rewrite map_map. induction rows; simpl; by rewrite ?Hgf; f_equal. Qed.

(** What [buildAgentSnapshot] puts together from a database. *)
Definition snapshot_of nodeID platform version ready intent excluded shared (n : Z) (db : AgentDB) : AgentSnapshot :=
  mkAgentSnapshot nodeID platform.1 platform.2 version ready intent excluded shared n
    (stored_rows (command_replays db))
    (map (fun o => mkObservation (os_ExecutionID o) (os_State o) (os_ObservedAtUnixNano o))
       (stored_rows (execution_observations db)))
    (map (fun t => mkTombstone (ts_ExecutionID t) (ts_FailureCode t) (ts_RecordedAtUnixNano t))
       (stored_rows (cleanup_tombstones db))).

Lemma snapshot_of_valid nodeID goos goarch platform version ready intent excluded shared n db :
  agent_wf db -> epoch_fence db = Ok n ->
  nodeID <> "" -> agentPlatform goos goarch = Ok platform -> TrimSpace version = version -> len_string version <= 64 ->
  (intent <> "" -> AvailabilityIntent_Validate intent "agent_snapshot.availability_intent" = None) ->
  (forall targets, excluded = Some targets -> ValidateExcludedTargets targets = None) ->
  AgentSnapshot_Validate (snapshot_of nodeID platform version ready intent excluded shared n db) = None.
Proof.
  intros Hwf Hn Hnode Hplat Htrim Hlen Hintent Hexcl.
  destruct platform as [os arch]. destruct (agentPlatform_ok _ _ _ _ Hplat) as [Hos Harch].
  unfold AgentSnapshot_Validate, snapshot_of. simpl. rewrite bool_decide_eq_false_2, Hos, Harch by done.
  assert (Hi : (if intent != "" then AvailabilityIntent_Validate intent "agent_snapshot.availability_intent"
    else None) = None).
  { destruct (bool_decide (intent = "")) eqn:E; [done|]. apply Hintent. by conditions. }
  rewrite Hi. assert (He : match excluded with Some ids => ValidateExcludedTargets ids | None => None end = None)
    by (destruct excluded; auto).
  rewrite He, Htrim, (bool_decide_eq_true_2 (version = version)) by done.
  replace (len_string version >? 64) with false by (symmetry; conditions; lia).
  rewrite andb_false_r, !validate_unique_map. simpl.
  destruct (wf_fence _ _ Hwf) as (m & Hm & _ & Hle). rewrite Hn in Hm. injection Hm as <-.
  rewrite (stored_rows_unique (validate_snapshot_command n) command_ID); [|].
  2: { intros k c Hc. destruct (wf_commands _ _ Hwf _ _ Hc) as (Hk & Hv & _). split; [done|].
       unfold validate_snapshot_command. rewrite Hv. pose proof (Hle _ _ Hc) as Hc'. simpl in Hc'.
       by replace (command_ControllerEpoch c >? n) with false by (symmetry; conditions; lia). }
  rewrite stored_rows_unique; [apply stored_rows_unique|].
  - intros k t Hk. destruct (wf_tombstones _ _ Hwf _ _ Hk) as (Hid & Hne & Hcode & Ht). split; [done|].
    unfold validate_tombstone. simpl. rewrite bool_decide_eq_false_2 by congruence.
    replace (ts_RecordedAtUnixNano t <=? 0) with false by (symmetry; conditions; lia). simpl.
    by rewrite (cleanup_code_valid _ _ _ Hcode).
  - intros k o Hk. destruct (wf_observations _ _ Hwf _ _ Hk) as (Hid & Hne & Hs & Ht). split; [done|].
    unfold validate_observation, ExecutionState_Validate. simpl. rewrite bool_decide_eq_false_2 by congruence.
    replace (os_ObservedAtUnixNano o <=? 0) with false by (symmetry; conditions; lia). simpl. by rewrite Hs.
Qed.

(** C30 What the Agent's store holds always passes the validation of the snapshot.
    After any history of typed store calls on a fresh database, whatever statement or
    commit failed in it, for a ready store, an enrolled node on a supported platform, a
    trimmed runner version of 1 to 64 bytes and valid intent and exclusions:
    [buildAgentSnapshot], when its own read of the database is not disturbed, answers a
    snapshot that [AgentSnapshot.Validate] accepts and that carries the epoch fence and
    exactly the stored commands, observations and tombstones; and a disturbed read
    answers that snapshot or an error, never another.  The bound on the size of the
    encoded snapshot is not part of this. *)
Theorem journal_always_presentable calls faults outcomes s nodeID goos goarch platform version ready intent
    excluded shared :
  Forall (fun call => typed call.2) calls -> requireReady s = None ->
  nodeID <> "" -> agentPlatform goos goarch = Ok platform ->
  version <> "" -> TrimSpace version = version -> len_string version <= 64 ->
  (intent <> "" -> AvailabilityIntent_Validate intent "agent_snapshot.availability_intent" = None) ->
  (forall targets, excluded = Some targets -> ValidateExcludedTargets targets = None) ->
  let db := database (agent_history sha256 calls (mkConnection fresh_agent_db faults outcomes)) in
  let build := buildAgentSnapshot goos goarch (Some (mkAgentState nodeID (Some s))) version ready intent
    excluded shared in
  exists snapshot,
    run build db = (Ok snapshot, db) /\
    AgentSnapshot_Validate snapshot = None /\
    epoch_fence db = Ok (snap_MaxControllerEpoch snapshot) /\
    snap_Commands snapshot = stored_rows (command_replays db) /\
    map (fun o => mkObservationSnapshot (obs_ExecutionID o) (obs_State o) (obs_ObservedAtUnixNano o))
      (snap_Observations snapshot) = stored_rows (execution_observations db) /\
    map (fun t => mkTombstoneSnapshot (tomb_ExecutionID t) (tomb_FailureCode t) (tomb_RecordedAtUnixNano t))
      (snap_CleanupTombstones snapshot) = stored_rows (cleanup_tombstones db) /\
    (forall c other c', database c = db -> build c = (Ok other, c') -> other = snapshot).
Proof.
  intros Hcalls Hready Hnode Hplat Hver Htrim Hlen Hintent Hexcl db build.
  assert (Hwf : agent_wf db) by (apply agent_history_wf; [done|apply fresh_agent_wf]).
  destruct (AgentStore_Snapshot_ok s db Hwf Hready) as (n & Hn & Hsnap).
  assert (Hreads : Follows (AgentStore_Snapshot s)) by (unfold AgentStore_Snapshot; apply _).
  assert (Hbuild : Follows build) by (unfold build, buildAgentSnapshot; apply _).
  set (snapshot := snapshot_of nodeID platform version ready intent excluded shared n db).
  assert (Hvalid : AgentSnapshot_Validate snapshot = None) by by eapply snapshot_of_valid.
  assert (Hrun : run build db = (Ok snapshot, db)).
  { unfold build, buildAgentSnapshot. rewrite run_require_bind, !bool_decide_eq_false_2 by done. simpl orb.
    rewrite run_bind, Hsnap, run_lift_bind, Hplat by done. cbn [ass_MaxControllerEpoch ass_Commands
      ass_Observations ass_CleanupTombstones]. fold (snapshot_of nodeID platform version ready intent excluded shared n db).
    fold snapshot. by rewrite run_require_bind, Hvalid. }
  exists snapshot. split_and!; try done.
  - apply map_stored. by intros [].
  - apply map_stored. by intros [].
  - intros c other c' Hc Hanswer. apply (sql_run_ok _ _ _ _ Hbuild) in Hanswer. congruence.
Qed.
End session.

(** A journal that accepted a command; the first statement of the call failed once. *)
Definition demo_command : Command := mkCommand "c1" 7 "e1" ExecutionReserved
  "0123456789abcdef0123456789abcdef0123456789abcdef0123456789abcdef".
Definition demo_calls : list (baseStore * agent_method) :=
  let call := (mkBaseStore None (unix_time 1000), MRecordTypedCommand (mkAccepted CommandPrepare demo_command)) in
  [call; call].
Definition demo_journal : AgentDB :=
  database (agent_history (fun s => s) demo_calls (mkConnection fresh_agent_db [true] [])).

Lemma journal_always_presentable_witness :
  exists snapshot,
    run (buildAgentSnapshot "linux" "amd64" (Some (mkAgentState "n1" (Some (mkBaseStore None 0)))) "2.330.0" true
      AvailabilityAccepting (Some ["t9"]) (Some false)) demo_journal = (Ok snapshot, demo_journal) /\
    AgentSnapshot_Validate snapshot = None /\ snap_MaxControllerEpoch snapshot = 7 /\
    snap_Commands snapshot = [demo_command].
Proof.
  destruct (journal_always_presentable (fun s => s) demo_calls [true] [] (mkBaseStore None 0) "n1" "linux" "amd64"
    (OSLinux, ArchAMD64) "2.330.0" true AvailabilityAccepting (Some ["t9"]) (Some false))
    as (snapshot & Hrun & Hvalid & Hfence & Hcommands & _).
  - repeat constructor.
  - reflexivity.
  - discriminate.
  - reflexivity.
  - discriminate.
  - reflexivity.
  - unfold len_string. simpl. lia.
  - intros _. reflexivity.
  - intros targets [= <-]. reflexivity.
  - exists snapshot. split; [exact Hrun|]. split; [exact Hvalid|]. split.
    + apply (f_equal (fun r => match r with Ok n => n | Err _ => 0 end)) in Hfence. symmetry. exact Hfence.
    + rewrite Hcommands. vm_compute. reflexivity.
Defined.
