(* ===== verification/JoinCode.v ===== *)
(** * One-time join codes

    internal/enroll/join_code.go: the code an operator pastes into a computer
    that is not enrolled yet.  It carries the fingerprint of the Controller's
    authority, where to find the Controller, and the identity and secret of a
    one-time token.  [DecodeJoinCode] accepts one spelling of each code only.

    Parsing URLs and IP addresses and mapping a string to lower case are parts of
    Go's standard library that are parameters here ([HostSyntax]); the theorems
    hold for every choice of them.  A fixed-size array is a byte list, and
    [JoinCode_typed] says that the lists of a code have the lengths of its
    arrays. *)

From S2P Require Import Prelude GoStd GoEncoding.
From Stdlib Require Import Ascii.

(* src: internal/enroll/join_code.go:22-22 JoinCodePrefix *)
Definition JoinCodePrefix : string := "spr_".
(* src: internal/enroll/join_code.go:23-23 JoinProtocolV1 *)
Definition JoinProtocolV1 : Z := 1.
(** [sha256.Size]. *)
Definition sha256_Size : nat := 32.
(* src: internal/enroll/join_code.go:24-24 joinCodeHeaderLen *)
Definition joinCodeHeaderLen : nat := 3 + 1 + sha256_Size + 2 + 16 + 32.

(* src: internal/enroll/join_code.go:28-28 ErrInvalidJoinCode *)
Definition ErrInvalidJoinCode : GoError := PlainError "invalid join code".
(* src: internal/enroll/join_code.go:29-29 ErrJoinCodeVersion *)
Definition ErrJoinCodeVersion : GoError := PlainError "unsupported join code version".

(* src: internal/enroll/join_code.go:36-42 JoinCode *)
Record JoinCode := mkJoinCode {
  version : Z;
  caFingerprint : bytes;
  endpointHints : list string;
  tokenID : bytes;
  secret : bytes }.

(** The sizes of the code's arrays: [byte], [[32]byte], [[16]byte] and [[32]byte]. *)
Definition JoinCode_typed (code : JoinCode) : Prop :=
  0 <= version code < 256 /\ length (caFingerprint code) = sha256_Size /\
  length (tokenID code) = 16%nat /\ length (secret code) = 32%nat.

#[export] Instance JoinCode_eq_dec : EqDecision JoinCode.
Proof. solve_decision. Defined.

(* src: internal/enroll/join_code.go:250-256 zeroBytes *)
Definition zeroBytes (value : bytes) : bool :=
  foldl (fun combined item => Z.lor combined (byte_val item)) 0 value =? 0.

(** [io.ReadFull] from a reader that will deliver [reader]: the bytes read and
    what is left of it. *)
Definition ReadFull (reader : bytes) (n : nat) : result (bytes * bytes) :=
  if (n <=? length reader)%nat then Ok (take n reader, drop n reader)
  else Err (PlainError (match reader with [] => "EOF" | _ => "unexpected EOF" end)).

(** ** Endpoint hints *)

(** [net/url.URL]; [url_User] is the rendered user information, if any. *)
Record URL := mkURL {
  url_Scheme : string; url_Opaque : string; url_User : option string; url_Host : string;
  url_Path : string; url_RawPath : string; url_OmitHost : bool; url_ForceQuery : bool;
  url_RawQuery : string; url_Fragment : string; url_RawFragment : string }.

(** [url.Parse], [URL.String], [netip.ParseAddr] followed by [Addr.String], and
    [strings.ToLower]. *)
Class HostSyntax := {
  url_Parse : string -> option URL;
  URL_String : URL -> string;
  ParseAddr : string -> option string;
  ToLower : string -> string }.

Section hints.
Context `{!HostSyntax}.

(* src: internal/enroll/join_code.go:216-248 normalizeHostPort *)
Definition normalizeHostPort (value : string) (optionalPort : bool) : result string :=
  let! (host, port) := match SplitHostPort value with
    | Some split => Ok split
    | None =>
        if optionalPort && negb (contains_byte colon (bytes_of value)) then Ok (value, "")
        else Err ErrInvalidJoinCode
    end ;;
  if host == "" then Err ErrInvalidJoinCode else
  let! port := (if port != "" then
      match ParseUint max_uint16 port with
      | Some parsedPort =>
          if parsedPort =? 0 then Err ErrInvalidJoinCode else Ok (FormatUint parsedPort)
      | None => Err ErrInvalidJoinCode
      end
    else Ok port) ;;
  let! host := match ParseAddr host with
    | Some address => Ok address
    | None =>
        let host := ToLower host in
        if contains_any " /?#@" host then Err ErrInvalidJoinCode else Ok host
    end ;;
  if port == "" then Ok host else Ok (JoinHostPort host port).

(** [strings.IndexByte(s, 0) >= 0]. *)
Definition has_nul (s : string) : bool := contains_byte Ascii.zero (bytes_of s).

(* src: internal/enroll/join_code.go:195-214 normalizeHint *)
Definition normalizeHint (hint : string) : result string :=
  if (hint == "") || (TrimSpace hint != hint) || has_nul hint then Err ErrInvalidJoinCode
  else if has_prefix "https://" hint then
    match url_Parse hint with
    | None => Err ErrInvalidJoinCode
    | Some parsed =>
        if (url_Scheme parsed != "https") || (url_User parsed != None) || (url_Host parsed == "") ||
           (url_RawQuery parsed != "") || (url_Fragment parsed != "") ||
           ((url_Path parsed != "") && (url_Path parsed != "/"))
        then Err ErrInvalidJoinCode
        else
          let! host := normalizeHostPort (url_Host parsed) true ;;
          Ok (URL_String (mkURL "https" (url_Opaque parsed) (url_User parsed) host ""
            (url_RawPath parsed) (url_OmitHost parsed) (url_ForceQuery parsed)
            (url_RawQuery parsed) (url_Fragment parsed) (url_RawFragment parsed)))
    end
  else normalizeHostPort hint false.

(* src: internal/enroll/join_code.go:170-176 validHint *)
Definition validHint (hint : string) : bool :=
  if (hint == "") || (max_uint16 <? len_string hint) || (TrimSpace hint != hint) || has_nul hint
  then false
  else match normalizeHint hint with Ok canonical => canonical == hint | Err _ => false end.

(** The loop of [canonicalHints], given the hint before the first. *)
Fixpoint canonical_from (previous : option string) (hints : list string) : error :=
  match hints with
  | [] => None
  | hint :: rest =>
      if negb (validHint hint) ||
         match previous with Some p => negb (string_less p hint) | None => false end
      then Some ErrInvalidJoinCode
      else canonical_from (Some hint) rest
  end.
(* src: internal/enroll/join_code.go:158-168 canonicalHints *)
Definition canonicalHints (hints : list string) : error :=
  if max_uint16 <? Z.of_nat (length hints) then Some ErrInvalidJoinCode
  else canonical_from None hints.

(** The loop of [CanonicalHints] before the sort. *)
Fixpoint normalize_all (hints : list string) : result (list string) :=
  match hints with
  | [] => Ok []
  | hint :: rest =>
      match normalizeHint hint with
      | Err _ => Err ErrInvalidJoinCode
      | Ok canonical => let! copyHints := normalize_all rest ;; Ok (canonical :: copyHints)
      end
  end.
(* src: internal/enroll/join_code.go:179-193 CanonicalHints *)
Definition CanonicalHints (hints : list string) : result (list string) :=
  let! copyHints := normalize_all hints ;;
  let copyHints := sort_slice string_less copyHints in
  tryr canonicalHints copyHints ;;
  Ok copyHints.

(** ** The code *)

(* src: internal/enroll/join_code.go:51-70 NewJoinCode *)
Definition NewJoinCode (rand_Reader fingerprint : bytes) (hints : list string)
    (reader : option bytes) : result JoinCode :=
  let reader := default rand_Reader reader in
  if zeroBytes fingerprint then Err ErrInvalidJoinCode else
  let! canonical := CanonicalHints hints ;;
  let! (tokenID, reader) := ReadFull reader 16 ;;
  let! (secret, reader) := ReadFull reader 32 ;;
  Ok (mkJoinCode JoinProtocolV1 fingerprint canonical tokenID secret).

(** One round of the loop over the hints in [Encode]. *)
Definition append_hint (payload : bytes) (hint : string) : bytes :=
  payload ++ put_uint16 (wrap_uint16 (len_string hint)) ++ bytes_of hint.
(** The payload [Encode] builds. *)
Definition code_payload (code : JoinCode) : bytes :=
  let payload := bytes_of "SPR" ++ [to_byte (version code)] in
  let payload := payload ++ caFingerprint code in
  let payload := payload ++ put_uint16 (wrap_uint16 (Z.of_nat (length (endpointHints code)))) in
  let payload := foldl append_hint payload (endpointHints code) in
  payload ++ tokenID code ++ secret code.
(* src: internal/enroll/join_code.go:72-100 JoinCode.Encode *)
Definition Encode (code : JoinCode) : result string :=
  if version code != JoinProtocolV1 then Err ErrJoinCodeVersion
  else if zeroBytes (caFingerprint code) || zeroBytes (tokenID code) || zeroBytes (secret code)
  then Err ErrInvalidJoinCode
  else
    tryr canonicalHints (endpointHints code) ;;
    Ok (String.append JoinCodePrefix (string_of (base64_encode (code_payload code)))).

(** [payload[offset:offset+n]]. *)
Definition slice (payload : bytes) (offset n : nat) : bytes := take n (drop offset payload).

(** The loop over the hints in [DecodeJoinCode]: the hints and the offset after
    them. *)
Fixpoint decode_hints (count : nat) (payload : bytes) (offset : nat) (endpointHints : list string)
    : result (list string * nat) :=
  match count with
  | O => Ok (endpointHints, offset)
  | S count' =>
      if (length payload <? offset + 2)%nat then Err ErrInvalidJoinCode else
      let len := Z.to_nat (get_uint16 (slice payload offset 2)) in
      let offset := (offset + 2)%nat in
      if (len =? 0)%nat || (length payload <? offset + len)%nat then Err ErrInvalidJoinCode else
      let hint := string_of (slice payload offset len) in
      if negb (validHint hint) then Err ErrInvalidJoinCode else
      decode_hints count' payload (offset + len) (endpointHints ++ [hint])
  end.

(* src: internal/enroll/join_code.go:106-153 DecodeJoinCode *)
Definition DecodeJoinCode (encoded : string) : result JoinCode :=
  if negb (has_prefix JoinCodePrefix encoded) ||
     (len_string encoded =? len_string JoinCodePrefix) then Err ErrInvalidJoinCode else
  let body := trim_prefix JoinCodePrefix encoded in
  if contains_any "=+/" body then Err ErrInvalidJoinCode else
  match base64_decode (bytes_of body) with
  | None => Err ErrInvalidJoinCode
  | Some payload =>
      if (string_of (base64_encode payload) != body) || (length payload <? joinCodeHeaderLen)%nat
      then Err ErrInvalidJoinCode
      else if string_of (slice payload 0 3) != "SPR" then Err ErrInvalidJoinCode else
      let version := byte_val (nth 3 payload Ascii.zero) in
      if version != JoinProtocolV1 then Err ErrJoinCodeVersion else
      let caFingerprint := slice payload 4 sha256_Size in
      let offset := (4 + sha256_Size)%nat in
      let count := Z.to_nat (get_uint16 (slice payload offset 2)) in
      let! (endpointHints, offset) := decode_hints count payload (offset + 2) [] ;;
      if negb (offset + 16 + 32 =? length payload)%nat then Err ErrInvalidJoinCode else
      let tokenID := slice payload offset 16 in
      let secret := drop (offset + 16) payload in
      if zeroBytes caFingerprint || zeroBytes tokenID || zeroBytes secret ||
         (canonicalHints endpointHints != None)
      then Err ErrInvalidJoinCode
      else Ok (mkJoinCode version caFingerprint endpointHints tokenID secret)
  end.
End hints.

(** ** The payload and its slices *)

Lemma slice_app a b c n :
  length a = n -> slice (a ++ b ++ c) n (length b) = b.
Proof. intros <-. unfold slice. by rewrite drop_app_length, take_app_length. Qed.
Lemma slice_app_at a b c n k :
  length a = n -> length b = k -> slice (a ++ b ++ c) n k = b.
Proof. intros ? <-. by apply slice_app. Qed.
Lemma slice_split payload n k :
  drop n payload = slice payload n k ++ drop (n + k) payload.
Proof. unfold slice. by rewrite <- drop_drop, take_drop. Qed.
Lemma length_slice payload n k :
  (n + k <= length payload)%nat -> length (slice payload n k) = k.
Proof. intros. unfold slice. rewrite length_take, length_drop. lia. Qed.

(** What [Encode] appends for the hints. *)
Definition hints_payload (hints : list string) : bytes :=
  mjoin (map (fun hint => put_uint16 (wrap_uint16 (len_string hint)) ++ bytes_of hint) hints).
Lemma hints_payload_cons hint hints :
  hints_payload (hint :: hints) =
  put_uint16 (wrap_uint16 (len_string hint)) ++ bytes_of hint ++ hints_payload hints.
Proof. reflexivity. Qed.
Lemma append_hints payload hints :
  foldl append_hint payload hints = payload ++ hints_payload hints.
Proof.
  revert payload. induction hints as [|hint hints IH]; intros payload; simpl.
  - by rewrite app_nil_r.
  - rewrite IH. unfold append_hint, hints_payload. simpl. by rewrite <- !app_assoc.
Qed.

(** The sections of the payload, in order. *)
Lemma code_payload_sections code :
  code_payload code =
  bytes_of "SPR" ++ [to_byte (version code)] ++ caFingerprint code ++
  put_uint16 (wrap_uint16 (Z.of_nat (length (endpointHints code)))) ++
  hints_payload (endpointHints code) ++ tokenID code ++ secret code.
Proof. unfold code_payload. by rewrite append_hints, <- !app_assoc. Qed.

Lemma length_put_uint16 v : length (put_uint16 v) = 2%nat.
Proof. done. Qed.
Lemma get_put_small n rest :
  0 <= n <= max_uint16 -> get_uint16 (put_uint16 (wrap_uint16 n) ++ rest) = n.
Proof.
  unfold max_uint16. intros Hn. rewrite get_put_uint16. unfold wrap_uint16.
  by rewrite Z.mod_mod, Z.mod_small by lia.
Qed.
Lemma put_get_bytes b : length b = 2%nat -> put_uint16 (get_uint16 b) = b.
Proof. destruct b as [|hi [|lo [|]]]; simpl; intros; try lia. apply put_get_uint16. Qed.
Lemma get_uint16_wrap b : wrap_uint16 (get_uint16 b) = get_uint16 b.
Proof.
  pose proof (get_uint16_range b). unfold max_uint16 in *. apply Z.mod_small. lia.
Qed.

(** The header's slices. *)
Lemma header_slices v fp count rest :
  length fp = sha256_Size -> length count = 2%nat ->
  let header := bytes_of "SPR" ++ [v] ++ fp ++ count in
  let P := header ++ rest in
  length header = 38%nat /\ slice P 0 3 = bytes_of "SPR" /\ nth 3 P Ascii.zero = v /\
  slice P 4 sha256_Size = fp /\ slice P (4 + sha256_Size) 2 = count.
Proof.
  intros Hfp Hcount. simpl. split_and!; [|done|done|..].
  - rewrite !length_app, Hfp, Hcount. done.
  - rewrite <- app_assoc.
    exact (slice_app_at ["S"%char; "P"%char; "R"%char; v] fp (count ++ rest) 4 _ eq_refl Hfp).
  - rewrite <- app_assoc.
    refine (slice_app_at (["S"%char; "P"%char; "R"%char; v] ++ fp) count rest _ 2 _ Hcount).
    by rewrite length_app, Hfp.
Qed.

(** A payload that is long enough has a header. *)
Lemma header_of payload :
  (38 <= length payload)%nat -> slice payload 0 3 = bytes_of "SPR" ->
  payload = (bytes_of "SPR" ++ [nth 3 payload Ascii.zero] ++ slice payload 4 sha256_Size ++
             slice payload (4 + sha256_Size) 2) ++ drop 38 payload.
Proof.
  intros Hlen H0. rewrite <- H0 at 1. rewrite <- !app_assoc.
  change (payload = slice payload 0 3 ++ [nth 3 payload Ascii.zero] ++
    slice payload 4 sha256_Size ++ slice payload (4 + sha256_Size) 2 ++
    drop (4 + sha256_Size + 2) payload).
  rewrite <- !slice_split. rewrite <- (drop_0 payload) at 1. rewrite (slice_split payload 0 3). f_equal.
  simpl Nat.add. destruct payload as [|a [|b [|c [|d payload]]]]; simpl in *; try lia. done.
Qed.

Section codec.
Context `{!HostSyntax}.

Lemma validHint_bounds hint :
  validHint hint = true -> hint <> "" /\ 0 < len_string hint <= max_uint16.
Proof.
  unfold validHint. destruct (_ || _ || _ || _) eqn:E; [done|]. intros _.
  conditions. destruct E as [[[E1 E2] _] _]. split; [done|].
  unfold len_string in *. destruct hint; [done|simpl in *; lia].
Qed.

Lemma canonical_from_valid previous hints :
  canonical_from previous hints = None -> Forall (fun h => validHint h = true) hints.
Proof.
  revert previous. induction hints as [|h hints IH]; intros previous; simpl; [constructor|].
  destruct (validHint h) eqn:E; simpl; [|done].
  destruct (match previous with Some _ => _ | None => _ end); [done|]. constructor; eauto.
Qed.
Lemma canonicalHints_None hints :
  canonicalHints hints = None ->
  0 <= Z.of_nat (length hints) <= max_uint16 /\ Forall (fun h => validHint h = true) hints.
Proof.
  unfold canonicalHints. destruct (Z.ltb_spec max_uint16 (Z.of_nat (length hints))); [done|].
  intros Hc. split; [lia|]. by eapply canonical_from_valid.
Qed.

(** The loop reads back what [Encode] appended. *)
Lemma decode_hints_payload hints before rest acc :
  Forall (fun h => validHint h = true) hints ->
  decode_hints (length hints) (before ++ hints_payload hints ++ rest) (length before) acc =
  Ok (acc ++ hints, (length before + length (hints_payload hints))%nat).
Proof.
  intros Hv. revert before acc. induction Hv as [|h hints Hh _ IH]; intros before acc.
  { simpl. by rewrite app_nil_r, Nat.add_0_r. }
  destruct (validHint_bounds h Hh) as [_ Hlen]. pose proof (length_bytes_of h) as Hb.
  set (len := put_uint16 (wrap_uint16 (len_string h))).
  rewrite hints_payload_cons. fold len.
  assert (length len = 2%nat) as Hl by done. rewrite <- !app_assoc. cbn [length decode_hints].
  rewrite (proj2 (Nat.ltb_ge _ _)) by (rewrite !length_app; lia).
  rewrite (slice_app_at before len) by done.
  assert (get_uint16 len = len_string h) as Hg.
  { rewrite <- (app_nil_r len). apply get_put_small. lia. }
  rewrite Hg. unfold len_string in *. rewrite Nat2Z.id.
  rewrite (proj2 (Nat.eqb_neq _ _)) by lia.
  rewrite (proj2 (Nat.ltb_ge _ _)) by (rewrite !length_app; lia).
  rewrite (app_assoc before len). simpl orb.
  rewrite (slice_app_at (before ++ len) (bytes_of h)) by (rewrite ?length_app; lia).
  rewrite string_of_bytes_of, Hh. simpl negb. cbv iota.
  replace (length before + 2 + String.length h)%nat with (length ((before ++ len) ++ bytes_of h))
    by (rewrite !length_app; lia).
  rewrite (app_assoc (before ++ len)), IH, <- app_assoc. f_equal. f_equal.
  rewrite !length_app. lia.
Qed.

(** What the loop accepts is what [Encode] would append. *)
Lemma decode_hints_sound count payload offset acc hints' offset' :
  decode_hints count payload offset acc = Ok (hints', offset') ->
  (offset <= length payload)%nat ->
  exists hints, hints' = acc ++ hints /\ length hints = count /\
    (offset' <= length payload)%nat /\
    drop offset payload = hints_payload hints ++ drop offset' payload.
Proof.
  revert offset acc. induction count as [|count IH]; intros offset acc; cbn [decode_hints].
  { intros [= <- <-] Hle. exists []. by rewrite app_nil_r. }
  destruct (Nat.ltb_spec (length payload) (offset + 2)); [done|].
  set (b := slice payload offset 2). set (len := Z.to_nat (get_uint16 b)).
  destruct (_ || _) eqn:Hlen; [done|]. conditions. destruct Hlen as [Hlen1 Hlen2].
  apply Nat.eqb_neq in Hlen1. apply Nat.ltb_ge in Hlen2.
  destruct (validHint _) eqn:Hv; simpl; [|done]. intros Hd Hle.
  destruct (IH _ _ Hd) as (hints & -> & Hcount & Hle' & Hdrop); [lia|].
  set (hint := string_of (slice payload (offset + 2) len)) in *.
  assert (String.length hint = len) as Hhint.
  { rewrite <- length_bytes_of. unfold hint. rewrite bytes_of_string_of. apply length_slice. lia. }
  exists (hint :: hints). split_and!; [by rewrite <- app_assoc|simpl; lia|done|].
  rewrite hints_payload_cons, <- !app_assoc, <- Hdrop.
  unfold len_string. rewrite Hhint. unfold len. rewrite Z2Nat.id by apply get_uint16_range.
  rewrite get_uint16_wrap, put_get_bytes by (apply length_slice; lia).
  unfold hint at 1. rewrite bytes_of_string_of, <- slice_split. apply slice_split.
Qed.

(** The body of a code passes the checks on its spelling. *)
Lemma body_spelling payload :
  let body := string_of (base64_encode payload) in
  contains_any "=+/" body = false /\ base64_decode (bytes_of body) = Some payload.
Proof.
  simpl. rewrite bytes_of_string_of, base64_roundtrip. split; [|done].
  apply contains_any_false. rewrite bytes_of_string_of.
  eapply Forall_impl; [apply base64_encode_alphabet|]. intros c Hc Hin.
  change (bytes_of "=+/") with ["="%char; "+"%char; "/"%char] in Hin.
  rewrite !elem_of_cons, elem_of_nil in Hin. by destruct Hin as [->|[->|[->|[]]]], Hc.
Qed.

(** What a typed code encodes to decodes to the code. *)
Lemma decode_encoded code s :
  JoinCode_typed code -> Encode code = Ok s -> DecodeJoinCode s = Ok code.
Proof.
  intros (Hver & Hfp & Htok & Hsec). unfold Encode. case_bool_decide as Ev; [simpl|done].
  destruct (_ || _ || _) eqn:Hz; [done|]. destruct (canonicalHints _) eqn:Hc; [done|].
  intros [= <-]. destruct (canonicalHints_None _ Hc) as [Hn Hvalid].
  unfold DecodeJoinCode. rewrite has_prefix_append, trim_prefix_append. simpl negb.
  destruct (body_spelling (code_payload code)) as [-> ->].
  pose proof (code_payload_sections code) as Hp.
  set (P := code_payload code) in *. set (fp := caFingerprint code) in *.
  set (count := put_uint16 _) in Hp. set (hs := hints_payload _) in Hp.
  assert (length P = (86 + length hs)%nat) as HP
    by (rewrite Hp, !length_app, Hfp, Htok, Hsec; unfold sha256_Size; simpl; lia).
  rewrite (proj2 (Z.eqb_neq _ _)).
  2:{ rewrite len_string_append. unfold len_string at 2. rewrite <- (length_bytes_of (string_of _)).
      rewrite bytes_of_string_of.
      assert (base64_encode P <> []) by (apply base64_encode_nonempty; by destruct P).
      destruct (base64_encode P); [done|]. simpl. lia. }
  rewrite (bool_decide_eq_true_2 (string_of _ = string_of _)) by done.
  rewrite (proj2 (Nat.ltb_ge _ _)) by (unfold joinCodeHeaderLen, sha256_Size; lia). simpl orb. cbv iota.
  destruct (header_slices (to_byte (version code)) fp count (hs ++ tokenID code ++ secret code) Hfp eq_refl)
    as (Hhl & H3 & Hv4 & Hs4 & Hs36).
  set (header := bytes_of "SPR" ++ [to_byte (version code)] ++ fp ++ count) in *.
  assert (P = header ++ hs ++ tokenID code ++ secret code) as HP2
    by (unfold header; rewrite Hp, <- !app_assoc; done).
  rewrite <- HP2 in *. rewrite H3, Hv4, Hs4, Hs36.
  rewrite byte_val_to_byte, Z.mod_small, Ev by done.
  unfold count. rewrite <- (app_nil_r (put_uint16 _)), get_put_small, Nat2Z.id by done.
  rewrite HP2 at 1. change (4 + sha256_Size + 2)%nat with 38%nat. rewrite <- Hhl.
  unfold hs. rewrite decode_hints_payload by done. fold hs.
  cbv beta iota. set (n := (length header + length hs)%nat).
  assert (length (header ++ hs) = n) as Hn' by apply length_app.
  assert (slice P n 16 = tokenID code) as ->
    by (rewrite HP2, app_assoc; by apply slice_app_at).
  assert (drop (n + 16) P = secret code) as ->.
  { rewrite HP2, !app_assoc. apply drop_app_length'. rewrite length_app. lia. }
  rewrite (bool_decide_eq_true_2 (string_of (bytes_of "SPR") = _)) by done.
  rewrite (proj2 (Nat.eqb_eq _ _)) by (unfold n; lia). simpl negb. cbv iota.
  rewrite Hz, Hc. destruct code; simpl in *; subst. done.
Qed.

(** What decodes is the encoding of the code it decodes to. *)
Lemma encode_decoded code s :
  DecodeJoinCode s = Ok code -> JoinCode_typed code /\ Encode code = Ok s.
Proof.
  unfold DecodeJoinCode. destruct (has_prefix JoinCodePrefix s) eqn:Hpre; [|done]. simpl negb.
  destruct (false || _); [done|]. destruct (contains_any _ _); [done|].
  destruct (base64_decode _) as [P|]; [|done].
  destruct (_ || _) eqn:Hbody; [done|]. conditions. destruct Hbody as [Hbody Hlen].
  apply Nat.ltb_ge in Hlen. change joinCodeHeaderLen with 86%nat in Hlen.
  destruct (string_of (slice P 0 3) != "SPR") eqn:H3; [done|]. conditions.
  destruct (byte_val _ != JoinProtocolV1) eqn:Hv; [done|]. conditions.
  set (fp := slice P 4 sha256_Size). set (count := slice P (4 + sha256_Size) 2).
  destruct (decode_hints _ _ _ _) as [[hints offset]|] eqn:Hd; [|done].
  destruct (Nat.eqb_spec (offset + 16 + 32) (length P)) as [Hoff|]; [|done]. simpl negb. cbv iota.
  destruct (_ || _ || _ || _) eqn:Hz; [done|]. intros [= <-].
  rewrite orb_false_iff in Hz. destruct Hz as [Hz Hcanon]. conditions.
  apply decode_hints_sound in Hd as (hs & -> & Hcount & _ & Hdrop); [|unfold sha256_Size; lia].
  simpl app in *. split.
  { unfold JoinCode_typed. simpl. split_and!; [apply byte_val_range|apply byte_val_range|..].
    - apply length_slice. unfold sha256_Size. lia.
    - apply length_slice. lia.
    - rewrite length_drop. lia. }
  unfold Encode. simpl. rewrite Hv, bool_decide_eq_true_2 by done. simpl negb. cbv iota.
  rewrite Hcanon. destruct Hz as [[-> ->] ->]. simpl orb. cbv iota.
  enough (code_payload (mkJoinCode (byte_val (nth 3 P Ascii.zero)) fp hs (slice P offset 16)
            (drop (offset + 16) P)) = P) as Hpay.
  { rewrite <- Hv, Hpay, Hbody, <- trim_prefix_app by done. done. }
  rewrite code_payload_sections. simpl version. simpl caFingerprint. simpl endpointHints.
  simpl tokenID. simpl secret. rewrite <- slice_split, <- Hdrop, to_byte_val, Hcount.
  rewrite Z2Nat.id, get_uint16_wrap, put_get_bytes
    by (apply get_uint16_range || (apply length_slice; unfold sha256_Size; lia)).
  symmetry. etransitivity; [apply header_of|by rewrite <- !app_assoc].
  - lia.
  - by rewrite <- (bytes_of_string_of (slice P 0 3)), H3.
Qed.

(** A string decodes to a code exactly when it is what the code encodes to: no
    code has a second spelling. *)
Lemma decode_iff_encode code s :
  DecodeJoinCode s = Ok code <-> JoinCode_typed code /\ Encode code = Ok s.
Proof. split; [apply encode_decoded|intros [? ?]; by apply decode_encoded]. Qed.

(** Decoding classifies every string it refuses. *)
Lemma decode_hints_error count payload offset acc e :
  decode_hints count payload offset acc = Err e -> e = ErrInvalidJoinCode.
Proof.
  revert offset acc. induction count as [|count IH]; intros offset acc; cbn [decode_hints]; [done|].
  destruct (_ <? _)%nat; [by intros [= <-]|]. destruct (_ || _); [by intros [= <-]|].
  destruct (negb _); [by intros [= <-]|]. apply IH.
Qed.
Lemma decode_error s e :
  DecodeJoinCode s = Err e -> e = ErrInvalidJoinCode \/ e = ErrJoinCodeVersion.
Proof.
  unfold DecodeJoinCode. destruct (_ || _); [intros [= <-]; auto|].
  destruct (contains_any _ _); [intros [= <-]; auto|].
  destruct (base64_decode _); [|intros [= <-]; auto].
  destruct (_ || _); [intros [= <-]; auto|]. destruct (_ != _); [intros [= <-]; auto|].
  destruct (_ != JoinProtocolV1); [intros [= <-]; auto|].
  destruct (decode_hints _ _ _ _) as [[hints offset]|] eqn:Hd.
  - destruct (negb _); [intros [= <-]; auto|]. destruct (_ || _); [intros [= <-]; auto|done].
  - intros [= <-]. left. by eapply decode_hints_error.
Qed.

(** *** Canonical hints *)

Lemma validHint_normal hint : validHint hint = true -> normalizeHint hint = Ok hint.
Proof.
  unfold validHint. destruct (_ || _ || _ || _); [done|].
  destruct (normalizeHint hint); [|done]. by intros ->%bool_decide_eq_true.
Qed.

(** Each hint comes before the next. *)
Lemma canonical_from_sorted previous hints :
  canonical_from previous hints = None ->
  Forall (fun h => forall p, previous = Some p -> string_less p h = true) hints /\
  StronglySorted (fun a b => string_less a b = true) hints.
Proof.
  revert previous. induction hints as [|h hints IH]; intros previous; simpl; [by repeat constructor|].
  destruct (validHint h); simpl; [|done].
  destruct (match previous with Some _ => _ | None => _ end) eqn:E; [done|].
  intros Hc. destruct (IH _ Hc) as [Hall Hs].
  assert (forall p, previous = Some p -> string_less p h = true) as Hp.
  { intros p ->. by apply negb_false_iff in E. }
  split; [constructor; [done|]|constructor; [done|]].
  - eapply Forall_impl; [exact Hall|]. intros x Hx p Ep. simpl in Hx.
    eapply string_less_trans; [by apply Hp|by apply Hx].
  - eapply Forall_impl; [exact Hall|]. intros x Hx. by apply Hx.
Qed.

Lemma canonicalHints_sorted hints :
  canonicalHints hints = None -> StronglySorted (fun a b => string_less a b = true) hints.
Proof.
  unfold canonicalHints. destruct (_ <? _); [done|]. intros Hc. by apply (canonical_from_sorted None).
Qed.

Lemma sorted_strict_weak hints :
  StronglySorted (fun a b => string_less a b = true) hints ->
  StronglySorted (fun a b => string_less b a = false) hints.
Proof.
  induction 1 as [|h hints _ IH Hall]; constructor; [done|].
  eapply Forall_impl; [exact Hall|]. intros x Hx. by apply wo_asym.
Qed.
Lemma sorted_strict_nodup hints :
  StronglySorted (fun a b => string_less a b = true) hints -> NoDup hints.
Proof.
  induction 1 as [|h hints _ IH Hall]; constructor; [|done]. intros Hin.
  rewrite Forall_forall in Hall. pose proof (Hall h Hin) as E. by rewrite string_less_irrefl in E.
Qed.

Lemma normalize_all_normal hints :
  Forall (fun h => validHint h = true) hints -> normalize_all hints = Ok hints.
Proof.
  induction 1 as [|h hints Hh _ IH]; [done|]. simpl. by rewrite validHint_normal, IH.
Qed.
Lemma normalize_all_spec hints out :
  normalize_all hints = Ok out <-> Forall2 (fun h c => normalizeHint h = Ok c) hints out.
Proof.
  revert out. induction hints as [|h hints IH]; intros out; simpl.
  - split; [intros [= <-]; constructor|by inv 1].
  - split.
    + destruct (normalizeHint h) eqn:E; [|done]. destruct (normalize_all hints) eqn:E2; [|done].
      intros [= <-]. constructor; [done|]. by apply IH.
    + inv 1. repeat match goal with H : _ |- _ => rewrite H end.
      match goal with H : Forall2 _ _ _ |- _ => apply IH in H; by rewrite H end.
Qed.

(** The canonical form of hints is a normal form: it is strictly sorted, its own
    canonical form, and that of every order of the same hints. *)
Lemma canonical_hints_normal hints canonical :
  CanonicalHints hints = Ok canonical ->
  StronglySorted (fun a b => string_less a b = true) canonical /\
  canonicalHints canonical = None /\ CanonicalHints canonical = Ok canonical /\
  forall hints', hints' ≡ₚ hints -> CanonicalHints hints' = Ok canonical.
Proof.
  unfold CanonicalHints. destruct (normalize_all hints) as [out|] eqn:Hn; [|done].
  destruct (canonicalHints _) eqn:Hc; [done|]. intros [= <-].
  pose proof (canonicalHints_sorted _ Hc) as Hs. split_and!; [done|done|..].
  - rewrite normalize_all_normal by (by apply canonicalHints_None).
    rewrite <- (sort_slice_unique string_less (sort_slice string_less out) (sort_slice string_less out))
      by (reflexivity || by apply sorted_strict_weak). by rewrite Hc.
  - intros hints' Hp. apply normalize_all_spec in Hn.
    destruct (Permutation_Forall2 (symmetry Hp) Hn) as (out' & Hp' & Ho).
    apply normalize_all_spec in Ho. rewrite Ho.
    rewrite (sort_slice_unique string_less out (sort_slice string_less out'));
      [by rewrite Hc|by rewrite sort_slice_perm|apply sort_slice_sorted; apply _].
Qed.

(** *** Creation *)

Lemma ReadFull_Ok reader n chunk rest :
  ReadFull reader n = Ok (chunk, rest) -> length chunk = n /\ reader = chunk ++ rest.
Proof.
  unfold ReadFull. destruct (Nat.leb_spec n (length reader)); [|done]. intros [= <- <-].
  split; [rewrite length_take; lia|by rewrite take_drop].
Qed.

(** A created code is well formed, holds the canonical hints and the next 48
    bytes of its reader. *)
Lemma NewJoinCode_Ok rand fp hints reader code :
  NewJoinCode rand fp hints reader = Ok code -> length fp = sha256_Size ->
  JoinCode_typed code /\ version code = JoinProtocolV1 /\ caFingerprint code = fp /\
  zeroBytes fp = false /\ CanonicalHints hints = Ok (endpointHints code) /\
  exists rest, default rand reader = tokenID code ++ secret code ++ rest.
Proof.
  unfold NewJoinCode. destruct (zeroBytes fp) eqn:Hz; [done|].
  destruct (CanonicalHints hints) as [canonical|]; [|done].
  destruct (ReadFull _ 16) as [[token r1]|] eqn:H1; [|done].
  destruct (ReadFull _ 32) as [[sec r2]|] eqn:H2; [|done]. intros [= <-] Hfp.
  apply ReadFull_Ok in H1 as [Ht ->], H2 as [Hs ->]. unfold JoinCode_typed, JoinProtocolV1. simpl.
  split_and!; try done; try lia. by exists r2.
Qed.

(** Encoding a created code fails only on zero random bytes. *)
Lemma NewJoinCode_Encode rand fp hints reader code :
  NewJoinCode rand fp hints reader = Ok code -> length fp = sha256_Size ->
  Encode code =
    if zeroBytes (tokenID code) || zeroBytes (secret code) then Err ErrInvalidJoinCode
    else Ok (String.append JoinCodePrefix (string_of (base64_encode (code_payload code)))).
Proof.
  intros Hnew Hfp. apply NewJoinCode_Ok in Hnew as (_ & Hv & Hf & Hz & Hc & _); [|done].
  unfold Encode. rewrite Hv, bool_decide_eq_true_2, Hf, Hz by done. simpl orb.
  apply canonical_hints_normal in Hc as (_ & -> & _). by destruct (_ || _).
Qed.
End codec.
