(* ===== verification/EnrollRegistry.v ===== *)
(** * The enrollment registry

    internal/enroll/registry.go: one-time tokens, enrolled nodes and their current
    credentials.  [MemoryRegistry] keeps them in four maps under one mutex, so
    each method is one atomic step; a [registry_call] is a call of one of the
    methods that change it, and [run_calls] any sequence of them.  [Registry] is
    the interface the enrollment service relies on: its fields are the methods
    and its laws what the comments of the interface require of every
    implementation, and [MemoryRegistry] is an instance.

    The contexts the methods ignore are left out.  A token's identifier and the
    digests are byte lists, a [time.Time] is a number of nanoseconds. *)

From S2P Require Import Prelude GoStd GoEncoding.
From Stdlib Require Import Ascii.

(** ** Errors *)

(* src: internal/enroll/registry.go:13-13 ErrTokenNotFound *)
Definition ErrTokenNotFound : GoError :=
  SentinelError "ErrTokenNotFound" "enrollment token is unavailable".
(* src: internal/enroll/registry.go:14-14 ErrTokenEpochMismatch *)
Definition ErrTokenEpochMismatch : GoError :=
  PlainError "enrollment token controller epoch mismatch".
(* src: internal/enroll/registry.go:15-15 ErrControllerFingerprintMismatch *)
Definition ErrControllerFingerprintMismatch : GoError :=
  PlainError "controller fingerprint mismatch".
(* src: internal/enroll/registry.go:16-16 ErrTokenSecretMismatch *)
Definition ErrTokenSecretMismatch : GoError :=
  SentinelError "ErrTokenSecretMismatch" "enrollment token is unavailable".
(* src: internal/enroll/registry.go:17-17 ErrNodeExists *)
Definition ErrNodeExists : GoError := PlainError "node already exists".
(* src: internal/enroll/registry.go:18-18 ErrCredentialRejected *)
Definition ErrCredentialRejected : GoError := PlainError "node credential is not current".
(* src: internal/enroll/registry.go:19-19 ErrNodeNotFound *)
Definition ErrNodeNotFound : GoError := PlainError "node not found".

(** ** Records *)

(* src: internal/enroll/registry.go:24-28 TokenRecord *)
Record TokenRecord := mkToken {
  token_ID : bytes; token_SecretDigest : bytes; token_Epoch : Z }.

(* src: internal/enroll/registry.go:30-36 Credential *)
Record Credential := mkCredential {
  cred_NodeID : string; cred_Serial : string; cred_Epoch : Z;
  cred_NotBefore : Z; cred_NotAfter : Z }.

(* src: internal/enroll/registry.go:38-45 NodeRecord *)
Record NodeRecord := mkNodeRecord {
  nr_NodeID : string; nr_Credential : Credential; nr_Revoked : bool;
  nr_PublicKeyDigest : bytes; nr_CertificateDER : bytes; nr_CACertificateDER : bytes }.

#[export] Instance TokenRecord_eq_dec : EqDecision TokenRecord.
Proof. solve_decision. Defined.
#[export] Instance Credential_eq_dec : EqDecision Credential.
Proof. solve_decision. Defined.
#[export] Instance NodeRecord_eq_dec : EqDecision NodeRecord.
Proof. solve_decision. Defined.

(** The zero [NodeRecord], what Go reads at a key that is absent. *)
Definition zero_NodeRecord : NodeRecord :=
  mkNodeRecord "" (mkCredential "" "" 0 0 0) false (repeat Ascii.zero 32) [] [].
(** [node.Revoked = true; node.Credential.Epoch++] *)
Definition revoked (node : NodeRecord) : NodeRecord :=
  let c := nr_Credential node in
  mkNodeRecord (nr_NodeID node)
    (mkCredential (cred_NodeID c) (cred_Serial c) (wrap_uint64 (cred_Epoch c + 1))
      (cred_NotBefore c) (cred_NotAfter c))
    true (nr_PublicKeyDigest node) (nr_CertificateDER node) (nr_CACertificateDER node).
(** [node.Credential = c] *)
Definition with_credential (node : NodeRecord) (c : Credential) : NodeRecord :=
  mkNodeRecord (nr_NodeID node) c (nr_Revoked node) (nr_PublicKeyDigest node)
    (nr_CertificateDER node) (nr_CACertificateDER node).

(* src: internal/enroll/registry.go:235-237 sameCredential *)
Definition sameCredential (left right : Credential) : bool :=
  (cred_NodeID left == cred_NodeID right) && (cred_Serial left == cred_Serial right) &&
  (cred_Epoch left == cred_Epoch right) && (cred_NotBefore left == cred_NotBefore right) &&
  (cred_NotAfter left == cred_NotAfter right).

(* src: internal/enroll/registry.go:66-72 MemoryRegistry *)
Record MemoryRegistry := mkRegistry {
  tokens : gmap bytes TokenRecord;
  nodes : gmap string NodeRecord;
  consumed : gmap bytes TokenRecord;
  consumedNode : gmap bytes string }.

(* src: internal/enroll/registry.go:74-76 NewMemoryRegistry *)
Definition NewMemoryRegistry : MemoryRegistry := mkRegistry ∅ ∅ ∅ ∅.

(** ** Methods *)

(* src: internal/enroll/registry.go:78-86 MemoryRegistry.CreateToken *)
Definition CreateToken (registry : MemoryRegistry) (token : TokenRecord) : MemoryRegistry * error :=
  match tokens registry !! token_ID token with
  | Some _ => (registry, Some ErrTokenNotFound)
  | None =>
      (mkRegistry (<[token_ID token := token]> (tokens registry)) (nodes registry)
         (consumed registry) (consumedNode registry), None)
  end.

(* src: internal/enroll/registry.go:88-112 MemoryRegistry.ConsumeEnrollment *)
Definition ConsumeEnrollment (registry : MemoryRegistry) (supplied : TokenRecord) (node : NodeRecord)
    : MemoryRegistry * error :=
  match tokens registry !! token_ID supplied with
  | None => (registry, Some ErrTokenNotFound)
  | Some token =>
      if token_Epoch token != token_Epoch supplied then (registry, Some ErrTokenEpochMismatch)
      else if token_SecretDigest token != token_SecretDigest supplied
      then (registry, Some ErrTokenSecretMismatch)
      else match nodes registry !! nr_NodeID node with
      | Some _ => (registry, Some ErrNodeExists)
      | None =>
          if (cred_NodeID (nr_Credential node) != nr_NodeID node) ||
             (cred_Serial (nr_Credential node) == "") || (cred_Epoch (nr_Credential node) =? 0)
          then (registry, Some ErrCredentialRejected)
          else
            (mkRegistry (delete (token_ID supplied) (tokens registry))
               (<[nr_NodeID node := node]> (nodes registry))
               (<[token_ID supplied := supplied]> (consumed registry))
               (<[token_ID supplied := nr_NodeID node]> (consumedNode registry)), None)
      end
  end.

(* src: internal/enroll/registry.go:114-129 MemoryRegistry.ReplayEnrollment *)
Definition ReplayEnrollment (registry : MemoryRegistry) (supplied : TokenRecord) (csrDigest : bytes)
    : result NodeRecord :=
  match consumed registry !! token_ID supplied with
  | None => Err ErrTokenNotFound
  | Some token =>
      if token_SecretDigest token != token_SecretDigest supplied then Err ErrTokenNotFound
      else match nodes registry !! default "" (consumedNode registry !! token_ID supplied) with
      | Some node =>
          if (nr_PublicKeyDigest node == csrDigest) && negb (nr_Revoked node)
          then Ok node else Err ErrTokenNotFound
      | None => Err ErrTokenNotFound
      end
  end.

(** The loop deletes every token of the node from both maps. *)
(* src: internal/enroll/registry.go:131-145 MemoryRegistry.FinalizeEnrollment *)
Definition FinalizeEnrollment (registry : MemoryRegistry) (credential : Credential)
    : MemoryRegistry * error :=
  match nodes registry !! cred_NodeID credential with
  | None => (registry, Some ErrCredentialRejected)
  | Some node =>
      if nr_Revoked node || negb (sameCredential (nr_Credential node) credential)
      then (registry, Some ErrCredentialRejected)
      else
        let finished tokenID := consumedNode registry !! tokenID = Some (cred_NodeID credential) in
        (mkRegistry (tokens registry) (nodes registry)
           (filter (fun '(tokenID, _) => ~ finished tokenID) (consumed registry))
           (filter (fun '(tokenID, _) => ~ finished tokenID) (consumedNode registry)), None)
  end.

(* src: internal/enroll/registry.go:147-168 MemoryRegistry.CancelToken *)
Definition CancelToken (registry : MemoryRegistry) (tokenID : bytes) : MemoryRegistry * error :=
  match tokens registry !! tokenID with
  | Some _ =>
      (mkRegistry (delete tokenID (tokens registry)) (nodes registry) (consumed registry)
         (consumedNode registry), None)
  | None =>
      match consumedNode registry !! tokenID with
      | None => (registry, Some ErrTokenNotFound)
      | Some nodeID =>
          let node := default zero_NodeRecord (nodes registry !! nodeID) in
          if cred_Epoch (nr_Credential node) =? max_uint64
          then (registry, Some ErrCredentialRejected)
          else
            (mkRegistry (tokens registry) (<[nodeID := revoked node]> (nodes registry))
               (delete tokenID (consumed registry)) (delete tokenID (consumedNode registry)), None)
      end
  end.

(* src: internal/enroll/registry.go:170-178 MemoryRegistry.LookupNode *)
Definition LookupNode (registry : MemoryRegistry) (nodeID : string) : result NodeRecord :=
  match nodes registry !! nodeID with
  | None => Err ErrNodeNotFound
  | Some node => Ok node
  end.

(* src: internal/enroll/registry.go:180-189 MemoryRegistry.CurrentCredential *)
Definition CurrentCredential (registry : MemoryRegistry) (nodeID : string) : result Credential :=
  let! node := LookupNode registry nodeID ;;
  if nr_Revoked node then Err ErrCredentialRejected else Ok (nr_Credential node).

(* src: internal/enroll/registry.go:191-207 MemoryRegistry.RenewCredential *)
Definition RenewCredential (registry : MemoryRegistry) (nodeID : string)
    (expected replacement : Credential) (now : Z) : MemoryRegistry * error :=
  match nodes registry !! nodeID with
  | None => (registry, Some ErrNodeNotFound)
  | Some node =>
      if nr_Revoked node || negb (sameCredential (nr_Credential node) expected) ||
         Before now (cred_NotBefore expected) || negb (Before now (cred_NotAfter expected))
      then (registry, Some ErrCredentialRejected)
      else if (cred_NodeID replacement != nodeID) || (cred_Epoch replacement != cred_Epoch expected) ||
              (cred_Serial replacement == cred_Serial expected) ||
              negb (After (cred_NotAfter replacement) (cred_NotBefore replacement))
      then (registry, Some ErrCredentialRejected)
      else
        (mkRegistry (tokens registry) (<[nodeID := with_credential node replacement]> (nodes registry))
           (consumed registry) (consumedNode registry), None)
  end.

(* src: internal/enroll/registry.go:209-223 MemoryRegistry.RevokeNode *)
Definition RevokeNode (registry : MemoryRegistry) (nodeID : string)
    : MemoryRegistry * result Credential :=
  match nodes registry !! nodeID with
  | None => (registry, Err ErrNodeNotFound)
  | Some node =>
      if cred_Epoch (nr_Credential node) =? max_uint64 then (registry, Err ErrCredentialRejected)
      else
        (mkRegistry (tokens registry) (<[nodeID := revoked node]> (nodes registry))
           (consumed registry) (consumedNode registry), Ok (nr_Credential (revoked node)))
  end.

(* src: internal/enroll/registry.go:225-233 MemoryRegistry.AuthorizeCredential *)
Definition AuthorizeCredential (registry : MemoryRegistry) (credential : Credential) (now : Z) : error :=
  match nodes registry !! cred_NodeID credential with
  | None => Some ErrCredentialRejected
  | Some node =>
      if nr_Revoked node || negb (sameCredential (nr_Credential node) credential) ||
         Before now (cred_NotBefore credential) || negb (Before now (cred_NotAfter credential))
      then Some ErrCredentialRejected
      else None
  end.

(** ** Sequences of calls *)

(** The calls that can change a registry. *)
Inductive registry_call :=
  | CallCreateToken (token : TokenRecord)
  | CallConsumeEnrollment (supplied : TokenRecord) (node : NodeRecord)
  | CallFinalizeEnrollment (credential : Credential)
  | CallCancelToken (tokenID : bytes)
  | CallRenewCredential (nodeID : string) (expected replacement : Credential) (now : Z)
  | CallRevokeNode (nodeID : string).

Definition error_of {A} (r : result A) : error := match r with Ok _ => None | Err e => Some e end.

Definition run_call (registry : MemoryRegistry) (call : registry_call) : MemoryRegistry * error :=
  match call with
  | CallCreateToken token => CreateToken registry token
  | CallConsumeEnrollment supplied node => ConsumeEnrollment registry supplied node
  | CallFinalizeEnrollment credential => FinalizeEnrollment registry credential
  | CallCancelToken tokenID => CancelToken registry tokenID
  | CallRenewCredential nodeID expected replacement now =>
      RenewCredential registry nodeID expected replacement now
  | CallRevokeNode nodeID =>
      let '(registry', r) := RevokeNode registry nodeID in (registry', error_of r)
  end.
Definition run_calls (registry : MemoryRegistry) (calls : list registry_call) : MemoryRegistry :=
  foldl (fun registry call => (run_call registry call).1) registry calls.

(** The calls of a sequence that succeed. *)
Fixpoint successes (registry : MemoryRegistry) (calls : list registry_call) : list registry_call :=
  match calls with
  | [] => []
  | call :: rest =>
      let '(registry', err) := run_call registry call in
      match err with None => [call] | Some _ => [] end ++ successes registry' rest
  end.

(** A call that fails changes nothing. *)
Lemma failed_call_unchanged registry call e :
  (run_call registry call).2 = Some e -> (run_call registry call).1 = registry.
Proof.
  destruct call; simpl; unfold CreateToken, ConsumeEnrollment, FinalizeEnrollment, CancelToken,
    RenewCredential, RevokeNode; repeat case_match; simplify_eq/=; done.
Qed.

Lemma call_failed registry call registry' e :
  run_call registry call = (registry', Some e) -> registry' = registry.
Proof.
  intros H. pose proof (failed_call_unchanged registry call e) as Hf. rewrite H in Hf. by apply Hf.
Qed.

(** What each method that succeeds has checked and done. *)
Lemma CreateToken_None registry token registry' :
  CreateToken registry token = (registry', None) ->
  tokens registry !! token_ID token = None /\
  registry' = mkRegistry (<[token_ID token := token]> (tokens registry)) (nodes registry)
    (consumed registry) (consumedNode registry).
Proof. unfold CreateToken. destruct (_ !! _); by intros [= <-]. Qed.

Lemma ConsumeEnrollment_None registry supplied node registry' :
  ConsumeEnrollment registry supplied node = (registry', None) ->
  (exists token, tokens registry !! token_ID supplied = Some token /\
    token_Epoch token = token_Epoch supplied /\
    token_SecretDigest token = token_SecretDigest supplied) /\
  nodes registry !! nr_NodeID node = None /\
  (cred_NodeID (nr_Credential node) = nr_NodeID node /\ cred_Serial (nr_Credential node) <> "" /\
   cred_Epoch (nr_Credential node) <> 0) /\
  registry' = mkRegistry (delete (token_ID supplied) (tokens registry))
    (<[nr_NodeID node := node]> (nodes registry))
    (<[token_ID supplied := supplied]> (consumed registry))
    (<[token_ID supplied := nr_NodeID node]> (consumedNode registry)).
Proof.
  unfold ConsumeEnrollment. intros H. repeat case_match; simplify_eq/=. conditions.
  rewrite Z.eqb_neq in *. naive_solver.
Qed.

Lemma RenewCredential_None registry nodeID expected replacement now registry' :
  RenewCredential registry nodeID expected replacement now = (registry', None) ->
  exists node, nodes registry !! nodeID = Some node /\ nr_Revoked node = false /\
    sameCredential (nr_Credential node) expected = true /\
    cred_NotBefore expected <= now < cred_NotAfter expected /\
    (cred_NodeID replacement = nodeID /\ cred_Epoch replacement = cred_Epoch expected /\
     cred_Serial replacement <> cred_Serial expected /\
     cred_NotBefore replacement < cred_NotAfter replacement) /\
    registry' = mkRegistry (tokens registry)
      (<[nodeID := with_credential node replacement]> (nodes registry))
      (consumed registry) (consumedNode registry).
Proof.
  unfold RenewCredential, Before, After. intros H. repeat case_match; simplify_eq/=.
  conditions. naive_solver.
Qed.

Lemma RevokeNode_Ok registry nodeID registry' c :
  RevokeNode registry nodeID = (registry', Ok c) ->
  exists node, nodes registry !! nodeID = Some node /\
    cred_Epoch (nr_Credential node) <> max_uint64 /\ c = nr_Credential (revoked node) /\
    registry' = mkRegistry (tokens registry) (<[nodeID := revoked node]> (nodes registry))
      (consumed registry) (consumedNode registry).
Proof.
  unfold RevokeNode. intros H. repeat case_match; simplify_eq/=. rewrite Z.eqb_neq in *. eauto.
Qed.

Lemma CancelToken_None registry tokenID registry' :
  CancelToken registry tokenID = (registry', None) ->
  registry' = mkRegistry (delete tokenID (tokens registry)) (nodes registry) (consumed registry)
    (consumedNode registry) \/
  exists nodeID, consumedNode registry !! tokenID = Some nodeID /\
    tokens registry !! tokenID = None /\
    let node := default zero_NodeRecord (nodes registry !! nodeID) in
    cred_Epoch (nr_Credential node) <> max_uint64 /\
    registry' = mkRegistry (tokens registry) (<[nodeID := revoked node]> (nodes registry))
      (delete tokenID (consumed registry)) (delete tokenID (consumedNode registry)).
Proof.
  unfold CancelToken. intros H. repeat case_match; simplify_eq/=; [by left|].
  rewrite Z.eqb_neq in *. right. eauto 10.
Qed.

Lemma FinalizeEnrollment_None registry credential registry' :
  FinalizeEnrollment registry credential = (registry', None) ->
  (exists node, nodes registry !! cred_NodeID credential = Some node /\ nr_Revoked node = false /\
    sameCredential (nr_Credential node) credential = true) /\
  tokens registry' = tokens registry /\ nodes registry' = nodes registry /\
  (forall tokenID, consumedNode registry !! tokenID = Some (cred_NodeID credential) ->
     consumed registry' !! tokenID = None /\ consumedNode registry' !! tokenID = None) /\
  (forall tokenID, consumedNode registry !! tokenID <> Some (cred_NodeID credential) ->
     consumed registry' !! tokenID = consumed registry !! tokenID /\
     consumedNode registry' !! tokenID = consumedNode registry !! tokenID).
Proof.
  unfold FinalizeEnrollment. intros H. repeat case_match; simplify_eq/=. conditions.
  split_and!; [naive_solver|done|done|..]; intros tokenID Ht; split.
  - apply map_lookup_filter_None. right. naive_solver.
  - apply map_lookup_filter_None. right. naive_solver.
  - apply option_eq. intros ?. rewrite map_lookup_filter_Some. naive_solver.
  - apply option_eq. intros ?. rewrite map_lookup_filter_Some. naive_solver.
Qed.

Lemma sameCredential_eq a b : sameCredential a b = true <-> a = b.
Proof.
  unfold sameCredential. split; [|intros ->; conditions; done].
  intros H. conditions. destruct a, b; simpl in *. naive_solver.
Qed.

(** A credential is authorized exactly when it is the current one of a node that
    is not revoked, within its validity. *)
Lemma AuthorizeCredential_None registry credential now :
  AuthorizeCredential registry credential now = None <->
  exists node, nodes registry !! cred_NodeID credential = Some node /\ nr_Revoked node = false /\
    nr_Credential node = credential /\ cred_NotBefore credential <= now < cred_NotAfter credential.
Proof.
  unfold AuthorizeCredential, Before. destruct (nodes registry !! _) as [node|]; [|naive_solver].
  destruct (_ || _ || _ || _) eqn:E; conditions.
  - split; [done|]. intros (? & [= <-] & Hr & Hc & Ht).
    pose proof (proj2 (sameCredential_eq _ _) Hc). destruct E as [[[E|E]|E]|E]; try congruence; lia.
  - destruct E as [[[E1 E2] E3] E4]. rewrite sameCredential_eq in E2. naive_solver.
Qed.

(** ** What every sequence of calls keeps *)

(** The maps agree: a consumed token names an enrolled node, and every node is
    stored under its own name with a credential of its own. *)
Record registry_ok (registry : MemoryRegistry) : Prop := {
  ok_tokens tokenID token : tokens registry !! tokenID = Some token -> token_ID token = tokenID;
  ok_nodes nodeID node : nodes registry !! nodeID = Some node ->
    nr_NodeID node = nodeID /\ cred_NodeID (nr_Credential node) = nodeID /\
    0 < cred_Epoch (nr_Credential node) <= max_uint64;
  ok_consumed tokenID : is_Some (consumed registry !! tokenID) <-> is_Some (consumedNode registry !! tokenID);
  ok_consumed_id tokenID token : consumed registry !! tokenID = Some token -> token_ID token = tokenID;
  ok_consumed_node tokenID nodeID : consumedNode registry !! tokenID = Some nodeID ->
    is_Some (nodes registry !! nodeID) }.

(** Epochs are [uint64] values. *)
Definition call_typed (call : registry_call) : Prop :=
  match call with
  | CallConsumeEnrollment _ node => 0 <= cred_Epoch (nr_Credential node) <= max_uint64
  | _ => True
  end.

Lemma new_registry_ok : registry_ok NewMemoryRegistry.
Proof. split; simpl; intros *; rewrite ?lookup_empty; try done; by rewrite !is_Some_alt. Qed.

Lemma revoked_epoch node :
  0 < cred_Epoch (nr_Credential node) <= max_uint64 ->
  cred_Epoch (nr_Credential node) <> max_uint64 ->
  cred_Epoch (nr_Credential (revoked node)) = cred_Epoch (nr_Credential node) + 1.
Proof. intros. simpl. apply wrap_uint64_small. lia. Qed.

(** How a call that succeeds changes the node of a name: it keeps it, revokes
    it, renews it, or enrolls it. *)
Inductive node_change (nodeID : string) : option NodeRecord -> option NodeRecord -> Prop :=
  | NodeKept o : node_change nodeID o o
  | NodeRevoked node : cred_Epoch (nr_Credential node) <> max_uint64 ->
      node_change nodeID (Some node) (Some (revoked node))
  | NodeRenewed node c : nr_Revoked node = false -> cred_NodeID c = nodeID ->
      cred_Epoch c = cred_Epoch (nr_Credential node) ->
      cred_Serial c <> cred_Serial (nr_Credential node) ->
      node_change nodeID (Some node) (Some (with_credential node c))
  | NodeEnrolled node : nr_NodeID node = nodeID -> cred_NodeID (nr_Credential node) = nodeID ->
      0 < cred_Epoch (nr_Credential node) <= max_uint64 -> node_change nodeID None (Some node).

Lemma call_node_change registry call registry' :
  registry_ok registry -> call_typed call -> run_call registry call = (registry', None) ->
  forall nodeID, node_change nodeID (nodes registry !! nodeID) (nodes registry' !! nodeID).
Proof.
  intros Hok Hty Hrun nodeID. destruct call as [token|supplied node|c|tokenID|n expected c now|n]; simpl in Hrun.
  - apply CreateToken_None in Hrun as [_ ->]. constructor.
  - apply ConsumeEnrollment_None in Hrun as (_ & Hnew & (H1 & _ & H2) & ->). simpl.
    rewrite lookup_insert. case_decide as E; [|constructor]. subst. rewrite Hnew. simpl in Hty.
    constructor; done || lia.
  - apply FinalizeEnrollment_None in Hrun as (_ & _ & -> & _). constructor.
  - apply CancelToken_None in Hrun as [->|(n & Hn & _ & He & ->)]; [constructor|]. simpl.
    rewrite lookup_insert. case_decide as E; [|constructor]. subst.
    destruct (ok_consumed_node _ Hok _ _ Hn) as [node Hnode]. rewrite Hnode in *. by constructor.
  - apply RenewCredential_None in Hrun as (node & Hn & Hr & Hs & _ & (H1 & H2 & H3 & _) & ->).
    simpl. rewrite lookup_insert. case_decide as E; [|constructor]. subst. rewrite Hn.
    apply sameCredential_eq in Hs as <-. by constructor.
  - destruct (RevokeNode registry n) as [r' [c|]] eqn:E; [|done]. simplify_eq/=.
    apply RevokeNode_Ok in E as (node & Hn & He & _ & ->). simpl.
    rewrite lookup_insert. case_decide; [|constructor]. subst. rewrite Hn. by constructor.
Qed.

Lemma node_change_is_Some nodeID o o' : node_change nodeID o o' -> is_Some o -> is_Some o'.
Proof. inv 1; eauto. Qed.

(** The nodes of a changed registry are well formed. *)
Lemma call_nodes_ok registry call registry' nodeID node :
  registry_ok registry -> call_typed call -> run_call registry call = (registry', None) ->
  nodes registry' !! nodeID = Some node ->
  nr_NodeID node = nodeID /\ cred_NodeID (nr_Credential node) = nodeID /\
  0 < cred_Epoch (nr_Credential node) <= max_uint64.
Proof.
  intros Hok Hty Hrun Hnode. pose proof (call_node_change _ _ _ Hok Hty Hrun nodeID) as Hc.
  rewrite Hnode in Hc. destruct (nodes registry !! nodeID) as [n|] eqn:Ho; inv Hc; try done.
  - by apply (ok_nodes _ Hok).
  - destruct (ok_nodes _ Hok _ _ Ho) as (E1 & E2 & E3).
    pose proof (revoked_epoch n E3). simpl in *. split_and!; done || lia.
  - destruct (ok_nodes _ Hok _ _ Ho) as (E1 & E2 & E3). simpl. split_and!; done || lia.
Qed.

(** Every call keeps the maps consistent. *)
Lemma run_call_ok registry call :
  registry_ok registry -> call_typed call -> registry_ok (run_call registry call).1.
Proof.
  intros Hok Hty. destruct (run_call registry call) as [registry' [e|]] eqn:Hrun.
  { pose proof (failed_call_unchanged registry call e) as Hf. rewrite Hrun in *.
    simpl in *. by rewrite Hf. }
  simpl. pose proof (call_node_change _ _ _ Hok Hty Hrun) as Hchange.
  pose proof (fun nodeID node => call_nodes_ok _ _ _ nodeID node Hok Hty Hrun) as Hnodes.
  assert (Hkeep : forall nodeID, is_Some (nodes registry !! nodeID) -> is_Some (nodes registry' !! nodeID))
    by (intros nodeID; eapply node_change_is_Some, Hchange).
  clear Hty Hchange. destruct Hok as [H1 _ H3 H4 H5].
  destruct call as [token|supplied node|c|tokenID|n expected c now|n]; simpl in Hrun.
  - apply CreateToken_None in Hrun as [_ ->]. split; simpl in *; try done. intros tokenID t.
    rewrite lookup_insert. case_decide; naive_solver.
  - apply ConsumeEnrollment_None in Hrun as (_ & Hnew & _ & ->). split; simpl in *; try done.
    + intros tokenID t [_ Ht]%lookup_delete_Some. eauto.
    + intros tokenID. rewrite !lookup_insert. case_decide; [|done]. by split; eauto.
    + intros tokenID t. rewrite lookup_insert. case_decide; naive_solver.
    + intros tokenID nodeID. rewrite lookup_insert. case_decide; [|eauto].
      intros [= <-]. rewrite lookup_insert_eq. eauto.
  - apply FinalizeEnrollment_None in Hrun as (_ & Et & En & Hf & Hk). split; try done; rewrite ?Et, ?En; try done.
    + intros tokenID. destruct (decide (consumedNode registry !! tokenID = Some (cred_NodeID c))) as [E|E].
      * destruct (Hf _ E) as [-> ->]. by rewrite !is_Some_alt.
      * by destruct (Hk _ E) as [-> ->].
    + intros tokenID t Ht. destruct (decide (consumedNode registry !! tokenID = Some (cred_NodeID c))) as [E|E].
      * destruct (Hf _ E) as [E2 _]. congruence.
      * destruct (Hk _ E) as [E2 _]. rewrite E2 in Ht. eauto.
    + intros tokenID m Hm. destruct (decide (consumedNode registry !! tokenID = Some (cred_NodeID c))) as [E|E].
      * destruct (Hf _ E) as [_ E2]. congruence.
      * destruct (Hk _ E) as [_ E2]. rewrite E2 in Hm. eauto.
  - apply CancelToken_None in Hrun as [->|(m & Hm & _ & _ & ->)]; split; simpl in *; try done.
    + intros k t [_ Ht]%lookup_delete_Some. eauto.
    + intros k. rewrite !lookup_delete. by case_decide; [rewrite !is_Some_alt|].
    + intros k t [_ Ht]%lookup_delete_Some. eauto.
    + intros k m' [_ Ht]%lookup_delete_Some. eauto.
  - apply RenewCredential_None in Hrun as (m & Hm & _ & _ & _ & _ & ->). split; simpl in *; try done. eauto.
  - destruct (RevokeNode registry n) as [r' [c|]] eqn:E; simplify_eq/=.
    apply RevokeNode_Ok in E as (m & Hm & _ & _ & ->). split; simpl in *; try done. eauto.
Qed.

Lemma run_calls_ok registry calls :
  registry_ok registry -> Forall call_typed calls -> registry_ok (run_calls registry calls).
Proof.
  intros Hok Hty. revert registry Hok. induction Hty as [|call calls Hc _ IH]; intros registry Hok; [done|].
  apply IH. by apply run_call_ok.
Qed.

(** What a node keeps: it stays enrolled, a revocation stays, and its epoch only
    grows, strictly when it is revoked. *)
Definition node_progress (node node' : NodeRecord) : Prop :=
  nr_PublicKeyDigest node' = nr_PublicKeyDigest node /\
  (nr_Revoked node = true -> nr_Revoked node' = true) /\
  cred_Epoch (nr_Credential node) <= cred_Epoch (nr_Credential node') /\
  (nr_Revoked node = false -> nr_Revoked node' = true ->
   cred_Epoch (nr_Credential node) < cred_Epoch (nr_Credential node')).

#[export] Instance node_progress_preorder : PreOrder node_progress.
Proof.
  split; [intros n; unfold node_progress; split_and!; done || congruence || lia|].
  intros a b c (A1 & A2 & A3 & A4) (B1 & B2 & B3 & B4). unfold node_progress.
  destruct (nr_Revoked a), (nr_Revoked b), (nr_Revoked c);
    repeat match goal with H : ?x = ?x -> _ |- _ => specialize (H eq_refl) end;
    split_and!; intros; congruence || lia.
Qed.

Lemma call_progress registry call nodeID node :
  registry_ok registry -> call_typed call -> nodes registry !! nodeID = Some node ->
  exists node', nodes (run_call registry call).1 !! nodeID = Some node' /\ node_progress node node'.
Proof.
  intros Hok Hty Hn. destruct (run_call registry call) as [registry' [e|]] eqn:Hrun.
  { pose proof (failed_call_unchanged registry call e) as Hf. rewrite Hrun in *. simpl in *.
    rewrite Hf by done. by exists node. }
  pose proof (call_node_change _ _ _ Hok Hty Hrun nodeID) as Hc. simpl. rewrite Hn in Hc.
  destruct (ok_nodes _ Hok _ _ Hn) as (_ & _ & He).
  inv Hc as [|n Hmax|n c Hr Hid Hep Hs|]; eexists; (split; [done|]).
  - done.
  - pose proof (revoked_epoch node He Hmax) as E. unfold node_progress. rewrite E. simpl.
    split_and!; done || lia.
  - unfold node_progress. simpl. split_and!; done || lia || congruence.
Qed.

Lemma calls_progress registry calls nodeID node :
  registry_ok registry -> Forall call_typed calls -> nodes registry !! nodeID = Some node ->
  exists node', nodes (run_calls registry calls) !! nodeID = Some node' /\ node_progress node node'.
Proof.
  intros Hok Hty. revert registry node Hok.
  induction Hty as [|call calls Hc Hcs IH]; intros registry node Hok Hn; [by exists node|].
  destruct (call_progress registry call nodeID node) as (n1 & Hn1 & Hp1); [done..|].
  destruct (IH _ n1 (run_call_ok _ _ Hok Hc) Hn1) as (n2 & Hn2 & Hp2). exists n2. split; [done|].
  by etransitivity.
Qed.

(** A revoked node is refused by every method. *)
Lemma revoked_refused registry nodeID node :
  registry_ok registry -> nodes registry !! nodeID = Some node -> nr_Revoked node = true ->
  CurrentCredential registry nodeID = Err ErrCredentialRejected /\
  (forall c now, cred_NodeID c = nodeID -> AuthorizeCredential registry c now = Some ErrCredentialRejected) /\
  (forall token digest n, ReplayEnrollment registry token digest = Ok n -> nr_NodeID n <> nodeID) /\
  (forall c1 c2 now, (RenewCredential registry nodeID c1 c2 now).2 = Some ErrCredentialRejected) /\
  (forall supplied n, nr_NodeID n = nodeID -> (ConsumeEnrollment registry supplied n).2 <> None).
Proof.
  intros Hok Hn Hr. split_and!.
  - unfold CurrentCredential, LookupNode. by rewrite Hn, Hr.
  - intros c now <-. unfold AuthorizeCredential. by rewrite Hn, Hr.
  - unfold ReplayEnrollment. intros token digest n. repeat case_match; try done. intros [= ->] <-.
    match goal with H : nodes _ !! default _ _ = Some n |- _ =>
      pose proof (ok_nodes _ Hok _ _ H) as (E & _); rewrite <- E in H end.
    conditions. naive_solver congruence.
  - intros c1 c2 now. unfold RenewCredential. by rewrite Hn, Hr.
  - intros supplied n <-. destruct (ConsumeEnrollment registry supplied n) as [r' [e|]] eqn:E; [done|].
    apply ConsumeEnrollment_None in E as (_ & E & _). congruence.
Qed.

(** ** Tokens are spent once *)

Definition creates_token (tokenID : bytes) (call : registry_call) : bool :=
  match call with CallCreateToken token => token_ID token == tokenID | _ => false end.
Definition consumes_token (tokenID : bytes) (call : registry_call) : bool :=
  match call with CallConsumeEnrollment supplied _ => token_ID supplied == tokenID | _ => false end.
(** The successful calls of a sequence that satisfy [p]. *)
Definition count_calls (p : registry_call -> bool) (registry : MemoryRegistry)
    (calls : list registry_call) : nat :=
  length (filter (fun call => p call = true) (successes registry calls)).

(** One if the token can still be consumed. *)
Definition pending (registry : MemoryRegistry) (tokenID : bytes) : nat :=
  match tokens registry !! tokenID with Some _ => 1 | None => 0 end.

(** A successful call moves a token from pending to consumed, or makes it
    pending. *)
Lemma pending_step registry call registry' tokenID :
  run_call registry call = (registry', None) ->
  (pending registry' tokenID + (if consumes_token tokenID call then 1 else 0) <=
   pending registry tokenID + (if creates_token tokenID call then 1 else 0))%nat.
Proof.
  intros Hrun. unfold pending.
  destruct call as [token|supplied node|c|t|n expected c now|n]; simpl in *.
  - apply CreateToken_None in Hrun as [Hnew ->]. simpl. rewrite lookup_insert.
    case_decide as E; case_bool_decide; subst; rewrite ?Hnew; try done; lia.
  - apply ConsumeEnrollment_None in Hrun as ((token & Ht & _) & _ & _ & ->). simpl.
    rewrite lookup_delete. case_decide as E; case_bool_decide; subst; rewrite ?Ht; try done; lia.
  - apply FinalizeEnrollment_None in Hrun as (_ & -> & _). lia.
  - apply CancelToken_None in Hrun as [->|(m & _ & _ & _ & ->)]; simpl; [|lia].
    rewrite lookup_delete. case_decide; [|lia]. lia.
  - apply RenewCredential_None in Hrun as (m & _ & _ & _ & _ & _ & ->). simpl. lia.
  - destruct (RevokeNode registry n) as [r' [c|]] eqn:E; simplify_eq/=.
    apply RevokeNode_Ok in E as (m & _ & _ & _ & ->). simpl. lia.
Qed.

Lemma consumed_at_most_created registry calls tokenID :
  (count_calls (consumes_token tokenID) registry calls <=
   count_calls (creates_token tokenID) registry calls + pending registry tokenID)%nat.
Proof.
  unfold count_calls. revert registry. induction calls as [|call calls IH]; intros registry; simpl; [lia|].
  destruct (run_call registry call) as [registry' [e|]] eqn:Hrun.
  - pose proof (failed_call_unchanged registry call e) as Hf. rewrite Hrun in Hf. simpl in *.
    rewrite Hf by done. apply IH.
  - pose proof (pending_step _ _ _ tokenID Hrun). specialize (IH registry').
    rewrite !filter_app, !length_app, !filter_cons, !filter_nil.
    destruct (consumes_token tokenID call), (creates_token tokenID call); simpl; lia.
Qed.

(** A pending token was created by a call of the sequence, or was pending before. *)
Lemma call_tokens registry call registry' tokenID token :
  run_call registry call = (registry', None) -> tokens registry' !! tokenID = Some token ->
  tokens registry !! tokenID = Some token \/ call = CallCreateToken token /\ token_ID token = tokenID.
Proof.
  intros Hrun Ht. destruct call as [t|supplied node|c|t|n expected c now|n]; simpl in Hrun.
  - apply CreateToken_None in Hrun as [_ ->]. simpl in Ht. rewrite lookup_insert in Ht.
    case_decide; [|by left]. simplify_eq. by right.
  - apply ConsumeEnrollment_None in Hrun as (_ & _ & _ & ->). simpl in Ht.
    apply lookup_delete_Some in Ht as [_ Ht]. by left.
  - apply FinalizeEnrollment_None in Hrun as (_ & E & _). rewrite E in Ht. by left.
  - apply CancelToken_None in Hrun as [->|(m & _ & _ & _ & ->)]; simpl in Ht; [|by left].
    apply lookup_delete_Some in Ht as [_ Ht]. by left.
  - apply RenewCredential_None in Hrun as (m & _ & _ & _ & _ & _ & ->). by left.
  - destruct (RevokeNode registry n) as [r' [c|]] eqn:E; simplify_eq/=.
    apply RevokeNode_Ok in E as (m & _ & _ & _ & ->). by left.
Qed.

Lemma pending_created registry calls tokenID token :
  tokens (run_calls registry calls) !! tokenID = Some token ->
  tokens registry !! tokenID = Some token \/
  CallCreateToken token ∈ successes registry calls /\ token_ID token = tokenID.
Proof.
  revert registry. induction calls as [|call calls IH]; intros registry Ht; [by left|].
  cbn [run_calls foldl successes] in *. destruct (run_call registry call) as [registry' [e|]] eqn:Hrun.
  - apply call_failed in Hrun as ->. by apply IH.
  - simpl in Ht. destruct (IH registry' Ht) as [Hb|[Hin Hid]].
    + destruct (call_tokens _ _ _ _ _ Hrun Hb) as [|[-> Hid]]; [by left|]. right. set_solver.
    + right. set_solver.
Qed.

(** ** The interface of the service *)

(* src: internal/enroll/registry.go:51-62 Registry *)
Class Registry (St : Type) := {
  reg_CreateToken : St -> TokenRecord -> St * error;
  reg_ConsumeEnrollment : St -> TokenRecord -> NodeRecord -> St * error;
  reg_ReplayEnrollment : St -> TokenRecord -> bytes -> result NodeRecord;
  reg_FinalizeEnrollment : St -> Credential -> St * error;
  reg_CancelToken : St -> bytes -> St * error;
  reg_LookupNode : St -> string -> result NodeRecord;
  reg_CurrentCredential : St -> string -> result Credential;
  reg_RenewCredential : St -> string -> Credential -> Credential -> Z -> St * error;
  reg_RevokeNode : St -> string -> St * result Credential;
  reg_AuthorizeCredential : St -> Credential -> Z -> error }.

(** What every implementation owes the service, in the states [reg_ok] it can be
    in.  Consumption and renewal are single transactions: a failure changes
    nothing, a consumed token comes with its node and credential and cannot be
    consumed again, and a new credential replaces the former one. *)
Class RegistryLaws (St : Type) `{!Registry St} := {
  reg_ok : St -> Prop;
  (** The limits of an implementation: what else it needs of a token it holds and of a
      new node. *)
  reg_admits : St -> TokenRecord -> NodeRecord -> Prop;
  law_create_failed s token s' e :
    reg_CreateToken s token = (s', Some e) -> s' = s;
  law_consume_failed s token node s' e :
    reg_ConsumeEnrollment s token node = (s', Some e) -> s' = s;
  law_renew_failed s nodeID c c' now s' e :
    reg_RenewCredential s nodeID c c' now = (s', Some e) -> s' = s;
  law_create_ok s token : reg_ok s -> reg_ok (reg_CreateToken s token).1;
  law_consume_ok s token node :
    reg_ok s -> 0 <= cred_Epoch (nr_Credential node) <= max_uint64 ->
    reg_ok (reg_ConsumeEnrollment s token node).1;
  law_renew_ok s nodeID c c' now : reg_ok s -> reg_ok (reg_RenewCredential s nodeID c c' now).1;
  (** A created token is consumed by a new node that knows its secret. *)
  law_created s token s' node :
    reg_ok s -> reg_CreateToken s token = (s', None) ->
    reg_LookupNode s (nr_NodeID node) = Err ErrNodeNotFound ->
    cred_NodeID (nr_Credential node) = nr_NodeID node ->
    cred_Serial (nr_Credential node) <> "" -> 0 < cred_Epoch (nr_Credential node) ->
    reg_admits s' token node ->
    exists s'', reg_ConsumeEnrollment s' token node = (s'', None);
  law_consumed s token node s' :
    reg_ok s -> reg_ConsumeEnrollment s token node = (s', None) -> nr_Revoked node = false ->
    reg_ReplayEnrollment s' token (nr_PublicKeyDigest node) = Ok node /\
    reg_CurrentCredential s' (nr_NodeID node) = Ok (nr_Credential node) /\
    forall token' node', token_ID token' = token_ID token ->
      exists e, reg_ConsumeEnrollment s' token' node' = (s', Some e);
  (** Replays look at the identity and the secret of a token only, and return a
      node with the key of the request. *)
  law_replay_epoch s token epoch digest :
    token_Epoch token <> 0 -> epoch <> 0 ->
    reg_ReplayEnrollment s (mkToken (token_ID token) (token_SecretDigest token) epoch) digest =
    reg_ReplayEnrollment s token digest;
  law_replayed s token digest node :
    reg_ReplayEnrollment s token digest = Ok node ->
    nr_PublicKeyDigest node = digest /\ nr_Revoked node = false;
  law_renewed s nodeID c c' now s' :
    reg_ok s -> reg_RenewCredential s nodeID c c' now = (s', None) ->
    reg_CurrentCredential s nodeID = Ok c /\ reg_CurrentCredential s' nodeID = Ok c' /\
    cred_NodeID c' = nodeID /\ cred_Epoch c' = cred_Epoch c /\ cred_Serial c' <> cred_Serial c;
  (** A credential is authorized exactly when it is current and valid. *)
  law_authorized s c now :
    reg_ok s ->
    reg_AuthorizeCredential s c now = None <->
    reg_CurrentCredential s (cred_NodeID c) = Ok c /\ cred_NotBefore c <= now < cred_NotAfter c }.

#[export] Instance memory_registry : Registry MemoryRegistry := {
  reg_CreateToken := CreateToken;
  reg_ConsumeEnrollment := ConsumeEnrollment;
  reg_ReplayEnrollment := ReplayEnrollment;
  reg_FinalizeEnrollment := FinalizeEnrollment;
  reg_CancelToken := CancelToken;
  reg_LookupNode := LookupNode;
  reg_CurrentCredential := CurrentCredential;
  reg_RenewCredential := RenewCredential;
  reg_RevokeNode := RevokeNode;
  reg_AuthorizeCredential := AuthorizeCredential }.

Lemma CurrentCredential_Ok registry nodeID c :
  CurrentCredential registry nodeID = Ok c <->
  exists node, nodes registry !! nodeID = Some node /\ nr_Revoked node = false /\ nr_Credential node = c.
Proof.
  unfold CurrentCredential, LookupNode. destruct (nodes registry !! nodeID) as [node|]; [|naive_solver].
  destruct (nr_Revoked node) eqn:E; split; try (intros (? & [= <-] & ? & ?); congruence);
    intros [= <-]; eauto.
Qed.

#[export] Program Instance memory_registry_laws : RegistryLaws MemoryRegistry :=
  { reg_ok := registry_ok; reg_admits _ _ _ := True }.
Next Obligation. intros s token s' e. apply (call_failed s (CallCreateToken token)). Qed.
Next Obligation. intros s token node s' e. apply (call_failed s (CallConsumeEnrollment token node)). Qed.
Next Obligation. intros s n c c' now s' e. apply (call_failed s (CallRenewCredential n c c' now)). Qed.
Next Obligation. intros s token Hok. by apply (run_call_ok s (CallCreateToken token)). Qed.
Next Obligation. intros s token node Hok. by apply (run_call_ok s (CallConsumeEnrollment token node)). Qed.
Next Obligation. intros s n c c' now Hok. by apply (run_call_ok s (CallRenewCredential n c c' now)). Qed.
Next Obligation.
  intros s token s' node Hok [Hnew ->]%CreateToken_None Hnode Hid Hser Hep _.
  change (LookupNode s (nr_NodeID node) = Err ErrNodeNotFound) in Hnode. unfold LookupNode in Hnode.
  destruct (nodes s !! nr_NodeID node) eqn:En; [done|]. simpl. unfold ConsumeEnrollment. simpl.
  rewrite lookup_insert_eq, En.
  rewrite !(bool_decide_eq_true_2 (_ = _)) by done.
  rewrite (bool_decide_eq_false_2 (cred_Serial _ = _)), (proj2 (Z.eqb_neq _ _)) by (done || lia).
  simpl. eauto.
Qed.
Next Obligation.
  intros s token node s' Hok (_ & Hn & (H1 & _ & _) & ->)%ConsumeEnrollment_None Hr. simpl. split_and!.
  - unfold ReplayEnrollment. cbn [tokens nodes consumed consumedNode]. rewrite !lookup_insert_eq.
    rewrite Hr. by rewrite !bool_decide_eq_true_2.
  - apply CurrentCredential_Ok. simpl. rewrite lookup_insert_eq. eauto.
  - intros token' node' E. unfold ConsumeEnrollment. rewrite E. simpl. rewrite lookup_delete_eq. eauto.
Qed.
Next Obligation. done. Qed.
Next Obligation.
  intros s token digest node. simpl. unfold ReplayEnrollment. repeat case_match; try done.
  intros [= ->]. conditions. done.
Qed.
Next Obligation.
  intros s nodeID c c' now s' Hok (node & Hn & Hr & Hs & _ & (H1 & H2 & H3 & _) & ->)%RenewCredential_None.
  apply sameCredential_eq in Hs. simpl. rewrite !CurrentCredential_Ok. simpl. rewrite lookup_insert_eq.
  split_and!; eauto.
Qed.
Next Obligation.
  intros s c now Hok. simpl. rewrite AuthorizeCredential_None, CurrentCredential_Ok. naive_solver.
Qed.
