(* ===== verification/EnrollPKI.v ===== *)
(** * Node certificates

    internal/enroll/pki.go: the Controller's identity, the certificates it issues
    to nodes and the identity a node certificate proves.  Certificates, keys,
    signatures, hashes and ASN.1 belong to Go's standard library and are
    parameters ([X509]); what the theorems need of them is stated as the laws
    [X509Laws].  The random numbers are modelled down to the bytes a reader
    delivers ([rand_Int]).  Saving and loading the private material goes through
    the platform's credential store and is not modelled. *)

From S2P Require Import Prelude GoStd GoEncoding JoinCode.
From Stdlib Require Import Ascii.

(** ** Numbers *)

(** [new(big.Int).SetBytes(b)]. *)
Definition big_SetBytes (b : bytes) : Z := foldl (fun n c => n * 256 + byte_val c) 0 b.
(** [n.BitLen()] of a number that is not negative. *)
Definition big_BitLen (n : Z) : Z := if n =? 0 then 0 else Z.log2 n + 1.

(** [n.Text(16)]. *)
Fixpoint text16_digits (fuel : nat) (n : Z) (suffix : bytes) : bytes :=
  match fuel with
  | O => suffix
  | S fuel' =>
      let suffix := hex_digit (Z.land n 15) :: suffix in
      if n <? 16 then suffix else text16_digits fuel' (Z.shiftr n 4) suffix
  end.
(** A number has at most as many digits as bits. *)
Definition big_Text16 (n : Z) : string :=
  let digits := string_of (text16_digits (Z.to_nat (big_BitLen (Z.abs n)) + 1) (Z.abs n) []) in
  if n <? 0 then String.append "-" digits else digits.

Example big_Text16_examples :
  map big_Text16 [0; 15; 16; 255; -4096; 170141183460469231731687303715884105727] =
  ["0"; "f"; "10"; "ff"; "-1000"; "7fffffffffffffffffffffffffffffff"].
Proof. reflexivity. Qed.

Lemma big_Text16_nonempty n : big_Text16 n <> "".
Proof.
  assert (H : forall fuel m suffix, suffix <> [] \/ (0 < fuel)%nat -> text16_digits fuel m suffix <> []).
  { induction fuel as [|fuel IH]; simpl; intros m suffix [H|H]; try done; try lia;
      destruct (m <? 16); try done; by apply IH; left. }
  unfold big_Text16. set (l := text16_digits _ _ _).
  assert (l <> []) by (apply H; right; lia). destruct (n <? 0); [done|]. by destruct l.
Qed.

(** [rand.Int(reader, max)]: the rounds of rejection sampling; every round reads
    [k] bytes and clears the high bits of the first.  A reader that delivers
    finitely many bytes ends the loop. *)
Fixpoint rand_rounds (fuel : nat) (reader : bytes) (max : Z) (k : nat) (mask : Z) : result (Z * bytes) :=
  match fuel with
  | O => Err (PlainError "EOF")
  | S fuel' =>
      let! (chunk, reader) := ReadFull reader k ;;
      let chunk := match chunk with [] => [] | c :: rest => to_byte (Z.land (byte_val c) mask) :: rest end in
      let n := big_SetBytes chunk in
      if n <? max then Ok (n, reader) else rand_rounds fuel' reader max k mask
  end.
(** [max] is positive. *)
Definition rand_Int (reader : bytes) (max : Z) : result (Z * bytes) :=
  let bitLen := big_BitLen (max - 1) in
  if bitLen =? 0 then Ok (0, reader) else
  let k := Z.to_nat ((bitLen + 7) / 8) in
  let b := if bitLen mod 8 =? 0 then 8 else bitLen mod 8 in
  rand_rounds (length reader + 1) reader max k (Z.shiftl 1 b - 1).

(** ** Certificates *)

(** The fields of an [x509.Certificate] the package sets or reads.  A serial
    number may be [nil]. *)
Record Certificate (PublicKey : Type) := mkCertificate {
  cert_Raw : bytes; cert_SerialNumber : option Z; cert_NotBefore : Z; cert_NotAfter : Z;
  cert_CommonName : string; cert_DNSNames : list string; cert_URIs : list URL;
  cert_KeyUsage : Z; cert_ExtKeyUsage : list Z; cert_IsCA : bool; cert_BasicConstraintsValid : bool;
  cert_Extensions : list (list Z * bytes); cert_ExtraExtensions : list (list Z * bytes);
  cert_PublicKey : option PublicKey }.
Arguments mkCertificate {_}.
Arguments cert_Raw {_}. Arguments cert_SerialNumber {_}. Arguments cert_NotBefore {_}.
Arguments cert_NotAfter {_}. Arguments cert_CommonName {_}. Arguments cert_DNSNames {_}.
Arguments cert_URIs {_}. Arguments cert_KeyUsage {_}. Arguments cert_ExtKeyUsage {_}.
Arguments cert_IsCA {_}. Arguments cert_BasicConstraintsValid {_}. Arguments cert_Extensions {_}.
Arguments cert_ExtraExtensions {_}. Arguments cert_PublicKey {_}.

(** The standard library's certificates, certificate requests and hashes.  A
    private Ed25519 key is its bytes; [ed25519_key] is the type assertion
    [key.(ed25519.PublicKey)]. *)
Class X509 := {
  PublicKey : Type;
  CSR : Type;
  ParseCertificateRequest : bytes -> option CSR;
  CheckSignature : CSR -> error;
  csr_PublicKey : CSR -> PublicKey;
  MarshalPKIXPublicKey : PublicKey -> result bytes;
  ed25519_key : PublicKey -> option bytes;
  ed25519_public : bytes -> PublicKey;
  GenerateKey : bytes -> result (bytes * bytes * bytes);
  CreateCertificate :
    bytes -> Certificate PublicKey -> Certificate PublicKey -> PublicKey -> bytes -> result (bytes * bytes);
  ParseCertificate : bytes -> result (Certificate PublicKey);
  CheckSignatureFrom : Certificate PublicKey -> Certificate PublicKey -> error;
  VerifyServer : Certificate PublicKey -> string -> Certificate PublicKey -> Z -> error;
  asn1_Marshal : Z -> result bytes;
  asn1_Unmarshal : bytes -> option (option Z * bytes);
  sha256_Sum256 : bytes -> bytes;
  hmac_sha256 : bytes -> bytes -> bytes }.

(** [ed25519.PrivateKeySize], [key.Public()], and the key usages. *)
Definition ed25519_PrivateKeySize : nat := 64.
Definition key_Public (key : bytes) : bytes := drop 32 key.
Definition KeyUsageDigitalSignature : Z := 1.
Definition KeyUsageCertSign : Z := 32.
Definition KeyUsageCRLSign : Z := 64.
Definition ExtKeyUsageServerAuth : Z := 1.
Definition ExtKeyUsageClientAuth : Z := 2.

(* src: internal/enroll/pki.go:23-23 CAValidity *)
Definition CAValidity : Z := 10 * 365 * 24 * Hour.
(* src: internal/enroll/pki.go:24-24 LeafValidity *)
Definition LeafValidity : Z := 365 * 24 * Hour.
(* src: internal/enroll/pki.go:25-25 ControllerDNSName *)
Definition ControllerDNSName : string := "sparerunner-controller".
(* src: internal/enroll/pki.go:26-26 canonicalNodeHost *)
Definition canonicalNodeHost : string := "sparerunner.local".
(* src: internal/enroll/pki.go:31-31 credentialEpochOID *)
Definition credentialEpochOID : list Z := [1; 3; 6; 1; 4; 1; 57264; 1; 1].

(** ** Node names *)

(* src: internal/enroll/pki.go:107-116 NewNodeID *)
Definition NewNodeID (rand_Reader : bytes) (reader : option bytes) : result (string * bytes) :=
  let! (value, reader) := ReadFull (default rand_Reader reader) 16 ;;
  Ok (hex_encode (string_of value), reader).

(** [hex.DecodeString] succeeds. *)
Definition hex_byte (c : Z) : bool :=
  ((48 <=? c) && (c <=? 57)) || ((97 <=? c) && (c <=? 102)) || ((65 <=? c) && (c <=? 70)).
Definition hex_decodes (s : string) : bool :=
  Z.even (len_string s) && all_bytes hex_byte s.

(** [&url.URL{Scheme: "spiffe", Host: canonicalNodeHost, Path: path}]. *)
Definition node_url (path : string) : URL :=
  mkURL "spiffe" "" None canonicalNodeHost path "" false false "" "" "".
(* src: internal/enroll/pki.go:118-126 CanonicalNodeURI *)
Definition CanonicalNodeURI (nodeID : string) : result URL :=
  if len_string nodeID != 32 then Err (PlainError "invalid node ID")
  else if negb (hex_decodes nodeID) then Err (PlainError "invalid node ID")
  else Ok (node_url (String.append "/node/" nodeID)).

(** ** Issuing *)

Section pki.
Context `{!HostSyntax} `{!X509}.

(* src: internal/enroll/pki.go:33-38 ControllerIdentity *)
Record ControllerIdentity := mkIdentity {
  identity_CA : option (Certificate PublicKey);
  identity_caKey : bytes;
  identity_Certificate : option (Certificate PublicKey);
  identity_key : bytes }.

(* src: internal/enroll/pki.go:100-105 ControllerIdentity.CAFingerprint *)
Definition CAFingerprint (identity : ControllerIdentity) : bytes :=
  match identity_CA identity with
  | None => repeat Ascii.zero sha256_Size
  | Some CA => sha256_Sum256 (cert_Raw CA)
  end.

(* src: internal/enroll/pki.go:193-198 readerOrDefault *)
Definition readerOrDefault (rand_Reader : bytes) (reader : option bytes) : bytes :=
  default rand_Reader reader.

(* src: internal/enroll/pki.go:182-191 positiveSerial *)
Definition positiveSerial (reader : bytes) : result (Z * bytes) :=
  let upperBound := Z.shiftl 1 127 - 1 in
  let! (serial, reader) := rand_Int reader upperBound ;;
  Ok (serial + 1, reader).

(* src: internal/enroll/pki.go:174-180 certificateTemplate *)
Definition certificateTemplate (now validity : Z) (reader : bytes)
    : result (Certificate PublicKey * bytes) :=
  let! (serial, reader) := positiveSerial reader ;;
  Ok (mkCertificate [] (Some serial) (now - Minute) (now + validity) "" [] [] 0 [] false true [] [] None,
      reader).

(** The template of a node certificate. *)
Definition node_template (template : Certificate PublicKey) (nodeID : string) (uri : URL)
    (epochBytes : bytes) : Certificate PublicKey :=
  mkCertificate (cert_Raw template) (cert_SerialNumber template) (cert_NotBefore template)
    (cert_NotAfter template) (String.append "sparerunner-node-" nodeID) (cert_DNSNames template)
    [uri] KeyUsageDigitalSignature [ExtKeyUsageClientAuth] (cert_IsCA template)
    (cert_BasicConstraintsValid template) (cert_Extensions template)
    [(credentialEpochOID, epochBytes)] (cert_PublicKey template).

(* src: internal/enroll/pki.go:131-172 ControllerIdentity.IssueNodeCertificate *)
Definition IssueNodeCertificate (rand_Reader : bytes) (identity : ControllerIdentity) (csrDER : bytes)
    (nodeID : string) (epoch now : Z) (reader : option bytes)
    : result (Certificate PublicKey * bytes) :=
  let invalid := PlainError "invalid certificate authority or credential epoch" in
  if epoch =? 0 then Err invalid else
  match identity_CA identity with
  | None => Err invalid
  | Some CA =>
      if negb (length (identity_caKey identity) =? ed25519_PrivateKeySize)%nat ||
         negb (After (cert_NotAfter CA) now) then Err invalid
      else match ParseCertificateRequest csrDER with
      | None => Err (PlainError "invalid certificate request")
      | Some csr =>
          if CheckSignature csr != None then Err (PlainError "invalid certificate request") else
          let! uri := CanonicalNodeURI nodeID ;;
          let remaining := Sub (cert_NotAfter CA) now in
          let validity := if remaining <? LeafValidity then remaining else LeafValidity in
          let! (template, reader) :=
            certificateTemplate now validity (readerOrDefault rand_Reader reader) ;;
          let! epochBytes := asn1_Marshal epoch ;;
          let! (der, reader) := CreateCertificate reader (node_template template nodeID uri epochBytes)
            CA (csr_PublicKey csr) (identity_caKey identity) ;;
          let! certificate := ParseCertificate der ;;
          Ok (certificate, der)
      end
  end.

(** [extension.Id.Equal(credentialEpochOID)] and the loop over the extensions. *)
Fixpoint credential_epoch (extensions : list (list Z * bytes)) (found : bool) (epoch : Z)
    : result (bool * Z) :=
  match extensions with
  | [] => Ok (found, epoch)
  | (id, value) :: rest =>
      if id == credentialEpochOID then
        if found then Err (PlainError "duplicate node credential epoch") else
        match asn1_Unmarshal value with
        | Some (Some parsed, []) =>
            if (parsed <=? 0) || (max_uint64 <? parsed)
            then Err (PlainError "invalid node credential epoch")
            else credential_epoch rest true parsed
        | _ => Err (PlainError "invalid node credential epoch")
        end
      else credential_epoch rest found epoch
  end.

(** [s[n:]]. *)
Definition string_from (n : nat) (s : string) : string := string_of (drop n (bytes_of s)).

(** The node, the serial and the epoch a certificate proves. *)
(* src: internal/enroll/pki.go:200-232 NodeCredentialIdentity *)
Definition NodeCredentialIdentity (certificate : option (Certificate PublicKey))
    : result (string * string * Z) :=
  let invalid := PlainError "invalid node certificate" in
  match certificate with
  | None => Err invalid
  | Some certificate =>
      match cert_SerialNumber certificate, cert_URIs certificate with
      | Some serial, [uri] =>
          if serial <=? 0 then Err invalid
          else if (url_Scheme uri != "spiffe") || (url_Host uri != canonicalNodeHost) ||
                  (len_string (url_Path uri) != len_string "/node/" + 32) then Err invalid
          else
            let nodeID := string_from 6 (url_Path uri) in
            match CanonicalNodeURI nodeID with
            | Err _ => Err invalid
            | Ok canonical =>
                if URL_String canonical != URL_String uri then Err invalid else
                let! (found, epoch) := credential_epoch (cert_Extensions certificate) false 0 ;;
                if negb found then Err (PlainError "missing node credential epoch")
                else Ok (nodeID, big_Text16 serial, epoch)
            end
      | _, _ => Err invalid
      end
  end.

(* src: internal/enroll/pki.go:234-252 ControllerIdentity.Validate *)
Definition ControllerIdentity_Validate (identity : ControllerIdentity) (now : Z) : error :=
  let incomplete := Some (PlainError "incomplete controller identity") in
  match identity_CA identity, identity_Certificate identity with
  | Some CA, Some leaf =>
      if negb (length (identity_caKey identity) =? ed25519_PrivateKeySize)%nat ||
         negb (length (identity_key identity) =? ed25519_PrivateKeySize)%nat then incomplete
      else
        let ed25519_of key := match key with Some key => ed25519_key key | None => None end in
        match ed25519_of (cert_PublicKey CA) with
        | None => Some (PlainError "invalid controller certificate authority")
        | Some caPublic =>
            if (caPublic != key_Public (identity_caKey identity)) || negb (cert_IsCA CA) ||
               (CheckSignatureFrom CA CA != None)
            then Some (PlainError "invalid controller certificate authority")
            else match ed25519_of (cert_PublicKey leaf) with
            | None => Some (PlainError "invalid controller leaf identity")
            | Some leafPublic =>
                if (leafPublic != key_Public (identity_key identity)) ||
                   negb (After (cert_NotAfter CA) now) || negb (After (cert_NotAfter leaf) now)
                then Some (PlainError "invalid controller leaf identity")
                else match VerifyServer leaf ControllerDNSName CA now with
                | Some err => Some (WrappedError "invalid controller leaf chain: " err)
                | None => None
                end
            end
        end
  | _, _ => incomplete
  end.

(* src: internal/enroll/pki.go:44-89 NewControllerIdentity *)
Definition NewControllerIdentity (rand_Reader : bytes) (now : Z) (reader : option bytes)
    : result ControllerIdentity :=
  let reader := default rand_Reader reader in
  let! (caPublic, caPrivate, reader) := GenerateKey reader ;;
  let! (t, reader) := certificateTemplate now CAValidity reader ;;
  let caTemplate := mkCertificate (cert_Raw t) (cert_SerialNumber t) (cert_NotBefore t)
    (cert_NotAfter t) "SpareRunner Controller CA" (cert_DNSNames t) (cert_URIs t)
    (Z.lor (Z.lor KeyUsageCertSign KeyUsageCRLSign) KeyUsageDigitalSignature) (cert_ExtKeyUsage t)
    true true (cert_Extensions t) (cert_ExtraExtensions t) (cert_PublicKey t) in
  let! (caDER, reader) :=
    CreateCertificate reader caTemplate caTemplate (ed25519_public caPublic) caPrivate ;;
  let! ca := ParseCertificate caDER ;;
  let! (public, private, reader) := GenerateKey reader ;;
  let! (t, reader) := certificateTemplate now LeafValidity reader ;;
  let leafTemplate := mkCertificate (cert_Raw t) (cert_SerialNumber t) (cert_NotBefore t)
    (cert_NotAfter t) ControllerDNSName [ControllerDNSName] (cert_URIs t)
    KeyUsageDigitalSignature [ExtKeyUsageServerAuth] (cert_IsCA t) (cert_BasicConstraintsValid t)
    (cert_Extensions t) (cert_ExtraExtensions t) (cert_PublicKey t) in
  let! (leafDER, reader) :=
    CreateCertificate reader leafTemplate ca (ed25519_public public) caPrivate ;;
  let! leaf := ParseCertificate leafDER ;;
  Ok (mkIdentity (Some ca) caPrivate (Some leaf) private).
End pki.

(** ** What the standard library promises *)

(** The ASN.1 times of a certificate have whole seconds. *)
Definition truncate_second (t : Z) : Z := t - t mod 1000000000.

(** A parsed certificate has the fields of the template it was created from:
    times to the second, the URIs that survive printing and parsing, and of the
    extensions with the package's identifier exactly those of the template. *)
Class X509Laws `{!HostSyntax} `{!X509} := {
  law_created_parses reader template parent public key der reader' :
    CreateCertificate reader template parent public key = Ok (der, reader') ->
    exists certificate, ParseCertificate der = Ok certificate /\
      cert_SerialNumber certificate = cert_SerialNumber template /\
      cert_NotBefore certificate = truncate_second (cert_NotBefore template) /\
      cert_NotAfter certificate = truncate_second (cert_NotAfter template) /\
      (Forall (fun u => url_Parse (URL_String u) = Some u) (cert_URIs template) ->
       cert_URIs certificate = cert_URIs template) /\
      filter (fun e => e.1 = credentialEpochOID) (cert_Extensions certificate) =
        filter (fun e => e.1 = credentialEpochOID) (cert_ExtraExtensions template);
  law_sha256_size b : length (sha256_Sum256 b) = sha256_Size;
  law_asn1 n b : asn1_Marshal n = Ok b -> asn1_Unmarshal b = Some (Some n, []);
  law_node_url nodeID : hex_decodes nodeID = true ->
    let u := node_url (String.append "/node/" nodeID) in url_Parse (URL_String u) = Some u }.

(** ** Random numbers *)

Lemma big_SetBytes_nonneg b : 0 <= big_SetBytes b.
Proof.
  unfold big_SetBytes. assert (H : forall n, 0 <= n -> 0 <= foldl (fun n c => n * 256 + byte_val c) n b).
  { induction b as [|c b IH]; simpl; intros n Hn; [done|]. apply IH. pose proof (byte_val_range c). lia. }
  by apply H.
Qed.

Lemma rand_rounds_range fuel reader max k mask n reader' :
  rand_rounds fuel reader max k mask = Ok (n, reader') -> 0 <= n < max.
Proof.
  revert reader. induction fuel as [|fuel IH]; intros reader; cbn [rand_rounds]; [done|].
  destruct (ReadFull reader k) as [[chunk rest]|]; [|done]. cbv zeta.
  destruct (_ <? max) eqn:E; [|eauto]. conditions.
  intros [= <- <-]. split; [apply big_SetBytes_nonneg|done].
Qed.

Lemma rand_Int_range reader max n reader' :
  0 < max -> rand_Int reader max = Ok (n, reader') -> 0 <= n < max.
Proof.
  intros Hmax. unfold rand_Int. destruct (_ =? 0); [intros [= <- <-]; lia|]. apply rand_rounds_range.
Qed.

(** Each round reads at least one byte, so more rounds change nothing: the fuel
    of [rand_Int] is enough. *)
Lemma rand_rounds_fuel fuel fuel' reader max k mask :
  (0 < k)%nat -> (length reader < fuel)%nat -> (length reader < fuel')%nat ->
  rand_rounds fuel reader max k mask = rand_rounds fuel' reader max k mask.
Proof.
  intros Hk. revert fuel' reader.
  induction fuel as [|fuel IH]; intros [|fuel'] reader H H'; try lia. cbn [rand_rounds].
  destruct (ReadFull reader k) as [[chunk rest]|] eqn:Er; [|done]. destruct (_ <? max); [done|].
  apply ReadFull_Ok in Er as [Hc ->]. rewrite length_app in *. apply IH; lia.
Qed.

Lemma positiveSerial_range reader n reader' :
  positiveSerial reader = Ok (n, reader') -> 0 < n < 2 ^ 127.
Proof.
  unfold positiveSerial. destruct (rand_Int _ _) as [[m rest]|] eqn:E; [|done]. intros [= <- <-].
  apply rand_Int_range in E; [|done]. change (Z.shiftl 1 127) with (2 ^ 127) in E. lia.
Qed.

(** ** Issued certificates *)

Lemma string_from_append a b : string_from (String.length a) (String.append a b) = b.
Proof.
  unfold string_from. rewrite bytes_of_app, <- length_bytes_of, drop_app_length.
  apply string_of_bytes_of.
Qed.

Lemma CAFingerprint_length `{!HostSyntax} `{!X509} `{!X509Laws} identity :
  length (CAFingerprint identity) = sha256_Size.
Proof. unfold CAFingerprint. destruct (identity_CA identity); [apply law_sha256_size|done]. Qed.

Section issued.
Context `{!HostSyntax} `{!X509}.

(** Other extensions do not matter. *)
Lemma credential_epoch_filter extensions found epoch :
  credential_epoch extensions found epoch =
  credential_epoch (filter (fun e => e.1 = credentialEpochOID) extensions) found epoch.
Proof.
  revert found epoch. induction extensions as [|[id value] rest IH]; intros found epoch; [done|].
  rewrite filter_cons. cbn [credential_epoch fst]. case_bool_decide as E.
  - rewrite decide_True by done. cbn [credential_epoch]. rewrite bool_decide_eq_true_2 by done.
    destruct found; [done|]. repeat case_match; done.
  - rewrite decide_False by done. apply IH.
Qed.

Lemma CanonicalNodeURI_Ok nodeID uri :
  CanonicalNodeURI nodeID = Ok uri <->
  len_string nodeID = 32 /\ hex_decodes nodeID = true /\ uri = node_url (String.append "/node/" nodeID).
Proof.
  unfold CanonicalNodeURI. case_bool_decide; simpl; [|naive_solver].
  destruct (hex_decodes nodeID); simpl; naive_solver.
Qed.

Lemma certificateTemplate_Ok now validity reader template reader' :
  certificateTemplate now validity reader = Ok (template, reader') ->
  exists serial, 0 < serial < 2 ^ 127 /\
    template = mkCertificate [] (Some serial) (now - Minute) (now + validity) "" [] [] 0 [] false true [] [] None.
Proof.
  unfold certificateTemplate. destruct (positiveSerial reader) as [[serial rest]|] eqn:E; [|done].
  intros [= <- <-]. apply positiveSerial_range in E. eauto.
Qed.

(** What [IssueNodeCertificate] has checked when it succeeds, and the template it
    signed. *)
Lemma IssueNodeCertificate_Ok rand identity csrDER nodeID epoch now reader certificate der :
  IssueNodeCertificate rand identity csrDER nodeID epoch now reader = Ok (certificate, der) ->
  exists CA csr serial reader1 reader2 epochBytes,
    epoch <> 0 /\ identity_CA identity = Some CA /\ now < cert_NotAfter CA /\
    ParseCertificateRequest csrDER = Some csr /\ CheckSignature csr = None /\
    len_string nodeID = 32 /\ hex_decodes nodeID = true /\ 0 < serial < 2 ^ 127 /\
    asn1_Marshal epoch = Ok epochBytes /\
    let validity := Z.min (Sub (cert_NotAfter CA) now) LeafValidity in
    let template := node_template
      (mkCertificate [] (Some serial) (now - Minute) (now + validity) "" [] [] 0 [] false true [] [] None)
      nodeID (node_url (String.append "/node/" nodeID)) epochBytes in
    CreateCertificate reader1 template CA (csr_PublicKey csr) (identity_caKey identity) = Ok (der, reader2) /\
    ParseCertificate der = Ok certificate.
Proof.
  unfold IssueNodeCertificate, After. destruct (Z.eqb_spec epoch 0); [done|].
  destruct (identity_CA identity) as [CA|]; [|done]. destruct (_ || _) eqn:Hca; [done|].
  destruct (ParseCertificateRequest csrDER) as [csr|] eqn:Hcsr; [|done].
  case_bool_decide as Hsig; [|done]. destruct (CanonicalNodeURI nodeID) as [uri|] eqn:Huri; [|done].
  apply CanonicalNodeURI_Ok in Huri as (Hlen & Hhex & ->). cbn [negb].
  destruct (certificateTemplate _ _ _) as [[template reader1]|] eqn:Ht; [|done].
  apply certificateTemplate_Ok in Ht as (serial & Hserial & ->).
  destruct (asn1_Marshal epoch) as [epochBytes|] eqn:Ha; [|done].
  destruct (CreateCertificate _ _ _ _ _) as [[der' reader2]|] eqn:Hcreate; [|done].
  destruct (ParseCertificate der') as [cert|] eqn:Hparse; [|done]. intros [= <- <-].
  conditions. destruct Hca as [_ Hca].
  exists CA, csr, serial, reader1, reader2, epochBytes. split_and!; try done; try lia.
  rewrite <- Hcreate. do 4 f_equal. destruct (Z.ltb_spec (Sub (cert_NotAfter CA) now) LeafValidity); lia.
Qed.
End issued.
