(* ===== verification/EnrollService.v ===== *)
(** * The enrollment service

    internal/enroll/errors.go and service.go: creating join codes, enrolling a
    node with one, renewing its credential, and when a renewal is due.  The
    service is written against the interface [Registry]; the registry's state is
    passed through.  What a call takes from its surroundings is an
    [Environment]: the clock at the validation of the service and at the
    next reading, and the bytes its random reader will deliver, whether these
    come from the fields [Now] and [Random] or, when they are [nil], from
    [time.Now] and [rand.Reader]. *)

From S2P Require Import Prelude GoStd GoEncoding JoinCode EnrollRegistry EnrollPKI.
From Stdlib Require Import Ascii.

(** ** Failures *)

(* src: internal/enroll/errors.go:7-14 EnrollmentFailure *)
Inductive EnrollmentFailure :=
  | EnrollmentFailureUnknown
  | EnrollmentFailureMalformed
  | EnrollmentFailureRejected
  | EnrollmentFailureUnavailable.
#[export] Instance EnrollmentFailure_eq_dec : EqDecision EnrollmentFailure.
Proof. solve_decision. Defined.

(* src: internal/enroll/errors.go:17-17 ErrEnrollmentMalformed *)
Definition ErrEnrollmentMalformed : GoError := PlainError "malformed enrollment request".
(* src: internal/enroll/errors.go:18-18 ErrEnrollmentRejected *)
Definition ErrEnrollmentRejected : GoError := PlainError "enrollment credential rejected".
(* src: internal/enroll/errors.go:19-19 ErrEnrollmentUnavailable *)
Definition ErrEnrollmentUnavailable : GoError := PlainError "enrollment authority unavailable".

(* src: internal/enroll/errors.go:25-36 EnrollmentFailureOf *)
Definition EnrollmentFailureOf (err : error) : EnrollmentFailure :=
  if err == None then EnrollmentFailureUnknown
  else if errors_Is err ErrEnrollmentMalformed then EnrollmentFailureMalformed
  else if errors_Is err ErrEnrollmentRejected then EnrollmentFailureRejected
  else EnrollmentFailureUnavailable.

(* src: internal/enroll/errors.go:38-40 malformedEnrollment *)
Definition malformedEnrollment (err : GoError) : GoError := JoinedError ErrEnrollmentMalformed err.
(* src: internal/enroll/errors.go:42-44 rejectedEnrollment *)
Definition rejectedEnrollment (err : GoError) : GoError := JoinedError ErrEnrollmentRejected err.
(* src: internal/enroll/errors.go:46-48 unavailableEnrollment *)
Definition unavailableEnrollment (err : GoError) : GoError := JoinedError ErrEnrollmentUnavailable err.

(* src: internal/enroll/errors.go:50-61 registryEnrollmentFailure *)
Definition registryEnrollmentFailure (err : GoError) : EnrollmentFailure :=
  if errors_Is (Some err) ErrTokenNotFound || errors_Is (Some err) ErrTokenEpochMismatch ||
     errors_Is (Some err) ErrTokenSecretMismatch ||
     errors_Is (Some err) ErrControllerFingerprintMismatch ||
     errors_Is (Some err) ErrCredentialRejected
  then EnrollmentFailureRejected
  else EnrollmentFailureUnavailable.

(** ** The service *)

(** The readings of [service.now()], in order, and the bytes of
    [service.random()]. *)
Record Environment := mkEnvironment { clock_valid : Z; clock_now : Z; random : bytes }.

(* src: internal/enroll/service.go:58-61 JoinCodeDelivery *)
Record JoinCodeDelivery := mkDelivery { delivery_TokenID : bytes; delivery_encoded : string }.

(* src: internal/enroll/service.go:47-52 EnrollmentResult *)
Record EnrollmentResult := mkEnrollmentResult {
  result_NodeID : string; result_CertificateDER : bytes; result_CACertificateDER : bytes;
  result_Credential : Credential }.

Section service.
Context `{!HostSyntax} `{!X509} {St : Type} `{!Registry St}.

(** The registry is either present or [nil]; its state is an argument of the
    methods. *)
(* src: internal/enroll/service.go:19-28 Service *)
Record Service := mkService {
  service_Registry : bool; service_Identity : ControllerIdentity; digestKey : bytes;
  service_Epoch : Z }.

(* src: internal/enroll/join_code.go:260-268 SecretDigest *)
Definition SecretDigest (key tokenID secret : bytes) : bytes :=
  hmac_sha256 key
    (bytes_of (String.append "sparerunner/enrollment/v1" (String Ascii.zero "")) ++ tokenID ++ secret).

(* src: internal/enroll/service.go:188-193 Service.valid *)
Definition service_valid (service : Service) (now : Z) : error :=
  if negb (service_Registry service) || (service_Epoch service =? 0) || zeroBytes (digestKey service)
  then Some (PlainError "incomplete enrollment service")
  else ControllerIdentity_Validate (service_Identity service) now.

(* src: internal/enroll/service.go:30-36 NewService *)
Definition NewService (registry : bool) (identity : ControllerIdentity) (key : bytes) (epoch now : Z)
    : result Service :=
  let service := mkService registry identity key epoch in
  tryr service_valid service now ;;
  Ok service.

(* src: internal/enroll/service.go:207-209 credentialFor *)
Definition credentialFor (nodeID : string) (certificate : Certificate PublicKey) (epoch : Z) : Credential :=
  mkCredential nodeID
    match cert_SerialNumber certificate with Some n => big_Text16 n | None => "<nil>" end
    epoch (cert_NotBefore certificate) (cert_NotAfter certificate).

(* src: internal/enroll/service.go:159-161 enrollmentResult *)
Definition enrollmentResult (node : NodeRecord) : EnrollmentResult :=
  mkEnrollmentResult (nr_NodeID node) (nr_CertificateDER node) (nr_CACertificateDER node)
    (nr_Credential node).

(** [service.Identity.CA.Raw]; the authority is present when it is reached. *)
Definition ca_raw (service : Service) : bytes :=
  match identity_CA (service_Identity service) with Some CA => cert_Raw CA | None => [] end.

(** The token record of a code. *)
Definition token_of (service : Service) (code : JoinCode) : TokenRecord :=
  mkToken (tokenID code) (SecretDigest (digestKey service) (tokenID code) (secret code))
    (service_Epoch service).

(* src: internal/enroll/service.go:81-104 Service.CreateJoinCodeDelivery *)
Definition CreateJoinCodeDelivery (service : Service) (env : Environment) (registry : St)
    (hints : list string) : St * result JoinCodeDelivery :=
  match
    tryr service_valid service (clock_valid env) ;;
    let! canonical := CanonicalHints hints ;;
    let! code := NewJoinCode (random env) (CAFingerprint (service_Identity service)) canonical
      (Some (random env)) ;;
    let! encoded := Encode code ;;
    Ok (code, encoded)
  with
  | Err err => (registry, Err err)
  | Ok (code, encoded) =>
      match reg_CreateToken registry (token_of service code) with
      | (registry, Some err) => (registry, Err err)
      | (registry, None) => (registry, Ok (mkDelivery (tokenID code) encoded))
      end
  end.

(* src: internal/enroll/service.go:70-76 Service.CreateJoinCode *)
Definition CreateJoinCode (service : Service) (env : Environment) (registry : St)
    (hints : list string) : St * result string :=
  match CreateJoinCodeDelivery service env registry hints with
  | (registry, Err err) => (registry, Err err)
  | (registry, Ok delivery) => (registry, Ok (delivery_encoded delivery))
  end.

(** [malformedEnrollment], [rejectedEnrollment] or [unavailableEnrollment] around
    the error of a step. *)
Definition fail_with {A} (wrap : GoError -> GoError) (r : result A) : result A :=
  match r with Ok x => Ok x | Err err => Err (wrap err) end.

(** The steps of [Enroll] before the registry: the code's token, the digest of
    the request's key, and the node to enroll. *)
Definition prepare_enrollment (service : Service) (env : Environment) (encodedCode : string)
    (csrDER : bytes) : result (TokenRecord * bytes * NodeRecord) :=
  let identity := service_Identity service in
  tryr option_map unavailableEnrollment (service_valid service (clock_valid env)) ;;
  let! code := fail_with malformedEnrollment (DecodeJoinCode encodedCode) ;;
  if caFingerprint code != CAFingerprint identity
  then Err (rejectedEnrollment ErrControllerFingerprintMismatch) else
  let! (nodeID, reader) :=
    fail_with unavailableEnrollment (NewNodeID (random env) (Some (random env))) ;;
  let now := clock_now env in
  let! csrRequest := match ParseCertificateRequest csrDER with
    | Some csr =>
        if CheckSignature csr != None
        then Err (malformedEnrollment (PlainError "invalid certificate request")) else Ok csr
    | None => Err (malformedEnrollment (PlainError "invalid certificate request"))
    end ;;
  let! publicKeyDER :=
    fail_with malformedEnrollment (MarshalPKIXPublicKey (csr_PublicKey csrRequest)) ;;
  let csrDigest := sha256_Sum256 publicKeyDER in
  let! (certificate, certificateDER) := fail_with unavailableEnrollment
    (IssueNodeCertificate reader identity csrDER nodeID 1 now (Some reader)) ;;
  let credential := credentialFor nodeID certificate 1 in
  Ok (token_of service code, csrDigest,
      mkNodeRecord nodeID credential false csrDigest certificateDER (ca_raw service)).

(* src: internal/enroll/service.go:106-157 Service.Enroll *)
Definition Enroll (service : Service) (env : Environment) (registry : St) (encodedCode : string)
    (csrDER : bytes) : St * result EnrollmentResult :=
  match prepare_enrollment service env encodedCode csrDER with
  | Err err => (registry, Err err)
  | Ok (token, csrDigest, node) =>
      match reg_ConsumeEnrollment registry token node with
      | (registry, None) => (registry, Ok (enrollmentResult node))
      | (registry, Some consumeErr) =>
          (registry,
           match reg_ReplayEnrollment registry token csrDigest with
           | Ok replay => Ok (enrollmentResult replay)
           | Err replayErr =>
               if registryEnrollmentFailure replayErr == EnrollmentFailureUnavailable
               then Err (unavailableEnrollment replayErr)
               else if registryEnrollmentFailure consumeErr == EnrollmentFailureRejected
               then Err (rejectedEnrollment consumeErr)
               else Err (unavailableEnrollment consumeErr)
           end)
      end
  end.

(* src: internal/enroll/service.go:163-168 Service.Cancel *)
Definition Cancel (service : Service) (env : Environment) (registry : St) (tokenID : bytes)
    : St * error :=
  match service_valid service (clock_valid env) with
  | Some err => (registry, Some err)
  | None => reg_CancelToken registry tokenID
  end.

(* src: internal/enroll/service.go:172-186 Service.Renew *)
Definition Renew (service : Service) (env : Environment) (registry : St) (current : Credential)
    (csrDER : bytes) : St * result EnrollmentResult :=
  match
    tryr service_valid service (clock_valid env) ;;
    IssueNodeCertificate (random env) (service_Identity service) csrDER (cred_NodeID current)
      (cred_Epoch current) (clock_now env) (Some (random env))
  with
  | Err err => (registry, Err err)
  | Ok (certificate, certificateDER) =>
      let replacement := credentialFor (cred_NodeID current) certificate (cred_Epoch current) in
      match reg_RenewCredential registry (cred_NodeID current) current replacement (clock_now env) with
      | (registry, Some err) => (registry, Err err)
      | (registry, None) =>
          (registry, Ok (mkEnrollmentResult (cred_NodeID current) certificateDER (ca_raw service) replacement))
      end
  end.

(** ** Renewal *)

(** The 70 to 90 percent of a certificate's validity. *)
(* src: internal/enroll/service.go:214-221 RenewalTime *)
Definition RenewalTime (certificate : option (Certificate PublicKey)) : result Z :=
  let invalid := PlainError "invalid certificate" in
  match certificate with
  | None => Err invalid
  | Some certificate =>
      if (length (cert_Raw certificate) =? 0)%nat ||
         negb (After (cert_NotAfter certificate) (cert_NotBefore certificate)) then Err invalid
      else
        let spread := sha256_Sum256 (cert_Raw certificate) in
        let percent := 70 + byte_val (nth 0 spread Ascii.zero) mod 21 in
        let validity := Sub (cert_NotAfter certificate) (cert_NotBefore certificate) in
        Ok (cert_NotBefore certificate + Z.quot (wrap_int64 (percent * validity)) 100)
  end.

(* src: internal/enroll/service.go:226-236 RenewalDue *)
Definition RenewalDue (certificate : option (Certificate PublicKey)) (now : Z) : result bool :=
  let! threshold := RenewalTime certificate ;;
  match certificate with
  | Some certificate =>
      if negb (Before now (cert_NotAfter certificate)) then Ok true
      else Ok (negb (Before now threshold))
  | None => Ok false
  end.
End service.
