(* ===== verification/EnrollProps.v ===== *)
(** * What enrollment guarantees

    The properties of internal/enroll: join codes have one spelling, tokens are
    spent at most once and revoked nodes stay out ([MemoryRegistry], every
    sequence of calls); a delivered code enrolls a node, a retry gives the same
    answer, and a certificate proves the identity it was issued for (every
    registry and every standard library that keep their laws); and a renewal is
    due within its window.  [Toy] is a concrete standard library and a registry's
    run, in which the hypotheses hold. *)

From S2P Require Import Prelude GoStd GoEncoding JoinCode EnrollRegistry EnrollPKI EnrollService.
From Stdlib Require Import Ascii.

(** ** Certificates *)

Section pki.
Context `{!HostSyntax} `{!X509} `{!X509Laws}.

Lemma truncate_second_le t : truncate_second t <= t.
Proof. unfold truncate_second. pose proof (Z.mod_pos_bound t 1000000000). lia. Qed.

(** What an issued certificate carries. *)
Lemma issued_fields rand identity csrDER nodeID epoch now reader certificate der :
  IssueNodeCertificate rand identity csrDER nodeID epoch now reader = Ok (certificate, der) ->
  exists CA serial epochBytes,
    identity_CA identity = Some CA /\ now < cert_NotAfter CA /\
    len_string nodeID = 32 /\ hex_decodes nodeID = true /\
    cert_SerialNumber certificate = Some serial /\ 0 < serial < 2 ^ 127 /\
    cert_NotBefore certificate = truncate_second (now - Minute) /\
    cert_NotAfter certificate =
      truncate_second (now + Z.min (Sub (cert_NotAfter CA) now) LeafValidity) /\
    cert_URIs certificate = [node_url (String.append "/node/" nodeID)] /\
    asn1_Marshal epoch = Ok epochBytes /\
    filter (fun e => e.1 = credentialEpochOID) (cert_Extensions certificate) =
      [(credentialEpochOID, epochBytes)].
Proof.
  intros Hi. apply IssueNodeCertificate_Ok in Hi
    as (CA & csr & serial & r1 & r2 & epochBytes & _ & HCA & Hnow & _ & _ & Hlen & Hhex & Hs & Ha & Hc & Hp).
  apply law_created_parses in Hc as (cert & Hp' & E1 & E2 & E3 & E4 & E5).
  rewrite Hp in Hp'. injection Hp' as <-. exists CA, serial, epochBytes.
  split_and!; try done; try lia.
  apply E4. simpl. constructor; [|constructor]. by apply law_node_url.
Qed.

Lemma issued_certificate_fields rand identity csrDER nodeID epoch now reader certificate der :
  IssueNodeCertificate rand identity csrDER nodeID epoch now reader = Ok (certificate, der) ->
  0 < epoch <= max_uint64 ->
  exists serial, cert_SerialNumber certificate = Some serial /\
    NodeCredentialIdentity (Some certificate) = Ok (nodeID, big_Text16 serial, epoch).
Proof.
  intros Hissue Hepoch.
  apply issued_fields in Hissue as (CA & serial & eb & _ & _ & Hlen & Hhex & Hs & Hsr & _ & _ & Hu & Ha & He).
  exists serial. split; [done|].
  unfold NodeCredentialIdentity. rewrite Hs, Hu. rewrite (proj2 (Z.leb_gt _ _)) by lia.
  cbn [node_url url_Scheme url_Host url_Path].
  rewrite !(bool_decide_eq_true_2 (_ = _)) by done.
  rewrite len_string_append, Hlen, bool_decide_eq_true_2 by done. cbn [negb orb].
  change 6%nat with (String.length "/node/"). rewrite string_from_append.
  rewrite (proj2 (CanonicalNodeURI_Ok nodeID _)) by eauto.
  rewrite bool_decide_eq_true_2 by done. cbn [negb].
  rewrite credential_epoch_filter, He. cbn [credential_epoch].
  rewrite bool_decide_eq_true_2, (law_asn1 _ _ Ha) by done.
  by rewrite (proj2 (Z.leb_gt _ _)), (proj2 (Z.ltb_ge _ _)) by lia.
Qed.

(** A node certificate proves the identity it was issued for: whatever the
    request contains, [NodeCredentialIdentity] reads back from an issued
    certificate exactly the node, the serial and the epoch the Controller chose;
    the serial is positive and the certificate does not outlive the authority nor
    a year. *)
Theorem issued_certificate_identity rand identity csrDER nodeID epoch now reader certificate der :
  IssueNodeCertificate rand identity csrDER nodeID epoch now reader = Ok (certificate, der) ->
  0 < epoch <= max_uint64 ->
  exists serial CA,
    cert_SerialNumber certificate = Some serial /\ 0 < serial < 2 ^ 127 /\
    NodeCredentialIdentity (Some certificate) = Ok (nodeID, big_Text16 serial, epoch) /\
    identity_CA identity = Some CA /\
    cert_NotAfter certificate <= cert_NotAfter CA /\
    cert_NotAfter certificate <= now + LeafValidity /\
    cert_NotBefore certificate <= now - Minute.
Proof.
  intros Hissue Hepoch.
  destruct (issued_certificate_fields _ _ _ _ _ _ _ _ _ Hissue Hepoch) as (serial & Hs & Hident).
  apply issued_fields in Hissue as (CA & serial' & eb & HCA & Hnow & _ & _ & Hs' & Hsr & Hnb & Hna & _).
  rewrite Hs in Hs'. injection Hs' as <-. exists serial, CA. split_and!; try done; try lia.
  - rewrite Hna. etransitivity; [apply truncate_second_le|]. unfold Sub, max_int64 in *. lia.
  - rewrite Hna. etransitivity; [apply truncate_second_le|]. lia.
  - rewrite Hnb. apply truncate_second_le.
Qed.
End pki.

Lemma issued_parses `{!HostSyntax} `{!X509} rand identity csrDER nodeID epoch now reader certificate der :
  IssueNodeCertificate rand identity csrDER nodeID epoch now reader = Ok (certificate, der) ->
  ParseCertificate der = Ok certificate.
Proof.
  intros Hi. apply IssueNodeCertificate_Ok in Hi
    as (? & ? & ? & ? & ? & ? & _ & _ & _ & _ & _ & _ & _ & _ & _ & _ & Hp). exact Hp.
Qed.

(** ** Enrolling *)

Section service.
Context `{!HostSyntax} `{!X509} {St : Type} `{!Registry St} `{!RegistryLaws St}.

(** What [prepare_enrollment] builds. *)
Lemma prepare_Ok service env encoded csrDER token digest node :
  prepare_enrollment service env encoded csrDER = Ok (token, digest, node) ->
  exists code nodeID reader csr publicKeyDER certificate,
    service_valid service (clock_valid env) = None /\
    DecodeJoinCode encoded = Ok code /\
    caFingerprint code = CAFingerprint (service_Identity service) /\
    NewNodeID (random env) (Some (random env)) = Ok (nodeID, reader) /\
    ParseCertificateRequest csrDER = Some csr /\ CheckSignature csr = None /\
    MarshalPKIXPublicKey (csr_PublicKey csr) = Ok publicKeyDER /\
    digest = sha256_Sum256 publicKeyDER /\ token = token_of service code /\
    IssueNodeCertificate reader (service_Identity service) csrDER nodeID 1 (clock_now env) (Some reader)
      = Ok (certificate, nr_CertificateDER node) /\
    node = mkNodeRecord nodeID (credentialFor nodeID certificate 1) false digest
      (nr_CertificateDER node) (ca_raw service).
Proof.
  unfold prepare_enrollment. destruct (service_valid service _) eqn:Hv; [done|]. cbn [option_map].
  destruct (DecodeJoinCode encoded) as [code|]; [|done]. cbn [fail_with].
  case_bool_decide as Hfp; [|done]. cbn [negb].
  destruct (NewNodeID _ _) as [[nodeID reader]|]; [|done]. cbn [fail_with].
  destruct (ParseCertificateRequest csrDER) as [csr|]; [|done].
  case_bool_decide as Hsig; [|done]. cbn [negb].
  destruct (MarshalPKIXPublicKey _) as [pub|] eqn:Hpub; [|done]. cbn [fail_with].
  destruct (IssueNodeCertificate _ _ _ _ _ _ _) as [[cert der]|] eqn:Hissue; [|done]. cbn [fail_with].
  intros [= <- <- <-]. exists code, nodeID, reader, csr, pub, cert. by split_and!.
Qed.

(** Two preparations of the same code and request by one authority agree on the
    token's identity and secret and on the key. *)
Lemma prepare_agree service service' env env' encoded csrDER token digest node token' digest' node' :
  prepare_enrollment service env encoded csrDER = Ok (token, digest, node) ->
  prepare_enrollment service' env' encoded csrDER = Ok (token', digest', node') ->
  digestKey service' = digestKey service ->
  digest' = digest /\ token' = mkToken (token_ID token) (token_SecretDigest token) (service_Epoch service').
Proof.
  intros (c & ? & ? & csr & pub & ? & _ & Hc & _ & _ & Hcsr & _ & Hpub & -> & -> & _)%prepare_Ok
    (c' & ? & ? & csr' & pub' & ? & _ & Hc' & _ & _ & Hcsr' & _ & Hpub' & -> & -> & _)%prepare_Ok Hk.
  rewrite Hc in Hc'. injection Hc' as <-. rewrite Hcsr in Hcsr'. injection Hcsr' as <-.
  rewrite Hpub in Hpub'. injection Hpub' as <-. unfold token_of. rewrite Hk. done.
Qed.

(** The tokens of a valid service have its epoch, which is not zero. *)
Lemma prepare_epoch service env encoded csrDER token digest node :
  prepare_enrollment service env encoded csrDER = Ok (token, digest, node) -> token_Epoch token <> 0.
Proof.
  intros (code & ? & ? & ? & ? & ? & Hv & _ & _ & _ & _ & _ & _ & _ & -> & _)%prepare_Ok E. simpl in E.
  unfold service_valid in Hv. rewrite E in Hv. by rewrite orb_true_r in Hv.
Qed.

(** C29 Enrollment can be retried: when an enrollment with a fresh token has
    succeeded and its answer was lost, the same code and request give the same
    node, certificate and credential again, from a Controller that may have been
    restarted in between (another epoch, clock and randomness), and the registry
    does not change. *)
Theorem enrollment_retry service service' env env' (s s' : St) encoded csrDER answer :
  reg_ok s ->
  Enroll service env s encoded csrDER = (s', Ok answer) ->
  (forall code token digest, DecodeJoinCode encoded = Ok code -> token_ID token = tokenID code ->
     exists e, reg_ReplayEnrollment s token digest = Err e) ->
  digestKey service' = digestKey service ->
  (exists prepared, prepare_enrollment service' env' encoded csrDER = Ok prepared) ->
  Enroll service' env' s' encoded csrDER = (s', Ok answer).
Proof.
  intros Hok Henroll Hfresh Hkey [[[token' digest'] node'] Hprep']. unfold Enroll in *.
  destruct (prepare_enrollment service env encoded csrDER) as [[[token digest] node]|] eqn:Hprep;
    [|done].
  destruct (prepare_agree _ _ _ _ _ _ _ _ _ _ _ _ Hprep Hprep' Hkey) as [-> ->].
  pose proof (prepare_epoch _ _ _ _ _ _ _ Hprep) as Hep. pose proof (prepare_epoch _ _ _ _ _ _ _ Hprep') as Hep'.
  rewrite Hprep'. apply prepare_Ok in Hprep as (code & ? & ? & ? & ? & ? & _ & Hcode & _ & _ & _ & _ & _ & _ & Ht & _ & Hn).
  destruct (reg_ConsumeEnrollment s token node) as [s1 [e|]] eqn:Hc.
  - destruct (Hfresh code token digest Hcode) as [e' He']; [by rewrite Ht|].
    apply law_consume_failed in Hc as ->. rewrite He' in Henroll. repeat case_match; done.
  - injection Henroll as <- <-.
    destruct (law_consumed s token node s1 Hok Hc) as (Hr & _ & Hagain); [by rewrite Hn|].
    destruct (Hagain (mkToken (token_ID token) (token_SecretDigest token) (service_Epoch service')) node')
      as [e ->]; [done|].
    assert (nr_PublicKeyDigest node = digest) as Hd by (by rewrite Hn).
    rewrite Hd in Hr. by rewrite (law_replay_epoch _ _ _ _ Hep Hep'), Hr.
Qed.

(** A join code that was delivered decodes to the token that was created for it. *)
Lemma delivery_Ok service env (s s1 : St) hints delivery :
  CreateJoinCodeDelivery service env s hints = (s1, Ok delivery) ->
  length (CAFingerprint (service_Identity service)) = sha256_Size ->
  exists code, DecodeJoinCode (delivery_encoded delivery) = Ok code /\
    delivery_TokenID delivery = tokenID code /\
    caFingerprint code = CAFingerprint (service_Identity service) /\
    reg_CreateToken s (token_of service code) = (s1, None).
Proof.
  unfold CreateJoinCodeDelivery. destruct (service_valid service _); [done|].
  destruct (CanonicalHints hints) as [canonical|]; [|done].
  destruct (NewJoinCode _ _ canonical _) as [code|] eqn:Hnew; [|done].
  destruct (Encode code) as [encoded|] eqn:Hencode; [|done].
  destruct (reg_CreateToken s _) as [s' [e|]] eqn:Hcreate; [done|]. intros [= <- <-] Hfp.
  apply NewJoinCode_Ok in Hnew as (Hty & _ & Hf & _); [|done]. exists code. simpl. split_and!; try done.
  by apply decode_encoded.
Qed.

Context `{!X509Laws}.

(** The preparation succeeds when each of its steps does. *)
Lemma prepare_succeeds service env encoded csrDER code nodeID reader csr publicKeyDER certificate der :
  service_valid service (clock_valid env) = None ->
  DecodeJoinCode encoded = Ok code -> caFingerprint code = CAFingerprint (service_Identity service) ->
  NewNodeID (random env) (Some (random env)) = Ok (nodeID, reader) ->
  ParseCertificateRequest csrDER = Some csr -> CheckSignature csr = None ->
  MarshalPKIXPublicKey (csr_PublicKey csr) = Ok publicKeyDER ->
  IssueNodeCertificate reader (service_Identity service) csrDER nodeID 1 (clock_now env) (Some reader)
    = Ok (certificate, der) ->
  prepare_enrollment service env encoded csrDER =
    Ok (token_of service code, sha256_Sum256 publicKeyDER,
        mkNodeRecord nodeID (credentialFor nodeID certificate 1) false (sha256_Sum256 publicKeyDER) der
          (ca_raw service)).
Proof.
  intros Hv Hd Hf Hn Hp Hc Hm Hi. unfold prepare_enrollment. rewrite Hv, Hd. cbn [option_map fail_with].
  rewrite bool_decide_eq_true_2 by done. cbn [negb]. rewrite Hn. cbn [fail_with]. rewrite Hp, Hc.
  rewrite bool_decide_eq_true_2 by done. cbn [negb]. rewrite Hm. cbn [fail_with]. by rewrite Hi.
Qed.

(** C28 A delivered join code enrolls a node: once [CreateJoinCodeDelivery] has
    returned, a valid request presented with the code succeeds for a new node
    identity that the registry admits, the answer's certificate proves exactly the credential that has
    become the node's current one, and that credential is authorized throughout
    its validity. *)
Theorem delivered_code_enrolls service env env' (s s1 : St) hints delivery csrDER nodeID reader csr
    publicKeyDER certificate der :
  reg_ok s ->
  CreateJoinCodeDelivery service env s hints = (s1, Ok delivery) ->
  service_valid service (clock_valid env') = None ->
  NewNodeID (random env') (Some (random env')) = Ok (nodeID, reader) ->
  reg_LookupNode s nodeID = Err ErrNodeNotFound ->
  ParseCertificateRequest csrDER = Some csr -> CheckSignature csr = None ->
  MarshalPKIXPublicKey (csr_PublicKey csr) = Ok publicKeyDER ->
  IssueNodeCertificate reader (service_Identity service) csrDER nodeID 1 (clock_now env') (Some reader)
    = Ok (certificate, der) ->
  (forall code, DecodeJoinCode (delivery_encoded delivery) = Ok code ->
     reg_admits s1 (token_of service code) (mkNodeRecord nodeID (credentialFor nodeID certificate 1) false
       (sha256_Sum256 publicKeyDER) der (ca_raw service))) ->
  exists s2 c,
    Enroll service env' s1 (delivery_encoded delivery) csrDER =
      (s2, Ok (mkEnrollmentResult nodeID der (ca_raw service) c)) /\
    NodeCredentialIdentity (Some certificate) = Ok (nodeID, cred_Serial c, cred_Epoch c) /\
    reg_CurrentCredential s2 nodeID = Ok c /\
    forall now, cred_NotBefore c <= now < cred_NotAfter c -> reg_AuthorizeCredential s2 c now = None.
Proof.
  intros Hok Hdel Hv Hid Hnew Hcsr Hsig Hpub Hissue Hadmits.
  apply delivery_Ok in Hdel as (code & Hdec & _ & Hfp & Hcreate); [|apply CAFingerprint_length].
  pose proof (prepare_succeeds _ _ _ _ _ _ _ _ _ _ _ Hv Hdec Hfp Hid Hcsr Hsig Hpub Hissue) as Hprep.
  destruct (issued_certificate_fields _ _ _ _ _ _ _ _ _ Hissue) as (serial & Hserial & Hident); [done|].
  set (c := credentialFor nodeID certificate 1) in *.
  set (node := mkNodeRecord nodeID c false (sha256_Sum256 publicKeyDER) der (ca_raw service)) in *.
  assert (cred_Serial c = big_Text16 serial) as Hcs by (unfold c, credentialFor; by rewrite Hserial).
  assert (reg_ok s1) as Hok1 by (pose proof (law_create_ok s (token_of service code) Hok) as E; by rewrite Hcreate in E).
  destruct (law_created s _ s1 node Hok Hcreate Hnew) as [s2 Hconsume];
    [done|change (cred_Serial c <> ""); rewrite Hcs; apply big_Text16_nonempty|done|by apply Hadmits|].
  destruct (law_consumed s1 _ node s2 Hok1 Hconsume) as (_ & Hcur & _); [done|].
  exists s2, c. split_and!.
  - unfold Enroll. by rewrite Hprep, Hconsume.
  - by rewrite Hident, Hcs.
  - done.
  - intros now Hnow. apply law_authorized; [|done].
    pose proof (law_consume_ok s1 (token_of service code) node Hok1) as E. rewrite Hconsume in E. by apply E.
Qed.

(** Renewal replaces a credential in one step: when [Renew] succeeds, the
    credential presented was the current one, and afterwards the answer's is: it
    has the same node and epoch and another serial, only it is authorized, and its
    certificate proves it. *)
Theorem renewal_replaces service env (s s' : St) current csrDER answer :
  reg_ok s -> 0 < cred_Epoch current <= max_uint64 ->
  Renew service env s current csrDER = (s', Ok answer) ->
  let c := result_Credential answer in
  reg_CurrentCredential s (cred_NodeID current) = Ok current /\
  reg_CurrentCredential s' (cred_NodeID current) = Ok c /\
  cred_NodeID c = cred_NodeID current /\ cred_Epoch c = cred_Epoch current /\
  cred_Serial c <> cred_Serial current /\
  (forall now, reg_AuthorizeCredential s' current now <> None) /\
  (exists certificate, ParseCertificate (result_CertificateDER answer) = Ok certificate /\
     NodeCredentialIdentity (Some certificate) = Ok (cred_NodeID c, cred_Serial c, cred_Epoch c)).
Proof.
  intros Hok Hep. unfold Renew. destruct (service_valid service _); [done|].
  destruct (IssueNodeCertificate _ _ _ _ _ _ _) as [[cert der]|] eqn:Hissue; [|done].
  destruct (reg_RenewCredential _ _ _ _ _) as [s1 [e|]] eqn:Hrenew; [done|]. intros [= <- <-]. cbn [result_Credential].
  destruct (issued_certificate_fields _ _ _ _ _ _ _ _ _ Hissue) as (serial & Hserial & Hident); [done|].
  destruct (law_renewed _ _ _ _ _ _ Hok Hrenew) as (E1 & E2 & E3 & E4 & E5).
  assert (reg_ok s1) as Hok'.
  { pose proof (law_renew_ok s (cred_NodeID current) current
      (credentialFor (cred_NodeID current) cert (cred_Epoch current)) (clock_now env) Hok) as E.
    by rewrite Hrenew in E. }
  split_and!; try done.
  - intros now Hauth. apply law_authorized in Hauth as [Hcur _]; [|done]. rewrite E2 in Hcur.
    injection Hcur as E. by rewrite E in E5.
  - exists cert. split; [by eapply issued_parses|].
    rewrite Hident. unfold credentialFor. cbn [cred_NodeID cred_Serial cred_Epoch]. by rewrite Hserial.
Qed.
End service.

(** ** Join codes *)

(** C26 A join code has exactly one spelling: a string decodes to a code exactly
    when the code is well formed and encodes to that string, and every other
    string is refused with one of the two declared errors. *)
Theorem join_code_canonical `{!HostSyntax} (s : string) (code : JoinCode) :
  (DecodeJoinCode s = Ok code <-> JoinCode_typed code /\ Encode code = Ok s) /\
  forall e, DecodeJoinCode s = Err e -> e = ErrInvalidJoinCode \/ e = ErrJoinCodeVersion.
Proof. split; [apply decode_iff_encode|apply decode_error]. Qed.

(** ** The registry under every sequence of calls *)

(** C27 A token is spent at most once: in every sequence of calls on a new
    registry, whatever their arguments and order, no token is consumed more often
    than it was created, and a token that can be consumed after them was created
    by one of them with exactly the presented secret digest and epoch. *)
Theorem token_spent_once (calls : list registry_call) (tokenID : bytes) :
  (count_calls (consumes_token tokenID) NewMemoryRegistry calls <=
   count_calls (creates_token tokenID) NewMemoryRegistry calls)%nat /\
  forall supplied node,
    (ConsumeEnrollment (run_calls NewMemoryRegistry calls) supplied node).2 = None ->
    CallCreateToken supplied ∈ successes NewMemoryRegistry calls.
Proof.
  split.
  - pose proof (consumed_at_most_created NewMemoryRegistry calls tokenID) as H.
    unfold pending in H. simpl in H. rewrite lookup_empty in H. lia.
  - intros supplied node Hc.
    destruct (ConsumeEnrollment (run_calls NewMemoryRegistry calls) supplied node) as [r' [e|]] eqn:E; [done|].
    apply ConsumeEnrollment_None in E as ((token & Ht & He & Hd) & _).
    apply pending_created in Ht as [Ht|[Hin Hid]]; [simpl in Ht; by rewrite lookup_empty in Ht|].
    destruct token, supplied; simpl in *. by subst.
Qed.

(** The calls that revoke a node when they succeed: revoking it, and cancelling a
    token it has consumed. *)
Definition revokes (registry : MemoryRegistry) (nodeID : string) (call : registry_call) : Prop :=
  match call with
  | CallRevokeNode n => n = nodeID
  | CallCancelToken tokenID =>
      tokens registry !! tokenID = None /\ consumedNode registry !! tokenID = Some nodeID
  | _ => False
  end.

Lemma revokes_revoked registry nodeID call registry' :
  registry_ok registry -> revokes registry nodeID call -> run_call registry call = (registry', None) ->
  exists node, nodes registry' !! nodeID = Some node /\ nr_Revoked node = true.
Proof.
  intros Hok Hrev Hrun. destruct call; simpl in Hrev; try done; simpl in Hrun.
  - destruct Hrev as [Ht Hn]. unfold CancelToken in Hrun. rewrite Ht, Hn in Hrun.
    destruct (_ =? _); [done|]. injection Hrun as <-. simpl. rewrite lookup_insert_eq. eauto.
  - subst. destruct (RevokeNode registry nodeID) as [r' [c|]] eqn:E; simplify_eq/=.
    apply RevokeNode_Ok in E as (m & _ & _ & _ & ->). simpl. rewrite lookup_insert_eq. eauto.
Qed.

(** Revocation is final: once a node was revoked, or the token it enrolled
    with cancelled, no sequence of later calls lets it back in: it has no current
    credential, no credential of it is authorized at any time, nothing replays it,
    and its name can be neither renewed nor enrolled again. *)
Theorem revocation_is_final (registry registry' : MemoryRegistry) nodeID call calls :
  registry_ok registry -> call_typed call -> Forall call_typed calls ->
  revokes registry nodeID call -> run_call registry call = (registry', None) ->
  let later := run_calls registry' calls in
  CurrentCredential later nodeID = Err ErrCredentialRejected /\
  (forall c now, cred_NodeID c = nodeID -> AuthorizeCredential later c now = Some ErrCredentialRejected) /\
  (forall token digest node, ReplayEnrollment later token digest = Ok node -> nr_NodeID node <> nodeID) /\
  (forall c c' now, (RenewCredential later nodeID c c' now).2 = Some ErrCredentialRejected) /\
  (forall supplied node, nr_NodeID node = nodeID -> (ConsumeEnrollment later supplied node).2 <> None).
Proof.
  intros Hok Hty Htys Hrev Hrun.
  destruct (revokes_revoked _ _ _ _ Hok Hrev Hrun) as (node & Hn & Hr).
  assert (registry_ok registry') as Hok' by (pose proof (run_call_ok _ _ Hok Hty) as E; by rewrite Hrun in E).
  destruct (calls_progress registry' calls nodeID node Hok' Htys Hn) as (node' & Hn' & _ & Hp & _).
  apply (revoked_refused _ _ node'); [by apply run_calls_ok|done|by apply Hp].
Qed.

(** ** Refusals *)

Lemma enroll_failed_unchanged `{!HostSyntax} `{!X509} service env (r : MemoryRegistry) encoded csrDER e :
  (Enroll service env r encoded csrDER).2 = Err e -> (Enroll service env r encoded csrDER).1 = r.
Proof.
  unfold Enroll. destruct (prepare_enrollment _ _ _ _) as [[[token digest] node]|]; [|done].
  destruct (reg_ConsumeEnrollment r token node) as [r' [e'|]] eqn:Hc; [|done].
  apply law_consume_failed in Hc as ->. done.
Qed.

(** An enrollment that is refused changes nothing and tells the client no more
    than the class of the failure: a string that is not a join code is malformed;
    a code of another authority is rejected; for a well-formed request, a code
    that has not been answered yet is rejected unless the registry holds its
    token with the same secret and epoch, and a collision of node identities is an
    outage, never blamed on the credential. *)
Theorem enroll_refusals `{!HostSyntax} `{!X509} service env (r : MemoryRegistry) encoded csrDER :
  service_valid service (clock_valid env) = None ->
  let outcome := Enroll service env r encoded csrDER in
  (forall e, outcome.2 = Err e -> outcome.1 = r) /\
  (forall e, DecodeJoinCode encoded = Err e ->
     exists e', outcome.2 = Err e' /\ EnrollmentFailureOf (Some e') = EnrollmentFailureMalformed) /\
  (forall code, DecodeJoinCode encoded = Ok code ->
     caFingerprint code <> CAFingerprint (service_Identity service) ->
     exists e', outcome.2 = Err e' /\ EnrollmentFailureOf (Some e') = EnrollmentFailureRejected) /\
  (forall token digest node,
     prepare_enrollment service env encoded csrDER = Ok (token, digest, node) ->
     (exists e, ReplayEnrollment r token digest = Err e) ->
     (exists t, tokens r !! token_ID token = Some t /\ token_Epoch t = token_Epoch token /\
        token_SecretDigest t = token_SecretDigest token) \/
     exists e', outcome.2 = Err e' /\ EnrollmentFailureOf (Some e') = EnrollmentFailureRejected) /\
  (forall token digest node,
     prepare_enrollment service env encoded csrDER = Ok (token, digest, node) ->
     (ConsumeEnrollment r token node).2 = Some ErrNodeExists ->
     (exists e, ReplayEnrollment r token digest = Err e) ->
     exists e', outcome.2 = Err e' /\ EnrollmentFailureOf (Some e') = EnrollmentFailureUnavailable).
Proof.
  intros Hv outcome. unfold outcome.
  assert (Hreplay : forall token digest e, ReplayEnrollment r token digest = Err e -> e = ErrTokenNotFound).
  { intros token digest e. unfold ReplayEnrollment. repeat case_match; by intros [= <-]. }
  split_and!; [apply enroll_failed_unchanged|..]; unfold Enroll.
  - intros e He. unfold prepare_enrollment. rewrite Hv, He. eexists. split; [done|]. done.
  - intros code Hc Hfp. unfold prepare_enrollment. rewrite Hv, Hc. cbn [option_map fail_with].
    rewrite bool_decide_eq_false_2 by done. eexists. split; [done|]. by vm_compute.
  - intros token digest node -> [e He]. pose proof (Hreplay _ _ _ He) as ->. cbn.
    unfold ConsumeEnrollment.
    destruct (tokens r !! token_ID token) as [t|] eqn:Et;
      [|right; rewrite He; eexists; split; [done|by vm_compute]].
    case_bool_decide; [|right; cbn; rewrite He; eexists; split; [done|by vm_compute]].
    case_bool_decide; [|right; cbn; rewrite He; eexists; split; [done|by vm_compute]]. left. eauto.
  - intros token digest node -> Hn [e He]. pose proof (Hreplay _ _ _ He) as ->. cbn.
    destruct (ConsumeEnrollment r token node) as [r' e'] eqn:Hc. simpl in Hn. subst.
    apply (call_failed r (CallConsumeEnrollment token node)) in Hc as ->. rewrite He.
    eexists. split; [done|by vm_compute].
Qed.

(** ** When a renewal is due *)

(** C40 A renewal is due within its window: for a certificate that is valid for at
    most a year and a minute, the arithmetic on durations does not overflow, the
    renewal time lies between 70 and 90 percent of the validity, nothing is due
    before the window and everything from its end on, and it stays due. *)
Theorem renewal_window `{!X509} (certificate : Certificate PublicKey) t :
  cert_NotAfter certificate - cert_NotBefore certificate <= LeafValidity + Minute ->
  RenewalTime (Some certificate) = Ok t ->
  let validity := cert_NotAfter certificate - cert_NotBefore certificate in
  cert_NotBefore certificate + 70 * validity / 100 <= t <= cert_NotBefore certificate + 90 * validity / 100 /\
  t < cert_NotAfter certificate /\
  forall now, exists due, RenewalDue (Some certificate) now = Ok due /\ (due = true <-> t <= now).
Proof.
  intros Hlen. unfold RenewalDue, RenewalTime. destruct (_ || _) eqn:Hbad; [done|].
  conditions. destruct Hbad as [_ Hpos]. unfold After in Hpos. apply Z.ltb_lt in Hpos.
  set (nb := cert_NotBefore certificate) in *. set (na := cert_NotAfter certificate) in *.
  unfold LeafValidity, Hour, Minute, Sub, max_int64 in *.
  set (percent := 70 + _). assert (70 <= percent <= 90) as Hpercent.
  { unfold percent. pose proof (Z.mod_pos_bound (byte_val (nth 0 (sha256_Sum256 (cert_Raw certificate)) Ascii.zero)) 21). lia. }
  clearbody percent. replace (Z.max _ _) with (na - nb) by lia.
  set (validity := na - nb) in *. assert (0 < validity <= 31536060000000000) as Hv by lia.
  rewrite wrap_int64_small by (unfold max_int64; nia). rewrite Z.quot_div_nonneg by nia.
  intros [= <-]. assert (percent * validity / 100 < validity) as Hlt by (apply Z.div_lt_upper_bound; nia).
  split; [|split].
  - split; apply Z.add_le_mono_l, Z.div_le_mono; nia.
  - unfold validity in *. lia.
  - intros now. unfold Before. destruct (Z.ltb_spec now na); cbn [negb]; [|exists true; split; [done|split; lia || done]].
    eexists. split; [done|]. rewrite negb_true_iff, Z.ltb_ge. lia.
Qed.

(** ** A concrete standard library

    URLs without user information, queries and fragments; certificates that are
    the list of their fields; a request is its public key. *)

Module Toy.

Definition url_of (s : string) : option URL :=
  let bs := bytes_of s in
  match index_byte colon bs with
  | None => None
  | Some i =>
      match strip_prefix (bytes_of "//") (drop (S i) bs) with
      | None => None
      | Some rest =>
          let host := until_slash rest in
          Some (mkURL (string_of (take i bs)) "" None (string_of host)
            (string_of (drop (length host) rest)) "" false false "" "" "")
      end
  end.
Definition url_text (u : URL) : string :=
  String.append (url_Scheme u) (String.append "://" (String.append (url_Host u) (url_Path u))).

#[export] Instance syntax : HostSyntax := {
  url_Parse := url_of; URL_String := url_text; ParseAddr _ := None; ToLower s := s }.

(** Positive numbers as bytes. *)
Fixpoint pos_bytes (p : positive) : bytes :=
  match p with xH => [] | xO p => "0"%char :: pos_bytes p | xI p => "1"%char :: pos_bytes p end.
Fixpoint bytes_pos (b : bytes) : positive :=
  match b with
  | [] => xH
  | c :: b => if Ascii.eqb c "0" then xO (bytes_pos b) else xI (bytes_pos b)
  end.
Lemma bytes_pos_bytes p : bytes_pos (pos_bytes p) = p.
Proof. induction p as [p IH|p IH|]; simpl; by rewrite ?IH. Qed.

(** The fields a created certificate keeps. *)
Definition cert_fields (t : Certificate bytes) (public : bytes) : list positive :=
  [encode (cert_SerialNumber t); encode (cert_NotBefore t); encode (cert_NotAfter t);
   encode (map url_text (cert_URIs t)); encode (cert_ExtraExtensions t); encode (cert_IsCA t);
   encode public].
Definition cert_of (der : bytes) : option (Certificate bytes) :=
  fields ← decode (bytes_pos der);
  match fields with
  | [serial; nb; na; uris; exts; ca; public] =>
      serial ← decode serial; nb ← decode nb; na ← decode na; uris ← decode uris;
      exts ← decode exts; ca ← decode ca; public ← decode public; let uris := omap url_of uris in
      Some (mkCertificate der serial (truncate_second nb) (truncate_second na) "" [] uris 0 [] ca true
        exts [] (Some public))
  | _ => None
  end.

#[export] Instance x509 : X509 := {
  PublicKey := bytes; CSR := bytes;
  ParseCertificateRequest b := match b with [] => None | _ => Some b end;
  CheckSignature _ := None;
  csr_PublicKey csr := csr;
  MarshalPKIXPublicKey key := Ok key;
  ed25519_key key := Some key;
  ed25519_public key := key;
  GenerateKey reader :=
    let! (key, reader) := ReadFull reader 64 ;; Ok (key_Public key, key, reader);
  CreateCertificate reader t _ public _ := Ok (pos_bytes (encode (cert_fields t public)), reader);
  ParseCertificate der :=
    match cert_of der with Some c => Ok c | None => Err (PlainError "x509: malformed certificate") end;
  CheckSignatureFrom _ _ := None;
  VerifyServer _ _ _ _ := None;
  asn1_Marshal n := Ok (pos_bytes (encode n));
  asn1_Unmarshal b := option_map (fun n => (Some n, [])) (decode (bytes_pos b));
  sha256_Sum256 b := take 32 (b ++ repeat "s"%char 32);
  hmac_sha256 key b := take 32 (b ++ key ++ repeat "h"%char 32) }.

Lemma url_of_node nodeID :
  url_of (url_text (node_url (String.append "/node/" nodeID))) = Some (node_url (String.append "/node/" nodeID)).
Proof.
  transitivity (Some (node_url (String.append "/node/" (string_of (bytes_of nodeID)))));
    [reflexivity|by rewrite string_of_bytes_of].
Qed.

Lemma omap_urls us :
  Forall (fun u => url_of (url_text u) = Some u) us -> omap url_of (map url_text us) = us.
Proof. induction 1 as [|u us Hu _ IH]; [done|]. cbn. rewrite Hu. by f_equal. Qed.

#[export] Instance x509_laws : X509Laws.
Proof.
  split.
  - intros reader t parent public key der reader' [= <- <-]. simpl. unfold cert_of.
    rewrite bytes_pos_bytes, decode_encode. cbn [mbind option_bind cert_fields].
    repeat (rewrite decode_encode; cbn [mbind option_bind]).
    eexists. split; [reflexivity|]. cbn. split_and!; try done. apply omap_urls.
  - intros b. change (length (take 32 (b ++ repeat "s"%char 32)) = 32%nat).
    rewrite length_take, length_app, repeat_length. lia.
  - intros n b [= <-]. cbn. by rewrite bytes_pos_bytes, decode_encode.
  - intros nodeID _. apply url_of_node.
Qed.

(** A Controller, its service, and two environments. *)
Definition fill (c : ascii) (n : nat) : bytes := repeat c n.
Definition year : Z := 365 * 24 * Hour.
Definition now : Z := 2020 * year.
Definition identity : ControllerIdentity :=
  match NewControllerIdentity [] now (Some (fill "k"%char 400)) with
  | Ok identity => identity
  | Err _ => mkIdentity None [] None []
  end.
Definition service : Service := mkService true identity (fill "d"%char 32) 7.
Definition restarted : Service := mkService true identity (fill "d"%char 32) 8.
Definition env : Environment := mkEnvironment now now (fill "r"%char 100).
Definition env2 : Environment := mkEnvironment (now + Hour) (now + Hour) (fill "q"%char 100).
Definition env3 : Environment := mkEnvironment (now + 2 * Hour) (now + 2 * Hour) (fill "z"%char 100).
Definition csr : bytes := bytes_of "node key".

(** A delivered code. *)
Definition delivered : MemoryRegistry * result JoinCodeDelivery :=
  CreateJoinCodeDelivery service env NewMemoryRegistry ["controller.example.test:443"].
Definition encoded : string :=
  match delivered.2 with Ok d => delivery_encoded d | Err _ => "" end.
(** The enrollment. *)
Definition enrolled : MemoryRegistry * result EnrollmentResult :=
  Enroll service env2 delivered.1 encoded csr.
Definition answer : EnrollmentResult :=
  match enrolled.2 with
  | Ok answer => answer
  | Err _ => mkEnrollmentResult "" [] [] (mkCredential "" "" 0 0 0)
  end.
Definition renewal : MemoryRegistry * result EnrollmentResult :=
  Renew restarted env3 enrolled.1 (result_Credential answer) csr.
(** The certificate of the enrollment. *)
Definition node_random : bytes := drop 16 (random env2).
Definition issued : result (Certificate PublicKey * bytes) :=
  IssueNodeCertificate node_random identity csr (result_NodeID answer) 1 (clock_now env2) (Some node_random).
Definition certificate : Certificate PublicKey :=
  match issued with
  | Ok (c, _) => c
  | Err _ => mkCertificate [] None 0 0 "" [] [] 0 [] false false [] [] None
  end.

(** A registry in which one node has enrolled with a token. *)
Definition token : TokenRecord := mkToken (bytes_of "token") (bytes_of "digest") 7.
Definition node : NodeRecord :=
  mkNodeRecord "node" (mkCredential "node" "serial" 1 0 100) false (bytes_of "key") [] [].
Definition calls : list registry_call :=
  [CallCreateToken token; CallConsumeEnrollment token node; CallConsumeEnrollment token node].
Definition registry : MemoryRegistry := run_calls NewMemoryRegistry calls.
Lemma registry_is_ok : registry_ok registry.
Proof.
  apply run_calls_ok; [apply new_registry_ok|]. unfold calls. rewrite !Forall_cons, Forall_nil.
  split_and!; by vm_compute.
Qed.

(** The registry after the delivery. *)
Definition code : JoinCode :=
  match DecodeJoinCode encoded with Ok code => code | Err _ => mkJoinCode 0 [] [] [] [] end.
Lemma delivered_is_ok : registry_ok delivered.1.
Proof.
  replace delivered.1 with (run_call NewMemoryRegistry (CallCreateToken (token_of service code))).1
    by (vm_compute; reflexivity).
  apply run_call_ok; [apply new_registry_ok|exact I].
Qed.
Lemma delivered_fresh token digest :
  exists e, ReplayEnrollment delivered.1 token digest = Err e.
Proof.
  unfold ReplayEnrollment. replace (consumed delivered.1) with (∅ : gmap bytes TokenRecord)
    by (vm_compute; reflexivity). rewrite lookup_empty. eauto.
Qed.
Lemma enrolled_is_ok : registry_ok enrolled.1.
Proof.
  replace enrolled.1 with (run_call delivered.1 (CallConsumeEnrollment (token_of service code)
    (mkNodeRecord (result_NodeID answer) (result_Credential answer) false (sha256_Sum256 csr)
      (result_CertificateDER answer) (ca_raw service)))).1 by (vm_compute; reflexivity).
  apply run_call_ok; [apply delivered_is_ok|by vm_compute].
Qed.
End Toy.
#[local] Existing Instances Toy.syntax Toy.x509 Toy.x509_laws.

Lemma issued_certificate_identity_witness :
  NodeCredentialIdentity (Some Toy.certificate) =
    Ok (result_NodeID Toy.answer, "71717171717171717171717171717172", 1) /\
  exists CA, identity_CA Toy.identity = Some CA /\
    cert_NotAfter Toy.certificate <= cert_NotAfter CA.
Proof.
  destruct (issued_certificate_identity Toy.node_random Toy.identity Toy.csr (result_NodeID Toy.answer) 1
    (clock_now Toy.env2) (Some Toy.node_random) Toy.certificate (result_CertificateDER Toy.answer))
    as (serial & CA & Hs & _ & Hi & HCA & Hn & _); [vm_compute; reflexivity|done|].
  split; [vm_compute; reflexivity|]. exists CA. split; [exact HCA|exact Hn].
Defined.

Lemma enrollment_retry_witness :
  Enroll Toy.restarted Toy.env3 Toy.enrolled.1 Toy.encoded Toy.csr = (Toy.enrolled.1, Ok Toy.answer).
Proof.
  apply (enrollment_retry Toy.service Toy.restarted Toy.env2 Toy.env3 Toy.delivered.1).
  - exact Toy.delivered_is_ok.
  - vm_compute. reflexivity.
  - intros code token digest _ _. apply Toy.delivered_fresh.
  - reflexivity.
  - destruct (prepare_enrollment Toy.restarted Toy.env3 Toy.encoded Toy.csr) as [p|e] eqn:E;
      [exists p; reflexivity|vm_compute in E; congruence].
Defined.

Lemma delivered_code_enrolls_witness :
  exists s2 c, Enroll Toy.service Toy.env2 Toy.delivered.1 Toy.encoded Toy.csr =
      (s2, Ok (mkEnrollmentResult (result_NodeID Toy.answer) (result_CertificateDER Toy.answer)
         (ca_raw Toy.service) c)) /\
    CurrentCredential s2 (result_NodeID Toy.answer) = Ok c.
Proof.
  destruct (delivered_code_enrolls Toy.service Toy.env Toy.env2 NewMemoryRegistry Toy.delivered.1
    ["controller.example.test:443"] (mkDelivery (tokenID Toy.code) Toy.encoded) Toy.csr
    (result_NodeID Toy.answer) Toy.node_random Toy.csr Toy.csr Toy.certificate
    (result_CertificateDER Toy.answer)) as (s2 & c & H1 & _ & H2 & _).
  - exact new_registry_ok.
  - vm_compute. reflexivity.
  - vm_compute. reflexivity.
  - vm_compute. reflexivity.
  - vm_compute. reflexivity.
  - reflexivity.
  - reflexivity.
  - reflexivity.
  - vm_compute. reflexivity.
  - intros code _. exact I.
  - exists s2, c. exact (conj H1 H2).
Defined.

Lemma renewal_replaces_witness :
  exists answer, Toy.renewal.2 = Ok answer /\
    CurrentCredential Toy.renewal.1 (result_NodeID Toy.answer) = Ok (result_Credential answer) /\
    cred_Serial (result_Credential answer) <> cred_Serial (result_Credential Toy.answer).
Proof.
  destruct Toy.renewal.2 as [answer|e] eqn:E; [|vm_compute in E; congruence].
  exists answer. split; [reflexivity|].
  destruct (renewal_replaces Toy.restarted Toy.env3 Toy.enrolled.1 Toy.renewal.1
    (result_Credential Toy.answer) Toy.csr answer) as (_ & H2 & _ & _ & H5 & _).
  - exact Toy.enrolled_is_ok.
  - clear E. by vm_compute.
  - rewrite <- E. exact (surjective_pairing Toy.renewal).
  - exact (conj H2 H5).
Defined.

Lemma join_code_canonical_witness :
  DecodeJoinCode Toy.encoded = Ok Toy.code /\ Encode Toy.code = Ok Toy.encoded /\
  (exists e, DecodeJoinCode (String.append Toy.encoded "A") = Err e /\ e = ErrInvalidJoinCode).
Proof.
  assert (DecodeJoinCode Toy.encoded = Ok Toy.code) as H by (vm_compute; reflexivity).
  destruct (join_code_canonical Toy.encoded Toy.code) as [[Hd _] _].
  split; [exact H|]. split; [exact (proj2 (Hd H))|].
  destruct (join_code_canonical (String.append Toy.encoded "A") Toy.code) as [_ He].
  exists ErrInvalidJoinCode. split; [vm_compute; reflexivity|reflexivity].
Defined.

Lemma token_spent_once_witness :
  count_calls (consumes_token (bytes_of "token")) NewMemoryRegistry Toy.calls = 1%nat /\
  (count_calls (consumes_token (bytes_of "token")) NewMemoryRegistry Toy.calls <=
   count_calls (creates_token (bytes_of "token")) NewMemoryRegistry Toy.calls)%nat /\
  CallCreateToken Toy.token ∈ successes NewMemoryRegistry [CallCreateToken Toy.token].
Proof.
  split; [vm_compute; reflexivity|]. split; [apply (token_spent_once Toy.calls (bytes_of "token"))|].
  apply (token_spent_once [CallCreateToken Toy.token] (bytes_of "token")) with (node := Toy.node).
  vm_compute. reflexivity.
Defined.

Lemma revocation_is_final_witness :
  let later := run_calls (run_call Toy.registry (CallCancelToken (bytes_of "token"))).1
    [CallCreateToken Toy.token; CallConsumeEnrollment Toy.token Toy.node] in
  CurrentCredential later "node" = Err ErrCredentialRejected /\
  AuthorizeCredential later (nr_Credential Toy.node) 50 = Some ErrCredentialRejected.
Proof.
  destruct (revocation_is_final Toy.registry
    (run_call Toy.registry (CallCancelToken (bytes_of "token"))).1 "node"
    (CallCancelToken (bytes_of "token")) [CallCreateToken Toy.token; CallConsumeEnrollment Toy.token Toy.node])
    as (H1 & H2 & _).
  - exact Toy.registry_is_ok.
  - exact I.
  - rewrite !Forall_cons, Forall_nil. split_and!; by vm_compute.
  - vm_compute. split; reflexivity.
  - vm_compute. reflexivity.
  - exact (conj H1 (H2 (nr_Credential Toy.node) 50 eq_refl)).
Defined.

Lemma renewal_window_witness :
  exists t, RenewalTime (Some Toy.certificate) = Ok t /\
    cert_NotBefore Toy.certificate <= t < cert_NotAfter Toy.certificate /\
    RenewalDue (Some Toy.certificate) Toy.now = Ok false.
Proof.
  destruct (RenewalTime (Some Toy.certificate)) as [t|e] eqn:E; [|vm_compute in E; congruence].
  exists t. split; [reflexivity|].
  destruct (renewal_window Toy.certificate t) as ([H1 _] & H2 & _); [clear E; by vm_compute|exact E|].
  split; [|vm_compute; reflexivity]. split; [|exact H2].
  etransitivity; [|exact H1]. clear. by vm_compute.
Defined.

Lemma enroll_refusals_witness :
  exists e, (Enroll Toy.service Toy.env2 Toy.delivered.1 "spr_!" Toy.csr).2 = Err e /\
    EnrollmentFailureOf (Some e) = EnrollmentFailureMalformed.
Proof.
  destruct (enroll_refusals Toy.service Toy.env2 Toy.delivered.1 "spr_!" Toy.csr) as (_ & H & _);
    [vm_compute; reflexivity|].
  apply (H ErrInvalidJoinCode). vm_compute. reflexivity.
Defined.
