(* ===== verification/WorkTables.v ===== *)
(** * The tables of running work

    The rows of the Controller's database that internal/store/controller.go,
    controller_agent.go and controller_node_availability.go own: executions and the
    slot leases that point at them, processed GitHub messages, the commands issued to
    Agents, what Agents reported in their snapshots and execution updates, and the
    columns of the GitHub claims and attempts that a restart reads.  Each row comes
    with the CHECK clauses of its table; [WorkTables] is the product of the tables
    that only these files write. *)

From S2P Require Import Prelude GoStd GoEncoding Sql StoreBase Domain Execution Replay Fence AgentStore.
From Stdlib Require Import Ascii.

(** ** Executions and leases *)

(** The states a CHECK admits. *)
Definition execution_check_states : list string :=
  [ExecutionReserved; ExecutionPreparing; ExecutionRunning; ExecutionCleaning; ExecutionReleased;
   ExecutionFailed; ExecutionCleanupFailed; ExecutionQuarantined].
Definition expected_check_states : list string :=
  [ExecutionReserved; ExecutionPreparing; ExecutionRunning; ExecutionCleaning].
Definition observed_check_states : list string :=
  [ExecutionPreparing; ExecutionRunning; ExecutionCleaning; ExecutionReleased; ExecutionFailed;
   ExecutionCleanupFailed; ExecutionQuarantined].

(* src: internal/store/migrations/controller/003_agent_runtime.sql:4-16 executions_v3 *)
Record ExecutionRow := mkExecutionRow {
  ex_target_id : string; ex_node_id : string; ex_slot_index : Z; ex_state : string; ex_created_at : Z }.
(* src: internal/store/migrations/controller/003_agent_runtime.sql:5-13 executions_v3 *)
Definition execution_check (id : string) (row : ExecutionRow) : bool :=
  sql_nonempty id && sql_nonempty (ex_target_id row) && sql_nonempty (ex_node_id row) &&
  (ex_slot_index row >=? 0) && bool_decide (ex_state row ∈ execution_check_states) &&
  (ex_created_at row >? 0).
(* src: internal/store/migrations/controller/003_agent_runtime.sql:22-31 slot_reservations_v3 *)
Record ReservationRow := mkReservationRow { sr_target_id : string; sr_execution_id : string }.
(* src: internal/store/migrations/controller/003_agent_runtime.sql:23-26 slot_reservations_v3 *)
Definition reservation_check (nodeID : string) (slot : Z) (row : ReservationRow) : bool :=
  sql_nonempty nodeID && (slot >=? 0) && sql_nonempty (sr_target_id row) &&
  sql_nonempty (sr_execution_id row).
(* src: internal/store/migrations/controller/003_agent_runtime.sql:37-47 processed_messages_v3 *)
Record MessageRow := mkMessageRow {
  pm_message_digest : string; pm_execution_id : string; pm_created_at : Z }.
(* src: internal/store/migrations/controller/003_agent_runtime.sql:38-44 processed_messages_v3 *)
Definition message_check (scaleSetID messageID : Z) (row : MessageRow) : bool :=
  (scaleSetID >? 0) && (messageID >? 0) && isLowerSHA256 (pm_message_digest row) &&
  sql_nonempty (pm_execution_id row) && (pm_created_at row >? 0).

(** ** Commands *)

(** A row of [agent_commands]: the command with its identity, and when it was issued. *)
(* src: internal/store/migrations/controller/003_agent_runtime.sql:114-132 agent_commands *)
Record AgentCommandRow := mkAgentCommandRow { ac_issued : IssuedCommand; ac_issued_at : Z }.
(* src: internal/store/migrations/controller/003_agent_runtime.sql:115-126 agent_commands *)
Definition agent_command_check (row : AgentCommandRow) : bool :=
  let command := issued_Command (ac_issued row) in
  sql_nonempty (command_ID command) &&
  bool_decide (issued_Type (ac_issued row) ∈ [CommandPrepare; CommandStart; CommandCancel]) &&
  (command_ControllerEpoch command >? 0) &&
  bool_decide (command_ExpectedState command ∈ expected_check_states) &&
  isLowerSHA256 (command_PayloadDigest command) && (ac_issued_at row >? 0).

(** ** What Agents report *)

(** A row of [agent_session_snapshots]; a column that may be NULL is an [option]. *)
(* src: internal/store/migrations/controller/003_agent_runtime.sql:134-141 agent_session_snapshots *)
Record SessionRow := mkSessionRow {
  as_operating_system : string; as_architecture : string; as_runner_version : string;
  as_native_runner_ready : bool; as_max_controller_epoch : Z; as_received_at : Z;
  as_availability_intent : option string; as_shared_runner_identity : option bool }.
(* src: internal/store/migrations/controller/003_agent_runtime.sql:136-140 agent_session_snapshots *)
Definition session_check (row : SessionRow) : bool :=
  bool_decide (as_operating_system row ∈ [OSLinux; OSMacOS; OSWindows]) &&
  bool_decide (as_architecture row ∈ [ArchAMD64; ArchARM64]) &&
  (as_max_controller_epoch row >=? 0) && (as_received_at row >? 0) &&
  match as_availability_intent row with
  | Some intent => bool_decide (intent ∈ [AvailabilityAccepting; AvailabilityStopped])
  | None => true
  end.
(* src: internal/store/migrations/controller/005_reconciliation_commands.sql:4-16 agent_snapshot_authority *)
Record AuthorityRow := mkAuthorityRow {
  sa_revision : Z; sa_snapshot_digest : string; sa_accepted_by : Z; sa_committed_at : Z }.
(* src: internal/store/migrations/controller/005_reconciliation_commands.sql:7-15 agent_snapshot_authority *)
Definition authority_check (row : AuthorityRow) : bool :=
  (sa_revision row >? 0) && isLowerSHA256 (sa_snapshot_digest row) && (sa_accepted_by row >? 0) &&
  (sa_committed_at row >? 0).
(** [agent_snapshot_commands], under node and command. *)
(* src: internal/store/migrations/controller/003_agent_runtime.sql:143-162 agent_snapshot_commands *)
Definition snapshot_command_check (command : Command) : bool :=
  sql_nonempty (command_ID command) && (command_ControllerEpoch command >? 0) &&
  sql_nonempty (command_ExecutionID command) &&
  bool_decide (command_ExpectedState command ∈ expected_check_states) &&
  isLowerSHA256 (command_PayloadDigest command).
(* src: internal/store/migrations/controller/003_agent_runtime.sql:164-177 agent_snapshot_observations *)
Record ObservationRow := mkObservationRow { so_state : string; so_observed_at : Z; so_received_at : Z }.
(* src: internal/store/migrations/controller/003_agent_runtime.sql:166-172 agent_snapshot_observations *)
Definition snapshot_observation_check (executionID : string) (row : ObservationRow) : bool :=
  sql_nonempty executionID && bool_decide (so_state row ∈ observed_check_states) &&
  (so_observed_at row >? 0) && (so_received_at row >? 0).
Definition failure_codes : list string :=
  [CleanupVerificationFailed; CleanupProcessResidue; CleanupWorkspaceRemoval].
(* src: internal/store/migrations/controller/003_agent_runtime.sql:179-191 agent_snapshot_cleanup_tombstones *)
Record TombstoneRow := mkTombstoneRow { st_failure_code : string; st_recorded_at : Z; st_received_at : Z }.
(* src: internal/store/migrations/controller/003_agent_runtime.sql:181-186 agent_snapshot_cleanup_tombstones *)
Definition snapshot_tombstone_check (executionID : string) (row : TombstoneRow) : bool :=
  sql_nonempty executionID && bool_decide (st_failure_code row ∈ failure_codes) &&
  (st_recorded_at row >? 0) && (st_received_at row >? 0).
(** The membership of the current snapshot; [agent_current_snapshot_commands] maps
    node and command to the snapshot's digest. *)
(* src: internal/store/migrations/controller/005_reconciliation_commands.sql:34-51 agent_current_snapshot_observations *)
Record CurrentObservationRow := mkCurrentObservation {
  co_state : string; co_observed_at : Z; co_snapshot_digest : string }.
(* src: internal/store/migrations/controller/005_reconciliation_commands.sql:37-46 agent_current_snapshot_observations *)
Definition current_observation_check (row : CurrentObservationRow) : bool :=
  bool_decide (co_state row ∈ observed_check_states) && (co_observed_at row >? 0) &&
  isLowerSHA256 (co_snapshot_digest row).
(* src: internal/store/migrations/controller/005_reconciliation_commands.sql:53-70 agent_current_snapshot_tombstones *)
Record CurrentTombstoneRow := mkCurrentTombstone {
  ct_failure_code : string; ct_recorded_at : Z; ct_snapshot_digest : string }.
(* src: internal/store/migrations/controller/005_reconciliation_commands.sql:56-66 agent_current_snapshot_tombstones *)
Definition current_tombstone_check (row : CurrentTombstoneRow) : bool :=
  bool_decide (ct_failure_code row ∈ failure_codes) && (ct_recorded_at row >? 0) &&
  isLowerSHA256 (ct_snapshot_digest row).
(** [agent_execution_updates], under node and message; [replayed] is an INTEGER. *)
(* src: internal/store/migrations/controller/015_target_excluded_error_code.sql:9-33 agent_execution_updates_target_excluded *)
Record UpdateRow := mkUpdateRow {
  au_command_id : string; au_execution_id : string; au_state : string; au_replayed : Z;
  au_error_code : string; au_payload_digest : string; au_received_at : Z }.
(* src: internal/store/migrations/controller/015_target_excluded_error_code.sql:11-28 agent_execution_updates_target_excluded *)
Definition update_check (messageID : string) (row : UpdateRow) : bool :=
  sql_nonempty messageID && bool_decide (au_state row ∈ observed_check_states) &&
  bool_decide (au_replayed row ∈ [0; 1]) &&
  bool_decide (au_error_code row ∈ [ExecutionErrorNone; ExecutionErrorConflict; ExecutionErrorReconciliation;
    ExecutionErrorQuarantined; ExecutionErrorCleanup; ExecutionErrorStart; ExecutionErrorPlatform;
    ExecutionErrorJournal; ExecutionErrorCommandRejected; ExecutionErrorTargetExcluded]) &&
  isLowerSHA256 (au_payload_digest row) && (au_received_at row >? 0).

(** ** GitHub claims and attempts *)

(** Their columns without the times. *)
(* src: internal/store/migrations/controller/019_assigned_demand_claim_key.sql:31-50 github_job_claims_v19 *)
Record ClaimRow := mkClaimRow {
  gc_origin : string; gc_runner_request_id : option Z; gc_source_message_id : option Z;
  gc_execution_id : string; gc_state : string; gc_current_jit_attempt : Z }.
(* src: internal/store/migrations/controller/019_assigned_demand_claim_key.sql:87-104 github_jit_attempts_v19 *)
Record AttemptRow := mkAttemptRow {
  gj_controller_epoch : Z; gj_runner_name : string; gj_state : string; gj_runner_id : option Z;
  gj_jit_digest : option string; gj_start_command_id : string }.

(** ** The tables *)

Record WorkTables := mkWorkTables {
  processed_messages : gmap (Z * Z) MessageRow;
  agent_commands : gmap string AgentCommandRow;
  reconciliation_agent_commands : gmap string string;
  agent_session_snapshots : gmap string SessionRow;
  agent_snapshot_authority : gmap string AuthorityRow;
  agent_snapshot_commands : gmap (string * string) Command;
  agent_snapshot_observations : gmap (string * string) ObservationRow;
  agent_snapshot_cleanup_tombstones : gmap (string * string) TombstoneRow;
  agent_current_snapshot_commands : gmap (string * string) string;
  agent_current_snapshot_observations : gmap (string * string) CurrentObservationRow;
  agent_current_snapshot_tombstones : gmap (string * string) CurrentTombstoneRow;
  agent_execution_updates : gmap (string * string) UpdateRow;
  node_target_exclusions : gmap (string * string) Z }.
Definition no_work : WorkTables := mkWorkTables ∅ ∅ ∅ ∅ ∅ ∅ ∅ ∅ ∅ ∅ ∅ ∅ ∅.

(** One table replaced. *)
Definition work_with_messages t w := mkWorkTables t (agent_commands w) (reconciliation_agent_commands w)
  (agent_session_snapshots w) (agent_snapshot_authority w) (agent_snapshot_commands w)
  (agent_snapshot_observations w) (agent_snapshot_cleanup_tombstones w) (agent_current_snapshot_commands w)
  (agent_current_snapshot_observations w) (agent_current_snapshot_tombstones w) (agent_execution_updates w)
  (node_target_exclusions w).
Definition work_with_commands t w := mkWorkTables (processed_messages w) t (reconciliation_agent_commands w)
  (agent_session_snapshots w) (agent_snapshot_authority w) (agent_snapshot_commands w)
  (agent_snapshot_observations w) (agent_snapshot_cleanup_tombstones w) (agent_current_snapshot_commands w)
  (agent_current_snapshot_observations w) (agent_current_snapshot_tombstones w) (agent_execution_updates w)
  (node_target_exclusions w).
Definition work_with_reconciliations t w := mkWorkTables (processed_messages w) (agent_commands w) t
  (agent_session_snapshots w) (agent_snapshot_authority w) (agent_snapshot_commands w)
  (agent_snapshot_observations w) (agent_snapshot_cleanup_tombstones w) (agent_current_snapshot_commands w)
  (agent_current_snapshot_observations w) (agent_current_snapshot_tombstones w) (agent_execution_updates w)
  (node_target_exclusions w).
Definition work_with_sessions t w := mkWorkTables (processed_messages w) (agent_commands w)
  (reconciliation_agent_commands w) t (agent_snapshot_authority w) (agent_snapshot_commands w)
  (agent_snapshot_observations w) (agent_snapshot_cleanup_tombstones w) (agent_current_snapshot_commands w)
  (agent_current_snapshot_observations w) (agent_current_snapshot_tombstones w) (agent_execution_updates w)
  (node_target_exclusions w).
Definition work_with_authority t w := mkWorkTables (processed_messages w) (agent_commands w)
  (reconciliation_agent_commands w) (agent_session_snapshots w) t (agent_snapshot_commands w)
  (agent_snapshot_observations w) (agent_snapshot_cleanup_tombstones w) (agent_current_snapshot_commands w)
  (agent_current_snapshot_observations w) (agent_current_snapshot_tombstones w) (agent_execution_updates w)
  (node_target_exclusions w).
Definition work_with_snapshot_commands t w := mkWorkTables (processed_messages w) (agent_commands w)
  (reconciliation_agent_commands w) (agent_session_snapshots w) (agent_snapshot_authority w) t
  (agent_snapshot_observations w) (agent_snapshot_cleanup_tombstones w) (agent_current_snapshot_commands w)
  (agent_current_snapshot_observations w) (agent_current_snapshot_tombstones w) (agent_execution_updates w)
  (node_target_exclusions w).
Definition work_with_snapshot_observations t w := mkWorkTables (processed_messages w) (agent_commands w)
  (reconciliation_agent_commands w) (agent_session_snapshots w) (agent_snapshot_authority w)
  (agent_snapshot_commands w) t (agent_snapshot_cleanup_tombstones w) (agent_current_snapshot_commands w)
  (agent_current_snapshot_observations w) (agent_current_snapshot_tombstones w) (agent_execution_updates w)
  (node_target_exclusions w).
Definition work_with_snapshot_tombstones t w := mkWorkTables (processed_messages w) (agent_commands w)
  (reconciliation_agent_commands w) (agent_session_snapshots w) (agent_snapshot_authority w)
  (agent_snapshot_commands w) (agent_snapshot_observations w) t (agent_current_snapshot_commands w)
  (agent_current_snapshot_observations w) (agent_current_snapshot_tombstones w) (agent_execution_updates w)
  (node_target_exclusions w).
Definition work_with_current_commands t w := mkWorkTables (processed_messages w) (agent_commands w)
  (reconciliation_agent_commands w) (agent_session_snapshots w) (agent_snapshot_authority w)
  (agent_snapshot_commands w) (agent_snapshot_observations w) (agent_snapshot_cleanup_tombstones w) t
  (agent_current_snapshot_observations w) (agent_current_snapshot_tombstones w) (agent_execution_updates w)
  (node_target_exclusions w).
Definition work_with_current_observations t w := mkWorkTables (processed_messages w) (agent_commands w)
  (reconciliation_agent_commands w) (agent_session_snapshots w) (agent_snapshot_authority w)
  (agent_snapshot_commands w) (agent_snapshot_observations w) (agent_snapshot_cleanup_tombstones w)
  (agent_current_snapshot_commands w) t (agent_current_snapshot_tombstones w) (agent_execution_updates w)
  (node_target_exclusions w).
Definition work_with_current_tombstones t w := mkWorkTables (processed_messages w) (agent_commands w)
  (reconciliation_agent_commands w) (agent_session_snapshots w) (agent_snapshot_authority w)
  (agent_snapshot_commands w) (agent_snapshot_observations w) (agent_snapshot_cleanup_tombstones w)
  (agent_current_snapshot_commands w) (agent_current_snapshot_observations w) t (agent_execution_updates w)
  (node_target_exclusions w).
Definition work_with_updates t w := mkWorkTables (processed_messages w) (agent_commands w)
  (reconciliation_agent_commands w) (agent_session_snapshots w) (agent_snapshot_authority w)
  (agent_snapshot_commands w) (agent_snapshot_observations w) (agent_snapshot_cleanup_tombstones w)
  (agent_current_snapshot_commands w) (agent_current_snapshot_observations w)
  (agent_current_snapshot_tombstones w) t (node_target_exclusions w).
Definition work_with_exclusions t w := mkWorkTables (processed_messages w) (agent_commands w)
  (reconciliation_agent_commands w) (agent_session_snapshots w) (agent_snapshot_authority w)
  (agent_snapshot_commands w) (agent_snapshot_observations w) (agent_snapshot_cleanup_tombstones w)
  (agent_current_snapshot_commands w) (agent_current_snapshot_observations w)
  (agent_current_snapshot_tombstones w) (agent_execution_updates w) t.
