(* ===== verification/ControllerStore.v ===== *)
(** * The Controller's database: tables, sentinels and the audit trail

    What internal/store/enroll.go and internal/store/management.go share: the tables
    they read and write, the store value, the typed audit records with their
    validators, and the audited transaction.  The database is the product of the
    migrations under internal/store/migrations/controller; a table is a map from its
    primary key to its rows, [management_audit_events] the list of its rows by
    ascending rowid (its triggers refuse updates and deletes).

    [degradeManagementAudit] makes a store refuse audited changes for the rest of the
    process.  That flag is memory, which no rollback restores: an error that a method
    returns after degrading it carries the mark [degraded]. *)

From S2P Require Import Prelude GoStd GoEncoding Sql StoreBase EnrollRegistry EnrollPKI Domain WorkTables.
From Stdlib Require Import Ascii.

(** ** Errors *)

(* src: internal/store/management.go:17-17 ErrStaleManagementRevision *)
Definition ErrStaleManagementRevision : GoError := PlainError "management configuration revision is stale".
(* src: internal/store/management.go:18-18 ErrManagementConfiguration *)
Definition ErrManagementConfiguration : GoError := PlainError "management configuration is invalid".
(* src: internal/store/management.go:19-19 ErrManagementConfigurationDB *)
Definition ErrManagementConfigurationDB : GoError :=
  PlainError "stored management configuration is invalid".
(* src: internal/store/management.go:20-20 ErrManagementAuditRecord *)
Definition ErrManagementAuditRecord : GoError := PlainError "management audit record is invalid".
(* src: internal/store/management.go:21-21 ErrManagementAuditPersistence *)
Definition ErrManagementAuditPersistence : GoError := PlainError "management audit persistence failed".

(** [fmt.Errorf("%w: text", e)]. *)
Definition wrapf (e : GoError) (text : string) : GoError := WrappedError text e.
(** [fmt.Errorf("%w: %v", e, cause)]: the cause's text is lost here, its identity in
    the code as well. *)
Definition wrapv (e : GoError) : GoError := WrappedError "" e.

(** The compare-and-swap that failed, with both sides. *)
(* src: internal/store/management.go:27-30 StaleManagementRevisionError *)
Definition StaleManagementRevisionError (expected actual : Z) : GoError :=
  WrappedError (String.append "expected " (String.append (FormatUint expected)
    (String.append ", actual " (FormatUint actual)))) ErrStaleManagementRevision.

(** ** Configuration records *)

(* src: internal/store/management.go:45-49 ManagementNodeConfiguration *)
Record ManagementNodeConfiguration := mkNodeConfiguration {
  mnc_NodeID : NodeID; mnc_DisplayName : string; mnc_MaxRunners : Z }.
(* src: internal/store/management.go:55-58 ManagementRunnerProfile *)
Record ManagementRunnerProfile := mkManagementProfile {
  mrp_Profile : RunnerProfile; mrp_RunnerVersion : string }.
(* src: internal/store/management.go:60-63 ManagementGitHubTarget *)
Record ManagementGitHubTarget := mkManagementTarget {
  mgt_Target : GitHubTarget; mgt_ScaleSetID : Z }.
(* src: internal/store/controller_freshness.go:37-42 RunnerProfileUpdatePolicy *)
Record RunnerProfileUpdatePolicy := mkUpdatePolicy {
  rpp_ProfileID : RunnerProfileID; rpp_VersionPolicy : string;
  rpp_RunnerVersion : string; rpp_Revision : Z }.
(* src: internal/store/controller_freshness.go:44-48 GitHubTargetRuntimeBinding *)
Record GitHubTargetRuntimeBinding := mkBinding {
  gtb_TargetID : TargetID; gtb_ScaleSetID : Z; gtb_ProfileID : RunnerProfileID }.

#[export] Instance ManagementNodeConfiguration_eq_dec : EqDecision ManagementNodeConfiguration.
Proof. solve_decision. Defined.
#[export] Instance ManagementRunnerProfile_eq_dec : EqDecision ManagementRunnerProfile.
Proof. solve_decision. Defined.
#[export] Instance ManagementGitHubTarget_eq_dec : EqDecision ManagementGitHubTarget.
Proof. solve_decision. Defined.

(** ** Audit records *)

(* src: internal/store/management.go:170-178 AuditRecord *)
Record AuditRecord := mkAudit {
  audit_Actor : string;
  audit_Action : string;
  audit_Outcome : string;
  audit_ResourceKind : string;
  audit_ResourceID : string;
  audit_ErrorCode : string;
  audit_RequestID : string }.
(* src: internal/store/management.go:180-185 AuditEvent *)
Record AuditEvent := mkAuditEvent {
  event_Sequence : Z;
  event_OccurredAtUnixNano : Z;
  event_Revision : Z;
  event_Record : AuditRecord }.
#[export] Instance AuditRecord_eq_dec : EqDecision AuditRecord.
Proof. solve_decision. Defined.
#[export] Instance AuditEvent_eq_dec : EqDecision AuditEvent.
Proof. solve_decision. Defined.

Definition AuditActorAnonymous := "anonymous".
Definition AuditActorJoinCode := "join_code".
Definition AuditActorNode := "node".
Definition AuditActorSingleAdmin := "single_admin".
Definition AuditActionAuthenticationSucceeded := "authentication_succeeded".
Definition AuditActionAuthenticationFailed := "authentication_failed".
Definition AuditActionBrowserHandoffAuthorized := "browser_handoff_authorized".
Definition AuditActionEnrollmentRejected := "enrollment_rejected".
Definition AuditActionEnrollmentUnavailable := "enrollment_unavailable".
Definition AuditActionAgentSessionRejected := "agent_session_rejected".
Definition AuditActionSessionEnded := "session_ended".
Definition AuditActionJoinCodeCreated := "join_code_created".
Definition AuditActionJoinCodeCancelled := "join_code_cancelled".
Definition AuditActionConfigurationApplied := "configuration_applied".
Definition AuditActionNodeEnrolled := "node_enrolled".
Definition AuditActionNodeDrained := "node_drained".
Definition AuditActionNodeResumed := "node_resumed".
Definition AuditActionNodeRevoked := "node_revoked".
Definition AuditActionNodeAvailabilityChanged := "node_availability_changed".
Definition AuditActionNodeTargetExclusionChanged := "node_target_exclusion_changed".
Definition AuditOutcomeSucceeded := "succeeded".
Definition AuditOutcomeRejected := "rejected".
Definition AuditOutcomeFailed := "failed".
Definition AuditResourceController := "controller".
Definition AuditResourceConfiguration := "configuration".
Definition AuditResourceJoinCode := "join_code".
Definition AuditResourceNode := "node".

(** The declared constants of each string type. *)
(* src: internal/store/management.go:107-110 AuditActorAnonymous *)
Definition audit_actors : list string :=
  [AuditActorAnonymous; AuditActorJoinCode; AuditActorNode; AuditActorSingleAdmin].
(* src: internal/store/management.go:112-130 AuditActionAuthenticationSucceeded *)
Definition audit_actions : list string :=
  [AuditActionAuthenticationSucceeded; AuditActionAuthenticationFailed;
   AuditActionBrowserHandoffAuthorized; AuditActionEnrollmentRejected; AuditActionEnrollmentUnavailable;
   AuditActionAgentSessionRejected; AuditActionSessionEnded; AuditActionJoinCodeCreated;
   AuditActionJoinCodeCancelled; AuditActionConfigurationApplied; AuditActionNodeEnrolled;
   AuditActionNodeDrained; AuditActionNodeResumed; AuditActionNodeRevoked;
   AuditActionNodeAvailabilityChanged; AuditActionNodeTargetExclusionChanged].
(* src: internal/store/management.go:132-134 AuditOutcomeSucceeded *)
Definition audit_outcomes : list string :=
  [AuditOutcomeSucceeded; AuditOutcomeRejected; AuditOutcomeFailed].
(* src: internal/store/management.go:136-139 AuditResourceController *)
Definition audit_resource_kinds : list string :=
  [AuditResourceController; AuditResourceConfiguration; AuditResourceJoinCode; AuditResourceNode].
(* src: internal/store/management.go:141-164 AuditErrorAuthenticationFailed *)
Definition audit_error_codes : list string :=
  ["authentication_failed"; "enrollment_rejected"; "enrollment_rate_limited"; "enrollment_unavailable";
   "node_credential_rejected"; "agent_protocol_rejected"; "host_rejected"; "event_stream_rejected";
   "mutation_rejected"; "management_unavailable"; "configuration_revision_conflict";
   "validation_failed"; "join_code_not_found"; "state_conflict"; "invalid_body";
   "invalid_precondition"; "precondition_required"; "request_forbidden"; "misdirected_host";
   "method_not_allowed"; "payload_too_large"; "unsupported_media_type"; "session_unavailable";
   "invalid_session_request"].

(** ** Validators *)

(* src: internal/store/controller_freshness.go:544-546 canonicalRuntimeIdentifier *)
Definition canonicalRuntimeIdentifier (value : string) : bool :=
  (value != "") && (TrimSpace value == value).
(* src: internal/store/controller_freshness.go:548-550 canonicalRunnerVersion *)
Definition canonicalRunnerVersion (value : string) : bool :=
  canonicalRuntimeIdentifier value && (len_string value <=? 64).
(* src: internal/store/controller_freshness.go:552-557 validateScaleSetID *)
Definition validateScaleSetID (scaleSetID : Z) : error :=
  if (scaleSetID == 0) || (scaleSetID >? maxSQLiteInteger)
  then Some (PlainError "GitHub scale set ID is invalid") else None.
(* src: internal/store/controller_freshness.go:520-534 validateRunnerProfileUpdatePolicy *)
Definition validateRunnerProfileUpdatePolicy (policy : RunnerProfileUpdatePolicy) : error :=
  if negb (canonicalRuntimeIdentifier (rpp_ProfileID policy)) ||
     negb (canonicalRunnerVersion (rpp_RunnerVersion policy))
  then Some (PlainError "runner profile policy requires profile ID and runner version")
  else if (rpp_Revision policy == 0) || (rpp_Revision policy >? maxSQLiteInteger)
  then Some (PlainError "runner profile policy revision is invalid")
  else if bool_decide (rpp_VersionPolicy policy ∈ [RunnerVersionAutoUpdate; RunnerVersionPinned])
  then None else Some (PlainError "runner profile policy version policy is invalid").

Definition audit_invalid (text : string) : error := Some (wrapf ErrManagementAuditRecord text).

(** [hex.DecodeString] succeeds on pairs of hexadecimal digits of either case, and
    [hex.EncodeToString] answers lower case: together, lower-case hexadecimal. *)
(* src: internal/store/management.go:2357-2369 validAuditRequestID *)
Definition validAuditRequestID (value : string) : bool :=
  if value == "req_unavailable" then true
  else if (len_string value != 36) || negb (has_prefix "req_" value) then false
  else let suffix := string_from 4 value in
    (len_string suffix == 32) && all_bytes lower_hex_byte suffix.

(** The resource kind of an action, when the action is declared. *)
Definition action_resource (action : string) : option string :=
  if bool_decide (action ∈ [AuditActionAuthenticationSucceeded; AuditActionAuthenticationFailed;
       AuditActionBrowserHandoffAuthorized; AuditActionEnrollmentRejected;
       AuditActionEnrollmentUnavailable; AuditActionSessionEnded])
  then Some AuditResourceController
  else if action == AuditActionConfigurationApplied then Some AuditResourceConfiguration
  else if bool_decide (action ∈ [AuditActionJoinCodeCreated; AuditActionJoinCodeCancelled])
  then Some AuditResourceJoinCode
  else if bool_decide (action ∈ [AuditActionNodeEnrolled; AuditActionAgentSessionRejected;
       AuditActionNodeDrained; AuditActionNodeResumed; AuditActionNodeRevoked;
       AuditActionNodeAvailabilityChanged; AuditActionNodeTargetExclusionChanged])
  then Some AuditResourceNode
  else None.
(* src: internal/store/management.go:2285-2320 validateAuditActionResource *)
Definition validateAuditActionResource (record : AuditRecord) : error :=
  match action_resource (audit_Action record) with
  | None => audit_invalid "action is not allowlisted"
  | Some expected =>
      if audit_ResourceKind record != expected
      then audit_invalid "action and resource kind do not match" else None
  end.

(* src: internal/store/management.go:2211-2283 validateAuditActorOutcome *)
Definition validateAuditActorOutcome (record : AuditRecord) : error :=
  let actor := audit_Actor record in
  let outcome := audit_Outcome record in
  let action := audit_Action record in
  if action == AuditActionAuthenticationSucceeded then
    if (actor != AuditActorSingleAdmin) || (outcome != AuditOutcomeSucceeded)
    then audit_invalid "authentication success actor or outcome is invalid" else None
  else if action == AuditActionAuthenticationFailed then
    if (actor != AuditActorAnonymous) ||
       ((outcome != AuditOutcomeRejected) && (outcome != AuditOutcomeFailed))
    then audit_invalid "authentication failure actor or outcome is invalid" else None
  else if action == AuditActionEnrollmentRejected then
    if (actor != AuditActorAnonymous) || (outcome != AuditOutcomeRejected)
    then audit_invalid "enrollment rejection actor or outcome is invalid" else None
  else if action == AuditActionEnrollmentUnavailable then
    if (actor != AuditActorAnonymous) || (outcome != AuditOutcomeFailed)
    then audit_invalid "enrollment availability actor or outcome is invalid" else None
  else if action == AuditActionAgentSessionRejected then
    if (actor != AuditActorNode) || (outcome != AuditOutcomeRejected)
    then audit_invalid "agent session rejection actor or outcome is invalid" else None
  else if bool_decide (action ∈ [AuditActionNodeAvailabilityChanged; AuditActionNodeTargetExclusionChanged]) then
    if (actor != AuditActorNode) || (outcome != AuditOutcomeSucceeded)
    then audit_invalid "node availability adoption actor or outcome is invalid" else None
  else if action == AuditActionNodeEnrolled then
    if (actor != AuditActorJoinCode) || (outcome != AuditOutcomeSucceeded)
    then audit_invalid "enrollment actor or outcome is invalid" else None
  else if actor != AuditActorSingleAdmin
  then audit_invalid "management mutation actor is invalid" else None.

(* src: internal/store/management.go:2322-2355 validateAuditErrorCode *)
Definition validateAuditErrorCode (code : string) : error :=
  if bool_decide (code ∈ audit_error_codes) then None
  else audit_invalid "error code is not allowlisted".

(* src: internal/store/management.go:2126-2209 validateAuditRecord *)
Definition validateAuditRecord (record : AuditRecord) : error :=
  if negb (bool_decide (audit_Actor record ∈ audit_actors))
  then audit_invalid "actor is not allowlisted"
  else if negb (bool_decide (audit_Action record ∈ audit_actions))
  then audit_invalid "action is not allowlisted"
  else if negb (bool_decide (audit_Outcome record ∈ audit_outcomes))
  then audit_invalid "outcome is not allowlisted"
  else if negb (bool_decide (audit_ResourceKind record ∈ audit_resource_kinds))
  then audit_invalid "resource kind is not allowlisted"
  else
  try (if bool_decide (audit_ResourceKind record ∈ [AuditResourceController; AuditResourceConfiguration])
       then if audit_ResourceID record != ""
            then audit_invalid "singleton resource cannot have an ID" else None
       else if negb (canonicalRuntimeIdentifier (audit_ResourceID record))
            then audit_invalid "resource ID is required" else None) ;;
  try validateAuditActionResource record ;;
  try validateAuditActorOutcome record ;;
  try (if audit_Outcome record == AuditOutcomeSucceeded
       then if audit_ErrorCode record != ""
            then audit_invalid "successful event cannot have an error code" else None
       else validateAuditErrorCode (audit_ErrorCode record)) ;;
  if negb (validAuditRequestID (audit_RequestID record))
  then audit_invalid "request ID is invalid" else None.

(* src: internal/store/management.go:2023-2044 validateExactAudit *)
Definition validateExactAudit (record : AuditRecord) (actor action resourceKind resourceID : string)
    : error :=
  try validateAuditRecord record ;;
  if (audit_Actor record != actor) || (audit_Action record != action) ||
     (audit_Outcome record != AuditOutcomeSucceeded) ||
     (audit_ResourceKind record != resourceKind) || (audit_ResourceID record != resourceID)
  then audit_invalid "mutation success record does not match the operation" else None.
(* src: internal/store/management.go:2008-2021 validateExactManagementAudit *)
Definition validateExactManagementAudit (record : AuditRecord) (action resourceKind resourceID : string)
    : error :=
  validateExactAudit record AuditActorSingleAdmin action resourceKind resourceID.
(* src: internal/store/management.go:1991-2006 validateConfigurationApplyAudit *)
Definition validateConfigurationApplyAudit (record : AuditRecord) : error :=
  try validateAuditRecord record ;;
  if (audit_Actor record != AuditActorSingleAdmin) ||
     (audit_Action record != AuditActionConfigurationApplied) ||
     (audit_Outcome record != AuditOutcomeSucceeded) ||
     (audit_ResourceKind record != AuditResourceConfiguration) || (audit_ResourceID record != "")
  then audit_invalid "configuration apply requires the single-admin success record" else None.

(* src: internal/store/management.go:2371-2382 validateStoredAuditEvent *)
Definition validateStoredAuditEvent (event : AuditEvent) : error :=
  if (event_Sequence event == 0) || (event_Sequence event >? maxSQLiteInteger) ||
     (event_OccurredAtUnixNano event <=? 0) || (event_Revision event >? maxSQLiteInteger)
  then audit_invalid "stored event envelope is invalid"
  else validateAuditRecord (event_Record event).

(** ** Tables *)

(* src: internal/store/migrations/controller/002_enrollment.sql:1-5 enrollment_tokens *)
Record TokenRow := mkTokenRow { tk_secret_digest : bytes; tk_controller_epoch : Z }.
(* src: internal/store/migrations/controller/002_enrollment.sql:7-15 enrolled_nodes *)
Record NodeRow := mkNodeRow {
  en_current_serial : string; en_credential_epoch : Z; en_not_before_unix_nano : Z;
  en_not_after_unix_nano : Z; en_revoked : bool }.
(* src: internal/store/migrations/controller/002_enrollment.sql:17-25 enrollment_replays *)
Record ReplayRow := mkReplayRow {
  er_secret_digest : bytes; er_controller_epoch : Z; er_public_key_digest : bytes;
  er_node_id : string; er_certificate_der : bytes; er_ca_der : bytes }.
Record ControllerDB := mkControllerDB {
  store_metadata : gmap string string;
  enrollment_tokens : gmap bytes TokenRow;
  enrolled_nodes : gmap string NodeRow;
  enrollment_replays : gmap bytes ReplayRow;
  node_administrative_states : gmap string string;
  management_revision : Z;
  management_fleet_max : option Z;
  management_node_configurations : gmap string ManagementNodeConfiguration;
  management_runner_profiles : gmap string ManagementRunnerProfile;
  management_github_targets : gmap string ManagementGitHubTarget;
  management_audit_events : list AuditEvent;
  runner_profile_update_policies : gmap string RunnerProfileUpdatePolicy;
  github_target_runtime_bindings : gmap string GitHubTargetRuntimeBinding;
  slot_reservations : gmap (string * Z) ReservationRow;
  executions : gmap string ExecutionRow;
  github_job_claims : gmap (Z * Z) ClaimRow;
  github_jit_attempts : gmap (Z * Z * Z) AttemptRow;
  agent_work : WorkTables }.

(** One table replaced. *)
Definition with_metadata t db := mkControllerDB t (enrollment_tokens db)
  (enrolled_nodes db) (enrollment_replays db) (node_administrative_states db) (management_revision db)
  (management_fleet_max db) (management_node_configurations db) (management_runner_profiles db)
  (management_github_targets db) (management_audit_events db) (runner_profile_update_policies db)
  (github_target_runtime_bindings db) (slot_reservations db) (executions db) (github_job_claims db)
  (github_jit_attempts db) (agent_work db).
Definition with_tokens t db := mkControllerDB (store_metadata db) t
  (enrolled_nodes db) (enrollment_replays db) (node_administrative_states db) (management_revision db)
  (management_fleet_max db) (management_node_configurations db) (management_runner_profiles db)
  (management_github_targets db) (management_audit_events db) (runner_profile_update_policies db)
  (github_target_runtime_bindings db) (slot_reservations db) (executions db) (github_job_claims db)
  (github_jit_attempts db) (agent_work db).
Definition with_nodes t db := mkControllerDB (store_metadata db) (enrollment_tokens db)
  t (enrollment_replays db) (node_administrative_states db) (management_revision db)
  (management_fleet_max db) (management_node_configurations db) (management_runner_profiles db)
  (management_github_targets db) (management_audit_events db) (runner_profile_update_policies db)
  (github_target_runtime_bindings db) (slot_reservations db) (executions db) (github_job_claims db)
  (github_jit_attempts db) (agent_work db).
Definition with_replays t db := mkControllerDB (store_metadata db) (enrollment_tokens db)
  (enrolled_nodes db) t (node_administrative_states db) (management_revision db)
  (management_fleet_max db) (management_node_configurations db) (management_runner_profiles db)
  (management_github_targets db) (management_audit_events db) (runner_profile_update_policies db)
  (github_target_runtime_bindings db) (slot_reservations db) (executions db) (github_job_claims db)
  (github_jit_attempts db) (agent_work db).
Definition with_states t db := mkControllerDB (store_metadata db) (enrollment_tokens db)
  (enrolled_nodes db) (enrollment_replays db) t (management_revision db)
  (management_fleet_max db) (management_node_configurations db) (management_runner_profiles db)
  (management_github_targets db) (management_audit_events db) (runner_profile_update_policies db)
  (github_target_runtime_bindings db) (slot_reservations db) (executions db) (github_job_claims db)
  (github_jit_attempts db) (agent_work db).
Definition with_state revision fleet db := mkControllerDB (store_metadata db) (enrollment_tokens db)
  (enrolled_nodes db) (enrollment_replays db) (node_administrative_states db) revision fleet
  (management_node_configurations db) (management_runner_profiles db)
  (management_github_targets db) (management_audit_events db) (runner_profile_update_policies db)
  (github_target_runtime_bindings db) (slot_reservations db) (executions db) (github_job_claims db)
  (github_jit_attempts db) (agent_work db).
Definition with_node_configurations t db := mkControllerDB (store_metadata db) (enrollment_tokens db)
  (enrolled_nodes db) (enrollment_replays db) (node_administrative_states db) (management_revision db)
  (management_fleet_max db) t (management_runner_profiles db)
  (management_github_targets db) (management_audit_events db) (runner_profile_update_policies db)
  (github_target_runtime_bindings db) (slot_reservations db) (executions db) (github_job_claims db)
  (github_jit_attempts db) (agent_work db).
Definition with_profiles t db := mkControllerDB (store_metadata db) (enrollment_tokens db)
  (enrolled_nodes db) (enrollment_replays db) (node_administrative_states db) (management_revision db)
  (management_fleet_max db) (management_node_configurations db) t
  (management_github_targets db) (management_audit_events db) (runner_profile_update_policies db)
  (github_target_runtime_bindings db) (slot_reservations db) (executions db) (github_job_claims db)
  (github_jit_attempts db) (agent_work db).
Definition with_targets t db := mkControllerDB (store_metadata db) (enrollment_tokens db)
  (enrolled_nodes db) (enrollment_replays db) (node_administrative_states db) (management_revision db)
  (management_fleet_max db) (management_node_configurations db) (management_runner_profiles db)
  t (management_audit_events db) (runner_profile_update_policies db)
  (github_target_runtime_bindings db) (slot_reservations db) (executions db) (github_job_claims db)
  (github_jit_attempts db) (agent_work db).
Definition with_audit t db := mkControllerDB (store_metadata db) (enrollment_tokens db)
  (enrolled_nodes db) (enrollment_replays db) (node_administrative_states db) (management_revision db)
  (management_fleet_max db) (management_node_configurations db) (management_runner_profiles db)
  (management_github_targets db) t (runner_profile_update_policies db)
  (github_target_runtime_bindings db) (slot_reservations db) (executions db) (github_job_claims db)
  (github_jit_attempts db) (agent_work db).
Definition with_policies t db := mkControllerDB (store_metadata db) (enrollment_tokens db)
  (enrolled_nodes db) (enrollment_replays db) (node_administrative_states db) (management_revision db)
  (management_fleet_max db) (management_node_configurations db) (management_runner_profiles db)
  (management_github_targets db) (management_audit_events db) t
  (github_target_runtime_bindings db) (slot_reservations db) (executions db) (github_job_claims db)
  (github_jit_attempts db) (agent_work db).
Definition with_bindings t db := mkControllerDB (store_metadata db) (enrollment_tokens db)
  (enrolled_nodes db) (enrollment_replays db) (node_administrative_states db) (management_revision db)
  (management_fleet_max db) (management_node_configurations db) (management_runner_profiles db)
  (management_github_targets db) (management_audit_events db) (runner_profile_update_policies db)
  t (slot_reservations db) (executions db) (github_job_claims db) (github_jit_attempts db) (agent_work db).
Definition with_reservations t db := mkControllerDB (store_metadata db) (enrollment_tokens db)
  (enrolled_nodes db) (enrollment_replays db) (node_administrative_states db) (management_revision db)
  (management_fleet_max db) (management_node_configurations db) (management_runner_profiles db)
  (management_github_targets db) (management_audit_events db) (runner_profile_update_policies db)
  (github_target_runtime_bindings db) t (executions db) (github_job_claims db)
  (github_jit_attempts db) (agent_work db).
Definition with_executions t db := mkControllerDB (store_metadata db) (enrollment_tokens db)
  (enrolled_nodes db) (enrollment_replays db) (node_administrative_states db) (management_revision db)
  (management_fleet_max db) (management_node_configurations db) (management_runner_profiles db)
  (management_github_targets db) (management_audit_events db) (runner_profile_update_policies db)
  (github_target_runtime_bindings db) (slot_reservations db) t (github_job_claims db)
  (github_jit_attempts db) (agent_work db).
Definition with_work t db := mkControllerDB (store_metadata db) (enrollment_tokens db)
  (enrolled_nodes db) (enrollment_replays db) (node_administrative_states db) (management_revision db)
  (management_fleet_max db) (management_node_configurations db) (management_runner_profiles db)
  (management_github_targets db) (management_audit_events db) (runner_profile_update_policies db)
  (github_target_runtime_bindings db) (slot_reservations db) (executions db) (github_job_claims db)
  (github_jit_attempts db) t.

(** [last_insert_rowid] of a row without a key: one more than the largest; at the
    largest [int64] SQLite searches for a free number at random, which counts as a
    full table here. *)
Definition next_audit_sequence (db : ControllerDB) : Z :=
  1 + foldr Z.max 0 (map event_Sequence (management_audit_events db)).

(** ** Stores *)

(** A [ControllerStore] during a call: [cs_auditHealthy] is the flag when the method
    tests it, [cs_auditGate] when the commit holds the gate, between which another
    call may have degraded it. *)
(* src: internal/store/store.go:86-100 ControllerStore *)
Record ControllerStore := mkControllerStore {
  cs_base : baseStore; cs_auditHealthy : bool; cs_auditGate : bool }.

(* src: internal/store/management.go:355-357 ControllerStore.ManagementAuditHealthy *)
Definition ManagementAuditHealthy (s : ControllerStore) : bool :=
  (Ready (cs_base s) == None) && cs_auditHealthy s.
(** The same test under the gate. *)
Definition audit_gate_healthy (s : ControllerStore) : bool :=
  (Ready (cs_base s) == None) && cs_auditGate s.

(** The mark of an error returned after [degradeManagementAudit]. *)
Definition degraded_mark : string := "management audit degraded".
(* src: internal/store/management.go:369-378 ControllerStore.degradeManagementAudit *)
Definition degraded (e : GoError) : GoError := WrappedError degraded_mark e.
Definition is_degraded (e : GoError) : bool :=
  match e with WrappedError mark _ => mark == degraded_mark | _ => false end.
(** [if err != nil { return wrap(err) }], and the same after degrading. *)
Definition mapping_error {A} (wrap : GoError -> GoError) (m : sql ControllerDB A) : sql ControllerDB A :=
  fun c => match m c with (Err e, c) => (Err (wrap e), c) | (Ok a, c) => (Ok a, c) end.
Definition degrading {A} (wrap : GoError -> GoError) (m : sql ControllerDB A) : sql ControllerDB A :=
  mapping_error (fun e => degraded (wrap e)) m.

(** The CHECKs that the validators leave: [length] counts up to the first NUL. *)
Definition audit_check (record : AuditRecord) : bool :=
  bool_decide (audit_ResourceKind record ∈ [AuditResourceController; AuditResourceConfiguration]) ||
  sql_nonempty (audit_ResourceID record).

(* src: internal/store/management.go:1489-1526 insertAuditEvent *)
Definition insertAuditEvent (occurredAt revision : Z) (record : AuditRecord) : sql ControllerDB AuditEvent :=
  require (validateAuditRecord record) ;;
  statement (fun db =>
    let event := mkAuditEvent (next_audit_sequence db) occurredAt revision record in
    if negb (audit_check record) || (max_int64 <? event_Sequence event) then Err ErrConstraint
    else Ok (event, with_audit (management_audit_events db ++ [event]) db)).

(** The end of an audited transaction: under the gate, the commit, whose failure
    degrades the audit authority; or, when that is degraded already, the rollback. *)
(* src: internal/store/management.go:380-402 ControllerStore.commitWithManagementAudit *)
Definition commitWithManagementAudit {A} (s : ControllerStore) (body : sql ControllerDB A)
    : sql ControllerDB A :=
  in_tx_recovering
    (a ← body ;
     if negb (audit_gate_healthy s) then throw ErrManagementAuditPersistence else mret (CommitWith a))
    (fun e _ => throw (degraded e)).

(** The evidence of a change, in the transaction of the change. *)
Definition record_evidence (occurredAt revision : Z) (audit : AuditRecord) : sql ControllerDB unit :=
  degrading (fun _ => wrapv ErrManagementAuditPersistence) (insertAuditEvent occurredAt revision audit) ;;
  mret tt.

(** [SELECT revision, fleet_max_runners FROM management_configuration_state WHERE
    singleton = 1]: the migration inserts the row, whose CHECKs keep the revision
    from being negative and the maximum positive. *)
(* src: internal/store/management.go:1021-1057 readManagementState *)
Definition readManagementState : sql ControllerDB (Z * option Z) :=
  '(revision, fleetMaximum) ← mapping_error (fun _ => wrapf ErrManagementConfigurationDB "state")
    (query (fun db => Ok (management_revision db, management_fleet_max db))) ;
  if revision >? maxSQLiteInteger
  then throw (wrapf ErrManagementConfigurationDB "revision exceeds SQLite range")
  else match fleetMaximum with
  | Some n =>
      if (n <? 1) || (wrap_uint64 n >? maxSQLiteInteger)
      then throw (wrapf ErrManagementConfigurationDB "fleet maximum is invalid")
      else mret (revision, Some n)
  | None => mret (revision, None)
  end.
(* src: internal/store/management.go:1016-1019 readManagementRevision *)
Definition readManagementRevision : sql ControllerDB Z :=
  state ← readManagementState ; mret state.1.

(** [UPDATE management_configuration_state SET revision = next WHERE singleton = 1
    AND revision = current] and the test of the rows affected. *)
(* src: internal/store/management.go:2096-2124 updateManagementRevision *)
Definition updateManagementRevision (current next : Z) : sql ControllerDB unit :=
  affected ← statement (fun db =>
    if management_revision db == current
    then if next <? 0 then Err ErrConstraint else Ok (1, with_state next (management_fleet_max db) db)
    else Ok (0, db)) ;
  if affected != 1
  then throw (wrapf ErrManagementConfigurationDB "management revision compare-and-swap failed")
  else mret tt.
