(* ===== verification/StoreCheck.v ===== *)
(** * The checks of a Controller's database (internal/store/store.go)

    The queries with which [validateDataInvariants] refuses a backup whose executions and
    leases, or whose nodes and configurations, disagree.  Its queries on requeue intents
    and acquire attempts read tables that are not modelled. *)

From S2P Require Import Prelude GoStd GoEncoding Sql StoreBase Domain Execution WorkTables ControllerStore.
From Stdlib Require Import Ascii.

(** The leases of an execution: [count(slot_reservations.execution_id)] in its group. *)
Definition leases_held (executionID : string) (db : ControllerDB) : nat :=
  size (filter (fun row => sr_execution_id row.2 = executionID) (slot_reservations db)).
(* src: internal/store/store.go:1004-1027 validateDataInvariants *)
Definition execution_reservations_invalid (db : ControllerDB) : bool :=
  existsb (fun '(id, row) =>
    (bool_decide (ex_state row ∈ [ExecutionReserved; ExecutionPreparing; ExecutionRunning; ExecutionCleaning;
        ExecutionCleanupFailed]) && negb (Nat.eqb (leases_held id db) 1)) ||
    (bool_decide (ex_state row ∈ [ExecutionReleased; ExecutionFailed; ExecutionQuarantined]) &&
     negb (Nat.eqb (leases_held id db) 0)))
    (map_to_list (executions db)).
(** The singleton row always exists in the model. *)
(* src: internal/store/store.go:1199-1225 validateDataInvariants *)
Definition management_authority_invalid (db : ControllerDB) : bool :=
  negb ((management_revision db >=? 0) &&
        match management_fleet_max db with None => true | Some n => n >=? 1 end) ||
  existsb (fun '(nodeID, _) => management_node_configurations db !! nodeID == None) (map_to_list (enrolled_nodes db)) ||
  existsb (fun '(nodeID, _) => negb (bool_decide (is_Some (enrolled_nodes db !! nodeID))))
    (map_to_list (management_node_configurations db)).
