(* ===== verification/StoreEnroll.v ===== *)
(** * Enrollment in the Controller's database (internal/store/enroll.go)

    The tokens, enrolled nodes and replay identities behind the enrollment service,
    as programs over [ControllerDB]; and the audited changes of join codes and nodes
    from internal/store/management.go.  A method that calls the revocation hook after
    its commit answers the credential it passes. *)

From S2P Require Import Prelude GoStd GoEncoding Sql StoreBase EnrollRegistry EnrollPKI Domain ControllerStore.
From Stdlib Require Import Ascii.

Abbreviation program := (sql ControllerDB).

(** ** Checks *)

(* src: internal/store/enroll.go:495-501 allZero *)
Definition allZero (value : bytes) : bool :=
  foldl (fun combined item => Z.lor combined (byte_val item)) 0 value =? 0.
(** [for _, item := range value]: a rune that is not one ASCII byte is not
    hexadecimal, nor is any of its bytes. *)
(* src: internal/store/enroll.go:508-515 isLowerHex *)
Definition isLowerHex (value : string) : bool := all_bytes lower_hex_byte value.
(** [value == strings.ToLower(value)] adds nothing to [isLowerHex(value)]. *)
(* src: internal/store/enroll.go:502-504 canonicalNodeID *)
Definition canonicalNodeID (value : string) : bool := (len_string value == 32) && isLowerHex value.
(* src: internal/store/enroll.go:505-507 canonicalSerial *)
Definition canonicalSerial (value : string) : bool := (value != "") && isLowerHex value.
(* src: internal/store/enroll.go:491-493 equalCredential *)
Definition equalCredential (left right : Credential) : bool :=
  (cred_NodeID left == cred_NodeID right) && (cred_Serial left == cred_Serial right) &&
  (cred_Epoch left == cred_Epoch right) && (cred_NotBefore left == cred_NotBefore right) &&
  (cred_NotAfter left == cred_NotAfter right).
(* src: internal/store/enroll.go:476-489 enrollmentTimes *)
Definition enrollmentTimes (credential : Credential) : result (Z * Z) :=
  if (cred_Epoch credential =? 0) || (cred_Serial credential == "") ||
     negb (After (cred_NotAfter credential) (cred_NotBefore credential))
  then Err ErrCredentialRejected
  else
  let! before := storeUnixNano (cred_NotBefore credential) ;;
  let! after := storeUnixNano (cred_NotAfter credential) ;;
  Ok (before, after).
(* src: internal/store/enroll.go:151-169 validateEnrollmentInput *)
Definition validateEnrollmentInput (supplied : TokenRecord) (node : NodeRecord) : result (Z * Z) :=
  if (token_Epoch supplied =? 0) || (token_Epoch supplied >? maxSQLiteInteger) ||
     allZero (token_ID supplied) || allZero (token_SecretDigest supplied) ||
     negb (canonicalNodeID (nr_NodeID node)) || (cred_NodeID (nr_Credential node) != nr_NodeID node) ||
     negb (canonicalSerial (cred_Serial (nr_Credential node))) || (cred_Epoch (nr_Credential node) =? 0) ||
     allZero (nr_PublicKeyDigest node) || (length (nr_CertificateDER node) =? 0)%nat ||
     (length (nr_CACertificateDER node) =? 0)%nat
  then Err ErrCredentialRejected
  else enrollmentTimes (nr_Credential node).

(** ** Statements *)

(** database/sql refuses a uint64 argument with its high bit set. *)
Definition ErrSQLArgument : GoError := PlainError "sql: uint64 values with high bit set are not supported".
Definition uint64_arg (n : Z) : result Z := if n >? maxSQLiteInteger then Err ErrSQLArgument else Ok n.

Definition blob_check (size : nat) (value : bytes) : bool :=
  (length value =? size)%nat && negb (allZero value).

(** The rows with the CHECKs of migration 002; a replay refers to a node, which has
    at most one. *)
Definition insert_token (id : bytes) (row : TokenRow) : program unit :=
  exec (fun db =>
    let! t := insert_row (blob_check 16 id && blob_check 32 (tk_secret_digest row) &&
      (0 <? tk_controller_epoch row)) id row (enrollment_tokens db) ;;
    Ok (with_tokens t db)).
Definition node_check (nodeID : string) (row : NodeRow) : bool :=
  canonicalNodeID nodeID && canonicalSerial (en_current_serial row) && (0 <? en_credential_epoch row) &&
  (en_not_before_unix_nano row <? en_not_after_unix_nano row).
(** The triggers of migrations 003 and 011 add the administrative state and the
    configuration of the node. *)
Definition insert_enrolled_node (nodeID : string) (row : NodeRow) : program unit :=
  exec (fun db =>
    let! _ := uint64_arg (en_credential_epoch row) ;;
    let! nodes := insert_row (node_check nodeID row) nodeID row (enrolled_nodes db) ;;
    let! states := insert_row true nodeID (if en_revoked row then NodeRevoked else NodeActive)
      (node_administrative_states db) ;;
    let! configurations := insert_row (sql_nonempty nodeID) nodeID (mkNodeConfiguration nodeID nodeID 1)
      (management_node_configurations db) ;;
    Ok (with_node_configurations configurations (with_states states (with_nodes nodes db)))).
Definition insert_replay (id : bytes) (row : ReplayRow) : program unit :=
  exec (fun db =>
    let unique := forallb (fun r => negb (bool_decide (er_node_id r.2 = er_node_id row)))
      (map_to_list (enrollment_replays db)) in
    let! t := insert_row (blob_check 16 id && blob_check 32 (er_secret_digest row) &&
      (0 <? er_controller_epoch row) && (length (er_public_key_digest row) =? 32)%nat &&
      negb (length (er_certificate_der row) =? 0)%nat && negb (length (er_ca_der row) =? 0)%nat &&
      unique && bool_decide (is_Some (enrolled_nodes db !! er_node_id row))) id row (enrollment_replays db) ;;
    Ok (with_replays t db)).
(** [DELETE FROM enrollment_tokens WHERE token_id = ?] and the rows affected. *)
Definition delete_token (id : bytes) : program Z :=
  statement (fun db =>
    match enrollment_tokens db !! id with
    | Some _ => Ok (1, with_tokens (delete id (enrollment_tokens db)) db)
    | None => Ok (0, db)
    end).
(** [DELETE FROM enrollment_replays] by token, and by node. *)
Definition delete_replay (id : bytes) : program unit :=
  exec (fun db => Ok (with_replays (delete id (enrollment_replays db)) db)).
Definition delete_node_replays (nodeID : string) : program unit :=
  exec (fun db => Ok (with_replays (filter (fun '(_, r) => er_node_id r <> nodeID) (enrollment_replays db)) db)).
(** [UPDATE enrolled_nodes SET revoked = 1, credential_epoch = ? WHERE node_id = ? AND
    revoked = 0] with the trigger of migration 003, and the rows affected. *)
Definition revoke_enrolled_node (nodeID : string) (epoch : Z) : program Z :=
  statement (fun db =>
    let! epoch := uint64_arg epoch ;;
    match enrolled_nodes db !! nodeID with
    | Some row =>
        if en_revoked row then Ok (0, db)
        else if epoch <=? 0 then Err ErrConstraint
        else
          let row := mkNodeRow (en_current_serial row) epoch (en_not_before_unix_nano row)
            (en_not_after_unix_nano row) true in
          Ok (1, with_states (alter (fun _ => NodeRevoked) nodeID (node_administrative_states db))
            (with_nodes (<[nodeID := row]> (enrolled_nodes db)) db))
    | None => Ok (0, db)
    end).
(** [UPDATE enrolled_nodes SET] the credential [WHERE node_id = ?]. *)
Definition update_credential (nodeID serial : string) (epoch before after : Z) : program Z :=
  statement (fun db =>
    let! epoch := uint64_arg epoch ;;
    match enrolled_nodes db !! nodeID with
    | Some row =>
        let row := mkNodeRow serial epoch before after (en_revoked row) in
        if node_check nodeID row then Ok (1, with_nodes (<[nodeID := row]> (enrolled_nodes db)) db)
        else Err ErrConstraint
    | None => Ok (0, db)
    end).

(** The credential of a row. *)
Definition row_credential (nodeID : string) (row : NodeRow) : Credential :=
  mkCredential nodeID (en_current_serial row) (en_credential_epoch row)
    (unix_time (en_not_before_unix_nano row)) (unix_time (en_not_after_unix_nano row)).
(* src: internal/store/enroll.go:461-474 ControllerStore.readCredential *)
Definition readCredential (nodeID : string) : program (Credential * bool) :=
  query (fun db =>
    match enrolled_nodes db !! nodeID with
    | None => Err ErrNodeNotFound
    | Some row => Ok (row_credential nodeID row, en_revoked row)
    end).

(** ** Methods of the enrollment registry *)

(* src: internal/store/enroll.go:33-58 createEnrollmentToken *)
Definition createEnrollmentToken (token : TokenRecord) : program unit :=
  if (token_Epoch token =? 0) || (token_Epoch token >? maxSQLiteInteger) ||
     allZero (token_ID token) || allZero (token_SecretDigest token)
  then throw ErrTokenEpochMismatch
  else
  current ← query (fun db => readUintMetadata (store_metadata db) "controller_epoch") ;
  if token_Epoch token != (if current =? 0 then 1 else current) then throw ErrTokenEpochMismatch
  else insert_token (token_ID token) (mkTokenRow (token_SecretDigest token) (token_Epoch token)).

(* src: internal/store/enroll.go:18-31 ControllerStore.CreateToken *)
Definition ControllerStore_CreateToken (store : ControllerStore) (token : TokenRecord) : program unit :=
  require (requireReady (cs_base store)) ;;
  in_tx (createEnrollmentToken token ;; mret (CommitWith tt)).

(** The node, its revision of the configuration, its replay identity and the spent
    token; the new revision is the answer. *)
(* src: internal/store/enroll.go:171-226 consumeEnrollment *)
Definition consumeEnrollment (supplied : TokenRecord) (node : NodeRecord) (before after : Z) : program Z :=
  '(digest, epoch) ← query (fun db =>
    match enrollment_tokens db !! token_ID supplied with
    | None => Err ErrTokenNotFound
    | Some row => Ok (tk_secret_digest row, tk_controller_epoch row)
    end) ;
  if epoch != token_Epoch supplied then throw ErrTokenEpochMismatch
  else if digest != token_SecretDigest supplied then throw ErrTokenSecretMismatch
  else
  mapping_error (WrappedError "create enrolled node")
    (insert_enrolled_node (nr_NodeID node) (mkNodeRow (cred_Serial (nr_Credential node))
      (cred_Epoch (nr_Credential node)) before after false)) ;;
  managementRevision ← readManagementRevision ;
  if managementRevision >=? maxSQLiteInteger then throw ErrManagementConfiguration
  else
  let nextRevision := managementRevision + 1 in
  updateManagementRevision managementRevision nextRevision ;;
  mapping_error (WrappedError "create enrollment replay")
    (insert_replay (token_ID supplied) (mkReplayRow (token_SecretDigest supplied) (token_Epoch supplied)
      (nr_PublicKeyDigest node) (nr_NodeID node) (nr_CertificateDER node) (nr_CACertificateDER node))) ;;
  affected ← delete_token (token_ID supplied) ;
  if affected != 1 then throw ErrTokenNotFound else mret nextRevision.

(* src: internal/store/enroll.go:60-84 ControllerStore.ConsumeEnrollment *)
Definition ControllerStore_ConsumeEnrollment (store : ControllerStore) (supplied : TokenRecord)
    (node : NodeRecord) : program unit :=
  require (requireReady (cs_base store)) ;;
  '(before, after) ← lift (validateEnrollmentInput supplied node) ;
  in_tx (consumeEnrollment supplied node before after ;; mret (CommitWith tt)).

(** The audited methods all begin so: the healthy trail and the clock. *)
Definition audited_at (store : ControllerStore) : program Z :=
  if negb (ManagementAuditHealthy store) then throw ErrManagementAuditPersistence
  else lift (storeUnixNano (store_now (cs_base store))).

(* src: internal/store/enroll.go:90-149 ControllerStore.ConsumeEnrollmentWithAudit *)
Definition ConsumeEnrollmentWithAudit (store : ControllerStore) (supplied : TokenRecord)
    (node : NodeRecord) (audit : AuditRecord) : program unit :=
  require (requireReady (cs_base store)) ;;
  '(before, after) ← lift (validateEnrollmentInput supplied node) ;
  require (validateExactAudit audit AuditActorJoinCode AuditActionNodeEnrolled AuditResourceNode
    (nr_NodeID node)) ;;
  occurredAt ← audited_at store ;
  commitWithManagementAudit store
    (revision ← consumeEnrollment supplied node before after ;
     record_evidence occurredAt revision audit).

(** The row of a replay joined with its node. *)
(* src: internal/store/enroll.go:228-252 ControllerStore.ReplayEnrollment *)
Definition ControllerStore_ReplayEnrollment (store : ControllerStore) (supplied : TokenRecord)
    (csrDigest : bytes) : program NodeRecord :=
  require (requireReady (cs_base store)) ;;
  if allZero (token_ID supplied) || allZero (token_SecretDigest supplied) || allZero csrDigest
  then throw ErrTokenNotFound
  else
  '(nodeID, n, r) ← query (fun db =>
    match enrollment_replays db !! token_ID supplied with
    | None => Err ErrTokenNotFound
    | Some r =>
        match enrolled_nodes db !! er_node_id r with
        | None => Err ErrTokenNotFound
        | Some n => Ok (er_node_id r, n, r)
        end
    end) ;
  if negb (length (er_secret_digest r) =? 32)%nat || negb (length (er_public_key_digest r) =? 32)%nat ||
     (er_controller_epoch r =? 0) || (er_controller_epoch r >? maxSQLiteInteger) ||
     (token_Epoch supplied =? 0) || en_revoked n ||
     (er_secret_digest r != token_SecretDigest supplied) || (er_public_key_digest r != csrDigest)
  then throw ErrTokenNotFound
  else mret (mkNodeRecord nodeID (row_credential nodeID n) (en_revoked n) csrDigest
    (er_certificate_der r) (er_ca_der r)).

(* src: internal/store/enroll.go:443-455 ControllerStore.AuthorizeCredential *)
Definition ControllerStore_AuthorizeCredential (store : ControllerStore) (credential : Credential)
    (now : Z) : program unit :=
  require (requireReady (cs_base store)) ;;
  if negb (canonicalNodeID (cred_NodeID credential)) || negb (canonicalSerial (cred_Serial credential))
  then throw ErrCredentialRejected
  else
  '(current, revoked) ← mapping_error (fun _ => ErrCredentialRejected) (readCredential (cred_NodeID credential)) ;
  if (revoked : bool) || negb (equalCredential current credential) ||
     Before now (cred_NotBefore credential) || negb (Before now (cred_NotAfter credential))
  then throw ErrCredentialRejected else mret tt.

(* src: internal/store/enroll.go:254-263 ControllerStore.FinalizeEnrollment *)
Definition ControllerStore_FinalizeEnrollment (store : ControllerStore) (credential : Credential)
    : program unit :=
  require (requireReady (cs_base store)) ;;
  ControllerStore_AuthorizeCredential store credential (store_now (cs_base store)) ;;
  delete_node_replays (cred_NodeID credential).

(** A token that is pending is deleted; one that has enrolled a node revokes its
    credential. *)
(* src: internal/store/enroll.go:287-328 ControllerStore.cancelEnrollmentToken *)
Definition cancelEnrollmentToken (tokenID : bytes) : program (option Credential) :=
  affected ← delete_token tokenID ;
  if affected =? 1 then mret None
  else
  nodeID ← query (fun db =>
    match enrollment_replays db !! tokenID with
    | None => Err ErrTokenNotFound
    | Some r =>
        match enrolled_nodes db !! er_node_id r with
        | None => Err ErrTokenNotFound
        | Some _ => Ok (er_node_id r)
        end
    end) ;
  '(credential, revoked) ← readCredential nodeID ;
  if (revoked : bool) || (cred_Epoch credential >=? maxSQLiteInteger) then throw ErrCredentialRejected
  else
  affected ← revoke_enrolled_node nodeID (cred_Epoch credential + 1) ;
  if affected != 1 then throw ErrCredentialRejected
  else
  delete_replay tokenID ;;
  mret (Some credential).

(* src: internal/store/enroll.go:265-285 ControllerStore.CancelToken *)
Definition ControllerStore_CancelToken (store : ControllerStore) (tokenID : bytes)
    : program (option Credential) :=
  require (requireReady (cs_base store)) ;;
  in_tx (revoked ← cancelEnrollmentToken tokenID ; mret (CommitWith revoked)).

(* src: internal/store/enroll.go:330-342 ControllerStore.LookupNode *)
Definition ControllerStore_LookupNode (store : ControllerStore) (nodeID : string) : program NodeRecord :=
  require (requireReady (cs_base store)) ;;
  if negb (canonicalNodeID nodeID) then throw ErrNodeNotFound
  else
  '(credential, revoked) ← readCredential nodeID ;
  mret (mkNodeRecord nodeID credential revoked (repeat Ascii.zero 32) [] []).

(* src: internal/store/enroll.go:344-359 ControllerStore.CurrentCredential *)
Definition ControllerStore_CurrentCredential (store : ControllerStore) (nodeID : string)
    : program Credential :=
  require (requireReady (cs_base store)) ;;
  if negb (canonicalNodeID nodeID) then throw ErrNodeNotFound
  else
  '(credential, revoked) ← readCredential nodeID ;
  if (revoked : bool) then throw ErrCredentialRejected else mret credential.

(* src: internal/store/enroll.go:361-392 ControllerStore.RenewCredential *)
Definition ControllerStore_RenewCredential (store : ControllerStore) (nodeID : string)
    (expected replacement : Credential) (now : Z) : program unit :=
  require (requireReady (cs_base store)) ;;
  if negb (canonicalNodeID nodeID) || (cred_NodeID replacement != nodeID) ||
     negb (canonicalSerial (cred_Serial expected)) || negb (canonicalSerial (cred_Serial replacement)) ||
     (cred_Epoch replacement != cred_Epoch expected) || (cred_Serial replacement == cred_Serial expected)
  then throw ErrCredentialRejected
  else
  '(before, after) ← lift (enrollmentTimes replacement) ;
  in_tx
    ('(current, revoked) ← readCredential nodeID ;
     if (revoked : bool) || negb (equalCredential current expected) ||
        Before now (cred_NotBefore expected) || negb (Before now (cred_NotAfter expected))
     then throw ErrCredentialRejected
     else
     affected ← update_credential nodeID (cred_Serial replacement) (cred_Epoch replacement) before after ;
     if affected != 1 then throw ErrCredentialRejected else mret (CommitWith tt)).

(** The answer: the credential with its new epoch, and the former one for the hook. *)
(* src: internal/store/enroll.go:394-427 ControllerStore.RevokeNode *)
Definition ControllerStore_RevokeNode (store : ControllerStore) (nodeID : string)
    : program (Credential * Credential) :=
  require (requireReady (cs_base store)) ;;
  in_tx
    ('(previous, _) ← readCredential nodeID ;
     if cred_Epoch previous >=? maxSQLiteInteger then throw ErrCredentialRejected
     else
     let credential := mkCredential (cred_NodeID previous) (cred_Serial previous) (cred_Epoch previous + 1)
       (cred_NotBefore previous) (cred_NotAfter previous) in
     affected ← revoke_enrolled_node nodeID (cred_Epoch credential) ;
     if affected != 1 then throw ErrCredentialRejected
     else
     delete_node_replays nodeID ;;
     mret (CommitWith (credential, previous))).

(** ** The controller epoch (internal/store/controller.go) *)

Definition ErrControllerEpochRange : GoError :=
  PlainError "controller epoch exceeds SQLite's signed INTEGER range".
(** Join codes that are still unused end with the process that made them, but for the
    first: before it, epoch one is reserved. *)
(* src: internal/store/controller.go:227-262 ControllerStore.AdvanceEpoch *)
Definition AdvanceEpoch (s : ControllerStore) : program Z :=
  require (requireReady (cs_base s)) ;;
  in_tx
    (raw ← query (fun db => readUintMetadata (store_metadata db) "controller_epoch") ;
     next ← lift (NextControllerEpoch raw) ;
     if next >? maxSQLiteInteger then throw ErrControllerEpochRange
     else
     (if raw >? 0 then exec (fun db => Ok (with_tokens ∅ db)) else mret tt) ;;
     exec (fun db => Ok (with_metadata (update_metadata "controller_epoch" next (store_metadata db)) db)) ;;
     mret (CommitWith next)).
(* src: internal/store/controller.go:267-282 ControllerStore.EnrollmentEpoch *)
Definition EnrollmentEpoch (s : ControllerStore) : program Z :=
  require (requireReady (cs_base s)) ;;
  raw ← query (fun db => readUintMetadata (store_metadata db) "controller_epoch") ;
  if raw =? 0 then mret 1
  else if raw >? maxSQLiteInteger then throw ErrControllerEpochRange
  else mret raw.
