(* ===== verification/AuditTrail.v ===== *)
(** * Audited changes and the audit trail (internal/store/management.go)

    The changes that leave evidence in the transaction that makes them: join codes
    created and cancelled, nodes drained, resumed and revoked; events of other parts
    ([AppendAuditEvent]); and the bounded pages in which the trail is read. *)

From S2P Require Import Prelude GoStd GoEncoding Sql StoreBase EnrollRegistry EnrollPKI Domain ControllerStore StoreEnroll.
From Stdlib Require Import Ascii.

(** ** The trail *)

(** [BeginTx] fails: the only error of an audited transaction of [AppendAuditEvent]
    that is a plain outage, since its statements degrade the trail themselves. *)
Definition degrading_begin {A} (m : program A) : program A :=
  mapping_error (fun e => if e == ErrDatabase then degraded e else e) m.

(* src: internal/store/management.go:410-448 ControllerStore.AppendAuditEvent *)
Definition AppendAuditEvent (s : ControllerStore) (record : AuditRecord) : program AuditEvent :=
  require (requireReady (cs_base s)) ;;
  require (validateAuditRecord record) ;;
  if negb (ManagementAuditHealthy s) then throw ErrManagementAuditPersistence
  else
  occurredAt ← degrading id (lift (storeUnixNano (store_now (cs_base s)))) ;
  degrading_begin (commitWithManagementAudit s
    (revision ← degrading id readManagementRevision ;
     degrading (fun _ => wrapv ErrManagementAuditPersistence) (insertAuditEvent occurredAt revision record))).

(* src: internal/store/management.go:191-195 AuditPage *)
Record AuditPage := mkAuditPage {
  page_Events : list AuditEvent; page_NextAfter : option Z; page_ResumeAfter : option Z }.
(* src: internal/store/management.go:187-187 MaximumAuditPageSize *)
Definition MaximumAuditPageSize : Z := 500.
(* src: internal/store/management.go:189-189 ErrInvalidAuditPage *)
Definition ErrInvalidAuditPage : GoError := PlainError "management audit page is invalid".

(* src: internal/store/management.go:847-867 scanAuditEvent *)
Definition scanAuditEvent (event : AuditEvent) : result AuditEvent :=
  tryr validateStoredAuditEvent event ;; Ok event.

(** The page built from the rows read, of which there are at most [limit + 1]. *)
Definition audit_page (after limit : Z) (events : list AuditEvent) : AuditPage :=
  let kept := if Z.of_nat (length events) >? limit then take (Z.to_nat limit) events else events in
  let resume := option_map event_Sequence (last kept) in
  mkAuditPage kept
    (if Z.of_nat (length events) >? limit then resume else None)
    (match resume with Some _ => resume | None => if after >? 0 then Some after else None end).
(* src: internal/store/management.go:757-811 ControllerStore.ReadAuditEventsPage *)
Definition ReadAuditEventsPage (s : ControllerStore) (after limit : Z) : program AuditPage :=
  require (requireReady (cs_base s)) ;;
  if (after >? maxSQLiteInteger) || (limit <? 1) || (limit >? MaximumAuditPageSize)
  then throw ErrInvalidAuditPage
  else
  events ← query (fun db =>
    scan_rows scanAuditEvent (take (Z.to_nat (limit + 1))
      (filter (fun event => after < event_Sequence event) (management_audit_events db)))) ;
  mret (audit_page after limit events).
(* src: internal/store/management.go:816-841 ControllerStore.ReadAuditEvents *)
Definition ReadAuditEvents (s : ControllerStore) : program (list AuditEvent) :=
  require (requireReady (cs_base s)) ;;
  query (fun db => scan_rows scanAuditEvent (management_audit_events db)).

(** ** Join codes *)

(** The lower-case hexadecimal of an identifier. *)
Definition token_text (tokenID : bytes) : string := hex_encode (string_of tokenID).

(* src: internal/store/management.go:452-499 ControllerStore.CreateTokenWithAudit *)
Definition CreateTokenWithAudit (s : ControllerStore) (token : TokenRecord) (audit : AuditRecord)
    : program unit :=
  require (validateExactManagementAudit audit AuditActionJoinCodeCreated AuditResourceJoinCode
    (token_text (token_ID token))) ;;
  occurredAt ← audited_at s ;
  require (requireReady (cs_base s)) ;;
  commitWithManagementAudit s
    (createEnrollmentToken token ;;
     revision ← readManagementRevision ;
     record_evidence occurredAt revision audit).

(* src: internal/store/management.go:504-563 ControllerStore.CancelTokenWithAudit *)
Definition CancelTokenWithAudit (s : ControllerStore) (tokenID : bytes) (audit : AuditRecord)
    : program unit :=
  require (validateExactManagementAudit audit AuditActionJoinCodeCancelled AuditResourceJoinCode
    (token_text tokenID)) ;;
  occurredAt ← audited_at s ;
  require (requireReady (cs_base s)) ;;
  commitWithManagementAudit s
    (affected ← delete_token tokenID ;
     if affected != 1 then throw ErrTokenNotFound
     else
     revision ← readManagementRevision ;
     record_evidence occurredAt revision audit).

(** ** Nodes *)

(* src: internal/store/management.go:2046-2062 nodeAdministrativeAuditAction *)
Definition nodeAdministrativeAuditAction (next : string) : result string :=
  if next == NodeActive then Ok AuditActionNodeResumed
  else if next == NodeDraining then Ok AuditActionNodeDrained
  else if next == NodeRevoked then Ok AuditActionNodeRevoked
  else Err (wrapf ErrManagementConfiguration "unsupported node administrative state").

(* src: internal/store/management.go:2064-2094 updateNodeAdministrativeState *)
Definition updateNodeAdministrativeState (nodeID current next : string) : program unit :=
  affected ← statement (fun db =>
    if bool_decide (node_administrative_states db !! nodeID = Some current)
    then if bool_decide (next ∈ [NodeActive; NodeDraining; NodeQuarantined; NodeRevoked])
      then Ok (1, with_states (<[nodeID := next]> (node_administrative_states db)) db)
      else Err ErrConstraint
    else Ok (0, db)) ;
  if affected != 1 then throw (wrapf ErrManagementConfiguration "node administrative state changed concurrently")
  else mret tt.

(** The change of one node to [next], given its row; a revocation answers the
    credential that ends. *)
Definition change_node_state (nodeID next current : string) (revoked : bool)
    : program (option Credential) :=
  if next == NodeActive then
    if (current != NodeDraining) || revoked
    then throw (wrapf ErrManagementConfiguration "only a draining node can resume")
    else updateNodeAdministrativeState nodeID current next ;; mret None
  else if next == NodeDraining then
    if (current != NodeActive) || revoked
    then throw (wrapf ErrManagementConfiguration "only an active node can drain")
    else updateNodeAdministrativeState nodeID current next ;; mret None
  else if next == NodeRevoked then
    if revoked || (current == NodeRevoked)
    then throw (wrapf ErrManagementConfiguration "node is already revoked")
    else
    '(credential, _) ← readCredential nodeID ;
    if cred_Epoch credential >=? maxSQLiteInteger then throw ErrCredentialRejected
    else
    affected ← revoke_enrolled_node nodeID (cred_Epoch credential + 1) ;
    if affected != 1 then throw ErrCredentialRejected
    else
    delete_node_replays nodeID ;;
    mret (Some credential)
  else throw (wrapf ErrManagementConfiguration "unsupported node administrative state").

(** The new revision, and the credential for the revocation hook. *)
(* src: internal/store/management.go:567-752 ControllerStore.SetNodeAdministrativeStateWithAudit *)
Definition SetNodeAdministrativeStateWithAudit (s : ControllerStore) (nodeID next : string)
    (expectedRevision : Z) (audit : AuditRecord) : program (Z * option Credential) :=
  require (requireReady (cs_base s)) ;;
  if negb (canonicalNodeID nodeID) || (expectedRevision >? maxSQLiteInteger)
  then throw (wrapf ErrManagementConfiguration "invalid node management request")
  else
  action ← lift (nodeAdministrativeAuditAction next) ;
  require (validateExactManagementAudit audit action AuditResourceNode nodeID) ;;
  occurredAt ← audited_at s ;
  commitWithManagementAudit s
    (actualRevision ← readManagementRevision ;
     if actualRevision != expectedRevision
     then throw (StaleManagementRevisionError expectedRevision actualRevision)
     else if actualRevision =? maxSQLiteInteger
     then throw (wrapf ErrManagementConfiguration "revision is exhausted")
     else
     '(current, revoked) ← query (fun db =>
       match enrolled_nodes db !! nodeID, node_administrative_states db !! nodeID with
       | Some row, Some current => Ok (current, en_revoked row)
       | _, _ => Err ErrNodeNotFound
       end) ;
     require (option_map (fun _ => wrapv ErrManagementConfigurationDB)
       (NodeAdministrativeState_Validate current "node.administrative_state")) ;;
     if negb (Bool.eqb revoked (current == NodeRevoked))
     then throw (wrapf ErrManagementConfigurationDB "node revocation authority is inconsistent")
     else
     revokedCredential ← change_node_state nodeID next current revoked ;
     let nextRevision := actualRevision + 1 in
     updateManagementRevision actualRevision nextRevision ;;
     record_evidence occurredAt nextRevision audit ;;
     mret (nextRevision, revokedCredential)).
