(* ===== verification/Management.v ===== *)
(** * The management configuration (internal/store/management.go)

    One revision guards the operator's complete configuration: the fleet's maximum,
    the nodes, the runner profiles and the GitHub targets.  An application reads the
    stored configuration, compares the revision, combines what the operator wants
    with what the provider has verified, refuses to touch what running work depends
    on, and replaces every table with the evidence in one transaction.  A Go map built
    from a slice keeps the last item of a key ([keyed]); the identifiers that error
    texts quote are left out. *)

From S2P Require Import Prelude GoStd GoEncoding Sql StoreBase EnrollRegistry EnrollPKI Domain WorkTables ControllerStore StoreEnroll.
From Stdlib Require Import Ascii.

(** ** Configurations *)

(* src: internal/store/management.go:68-75 DesiredManagementGitHubTarget *)
Record DesiredManagementGitHubTarget := mkDesiredTarget {
  dgt_ID : TargetID;
  dgt_InstallationID : string;
  dgt_ScopeKind : string;
  dgt_Scope : string;
  dgt_ScaleSetName : string;
  dgt_RunnerProfileID : RunnerProfileID }.
#[export] Instance DesiredManagementGitHubTarget_eq_dec : EqDecision DesiredManagementGitHubTarget.
Proof. solve_decision. Defined.

(* src: internal/store/management.go:77-82 DesiredManagementConfiguration *)
Record DesiredManagementConfiguration := mkDesired {
  dmc_FleetMaxRunners : option Z;
  dmc_Nodes : list ManagementNodeConfiguration;
  dmc_RunnerProfiles : list RunnerProfile;
  dmc_GitHubTargets : list DesiredManagementGitHubTarget }.
(* src: internal/store/management.go:87-90 ManagementVerifiedAuthorities *)
Record ManagementVerifiedAuthorities := mkVerified {
  mva_RunnerProfiles : list ManagementRunnerProfile;
  mva_GitHubTargets : list ManagementGitHubTarget }.
(* src: internal/store/management.go:92-98 ManagementConfiguration *)
Record ManagementConfiguration := mkConfiguration {
  mc_Revision : Z;
  mc_FleetMaxRunners : option Z;
  mc_Nodes : list ManagementNodeConfiguration;
  mc_RunnerProfiles : list ManagementRunnerProfile;
  mc_GitHubTargets : list ManagementGitHubTarget }.
#[export] Instance ManagementConfiguration_eq_dec : EqDecision ManagementConfiguration.
Proof. solve_decision. Defined.

Definition mp_ID (profile : ManagementRunnerProfile) : string := profile_ID (mrp_Profile profile).
Definition mt_ID (target : ManagementGitHubTarget) : string := target_ID (mgt_Target target).
Definition mt_ProfileID (target : ManagementGitHubTarget) : string := target_RunnerProfileID (mgt_Target target).

(** ** Validators *)

Definition configuration_invalid (text : string) : GoError := wrapf ErrManagementConfiguration text.

(* src: internal/store/management.go:1853-1861 validateFleetMaximum *)
Definition validateFleetMaximum (value : option Z) : error :=
  match value with
  | Some n => if (n <? 1) || (wrap_uint64 n >? maxSQLiteInteger)
              then Some (configuration_invalid "invalid fleet maximum") else None
  | None => None
  end.
(* src: internal/store/management.go:1863-1874 validateManagementNodeConfiguration *)
Definition validateManagementNodeConfiguration (node : ManagementNodeConfiguration) : error :=
  if negb (canonicalRuntimeIdentifier (mnc_NodeID node)) || (mnc_DisplayName node == "") ||
     (mnc_MaxRunners node <? 1) || (wrap_uint64 (mnc_MaxRunners node) >? maxSQLiteInteger)
  then Some (configuration_invalid "invalid node configuration") else None.
(* src: internal/store/management.go:1876-1888 validateDesiredManagementRunnerProfile *)
Definition validateDesiredManagementRunnerProfile (profile : RunnerProfile) : error :=
  match RunnerProfile_Validate profile with
  | Some _ => Some (wrapv ErrManagementConfiguration)
  | None =>
      if negb (canonicalRuntimeIdentifier (profile_ID profile)) ||
         (profile_MinAvailableMemoryBytes profile >? maxSQLiteInteger)
      then Some (configuration_invalid "invalid runner profile configuration") else None
  end.
(* src: internal/store/management.go:1890-1901 validateManagementRunnerProfile *)
Definition validateManagementRunnerProfile (profile : ManagementRunnerProfile) : error :=
  try validateDesiredManagementRunnerProfile (mrp_Profile profile) ;;
  if negb (canonicalRunnerVersion (mrp_RunnerVersion profile))
  then Some (configuration_invalid "invalid runner profile configuration") else None.
(* src: internal/store/management.go:1903-1925 validateDesiredManagementGitHubTarget *)
Definition validateDesiredManagementGitHubTarget (target : DesiredManagementGitHubTarget) : error :=
  if negb (canonicalRuntimeIdentifier (dgt_ID target)) || (dgt_InstallationID target == "") ||
     (dgt_Scope target == "") || (dgt_ScaleSetName target == "") ||
     negb (canonicalRuntimeIdentifier (dgt_RunnerProfileID target))
  then Some (configuration_invalid "invalid desired GitHub target")
  else if bool_decide (dgt_ScopeKind target ∈ [TargetRepository; TargetOrganization]) then None
  else Some (configuration_invalid "invalid desired GitHub target scope kind").
(* src: internal/store/management.go:1927-1941 validateManagementGitHubTarget *)
Definition validateManagementGitHubTarget (target : ManagementGitHubTarget) : error :=
  match GitHubTarget_Validate (mgt_Target target) with
  | Some _ => Some (wrapv ErrManagementConfiguration)
  | None =>
      if negb (canonicalRuntimeIdentifier (mt_ID target))
      then Some (configuration_invalid "invalid GitHub target ID")
      else option_map (fun _ => wrapv ErrManagementConfiguration) (validateScaleSetID (mgt_ScaleSetID target))
  end.

(** [for _, item := range items { validate; if seen[key] { duplicate }; seen[key] = … }]. *)
Fixpoint check_unique {A K} `{Countable K} (validate : A -> error) (key : A -> K) (duplicate : string)
    (seen : gset K) (items : list A) : result (gset K) :=
  match items with
  | [] => Ok seen
  | item :: items =>
      tryr validate item ;;
      if bool_decide (key item ∈ seen) then Err (configuration_invalid duplicate)
      else check_unique validate key duplicate ({[key item]} ∪ seen) items
  end.

(* src: internal/store/management.go:1943-1952 desiredGitHubTarget *)
Definition desiredGitHubTarget (target : ManagementGitHubTarget) : DesiredManagementGitHubTarget :=
  let t := mgt_Target target in
  mkDesiredTarget (target_ID t) (target_InstallationID t) (target_ScopeKind t) (target_Scope t)
    (target_ScaleSetName t) (target_RunnerProfileID t).

(* src: internal/store/management.go:1571-1631 validateDesiredManagementConfiguration *)
Definition validateDesiredManagementConfiguration (desired : DesiredManagementConfiguration) : error :=
  try validateFleetMaximum (dmc_FleetMaxRunners desired) ;;
  match check_unique validateManagementNodeConfiguration mnc_NodeID "duplicate node" ∅ (dmc_Nodes desired) with
  | Err err => Some err
  | Ok _ =>
  match check_unique validateDesiredManagementRunnerProfile profile_ID "duplicate runner profile" ∅
          (dmc_RunnerProfiles desired) with
  | Err err => Some err
  | Ok profileIDs =>
  match check_unique (fun target =>
            try validateDesiredManagementGitHubTarget target ;;
            if bool_decide (dgt_RunnerProfileID target ∈ profileIDs) then None
            else Some (configuration_invalid "target references unknown runner profile"))
          dgt_ID "duplicate GitHub target" ∅ (dmc_GitHubTargets desired) with
  | Err err => Some err
  | Ok _ => None
  end end end.

(** The loop over the verified targets, with its two sets. *)
Fixpoint check_verified_targets (targetIDs : gset string) (scaleSetIDs : gset Z)
    (targets : list ManagementGitHubTarget) : error :=
  match targets with
  | [] => None
  | target :: targets =>
      try validateManagementGitHubTarget target ;;
      if bool_decide (mt_ID target ∈ targetIDs)
      then Some (configuration_invalid "duplicate verified GitHub target")
      else if bool_decide (mgt_ScaleSetID target ∈ scaleSetIDs)
      then Some (configuration_invalid "duplicate verified GitHub scale set")
      else check_verified_targets ({[mt_ID target]} ∪ targetIDs) ({[mgt_ScaleSetID target]} ∪ scaleSetIDs) targets
  end.
(* src: internal/store/management.go:1633-1677 validateManagementVerifiedAuthorities *)
Definition validateManagementVerifiedAuthorities (verified : ManagementVerifiedAuthorities) : error :=
  match check_unique validateManagementRunnerProfile mp_ID "duplicate verified runner profile" ∅
          (mva_RunnerProfiles verified) with
  | Err err => Some err
  | Ok _ => check_verified_targets ∅ ∅ (mva_GitHubTargets verified)
  end.

(** The operator's part of a configuration. *)
Definition desired_of (configuration : ManagementConfiguration) : DesiredManagementConfiguration :=
  mkDesired (mc_FleetMaxRunners configuration) (mc_Nodes configuration)
    (map mrp_Profile (mc_RunnerProfiles configuration))
    (map desiredGitHubTarget (mc_GitHubTargets configuration)).
(* src: internal/store/management.go:1679-1728 validateManagementConfiguration *)
Definition validateManagementConfiguration (configuration : ManagementConfiguration) : error :=
  if mc_Revision configuration >? maxSQLiteInteger
  then Some (configuration_invalid "revision exceeds SQLite range")
  else
  try validateFleetMaximum (mc_FleetMaxRunners configuration) ;;
  match scan_rows (fun profile => tryr validateManagementRunnerProfile profile ;; Ok profile)
          (mc_RunnerProfiles configuration) with
  | Err err => Some err
  | Ok _ =>
  match check_unique validateManagementGitHubTarget mgt_ScaleSetID "duplicate GitHub scale set" ∅
          (mc_GitHubTargets configuration) with
  | Err err => Some err
  | Ok _ => validateDesiredManagementConfiguration (desired_of configuration)
  end end.

(** ** Combining the operator's wishes with verified authority *)

(** [m := make(map); for _, x := range l { m[key(x)] = x }]. *)
Definition keyed {A} (key : A -> string) (items : list A) : gmap string A :=
  foldl (fun m item => <[key item := item]> m) ∅ items.

(** [equalOperatingSystem] and [equalArchitecture] compare the pointed-to values. *)
(* src: internal/store/management.go:1965-1973 equalRunnerProfile *)
Definition equalRunnerProfile (left right : RunnerProfile) : bool :=
  (profile_ID left == profile_ID right) && (profile_Label left == profile_Label right) &&
  (profile_OS left == profile_OS right) && (profile_Architecture left == profile_Architecture right) &&
  (profile_MinAvailableMemoryBytes left == profile_MinAvailableMemoryBytes right) &&
  (profile_VersionPolicy left == profile_VersionPolicy right) &&
  (profile_Runtime left == profile_Runtime right).
(* src: internal/store/management.go:1258-1264 equalManagementRunnerProfile *)
Definition equalManagementRunnerProfile (left right : ManagementRunnerProfile) : bool :=
  (mrp_RunnerVersion left == mrp_RunnerVersion right) &&
  equalRunnerProfile (mrp_Profile left) (mrp_Profile right).
(* src: internal/store/management.go:1954-1963 sameVerifiedTargetIdentity *)
Definition sameVerifiedTargetIdentity (current : GitHubTarget) (desired : DesiredManagementGitHubTarget) : bool :=
  (target_ID current == dgt_ID desired) && (target_InstallationID current == dgt_InstallationID desired) &&
  (target_ScopeKind current == dgt_ScopeKind desired) && (target_Scope current == dgt_Scope desired) &&
  (target_ScaleSetName current == dgt_ScaleSetName desired).

(** One profile of the next configuration: a verified one must be what the operator
    wants; an unverified one keeps the version it runs. *)
Definition next_profile (verified current : gmap string ManagementRunnerProfile) (profile : RunnerProfile)
    : result ManagementRunnerProfile :=
  match verified !! profile_ID profile with
  | Some authority =>
      if negb (equalRunnerProfile (mrp_Profile authority) profile)
      then Err (configuration_invalid "verified runner profile does not match desired fields")
      else Ok authority
  | None =>
      match current !! profile_ID profile with
      | None => Err (configuration_invalid "new runner profile requires verified runner version")
      | Some existing => Ok (mkManagementProfile profile (mrp_RunnerVersion existing))
      end
  end.
(** [existing.Target.RunnerProfileID = profileID]. *)
Definition with_profile_id (t : GitHubTarget) (profileID : string) : GitHubTarget :=
  mkGitHubTarget (target_ID t) (target_InstallationID t) (target_ScopeKind t) (target_Scope t)
    (target_Visibility t) (target_RunnerGroupAccessSafe t) (target_ScaleSetName t) profileID.
(** One target: a verified one likewise; an unverified one may only change its
    profile. *)
Definition next_target (verified current : gmap string ManagementGitHubTarget)
    (target : DesiredManagementGitHubTarget) : result ManagementGitHubTarget :=
  match verified !! dgt_ID target with
  | Some authority =>
      if desiredGitHubTarget authority != target
      then Err (configuration_invalid "verified GitHub target does not match desired fields")
      else Ok authority
  | None =>
      match current !! dgt_ID target with
      | Some existing =>
          if negb (sameVerifiedTargetIdentity (mgt_Target existing) target)
          then Err (configuration_invalid "new or changed GitHub target requires verified authority")
          else Ok (mkManagementTarget (with_profile_id (mgt_Target existing) (dgt_RunnerProfileID target))
                     (mgt_ScaleSetID existing))
      | None => Err (configuration_invalid "new or changed GitHub target requires verified authority")
      end
  end.
(** Every verified authority must have been used. *)
Definition all_used {A} (verified : gmap string A) (desired : list string) : bool :=
  forallb (fun '(id, _) => bool_decide (id ∈ desired)) (map_to_list verified).

(* src: internal/store/management.go:1730-1851 materializeManagementConfiguration *)
Definition materializeManagementConfiguration (current : ManagementConfiguration)
    (desired : DesiredManagementConfiguration) (verified : ManagementVerifiedAuthorities)
    : result ManagementConfiguration :=
  let verifiedProfiles := keyed mp_ID (mva_RunnerProfiles verified) in
  let verifiedTargets := keyed mt_ID (mva_GitHubTargets verified) in
  let! profiles := scan_rows (next_profile verifiedProfiles (keyed mp_ID (mc_RunnerProfiles current)))
    (dmc_RunnerProfiles desired) ;;
  if negb (all_used verifiedProfiles (map profile_ID (dmc_RunnerProfiles desired)))
  then Err (configuration_invalid "verified runner profile is not desired")
  else
  let! targets := scan_rows (next_target verifiedTargets (keyed mt_ID (mc_GitHubTargets current)))
    (dmc_GitHubTargets desired) ;;
  if negb (all_used verifiedTargets (map dgt_ID (dmc_GitHubTargets desired)))
  then Err (configuration_invalid "verified GitHub target is not desired")
  else
  let next := mkConfiguration 0 (dmc_FleetMaxRunners desired)
    (sort_slice (fun a b => string_less (mnc_NodeID a) (mnc_NodeID b)) (dmc_Nodes desired))
    (sort_slice (fun a b => string_less (mp_ID a) (mp_ID b)) profiles)
    (sort_slice (fun a b => string_less (mt_ID a) (mt_ID b)) targets) in
  tryr validateManagementConfiguration next ;;
  Ok next.

(** ** Reading *)

(** [SELECT … ORDER BY key], row by row with its validation. *)
Definition read_table {A} (table : ControllerDB -> gmap string A) (validate : A -> error) : program (list A) :=
  query (fun db => scan_rows (fun row =>
    match validate row.2 with
    | Some _ => Err (wrapv ErrManagementConfigurationDB)
    | None => Ok row.2
    end) (rows_by_key (table db))).

(* src: internal/store/management.go:1528-1569 requireExactEnrolledNodes *)
Definition requireExactEnrolledNodes (nodes : list ManagementNodeConfiguration) : program unit :=
  enrolled ← query (fun db => Ok (map fst (rows_by_key (enrolled_nodes db)))) ;
  if enrolled != sort_slice string_less (map mnc_NodeID nodes)
  then throw (configuration_invalid "node configuration must match enrolled nodes")
  else mret tt.

(* src: internal/store/management.go:869-1014 readManagementConfiguration *)
Definition readManagementConfiguration : program ManagementConfiguration :=
  '(revision, fleetMaximum) ← readManagementState ;
  nodes ← read_table management_node_configurations validateManagementNodeConfiguration ;
  profiles ← read_table management_runner_profiles validateManagementRunnerProfile ;
  targets ← read_table management_github_targets validateManagementGitHubTarget ;
  let result := mkConfiguration revision fleetMaximum nodes profiles targets in
  require (option_map (fun _ => wrapv ErrManagementConfigurationDB) (validateManagementConfiguration result)) ;;
  mapping_error (fun _ => wrapv ErrManagementConfigurationDB) (requireExactEnrolledNodes nodes) ;;
  mret result.

(* src: internal/store/management.go:200-219 ControllerStore.ReadManagementConfiguration *)
Definition ReadManagementConfiguration (s : ControllerStore) : program ManagementConfiguration :=
  require (requireReady (cs_base s)) ;;
  in_tx (result ← readManagementConfiguration ; mret (CommitWith result)).
(* src: internal/store/management.go:226-233 ControllerStore.ManagementConfigurationRevision *)
Definition ManagementConfigurationRevision (s : ControllerStore) : program Z :=
  require (requireReady (cs_base s)) ;;
  readManagementRevision.

(** ** What running work depends on *)

(** An execution of the target holds a slot, or its scale set has a job claim. *)
Definition active_authority (db : ControllerDB) (targetID : string) (scaleSetID : Z) : bool :=
  existsb (fun '(_, reservation) =>
    bool_decide (option_map ex_target_id (executions db !! sr_execution_id reservation) = Some targetID))
    (map_to_list (slot_reservations db)) ||
  existsb (fun claim => bool_decide (claim.1.1 = scaleSetID)) (map_to_list (github_job_claims db)).
(* src: internal/store/management.go:1266-1294 managementTargetHasActiveAuthority *)
Definition managementTargetHasActiveAuthority (targetID : string) (scaleSetID : Z) : program bool :=
  query (fun db => Ok (active_authority db targetID scaleSetID)).
Definition require_inactive (targetID : string) (scaleSetID : Z) (text : string) : program unit :=
  active ← managementTargetHasActiveAuthority targetID scaleSetID ;
  if (active : bool) then throw (configuration_invalid text) else mret tt.

(** [summedLimit], which saturates. *)
Definition summed_limit (nodes : list ManagementNodeConfiguration) : Z :=
  foldl (fun summed node =>
    if summed <=? maxSQLiteInteger - wrap_uint64 (mnc_MaxRunners node)
    then summed + wrap_uint64 (mnc_MaxRunners node) else maxSQLiteInteger) 0 nodes.
(** A held slot is one of its node's next slots. *)
Definition reservation_within (limits : gmap string ManagementNodeConfiguration) (slot : string * Z) : bool :=
  match limits !! slot.1 with
  | Some node => (0 <=? slot.2) && (slot.2 <? mnc_MaxRunners node)
  | None => false
  end.
Definition reservations_fit (next : ManagementConfiguration) : program unit :=
  slots ← query (fun db => Ok (map fst (map_to_list (slot_reservations db)))) ;
  if negb (forallb (reservation_within (keyed mnc_NodeID (mc_Nodes next))) slots)
  then throw (configuration_invalid "node has a reservation outside its next maximum")
  else if Z.of_nat (length slots) >?
      match mc_FleetMaxRunners next with Some n => wrap_uint64 n | None => summed_limit (mc_Nodes next) end
  then throw (configuration_invalid "active reservations exceed the next fleet maximum")
  else mret tt.

(** Whether the configuration of a current target changes: its own row or its
    profile's.  A target always has its profile ([validateManagementConfiguration]);
    Go's zero value stands for a missing one. *)
Definition zero_profile : ManagementRunnerProfile :=
  mkManagementProfile (mkRunnerProfile "" "" None None 0 "" "") "".
Definition target_unchanged (current next : ManagementConfiguration) (target : ManagementGitHubTarget) : bool :=
  bool_decide (keyed mt_ID (mc_GitHubTargets next) !! mt_ID target = Some target) &&
  match keyed mp_ID (mc_RunnerProfiles next) !! mt_ProfileID target with
  | Some nextProfile => equalManagementRunnerProfile
      (default zero_profile (keyed mp_ID (mc_RunnerProfiles current) !! mt_ProfileID target)) nextProfile
  | None => false
  end.
(** Whether a runtime binding survives with its route and its update policy. *)
Definition binding_retained (policies : gmap string RunnerProfileUpdatePolicy) (next : ManagementConfiguration)
    (binding : GitHubTargetRuntimeBinding) : bool :=
  match keyed mt_ID (mc_GitHubTargets next) !! gtb_TargetID binding with
  | Some target => (mgt_ScaleSetID target == gtb_ScaleSetID binding) &&
                   (mt_ProfileID target == gtb_ProfileID binding)
  | None => false
  end &&
  match keyed mp_ID (mc_RunnerProfiles next) !! gtb_ProfileID binding, policies !! gtb_ProfileID binding with
  | Some profile, Some policy =>
      (profile_VersionPolicy (mrp_Profile profile) == rpp_VersionPolicy policy) &&
      (mrp_RunnerVersion profile == rpp_RunnerVersion policy)
  | _, _ => false
  end.

(* src: internal/store/management.go:1059-1256 validateActiveManagementTransition *)
Definition validateActiveManagementTransition (current next : ManagementConfiguration) : program unit :=
  reservations_fit next ;;
  each (fun target =>
    if target_unchanged current next target then mret tt
    else require_inactive (mt_ID target) (mgt_ScaleSetID target)
      "target has active execution or claim authority") (mc_GitHubTargets current) ;;
  policies ← query (fun db => Ok (runner_profile_update_policies db)) ;
  bindings ← query (fun db => Ok (map snd (map_to_list (github_target_runtime_bindings db)))) ;
  each (fun binding =>
    if binding_retained policies next binding then mret tt
    else require_inactive (gtb_TargetID binding) (gtb_ScaleSetID binding)
      "runtime target has active execution or claim authority") bindings.

(** ** Replacing *)

(** The revision of a profile's update policy after the change. *)
Definition next_policy_revision (existing : gmap string RunnerProfileUpdatePolicy)
    (currentProfiles : gmap string ManagementRunnerProfile) (profile : ManagementRunnerProfile)
    : result (ManagementRunnerProfile * Z) :=
  match existing !! mp_ID profile with
  | None => Ok (profile, 1)
  | Some policy =>
      let differs (p : ManagementRunnerProfile) :=
        (rpp_VersionPolicy policy != profile_VersionPolicy (mrp_Profile p)) ||
        (rpp_RunnerVersion policy != mrp_RunnerVersion p) in
      if match currentProfiles !! mp_ID profile with Some p => differs p | None => false end
      then Err (wrapf ErrManagementConfigurationDB "runtime profile projection differs from management authority")
      else if negb (differs profile) then Ok (profile, rpp_Revision policy)
      else if rpp_Revision policy =? maxSQLiteInteger
      then Err (configuration_invalid "runtime profile revision is exhausted")
      else Ok (profile, rpp_Revision policy + 1)
  end.
(** [result[profile.Profile.ID]] is read back for the same profile, so each profile is
    answered with its revision. *)
(* src: internal/store/management.go:1408-1487 nextRuntimeProfileRevisions *)
Definition nextRuntimeProfileRevisions (current next : ManagementConfiguration)
    : program (list (ManagementRunnerProfile * Z)) :=
  existing ← query (fun db =>
    let! _ := scan_rows (fun row =>
      match validateRunnerProfileUpdatePolicy row.2 with
      | Some _ => Err (wrapv ErrManagementConfigurationDB)
      | None => Ok tt
      end) (rows_by_key (runner_profile_update_policies db)) ;;
    Ok (runner_profile_update_policies db)) ;
  lift (scan_rows (next_policy_revision existing (keyed mp_ID (mc_RunnerProfiles current))) (mc_RunnerProfiles next)).

(** The rows with the CHECK, UNIQUE and REFERENCES clauses of migrations 006 and 011. *)
Definition insert_node_configuration (node : ManagementNodeConfiguration) : program unit :=
  exec (fun db =>
    let! t := insert_row (sql_nonempty (mnc_DisplayName node) && (1 <=? mnc_MaxRunners node) &&
      bool_decide (is_Some (enrolled_nodes db !! mnc_NodeID node)))
      (mnc_NodeID node) node (management_node_configurations db) ;;
    Ok (with_node_configurations t db)).
Definition profile_check (profile : ManagementRunnerProfile) : bool :=
  let p := mrp_Profile profile in
  sql_nonempty (profile_ID p) && sql_nonempty (profile_Label p) &&
  match profile_OS p with Some os => bool_decide (os ∈ [OSLinux; OSMacOS; OSWindows]) | None => true end &&
  match profile_Architecture p with Some a => bool_decide (a ∈ [ArchAMD64; ArchARM64]) | None => true end &&
  (0 <=? profile_MinAvailableMemoryBytes p) &&
  bool_decide (profile_VersionPolicy p ∈ [RunnerVersionAutoUpdate; RunnerVersionPinned]) &&
  sql_nonempty (mrp_RunnerVersion profile) && (profile_Runtime p == RuntimeNative).
Definition insert_profile (profile : ManagementRunnerProfile) : program unit :=
  exec (fun db =>
    let! _ := uint64_arg (profile_MinAvailableMemoryBytes (mrp_Profile profile)) ;;
    let! t := insert_row (profile_check profile) (mp_ID profile) profile (management_runner_profiles db) ;;
    Ok (with_profiles t db)).
Definition insert_policy (policy : RunnerProfileUpdatePolicy) : program unit :=
  exec (fun db =>
    let! revision := uint64_arg (rpp_Revision policy) ;;
    let! t := insert_row (sql_nonempty (rpp_ProfileID policy) && (0 <? revision) &&
      bool_decide (rpp_VersionPolicy policy ∈ [RunnerVersionAutoUpdate; RunnerVersionPinned]))
      (rpp_ProfileID policy) policy (runner_profile_update_policies db) ;;
    Ok (with_policies t db)).
Definition target_check (target : ManagementGitHubTarget) : bool :=
  let t := mgt_Target target in
  sql_nonempty (target_ID t) && sql_nonempty (target_InstallationID t) &&
  bool_decide (target_ScopeKind t ∈ [TargetRepository; TargetOrganization]) &&
  sql_nonempty (target_Scope t) && (target_Visibility t == TargetPrivate) &&
  target_RunnerGroupAccessSafe t && sql_nonempty (target_ScaleSetName t) && (0 <? mgt_ScaleSetID target).
Definition insert_target (target : ManagementGitHubTarget) : program unit :=
  exec (fun db =>
    let! _ := uint64_arg (mgt_ScaleSetID target) ;;
    let unique := forallb (fun '(_, t) => negb (bool_decide (mgt_ScaleSetID t = mgt_ScaleSetID target)))
      (map_to_list (management_github_targets db)) in
    let! t := insert_row (target_check target && unique &&
      bool_decide (is_Some (management_runner_profiles db !! mt_ProfileID target)))
      (mt_ID target) target (management_github_targets db) ;;
    Ok (with_targets t db)).
Definition insert_binding (binding : GitHubTargetRuntimeBinding) : program unit :=
  exec (fun db =>
    let! scaleSetID := uint64_arg (gtb_ScaleSetID binding) ;;
    let unique := forallb (fun '(_, b) => negb (bool_decide (gtb_ScaleSetID b = scaleSetID)))
      (map_to_list (github_target_runtime_bindings db)) in
    let! t := insert_row (sql_nonempty (gtb_TargetID binding) && (0 <? scaleSetID) && unique &&
      bool_decide (is_Some (runner_profile_update_policies db !! gtb_ProfileID binding)))
      (gtb_TargetID binding) binding (github_target_runtime_bindings db) ;;
    Ok (with_bindings t db)).
(** [DELETE FROM] the two tables with a reference to profiles, then the others: no
    row that a RESTRICT clause protects is left. *)
Definition delete_configuration : program unit :=
  exec (fun db => Ok (with_targets ∅ db)) ;;
  exec (fun db => Ok (with_bindings ∅ db)) ;;
  exec (fun db => Ok (with_profiles ∅ db)) ;;
  exec (fun db => Ok (with_policies ∅ db)) ;;
  exec (fun db => Ok (with_node_configurations ∅ db)).

(* src: internal/store/management.go:1296-1406 replaceManagementConfiguration *)
Definition replaceManagementConfiguration (current next : ManagementConfiguration) : program unit :=
  runtimeRevisions ← nextRuntimeProfileRevisions current next ;
  delete_configuration ;;
  each insert_node_configuration (mc_Nodes next) ;;
  each (fun '(profile, revision) =>
    insert_profile profile ;;
    insert_policy (mkUpdatePolicy (mp_ID profile) (profile_VersionPolicy (mrp_Profile profile))
      (mrp_RunnerVersion profile) revision)) runtimeRevisions ;;
  each (fun target =>
    insert_target target ;;
    insert_binding (mkBinding (mt_ID target) (mgt_ScaleSetID target) (mt_ProfileID target)))
    (mc_GitHubTargets next).

(** ** Applying *)

(** [UPDATE management_configuration_state SET revision = ?, fleet_max_runners = ?
    WHERE singleton = 1 AND revision = ?]. *)
Definition advance_configuration_state (current next : ManagementConfiguration) : program Z :=
  statement (fun db =>
    let! revision := uint64_arg (mc_Revision next) ;;
    if management_revision db == mc_Revision current
    then if (revision <? 0) || match mc_FleetMaxRunners next with Some n => n <? 1 | None => false end
      then Err ErrConstraint else Ok (1, with_state revision (mc_FleetMaxRunners next) db)
    else Ok (0, db)).
Definition with_revision (revision : Z) (configuration : ManagementConfiguration) : ManagementConfiguration :=
  mkConfiguration revision (mc_FleetMaxRunners configuration) (mc_Nodes configuration)
    (mc_RunnerProfiles configuration) (mc_GitHubTargets configuration).

(* src: internal/store/management.go:239-350 ControllerStore.ApplyManagementConfiguration *)
Definition ApplyManagementConfiguration (s : ControllerStore) (expectedRevision : Z)
    (desired : DesiredManagementConfiguration) (verified : ManagementVerifiedAuthorities)
    (audit : AuditRecord) : program ManagementConfiguration :=
  require (requireReady (cs_base s)) ;;
  if expectedRevision >? maxSQLiteInteger
  then throw (configuration_invalid "expected revision exceeds SQLite range")
  else
  require (validateDesiredManagementConfiguration desired) ;;
  require (validateManagementVerifiedAuthorities verified) ;;
  require (validateConfigurationApplyAudit audit) ;;
  occurredAt ← audited_at s ;
  commitWithManagementAudit s
    (current ← readManagementConfiguration ;
     if mc_Revision current != expectedRevision
     then throw (StaleManagementRevisionError expectedRevision (mc_Revision current))
     else if mc_Revision current =? maxSQLiteInteger
     then throw (configuration_invalid "revision is exhausted")
     else
     requireExactEnrolledNodes (dmc_Nodes desired) ;;
     materialized ← lift (materializeManagementConfiguration current desired verified) ;
     validateActiveManagementTransition current materialized ;;
     let next := with_revision (mc_Revision current + 1) materialized in
     replaceManagementConfiguration current next ;;
     affected ← advance_configuration_state current next ;
     if affected != 1 then throw (StaleManagementRevisionError expectedRevision (mc_Revision current))
     else
     record_evidence occurredAt (mc_Revision next) audit ;;
     mret next).
