(* ===== verification/WorkStore.v ===== *)
(** * Desired executions and the commands of Agents (internal/store/controller.go,
    internal/store/controller_agent.go)

    A GitHub message that assigns work becomes an execution and the lease of its slot
    in one transaction ([Assign]); a redelivery of the message answers with them.  A
    command is recorded, without its payload, before it reaches an Agent
    ([CommitAgentCommand]); teardown of what a terminal execution left behind is a
    command on the authority of the Agent's current snapshot
    ([CommitAgentReconciliationCommand]). *)

From S2P Require Import Prelude GoStd GoEncoding Sql StoreBase EnrollRegistry EnrollPKI Domain Execution Replay Fence WorkTables ControllerStore.
From Stdlib Require Import Ascii.

Abbreviation program := (sql ControllerDB) (only parsing).

(** ** Errors *)

(* src: internal/store/store.go:45-45 ErrSlotAlreadyReserved *)
Definition ErrSlotAlreadyReserved : GoError := PlainError "store slot is already reserved".
(* src: internal/store/store.go:46-46 ErrActiveExecution *)
Definition ErrActiveExecution : GoError := PlainError "store active execution already exists".
(* src: internal/store/store.go:52-52 ErrStoreBusy *)
Definition ErrStoreBusy : GoError := PlainError "store contention deadline exceeded".
Definition ErrContextDone : GoError := PlainError "context canceled".

(** The text SQLite gives a violated key, which [mapAssignmentError] looks at. *)
Definition unique_violation (columns : string) : GoError :=
  PlainError (String.append "constraint failed: UNIQUE constraint failed: " columns).
(** [INSERT] into a table with this key. *)
Definition insert_keyed {K A} `{Countable K} (columns : string) (check : bool) (k : K) (row : A)
    (t : gmap K A) : result (gmap K A) :=
  if negb check then Err ErrConstraint
  else match t !! k with Some _ => Err (unique_violation columns) | None => Ok (<[k := row]> t) end.

(** [strings.Contains]. *)
Definition string_contains (text part : string) : bool :=
  match String.index 0 part text with Some _ => true | None => false end.
(* src: internal/store/controller.go:215-225 mapAssignmentError *)
Definition mapAssignmentError (err : GoError) : GoError :=
  match err with
  | PlainError message =>
      if string_contains message "slot_reservations.node_id, slot_reservations.slot_index"
      then wrapv ErrSlotAlreadyReserved
      else if string_contains message "slot_reservations.execution_id" ||
              string_contains message "active_execution_per_slot" ||
              string_contains message "executions.id"
      then wrapv ErrActiveExecution
      else err
  | _ => err
  end.

(** ** Assignments *)

(* src: internal/store/controller.go:15-20 Assignment *)
Record Assignment := mkAssignment {
  asg_ScaleSetID : Z; asg_MessageID : Z; asg_MessageDigest : string; asg_Execution : ExecutionSnapshot }.

(* src: internal/store/controller.go:93-107 Assignment.Validate *)
Definition Assignment_Validate (a : Assignment) : error :=
  if (asg_ScaleSetID a == 0) || (asg_MessageID a == 0) || (asg_ScaleSetID a >? maxSQLiteInteger) ||
     (asg_MessageID a >? maxSQLiteInteger)
  then Some (PlainError "assignment requires positive scale set and message IDs within SQLite's signed INTEGER range")
  else if negb (isLowerSHA256 (asg_MessageDigest a))
  then Some (PlainError "assignment requires a lowercase SHA-256 message digest")
  else
  try ExecutionSnapshot_Validate (asg_Execution a) ;;
  if exec_State (asg_Execution a) != ExecutionReserved
  then Some (PlainError "assigned execution state must be reserved") else None.

(** The columns of an execution that its snapshot has. *)
Definition execution_of (id : string) (row : ExecutionRow) : ExecutionSnapshot :=
  mkExecutionSnapshot id (ex_target_id row) (mkSlotKey (ex_node_id row) (ex_slot_index row)) (ex_state row).
Definition row_of_execution (e : ExecutionSnapshot) (createdAt : Z) : ExecutionRow :=
  mkExecutionRow (exec_TargetID e) (slot_NodeID (exec_Slot e)) (slot_Index (exec_Slot e)) (exec_State e)
    createdAt.

(** [INSERT INTO executions]. *)
(* src: internal/store/controller.go:167-169 ControllerStore.assignOnce *)
Definition insert_execution (e : ExecutionSnapshot) (createdAt : Z) : program unit :=
  exec (fun db =>
    let row := row_of_execution e createdAt in
    let! t := insert_keyed "executions.id" (execution_check (exec_ID e) row) (exec_ID e) row (executions db) ;;
    Ok (with_executions t db)).
(** The lease references the execution with its slot and target, and no two leases
    share an execution; the column's own constraint is checked before the key. *)
Definition lease_references (nodeID : string) (slot : Z) (row : ReservationRow) (db : ControllerDB) : bool :=
  match executions db !! sr_execution_id row with
  | Some e => (ex_node_id e == nodeID) && (ex_slot_index e =? slot) && (ex_target_id e == sr_target_id row)
  | None => false
  end.
Definition execution_leased (executionID : string) (db : ControllerDB) : bool :=
  existsb (fun '(_, row) => sr_execution_id row == executionID) (map_to_list (slot_reservations db)).
(* src: internal/store/controller.go:170-172 ControllerStore.assignOnce *)
Definition insert_reservation (e : ExecutionSnapshot) : program unit :=
  exec (fun db =>
    let slot := exec_Slot e in
    let row := mkReservationRow (exec_TargetID e) (exec_ID e) in
    if execution_leased (exec_ID e) db then Err (unique_violation "slot_reservations.execution_id")
    else
    let! t := insert_keyed "slot_reservations.node_id, slot_reservations.slot_index"
      (reservation_check (slot_NodeID slot) (slot_Index slot) row &&
       lease_references (slot_NodeID slot) (slot_Index slot) row db)
      (slot_NodeID slot, slot_Index slot) row (slot_reservations db) ;;
    Ok (with_reservations t db)).
Definition message_names (executionID : string) (db : ControllerDB) : bool :=
  existsb (fun '(_, row) => pm_execution_id row == executionID) (map_to_list (processed_messages (agent_work db))).
(* src: internal/store/controller.go:173-175 ControllerStore.assignOnce *)
Definition insert_message (a : Assignment) (createdAt : Z) : program unit :=
  exec (fun db =>
    let id := exec_ID (asg_Execution a) in
    let row := mkMessageRow (asg_MessageDigest a) id createdAt in
    if message_names id db then Err (unique_violation "processed_messages.execution_id")
    else
    let! t := insert_keyed "processed_messages.scale_set_id, processed_messages.message_id"
      (message_check (asg_ScaleSetID a) (asg_MessageID a) row && bool_decide (is_Some (executions db !! id)))
      (asg_ScaleSetID a, asg_MessageID a) row (processed_messages (agent_work db)) ;;
    Ok (with_work (work_with_messages t (agent_work db)) db)).

(** The join of a processed message with its execution. *)
(* src: internal/store/controller.go:191-213 findMessage *)
Definition findMessage (a : Assignment) : program (option ExecutionSnapshot) :=
  query (fun db =>
    match processed_messages (agent_work db) !! (asg_ScaleSetID a, asg_MessageID a) with
    | None => Ok None
    | Some message =>
        match executions db !! pm_execution_id message with
        | None => Ok None
        | Some row =>
            let existing := execution_of (pm_execution_id message) row in
            if (pm_message_digest message != asg_MessageDigest a) ||
               (exec_ID existing != exec_ID (asg_Execution a)) ||
               (exec_TargetID existing != exec_TargetID (asg_Execution a)) ||
               (exec_Slot existing != exec_Slot (asg_Execution a))
            then Err (wrapf ErrReplayMismatch "scale set message")
            else Ok (Some existing)
        end
    end).

(* src: internal/store/controller.go:151-180 ControllerStore.assignOnce *)
Definition assignOnce (s : ControllerStore) (a : Assignment) : program (ExecutionSnapshot * bool) :=
  createdAt ← lift (storeUnixNano (store_now (cs_base s))) ;
  in_tx
    (existing ← findMessage a ;
     match existing with
     | Some existing => mret (RollbackWith (existing, true))
     | None =>
         let e := asg_Execution a in
         mapping_error mapAssignmentError (insert_execution e createdAt) ;;
         mapping_error mapAssignmentError (insert_reservation e) ;;
         mapping_error mapAssignmentError (insert_message a createdAt) ;;
         mret (CommitWith (e, false))
     end).

(** The attempts of [Assign].  [isBusy] reads the driver's result code out of an error;
    [waits] is the number of pauses that end before the deadline of twice the busy
    timeout, [cancelled] whether the caller's own context ended first. *)
Section busy.
Context (isBusy : GoError -> bool).

(* src: internal/store/controller.go:135-148 ControllerStore.Assign *)
Fixpoint assign_attempts (s : ControllerStore) (a : Assignment) (waits : nat) (cancelled : bool)
    : program (ExecutionSnapshot * bool) := fun c =>
  match assignOnce s a c with
  | (Ok answer, c) => (Ok answer, c)
  | (Err e, c) =>
      if negb (isBusy e) then (Err e, c)
      else match waits with
      | O => (Err (if cancelled then ErrContextDone else wrapv ErrStoreBusy), c)
      | S waits => assign_attempts s a waits cancelled c
      end
  end.
(* src: internal/store/controller.go:123-149 ControllerStore.Assign *)
Definition Assign (s : ControllerStore) (a : Assignment) (waits : nat) (cancelled : bool)
    : program (ExecutionSnapshot * bool) :=
  require (requireReady (cs_base s)) ;;
  require (Assignment_Validate a) ;;
  assign_attempts s a waits cancelled.
End busy.

(** ** Issued commands *)

(** [IssuedAgentCommand] has the fields of the projection's [IssuedCommand]. *)
(* src: internal/store/controller_agent.go:17-21 IssuedAgentCommand *)
Definition IssuedAgentCommand : Type := IssuedCommand.

(* src: internal/store/controller_agent.go:250-277 validateIssuedAgentCommand *)
Definition validateIssuedAgentCommand (issued : IssuedCommand) : error :=
  if issued_NodeID issued == "" then Some (PlainError "agent command requires node ID")
  else
  try CommandType_Validate (issued_Type issued) "agent_command.type" ;;
  try Command_Validate (issued_Command issued) ;;
  let expected := command_ExpectedState (issued_Command issued) in
  if issued_Type issued == CommandPrepare then
    if expected != ExecutionReserved then Some (PlainError "prepare command must expect reserved") else None
  else if issued_Type issued == CommandStart then
    if expected != ExecutionPreparing then Some (PlainError "start command must expect preparing") else None
  else if issued_Type issued == CommandCancel then
    if bool_decide (expected ∈ [ExecutionPreparing; ExecutionRunning; ExecutionCleaning]) then None
    else Some (PlainError "cancel command must expect an active Agent state")
  else None.

(** [fmt.Errorf("stored agent command is invalid: %w", err)]. *)
Definition stored_command_invalid (e : GoError) : GoError :=
  WrappedError "stored agent command is invalid: " e.
(* src: internal/store/controller_agent.go:283-301 loadIssuedAgentCommand *)
Definition loadIssuedAgentCommand (commandID : string) (db : ControllerDB) : result (option IssuedCommand) :=
  match agent_commands (agent_work db) !! commandID with
  | None => Ok None
  | Some row =>
      match validateIssuedAgentCommand (ac_issued row) with
      | Some e => Err (stored_command_invalid e)
      | None => Ok (Some (ac_issued row))
      end
  end.

(** The credential and the administrative state of a node, joined. *)
Definition node_authority (nodeID : string) (db : ControllerDB) : result (bool * string) :=
  match enrolled_nodes db !! nodeID, node_administrative_states db !! nodeID with
  | Some node, Some state => Ok (en_revoked node, state)
  | _, _ => Err ErrNoRows
  end.
Definition ErrNodeRevoked : GoError := PlainError "agent node credential is revoked".
(* src: internal/store/controller_agent.go:1309-1325 requireActiveEnrolledNode *)
Definition requireActiveEnrolledNode (nodeID : string) : program unit :=
  '(revoked, state) ← query (node_authority nodeID) ;
  if (revoked : bool) then throw ErrNodeRevoked
  else if state != NodeActive then throw (PlainError (String.append "agent node is not active: " state))
  else mret tt.
(* src: internal/store/controller_agent.go:1327-1343 requireKnownEnrolledNode *)
Definition requireKnownEnrolledNode (nodeID : string) : program unit :=
  '(revoked, state) ← query (node_authority nodeID) ;
  if (revoked : bool) || (state == NodeRevoked) then throw ErrNodeRevoked
  else require (NodeAdministrativeState_Validate state "enrolled_node.administrative_state").

(** [readUintMetadata(ctx, tx, "controller_epoch")]. *)
Definition current_epoch : program Z :=
  query (fun db => readUintMetadata (store_metadata db) "controller_epoch").

(* src: internal/store/controller_agent.go:1295-1307 loadControllerExecution *)
Definition loadControllerExecution (executionID : string) : program ExecutionSnapshot :=
  query (fun db =>
    match executions db !! executionID with
    | None => Err ErrNoRows
    | Some row =>
        let result := execution_of executionID row in
        tryr ExecutionSnapshot_Validate result ;;
        Ok result
    end).

(** A [uint64] whose highest bit is set cannot be bound to a statement; the foreign
    keys name the node and the execution. *)
(* src: internal/store/controller_agent.go:117-126 ControllerStore.CommitAgentCommand *)
Definition insert_agent_command (issued : IssuedCommand) (issuedAt : Z) : program unit :=
  exec (fun db =>
    let command := issued_Command issued in
    let row := mkAgentCommandRow issued issuedAt in
    let! t := insert_row
      (agent_command_check row && (command_ControllerEpoch command <=? max_int64) &&
       bool_decide (is_Some (enrolled_nodes db !! issued_NodeID issued)) &&
       bool_decide (is_Some (executions db !! command_ExecutionID command)))
      (command_ID command) row (agent_commands (agent_work db)) ;;
    Ok (with_work (work_with_commands t (agent_work db)) db)).

(** The command recorded under this identity, when there is one: the same command
    answers [true], another one is an error. *)
Definition replayed_command (issued : IssuedCommand) (text : string) : program bool :=
  existing ← query (loadIssuedAgentCommand (command_ID (issued_Command issued))) ;
  match existing with
  | Some existing => if existing != issued then throw (wrapf ErrReplayMismatch text) else mret true
  | None => mret false
  end.

(* src: internal/store/controller_agent.go:72-130 ControllerStore.CommitAgentCommand *)
Definition CommitAgentCommand (s : ControllerStore) (issued : IssuedCommand) : program bool :=
  require (requireReady (cs_base s)) ;;
  require (validateIssuedAgentCommand issued) ;;
  issuedAt ← lift (storeUnixNano (store_now (cs_base s))) ;
  in_tx
    (found ← replayed_command issued "agent command" ;
     if (found : bool) then mret (RollbackWith true)
     else
     requireActiveEnrolledNode (issued_NodeID issued) ;;
     currentEpoch ← current_epoch ;
     if command_ControllerEpoch (issued_Command issued) != currentEpoch
     then throw (wrapf ErrStaleControllerEpoch "command epoch")
     else
     '(nodeID, currentState) ← query (fun db =>
       match executions db !! command_ExecutionID (issued_Command issued) with
       | None => Err ErrNoRows
       | Some row => Ok (ex_node_id row, ex_state row)
       end) ;
     if (nodeID != issued_NodeID issued) || (currentState != command_ExpectedState (issued_Command issued))
     then throw (PlainError "agent command execution precondition is stale")
     else
     insert_agent_command issued issuedAt ;;
     mret (CommitWith false)).

(** ** Authority of the current snapshot *)

(* src: internal/store/controller_agent.go:400-420 agentCommandReconciliationAuthority *)
Definition agentCommandReconciliationAuthority (commandID : string) (db : ControllerDB)
    : result (bool * string) :=
  match reconciliation_agent_commands (agent_work db) !! commandID with
  | None => Ok (false, "")
  | Some digest =>
      if negb (isLowerSHA256 digest)
      then Err (PlainError "stored reconciliation command identity is invalid")
      else Ok (true, digest)
  end.
(* src: internal/store/controller_agent.go:390-398 agentCommandIsReconciliation *)
Definition agentCommandIsReconciliation (commandID : string) (db : ControllerDB) : result bool :=
  let! (reconciliation, _) := agentCommandReconciliationAuthority commandID db ;;
  Ok reconciliation.
(* src: internal/store/controller_agent.go:377-388 ControllerStore.AgentCommandIsReconciliation *)
Definition AgentCommandIsReconciliation (s : ControllerStore) (commandID : string) : program bool :=
  require (requireReady (cs_base s)) ;;
  if commandID == "" then throw (PlainError "agent command ID is required")
  else query (agentCommandIsReconciliation commandID).

Definition ErrAuthorityChanged : GoError := PlainError "Agent snapshot authority changed".
(* src: internal/store/controller_agent.go:695-717 requireCurrentAgentSnapshotAuthority *)
Definition requireCurrentAgentSnapshotAuthority (nodeID snapshotDigest : string) (controllerEpoch : Z)
    : program unit :=
  if negb (isLowerSHA256 snapshotDigest) || (ControllerEpoch_Validate controllerEpoch != None)
  then throw (PlainError "Agent snapshot digest is invalid")
  else
  authority ← query (fun db => from_option Ok (Err ErrNoRows) (agent_snapshot_authority (agent_work db) !! nodeID)) ;
  if (sa_snapshot_digest authority != snapshotDigest) || (sa_accepted_by authority != controllerEpoch)
  then throw ErrAuthorityChanged else mret tt.

(** [SELECT … FROM agent_current_snapshot_observations WHERE node_id = ? AND
    execution_id = ? AND snapshot_digest = ?]. *)
Definition current_observation (nodeID executionID snapshotDigest : string) (db : ControllerDB)
    : option CurrentObservationRow :=
  o ← agent_current_snapshot_observations (agent_work db) !! (nodeID, executionID) ;
  if co_snapshot_digest o == snapshotDigest then Some o else None.

(* src: internal/store/controller_agent.go:239-243 ControllerStore.CommitAgentReconciliationCommand *)
Definition insert_reconciliation (commandID snapshotDigest : string) : program unit :=
  exec (fun db =>
    let! t := insert_row (isLowerSHA256 snapshotDigest &&
        bool_decide (is_Some (agent_commands (agent_work db) !! commandID)))
      commandID snapshotDigest (reconciliation_agent_commands (agent_work db)) ;;
    Ok (with_work (work_with_reconciliations t (agent_work db)) db)).

(** A replay must have been a command of the same authority. *)
(* src: internal/store/controller_agent.go:164-187 ControllerStore.CommitAgentReconciliationCommand *)
Definition replayed_reconciliation (issued : IssuedCommand) (snapshotDigest : string) : program bool :=
  found ← replayed_command issued "reconciliation agent command" ;
  if (found : bool) then
    '(reconciliation, committedDigest) ←
      query (agentCommandReconciliationAuthority (command_ID (issued_Command issued))) ;
    if negb reconciliation || (committedDigest != snapshotDigest)
    then throw (wrapf ErrReplayMismatch "ordinary command cannot become reconciliation authority")
    else mret true
  else mret false.

(* src: internal/store/controller_agent.go:137-248 ControllerStore.CommitAgentReconciliationCommand *)
Definition CommitAgentReconciliationCommand (s : ControllerStore) (issued : IssuedCommand)
    (snapshotDigest : string) : program bool :=
  require (requireReady (cs_base s)) ;;
  require (validateIssuedAgentCommand issued) ;;
  if issued_Type issued != CommandCancel
  then throw (PlainError "only Cancel may use reconciliation command authority")
  else if negb (isLowerSHA256 snapshotDigest)
  then throw (PlainError "reconciliation command requires an exact Agent snapshot digest")
  else
  issuedAt ← lift (storeUnixNano (store_now (cs_base s))) ;
  in_tx
    (found ← replayed_reconciliation issued snapshotDigest ;
     if (found : bool) then mret (RollbackWith true)
     else
     let command := issued_Command issued in
     requireKnownEnrolledNode (issued_NodeID issued) ;;
     currentEpoch ← current_epoch ;
     if command_ControllerEpoch command != currentEpoch
     then throw (wrapf ErrStaleControllerEpoch "command epoch")
     else
     execution ← loadControllerExecution (command_ExecutionID command) ;
     if slot_NodeID (exec_Slot execution) != issued_NodeID issued
     then throw (PlainError "reconciliation command execution belongs to another node")
     else
     requireCurrentAgentSnapshotAuthority (issued_NodeID issued) snapshotDigest
       (command_ControllerEpoch command) ;;
     if negb (bool_decide (exec_State execution ∈ [ExecutionReleased; ExecutionFailed]))
     then throw (PlainError "reconciliation command requires terminal desired state")
     else
     observed ← query (fun db => from_option Ok (Err ErrNoRows)
       (current_observation (issued_NodeID issued) (command_ExecutionID command) snapshotDigest db)) ;
     if co_state observed != command_ExpectedState command
     then throw (PlainError "reconciliation command Agent observation precondition is stale")
     else
     insert_agent_command issued issuedAt ;;
     insert_reconciliation (command_ID command) snapshotDigest ;;
     mret (CommitWith false)).

(* src: internal/store/controller_agent.go:306-317 ControllerStore.IssuedAgentCommand *)
Definition ReadIssuedAgentCommand (s : ControllerStore) (commandID : string) : program (option IssuedCommand) :=
  require (requireReady (cs_base s)) ;;
  if commandID == "" then throw (PlainError "agent command ID is required")
  else query (loadIssuedAgentCommand commandID).

(* src: internal/store/controller_agent.go:322-374 ControllerStore.ReplayAgentCommand *)
Definition ReplayAgentCommand (s : ControllerStore) (issued : IssuedCommand) (snapshotDigest : string)
    : program bool :=
  require (requireReady (cs_base s)) ;;
  require (validateIssuedAgentCommand issued) ;;
  if negb (isLowerSHA256 snapshotDigest)
  then throw (PlainError "Agent command replay requires an exact snapshot digest")
  else
  in_tx
    (currentEpoch ← current_epoch ;
     if command_ControllerEpoch (issued_Command issued) >? currentEpoch then throw ErrStaleControllerEpoch
     else
     requireCurrentAgentSnapshotAuthority (issued_NodeID issued) snapshotDigest currentEpoch ;;
     existing ← query (loadIssuedAgentCommand (command_ID (issued_Command issued))) ;
     if existing != Some issued
     then throw (wrapf ErrReplayMismatch "command is not exact durable replay authority")
     else
     requireKnownEnrolledNode (issued_NodeID issued) ;;
     mret (CommitWith true)).
