(* ===== verification/WorkAgent.v ===== *)
(** * What Agents report to the Controller (internal/store/controller_agent.go,
    internal/store/controller_node_availability.go)

    A snapshot of an Agent's journal replaces the current snapshot of its node in one
    transaction ([RecordAgentSnapshot]); its digest is then the authority under which
    the Controller adopts observations, fails executions the Agent no longer owns, and
    tears down what is left.  Execution updates are accepted once each and are the only
    way a lease ends while its Agent is known to own the execution
    ([RecordAgentExecutionUpdate]).  The owner's availability travels with both. *)

From S2P Require Import Prelude GoStd GoEncoding Sql StoreBase EnrollRegistry EnrollPKI Domain Execution Replay Fence Transport AgentStore WorkTables ControllerStore WorkStore.
From Stdlib Require Import Ascii.

(** ** Records *)

(** [ExcludedTargets] is a slice whose [nil] means "not reported". *)
(* src: internal/store/controller_agent.go:23-47 NodeAgentSnapshot *)
Record NodeAgentSnapshot := mkNodeAgentSnapshot {
  nas_NodeID : NodeID; nas_OS : string; nas_Architecture : string; nas_RunnerVersion : string;
  nas_NativeRunnerReady : bool; nas_AvailabilityIntent : string;
  nas_ExcludedTargets : option (list TargetID); nas_SharedRunnerIdentity : option bool;
  nas_Journal : AgentStoreSnapshot }.
(* src: internal/store/controller_agent.go:52-61 AgentExecutionUpdate *)
Record AgentExecutionUpdate := mkAgentUpdate {
  aeu_NodeID : NodeID; aeu_MessageID : string; aeu_CommandID : CommandID; aeu_ExecutionID : ExecutionID;
  aeu_State : string; aeu_Replayed : bool; aeu_ErrorCode : string; aeu_PayloadDigest : string }.
#[export] Instance AgentExecutionUpdate_eq_dec : EqDecision AgentExecutionUpdate.
Proof. solve_decision. Defined.
#[export] Instance ObservationSnapshot_eq_dec : EqDecision ObservationSnapshot.
Proof. solve_decision. Defined.

(* src: internal/store/controller_agent.go:68-70 ErrAgentTerminalUpdatePending *)
Definition ErrAgentTerminalUpdatePending : GoError :=
  PlainError "Agent terminal execution update is not durable yet".

(** ** The owner's state (controller_node_availability.go) *)

(* src: internal/store/controller_node_availability.go:17-17 MaxNodeTargetExclusions *)
Definition MaxNodeTargetExclusions : Z := 256.
(* src: internal/store/controller_node_availability.go:22-25 nodeOwnerAdoption *)
Record nodeOwnerAdoption := mkAdoption { intentChanged : bool; exclusionsChanged : bool }.
(* src: internal/store/controller_node_availability.go:27-29 nodeOwnerAdoption.audited *)
Definition adoption_audited (adoption : nodeOwnerAdoption) : bool :=
  intentChanged adoption || exclusionsChanged adoption.

(** A loop that validates its items and refuses a second one with the same key. *)
Fixpoint validate_items {A} (validate : A -> error) (key : A -> string) (repeated : GoError)
    (seen : gset string) (items : list A) : error :=
  match items with
  | [] => None
  | item :: items =>
      try validate item ;;
      if bool_decide (key item ∈ seen) then Some repeated
      else validate_items validate key repeated ({[key item]} ∪ seen) items
  end.

(* src: internal/store/controller_node_availability.go:447-462 validateNodeTargetExclusions *)
Definition validateNodeTargetExclusions (exclusions : list TargetID) : error :=
  if Z.of_nat (length exclusions) >? MaxNodeTargetExclusions
  then Some (PlainError "node target exclusion set exceeds its transport bound")
  else validate_items (fun targetID =>
    if negb (canonicalRuntimeIdentifier targetID)
    then Some (PlainError "node target exclusion identity is invalid") else None)
    (fun targetID => targetID) (PlainError "node target exclusion set repeats a target ID") ∅ exclusions.
(* src: internal/store/controller_node_availability.go:432-445 validateNodeOwnerState *)
Definition validateNodeOwnerState (intent : string) (exclusions : option (list TargetID)) : error :=
  try (if intent != "" then AvailabilityIntent_Validate intent "node_owner_state.availability_intent"
       else None) ;;
  match exclusions with None => None | Some targets => validateNodeTargetExclusions targets end.

(** [UPDATE agent_session_snapshots SET … WHERE node_id = ?]. *)
(* src: internal/store/controller_node_availability.go:343-351 adoptNodeAvailabilityIntent *)
Definition update_session (nodeID : string) (f : SessionRow -> SessionRow) : program Z :=
  statement (fun db =>
    match agent_session_snapshots (agent_work db) !! nodeID with
    | None => Ok (0, db)
    | Some row =>
        if negb (session_check (f row)) then Err ErrConstraint
        else Ok (1, with_work (work_with_sessions (<[nodeID := f row]> (agent_session_snapshots (agent_work db)))
               (agent_work db)) db)
    end).
Definition session_with_intent (intent : string) (row : SessionRow) : SessionRow :=
  mkSessionRow (as_operating_system row) (as_architecture row) (as_runner_version row)
    (as_native_runner_ready row) (as_max_controller_epoch row) (as_received_at row) (Some intent)
    (as_shared_runner_identity row).
Definition session_with_shared (shared : bool) (row : SessionRow) : SessionRow :=
  mkSessionRow (as_operating_system row) (as_architecture row) (as_runner_version row)
    (as_native_runner_ready row) (as_max_controller_epoch row) (as_received_at row)
    (as_availability_intent row) (Some shared).
Definition session_with_readiness (ready : bool) (receivedAt : Z) (row : SessionRow) : SessionRow :=
  mkSessionRow (as_operating_system row) (as_architecture row) (as_runner_version row) ready
    (as_max_controller_epoch row) receivedAt (as_availability_intent row) (as_shared_runner_identity row).

(* src: internal/store/controller_node_availability.go:326-355 adoptNodeAvailabilityIntent *)
Definition adoptNodeAvailabilityIntent (nodeID intent : string) : program bool :=
  current ← query (fun db => from_option (fun row => Ok (as_availability_intent row)) (Err ErrNoRows)
    (agent_session_snapshots (agent_work db) !! nodeID)) ;
  if current == Some intent then mret false
  else
  affected ← update_session nodeID (session_with_intent intent) ;
  if affected != 1
  then throw (PlainError "node availability intent did not update exactly one session snapshot")
  else mret true.
(* src: internal/store/controller_node_availability.go:361-380 adoptNodeSharedRunnerIdentity *)
Definition adoptNodeSharedRunnerIdentity (nodeID : string) (shared : bool) : program unit :=
  affected ← update_session nodeID (session_with_shared shared) ;
  if affected != 1
  then throw (PlainError "node shared runner identity did not update exactly one session snapshot")
  else mret tt.

(** The excluded targets of a node, in order. *)
Definition exclusions_of (nodeID : string) (db : ControllerDB) : list TargetID :=
  sort_slice string_less (omap (fun '((node, target), _) => if node == nodeID then Some target else None)
    (map_to_list (node_target_exclusions (agent_work db)))).
(* src: internal/store/controller_node_availability.go:208-238 readNodeTargetExclusions *)
Definition readNodeTargetExclusions (nodeID : string) : program (list TargetID) :=
  query (fun db => scan_rows (fun targetID =>
    if targetID == "" then Err (PlainError "stored node target exclusion is invalid") else Ok targetID)
    (exclusions_of nodeID db)).
(* src: internal/store/controller_node_availability.go:414-418 canonicalTargetIDSet *)
Definition canonicalTargetIDSet (targetIDs : list TargetID) : list TargetID := sort_slice string_less targetIDs.
(* src: internal/store/controller_node_availability.go:420-430 equalTargetIDSets *)
Definition equalTargetIDSets (left right : list TargetID) : bool := left == right.

(** [DELETE FROM … WHERE node_id = ?]. *)
Definition delete_node {A} (nodeID : string) (t : gmap (string * string) A) : gmap (string * string) A :=
  filter (fun row => row.1.1 <> nodeID) t.
(* src: internal/store/controller_node_availability.go:405-409 adoptNodeTargetExclusions *)
Definition insert_exclusion (nodeID : string) (recordedAt : Z) (targetID : TargetID) : program unit :=
  exec (fun db =>
    let! t := insert_row (sql_nonempty targetID && (recordedAt >? 0)) (nodeID, targetID) recordedAt
      (node_target_exclusions (agent_work db)) ;;
    Ok (with_work (work_with_exclusions t (agent_work db)) db)).
(* src: internal/store/controller_node_availability.go:382-412 adoptNodeTargetExclusions *)
Definition adoptNodeTargetExclusions (nodeID : string) (exclusions : list TargetID) (recordedAt : Z)
    : program bool :=
  current ← readNodeTargetExclusions nodeID ;
  let next := canonicalTargetIDSet exclusions in
  if equalTargetIDSets current next then mret false
  else
  exec (fun db => Ok (with_work (work_with_exclusions
    (delete_node nodeID (node_target_exclusions (agent_work db))) (agent_work db)) db)) ;;
  each (insert_exclusion nodeID recordedAt) next ;;
  mret true.

(** Its failure does not degrade the audit authority. *)
(* src: internal/store/controller_node_availability.go:303-324 insertNodeOwnerAudit *)
Definition insertNodeOwnerAudit (occurredAt revision : Z) (nodeID action : string) : program unit :=
  mapping_error (fun _ => wrapv ErrManagementAuditPersistence) (insertAuditEvent occurredAt revision
    (mkAudit AuditActorNode action AuditOutcomeSucceeded AuditResourceNode nodeID "" "req_unavailable")) ;;
  mret tt.

(* src: internal/store/controller_node_availability.go:243-301 adoptNodeOwnerState *)
Definition adoptNodeOwnerState (nodeID intent : string) (exclusions : option (list TargetID))
    (shared : option bool) (recordedAt : Z) : program nodeOwnerAdoption :=
  match shared with None => mret tt | Some shared => adoptNodeSharedRunnerIdentity nodeID shared end ;;
  intentChanged ← (if intent != "" then adoptNodeAvailabilityIntent nodeID intent else mret false) ;
  exclusionsChanged ← match exclusions with
    | None => mret false
    | Some targets => adoptNodeTargetExclusions nodeID targets recordedAt
    end ;
  let adoption := mkAdoption intentChanged exclusionsChanged in
  if negb (adoption_audited adoption) then mret adoption
  else
  revision ← readManagementRevision ;
  (if (intentChanged : bool)
   then insertNodeOwnerAudit recordedAt revision nodeID AuditActionNodeAvailabilityChanged else mret tt) ;;
  (if (exclusionsChanged : bool)
   then insertNodeOwnerAudit recordedAt revision nodeID AuditActionNodeTargetExclusionChanged else mret tt) ;;
  mret adoption.

(** The end of a transaction that adopted the owner's state: an ordinary commit, or
    the audited one when evidence was written. *)
Definition commit_adoption (s : ControllerStore) (body : program nodeOwnerAdoption) : program unit :=
  in_tx_recovering
    (adoption ← body ;
     if adoption_audited adoption && negb (audit_gate_healthy s) then throw ErrManagementAuditPersistence
     else mret (CommitWith (adoption_audited adoption)))
    (fun e audited => throw (if (audited : bool) then degraded e else e)) ;;
  mret tt.

Definition reports_owner_state (intent : string) (exclusions : option (list TargetID)) : bool :=
  (intent != "") || (exclusions != None).
(* src: internal/store/controller_node_availability.go:39-104 ControllerStore.RecordNodeOwnerState *)
Definition RecordNodeOwnerState (s : ControllerStore) (nodeID expectedSnapshotDigest intent : string)
    (exclusions : option (list TargetID)) (shared : option bool) : program unit :=
  require (requireReady (cs_base s)) ;;
  if (nodeID == "") || negb (isLowerSHA256 expectedSnapshotDigest)
  then throw (PlainError "node owner state authority is invalid")
  else
  require (validateNodeOwnerState intent exclusions) ;;
  if negb (reports_owner_state intent exclusions) && (shared == None) then mret tt
  else if reports_owner_state intent exclusions && negb (ManagementAuditHealthy s)
  then throw ErrManagementAuditPersistence
  else
  recordedAt ← lift (storeUnixNano (store_now (cs_base s))) ;
  commit_adoption s
    (requireKnownEnrolledNode nodeID ;;
     currentEpoch ← current_epoch ;
     requireCurrentAgentSnapshotAuthority nodeID expectedSnapshotDigest currentEpoch ;;
     adoptNodeOwnerState nodeID intent exclusions shared recordedAt).

(* src: internal/store/controller_node_availability.go:110-121 ControllerStore.ReadNodeTargetExclusions *)
Definition ReadNodeTargetExclusions (s : ControllerStore) (nodeID : string) : program (list TargetID) :=
  require (requireReady (cs_base s)) ;;
  if nodeID == "" then throw (PlainError "node target exclusion read requires node ID")
  else readNodeTargetExclusions nodeID.

(* src: internal/store/controller_node_availability.go:127-134 NodeOwnerState *)
Record NodeOwnerState := mkOwnerState {
  nos_Intent : option string; nos_Exclusions : list TargetID; nos_SharedRunnerIdentity : option bool }.
(** A node without an entry has the zero state. *)
Definition owner_state_at (nodeID : string) (states : gmap string NodeOwnerState) : NodeOwnerState :=
  default (mkOwnerState None [] None) (states !! nodeID).
(* src: internal/store/controller_node_availability.go:141-206 ControllerStore.ReadNodeOwnerStates *)
Definition ReadNodeOwnerStates (s : ControllerStore) : program (gmap string NodeOwnerState) :=
  require (requireReady (cs_base s)) ;;
  states ← query (fun db => Ok (omap (fun row =>
    match as_availability_intent row, as_shared_runner_identity row with
    | None, None => None
    | intent, shared => Some (mkOwnerState intent [] shared)
    end) (agent_session_snapshots (agent_work db)))) ;
  rows ← query (fun db => Ok (map fst (map_to_list (node_target_exclusions (agent_work db))))) ;
  mret (foldl (fun states '(nodeID, targetID) =>
    let state := owner_state_at nodeID states in
    <[nodeID := mkOwnerState (nos_Intent state) (nos_Exclusions state ++ [targetID])
        (nos_SharedRunnerIdentity state)]> states) states
    (sort_slice (fun a b => if a.1 == b.1 then string_less a.2 b.2 else string_less a.1 b.1) rows)).
