(* ===== verification/WorkReport.v ===== *)
(** * Snapshots and execution updates of Agents (internal/store/controller_agent.go)

    [RecordAgentSnapshot] accepts a full journal, [RecordAgentReadiness] renews it;
    [AdoptAgentSnapshotObservation] and [FailDesiredExecutionFromSnapshot] act on its
    authority; [RecordAgentExecutionUpdate] accepts one message of an Agent's outbox. *)

From S2P Require Import Prelude GoStd GoEncoding Sql StoreBase EnrollRegistry EnrollPKI Domain Execution Replay Fence Transport AgentStore WorkTables ControllerStore WorkStore WorkAgent.
From Stdlib Require Import Ascii.

(** ** Validation *)

(* src: internal/store/controller_agent.go:905-913 terminalControllerExecution *)
Definition terminalControllerExecution (state : string) : bool :=
  bool_decide (state ∈ [ExecutionReleased; ExecutionFailed; ExecutionQuarantined]).
(* src: internal/store/controller_agent.go:915-923 terminalAgentExecutionObservation *)
Definition terminalAgentExecutionObservation (state : string) : bool :=
  bool_decide (state ∈ [ExecutionReleased; ExecutionFailed; ExecutionCleanupFailed; ExecutionQuarantined]).

(* src: internal/store/controller_agent.go:951-956 validateNodeAgentSnapshot *)
Definition validate_snapshot_command (maximum : Z) (command : Command) : error :=
  try Command_Validate command ;;
  if command_ControllerEpoch command >? maximum
  then Some (PlainError "agent snapshot command exceeds its maximum controller epoch") else None.
(* src: internal/store/controller_agent.go:964-969 validateNodeAgentSnapshot *)
Definition validate_snapshot_observation (observation : ObservationSnapshot) : error :=
  if (os_ExecutionID observation == "") || (os_ObservedAtUnixNano observation <=? 0)
  then Some (PlainError "agent snapshot observation is invalid")
  else ExecutionState_Validate (os_State observation) "agent_snapshot.observation.state".
(* src: internal/store/controller_agent.go:977-982 validateNodeAgentSnapshot *)
Definition validate_snapshot_tombstone (tombstone : CleanupTombstoneSnapshot) : error :=
  if (ts_ExecutionID tombstone == "") || (ts_RecordedAtUnixNano tombstone <=? 0)
  then Some (PlainError "agent snapshot cleanup tombstone is invalid")
  else CleanupFailureCode_Validate (ts_FailureCode tombstone) "agent_snapshot.cleanup_tombstone.failure_code".
(* src: internal/store/controller_agent.go:925-989 validateNodeAgentSnapshot *)
Definition validateNodeAgentSnapshot (snapshot : NodeAgentSnapshot) : error :=
  let journal := nas_Journal snapshot in
  if nas_NodeID snapshot == "" then Some (PlainError "agent snapshot requires node ID")
  else
  try OperatingSystem_Validate (nas_OS snapshot) "agent_snapshot.os" ;;
  try Architecture_Validate (nas_Architecture snapshot) "agent_snapshot.architecture" ;;
  if (nas_RunnerVersion snapshot != "") &&
     ((TrimSpace (nas_RunnerVersion snapshot) != nas_RunnerVersion snapshot) ||
      (len_string (nas_RunnerVersion snapshot) >? 64))
  then Some (PlainError "agent snapshot runner version is invalid")
  else
  try validateNodeOwnerState (nas_AvailabilityIntent snapshot) (nas_ExcludedTargets snapshot) ;;
  try validate_items (validate_snapshot_command (ass_MaxControllerEpoch journal)) command_ID
        (PlainError "agent snapshot repeats a command ID") ∅ (ass_Commands journal) ;;
  try validate_items validate_snapshot_observation os_ExecutionID
        (PlainError "agent snapshot repeats an execution observation") ∅ (ass_Observations journal) ;;
  validate_items validate_snapshot_tombstone ts_ExecutionID
    (PlainError "agent snapshot repeats a cleanup tombstone") ∅ (ass_CleanupTombstones journal).

(* src: internal/store/controller_agent.go:1247-1268 validateAgentExecutionUpdate *)
Definition validateAgentExecutionUpdate (update : AgentExecutionUpdate) : error :=
  if (aeu_NodeID update == "") || (aeu_MessageID update == "") || (aeu_CommandID update == "") ||
     (aeu_ExecutionID update == "") || negb (isLowerSHA256 (aeu_PayloadDigest update))
  then Some (PlainError "agent execution update identity is invalid")
  else
  try ExecutionState_Validate (aeu_State update) "agent_execution_update.state" ;;
  try ExecutionErrorCode_Validate (aeu_ErrorCode update) "agent_execution_update.error_code" ;;
  if bool_decide (aeu_State update ∈ [ExecutionFailed; ExecutionCleanupFailed; ExecutionQuarantined])
  then if aeu_ErrorCode update == ExecutionErrorNone
       then Some (PlainError "failed agent execution update requires a classified error") else None
  else if aeu_ErrorCode update != ExecutionErrorNone
       then Some (PlainError "non-failed agent execution update cannot carry an error") else None.

(** ** Statements *)

(** The node of an execution. *)
(* src: internal/store/controller_agent.go:1345-1362 requireExecutionOwnedByNode *)
Definition requireExecutionOwnedByNode (nodeID executionID : string) : program unit :=
  owner ← query (fun db => from_option (fun row => Ok (ex_node_id row)) (Err ErrNoRows) (executions db !! executionID)) ;
  if owner != nodeID then throw (PlainError "agent snapshot execution is owned by another node") else mret tt.

(** [UPDATE node_administrative_states SET administrative_state = 'quarantined' WHERE
    node_id = ? AND administrative_state != 'revoked']. *)
(* src: internal/store/controller_agent.go:1365-1368 quarantineNode *)
Definition quarantined_db (nodeID : string) (db : ControllerDB) : ControllerDB :=
  match node_administrative_states db !! nodeID with
  | Some st => if st == NodeRevoked then db
               else with_states (<[nodeID := NodeQuarantined]> (node_administrative_states db)) db
  | None => db
  end.
(* src: internal/store/controller_agent.go:1364-1380 quarantineNode *)
Definition quarantineNode (nodeID : string) : program unit :=
  affected ← statement (fun db => Ok (match node_administrative_states db !! nodeID with
      | Some state => if state == NodeRevoked then 0 else 1
      | None => 0
      end, quarantined_db nodeID db)) ;
  if affected != 1 then throw (PlainError "agent node cannot be quarantined") else mret tt.

(** [UPDATE executions SET state = ? WHERE id = ? AND state = ?]. *)
Definition row_with_state (state : string) (row : ExecutionRow) : ExecutionRow :=
  mkExecutionRow (ex_target_id row) (ex_node_id row) (ex_slot_index row) state (ex_created_at row).
(* src: internal/store/controller_agent.go:803-805 ControllerStore.AdoptAgentSnapshotObservation *)
Definition cas_execution (executionID from to : string) : program Z :=
  statement (fun db =>
    match executions db !! executionID with
    | Some row =>
        if ex_state row != from then Ok (0, db)
        else if negb (bool_decide (to ∈ execution_check_states)) then Err ErrConstraint
        else Ok (1, with_executions (<[executionID := row_with_state to row]> (executions db)) db)
    | None => Ok (0, db)
    end).
(** [DELETE FROM slot_reservations WHERE execution_id = ?], under the trigger that
    guards the leases of active executions. *)
(* src: internal/store/migrations/controller/007_quarantined_terminal_lease.sql:15-25 active_execution_reservation_guard *)
Definition guarded_lease (executionID : string) (db : ControllerDB) : bool :=
  match executions db !! executionID with
  | Some row => negb (bool_decide (ex_state row ∈ [ExecutionReleased; ExecutionFailed; ExecutionQuarantined]))
  | None => false
  end.
(* src: internal/store/controller_agent.go:1202-1209 ControllerStore.RecordAgentExecutionUpdate *)
Definition release_lease (executionID : string) : program Z :=
  statement (fun db =>
    let kept := filter (fun row => sr_execution_id row.2 <> executionID) (slot_reservations db) in
    let affected := Z.of_nat (size (slot_reservations db) - size kept) in
    if (affected >? 0) && guarded_lease executionID db
    then Err (PlainError "active execution reservation cannot be deleted")
    else Ok (affected, with_reservations kept db)).

(** ** The journal of a snapshot *)

(* src: internal/store/controller_agent.go:1017-1021 recordSnapshotCommand *)
Definition insert_snapshot_command (nodeID : string) (command : Command) : program unit :=
  exec (fun db =>
    let! t := insert_row (snapshot_command_check command) (nodeID, command_ID command) command
      (agent_snapshot_commands (agent_work db)) ;;
    Ok (with_work (work_with_snapshot_commands t (agent_work db)) db)).
(* src: internal/store/controller_agent.go:991-1022 recordSnapshotCommand *)
Definition recordSnapshotCommand (nodeID : string) (command : Command) : program unit :=
  issued ← query (loadIssuedAgentCommand (command_ID command)) ;
  match issued with
  | None => throw (PlainError "agent snapshot command was not issued by this controller")
  | Some issued =>
      if (issued_NodeID issued != nodeID) || (issued_Command issued != command)
      then throw (wrapf ErrReplayMismatch "agent snapshot command differs from controller authority")
      else
      existing ← query (fun db => Ok (agent_snapshot_commands (agent_work db) !! (nodeID, command_ID command))) ;
      match existing with
      | Some existing => if existing != command then throw (wrapf ErrReplayMismatch "agent snapshot command") else mret tt
      | None => insert_snapshot_command nodeID command
      end
  end.

(* src: internal/store/controller_agent.go:1045-1054 recordSnapshotObservation *)
Definition upsert_observation (nodeID : string) (observation : ObservationSnapshot) (receivedAt : Z)
    : program unit :=
  exec (fun db =>
    let row := mkObservationRow (os_State observation) (os_ObservedAtUnixNano observation) receivedAt in
    let! t := upsert_row (snapshot_observation_check (os_ExecutionID observation) row)
      (nodeID, os_ExecutionID observation) row (agent_snapshot_observations (agent_work db)) ;;
    Ok (with_work (work_with_snapshot_observations t (agent_work db)) db)).
(** What was observed before, against what is observed now. *)
(* src: internal/store/controller_agent.go:1036-1044 recordSnapshotObservation *)
Definition observation_regressed (previous : option ObservationRow) (observation : ObservationSnapshot) : error :=
  match previous with
  | None => None
  | Some previous =>
      if os_ObservedAtUnixNano observation <? so_observed_at previous
      then Some (PlainError "agent snapshot observation timestamp regressed")
      else if (os_ObservedAtUnixNano observation =? so_observed_at previous) &&
              (os_State observation != so_state previous)
      then Some (PlainError "agent snapshot changed an observation at the same timestamp")
      else if negb (CanReachExecutionState (so_state previous) (os_State observation))
      then Some (PlainError "agent snapshot observation state regressed")
      else None
  end.
(* src: internal/store/controller_agent.go:1025-1058 recordSnapshotObservation *)
Definition recordSnapshotObservation (nodeID : string) (receivedAt : Z) (observation : ObservationSnapshot)
    : program unit :=
  requireExecutionOwnedByNode nodeID (os_ExecutionID observation) ;;
  previous ← query (fun db =>
    Ok (agent_snapshot_observations (agent_work db) !! (nodeID, os_ExecutionID observation))) ;
  require (observation_regressed previous observation) ;;
  upsert_observation nodeID observation receivedAt ;;
  if bool_decide (os_State observation ∈ [ExecutionCleanupFailed; ExecutionQuarantined])
  then quarantineNode nodeID else mret tt.

(* src: internal/store/controller_agent.go:1081-1093 recordSnapshotTombstone *)
Definition upsert_tombstone (nodeID : string) (tombstone : CleanupTombstoneSnapshot) (receivedAt : Z)
    : program unit :=
  exec (fun db =>
    let row := mkTombstoneRow (ts_FailureCode tombstone) (ts_RecordedAtUnixNano tombstone) receivedAt in
    let! t := upsert_row (snapshot_tombstone_check (ts_ExecutionID tombstone) row)
      (nodeID, ts_ExecutionID tombstone) row (agent_snapshot_cleanup_tombstones (agent_work db)) ;;
    Ok (with_work (work_with_snapshot_tombstones t (agent_work db)) db)).
(* src: internal/store/controller_agent.go:1075-1080 recordSnapshotTombstone *)
Definition tombstone_regressed (previous : option TombstoneRow) (tombstone : CleanupTombstoneSnapshot) : error :=
  match previous with
  | None => None
  | Some previous =>
      if ts_RecordedAtUnixNano tombstone <? st_recorded_at previous
      then Some (PlainError "agent cleanup tombstone timestamp regressed")
      else if ts_FailureCode tombstone != st_failure_code previous
      then Some (PlainError "agent cleanup tombstone classification changed")
      else None
  end.
(* src: internal/store/controller_agent.go:1063-1094 recordSnapshotTombstone *)
Definition recordSnapshotTombstone (nodeID : string) (receivedAt : Z) (tombstone : CleanupTombstoneSnapshot)
    : program unit :=
  requireExecutionOwnedByNode nodeID (ts_ExecutionID tombstone) ;;
  previous ← query (fun db =>
    Ok (agent_snapshot_cleanup_tombstones (agent_work db) !! (nodeID, ts_ExecutionID tombstone))) ;
  require (tombstone_regressed previous tombstone) ;;
  upsert_tombstone nodeID tombstone receivedAt ;;
  quarantineNode nodeID.

(** ** The current snapshot *)

(** The session of the node: a conflict keeps the platform, the intent and the
    isolation mode, and updates nothing when the platform differs. *)
(* src: internal/store/controller_agent.go:467-491 ControllerStore.RecordAgentSnapshot *)
Definition upsert_session (snapshot : NodeAgentSnapshot) (receivedAt : Z) : program Z :=
  statement (fun db =>
    let sessions := agent_session_snapshots (agent_work db) in
    let fresh := mkSessionRow (nas_OS snapshot) (nas_Architecture snapshot) (nas_RunnerVersion snapshot)
      (nas_NativeRunnerReady snapshot) (ass_MaxControllerEpoch (nas_Journal snapshot)) receivedAt None None in
    if negb (session_check fresh) then Err ErrConstraint
    else
    let put row := Ok (1, with_work (work_with_sessions (<[nas_NodeID snapshot := row]> sessions) (agent_work db)) db) in
    match sessions !! nas_NodeID snapshot with
    | None => put fresh
    | Some old =>
        if (as_operating_system old == nas_OS snapshot) && (as_architecture old == nas_Architecture snapshot)
        then put (mkSessionRow (as_operating_system old) (as_architecture old) (nas_RunnerVersion snapshot)
               (nas_NativeRunnerReady snapshot) (ass_MaxControllerEpoch (nas_Journal snapshot)) receivedAt
               (as_availability_intent old) (as_shared_runner_identity old))
        else Ok (0, db)
    end).
(* src: internal/store/controller_agent.go:510-521 ControllerStore.RecordAgentSnapshot *)
Definition upsert_authority (nodeID snapshotDigest : string) (controllerEpoch receivedAt : Z) : program unit :=
  exec (fun db =>
    let authorities := agent_snapshot_authority (agent_work db) in
    let revision := match authorities !! nodeID with Some old => sa_revision old + 1 | None => 1 end in
    let row := mkAuthorityRow revision snapshotDigest controllerEpoch receivedAt in
    let! t := upsert_row (authority_check row) nodeID row authorities ;;
    Ok (with_work (work_with_authority t (agent_work db)) db)).
(* src: internal/store/controller_agent.go:522-532 ControllerStore.RecordAgentSnapshot *)
Definition delete_current (nodeID : string) : program unit :=
  exec (fun db => let w := agent_work db in
    Ok (with_work (work_with_current_commands (delete_node nodeID (agent_current_snapshot_commands w)) w) db)) ;;
  exec (fun db => let w := agent_work db in
    Ok (with_work (work_with_current_observations (delete_node nodeID (agent_current_snapshot_observations w)) w) db)) ;;
  exec (fun db => let w := agent_work db in
    Ok (with_work (work_with_current_tombstones (delete_node nodeID (agent_current_snapshot_tombstones w)) w) db)).
(* src: internal/store/controller_agent.go:533-540 ControllerStore.RecordAgentSnapshot *)
Definition insert_current_command (nodeID snapshotDigest : string) (command : Command) : program unit :=
  exec (fun db =>
    let! t := insert_row (isLowerSHA256 snapshotDigest &&
        bool_decide (is_Some (agent_snapshot_commands (agent_work db) !! (nodeID, command_ID command))))
      (nodeID, command_ID command) snapshotDigest (agent_current_snapshot_commands (agent_work db)) ;;
    Ok (with_work (work_with_current_commands t (agent_work db)) db)).
(* src: internal/store/controller_agent.go:541-550 ControllerStore.RecordAgentSnapshot *)
Definition insert_current_observation (nodeID snapshotDigest : string) (observation : ObservationSnapshot)
    : program unit :=
  exec (fun db =>
    let key := (nodeID, os_ExecutionID observation) in
    let row := mkCurrentObservation (os_State observation) (os_ObservedAtUnixNano observation) snapshotDigest in
    let! t := insert_row (current_observation_check row &&
        bool_decide (is_Some (agent_snapshot_observations (agent_work db) !! key)))
      key row (agent_current_snapshot_observations (agent_work db)) ;;
    Ok (with_work (work_with_current_observations t (agent_work db)) db)).
(* src: internal/store/controller_agent.go:551-560 ControllerStore.RecordAgentSnapshot *)
Definition insert_current_tombstone (nodeID snapshotDigest : string) (tombstone : CleanupTombstoneSnapshot)
    : program unit :=
  exec (fun db =>
    let key := (nodeID, ts_ExecutionID tombstone) in
    let row := mkCurrentTombstone (ts_FailureCode tombstone) (ts_RecordedAtUnixNano tombstone) snapshotDigest in
    let! t := insert_row (current_tombstone_check row &&
        bool_decide (is_Some (agent_snapshot_cleanup_tombstones (agent_work db) !! key)))
      key row (agent_current_snapshot_tombstones (agent_work db)) ;;
    Ok (with_work (work_with_current_tombstones t (agent_work db)) db)).

Section digests.
Context (marshal : CanonicalSnapshot -> result string) (sha256 : string -> string).

(** The readiness and the owner's state are not part of the identity. *)
(* src: internal/store/controller_agent.go:581-611 nodeAgentSnapshotDigest *)
Definition nodeAgentSnapshotDigest (snapshot : NodeAgentSnapshot) : result string :=
  let journal := nas_Journal snapshot in
  agentstate_Digest marshal sha256
    (mkCanonicalSnapshot (nas_NodeID snapshot) (nas_OS snapshot) (nas_Architecture snapshot)
      (nas_RunnerVersion snapshot) (ass_MaxControllerEpoch journal) (ass_Commands journal)
      (map (fun o => mkObservation (os_ExecutionID o) (os_State o) (os_ObservedAtUnixNano o)) (ass_Observations journal))
      (map (fun t => mkTombstone (ts_ExecutionID t) (ts_FailureCode t) (ts_RecordedAtUnixNano t))
        (ass_CleanupTombstones journal))).

(** The rows of the snapshot, in its transaction. *)
(* src: internal/store/controller_agent.go:449-560 ControllerStore.RecordAgentSnapshot *)
Definition record_snapshot (snapshot : NodeAgentSnapshot) (snapshotDigest : string) (receivedAt : Z)
    : program unit :=
  let nodeID := nas_NodeID snapshot in
  let journal := nas_Journal snapshot in
  requireKnownEnrolledNode nodeID ;;
  controllerEpoch ← current_epoch ;
  if ass_MaxControllerEpoch journal >? controllerEpoch
  then throw (PlainError "agent snapshot reports an unknown future controller epoch")
  else
  previous ← query (fun db => Ok (agent_session_snapshots (agent_work db) !! nodeID)) ;
  if match previous with
     | Some previous => ass_MaxControllerEpoch journal <? as_max_controller_epoch previous
     | None => false
     end
  then throw (PlainError "agent snapshot controller epoch regressed")
  else
  affected ← upsert_session snapshot receivedAt ;
  if affected != 1 then throw (PlainError "agent snapshot platform changed after initial observation")
  else
  each (recordSnapshotCommand nodeID) (ass_Commands journal) ;;
  each (recordSnapshotObservation nodeID receivedAt) (ass_Observations journal) ;;
  each (recordSnapshotTombstone nodeID receivedAt) (ass_CleanupTombstones journal) ;;
  upsert_authority nodeID snapshotDigest controllerEpoch receivedAt ;;
  delete_current nodeID ;;
  each (insert_current_command nodeID snapshotDigest) (ass_Commands journal) ;;
  each (insert_current_observation nodeID snapshotDigest) (ass_Observations journal) ;;
  each (insert_current_tombstone nodeID snapshotDigest) (ass_CleanupTombstones journal).

(* src: internal/store/controller_agent.go:422-579 ControllerStore.RecordAgentSnapshot *)
Definition RecordAgentSnapshot (s : ControllerStore) (snapshot : NodeAgentSnapshot) : program unit :=
  require (requireReady (cs_base s)) ;;
  require (validateNodeAgentSnapshot snapshot) ;;
  if reports_owner_state (nas_AvailabilityIntent snapshot) (nas_ExcludedTargets snapshot) &&
     negb (ManagementAuditHealthy s)
  then throw ErrManagementAuditPersistence
  else
  snapshotDigest ← lift (nodeAgentSnapshotDigest snapshot) ;
  receivedAt ← lift (storeUnixNano (store_now (cs_base s))) ;
  commit_adoption s
    (record_snapshot snapshot snapshotDigest receivedAt ;;
     adoptNodeOwnerState (nas_NodeID snapshot) (nas_AvailabilityIntent snapshot)
       (nas_ExcludedTargets snapshot) (nas_SharedRunnerIdentity snapshot) receivedAt).
End digests.

(** ** Readiness *)

(* src: internal/store/controller_agent.go:664-672 ControllerStore.RecordAgentReadiness *)
Definition advance_authority (nodeID snapshotDigest : string) (currentEpoch receivedAt : Z) : program Z :=
  statement (fun db =>
    let authorities := agent_snapshot_authority (agent_work db) in
    match authorities !! nodeID with
    | Some row =>
        if (sa_snapshot_digest row == snapshotDigest) && (sa_accepted_by row =? currentEpoch)
        then Ok (1, with_work (work_with_authority (<[nodeID := mkAuthorityRow (sa_revision row + 1) (sa_snapshot_digest row)
               (sa_accepted_by row) receivedAt]> authorities) (agent_work db)) db)
        else Ok (0, db)
    | None => Ok (0, db)
    end).
(* src: internal/store/controller_agent.go:617-676 ControllerStore.RecordAgentReadiness *)
Definition RecordAgentReadiness (s : ControllerStore) (nodeID expectedSnapshotDigest : string) (ready : bool)
    : program unit :=
  require (requireReady (cs_base s)) ;;
  if (nodeID == "") || negb (isLowerSHA256 expectedSnapshotDigest)
  then throw (PlainError "Agent readiness authority is invalid")
  else
  receivedAt ← lift (storeUnixNano (store_now (cs_base s))) ;
  in_tx
    (requireKnownEnrolledNode nodeID ;;
     currentEpoch ← current_epoch ;
     requireCurrentAgentSnapshotAuthority nodeID expectedSnapshotDigest currentEpoch ;;
     affected ← update_session nodeID (session_with_readiness ready receivedAt) ;
     if affected != 1
     then throw (PlainError "Agent readiness did not update exactly one session snapshot")
     else
     affected ← advance_authority nodeID expectedSnapshotDigest currentEpoch receivedAt ;
     if affected != 1 then throw (PlainError "Agent readiness lost its snapshot authority")
     else mret (CommitWith tt)).
(* src: internal/store/controller_agent.go:682-693 ControllerStore.RecordAgentDisconnect *)
Definition RecordAgentDisconnect (s : ControllerStore) (nodeID expectedSnapshotDigest : string) : program unit :=
  RecordAgentReadiness s nodeID expectedSnapshotDigest false.

(** ** Desired state under the authority of a snapshot *)

(** The current epoch is the caller's, and the snapshot the one it accepted. *)
(* src: internal/store/controller_agent.go:745-760 ControllerStore.AdoptAgentSnapshotObservation *)
Definition require_authority (nodeID snapshotDigest : string) (controllerEpoch : Z) : program unit :=
  currentEpoch ← current_epoch ;
  if currentEpoch != controllerEpoch then throw ErrStaleControllerEpoch
  else requireCurrentAgentSnapshotAuthority nodeID snapshotDigest controllerEpoch.
Definition execution_at (e : ExecutionSnapshot) (state : string) : ExecutionSnapshot :=
  mkExecutionSnapshot (exec_ID e) (exec_TargetID e) (exec_Slot e) state.

(* src: internal/store/controller_agent.go:723-819 ControllerStore.AdoptAgentSnapshotObservation *)
Definition AdoptAgentSnapshotObservation (s : ControllerStore) (nodeID expectedState : string)
    (observation : ObservationSnapshot) (snapshotDigest : string) (controllerEpoch : Z)
    : program (ExecutionSnapshot * bool) :=
  require (requireReady (cs_base s)) ;;
  if (nodeID == "") || (os_ExecutionID observation == "") || (os_ObservedAtUnixNano observation <=? 0) ||
     (ExecutionState_Validate (os_State observation) "agent_snapshot.observation.state" != None)
  then throw (PlainError "agent snapshot observation is invalid")
  else
  in_tx
    (require_authority nodeID snapshotDigest controllerEpoch ;;
     execution ← loadControllerExecution (os_ExecutionID observation) ;
     if slot_NodeID (exec_Slot execution) != nodeID
     then throw (PlainError "agent snapshot execution is owned by another node")
     else if exec_State execution != expectedState
     then throw (PlainError "agent snapshot adoption desired-state precondition is stale")
     else
     stored ← query (fun db => from_option Ok (Err ErrNoRows)
       (current_observation nodeID (os_ExecutionID observation) snapshotDigest db)) ;
     if (co_state stored != os_State observation) || (co_observed_at stored != os_ObservedAtUnixNano observation)
     then throw (wrapf ErrReplayMismatch "activated Agent observation differs from durable authority")
     else if exec_State execution == os_State observation then mret (CommitWith (execution, false))
     else if terminalAgentExecutionObservation (os_State observation) then throw ErrAgentTerminalUpdatePending
     else if negb (CanReachExecutionState (exec_State execution) (os_State observation))
     then throw (PlainError "agent snapshot observation cannot advance desired execution")
     else
     affected ← cas_execution (os_ExecutionID observation) (exec_State execution) (os_State observation) ;
     if affected != 1
     then throw (PlainError "agent snapshot adoption lost its desired-state compare-and-swap")
     else mret (CommitWith (execution_at execution (os_State observation), true))).

(* src: internal/store/controller_agent.go:825-903 ControllerStore.FailDesiredExecutionFromSnapshot *)
Definition FailDesiredExecutionFromSnapshot (s : ControllerStore) (nodeID executionID expectedState
    snapshotDigest : string) (controllerEpoch : Z) : program ExecutionSnapshot :=
  require (requireReady (cs_base s)) ;;
  if (nodeID == "") || (executionID == "") ||
     (ExecutionState_Validate expectedState "execution.expected_state" != None)
  then throw (PlainError "desired execution failure identity is invalid")
  else
  in_tx
    (require_authority nodeID snapshotDigest controllerEpoch ;;
     execution ← loadControllerExecution executionID ;
     if (slot_NodeID (exec_Slot execution) != nodeID) || (exec_State execution != expectedState) ||
        terminalControllerExecution (exec_State execution)
     then throw (PlainError "desired execution failure precondition is stale")
     else
     owned ← query (fun db => Ok (current_observation nodeID executionID snapshotDigest db)) ;
     if negb (bool_decide (owned = None :> option CurrentObservationRow))
     then throw (PlainError "current Agent snapshot still owns the desired execution")
     else
     affected ← cas_execution executionID expectedState ExecutionFailed ;
     if affected != 1 then throw (PlainError "desired execution failure lost compare-and-swap")
     else
     affected ← release_lease executionID ;
     if affected != 1 then throw (PlainError "failed desired execution did not release exactly one slot")
     else mret (CommitWith (execution_at execution ExecutionFailed))).

(** ** Execution updates *)

(* src: internal/store/controller_agent.go:1225-1245 agentCommandMayReport *)
Definition agentCommandMayReport (commandType state : string) : bool :=
  if commandType == CommandPrepare then CanReachExecutionState ExecutionPreparing state
  else if commandType == CommandStart then
    bool_decide (state ∈ [ExecutionRunning; ExecutionCleaning; ExecutionReleased; ExecutionFailed;
      ExecutionCleanupFailed; ExecutionQuarantined])
  else if commandType == CommandCancel then
    bool_decide (state ∈ [ExecutionCleaning; ExecutionReleased; ExecutionCleanupFailed; ExecutionQuarantined])
  else false.

(** The update a row stores. *)
Definition update_of (nodeID messageID : string) (row : UpdateRow) : AgentExecutionUpdate :=
  mkAgentUpdate nodeID messageID (au_command_id row) (au_execution_id row) (au_state row)
    (au_replayed row =? 1) (au_error_code row) (au_payload_digest row).
(* src: internal/store/controller_agent.go:1270-1293 loadAgentExecutionUpdate *)
Definition loadAgentExecutionUpdate (nodeID messageID : string) (db : ControllerDB)
    : result (option AgentExecutionUpdate) :=
  match agent_execution_updates (agent_work db) !! (nodeID, messageID) with
  | None => Ok None
  | Some row =>
      if (au_replayed row <? 0) || (au_replayed row >? 1)
      then Err (PlainError "stored agent execution update replay flag is invalid")
      else
      let update := update_of nodeID messageID row in
      match validateAgentExecutionUpdate update with
      | Some e => Err (WrappedError "stored agent execution update is invalid: " e)
      | None => Ok (Some update)
      end
  end.
(** The row references the command with its node and execution. *)
Definition update_references (update : AgentExecutionUpdate) (db : ControllerDB) : bool :=
  match agent_commands (agent_work db) !! aeu_CommandID update with
  | Some row => (issued_NodeID (ac_issued row) == aeu_NodeID update) &&
                (command_ExecutionID (issued_Command (ac_issued row)) == aeu_ExecutionID update)
  | None => false
  end.
(* src: internal/store/controller_agent.go:1177-1188 ControllerStore.RecordAgentExecutionUpdate *)
Definition insert_update (update : AgentExecutionUpdate) (receivedAt : Z) : program unit :=
  exec (fun db =>
    let row := mkUpdateRow (aeu_CommandID update) (aeu_ExecutionID update) (aeu_State update)
      (if aeu_Replayed update then 1 else 0) (aeu_ErrorCode update) (aeu_PayloadDigest update) receivedAt in
    let! t := insert_row (update_check (aeu_MessageID update) row && update_references update db)
      (aeu_NodeID update, aeu_MessageID update) row (agent_execution_updates (agent_work db)) ;;
    Ok (with_work (work_with_updates t (agent_work db)) db)).

(** The desired state follows the update, unless the command was a teardown. *)
(* src: internal/store/controller_agent.go:1147-1176 ControllerStore.RecordAgentExecutionUpdate *)
Definition advance_desired (update : AgentExecutionUpdate) (reconciliation : bool) (current : string)
    : program unit :=
  if reconciliation then
    if negb (bool_decide (current ∈ [ExecutionReleased; ExecutionFailed]))
    then throw (PlainError "reconciliation update lost terminal desired-state authority")
    else if negb (bool_decide (aeu_State update ∈ [ExecutionCleaning; ExecutionReleased; ExecutionFailed;
                 ExecutionCleanupFailed; ExecutionQuarantined]))
    then throw (PlainError "reconciliation update does not report teardown state")
    else mret tt
  else if current != aeu_State update then
    if negb (CanReachExecutionState current (aeu_State update))
    then throw (PlainError "agent execution update state cannot advance desired execution")
    else
    affected ← cas_execution (aeu_ExecutionID update) current (aeu_State update) ;
    if affected != 1
    then throw (PlainError "agent execution update lost its desired-state compare-and-swap")
    else mret tt
  else mret tt.
(* src: internal/store/controller_agent.go:1189-1219 ControllerStore.RecordAgentExecutionUpdate *)
Definition settle_lease (update : AgentExecutionUpdate) (reconciliation : bool) : program unit :=
  if terminalControllerExecution (aeu_State update) then
    (if aeu_State update == ExecutionQuarantined then quarantineNode (aeu_NodeID update) else mret tt) ;;
    if reconciliation then mret tt
    else
    affected ← release_lease (aeu_ExecutionID update) ;
    if affected != 1
    then throw (PlainError "agent terminal execution did not release exactly one slot reservation")
    else mret tt
  else if aeu_State update == ExecutionCleanupFailed then quarantineNode (aeu_NodeID update)
  else mret tt.

(* src: internal/store/controller_agent.go:1096-1223 ControllerStore.RecordAgentExecutionUpdate *)
Definition RecordAgentExecutionUpdate (s : ControllerStore) (update : AgentExecutionUpdate) : program bool :=
  require (requireReady (cs_base s)) ;;
  require (validateAgentExecutionUpdate update) ;;
  receivedAt ← lift (storeUnixNano (store_now (cs_base s))) ;
  in_tx
    (existing ← query (loadAgentExecutionUpdate (aeu_NodeID update) (aeu_MessageID update)) ;
     match existing with
     | Some existing =>
         if existing != update then throw (wrapf ErrReplayMismatch "agent execution update")
         else mret (RollbackWith true)
     | None =>
         requireKnownEnrolledNode (aeu_NodeID update) ;;
         issued ← query (loadIssuedAgentCommand (aeu_CommandID update)) ;
         match issued with
         | None => throw (PlainError "agent execution update does not match an issued command")
         | Some issued =>
             if (issued_NodeID issued != aeu_NodeID update) ||
                (command_ExecutionID (issued_Command issued) != aeu_ExecutionID update)
             then throw (PlainError "agent execution update does not match an issued command")
             else
             reconciliation ← query (agentCommandIsReconciliation (aeu_CommandID update)) ;
             if negb (agentCommandMayReport (issued_Type issued) (aeu_State update))
             then throw (PlainError "agent execution update state does not match its command type")
             else
             execution ← loadControllerExecution (aeu_ExecutionID update) ;
             if slot_NodeID (exec_Slot execution) != aeu_NodeID update
             then throw (PlainError "agent execution update node does not own the desired execution")
             else
             advance_desired update reconciliation (exec_State execution) ;;
             insert_update update receivedAt ;;
             settle_lease update reconciliation ;;
             mret (CommitWith false)
         end
     end).
