(* ===== verification/WorkGitHub.v ===== *)
(** * The GitHub methods and the tables of work (internal/store/controller_github.go)

    The claims of GitHub jobs have methods of their own, whose conditions on sessions,
    messages, acquire attempts and runner registrations are not modelled.  What they do
    to the tables that the rest of the store reads is: claim a slot, move a claim to a
    new execution, advance a desired state, end a lost one, and write the rows of claims
    and attempts; controller_freshness.go writes policies and bindings.  [github_step]
    has these statements, each in a transaction, with any arguments. *)

From S2P Require Import Prelude GoStd GoEncoding Sql StoreBase EnrollRegistry EnrollPKI Domain Execution Replay Fence AgentStore WorkTables ControllerStore WorkStore WorkAgent WorkReport.
From Stdlib Require Import Ascii.

(** The CHECKs of a claim. *)
Definition claim_states : list string :=
  ["pending"; "acquire_ambiguous"; "acquired"; "preparing"; "prepare_failed"; "jit_intent";
   "jit_generation_ambiguous"; "jit_generated"; "start_dispatching"; "start_ambiguous"; "running";
   "reconciliation_required"].
(* src: internal/store/migrations/controller/019_assigned_demand_claim_key.sql:32-75 github_job_claims_v19 *)
Definition claim_check (scaleSetID claimKey : Z) (row : ClaimRow) : bool :=
  (scaleSetID >? 0) && (claimKey != 0) && bool_decide (gc_state row ∈ claim_states) &&
  (gc_current_jit_attempt row >=? 0) &&
  match gc_source_message_id row with Some id => id >? 0 | None => true end &&
  match gc_runner_request_id row with
  | Some id => (gc_origin row == "job_available") && (claimKey >? 0) && (id =? claimKey) &&
               bool_decide (is_Some (gc_source_message_id row))
  | None => (gc_origin row == "assigned_demand") && (claimKey <? 0)
  end.
(** The other claim that names an execution, if any. *)
Definition claim_names (executionID : string) (key : Z * Z) (db : ControllerDB) : bool :=
  existsb (fun '(other, row) => (gc_execution_id row == executionID) && negb (bool_decide (other = key)))
    (map_to_list (github_job_claims db)).
Definition with_claims t db := mkControllerDB (store_metadata db) (enrollment_tokens db)
  (enrolled_nodes db) (enrollment_replays db) (node_administrative_states db) (management_revision db)
  (management_fleet_max db) (management_node_configurations db) (management_runner_profiles db)
  (management_github_targets db) (management_audit_events db) (runner_profile_update_policies db)
  (github_target_runtime_bindings db) (slot_reservations db) (executions db) t
  (github_jit_attempts db) (agent_work db).
Definition with_attempts t db := mkControllerDB (store_metadata db) (enrollment_tokens db)
  (enrolled_nodes db) (enrollment_replays db) (node_administrative_states db) (management_revision db)
  (management_fleet_max db) (management_node_configurations db) (management_runner_profiles db)
  (management_github_targets db) (management_audit_events db) (runner_profile_update_policies db)
  (github_target_runtime_bindings db) (slot_reservations db) (executions db) (github_job_claims db)
  t (agent_work db).

(** [INSERT INTO github_job_claims] or [UPDATE … SET execution_id = ?, state = ?, …]. *)
(* src: internal/store/controller_github.go:918-936 insertGitHubSlotClaim *)
Definition write_claim (key : Z * Z) (row : ClaimRow) : program unit :=
  exec (fun db =>
    if claim_names (gc_execution_id row) key db ||
       negb (bool_decide (is_Some (executions db !! gc_execution_id row)))
    then Err ErrConstraint
    else
    let! t := upsert_row (claim_check key.1 key.2 row) key row (github_job_claims db) ;;
    Ok (with_claims t db)).

Inductive github_step :=
  (** [insertGitHubSlotClaim], [rearmLostJITFromMessage], [finalizeGitHubUnpickedRequeue]. *)
  | GClaim (executionID : string) (targetID : TargetID) (slot : SlotKey) (key : Z * Z) (row : ClaimRow)
      (committedAt : Z)
  (** [MarkGitHubJITObservedStarted]. *)
  | GAdvance (executionID from to : string)
  (** [MarkGitHubJITReconciledAbsent]. *)
  | GFinish (executionID terminalState : string)
  | GClaimState (key : Z * Z) (row : ClaimRow)
  | GAttempt (key : Z * Z * Z) (row : AttemptRow)
  | GRuntime (policies : gmap string RunnerProfileUpdatePolicy)
      (bindings : gmap string GitHubTargetRuntimeBinding).

(* src: internal/store/controller_github.go:884-936 insertGitHubSlotClaim *)
Definition insert_slot_claim (executionID : string) (targetID : TargetID) (slot : SlotKey) (key : Z * Z)
    (row : ClaimRow) (committedAt : Z) : program unit :=
  let e := mkExecutionSnapshot executionID targetID slot ExecutionReserved in
  require (ExecutionSnapshot_Validate e) ;;
  mapping_error mapAssignmentError (insert_execution e committedAt) ;;
  mapping_error mapAssignmentError (insert_reservation e) ;;
  write_claim key row.
(* src: internal/store/controller_github.go:4324-4332 lostJITTerminalState *)
Definition lostJITTerminalState (state : string) : bool :=
  bool_decide (state ∈ [ExecutionReleased; ExecutionFailed; ExecutionCleanupFailed; ExecutionQuarantined]).
(* src: internal/store/controller_github.go:296-296 ErrGitHubClaimState *)
Definition ErrGitHubClaimState : GoError := PlainError "GitHub job claim state conflict".
(** The execution is still preparing: it ends now.  The CHECK and the UNIQUE of
    slot_reservations make its leases one or none. *)
(* src: internal/store/controller_github.go:3451-3514 ControllerStore.MarkGitHubJITReconciledAbsent *)
Definition end_lost_execution (executionID terminalState nodeID : string) : program unit :=
  affected ← cas_execution executionID ExecutionPreparing terminalState ;
  if affected != 1 then throw (PlainError "lost-JIT cleanup lost the old execution compare-and-swap")
  else if bool_decide (terminalState ∈ [ExecutionReleased; ExecutionFailed]) then
    affected ← release_lease executionID ;
    if affected != 1 then throw (PlainError "lost-JIT cleanup did not release exactly one old slot") else mret tt
  else if terminalState == ExecutionCleanupFailed then quarantineNode nodeID
  else
    quarantineNode nodeID ;;
    affected ← release_lease executionID ;
    if affected != 1
    then throw (PlainError "quarantined lost-JIT cleanup did not release exactly one old slot") else mret tt.
(** It has already ended so: its lease must be what that end leaves. *)
(* src: internal/store/controller_github.go:3515-3559 ControllerStore.MarkGitHubJITReconciledAbsent *)
Definition check_lost_execution (executionID terminalState nodeID : string) : program unit :=
  leased ← query (fun db => Ok (execution_leased executionID db)) ;
  if terminalState == ExecutionCleanupFailed then
    if negb leased then throw (PlainError "cleanup-blocked lost-JIT execution lost its slot")
    else quarantineNode nodeID
  else if (leased : bool) then throw (PlainError "terminal lost-JIT execution still owns a slot")
  else if terminalState == ExecutionQuarantined then quarantineNode nodeID
  else mret tt.
(** The switch on the desired state of the claim's execution.  [terminalState] is what
    classifyGitHubRunnerRemovalAuthority found in the Agent's updates; the conditions
    on the attempt, the provider's reads and the session before it are not modelled. *)
(* src: internal/store/controller_github.go:3447-3564 ControllerStore.MarkGitHubJITReconciledAbsent *)
Definition finish_lost_execution (executionID terminalState : string) : program unit :=
  if negb (lostJITTerminalState terminalState)
  then throw (PlainError "accepted Agent Start forbids provider runner removal without exact lost-JIT cleanup")
  else
  execution ← loadControllerExecution executionID ;
  let nodeID := slot_NodeID (exec_Slot execution) in
  if exec_State execution == ExecutionPreparing then end_lost_execution executionID terminalState nodeID
  else if exec_State execution == terminalState then check_lost_execution executionID terminalState nodeID
  else throw ErrGitHubClaimState.
(* src: internal/store/controller_github.go:2951-2969 ControllerStore.MarkGitHubJITObservedStarted *)
Definition advance_observed (executionID from to : string) : program unit :=
  if negb (CanReachExecutionState from to) || terminalAgentExecutionObservation to
  then throw (PlainError "Agent start observation cannot advance desired execution")
  else
  affected ← cas_execution executionID from to ;
  if affected != 1
  then throw (PlainError "Agent start observation lost desired-state compare-and-swap") else mret tt.

Definition github_program (g : github_step) : program unit :=
  in_tx (match g with
    | GClaim executionID targetID slot key row committedAt =>
        insert_slot_claim executionID targetID slot key row committedAt
    | GAdvance executionID from to => advance_observed executionID from to
    | GFinish executionID terminalState => finish_lost_execution executionID terminalState
    | GClaimState key row => write_claim key row
    | GAttempt key row => exec (fun db => Ok (with_attempts (<[key := row]> (github_jit_attempts db)) db))
    | GRuntime policies bindings => exec (fun db => Ok (with_bindings bindings (with_policies policies db)))
    end ;; mret (CommitWith tt)).
