(* ===== verification/RestartStore.v ===== *)
(** * What a restarted Controller reads (internal/store/controller.go,
    internal/store/controller_github.go)

    [RestartSnapshot] reads desired state, node topology, issued commands and the
    ambiguous claims of the provider in one read transaction.  Its records are those of
    Projection.v, which have the columns that the projection reads; the others (the
    processed messages, the last-known runner version, readiness, epoch and time of a
    node's session) are validated and dropped. *)

From S2P Require Import Prelude GoStd GoEncoding Sql StoreBase EnrollRegistry EnrollPKI Domain Execution Replay SlotLedger Scheduler Transport RunnerUpdate Fence Projection AgentStore WorkTables ControllerStore WorkStore WorkAgent WorkReport WorkGitHub.
From Stdlib Require Import Ascii.

(** ** Desired state *)

(** A node with its administrative state, which the outer join may lack. *)
(* src: internal/store/controller.go:320-342 readControllerSnapshot *)
Definition scan_administration (db : ControllerDB) (row : string * NodeRow) : result NodeAdministration :=
  let '(nodeID, node) := row in
  match node_administrative_states db !! nodeID with
  | None => Err (PlainError "stored node administrative authority failed validation")
  | Some state =>
      if nodeID == "" then Err (PlainError "stored node administrative authority failed validation")
      else
      tryr NodeAdministrativeState_Validate state "controller_snapshot.node.administrative_state" ;;
      if negb (Bool.eqb (en_revoked node) (state == NodeRevoked))
      then Err (PlainError "stored node revocation authority is inconsistent")
      else Ok (mkNodeAdministration nodeID state)
  end.
(* src: internal/store/controller.go:355-375 readControllerSnapshot *)
Definition scan_reservation (row : string * Z * ReservationRow) : result SlotReservation :=
  let '(nodeID, slotIndex, reservation) := row in
  let owner := mkSlotOwner (sr_target_id reservation) (sr_execution_id reservation) in
  if (nodeID == "") || (slotIndex <? 0) || (owner_ExecutionID owner == "")
  then Err (PlainError "stored slot reservation failed validation")
  else
  tryr SlotOwner_Validate owner ;;
  Ok (mkSlotReservation (mkSlotKey nodeID slotIndex) owner).
(* src: internal/store/controller.go:388-411 readControllerSnapshot *)
Definition scan_execution_row (row : string * ExecutionRow) : result ExecutionSnapshot :=
  let execution := execution_of row.1 row.2 in
  tryr ExecutionSnapshot_Validate execution ;;
  if ex_created_at row.2 <=? 0 then Err (PlainError "stored execution timestamp failed validation")
  else Ok execution.
(* src: internal/store/controller.go:424-435 readControllerSnapshot *)
Definition scan_message (row : Z * Z * MessageRow) : result unit :=
  let '(scaleSetID, messageID, message) := row in
  if (scaleSetID =? 0) || (messageID =? 0) || negb (isLowerSHA256 (pm_message_digest message)) ||
     (pm_execution_id message == "") || (pm_created_at message <=? 0)
  then Err (PlainError "stored processed message failed validation")
  else Ok tt.

(** [ORDER BY node_id, slot_index] and [ORDER BY scale_set_id, claim_key]. *)
Definition slot_before (a b : string * Z * ReservationRow) : bool :=
  if a.1.1 == b.1.1 then a.1.2 <? b.1.2 else string_less a.1.1 b.1.1.
Definition pair_before {A} (a b : Z * Z * A) : bool :=
  if a.1.1 =? b.1.1 then a.1.2 <? b.1.2 else a.1.1 <? b.1.1.

(* src: internal/store/controller.go:306-444 readControllerSnapshot *)
Definition readControllerSnapshot : program ControllerSnapshot :=
  epoch ← current_epoch ;
  nodes ← query (fun db => scan_rows (scan_administration db) (rows_by_key (enrolled_nodes db))) ;
  reservations ← query (fun db =>
    scan_rows scan_reservation (sort_slice slot_before (map_to_list (slot_reservations db)))) ;
  executions ← query (fun db => scan_rows scan_execution_row (rows_by_key (executions db))) ;
  _ ← query (fun db =>
    scan_rows scan_message (sort_slice pair_before (map_to_list (processed_messages (agent_work db))))) ;
  mret (mkControllerSnapshot epoch nodes reservations executions).

(* src: internal/store/controller.go:287-304 ControllerStore.Snapshot *)
Definition ControllerStore_Snapshot (s : ControllerStore) : program ControllerSnapshot :=
  require (requireReady (cs_base s)) ;;
  in_tx (result ← readControllerSnapshot ; mret (CommitWith result)).

(** ** Topology *)

(** The columns of the session are all NULL or none. *)
(* src: internal/store/controller.go:557-580 readRestartNodeTopology *)
Definition validate_session (session : SessionRow) : error :=
  try OperatingSystem_Validate (as_operating_system session) "restart_snapshot.node.os" ;;
  try Architecture_Validate (as_architecture session) "restart_snapshot.node.architecture" ;;
  if (as_runner_version session != "") &&
     ((TrimSpace (as_runner_version session) != as_runner_version session) ||
      (len_string (as_runner_version session) >? 64))
  then Some (PlainError "stored restart node runner version failed validation")
  else if (as_max_controller_epoch session <? 0) || (as_received_at session <=? 0)
  then Some (PlainError "stored restart node observation failed validation")
  else None.
(** A node with its state, its configuration and, when there is one, its session. *)
(* src: internal/store/controller.go:511-582 readRestartNodeTopology *)
Definition scan_topology (db : ControllerDB)
    (row : string * NodeRow * string * ManagementNodeConfiguration) : result RestartNodeTopology :=
  let '(nodeID, node, state, configuration) := row in
  if (nodeID == "") || (mnc_DisplayName configuration == "") || (en_current_serial node == "") ||
     (en_credential_epoch node =? 0) || (mnc_MaxRunners configuration <? 1)
  then Err (PlainError "stored restart node topology failed validation")
  else
  tryr NodeAdministrativeState_Validate state "restart_snapshot.node.administrative_state" ;;
  if negb (Bool.eqb (en_revoked node) (state == NodeRevoked))
  then Err (PlainError "stored restart node revocation authority is inconsistent")
  else
  let topology := mkTopology nodeID (mnc_DisplayName configuration) (en_current_serial node)
    (en_credential_epoch node) state (mnc_MaxRunners configuration) in
  match agent_session_snapshots (agent_work db) !! nodeID with
  | None => Ok (topology false "" "")
  | Some session =>
      tryr validate_session session ;;
      Ok (topology true (as_operating_system session) (as_architecture session))
  end.
(** The inner joins. *)
Definition configured_nodes (db : ControllerDB) : list (string * NodeRow * string * ManagementNodeConfiguration) :=
  omap (fun '(nodeID, node) =>
    match node_administrative_states db !! nodeID, management_node_configurations db !! nodeID with
    | Some state, Some configuration => Some (nodeID, node, state, configuration)
    | _, _ => None
    end) (rows_by_key (enrolled_nodes db)).
(* src: internal/store/controller.go:492-587 readRestartNodeTopology *)
Definition readRestartNodeTopology : program (list RestartNodeTopology) :=
  query (fun db => scan_rows (scan_topology db) (configured_nodes db)).

(** ** Issued commands *)

(** [ORDER BY node_id, controller_epoch, command_id]. *)
Definition issued_before (a b : IssuedCommand) : bool :=
  if issued_NodeID a == issued_NodeID b then
    let a := issued_Command a in let b := issued_Command b in
    if command_ControllerEpoch a =? command_ControllerEpoch b then string_less (command_ID a) (command_ID b)
    else command_ControllerEpoch a <? command_ControllerEpoch b
  else string_less (issued_NodeID a) (issued_NodeID b).
(** The row's key is the identity of its command. *)
Definition issued_commands (db : ControllerDB) : list IssuedCommand :=
  sort_slice issued_before (map (fun row => ac_issued row.2) (map_to_list (agent_commands (agent_work db)))).
(* src: internal/store/controller.go:604-624 readRestartIssuedCommands *)
Definition scan_issued (controllerEpoch : Z) (issued : IssuedCommand) : result IssuedCommand :=
  match validateIssuedAgentCommand issued with
  | Some e => Err (WrappedError "stored restart command failed validation: " e)
  | None =>
      if command_ControllerEpoch (issued_Command issued) >? controllerEpoch
      then Err (PlainError "stored restart command belongs to a future controller epoch")
      else Ok issued
  end.
(* src: internal/store/controller.go:589-629 readRestartIssuedCommands *)
Definition readRestartIssuedCommands (controllerEpoch : Z) : program (list IssuedCommand) :=
  query (fun db => scan_rows (scan_issued controllerEpoch) (issued_commands db)).

(** ** Ambiguity of the provider *)

(* src: internal/store/controller_github.go:119-119 GitHubClaimPreparing *)
Definition GitHubClaimPreparing := "preparing".
(* src: internal/store/controller_github.go:126-126 GitHubClaimRunning *)
Definition GitHubClaimRunning := "running".
(* src: internal/store/controller_github.go:247-247 GitHubJITReconciledAbsent *)
Definition GitHubJITReconciledAbsent := "reconciled_absent".
(* src: internal/store/controller_github.go:166-181 validateGitHubClaimIdentity *)
Definition validateGitHubClaimIdentity (claim : GitHubJobClaim) : error :=
  if claim_Origin claim == GitHubClaimFromJobAvailable then
    if (claim_ClaimKey claim <=? 0) || (claim_RunnerRequestID claim != claim_ClaimKey claim) ||
       (claim_SourceMessageID claim =? 0)
    then Some ErrGitHubClaimState else None
  else if claim_Origin claim == GitHubClaimFromAssignedDemand then
    if (claim_ClaimKey claim >=? 0) || (claim_RunnerRequestID claim != 0)
    then Some ErrGitHubClaimState else None
  else Some ErrGitHubClaimState.
(** A NULL column leaves the zero value. *)
(* src: internal/store/controller_github.go:5036-5061 scanGitHubClaim *)
Definition scanGitHubClaim (db : ControllerDB) (key : Z * Z) (row : ClaimRow) (execution : ExecutionRow)
    : result GitHubJobClaim :=
  let claim := mkGitHubJobClaim key.1 key.2 (gc_origin row) (default 0 (gc_runner_request_id row))
    (default 0 (gc_source_message_id row)) (execution_of (gc_execution_id row) execution) (gc_state row)
    (gc_current_jit_attempt row) in
  tryr validateGitHubClaimIdentity claim ;;
  tryr ExecutionSnapshot_Validate (claim_Execution claim) ;;
  Ok claim.
(* src: internal/store/controller_github.go:5063-5095 loadGitHubJITAttempt *)
Definition loadGitHubJITAttempt (scaleSetID claimKey attempt : Z) (db : ControllerDB)
    : option GitHubJITAttempt :=
  match github_jit_attempts db !! (scaleSetID, claimKey, attempt) with
  | None => None
  | Some row =>
      Some (mkAttempt scaleSetID claimKey attempt (gj_controller_epoch row) (gj_runner_name row)
        (gj_state row) (default 0 (gj_runner_id row)) (default "" (gj_jit_digest row))
        (gj_start_command_id row))
  end.
(* src: internal/store/controller_github.go:4845-4871 gitHubClaimMatchesJITState *)
Definition gitHubClaimMatchesJITState (claimState attemptState : string) : bool :=
  if attemptState == GitHubJITIntent then claimState == GitHubClaimJITIntent
  else if attemptState == GitHubJITGenerationAmbiguous then claimState == GitHubClaimJITGenerationAmbiguous
  else if attemptState == GitHubJITGenerated then claimState == GitHubClaimJITGenerated
  else if attemptState == GitHubJITStartDispatching then claimState == GitHubClaimStartDispatching
  else if attemptState == GitHubJITStartAmbiguous then claimState == GitHubClaimStartAmbiguous
  else if attemptState == GitHubJITStarted then
    (claimState == GitHubClaimRunning) || (claimState == GitHubClaimReconciliationRequired)
  else if (attemptState == GitHubJITAgentAccepted) || (attemptState == GitHubJITRemovalPending) then
    claimState == GitHubClaimReconciliationRequired
  else if attemptState == GitHubJITReconciledAbsent then
    (claimState == GitHubClaimPreparing) || (claimState == GitHubClaimReconciliationRequired)
  else false.
(* src: internal/store/controller_github.go:4967-5007 validateRestartGitHubJITAttempt *)
Definition validateRestartGitHubJITAttempt (attempt : GitHubJITAttempt) (claimState : string)
    (controllerEpoch : Z) : error :=
  if (att_ScaleSetID attempt =? 0) || (att_ClaimKey attempt =? 0) || (att_Attempt attempt <? 1) ||
     (att_ControllerEpoch attempt =? 0) || (att_ControllerEpoch attempt >? controllerEpoch) ||
     (TrimSpace (att_RunnerName attempt) == "")
  then Some (PlainError "stored GitHub reconciliation JIT identity is invalid")
  else if negb (gitHubClaimMatchesJITState claimState (att_State attempt))
  then Some (PlainError "stored GitHub reconciliation claim and JIT states are inconsistent")
  else if bool_decide (att_State attempt ∈ [GitHubJITIntent; GitHubJITGenerationAmbiguous]) then
    if (att_RunnerID attempt != 0) || (att_JITDigest attempt != "") || (att_StartCommandID attempt != "")
    then Some (PlainError "stored pre-generation JIT attempt carries runner material") else None
  else if bool_decide (att_State attempt ∈ [GitHubJITGenerated; GitHubJITStartDispatching;
            GitHubJITStartAmbiguous; GitHubJITStarted; GitHubJITAgentAccepted]) then
    if (att_RunnerID attempt <=? 0) || negb (isLowerSHA256 (att_JITDigest attempt)) ||
       (att_StartCommandID attempt == "")
    then Some (PlainError "stored generated JIT attempt identity is incomplete") else None
  else if att_State attempt == GitHubJITRemovalPending then
    if att_RunnerID attempt <=? 0
    then Some (PlainError "stored runner-removal JIT attempt has no runner identity") else None
  else Some (PlainError "stored JIT attempt is not a reconciliation fence").

(** The WHERE clause: an ambiguous claim, unless its current attempt is known to be
    absent. *)
(* src: internal/store/controller_github.go:4879-4897 readGitHubReconciliationFences *)
Definition ambiguous_claim (db : ControllerDB) (key : Z * Z) (row : ClaimRow) : bool :=
  bool_decide (gc_state row ∈ [GitHubClaimAcquireAmbiguous; GitHubClaimJITIntent;
    GitHubClaimJITGenerationAmbiguous; GitHubClaimJITGenerated; GitHubClaimStartDispatching;
    GitHubClaimStartAmbiguous; GitHubClaimReconciliationRequired]) &&
  negb ((gc_state row == GitHubClaimReconciliationRequired) &&
        match github_jit_attempts db !! (key.1, key.2, gc_current_jit_attempt row) with
        | Some attempt => gj_state attempt == GitHubJITReconciledAbsent
        | None => false
        end).
(** The inner join with the claim's execution. *)
Definition ambiguous_claims (db : ControllerDB) : list (Z * Z * ClaimRow * ExecutionRow) :=
  omap (fun '(key, row) =>
    if ambiguous_claim db key row
    then match executions db !! gc_execution_id row with Some e => Some (key, row, e) | None => None end
    else None) (sort_slice pair_before (map_to_list (github_job_claims db))).
(* src: internal/store/controller_github.go:4902-4918 readGitHubReconciliationFences *)
Definition scan_ambiguous (db : ControllerDB) (row : Z * Z * ClaimRow * ExecutionRow) : result GitHubJobClaim :=
  let '(key, row, execution) := row in
  let! claim := scanGitHubClaim db key row execution ;;
  if (claim_ScaleSetID claim =? 0) || (claim_ClaimKey claim =? 0) ||
     ((claim_Origin claim == GitHubClaimFromJobAvailable) && (claim_SourceMessageID claim =? 0))
  then Err (PlainError "stored GitHub reconciliation claim identity is invalid")
  else Ok claim.
(* src: internal/store/controller_github.go:4929-4963 readGitHubReconciliationFences *)
Definition read_fence (db : ControllerDB) (controllerEpoch : Z) (claim : GitHubJobClaim)
    : result GitHubReconciliationFence :=
  if claim_State claim == GitHubClaimAcquireAmbiguous then
    if claim_CurrentAttempt claim != 0
    then Err (PlainError "stored acquire ambiguity unexpectedly owns a JIT attempt")
    else Ok (mkPersistedFence claim None)
  else if claim_CurrentAttempt claim <? 1
  then Err (PlainError "stored GitHub reconciliation claim has no JIT attempt")
  else match loadGitHubJITAttempt (claim_ScaleSetID claim) (claim_ClaimKey claim)
               (claim_CurrentAttempt claim) db with
  | None => Err (PlainError "stored GitHub reconciliation JIT attempt is missing")
  | Some attempt =>
      tryr validateRestartGitHubJITAttempt attempt (claim_State claim) controllerEpoch ;;
      Ok (mkPersistedFence claim (Some attempt))
  end.
(* src: internal/store/controller_github.go:4873-4965 readGitHubReconciliationFences *)
Definition readGitHubReconciliationFences (controllerEpoch : Z) : program (list GitHubReconciliationFence) :=
  claims ← query (fun db => scan_rows (scan_ambiguous db) (ambiguous_claims db)) ;
  query (fun db => scan_rows (read_fence db controllerEpoch) claims).

(** ** The snapshot *)

(* src: internal/store/controller.go:449-490 ControllerStore.RestartSnapshot *)
Definition RestartSnapshot (s : ControllerStore) : program ControllerRestartSnapshot :=
  require (requireReady (cs_base s)) ;;
  in_tx
    (controller ← readControllerSnapshot ;
     '(_, fleetMaximum) ← readManagementState ;
     nodes ← readRestartNodeTopology ;
     commands ← readRestartIssuedCommands (cs_ControllerEpoch controller) ;
     fences ← readGitHubReconciliationFences (cs_ControllerEpoch controller) ;
     mret (CommitWith (mkRestartSnapshot controller fleetMaximum nodes commands fences))).

(** ** What the fences it returns say *)

(** A persisted fence whose attempt the Agent accepted names its start command: the
    record for which [Reconcile]'s resolution looks at no more than the provider
    ([Fence.started_runner_removed]) is never read from the store. *)
Lemma restart_attempt_names_start attempt claimState controllerEpoch :
  validateRestartGitHubJITAttempt attempt claimState controllerEpoch = None ->
  att_State attempt = GitHubJITAgentAccepted \/ att_State attempt = GitHubJITStarted ->
  att_StartCommandID attempt <> "".
Proof.
  unfold validateRestartGitHubJITAttempt. intros Hv Hst Hid. revert Hv. rewrite Hid.
  destruct (_ || _); [done|]. destruct (negb _); [done|].
  destruct Hst as [-> | ->]; simpl; by rewrite orb_true_r.
Qed.

(** One claim that is ambiguous about its acquisition while it still has a JIT
    attempt makes the whole read fail. *)
Lemma acquire_ambiguity_with_attempt db controllerEpoch claim pre post :
  claim_State claim = GitHubClaimAcquireAmbiguous -> claim_CurrentAttempt claim <> 0 ->
  exists err, scan_rows (read_fence db controllerEpoch) (pre ++ claim :: post) = Err err.
Proof.
  intros Hs Ha.
  assert (Hc : read_fence db controllerEpoch claim =
    Err (PlainError "stored acquire ambiguity unexpectedly owns a JIT attempt")).
  { unfold read_fence. rewrite Hs. simpl. by rewrite bool_decide_eq_false_2. }
  induction pre as [|x pre [err IH]]; simpl; [rewrite Hc; eauto|].
  destruct (read_fence db controllerEpoch x); [|eauto]. rewrite IH. eauto.
Qed.
