(* ===== verification/SnapshotConsumer.v ===== *)
(** * The activation of an Agent's session (internal/reconcile/snapshot_consumer.go)

    A snapshot is first recorded in the Controller's database and only then applied to
    the projection.  A node that enrolled after the Controller started is added to the
    projection from a fresh read of the database. *)

From S2P Require Import Prelude GoStd Domain Execution Replay SlotLedger Scheduler Transport RunnerUpdate Fence Projection Reconcile.
From S2P Require Import GoEncoding Sql StoreBase EnrollRegistry EnrollPKI AgentStore WorkTables ControllerStore WorkStore WorkAgent WorkReport RestartStore.
From Stdlib Require Import Ascii.

(** [None] stays [None]: nothing was reported. *)
(* src: internal/reconcile/snapshot_consumer.go:118-123 copiedExclusionSet *)
Definition copiedExclusionSet (set : option (list TargetID)) : option (list TargetID) :=
  match set with None => None | Some targetIDs => Some targetIDs end.
(* src: internal/reconcile/snapshot_consumer.go:128-134 copiedReportedFlag *)
Definition copiedReportedFlag (reported : option bool) : option bool :=
  match reported with None => None | Some value => Some value end.

(** The record of the store for a snapshot of the protocol. *)
(* src: internal/reconcile/snapshot_consumer.go:49-87 SnapshotConsumer.HandleAgentSnapshot *)
Definition snapshot_record (snapshot : AgentSnapshot) : NodeAgentSnapshot :=
  mkNodeAgentSnapshot (snap_NodeID snapshot) (snap_OS snapshot) (snap_Arch snapshot)
    (snap_RunnerVersion snapshot) (snap_NativeRunnerReady snapshot) (snap_AvailabilityIntent snapshot)
    (copiedExclusionSet (snap_ExcludedTargets snapshot)) (copiedReportedFlag (snap_SharedRunnerIdentity snapshot))
    (mkAgentStoreSnapshot (snap_MaxControllerEpoch snapshot) (snap_Commands snapshot)
      (map (fun o => mkObservationSnapshot (obs_ExecutionID o) (obs_State o) (obs_ObservedAtUnixNano o))
        (snap_Observations snapshot))
      (map (fun t => mkTombstoneSnapshot (tomb_ExecutionID t) (tomb_FailureCode t) (tomb_RecordedAtUnixNano t))
        (snap_CleanupTombstones snapshot))).

(** [errors.As(err, &classified)] and its code: the first of the package's errors in the
    chain. *)
Fixpoint classified_code (e : GoError) : option string :=
  match e with
  | ReconcileError code _ _ => Some code
  | WrappedError _ cause => classified_code cause
  | JoinedError first second =>
      match classified_code first with Some code => Some code | None => classified_code second end
  | _ => None
  end.

(** What the consumer works on: the projection in memory and the store's connection. *)
Definition consumed : Type := Controller * error * connection ControllerDB.

(** The loop over the topology takes the first row of the node. *)
(* src: internal/reconcile/snapshot_consumer.go:139-171 EnsureStoreBackedRestartNode *)
Definition EnsureStoreBackedRestartNode (s : ControllerStore) (ctl : Controller) (nodeID : NodeID)
    (c : connection ControllerDB) : consumed :=
  if nodeID == "" then
    (ctl, Some (reconcile_invalid "restart_node_dependency_required" "restart_node"
                  "reader, Controller, and node ID must be present"), c)
  else
  match RestartSnapshot s c with
  | (Err e, c) => (ctl, Some e, c)
  | (Ok restart, c) =>
      if cs_ControllerEpoch (rs_Controller restart) != ctl_epoch ctl then
        (ctl, Some (reconcile_invalid "controller_epoch_mismatch" "restart_snapshot.controller_epoch"
                      "changed while adding an enrolled node"), c)
      else
      match List.find (fun topology => topo_NodeID topology == nodeID) (rs_NodeTopology restart) with
      | None =>
          (ctl, Some (reconcile_invalid "node_authority_not_found" "restart_snapshot.node_topology"
                        "does not contain the authenticated Agent node"), c)
      | Some topology => (EnsureRestartNode ctl topology, c)
      end
  end.

Section consumer.
Context (marshal : CanonicalSnapshot -> result string) (sha256 : string -> string).

(** [now] and [later] are the clock's readings at the two reconciliations. *)
(* src: internal/reconcile/snapshot_consumer.go:39-113 SnapshotConsumer.HandleAgentSnapshot *)
Definition HandleAgentSnapshot (s : ControllerStore) (snapshot : AgentSnapshot) (now later : Z)
    (ctl : Controller) (c : connection ControllerDB) : consumed :=
  match AgentSnapshot_Validate snapshot with
  | Some _ => (ctl, Some (reconcile_invalid "invalid_agent_snapshot" "agent_snapshot" "failed typed validation"), c)
  | None =>
      match RecordAgentSnapshot marshal sha256 s (snapshot_record snapshot) c with
      | (Err e, c) => (ctl, Some e, c)
      | (Ok _, c) =>
          match ReconcileAgentSnapshot marshal sha256 ctl snapshot now with
          | (ctl, Ok _) => (ctl, None, c)
          | (ctl, Err e) =>
              if negb (bool_decide (classified_code e = Some "node_not_found")) then (ctl, Some e, c)
              else
              match EnsureStoreBackedRestartNode s ctl (snap_NodeID snapshot) c with
              | (ctl, Some e, c) => (ctl, Some e, c)
              | (ctl, None, c) =>
                  let '(ctl, r) := ReconcileAgentSnapshot marshal sha256 ctl snapshot later in
                  (ctl, error_of r, c)
              end
          end
      end
  end.
End consumer.
