(* ===== verification/ControllerSpec.v ===== *)
(** * What the Controller's database holds

    [controller_wf]: the invariant of the enrollment, management and audit tables, and
    that the changes the methods make keep it.  A stored configuration is valid
    ([configuration_wf], stated row by row) exactly when it passes
    [validateManagementConfiguration]. *)

From S2P Require Import Prelude GoStd GoEncoding Sql StoreBase EnrollRegistry EnrollPKI Domain WorkTables ControllerStore StoreEnroll AuditTrail Management.
From Stdlib Require Import Ascii.

(** ** Hexadecimal text has no surrounding space *)

Lemma strip_rune_none runes b bs :
  Forall (fun r => match r with c :: _ => c <> b | [] => False end) runes -> strip_rune runes (b :: bs) = None.
Proof.
  induction 1 as [|r runes Hr _ IH]; simpl; [done|]. destruct r as [|c r]; [done|]. simpl.
  destruct (Ascii.eqb_spec c b); [done|]. apply IH.
Qed.
Lemma strip_runes_none fuel runes bs :
  Forall (fun b => Forall (fun r => match r with c :: _ => c <> b | [] => False end) runes) bs ->
  Forall (fun r => r <> []) runes -> strip_runes fuel runes bs = bs.
Proof.
  intros Hb Hr. destruct fuel; [done|]. simpl. destruct Hb as [|b bs Hb _]; [|by rewrite strip_rune_none].
  replace (strip_rune runes []) with (@None (list ascii)); [done|].
  clear -Hr. induction Hr as [|r runes Hne _ IH]; simpl; [done|]. by destruct r.
Qed.
Lemma hex_not_space runes b :
  forallb (fun r => match r with c :: _ => negb (lower_hex_byte (byte_val c)) | [] => false end) runes = true ->
  lower_hex_byte (byte_val b) = true ->
  Forall (fun r => match r with c :: _ => c <> b | [] => False end) runes.
Proof.
  intros Hr Hb. rewrite forallb_forall in Hr. apply Forall_forall. intros r Hin.
  specialize (Hr r). rewrite <- list_elem_of_In in Hr. specialize (Hr Hin). destruct r as [|c r]; [done|].
  intros ->. by rewrite Hb in Hr.
Qed.
Lemma TrimSpace_hex s : isLowerHex s = true -> TrimSpace s = s.
Proof.
  unfold isLowerHex, all_bytes, TrimSpace. intros Hs. rewrite forallb_forall in Hs.
  set (bs := String.list_ascii_of_string s) in *.
  assert (Hleft : trim_left bs = bs).
  { apply strip_runes_none; [|by repeat constructor]. apply Forall_forall. intros b Hb.
    apply hex_not_space; [reflexivity|]. apply Hs. by apply list_elem_of_In. }
  assert (Hright : trim_right bs = bs).
  { unfold trim_right. rewrite strip_runes_none; [apply rev_involutive| |by repeat constructor].
    apply Forall_forall. intros b Hb. apply hex_not_space; [reflexivity|]. apply Hs.
    apply list_elem_of_In in Hb. by apply in_rev. }
  rewrite Hleft, Hright. apply String.string_of_list_ascii_of_string.
Qed.
Lemma canonicalNodeID_identifier nodeID :
  canonicalNodeID nodeID = true -> canonicalRuntimeIdentifier nodeID = true.
Proof.
  unfold canonicalNodeID, canonicalRuntimeIdentifier. intros [Hlen Hhex]%andb_true_iff.
  rewrite (TrimSpace_hex _ Hhex), (bool_decide_eq_true_2 (nodeID = nodeID)), andb_true_r by done.
  apply negb_true_iff, bool_decide_eq_false. intros ->. by apply bool_decide_eq_true in Hlen.
Qed.

(** ** Slices without duplicates *)

Lemma check_unique_Ok {A K} `{Countable K} (validate : A -> error) (key : A -> K) dup seen items out :
  check_unique validate key dup seen items = Ok out <->
  Forall (fun item => validate item = None) items /\ NoDup (map key items) /\
  (forall item, item ∈ items -> key item ∉ seen) /\ out = list_to_set (map key items) ∪ seen.
Proof.
  revert seen. induction items as [|item items IH]; intros seen; simpl.
  - split; [intros [= <-]|intros (_ & _ & _ & ->); f_equal; set_solver].
    split_and!; [constructor|constructor|set_solver|set_solver].
  - destruct (validate item) eqn:Hv.
    { split; [done|]. intros (Hf & _). apply Forall_cons in Hf as [Hf _]. congruence. }
    case_bool_decide as Hin.
    { split; [done|]. intros (_ & _ & Hn & _). destruct (Hn item); set_solver. }
    rewrite IH, Forall_cons, NoDup_cons. split.
    + intros (Hf & Hnd & Hn & ->). split_and!; try done; [|set_solver|set_solver].
      intros (x & Hx & Hxin)%list_elem_of_fmap. destruct (Hn x Hxin). set_solver.
    + intros ([_ Hf] & [Hnin Hnd] & Hn & ->). split_and!; try done; [|set_solver].
      intros x Hx. rewrite elem_of_union, elem_of_singleton. intros [E|E].
      * apply Hnin. apply list_elem_of_fmap. by exists x.
      * by apply (Hn x); [set_solver|].
Qed.
Lemma check_unique_None {A K} `{Countable K} (validate : A -> error) (key : A -> K) dup items :
  (exists out, check_unique validate key dup ∅ items = Ok out) <->
  Forall (fun item => validate item = None) items /\ NoDup (map key items).
Proof.
  split.
  - intros [out (Hf & Hnd & _)%check_unique_Ok]. done.
  - intros [Hf Hnd]. eexists. apply check_unique_Ok. split_and!; [done|done|set_solver|done].
Qed.

Lemma scan_validate {A} (validate : A -> error) items :
  (exists out, scan_rows (fun item => tryr validate item ;; Ok item) items = Ok out) <->
  Forall (fun item => validate item = None) items.
Proof.
  split.
  - intros [out Hs%scan_rows_length]. apply Forall_forall. intros item Hin.
    apply list_elem_of_lookup in Hin as [i Hi]. eapply Forall2_lookup_l in Hs as (b & _ & Hb); [|exact Hi].
    by destruct (validate item).
  - intros Hf. exists (map id items). apply scan_rows_ok. eapply Forall_impl; [exact Hf|]. simpl.
    by intros item ->.
Qed.

(** The operator's part passes its own validation. *)
Lemma validateDesired_None desired :
  validateDesiredManagementConfiguration desired = None <->
  validateFleetMaximum (dmc_FleetMaxRunners desired) = None /\
  Forall (fun n => validateManagementNodeConfiguration n = None) (dmc_Nodes desired) /\
  NoDup (map mnc_NodeID (dmc_Nodes desired)) /\
  Forall (fun p => validateDesiredManagementRunnerProfile p = None) (dmc_RunnerProfiles desired) /\
  NoDup (map profile_ID (dmc_RunnerProfiles desired)) /\
  Forall (fun t => validateDesiredManagementGitHubTarget t = None /\
    dgt_RunnerProfileID t ∈ map profile_ID (dmc_RunnerProfiles desired)) (dmc_GitHubTargets desired) /\
  NoDup (map dgt_ID (dmc_GitHubTargets desired)).
Proof.
  unfold validateDesiredManagementConfiguration.
  destruct (validateFleetMaximum _) eqn:Hf; [naive_solver|].
  destruct (check_unique _ mnc_NodeID _ _ _) as [ns|e] eqn:Hn.
  2: { split; [done|]. intros (_ & H1 & H2 & _). destruct (proj2 (check_unique_None
        validateManagementNodeConfiguration mnc_NodeID "duplicate node" (dmc_Nodes desired)) (conj H1 H2)). congruence. }
  destruct (check_unique _ profile_ID _ _ _) as [ps|e] eqn:Hp.
  2: { split; [done|]. intros (_ & _ & _ & H1 & H2 & _). destruct (proj2 (check_unique_None
        validateDesiredManagementRunnerProfile profile_ID "duplicate runner profile" (dmc_RunnerProfiles desired)) (conj H1 H2)). congruence. }
  apply check_unique_Ok in Hn as (Hn1 & Hn2 & _). apply check_unique_Ok in Hp as (Hp1 & Hp2 & _ & ->).
  set (validate := fun target => _).
  assert (Hv : forall t, validate t = None <-> validateDesiredManagementGitHubTarget t = None /\
    dgt_RunnerProfileID t ∈ map profile_ID (dmc_RunnerProfiles desired)).
  { intros t. unfold validate. destruct (validateDesiredManagementGitHubTarget t); [naive_solver|].
    case_bool_decide as Hin; rewrite elem_of_union, elem_of_list_to_set in Hin; set_solver. }
  pose proof (check_unique_None validate dgt_ID "duplicate GitHub target" (dmc_GitHubTargets desired)) as Hiff.
  assert (Hall : Forall (fun t => validate t = None) (dmc_GitHubTargets desired) <->
    Forall (fun t => validateDesiredManagementGitHubTarget t = None /\
      dgt_RunnerProfileID t ∈ map profile_ID (dmc_RunnerProfiles desired)) (dmc_GitHubTargets desired))
    by (apply Forall_iff; exact Hv).
  destruct (check_unique validate dgt_ID _ _ _) as [ts|e].
  - split; [|done]. intros _. destruct (proj1 Hiff) as [H1 H2]; [eauto|]. rewrite Hall in H1. by split_and!.
  - split; [done|]. intros (_ & _ & _ & _ & _ & H1 & H2). rewrite <- Hall in H1.
    destruct (proj2 Hiff (conj H1 H2)). done.
Qed.

Lemma validateConfiguration_None c :
  validateManagementConfiguration c = None <->
  mc_Revision c <= max_int64 /\ validateFleetMaximum (mc_FleetMaxRunners c) = None /\
  Forall (fun n => validateManagementNodeConfiguration n = None) (mc_Nodes c) /\
  NoDup (map mnc_NodeID (mc_Nodes c)) /\
  Forall (fun p => validateManagementRunnerProfile p = None) (mc_RunnerProfiles c) /\
  NoDup (map mp_ID (mc_RunnerProfiles c)) /\
  Forall (fun t => validateManagementGitHubTarget t = None /\
    validateDesiredManagementGitHubTarget (desiredGitHubTarget t) = None /\
    mt_ProfileID t ∈ map mp_ID (mc_RunnerProfiles c)) (mc_GitHubTargets c) /\
  NoDup (map mt_ID (mc_GitHubTargets c)) /\ NoDup (map mgt_ScaleSetID (mc_GitHubTargets c)).
Proof.
  unfold validateManagementConfiguration, maxSQLiteInteger.
  destruct (Z.gtb_spec (mc_Revision c) max_int64); [split; [done|lia]|].
  pose proof (scan_validate validateManagementRunnerProfile (mc_RunnerProfiles c)) as Hscan.
  pose proof (check_unique_None validateManagementGitHubTarget mgt_ScaleSetID "duplicate GitHub scale set"
    (mc_GitHubTargets c)) as Hts.
  pose proof (validateDesired_None (desired_of c)) as Hd. simpl in Hd. rewrite !map_map in Hd.
  change (map (fun x => profile_ID (mrp_Profile x)) (mc_RunnerProfiles c)) with
    (map mp_ID (mc_RunnerProfiles c)) in Hd.
  change (map (fun x => dgt_ID (desiredGitHubTarget x)) (mc_GitHubTargets c)) with
    (map mt_ID (mc_GitHubTargets c)) in Hd.
  assert (Hprofiles : Forall (fun p => validateManagementRunnerProfile p = None) (mc_RunnerProfiles c) ->
    Forall (fun p => validateDesiredManagementRunnerProfile p = None) (map mrp_Profile (mc_RunnerProfiles c))).
  { intros Hp. apply Forall_map. eapply Forall_impl; [exact Hp|]. intros p. simpl.
    unfold validateManagementRunnerProfile. by destruct (validateDesiredManagementRunnerProfile _). }
  assert (Htargets : forall P, Forall (fun t => validateDesiredManagementGitHubTarget t = None /\ P (dgt_RunnerProfileID t))
      (map desiredGitHubTarget (mc_GitHubTargets c)) <->
    Forall (fun t => validateDesiredManagementGitHubTarget (desiredGitHubTarget t) = None /\ P (mt_ProfileID t))
      (mc_GitHubTargets c)) by (intros P; apply Forall_map).
  specialize (Htargets (fun id => id ∈ map mp_ID (mc_RunnerProfiles c))). rewrite Htargets in Hd.
  destruct (validateFleetMaximum _) eqn:Hfleet; [naive_solver|].
  destruct (scan_rows _ _) as [ps|e].
  2: { split; [done|]. intros (_ & _ & _ & _ & Hp & _). destruct (proj2 Hscan Hp). done. }
  pose proof (proj1 Hscan (ex_intro _ ps eq_refl)) as Hp.
  destruct (check_unique _ _ _ _ _) as [ts|e].
  2: { split; [done|]. intros (_ & _ & _ & _ & _ & _ & Ht & _ & Hn). destruct (proj2 Hts); [|done].
       split; [|done]. eapply Forall_impl; [exact Ht|]. naive_solver. }
  destruct (proj1 Hts (ex_intro _ ts eq_refl)) as [Ht Hn]. rewrite Hd. split.
  - intros (_ & H1 & H2 & _ & H3 & H4 & H5). split_and!; try done.
    apply Forall_and. split; [done|exact H4].
  - intros (_ & _ & H1 & H2 & _ & H3 & H4 & H5 & _). split_and!; auto.
    eapply Forall_impl; [exact H4|]. naive_solver.
Qed.

(** ** The stored configuration *)

Definition stored_configuration (db : ControllerDB) : ManagementConfiguration :=
  mkConfiguration (management_revision db) (management_fleet_max db)
    (map snd (rows_by_key (management_node_configurations db)))
    (map snd (rows_by_key (management_runner_profiles db)))
    (map snd (rows_by_key (management_github_targets db))).

(** Every row valid and under its key; every target has its profile and a scale set of
    its own. *)
Record configuration_wf (db : ControllerDB) : Prop := {
  cfg_fleet : validateFleetMaximum (management_fleet_max db) = None;
  cfg_nodes : map_Forall (fun id n => mnc_NodeID n = id /\ validateManagementNodeConfiguration n = None)
    (management_node_configurations db);
  cfg_profiles : map_Forall (fun id p => mp_ID p = id /\ validateManagementRunnerProfile p = None)
    (management_runner_profiles db);
  cfg_targets : map_Forall (fun id t => mt_ID t = id /\ validateManagementGitHubTarget t = None /\
      validateDesiredManagementGitHubTarget (desiredGitHubTarget t) = None /\
      is_Some (management_runner_profiles db !! mt_ProfileID t)) (management_github_targets db);
  cfg_scale_sets : forall id1 id2 t1 t2,
    management_github_targets db !! id1 = Some t1 -> management_github_targets db !! id2 = Some t2 ->
    mgt_ScaleSetID t1 = mgt_ScaleSetID t2 -> id1 = id2 }.

Lemma rows_NoDup {A} (t : gmap string A) : NoDup (map fst (rows_by_key t)).
Proof. unfold rows_by_key. rewrite sort_slice_perm. apply NoDup_fst_map_to_list. Qed.
Lemma rows_Forall {A} (P : A -> Prop) (t : gmap string A) :
  map_Forall (fun _ row => P row) t -> Forall P (map snd (rows_by_key t)).
Proof.
  intros Ht. apply Forall_map, Forall_forall. intros [k row] Hin%elem_of_rows_by_key. by eapply Ht.
Qed.
Lemma rows_keys {A} (key : A -> string) (t : gmap string A) :
  map_Forall (fun id row => key row = id) t -> map key (map snd (rows_by_key t)) = map fst (rows_by_key t).
Proof.
  intros Ht. rewrite map_map. apply map_ext_in. intros [k row] Hin%list_elem_of_In%elem_of_rows_by_key.
  by apply (Ht k row).
Qed.
Lemma elem_of_rows_keys {A} (t : gmap string A) k : k ∈ map fst (rows_by_key t) <-> is_Some (t !! k).
Proof.
  rewrite list_elem_of_fmap. split.
  - intros ([k' row] & -> & Hin%elem_of_rows_by_key). simpl. eauto.
  - intros [row Hrow]. exists (k, row). by rewrite elem_of_rows_by_key.
Qed.
Lemma rows_NoDup_by {A B} (f : A -> B) (t : gmap string A) :
  (forall id1 id2 a1 a2, t !! id1 = Some a1 -> t !! id2 = Some a2 -> f a1 = f a2 -> id1 = id2) ->
  NoDup (map f (map snd (rows_by_key t))).
Proof.
  intros Hinj. rewrite map_map. apply NoDup_fmap_2_strong; [|eapply NoDup_fmap_1, rows_NoDup].
  intros [k1 a1] [k2 a2] H1%elem_of_rows_by_key H2%elem_of_rows_by_key E. simpl in E.
  assert (k1 = k2) as -> by eauto. congruence.
Qed.

Lemma stored_valid db :
  management_revision db <= max_int64 -> configuration_wf db ->
  validateManagementConfiguration (stored_configuration db) = None.
Proof.
  intros Hrev [Hf Hn Hp Ht Hs]. apply validateConfiguration_None. simpl.
  rewrite !rows_keys; [|eapply map_Forall_impl; [eassumption|naive_solver]..].
  split_and!; auto using rows_NoDup, rows_NoDup_by.
  - apply rows_Forall. eapply map_Forall_impl; [exact Hn|naive_solver].
  - apply rows_Forall. eapply map_Forall_impl; [exact Hp|naive_solver].
  - apply rows_Forall. eapply map_Forall_impl; [exact Ht|]. simpl. intros id t (_ & H1 & H2 & H3).
    split_and!; [done|done|]. by apply elem_of_rows_keys.
Qed.

(** ** The trail *)

(** Numbered from one; every event valid; revisions only grow, up to the current one. *)
Record trail_wf (db : ControllerDB) : Prop := {
  trail_numbered : map event_Sequence (management_audit_events db) =
    seqZ 1 (Z.of_nat (length (management_audit_events db)));
  trail_valid : Forall (fun e => validateStoredAuditEvent e = None /\
    0 <= event_Revision e <= management_revision db) (management_audit_events db);
  trail_sorted : StronglySorted Z.le (map event_Revision (management_audit_events db)) }.

Lemma foldr_max_seqZ n m : (0 < n)%nat -> 0 <= m -> foldr Z.max 0 (seqZ m (Z.of_nat n)) = m + Z.of_nat n - 1.
Proof.
  revert m. induction n as [|[|n] IH]; intros m Hn Hm; [lia|simpl; lia|].
  rewrite seqZ_cons by lia. cbn [foldr]. replace (Z.pred (Z.of_nat (S (S n)))) with (Z.of_nat (S n)) by lia.
  rewrite IH by lia. lia.
Qed.
Lemma next_sequence_trail db :
  trail_wf db -> next_audit_sequence db = Z.of_nat (length (management_audit_events db)) + 1.
Proof.
  intros [Hn _ _]. unfold next_audit_sequence. rewrite Hn.
  destruct (management_audit_events db) as [|e l]; [done|]. rewrite foldr_max_seqZ by (simpl; lia). simpl. lia.
Qed.
Lemma validate_stored sequence t r a :
  0 < sequence <= max_int64 -> 0 < t -> r <= max_int64 -> validateAuditRecord a = None ->
  validateStoredAuditEvent (mkAuditEvent sequence t r a) = None.
Proof.
  intros Hs Ht Hr Ha. unfold validateStoredAuditEvent. cbn [event_Sequence event_OccurredAtUnixNano event_Revision event_Record].
  rewrite bool_decide_eq_false_2 by lia. rewrite !Z.gtb_ltb, !(proj2 (Z.ltb_ge _ _)) by (unfold maxSQLiteInteger; lia).
  by rewrite (proj2 (Z.leb_gt _ _)) by lia.
Qed.

Lemma trail_append db t a :
  trail_wf db -> 0 <= management_revision db <= max_int64 -> 0 < t ->
  validateAuditRecord a = None -> next_audit_sequence db <= max_int64 ->
  trail_wf (with_audit (management_audit_events db ++
    [mkAuditEvent (next_audit_sequence db) t (management_revision db) a]) db).
Proof.
  intros Htr Hrev Ht Ha Hmax. pose proof (next_sequence_trail _ Htr) as Hnext. destruct Htr as [Hn Hv Hs].
  split; simpl.
  - rewrite map_app, length_app, Hn. simpl. replace (Z.of_nat (length (management_audit_events db) + 1))
      with (Z.of_nat (length (management_audit_events db)) + 1) by lia.
    rewrite seqZ_app by lia. f_equal. rewrite Hnext, seqZ_cons by lia. simpl. f_equal. lia.
  - apply Forall_app. split; [done|]. constructor; [|constructor]. split; [|simpl; lia].
    apply validate_stored; [|lia..|done]. rewrite Hnext in *. lia.
  - rewrite map_app. simpl. clear -Hs Hv. induction (management_audit_events db) as [|e l IH]; simpl in *.
    { repeat constructor. }
    apply StronglySorted_cons in Hs as [He Hs]. apply Forall_cons in Hv as [[_ Hle] Hv].
    constructor; [by apply IH|]. apply Forall_app. split; [done|]. constructor; [lia|constructor].
Qed.
Lemma trail_weaken db db' :
  management_audit_events db' = management_audit_events db ->
  management_revision db <= management_revision db' -> trail_wf db -> trail_wf db'.
Proof.
  intros He Hr [Hn Hv Hs]. split; rewrite ?He; try done. eapply Forall_impl; [exact Hv|]. simpl.
  intros e [H1 H2]. split; [done|lia].
Qed.

(** ** Nodes and tokens *)

Definition token_wf (id : bytes) (row : TokenRow) : Prop :=
  blob_check 16 id = true /\ blob_check 32 (tk_secret_digest row) = true /\
  0 < tk_controller_epoch row <= max_int64.
Definition node_wf (nodeID : string) (row : NodeRow) : Prop :=
  node_check nodeID row = true /\ en_credential_epoch row <= max_int64 /\
  0 < en_not_before_unix_nano row /\ en_not_after_unix_nano row <= max_int64.
(** A replay belongs to a node that is enrolled and not revoked. *)
Definition replay_wf (db : ControllerDB) (id : bytes) (r : ReplayRow) : Prop :=
  blob_check 16 id = true /\ blob_check 32 (er_secret_digest r) = true /\
  0 < er_controller_epoch r <= max_int64 /\ length (er_public_key_digest r) = 32%nat /\
  er_certificate_der r <> [] /\ er_ca_der r <> [] /\
  exists row, enrolled_nodes db !! er_node_id r = Some row /\ en_revoked row = false.
Definition state_wf (db : ControllerDB) (nodeID : string) (st : string) : Prop :=
  NodeAdministrativeState_Validate st "node.administrative_state" = None /\
  exists row, enrolled_nodes db !! nodeID = Some row /\ (en_revoked row = true <-> st = NodeRevoked).

Record controller_wf (db : ControllerDB) : Prop := {
  cwf_tokens : map_Forall token_wf (enrollment_tokens db);
  cwf_nodes : map_Forall node_wf (enrolled_nodes db);
  cwf_states_dom : dom (node_administrative_states db) = dom (enrolled_nodes db);
  cwf_states : map_Forall (state_wf db) (node_administrative_states db);
  cwf_replays : map_Forall (replay_wf db) (enrollment_replays db);
  cwf_replay_nodes : forall id1 id2 r1 r2, enrollment_replays db !! id1 = Some r1 ->
    enrollment_replays db !! id2 = Some r2 -> er_node_id r1 = er_node_id r2 -> id1 = id2;
  cwf_revision : 0 <= management_revision db <= max_int64;
  cwf_configurations_dom : dom (management_node_configurations db) = dom (enrolled_nodes db);
  cwf_configuration : configuration_wf db;
  cwf_trail : trail_wf db }.

(** The database the migrations create, but for the rows of running work. *)
Definition fresh_controller_db : ControllerDB :=
  mkControllerDB (<["role" := "controller"]> {[ "controller_epoch" := "0" ]}) ∅ ∅ ∅ ∅ 0 None ∅ ∅ ∅ [] ∅ ∅ ∅ ∅ ∅ ∅ no_work.
Lemma fresh_controller_wf : controller_wf fresh_controller_db.
Proof.
  split; simpl; try done; try (apply map_Forall_empty; done).
  split; simpl; [done|constructor|constructor].
Qed.

(** ** Changes that keep it *)

#[local] Ltac keep_wf := split; simpl; try eassumption.

Lemma keep_append db t a :
  controller_wf db -> 0 < t -> validateAuditRecord a = None -> next_audit_sequence db <= max_int64 ->
  controller_wf (with_audit (management_audit_events db ++
    [mkAuditEvent (next_audit_sequence db) t (management_revision db) a]) db).
Proof. intros [] Ht Ha Hmax. keep_wf; [by destruct cwf_configuration0|by apply trail_append]. Qed.
Lemma keep_revision db n :
  controller_wf db -> management_revision db <= n <= max_int64 ->
  controller_wf (with_state n (management_fleet_max db) db).
Proof.
  intros [] Hn. keep_wf; [lia|by destruct cwf_configuration0|]. apply (trail_weaken db); [done|simpl; lia|done].
Qed.
Lemma keep_tokens db t : controller_wf db -> map_Forall token_wf t -> controller_wf (with_tokens t db).
Proof. intros [] Ht. keep_wf; [by destruct cwf_configuration0|by destruct cwf_trail0]. Qed.
Lemma keep_metadata db t : controller_wf db -> controller_wf (with_metadata t db).
Proof. intros []. keep_wf; [by destruct cwf_configuration0|by destruct cwf_trail0]. Qed.
(** Fewer replays. *)
Lemma keep_replays db t : controller_wf db -> t ⊆ enrollment_replays db -> controller_wf (with_replays t db).
Proof.
  intros [] Ht. keep_wf; [| |by destruct cwf_configuration0|by destruct cwf_trail0].
  - intros id r Hr. eapply cwf_replays0. by eapply lookup_weaken.
  - intros id1 id2 r1 r2 H1 H2. eapply cwf_replay_nodes0; by eapply lookup_weaken.
Qed.
Lemma keep_replay db id r :
  controller_wf db -> replay_wf db id r -> enrollment_replays db !! id = None ->
  (forall id' r', enrollment_replays db !! id' = Some r' -> er_node_id r' <> er_node_id r) ->
  controller_wf (with_replays (<[id := r]> (enrollment_replays db)) db).
Proof.
  intros [] Hr Hnew Hne. keep_wf; [| |by destruct cwf_configuration0|by destruct cwf_trail0].
  - by apply map_Forall_insert_2.
  - intros id1 id2 r1 r2 H1 H2 E. apply lookup_insert_Some in H1 as [[<- <-]|[_ H1]],
      H2 as [[<- <-]|[_ H2]]; try done; [by destruct (Hne _ _ H2)|by destruct (Hne _ _ H1)|eauto].
Qed.

(** A new node, with the rows of the triggers. *)
Lemma keep_enrolled db nodeID row :
  controller_wf db -> node_wf nodeID row -> en_revoked row = false -> enrolled_nodes db !! nodeID = None ->
  controller_wf (with_node_configurations
    (<[nodeID := mkNodeConfiguration nodeID nodeID 1]> (management_node_configurations db))
    (with_states (<[nodeID := NodeActive]> (node_administrative_states db))
      (with_nodes (<[nodeID := row]> (enrolled_nodes db)) db))).
Proof.
  intros [] Hrow Hact Hnew.
  assert (Hother : forall id r, enrolled_nodes db !! id = Some r -> <[nodeID := row]> (enrolled_nodes db) !! id = Some r)
    by (intros id r Hid; rewrite lookup_insert_ne; [done|congruence]).
  keep_wf.
  - by apply map_Forall_insert_2.
  - rewrite !dom_insert_L. by f_equal.
  - apply map_Forall_insert_2.
    + split; [done|]. simpl. rewrite lookup_insert_eq. eexists. split; [done|]. by rewrite Hact.
    + eapply map_Forall_impl; [exact cwf_states0|]. intros id st [Hv (r & Hr & Hiff)]. split; [done|]. simpl. eauto.
  - eapply map_Forall_impl; [exact cwf_replays0|]. intros id r (H1 & H2 & H3 & H4 & H5 & H6 & (n & Hn & Hf)).
    repeat (split; [assumption|]). simpl. eauto.
  - rewrite !dom_insert_L. by f_equal.
  - destruct cwf_configuration0 as [Hf Hn Hp Ht Hs]. split; simpl; try done.
    apply map_Forall_insert_2; [|done]. split; [done|]. unfold validateManagementNodeConfiguration. simpl.
    destruct Hrow as [Hc _]. unfold node_check in Hc. rewrite !andb_true_iff in Hc.
    destruct Hc as [[[Hc _] _] _]. rewrite (canonicalNodeID_identifier _ Hc).
    rewrite bool_decide_eq_false_2; [done|]. intros ->. done.
  - by destruct cwf_trail0.
Qed.

(** The credential of a node replaced. *)
Lemma keep_credential db nodeID row row' :
  controller_wf db -> enrolled_nodes db !! nodeID = Some row -> node_wf nodeID row' ->
  en_revoked row' = en_revoked row -> controller_wf (with_nodes (<[nodeID := row']> (enrolled_nodes db)) db).
Proof.
  intros [] Hold Hrow Hact.
  assert (Hother : forall id r, enrolled_nodes db !! id = Some r ->
    exists r', <[nodeID := row']> (enrolled_nodes db) !! id = Some r' /\ en_revoked r' = en_revoked r).
  { intros id r Hid. destruct (decide (id = nodeID)) as [->|Hne].
    - rewrite lookup_insert_eq. simplify_eq. eauto.
    - rewrite lookup_insert_ne by done. eauto. }
  assert (Hdom : dom (<[nodeID := row']> (enrolled_nodes db)) = dom (enrolled_nodes db))
    by (apply dom_insert_lookup_L; eauto).
  keep_wf; [by apply map_Forall_insert_2|by rewrite Hdom| | |by rewrite Hdom|
    by destruct cwf_configuration0|by destruct cwf_trail0].
  - eapply map_Forall_impl; [exact cwf_states0|]. intros id st [Hv (r & Hr & Hiff)]. split; [done|]. simpl.
    destruct (Hother _ _ Hr) as (r' & Hr' & E). exists r'. by rewrite E.
  - eapply map_Forall_impl; [exact cwf_replays0|]. intros id r (H1 & H2 & H3 & H4 & H5 & H6 & (n & Hn & Hf)).
    repeat (split; [assumption|]). simpl. destruct (Hother _ _ Hn) as (r' & Hr' & E). exists r'. by rewrite E.
Qed.

(** A node revoked: its row, its state, and no replay of it left. *)
Lemma keep_revoked db nodeID row epoch t :
  controller_wf db -> enrolled_nodes db !! nodeID = Some row -> en_revoked row = false ->
  0 < epoch <= max_int64 -> t ⊆ enrollment_replays db ->
  (forall id r, t !! id = Some r -> er_node_id r <> nodeID) ->
  controller_wf (with_replays t
    (with_states (alter (fun _ => NodeRevoked) nodeID (node_administrative_states db))
      (with_nodes (<[nodeID := mkNodeRow (en_current_serial row) epoch (en_not_before_unix_nano row)
        (en_not_after_unix_nano row) true]> (enrolled_nodes db)) db))).
Proof.
  intros [] Hold Hact Hep Ht Hgone. set (row' := mkNodeRow _ _ _ _ _).
  assert (Hdom : dom (<[nodeID := row']> (enrolled_nodes db)) = dom (enrolled_nodes db))
    by (apply dom_insert_lookup_L; eauto).
  keep_wf.
  - apply map_Forall_insert_2; [|done]. destruct (cwf_nodes0 _ _ Hold) as (Hc & Hm & Hb & Ha).
    split; [|split; [simpl; lia|done]]. unfold node_check in *. rewrite !andb_true_iff in *.
    destruct Hc as [[[H1 H2] H3] H4]. split_and!; try done. apply Z.ltb_lt. simpl. lia.
  - rewrite dom_alter_L. by rewrite Hdom.
  - intros id st Hst. apply lookup_alter_Some in Hst as [(-> & old & Hst & ->)|[Hne Hst]].
    + split; [done|]. simpl. rewrite lookup_insert_eq. by exists row'.
    + destruct (cwf_states0 _ _ Hst) as [Hv (r & Hr & Hiff)]. split; [done|]. simpl.
      rewrite lookup_insert_ne by done. eauto.
  - intros id r Hr. destruct (cwf_replays0 id r) as (H1 & H2 & H3 & H4 & H5 & H6 & (n & Hn & Hf));
      [by eapply lookup_weaken|]. repeat (split; [assumption|]). simpl.
    rewrite lookup_insert_ne by (intros E; by destruct (Hgone _ _ Hr)). eauto.
  - intros id1 id2 r1 r2 H1 H2. eapply cwf_replay_nodes0; by eapply lookup_weaken.
  - by rewrite Hdom.
  - by destruct cwf_configuration0.
  - by destruct cwf_trail0.
Qed.

(** A node drained, resumed or quarantined. *)
Lemma keep_state db nodeID row current next :
  controller_wf db -> enrolled_nodes db !! nodeID = Some row -> en_revoked row = false ->
  node_administrative_states db !! nodeID = Some current -> next ∈ [NodeActive; NodeDraining; NodeQuarantined] ->
  controller_wf (with_states (<[nodeID := next]> (node_administrative_states db)) db).
Proof.
  intros [] Hold Hact Hst Hnext. keep_wf; [| |by destruct cwf_configuration0|by destruct cwf_trail0].
  - rewrite dom_insert_lookup_L; eauto.
  - apply map_Forall_insert_2; [|done]. split.
    + unfold NodeAdministrativeState_Validate. rewrite bool_decide_eq_true_2; [done|]. set_solver.
    + exists row. split; [done|]. rewrite Hact. split; [done|]. intros ->.
      rewrite !elem_of_cons, elem_of_nil in Hnext. by destruct Hnext as [H|[H|[H|H]]].
Qed.

(** ** Tables filled from a slice *)

#[export] Instance by_key_weak {A} : WeakOrder (fun a b : string * A => string_less a.1 b.1).
Proof.
  split.
  - intros a b. apply wo_asym.
  - intros a b c. apply wo_ntrans.
Qed.
Lemma rows_by_key_sorted {A} (t : gmap string A) :
  StronglySorted (fun a b : string * A => string_less b.1 a.1 = false) (rows_by_key t).
Proof. apply (sort_slice_sorted (fun a b : string * A => string_less a.1 b.1)). Qed.

Section keyed.
Context {A : Type} (key : A -> string).

Lemma lookup_keyed_from (m : gmap string A) items k a :
  NoDup (map key items) -> (forall x, x ∈ items -> m !! key x = None) ->
  foldl (fun m item => <[key item := item]> m) m items !! k = Some a <->
  m !! k = Some a \/ (a ∈ items /\ key a = k).
Proof.
  revert m. induction items as [|x items IH]; intros m Hnd Hm; simpl in *.
  - set_solver.
  - apply NoDup_cons in Hnd as [Hx Hnd]. rewrite IH; [|done|].
    + rewrite lookup_insert_Some, elem_of_cons. split.
      * intros [[[<- <-]|[Hne H]]|[H <-]]; eauto.
      * intros [H|[[->|H] <-]]; [|left; left; done|right; done].
        left. right. split; [|done]. intros <-. rewrite Hm in H; [done|set_solver].
    + intros y Hy. rewrite lookup_insert_ne; [apply Hm; set_solver|]. intros E. apply Hx.
      rewrite E. by apply list_elem_of_fmap_2.
Qed.
Lemma lookup_keyed items k a :
  NoDup (map key items) -> keyed key items !! k = Some a <-> a ∈ items /\ key a = k.
Proof.
  intros Hnd. unfold keyed. rewrite lookup_keyed_from; [|done|intros; apply lookup_empty].
  rewrite lookup_empty. naive_solver.
Qed.
Lemma keyed_keys items : NoDup (map key items) -> map_Forall (fun id x => key x = id) (keyed key items).
Proof. intros Hnd k x Hx. by apply lookup_keyed in Hx as [_ <-]. Qed.
Lemma keyed_Forall (P : A -> Prop) items :
  NoDup (map key items) -> Forall P items -> map_Forall (fun _ x => P x) (keyed key items).
Proof.
  intros Hnd HP k x [Hin _]%lookup_keyed; [|done]. rewrite Forall_forall in HP. by apply HP.
Qed.

(** A sorted slice is read back as it was. *)
Lemma rows_keyed items :
  NoDup (map key items) -> StronglySorted (fun a b => string_less (key b) (key a) = false) items ->
  map snd (rows_by_key (keyed key items)) = items.
Proof.
  intros Hnd Hs.
  assert (E : map (fun x => (key x, x)) items = rows_by_key (keyed key items)).
  { apply (StronglySorted_unique_strong (fun a b => string_less b.1 a.1 = false)).
    - intros [k1 x1] [k2 x2] (y & E1 & Hy)%list_elem_of_fmap H2%elem_of_rows_by_key Hle Hge. simplify_eq/=.
      assert (Hk : key y = k2) by (by apply so_total). subst k2.
      apply lookup_keyed in H2 as [H2 E2]; [|done]. f_equal.
      apply list_elem_of_lookup in Hy as [i Hi], H2 as [j Hj]. symmetry in E2.
      assert (i = j) as -> by (apply (NoDup_lookup (map key items) i j (key y) Hnd);
        rewrite list_lookup_fmap; [by rewrite Hi|by rewrite Hj, E2]). congruence.
    - clear Hnd. induction Hs as [|x l Hs IH Hx]; simpl; constructor; [done|]. apply Forall_map.
      eapply Forall_impl; [exact Hx|]. done.
    - apply rows_by_key_sorted.
    - unfold rows_by_key. rewrite sort_slice_perm. apply NoDup_Permutation.
      + apply (NoDup_fmap_1 fst). rewrite <- list_fmap_compose. exact Hnd.
      + apply NoDup_map_to_list.
      + intros [k x]. rewrite elem_of_map_to_list, lookup_keyed by done. rewrite list_elem_of_fmap. naive_solver. }
  rewrite <- E, map_map. apply map_id.
Qed.
End keyed.

(** ** A configuration replaced *)

Definition configured (next : ManagementConfiguration) (policies : gmap string RunnerProfileUpdatePolicy)
    (bindings : gmap string GitHubTargetRuntimeBinding) (db : ControllerDB) : ControllerDB :=
  with_state (mc_Revision next) (mc_FleetMaxRunners next)
    (with_bindings bindings (with_targets (keyed mt_ID (mc_GitHubTargets next))
      (with_policies policies (with_profiles (keyed mp_ID (mc_RunnerProfiles next))
        (with_node_configurations (keyed mnc_NodeID (mc_Nodes next)) db))))).

(** The slices of a configuration in the order of their identities. *)
Definition sorted_by {A} (key : A -> string) (items : list A) : Prop :=
  StronglySorted (fun a b => string_less (key b) (key a) = false) items.
Definition configuration_sorted (c : ManagementConfiguration) : Prop :=
  sorted_by mnc_NodeID (mc_Nodes c) /\ sorted_by mp_ID (mc_RunnerProfiles c) /\
  sorted_by mt_ID (mc_GitHubTargets c).
Lemma sort_by_sorted {A} (key : A -> string) items :
  sorted_by key (sort_slice (fun a b => string_less (key a) (key b)) items).
Proof.
  assert (WeakOrder (fun a b => string_less (key a) (key b)))
    by (split; [intros a b; apply wo_asym|intros a b c; apply wo_ntrans]).
  apply (sort_slice_sorted (fun a b => string_less (key a) (key b))).
Qed.

Lemma stored_configured next policies bindings db :
  validateManagementConfiguration next = None -> configuration_sorted next ->
  stored_configuration (configured next policies bindings db) = next.
Proof.
  intros (_ & _ & _ & Hn & _ & Hp & _ & Ht & _)%validateConfiguration_None (S1 & S2 & S3).
  unfold stored_configuration. simpl. rewrite !rows_keyed by done. by destruct next.
Qed.

Lemma keep_configured next policies bindings db :
  controller_wf db -> validateManagementConfiguration next = None ->
  management_revision db <= mc_Revision next ->
  map fst (rows_by_key (enrolled_nodes db)) ≡ₚ map mnc_NodeID (mc_Nodes next) ->
  controller_wf (configured next policies bindings db).
Proof.
  intros [] Hv Hrev Hnodes.
  apply validateConfiguration_None in Hv as (Hmax & Hf & Hn & Hnd & Hp & Hpd & Ht & Htd & Hsd).
  keep_wf; [lia| | |].
  - apply set_eq. intros id.
    rewrite !elem_of_dom, <- (elem_of_rows_keys (enrolled_nodes db)), Hnodes. split.
    + intros [n [Hin <-]%lookup_keyed]; [|done]. by apply list_elem_of_fmap_2.
    + intros (n & -> & Hin)%list_elem_of_fmap. exists n. by apply lookup_keyed.
  - split; simpl; [done| | | |].
    + intros id n [Hin <-]%lookup_keyed; [|done]. rewrite Forall_forall in Hn. auto.
    + intros id p [Hin <-]%lookup_keyed; [|done]. rewrite Forall_forall in Hp. auto.
    + intros id t [Hin <-]%lookup_keyed; [|done]. rewrite Forall_forall in Ht.
      destruct (Ht t Hin) as (H1 & H2 & (p & E & Hpin)%list_elem_of_fmap). split_and!; try done.
      exists p. by apply lookup_keyed.
    + intros id1 id2 t1 t2 [H1 <-]%lookup_keyed [H2 <-]%lookup_keyed E; [|done..].
      apply list_elem_of_lookup in H1 as [i Hi], H2 as [j Hj].
      assert (i = j) as -> by (apply (NoDup_lookup (map mgt_ScaleSetID (mc_GitHubTargets next)) i j
        (mgt_ScaleSetID t1) Hsd); rewrite list_lookup_fmap; [by rewrite Hi|by rewrite Hj, E]). congruence.
  - apply (trail_weaken db); done.
Qed.

(** What the exact set of enrolled nodes gives. *)
Lemma exact_nodes_perm db nodes :
  map fst (rows_by_key (enrolled_nodes db)) = sort_slice string_less (map mnc_NodeID nodes) ->
  map fst (rows_by_key (enrolled_nodes db)) ≡ₚ map mnc_NodeID nodes.
Proof. intros ->. apply sort_slice_perm. Qed.
Lemma stored_nodes_exact db :
  controller_wf db ->
  map fst (rows_by_key (enrolled_nodes db)) =
    sort_slice string_less (map mnc_NodeID (mc_Nodes (stored_configuration db))).
Proof.
  intros Hwf. simpl. rewrite rows_keys.
  2: { eapply map_Forall_impl; [exact (cfg_nodes _ (cwf_configuration _ Hwf))|]. naive_solver. }
  apply sort_slice_unique; [apply _| |].
  - apply NoDup_Permutation; [apply rows_NoDup..|]. intros k. rewrite !elem_of_rows_keys.
    rewrite <- !elem_of_dom. by rewrite (cwf_configurations_dom _ Hwf).
  - pose proof (rows_by_key_sorted (enrolled_nodes db)) as Hs. clear -Hs.
    induction Hs as [|x l Hs IH Hx]; simpl; constructor; [done|]. apply Forall_map.
    eapply Forall_impl; [exact Hx|]. done.
Qed.
