(* ===== verification/ControllerFacts.v ===== *)
(** * The Controller's database stays consistent

    The invariant [controller_wf] of the enrollment, management and audit tables; what
    each method of StoreEnroll.v, AuditTrail.v and Management.v does when it succeeds;
    and that it keeps the invariant. *)

From S2P Require Import Prelude GoStd GoEncoding Sql StoreBase EnrollRegistry EnrollPKI Domain WorkTables ControllerStore StoreEnroll AuditTrail Management ControllerSpec.
From Stdlib Require Import Ascii.

(** ** Programs *)

#[export] Instance mapping_error_follows {A} wrap (m : program A) : Follows m -> Follows (mapping_error wrap m).
Proof.
  intros Hm. split.
  - intros db. unfold mapping_error. pose proof (follows_calm (m := m) db) as Hc.
    by destruct (m (calm db)) as [[a|e] c].
  - intros c a c'. unfold mapping_error. destruct (m c) as [[b|e] c1] eqn:E; [|done].
    intros [= <- <-]. by rewrite (follows_ok (m := m) _ _ _ E).
Qed.
#[export] Instance degrading_follows {A} wrap (m : program A) : Follows m -> Follows (degrading wrap m).
Proof. apply mapping_error_follows. Qed.
#[export] Instance mapping_error_read_only {A} wrap (m : program A) : ReadOnly m -> ReadOnly (mapping_error wrap m).
Proof.
  intros Hm c. unfold mapping_error. pose proof (read_only (m := m) c) as Hc. by destruct (m c) as [[a|e] c1].
Qed.
#[export] Instance degrading_read_only {A} wrap (m : program A) : ReadOnly m -> ReadOnly (degrading wrap m).
Proof. apply mapping_error_read_only. Qed.
Lemma run_mapping_error {A} wrap (m : program A) db :
  run (mapping_error wrap m) db =
    match run m db with (Err e, db') => (Err (wrap e), db') | (Ok a, db') => (Ok a, db') end.
Proof. unfold run, mapping_error. by destruct (m (calm db)) as [[a|e] c]. Qed.
Lemma run_mapping_error_ok {A} wrap (m : program A) db a db' :
  run (mapping_error wrap m) db = (Ok a, db') -> run m db = (Ok a, db').
Proof. rewrite run_mapping_error. by destruct (run m db) as [[b|e] db1]. Qed.
Lemma run_degrading_ok {A} wrap (m : program A) db a db' :
  run (degrading wrap m) db = (Ok a, db') -> run m db = (Ok a, db').
Proof. apply run_mapping_error_ok. Qed.

#[export] Instance insertAuditEvent_follows t r a : Follows (insertAuditEvent t r a).
Proof. unfold insertAuditEvent. apply _. Qed.
#[export] Instance record_evidence_follows t r a : Follows (record_evidence t r a).
Proof. unfold record_evidence. apply _. Qed.
#[export] Instance readManagementState_follows : Follows readManagementState.
Proof. unfold readManagementState. apply _. Qed.
#[export] Instance readManagementState_read_only : ReadOnly readManagementState.
Proof. unfold readManagementState. apply _. Qed.
#[export] Instance readManagementRevision_follows : Follows readManagementRevision.
Proof. unfold readManagementRevision. apply _. Qed.
#[export] Instance readManagementRevision_read_only : ReadOnly readManagementRevision.
Proof. unfold readManagementRevision. apply _. Qed.
#[export] Instance updateManagementRevision_follows a b : Follows (updateManagementRevision a b).
Proof. unfold updateManagementRevision. apply _. Qed.
#[export] Instance commit_follows {A} s (body : program A) : Follows body -> Follows (commitWithManagementAudit s body).
Proof.
  intros Hb. unfold commitWithManagementAudit. split.
  - intros db. by rewrite in_tx_recovering_calm by apply _.
  - intros c a c' E. pose proof E as E2. apply in_tx_recovering_answer in E2 as [E2|(b & c1 & _ & Hr & _)];
      [|done|apply _]. unfold run in E2. rewrite in_tx_recovering_calm in * by apply _. simpl in E2.
    by destruct (tx_run _ _); simplify_eq/=.
Qed.
#[export] Instance commit_atomic {A} s (body : program A) : Follows body -> Atomic (commitWithManagementAudit s body).
Proof.
  intros Hb. unfold commitWithManagementAudit. split.
  - intros c. rewrite run_in_tx_recovering by apply _. apply in_tx_recovering_db; apply _.
  - intros c a c' E. apply in_tx_recovering_answer in E as [E|(b & c1 & _ & Hr & _)]; [done|done|apply _].
Qed.
#[export] Instance commit_all_or_nothing {A} s (body : program A) :
  Follows body -> AllOrNothing (commitWithManagementAudit s body).
Proof. intros Hb. unfold commitWithManagementAudit. apply in_tx_recovering_all_or_nothing; apply _. Qed.
Lemma run_commit_ok {A} s (body : program A) db a db' :
  Follows body -> run (commitWithManagementAudit s body) db = (Ok a, db') ->
  audit_gate_healthy s = true /\ run body db = (Ok a, db').
Proof.
  intros Hb E. unfold commitWithManagementAudit in E.
  apply run_in_tx_recovering_ok in E as (end_ & db1 & E & Hend); [|apply _].
  apply run_bind_ok in E as (b & db2 & Hbody & E); [|done].
  destruct (audit_gate_healthy s); simpl in E; [|by apply run_throw_ok in E].
  apply run_ret_ok in E as [<- <-]. destruct Hend as [[[= ->] ->]|[[=] _]]. done.
Qed.

(** What a successful primitive step did. *)
Lemma insertAuditEvent_ok t r a db e db' :
  run (insertAuditEvent t r a) db = (Ok e, db') ->
  validateAuditRecord a = None /\ event_Sequence e <= max_int64 /\
  e = mkAuditEvent (next_audit_sequence db) t r a /\
  db' = with_audit (management_audit_events db ++ [e]) db.
Proof.
  unfold insertAuditEvent. rewrite run_require_bind. destruct (validateAuditRecord a); [done|].
  intros E%run_statement_ok. simpl in E. revert E. destruct (audit_check a); [|done]. simpl.
  destruct (Z.ltb_spec max_int64 (next_audit_sequence db)); [done|]. by intros [= <- <-].
Qed.
Lemma record_evidence_ok t r a db db' :
  run (record_evidence t r a) db = (Ok tt, db') ->
  let e := mkAuditEvent (next_audit_sequence db) t r a in
  validateAuditRecord a = None /\ event_Sequence e <= max_int64 /\
  db' = with_audit (management_audit_events db ++ [e]) db.
Proof.
  unfold record_evidence. intros E. apply run_bind_ok in E as (e & db1 & E & Hr); [|apply _].
  apply run_ret_ok in Hr as [_ <-]. apply run_degrading_ok, insertAuditEvent_ok in E.
  destruct E as (Hv & Hm & -> & ->). done.
Qed.
Lemma readManagementState_ok db st db' :
  run readManagementState db = (Ok st, db') ->
  db' = db /\ st = (management_revision db, management_fleet_max db) /\
  management_revision db <= max_int64 /\
  (forall n, management_fleet_max db = Some n -> 1 <= n /\ wrap_uint64 n <= max_int64).
Proof.
  unfold readManagementState. intros E. apply run_bind_ok in E as ([rev fleet] & db1 & Hq & E); [|apply _].
  apply run_mapping_error_ok, run_query_ok in Hq as [[= <- <-] <-].
  destruct (Z.gtb_spec (management_revision db) maxSQLiteInteger); [by apply run_throw_ok in E|].
  unfold maxSQLiteInteger in *. destruct (management_fleet_max db) as [n|] eqn:Hf.
  - destruct (_ || _) eqn:Hn; [by apply run_throw_ok in E|]. conditions.
    apply run_ret_ok in E as [<- <-]. split_and!; try done; try lia. intros m [= ->]. lia.
  - apply run_ret_ok in E as [<- <-]. split_and!; try done; lia.
Qed.
Lemma readManagementRevision_ok db n db' :
  run readManagementRevision db = (Ok n, db') -> db' = db /\ n = management_revision db /\ n <= max_int64.
Proof.
  unfold readManagementRevision. intros E. apply run_bind_ok in E as (st & db1 & Hs & E); [|apply _].
  apply readManagementState_ok in Hs as (-> & -> & Hm & _). apply run_ret_ok in E as [<- <-]. done.
Qed.
Lemma updateManagementRevision_ok a b db db' :
  run (updateManagementRevision a b) db = (Ok tt, db') ->
  management_revision db = a /\ 0 <= b /\ db' = with_state b (management_fleet_max db) db.
Proof.
  unfold updateManagementRevision. intros E. apply run_bind_ok in E as (n & db1 & Hs & E); [|apply _].
  apply run_statement_ok in Hs. destruct (decide (management_revision db = a)) as [Hr|Hr];
    [rewrite bool_decide_eq_true_2 in Hs by done|rewrite bool_decide_eq_false_2 in Hs by done].
  - destruct (Z.ltb_spec b 0); [done|]. injection Hs as <- <-. simpl in E.
    apply run_ret_ok in E as [_ <-]. done.
  - injection Hs as <- <-. simpl in E. by apply run_throw_ok in E.
Qed.

(** ** Enrollment *)

#[export] Instance insert_token_follows id row : Follows (insert_token id row).
Proof. unfold insert_token. apply _. Qed.
#[export] Instance insert_enrolled_node_follows id row : Follows (insert_enrolled_node id row).
Proof. unfold insert_enrolled_node. apply _. Qed.
#[export] Instance insert_replay_follows id row : Follows (insert_replay id row).
Proof. unfold insert_replay. apply _. Qed.
#[export] Instance delete_token_follows id : Follows (delete_token id).
Proof. unfold delete_token. apply _. Qed.
#[export] Instance delete_replay_follows id : Follows (delete_replay id).
Proof. unfold delete_replay. apply _. Qed.
#[export] Instance delete_node_replays_follows id : Follows (delete_node_replays id).
Proof. unfold delete_node_replays. apply _. Qed.
#[export] Instance revoke_enrolled_node_follows id n : Follows (revoke_enrolled_node id n).
Proof. unfold revoke_enrolled_node. apply _. Qed.
#[export] Instance update_credential_follows id s n b a : Follows (update_credential id s n b a).
Proof. unfold update_credential. apply _. Qed.
#[export] Instance readCredential_follows id : Follows (readCredential id).
Proof. unfold readCredential. apply _. Qed.
#[export] Instance readCredential_read_only id : ReadOnly (readCredential id).
Proof. unfold readCredential. apply _. Qed.
#[export] Instance createEnrollmentToken_follows t : Follows (createEnrollmentToken t).
Proof. unfold createEnrollmentToken. apply _. Qed.
#[export] Instance consumeEnrollment_follows t n b a : Follows (consumeEnrollment t n b a).
Proof. unfold consumeEnrollment. apply _. Qed.
#[export] Instance audited_at_follows s : Follows (audited_at s).
Proof. unfold audited_at. apply _. Qed.
#[export] Instance audited_at_read_only s : ReadOnly (audited_at s).
Proof. unfold audited_at. apply _. Qed.
#[export] Instance cancelEnrollmentToken_follows id : Follows (cancelEnrollmentToken id).
Proof. unfold cancelEnrollmentToken. apply _. Qed.

(** One step of [run m db = (Ok a, db')] for [m] a sequence. *)
Tactic Notation "step" "in" hyp(E) "as" simple_intropattern(pat) :=
  apply run_bind_ok in E as pat; [|typeclasses eauto].

(** The condition that [E] tests next. *)
Ltac next_condition E H := match type of E with context [if ?b then _ else _] => destruct b eqn:H end.

Lemma uint64_arg_Ok n m : uint64_arg n = Ok m -> m = n /\ n <= max_int64.
Proof.
  unfold uint64_arg, maxSQLiteInteger. destruct (Z.gtb_spec n max_int64) as [_|H]; [done|].
  intros [= <-]. exact (conj eq_refl H).
Qed.
Lemma readCredential_ok nodeID db c r db' :
  run (readCredential nodeID) db = (Ok (c, r), db') ->
  db' = db /\ exists row, enrolled_nodes db !! nodeID = Some row /\ c = row_credential nodeID row /\ r = en_revoked row.
Proof.
  intros [Hq <-]%run_query_ok. destruct (enrolled_nodes db !! nodeID) as [row|] eqn:E; [|done].
  injection Hq as <- <-. eauto.
Qed.
Lemma delete_token_ok id n db db' :
  run (delete_token id) db = (Ok n, db') ->
  (n = 1 /\ (exists row, enrollment_tokens db !! id = Some row) /\
   db' = with_tokens (delete id (enrollment_tokens db)) db) \/
  (n = 0 /\ enrollment_tokens db !! id = None /\ db' = db).
Proof.
  intros E%run_statement_ok. destruct (enrollment_tokens db !! id) eqn:Hid; injection E as <- <-; eauto 6.
Qed.
Lemma revoke_enrolled_node_ok nodeID epoch n db db' :
  run (revoke_enrolled_node nodeID epoch) db = (Ok n, db') ->
  (n = 1 /\ exists row, enrolled_nodes db !! nodeID = Some row /\ en_revoked row = false /\
    0 < epoch <= max_int64 /\
    db' = with_states (alter (fun _ => NodeRevoked) nodeID (node_administrative_states db))
      (with_nodes (<[nodeID := mkNodeRow (en_current_serial row) epoch (en_not_before_unix_nano row)
        (en_not_after_unix_nano row) true]> (enrolled_nodes db)) db)) \/ n = 0.
Proof.
  intros E%run_statement_ok. destruct (uint64_arg epoch) as [m|] eqn:Hm; [|done].
  apply uint64_arg_Ok in Hm as [-> Hmax].
  destruct (enrolled_nodes db !! nodeID) as [row|] eqn:Hid; [|injection E as <- <-; by right].
  destruct (en_revoked row) eqn:Hr; [injection E as <- <-; by right|].
  destruct (Z.leb_spec epoch 0) as [_|Hpos]; [done|]. injection E as <- <-. left. split; [reflexivity|].
  exists row. split; [reflexivity|]. split; [exact Hr|]. split; [exact (conj Hpos Hmax)|reflexivity].
Qed.

Lemma createEnrollmentToken_ok token db db' :
  run (createEnrollmentToken token) db = (Ok tt, db') ->
  let row := mkTokenRow (token_SecretDigest token) (token_Epoch token) in
  (exists current, readUintMetadata (store_metadata db) "controller_epoch" = Ok current /\
     token_Epoch token = if current =? 0 then 1 else current) /\
  token_wf (token_ID token) row /\ enrollment_tokens db !! token_ID token = None /\
  db' = with_tokens (<[token_ID token := row]> (enrollment_tokens db)) db.
Proof.
  unfold createEnrollmentToken, maxSQLiteInteger. destruct (_ || _) eqn:Hc; [by intros []%run_throw_ok|].
  intros E. step in E as (current & db1 & Hq & E). apply run_query_ok in Hq as [Hq <-].
  destruct (bool_decide (token_Epoch token = _)) eqn:He; simpl in E; [|by apply run_throw_ok in E].
  apply bool_decide_eq_true in He. apply run_exec_ok in E.
  destruct (insert_row _ _ _ _) as [t|] eqn:Hins; [|done]. injection E as <-.
  apply insert_row_ok in Hins as (Hck & Hnew & ->). simpl in Hck. conditions.
  destruct Hc as [[[_ Hmax] _] _], Hck as [[H1 H2] H3]. split; [by exists current|].
  split; [exact (conj H1 (conj H2 (conj H3 Hmax)))|done].
Qed.

(** What an enrollment makes of the database. *)
Definition consumed_db (supplied : TokenRecord) (node : NodeRecord) (before after : Z) (db : ControllerDB)
    : ControllerDB :=
  let row := mkNodeRow (cred_Serial (nr_Credential node)) (cred_Epoch (nr_Credential node)) before after false in
  let replay := mkReplayRow (token_SecretDigest supplied) (token_Epoch supplied) (nr_PublicKeyDigest node)
    (nr_NodeID node) (nr_CertificateDER node) (nr_CACertificateDER node) in
  with_tokens (delete (token_ID supplied) (enrollment_tokens db))
    (with_replays (<[token_ID supplied := replay]> (enrollment_replays db))
      (with_state (management_revision db + 1) (management_fleet_max db)
        (with_node_configurations (<[nr_NodeID node := mkNodeConfiguration (nr_NodeID node) (nr_NodeID node) 1]>
            (management_node_configurations db))
          (with_states (<[nr_NodeID node := NodeActive]> (node_administrative_states db))
            (with_nodes (<[nr_NodeID node := row]> (enrolled_nodes db)) db))))).

Lemma validateEnrollmentInput_Ok supplied node before after :
  validateEnrollmentInput supplied node = Ok (before, after) ->
  0 <> token_Epoch supplied /\ token_Epoch supplied <= max_int64 /\
  allZero (token_ID supplied) = false /\ allZero (token_SecretDigest supplied) = false /\
  canonicalNodeID (nr_NodeID node) = true /\ cred_NodeID (nr_Credential node) = nr_NodeID node /\
  canonicalSerial (cred_Serial (nr_Credential node)) = true /\
  cred_Epoch (nr_Credential node) <> 0 /\ allZero (nr_PublicKeyDigest node) = false /\
  nr_CertificateDER node <> [] /\ nr_CACertificateDER node <> [] /\
  cred_NotBefore (nr_Credential node) = unix_time before /\ cred_NotAfter (nr_Credential node) = unix_time after /\
  0 < before < after /\ after <= max_int64.
Proof.
  unfold validateEnrollmentInput, maxSQLiteInteger. destruct (_ || _) eqn:Hc; [done|]. conditions.
  unfold enrollmentTimes. destruct (_ || _) eqn:Hc2; [done|]. conditions.
  destruct (storeUnixNano _) as [b|] eqn:Hb; [|done].
  destruct (storeUnixNano (cred_NotAfter _)) as [a|] eqn:Ha; [|done]. intros [= <- <-].
  apply storeUnixNano_range in Hb as [Hb Eb], Ha as [Ha Ea].
  unfold After, unix_time in *. conditions. destruct_and!. split_and!; try assumption; try lia;
    intros E; rewrite E in *; done.
Qed.

Lemma node_replay_fresh db nodeID :
  controller_wf db -> enrolled_nodes db !! nodeID = None ->
  forall id r, enrollment_replays db !! id = Some r -> er_node_id r <> nodeID.
Proof.
  intros Hwf Hnew id r Hr E. destruct (cwf_replays _ Hwf _ _ Hr) as (_ & _ & _ & _ & _ & _ & (n & Hn & _)).
  congruence.
Qed.

Lemma consumeEnrollment_ok supplied node before after db revision db' :
  run (consumeEnrollment supplied node before after) db = (Ok revision, db') ->
  (exists row, enrollment_tokens db !! token_ID supplied = Some row /\
     tk_controller_epoch row = token_Epoch supplied /\ tk_secret_digest row = token_SecretDigest supplied) /\
  enrolled_nodes db !! nr_NodeID node = None /\ enrollment_replays db !! token_ID supplied = None /\
  cred_Epoch (nr_Credential node) <= max_int64 /\
  management_revision db < max_int64 /\ revision = management_revision db + 1 /\
  node_check (nr_NodeID node) (mkNodeRow (cred_Serial (nr_Credential node))
    (cred_Epoch (nr_Credential node)) before after false) = true /\
  length (nr_PublicKeyDigest node) = 32%nat /\
  db' = consumed_db supplied node before after db.
Proof.
  unfold consumeEnrollment. intros E. step in E as ([digest epoch] & db1 & Hq & E).
  apply run_query_ok in Hq as [Hq <-].
  destruct (enrollment_tokens db !! token_ID supplied) as [trow|] eqn:Ht; [|done]. injection Hq as <- <-.
  destruct (bool_decide (_ = token_Epoch supplied)) eqn:He; simpl in E; [|by apply run_throw_ok in E].
  destruct (bool_decide (_ = token_SecretDigest supplied)) eqn:Hd; simpl in E; [|by apply run_throw_ok in E].
  apply bool_decide_eq_true in He, Hd.
  step in E as (u & db1 & Hnode & E). apply run_mapping_error_ok, run_exec_ok in Hnode. simpl in Hnode.
  destruct (uint64_arg _) as [ep|] eqn:Hep; [|done]. apply uint64_arg_Ok in Hep as [-> Hep].
  destruct (insert_row (node_check _ _) _ _ _) as [nodes|] eqn:Hn; [|done].
  apply insert_row_ok in Hn as (Hck & Hnew & ->).
  destruct (insert_row _ _ _ (node_administrative_states db)) as [states|] eqn:Hs; [|done].
  apply insert_row_ok in Hs as (_ & _ & ->).
  destruct (insert_row _ _ _ (management_node_configurations db)) as [cfgs|] eqn:Hcf; [|done].
  apply insert_row_ok in Hcf as (_ & _ & ->). injection Hnode as <-.
  step in E as (rev & db2 & Hrev & E). apply readManagementRevision_ok in Hrev as (-> & -> & _). simpl in E.
  unfold maxSQLiteInteger in E. destruct (Z.geb_spec (management_revision db) max_int64); [by apply run_throw_ok in E|].
  step in E as ([] & db3 & Hup & E). apply updateManagementRevision_ok in Hup as (_ & _ & ->).
  step in E as (v & db4 & Hrep & E). apply run_mapping_error_ok, run_exec_ok in Hrep. simpl in Hrep.
  destruct (insert_row _ _ _ (enrollment_replays db)) as [reps|] eqn:Hr; [|done].
  apply insert_row_ok in Hr as (Hrc & Hrnew & ->). injection Hrep as <-.
  step in E as (n & db5 & Hdel & E). apply delete_token_ok in Hdel as [(-> & _ & ->)|(-> & _ & ->)];
    [|by apply run_throw_ok in E]. simpl in E. apply run_ret_ok in E as [<- <-].
  assert (length (nr_PublicKeyDigest node) = 32%nat) by (clear -Hrc; rewrite !andb_true_iff, Nat.eqb_eq in Hrc; tauto).
  split; [by exists trow|]. do 2 (split; [assumption|]). split; [exact Hep|]. split; [assumption|].
  split; [reflexivity|]. split; [exact Hck|]. split; [assumption|reflexivity].
Qed.

Lemma consumed_wf supplied node before after db :
  controller_wf db -> validateEnrollmentInput supplied node = Ok (before, after) ->
  (exists row, enrollment_tokens db !! token_ID supplied = Some row /\
     tk_secret_digest row = token_SecretDigest supplied) ->
  enrolled_nodes db !! nr_NodeID node = None -> enrollment_replays db !! token_ID supplied = None ->
  cred_Epoch (nr_Credential node) <= max_int64 -> management_revision db < max_int64 ->
  node_check (nr_NodeID node) (mkNodeRow (cred_Serial (nr_Credential node))
    (cred_Epoch (nr_Credential node)) before after false) = true ->
  length (nr_PublicKeyDigest node) = 32%nat -> 0 < token_Epoch supplied ->
  controller_wf (consumed_db supplied node before after db).
Proof.
  intros Hwf Hv (trow & Htok & Hsec) Hnew Hrnew Hep Hrev Hck Hpk Hte.
  apply validateEnrollmentInput_Ok in Hv as (_ & Htm & _ & _ & _ & _ & _ & _ & _ & Hc & Hca & _ & _ & [Hb Hab] & Ha).
  destruct (cwf_tokens _ Hwf _ _ Htok) as (Hid & Hs & _). rewrite Hsec in Hs.
  set (row := mkNodeRow _ _ _ _ _) in *.
  assert (H1 : controller_wf (with_node_configurations
    (<[nr_NodeID node := mkNodeConfiguration (nr_NodeID node) (nr_NodeID node) 1]> (management_node_configurations db))
    (with_states (<[nr_NodeID node := NodeActive]> (node_administrative_states db))
      (with_nodes (<[nr_NodeID node := row]> (enrolled_nodes db)) db)))).
  { apply keep_enrolled; [done| |done|done]. exact (conj Hck (conj Hep (conj Hb Ha))). }
  unfold consumed_db. apply keep_tokens; [|by apply map_Forall_delete; apply (cwf_tokens _ Hwf)].
  match goal with |- controller_wf (with_replays _ ?d) => apply (keep_replay d) end.
  - apply (keep_revision _ (management_revision db + 1) H1). simpl. lia.
  - split; [exact Hid|]. split; [exact Hs|]. split; [exact (conj Hte Htm)|]. split; [exact Hpk|].
    split; [exact Hc|]. split; [exact Hca|]. exists row. simpl. by rewrite lookup_insert_eq.
  - exact Hrnew.
  - simpl. by apply node_replay_fresh.
Qed.

(** The effect of a revocation. *)
Definition revoked_db (nodeID : string) (row : NodeRow) (replays : gmap bytes ReplayRow) (db : ControllerDB)
    : ControllerDB :=
  with_replays replays
    (with_states (alter (fun _ => NodeRevoked) nodeID (node_administrative_states db))
      (with_nodes (<[nodeID := mkNodeRow (en_current_serial row) (en_credential_epoch row + 1)
        (en_not_before_unix_nano row) (en_not_after_unix_nano row) true]> (enrolled_nodes db)) db)).
Definition other_replays (nodeID : string) (db : ControllerDB) : gmap bytes ReplayRow :=
  filter (fun '(_, r) => er_node_id r <> nodeID) (enrollment_replays db).

Lemma node_epoch_pos db nodeID row :
  controller_wf db -> enrolled_nodes db !! nodeID = Some row -> 0 < en_credential_epoch row <= max_int64.
Proof.
  intros Hwf Hrow. destruct (cwf_nodes _ Hwf _ _ Hrow) as (Hc & Hm & _). unfold node_check in Hc.
  rewrite !andb_true_iff, Z.ltb_lt in Hc. destruct Hc as [[_ Hc] _]. exact (conj Hc Hm).
Qed.
Lemma revoked_wf db nodeID row t :
  controller_wf db -> enrolled_nodes db !! nodeID = Some row -> en_revoked row = false ->
  en_credential_epoch row < max_int64 -> t ⊆ enrollment_replays db ->
  (forall id r, t !! id = Some r -> er_node_id r <> nodeID) ->
  controller_wf (revoked_db nodeID row t db).
Proof.
  intros Hwf Hrow Hr Hmax Ht Hgone. pose proof (node_epoch_pos _ _ _ Hwf Hrow). apply keep_revoked; try done. lia.
Qed.
Lemma other_replays_sub nodeID db : other_replays nodeID db ⊆ enrollment_replays db.
Proof. apply map_filter_subseteq. Qed.
Lemma other_replays_gone nodeID db id r : other_replays nodeID db !! id = Some r -> er_node_id r <> nodeID.
Proof. unfold other_replays. by intros [_ H]%map_lookup_filter_Some. Qed.

Lemma revoke_step nodeID n db db' row :
  enrolled_nodes db !! nodeID = Some row ->
  run (revoke_enrolled_node nodeID (en_credential_epoch row + 1)) db = (Ok n, db') -> n = 1 ->
  en_revoked row = false /\ db' = revoked_db nodeID row (enrollment_replays db) db.
Proof.
  intros Hrow E Hn. apply revoke_enrolled_node_ok in E as [(_ & row' & Hrow' & Hr & _ & ->) | ->]; [|done].
  rewrite Hrow in Hrow'. injection Hrow' as <-. split; [done|]. by destruct db.
Qed.

Lemma RevokeNode_ok s nodeID db c previous db' :
  run (ControllerStore_RevokeNode s nodeID) db = (Ok (c, previous), db') ->
  exists row, enrolled_nodes db !! nodeID = Some row /\ en_revoked row = false /\
    en_credential_epoch row < max_int64 /\ previous = row_credential nodeID row /\
    c = mkCredential nodeID (en_current_serial row) (en_credential_epoch row + 1)
      (cred_NotBefore previous) (cred_NotAfter previous) /\
    db' = revoked_db nodeID row (other_replays nodeID db) db.
Proof.
  unfold ControllerStore_RevokeNode. rewrite run_require_bind. destruct (requireReady _); [done|].
  intros (end_ & db1 & E & Hend)%run_in_tx_recovering_ok; [|apply _].
  step in E as ([prev r] & db2 & Hc & E). apply readCredential_ok in Hc as (-> & row & Hrow & -> & ->).
  simpl in E. unfold maxSQLiteInteger in E.
  destruct (Z.geb_spec (en_credential_epoch row) max_int64); [by apply run_throw_ok in E|].
  step in E as (n & db3 & Hrev & E). destruct (decide (n = 1)) as [Hn|Hn].
  2: { rewrite bool_decide_eq_false_2 in E by done. by apply run_throw_ok in E. }
  destruct (revoke_step _ _ _ _ _ Hrow Hrev Hn) as [Hr ->].
  rewrite bool_decide_eq_true_2 in E by done. simpl in E.
  step in E as (u & db4 & Hdel & E). apply run_exec_ok in Hdel. injection Hdel as <-.
  apply run_ret_ok in E as [<- <-]. destruct Hend as [[[= <- <-] <-]|[[=] _]].
  exists row. repeat (split; [done|]). by destruct db.
Qed.

Lemma CancelToken_ok s tokenID db revoked db' :
  run (ControllerStore_CancelToken s tokenID) db = (Ok revoked, db') ->
  (revoked = None /\ is_Some (enrollment_tokens db !! tokenID) /\
   db' = with_tokens (delete tokenID (enrollment_tokens db)) db) \/
  (enrollment_tokens db !! tokenID = None /\
   exists r row, enrollment_replays db !! tokenID = Some r /\
     enrolled_nodes db !! er_node_id r = Some row /\ en_revoked row = false /\
     en_credential_epoch row < max_int64 /\ revoked = Some (row_credential (er_node_id r) row) /\
     db' = revoked_db (er_node_id r) row (delete tokenID (enrollment_replays db)) db).
Proof.
  unfold ControllerStore_CancelToken. rewrite run_require_bind. destruct (requireReady _); [done|].
  intros (end_ & db1 & E & Hend)%run_in_tx_recovering_ok; [|apply _].
  step in E as (out & db2 & Hc & E). apply run_ret_ok in E as [<- <-].
  destruct Hend as [[[= <-] <-]|[[=] _]]. unfold cancelEnrollmentToken in Hc.
  step in Hc as (n & db3 & Hdel & E). apply delete_token_ok in Hdel as [(-> & [trow Ht] & ->)|(-> & Hnone & ->)].
  { simpl in E. apply run_ret_ok in E as [<- <-]. left. rewrite Ht. eauto. }
  right. split; [done|]. simpl in E. step in E as (nodeID & db4 & Hq & E). apply run_query_ok in Hq as [Hq <-].
  destruct (enrollment_replays db !! tokenID) as [r|]; [|done].
  destruct (enrolled_nodes db !! er_node_id r) as [row|] eqn:Hrow; [|done]. injection Hq as <-.
  step in E as ([c b] & db5 & Hc & E). apply readCredential_ok in Hc as (-> & row' & Hrow' & -> & ->).
  rewrite Hrow in Hrow'. injection Hrow' as <-. simpl in E. unfold maxSQLiteInteger in E.
  destruct (en_revoked row) eqn:Hr; [by apply run_throw_ok in E|].
  destruct (Z.geb_spec (en_credential_epoch row) max_int64); [by apply run_throw_ok in E|]. simpl in E.
  step in E as (n & db6 & Hrev & E). destruct (decide (n = 1)) as [Hn|Hn].
  2: { rewrite bool_decide_eq_false_2 in E by done. by apply run_throw_ok in E. }
  destruct (revoke_step _ _ _ _ _ Hrow Hrev Hn) as [_ ->].
  rewrite bool_decide_eq_true_2 in E by done. simpl in E.
  step in E as (u & db7 & Hdel & E). apply run_exec_ok in Hdel. injection Hdel as <-.
  apply run_ret_ok in E as [<- <-]. exists r, row. repeat (split; [done|]). by destruct db.
Qed.

Lemma RenewCredential_ok s nodeID expected replacement now db db' :
  run (ControllerStore_RenewCredential s nodeID expected replacement now) db = (Ok tt, db') ->
  exists row before after, enrolled_nodes db !! nodeID = Some row /\ en_revoked row = false /\
    row_credential nodeID row = expected /\ cred_NotBefore expected <= now < cred_NotAfter expected /\
    cred_NodeID replacement = nodeID /\ cred_Epoch replacement = cred_Epoch expected /\
    cred_Serial replacement <> cred_Serial expected /\
    cred_NotBefore replacement = unix_time before /\ cred_NotAfter replacement = unix_time after /\
    0 < before /\ after <= max_int64 /\ cred_Epoch replacement <= max_int64 /\
    let row' := mkNodeRow (cred_Serial replacement) (cred_Epoch replacement) before after (en_revoked row) in
    node_check nodeID row' = true /\ db' = with_nodes (<[nodeID := row']> (enrolled_nodes db)) db.
Proof.
  unfold ControllerStore_RenewCredential. rewrite run_require_bind. destruct (requireReady _); [done|].
  destruct (_ || _) eqn:Hc; [by intros []%run_throw_ok|]. rewrite run_lift_bind.
  destruct (enrollmentTimes replacement) as [[before after]|] eqn:Htimes; [|done].
  intros (end_ & db1 & E & Hend)%run_in_tx_recovering_ok; [|apply _].
  step in E as ([cur r] & db2 & Hcred & E). apply readCredential_ok in Hcred as (-> & row & Hrow & -> & ->).
  next_condition E Hc2; [by apply run_throw_ok in E|].
  step in E as (n & db3 & Hup & E). destruct (decide (n = 1)) as [Hn|Hn].
  2: { rewrite bool_decide_eq_false_2 in E by done. by apply run_throw_ok in E. }
  rewrite bool_decide_eq_true_2 in E by done. simpl in E. apply run_ret_ok in E as [<- <-].
  destruct Hend as [[_ <-]|[[=] _]]. apply run_statement_ok in Hup.
  destruct (uint64_arg _) as [ep|] eqn:Hep; [|done]. apply uint64_arg_Ok in Hep as [-> Hep].
  rewrite Hrow in Hup. cbv zeta in Hup. next_condition Hup Hck; [|done]. injection Hup as _ <-.
  unfold enrollmentTimes in Htimes. next_condition Htimes Hc3; [done|].
  destruct (storeUnixNano _) as [b|] eqn:Hb; [|done].
  destruct (storeUnixNano (cred_NotAfter _)) as [a|] eqn:Ha; [|done]. injection Htimes as <- <-.
  apply storeUnixNano_range in Hb as [[Hb _] Eb], Ha as [[_ Ha] Ea].
  unfold equalCredential, Before in Hc2. conditions. destruct_and!. exists row, b, a.
  split; [exact Hrow|]. split; [assumption|].
  split; [destruct expected; unfold row_credential in *; simpl in *; congruence|].
  split; [split; assumption|]. repeat (split; [assumption|]). reflexivity.
Qed.

(** ** Audited changes *)

#[export] Instance updateNodeAdministrativeState_follows id a b : Follows (updateNodeAdministrativeState id a b).
Proof. unfold updateNodeAdministrativeState. apply _. Qed.
#[export] Instance change_node_state_follows id n c r : Follows (change_node_state id n c r).
Proof. unfold change_node_state. apply _. Qed.

(** The database with one more event, of the current revision. *)
Definition appended (t : Z) (a : AuditRecord) (db : ControllerDB) : ControllerDB :=
  with_audit (management_audit_events db ++
    [mkAuditEvent (next_audit_sequence db) t (management_revision db) a]) db.
(** The change from [db] to [mid] was committed with its evidence, on a healthy
    trail. *)
Definition audited_change (s : ControllerStore) (a : AuditRecord) (db mid db' : ControllerDB) : Prop :=
  exists t, storeUnixNano (store_now (cs_base s)) = Ok t /\ validateAuditRecord a = None /\
    next_audit_sequence mid <= max_int64 /\ ManagementAuditHealthy s = true /\
    audit_gate_healthy s = true /\ management_audit_events mid = management_audit_events db /\
    db' = appended t a mid.

Lemma audited_wf s a db mid db' : controller_wf mid -> audited_change s a db mid db' -> controller_wf db'.
Proof.
  intros Hwf (t & Ht & Ha & Hn & _ & _ & _ & ->). apply storeUnixNano_range in Ht as [[Ht _] _].
  by apply keep_append.
Qed.
Lemma audited_at_ok s db t db' :
  run (audited_at s) db = (Ok t, db') ->
  db' = db /\ ManagementAuditHealthy s = true /\ storeUnixNano (store_now (cs_base s)) = Ok t.
Proof.
  unfold audited_at. destruct (ManagementAuditHealthy s); simpl; [|by intros []%run_throw_ok].
  by intros [H <-]%run_lift_ok.
Qed.
(** The last step of an audited transaction. *)
Lemma evidence_change s a t db mid db' :
  run (record_evidence t (management_revision mid) a) mid = (Ok tt, db') ->
  ManagementAuditHealthy s = true -> audit_gate_healthy s = true ->
  storeUnixNano (store_now (cs_base s)) = Ok t ->
  management_audit_events mid = management_audit_events db -> audited_change s a db mid db'.
Proof. intros (Hv & Hm & ->)%record_evidence_ok Hh Hg Ht He. exists t. simpl in Hm. by repeat (split; [assumption|]). Qed.

Lemma CreateTokenWithAudit_ok s token audit db db' :
  run (CreateTokenWithAudit s token audit) db = (Ok tt, db') ->
  let row := mkTokenRow (token_SecretDigest token) (token_Epoch token) in
  token_wf (token_ID token) row /\ enrollment_tokens db !! token_ID token = None /\
  audited_change s audit db (with_tokens (<[token_ID token := row]> (enrollment_tokens db)) db) db'.
Proof.
  unfold CreateTokenWithAudit. rewrite run_require_bind. destruct (validateExactManagementAudit _ _ _ _); [done|].
  intros E. step in E as (t & db1 & Hat & E). apply audited_at_ok in Hat as (-> & Hh & Ht).
  rewrite run_require_bind in E. destruct (requireReady _); [done|]. apply run_commit_ok in E as [Hg E]; [|apply _].
  step in E as ([] & db2 & Hc & E). apply createEnrollmentToken_ok in Hc as (_ & Hw & Hnew & ->).
  step in E as (rev & db3 & Hr & E). apply readManagementRevision_ok in Hr as (-> & -> & _).
  split; [exact Hw|]. split; [exact Hnew|]. by eapply evidence_change.
Qed.
Lemma CancelTokenWithAudit_ok s tokenID audit db db' :
  run (CancelTokenWithAudit s tokenID audit) db = (Ok tt, db') ->
  is_Some (enrollment_tokens db !! tokenID) /\
  audited_change s audit db (with_tokens (delete tokenID (enrollment_tokens db)) db) db'.
Proof.
  unfold CancelTokenWithAudit. rewrite run_require_bind. destruct (validateExactManagementAudit _ _ _ _); [done|].
  intros E. step in E as (t & db1 & Hat & E). apply audited_at_ok in Hat as (-> & Hh & Ht).
  rewrite run_require_bind in E. destruct (requireReady _); [done|]. apply run_commit_ok in E as [Hg E]; [|apply _].
  step in E as (n & db2 & Hdel & E).
  apply delete_token_ok in Hdel as [(-> & [row Hrow] & ->)|(-> & _ & ->)]; [|by apply run_throw_ok in E].
  simpl in E. step in E as (rev & db3 & Hr & E). apply readManagementRevision_ok in Hr as (-> & -> & _).
  split; [by rewrite Hrow|]. by eapply evidence_change.
Qed.
Lemma ConsumeEnrollmentWithAudit_ok s supplied node audit db db' :
  run (ConsumeEnrollmentWithAudit s supplied node audit) db = (Ok tt, db') ->
  exists before after revision,
    validateEnrollmentInput supplied node = Ok (before, after) /\
    run (consumeEnrollment supplied node before after) db = (Ok revision, consumed_db supplied node before after db) /\
    audited_change s audit db (consumed_db supplied node before after db) db'.
Proof.
  unfold ConsumeEnrollmentWithAudit. rewrite run_require_bind. destruct (requireReady _); [done|].
  rewrite run_lift_bind. destruct (validateEnrollmentInput supplied node) as [[before after]|] eqn:Hv; [|done].
  rewrite run_require_bind. destruct (validateExactAudit _ _ _ _ _); [done|].
  intros E. step in E as (t & db1 & Hat & E). apply audited_at_ok in Hat as (-> & Hh & Ht).
  apply run_commit_ok in E as [Hg E]; [|apply _]. step in E as (rev & db2 & Hc & E). pose proof Hc as Hc'.
  apply consumeEnrollment_ok in Hc' as (_ & _ & _ & _ & _ & -> & _ & _ & ->).
  exists before, after, (management_revision db + 1). split; [done|]. split; [done|].
  by eapply evidence_change.
Qed.
Lemma AppendAuditEvent_ok s record db event db' :
  run (AppendAuditEvent s record) db = (Ok event, db') ->
  audited_change s record db db db' /\ last (management_audit_events db') = Some event.
Proof.
  unfold AppendAuditEvent. rewrite !run_require_bind. destruct (requireReady _); [done|].
  destruct (validateAuditRecord record); [done|].
  destruct (ManagementAuditHealthy s) eqn:Hh; simpl; [|by intros []%run_throw_ok].
  intros E. step in E as (t & db1 & Ht & E). apply run_degrading_ok, run_lift_ok in Ht as [Ht <-].
  apply run_mapping_error_ok, run_commit_ok in E as [Hg E]; [|apply _].
  step in E as (rev & db2 & Hr & E). apply run_degrading_ok, readManagementRevision_ok in Hr as (-> & -> & _).
  apply run_degrading_ok, insertAuditEvent_ok in E as (Hv & Hm & -> & ->). split.
  - exists t. simpl in Hm. by repeat (split; [assumption|]).
  - simpl. by rewrite last_snoc.
Qed.

Lemma updateNodeAdministrativeState_ok nodeID current next db db' :
  run (updateNodeAdministrativeState nodeID current next) db = (Ok tt, db') ->
  node_administrative_states db !! nodeID = Some current /\
  db' = with_states (<[nodeID := next]> (node_administrative_states db)) db.
Proof.
  unfold updateNodeAdministrativeState. intros E. step in E as (n & db1 & Hup & E). apply run_statement_ok in Hup.
  destruct (bool_decide (node_administrative_states db !! nodeID = Some current)) eqn:Hst.
  - apply bool_decide_eq_true in Hst. next_condition Hup Hn; [|done]. injection Hup as <- <-. simpl in E.
    apply run_ret_ok in E as [_ <-]. done.
  - injection Hup as <- <-. by apply run_throw_ok in E.
Qed.

(** The states a node moves between. *)
Definition node_moved (nodeID next : string) (db mid : ControllerDB) (ended : option Credential) : Prop :=
  exists row current, enrolled_nodes db !! nodeID = Some row /\ en_revoked row = false /\
    node_administrative_states db !! nodeID = Some current /\
    ((next = NodeActive /\ current = NodeDraining \/ next = NodeDraining /\ current = NodeActive) /\
       ended = None /\ mid = with_states (<[nodeID := next]> (node_administrative_states db)) db \/
     next = NodeRevoked /\ en_credential_epoch row < max_int64 /\ ended = Some (row_credential nodeID row) /\
       mid = revoked_db nodeID row (other_replays nodeID db) db).

Lemma change_node_state_ok nodeID next current row ended db mid :
  enrolled_nodes db !! nodeID = Some row -> node_administrative_states db !! nodeID = Some current ->
  run (change_node_state nodeID next current (en_revoked row)) db = (Ok ended, mid) ->
  node_moved nodeID next db mid ended.
Proof.
  unfold change_node_state. intros Hrow Hst E. exists row, current. split; [exact Hrow|].
  destruct (bool_decide (next = NodeActive)) eqn:H1; [apply bool_decide_eq_true in H1 as ->|].
  { next_condition E Hc; [by apply run_throw_ok in E|]. conditions. destruct Hc as [Hc Hr].
    step in E as ([] & db1 & Hup & E). apply run_ret_ok in E as [<- <-].
    apply updateNodeAdministrativeState_ok in Hup as [_ ->]. naive_solver. }
  destruct (bool_decide (next = NodeDraining)) eqn:H2; [apply bool_decide_eq_true in H2 as ->|].
  { next_condition E Hc; [by apply run_throw_ok in E|]. conditions. destruct Hc as [Hc Hr].
    step in E as ([] & db1 & Hup & E). apply run_ret_ok in E as [<- <-].
    apply updateNodeAdministrativeState_ok in Hup as [_ ->]. naive_solver. }
  destruct (bool_decide (next = NodeRevoked)) eqn:H3; [apply bool_decide_eq_true in H3 as ->|by apply run_throw_ok in E].
  next_condition E Hc; [by apply run_throw_ok in E|]. conditions. destruct Hc as [Hr _].
  step in E as ([c b] & db1 & Hc & E). apply readCredential_ok in Hc as (-> & row' & Hrow' & -> & ->).
  rewrite Hrow in Hrow'. injection Hrow' as <-. simpl in E. unfold maxSQLiteInteger in E.
  destruct (Z.geb_spec (en_credential_epoch row) max_int64); [by apply run_throw_ok in E|].
  step in E as (n & db3 & Hrev & E). destruct (decide (n = 1)) as [Hn|Hn].
  2: { rewrite bool_decide_eq_false_2 in E by done. by apply run_throw_ok in E. }
  destruct (revoke_step _ _ _ _ _ Hrow Hrev Hn) as [_ ->].
  rewrite bool_decide_eq_true_2 in E by done. simpl in E.
  step in E as (u & db4 & Hdel & E). apply run_exec_ok in Hdel. injection Hdel as <-.
  apply run_ret_ok in E as [<- <-]. split; [exact Hr|]. split; [exact Hst|]. right.
  repeat (split; [done|]). by destruct db.
Qed.
Lemma node_moved_wf nodeID next db mid ended :
  controller_wf db -> node_moved nodeID next db mid ended -> controller_wf mid.
Proof.
  intros Hwf (row & current & Hrow & Hr & Hst & [(Hn & _ & ->)|(-> & Hmax & _ & ->)]).
  - eapply keep_state; try done. set_solver.
  - apply revoked_wf; try done; [apply other_replays_sub|apply other_replays_gone].
Qed.

Lemma SetNodeAdministrativeStateWithAudit_ok s nodeID next expected audit db revision ended db' :
  run (SetNodeAdministrativeStateWithAudit s nodeID next expected audit) db = (Ok (revision, ended), db') ->
  management_revision db = expected /\ revision = expected + 1 /\ expected < max_int64 /\
  exists mid, node_moved nodeID next db mid ended /\
    audited_change s audit db (with_state revision (management_fleet_max mid) mid) db'.
Proof.
  unfold SetNodeAdministrativeStateWithAudit. rewrite run_require_bind. destruct (requireReady _); [done|].
  destruct (_ || _); [by intros []%run_throw_ok|]. rewrite run_lift_bind.
  destruct (nodeAdministrativeAuditAction next) as [action|]; [|done].
  rewrite run_require_bind. destruct (validateExactManagementAudit _ _ _ _); [done|].
  intros E. step in E as (t & db1 & Hat & E). apply audited_at_ok in Hat as (-> & Hh & Ht).
  apply run_commit_ok in E as [Hg E]; [|apply _].
  step in E as (rev & db2 & Hr & E). apply readManagementRevision_ok in Hr as (-> & -> & Hmax).
  destruct (bool_decide (management_revision db = expected)) eqn:He; simpl in E; [|by apply run_throw_ok in E].
  apply bool_decide_eq_true in He. unfold maxSQLiteInteger in E.
  destruct (Z.eqb_spec (management_revision db) max_int64) as [|Hne]; [by apply run_throw_ok in E|].
  step in E as ([current revoked] & db3 & Hq & E). apply run_query_ok in Hq as [Hq <-].
  destruct (enrolled_nodes db !! nodeID) as [row|] eqn:Hrow; [|done].
  destruct (node_administrative_states db !! nodeID) as [st|] eqn:Hst; [|done]. injection Hq as <- <-.
  rewrite run_require_bind in E. destruct (NodeAdministrativeState_Validate _ _); [done|]. simpl in E.
  next_condition E Hc; [by apply run_throw_ok in E|].
  step in E as (out & mid & Hch & E). pose proof (change_node_state_ok _ _ _ _ _ _ _ Hrow Hst Hch) as Hmoved.
  assert (Hsame : management_revision mid = management_revision db /\
    management_audit_events mid = management_audit_events db).
  { destruct Hmoved as (? & ? & _ & _ & _ & [(_ & _ & ->)|(_ & _ & _ & ->)]); done. }
  step in E as ([] & db4 & Hup & E). apply updateManagementRevision_ok in Hup as (_ & _ & ->).
  step in E as ([] & db5 & Hev & E). apply run_ret_ok in E as [[= <- <-] <-].
  subst expected. split; [done|]. split; [done|]. split; [lia|]. exists mid. split; [exact Hmoved|].
  eapply (evidence_change _ _ t db (with_state (management_revision db + 1) (management_fleet_max mid) mid)); try done.
  simpl. by destruct Hsame.
Qed.

Lemma CreateToken_ok s token db db' :
  run (ControllerStore_CreateToken s token) db = (Ok tt, db') ->
  run (createEnrollmentToken token) db = (Ok tt, db').
Proof.
  unfold ControllerStore_CreateToken. rewrite run_require_bind. destruct (requireReady _); [done|].
  intros (end_ & db1 & E & Hend)%run_in_tx_recovering_ok; [|apply _].
  step in E as ([] & db2 & Hc & E). apply run_ret_ok in E as [<- <-]. by destruct Hend as [[_ <-]|[[=] _]].
Qed.
Lemma ConsumeEnrollment_ok s supplied node db db' :
  run (ControllerStore_ConsumeEnrollment s supplied node) db = (Ok tt, db') ->
  exists before after revision, validateEnrollmentInput supplied node = Ok (before, after) /\
    run (consumeEnrollment supplied node before after) db = (Ok revision, db').
Proof.
  unfold ControllerStore_ConsumeEnrollment. rewrite run_require_bind. destruct (requireReady _); [done|].
  rewrite run_lift_bind. destruct (validateEnrollmentInput supplied node) as [[before after]|]; [|done].
  intros (end_ & db1 & E & Hend)%run_in_tx_recovering_ok; [|apply _].
  step in E as (rev & db2 & Hc & E). apply run_ret_ok in E as [<- <-]. destruct Hend as [[_ <-]|[[=] _]]. eauto.
Qed.
Lemma consumeEnrollment_wf supplied node before after revision db db' :
  controller_wf db -> validateEnrollmentInput supplied node = Ok (before, after) ->
  run (consumeEnrollment supplied node before after) db = (Ok revision, db') -> controller_wf db'.
Proof.
  intros Hwf Hv (( row & Ht & He & Hs) & Hnew & Hrnew & Hep & Hrev & _ & Hck & Hpk & ->)%consumeEnrollment_ok.
  apply consumed_wf; try assumption; [eauto|].
  destruct (cwf_tokens _ Hwf _ _ Ht) as (_ & _ & [Hpos _]). by rewrite He in Hpos.
Qed.
#[export] Instance AuthorizeCredential_follows s c now : Follows (ControllerStore_AuthorizeCredential s c now).
Proof. unfold ControllerStore_AuthorizeCredential. apply _. Qed.
#[export] Instance AuthorizeCredential_read_only s c now : ReadOnly (ControllerStore_AuthorizeCredential s c now).
Proof. unfold ControllerStore_AuthorizeCredential. apply _. Qed.
Lemma FinalizeEnrollment_ok s credential db db' :
  run (ControllerStore_FinalizeEnrollment s credential) db = (Ok tt, db') ->
  run (ControllerStore_AuthorizeCredential s credential (store_now (cs_base s))) db = (Ok tt, db) /\
  db' = with_replays (other_replays (cred_NodeID credential) db) db.
Proof.
  unfold ControllerStore_FinalizeEnrollment. rewrite run_require_bind. destruct (requireReady _) eqn:Hr; [done|].
  intros E. step in E as ([] & db1 & Ha & E).
  pose proof (run_read_only (ControllerStore_AuthorizeCredential s credential (store_now (cs_base s))) db _) as Hro.
  rewrite Ha in Hro. simpl in Hro. subst db1. split; [done|]. apply run_exec_ok in E. by injection E as <-.
Qed.
Lemma AdvanceEpoch_ok s db n db' :
  run (AdvanceEpoch s) db = (Ok n, db') ->
  exists raw, readUintMetadata (store_metadata db) "controller_epoch" = Ok raw /\ n = raw + 1 /\
    0 < n <= max_int64 /\
    db' = with_metadata (update_metadata "controller_epoch" n (store_metadata db))
      (with_tokens (if raw >? 0 then ∅ else enrollment_tokens db) db).
Proof.
  unfold AdvanceEpoch. rewrite run_require_bind. destruct (requireReady _); [done|].
  intros (end_ & db1 & E & Hend)%run_in_tx_recovering_ok; [|apply _].
  step in E as (raw & db2 & Hq & E). apply run_query_ok in Hq as [Hq <-]. rewrite run_lift_bind in E.
  destruct (NextControllerEpoch raw) as [next|] eqn:Hn; [|done]. unfold maxSQLiteInteger in E.
  pose proof (readUintMetadata_range _ _ _ Hq) as Hrange.
  assert (next = raw + 1) as ->.
  { revert Hn. unfold NextControllerEpoch. case_bool_decide; [done|]. intros [= <-].
    apply wrap_uint64_small. lia. }
  destruct (Z.gtb_spec (raw + 1) max_int64) as [|Hmax]; [by apply run_throw_ok in E|].
  step in E as (u & db3 & Hdel & E). step in E as (v & db4 & Hup & E).
  apply run_ret_ok in E as [<- <-]. apply run_exec_ok in Hup. injection Hup as <-.
  destruct Hend as [[[= <-] <-]|[[=] _]]. exists raw. split; [done|]. split; [done|]. split; [lia|].
  destruct (raw >? 0).
  - apply run_exec_ok in Hdel. by injection Hdel as <-.
  - apply run_ret_ok in Hdel as [_ <-]. by destruct db.
Qed.

(** ** The configuration *)

#[export] Instance read_table_follows {A} table (validate : A -> error) : Follows (read_table table validate).
Proof. unfold read_table. apply _. Qed.
#[export] Instance read_table_read_only {A} table (validate : A -> error) : ReadOnly (read_table table validate).
Proof. unfold read_table. apply _. Qed.
#[export] Instance requireExactEnrolledNodes_follows l : Follows (requireExactEnrolledNodes l).
Proof. unfold requireExactEnrolledNodes. apply _. Qed.
#[export] Instance requireExactEnrolledNodes_read_only l : ReadOnly (requireExactEnrolledNodes l).
Proof. unfold requireExactEnrolledNodes. apply _. Qed.
#[export] Instance readManagementConfiguration_follows : Follows readManagementConfiguration.
Proof. unfold readManagementConfiguration. apply _. Qed.
#[export] Instance readManagementConfiguration_read_only : ReadOnly readManagementConfiguration.
Proof. unfold readManagementConfiguration. apply _. Qed.
#[export] Instance require_inactive_follows t n x : Follows (require_inactive t n x).
Proof. unfold require_inactive, managementTargetHasActiveAuthority. apply _. Qed.
#[export] Instance require_inactive_read_only t n x : ReadOnly (require_inactive t n x).
Proof. unfold require_inactive, managementTargetHasActiveAuthority. apply _. Qed.
#[export] Instance reservations_fit_follows c : Follows (reservations_fit c).
Proof. unfold reservations_fit. apply _. Qed.
#[export] Instance reservations_fit_read_only c : ReadOnly (reservations_fit c).
Proof. unfold reservations_fit. apply _. Qed.
#[export] Instance validateActive_follows c n : Follows (validateActiveManagementTransition c n).
Proof. unfold validateActiveManagementTransition. apply _. Qed.
#[export] Instance validateActive_read_only c n : ReadOnly (validateActiveManagementTransition c n).
Proof. unfold validateActiveManagementTransition. apply _. Qed.
#[export] Instance nextRevisions_follows c n : Follows (nextRuntimeProfileRevisions c n).
Proof. unfold nextRuntimeProfileRevisions. apply _. Qed.
#[export] Instance delete_configuration_follows : Follows delete_configuration.
Proof. unfold delete_configuration. apply _. Qed.
#[export] Instance insert_node_configuration_follows n : Follows (insert_node_configuration n).
Proof. unfold insert_node_configuration. apply _. Qed.
#[export] Instance insert_profile_follows n : Follows (insert_profile n).
Proof. unfold insert_profile. apply _. Qed.
#[export] Instance insert_policy_follows n : Follows (insert_policy n).
Proof. unfold insert_policy. apply _. Qed.
#[export] Instance insert_target_follows n : Follows (insert_target n).
Proof. unfold insert_target. apply _. Qed.
#[export] Instance insert_binding_follows n : Follows (insert_binding n).
Proof. unfold insert_binding. apply _. Qed.
#[export] Instance replaceManagementConfiguration_follows c n : Follows (replaceManagementConfiguration c n).
Proof. unfold replaceManagementConfiguration. apply _. Qed.
#[export] Instance advance_configuration_state_follows c n : Follows (advance_configuration_state c n).
Proof. unfold advance_configuration_state. apply _. Qed.

(** Each insertion of a loop. *)
Definition fill {A} (key : A -> string) (items : list A) (m : gmap string A) : gmap string A :=
  foldl (fun m item => <[key item := item]> m) m items.

Lemma insert_nodes_ok nodes db db' :
  run (each insert_node_configuration nodes) db = (Ok tt, db') ->
  db' = with_node_configurations (fill mnc_NodeID nodes (management_node_configurations db)) db.
Proof.
  revert db. induction nodes as [|n nodes IH]; intros db E; apply each_ok in E; try apply _.
  { subst. by destruct db. }
  destruct E as (mid & Hn & E). apply run_exec_ok in Hn.
  destruct (insert_row _ _ _ _) as [t|] eqn:Ht; [|done]. injection Hn as <-.
  apply insert_row_ok in Ht as (_ & _ & ->). by rewrite (IH _ E).
Qed.
Definition policy_of (profile : ManagementRunnerProfile) (revision : Z) : RunnerProfileUpdatePolicy :=
  mkUpdatePolicy (mp_ID profile) (profile_VersionPolicy (mrp_Profile profile)) (mrp_RunnerVersion profile) revision.
Lemma insert_profiles_ok rows db db' :
  run (each (fun '(profile, revision) => insert_profile profile ;; insert_policy (policy_of profile revision)) rows) db
    = (Ok tt, db') ->
  db' = with_policies (fill rpp_ProfileID (map (fun r => policy_of r.1 r.2) rows) (runner_profile_update_policies db))
    (with_profiles (fill mp_ID (map fst rows) (management_runner_profiles db)) db).
Proof.
  revert db. induction rows as [|[p r] rows IH]; intros db E; apply each_ok in E;
    try (intros [? ?]; apply _).
  { subst. by destruct db. }
  destruct E as (mid & Hp & E). step in Hp as ([] & db1 & Hp & Hpol). apply run_exec_ok in Hp.
  destruct (uint64_arg _); [|done]. destruct (insert_row _ _ _ _) as [t|] eqn:Ht; [|done]. injection Hp as <-.
  apply insert_row_ok in Ht as (_ & _ & ->). apply run_exec_ok in Hpol.
  destruct (uint64_arg _) as [rv|] eqn:Hrv; [|done].
  destruct (insert_row _ _ _ _) as [t|] eqn:Ht; [|done]. injection Hpol as <-.
  apply insert_row_ok in Ht as (_ & _ & ->). by rewrite (IH _ E).
Qed.
Definition binding_of (target : ManagementGitHubTarget) : GitHubTargetRuntimeBinding :=
  mkBinding (mt_ID target) (mgt_ScaleSetID target) (mt_ProfileID target).
Lemma insert_targets_ok targets db db' :
  run (each (fun target => insert_target target ;; insert_binding (binding_of target)) targets) db = (Ok tt, db') ->
  db' = with_bindings (fill gtb_TargetID (map binding_of targets) (github_target_runtime_bindings db))
    (with_targets (fill mt_ID targets (management_github_targets db)) db).
Proof.
  revert db. induction targets as [|t targets IH]; intros db E; apply each_ok in E; try apply _.
  { subst. by destruct db. }
  destruct E as (mid & Hp & E). step in Hp as ([] & db1 & Hp & Hb). apply run_exec_ok in Hp. cbv zeta in Hp.
  destruct (uint64_arg _); [|done]. destruct (insert_row _ _ _ _) as [u|] eqn:Ht; [|done]. injection Hp as <-.
  apply insert_row_ok in Ht as (_ & _ & ->). apply run_exec_ok in Hb. cbv zeta in Hb.
  destruct (uint64_arg _) as [rv|] eqn:Hrv; [|done]. apply uint64_arg_Ok in Hrv as [-> _].
  destruct (insert_row _ _ _ _) as [u|] eqn:Ht; [|done]. injection Hb as <-.
  apply insert_row_ok in Ht as (_ & _ & ->). by rewrite (IH _ E).
Qed.

Lemma read_table_ok {A} table (validate : A -> error) db l db' :
  run (read_table table validate) db = (Ok l, db') ->
  db' = db /\ l = map snd (rows_by_key (table db)) /\ Forall (fun x => validate x = None) l.
Proof.
  intros [Hs <-]%run_query_ok. apply scan_rows_length in Hs. split; [done|].
  induction Hs as [|[k x] y rows items Hx _ [IH1 IH2]]; simpl in *; [done|].
  destruct (validate x) eqn:Hv; [done|]. injection Hx as <-. split; [by f_equal|]. by constructor.
Qed.
Lemma read_table_wf {A} table (validate : A -> error) db :
  map_Forall (fun _ x => validate x = None) (table db) ->
  run (read_table table validate) db = (Ok (map snd (rows_by_key (table db))), db).
Proof.
  intros Hv. unfold read_table. rewrite run_query. f_equal. apply scan_rows_ok, Forall_forall.
  intros [k x] Hin%elem_of_rows_by_key. simpl. by rewrite (Hv _ _ Hin).
Qed.
Lemma requireExactEnrolledNodes_ok nodes db db' :
  run (requireExactEnrolledNodes nodes) db = (Ok tt, db') ->
  db' = db /\ map fst (rows_by_key (enrolled_nodes db)) = sort_slice string_less (map mnc_NodeID nodes).
Proof.
  unfold requireExactEnrolledNodes. rewrite run_query_bind.
  destruct (bool_decide _) eqn:Hb; simpl; [|by intros []%run_throw_ok].
  apply bool_decide_eq_true in Hb. intros [_ <-]%run_ret_ok. done.
Qed.
Lemma requireExactEnrolledNodes_run nodes db :
  map fst (rows_by_key (enrolled_nodes db)) = sort_slice string_less (map mnc_NodeID nodes) ->
  run (requireExactEnrolledNodes nodes) db = (Ok tt, db).
Proof. intros E. unfold requireExactEnrolledNodes. rewrite run_query_bind, E. by rewrite bool_decide_eq_true_2. Qed.

Lemma readManagementConfiguration_ok db c db' :
  run readManagementConfiguration db = (Ok c, db') ->
  db' = db /\ c = stored_configuration db /\ validateManagementConfiguration c = None /\
  map fst (rows_by_key (enrolled_nodes db)) = sort_slice string_less (map mnc_NodeID (mc_Nodes c)).
Proof.
  unfold readManagementConfiguration. intros E. step in E as ([rev fleet] & db1 & Hs & E).
  apply readManagementState_ok in Hs as (-> & [= -> ->] & _).
  step in E as (ns & db1 & Hn & E). apply read_table_ok in Hn as (-> & -> & _).
  step in E as (ps & db1 & Hp & E). apply read_table_ok in Hp as (-> & -> & _).
  step in E as (ts & db1 & Ht & E). apply read_table_ok in Ht as (-> & -> & _).
  change (mkConfiguration _ _ _ _ _) with (stored_configuration db) in E. rewrite run_require_bind in E.
  destruct (validateManagementConfiguration (stored_configuration db)) eqn:Hv; [done|]. simpl in E.
  step in E as ([] & db1 & Hex & E). apply run_mapping_error_ok, requireExactEnrolledNodes_ok in Hex as [-> Hex].
  by apply run_ret_ok in E as [<- <-].
Qed.
Lemma readManagementState_wf db :
  controller_wf db -> run readManagementState db = (Ok (management_revision db, management_fleet_max db), db).
Proof.
  intros Hwf. unfold readManagementState. rewrite run_bind, run_mapping_error, run_query by apply _. simpl.
  destruct (cwf_revision _ Hwf) as [_ Hmax]. unfold maxSQLiteInteger.
  destruct (Z.gtb_spec (management_revision db) max_int64); [lia|].
  pose proof (cfg_fleet _ (cwf_configuration _ Hwf)) as Hf. unfold validateFleetMaximum, maxSQLiteInteger in Hf.
  destruct (management_fleet_max db) as [n|]; [|done]. by destruct (_ || _).
Qed.
Lemma readManagementConfiguration_wf db :
  controller_wf db -> run readManagementConfiguration db = (Ok (stored_configuration db), db).
Proof.
  intros Hwf. pose proof (cwf_configuration _ Hwf) as [_ Hn Hp Ht _].
  unfold readManagementConfiguration. rewrite run_bind, readManagementState_wf by (done || apply _).
  rewrite run_bind, read_table_wf by (apply _ || (eapply map_Forall_impl; [exact Hn|naive_solver])).
  rewrite run_bind, read_table_wf by (apply _ || (eapply map_Forall_impl; [exact Hp|naive_solver])).
  rewrite run_bind, read_table_wf by (apply _ || (eapply map_Forall_impl; [exact Ht|naive_solver])).
  change (mkConfiguration _ _ _ _ _) with (stored_configuration db). rewrite run_require_bind.
  rewrite stored_valid by (destruct (cwf_revision _ Hwf); assumption || apply (cwf_configuration _ Hwf)). simpl.
  rewrite run_bind, run_mapping_error by apply _.
  change (map snd (rows_by_key (management_node_configurations db))) with (mc_Nodes (stored_configuration db)).
  rewrite requireExactEnrolledNodes_run; [done|by apply stored_nodes_exact].
Qed.

(** The policies of the next configuration. *)
Definition next_policies (revisions : list (ManagementRunnerProfile * Z)) : gmap string RunnerProfileUpdatePolicy :=
  keyed rpp_ProfileID (map (fun r => policy_of r.1 r.2) revisions).
Lemma next_policies_profiles existing current profiles revisions :
  scan_rows (next_policy_revision existing current) profiles = Ok revisions -> map fst revisions = profiles.
Proof.
  intros Hr%scan_rows_length. induction Hr as [|p [p' n] ps rows Hp _ IH]; [done|]. simpl. f_equal; [|exact IH].
  unfold next_policy_revision in Hp. repeat case_match; by simplify_eq/=.
Qed.
Lemma replaceManagementConfiguration_ok current next db db' :
  run (replaceManagementConfiguration current next) db = (Ok tt, db') ->
  exists revisions,
    scan_rows (next_policy_revision (runner_profile_update_policies db)
      (keyed mp_ID (mc_RunnerProfiles current))) (mc_RunnerProfiles next) = Ok revisions /\
    map fst revisions = mc_RunnerProfiles next /\
    db' = with_bindings (keyed gtb_TargetID (map binding_of (mc_GitHubTargets next)))
      (with_targets (keyed mt_ID (mc_GitHubTargets next)) (with_policies (next_policies revisions)
        (with_profiles (keyed mp_ID (mc_RunnerProfiles next))
          (with_node_configurations (keyed mnc_NodeID (mc_Nodes next)) db)))).
Proof.
  unfold replaceManagementConfiguration. intros E. step in E as (revisions & db1 & Hr & E).
  unfold nextRuntimeProfileRevisions in Hr. rewrite run_query_bind in Hr.
  destruct (scan_rows _ _) as [us|]; [|done]. apply run_lift_ok in Hr as [Hr <-].
  exists revisions. split; [exact Hr|].
  assert (Hfst : map fst revisions = mc_RunnerProfiles next).
  { by eapply next_policies_profiles. }
  split; [exact Hfst|]. step in E as ([] & db2 & Hdel & E). unfold delete_configuration in Hdel.
  do 4 (step in Hdel as (? & ? & ?Hd & Hdel); apply run_exec_ok in Hd; injection Hd as <-).
  apply run_exec_ok in Hdel. injection Hdel as <-.
  step in E as ([] & db3 & Hn & E). apply insert_nodes_ok in Hn as ->.
  apply run_bind_ok in E as ([] & db4 & Hp & E); [|apply each_follows; intros [? ?]; apply _].
  apply insert_profiles_ok in Hp as ->. apply insert_targets_ok in E as ->. rewrite Hfst. by destruct db.
Qed.

(** What combining a configuration with verified authority gives. *)
Lemma materialize_ok current desired verified next :
  materializeManagementConfiguration current desired verified = Ok next ->
  validateManagementConfiguration next = None /\ configuration_sorted next /\
  mc_FleetMaxRunners next = dmc_FleetMaxRunners desired /\
  mc_Nodes next ≡ₚ dmc_Nodes desired /\
  (exists profiles, mc_RunnerProfiles next ≡ₚ profiles /\
     Forall2 (fun wanted p => next_profile (keyed mp_ID (mva_RunnerProfiles verified))
       (keyed mp_ID (mc_RunnerProfiles current)) wanted = Ok p) (dmc_RunnerProfiles desired) profiles) /\
  (exists targets, mc_GitHubTargets next ≡ₚ targets /\
     Forall2 (fun wanted t => next_target (keyed mt_ID (mva_GitHubTargets verified))
       (keyed mt_ID (mc_GitHubTargets current)) wanted = Ok t) (dmc_GitHubTargets desired) targets).
Proof.
  unfold materializeManagementConfiguration.
  destruct (scan_rows (next_profile _ _) _) as [profiles|] eqn:Hp; [|done].
  destruct (all_used _ _); [|done]. cbn [negb].
  destruct (scan_rows (next_target _ _) _) as [targets|] eqn:Ht; [|done].
  destruct (all_used _ _); [|done]. cbn [negb].
  destruct (validateManagementConfiguration _) eqn:Hv; [done|]. intros [= <-].
  apply scan_rows_length in Hp, Ht. split_and!; [done|split_and!; apply sort_by_sorted|done|apply sort_slice_perm| |].
  - exists profiles. split; [apply sort_slice_perm|done].
  - exists targets. split; [apply sort_slice_perm|done].
Qed.

Lemma each_read_ok {A} (f : A -> program unit) l db db' :
  (forall x, Follows (f x)) -> (forall x, ReadOnly (f x)) -> run (each f l) db = (Ok tt, db') ->
  db' = db /\ forall x, x ∈ l -> run (f x) db = (Ok tt, db).
Proof.
  intros Hf Hr. induction l as [|y l IH]; intros E; apply each_ok in E; try done.
  - split; [done|set_solver].
  - destruct E as (mid & Hy & E). pose proof (run_read_only (f y) db (Hr y)) as Hro. rewrite Hy in Hro.
    simpl in Hro. subst mid. destruct (IH E) as [-> Hl]. split; [done|]. intros x [->|Hx]%elem_of_cons; auto.
Qed.
Lemma require_inactive_ok targetID scaleSetID text db db' :
  run (require_inactive targetID scaleSetID text) db = (Ok tt, db') ->
  active_authority db targetID scaleSetID = false.
Proof.
  unfold require_inactive, managementTargetHasActiveAuthority. rewrite run_query_bind.
  by destruct (active_authority _ _ _); [intros []%run_throw_ok|].
Qed.

Definition fleet_limit (c : ManagementConfiguration) : Z :=
  match mc_FleetMaxRunners c with Some n => wrap_uint64 n | None => summed_limit (mc_Nodes c) end.
(** Nothing that runs is disturbed by the change. *)
Definition spares_active (current next : ManagementConfiguration) (db : ControllerDB) : Prop :=
  (forall slot, is_Some (slot_reservations db !! slot) ->
     reservation_within (keyed mnc_NodeID (mc_Nodes next)) slot = true) /\
  Z.of_nat (size (slot_reservations db)) <= fleet_limit next /\
  (forall t, t ∈ mc_GitHubTargets current -> active_authority db (mt_ID t) (mgt_ScaleSetID t) = true ->
     target_unchanged current next t = true) /\
  (forall id b, github_target_runtime_bindings db !! id = Some b ->
     active_authority db (gtb_TargetID b) (gtb_ScaleSetID b) = true ->
     binding_retained (runner_profile_update_policies db) next b = true).
Lemma validateActive_ok current next db db' :
  run (validateActiveManagementTransition current next) db = (Ok tt, db') ->
  db' = db /\ spares_active current next db.
Proof.
  intros E. pose proof (run_read_only (validateActiveManagementTransition current next) db _) as Hro.
  rewrite E in Hro. simpl in Hro. subst db'. split; [done|]. unfold validateActiveManagementTransition in E.
  step in E as ([] & db1 & Hfit & E). unfold reservations_fit in Hfit. rewrite run_query_bind in Hfit.
  next_condition Hfit Hall; [by apply run_throw_ok in Hfit|].
  next_condition Hfit Hlen; [by apply run_throw_ok in Hfit|]. apply run_ret_ok in Hfit as [_ <-].
  apply negb_false_iff in Hall. rewrite forallb_forall in Hall.
  step in E as ([] & db1 & Ht & E). apply each_read_ok in Ht as [-> Ht]; [|intros; apply _..].
  rewrite !run_query_bind in E. apply each_read_ok in E as [_ Hb]; [|intros; apply _..].
  split_and!.
  - intros slot [r Hr]. apply Hall. apply list_elem_of_In, list_elem_of_fmap. exists (slot, r).
    by rewrite elem_of_map_to_list.
  - rewrite Z.gtb_ltb in Hlen. apply Z.ltb_ge in Hlen. rewrite length_map, length_map_to_list in Hlen. exact Hlen.
  - intros t Hin Hact. specialize (Ht t Hin). destruct (target_unchanged current next t); [done|].
    apply require_inactive_ok in Ht. congruence.
  - intros id b Hid Hact. specialize (Hb b). destruct (binding_retained _ next b); [done|].
    rewrite list_elem_of_fmap in Hb. ospecialize (Hb _).
    { exists (id, b). by rewrite elem_of_map_to_list. }
    apply require_inactive_ok in Hb. congruence.
Qed.

Lemma advance_configuration_state_ok current next n db db' :
  run (advance_configuration_state current next) db = (Ok n, db') -> n = 1 ->
  management_revision db = mc_Revision current /\
  db' = with_state (mc_Revision next) (mc_FleetMaxRunners next) db.
Proof.
  unfold advance_configuration_state. intros E%run_statement_ok Hn.
  destruct (uint64_arg _) as [r|] eqn:Hr; [|done]. apply uint64_arg_Ok in Hr as [-> _].
  destruct (bool_decide (management_revision db = mc_Revision current)) eqn:Hb; [|injection E as <- _; done].
  apply bool_decide_eq_true in Hb. next_condition E Hc; [done|]. by injection E as _ <-.
Qed.

Lemma with_revision_valid c n :
  validateManagementConfiguration c = None -> n <= max_int64 ->
  validateManagementConfiguration (with_revision n c) = None.
Proof. rewrite !validateConfiguration_None. simpl. tauto. Qed.

Lemma ApplyManagementConfiguration_ok s expected desired verified audit db next db' :
  run (ApplyManagementConfiguration s expected desired verified audit) db = (Ok next, db') ->
  management_revision db = expected /\ expected < max_int64 /\
  (exists materialized,
     materializeManagementConfiguration (stored_configuration db) desired verified = Ok materialized /\
     next = with_revision (expected + 1) materialized /\
     spares_active (stored_configuration db) materialized db) /\
  map fst (rows_by_key (enrolled_nodes db)) = sort_slice string_less (map mnc_NodeID (dmc_Nodes desired)) /\
  exists policies bindings, audited_change s audit db (configured next policies bindings db) db'.
Proof.
  unfold ApplyManagementConfiguration. rewrite run_require_bind. destruct (requireReady _); [done|].
  destruct (_ >? _); [by intros []%run_throw_ok|]. rewrite !run_require_bind.
  destruct (validateDesiredManagementConfiguration desired); [done|].
  destruct (validateManagementVerifiedAuthorities verified); [done|].
  destruct (validateConfigurationApplyAudit audit); [done|].
  intros E. step in E as (t & db1 & Hat & E). apply audited_at_ok in Hat as (-> & Hh & Ht).
  apply run_commit_ok in E as [Hg E]; [|apply _].
  step in E as (current & db1 & Hread & E). apply readManagementConfiguration_ok in Hread as (-> & -> & Hv & _).
  cbn [mc_Revision stored_configuration] in E.
  destruct (bool_decide (management_revision db = expected)) eqn:He; simpl in E; [|by apply run_throw_ok in E].
  apply bool_decide_eq_true in He. unfold maxSQLiteInteger in E.
  apply validateConfiguration_None in Hv as [Hmax _]. simpl in Hmax.
  destruct (Z.eqb_spec (management_revision db) max_int64) as [|Hne]; [by apply run_throw_ok in E|].
  step in E as ([] & db1 & Hex & E). apply requireExactEnrolledNodes_ok in Hex as [-> Hex].
  rewrite run_lift_bind in E.
  destruct (materializeManagementConfiguration _ _ _) as [m|] eqn:Hm; [|done].
  step in E as ([] & db1 & Hact & E). apply validateActive_ok in Hact as [-> Hact].
  step in E as ([] & db1 & Hrep & E). apply replaceManagementConfiguration_ok in Hrep as (revs & _ & _ & ->).
  step in E as (n & db2 & Hadv & E). destruct (decide (n = 1)) as [Hn|Hn].
  2: { rewrite bool_decide_eq_false_2 in E by done. by apply run_throw_ok in E. }
  destruct (advance_configuration_state_ok _ _ _ _ _ Hadv Hn) as [_ ->].
  rewrite bool_decide_eq_true_2 in E by done. simpl in E.
  step in E as ([] & db2 & Hev & E). apply run_ret_ok in E as [<- <-]. subst expected.
  split; [done|]. split; [lia|]. split; [by exists m|]. split; [done|].
  exists (next_policies revs), (keyed gtb_TargetID (map binding_of (mc_GitHubTargets m))).
  by eapply (evidence_change _ _ t).
Qed.
Lemma applied_wf s expected desired verified audit db next db' :
  controller_wf db ->
  run (ApplyManagementConfiguration s expected desired verified audit) db = (Ok next, db') ->
  validateManagementConfiguration next = None /\ configuration_sorted next /\ controller_wf db'.
Proof.
  intros Hwf (Hrev & Hmax & (m & Hm & -> & _) & Hex & (pol & bind & Hch))%ApplyManagementConfiguration_ok.
  apply materialize_ok in Hm as (Hv & Hs & _ & Hperm & _). rewrite <- Hrev in *.
  assert (Hv' : validateManagementConfiguration (with_revision (management_revision db + 1) m) = None)
    by (apply with_revision_valid; [done|lia]).
  split; [done|]. split; [done|]. eapply audited_wf; [|exact Hch]. apply keep_configured; simpl; try done; [lia|].
  rewrite (exact_nodes_perm _ _ Hex). by rewrite Hperm.
Qed.
