(* ===== verification/WorkFacts.v ===== *)
(** * The methods of work as programs

    Outages only make the methods of WorkStore.v, WorkAgent.v, WorkReport.v and
    WorkGitHub.v fail, they leave all or nothing, and outside the tables of work they
    change no more than [work_step] says: a node is quarantined, or an event of a node's
    owner is appended to the trail. *)

From S2P Require Import Prelude GoStd GoEncoding Sql StoreBase EnrollRegistry EnrollPKI Domain Execution Replay Fence Transport AgentStore WorkTables ControllerStore WorkStore WorkAgent WorkReport WorkGitHub StoreEnroll ControllerSpec ControllerFacts.
From Stdlib Require Import Ascii.

(** ** Outages *)

#[export] Instance in_tx_recovering_follows {DB A} (body : sql DB (tx_end A)) (rec : GoError -> A -> GoError) :
  Follows body -> Follows (in_tx_recovering body (fun e a => throw (rec e a))).
Proof.
  intros Hb. split.
  - intros db. by rewrite in_tx_recovering_calm.
  - intros c a c' E. apply in_tx_recovering_answer in E as [E|(b & c1 & _ & E & _)]; [|done|done].
    rewrite run_in_tx_recovering in E by done. by rewrite in_tx_recovering_calm, E by done.
Qed.

#[export] Instance insert_execution_follows e t : Follows (insert_execution e t).
Proof. unfold insert_execution. apply _. Qed.
#[export] Instance insert_reservation_follows e : Follows (insert_reservation e).
Proof. unfold insert_reservation. apply _. Qed.
#[export] Instance insert_message_follows a t : Follows (insert_message a t).
Proof. unfold insert_message. apply _. Qed.
#[export] Instance findMessage_follows a : Follows (findMessage a).
Proof. unfold findMessage. apply _. Qed.
#[export] Instance findMessage_read_only a : ReadOnly (findMessage a).
Proof. unfold findMessage. apply _. Qed.
#[export] Instance current_epoch_follows : Follows current_epoch.
Proof. unfold current_epoch. apply _. Qed.
#[export] Instance current_epoch_read_only : ReadOnly current_epoch.
Proof. unfold current_epoch. apply _. Qed.
#[export] Instance requireActiveEnrolledNode_follows n : Follows (requireActiveEnrolledNode n).
Proof. unfold requireActiveEnrolledNode. apply _. Qed.
#[export] Instance requireActiveEnrolledNode_read_only n : ReadOnly (requireActiveEnrolledNode n).
Proof. unfold requireActiveEnrolledNode. apply _. Qed.
#[export] Instance requireKnownEnrolledNode_follows n : Follows (requireKnownEnrolledNode n).
Proof. unfold requireKnownEnrolledNode. apply _. Qed.
#[export] Instance requireKnownEnrolledNode_read_only n : ReadOnly (requireKnownEnrolledNode n).
Proof. unfold requireKnownEnrolledNode. apply _. Qed.
#[export] Instance loadControllerExecution_follows e : Follows (loadControllerExecution e).
Proof. unfold loadControllerExecution. apply _. Qed.
#[export] Instance loadControllerExecution_read_only e : ReadOnly (loadControllerExecution e).
Proof. unfold loadControllerExecution. apply _. Qed.
#[export] Instance insert_agent_command_follows i t : Follows (insert_agent_command i t).
Proof. unfold insert_agent_command. apply _. Qed.
#[export] Instance replayed_command_follows i t : Follows (replayed_command i t).
Proof. unfold replayed_command. apply _. Qed.
#[export] Instance replayed_command_read_only i t : ReadOnly (replayed_command i t).
Proof. unfold replayed_command. apply _. Qed.
#[export] Instance AgentCommandIsReconciliation_follows s c : Follows (AgentCommandIsReconciliation s c).
Proof. unfold AgentCommandIsReconciliation. apply _. Qed.
#[export] Instance requireCurrentAgentSnapshotAuthority_follows n d e : Follows (requireCurrentAgentSnapshotAuthority n d e).
Proof. unfold requireCurrentAgentSnapshotAuthority. apply _. Qed.
#[export] Instance requireCurrentAgentSnapshotAuthority_read_only n d e : ReadOnly (requireCurrentAgentSnapshotAuthority n d e).
Proof. unfold requireCurrentAgentSnapshotAuthority. apply _. Qed.
#[export] Instance insert_reconciliation_follows c d : Follows (insert_reconciliation c d).
Proof. unfold insert_reconciliation. apply _. Qed.
#[export] Instance replayed_reconciliation_follows i d : Follows (replayed_reconciliation i d).
Proof. unfold replayed_reconciliation. apply _. Qed.
#[export] Instance replayed_reconciliation_read_only i d : ReadOnly (replayed_reconciliation i d).
Proof. unfold replayed_reconciliation. apply _. Qed.
#[export] Instance update_session_follows n f : Follows (update_session n f).
Proof. unfold update_session. apply _. Qed.
#[export] Instance adoptNodeAvailabilityIntent_follows n i : Follows (adoptNodeAvailabilityIntent n i).
Proof. unfold adoptNodeAvailabilityIntent. apply _. Qed.
#[export] Instance adoptNodeSharedRunnerIdentity_follows n b : Follows (adoptNodeSharedRunnerIdentity n b).
Proof. unfold adoptNodeSharedRunnerIdentity. apply _. Qed.
#[export] Instance readNodeTargetExclusions_follows n : Follows (readNodeTargetExclusions n).
Proof. unfold readNodeTargetExclusions. apply _. Qed.
#[export] Instance readNodeTargetExclusions_read_only n : ReadOnly (readNodeTargetExclusions n).
Proof. unfold readNodeTargetExclusions. apply _. Qed.
#[export] Instance insert_exclusion_follows n t x : Follows (insert_exclusion n t x).
Proof. unfold insert_exclusion. apply _. Qed.
#[export] Instance adoptNodeTargetExclusions_follows n x t : Follows (adoptNodeTargetExclusions n x t).
Proof. unfold adoptNodeTargetExclusions. apply _. Qed.
#[export] Instance insertNodeOwnerAudit_follows t r n a : Follows (insertNodeOwnerAudit t r n a).
Proof. unfold insertNodeOwnerAudit. apply _. Qed.
#[export] Instance adoptNodeOwnerState_follows n i x b t : Follows (adoptNodeOwnerState n i x b t).
Proof. unfold adoptNodeOwnerState. apply _. Qed.
#[export] Instance requireExecutionOwnedByNode_follows n e : Follows (requireExecutionOwnedByNode n e).
Proof. unfold requireExecutionOwnedByNode. apply _. Qed.
#[export] Instance requireExecutionOwnedByNode_read_only n e : ReadOnly (requireExecutionOwnedByNode n e).
Proof. unfold requireExecutionOwnedByNode. apply _. Qed.
#[export] Instance quarantineNode_follows n : Follows (quarantineNode n).
Proof. unfold quarantineNode. apply _. Qed.
#[export] Instance cas_execution_follows e f t : Follows (cas_execution e f t).
Proof. unfold cas_execution. apply _. Qed.
#[export] Instance release_lease_follows e : Follows (release_lease e).
Proof. unfold release_lease. apply _. Qed.
#[export] Instance insert_snapshot_command_follows n c : Follows (insert_snapshot_command n c).
Proof. unfold insert_snapshot_command. apply _. Qed.
#[export] Instance recordSnapshotCommand_follows n c : Follows (recordSnapshotCommand n c).
Proof. unfold recordSnapshotCommand. apply _. Qed.
#[export] Instance upsert_observation_follows n o t : Follows (upsert_observation n o t).
Proof. unfold upsert_observation. apply _. Qed.
#[export] Instance recordSnapshotObservation_follows n t o : Follows (recordSnapshotObservation n t o).
Proof. unfold recordSnapshotObservation. apply _. Qed.
#[export] Instance upsert_tombstone_follows n o t : Follows (upsert_tombstone n o t).
Proof. unfold upsert_tombstone. apply _. Qed.
#[export] Instance recordSnapshotTombstone_follows n t o : Follows (recordSnapshotTombstone n t o).
Proof. unfold recordSnapshotTombstone. apply _. Qed.
#[export] Instance upsert_session_follows s t : Follows (upsert_session s t).
Proof. unfold upsert_session. apply _. Qed.
#[export] Instance upsert_authority_follows n d e t : Follows (upsert_authority n d e t).
Proof. unfold upsert_authority. apply _. Qed.
#[export] Instance delete_current_follows n : Follows (delete_current n).
Proof. unfold delete_current. apply _. Qed.
#[export] Instance insert_current_command_follows n d c : Follows (insert_current_command n d c).
Proof. unfold insert_current_command. apply _. Qed.
#[export] Instance insert_current_observation_follows n d o : Follows (insert_current_observation n d o).
Proof. unfold insert_current_observation. apply _. Qed.
#[export] Instance insert_current_tombstone_follows n d o : Follows (insert_current_tombstone n d o).
Proof. unfold insert_current_tombstone. apply _. Qed.
#[export] Instance record_snapshot_follows s d t : Follows (record_snapshot s d t).
Proof. unfold record_snapshot. apply _. Qed.
#[export] Instance advance_authority_follows n d e t : Follows (advance_authority n d e t).
Proof. unfold advance_authority. apply _. Qed.
#[export] Instance require_authority_follows n d e : Follows (require_authority n d e).
Proof. unfold require_authority. apply _. Qed.
#[export] Instance require_authority_read_only n d e : ReadOnly (require_authority n d e).
Proof. unfold require_authority. apply _. Qed.
#[export] Instance insert_update_follows u t : Follows (insert_update u t).
Proof. unfold insert_update. apply _. Qed.
#[export] Instance advance_desired_follows u r c : Follows (advance_desired u r c).
Proof. unfold advance_desired. apply _. Qed.
#[export] Instance settle_lease_follows u r : Follows (settle_lease u r).
Proof. unfold settle_lease. apply _. Qed.
#[export] Instance write_claim_follows k r : Follows (write_claim k r).
Proof. unfold write_claim. apply _. Qed.
#[export] Instance insert_slot_claim_follows e g s k r t : Follows (insert_slot_claim e g s k r t).
Proof. unfold insert_slot_claim. apply _. Qed.
#[export] Instance end_lost_execution_follows e t n : Follows (end_lost_execution e t n).
Proof. unfold end_lost_execution. apply _. Qed.
#[export] Instance check_lost_execution_follows e t n : Follows (check_lost_execution e t n).
Proof. unfold check_lost_execution. apply _. Qed.
#[export] Instance finish_lost_execution_follows e t : Follows (finish_lost_execution e t).
Proof. unfold finish_lost_execution. apply _. Qed.
#[export] Instance advance_observed_follows e f t : Follows (advance_observed e f t).
Proof. unfold advance_observed. apply _. Qed.

(** ** The methods that change the tables of work *)

(** [WAssign] and [WRecordSnapshot] bring the library code they call along. *)
Inductive work_method :=
  | WAssign (isBusy : GoError -> bool) (a : Assignment) (waits : nat) (cancelled : bool)
  | WCommitCommand (issued : IssuedCommand)
  | WCommitReconciliation (issued : IssuedCommand) (snapshotDigest : string)
  | WRecordSnapshot (marshal : CanonicalSnapshot -> result string) (sha256 : string -> string)
      (snapshot : NodeAgentSnapshot)
  | WRecordReadiness (nodeID snapshotDigest : string) (ready : bool)
  | WRecordOwnerState (nodeID snapshotDigest intent : string) (exclusions : option (list TargetID))
      (shared : option bool)
  | WAdopt (nodeID expectedState : string) (observation : ObservationSnapshot) (snapshotDigest : string)
      (controllerEpoch : Z)
  | WFail (nodeID executionID expectedState snapshotDigest : string) (controllerEpoch : Z)
  | WRecordUpdate (update : AgentExecutionUpdate)
  | WGitHub (g : github_step).

Definition dropping {A} (m : program A) : program unit := m ≫= fun _ => mret tt.
Definition work_program (s : ControllerStore) (m : work_method) : program unit :=
  match m with
  | WAssign isBusy a waits cancelled => dropping (Assign isBusy s a waits cancelled)
  | WCommitCommand issued => dropping (CommitAgentCommand s issued)
  | WCommitReconciliation issued digest => dropping (CommitAgentReconciliationCommand s issued digest)
  | WRecordSnapshot marshal sha256 snapshot => RecordAgentSnapshot marshal sha256 s snapshot
  | WRecordReadiness nodeID digest ready => RecordAgentReadiness s nodeID digest ready
  | WRecordOwnerState nodeID digest intent exclusions shared =>
      RecordNodeOwnerState s nodeID digest intent exclusions shared
  | WAdopt nodeID expected o digest epoch => dropping (AdoptAgentSnapshotObservation s nodeID expected o digest epoch)
  | WFail nodeID id expected digest epoch => dropping (FailDesiredExecutionFromSnapshot s nodeID id expected digest epoch)
  | WRecordUpdate update => dropping (RecordAgentExecutionUpdate s update)
  | WGitHub g => github_program g
  end.

(** *** Outages *)

#[export] Instance dropping_follows {A} (m : program A) : Follows m -> Follows (dropping m).
Proof. intros Hm. unfold dropping. apply _. Qed.
#[export] Instance dropping_all_or_nothing {A} (m : program A) : AllOrNothing m -> AllOrNothing (dropping m).
Proof.
  intros Hm c. unfold dropping. rewrite bind_unfold. destruct (all_or_nothing (m := m) c) as [E|[a E]].
  - left. by destruct (m c) as [[a|e] c1].
  - right. exists tt. unfold run in *. rewrite bind_unfold.
    destruct (m c) as [[b|e] c1], (m (calm (database c))) as [[d|e'] c2]; simpl in *; simplify_eq; by f_equal.
Qed.
#[export] Instance commit_adoption_follows s body : Follows body -> Follows (commit_adoption s body).
Proof. intros Hb. unfold commit_adoption. apply _. Qed.
#[export] Instance commit_adoption_all_or_nothing s body : Follows body -> AllOrNothing (commit_adoption s body).
Proof.
  intros Hb. change (commit_adoption s body) with (dropping (in_tx_recovering
    (adoption ← body ;
     if adoption_audited adoption && negb (audit_gate_healthy s) then throw ErrManagementAuditPersistence
     else mret (CommitWith (adoption_audited adoption)))
    (fun e audited => throw (if (audited : bool) then degraded e else e)))). apply _.
Qed.
#[export] Instance assignOnce_follows s a : Follows (assignOnce s a).
Proof. unfold assignOnce. apply _. Qed.
#[export] Instance assignOnce_all_or_nothing s a : AllOrNothing (assignOnce s a).
Proof. unfold assignOnce. apply _. Qed.

(** *** Assignments *)

(** The database with an execution and its lease. *)
Definition leased_db (e : ExecutionSnapshot) (createdAt : Z) (db : ControllerDB) : ControllerDB :=
  with_reservations (<[(slot_NodeID (exec_Slot e), slot_Index (exec_Slot e)) :=
      mkReservationRow (exec_TargetID e) (exec_ID e)]> (slot_reservations db))
    (with_executions (<[exec_ID e := row_of_execution e createdAt]> (executions db)) db).
Definition assigned_db (a : Assignment) (createdAt : Z) (db : ControllerDB) : ControllerDB :=
  let e := asg_Execution a in
  with_work (work_with_messages (<[(asg_ScaleSetID a, asg_MessageID a) :=
      mkMessageRow (asg_MessageDigest a) (exec_ID e) createdAt]> (processed_messages (agent_work db)))
    (agent_work db)) (leased_db e createdAt db).
(** What a claim of a slot found. *)
Record lease_free (e : ExecutionSnapshot) (createdAt : Z) (db : ControllerDB) : Prop := {
  lf_check : execution_check (exec_ID e) (row_of_execution e createdAt) = true;
  lf_new : executions db !! exec_ID e = None;
  lf_unleased : execution_leased (exec_ID e) db = false;
  lf_slot : slot_reservations db !! (slot_NodeID (exec_Slot e), slot_Index (exec_Slot e)) = None }.

Lemma insert_keyed_ok {K A} `{Countable K} columns check (k : K) (row : A) t t' :
  insert_keyed columns check k row t = Ok t' -> check = true /\ t !! k = None /\ t' = <[k := row]> t.
Proof. unfold insert_keyed. destruct check; [|done]. simpl. destruct (t !! k); [done|]. by intros [= <-]. Qed.

Lemma insert_lease_ok e createdAt db mid db' :
  run (insert_execution e createdAt) db = (Ok tt, mid) -> run (insert_reservation e) mid = (Ok tt, db') ->
  lease_free e createdAt db /\ db' = leased_db e createdAt db.
Proof.
  intros E1%run_exec_ok E2%run_exec_ok. simpl in E1.
  destruct (insert_keyed _ _ _ _ (executions db)) as [t|] eqn:E; [|done]. simplify_eq/=.
  apply insert_keyed_ok in E as (Hc & Hnew & ->).
  destruct (execution_leased _ _) eqn:Hl in E2; [done|].
  destruct (insert_keyed _ _ _ _ (slot_reservations _)) as [t|] eqn:E; [|done]. simplify_eq/=.
  apply insert_keyed_ok in E as (_ & Hs & ->). by split.
Qed.
Lemma insert_message_ok a createdAt db db' :
  run (insert_message a createdAt) db = (Ok tt, db') ->
  message_names (exec_ID (asg_Execution a)) db = false /\
  message_check (asg_ScaleSetID a) (asg_MessageID a)
    (mkMessageRow (asg_MessageDigest a) (exec_ID (asg_Execution a)) createdAt) = true /\
  processed_messages (agent_work db) !! (asg_ScaleSetID a, asg_MessageID a) = None /\
  db' = with_work (work_with_messages (<[(asg_ScaleSetID a, asg_MessageID a) :=
      mkMessageRow (asg_MessageDigest a) (exec_ID (asg_Execution a)) createdAt]> (processed_messages (agent_work db)))
    (agent_work db)) db.
Proof.
  intros E%run_exec_ok. simpl in E. destruct (message_names _ _) eqn:Hn; [done|].
  destruct (insert_keyed _ _ _ _ (processed_messages _)) as [t|] eqn:E1; [|done]. simplify_eq.
  apply insert_keyed_ok in E1 as ([Hc _]%andb_true_iff & Hnew & ->). done.
Qed.

(** The execution of a message that was processed before. *)
Definition processed (a : Assignment) (db : ControllerDB) (existing : ExecutionSnapshot) : Prop :=
  exists message row, processed_messages (agent_work db) !! (asg_ScaleSetID a, asg_MessageID a) = Some message /\
    executions db !! pm_execution_id message = Some row /\
    existing = execution_of (pm_execution_id message) row /\
    pm_message_digest message = asg_MessageDigest a /\
    exec_ID existing = exec_ID (asg_Execution a) /\ exec_TargetID existing = exec_TargetID (asg_Execution a) /\
    exec_Slot existing = exec_Slot (asg_Execution a).
Lemma findMessage_found a db existing :
  run (findMessage a) db = (Ok (Some existing), db) <-> processed a db existing.
Proof.
  unfold findMessage, processed. rewrite run_query. split.
  - intros E. destruct (processed_messages _ !! _) as [message|]; [|done].
    destruct (executions db !! _) as [row|] eqn:Hr; [|done].
    destruct (_ || _) eqn:Hc in E; [done|]. simplify_eq. rewrite !orb_false_iff in Hc.
    destruct Hc as [[[H1 H2] H3] H4]. eexists _, _. split; [done|]. split; [done|]. split; [done|].
    conditions. done.
  - intros (message & row & -> & -> & -> & Hd & Hi & Ht & Hs).
    rewrite Hd, Hi, Ht, Hs, !bool_decide_eq_true_2 by done. done.
Qed.

Lemma assignOnce_ok s a db answer db' :
  run (assignOnce s a) db = (Ok answer, db') ->
  exists createdAt, storeUnixNano (store_now (cs_base s)) = Ok createdAt /\
  ((answer.2 = true /\ db' = db /\ processed a db answer.1) \/
   (answer = (asg_Execution a, false) /\ lease_free (asg_Execution a) createdAt db /\
    message_names (exec_ID (asg_Execution a)) (leased_db (asg_Execution a) createdAt db) = false /\
    message_check (asg_ScaleSetID a) (asg_MessageID a)
      (mkMessageRow (asg_MessageDigest a) (exec_ID (asg_Execution a)) createdAt) = true /\
    processed_messages (agent_work db) !! (asg_ScaleSetID a, asg_MessageID a) = None /\
    db' = assigned_db a createdAt db)).
Proof.
  unfold assignOnce. intros (t & mid & Ht & E)%run_bind_ok; [|apply _]. apply run_lift_ok in Ht as [Ht <-].
  exists t. split; [done|]. unfold in_tx in E. apply run_in_tx_recovering_ok in E as (end_ & db1 & E & Hend); [|apply _].
  apply run_bind_ok in E as (existing & mid & Hf & E); [|apply _].
  assert (mid = db) as -> by (pose proof (run_read_only (findMessage a) db _) as Hr; by rewrite Hf in Hr).
  destruct existing as [existing|].
  - apply run_ret_ok in E as [<- <-]. destruct Hend as [[? _]|[[= <-] ->]]; [done|].
    left. split; [done|]. split; [done|]. by apply findMessage_found.
  - apply run_bind_ok in E as ([] & m1 & E1%run_mapping_error_ok & E); [|apply _].
    apply run_bind_ok in E as ([] & m2 & E2%run_mapping_error_ok & E); [|apply _].
    apply run_bind_ok in E as ([] & m3 & E3%run_mapping_error_ok & E); [|apply _].
    apply run_ret_ok in E as [<- <-]. destruct Hend as [[[= <-] ->]|[? _]]; [|done].
    destruct (insert_lease_ok _ _ _ _ _ E1 E2) as [Hfree ->].
    apply insert_message_ok in E3 as (Hn & Hc & Hnew & ->). right. by split_and!.
Qed.

(** A message that is answered is answered again, from the same database. *)
Lemma processed_again s a db existing t :
  processed a db existing -> storeUnixNano (store_now (cs_base s)) = Ok t ->
  run (assignOnce s a) db = (Ok (existing, true), db).
Proof.
  intros Hp Ht. unfold assignOnce. rewrite Ht, run_lift_bind. enter_tx.
  rewrite run_bind by apply _. apply findMessage_found in Hp. by rewrite Hp.
Qed.
Lemma assigned_settled s a db answer db' :
  run (assignOnce s a) db = (Ok answer, db') ->
  exists existing, run (assignOnce s a) db' = (Ok (existing, true), db') /\
    exec_ID existing = exec_ID (asg_Execution a).
Proof.
  intros (t & Ht & [(_ & -> & Hp)|(-> & Hfree & _ & _ & _ & ->)])%assignOnce_ok.
  - exists answer.1. split; [by eapply processed_again|]. by destruct Hp as (? & ? & _ & _ & _ & _ & -> & _).
  - exists (asg_Execution a). split; [|done]. eapply processed_again; [|done].
    exists (mkMessageRow (asg_MessageDigest a) (exec_ID (asg_Execution a)) t),
      (row_of_execution (asg_Execution a) t). simpl. rewrite !lookup_insert_eq. split_and!; try done.
    unfold execution_of, row_of_execution. simpl. by destruct (asg_Execution a) as [? ? [] ?].
Qed.

(** What the attempts answer and leave behind: a success of one attempt, made by this
    call or found by it. *)
Lemma assign_attempts_calm isBusy s a waits cancelled db answer db' :
  run (assign_attempts isBusy s a waits cancelled) db = (Ok answer, db') ->
  run (assignOnce s a) db = (Ok answer, db').
Proof.
  revert answer db'. induction waits as [|waits IH]; intros answer db'; unfold run; simpl;
    pose proof (follows_calm (m := assignOnce s a) db) as Hc;
    destruct (all_or_nothing (m := assignOnce s a) (calm db)) as [Hdb|[b Hb]]; simpl in *;
    destruct (assignOnce s a (calm db)) as [[x|e] c1] eqn:E; simpl in *; try done;
    destruct (isBusy e); try done; simpl.
  - rewrite Hc, Hdb. intros H%IH. unfold run in H. by rewrite E in H.
  - unfold run in Hb. rewrite E in Hb. by simplify_eq.
Qed.
Lemma assign_attempts_settles isBusy s a waits cancelled c :
  (database (assign_attempts isBusy s a waits cancelled c).2 = database c \/
   exists answer, run (assignOnce s a) (database c) = (Ok answer, database (assign_attempts isBusy s a waits cancelled c).2)) /\
  (forall answer c', assign_attempts isBusy s a waits cancelled c = (Ok answer, c') ->
   exists answer', run (assignOnce s a) (database c) = (Ok answer', database c')).
Proof.
  revert c. induction waits as [|waits IH]; intros c; simpl;
    pose proof (all_or_nothing (m := assignOnce s a) c) as Haon;
    destruct (assignOnce s a c) as [[x|e] c1] eqn:E; simpl in *;
    try (split; [done|]; intros answer c' [= <- <-]; exists x; by apply sql_run_ok; [apply _|]);
    destruct (isBusy e); simpl; try (split; [done|]; done).
  destruct (IH c1) as [IH1 IH2]. destruct Haon as [Hdb|[b Hb]].
  - rewrite Hdb in *. done.
  - destruct (assigned_settled _ _ _ _ _ Hb) as (existing & Hagain & _). split.
    + right. destruct IH1 as [Hi|[d Hd]]; [by exists b; rewrite Hi|]. rewrite Hagain in Hd.
      exists b. congruence.
    + intros answer c' Hr. destruct (IH2 _ _ Hr) as [d Hd]. rewrite Hagain in Hd. exists b. congruence.
Qed.
(** Without an outage one attempt decides. *)
Lemma assign_attempts_run isBusy s a waits cancelled db answer db' :
  run (assignOnce s a) db = (Ok answer, db') ->
  run (assign_attempts isBusy s a waits cancelled) db = (Ok answer, db').
Proof. unfold run. destruct waits; simpl; by destruct (assignOnce s a (calm db)) as [[x|e] c1]. Qed.

Lemma Assign_calm isBusy s a waits cancelled db answer db' :
  run (Assign isBusy s a waits cancelled) db = (Ok answer, db') ->
  Assignment_Validate a = None /\ run (assignOnce s a) db = (Ok answer, db').
Proof.
  unfold Assign. rewrite !run_require_bind. destruct (requireReady _); [done|].
  destruct (Assignment_Validate a); [done|]. intros E%assign_attempts_calm. done.
Qed.

(** *** All methods *)

(** A success under outages is an undisturbed success with the same effect. *)
Definition settles {A} (m : program A) : Prop :=
  forall c a c', m c = (Ok a, c') -> exists a', run m (database c) = (Ok a', database c').
Lemma follows_settles {A} (m : program A) : Follows m -> settles m.
Proof. intros Hf c a c' E. exists a. by apply sql_run_ok. Qed.
Lemma dropping_settles {A} (m : program A) : settles m -> settles (dropping m).
Proof.
  intros Hm c [] c'. unfold dropping. rewrite bind_unfold. destruct (m c) as [[a|e] c1] eqn:E; [|done].
  intros [= <-]. destruct (Hm _ _ _ E) as [a' Ha]. exists tt. unfold run in *. rewrite bind_unfold.
  destruct (m (calm (database c))) as [[b|e] c2]; simplify_eq/=; unfold mret, sql_ret; congruence.
Qed.
Lemma Assign_settles isBusy s a waits cancelled : settles (Assign isBusy s a waits cancelled).
Proof.
  intros c answer c'. unfold Assign, run. rewrite !require_bind.
  destruct (requireReady _); [done|]. destruct (Assignment_Validate a); [done|]. intros E.
  destruct (proj2 (assign_attempts_settles isBusy s a waits cancelled c) _ _ E) as [answer' H].
  exists answer'. by apply assign_attempts_run.
Qed.
#[export] Instance Assign_all_or_nothing isBusy s a waits cancelled :
  AllOrNothing (Assign isBusy s a waits cancelled).
Proof.
  intros c. unfold Assign, run. rewrite !require_bind. destruct (requireReady _); [by left|].
  destruct (Assignment_Validate a); [by left|].
  destruct (proj1 (assign_attempts_settles isBusy s a waits cancelled c)) as [H|[d H]]; [by left|].
  right. exists d. by apply assign_attempts_run.
Qed.

Lemma work_program_spec s m : AllOrNothing (work_program s m) /\ settles (work_program s m).
Proof.
  destruct m; simpl.
  1: { split; [apply _|]. apply dropping_settles, Assign_settles. }
  all: split; [|apply follows_settles];
    unfold CommitAgentCommand, CommitAgentReconciliationCommand, RecordAgentSnapshot, RecordAgentReadiness,
      RecordNodeOwnerState, AdoptAgentSnapshotObservation, FailDesiredExecutionFromSnapshot,
      RecordAgentExecutionUpdate, github_program; apply _.
Qed.
