(* ===== verification/WorkFrame.v ===== *)
(** * What the methods of work touch

    Every method of WorkFacts.v changes only tables it names ([touches]): the tables of
    work, the administrative state of a node it quarantines, and the trail, to which it
    appends the evidence of a node's owner. *)

From S2P Require Import Prelude GoStd GoEncoding Sql StoreBase EnrollRegistry EnrollPKI Domain Execution Replay Fence Transport AgentStore WorkTables ControllerStore StoreEnroll AuditTrail Management WorkStore WorkAgent WorkReport WorkGitHub ControllerSpec ControllerFacts WorkFacts.
From Stdlib Require Import Ascii.

(** ** Tables and changes *)

Inductive work_table :=
  | TExecutions | TReservations | TMessages | TCommands | TReconciliations | TSessions | TAuthority
  | TSnapshotCommands | TObservations | TTombstones | TCurrentCommands | TCurrentObservations
  | TCurrentTombstones | TUpdates | TExclusions | TClaims | TAttempts | TRuntime | TStates | TTrail.

Definition owner_audit (nodeID action : string) : AuditRecord :=
  mkAudit AuditActorNode action AuditOutcomeSucceeded AuditResourceNode nodeID "" "req_unavailable".
Definition with_event (t : Z) (audit : AuditRecord) (db : ControllerDB) : ControllerDB :=
  with_audit (management_audit_events db ++
    [mkAuditEvent (next_audit_sequence db) t (management_revision db) audit]) db.

(** A change of one table; of messages, commands and updates nothing is ever removed. *)
Inductive touch : work_table -> ControllerDB -> ControllerDB -> Prop :=
  | touch_executions db t : touch TExecutions db (with_executions t db)
  | touch_reservations db t : touch TReservations db (with_reservations t db)
  | touch_messages db t : processed_messages (agent_work db) ⊆ t ->
      touch TMessages db (with_work (work_with_messages t (agent_work db)) db)
  | touch_commands db t : agent_commands (agent_work db) ⊆ t ->
      touch TCommands db (with_work (work_with_commands t (agent_work db)) db)
  | touch_reconciliations db t : reconciliation_agent_commands (agent_work db) ⊆ t ->
      touch TReconciliations db (with_work (work_with_reconciliations t (agent_work db)) db)
  | touch_sessions db t : touch TSessions db (with_work (work_with_sessions t (agent_work db)) db)
  | touch_authority db t : touch TAuthority db (with_work (work_with_authority t (agent_work db)) db)
  | touch_snapshot_commands db t : touch TSnapshotCommands db (with_work (work_with_snapshot_commands t (agent_work db)) db)
  | touch_observations db t : touch TObservations db (with_work (work_with_snapshot_observations t (agent_work db)) db)
  | touch_tombstones db t : touch TTombstones db (with_work (work_with_snapshot_tombstones t (agent_work db)) db)
  | touch_current_commands db t : touch TCurrentCommands db (with_work (work_with_current_commands t (agent_work db)) db)
  | touch_current_observations db t :
      touch TCurrentObservations db (with_work (work_with_current_observations t (agent_work db)) db)
  | touch_current_tombstones db t :
      touch TCurrentTombstones db (with_work (work_with_current_tombstones t (agent_work db)) db)
  | touch_updates db t : agent_execution_updates (agent_work db) ⊆ t ->
      touch TUpdates db (with_work (work_with_updates t (agent_work db)) db)
  | touch_exclusions db t : touch TExclusions db (with_work (work_with_exclusions t (agent_work db)) db)
  | touch_claims db t : touch TClaims db (with_claims t db)
  | touch_attempts db t : touch TAttempts db (with_attempts t db)
  | touch_policies db t : touch TRuntime db (with_policies t db)
  | touch_bindings db t : touch TRuntime db (with_bindings t db)
  | touch_states db nodeID : touch TStates db (quarantined_db nodeID db)
  | touch_trail db t nodeID action :
      0 < t -> validateAuditRecord (owner_audit nodeID action) = None -> next_audit_sequence db <= max_int64 ->
      touch TTrail db (with_event t (owner_audit nodeID action) db).
Definition touches (tables : list work_table) (db db' : ControllerDB) : Prop :=
  exists table, table ∈ tables /\ touch table db db'.

(** What no change of these tables changes, they leave as it is. *)
Lemma touches_keep {B} (proj : ControllerDB -> B) tables db db' :
  rtc (touches tables) db db' ->
  (forall table, table ∈ tables -> forall db db', touch table db db' -> proj db' = proj db) ->
  proj db' = proj db.
Proof.
  intros H Hp. induction H as [|db mid db' (table & Hin & Ht) _ IH]; [done|]. rewrite IH. by eapply Hp.
Qed.
Lemma touches_invariant (P : ControllerDB -> Prop) tables db db' :
  rtc (touches tables) db db' -> P db ->
  (forall table, table ∈ tables -> forall db db', touch table db db' -> P db -> P db') -> P db'.
Proof. intros H HP Hp. induction H as [|db mid db' (table & Hin & Ht) _ IH]; eauto. Qed.
Lemma touches_weaken tables tables' db db' :
  rtc (touches tables) db db' -> tables ⊆ tables' -> rtc (touches tables') db db'.
Proof.
  intros H Hs. induction H as [|db mid db' (table & Hin & Ht) _ IH]; [done|].
  eapply rtc_l; [|exact IH]. exists table. eauto.
Qed.
(** [proj] does not read the tables that [H : rtc (touches tables) db db'] names. *)
Ltac untouched H proj :=
  let Hp := fresh "Hsame" in
  pose proof (touches_keep proj _ _ _ H) as Hp;
  lapply Hp; [clear Hp; intros Hp|
    let T := fresh in let Hin := fresh in let Ht := fresh in
    intros T Hin ? ? Ht; destruct Ht; first
      [reflexivity
      |exfalso; revert Hin; clear; set_solver
      |simpl; unfold quarantined_db; destruct (_ !! _); [case_bool_decide|]; reflexivity]].

(** ** Statements *)

Lemma touched tables table db db' : TCElemOf table tables -> touch table db db' -> rtc (touches tables) db db'.
Proof.
  intros Hin Ht. apply rtc_once. exists table. split; [|done]. clear Ht. induction Hin; set_solver.
Qed.
Lemma touched_insert {K A} `{Countable K} tables table columns check (k : K) (row : A) t t' db db' :
  TCElemOf table tables -> insert_keyed columns check k row t = Ok t' -> (t ⊆ t' -> touch table db db') ->
  rtc (touches tables) db db'.
Proof.
  intros Hin Hins Ht. eapply touched; [exact Hin|]. apply Ht. unfold insert_keyed in Hins.
  destruct check; [|done]. simpl in Hins. destruct (t !! k) eqn:E; [done|]. injection Hins as <-.
  by apply insert_subseteq.
Qed.
Lemma insert_row_keyed {K A} `{Countable K} check (k : K) (row : A) t t' :
  insert_row check k row t = Ok t' -> insert_keyed "" check k row t = Ok t'.
Proof. unfold insert_row, insert_keyed. destruct check; [|done]. simpl. by destruct (t !! k). Qed.
(** A statement touches its table. *)
Ltac touch_statement :=
  first [apply exec_steps; intros ?db ?db' ?E | apply statement_steps; intros ?db ?a ?db' ?E];
  simpl in *;
  repeat match goal with
    | E : context [match ?x with _ => _ end] |- _ => destruct x; simplify_eq/=; try done
    end;
  simplify_eq/=; first [by apply rtc_refl | eapply touched; [|constructor]; eassumption].

Section statements.
Context (tables : list work_table).

#[export] Instance insert_execution_touches e t : TCElemOf TExecutions tables -> Steps (touches tables) (insert_execution e t).
Proof. intros Hin. unfold insert_execution. touch_statement. Qed.
#[export] Instance insert_reservation_touches e : TCElemOf TReservations tables -> Steps (touches tables) (insert_reservation e).
Proof. intros Hin. unfold insert_reservation. touch_statement. Qed.
#[export] Instance insert_message_touches a t : TCElemOf TMessages tables -> Steps (touches tables) (insert_message a t).
Proof.
  intros Hin. apply exec_steps. intros db db' E. simpl in E. destruct (message_names _ _); [done|].
  destruct (insert_keyed _ _ _ _ _) as [t'|] eqn:Hins in E; [|done]. injection E as <-.
  eapply touched_insert; [exact Hin|exact Hins|]. by constructor.
Qed.
#[export] Instance insert_agent_command_touches i t : TCElemOf TCommands tables -> Steps (touches tables) (insert_agent_command i t).
Proof.
  intros Hin. apply exec_steps. intros db db' E. simpl in E.
  destruct (insert_row _ _ _ _) as [t'|] eqn:Hins; [|done]. injection E as <-.
  apply insert_row_keyed in Hins. eapply touched_insert; [exact Hin|exact Hins|]. by constructor.
Qed.
#[export] Instance insert_reconciliation_touches c d : TCElemOf TReconciliations tables -> Steps (touches tables) (insert_reconciliation c d).
Proof.
  intros Hin. apply exec_steps. intros db db' E. simpl in E.
  destruct (insert_row _ _ _ _) as [t'|] eqn:Hins; [|done]. injection E as <-.
  apply insert_row_keyed in Hins. eapply touched_insert; [exact Hin|exact Hins|]. by constructor.
Qed.
#[export] Instance update_session_touches n f : TCElemOf TSessions tables -> Steps (touches tables) (update_session n f).
Proof. intros Hin. unfold update_session. touch_statement. Qed.
#[export] Instance insert_exclusion_touches n t x : TCElemOf TExclusions tables -> Steps (touches tables) (insert_exclusion n t x).
Proof. intros Hin. unfold insert_exclusion. touch_statement. Qed.
#[export] Instance delete_exclusions_touches n : TCElemOf TExclusions tables -> Steps (touches tables) (exec (fun db => Ok (with_work (work_with_exclusions
    (delete_node n (node_target_exclusions (agent_work db))) (agent_work db)) db))).
Proof. intros Hin. touch_statement. Qed.
#[export] Instance quarantineNode_touches n : TCElemOf TStates tables -> Steps (touches tables) (quarantineNode n).
Proof.
  intros Hin. unfold quarantineNode. apply bind_steps; [apply _| |intros a; apply _].
  apply statement_steps. intros db a db' E. simplify_eq/=. eapply touched; [exact Hin|constructor].
Qed.
#[export] Instance cas_execution_touches e f t : TCElemOf TExecutions tables -> Steps (touches tables) (cas_execution e f t).
Proof. intros Hin. unfold cas_execution. touch_statement. Qed.
#[export] Instance release_lease_touches e : TCElemOf TReservations tables -> Steps (touches tables) (release_lease e).
Proof. intros Hin. unfold release_lease. touch_statement. Qed.
#[export] Instance insert_snapshot_command_touches n c : TCElemOf TSnapshotCommands tables -> Steps (touches tables) (insert_snapshot_command n c).
Proof. intros Hin. unfold insert_snapshot_command. touch_statement. Qed.
#[export] Instance upsert_observation_touches n o t : TCElemOf TObservations tables -> Steps (touches tables) (upsert_observation n o t).
Proof. intros Hin. unfold upsert_observation. touch_statement. Qed.
#[export] Instance upsert_tombstone_touches n o t : TCElemOf TTombstones tables -> Steps (touches tables) (upsert_tombstone n o t).
Proof. intros Hin. unfold upsert_tombstone. touch_statement. Qed.
#[export] Instance upsert_session_touches s t : TCElemOf TSessions tables -> Steps (touches tables) (upsert_session s t).
Proof. intros Hin. unfold upsert_session. touch_statement. Qed.
#[export] Instance upsert_authority_touches n d e t : TCElemOf TAuthority tables -> Steps (touches tables) (upsert_authority n d e t).
Proof. intros Hin. unfold upsert_authority. touch_statement. Qed.
#[export] Instance advance_authority_touches n d e t : TCElemOf TAuthority tables -> Steps (touches tables) (advance_authority n d e t).
Proof. intros Hin. unfold advance_authority. touch_statement. Qed.
#[export] Instance delete_current_touches n : TCElemOf TCurrentCommands tables -> TCElemOf TCurrentObservations tables ->
  TCElemOf TCurrentTombstones tables -> Steps (touches tables) (delete_current n).
Proof. intros H1 H2 H3. unfold delete_current. apply bind_steps; [apply _| |intros _; apply bind_steps; [apply _| |intros _]]; touch_statement. Qed.
#[export] Instance insert_current_command_touches n d c : TCElemOf TCurrentCommands tables -> Steps (touches tables) (insert_current_command n d c).
Proof. intros Hin. unfold insert_current_command. touch_statement. Qed.
#[export] Instance insert_current_observation_touches n d o : TCElemOf TCurrentObservations tables -> Steps (touches tables) (insert_current_observation n d o).
Proof. intros Hin. unfold insert_current_observation. touch_statement. Qed.
#[export] Instance insert_current_tombstone_touches n d o : TCElemOf TCurrentTombstones tables -> Steps (touches tables) (insert_current_tombstone n d o).
Proof. intros Hin. unfold insert_current_tombstone. touch_statement. Qed.
#[export] Instance insert_update_touches u t : TCElemOf TUpdates tables -> Steps (touches tables) (insert_update u t).
Proof.
  intros Hin. apply exec_steps. intros db db' E. simpl in E.
  destruct (insert_row _ _ _ _) as [t'|] eqn:Hins; [|done]. injection E as <-.
  apply insert_row_keyed in Hins. eapply touched_insert; [exact Hin|exact Hins|]. by constructor.
Qed.
#[export] Instance write_claim_touches k r : TCElemOf TClaims tables -> Steps (touches tables) (write_claim k r).
Proof. intros Hin. unfold write_claim. touch_statement. Qed.
#[export] Instance write_attempt_touches k r : TCElemOf TAttempts tables ->
  Steps (touches tables) (exec (fun db => Ok (with_attempts (<[k := r]> (github_jit_attempts db)) db))).
Proof. intros Hin. touch_statement. Qed.
#[export] Instance write_runtime_touches p b : TCElemOf TRuntime tables ->
  Steps (touches tables) (exec (fun db => Ok (with_bindings b (with_policies p db)))).
Proof.
  intros Hin. apply exec_steps. intros db db' [= <-]. transitivity (with_policies p db).
  - eapply touched; [exact Hin|constructor].
  - eapply touched; [exact Hin|constructor].
Qed.
End statements.

(** ** Methods *)

#[export] Instance mapping_error_steps (R : ControllerDB -> ControllerDB -> Prop) {A} wrap (m : program A) :
  Steps R m -> Steps R (mapping_error wrap m).
Proof. intros Hm db a db' E%run_mapping_error_ok. by apply (Hm db a). Qed.
Lemma dropping_ok {A} (m : program A) db db' :
  run (dropping m) db = (Ok tt, db') -> exists a, run m db = (Ok a, db').
Proof.
  unfold dropping, run. rewrite bind_unfold. destruct (m (calm db)) as [[a|e] c]; [|done].
  intros [= <-]. eauto.
Qed.

Lemma insertNodeOwnerAudit_ok t nodeID action db db' :
  run (insertNodeOwnerAudit t (management_revision db) nodeID action) db = (Ok tt, db') ->
  validateAuditRecord (owner_audit nodeID action) = None /\ next_audit_sequence db <= max_int64 /\
  db' = with_event t (owner_audit nodeID action) db.
Proof.
  unfold insertNodeOwnerAudit. intros (e & mid & E%run_mapping_error_ok & [_ <-]%run_ret_ok)%run_bind_ok; [|apply _].
  apply insertAuditEvent_ok in E as (Hv & Hs & -> & ->). done.
Qed.

(** The evidence is appended with the revision that was read before. *)
Lemma insertNodeOwnerAudit_touches tables t nodeID action db db' :
  TCElemOf TTrail tables -> 0 < t ->
  run (insertNodeOwnerAudit t (management_revision db) nodeID action) db = (Ok tt, db') ->
  rtc (touches tables) db db' /\ management_revision db' = management_revision db.
Proof.
  intros Hin Ht (Hv & Hs & ->)%insertNodeOwnerAudit_ok. split; [|done].
  eapply touched; [exact Hin|]. by constructor.
Qed.
Lemma adoptNodeOwnerState_touches tables nodeID intent exclusions shared t :
  TCElemOf TSessions tables -> TCElemOf TExclusions tables -> TCElemOf TTrail tables -> 0 < t ->
  Steps (touches tables) (adoptNodeOwnerState nodeID intent exclusions shared t).
Proof.
  intros Hs Hx Htr Ht. unfold adoptNodeOwnerState. apply bind_steps; [apply _| |intros _].
  { unfold adoptNodeSharedRunnerIdentity. apply _. }
  apply bind_steps; [apply _|unfold adoptNodeAvailabilityIntent; apply _|intros changed].
  apply bind_steps; [apply _|unfold adoptNodeTargetExclusions; apply _|intros excluded].
  destruct (negb _); [apply _|].
  intros db a db' (revision & mid & Hr & E)%run_bind_ok; [|apply _].
  apply readManagementRevision_ok in Hr as (-> & -> & _).
  apply run_bind_ok in E as ([] & mid1 & E1 & E); [|apply _].
  apply run_bind_ok in E as ([] & mid2 & E2 & [_ <-]%run_ret_ok); [|apply _].
  assert (rtc (touches tables) db mid1 /\ management_revision mid1 = management_revision db) as [H1 Hrev].
  { destruct changed; [by eapply insertNodeOwnerAudit_touches|]. by apply run_ret_ok in E1 as [_ <-]. }
  transitivity mid1; [done|]. rewrite <- Hrev in E2.
  destruct excluded; [by eapply insertNodeOwnerAudit_touches|]. by apply run_ret_ok in E2 as [_ <-].
Qed.
Lemma commit_adoption_touches tables s body :
  Follows body -> Steps (touches tables) body -> Steps (touches tables) (commit_adoption s body).
Proof. intros Hf Hs. unfold commit_adoption. apply _. Qed.

(** The tables of each method. *)
Definition work_tables (m : work_method) : list work_table :=
  match m with
  | WAssign _ _ _ _ => [TExecutions; TReservations; TMessages]
  | WCommitCommand _ => [TCommands]
  | WCommitReconciliation _ _ => [TCommands; TReconciliations]
  | WRecordSnapshot _ _ _ =>
      [TSessions; TAuthority; TSnapshotCommands; TObservations; TTombstones; TCurrentCommands;
       TCurrentObservations; TCurrentTombstones; TExclusions; TStates; TTrail]
  | WRecordReadiness _ _ _ => [TSessions; TAuthority]
  | WRecordOwnerState _ _ _ _ _ => [TSessions; TExclusions; TTrail]
  | WAdopt _ _ _ _ _ => [TExecutions]
  | WFail _ _ _ _ _ => [TExecutions; TReservations]
  | WRecordUpdate _ => [TExecutions; TReservations; TUpdates; TStates]
  | WGitHub _ => [TExecutions; TReservations; TClaims; TAttempts; TRuntime; TStates]
  end.

#[export] Instance recordSnapshotCommand_touches tables n c :
  TCElemOf TSnapshotCommands tables -> Steps (touches tables) (recordSnapshotCommand n c).
Proof. intros Hin. unfold recordSnapshotCommand. apply _. Qed.
#[export] Instance recordSnapshotObservation_touches tables n t o :
  TCElemOf TObservations tables -> TCElemOf TStates tables -> Steps (touches tables) (recordSnapshotObservation n t o).
Proof. intros H1 H2. unfold recordSnapshotObservation. apply _. Qed.
#[export] Instance recordSnapshotTombstone_touches tables n t o :
  TCElemOf TTombstones tables -> TCElemOf TStates tables -> Steps (touches tables) (recordSnapshotTombstone n t o).
Proof. intros H1 H2. unfold recordSnapshotTombstone. apply _. Qed.
Lemma steps_run {R : ControllerDB -> ControllerDB -> Prop} {A} (m : program A) db a db' :
  run m db = (Ok a, db') -> Steps R m -> rtc R db db'.
Proof. intros E Hm. by eapply Hm. Qed.

Lemma work_touches s m db db' :
  run (work_program s m) db = (Ok tt, db') -> rtc (touches (work_tables m)) db db'.
Proof.
  assert (Hdrop : forall tables A (p : program A), Steps (touches tables) p -> Steps (touches tables) (dropping p)).
  { intros tables A p Hp d [] d' [a E]%dropping_ok. by apply (Hp d a). }
  destruct m; cbn [work_program work_tables]; intros E.
  { apply dropping_ok in E as [answer [_ E]%Assign_calm]. apply (steps_run _ _ _ _ E). unfold assignOnce. apply _. }
  all: apply (steps_run _ _ _ _ E); try apply Hdrop.
  - unfold CommitAgentCommand. apply _.
  - unfold CommitAgentReconciliationCommand. apply _.
  - unfold RecordAgentSnapshot. repeat first [apply bind_steps; [apply _|apply _|intros _]|case_match; [apply _|]].
    intros d [] d' (digest & mid & [_ <-]%run_lift_ok & E1)%run_bind_ok; [|apply _].
    apply run_bind_ok in E1 as (at_ & mid & [[Hat _]%storeUnixNano_range <-]%run_lift_ok & E1); [|apply _].
    apply (steps_run _ _ _ _ E1), commit_adoption_touches; [apply _|].
    apply bind_steps; [apply _| |intros _; apply adoptNodeOwnerState_touches; (apply _ || lia)].
    unfold record_snapshot. apply _.
  - unfold RecordAgentReadiness. apply _.
  - unfold RecordNodeOwnerState. repeat first [apply bind_steps; [apply _|apply _|intros _]|case_match; [apply _|]].
    intros d [] d' (at_ & mid & [[Hat _]%storeUnixNano_range <-]%run_lift_ok & E1)%run_bind_ok; [|apply _].
    apply (steps_run _ _ _ _ E1), commit_adoption_touches; [apply _|].
    apply bind_steps; [apply _..|intros _]. apply bind_steps; [apply _..|intros ?].
    apply bind_steps; [apply _..|intros _]. apply adoptNodeOwnerState_touches; (apply _ || lia).
  - unfold AdoptAgentSnapshotObservation. apply _.
  - unfold FailDesiredExecutionFromSnapshot. apply _.
  - unfold RecordAgentExecutionUpdate, advance_desired, settle_lease. apply _.
  - unfold github_program, insert_slot_claim, advance_observed, finish_lost_execution,
      end_lost_execution, check_lost_execution.
    destruct g; apply _.
Qed.

(** ** The rest of the database *)

Lemma quarantined_wf db nodeID : controller_wf db -> controller_wf (quarantined_db nodeID db).
Proof.
  intros Hwf. unfold quarantined_db. destruct (node_administrative_states db !! nodeID) as [st|] eqn:Hst; [|done].
  case_bool_decide as Hne; [done|]. destruct (cwf_states _ Hwf _ _ Hst) as [_ (row & Hrow & Hiff)].
  apply (keep_state _ _ row st); try done; [|set_solver]. destruct (en_revoked row); [|done]. by destruct Hne; apply Hiff.
Qed.
Lemma touch_wf table db db' : touch table db db' -> controller_wf db -> controller_wf db'.
Proof.
  intros [] Hwf;
    try (destruct Hwf; split; simpl; try eassumption; [by destruct cwf_configuration|by destruct cwf_trail]).
  - by apply quarantined_wf.
  - by apply keep_append.
Qed.
Lemma work_wf_frame s m db db' :
  run (work_program s m) db = (Ok tt, db') -> controller_wf db -> controller_wf db'.
Proof.
  intros E%work_touches Hwf. eapply touches_invariant; [exact E|done|]. intros table _ d d'. apply touch_wf.
Qed.

(** Messages, commands and updates are kept. *)
Record work_grows (db db' : ControllerDB) : Prop := {
  wg_messages : processed_messages (agent_work db) ⊆ processed_messages (agent_work db');
  wg_commands : agent_commands (agent_work db) ⊆ agent_commands (agent_work db');
  wg_reconciliations : reconciliation_agent_commands (agent_work db) ⊆ reconciliation_agent_commands (agent_work db');
  wg_updates : agent_execution_updates (agent_work db) ⊆ agent_execution_updates (agent_work db') }.
#[export] Instance work_grows_preorder : PreOrder work_grows.
Proof.
  split; [by intros db|]. intros db1 db2 db3 [] []. split; by etransitivity.
Qed.
Lemma touch_grows table db db' : touch table db db' -> work_grows db db'.
Proof.
  intros []; try (split; simpl; done). unfold quarantined_db. destruct (_ !! _); [case_bool_decide|]; by split.
Qed.
Lemma work_program_grows s m db db' : run (work_program s m) db = (Ok tt, db') -> work_grows db db'.
Proof.
  intros E%work_touches. induction E as [|db mid db' (table & _ & Ht) _ IH]; [reflexivity|].
  etransitivity; [by eapply touch_grows|done].
Qed.
