(* ===== verification/WorkSpec.v ===== *)
(** * Executions and their leases

    What the methods of work do to executions and slot leases, transaction by
    transaction ([lease_step]); the invariant that leases mirror the executions that are
    not over ([lease_wf]); and that desired states only advance. *)

From S2P Require Import Prelude GoStd GoEncoding Sql StoreBase EnrollRegistry EnrollPKI Domain Execution Replay Fence Transport AgentStore WorkTables ControllerStore StoreEnroll AuditTrail Management WorkStore WorkAgent WorkReport WorkGitHub ControllerSpec ControllerFacts WorkFacts WorkFrame.
From Stdlib Require Import Ascii.

(** ** States *)

Abbreviation active state := (terminalControllerExecution state = false).
Lemma check_state_known state : state ∈ execution_check_states -> isKnownExecutionState state = true.
Proof. unfold execution_check_states. rewrite !elem_of_cons, elem_of_nil. intros H. destruct_or!; by subst. Qed.
Lemma terminal_stays from to :
  terminalControllerExecution from = true -> CanReachExecutionState from to = true -> to = from.
Proof.
  intros Ht Hr. pose proof (can_reach_known _ _ Hr) as [Hf Hk].
  set (fixed := fun a b : string =>
    implb (terminalControllerExecution a && CanReachExecutionState a b) (bool_decide (b = a))).
  assert (H : fixed from to = true) by (apply known_forall2; [by vm_compute|done..]).
  unfold fixed in H. rewrite Ht, Hr in H. by apply bool_decide_eq_true in H.
Qed.
Lemma reach_transitive a b c :
  CanReachExecutionState a b = true -> CanReachExecutionState b c = true -> CanReachExecutionState a c = true.
Proof.
  intros Hab Hbc%can_reach_rtc. induction Hbc as [|b b' c Hs _ IH]; [done|].
  apply IH. by eapply can_reach_step.
Qed.

(** ** Steps *)

(** How a desired state may change: forward along the lifecycle, or, under the
    authority of a snapshot without the execution, from any active state to failed. *)
Definition state_advances (from to : string) : Prop :=
  CanReachExecutionState from to = true \/ (active from /\ to = ExecutionFailed).
Lemma state_advances_trans a b c : state_advances a b -> state_advances b c -> state_advances a c.
Proof.
  intros [Hab|[Ha ->]] [Hbc|[Hb ->]].
  - left. by eapply reach_transitive.
  - right. split; [|done]. apply not_true_iff_false. intros Ha. rewrite (terminal_stays a b) in Hb by done. congruence.
  - right. split; [done|]. by apply terminal_stays.
  - by right.
Qed.
(** An execution keeps its identity. *)
Definition row_advances (row row' : ExecutionRow) : Prop :=
  exists state, row' = row_with_state state row /\ state_advances (ex_state row) state.

(** The leases without that of an execution. *)
Definition without_lease (executionID : string) (t : gmap (string * Z) ReservationRow) : gmap (string * Z) ReservationRow :=
  filter (fun row => sr_execution_id row.2 <> executionID) t.
(** One transaction: a slot is claimed for a new execution, an active execution stays
    active, or an execution ends and its lease is released. *)
Inductive lease_step (db db' : ControllerDB) : Prop :=
  | lease_same :
      executions db' = executions db -> slot_reservations db' = slot_reservations db -> lease_step db db'
  | lease_claim e t :
      ExecutionSnapshot_Validate e = None -> exec_State e = ExecutionReserved -> lease_free e t db ->
      executions db' = executions (leased_db e t db) ->
      slot_reservations db' = slot_reservations (leased_db e t db) -> lease_step db db'
  | lease_move id row to :
      executions db !! id = Some row -> CanReachExecutionState (ex_state row) to = true ->
      active to -> to ∈ execution_check_states ->
      executions db' = <[id := row_with_state to row]> (executions db) ->
      slot_reservations db' = slot_reservations db -> lease_step db db'
  | lease_end id row to :
      executions db !! id = Some row -> state_advances (ex_state row) to ->
      terminalControllerExecution to = true ->
      executions db' = <[id := row_with_state to row]> (executions db) ->
      execution_leased id db = true ->
      slot_reservations db' = without_lease id (slot_reservations db) -> lease_step db db'.

(** ** What the statements did *)

Lemma cas_execution_ok id from to db n db' :
  run (cas_execution id from to) db = (Ok n, db') ->
  (n = 0 /\ db' = db) \/
  (n = 1 /\ exists row, executions db !! id = Some row /\ ex_state row = from /\ to ∈ execution_check_states /\
    db' = with_executions (<[id := row_with_state to row]> (executions db)) db).
Proof.
  intros E%run_statement_ok. destruct (executions db !! id) as [row|]; [|simplify_eq; by left].
  case_bool_decide as Hs; simpl in E; [|simplify_eq; by left]. case_bool_decide; [|done]. simplify_eq/=.
  right. split; [done|].
  by exists row.
Qed.
Lemma release_lease_ok id db n db' :
  run (release_lease id) db = (Ok n, db') ->
  n = Z.of_nat (size (slot_reservations db) - size (without_lease id (slot_reservations db))) /\
  db' = with_reservations (without_lease id (slot_reservations db)) db.
Proof.
  intros E%run_statement_ok. simpl in E. fold (without_lease id (slot_reservations db)) in E.
  destruct (_ && _) in E; [done|]. by simplify_eq.
Qed.
Lemma released_leased id db :
  Z.of_nat (size (slot_reservations db) - size (without_lease id (slot_reservations db))) = 1 ->
  execution_leased id db = true.
Proof.
  intros Hn. destruct (execution_leased id db) eqn:Hl; [done|]. exfalso.
  replace (without_lease id (slot_reservations db)) with (slot_reservations db) in Hn; [lia|].
  symmetry. apply map_filter_id. intros key r Hr Heq. simpl in Heq.
  unfold execution_leased in Hl. apply not_true_iff_false in Hl. apply Hl, existsb_exists.
  exists (key, r). rewrite <- list_elem_of_In, elem_of_map_to_list. split; [done|]. by apply bool_decide_eq_true.
Qed.
Lemma quarantineNode_ok nodeID db db' :
  run (quarantineNode nodeID) db = (Ok tt, db') ->
  db' = quarantined_db nodeID db /\
  exists state, node_administrative_states db !! nodeID = Some state /\ state <> NodeRevoked.
Proof.
  unfold quarantineNode. intros (n & mid & E%run_statement_ok & E1)%run_bind_ok; [|apply _].
  destruct (node_administrative_states db !! nodeID) as [state|] eqn:Hs.
  - destruct (decide (state = NodeRevoked)) as [Hr|Hr];
      [rewrite bool_decide_eq_true_2 in E by done|rewrite bool_decide_eq_false_2 in E by done];
      injection E as <- <-; simpl in E1; [by apply run_throw_ok in E1|].
    apply run_ret_ok in E1 as [_ <-]. eauto.
  - injection E as <- <-. simpl in E1. by apply run_throw_ok in E1.
Qed.
Lemma quarantined_tables nodeID db :
  executions (quarantined_db nodeID db) = executions db /\
  slot_reservations (quarantined_db nodeID db) = slot_reservations db /\
  agent_work (quarantined_db nodeID db) = agent_work db.
Proof. unfold quarantined_db. destruct (_ !! _); [case_bool_decide|]; done. Qed.

(** ** What the methods did *)

Lemma cas_one_ok {A} id from to (next : program A) err db a db' :
  run (affected ← cas_execution id from to ; if affected != 1 then throw err else next) db = (Ok a, db') ->
  exists row, executions db !! id = Some row /\ ex_state row = from /\ to ∈ execution_check_states /\
    run next (with_executions (<[id := row_with_state to row]> (executions db)) db) = (Ok a, db').
Proof.
  intros (n & mid & E & E1)%run_bind_ok; [|apply _].
  apply cas_execution_ok in E as [[-> ->]|(-> & row & Hrow & Hs & Hto & ->)]; [by apply run_throw_ok in E1|].
  exists row. by split_and!.
Qed.
Lemma release_one_ok {A} id (next : program A) err db a db' :
  run (affected ← release_lease id ; if affected != 1 then throw err else next) db = (Ok a, db') ->
  execution_leased id db = true /\
  run next (with_reservations (without_lease id (slot_reservations db)) db) = (Ok a, db').
Proof.
  intros (n & mid & E & E1)%run_bind_ok; [|apply _]. apply release_lease_ok in E as [Hn ->].
  case_bool_decide as H1; [|by apply run_throw_ok in E1].
  simpl in E1. split; [|done]. apply released_leased. congruence.
Qed.

(** Read on: what the method read and the conditions it passed stay as hypotheses. *)
Lemma run_read_bind_ok {A B} (m : program A) (f : A -> program B) db b db' :
  Follows m -> ReadOnly m -> run (m ≫= f) db = (Ok b, db') ->
  exists a, run m db = (Ok a, db) /\ run (f a) db = (Ok b, db').
Proof.
  intros Hf Hr (a & mid & E & E1)%run_bind_ok; [|done]. exists a.
  pose proof (run_read_only m db Hr) as H. rewrite E in H. simpl in H. by subst.
Qed.
Ltac read_on E := repeat lazymatch type of E with
  | run (throw _) _ = _ => by apply run_throw_ok in E
  | run (match ?x with _ => _ end) _ = _ => destruct x eqn:?
  | run (in_tx _) _ = _ => unfold in_tx in E
  | run (in_tx_recovering _ _) _ = (Ok _, _) =>
      let Hend := fresh "Hend" in
      apply run_in_tx_recovering_ok in E as (? & ? & E & Hend); [|typeclasses eauto]
  | run (mbind _ _) _ = _ => apply run_read_bind_ok in E as (? & ? & E); [|typeclasses eauto..]
  end; cbn beta iota zeta in *.
Ltac read_facts := repeat match goal with
  | H : run (require _) _ = (Ok _, _) |- _ => apply run_require_ok in H as [H _]
  | H : run (lift _) _ = (Ok _, _) |- _ => apply run_lift_ok in H as [H _]
  | H : run (query _) _ = (Ok _, _) |- _ => apply run_query_ok in H as [H _]
  end.
Ltac committed E Hend :=
  let H := fresh in apply run_ret_ok in E as [H ?]; subst;
  destruct Hend as [[H ?]|[H _]]; [|done]; simplify_eq.

Lemma leases_of_assign s a db answer db' :
  Assignment_Validate a = None -> run (assignOnce s a) db = (Ok answer, db') -> lease_step db db'.
Proof.
  intros Hv (t & _ & [(_ & -> & _)|(_ & Hfree & _ & _ & _ & ->)])%assignOnce_ok; [by apply lease_same|].
  unfold Assignment_Validate in Hv. destruct (_ || _); [done|]. destruct (negb _); [done|].
  destruct (ExecutionSnapshot_Validate _) eqn:He; [done|]. case_bool_decide as Hs; [|done].
  by eapply lease_claim.
Qed.

Lemma loadControllerExecution_ok id db e db' :
  run (loadControllerExecution id) db = (Ok e, db') ->
  exists row, executions db !! id = Some row /\ e = execution_of id row /\ ExecutionSnapshot_Validate e = None.
Proof.
  intros [E _]%run_query_ok. destruct (executions db !! id) as [row|] eqn:Hrow; [|done].
  cbv zeta in E. destruct (ExecutionSnapshot_Validate _) eqn:Hv; [done|]. injection E as <-. by exists row.
Qed.
Lemma not_terminal_observation to : terminalAgentExecutionObservation to = false -> active to.
Proof.
  unfold terminalAgentExecutionObservation, terminalControllerExecution. rewrite !bool_decide_eq_false. set_solver.
Qed.
(** A compare-and-swap to a state that keeps the lease. *)
Lemma move_step id row to db db' :
  executions db !! id = Some row -> CanReachExecutionState (ex_state row) to = true -> active to ->
  to ∈ execution_check_states -> db' = with_executions (<[id := row_with_state to row]> (executions db)) db ->
  lease_step db db'.
Proof. intros H1 H2 H3 H4 ->. by eapply lease_move. Qed.

Lemma leases_of_adopt s nodeID expected o digest epoch db answer db' :
  run (AdoptAgentSnapshotObservation s nodeID expected o digest epoch) db = (Ok answer, db') -> lease_step db db'.
Proof.
  unfold AdoptAgentSnapshotObservation. intros E. read_on E.
  - committed E Hend. by apply lease_same.
  - apply loadControllerExecution_ok in H1 as (row & Hrow & -> & _).
    apply cas_one_ok in E as (row' & Hrow' & _ & Hto & E). committed E Hend. simplify_eq.
    eapply move_step; [done| | |done|done]; [|by apply not_terminal_observation].
    by apply negb_false_iff in Heqb5.
Qed.
Lemma leases_of_fail s nodeID id expected digest epoch db answer db' :
  run (FailDesiredExecutionFromSnapshot s nodeID id expected digest epoch) db = (Ok answer, db') -> lease_step db db'.
Proof.
  unfold FailDesiredExecutionFromSnapshot. intros E. read_on E.
  apply loadControllerExecution_ok in H1 as (row & Hrow & -> & Hv).
  apply cas_one_ok in E as (row' & Hrow' & Hst & Hto & E). apply release_one_ok in E as [Hl E]. committed E Hend.
  simplify_eq. apply (lease_end _ _ id row ExecutionFailed); try done.
  right. split; [|done]. by apply orb_false_iff in Heqb0 as [_ ?].
Qed.

(** An update moves the desired state, unless its command was a teardown. *)
Lemma advance_desired_ok u reconciliation row db db' :
  executions db !! aeu_ExecutionID u = Some row ->
  run (advance_desired u reconciliation (ex_state row)) db = (Ok tt, db') ->
  if reconciliation then
    db' = db /\ ex_state row ∈ [ExecutionReleased; ExecutionFailed] /\
    aeu_State u ∈ [ExecutionCleaning; ExecutionReleased; ExecutionFailed; ExecutionCleanupFailed; ExecutionQuarantined]
  else
    (ex_state row = aeu_State u \/
     (CanReachExecutionState (ex_state row) (aeu_State u) = true /\ aeu_State u ∈ execution_check_states)) /\
    db' = with_executions (<[aeu_ExecutionID u := row_with_state (aeu_State u) row]> (executions db)) db.
Proof.
  intros Hrow E. unfold advance_desired in E. read_on E.
  - apply run_ret_ok in E as [_ <-]. conditions. done.
  - apply cas_one_ok in E as (row' & Hrow' & _ & Hto & [_ <-]%run_ret_ok). simplify_eq. conditions.
    split; [right; done|done].
  - apply run_ret_ok in E as [_ <-]. conditions. split; [by left|].
    rewrite insert_id; [by destruct db|]. rewrite Hrow. f_equal. destruct row. unfold row_with_state. simpl in *. by subst.
Qed.

(** What an update of a terminal or uncertain state does besides. *)
Definition settled_db (u : AgentExecutionUpdate) (reconciliation : bool) (db : ControllerDB) : ControllerDB :=
  let db := if bool_decide (aeu_State u ∈ [ExecutionCleanupFailed; ExecutionQuarantined])
            then quarantined_db (aeu_NodeID u) db else db in
  if terminalControllerExecution (aeu_State u) && negb reconciliation
  then with_reservations (without_lease (aeu_ExecutionID u) (slot_reservations db)) db else db.
Lemma settle_lease_ok u reconciliation db db' :
  run (settle_lease u reconciliation) db = (Ok tt, db') ->
  db' = settled_db u reconciliation db /\
  (terminalControllerExecution (aeu_State u) && negb reconciliation = true -> execution_leased (aeu_ExecutionID u) db = true) /\
  (aeu_State u ∈ [ExecutionCleanupFailed; ExecutionQuarantined] ->
   exists st, node_administrative_states db !! aeu_NodeID u = Some st /\ st <> NodeRevoked).
Proof.
  unfold settle_lease, settled_db. destruct (terminalControllerExecution _) eqn:Ht.
  - assert (Hq : aeu_State u ∈ [ExecutionCleanupFailed; ExecutionQuarantined] <-> aeu_State u = ExecutionQuarantined).
    { rewrite !elem_of_cons, elem_of_nil. split; [intros [H|[H|[]]]; [|done]|by auto]. by rewrite H in Ht. }
    rewrite (bool_decide_ext _ _ Hq), Hq. clear Hq.
    intros ([] & mid & E1 & E2)%run_bind_ok; [|destruct (_ == _); apply _].
    assert (H1 : mid = (if aeu_State u == ExecutionQuarantined then quarantined_db (aeu_NodeID u) db else db) /\
      (aeu_State u = ExecutionQuarantined -> exists st, node_administrative_states db !! aeu_NodeID u = Some st /\ st <> NodeRevoked)).
    { case_bool_decide; [by apply quarantineNode_ok in E1 as (-> & H1)|]. by apply run_ret_ok in E1 as [_ <-]. }
    destruct H1 as [Hmid H1]. rewrite <- Hmid. destruct reconciliation; simpl.
    + apply run_ret_ok in E2 as [_ <-]. done.
    + apply release_one_ok in E2 as [Hl [_ <-]%run_ret_ok]. split; [done|]. split; [|done]. intros _.
      subst mid. case_bool_decide; [|done]. unfold execution_leased in *.
      by rewrite (proj1 (proj2 (quarantined_tables _ db))) in Hl.
  - assert (Hq : aeu_State u ∈ [ExecutionCleanupFailed; ExecutionQuarantined] <-> aeu_State u = ExecutionCleanupFailed).
    { rewrite !elem_of_cons, elem_of_nil. split; [intros [H|[H|[]]]; [done|]|by auto]. by rewrite H in Ht. }
    rewrite (bool_decide_ext _ _ Hq), Hq. clear Hq. simpl. case_bool_decide.
    + intros (-> & H1)%quarantineNode_ok. done.
    + by intros [_ <-]%run_ret_ok.
Qed.

(** The part of an update that concerns the execution. *)
Lemma leases_of_settling u reconciliation row t db mid1 mid2 db' :
  executions db !! aeu_ExecutionID u = Some row -> isKnownExecutionState (aeu_State u) = true ->
  run (advance_desired u reconciliation (ex_state row)) db = (Ok tt, mid1) ->
  run (insert_update u t) mid1 = (Ok tt, mid2) ->
  run (settle_lease u reconciliation) mid2 = (Ok tt, db') ->
  lease_step db db'.
Proof.
  intros Hrow Hknown Hadv Hins Hset.
  assert (Htables : executions mid2 = executions mid1 /\ slot_reservations mid2 = slot_reservations mid1).
  { apply (steps_run (R := touches [TUpdates])) in Hins; [|apply _].
    untouched Hins executions. untouched Hins slot_reservations. done. }
  destruct Htables as [He Hs]. apply (advance_desired_ok _ _ _ _ _ Hrow) in Hadv.
  apply settle_lease_ok in Hset as (-> & Hl & _). unfold settled_db.
  set (q := if bool_decide _ then _ else _).
  assert (executions q = executions mid1 /\ slot_reservations q = slot_reservations mid1) as [Hqe Hqs].
  { unfold q. destruct (bool_decide _); [|done]. destruct (quarantined_tables (aeu_NodeID u) mid2) as (-> & -> & _). done. }
  destruct reconciliation.
  - rewrite andb_false_r. destruct Hadv as [-> _]. by apply lease_same; rewrite ?Hqe, ?Hqs.
  - rewrite andb_true_r in *. destruct Hadv as [Hto ->]. simpl in *.
    assert (Hreach : CanReachExecutionState (ex_state row) (aeu_State u) = true).
    { destruct Hto as [->|[? _]]; [|done]. by apply can_reach_refl. }
    destruct (terminalControllerExecution (aeu_State u)) eqn:Ht.
    + apply (lease_end _ _ (aeu_ExecutionID u) row (aeu_State u)); try done; [by left| |simpl; by rewrite Hqs].
      rewrite <- Hl by done. unfold execution_leased. by rewrite Hs.
    + destruct Hto as [Heq|[_ Hcheck]]; [|by apply (lease_move _ _ (aeu_ExecutionID u) row (aeu_State u))].
      apply lease_same; [|done]. rewrite Hqe, insert_id; [done|]. rewrite Hrow. f_equal.
      destruct row. unfold row_with_state. simpl in *. by subst.
Qed.

(** What an accepted update did; [false] for a new one. *)
Lemma RecordAgentExecutionUpdate_ok s u db replayed db' :
  run (RecordAgentExecutionUpdate s u) db = (Ok replayed, db') ->
  validateAgentExecutionUpdate u = None /\
  ((replayed = true /\ db' = db /\ loadAgentExecutionUpdate (aeu_NodeID u) (aeu_MessageID u) db = Ok (Some u)) \/
   (replayed = false /\ loadAgentExecutionUpdate (aeu_NodeID u) (aeu_MessageID u) db = Ok None /\
    exists issued reconciliation row t mid1 mid2,
      loadIssuedAgentCommand (aeu_CommandID u) db = Ok (Some issued) /\ issued_NodeID issued = aeu_NodeID u /\
      command_ExecutionID (issued_Command issued) = aeu_ExecutionID u /\
      agentCommandMayReport (issued_Type issued) (aeu_State u) = true /\
      agentCommandIsReconciliation (aeu_CommandID u) db = Ok reconciliation /\
      executions db !! aeu_ExecutionID u = Some row /\ ex_node_id row = aeu_NodeID u /\
      storeUnixNano (store_now (cs_base s)) = Ok t /\
      run (advance_desired u reconciliation (ex_state row)) db = (Ok tt, mid1) /\
      run (insert_update u t) mid1 = (Ok tt, mid2) /\
      run (settle_lease u reconciliation) mid2 = (Ok tt, db'))).
Proof.
  unfold RecordAgentExecutionUpdate. intros E. read_on E; read_facts.
  - apply run_ret_ok in E as [E ?]. destruct Hend as [[? _]|[Hend ?]]; [by subst|]. simplify_eq. split; [done|].
    left. conditions. by subst.
  - apply loadControllerExecution_ok in H6 as (row & Hrow & -> & _).
    apply run_bind_ok in E as ([] & mid1 & Hadv & E); [|apply _].
    apply run_bind_ok in E as ([] & mid2 & Hins & E); [|apply _].
    apply run_bind_ok in E as ([] & mid3 & Hset & E); [|apply _]. committed E Hend.
    split; [done|]. right. split; [done|]. split; [done|]. conditions. destruct Heqb as [Hn Hx].
    eexists _, _, row, _, mid1, mid2. split_and!; try eassumption.
Qed.
Lemma validate_update_known u : validateAgentExecutionUpdate u = None -> isKnownExecutionState (aeu_State u) = true.
Proof.
  unfold validateAgentExecutionUpdate. destruct (_ || _); [done|].
  unfold ExecutionState_Validate. by destruct (isKnownExecutionState _).
Qed.
Lemma leases_of_update s u db replayed db' :
  run (RecordAgentExecutionUpdate s u) db = (Ok replayed, db') -> lease_step db db'.
Proof.
  intros (Hv & [(_ & -> & _)|(_ & _ & issued & rec & row & t & mid1 & mid2 & _ & _ & _ & _ & _ & Hrow & _ & _ & H1 & H2 & H3)])
    %RecordAgentExecutionUpdate_ok; [by apply lease_same|].
  eapply leases_of_settling; try eassumption. by apply validate_update_known.
Qed.

Lemma write_claim_tables key row db db' :
  run (write_claim key row) db = (Ok tt, db') ->
  executions db' = executions db /\ slot_reservations db' = slot_reservations db.
Proof.
  intros E. apply (steps_run (R := touches [TClaims])) in E; [|apply _].
  untouched E executions. untouched E slot_reservations. done.
Qed.
(** What the end of a lost JIT runner did: it ended an execution that was preparing, or
    found it already ended and left its lease. *)
Lemma finish_lost_ok id terminalState db db' :
  run (finish_lost_execution id terminalState) db = (Ok tt, db') ->
  exists row, executions db !! id = Some row /\ lostJITTerminalState terminalState = true /\
    (ex_state row = ExecutionPreparing /\
       executions db' = <[id := row_with_state terminalState row]> (executions db) /\
       (terminalState = ExecutionCleanupFailed /\ slot_reservations db' = slot_reservations db \/
        terminalState <> ExecutionCleanupFailed /\ execution_leased id db = true /\
        slot_reservations db' = without_lease id (slot_reservations db)) \/
     ex_state row = terminalState /\ executions db' = executions db /\
       slot_reservations db' = slot_reservations db).
Proof.
  unfold finish_lost_execution. destruct (lostJITTerminalState terminalState) eqn:Hterm; simpl;
    [|by intros ?%run_throw_ok].
  intros (e & E1 & E)%run_read_bind_ok; [|apply _..].
  apply loadControllerExecution_ok in E1 as (row & Hrow & -> & _). simpl in E.
  exists row. split_and!; [done..|]. case_bool_decide as Hprep; [left|right].
  - unfold end_lost_execution in E. apply cas_one_ok in E as (row' & Hrow' & _ & _ & E). simplify_eq.
    split; [done|]. set (ended := with_executions _ _) in E.
    destruct (bool_decide (terminalState ∈ _)) eqn:H1 in E; [|destruct (bool_decide (terminalState = _)) eqn:H2 in E];
      conditions.
    + apply release_one_ok in E as [Hl [_ <-]%run_ret_ok]. split; [done|]. right. split; [|by split].
      intros ->. rewrite !elem_of_cons, elem_of_nil in H1. by destruct_or!.
    + apply quarantineNode_ok in E as [-> _].
      destruct (quarantined_tables (ex_node_id row) ended) as (He & Hs & _). split; [done|]. by left.
    + apply run_bind_ok in E as ([] & m & [-> _]%quarantineNode_ok & E); [|apply _].
      destruct (quarantined_tables (ex_node_id row) ended) as (He & Hs & _).
      apply release_one_ok in E as [Hl [_ <-]%run_ret_ok]. simpl. split; [done|]. right.
      unfold execution_leased in Hl. rewrite Hs in *. done.
  - case_bool_decide as Hsame; [|by apply run_throw_ok in E]. split; [done|].
    unfold check_lost_execution in E. apply run_read_bind_ok in E as (leased & _ & E); [|apply _..].
    destruct (bool_decide (terminalState = ExecutionCleanupFailed)); [destruct leased|
      destruct leased; [|destruct (bool_decide (terminalState = ExecutionQuarantined))]]; simpl in E;
      try (by apply run_throw_ok in E); try (apply quarantineNode_ok in E as [-> _];
        by destruct (quarantined_tables (ex_node_id row) db) as (-> & -> & _)).
    by apply run_ret_ok in E as [_ <-].
Qed.
Lemma leases_of_github g db db' : run (github_program g) db = (Ok tt, db') -> lease_step db db'.
Proof.
  unfold github_program. intros (end_ & db1 & E & Hend)%run_in_tx_recovering_ok; [|destruct g; apply _].
  apply run_bind_ok in E as ([] & mid & E & E1); [|destruct g; apply _]. committed E1 Hend.
  destruct g; cbn beta iota in E.
  - unfold insert_slot_claim in E. read_on E. read_facts.
    apply run_bind_ok in E as ([] & m1 & E1%run_mapping_error_ok & E); [|apply _].
    apply run_bind_ok in E as ([] & m2 & E2%run_mapping_error_ok & E); [|apply _].
    destruct (insert_lease_ok _ _ _ _ _ E1 E2) as [Hfree ->].
    apply write_claim_tables in E as [He Hs]. by eapply lease_claim.
  - unfold advance_observed in E. read_on E.
    apply cas_one_ok in E as (row & Hrow & <- & Hto & [_ <-]%run_ret_ok). apply orb_false_iff in Heqb as [Hr Ht].
    eapply move_step; try done; [by apply negb_false_iff|by apply not_terminal_observation].
  - apply finish_lost_ok in E as (row & Hrow & Hterm & [(Hst & He & Hl)|(_ & He & Hs)]).
    + assert (Hreach : CanReachExecutionState ExecutionPreparing terminalState = true /\
        terminalState ∈ execution_check_states).
      { unfold lostJITTerminalState in Hterm. apply bool_decide_eq_true_1 in Hterm.
        rewrite !elem_of_cons, elem_of_nil in Hterm. destruct_or!; subst; split; try done; set_solver. }
      destruct Hreach as [Hreach Hto]. destruct Hl as [(-> & Hs)|(Hne & Hl & Hs)].
      * by apply (lease_move _ _ executionID row ExecutionCleanupFailed); rewrite ?Hst.
      * apply (lease_end _ _ executionID row terminalState); rewrite ?Hst; try done; [by left|].
        unfold lostJITTerminalState in Hterm. apply bool_decide_eq_true_1 in Hterm.
        rewrite !elem_of_cons, elem_of_nil in Hterm. destruct_or!; by subst.
    + by apply lease_same.
  - apply write_claim_tables in E as [He Hs]. by apply lease_same.
  - apply run_exec_ok in E. injection E as <-. by apply lease_same.
  - apply run_exec_ok in E. injection E as <-. by apply lease_same.
Qed.

(** Every method of work is one step. *)
Lemma work_leases s m db db' : run (work_program s m) db = (Ok tt, db') -> lease_step db db'.
Proof.
  intros E. assert (Hsame : TExecutions ∉ work_tables m -> TReservations ∉ work_tables m -> lease_step db db').
  { intros H1 H2. pose proof (work_touches _ _ _ _ E) as Ht. apply lease_same; eapply touches_keep; try exact Ht;
      intros table Hin d d' Htouch; destruct Htouch as [| | | | | | | | | | | | | | | | | | |dq n|]; try done; apply quarantined_tables. }
  destruct m; try (apply Hsame; cbn [work_tables]; set_solver); cbn [work_program] in E.
  - apply dropping_ok in E as [answer [Hv E]%Assign_calm]. by eapply leases_of_assign.
  - apply dropping_ok in E as [answer E]. by eapply leases_of_adopt.
  - apply dropping_ok in E as [answer E]. by eapply leases_of_fail.
  - apply dropping_ok in E as [answer E]. by eapply leases_of_update.
  - by apply leases_of_github in E.
Qed.

(** ** The invariant *)

Definition lease_of (id : string) (row : ExecutionRow) : ReservationRow := mkReservationRow (ex_target_id row) id.
Definition slot_of (row : ExecutionRow) : string * Z := (ex_node_id row, ex_slot_index row).

Record lease_wf (db : ControllerDB) : Prop := {
  lw_rows : map_Forall (fun id row => execution_check id row = true /\
    ExecutionSnapshot_Validate (execution_of id row) = None) (executions db);
  lw_leased : forall id row, executions db !! id = Some row -> active (ex_state row) ->
    slot_reservations db !! slot_of row = Some (lease_of id row);
  lw_mirror : forall key r, slot_reservations db !! key = Some r ->
    exists row, executions db !! sr_execution_id r = Some row /\ active (ex_state row) /\
      key = slot_of row /\ r = lease_of (sr_execution_id r) row }.

(** Two active executions never share a slot. *)
Lemma leases_exclusive db id1 id2 row1 row2 :
  lease_wf db -> executions db !! id1 = Some row1 -> executions db !! id2 = Some row2 ->
  active (ex_state row1) -> active (ex_state row2) -> slot_of row1 = slot_of row2 -> id1 = id2.
Proof.
  intros Hwf H1 H2 Ha1 Ha2 Hs. pose proof (lw_leased _ Hwf _ _ H1 Ha1) as E1.
  pose proof (lw_leased _ Hwf _ _ H2 Ha2) as E2. rewrite Hs, E2 in E1. by injection E1.
Qed.

Lemma row_with_state_valid id row to :
  execution_check id row = true -> ExecutionSnapshot_Validate (execution_of id row) = None ->
  to ∈ execution_check_states ->
  execution_check id (row_with_state to row) = true /\
  ExecutionSnapshot_Validate (execution_of id (row_with_state to row)) = None.
Proof.
  unfold execution_check, ExecutionSnapshot_Validate. simpl. intros Hc Hv Hto.
  split; [rewrite !andb_true_iff in *; split; [split; [|by apply bool_decide_eq_true]|]; tauto|].
  repeat (case_match; [done|]). unfold ExecutionState_Validate. by rewrite check_state_known.
Qed.
Lemma terminal_check_state to : terminalControllerExecution to = true -> to ∈ execution_check_states.
Proof.
  unfold terminalControllerExecution. rewrite bool_decide_eq_true, !elem_of_cons, elem_of_nil.
  intros [->|[->|[->|[]]]]; by vm_compute; repeat (apply list_elem_of_here || apply list_elem_of_further).
Qed.
Lemma lease_wf_moved db id row to :
  lease_wf db -> executions db !! id = Some row -> to ∈ execution_check_states ->
  map_Forall (fun id row => execution_check id row = true /\
    ExecutionSnapshot_Validate (execution_of id row) = None) (<[id := row_with_state to row]> (executions db)).
Proof.
  intros Hwf Hrow Hto. apply map_Forall_insert_2; [|apply (lw_rows _ Hwf)].
  destruct (lw_rows _ Hwf _ _ Hrow) as [H1 H2]. by apply row_with_state_valid.
Qed.
Lemma leased_by id db : execution_leased id db = true <->
  exists key r, slot_reservations db !! key = Some r /\ sr_execution_id r = id.
Proof.
  unfold execution_leased. rewrite existsb_exists. split.
  - intros ([key r] & Hin & Hid). apply list_elem_of_In, elem_of_map_to_list in Hin.
    apply bool_decide_eq_true in Hid. eauto.
  - intros (key & r & Hr & Hid). exists (key, r). rewrite <- list_elem_of_In, elem_of_map_to_list.
    split; [done|]. by apply bool_decide_eq_true.
Qed.

Lemma lease_step_wf db db' : lease_step db db' -> lease_wf db -> lease_wf db'.
Proof.
  intros [He Hs|e t Hv Hst Hfree He Hs|id row to Hrow Hr Ha Hto He Hs|id row to Hrow Hr Ht He Hl Hs] Hwf.
  - destruct Hwf. split; rewrite ?He, ?Hs; done.
  - destruct Hfree as [Hc Hnew Hun Hslot]. split; rewrite He; [|intros id row; rewrite Hs|rewrite Hs; intros key r];
      unfold leased_db; simpl.
    + apply map_Forall_insert_2; [|apply (lw_rows _ Hwf)]. split; [done|].
      unfold execution_of, row_of_execution. simpl. by destruct e as [? ? [] ?].
    + intros [[<- <-]|[Hne Hrow]]%lookup_insert_Some Ha; simpl; [by rewrite lookup_insert_eq|].
      pose proof (lw_leased _ Hwf _ _ Hrow Ha) as Hl. rewrite lookup_insert_ne; [done|].
      intros Hk. by rewrite <- Hk, Hslot in Hl.
    + intros [[<- <-]|[Hne Hr]]%lookup_insert_Some; simpl.
      * exists (row_of_execution e t). rewrite lookup_insert_eq. simpl. rewrite Hst. done.
      * destruct (lw_mirror _ Hwf _ _ Hr) as (row & Hrow & H). exists row. split; [|done].
        rewrite lookup_insert_ne; [done|]. intros Heq. rewrite Heq in Hnew. congruence.
  - assert (Hfrom : active (ex_state row)).
    { apply not_true_iff_false. intros Ht. rewrite (terminal_stays _ _ Ht Hr) in Ha. congruence. }
    split; rewrite He; [by apply lease_wf_moved|intros id' row'; rewrite Hs|rewrite Hs; intros key r].
    + intros [[<- <-]|[Hne Hrow']]%lookup_insert_Some Ha'; [exact (lw_leased _ Hwf _ _ Hrow Hfrom)|by apply (lw_leased _ Hwf)].
    + intros Hkey. destruct (lw_mirror _ Hwf _ _ Hkey) as (row' & Hrow' & H1 & H2 & H3).
      destruct (decide (sr_execution_id r = id)) as [Heq|Hne].
      * exists (row_with_state to row). rewrite Heq, lookup_insert_eq. rewrite Heq in *. by simplify_eq.
      * exists row'. by rewrite lookup_insert_ne by done.
  - split; rewrite He; [by apply lease_wf_moved, terminal_check_state|intros id' row'; rewrite Hs|rewrite Hs; intros key r];
      unfold without_lease.
    + intros [[<- <-]|[Hne Hrow']]%lookup_insert_Some Ha'; [simpl in Ha'; congruence|].
      apply map_lookup_filter_Some. split; [by apply (lw_leased _ Hwf)|]. simpl. congruence.
    + intros [Hkey Hne]%map_lookup_filter_Some. destruct (lw_mirror _ Hwf _ _ Hkey) as (row' & Hrow' & H).
      exists row'. by rewrite lookup_insert_ne by (simpl in Hne; congruence).
Qed.

(** No execution is forgotten, and each keeps its identity and only advances. *)
Definition executions_advance (db db' : ControllerDB) : Prop :=
  forall id row, executions db !! id = Some row ->
    exists row', executions db' !! id = Some row' /\ row_advances row row'.
Lemma row_advances_refl id row : ExecutionSnapshot_Validate (execution_of id row) = None -> row_advances row row.
Proof.
  intros Hv. exists (ex_state row). split; [by destruct row|]. left. apply can_reach_refl.
  revert Hv. unfold ExecutionSnapshot_Validate. repeat (case_match; [done|]).
  unfold ExecutionState_Validate. simpl. by destruct (isKnownExecutionState _).
Qed.
Lemma lease_step_advances db db' : lease_step db db' -> lease_wf db -> executions_advance db db'.
Proof.
  intros Hstep Hwf id' row' Hrow'. pose proof (row_advances_refl _ _ (proj2 (lw_rows _ Hwf _ _ Hrow'))) as Hrefl.
  assert (Hother : forall id row to, executions db' = <[id := row_with_state to row]> (executions db) ->
    executions db !! id = Some row -> state_advances (ex_state row) to ->
    exists row'', executions db' !! id' = Some row'' /\ row_advances row' row'').
  { intros id row to -> Hrow Hs. destruct (decide (id = id')) as [->|Hne].
    - rewrite lookup_insert_eq. eexists. split; [done|]. simplify_eq. by exists to.
    - rewrite lookup_insert_ne by done. eauto. }
  destruct Hstep as [He _|e t _ _ Hfree He _|id row to Hrow Hr _ _ He _|id row to Hrow Hr _ He _ _].
  - rewrite He. eauto.
  - exists row'. split; [|done]. rewrite He. simpl. rewrite lookup_insert_ne; [done|].
    intros Heq. pose proof (lf_new _ _ _ Hfree). congruence.
  - eapply Hother; [done..|by left].
  - by eapply Hother.
Qed.
Lemma work_advance_trans db1 db2 db3 :
  executions_advance db1 db2 -> executions_advance db2 db3 -> executions_advance db1 db3.
Proof.
  intros H12 H23 id row Hrow. destruct (H12 _ _ Hrow) as (row2 & Hrow2 & s2 & -> & Hs2).
  destruct (H23 _ _ Hrow2) as (row3 & Hrow3 & s3 & -> & Hs3). eexists. split; [done|]. exists s3.
  split; [done|]. by eapply state_advances_trans.
Qed.
