(* ===== verification/ControllerHistory.v ===== *)
(** * Histories of the Controller's database

    The methods of enrollment, audit and management as data, and what any sequence of
    these and of the methods of work does while statements fail, commits are lost or
    unreported and other calls degrade the trail. *)

From S2P Require Import Prelude GoStd GoEncoding Sql StoreBase EnrollRegistry EnrollPKI Domain ControllerStore StoreEnroll AuditTrail Management ControllerSpec ControllerFacts WorkFacts WorkFrame.
From Stdlib Require Import Ascii.

(** The methods that change the database; the others only read it. *)
Inductive controller_method :=
  | KCreateToken (token : TokenRecord)
  | KConsumeEnrollment (supplied : TokenRecord) (node : NodeRecord)
  | KConsumeEnrollmentWithAudit (supplied : TokenRecord) (node : NodeRecord) (audit : AuditRecord)
  | KFinalizeEnrollment (credential : Credential)
  | KCancelToken (tokenID : bytes)
  | KRenewCredential (nodeID : string) (expected replacement : Credential) (now : Z)
  | KRevokeNode (nodeID : string)
  | KAdvanceEpoch
  | KAppendAuditEvent (record : AuditRecord)
  | KCreateTokenWithAudit (token : TokenRecord) (audit : AuditRecord)
  | KCancelTokenWithAudit (tokenID : bytes) (audit : AuditRecord)
  | KSetNodeState (nodeID next : string) (expected : Z) (audit : AuditRecord)
  | KApply (expected : Z) (desired : DesiredManagementConfiguration)
      (verified : ManagementVerifiedAuthorities) (audit : AuditRecord).

(** What a method ends with: the error, if any, and the connection. *)
Definition outcome {A} (r : result A * connection ControllerDB) : error * connection ControllerDB :=
  (error_of r.1, r.2).
Definition controller_call (s : ControllerStore) (m : controller_method) (c : connection ControllerDB)
    : error * connection ControllerDB :=
  match m with
  | KCreateToken token => outcome (ControllerStore_CreateToken s token c)
  | KConsumeEnrollment supplied node => outcome (ControllerStore_ConsumeEnrollment s supplied node c)
  | KConsumeEnrollmentWithAudit supplied node audit => outcome (ConsumeEnrollmentWithAudit s supplied node audit c)
  | KFinalizeEnrollment credential => outcome (ControllerStore_FinalizeEnrollment s credential c)
  | KCancelToken tokenID => outcome (ControllerStore_CancelToken s tokenID c)
  | KRenewCredential nodeID expected replacement now =>
      outcome (ControllerStore_RenewCredential s nodeID expected replacement now c)
  | KRevokeNode nodeID => outcome (ControllerStore_RevokeNode s nodeID c)
  | KAdvanceEpoch => outcome (AdvanceEpoch s c)
  | KAppendAuditEvent record => outcome (AppendAuditEvent s record c)
  | KCreateTokenWithAudit token audit => outcome (CreateTokenWithAudit s token audit c)
  | KCancelTokenWithAudit tokenID audit => outcome (CancelTokenWithAudit s tokenID audit c)
  | KSetNodeState nodeID next expected audit =>
      outcome (SetNodeAdministrativeStateWithAudit s nodeID next expected audit c)
  | KApply expected desired verified audit =>
      outcome (ApplyManagementConfiguration s expected desired verified audit c)
  end.

(** A call of one of these methods, or of a method of work (WorkFacts.v). *)
Inductive controller_action :=
  | Call (s : ControllerStore) (m : controller_method)
  | Work (s : ControllerStore) (m : work_method).
Definition controller_act (a : controller_action) (c : connection ControllerDB) : connection ControllerDB :=
  match a with
  | Call s m => (controller_call s m c).2
  | Work s m => (outcome (work_program s m c)).2
  end.
Definition controller_history (actions : list controller_action) (c : connection ControllerDB)
    : connection ControllerDB :=
  foldl (fun c a => controller_act a c) c actions.

(** ** All or nothing *)

#[export] Instance mapping_error_all_or_nothing {A} wrap (m : program A) :
  AllOrNothing m -> AllOrNothing (mapping_error wrap m).
Proof.
  intros Hm c. rewrite run_mapping_error. pose proof (all_or_nothing (m := m) c) as H. unfold mapping_error.
  destruct (m c) as [[a|e] c1]; simpl in *; (destruct H as [H|[b H]]; [by left|right; rewrite H; eauto]).
Qed.

(** The success that a database after a call is owed to. *)
Lemma call_effect {A} (m : program A) c (P : ControllerDB -> Prop) :
  AllOrNothing m -> P (database c) -> (forall a db', run m (database c) = (Ok a, db') -> P db') ->
  P (database (outcome (m c)).2).
Proof.
  intros Hm Hdb Hok. destruct (all_or_nothing (m := m) c) as [E|[a E]]; simpl; [by rewrite E|eauto].
Qed.

Lemma FinalizeEnrollment_all_or_nothing s credential : AllOrNothing (ControllerStore_FinalizeEnrollment s credential).
Proof.
  unfold ControllerStore_FinalizeEnrollment. apply bind_all_or_nothing; [apply _..|intros _].
  apply bind_all_or_nothing; [apply _..|intros _]. intros c. unfold delete_node_replays.
  rewrite run_exec. unfold exec, statement. destruct (next_outage c) as [out c1] eqn:E. apply next_outage_db in E.
  destruct out; simpl; [by left|]. right. exists tt. by rewrite E.
Qed.

(** Every method is a program that outages only make fail and that leaves all or
    nothing. *)
Lemma method_program s m :
  exists A (p : program A), Follows p /\ AllOrNothing p /\ forall c, controller_call s m c = outcome (p c).
Proof.
  destruct m; simpl; (eexists _, _; split; [|split; [|reflexivity]]);
    try apply FinalizeEnrollment_all_or_nothing;
    unfold ControllerStore_CreateToken, ControllerStore_ConsumeEnrollment, ConsumeEnrollmentWithAudit,
      ControllerStore_FinalizeEnrollment, ControllerStore_CancelToken, ControllerStore_RenewCredential,
      ControllerStore_RevokeNode, AdvanceEpoch, AppendAuditEvent, degrading_begin, CreateTokenWithAudit,
      CancelTokenWithAudit, SetNodeAdministrativeStateWithAudit, ApplyManagementConfiguration; apply _.
Qed.

(** A call that succeeds in whatever circumstances is an undisturbed success. *)
Lemma call_calm s m c c' :
  controller_call s m c = (None, c') ->
  exists c1, controller_call s m (calm (database c)) = (None, c1) /\ database c1 = database c'.
Proof.
  destruct (method_program s m) as (A & p & Hf & _ & Hp). rewrite !Hp. unfold outcome.
  destruct (p c) as [[a|e] c1] eqn:E; [|done]. intros [= <-].
  rewrite (follows_ok (m := p) _ _ _ E). simpl. eauto.
Qed.

(** The induction principle of histories: what every successful method and the other
    work keep holds after any history. *)
Lemma call_keeps (P : ControllerDB -> Prop) s m c :
  P (database c) ->
  (forall db', (exists c', controller_call s m (calm (database c)) = (None, c') /\ database c' = db') -> P db') ->
  P (database (controller_call s m c).2).
Proof.
  intros Hdb Hok. destruct (method_program s m) as (A & p & _ & Ha & Hp). rewrite Hp.
  apply (call_effect p c P Ha Hdb). intros a db' Hrun. apply Hok. rewrite Hp. unfold run in Hrun.
  destruct (p (calm (database c))) as [r c1]. simplify_eq/=. eauto.
Qed.

(** The same for the methods of work. *)
Lemma work_keeps (P : ControllerDB -> Prop) s m c :
  P (database c) -> (forall db', run (work_program s m) (database c) = (Ok tt, db') -> P db') ->
  P (database (outcome (work_program s m c)).2).
Proof.
  intros Hdb Hok. destruct (work_program_spec s m) as [Ha _]. apply (call_effect _ c P Ha Hdb).
  intros [] db' E. by apply Hok.
Qed.
