(* ===== verification/ControllerProps.v ===== *)
(** * What the Controller's database guarantees

    The properties of enrollment, audit and configuration in the database: the
    invariant after every history, the evidence of every change, one application per
    revision, and what an application spares; and the pages in which the trail is
    read.  [Demo] is a database with a node, a configuration and their evidence. *)

From S2P Require Import Prelude GoStd GoEncoding Sql StoreBase EnrollRegistry EnrollPKI Domain Execution Replay Fence Transport AgentStore WorkTables ControllerStore StoreEnroll AuditTrail Management WorkStore WorkAgent WorkReport WorkGitHub ControllerSpec ControllerFacts WorkFacts WorkFrame ControllerHistory.
From Stdlib Require Import Ascii.

(** ** The invariant *)

(** A successful call is a successful undisturbed run of its method. *)
Lemma outcome_ok {A} (p : program A) db c' :
  outcome (p (calm db)) = (None, c') -> exists a, run p db = (Ok a, database c').
Proof.
  unfold outcome, run. destruct (p (calm db)) as [[a|e] c1]; simpl; [|done]. intros [= <-]. eauto.
Qed.

Lemma created_wf db id row :
  controller_wf db -> token_wf id row ->
  controller_wf (with_tokens (<[id := row]> (enrollment_tokens db)) db).
Proof. intros Hwf Hrow. apply keep_tokens; [done|]. apply map_Forall_insert_2; [done|]. apply (cwf_tokens _ Hwf). Qed.
Lemma cancelled_wf db id :
  controller_wf db -> controller_wf (with_tokens (delete id (enrollment_tokens db)) db).
Proof. intros Hwf. apply keep_tokens; [done|]. apply map_Forall_delete, (cwf_tokens _ Hwf). Qed.

Lemma renewed_wf db nodeID row row' :
  controller_wf db -> enrolled_nodes db !! nodeID = Some row -> en_revoked row' = en_revoked row ->
  node_check nodeID row' = true -> en_credential_epoch row' <= max_int64 ->
  0 < en_not_before_unix_nano row' -> en_not_after_unix_nano row' <= max_int64 ->
  controller_wf (with_nodes (<[nodeID := row']> (enrolled_nodes db)) db).
Proof.
  intros Hwf Hrow Hr Hc He Hb Ha. apply (keep_credential _ _ row); [done|done| |done].
  exact (conj Hc (conj He (conj Hb Ha))).
Qed.

(** A node has one replay at most, so deleting it leaves none. *)
Lemma replay_cancelled_wf db tokenID r row :
  controller_wf db -> enrollment_replays db !! tokenID = Some r ->
  enrolled_nodes db !! er_node_id r = Some row -> en_revoked row = false ->
  en_credential_epoch row < max_int64 ->
  controller_wf (revoked_db (er_node_id r) row (delete tokenID (enrollment_replays db)) db).
Proof.
  intros Hwf Hrep Hrow Hr Hmax. apply revoked_wf; try done; [apply delete_subseteq|].
  intros id r' [Hne Hr']%lookup_delete_Some E. apply Hne. by eapply (cwf_replay_nodes _ Hwf).
Qed.

Lemma call_wf s m db c' :
  controller_wf db -> controller_call s m (calm db) = (None, c') -> controller_wf (database c').
Proof.
  intros Hwf. destruct m; simpl; intros [a E]%outcome_ok.
  - destruct a. apply CreateToken_ok, createEnrollmentToken_ok in E as (_ & Hrow & _ & ->). by apply created_wf.
  - destruct a. apply ConsumeEnrollment_ok in E as (b & a & n & Hv & E). by eapply consumeEnrollment_wf.
  - destruct a. apply ConsumeEnrollmentWithAudit_ok in E as (b & a & n & Hv & E & Hch).
    eapply audited_wf; [|exact Hch]. by eapply consumeEnrollment_wf.
  - destruct a. apply FinalizeEnrollment_ok in E as [_ ->]. apply keep_replays; [done|]. apply other_replays_sub.
  - apply CancelToken_ok in E as [(_ & _ & ->)|(_ & r & row & Hrep & Hrow & Hr & Hmax & _ & ->)].
    + by apply cancelled_wf.
    + by apply (replay_cancelled_wf _ tokenID).
  - destruct a. apply RenewCredential_ok in E
      as (row & b & a & Hrow & _ & _ & _ & _ & _ & _ & _ & _ & Hb & Ha & He & Hc & ->).
    by eapply renewed_wf.
  - destruct a as [c1 c2]. apply RevokeNode_ok in E as (row & Hrow & Hr & Hmax & _ & _ & ->).
    apply revoked_wf; try done; [apply other_replays_sub|apply other_replays_gone].
  - apply AdvanceEpoch_ok in E as (raw & _ & _ & _ & ->). apply keep_metadata, keep_tokens; [done|].
    destruct (raw >? 0); [apply map_Forall_empty|apply (cwf_tokens _ Hwf)].
  - apply AppendAuditEvent_ok in E as [Hch _]. by eapply audited_wf.
  - destruct a. apply CreateTokenWithAudit_ok in E as (Hrow & _ & Hch).
    eapply audited_wf; [|exact Hch]. by apply created_wf.
  - destruct a. apply CancelTokenWithAudit_ok in E as [_ Hch].
    eapply audited_wf; [|exact Hch]. by apply cancelled_wf.
  - destruct a as [n ended]. apply SetNodeAdministrativeStateWithAudit_ok in E
      as (Hrev & -> & Hmax & mid & Hmoved & Hch).
    eapply audited_wf; [|exact Hch]. pose proof (node_moved_wf _ _ _ _ _ Hwf Hmoved) as Hmid.
    apply keep_revision; [done|]. rewrite <- Hrev in *.
    assert (management_revision mid = management_revision db) as ->
      by (destruct Hmoved as (? & ? & _ & _ & _ & [(_ & _ & ->)|(_ & _ & _ & ->)]); done).
    pose proof (cwf_revision _ Hwf). lia.
  - by apply applied_wf in E as (_ & _ & E).
Qed.

Lemma act_wf a c : controller_wf (database c) -> controller_wf (database (controller_act a c)).
Proof.
  intros Hwf. destruct a; simpl.
  - apply (call_keeps controller_wf); [done|]. intros db' (c' & E & <-). by eapply call_wf.
  - apply (work_keeps controller_wf); [done|]. intros db' E. by eapply work_wf_frame.
Qed.
Lemma history_keeps (P : ControllerDB -> Prop) actions c :
  (forall a c, P (database c) -> P (database (controller_act a c))) ->
  P (database c) -> P (database (controller_history actions c)).
Proof. intros Hact. revert c. induction actions as [|a actions IH]; intros c Hc; simpl; auto. Qed.
Lemma history_wf actions c : controller_wf (database c) -> controller_wf (database (controller_history actions c)).
Proof. apply history_keeps, act_wf. Qed.

(** C17 The Controller's database is consistent after every history: whatever
    sequence of enrollment, audit and configuration calls was made with whatever
    arguments and clocks, by stores whose audit authority was healthy or degraded,
    and whichever statements failed, commits were lost or were not reported, tokens
    and nodes are well formed, every node has exactly one administrative state and one
    configuration and is in the revoked state exactly when its credential is, a
    replay belongs to a node that is not revoked, the stored configuration passes its
    own validation, and the trail is numbered without gaps, valid and ordered by
    revision. *)
Theorem controller_store_always_consistent actions outs coms :
  controller_wf (database (controller_history actions (mkConnection fresh_controller_db outs coms))).
Proof. apply history_wf, fresh_controller_wf. Qed.

(** ** Evidence *)

(** The event a method was asked to record. *)
Definition audit_of (m : controller_method) : option AuditRecord :=
  match m with
  | KConsumeEnrollmentWithAudit _ _ audit | KAppendAuditEvent audit | KCreateTokenWithAudit _ audit
  | KCancelTokenWithAudit _ audit | KSetNodeState _ _ _ audit | KApply _ _ _ audit => Some audit
  | _ => None
  end.

(** An error that comes with a change is marked as having degraded the trail. *)
Class Degrading {A} (m : program A) :=
  changed_degraded c e c' : m c = (Err e, c') -> database c' = database c \/ is_degraded e = true.
#[export] Instance read_degrading {A} (m : program A) : ReadOnly m -> Degrading m.
Proof. intros Hm c e c' E. left. pose proof (read_only (m := m) c) as H. by rewrite E in H. Qed.
#[export] Instance bind_degrading {A B} (m : program A) (f : A -> program B) :
  ReadOnly m -> (forall a, Degrading (f a)) -> Degrading (m ≫= f).
Proof.
  intros Hm Hf c e c'. rewrite bind_unfold. pose proof (read_only (m := m) c) as H.
  destruct (m c) as [[a|e1] c1]; simpl in H.
  - intros E. rewrite <- H. by apply (Hf a c1 e c').
  - intros [= <- <-]. by left.
Qed.
#[export] Instance commit_degrading {A} s (body : program A) :
  Follows body -> Degrading (commitWithManagementAudit s body).
Proof.
  intros Hb c e c' E. unfold commitWithManagementAudit in E.
  match type of E with in_tx_recovering ?b ?r _ = _ =>
    pose proof (in_tx_recovering_cases b r c _) as H end.
  rewrite E in H. destruct H as [[_ H]|[[H1 H2]|(a & c1 & _ & Hr & _)]]; [by left| |].
  - left. rewrite H2. unfold tx_run in *. by destruct (run _ _) as [[[a|a]|e1] db1].
  - right. unfold throw in Hr. by injection Hr as <- _.
Qed.
#[export] Instance degrading_begin_degrading {A} (m : program A) : Degrading m -> Degrading (degrading_begin m).
Proof.
  intros Hm c e c'. unfold degrading_begin, mapping_error. destruct (m c) as [[a|e1] c1] eqn:E; [done|].
  intros [= <- <-]. destruct (Hm _ _ _ E) as [H|H]; [by left|right]. by case_bool_decide.
Qed.
#[export] Hint Extern 2 (Degrading (match ?x with _ => _ end)) => destruct x : typeclass_instances.

(** The trail has one more event: [audit], at the store's time, with the revision
    after the change. *)
Definition recorded (s : ControllerStore) (audit : AuditRecord) (db db' : ControllerDB) : Prop :=
  exists t, storeUnixNano (store_now (cs_base s)) = Ok t /\ validateAuditRecord audit = None /\
    management_audit_events db' = management_audit_events db ++
      [mkAuditEvent (next_audit_sequence db) t (management_revision db') audit].
Lemma audited_recorded s audit db mid db' : audited_change s audit db mid db' -> recorded s audit db db'.
Proof.
  intros (t & Ht & Ha & _ & _ & _ & Hsame & ->). exists t. split; [done|]. split; [done|]. simpl.
  rewrite Hsame. unfold next_audit_sequence. by rewrite Hsame.
Qed.
Lemma audited_healthy s audit db mid db' :
  audited_change s audit db mid db' -> ManagementAuditHealthy s = true /\ audit_gate_healthy s = true.
Proof. by intros (t & _ & _ & _ & H1 & H2 & _). Qed.

(** What an audited method leaves in whatever circumstances. *)
Definition evidenced s audit (db : ControllerDB) (r : error * connection ControllerDB) : Prop :=
  (r.1 <> None /\ database r.2 = db) \/
  (recorded s audit db (database r.2) /\ ManagementAuditHealthy s = true /\ audit_gate_healthy s = true /\
   forall err, r.1 = Some err -> is_degraded err = true).
Lemma method_evidence {A} s audit (m : program A) c :
  Follows m -> AllOrNothing m -> Degrading m ->
  (forall a db', run m (database c) = (Ok a, db') -> exists mid, audited_change s audit (database c) mid db') ->
  evidenced s audit (database c) (outcome (m c)).
Proof.
  intros Hf Han Hd Hok. unfold evidenced, outcome. simpl. destruct (m c) as [[a|e] c'] eqn:E; simpl.
  - right. destruct (Hok a (database c')) as [mid Hch]; [by apply sql_run_ok|].
    destruct (audited_healthy _ _ _ _ _ Hch) as [H1 H2]. split; [by eapply audited_recorded|]. done.
  - destruct (Hd _ _ _ E) as [Hsame|Hdeg]; [by left|].
    pose proof (all_or_nothing (m := m) c) as H. rewrite E in H. destruct H as [H|[a H]]; [by left|right].
    destruct (Hok a _ H) as [mid Hch]. destruct (audited_healthy _ _ _ _ _ Hch) as [H1 H2].
    split; [by eapply audited_recorded|]. split; [done|]. split; [done|]. by intros err [= <-].
Qed.

(** A method without evidence leaves the trail alone. *)
Lemma call_trail s m db c' :
  audit_of m = None -> controller_call s m (calm db) = (None, c') ->
  management_audit_events (database c') = management_audit_events db.
Proof.
  destruct m; simpl; intros Hm; try done; intros [a E]%outcome_ok.
  - destruct a. by apply CreateToken_ok, createEnrollmentToken_ok in E as (_ & _ & _ & ->).
  - destruct a. apply ConsumeEnrollment_ok in E as (b & a & n & _ & E).
    by apply consumeEnrollment_ok in E as (_ & _ & _ & _ & _ & _ & _ & _ & ->).
  - destruct a. by apply FinalizeEnrollment_ok in E as [_ ->].
  - by apply CancelToken_ok in E as [(_ & _ & ->)|(_ & r & row & _ & _ & _ & _ & _ & ->)].
  - destruct a. by apply RenewCredential_ok in E as (? & ? & ? & _ & _ & _ & _ & _ & _ & _ & _ & _ & _ & _ & _ & _ & ->).
  - destruct a. by apply RevokeNode_ok in E as (? & _ & _ & _ & _ & _ & ->).
  - by apply AdvanceEpoch_ok in E as (? & _ & _ & _ & ->).
Qed.

(** C18 Every administrative change leaves its evidence, atomically: whatever statement
    fails and whatever becomes of the commit, an audited method either reports an
    error and changes nothing, or extends the trail by exactly one valid event, the
    one it was given, with the store's time and the revision after the change.  It does
    the latter only while the audit authority is healthy both before the transaction
    and when it commits, and when it reports an error nevertheless (a commit that took
    effect), that error has degraded the authority.  The methods without evidence never
    touch the trail. *)
Theorem management_change_has_evidence s m c :
  match audit_of m with
  | Some audit => evidenced s audit (database c) (controller_call s m c)
  | None => management_audit_events (database (controller_call s m c).2) =
            management_audit_events (database c)
  end.
Proof.
  destruct (audit_of m) as [audit|] eqn:Hm.
  2: { apply (call_keeps (fun db => management_audit_events db = _)); [done|].
       intros db' (c' & E & <-). by eapply call_trail. }
  destruct m; simplify_eq/=; (apply method_evidence; [| | |intros a db' E]);
    try (unfold ConsumeEnrollmentWithAudit, AppendAuditEvent, degrading_begin, CreateTokenWithAudit,
      CancelTokenWithAudit, SetNodeAdministrativeStateWithAudit, ApplyManagementConfiguration; apply _).
  - destruct a. apply ConsumeEnrollmentWithAudit_ok in E as (? & ? & ? & _ & _ & H). eauto.
  - apply AppendAuditEvent_ok in E as [H _]. eauto.
  - destruct a. apply CreateTokenWithAudit_ok in E as (_ & _ & H). eauto.
  - destruct a. apply CancelTokenWithAudit_ok in E as [_ H]. eauto.
  - destruct a. apply SetNodeAdministrativeStateWithAudit_ok in E as (_ & _ & _ & mid & _ & H). eauto.
  - apply ApplyManagementConfiguration_ok in E as (_ & _ & _ & _ & p & b & H). eauto.
Qed.

(** ** Revisions *)

Lemma audited_revision s a db mid db' :
  audited_change s a db mid db' -> management_revision db' = management_revision mid.
Proof. by intros (t & _ & _ & _ & _ & _ & _ & ->). Qed.
Lemma call_revision s m db c' :
  controller_call s m (calm db) = (None, c') -> management_revision db <= management_revision (database c').
Proof.
  destruct m; simpl; intros [a E]%outcome_ok.
  - destruct a. by apply CreateToken_ok, createEnrollmentToken_ok in E as (_ & _ & _ & ->).
  - destruct a. apply ConsumeEnrollment_ok in E as (b & a & n & _ & E).
    apply consumeEnrollment_ok in E as (_ & _ & _ & _ & _ & _ & _ & _ & ->). simpl. lia.
  - destruct a. apply ConsumeEnrollmentWithAudit_ok in E as (b & a & n & _ & _ & Hch).
    rewrite (audited_revision _ _ _ _ _ Hch). simpl. lia.
  - destruct a. by apply FinalizeEnrollment_ok in E as [_ ->].
  - by apply CancelToken_ok in E as [(_ & _ & ->)|(_ & r & row & _ & _ & _ & _ & _ & ->)].
  - destruct a. by apply RenewCredential_ok in E as (? & ? & ? & _ & _ & _ & _ & _ & _ & _ & _ & _ & _ & _ & _ & _ & ->).
  - destruct a. by apply RevokeNode_ok in E as (? & _ & _ & _ & _ & _ & ->).
  - by apply AdvanceEpoch_ok in E as (? & _ & _ & _ & ->).
  - apply AppendAuditEvent_ok in E as [Hch _]. by rewrite (audited_revision _ _ _ _ _ Hch).
  - destruct a. apply CreateTokenWithAudit_ok in E as (_ & _ & Hch). by rewrite (audited_revision _ _ _ _ _ Hch).
  - destruct a. apply CancelTokenWithAudit_ok in E as [_ Hch]. by rewrite (audited_revision _ _ _ _ _ Hch).
  - destruct a. apply SetNodeAdministrativeStateWithAudit_ok in E as (Hr & Hn & _ & mid & _ & Hch).
    rewrite (audited_revision _ _ _ _ _ Hch). simpl. lia.
  - apply ApplyManagementConfiguration_ok in E as (Hr & _ & (mt & _ & -> & _) & _ & p & b & Hch).
    rewrite (audited_revision _ _ _ _ _ Hch). simpl. lia.
Qed.
Lemma act_revision a c :
  management_revision (database c) <= management_revision (database (controller_act a c)).
Proof.
  destruct a; simpl.
  - apply (call_keeps (fun db => management_revision (database c) <= management_revision db)); [done|].
    intros db' (c' & E & <-). by eapply call_revision.
  - apply (work_keeps (fun db => management_revision (database c) <= management_revision db)); [done|].
    intros db' E%work_touches. untouched E management_revision. by rewrite Hsame.
Qed.
Lemma history_revision actions c :
  management_revision (database c) <= management_revision (database (controller_history actions c)).
Proof.
  apply (history_keeps (fun db => management_revision (database c) <= management_revision db)); [|done].
  intros a c1 H. etransitivity; [exact H|]. apply act_revision.
Qed.

(** A successful application, in whatever circumstances. *)
Lemma Apply_Ok s expected desired verified audit c next c' :
  ApplyManagementConfiguration s expected desired verified audit c = (Ok next, c') ->
  run (ApplyManagementConfiguration s expected desired verified audit) (database c) = (Ok next, database c').
Proof. apply sql_run_ok. unfold ApplyManagementConfiguration. apply _. Qed.

(** C21 A configuration is replaced by compare-and-swap: an application succeeds only
    when the revision it expects is the current one; then the revision is the next
    one, the stored configuration is exactly the answer, which has the fleet maximum
    and the nodes the operator asked for and is read back by
    [ReadManagementConfiguration]; and no other application that expects the same
    revision, of whatever configuration by whatever store, can succeed after any
    further history. *)
Theorem apply_is_compare_and_swap s expected desired verified audit c next c' :
  controller_wf (database c) ->
  ApplyManagementConfiguration s expected desired verified audit c = (Ok next, c') ->
  management_revision (database c) = expected /\
  management_revision (database c') = expected + 1 /\ mc_Revision next = expected + 1 /\
  mc_FleetMaxRunners next = dmc_FleetMaxRunners desired /\ mc_Nodes next ≡ₚ dmc_Nodes desired /\
  run (ReadManagementConfiguration s) (database c') = (Ok next, database c') /\
  (forall actions s' desired' verified' audit' next' c'',
     ApplyManagementConfiguration s' expected desired' verified' audit' (controller_history actions c')
       <> (Ok next', c'')).
Proof.
  intros Hwf E%Apply_Ok. pose proof (applied_wf _ _ _ _ _ _ _ _ Hwf E) as (Hv & Hsort & Hwf').
  assert (Hready : requireReady (cs_base s) = None).
  { unfold ApplyManagementConfiguration in E. rewrite run_require_bind in E. by destruct (requireReady _). }
  apply ApplyManagementConfiguration_ok in E as (Hrev & _ & (m & Hm & Hnext & _) & _ & pol & bind & Hch).
  apply materialize_ok in Hm as (_ & _ & Hfleet & Hnodes & _).
  assert (Hst : stored_configuration (database c') = next).
  { rewrite <- (stored_configured next pol bind (database c) Hv Hsort).
    destruct Hch as (t & _ & _ & _ & _ & _ & _ & ->). done. }
  assert (Hrev' : management_revision (database c') = expected + 1).
  { rewrite (audited_revision _ _ _ _ _ Hch), Hnext. done. }
  split; [done|]. split; [done|]. split; [by rewrite Hnext|]. split; [by rewrite Hnext|].
  split; [by rewrite Hnext|]. split.
  - unfold ReadManagementConfiguration. rewrite run_require_bind, Hready. unfold in_tx.
    rewrite run_in_tx_recovering by apply _. unfold tx_run.
    rewrite run_bind, readManagementConfiguration_wf by (done || apply _). simpl. by rewrite Hst.
  - intros actions s' desired' verified' audit' next' c'' E%Apply_Ok.
    apply ApplyManagementConfiguration_ok in E as [Hrev2 _].
    pose proof (history_revision actions c'). lia.
Qed.

Lemma keyed_rows {A} (key : A -> string) (t : gmap string A) :
  map_Forall (fun id x => key x = id) t -> keyed key (map snd (rows_by_key t)) = t.
Proof.
  intros Ht. apply map_eq. intros id. apply option_eq. intros x.
  rewrite lookup_keyed by (rewrite rows_keys by done; apply rows_NoDup).
  rewrite list_elem_of_fmap. split.
  - intros (([k y] & -> & Hin%elem_of_rows_by_key) & <-). simpl in *. by rewrite (Ht _ _ Hin).
  - intros Hx. split; [|by apply Ht]. exists (id, x). by rewrite elem_of_rows_by_key.
Qed.
Lemma equal_profile left right : equalManagementRunnerProfile left right = true -> left = right.
Proof.
  unfold equalManagementRunnerProfile, equalRunnerProfile. intros H. conditions. destruct_and!.
  destruct left as [[] ?], right as [[] ?]; simpl in *; congruence.
Qed.

(** An application spares running work: when it succeeds, every held slot is one of
    its node's slots in the new configuration and the fleet has room for all of them; a
    target with a running execution or a claimed job keeps its row and its runner
    profile unchanged; and the runtime binding of an active target keeps its scale set,
    its profile and the version policy it runs under. *)
Theorem apply_spares_active_work s expected desired verified audit c next c' :
  controller_wf (database c) ->
  ApplyManagementConfiguration s expected desired verified audit c = (Ok next, c') ->
  let db := database c in
  (forall nodeID slot, is_Some (slot_reservations db !! (nodeID, slot)) ->
     exists node, node ∈ mc_Nodes next /\ mnc_NodeID node = nodeID /\ 0 <= slot < mnc_MaxRunners node) /\
  Z.of_nat (size (slot_reservations db)) <= fleet_limit next /\
  (forall id target, management_github_targets db !! id = Some target ->
     active_authority db id (mgt_ScaleSetID target) = true ->
     target ∈ mc_GitHubTargets next /\
     exists profile, management_runner_profiles db !! mt_ProfileID target = Some profile /\
       profile ∈ mc_RunnerProfiles next) /\
  (forall id binding, github_target_runtime_bindings db !! id = Some binding ->
     active_authority db (gtb_TargetID binding) (gtb_ScaleSetID binding) = true ->
     exists target, target ∈ mc_GitHubTargets next /\ mt_ID target = gtb_TargetID binding /\
       mgt_ScaleSetID target = gtb_ScaleSetID binding /\ mt_ProfileID target = gtb_ProfileID binding /\
       exists profile policy, profile ∈ mc_RunnerProfiles next /\ mp_ID profile = gtb_ProfileID binding /\
         runner_profile_update_policies db !! gtb_ProfileID binding = Some policy /\
         profile_VersionPolicy (mrp_Profile profile) = rpp_VersionPolicy policy /\
         mrp_RunnerVersion profile = rpp_RunnerVersion policy).
Proof.
  intros Hwf E%Apply_Ok db. pose proof (applied_wf _ _ _ _ _ _ _ _ Hwf E) as (Hv & _ & _).
  apply ApplyManagementConfiguration_ok in E as (_ & _ & (m & _ & Hnext & (Hslots & Hroom & Htargets & Hbinds)) & _).
  apply validateConfiguration_None in Hv as (_ & _ & _ & Hn & _ & Hp & _ & Ht & _).
  rewrite Hnext in *. cbn [mc_Nodes mc_RunnerProfiles mc_GitHubTargets with_revision] in *.
  split; [|split; [exact Hroom|split]].
  - intros nodeID slot Hres. apply Hslots in Hres. unfold reservation_within in Hres. simpl in Hres.
    destruct (keyed mnc_NodeID (mc_Nodes m) !! nodeID) as [node|] eqn:Hl; [|done].
    apply lookup_keyed in Hl as [Hin <-]; [|done]. conditions. eauto.
  - intros id target Hrow Hact. pose proof (cfg_targets _ (cwf_configuration _ Hwf) _ _ Hrow) as (<- & _ & _ & [profile Hprof]).
    specialize (Htargets target). ospecialize (Htargets _ Hact).
    { simpl. apply list_elem_of_fmap. exists (mt_ID target, target). by rewrite elem_of_rows_by_key. }
    unfold target_unchanged in Htargets. apply andb_true_iff in Htargets as [Hsame Hp2].
    apply bool_decide_eq_true, lookup_keyed in Hsame as [Hin _]; [|done]. split; [exact Hin|].
    exists profile. split; [exact Hprof|].
    destruct (keyed mp_ID (mc_RunnerProfiles m) !! mt_ProfileID target) as [q|] eqn:Hq; [|done].
    apply lookup_keyed in Hq as [Hqin _]; [|done]. simpl in Hp2.
    rewrite keyed_rows, Hprof in Hp2.
    2: { eapply map_Forall_impl; [exact (cfg_profiles _ (cwf_configuration _ Hwf))|]. naive_solver. }
    simpl in Hp2. apply equal_profile in Hp2 as ->. exact Hqin.
  - intros id b Hb Hact. specialize (Hbinds id b Hb Hact). unfold binding_retained in Hbinds.
    apply andb_true_iff in Hbinds as [Hroute Hpol].
    destruct (keyed mt_ID (mc_GitHubTargets m) !! gtb_TargetID b) as [t|] eqn:Hl; [|done].
    apply lookup_keyed in Hl as [Hin <-]; [|done]. conditions. destruct Hroute. exists t. split_and!; try done.
    destruct (keyed mp_ID (mc_RunnerProfiles m) !! gtb_ProfileID b) as [q|] eqn:Hq; [|done].
    apply lookup_keyed in Hq as [Hqin Hqid]; [|done].
    destruct (runner_profile_update_policies (database c) !! gtb_ProfileID b) as [pol|] eqn:Hpl; [|done].
    conditions. destruct Hpol. exists q, pol. done.
Qed.

(** ** Reading the trail *)

(** A reader that follows [NextAfter] from page to page. *)
Fixpoint follow_pages (fuel : nat) (s : ControllerStore) (after limit : Z) : program (list AuditEvent) :=
  match fuel with
  | O => throw ErrInvalidAuditPage
  | S fuel =>
      page ← ReadAuditEventsPage s after limit ;
      match page_NextAfter page with
      | None => mret (page_Events page)
      | Some next => rest ← follow_pages fuel s next limit ; mret (page_Events page ++ rest)
      end
  end.

#[export] Instance ReadAuditEventsPage_follows s after limit : Follows (ReadAuditEventsPage s after limit).
Proof. unfold ReadAuditEventsPage. apply _. Qed.
#[export] Instance follow_pages_follows fuel s after limit : Follows (follow_pages fuel s after limit).
Proof. revert after. induction fuel; intros after; simpl; apply _. Qed.

Lemma trail_after l m after :
  map event_Sequence l = seqZ m (Z.of_nat (length l)) ->
  filter (fun event => after < event_Sequence event) l = drop (Z.to_nat (after - m + 1)) l.
Proof.
  revert m. induction l as [|e l IH]; intros m Hn; [by destruct (Z.to_nat _)|].
  simpl in Hn. rewrite seqZ_cons in Hn by lia. injection Hn as He Hn.
  assert (Hl : map event_Sequence l = seqZ (Z.succ m) (Z.of_nat (length l))) by (rewrite Hn; f_equal; lia).
  rewrite filter_cons, He, (IH _ Hl). case_decide.
  - by rewrite !(Z2Nat.nonpos _) by lia.
  - by replace (Z.to_nat (after - m + 1)) with (S (Z.to_nat (after - Z.succ m + 1))) by lia.
Qed.

(** One page, of a trail that is well formed. *)
Lemma read_page s db k limit :
  trail_wf db -> requireReady (cs_base s) = None -> Z.of_nat k <= max_int64 -> 1 <= limit <= MaximumAuditPageSize ->
  run (ReadAuditEventsPage s (Z.of_nat k) limit) db =
    (Ok (audit_page (Z.of_nat k) limit (take (Z.to_nat (limit + 1)) (drop k (management_audit_events db)))), db).
Proof.
  intros [Hn Hv _] Hr Hk [Hl1 Hl2]. unfold ReadAuditEventsPage. rewrite run_require_bind, Hr.
  unfold maxSQLiteInteger. rewrite Z.gtb_ltb, (proj2 (Z.ltb_ge _ _)) by exact Hk.
  rewrite (proj2 (Z.ltb_ge limit 1)), Z.gtb_ltb, (proj2 (Z.ltb_ge MaximumAuditPageSize limit)) by assumption.
  cbn [orb]. rewrite run_query_bind, (trail_after _ 1) by done.
  replace (Z.to_nat (Z.of_nat k - 1 + 1)) with k by lia.
  rewrite (scan_rows_ok _ id); [by rewrite map_id|]. apply Forall_take, Forall_drop.
  eapply Forall_impl; [exact Hv|]. intros e [He _]. unfold scanAuditEvent. by rewrite He.
Qed.
Lemma last_take_sequence db k n e :
  trail_wf db -> last (take n (drop k (management_audit_events db))) = Some e ->
  (n <= length (drop k (management_audit_events db)))%nat -> event_Sequence e = Z.of_nat (k + n).
Proof.
  intros [Hn _ _] He Hlen. rewrite last_lookup in He. rewrite length_take, Nat.min_l in He by done.
  destruct n as [|n]; [done|]. simpl in He. rewrite lookup_take_lt, lookup_drop in He by lia.
  assert (H : map event_Sequence (management_audit_events db) !! (k + n)%nat = Some (event_Sequence e))
    by (by rewrite list_lookup_fmap, He). rewrite Hn in H. apply lookup_seqZ in H as [H _]. lia.
Qed.
Lemma follow_from s db limit fuel k :
  trail_wf db -> requireReady (cs_base s) = None -> Z.of_nat (length (management_audit_events db)) <= max_int64 ->
  1 <= limit <= MaximumAuditPageSize -> (length (drop k (management_audit_events db)) < fuel)%nat ->
  (k <= length (management_audit_events db))%nat ->
  run (follow_pages fuel s (Z.of_nat k) limit) db = (Ok (drop k (management_audit_events db)), db).
Proof.
  intros Htr Hr Hmax Hl. revert k. induction fuel as [|fuel IH]; intros k Hfuel Hk; [lia|].
  cbn [follow_pages]. rewrite run_bind, read_page by (done || lia || apply _).
  set (rows := drop k (management_audit_events db)) in *. unfold audit_page. cbn [page_NextAfter page_Events].
  rewrite Z.gtb_ltb. destruct (Z.ltb_spec limit (Z.of_nat (length (take (Z.to_nat (limit + 1)) rows)))) as [Hmore|Hless].
  - rewrite length_take in Hmore. rewrite take_take, Nat.min_l by lia.
    destruct (last (take (Z.to_nat limit) rows)) as [e|] eqn:He.
    2: { apply last_None in He. apply (f_equal length) in He. rewrite length_take in He. simpl in He. lia. }
    cbn [option_map]. rewrite (last_take_sequence db k (Z.to_nat limit) e) by (done || (fold rows; lia)).
    assert (Hrows : length rows = (length (management_audit_events db) - k)%nat) by apply length_drop.
    rewrite run_bind, IH; [|rewrite length_drop; lia|lia|apply _].
    rewrite run_ret. do 2 f_equal. rewrite <- drop_drop. fold rows. apply take_drop.
  - rewrite run_ret. do 2 f_equal. rewrite length_take in Hless. apply take_ge. lia.
Qed.

Lemma trail_length db : trail_wf db -> Z.of_nat (length (management_audit_events db)) <= max_int64.
Proof.
  intros [Hn Hv _]. destruct (management_audit_events db) as [|e0 l0] eqn:Htr; [done|rewrite <- Htr in *].
  destruct (last (management_audit_events db)) as [e|] eqn:He; [|by apply last_None in He; rewrite He in Htr].
  rewrite last_lookup in He. assert (Hin : e ∈ management_audit_events db) by (by eapply list_elem_of_lookup_2).
  assert (H : map event_Sequence (management_audit_events db) !! (pred (length (management_audit_events db))) =
    Some (event_Sequence e)) by (by rewrite list_lookup_fmap, He).
  rewrite Hn in H. apply lookup_seqZ in H as [H _]. rewrite Forall_forall in Hv. destruct (Hv _ Hin) as [Hok _].
  unfold validateStoredAuditEvent in Hok. destruct (_ || _) eqn:Hc in Hok; [done|]. conditions. destruct_and!.
  rewrite Htr in *. simpl in *. unfold maxSQLiteInteger in *. lia.
Qed.

(** The pages enumerate the trail: starting after any event and following
    [NextAfter] with any admissible page size, a reader gets every later event exactly
    once, in order, and reaches the end within one page more than there are events. *)
Theorem audit_pages_enumerate s db limit (after : nat) :
  controller_wf db -> requireReady (cs_base s) = None -> 1 <= limit <= MaximumAuditPageSize ->
  (after <= length (management_audit_events db))%nat ->
  run (follow_pages (S (length (management_audit_events db))) s (Z.of_nat after) limit) db =
    (Ok (drop after (management_audit_events db)), db).
Proof.
  intros Hwf Hr Hl Ha. pose proof (cwf_trail _ Hwf) as Htr.
  apply follow_from; try done; [by apply trail_length|]. rewrite length_drop. lia.
Qed.

(** ** A database *)

Module Demo.
Definition nodeID := "0123456789abcdef0123456789abcdef".
Definition tokenID : bytes := repeat Ascii.one 16.
Definition token : TokenRecord := mkToken tokenID (repeat Ascii.one 32) 1.
Definition credential : Credential := mkCredential nodeID "0a" 1 (unix_time 10) (unix_time 1000).
Definition node : NodeRecord :=
  mkNodeRecord nodeID credential false (repeat Ascii.one 32) [Ascii.one] [Ascii.one].
Definition store : ControllerStore := mkControllerStore (mkBaseStore None (unix_time 100)) true true.
Definition audit (actor action kind id : string) : AuditRecord :=
  mkAudit actor action AuditOutcomeSucceeded kind id "" "req_unavailable".
Definition applied_audit := audit AuditActorSingleAdmin AuditActionConfigurationApplied AuditResourceConfiguration "".
Definition profile : RunnerProfile :=
  mkRunnerProfile "linux" "linux-x64" (Some OSLinux) (Some ArchAMD64) 0 RunnerVersionPinned RuntimeNative.
Definition target : GitHubTarget :=
  mkGitHubTarget "repo" "42" TargetRepository "owner/repo" TargetPrivate true "pool" "linux".
Definition verified : ManagementVerifiedAuthorities :=
  mkVerified [mkManagementProfile profile "2.320.0"] [mkManagementTarget target 7].
(** A node, the first configuration, and a running execution of its target. *)
Definition desired (name : string) (runners : Z) : DesiredManagementConfiguration :=
  mkDesired None [mkNodeConfiguration nodeID name runners] [profile]
    [desiredGitHubTarget (mkManagementTarget target 7)].
Definition setup : list controller_action :=
  [Call store (KCreateToken token);
   Call store (KConsumeEnrollmentWithAudit token node
     (audit AuditActorJoinCode AuditActionNodeEnrolled AuditResourceNode nodeID));
   Call store (KApply 1 (desired "first" 2) verified applied_audit)].
Definition assignment : Assignment :=
  mkAssignment 7 1 "0000000000000000000000000000000000000000000000000000000000000000" (mkExecutionSnapshot "e1" "repo" (mkSlotKey nodeID 1) ExecutionReserved).
Definition work : list controller_action :=
  [Work store (WGitHub (GRuntime {["linux" := mkUpdatePolicy "linux" RunnerVersionPinned "2.320.0" 1]}
     {["repo" := mkBinding "repo" 7 "linux"]}));
   Work store (WAssign (fun _ => false) assignment 0 false);
   Work store (WGitHub (GAdvance "e1" ExecutionReserved ExecutionRunning))].
Definition c : connection ControllerDB :=
  controller_history (setup ++ work) (mkConnection fresh_controller_db [] []).
Definition answer := ApplyManagementConfiguration store 2 (desired "second" 3) (mkVerified [] []) applied_audit c.
Definition next : ManagementConfiguration :=
  match answer.1 with Ok next => next | Err _ => mkConfiguration 0 None [] [] [] end.
Definition c' : connection ControllerDB := answer.2.
Lemma applies : ApplyManagementConfiguration store 2 (desired "second" 3) (mkVerified [] []) applied_audit c = (Ok next, c').
Proof. vm_compute. reflexivity. Qed.
Lemma consistent : controller_wf (database c).
Proof. apply history_wf, fresh_controller_wf. Qed.
End Demo.

Lemma apply_is_compare_and_swap_witness :
  management_revision (database Demo.c) = 2 /\ mc_Revision Demo.next = 3 /\
  run (ReadManagementConfiguration Demo.store) (database Demo.c') = (Ok Demo.next, database Demo.c').
Proof.
  destruct (apply_is_compare_and_swap _ _ _ _ _ _ _ _ Demo.consistent Demo.applies)
    as (H1 & _ & H2 & _ & _ & H3 & _).
  exact (conj H1 (conj H2 H3)).
Defined.
Lemma apply_spares_active_work_witness :
  active_authority (database Demo.c) "repo" 7 = true /\
  mkManagementTarget Demo.target 7 ∈ mc_GitHubTargets Demo.next /\
  Z.of_nat (size (slot_reservations (database Demo.c))) <= fleet_limit Demo.next.
Proof.
  destruct (apply_spares_active_work _ _ _ _ _ _ _ _ Demo.consistent Demo.applies) as (_ & H2 & H3 & _).
  assert (Hact : active_authority (database Demo.c) "repo" 7 = true) by (vm_compute; reflexivity).
  assert (Hrow : management_github_targets (database Demo.c) !! "repo" = Some (mkManagementTarget Demo.target 7))
    by (vm_compute; reflexivity).
  split; [exact Hact|]. split; [exact (proj1 (H3 "repo" _ Hrow Hact))|exact H2].
Defined.
Lemma audit_pages_enumerate_witness :
  map event_Sequence (management_audit_events (database Demo.c)) = [1; 2] /\
  run (follow_pages 3 Demo.store 0 1) (database Demo.c) =
    (Ok (management_audit_events (database Demo.c)), database Demo.c).
Proof.
  split; [vm_compute; reflexivity|].
  apply (audit_pages_enumerate Demo.store (database Demo.c) 1 0 Demo.consistent); [reflexivity| |].
  - split; intros H; discriminate H.
  - apply Nat.le_0_l.
Defined.
