(* ===== verification/ControllerRegistry.v ===== *)
(** * The Controller's database is an enrollment registry

    internal/enroll specifies enrollment by a registry in memory ([MemoryRegistry]);
    a Controller keeps its tokens, nodes and replays in the database.  [represents]
    relates the two, and every change of the database simulates calls of the registry
    ([registry_calls]); so what the registry's theorems say about sequences of calls
    holds of every history of the database, with its failing statements, unreported
    commits and concurrent changes of the configuration. *)

From S2P Require Import Prelude GoStd GoEncoding Sql StoreBase EnrollRegistry EnrollPKI Domain Execution Replay Fence Transport AgentStore WorkTables ControllerStore StoreEnroll AuditTrail Management WorkStore WorkAgent WorkReport WorkGitHub ControllerSpec ControllerFacts WorkFacts WorkFrame ControllerHistory ControllerProps.
From Stdlib Require Import Ascii.

(** ** The relation *)

Definition token_record (id : bytes) (row : TokenRow) : TokenRecord :=
  mkToken id (tk_secret_digest row) (tk_controller_epoch row).
Definition node_represented (id : string) (row : NodeRow) (node : NodeRecord) : Prop :=
  nr_NodeID node = id /\ nr_Credential node = row_credential id row /\ nr_Revoked node = en_revoked row.
Definition replay_represented (reg : MemoryRegistry) (id : bytes) (r : ReplayRow) : Prop :=
  exists supplied node, consumed reg !! id = Some supplied /\ token_SecretDigest supplied = er_secret_digest r /\
    consumedNode reg !! id = Some (er_node_id r) /\ nodes reg !! er_node_id r = Some node /\
    nr_PublicKeyDigest node = er_public_key_digest r /\ nr_CertificateDER node = er_certificate_der r /\
    nr_CACertificateDER node = er_ca_der r.
Record represents (db : ControllerDB) (reg : MemoryRegistry) : Prop := {
  rep_tokens : tokens reg = map_imap (fun id row => Some (token_record id row)) (enrollment_tokens db);
  rep_nodes : map_Forall2 node_represented (enrolled_nodes db) (nodes reg);
  rep_replays : map_Forall (replay_represented reg) (enrollment_replays db) }.

Lemma represents_fresh : represents fresh_controller_db NewMemoryRegistry.
Proof. split; simpl; [by rewrite map_imap_empty|apply map_Forall2_empty|apply map_Forall_empty]. Qed.
Lemma represents_same db db' reg :
  enrollment_tokens db' = enrollment_tokens db -> enrolled_nodes db' = enrolled_nodes db ->
  enrollment_replays db' = enrollment_replays db -> represents db reg -> represents db' reg.
Proof. intros H1 H2 H3 [R1 R2 R3]. split; by rewrite ?H1, ?H2, ?H3. Qed.

Lemma rep_token db reg id : represents db reg ->
  tokens reg !! id = option_map (token_record id) (enrollment_tokens db !! id).
Proof. intros [R1 _ _]. rewrite R1, map_lookup_imap. by destruct (_ !! id). Qed.
Lemma rep_node db reg id row : represents db reg -> enrolled_nodes db !! id = Some row ->
  exists node, nodes reg !! id = Some node /\ node_represented id row node.
Proof.
  intros [_ R2 _] Hrow. specialize (R2 id). rewrite Hrow in R2. inv R2. eauto.
Qed.
Lemma rep_no_node db reg id : represents db reg -> enrolled_nodes db !! id = None -> nodes reg !! id = None.
Proof. intros [_ R2 _] Hrow. specialize (R2 id). rewrite Hrow in R2. by inv R2. Qed.

(** ** Calls simulated *)

(** The calls succeed one after the other and lead to a registry that [db'] is. *)
Definition simulated (reg : MemoryRegistry) (calls : list registry_call) (db' : ControllerDB) : Prop :=
  Forall call_typed calls /\ successes reg calls = calls /\ represents db' (run_calls reg calls).
Lemma simulated_nil reg db' : represents db' reg -> simulated reg [] db'.
Proof. intros H. split; [constructor|]. done. Qed.
Lemma simulated_one reg call reg' db' :
  call_typed call -> run_call reg call = (reg', None) -> represents db' reg' -> simulated reg [call] db'.
Proof.
  intros Hty Hrun Hr. unfold simulated, run_calls. simpl. rewrite Hrun. simpl. split; [by constructor|]. done.
Qed.
Lemma simulated_app reg calls1 calls2 db1 db2 :
  simulated reg calls1 db1 -> simulated (run_calls reg calls1) calls2 db2 -> simulated reg (calls1 ++ calls2) db2.
Proof.
  unfold simulated. intros (H1 & H2 & _) (H3 & H4 & H5). split; [by apply Forall_app|]. split.
  - clear H1 H5. revert reg H2 H4. induction calls1 as [|call calls1 IH]; intros reg H2 H4; [done|].
    simpl in *. unfold run_calls in H4. simpl in H4. destruct (run_call reg call) as [reg' [e|]] eqn:E; simpl in *.
    + exfalso. assert (Hlen : forall r cs, (length (successes r cs) <= length cs)%nat).
      { intros r cs. revert r. induction cs as [|c cs IHc]; intros r; simpl; [lia|].
        destruct (run_call r c) as [r' [e'|]]; simpl; specialize (IHc r'); lia. }
      pose proof (Hlen reg' calls1) as Hl. rewrite H2 in Hl. simpl in Hl. lia.
    + injection H2 as H2. f_equal. by apply IH.
  - unfold run_calls in *. by rewrite foldl_app.
Qed.
Lemma simulated_same reg calls db db' :
  enrollment_tokens db' = enrollment_tokens db -> enrolled_nodes db' = enrolled_nodes db ->
  enrollment_replays db' = enrollment_replays db -> simulated reg calls db -> simulated reg calls db'.
Proof. intros H1 H2 H3 (S1 & S2 & S3). split_and!; [done|done|]. by apply (represents_same db). Qed.

(** A node replaced, and the replays of another one kept. *)
Lemma replay_other reg ts cs ns id r nodeID node :
  replay_represented reg id r -> er_node_id r <> nodeID ->
  cs !! id = consumed reg !! id -> ns !! id = consumedNode reg !! id ->
  replay_represented (mkRegistry ts (<[nodeID := node]> (nodes reg)) cs ns) id r.
Proof.
  intros (supplied & n & H1 & H2 & H3 & H4 & H5) Hne E1 E2. exists supplied, n. simpl.
  rewrite E1, E2, lookup_insert_ne by congruence. done.
Qed.

(** ** The operations *)

Lemma sim_create db reg token :
  represents db reg -> enrollment_tokens db !! token_ID token = None ->
  simulated reg [CallCreateToken token]
    (with_tokens (<[token_ID token := mkTokenRow (token_SecretDigest token) (token_Epoch token)]>
      (enrollment_tokens db)) db).
Proof.
  intros Hrep Hnew. eapply simulated_one; [done| |].
  - simpl. unfold CreateToken. by rewrite (rep_token _ _ _ Hrep), Hnew.
  - destruct Hrep as [R1 R2 R3]. split; simpl; [|exact R2|exact R3].
    rewrite R1. unfold token_record. rewrite map_imap_insert. simpl. by destruct token.
Qed.
Lemma sim_cancel_pending db reg id :
  represents db reg -> is_Some (enrollment_tokens db !! id) ->
  simulated reg [CallCancelToken id] (with_tokens (delete id (enrollment_tokens db)) db).
Proof.
  intros Hrep [row Hrow]. eapply simulated_one; [done| |].
  - simpl. unfold CancelToken. by rewrite (rep_token _ _ _ Hrep), Hrow.
  - destruct Hrep as [R1 R2 R3]. split; simpl; [|exact R2|exact R3]. by rewrite R1, map_imap_delete.
Qed.

(** The node record the database keeps of an enrollment: its flag is not stored. *)
Definition enrolled_record (node : NodeRecord) : NodeRecord :=
  mkNodeRecord (nr_NodeID node) (nr_Credential node) false (nr_PublicKeyDigest node)
    (nr_CertificateDER node) (nr_CACertificateDER node).
Lemma sim_consume db reg supplied node before after revision db' :
  controller_wf db -> represents db reg -> validateEnrollmentInput supplied node = Ok (before, after) ->
  run (consumeEnrollment supplied node before after) db = (Ok revision, db') ->
  simulated reg [CallConsumeEnrollment supplied (enrolled_record node)] db'.
Proof.
  intros Hwf Hrep Hv ((row & Ht & He & Hs) & Hnew & Hrnew & Hmax & _ & _ & Hck & _ & ->)%consumeEnrollment_ok.
  apply validateEnrollmentInput_Ok in Hv as (_ & _ & _ & _ & _ & Hid & Hser & _ & _ & _ & _ & Hb & Ha & _).
  assert (Hpos : 0 < cred_Epoch (nr_Credential node)).
  { unfold node_check in Hck. rewrite !andb_true_iff, !Z.ltb_lt in Hck. apply Hck. }
  eapply simulated_one; [simpl; unfold max_int64, max_uint64 in *; lia| |].
  - simpl. unfold ConsumeEnrollment. rewrite (rep_token _ _ _ Hrep), Ht. simpl.
    rewrite He, Hs, (rep_no_node _ _ _ Hrep Hnew). rewrite !(bool_decide_eq_true_2 (_ = _)) by done.
    rewrite (bool_decide_eq_false_2 (cred_Serial _ = _)) by (intros E; by rewrite E in Hser).
    rewrite (proj2 (Z.eqb_neq _ _)) by lia. reflexivity.
  - destruct Hrep as [R1 R2 R3]. split; simpl.
    + by rewrite R1, map_imap_delete.
    + apply map_Forall2_insert_2; [|done]. split; [done|]. split; [|done]. simpl. unfold row_credential.
      simpl. rewrite <- Hb, <- Ha, <- Hid. by destruct (nr_Credential node).
    + apply map_Forall_insert_2.
      * exists supplied, (enrolled_record node). simpl. by rewrite !lookup_insert_eq.
      * intros id r Hr. pose proof (node_replay_fresh _ _ Hwf Hnew id r Hr) as Hne.
        assert (id <> token_ID supplied) by congruence.
        apply replay_other; [by apply R3|done|by rewrite lookup_insert_ne..].
Qed.

(** The effect of a revocation on both sides. *)
Lemma revoked_represented db reg nodeID row node :
  represents db reg -> nodes reg !! nodeID = Some node -> node_represented nodeID row node ->
  en_credential_epoch row < max_int64 -> 0 < en_credential_epoch row ->
  map_Forall2 node_represented
    (<[nodeID := mkNodeRow (en_current_serial row) (en_credential_epoch row + 1)
      (en_not_before_unix_nano row) (en_not_after_unix_nano row) true]> (enrolled_nodes db))
    (<[nodeID := revoked node]> (nodes reg)).
Proof.
  intros [_ R2 _] Hnode (H1 & H2 & H3) Hmax Hpos. apply map_Forall2_insert_2; [|done].
  split; [done|]. split; [|done]. simpl. rewrite H2. unfold row_credential. simpl.
  by rewrite wrap_uint64_small by (unfold max_int64, max_uint64 in *; lia).
Qed.
Lemma sim_revoke db reg nodeID row t :
  controller_wf db -> represents db reg -> enrolled_nodes db !! nodeID = Some row ->
  en_credential_epoch row < max_int64 -> t ⊆ enrollment_replays db ->
  (forall id r, t !! id = Some r -> er_node_id r <> nodeID) ->
  simulated reg [CallRevokeNode nodeID] (revoked_db nodeID row t db).
Proof.
  intros Hwf Hrep Hrow Hmax Ht Hgone. destruct (rep_node _ _ _ _ Hrep Hrow) as (node & Hnode & Hn).
  pose proof (node_epoch_pos _ _ _ Hwf Hrow) as [Hpos _]. eapply simulated_one; [done| |].
  - simpl. unfold RevokeNode. rewrite Hnode. destruct Hn as (_ & -> & _). simpl.
    rewrite (proj2 (Z.eqb_neq _ _)) by (unfold max_int64, max_uint64 in *; lia). reflexivity.
  - split; simpl; [apply Hrep|by apply revoked_represented|].
    intros id r Hr. apply replay_other; [|by eapply Hgone|done|done].
    apply (rep_replays _ _ Hrep). by eapply lookup_weaken.
Qed.
Lemma sim_cancel_consumed db reg tokenID r row :
  controller_wf db -> represents db reg -> enrollment_tokens db !! tokenID = None ->
  enrollment_replays db !! tokenID = Some r -> enrolled_nodes db !! er_node_id r = Some row ->
  en_credential_epoch row < max_int64 ->
  simulated reg [CallCancelToken tokenID]
    (revoked_db (er_node_id r) row (delete tokenID (enrollment_replays db)) db).
Proof.
  intros Hwf Hrep Htok Hr Hrow Hmax. destruct (rep_node _ _ _ _ Hrep Hrow) as (node & Hnode & Hn).
  pose proof (node_epoch_pos _ _ _ Hwf Hrow) as [Hpos _].
  destruct (rep_replays _ _ Hrep _ _ Hr) as (supplied & n & _ & _ & Hcn & _). eapply simulated_one; [done| |].
  - simpl. unfold CancelToken. rewrite (rep_token _ _ _ Hrep), Htok, Hcn, Hnode. simpl.
    destruct Hn as (_ & -> & _). simpl.
    rewrite (proj2 (Z.eqb_neq _ _)) by (unfold max_int64, max_uint64 in *; lia). reflexivity.
  - split; simpl; [apply Hrep|by apply revoked_represented|].
    intros id r' [Hne Hr']%lookup_delete_Some.
    apply replay_other; [by apply (rep_replays _ _ Hrep)| |by rewrite lookup_delete_ne..].
    intros E. apply Hne. by eapply (cwf_replay_nodes _ Hwf).
Qed.
Lemma sim_renew db reg nodeID row expected replacement before after now :
  represents db reg -> enrolled_nodes db !! nodeID = Some row -> en_revoked row = false ->
  row_credential nodeID row = expected -> cred_NotBefore expected <= now < cred_NotAfter expected ->
  cred_NodeID replacement = nodeID -> cred_Epoch replacement = cred_Epoch expected ->
  cred_Serial replacement <> cred_Serial expected ->
  cred_NotBefore replacement = unix_time before -> cred_NotAfter replacement = unix_time after -> before < after ->
  simulated reg [CallRenewCredential nodeID expected replacement now]
    (with_nodes (<[nodeID := mkNodeRow (cred_Serial replacement) (cred_Epoch replacement) before after
      (en_revoked row)]> (enrolled_nodes db)) db).
Proof.
  intros Hrep Hrow Hr He Hnow Hid Hep Hser Hb Ha Hlt.
  destruct (rep_node _ _ _ _ Hrep Hrow) as (node & Hnode & H1 & H2 & H3). eapply simulated_one; [done| |].
  - simpl. unfold RenewCredential, Before, After. rewrite Hnode, H3, Hr, H2, He.
    rewrite (proj2 (sameCredential_eq expected expected)) by done.
    rewrite (proj2 (Z.ltb_ge now _)), (proj2 (Z.ltb_lt now _)) by lia.
    rewrite !(bool_decide_eq_true_2 (_ = _)) by done. rewrite (bool_decide_eq_false_2 (cred_Serial _ = _)) by done.
    rewrite Hb, Ha. unfold unix_time. rewrite (proj2 (Z.ltb_lt _ _)) by lia. reflexivity.
  - destruct Hrep as [R1 R2 R3]. split; simpl; [exact R1| |].
    + apply map_Forall2_insert_2; [|done]. split; [done|]. split; [|done]. simpl. unfold row_credential. simpl.
      rewrite <- Hb, <- Ha, <- Hid. by destruct replacement.
    + intros id r Hrr. destruct (R3 id r Hrr) as (supplied & n & C1 & C2 & C3 & C4 & C5 & C6 & C7).
      destruct (decide (er_node_id r = nodeID)) as [E|Hne].
      * exists supplied, (with_credential node replacement). simpl. rewrite E, lookup_insert_eq in *.
        assert (n = node) as -> by congruence. done.
      * exists supplied, n. simpl. by rewrite lookup_insert_ne by congruence.
Qed.
Lemma sim_finalize db reg c row :
  represents db reg -> enrolled_nodes db !! cred_NodeID c = Some row -> en_revoked row = false ->
  row_credential (cred_NodeID c) row = c ->
  simulated reg [CallFinalizeEnrollment c] (with_replays (other_replays (cred_NodeID c) db) db).
Proof.
  intros Hrep Hrow Hr He. destruct (rep_node _ _ _ _ Hrep Hrow) as (node & Hnode & H1 & H2 & H3).
  eapply simulated_one; [done| |].
  - simpl. unfold FinalizeEnrollment. rewrite Hnode, H3, Hr, H2, He.
    rewrite (proj2 (sameCredential_eq c c)) by done. reflexivity.
  - destruct Hrep as [R1 R2 R3]. split; simpl; [exact R1|exact R2|].
    intros id r [Hrr Hne]%map_lookup_filter_Some.
    destruct (R3 id r Hrr) as (supplied & n & C1 & C2 & C3 & C4). exists supplied, n. simpl.
    split; [apply map_lookup_filter_Some; split; [done|rewrite C3; congruence]|].
    split; [done|]. split; [apply map_lookup_filter_Some; split; [done|rewrite C3; congruence]|]. done.
Qed.

(** An advanced epoch cancels every token that is pending. *)
Lemma sim_cancel_all db reg ids :
  represents db reg -> NoDup ids -> Forall (fun id => is_Some (enrollment_tokens db !! id)) ids ->
  simulated reg (map CallCancelToken ids)
    (with_tokens (foldl (fun t id => delete id t) (enrollment_tokens db) ids) db).
Proof.
  revert db reg. induction ids as [|id ids IH]; intros db reg Hrep Hnd Hall.
  { apply simulated_nil. by apply (represents_same db). }
  apply NoDup_cons in Hnd as [Hnin Hnd]. apply Forall_cons in Hall as [Hid Hall].
  pose proof (sim_cancel_pending _ _ _ Hrep Hid) as Hone. apply (simulated_app reg [_] _ _ _ Hone).
  destruct Hone as (_ & _ & Hrep'). apply (IH _ _ Hrep'); [done|]. simpl.
  rewrite Forall_forall in *. intros x Hx. rewrite lookup_delete_ne by (intros ->; done). by apply Hall.
Qed.
Lemma delete_all_keys {K A} `{Countable K} (t : gmap K A) :
  foldl (fun t id => delete id t) t (map fst (map_to_list t)) = ∅.
Proof.
  apply map_empty. intros id. set (ids := map fst (map_to_list t)).
  assert (Hgone : id ∈ ids \/ t !! id = None).
  { destruct (t !! id) as [a|] eqn:E; [left|by right]. apply list_elem_of_fmap. exists (id, a).
    by rewrite elem_of_map_to_list. }
  clearbody ids. revert t Hgone. induction ids as [|x ids IH]; intros t Hgone; simpl.
  - destruct Hgone as [Hin|Hn]; [by apply elem_of_nil in Hin|done].
  - apply IH. destruct (decide (id = x)) as [->|Hne]; [right; apply lookup_delete_eq|].
    rewrite lookup_delete_ne by done. destruct Hgone as [Hin|Hn]; [|by right]. left. set_solver.
Qed.

(** What a successful method means to the registry. *)
Definition registry_calls (db : ControllerDB) (m : controller_method) : list registry_call :=
  match m with
  | KCreateToken token | KCreateTokenWithAudit token _ => [CallCreateToken token]
  | KConsumeEnrollment supplied node | KConsumeEnrollmentWithAudit supplied node _ =>
      [CallConsumeEnrollment supplied (enrolled_record node)]
  | KFinalizeEnrollment credential => [CallFinalizeEnrollment credential]
  | KCancelToken tokenID | KCancelTokenWithAudit tokenID _ => [CallCancelToken tokenID]
  | KRenewCredential nodeID expected replacement now => [CallRenewCredential nodeID expected replacement now]
  | KRevokeNode nodeID => [CallRevokeNode nodeID]
  | KSetNodeState nodeID next _ _ => if next == NodeRevoked then [CallRevokeNode nodeID] else []
  | KAdvanceEpoch =>
      match readUintMetadata (store_metadata db) "controller_epoch" with
      | Ok raw => if raw >? 0 then map CallCancelToken (map fst (map_to_list (enrollment_tokens db))) else []
      | Err _ => []
      end
  | KAppendAuditEvent _ | KApply _ _ _ _ => []
  end.

Lemma sim_audited reg calls s a db mid db' :
  audited_change s a db mid db' -> simulated reg calls mid -> simulated reg calls db'.
Proof. intros (t & _ & _ & _ & _ & _ & _ & ->). by apply simulated_same. Qed.

Lemma Authorize_ok s c now db db' :
  run (ControllerStore_AuthorizeCredential s c now) db = (Ok tt, db') ->
  exists row, enrolled_nodes db !! cred_NodeID c = Some row /\ en_revoked row = false /\
    row_credential (cred_NodeID c) row = c /\ cred_NotBefore c <= now < cred_NotAfter c.
Proof.
  unfold ControllerStore_AuthorizeCredential. rewrite run_require_bind. destruct (requireReady _); [done|].
  destruct (_ || _); [by intros []%run_throw_ok|]. intros E.
  step in E as ([cur r] & db1 & Hq & E). apply run_mapping_error_ok, readCredential_ok in Hq as (-> & row & Hrow & -> & ->).
  next_condition E Hc; [by apply run_throw_ok in E|]. exists row. split; [done|].
  unfold equalCredential, Before in Hc. conditions. destruct_and!.
  split; [assumption|]. split; [|split; assumption]. destruct c; unfold row_credential in *; simpl in *; congruence.
Qed.

Lemma call_simulated s m db c' reg :
  controller_wf db -> represents db reg -> controller_call s m (calm db) = (None, c') ->
  simulated reg (registry_calls db m) (database c').
Proof.
  intros Hwf Hrep. destruct m; simpl; intros [a E]%outcome_ok.
  - destruct a. apply CreateToken_ok, createEnrollmentToken_ok in E as (_ & _ & Hnew & ->). by apply sim_create.
  - destruct a. apply ConsumeEnrollment_ok in E as (b & a & n & Hv & E). by eapply sim_consume.
  - destruct a. apply ConsumeEnrollmentWithAudit_ok in E as (b & a & n & Hv & E & Hch).
    eapply sim_audited; [exact Hch|]. by eapply sim_consume.
  - destruct a. apply FinalizeEnrollment_ok in E as [(row & Hrow & Hr & He & _)%Authorize_ok ->].
    by eapply sim_finalize.
  - apply CancelToken_ok in E as [(_ & Hin & ->)|(Hnone & r & row & Hr & Hrow & _ & Hmax & _ & ->)].
    + by apply sim_cancel_pending.
    + by apply sim_cancel_consumed.
  - destruct a. apply RenewCredential_ok in E
      as (row & b & a & Hrow & Hr & He & Hnow & Hid & Hep & Hser & Hb & Ha & _ & _ & _ & Hc & ->).
    assert (b < a) by (unfold node_check in Hc; rewrite !andb_true_iff, !Z.ltb_lt in Hc; apply Hc).
    by apply (sim_renew db reg nodeID row expected replacement b a now).
  - destruct a as [c1 c2]. apply RevokeNode_ok in E as (row & Hrow & _ & Hmax & _ & _ & ->).
    apply sim_revoke; try done; [apply other_replays_sub|apply other_replays_gone].
  - apply AdvanceEpoch_ok in E as (raw & Hraw & _ & _ & ->). rewrite Hraw. destruct (raw >? 0).
    + eapply simulated_same; [..|apply (sim_cancel_all db reg (map fst (map_to_list (enrollment_tokens db))))];
        simpl; try done; [by rewrite delete_all_keys|apply NoDup_fst_map_to_list|].
      apply Forall_forall. intros id ([k row] & -> & Hin%elem_of_map_to_list)%list_elem_of_fmap. by exists row.
    + apply simulated_nil. by apply (represents_same db).
  - apply AppendAuditEvent_ok in E as [Hch _]. eapply sim_audited; [exact Hch|]. by apply simulated_nil.
  - destruct a. apply CreateTokenWithAudit_ok in E as (_ & Hnew & Hch).
    eapply sim_audited; [exact Hch|]. by apply sim_create.
  - destruct a. apply CancelTokenWithAudit_ok in E as [Hin Hch].
    eapply sim_audited; [exact Hch|]. by apply sim_cancel_pending.
  - destruct a as [n ended]. apply SetNodeAdministrativeStateWithAudit_ok in E as (_ & _ & _ & mid & Hm & Hch).
    eapply sim_audited; [exact Hch|]. apply (simulated_same _ _ mid); [done..|].
    destruct Hm as (row & cur & Hrow & _ & _ & [([[-> _]|[-> _]] & _ & ->)|(-> & Hmax & _ & ->)]); simpl.
    1, 2: apply simulated_nil; by apply (represents_same db).
    apply sim_revoke; try done; [apply other_replays_sub|apply other_replays_gone].
  - apply ApplyManagementConfiguration_ok in E as (_ & _ & (m & _ & -> & _) & _ & p & b & Hch).
    eapply sim_audited; [exact Hch|]. apply simulated_nil. by apply (represents_same db).
Qed.

(** ** Histories *)

Lemma act_simulated a c reg :
  controller_wf (database c) -> represents (database c) reg ->
  exists calls, simulated reg calls (database (controller_act a c)).
Proof.
  intros Hwf Hrep. assert (H0 : simulated reg [] (database c)) by (by apply simulated_nil).
  destruct a; simpl.
  - apply (call_keeps (fun db => exists calls, simulated reg calls db)); [eauto|].
    intros db' (c' & E & <-). eexists. by eapply call_simulated.
  - exists []. apply (work_keeps (simulated reg [])); [done|]. intros db' E%work_touches.
    untouched E enrollment_tokens. untouched E enrolled_nodes. untouched E enrollment_replays.
    by eapply simulated_same.
Qed.
Lemma history_simulated actions c reg :
  controller_wf (database c) -> represents (database c) reg ->
  exists calls, simulated reg calls (database (controller_history actions c)).
Proof.
  revert c reg. induction actions as [|a actions IH]; intros c reg Hwf Hrep.
  - exists []. by apply simulated_nil.
  - destruct (act_simulated a c reg Hwf Hrep) as [calls1 H1].
    destruct (IH (controller_act a c) (run_calls reg calls1)) as [calls2 H2]; [by apply act_wf|apply H1|].
    exists (calls1 ++ calls2). by eapply simulated_app.
Qed.

(** ** Observations *)

Section observations.
Context (s : ControllerStore) (db : ControllerDB) (reg : MemoryRegistry).
Hypothesis Hready : requireReady (cs_base s) = None.
Hypothesis Hwf : controller_wf db.
Hypothesis Hrep : represents db reg.

Lemma row_canonical nodeID row :
  enrolled_nodes db !! nodeID = Some row -> canonicalNodeID nodeID = true /\ canonicalSerial (en_current_serial row) = true.
Proof.
  intros Hrow. destruct (cwf_nodes _ Hwf _ _ Hrow) as [Hc _]. unfold node_check in Hc.
  rewrite !andb_true_iff in Hc. by destruct Hc as [[[H1 H2] _] _].
Qed.
Lemma observe_current nodeID :
  run (ControllerStore_CurrentCredential s nodeID) db = (CurrentCredential reg nodeID, db).
Proof.
  unfold ControllerStore_CurrentCredential, CurrentCredential, LookupNode. rewrite run_require_bind, Hready.
  unfold readCredential. destruct (enrolled_nodes db !! nodeID) as [row|] eqn:Hrow.
  - destruct (row_canonical _ _ Hrow) as [-> _]. destruct (rep_node _ _ _ _ Hrep Hrow) as (node & -> & _ & H2 & H3).
    simpl. rewrite run_query_bind, Hrow, H3, H2. by destruct (en_revoked row).
  - rewrite (rep_no_node _ _ _ Hrep Hrow). destruct (canonicalNodeID nodeID); simpl; [|done].
    by rewrite run_query_bind, Hrow.
Qed.
Lemma observe_authorize c now :
  run (ControllerStore_AuthorizeCredential s c now) db =
    (match AuthorizeCredential reg c now with Some e => Err e | None => Ok tt end, db).
Proof.
  unfold ControllerStore_AuthorizeCredential, AuthorizeCredential. rewrite run_require_bind, Hready.
  destruct (enrolled_nodes db !! cred_NodeID c) as [row|] eqn:Hrow.
  - destruct (row_canonical _ _ Hrow) as [-> Hser]. destruct (rep_node _ _ _ _ Hrep Hrow) as (node & -> & _ & -> & ->).
    change equalCredential with sameCredential. destruct (canonicalSerial (cred_Serial c)) eqn:Hc; simpl.
    + rewrite run_bind, run_mapping_error by apply _. unfold readCredential. rewrite run_query, Hrow.
      by destruct (_ || _).
    + replace (sameCredential _ _) with false; [by rewrite orb_true_r|].
      symmetry. apply not_true_iff_false. intros E%sameCredential_eq.
      rewrite <- E in Hc. simpl in Hc. congruence.
  - rewrite (rep_no_node _ _ _ Hrep Hrow). destruct (_ || _); [done|].
    rewrite run_bind, run_mapping_error by apply _. unfold readCredential. by rewrite run_query, Hrow.
Qed.
Lemma observe_lookup nodeID :
  match run (ControllerStore_LookupNode s nodeID) db, LookupNode reg nodeID with
  | (Ok row, db'), Ok node => db' = db /\ nr_NodeID row = nr_NodeID node /\
      nr_Credential row = nr_Credential node /\ nr_Revoked row = nr_Revoked node
  | (Err e, db'), Err e' => db' = db /\ e = e'
  | _, _ => False
  end.
Proof.
  unfold ControllerStore_LookupNode, LookupNode. rewrite run_require_bind, Hready.
  destruct (enrolled_nodes db !! nodeID) as [row|] eqn:Hrow.
  - destruct (row_canonical _ _ Hrow) as [-> _]. destruct (rep_node _ _ _ _ Hrep Hrow) as (node & -> & H1 & H2 & H3).
    simpl. unfold readCredential. rewrite run_query_bind, Hrow. simpl. by rewrite H1, H2, H3.
  - rewrite (rep_no_node _ _ _ Hrep Hrow). destruct (canonicalNodeID nodeID); simpl; [|done].
    unfold readCredential. by rewrite run_query_bind, Hrow.
Qed.
Lemma observe_replay supplied digest node db' :
  run (ControllerStore_ReplayEnrollment s supplied digest) db = (Ok node, db') ->
  db' = db /\ ReplayEnrollment reg supplied digest = Ok node.
Proof.
  unfold ControllerStore_ReplayEnrollment. rewrite run_require_bind, Hready.
  destruct (_ || _); [by intros []%run_throw_ok|]. rewrite run_query_bind.
  destruct (enrollment_replays db !! token_ID supplied) as [r|] eqn:Hr; [|done].
  destruct (enrolled_nodes db !! er_node_id r) as [row|] eqn:Hrow; [|done].
  intros E. next_condition E Hc; [by apply run_throw_ok in E|]. apply run_ret_ok in E as [<- <-]. split; [done|].
  conditions. destruct_and!. destruct (rep_replays _ _ Hrep _ _ Hr) as (tok & n & C1 & C2 & C3 & C4 & C5 & C6 & C7).
  destruct (rep_node _ _ _ _ Hrep Hrow) as (n' & Hn' & N1 & N2 & N3). assert (n' = n) as -> by congruence.
  unfold ReplayEnrollment. rewrite C1, C3. simpl. rewrite C4, C2, C5, N3.
  rewrite !bool_decide_eq_true_2 by congruence. simpl. destruct (en_revoked row); [done|]. simpl.
  f_equal. destruct n; simpl in *. congruence.
Qed.
End observations.

(** C19 The database refines the registry: after every history of a Controller's
    database there is a sequence of successful registry calls whose registry it
    represents: its tokens and nodes are that registry's, every credential lookup and
    authorization answers exactly as the registry does, a replay it answers is the
    registry's answer, and every further method that succeeds does what its registry
    calls do. *)
Theorem sql_registry_refines_memory actions outs coms :
  let db := database (controller_history actions (mkConnection fresh_controller_db outs coms)) in
  exists calls, Forall call_typed calls /\ successes NewMemoryRegistry calls = calls /\
    let reg := run_calls NewMemoryRegistry calls in
    represents db reg /\
    (forall s m c', controller_call s m (calm db) = (None, c') ->
       simulated reg (registry_calls db m) (database c')) /\
    forall s, requireReady (cs_base s) = None ->
      (forall nodeID, run (ControllerStore_CurrentCredential s nodeID) db = (CurrentCredential reg nodeID, db)) /\
      (forall c now, run (ControllerStore_AuthorizeCredential s c now) db =
         (match AuthorizeCredential reg c now with Some e => Err e | None => Ok tt end, db)) /\
      (forall supplied digest node db', run (ControllerStore_ReplayEnrollment s supplied digest) db = (Ok node, db') ->
         db' = db /\ ReplayEnrollment reg supplied digest = Ok node).
Proof.
  intros db. assert (Hwf : controller_wf db) by apply history_wf, fresh_controller_wf.
  destruct (history_simulated actions (mkConnection fresh_controller_db outs coms) NewMemoryRegistry
    fresh_controller_wf represents_fresh) as [calls (H1 & H2 & H3)].
  exists calls. split; [done|]. split; [done|]. split; [done|]. split.
  - intros s m c'. by apply call_simulated.
  - intros s Hs. split; [|split].
    + intros nodeID. by apply observe_current.
    + intros c now. by apply observe_authorize.
    + intros supplied digest node db'. by apply observe_replay.
Qed.

(** The methods that revoke a node. *)
Definition revokes_node (nodeID : string) (m : controller_method) : Prop :=
  m = KRevokeNode nodeID \/ exists expected audit, m = KSetNodeState nodeID NodeRevoked expected audit.

(** What a revocation leaves: a registry in which the node is revoked. *)
Lemma revocation_recorded s m c c' reg nodeID :
  controller_wf (database c) -> represents (database c) reg -> registry_ok reg ->
  revokes_node nodeID m -> controller_call s m c = (None, c') ->
  exists reg' node, controller_wf (database c') /\ represents (database c') reg' /\ registry_ok reg' /\
    nodes reg' !! nodeID = Some node /\ nr_Revoked node = true.
Proof.
  intros Hwf Hrep Hok Hrevokes Hcall. destruct (call_calm _ _ _ _ Hcall) as (c1 & Hcalm & Hdb).
  pose proof (call_simulated _ _ _ _ reg Hwf Hrep Hcalm) as Hsim.
  assert (Hcalls : registry_calls (database c) m = [CallRevokeNode nodeID])
    by (destruct Hrevokes as [->|(e & a & ->)]; done).
  rewrite Hcalls, Hdb in Hsim. destruct Hsim as (_ & Hsuc & Hrep').
  pose proof (run_call_ok reg (CallRevokeNode nodeID) Hok I) as Hok'. unfold run_calls in Hrep'.
  simpl in Hsuc, Hrep', Hok'. destruct (RevokeNode reg nodeID) as [reg' [cred|]] eqn:Hrev; [|done].
  simpl in *. exists reg'. apply RevokeNode_Ok in Hrev as (node & _ & _ & _ & Hreg). exists (revoked node).
  split; [rewrite <- Hdb; by eapply call_wf|]. split; [done|]. split; [done|].
  split; [|done]. rewrite Hreg. simpl. apply lookup_insert_eq.
Qed.
(** A call that succeeds on the database succeeds on the registry. *)
Lemma success_simulated s m c c' reg call :
  controller_wf (database c) -> represents (database c) reg -> controller_call s m c = (None, c') ->
  registry_calls (database c) m = [call] -> (run_call reg call).2 = None.
Proof.
  intros Hwf Hrep E Ec. destruct (call_calm _ _ _ _ E) as (c2 & E2 & _).
  destruct (call_simulated _ _ _ _ _ Hwf Hrep E2) as (_ & Hs & _). rewrite Ec in Hs. simpl in Hs.
  by destruct (run_call _ call) as [r [e|]].
Qed.

(** C20 Revocation is final in the database: once a node was revoked, by itself or as an
    audited change of its state, no further history lets it back in, whatever fails in
    it: its credential is never current nor authorized again, nothing replays its
    enrollment, and no call renews it or enrolls another node under its name. *)
Theorem sql_revocation_is_final before after outs coms s m nodeID c' :
  let c := controller_history before (mkConnection fresh_controller_db outs coms) in
  revokes_node nodeID m -> controller_call s m c = (None, c') ->
  let later := controller_history after c' in
  forall s', requireReady (cs_base s') = None ->
    (run (ControllerStore_CurrentCredential s' nodeID) (database later)).1 = Err ErrCredentialRejected /\
    (forall credential now, cred_NodeID credential = nodeID ->
       (run (ControllerStore_AuthorizeCredential s' credential now) (database later)).1 = Err ErrCredentialRejected) /\
    (forall supplied digest node db',
       run (ControllerStore_ReplayEnrollment s' supplied digest) (database later) = (Ok node, db') ->
       nr_NodeID node <> nodeID) /\
    (forall expected replacement now c'',
       controller_call s' (KRenewCredential nodeID expected replacement now) later <> (None, c'')) /\
    (forall supplied node c'', nr_NodeID node = nodeID ->
       controller_call s' (KConsumeEnrollment supplied node) later <> (None, c'')).
Proof.
  intros c Hrevokes Hcall later s' Hs'.
  assert (Hwf : controller_wf (database c)) by apply history_wf, fresh_controller_wf.
  destruct (history_simulated before (mkConnection fresh_controller_db outs coms) NewMemoryRegistry
    fresh_controller_wf represents_fresh) as [calls0 (Hty0 & _ & Hrep0)].
  destruct (revocation_recorded s m c c' _ nodeID Hwf Hrep0 (run_calls_ok _ _ new_registry_ok Hty0) Hrevokes Hcall)
    as (reg1 & node & Hwf1 & Hrep1 & Hok1 & Hn1 & Hr1).
  destruct (history_simulated after c' reg1 Hwf1 Hrep1) as [calls2 (Hty2 & _ & Hrep2)].
  assert (Hwf2 : controller_wf (database later)) by (by apply history_wf).
  destruct (calls_progress reg1 calls2 nodeID node Hok1 Hty2 Hn1) as (node2 & Hn2 & _ & Hr2 & _).
  destruct (revoked_refused _ nodeID node2 (run_calls_ok _ _ Hok1 Hty2) Hn2 (Hr2 Hr1)) as (F1 & F2 & F3 & F4 & F5).
  split; [by rewrite (observe_current s' _ _ Hs' Hwf2 Hrep2), F1|].
  split; [intros credential now E; by rewrite (observe_authorize s' _ _ Hs' Hwf2 Hrep2), (F2 _ _ E)|].
  split; [intros supplied digest n db' [_ E]%(observe_replay s' _ _ Hs' Hrep2); by eapply F3|].
  split.
  - intros expected replacement now c'' E. pose proof (success_simulated _ _ _ _ _ _ Hwf2 Hrep2 E eq_refl) as H.
    simpl in H. by rewrite F4 in H.
  - intros supplied n c'' En E. pose proof (success_simulated _ _ _ _ _ _ Hwf2 Hrep2 E eq_refl) as H.
    by apply (F5 supplied (enrolled_record n)).
Qed.
Lemma sql_revocation_is_final_witness :
  error_of (run (ControllerStore_AuthorizeCredential Demo.store Demo.credential (unix_time 100)) (database Demo.c)).1
    = None /\
  let ended := controller_call Demo.store (KRevokeNode Demo.nodeID) Demo.c in
  ended.1 = None /\
  (run (ControllerStore_AuthorizeCredential Demo.store Demo.credential (unix_time 100))
     (database (controller_history ([Call Demo.store KAdvanceEpoch] ++ Demo.work) ended.2))).1 = Err ErrCredentialRejected.
Proof.
  split; [vm_compute; reflexivity|]. cbv zeta. split; [vm_compute; reflexivity|].
  assert (Hcall : controller_call Demo.store (KRevokeNode Demo.nodeID)
      (controller_history (Demo.setup ++ Demo.work) (mkConnection fresh_controller_db [] [])) =
    (None, (controller_call Demo.store (KRevokeNode Demo.nodeID) Demo.c).2)) by (vm_compute; reflexivity).
  destruct (sql_revocation_is_final (Demo.setup ++ Demo.work) ([Call Demo.store KAdvanceEpoch] ++ Demo.work) [] []
    Demo.store (KRevokeNode Demo.nodeID) Demo.nodeID _ (or_introl eq_refl) Hcall Demo.store eq_refl) as (_ & H & _).
  exact (H Demo.credential (unix_time 100) eq_refl).
Defined.
