(* ===== verification/ControllerInterface.v ===== *)
(** * The Controller's database behind the enrollment service

    [sql_registry]: the [Registry] interface that internal/enroll asks for, as
    internal/store implements it; [sql_registry_laws] discharges what the service's
    theorems assume, so they hold of a Controller that keeps its enrollments in the
    database. *)

From S2P Require Import Prelude GoStd GoEncoding Sql StoreBase JoinCode EnrollRegistry EnrollPKI EnrollService EnrollProps Domain WorkTables ControllerStore StoreEnroll AuditTrail Management ControllerSpec ControllerFacts ControllerHistory ControllerProps ControllerRegistry.
From Stdlib Require Import Ascii.

(** ** Methods that refuse *)

(** An undisturbed error leaves the database alone. *)
Class Refuses {A} (m : program A) := refuses db e db' : run m db = (Err e, db') -> db' = db.
#[export] Instance read_refuses {A} (m : program A) : ReadOnly m -> Refuses m.
Proof. intros Hm db e db' E. pose proof (run_read_only m db Hm) as H. by rewrite E in H. Qed.
#[export] Instance bind_refuses {A B} (m : program A) (f : A -> program B) :
  Follows m -> ReadOnly m -> (forall a, Refuses (f a)) -> Refuses (m ≫= f).
Proof.
  intros Hm Hr Hf db e db'. rewrite run_bind by done. pose proof (run_read_only m db Hr) as H.
  destruct (run m db) as [[a|e1] db1]; simpl in H; subst; [apply Hf|]. by intros [= _ ->].
Qed.
#[export] Instance tx_refuses {A} (body : program (tx_end A)) rec :
  Follows body -> Refuses (in_tx_recovering body rec).
Proof.
  intros Hb db e db'. rewrite run_in_tx_recovering by done. unfold tx_run.
  destruct (run body db) as [[[a|a]|e1] db1]; by intros [= _ ->].
Qed.
#[export] Instance in_tx_refuses {A} (body : program (tx_end A)) : Follows body -> Refuses (in_tx body).
Proof. apply tx_refuses. Qed.
#[export] Hint Extern 2 (Refuses (match ?x with _ => _ end)) => destruct x : typeclass_instances.

(** A method as the interface has it: the state and the error, or the answer. *)
Definition state_error {A} (r : result A * ControllerDB) : ControllerDB * error := (r.2, error_of r.1).
Lemma state_error_None {A} (r : result A * ControllerDB) db' :
  state_error r = (db', None) <-> exists a, r = (Ok a, db').
Proof. destruct r as [[a|e] db]; unfold state_error; simpl; naive_solver. Qed.
Lemma state_error_Some {A} (r : result A * ControllerDB) db' e :
  state_error r = (db', Some e) <-> r = (Err e, db').
Proof. destruct r as [[a|e1] db]; unfold state_error; simpl; naive_solver. Qed.
Lemma state_error_refuses {A} (m : program A) db db' e :
  Refuses m -> state_error (run m db) = (db', Some e) -> db' = db.
Proof. intros Hm E%state_error_Some. by apply (Hm _ e). Qed.
Lemma state_error_keeps {A} (m : program A) db :
  Refuses m -> controller_wf db -> (forall a db', run m db = (Ok a, db') -> controller_wf db') ->
  controller_wf (state_error (run m db)).1.
Proof.
  intros Hm Hwf Hok. unfold state_error. simpl. destruct (run m db) as [[a|e] db'] eqn:E; simpl; [eauto|].
  by rewrite (Hm _ _ _ E).
Qed.

(** ** The implementation *)

Definition sql_registry (s : ControllerStore) : Registry ControllerDB := {|
  reg_CreateToken db token := state_error (run (ControllerStore_CreateToken s token) db);
  reg_ConsumeEnrollment db supplied node := state_error (run (ControllerStore_ConsumeEnrollment s supplied node) db);
  reg_ReplayEnrollment db supplied digest := (run (ControllerStore_ReplayEnrollment s supplied digest) db).1;
  reg_FinalizeEnrollment db credential := state_error (run (ControllerStore_FinalizeEnrollment s credential) db);
  reg_CancelToken db tokenID := state_error (run (ControllerStore_CancelToken s tokenID) db);
  reg_LookupNode db nodeID := (run (ControllerStore_LookupNode s nodeID) db).1;
  reg_CurrentCredential db nodeID := (run (ControllerStore_CurrentCredential s nodeID) db).1;
  reg_RenewCredential db nodeID expected replacement now :=
    state_error (run (ControllerStore_RenewCredential s nodeID expected replacement now) db);
  reg_RevokeNode db nodeID :=
    let '(r, db') := run (ControllerStore_RevokeNode s nodeID) db in
    (db', match r with Ok (credential, _) => Ok credential | Err e => Err e end);
  reg_AuthorizeCredential db credential now :=
    error_of (run (ControllerStore_AuthorizeCredential s credential now) db).1 |}.

(** What the database needs of a new node and its token beyond the interface. *)
Definition sql_admits (db : ControllerDB) (token : TokenRecord) (node : NodeRecord) : Prop :=
  (exists times, validateEnrollmentInput token node = Ok times) /\
  enrollment_replays db !! token_ID token = None /\ cred_Epoch (nr_Credential node) <= max_int64 /\
  management_revision db < max_int64 /\ length (nr_PublicKeyDigest node) = 32%nat.

Lemma canonicalNodeID_nonempty nodeID : canonicalNodeID nodeID = true -> sql_nonempty nodeID = true.
Proof.
  unfold canonicalNodeID, isLowerHex, all_bytes. destruct nodeID as [|b rest]; [done|].
  intros [_ Hhex]%andb_true_iff. simpl in *. apply andb_true_iff in Hhex as [Hb _].
  apply negb_true_iff. destruct (Ascii.eqb_spec b Ascii.zero) as [->|]; done.
Qed.

Lemma insert_row_new {K A} `{Countable K} (check : bool) (k : K) (row : A) t :
  check = true -> t !! k = None -> insert_row check k row t = Ok (<[k := row]> t).
Proof. intros -> Hk. unfold insert_row. by rewrite Hk. Qed.

(** The node with the rows of the triggers, and its replay. *)
Definition node_added (nodeID : string) (row : NodeRow) (db : ControllerDB) : ControllerDB :=
  with_node_configurations (<[nodeID := mkNodeConfiguration nodeID nodeID 1]> (management_node_configurations db))
    (with_states (<[nodeID := NodeActive]> (node_administrative_states db))
      (with_nodes (<[nodeID := row]> (enrolled_nodes db)) db)).
Lemma no_node_rows db nodeID :
  controller_wf db -> enrolled_nodes db !! nodeID = None ->
  node_administrative_states db !! nodeID = None /\ management_node_configurations db !! nodeID = None.
Proof.
  intros Hwf Hnew%not_elem_of_dom. split; apply not_elem_of_dom.
  - by rewrite (cwf_states_dom _ Hwf).
  - by rewrite (cwf_configurations_dom _ Hwf).
Qed.
Lemma insert_enrolled_node_run nodeID row db :
  controller_wf db -> enrolled_nodes db !! nodeID = None -> node_check nodeID row = true ->
  en_revoked row = false -> en_credential_epoch row <= max_int64 ->
  run (insert_enrolled_node nodeID row) db = (Ok tt, node_added nodeID row db).
Proof.
  intros Hwf Hnew Hc Hr Hep. destruct (no_node_rows _ _ Hwf Hnew) as [Hst Hcf].
  unfold insert_enrolled_node. rewrite run_exec. unfold uint64_arg, maxSQLiteInteger.
  rewrite Z.gtb_ltb, (proj2 (Z.ltb_ge _ _)) by exact Hep.
  assert (Hcan : canonicalNodeID nodeID = true)
    by (unfold node_check in Hc; rewrite !andb_true_iff in Hc; by destruct Hc as [[[H _] _] _]).
  rewrite (insert_row_new _ _ _ _ Hc Hnew), Hr.
  rewrite (insert_row_new true _ _ (node_administrative_states db) eq_refl Hst).
  by rewrite (insert_row_new _ _ _ _ (canonicalNodeID_nonempty _ Hcan) Hcf).
Qed.
Lemma insert_replay_run id row db :
  controller_wf db -> blob_check 16 id = true -> blob_check 32 (er_secret_digest row) = true ->
  0 < er_controller_epoch row -> length (er_public_key_digest row) = 32%nat ->
  er_certificate_der row <> [] -> er_ca_der row <> [] -> enrollment_replays db !! id = None ->
  (forall id' r, enrollment_replays db !! id' = Some r -> er_node_id r <> er_node_id row) ->
  is_Some (enrolled_nodes db !! er_node_id row) ->
  run (insert_replay id row) db = (Ok tt, with_replays (<[id := row]> (enrollment_replays db)) db).
Proof.
  intros Hwf Hid Hsec Hep Hpk Hc Hca Hnew Hne Hnode. unfold insert_replay. rewrite run_exec.
  rewrite insert_row_new; [done| |done]. rewrite Hid, Hsec, (proj2 (Z.ltb_lt _ _) Hep), Hpk.
  rewrite (bool_decide_eq_true_2 _ Hnode), andb_true_r.
  assert (Hu : forallb (fun r => negb (bool_decide (er_node_id r.2 = er_node_id row)))
    (map_to_list (enrollment_replays db)) = true).
  { apply forallb_forall. intros [id' r] Hin%list_elem_of_In%elem_of_map_to_list. simpl.
    apply negb_true_iff, bool_decide_eq_false. by eapply Hne. }
  rewrite Hu. destruct (er_certificate_der row); [done|]. by destruct (er_ca_der row).
Qed.

Lemma updateManagementRevision_run a b db :
  management_revision db = a -> 0 <= b ->
  run (updateManagementRevision a b) db = (Ok tt, with_state b (management_fleet_max db) db).
Proof.
  intros Hr Hb. unfold updateManagementRevision. rewrite run_bind, run_statement by apply _.
  by rewrite bool_decide_eq_true_2, (proj2 (Z.ltb_ge b 0)).
Qed.

(** A consumption that nothing opposes succeeds. *)
Lemma consumeEnrollment_run supplied node before after db :
  controller_wf db -> validateEnrollmentInput supplied node = Ok (before, after) -> sql_admits db supplied node ->
  enrollment_tokens db !! token_ID supplied = Some (mkTokenRow (token_SecretDigest supplied) (token_Epoch supplied)) ->
  enrolled_nodes db !! nr_NodeID node = None -> 0 < cred_Epoch (nr_Credential node) ->
  run (consumeEnrollment supplied node before after) db =
    (Ok (management_revision db + 1), consumed_db supplied node before after db).
Proof.
  intros Hwf Hv (_ & Hrep & Hep & Hrev & Hpk) Htok Hnew Hpos.
  destruct (cwf_tokens _ Hwf _ _ Htok) as (Hid & Hsec & [Htpos _]). simpl in Hsec, Htpos.
  apply validateEnrollmentInput_Ok in Hv as (_ & _ & _ & _ & Hcan & _ & Hser & _ & _ & Hc & Hca & _ & _ & [Hb Hlt] & Ha).
  unfold consumeEnrollment. rewrite run_query_bind, Htok. cbn [tk_secret_digest tk_controller_epoch].
  rewrite !(bool_decide_eq_true_2 (_ = _)) by done. cbn [negb]. set (row := mkNodeRow _ _ _ _ _).
  assert (Hck : node_check (nr_NodeID node) row = true).
  { unfold node_check, row. simpl. by rewrite Hcan, Hser, !(proj2 (Z.ltb_lt _ _)). }
  rewrite run_bind, run_mapping_error, insert_enrolled_node_run by (done || apply _).
  assert (Hwf1 : controller_wf (node_added (nr_NodeID node) row db)).
  { apply keep_enrolled; [done| |done|done]. exact (conj Hck (conj Hep (conj Hb Ha))). }
  unfold readManagementRevision. rewrite run_bind, run_bind, readManagementState_wf by (done || apply _).
  rewrite run_ret. cbn [fst]. change (management_revision (node_added _ _ _)) with (management_revision db).
  destruct (Z.geb_spec (management_revision db) maxSQLiteInteger); [unfold maxSQLiteInteger in *; lia|].
  pose proof (cwf_revision _ Hwf). rewrite run_bind, updateManagementRevision_run by (done || lia || apply _).
  set (db2 := with_state _ _ _).
  assert (Hwf2 : controller_wf db2) by (apply (keep_revision _ _ Hwf1); simpl; lia).
  rewrite run_bind, run_mapping_error by apply _. rewrite insert_replay_run; try done.
  - rewrite run_bind by apply _. unfold delete_token. rewrite run_statement. cbn [enrollment_tokens with_replays db2].
    change (enrollment_tokens db2) with (enrollment_tokens db). rewrite Htok. reflexivity.
  - apply (node_replay_fresh db _ Hwf Hnew).
  - simpl. rewrite lookup_insert_eq. eauto.
Qed.

(** ** The laws *)

Section laws.
Context (s : ControllerStore).
#[local] Existing Instance sql_registry.

Lemma ready_or_error {A} (m : program A) db a db' :
  run (require (requireReady (cs_base s)) ;; m) db = (Ok a, db') ->
  requireReady (cs_base s) = None /\ run m db = (Ok a, db').
Proof. rewrite run_require_bind. by destruct (requireReady _). Qed.
Lemma CurrentCredential_row db nodeID c db' :
  run (ControllerStore_CurrentCredential s nodeID) db = (Ok c, db') <->
  db' = db /\ requireReady (cs_base s) = None /\ canonicalNodeID nodeID = true /\
  exists row, enrolled_nodes db !! nodeID = Some row /\ en_revoked row = false /\ row_credential nodeID row = c.
Proof.
  unfold ControllerStore_CurrentCredential. rewrite run_require_bind. destruct (requireReady _); [naive_solver|].
  destruct (canonicalNodeID nodeID); [|split; [by intros []%run_throw_ok|naive_solver]]. cbn [negb].
  unfold readCredential. rewrite run_query_bind.
  destruct (enrolled_nodes db !! nodeID) as [row|]; [|naive_solver].
  destruct (en_revoked row) eqn:Hr.
  - split; [by intros []%run_throw_ok|]. intros (_ & _ & _ & row' & [= <-] & Hr' & _). congruence.
  - rewrite run_ret. split; [intros [= <- <-]; eauto 10|]. intros (-> & _ & _ & row' & [= <-] & _ & <-). done.
Qed.

Lemma current_row db nodeID c :
  (run (ControllerStore_CurrentCredential s nodeID) db).1 = Ok c <->
  requireReady (cs_base s) = None /\ canonicalNodeID nodeID = true /\
  exists row, enrolled_nodes db !! nodeID = Some row /\ en_revoked row = false /\ row_credential nodeID row = c.
Proof.
  split.
  - destruct (run _ db) as [r db'] eqn:E. simpl. intros ->. by apply CurrentCredential_row in E as [_ E].
  - intros H. pose proof (proj2 (CurrentCredential_row db nodeID c db) (conj eq_refl H)) as E. by rewrite E.
Qed.

#[local] Lemma law_create_consume db token db' node :
  controller_wf db -> state_error (run (ControllerStore_CreateToken s token) db) = (db', None) ->
  (run (ControllerStore_LookupNode s (nr_NodeID node)) db).1 = Err ErrNodeNotFound ->
  0 < cred_Epoch (nr_Credential node) -> sql_admits db' token node ->
  exists db'', state_error (run (ControllerStore_ConsumeEnrollment s token node) db') = (db'', None).
Proof.
  intros Hwf [[] E]%state_error_None Hlook Hpos Hadm. pose proof E as Hr. apply ready_or_error in Hr as [Hr _].
  apply CreateToken_ok, createEnrollmentToken_ok in E as (_ & Hrow & Hnew & ->).
  pose proof Hadm as ([[before after] Hv] & _). eexists. apply state_error_None. exists tt.
  unfold ControllerStore_ConsumeEnrollment. rewrite run_require_bind, Hr, run_lift_bind, Hv. unfold in_tx.
  rewrite run_in_tx_recovering by apply _. unfold tx_run.
  rewrite run_bind, consumeEnrollment_run; [reflexivity|by apply created_wf|done|done| | |done|apply _].
  - simpl. apply lookup_insert_eq.
  - simpl. unfold ControllerStore_LookupNode in Hlook. rewrite run_require_bind, Hr in Hlook.
    apply validateEnrollmentInput_Ok in Hv as (_ & _ & _ & _ & Hcan & _). rewrite Hcan in Hlook. cbn [negb] in Hlook.
    unfold readCredential in Hlook. rewrite run_query_bind in Hlook. by destruct (enrolled_nodes db !! _).
Qed.

(** What a consumption leaves is answered to a replay and to lookups. *)
#[local] Lemma law_consume_answers db token node db' :
  controller_wf db -> state_error (run (ControllerStore_ConsumeEnrollment s token node) db) = (db', None) ->
  nr_Revoked node = false ->
  (run (ControllerStore_ReplayEnrollment s token (nr_PublicKeyDigest node)) db').1 = Ok node /\
  (run (ControllerStore_CurrentCredential s (nr_NodeID node)) db').1 = Ok (nr_Credential node) /\
  enrollment_tokens db' !! token_ID token = None.
Proof.
  intros Hwf [[] E]%state_error_None Hact. pose proof E as Hr. apply ready_or_error in Hr as [Hr _].
  apply ConsumeEnrollment_ok in E as (before & after & n & Hv & E).
  apply consumeEnrollment_ok in E as ((row & Ht & He & Hs) & _ & _ & _ & _ & _ & _ & Hpk & ->).
  destruct (cwf_tokens _ Hwf _ _ Ht) as (_ & Hsec & [Htpos _]). rewrite Hs in Hsec. rewrite He in Htpos.
  apply validateEnrollmentInput_Ok in Hv
    as (Hz & Hmax & Hza & Hzs & Hcan & Hid & _ & _ & Hzp & _ & _ & Hb & Ha & _).
  assert (Hcred : row_credential (nr_NodeID node) (mkNodeRow (cred_Serial (nr_Credential node))
    (cred_Epoch (nr_Credential node)) before after false) = nr_Credential node).
  { unfold row_credential. simpl. rewrite <- Hb, <- Ha, <- Hid. by destruct (nr_Credential node). }
  split; [|split].
  - unfold ControllerStore_ReplayEnrollment. rewrite run_require_bind, Hr, Hza, Hzs, Hzp. cbn [orb].
    rewrite run_query_bind. cbn [consumed_db enrollment_replays with_tokens with_replays]. rewrite lookup_insert_eq.
    cbn [er_node_id consumed_db enrolled_nodes with_tokens with_replays with_state with_node_configurations with_states with_nodes].
    rewrite lookup_insert_eq. cbn [er_secret_digest er_public_key_digest er_controller_epoch en_revoked].
    apply andb_true_iff in Hsec as [Hlen _]. rewrite Hlen, Hpk, !bool_decide_eq_true_2 by done. unfold maxSQLiteInteger.
    rewrite (proj2 (Z.eqb_neq (token_Epoch token) 0)), Z.gtb_ltb, (proj2 (Z.ltb_ge _ _)) by (done || lia).
    cbn [negb orb Nat.eqb]. rewrite run_ret. cbn [fst er_certificate_der er_ca_der]. rewrite Hcred.
    f_equal. destruct node; simpl in *. by subst.
  - apply current_row. split; [done|]. split; [done|]. eexists. simpl. rewrite lookup_insert_eq. split; [done|].
    split; [done|exact Hcred].
  - simpl. apply lookup_delete_eq.
Qed.
#[local] Lemma law_token_needed db token node :
  enrollment_tokens db !! token_ID token = None ->
  exists e, state_error (run (ControllerStore_ConsumeEnrollment s token node) db) = (db, Some e).
Proof.
  intros Hnone. destruct (run (ControllerStore_ConsumeEnrollment s token node) db) as [[[]|e] db'] eqn:E.
  - apply ConsumeEnrollment_ok in E as (? & ? & ? & _ & ((row & Ht & _) & _)%consumeEnrollment_ok). congruence.
  - exists e. unfold state_error. simpl. f_equal.
    assert (Refuses (ControllerStore_ConsumeEnrollment s token node)) as Href
      by (unfold ControllerStore_ConsumeEnrollment; apply _). by apply (Href _ e).
Qed.

Lemma Authorize_row db c now :
  controller_wf db ->
  error_of (run (ControllerStore_AuthorizeCredential s c now) db).1 = None <->
  (run (ControllerStore_CurrentCredential s (cred_NodeID c)) db).1 = Ok c /\ cred_NotBefore c <= now < cred_NotAfter c.
Proof.
  intros Hwf. split.
  - destruct (run (ControllerStore_AuthorizeCredential s c now) db) as [[[]|e] db'] eqn:E; [|done]. intros _.
    pose proof E as Hr. apply ready_or_error in Hr as [Hr _].
    apply Authorize_ok in E as (row & Hrow & Hact & Hc & Hnow). split; [|exact Hnow].
    apply current_row. split; [done|]. split; [by destruct (row_canonical _ Hwf _ _ Hrow)|]. eauto.
  - intros [(Hr & Hcan & row & Hrow & Hact & Hc)%current_row Hnow].
    unfold ControllerStore_AuthorizeCredential. rewrite run_require_bind, Hr, Hcan.
    assert (Hser : canonicalSerial (cred_Serial c) = true)
      by (rewrite <- Hc; by destruct (row_canonical _ Hwf _ _ Hrow)).
    rewrite Hser. cbn [negb orb]. rewrite run_bind, run_mapping_error by apply _. unfold readCredential.
    rewrite run_query, Hrow, Hact, Hc. change equalCredential with sameCredential. unfold Before.
    rewrite (proj2 (sameCredential_eq c c)), (proj2 (Z.ltb_ge now _)), (proj2 (Z.ltb_lt now _)) by (done || lia). done.
Qed.
End laws.

#[local] Ltac sql_refuses :=
  intros; match goal with H : _ = (_, Some _) |- _ => eapply state_error_refuses; [|exact H] end;
  unfold ControllerStore_CreateToken, ControllerStore_ConsumeEnrollment, ControllerStore_RenewCredential; apply _.
#[local] Ltac sql_keeps :=
  intros; apply state_error_keeps;
  [unfold ControllerStore_CreateToken, ControllerStore_ConsumeEnrollment, ControllerStore_RenewCredential; apply _
  |assumption|].

(** The database keeps the laws of the registry's interface. *)
Program Definition sql_registry_laws (s : ControllerStore) : @RegistryLaws ControllerDB (sql_registry s) :=
  {| reg_ok := controller_wf; reg_admits := sql_admits |}.
Next Obligation. sql_refuses. Qed.
Next Obligation. sql_refuses. Qed.
Next Obligation. sql_refuses. Qed.
Next Obligation.
  sql_keeps. intros [] db' E. apply CreateToken_ok, createEnrollmentToken_ok in E as (_ & Hrow & _ & ->).
  by apply created_wf.
Qed.
Next Obligation.
  sql_keeps. intros [] db' E. apply ConsumeEnrollment_ok in E as (b & a & n & Hv & E). by eapply consumeEnrollment_wf.
Qed.
Next Obligation.
  sql_keeps. intros [] db' E. apply RenewCredential_ok in E
    as (row & b & a & Hrow & _ & _ & _ & _ & _ & _ & _ & _ & Hb & Ha & He & Hc & ->). by eapply renewed_wf.
Qed.
Next Obligation. intros s db token db' node Hwf Hc Hl _ _ Hpos Hadm. by eapply law_create_consume. Qed.
Next Obligation.
  intros s db token node db' Hwf Hc Hact. destruct (law_consume_answers s _ _ _ _ Hwf Hc Hact) as (H1 & H2 & H3).
  split; [done|]. split; [done|]. intros token' node' E. apply law_token_needed. by rewrite E.
Qed.
Next Obligation.
  intros s db token epoch digest H1 H2. simpl. unfold ControllerStore_ReplayEnrollment. cbn [token_ID token_SecretDigest token_Epoch].
  by rewrite !(proj2 (Z.eqb_neq _ 0)).
Qed.
Next Obligation.
  intros s db token digest node. simpl. unfold ControllerStore_ReplayEnrollment. rewrite run_require_bind.
  destruct (requireReady _); [done|]. destruct (_ || _); [done|]. rewrite run_query_bind.
  destruct (enrollment_replays db !! _) as [r|]; [|done]. destruct (enrolled_nodes db !! _) as [row|]; [|done].
  destruct (_ || _) eqn:Hc; [done|]. intros [= <-]. conditions. by destruct_and!.
Qed.
Next Obligation.
  intros s db nodeID c c' now db' Hwf [[] E]%state_error_None. pose proof E as Hr. apply ready_or_error in Hr as [Hr _].
  apply RenewCredential_ok in E as (row & b & a & Hrow & Hact & Hc & _ & Hid & Hep & Hser & Hb & Ha & _ & _ & _ & _ & ->).
  destruct (row_canonical _ Hwf _ _ Hrow) as [Hcan _]. simpl.
  split; [apply current_row; eauto 10|]. split; [|done]. apply current_row.
  split; [done|]. split; [done|]. eexists. simpl. rewrite lookup_insert_eq. split; [done|]. split; [done|]. unfold row_credential. simpl.
  rewrite <- Hb, <- Ha, <- Hid. by destruct c'.
Qed.
Next Obligation. intros s db c now Hwf. by apply Authorize_row. Qed.

(** ** A service over the database

    The theorems of the service, applied to a Controller that keeps its registry in the
    database: a delivered code enrolls a node. *)
#[local] Existing Instances Toy.syntax Toy.x509 Toy.x509_laws.
Module SqlDemo.
#[export] Instance registry : Registry ControllerDB := sql_registry Demo.store.
#[export] Instance registry_laws : RegistryLaws ControllerDB := sql_registry_laws Demo.store.
Definition service : Service := mkService true Toy.identity (Toy.fill "d"%char 32) 1.
Definition delivered : ControllerDB * result JoinCodeDelivery :=
  CreateJoinCodeDelivery service Toy.env fresh_controller_db ["controller.example.test:443"].
Definition delivery : JoinCodeDelivery :=
  match delivered.2 with Ok d => d | Err _ => mkDelivery [] "" end.
(** Checks of what the database admits, evaluated. *)
Definition admitted (db : ControllerDB) (token : TokenRecord) (node : NodeRecord) : bool :=
  match validateEnrollmentInput token node with Ok _ => true | Err _ => false end &&
  match enrollment_replays db !! token_ID token with None => true | Some _ => false end &&
  (cred_Epoch (nr_Credential node) <=? max_int64) && (management_revision db <? max_int64) &&
  (length (nr_PublicKeyDigest node) =? 32)%nat.
Lemma admitted_admits db token node : admitted db token node = true -> sql_admits db token node.
Proof.
  unfold admitted. rewrite !andb_true_iff, Z.leb_le, Z.ltb_lt, Nat.eqb_eq. intros [[[[H1 H2] H3] H4] H5].
  split; [destruct (validateEnrollmentInput token node); [eauto|done]|]. split; [by destruct (_ !! _)|]. done.
Qed.
End SqlDemo.

#[local] Existing Instances SqlDemo.registry SqlDemo.registry_laws.
Lemma sql_service_enrolls :
  exists db c,
    Enroll SqlDemo.service Toy.env2 SqlDemo.delivered.1 (delivery_encoded SqlDemo.delivery) Toy.csr =
      (db, Ok (mkEnrollmentResult (result_NodeID Toy.answer) (result_CertificateDER Toy.answer)
         (ca_raw SqlDemo.service) c)) /\
    (run (ControllerStore_CurrentCredential Demo.store (result_NodeID Toy.answer)) db).1 = Ok c.
Proof.
  destruct (delivered_code_enrolls SqlDemo.service Toy.env Toy.env2 fresh_controller_db SqlDemo.delivered.1
    ["controller.example.test:443"] SqlDemo.delivery Toy.csr (result_NodeID Toy.answer) Toy.node_random Toy.csr
    Toy.csr Toy.certificate (result_CertificateDER Toy.answer)) as (db & c & H1 & _ & H2 & _).
  - exact fresh_controller_wf.
  - vm_compute. reflexivity.
  - vm_compute. reflexivity.
  - vm_compute. reflexivity.
  - vm_compute. reflexivity.
  - reflexivity.
  - reflexivity.
  - reflexivity.
  - vm_compute. reflexivity.
  - intros code Hcode. apply SqlDemo.admitted_admits. revert Hcode.
    set (decoded := DecodeJoinCode (delivery_encoded SqlDemo.delivery)).
    intros Hcode. transitivity (match decoded with Ok code =>
      SqlDemo.admitted SqlDemo.delivered.1 (token_of SqlDemo.service code)
        (mkNodeRecord (result_NodeID Toy.answer) (credentialFor (result_NodeID Toy.answer) Toy.certificate 1) false
          (sha256_Sum256 Toy.csr) (result_CertificateDER Toy.answer) (ca_raw SqlDemo.service))
      | Err _ => true end); [by rewrite Hcode|]. vm_compute. reflexivity.
  - exists db, c. exact (conj H1 H2).
Qed.
