(* ===== verification/WorkProps.v ===== *)
(** * What the Controller's work guarantees

    The properties of assignments, leases, commands, snapshots and execution updates
    after any history of the Controller's database. *)

From S2P Require Import Prelude GoStd GoEncoding Sql StoreBase EnrollRegistry EnrollPKI Domain Execution Replay Fence Transport AgentStore WorkTables ControllerStore StoreCheck StoreEnroll AuditTrail Management WorkStore WorkAgent WorkReport WorkGitHub ControllerSpec ControllerFacts WorkFacts WorkFrame WorkSpec ControllerHistory ControllerProps.
From Stdlib Require Import Ascii.

(** ** Histories *)

(** Enrollment, audit and management leave the tables of work alone. *)
Definition work_view (db : ControllerDB) :=
  (executions db, slot_reservations db, github_job_claims db, github_jit_attempts db, agent_work db).
Lemma audited_view s a db mid db' : audited_change s a db mid db' -> work_view db' = work_view mid.
Proof. by intros (t & _ & _ & _ & _ & _ & _ & ->). Qed.
Lemma call_view s m db c' :
  controller_call s m (calm db) = (None, c') -> work_view (database c') = work_view db.
Proof.
  destruct m; simpl; intros [a E]%outcome_ok.
  - destruct a. by apply CreateToken_ok, createEnrollmentToken_ok in E as (_ & _ & _ & ->).
  - destruct a. apply ConsumeEnrollment_ok in E as (b & a & n & _ & E).
    by apply consumeEnrollment_ok in E as (_ & _ & _ & _ & _ & _ & _ & _ & ->).
  - destruct a. apply ConsumeEnrollmentWithAudit_ok in E as (b & a & n & _ & E & Hch).
    rewrite (audited_view _ _ _ _ _ Hch). done.
  - destruct a. by apply FinalizeEnrollment_ok in E as [_ ->].
  - by apply CancelToken_ok in E as [(_ & _ & ->)|(_ & r & row & _ & _ & _ & _ & _ & ->)].
  - destruct a. by apply RenewCredential_ok in E as (? & ? & ? & _ & _ & _ & _ & _ & _ & _ & _ & _ & _ & _ & _ & _ & ->).
  - destruct a. by apply RevokeNode_ok in E as (? & _ & _ & _ & _ & _ & ->).
  - by apply AdvanceEpoch_ok in E as (? & _ & _ & _ & ->).
  - apply AppendAuditEvent_ok in E as [Hch _]. by rewrite (audited_view _ _ _ _ _ Hch).
  - destruct a. apply CreateTokenWithAudit_ok in E as (_ & _ & Hch). by rewrite (audited_view _ _ _ _ _ Hch).
  - destruct a. apply CancelTokenWithAudit_ok in E as [_ Hch]. by rewrite (audited_view _ _ _ _ _ Hch).
  - destruct a. apply SetNodeAdministrativeStateWithAudit_ok in E as (_ & _ & _ & mid & Hm & Hch).
    rewrite (audited_view _ _ _ _ _ Hch).
    by destruct Hm as (? & ? & _ & _ & _ & [(_ & _ & ->)|(_ & _ & _ & ->)]).
  - apply ApplyManagementConfiguration_ok in E as (_ & _ & (mt & _ & -> & _) & _ & p & b & Hch).
    by rewrite (audited_view _ _ _ _ _ Hch).
Qed.

(** What one action may do to the tables of work. *)
Record work_progress (db db' : ControllerDB) : Prop := {
  wp_leases : lease_wf db';
  wp_advance : executions_advance db db';
  wp_grows : work_grows db db' }.
Lemma progress_refl db : lease_wf db -> work_progress db db.
Proof.
  intros Hwf. split; [done| |reflexivity]. intros id row Hrow. exists row. split; [done|].
  eapply row_advances_refl, (lw_rows _ Hwf _ _ Hrow).
Qed.
Lemma progress_trans db1 db2 db3 : work_progress db1 db2 -> work_progress db2 db3 -> work_progress db1 db3.
Proof.
  intros [_ H1 H2] [H3 H4 H5]. split; [done|by eapply work_advance_trans|by etransitivity].
Qed.
Lemma progress_view db db' : lease_wf db -> work_view db' = work_view db -> work_progress db db'.
Proof.
  intros Hwf [= He Hs _ _ Hw]. split; [destruct Hwf; split; by rewrite ?He, ?Hs| |by split; rewrite Hw].
  intros id row Hrow. rewrite He. exists row. split; [done|]. eapply row_advances_refl, (lw_rows _ Hwf _ _ Hrow).
Qed.
Lemma work_program_progress s m db db' :
  lease_wf db -> run (work_program s m) db = (Ok tt, db') -> work_progress db db'.
Proof.
  intros Hwf E. pose proof (work_leases _ _ _ _ E) as Hstep.
  split; [by eapply lease_step_wf|by eapply lease_step_advances|by eapply work_program_grows].
Qed.
Lemma act_progress a c : lease_wf (database c) -> work_progress (database c) (database (controller_act a c)).
Proof.
  intros Hwf. pose proof (progress_refl _ Hwf) as Hrefl. destruct a; simpl.
  - apply (call_keeps (work_progress (database c))); [done|]. intros db' (c' & E & <-).
    apply progress_view; [done|]. by eapply call_view.
  - apply (work_keeps (work_progress (database c))); [done|]. intros db' E. by eapply work_program_progress.
Qed.
Lemma history_progress actions c :
  lease_wf (database c) -> work_progress (database c) (database (controller_history actions c)).
Proof.
  revert c. induction actions as [|a actions IH]; intros c Hwf; simpl; [by apply progress_refl|].
  pose proof (act_progress a c Hwf) as H. eapply progress_trans; [exact H|]. apply IH, H.
Qed.
Lemma fresh_leases : lease_wf fresh_controller_db.
Proof. split; simpl; [apply map_Forall_empty|done|done]. Qed.
Lemma history_leases actions outs coms :
  lease_wf (database (controller_history actions (mkConnection fresh_controller_db outs coms))).
Proof. apply history_progress, fresh_leases. Qed.

(** ** Leases *)

Lemma leases_held_active db id row :
  lease_wf db -> executions db !! id = Some row -> active (ex_state row) -> leases_held id db = 1%nat.
Proof.
  intros Hwf Hrow Ha. unfold leases_held. rewrite <- (map_size_singleton (slot_of row) (lease_of id row)). f_equal.
  apply map_eq. intros key. apply option_eq. intros r. rewrite map_lookup_filter_Some, lookup_singleton_Some. split.
  - intros [Hr Hid]. simpl in Hid. destruct (lw_mirror _ Hwf _ _ Hr) as (row' & Hrow' & _ & -> & ->). simpl in *.
    rewrite Hid in *. by simplify_eq.
  - intros [<- <-]. split; [by apply (lw_leased _ Hwf)|done].
Qed.
Lemma leases_held_ended db id row :
  lease_wf db -> executions db !! id = Some row -> terminalControllerExecution (ex_state row) = true ->
  leases_held id db = 0%nat.
Proof.
  intros Hwf Hrow Ht. unfold leases_held. apply map_size_empty_iff, map_eq. intros key.
  rewrite lookup_empty. apply map_lookup_filter_None. right. intros r Hr Hid. simpl in Hid.
  destruct (lw_mirror _ Hwf _ _ Hr) as (row' & Hrow' & Ha & _). rewrite Hid in Hrow'. simplify_eq. congruence.
Qed.
Lemma active_listed state :
  state ∈ [ExecutionReserved; ExecutionPreparing; ExecutionRunning; ExecutionCleaning; ExecutionCleanupFailed] ->
  active state.
Proof. rewrite !elem_of_cons, elem_of_nil. intros H. destruct_or!; by subst. Qed.
Lemma reservations_valid db : lease_wf db -> execution_reservations_invalid db = false.
Proof.
  intros Hwf. apply not_true_iff_false. intros ([id row] & Hin & H)%existsb_exists.
  apply list_elem_of_In, elem_of_map_to_list in Hin.
  apply orb_true_iff in H as [[Hs Hn]%andb_true_iff|[Hs Hn]%andb_true_iff]; apply bool_decide_eq_true in Hs.
  - by rewrite (leases_held_active _ _ row) in Hn by (done || by apply active_listed).
  - by rewrite (leases_held_ended _ _ row) in Hn by (done || by apply bool_decide_eq_true).
Qed.
Lemma management_valid db : controller_wf db -> management_authority_invalid db = false.
Proof.
  intros Hwf. apply not_true_iff_false. intros H. unfold management_authority_invalid in H.
  pose proof (cwf_configurations_dom _ Hwf) as Hdom.
  assert (Hiff' : forall id, is_Some (management_node_configurations db !! id) <-> is_Some (enrolled_nodes db !! id)).
  { intros id. by rewrite <- !elem_of_dom, Hdom. }
  rewrite !orb_true_iff in H. destruct H as [[H|H]|H].
  - pose proof (cwf_revision _ Hwf) as Hrev. pose proof (cfg_fleet _ (cwf_configuration _ Hwf)) as Hf.
    apply negb_true_iff, andb_false_iff in H as [H|H]; [rewrite Z.geb_leb in H; apply Z.leb_gt in H; lia|].
    unfold validateFleetMaximum in Hf. destruct (management_fleet_max db) as [n|]; [|done].
    destruct (Z.ltb_spec n 1); [done|]. rewrite Z.geb_leb in H. apply Z.leb_gt in H. lia.
  - apply existsb_exists in H as ([id row] & Hin & H). apply list_elem_of_In, elem_of_map_to_list in Hin.
    apply bool_decide_eq_true in H. destruct (proj2 (Hiff' id)) as [x Hx]; [by exists row|]. congruence.
  - apply existsb_exists in H as ([id row] & Hin & H). apply list_elem_of_In, elem_of_map_to_list in Hin.
    apply negb_true_iff, bool_decide_eq_false in H. apply H, Hiff'. by exists row.
Qed.

(** C7 Slot leases mirror the executions that are not over, after every history: whatever
    assignments, commands, snapshots, execution updates, GitHub transactions, enrollments
    and configurations were made with whatever arguments, and whichever statements failed,
    commits were lost or were not reported, every active execution (reserved, preparing,
    running, cleaning or cleanup_failed) holds the lease of exactly its slot for its
    target, every lease belongs to exactly one active execution, no two active
    executions share a slot, and the store's own validation of executions and
    configurations would find nothing to refuse. *)
Theorem leases_mirror_executions actions outs coms :
  let db := database (controller_history actions (mkConnection fresh_controller_db outs coms)) in
  (forall id row, executions db !! id = Some row -> active (ex_state row) ->
     slot_reservations db !! slot_of row = Some (lease_of id row)) /\
  (forall key lease, slot_reservations db !! key = Some lease ->
     exists row, executions db !! sr_execution_id lease = Some row /\ active (ex_state row) /\
       slot_of row = key /\ ex_target_id row = sr_target_id lease) /\
  (forall id1 id2 row1 row2, executions db !! id1 = Some row1 -> executions db !! id2 = Some row2 ->
     active (ex_state row1) -> active (ex_state row2) -> slot_of row1 = slot_of row2 -> id1 = id2) /\
  execution_reservations_invalid db = false /\ management_authority_invalid db = false.
Proof.
  cbv zeta. set (db := database _). assert (Hwf : lease_wf db) by apply history_leases.
  split; [apply (lw_leased _ Hwf)|]. split.
  { intros key lease Hl. destruct (lw_mirror _ Hwf _ _ Hl) as (row & Hrow & Ha & Hk & Hr).
    exists row. split_and!; try done. by rewrite Hr. }
  split; [intros; by eapply leases_exclusive|]. split; [by apply reservations_valid|].
  apply management_valid, history_wf, fresh_controller_wf.
Qed.

(** Desired states never go back and executions are never forgotten: whatever history
    follows, every execution keeps its target, its slot and its time of creation, and its
    state either advanced along the lifecycle or, from an active state and on the
    authority of a snapshot that does not have it, became failed; a terminal state is
    final. *)
Theorem desired_states_only_advance actions c id row :
  lease_wf (database c) -> executions (database c) !! id = Some row ->
  exists row', executions (database (controller_history actions c)) !! id = Some row' /\
    ex_target_id row' = ex_target_id row /\ slot_of row' = slot_of row /\ ex_created_at row' = ex_created_at row /\
    (CanReachExecutionState (ex_state row) (ex_state row') = true \/
     (active (ex_state row) /\ ex_state row' = ExecutionFailed)) /\
    (terminalControllerExecution (ex_state row) = true -> row' = row).
Proof.
  intros Hwf Hrow. destruct (wp_advance _ _ (history_progress actions c Hwf) _ _ Hrow) as (row' & Hrow' & st & -> & Hs).
  eexists. split; [done|]. simpl. split_and!; try done. intros Ht. destruct Hs as [Hr|[Ha _]]; [|congruence].
  rewrite (terminal_stays _ _ Ht Hr). by destruct row.
Qed.

(** ** Assignments *)

Lemma assignOnce_processed s a db answer db' :
  run (assignOnce s a) db = (Ok answer, db') -> processed a db' answer.1.
Proof.
  intros (t & Ht & [(_ & -> & Hp)|(-> & Hfree & _ & _ & _ & ->)])%assignOnce_ok; [done|].
  exists (mkMessageRow (asg_MessageDigest a) (exec_ID (asg_Execution a)) t),
    (row_of_execution (asg_Execution a) t). simpl. rewrite !lookup_insert_eq. split_and!; try done.
  unfold execution_of, row_of_execution. simpl. by destruct (asg_Execution a) as [? ? [] ?].
Qed.
Lemma Assign_processed isBusy s a waits cancelled c answer c' :
  Assign isBusy s a waits cancelled c = (Ok answer, c') -> processed a (database c') answer.1.
Proof.
  unfold Assign. rewrite !require_bind. destruct (requireReady _); [done|]. destruct (Assignment_Validate a); [done|].
  revert c. induction waits as [|waits IH]; intros c; simpl; destruct (assignOnce s a c) as [[x|e] c1] eqn:E;
    try (intros [= <- <-]; eapply assignOnce_processed, sql_run_ok; [apply _|exact E]); destruct (isBusy e); try done.
  apply IH.
Qed.
Lemma processed_progress a db db' existing :
  work_progress db db' -> processed a db existing ->
  exists existing', processed a db' existing' /\ state_advances (exec_State existing) (exec_State existing').
Proof.
  intros Hp (message & row & Hm & Hrow & -> & Hd & Hi & Ht & Hs).
  destruct (wp_advance _ _ Hp _ _ Hrow) as (row' & Hrow' & st & -> & Hst).
  exists (execution_of (pm_execution_id message) (row_with_state st row)). split; [|exact Hst].
  exists message, (row_with_state st row).
  split; [eapply lookup_weaken; [exact Hm|apply (wg_messages _ _ (wp_grows _ _ Hp))]|]. by split_and!.
Qed.
Lemma Assign_never isBusy s a waits cancelled db :
  (forall answer db', run (assignOnce s a) db <> (Ok answer, db')) ->
  (exists e, run (Assign isBusy s a waits cancelled) db = (Err e, db)).
Proof.
  intros Hno. destruct (run (Assign isBusy s a waits cancelled) db) as [[answer|e] db'] eqn:E.
  { apply Assign_calm in E as [_ E]. by destruct (Hno _ _ E). }
  exists e. f_equal. pose proof (Assign_all_or_nothing isBusy s a waits cancelled (calm db)) as H. unfold run in E.
  destruct (Assign isBusy s a waits cancelled (calm db)) as [r c1]. injection E as -> <-. simpl in H.
  destruct H as [H|[answer [_ H]%Assign_calm]]; [done|]. by destruct (Hno _ _ H).
Qed.

(** C8 A message is assigned exactly once: when [Assign] answers, in whatever
    circumstances and after however many attempts, then after every further history,
    whatever the store and the clock, a redelivery of the message is answered with the
    same execution, target and slot, marked as a replay, and changes nothing; and a
    message with the same identity but another digest, execution, target or slot is
    refused and changes nothing. *)
Theorem assignment_exactly_once isBusy s a waits cancelled c answer c' actions isBusy' s' waits' cancelled' t :
  lease_wf (database c) -> Assign isBusy s a waits cancelled c = (Ok answer, c') ->
  requireReady (cs_base s') = None -> storeUnixNano (store_now (cs_base s')) = Ok t ->
  let db := database (controller_history actions c') in
  (exists existing, run (Assign isBusy' s' a waits' cancelled') db = (Ok (existing, true), db) /\
     exec_ID existing = exec_ID (asg_Execution a) /\ exec_TargetID existing = exec_TargetID (asg_Execution a) /\
     exec_Slot existing = exec_Slot (asg_Execution a)) /\
  (forall a', asg_ScaleSetID a' = asg_ScaleSetID a -> asg_MessageID a' = asg_MessageID a ->
     asg_MessageDigest a' <> asg_MessageDigest a \/ exec_ID (asg_Execution a') <> exec_ID (asg_Execution a) \/
     exec_TargetID (asg_Execution a') <> exec_TargetID (asg_Execution a) \/
     exec_Slot (asg_Execution a') <> exec_Slot (asg_Execution a) ->
     exists e, run (Assign isBusy' s' a' waits' cancelled') db = (Err e, db)).
Proof.
  intros Hwf E Hready Ht. cbv zeta. set (db := database _).
  assert (Hv : Assignment_Validate a = None).
  { revert E. unfold Assign. rewrite !require_bind. destruct (requireReady (cs_base s)); [done|].
    by destruct (Assignment_Validate a). }
  assert (Hwf' : lease_wf (database c')).
  { pose proof (act_progress (Work s (WAssign isBusy a waits cancelled)) c Hwf) as [H _ _]. simpl in H.
    unfold dropping in H. rewrite bind_unfold, E in H. exact H. }
  destruct (processed_progress a _ db _ (history_progress actions c' Hwf') (Assign_processed _ _ _ _ _ _ _ _ E))
    as (existing & Hp & _).
  pose proof (processed_again s' a db existing t Hp Ht) as Hagain. split.
  - exists existing. split; [|by destruct Hp as (? & ? & _ & _ & _ & _ & ? & ? & ?)].
    unfold Assign. rewrite run_require_bind, Hready, run_require_bind, Hv. by apply assign_attempts_run.
  - intros a' H1 H2 Hdiff. apply Assign_never. intros x db' (t' & _ & H)%assignOnce_ok.
    destruct Hp as (message & row & Hm & Hrow & -> & Hd & Hi & Htg & Hs).
    destruct H as [(_ & _ & m' & row' & Hm' & Hrow' & -> & Hd' & Hi' & Htg' & Hs')|(_ & _ & _ & _ & Hnone & _)];
      rewrite H1, H2 in *; [|congruence]. simplify_eq. simpl in *. destruct_or!; congruence.
Qed.

(** A disturbed assignment can always be repeated: when an undisturbed [Assign] would
    succeed, then after an attempt in which statements failed, commits were lost or took
    effect unreported, whatever it answered, an undisturbed repetition succeeds for the
    same execution and leaves the same database. *)
Theorem assignment_repeatable isBusy s a waits cancelled waits' cancelled' c answer db :
  run (Assign isBusy s a waits' cancelled') (database c) = (Ok answer, db) ->
  exists answer', run (Assign isBusy s a waits' cancelled') (database (Assign isBusy s a waits cancelled c).2) = (Ok answer', db) /\
    exec_ID answer'.1 = exec_ID answer.1.
Proof.
  intros E. destruct (all_or_nothing (m := Assign isBusy s a waits cancelled) c) as [->|[x Hx]]; [eauto|].
  assert (Hready : requireReady (cs_base s) = None).
  { revert E. unfold Assign. rewrite run_require_bind. by destruct (requireReady (cs_base s)). }
  apply Assign_calm in E as [Hv E]. apply Assign_calm in Hx as [_ Hx].
  rewrite E in Hx. injection Hx as -> Hdb. rewrite <- Hdb.
  destruct (assigned_settled _ _ _ _ _ E) as (existing & Hagain & Hid). exists (existing, true). split.
  - unfold Assign. rewrite run_require_bind, Hready, run_require_bind, Hv. by apply assign_attempts_run.
  - simpl. rewrite Hid. by destruct (assignOnce_processed _ _ _ _ _ E) as (? & ? & _ & _ & _ & _ & -> & _).
Qed.

(** ** Execution updates *)

Definition stored_update (u : AgentExecutionUpdate) (db : ControllerDB) : Prop :=
  exists row, agent_execution_updates (agent_work db) !! (aeu_NodeID u, aeu_MessageID u) = Some row /\
    update_of (aeu_NodeID u) (aeu_MessageID u) row = u /\ au_replayed row ∈ [0; 1].
Lemma insert_update_ok u t db db' :
  run (insert_update u t) db = (Ok tt, db') -> stored_update u db' /\
  executions db' = executions db /\ slot_reservations db' = slot_reservations db /\
  node_administrative_states db' = node_administrative_states db.
Proof.
  intros E%run_exec_ok. simpl in E. destruct (insert_row _ _ _ _) as [tab|] eqn:Hins; [|done]. simplify_eq.
  apply insert_row_ok in Hins as (_ & _ & ->). split; [|done]. eexists. simpl. rewrite lookup_insert_eq.
  split; [done|]. destruct u as [n m cmd ex st [] err dig]; unfold update_of; simpl; split; try done; set_solver.
Qed.
Lemma load_stored u db :
  validateAgentExecutionUpdate u = None -> stored_update u db ->
  loadAgentExecutionUpdate (aeu_NodeID u) (aeu_MessageID u) db = Ok (Some u).
Proof.
  intros Hv (row & Hrow & Hu & Hr). unfold loadAgentExecutionUpdate. rewrite Hrow.
  assert (Hb : (au_replayed row <? 0) || (au_replayed row >? 1) = false)
    by (rewrite !elem_of_cons, elem_of_nil in Hr; destruct Hr as [->|[->|[]]]; reflexivity).
  rewrite Hb, Hu, Hv. done.
Qed.
Lemma load_stored_inv u db :
  loadAgentExecutionUpdate (aeu_NodeID u) (aeu_MessageID u) db = Ok (Some u) -> stored_update u db.
Proof.
  unfold loadAgentExecutionUpdate. intros E. destruct (_ !! _) as [row|] eqn:Hrow; [|done].
  destruct (_ || _) eqn:Hb in E; [done|]. destruct (validateAgentExecutionUpdate _); [done|].
  injection E as Hu. exists row. split; [done|]. split; [done|].
  apply orb_false_iff in Hb as [H1 H2]. rewrite Z.gtb_ltb in H2. apply Z.ltb_ge in H1, H2.
  assert (au_replayed row = 0 \/ au_replayed row = 1) as [->| ->] by lia; set_solver.
Qed.
Lemma stored_update_grows u db db' : work_grows db db' -> stored_update u db -> stored_update u db'.
Proof.
  intros Hg (row & Hrow & H). exists row. split; [|done]. eapply lookup_weaken; [done|apply (wg_updates _ _ Hg)].
Qed.

(** What a new update leaves: the desired state it reports, unless it reports the teardown
    of an execution that was over; a lease released exactly when the execution ended; and
    the node quarantined when it is not clean. *)
Definition update_effect (u : AgentExecutionUpdate) (db db' : ControllerDB) : Prop :=
  exists issued reconciliation row,
    loadIssuedAgentCommand (aeu_CommandID u) db = Ok (Some issued) /\ issued_NodeID issued = aeu_NodeID u /\
    command_ExecutionID (issued_Command issued) = aeu_ExecutionID u /\
    agentCommandIsReconciliation (aeu_CommandID u) db = Ok reconciliation /\
    executions db !! aeu_ExecutionID u = Some row /\ ex_node_id row = aeu_NodeID u /\
    executions db' = (if reconciliation then executions db
      else <[aeu_ExecutionID u := row_with_state (aeu_State u) row]> (executions db)) /\
    slot_reservations db' = (if terminalControllerExecution (aeu_State u) && negb reconciliation
      then without_lease (aeu_ExecutionID u) (slot_reservations db) else slot_reservations db) /\
    (aeu_State u ∈ [ExecutionCleanupFailed; ExecutionQuarantined] ->
     node_administrative_states db' !! aeu_NodeID u = Some NodeQuarantined).
Lemma update_has_effect s u db db' :
  run (RecordAgentExecutionUpdate s u) db = (Ok false, db') -> update_effect u db db' /\ stored_update u db'.
Proof.
  intros (Hv & [(? & _)|(_ & _ & issued & rec & row & t & mid1 & mid2 & H1 & H2 & H3 & _ & H4 & H5 & H6 & _ & Hadv & Hins & Hset)])
    %RecordAgentExecutionUpdate_ok; [done|].
  apply (advance_desired_ok _ _ _ _ _ H5) in Hadv. apply insert_update_ok in Hins as (Hst & He & Hs & Hn).
  apply settle_lease_ok in Hset as (-> & _ & Hq). unfold settled_db.
  set (q := if bool_decide _ then _ else _).
  assert (Hqt : executions q = executions mid2 /\ slot_reservations q = slot_reservations mid2 /\ agent_work q = agent_work mid2).
  { unfold q. destruct (bool_decide _); [|done]. apply quarantined_tables. }
  destruct Hqt as (Hqe & Hqs & Hqw).
  assert (Hmid : executions mid1 = (if rec then executions db
      else <[aeu_ExecutionID u := row_with_state (aeu_State u) row]> (executions db)) /\
    slot_reservations mid1 = slot_reservations db).
  { destruct rec; [destruct Hadv as (-> & _)|destruct Hadv as (_ & ->)]; done. }
  destruct Hmid as [Hme Hms]. split.
  - exists issued, rec, row. do 6 (split; [done|]). split; [|split].
    + by destruct (_ && _); simpl; rewrite Hqe, He, Hme.
    + by destruct (_ && _); simpl; rewrite ?Hqs, Hs, Hms.
    + intros Hin. assert (Hqn : node_administrative_states q !! aeu_NodeID u = Some NodeQuarantined).
      { unfold q. rewrite bool_decide_eq_true_2 by done. destruct (Hq Hin) as (st & Hstt & Hne).
        unfold quarantined_db. rewrite Hstt, bool_decide_eq_false_2 by done. simpl. by rewrite lookup_insert_eq. }
      by destruct (_ && _).
  - destruct Hst as (r & Hr & H). exists r. split; [|done]. by destruct (_ && _); simpl; rewrite Hqw.
Qed.

(** C9 An execution update is applied exactly once: when [RecordAgentExecutionUpdate]
    accepts one as new, in whatever circumstances, its command was issued to the node for
    the execution; the desired state becomes the reported one, the lease is released
    exactly when that is a terminal state, unless the command was a teardown, which
    changes neither; and the node is quarantined when the report is cleanup_failed or
    quarantined.  After every further history the same message is answered as a replay
    and changes nothing, and another message under its identity is refused and changes
    nothing. *)
Theorem execution_update_applied_once s u c replayed c' actions s' t :
  lease_wf (database c) -> RecordAgentExecutionUpdate s u c = (Ok replayed, c') ->
  requireReady (cs_base s') = None -> storeUnixNano (store_now (cs_base s')) = Ok t ->
  let db := database (controller_history actions c') in
  (if replayed then database c' = database c else update_effect u (database c) (database c')) /\
  run (RecordAgentExecutionUpdate s' u) db = (Ok true, db) /\
  (forall u', aeu_NodeID u' = aeu_NodeID u -> aeu_MessageID u' = aeu_MessageID u -> u' <> u ->
     exists e, run (RecordAgentExecutionUpdate s' u') db = (Err e, db)).
Proof.
  intros Hwf E Hready Ht. cbv zeta. set (db := database (controller_history actions c')).
  apply sql_run_ok in E; [|unfold RecordAgentExecutionUpdate; apply _].
  assert (Hwf' : lease_wf (database c')) by (by eapply lease_step_wf, Hwf; eapply leases_of_update).
  assert (Hv : validateAgentExecutionUpdate u = None) by (by apply RecordAgentExecutionUpdate_ok in E as [? _]).
  assert (H1 : (if replayed then database c' = database c else update_effect u (database c) (database c')) /\
    stored_update u (database c')).
  { destruct replayed; [|by apply update_has_effect in E].
    apply RecordAgentExecutionUpdate_ok in E as (_ & [(_ & -> & Hl)|(? & _)]); [|done]. split; [done|].
    by apply load_stored_inv. }
  destruct H1 as [H1 Hst]. split; [done|].
  apply (stored_update_grows _ _ db) in Hst; [|apply (wp_grows _ _ (history_progress actions c' Hwf'))].
  pose proof (load_stored _ _ Hv Hst) as Hload. split.
  - unfold RecordAgentExecutionUpdate. rewrite run_require_bind, Hready, run_require_bind, Hv, Ht, run_lift_bind.
    enter_tx. rewrite run_query_bind, Hload. rewrite bool_decide_eq_true_2 by done. done.
  - intros u' Hn Hm Hne. unfold RecordAgentExecutionUpdate. rewrite run_require_bind, Hready, run_require_bind.
    destruct (validateAgentExecutionUpdate u'); [eauto|]. rewrite Ht, run_lift_bind. enter_tx.
    rewrite run_query_bind, Hn, Hm, Hload. rewrite bool_decide_eq_false_2 by done.
    eexists. reflexivity.
Qed.

(** ** Commands *)

Definition stored_command (issued : IssuedCommand) (db : ControllerDB) : Prop :=
  loadIssuedAgentCommand (command_ID (issued_Command issued)) db = Ok (Some issued).
Lemma stored_command_grows issued db db' : work_grows db db' -> stored_command issued db -> stored_command issued db'.
Proof.
  unfold stored_command, loadIssuedAgentCommand. intros Hg E.
  destruct (agent_commands (agent_work db) !! _) as [row|] eqn:Hrow; [|done].
  by rewrite (lookup_weaken _ _ _ _ Hrow (wg_commands _ _ Hg)).
Qed.
Lemma insert_agent_command_ok issued t db db' :
  validateIssuedAgentCommand issued = None -> run (insert_agent_command issued t) db = (Ok tt, db') ->
  stored_command issued db' /\ executions db' = executions db.
Proof.
  intros Hv E%run_exec_ok. simpl in E. destruct (insert_row _ _ _ _) as [tab|] eqn:Hins; [|done]. simplify_eq.
  apply insert_row_ok in Hins as (_ & _ & ->). split; [|done]. unfold stored_command, loadIssuedAgentCommand. simpl.
  rewrite lookup_insert_eq. simpl. by rewrite Hv.
Qed.
(** A command is in the store, and nothing else can be under its identity. *)
Lemma command_settled s t issued db :
  requireReady (cs_base s) = None -> storeUnixNano (store_now (cs_base s)) = Ok t ->
  validateIssuedAgentCommand issued = None -> stored_command issued db ->
  run (CommitAgentCommand s issued) db = (Ok true, db) /\
  forall issued', command_ID (issued_Command issued') = command_ID (issued_Command issued) -> issued' <> issued ->
    exists e, run (CommitAgentCommand s issued') db = (Err e, db).
Proof.
  intros Hready Ht Hv Hst. split.
  - unfold CommitAgentCommand. rewrite run_require_bind, Hready, run_require_bind, Hv, Ht, run_lift_bind. enter_tx.
    unfold replayed_command. rewrite run_bind, run_query_bind by apply _. rewrite Hst.
    rewrite bool_decide_eq_true_2 by done. done.
  - intros issued' Hid Hne. unfold CommitAgentCommand. rewrite run_require_bind, Hready, run_require_bind.
    destruct (validateIssuedAgentCommand issued'); [eauto|]. rewrite Ht, run_lift_bind. enter_tx.
    unfold replayed_command. rewrite run_bind, run_query_bind by apply _. rewrite Hid, Hst.
    rewrite bool_decide_eq_false_2 by congruence. eexists. reflexivity.
Qed.
Lemma requireActiveEnrolledNode_ok nodeID db db' :
  run (requireActiveEnrolledNode nodeID) db = (Ok tt, db') ->
  exists node, enrolled_nodes db !! nodeID = Some node /\ en_revoked node = false /\
    node_administrative_states db !! nodeID = Some NodeActive.
Proof.
  unfold requireActiveEnrolledNode. intros ([revoked st] & mid & [E <-]%run_query_ok & E1)%run_bind_ok; [|apply _].
  unfold node_authority in E. destruct (enrolled_nodes db !! nodeID) as [node|]; [|done].
  destruct (node_administrative_states db !! nodeID) as [state|]; [|done]. simplify_eq. exists node.
  destruct (en_revoked node); [by apply run_throw_ok in E1|]. case_bool_decide; [by subst|by apply run_throw_ok in E1].
Qed.
Lemma current_epoch_ok db epoch db' :
  run current_epoch db = (Ok epoch, db') -> readUintMetadata (store_metadata db) "controller_epoch" = Ok epoch.
Proof. by intros [E _]%run_query_ok. Qed.
Lemma replayed_command_ok issued text db b db' :
  run (replayed_command issued text) db = (Ok b, db') -> b = true -> stored_command issued db.
Proof.
  unfold replayed_command. intros (existing & mid & [E <-]%run_query_ok & E1)%run_bind_ok ->; [|apply _].
  destruct existing as [existing|]; [|by apply run_ret_ok in E1 as [? _]].
  unfold stored_command. rewrite E. case_bool_decide; [by subst|by apply run_throw_ok in E1].
Qed.

(** What a command needs to be issued. *)
Definition command_admissible (issued : IssuedCommand) (db : ControllerDB) : Prop :=
  (exists node, enrolled_nodes db !! issued_NodeID issued = Some node /\ en_revoked node = false) /\
  node_administrative_states db !! issued_NodeID issued = Some NodeActive /\
  readUintMetadata (store_metadata db) "controller_epoch" = Ok (command_ControllerEpoch (issued_Command issued)) /\
  exists row, executions db !! command_ExecutionID (issued_Command issued) = Some row /\
    ex_node_id row = issued_NodeID issued /\ ex_state row = command_ExpectedState (issued_Command issued).
Lemma CommitAgentCommand_ok s issued db replayed db' :
  run (CommitAgentCommand s issued) db = (Ok replayed, db') ->
  validateIssuedAgentCommand issued = None /\ stored_command issued db' /\
  if replayed then db' = db else command_admissible issued db.
Proof.
  unfold CommitAgentCommand. intros E. read_on E; read_facts.
  - apply run_ret_ok in E as [E ?]. destruct Hend as [[? _]|[Hend ?]]; [by subst|]. simplify_eq.
    split; [done|]. split; [by eapply replayed_command_ok|done].
  - apply run_bind_ok in E as ([] & mid & Hins & E); [|apply _]. committed E Hend.
    destruct x5. apply requireActiveEnrolledNode_ok in H3 as (node & Hn & Hr & Hs).
    apply current_epoch_ok in H4. destruct (executions db !! _) as [row|] eqn:Hrow in H5; [|done]. simplify_eq.
    conditions. destruct Heqb1 as [Hnode Hstate].
    apply insert_agent_command_ok in Hins as [Hst _]; [|done]. split; [done|]. split; [done|].
    split; [eauto|]. split; [done|]. split; [by rewrite Heqb0|]. exists row. done.
Qed.

(** C12 A command is durable before it reaches an Agent: when [CommitAgentCommand]
    answers, in whatever circumstances, the command was already stored or else its node
    was enrolled and active, its epoch the Controller's, and its execution on that node
    in the expected state; and after every further history the store answers with
    exactly this command, a repetition is a replay that changes nothing, and no other
    command can be committed under its identity. *)
Theorem command_durable_before_delivery s issued c replayed c' actions s' t :
  lease_wf (database c) -> CommitAgentCommand s issued c = (Ok replayed, c') ->
  requireReady (cs_base s') = None -> storeUnixNano (store_now (cs_base s')) = Ok t ->
  let db := database (controller_history actions c') in
  (if replayed then database c' = database c else command_admissible issued (database c)) /\
  run (ReadIssuedAgentCommand s' (command_ID (issued_Command issued))) db = (Ok (Some issued), db) /\
  run (CommitAgentCommand s' issued) db = (Ok true, db) /\
  (forall issued', command_ID (issued_Command issued') = command_ID (issued_Command issued) -> issued' <> issued ->
     exists e, run (CommitAgentCommand s' issued') db = (Err e, db)).
Proof.
  intros Hwf E Hready Ht. cbv zeta. set (db := database (controller_history actions c')).
  assert (Hwf' : lease_wf (database c')).
  { pose proof (act_progress (Work s (WCommitCommand issued)) c Hwf) as [H _ _]. simpl in H.
    unfold dropping in H. rewrite bind_unfold, E in H. exact H. }
  apply sql_run_ok in E; [|unfold CommitAgentCommand; apply _].
  apply CommitAgentCommand_ok in E as (Hv & Hst & Hadm). split; [done|].
  apply (stored_command_grows _ _ db) in Hst; [|apply (wp_grows _ _ (history_progress actions c' Hwf'))].
  split; [|by eapply command_settled].
  unfold ReadIssuedAgentCommand. rewrite run_require_bind, Hready.
  rewrite bool_decide_eq_false_2; [by rewrite run_query, Hst|].
  intros Hid. revert Hv. unfold validateIssuedAgentCommand, Command_Validate.
  destruct (_ == _); [done|]. destruct (CommandType_Validate _ _); [done|]. by rewrite Hid.
Qed.

(** ** Released slots *)

Definition leased_in (id : string) (t : gmap (string * Z) ReservationRow) : Prop :=
  exists key r, t !! key = Some r /\ sr_execution_id r = id.
Lemma leased_without id x t : leased_in id t -> leased_in id (without_lease x t) \/ id = x.
Proof.
  intros (key & r & Hr & Hid). destruct (decide (id = x)) as [->|Hne]; [by right|left]. exists key, r. split; [|done].
  apply map_lookup_filter_Some. split; [done|]. simpl. congruence.
Qed.
Lemma leased_insert id key r t : t !! key = None -> leased_in id t -> leased_in id (<[key := r]> t).
Proof.
  intros Hnew (key' & r' & Hr & Hid). exists key', r'. split; [|done]. rewrite lookup_insert_ne; congruence.
Qed.
(** The current snapshot of a node under the current epoch, as the store has it. *)
Definition current_authority (nodeID digest : string) (epoch : Z) (db : ControllerDB) : Prop :=
  readUintMetadata (store_metadata db) "controller_epoch" = Ok epoch /\
  exists row, agent_snapshot_authority (agent_work db) !! nodeID = Some row /\ sa_snapshot_digest row = digest /\
    sa_accepted_by row = epoch.
Lemma requireCurrent_ok nodeID digest epoch db db' :
  run (requireCurrentAgentSnapshotAuthority nodeID digest epoch) db = (Ok tt, db') ->
  exists row, agent_snapshot_authority (agent_work db) !! nodeID = Some row /\ sa_snapshot_digest row = digest /\
    sa_accepted_by row = epoch.
Proof.
  unfold requireCurrentAgentSnapshotAuthority. intros E. destruct (_ || _); [by apply run_throw_ok in E|].
  apply run_bind_ok in E as (row & mid & [Hrow <-]%run_query_ok & E); [|apply _].
  destruct (_ !! nodeID) as [row'|]; [|done]. simplify_eq/=. exists row. split; [done|].
  destruct (_ || _) eqn:Hc in E; [by apply run_throw_ok in E|]. by conditions.
Qed.
Lemma require_authority_ok nodeID digest epoch db db' :
  run (require_authority nodeID digest epoch) db = (Ok tt, db') -> current_authority nodeID digest epoch db.
Proof.
  unfold require_authority. intros (epoch' & mid & [He <-]%run_query_ok & E)%run_bind_ok; [|apply _].
  case_bool_decide as Heq; [|by apply run_throw_ok in E]. subst. split; [done|]. by eapply requireCurrent_ok.
Qed.
Lemma FailDesired_ok s nodeID id expected digest epoch db answer db' :
  run (FailDesiredExecutionFromSnapshot s nodeID id expected digest epoch) db = (Ok answer, db') ->
  current_authority nodeID digest epoch db /\ current_observation nodeID id digest db = None /\
  exists row, executions db !! id = Some row /\ ex_node_id row = nodeID /\ ex_state row = expected /\
    active (ex_state row) /\ answer = execution_at (execution_of id row) ExecutionFailed /\
    executions db' = <[id := row_with_state ExecutionFailed row]> (executions db) /\
    slot_reservations db' = without_lease id (slot_reservations db).
Proof.
  unfold FailDesiredExecutionFromSnapshot. intros E. read_on E; read_facts. destruct x2.
  match goal with H : run (require_authority _ _ _) _ = _ |- _ => apply require_authority_ok in H as Hauth end.
  match goal with H : run (loadControllerExecution _) _ = _ |- _ =>
    apply loadControllerExecution_ok in H as (row & Hrow & -> & Hv) end.
  apply cas_one_ok in E as (row' & Hrow' & Hst & Hto & E). apply release_one_ok in E as [Hl E]. committed E Hend.
  split; [done|]. split; [simplify_eq; by conditions|]. exists row. simplify_eq. conditions.
  by destruct Heqb0 as [[? ?] ?].
Qed.

(** What may release the lease of [id]: the update of its Agent that reports its end, a
    current snapshot without it, or the end of a lost JIT runner. *)
Inductive released_by (id : string) (db db' : ControllerDB) : work_method -> Prop :=
  | released_by_update u :
      aeu_ExecutionID u = id -> terminalControllerExecution (aeu_State u) = true -> stored_update u db' ->
      update_effect u db db' -> released_by id db db' (WRecordUpdate u)
  | released_by_snapshot nodeID expected digest epoch row :
      executions db !! id = Some row -> ex_node_id row = nodeID -> active (ex_state row) ->
      current_authority nodeID digest epoch db -> current_observation nodeID id digest db = None ->
      executions db' = <[id := row_with_state ExecutionFailed row]> (executions db) ->
      released_by id db db' (WFail nodeID id expected digest epoch)
  | released_by_provider state row :
      executions db !! id = Some row -> ex_state row = ExecutionPreparing ->
      state ∈ [ExecutionReleased; ExecutionFailed; ExecutionQuarantined] ->
      executions db' = <[id := row_with_state state row]> (executions db) ->
      released_by id db db' (WGitHub (GFinish id state)).

Lemma github_leased g id db db' :
  run (github_program g) db = (Ok tt, db') -> leased_in id (slot_reservations db) ->
  leased_in id (slot_reservations db') \/ released_by id db db' (WGitHub g).
Proof.
  unfold github_program. intros (end_ & db1 & E & Hend)%run_in_tx_recovering_ok Hl; [|destruct g; apply _].
  apply run_bind_ok in E as ([] & mid & E & E1); [|destruct g; apply _]. committed E1 Hend.
  destruct g; cbn beta iota in E.
  - left. unfold insert_slot_claim in E. read_on E. read_facts.
    apply run_bind_ok in E as ([] & m1 & E1%run_mapping_error_ok & E); [|apply _].
    apply run_bind_ok in E as ([] & m2 & E2%run_mapping_error_ok & E); [|apply _].
    destruct (insert_lease_ok _ _ _ _ _ E1 E2) as [Hfree ->].
    apply write_claim_tables in E as [_ ->]. simpl. apply leased_insert; [apply (lf_slot _ _ _ Hfree)|done].
  - left. apply (steps_run (R := touches [TExecutions])) in E; [|unfold advance_observed; apply _].
    untouched E slot_reservations. by rewrite Hsame.
  - apply finish_lost_ok in E as (row & Hrow & Hterm & [(Hst & He & [(_ & ->)|(Hne & _ & Hs)])|(_ & _ & ->)]);
      [by left| |by left].
    rewrite Hs. destruct (leased_without id executionID _ Hl) as [?| ->]; [by left|right].
    apply (released_by_provider _ _ _ _ row); try done.
    unfold lostJITTerminalState in Hterm. apply bool_decide_eq_true_1 in Hterm. set_solver.
  - left. by apply write_claim_tables in E as [_ ->].
  - left. apply run_exec_ok in E. injection E as <-. done.
  - left. apply run_exec_ok in E. injection E as <-. done.
Qed.
Lemma work_leased s m id db db' :
  run (work_program s m) db = (Ok tt, db') -> leased_in id (slot_reservations db) ->
  leased_in id (slot_reservations db') \/ released_by id db db' m.
Proof.
  intros E Hl. assert (Hsame : TReservations ∉ work_tables m -> leased_in id (slot_reservations db')).
  { intros Hn. apply work_touches in E. revert Hl. replace (slot_reservations db') with (slot_reservations db); [done|].
    symmetry. eapply touches_keep; [exact E|]. intros table Hin d d' Htouch.
    destruct Htouch as [| | | | | | | | | | | | | | | | | | |dq n|]; try done. apply quarantined_tables. }
  destruct m; try (left; apply Hsame; cbn [work_tables]; set_solver); cbn [work_program] in E.
  - left. apply dropping_ok in E as [answer [_ E]%Assign_calm].
    apply assignOnce_ok in E as (t & _ & [(_ & -> & _)|(_ & Hfree & _ & _ & _ & ->)]); [done|]. simpl.
    apply leased_insert; [apply (lf_slot _ _ _ Hfree)|done].
  - apply dropping_ok in E as [answer (Hauth & Hobs & row & Hrow & Hnode & _ & Hact & _ & He & ->)%FailDesired_ok].
    destruct (leased_without id executionID _ Hl) as [?| ->]; [by left|right; by econstructor].
  - apply dropping_ok in E as [[] E].
    + apply RecordAgentExecutionUpdate_ok in E as (_ & [(_ & -> & _)|(? & _)]); [by left|done].
    + apply update_has_effect in E as [He Hst]. pose proof He as (i & rec & row & _ & _ & _ & _ & _ & _ & _ & -> & _).
      destruct (_ && _) eqn:Hc; [|by left]. apply andb_true_iff in Hc as [Ht _].
      destruct (leased_without id (aeu_ExecutionID update) _ Hl) as [?| ->]; [by left|right; by constructor].
  - by apply github_leased.
Qed.

(** C10 A slot is given back only with evidence: if an execution held a lease before an
    action and does not after it, in whatever circumstances, then the action recorded a
    terminal execution update of the execution, and this update is stored with its
    effect; or it failed the execution, which was active on the very node whose current
    snapshot, accepted under the current epoch, does not have it; or it ended the
    execution, which was still preparing, of a lost JIT runner.  No other method of the
    store, and no management or enrollment, ever releases a slot. *)
Theorem slot_released_only_with_evidence a c id :
  leased_in id (slot_reservations (database c)) ->
  leased_in id (slot_reservations (database (controller_act a c))) \/
  exists s m, a = Work s m /\ released_by id (database c) (database (controller_act a c)) m.
Proof.
  intros Hl. destruct a as [s m|s m]; simpl.
  - left. apply (call_keeps (fun db => leased_in id (slot_reservations db))); [done|]. intros db' (c' & E & <-).
    apply call_view in E. injection E as _ -> _ _ _. done.
  - assert (H : leased_in id (slot_reservations (database (outcome (work_program s m c)).2)) \/
      released_by id (database c) (database (outcome (work_program s m c)).2) m).
    { apply (work_keeps (fun db' => leased_in id (slot_reservations db') \/ released_by id (database c) db' m)); [by left|].
      intros db' E. by eapply work_leased. }
    destruct H as [H|H]; [by left|right; eauto].
Qed.

(** ** A concrete history *)

(** The node and target of [Demo], an assignment, a Prepare command, the report of its
    failure, and the databases in between. *)
Module WorkDemo.
Definition store := Demo.store.
Definition sha := "0000000000000000000000000000000000000000000000000000000000000000".
Definition no_busy (e : GoError) : bool := false.
Definition open_db : ControllerDB := database (controller_history
  (Demo.setup ++ [Call store KAdvanceEpoch;
     Work store (WGitHub (GRuntime {["linux" := mkUpdatePolicy "linux" RunnerVersionPinned "2.320.0" 1]}
       {["repo" := mkBinding "repo" 7 "linux"]}))]) (mkConnection fresh_controller_db [] [])).
Lemma open_leases : lease_wf open_db.
Proof. unfold open_db. apply history_leases. Qed.
Definition prepare : IssuedCommand :=
  mkIssued Demo.nodeID CommandPrepare (mkCommand "prepare-e1" 1 "e1" ExecutionReserved sha).
Definition failed : AgentExecutionUpdate :=
  mkAgentUpdate Demo.nodeID "update-1" "prepare-e1" "e1" ExecutionFailed false ExecutionErrorStart sha.
Definition c0 : connection ControllerDB := calm open_db.
Definition c1 : connection ControllerDB := controller_act (Work store (WAssign no_busy Demo.assignment 0 false)) c0.
Definition c2 : connection ControllerDB := controller_act (Work store (WCommitCommand prepare)) c1.
Definition c3 : connection ControllerDB := controller_act (Work store (WRecordUpdate failed)) c2.
Lemma wf0 : lease_wf (database c0).
Proof. exact open_leases. Qed.
Lemma wf1 : lease_wf (database c1).
Proof. unfold c1. apply act_progress, wf0. Qed.
Lemma wf2 : lease_wf (database c2).
Proof. unfold c2. apply act_progress, wf1. Qed.
Definition e1 : ExecutionSnapshot := asg_Execution Demo.assignment.
Lemma assigns : Assign no_busy store Demo.assignment 0 false c0 = (Ok (e1, false), c1).
Proof. vm_compute. reflexivity. Qed.
Lemma commits : CommitAgentCommand store prepare c1 = (Ok false, c2).
Proof. vm_compute. reflexivity. Qed.
Lemma reports : RecordAgentExecutionUpdate store failed c2 = (Ok false, c3).
Proof. vm_compute. reflexivity. Qed.
End WorkDemo.

Lemma desired_states_only_advance_witness :
  exists row', executions (database (controller_history [Work WorkDemo.store (WCommitCommand WorkDemo.prepare);
      Work WorkDemo.store (WRecordUpdate WorkDemo.failed)] WorkDemo.c1)) !! "e1" = Some row' /\
    ex_state row' = ExecutionFailed /\ ex_slot_index row' = 1.
Proof.
  assert (Hrow : executions (database WorkDemo.c1) !! "e1" =
    Some (mkExecutionRow "repo" Demo.nodeID 1 ExecutionReserved 100)) by (vm_compute; reflexivity).
  destruct (desired_states_only_advance [Work WorkDemo.store (WCommitCommand WorkDemo.prepare);
    Work WorkDemo.store (WRecordUpdate WorkDemo.failed)] _ _ _ WorkDemo.wf1 Hrow) as (row' & H1 & H2 & H3 & _).
  exists row'. split; [exact H1|]. split; [|injection H3; intros H _; exact H].
  assert (H : option_map ex_state (executions (database (controller_history [Work WorkDemo.store (WCommitCommand WorkDemo.prepare);
      Work WorkDemo.store (WRecordUpdate WorkDemo.failed)] WorkDemo.c1)) !! "e1") = Some ExecutionFailed)
    by (vm_compute; reflexivity).
  rewrite H1 in H. injection H as H. exact H.
Defined.
Lemma assignment_exactly_once_witness :
  exists existing, run (Assign WorkDemo.no_busy WorkDemo.store Demo.assignment 0 false) (database WorkDemo.c3) =
    (Ok (existing, true), database WorkDemo.c3) /\ exec_ID existing = "e1".
Proof.
  destruct (assignment_exactly_once _ _ _ _ _ _ _ _ [Work WorkDemo.store (WCommitCommand WorkDemo.prepare);
      Work WorkDemo.store (WRecordUpdate WorkDemo.failed)] WorkDemo.no_busy WorkDemo.store 0%nat false _
    WorkDemo.wf0 WorkDemo.assigns eq_refl eq_refl) as [(existing & H1 & H2 & _) _].
  exists existing. split; [exact H1|exact H2].
Defined.
(** An attempt whose commit is lost is repeated. *)
Lemma assignment_repeatable_witness :
  let disturbed := Assign WorkDemo.no_busy WorkDemo.store Demo.assignment 0 false
    (mkConnection WorkDemo.open_db [] [CommitFailed]) in
  disturbed.1 <> Ok (WorkDemo.e1, false) /\
  exists answer', run (Assign WorkDemo.no_busy WorkDemo.store Demo.assignment 0 false) (database disturbed.2) =
    (Ok answer', database WorkDemo.c1) /\ exec_ID answer'.1 = "e1".
Proof.
  cbv zeta. split; [vm_compute; intros H; discriminate H|].
  apply (assignment_repeatable WorkDemo.no_busy WorkDemo.store Demo.assignment 0 false 0 false
    (mkConnection WorkDemo.open_db [] [CommitFailed]) (WorkDemo.e1, false)).
  vm_compute. reflexivity.
Defined.
Lemma execution_update_applied_once_witness :
  update_effect WorkDemo.failed (database WorkDemo.c2) (database WorkDemo.c3) /\
  run (RecordAgentExecutionUpdate WorkDemo.store WorkDemo.failed) (database WorkDemo.c3) =
    (Ok true, database WorkDemo.c3).
Proof.
  destruct (execution_update_applied_once _ _ _ _ _ [] WorkDemo.store _ WorkDemo.wf2 WorkDemo.reports eq_refl eq_refl)
    as (H1 & H2 & _). split; [exact H1|exact H2].
Defined.
Lemma command_durable_before_delivery_witness :
  command_admissible WorkDemo.prepare (database WorkDemo.c1) /\
  run (ReadIssuedAgentCommand WorkDemo.store "prepare-e1") (database WorkDemo.c3) =
    (Ok (Some WorkDemo.prepare), database WorkDemo.c3).
Proof.
  destruct (command_durable_before_delivery _ _ _ _ _ [Work WorkDemo.store (WRecordUpdate WorkDemo.failed)]
    WorkDemo.store _ WorkDemo.wf1 WorkDemo.commits eq_refl eq_refl) as (H1 & H2 & _). split; [exact H1|exact H2].
Defined.
Lemma slot_released_only_with_evidence_witness :
  exists s m, Work WorkDemo.store (WRecordUpdate WorkDemo.failed) = Work s m /\
    released_by "e1" (database WorkDemo.c2) (database WorkDemo.c3) m.
Proof.
  assert (Hl : leased_in "e1" (slot_reservations (database WorkDemo.c2))).
  { exists (Demo.nodeID, 1), (lease_of "e1" (mkExecutionRow "repo" Demo.nodeID 1 ExecutionReserved 100)).
    split; vm_compute; reflexivity. }
  destruct (slot_released_only_with_evidence (Work WorkDemo.store (WRecordUpdate WorkDemo.failed)) _ _ Hl)
    as [(key & r & Hr & _)|H]; [|exact H].
  exfalso. assert (H : slot_reservations (database (controller_act (Work WorkDemo.store (WRecordUpdate WorkDemo.failed)) WorkDemo.c2)) = ∅)
    by (vm_compute; reflexivity).
  rewrite H, lookup_empty in Hr. discriminate Hr.
Defined.
