(* ===== verification/SnapshotProps.v ===== *)
(** * What a recorded snapshot guarantees

    After [RecordAgentSnapshot] the tables of the current snapshot are exactly the
    journal the Agent reported, under one digest and the current epoch; what was observed
    before is never taken back. *)

From S2P Require Import Prelude GoStd GoEncoding Sql StoreBase EnrollRegistry EnrollPKI Domain Execution Replay Fence Transport AgentStore WorkTables ControllerStore StoreEnroll AuditTrail Management WorkStore WorkAgent WorkReport WorkGitHub ControllerSpec ControllerFacts WorkFacts WorkFrame WorkSpec ControllerHistory ControllerProps WorkProps.
From Stdlib Require Import Ascii.

(** ** Loops of insertions *)

Lemma each_inserts {X K A} `{Countable K} (f : X -> program unit) (get : ControllerDB -> gmap K A)
    (key : X -> K) (row : X -> A) l db db' :
  (forall x, Follows (f x)) ->
  (forall x db db', run (f x) db = (Ok tt, db') -> get db !! key x = None /\ get db' = <[key x := row x]> (get db)) ->
  run (each f l) db = (Ok tt, db') ->
  forall k a, get db' !! k = Some a <-> get db !! k = Some a \/ exists x, x ∈ l /\ key x = k /\ row x = a.
Proof.
  intros Hf Hins. revert db. induction l as [|x l IH]; intros db E k a; apply each_ok in E; try done.
  - subst. split; [by left|]. intros [?|(x & Hin & _)]; [done|]. by apply elem_of_nil in Hin.
  - destruct E as (mid & Hx & E). apply Hins in Hx as [Hnone Hget]. rewrite (IH mid E), Hget. clear IH. split.
    + intros [[[<- <-]|[_ Hk]]%lookup_insert_Some|(y & Hin & Hk & Ha)]; [right|by left|right].
      * exists x. split; [constructor|done].
      * exists y. split; [by constructor|done].
    + intros [Hk|(y & [->|Hin]%elem_of_cons & Hk & Ha)].
      * left. rewrite lookup_insert_ne; [done|]. intros <-. congruence.
      * left. rewrite <- Hk, <- Ha. apply lookup_insert_eq.
      * right. by exists y.
Qed.

(** ** The transaction *)

Lemma commit_adoption_ok s body db db' :
  Follows body -> run (commit_adoption s body) db = (Ok tt, db') -> exists adoption, run body db = (Ok adoption, db').
Proof.
  intros Hb. unfold commit_adoption. intros (u & mid & E & [_ <-]%run_ret_ok)%run_bind_ok; [|apply _].
  apply run_in_tx_recovering_ok in E as (end_ & db1 & E & Hend); [|apply _].
  apply run_bind_ok in E as (adoption & mid1 & E & E1); [|done]. exists adoption.
  destruct (_ && _) in E1; [by apply run_throw_ok in E1|]. apply run_ret_ok in E1 as [<- <-].
  destruct Hend as [[_ <-]|[? _]]; done.
Qed.
Lemma RecordAgentSnapshot_ok marshal sha256 s snapshot db db' :
  run (RecordAgentSnapshot marshal sha256 s snapshot) db = (Ok tt, db') ->
  validateNodeAgentSnapshot snapshot = None /\
  exists digest t mid, nodeAgentSnapshotDigest marshal sha256 snapshot = Ok digest /\
    storeUnixNano (store_now (cs_base s)) = Ok t /\
    run (record_snapshot snapshot digest t) db = (Ok tt, mid) /\
    rtc (touches [TSessions; TExclusions; TTrail]) mid db' /\
    exists adoption, run (adoptNodeOwnerState (nas_NodeID snapshot) (nas_AvailabilityIntent snapshot)
      (nas_ExcludedTargets snapshot) (nas_SharedRunnerIdentity snapshot) t) mid = (Ok adoption, db').
Proof.
  unfold RecordAgentSnapshot. intros E. rewrite run_require_bind in E. destruct (requireReady _); [done|].
  rewrite run_require_bind in E. destruct (validateNodeAgentSnapshot snapshot); [done|]. split; [done|].
  destruct (_ && _) in E; [by apply run_throw_ok in E|].
  rewrite run_lift_bind in E. destruct (nodeAgentSnapshotDigest _ _ _) as [digest|]; [|done].
  rewrite run_lift_bind in E. destruct (storeUnixNano _) as [t|] eqn:Ht; [|done].
  apply commit_adoption_ok in E as [adoption E]; [|apply _].
  apply run_bind_ok in E as ([] & mid & E & E1); [|apply _]. exists digest, t, mid. do 3 (split; [done|]).
  split; [|eauto]. eapply steps_run; [exact E1|]. apply storeUnixNano_range in Ht as [[Ht _] _].
  apply adoptNodeOwnerState_touches; (apply _ || done).
Qed.

(** What a run of [record_snapshot] passed through. *)
Lemma record_snapshot_ok snapshot digest t db db' :
  let nodeID := nas_NodeID snapshot in let journal := nas_Journal snapshot in
  run (record_snapshot snapshot digest t) db = (Ok tt, db') ->
  exists epoch d1 d2 d3 d4 d5 d6 d7 d8,
    readUintMetadata (store_metadata db) "controller_epoch" = Ok epoch /\ ass_MaxControllerEpoch journal <= epoch /\
    (forall old, agent_session_snapshots (agent_work db) !! nodeID = Some old ->
       as_max_controller_epoch old <= ass_MaxControllerEpoch journal) /\
    run (upsert_session snapshot t) db = (Ok 1, d1) /\
    run (each (recordSnapshotCommand nodeID) (ass_Commands journal)) d1 = (Ok tt, d2) /\
    run (each (recordSnapshotObservation nodeID t) (ass_Observations journal)) d2 = (Ok tt, d3) /\
    run (each (recordSnapshotTombstone nodeID t) (ass_CleanupTombstones journal)) d3 = (Ok tt, d4) /\
    run (upsert_authority nodeID digest epoch t) d4 = (Ok tt, d5) /\ run (delete_current nodeID) d5 = (Ok tt, d6) /\
    run (each (insert_current_command nodeID digest) (ass_Commands journal)) d6 = (Ok tt, d7) /\
    run (each (insert_current_observation nodeID digest) (ass_Observations journal)) d7 = (Ok tt, d8) /\
    run (each (insert_current_tombstone nodeID digest) (ass_CleanupTombstones journal)) d8 = (Ok tt, db').
Proof.
  cbv zeta. unfold record_snapshot. intros E. cbv zeta in E. read_on E. read_facts.
  match goal with H : run current_epoch _ = _ |- _ => apply current_epoch_ok in H end.
  apply run_bind_ok in E as (n & d1 & E1 & E); [|apply _]. case_bool_decide as Hn; [|by apply run_throw_ok in E]. subst n.
  apply run_bind_ok in E as ([] & d2 & E2 & E); [|apply _]. apply run_bind_ok in E as ([] & d3 & E3 & E); [|apply _].
  apply run_bind_ok in E as ([] & d4 & E4 & E); [|apply _]. apply run_bind_ok in E as ([] & d5 & E5 & E); [|apply _].
  apply run_bind_ok in E as ([] & d6 & E6 & E); [|apply _]. apply run_bind_ok in E as ([] & d7 & E7 & E); [|apply _].
  apply run_bind_ok in E as ([] & d8 & E8 & E); [|apply _].
  exists x0, d1, d2, d3, d4, d5, d6, d7, d8. split; [done|]. split; [rewrite Z.gtb_ltb in Heqb; by apply Z.ltb_ge in Heqb|].
  split; [|by repeat (split; [done|])]. intros old Hold. rewrite Hold in H1. simplify_eq. by apply Z.ltb_ge in Heqb0.
Qed.

Lemma delete_current_ok nodeID db db' :
  run (delete_current nodeID) db = (Ok tt, db') ->
  agent_current_snapshot_commands (agent_work db') = delete_node nodeID (agent_current_snapshot_commands (agent_work db)) /\
  agent_current_snapshot_observations (agent_work db') = delete_node nodeID (agent_current_snapshot_observations (agent_work db)) /\
  agent_current_snapshot_tombstones (agent_work db') = delete_node nodeID (agent_current_snapshot_tombstones (agent_work db)) /\
  agent_snapshot_authority (agent_work db') = agent_snapshot_authority (agent_work db) /\ store_metadata db' = store_metadata db.
Proof.
  unfold delete_current. intros ([] & m1 & E1%run_exec_ok & E)%run_bind_ok; [|apply _].
  apply run_bind_ok in E as ([] & m2 & E2%run_exec_ok & E%run_exec_ok); [|apply _]. by simplify_eq/=.
Qed.
Lemma delete_node_None {A} (nodeID id : string) (t : gmap (string * string) A) : delete_node nodeID t !! (nodeID, id) = None.
Proof. apply map_lookup_filter_None. right. intros a _. simpl. congruence. Qed.
Lemma delete_node_other {A} (nodeID other id : string) (t : gmap (string * string) A) :
  other <> nodeID -> delete_node nodeID t !! (other, id) = t !! (other, id).
Proof.
  intros Hne. unfold delete_node. apply option_eq. intros a. rewrite map_lookup_filter_Some. simpl. naive_solver.
Qed.
(** One row under a fresh key. *)
Ltac inserted E :=
  apply run_exec_ok in E; simpl in E;
  destruct (insert_row _ _ _ _) eqn:?; [|done]; simplify_eq/=;
  match goal with H : insert_row _ _ _ _ = Ok _ |- _ => apply insert_row_ok in H as (_ & ? & ->) end; done.

(** The current snapshot of a node, as a table: exactly these rows. *)
Definition exactly {A} (nodeID : string) (t : gmap (string * string) A) (rows : list (string * A)) : Prop :=
  forall id a, t !! (nodeID, id) = Some a <-> (id, a) ∈ rows.
Definition same_elsewhere {A} (nodeID : string) (t t' : gmap (string * string) A) : Prop :=
  forall other id, other <> nodeID -> t' !! (other, id) = t !! (other, id).
Lemma inserts_exactly {X A} (nodeID : string) (f : X -> program unit) (get : ControllerDB -> gmap (string * string) A)
    (id : X -> string) (row : X -> A) l t db db' :
  (forall x, Follows (f x)) ->
  (forall x db db', run (f x) db = (Ok tt, db') ->
     get db !! (nodeID, id x) = None /\ get db' = <[(nodeID, id x) := row x]> (get db)) ->
  get db = delete_node nodeID t -> run (each f l) db = (Ok tt, db') ->
  exactly nodeID (get db') (map (fun x => (id x, row x)) l) /\ same_elsewhere nodeID t (get db').
Proof.
  intros Hf Hins Hget E. pose proof (each_inserts f get (fun x => (nodeID, id x)) row l db db' Hf Hins E) as H. split.
  - intros k a. rewrite H, Hget, delete_node_None, list_elem_of_fmap. naive_solver.
  - intros other k Hne. apply option_eq. intros a. rewrite H, Hget, delete_node_other by done. naive_solver.
Qed.

Definition command_row (digest : string) (command : Command) : string * string := (command_ID command, digest).
Definition observation_row (digest : string) (o : ObservationSnapshot) : string * CurrentObservationRow :=
  (os_ExecutionID o, mkCurrentObservation (os_State o) (os_ObservedAtUnixNano o) digest).
Definition tombstone_row (digest : string) (o : CleanupTombstoneSnapshot) : string * CurrentTombstoneRow :=
  (ts_ExecutionID o, mkCurrentTombstone (ts_FailureCode o) (ts_RecordedAtUnixNano o) digest).

Lemma current_tables snapshot digest t db db' :
  run (record_snapshot snapshot digest t) db = (Ok tt, db') ->
  let nodeID := nas_NodeID snapshot in let journal := nas_Journal snapshot in
  let w := agent_work db in let w' := agent_work db' in
  (exactly nodeID (agent_current_snapshot_commands w') (map (command_row digest) (ass_Commands journal)) /\
   same_elsewhere nodeID (agent_current_snapshot_commands w) (agent_current_snapshot_commands w')) /\
  (exactly nodeID (agent_current_snapshot_observations w') (map (observation_row digest) (ass_Observations journal)) /\
   same_elsewhere nodeID (agent_current_snapshot_observations w) (agent_current_snapshot_observations w')) /\
  (exactly nodeID (agent_current_snapshot_tombstones w') (map (tombstone_row digest) (ass_CleanupTombstones journal)) /\
   same_elsewhere nodeID (agent_current_snapshot_tombstones w) (agent_current_snapshot_tombstones w')).
Proof.
  intros E. cbv zeta. destruct (record_snapshot_ok _ _ _ _ _ E)
    as (epoch & d1 & d2 & d3 & d4 & d5 & d6 & d7 & d8 & _ & _ & _ & E1 & E2 & E3 & E4 & E5 & E6 & E7 & E8 & E9).
  apply delete_current_ok in E6 as (Hc & Ho & Ht & _).
  assert (Hpre : rtc (touches [TSessions; TSnapshotCommands; TObservations; TTombstones; TAuthority; TStates]) db d5).
  { repeat (etransitivity; [eapply steps_run; [eassumption|apply _]|]). reflexivity. }
  untouched Hpre (fun db => agent_current_snapshot_commands (agent_work db)).
  untouched Hpre (fun db => agent_current_snapshot_observations (agent_work db)).
  untouched Hpre (fun db => agent_current_snapshot_tombstones (agent_work db)).
  rewrite Hsame in Hc. rewrite Hsame0 in Ho. rewrite Hsame1 in Ht. clear Hpre Hsame Hsame0 Hsame1 E1 E2 E3 E4 E5.
  assert (H7 : rtc (touches [TCurrentCommands]) d6 d7) by (eapply steps_run; [exact E7|apply _]).
  assert (H8 : rtc (touches [TCurrentObservations]) d7 d8) by (eapply steps_run; [exact E8|apply _]).
  assert (H9 : rtc (touches [TCurrentTombstones]) d8 db') by (eapply steps_run; [exact E9|apply _]).
  untouched H7 (fun db => agent_current_snapshot_observations (agent_work db)).
  untouched H7 (fun db => agent_current_snapshot_tombstones (agent_work db)).
  untouched H8 (fun db => agent_current_snapshot_commands (agent_work db)).
  untouched H8 (fun db => agent_current_snapshot_tombstones (agent_work db)).
  untouched H9 (fun db => agent_current_snapshot_commands (agent_work db)).
  untouched H9 (fun db => agent_current_snapshot_observations (agent_work db)).
  split; [|split].
  - rewrite Hsame3, Hsame1. refine (inserts_exactly (nas_NodeID snapshot) _
      (fun db => agent_current_snapshot_commands (agent_work db)) command_ID (fun _ => digest) _ _ d6 d7 _ _ Hc E7).
    intros x d d' E'. unfold insert_current_command in E'. inserted E'.
  - rewrite Hsame4. refine (inserts_exactly (nas_NodeID snapshot) _
      (fun db => agent_current_snapshot_observations (agent_work db)) os_ExecutionID
      (fun o => mkCurrentObservation (os_State o) (os_ObservedAtUnixNano o) digest) _ _ d7 d8 _ _ _ E8); [|congruence].
    intros x d d' E'. unfold insert_current_observation in E'. inserted E'.
  - refine (inserts_exactly (nas_NodeID snapshot) _
      (fun db => agent_current_snapshot_tombstones (agent_work db)) ts_ExecutionID
      (fun o => mkCurrentTombstone (ts_FailureCode o) (ts_RecordedAtUnixNano o) digest) _ _ d8 db' _ _ _ E9); [|congruence].
    intros x d d' E'. unfold insert_current_tombstone in E'. inserted E'.
Qed.

Lemma upsert_authority_ok nodeID digest epoch t db db' :
  run (upsert_authority nodeID digest epoch t) db = (Ok tt, db') ->
  store_metadata db' = store_metadata db /\
  exists revision, agent_snapshot_authority (agent_work db') !! nodeID = Some (mkAuthorityRow revision digest epoch t) /\
    forall old, agent_snapshot_authority (agent_work db) !! nodeID = Some old -> revision = sa_revision old + 1.
Proof.
  intros E%run_exec_ok. simpl in E. destruct (upsert_row _ _ _ _) eqn:Hu; [|done]. simplify_eq/=.
  apply upsert_row_ok in Hu as [_ ->]. split; [done|]. eexists. rewrite lookup_insert_eq. split; [done|]. by intros old ->.
Qed.

(** What the reports of a snapshot are checked against. *)
Lemma requireOwned_ok nodeID id db db' :
  run (requireExecutionOwnedByNode nodeID id) db = (Ok tt, db') ->
  exists row, executions db !! id = Some row /\ ex_node_id row = nodeID.
Proof.
  unfold requireExecutionOwnedByNode. intros (owner & mid & [E <-]%run_query_ok & E1)%run_bind_ok; [|apply _].
  destruct (executions db !! id) as [row|]; [|done]. simplify_eq/=. exists row. split; [done|].
  case_bool_decide; [done|by apply run_throw_ok in E1].
Qed.
Lemma each_elem {X} (f : X -> program unit) x l db db' :
  (forall x, Follows (f x)) -> run (each f l) db = (Ok tt, db') -> x ∈ l ->
  exists pre post d d', run (each f pre) db = (Ok tt, d) /\ run (f x) d = (Ok tt, d') /\ run (each f post) d' = (Ok tt, db').
Proof.
  intros Hf. revert db. induction l as [|y l IH]; intros db E Hin; [by apply elem_of_nil in Hin|].
  apply each_ok in E as (mid & Hy & E); [|done]. apply elem_of_cons in Hin as [->|Hin].
  - exists [], l, db, mid. done.
  - destruct (IH mid E Hin) as (pre & post & d & d' & E1 & E2 & E3). exists (y :: pre), post, d, d'.
    split; [|done]. simpl. rewrite run_bind by apply Hf. by rewrite Hy.
Qed.
(** A quarantined node stays so. *)
Lemma quarantine_kept nodeID tables db db' :
  rtc (touches tables) db db' -> node_administrative_states db !! nodeID = Some NodeQuarantined ->
  node_administrative_states db' !! nodeID = Some NodeQuarantined.
Proof.
  intros H Hq. eapply (touches_invariant (fun db => node_administrative_states db !! nodeID = Some NodeQuarantined)); [exact H|done|].
  intros table _ d d' Htouch Hd. destruct Htouch as [| | | | | | | | | | | | | | | | | | |dq n|]; try done.
  unfold quarantined_db. destruct (_ !! n) as [st|] eqn:Hst; [|done]. case_bool_decide; [done|]. simpl.
  destruct (decide (n = nodeID)) as [->|Hne]; [by rewrite lookup_insert_eq|by rewrite lookup_insert_ne].
Qed.
Lemma quarantineNode_done nodeID db db' :
  run (quarantineNode nodeID) db = (Ok tt, db') -> node_administrative_states db' !! nodeID = Some NodeQuarantined.
Proof.
  intros (-> & st & Hst & Hne)%quarantineNode_ok. unfold quarantined_db.
  rewrite Hst, bool_decide_eq_false_2 by done. simpl. by rewrite lookup_insert_eq.
Qed.

Definition uncertain (o : ObservationSnapshot) : Prop := os_State o ∈ [ExecutionCleanupFailed; ExecutionQuarantined].
Definition issued_to (nodeID : string) (db : ControllerDB) (command : Command) : Prop :=
  exists issued, loadIssuedAgentCommand (command_ID command) db = Ok (Some issued) /\
    issued_NodeID issued = nodeID /\ issued_Command issued = command.
Definition runs_on (nodeID : string) (db : ControllerDB) (executionID : string) : Prop :=
  exists row, executions db !! executionID = Some row /\ ex_node_id row = nodeID.

Lemma recordSnapshotCommand_ok nodeID command db db' :
  run (recordSnapshotCommand nodeID command) db = (Ok tt, db') -> issued_to nodeID db command.
Proof.
  unfold recordSnapshotCommand. intros (issued & mid & [E <-]%run_query_ok & E1)%run_bind_ok; [|apply _].
  destruct issued as [issued|]; [|by apply run_throw_ok in E1]. exists issued. split; [done|].
  destruct (_ || _) eqn:Hc in E1; [by apply run_throw_ok in E1|]. by conditions.
Qed.
Lemma recordSnapshotObservation_ok nodeID t o db db' :
  run (recordSnapshotObservation nodeID t o) db = (Ok tt, db') ->
  runs_on nodeID db (os_ExecutionID o) /\
  observation_regressed (agent_snapshot_observations (agent_work db) !! (nodeID, os_ExecutionID o)) o = None /\
  agent_snapshot_observations (agent_work db') =
    <[(nodeID, os_ExecutionID o) := mkObservationRow (os_State o) (os_ObservedAtUnixNano o) t]>
      (agent_snapshot_observations (agent_work db)) /\
  (uncertain o -> node_administrative_states db' !! nodeID = Some NodeQuarantined).
Proof.
  unfold recordSnapshotObservation. intros E. read_on E; read_facts; destruct x.
  match goal with H : run (requireExecutionOwnedByNode _ _) _ = _ |- _ => apply requireOwned_ok in H end.
  apply run_bind_ok in E as ([] & mid & Hup%run_exec_ok & E); [|apply _]. simpl in Hup.
  destruct (upsert_row _ _ _ _) eqn:Hu in Hup; [|done]. apply upsert_row_ok in Hu as [Hcheck ->]. simplify_eq.
  split; [done|]. split; [done|]. destruct (bool_decide _) eqn:Hb in E.
  - split; [|intros _; by eapply quarantineNode_done]. apply quarantineNode_ok in E as [-> _].
    by rewrite (proj2 (proj2 (quarantined_tables _ _))).
  - apply run_ret_ok in E as [_ <-]. split; [done|]. intros Hun. apply bool_decide_eq_false in Hb. done.
Qed.
Lemma recordSnapshotTombstone_ok nodeID t o db db' :
  run (recordSnapshotTombstone nodeID t o) db = (Ok tt, db') ->
  runs_on nodeID db (ts_ExecutionID o) /\
  tombstone_regressed (agent_snapshot_cleanup_tombstones (agent_work db) !! (nodeID, ts_ExecutionID o)) o = None /\
  agent_snapshot_cleanup_tombstones (agent_work db') =
    <[(nodeID, ts_ExecutionID o) := mkTombstoneRow (ts_FailureCode o) (ts_RecordedAtUnixNano o) t]>
      (agent_snapshot_cleanup_tombstones (agent_work db)) /\
  node_administrative_states db' !! nodeID = Some NodeQuarantined.
Proof.
  unfold recordSnapshotTombstone. intros E. read_on E; read_facts; destruct x.
  match goal with H : run (requireExecutionOwnedByNode _ _) _ = _ |- _ => apply requireOwned_ok in H end.
  apply run_bind_ok in E as ([] & mid & Hup%run_exec_ok & E); [|apply _]. simpl in Hup.
  destruct (upsert_row _ _ _ _) eqn:Hu in Hup; [|done]. apply upsert_row_ok in Hu as [Hcheck ->]. simplify_eq.
  split; [done|]. split; [done|]. split; [|by eapply quarantineNode_done]. apply quarantineNode_ok in E as [-> _].
  by rewrite (proj2 (proj2 (quarantined_tables _ _))).
Qed.

(** What the reports of an accepted snapshot were. *)
Lemma reports_checked snapshot digest t db db' :
  run (record_snapshot snapshot digest t) db = (Ok tt, db') ->
  let nodeID := nas_NodeID snapshot in let journal := nas_Journal snapshot in
  (forall command, command ∈ ass_Commands journal -> issued_to nodeID db command) /\
  (forall o, o ∈ ass_Observations journal -> runs_on nodeID db (os_ExecutionID o) /\
     (uncertain o -> node_administrative_states db' !! nodeID = Some NodeQuarantined)) /\
  (forall o, o ∈ ass_CleanupTombstones journal -> runs_on nodeID db (ts_ExecutionID o) /\
     node_administrative_states db' !! nodeID = Some NodeQuarantined).
Proof.
  intros E. cbv zeta. destruct (record_snapshot_ok _ _ _ _ _ E)
    as (epoch & d1 & d2 & d3 & d4 & d5 & d6 & d7 & d8 & _ & _ & _ & E1 & E2 & E3 & E4 & E5 & E6 & E7 & E8 & E9).
  set (tables := [TSessions; TSnapshotCommands; TObservations; TTombstones; TAuthority; TCurrentCommands;
    TCurrentObservations; TCurrentTombstones; TStates]).
  assert (H1 : rtc (touches tables) db d1) by (eapply steps_run; [exact E1|apply _]).
  assert (H2 : rtc (touches tables) d1 d2) by (eapply steps_run; [exact E2|apply _]).
  assert (H3 : rtc (touches tables) d2 d3) by (eapply steps_run; [exact E3|apply _]).
  assert (Hrest : rtc (touches tables) d4 db').
  { repeat (etransitivity; [eapply steps_run; [eassumption|apply _]|]). reflexivity. }
  assert (H4 : rtc (touches tables) d3 d4) by (eapply steps_run; [exact E4|apply _]).
  assert (Hexec : forall d d', rtc (touches tables) d d' -> executions d' = executions d).
  { intros d d' H. untouched H executions. done. }
  assert (Hcmd : forall d d', rtc (touches tables) d d' -> agent_commands (agent_work d') = agent_commands (agent_work d)).
  { intros d d' H. untouched H (fun db => agent_commands (agent_work db)). done. }
  split; [|split].
  - intros command Hin. destruct (each_elem _ _ _ _ _ _ E2 Hin) as (pre & post & d & d' & Ep & Ex & _).
    apply recordSnapshotCommand_ok in Ex as (issued & Hl & Hi). exists issued. split; [|done].
    unfold loadIssuedAgentCommand in *. rewrite <- (Hcmd db d1 H1), <- (Hcmd d1 d); [done|].
    eapply steps_run; [exact Ep|apply _].
  - intros o Hin. destruct (each_elem _ _ _ _ _ _ E3 Hin) as (pre & post & d & d' & Ep & Ex & Epost).
    apply recordSnapshotObservation_ok in Ex as ((row & Hrow & Hn) & _ & _ & Hq). split.
    + exists row. split; [|done]. rewrite <- Hrow. rewrite (Hexec d2 d), (Hexec d1 d2), (Hexec db d1); try done.
      eapply steps_run; [exact Ep|apply _].
    + intros Hun. eapply quarantine_kept; [|exact (Hq Hun)]. etransitivity; [|exact Hrest].
      etransitivity; [|exact H4]. eapply steps_run; [exact Epost|apply _].
  - intros o Hin. destruct (each_elem _ _ _ _ _ _ E4 Hin) as (pre & post & d & d' & Ep & Ex & Epost).
    apply recordSnapshotTombstone_ok in Ex as ((row & Hrow & Hn) & _ & _ & Hq). split.
    + exists row. split; [|done]. rewrite <- Hrow. rewrite (Hexec d3 d), (Hexec d2 d3), (Hexec d1 d2), (Hexec db d1); try done.
      eapply steps_run; [exact Ep|apply _].
    + eapply quarantine_kept; [|exact Hq]. etransitivity; [|exact Hrest]. eapply steps_run; [exact Epost|apply _].
Qed.

(** The current tables after a snapshot was accepted. *)
Lemma record_current marshal sha256 s snapshot db db' :
  let nodeID := nas_NodeID snapshot in let journal := nas_Journal snapshot in
  let w := agent_work db in let w' := agent_work db' in
  run (RecordAgentSnapshot marshal sha256 s snapshot) db = (Ok tt, db') ->
  exists digest epoch,
    nodeAgentSnapshotDigest marshal sha256 snapshot = Ok digest /\
    current_authority nodeID digest epoch db' /\ readUintMetadata (store_metadata db) "controller_epoch" = Ok epoch /\
    ass_MaxControllerEpoch journal <= epoch /\
    (exactly nodeID (agent_current_snapshot_commands w') (map (command_row digest) (ass_Commands journal)) /\
     exactly nodeID (agent_current_snapshot_observations w') (map (observation_row digest) (ass_Observations journal)) /\
     exactly nodeID (agent_current_snapshot_tombstones w') (map (tombstone_row digest) (ass_CleanupTombstones journal))) /\
    same_elsewhere nodeID (agent_current_snapshot_commands w) (agent_current_snapshot_commands w') /\
    same_elsewhere nodeID (agent_current_snapshot_observations w) (agent_current_snapshot_observations w') /\
    same_elsewhere nodeID (agent_current_snapshot_tombstones w) (agent_current_snapshot_tombstones w').
Proof.
  cbv zeta. intros E. apply RecordAgentSnapshot_ok in E as (_ & digest & t & mid & Hdigest & _ & E & Hafter & _).
  assert (Hmeta : store_metadata mid = store_metadata db).
  { assert (H : rtc (touches [TSessions; TSnapshotCommands; TObservations; TTombstones; TAuthority; TCurrentCommands;
      TCurrentObservations; TCurrentTombstones; TStates]) db mid).
    { eapply steps_run; [exact E|]. unfold record_snapshot. apply _. }
    untouched H store_metadata. done. }
  exists digest. pose proof (current_tables _ _ _ _ _ E) as ((H1 & H2) & (H3 & H4) & (H5 & H6)). cbv zeta in *.
  apply record_snapshot_ok in E
    as (epoch & d1 & d2 & d3 & d4 & d5 & d6 & d7 & d8 & Hep & Hle & _ & E1 & E2 & E3 & E4 & E5 & E6 & E7 & E8 & E9).
  exists epoch. split; [done|].
  untouched Hafter (fun db => agent_current_snapshot_commands (agent_work db)).
  untouched Hafter (fun db => agent_current_snapshot_observations (agent_work db)).
  untouched Hafter (fun db => agent_current_snapshot_tombstones (agent_work db)).
  rewrite Hsame, Hsame0, Hsame1. split; [|by split_and!].
  apply upsert_authority_ok in E5 as (_ & revision & Hauth & _). apply delete_current_ok in E6 as (_ & _ & _ & Ha & _).
  assert (H789 : rtc (touches [TCurrentCommands; TCurrentObservations; TCurrentTombstones]) d6 mid).
  { repeat (etransitivity; [eapply steps_run; [eassumption|apply _]|]). reflexivity. }
  untouched H789 (fun db => agent_snapshot_authority (agent_work db)).
  untouched Hafter (fun db => agent_snapshot_authority (agent_work db)).
  untouched Hafter store_metadata. split.
  - rewrite Hsame4, <- Hep. f_equal. exact Hmeta.
  - exists (mkAuthorityRow revision digest epoch t). by rewrite Hsame3, Hsame2, Ha, Hauth.
Qed.

(** C11 An accepted snapshot is the authority over its node, whole: when
    [RecordAgentSnapshot] succeeds, in whatever circumstances, the current tables of the
    node are exactly the reported commands, observations and tombstones, all under the
    digest of the snapshot and the Controller's epoch, and those of other nodes are as
    before; the journal's own epoch is no later; every reported command is one the store
    issued to this node, unaltered; every observed or failed execution runs on this
    node; and a node that reports an uncertain cleanup is quarantined. *)
Theorem snapshot_becomes_authority marshal sha256 s snapshot c c' :
  RecordAgentSnapshot marshal sha256 s snapshot c = (Ok tt, c') ->
  let nodeID := nas_NodeID snapshot in let journal := nas_Journal snapshot in
  let db := database c in let db' := database c' in
  let w := agent_work db in let w' := agent_work db' in
  exists digest epoch,
    nodeAgentSnapshotDigest marshal sha256 snapshot = Ok digest /\
    current_authority nodeID digest epoch db' /\ ass_MaxControllerEpoch journal <= epoch /\
    exactly nodeID (agent_current_snapshot_commands w') (map (command_row digest) (ass_Commands journal)) /\
    exactly nodeID (agent_current_snapshot_observations w') (map (observation_row digest) (ass_Observations journal)) /\
    exactly nodeID (agent_current_snapshot_tombstones w') (map (tombstone_row digest) (ass_CleanupTombstones journal)) /\
    same_elsewhere nodeID (agent_current_snapshot_commands w) (agent_current_snapshot_commands w') /\
    same_elsewhere nodeID (agent_current_snapshot_observations w) (agent_current_snapshot_observations w') /\
    same_elsewhere nodeID (agent_current_snapshot_tombstones w) (agent_current_snapshot_tombstones w') /\
    (forall command, command ∈ ass_Commands journal -> issued_to nodeID db command) /\
    (forall o, o ∈ ass_Observations journal -> runs_on nodeID db (os_ExecutionID o) /\
       (uncertain o -> node_administrative_states db' !! nodeID = Some NodeQuarantined)) /\
    (forall o, o ∈ ass_CleanupTombstones journal -> runs_on nodeID db (ts_ExecutionID o) /\
       node_administrative_states db' !! nodeID = Some NodeQuarantined).
Proof.
  intros E. cbv zeta. apply sql_run_ok in E; [|unfold RecordAgentSnapshot; apply _].
  destruct (record_current _ _ _ _ _ _ E) as (digest & epoch & Hd & Ha & _ & Hle & (H1 & H2 & H3) & H4 & H5 & H6).
  exists digest, epoch. do 9 (split; [done|]).
  apply RecordAgentSnapshot_ok in E as (_ & digest' & t & mid & _ & _ & E & Hafter & _).
  pose proof (reports_checked _ _ _ _ _ E) as (H7 & H8 & H9). cbv zeta in *. split; [done|]. split.
  - intros o Hin. destruct (H8 o Hin) as [Hr Hq]. split; [done|]. intros Hun. eapply quarantine_kept; [exact Hafter|by apply Hq].
  - intros o Hin. destruct (H9 o Hin) as [Hr Hq]. split; [done|]. by eapply quarantine_kept.
Qed.

(** ** Reports never regress *)

(** Every row of [t] is still there, as [le] allows. *)
Definition table_le {K A} `{Countable K} (le : A -> A -> Prop) (t t' : gmap K A) : Prop :=
  forall k old, t !! k = Some old -> exists new, t' !! k = Some new /\ le old new.
Lemma table_le_insert {K A} `{Countable K} (le : A -> A -> Prop) `{!Reflexive le} (k : K) (new : A) (t : gmap K A) :
  (forall old, t !! k = Some old -> le old new) -> table_le le t (<[k := new]> t).
Proof.
  intros Hle k' old Hold. destruct (decide (k = k')) as [->|Hne].
  - exists new. rewrite lookup_insert_eq. eauto.
  - exists old. by rewrite lookup_insert_ne.
Qed.
#[export] Instance table_le_preorder {K A} `{Countable K} (le : A -> A -> Prop) :
  PreOrder le -> PreOrder (table_le (K := K) le).
Proof.
  intros Hle. split.
  - intros t k old Hold. exists old. done.
  - intros t1 t2 t3 H12 H23 k old Hold. destruct (H12 _ _ Hold) as (mid & Hmid & H1).
    destruct (H23 _ _ Hmid) as (new & Hnew & H2). exists new. split; [done|by etransitivity].
Qed.

(** The platform of a node is fixed and its journal's epoch only grows. *)
Definition session_le (old new : SessionRow) : Prop :=
  as_operating_system new = as_operating_system old /\ as_architecture new = as_architecture old /\
  as_max_controller_epoch old <= as_max_controller_epoch new.
(** An observation is replaced only by a later one, of a state it can reach. *)
Definition observation_le (old new : ObservationRow) : Prop :=
  (so_state new = so_state old /\ so_observed_at new = so_observed_at old) \/
  (so_observed_at old <= so_observed_at new /\ (so_observed_at old = so_observed_at new -> so_state new = so_state old) /\
   CanReachExecutionState (so_state old) (so_state new) = true).
(** The class of a failed cleanup is fixed. *)
Definition tombstone_le (old new : TombstoneRow) : Prop :=
  st_failure_code new = st_failure_code old /\ st_recorded_at old <= st_recorded_at new.
#[export] Instance session_le_preorder : PreOrder session_le.
Proof.
  split; [intros x; by split_and!|]. intros x y z (H1 & H2 & H3) (H4 & H5 & H6). split_and!; [congruence..|lia].
Qed.
#[export] Instance tombstone_le_preorder : PreOrder tombstone_le.
Proof. split; [intros x; by split|]. intros x y z (H1 & H2) (H3 & H4). split; [congruence|lia]. Qed.
#[export] Instance observation_le_preorder : PreOrder observation_le.
Proof.
  split; [intros x; by left|]. unfold observation_le. intros [sx ox rx] [sy oy ry] [sz oz rz]. simpl.
  intros [[-> ->]|(H1 & H2 & H3)] [[-> ->]|(H4 & H5 & H6)]; [by left|right; done..|right].
  split; [lia|]. split; [|by eapply reach_transitive]. intros Heq. rewrite H5, H2 by lia. done.
Qed.

Record reports_le (db db' : ControllerDB) : Prop := {
  rl_sessions : table_le session_le (agent_session_snapshots (agent_work db)) (agent_session_snapshots (agent_work db'));
  rl_observations : table_le observation_le (agent_snapshot_observations (agent_work db)) (agent_snapshot_observations (agent_work db'));
  rl_tombstones : table_le tombstone_le (agent_snapshot_cleanup_tombstones (agent_work db)) (agent_snapshot_cleanup_tombstones (agent_work db')) }.
#[export] Instance reports_le_preorder : PreOrder reports_le.
Proof. split; [intros db; split; reflexivity|]. intros x y z [] []. split; by etransitivity. Qed.
Lemma reports_same db db' tables :
  rtc (touches tables) db db' -> TSessions ∉ tables -> TObservations ∉ tables -> TTombstones ∉ tables -> reports_le db db'.
Proof.
  intros H H1 H2 H3. induction H as [|db mid db' (table & Hin & Ht) _ IH]; [reflexivity|].
  etransitivity; [|exact IH]. destruct Ht; try done; unfold quarantined_db;
    repeat case_match; split; reflexivity.
Qed.

Lemma steps_reports {A} (m : program A) db a db' : Steps reports_le m -> run m db = (Ok a, db') -> reports_le db db'.
Proof. intros Hm E. specialize (Hm _ _ _ E). clear E. induction Hm as [|x y z Hxy _ IH]; [reflexivity|]. etransitivity; [exact Hxy|exact IH]. Qed.
Lemma upsert_session_reports snapshot t db n db' :
  (forall old, agent_session_snapshots (agent_work db) !! nas_NodeID snapshot = Some old ->
     as_max_controller_epoch old <= ass_MaxControllerEpoch (nas_Journal snapshot)) ->
  run (upsert_session snapshot t) db = (Ok n, db') -> reports_le db db'.
Proof.
  intros Hold E%run_statement_ok. simpl in E. destruct (negb _); [done|].
  destruct (agent_session_snapshots (agent_work db) !! _) as [old|] eqn:Hs.
  - destruct (_ && _) eqn:Hp in E; simplify_eq/=; [|reflexivity]. conditions. destruct Hp as [Hos Harch].
    split; simpl; [|reflexivity..]. apply table_le_insert; [apply _|]. intros old' Hold'. simplify_eq.
    split; [done|]. split; [done|]. simpl. by apply Hold.
  - simplify_eq/=. split; simpl; [|reflexivity..]. apply table_le_insert; [apply _|]. intros old Ho. congruence.
Qed.
#[export] Instance recordSnapshotObservation_reports nodeID t o : Steps reports_le (recordSnapshotObservation nodeID t o).
Proof.
  intros db [] db' E. apply rtc_once.
  assert (H : rtc (touches [TObservations; TStates]) db db') by (eapply steps_run; [exact E|apply _]).
  untouched H (fun db => agent_session_snapshots (agent_work db)).
  untouched H (fun db => agent_snapshot_cleanup_tombstones (agent_work db)).
  apply recordSnapshotObservation_ok in E as (_ & Hreg & Hobs & _).
  split; rewrite ?Hsame, ?Hsame0, ?Hobs; [reflexivity| |reflexivity].
  apply table_le_insert; [apply _|]. intros old Hold. rewrite Hold in Hreg. unfold observation_regressed in Hreg.
  destruct (Z.ltb_spec (os_ObservedAtUnixNano o) (so_observed_at old)); [done|].
  destruct (_ && _) eqn:Hsame1; [done|]. destruct (CanReachExecutionState _ _) eqn:Hr; [|done]. right. simpl.
  split; [lia|]. split; [|done]. intros Heq. apply andb_false_iff in Hsame1 as [Hne|Hst].
  - apply Z.eqb_neq in Hne. congruence.
  - by conditions.
Qed.
#[export] Instance recordSnapshotTombstone_reports nodeID t o : Steps reports_le (recordSnapshotTombstone nodeID t o).
Proof.
  intros db [] db' E. apply rtc_once.
  assert (H : rtc (touches [TTombstones; TStates]) db db') by (eapply steps_run; [exact E|apply _]).
  untouched H (fun db => agent_session_snapshots (agent_work db)).
  untouched H (fun db => agent_snapshot_observations (agent_work db)).
  apply recordSnapshotTombstone_ok in E as (_ & Hreg & Htomb & _).
  split; rewrite ?Hsame, ?Hsame0, ?Htomb; [reflexivity..|].
  apply table_le_insert; [apply _|]. intros old Hold. rewrite Hold in Hreg. unfold tombstone_regressed in Hreg.
  destruct (Z.ltb_spec (ts_RecordedAtUnixNano o) (st_recorded_at old)); [done|].
  case_bool_decide as Hc; [|done]. split; simpl; [done|lia].
Qed.
Lemma record_snapshot_reports snapshot digest t db db' :
  run (record_snapshot snapshot digest t) db = (Ok tt, db') -> reports_le db db'.
Proof.
  intros E. apply record_snapshot_ok in E
    as (epoch & d1 & d2 & d3 & d4 & d5 & d6 & d7 & d8 & _ & _ & Hold & E1 & E2 & E3 & E4 & E5 & E6 & E7 & E8 & E9).
  transitivity d1; [by eapply upsert_session_reports|]. transitivity d2.
  { apply (reports_same _ _ [TSnapshotCommands]); [eapply steps_run; [exact E2|apply _]|set_solver..]. }
  transitivity d3; [eapply steps_reports; [|exact E3]; apply _|]. transitivity d4; [eapply steps_reports; [|exact E4]; apply _|].
  apply (reports_same _ _ [TAuthority; TCurrentCommands; TCurrentObservations; TCurrentTombstones]); [|set_solver..].
  repeat (etransitivity; [eapply steps_run; [eassumption|apply _]|]). reflexivity.
Qed.
Lemma update_session_reports nodeID f :
  (forall row, session_le row (f row)) -> Steps reports_le (update_session nodeID f).
Proof.
  intros Hf. apply statement_steps. intros db a db' E. destruct (_ !! nodeID) as [row|] eqn:Hrow; [|by simplify_eq].
  destruct (negb _); [done|]. simplify_eq/=. apply rtc_once. split; simpl; [|reflexivity..].
  apply table_le_insert; [apply _|]. intros old Hold. simplify_eq. apply Hf.
Qed.
#[export] Instance intent_reports nodeID intent : Steps reports_le (update_session nodeID (session_with_intent intent)).
Proof. apply update_session_reports. intros row. by split_and!. Qed.
#[export] Instance shared_reports nodeID shared : Steps reports_le (update_session nodeID (session_with_shared shared)).
Proof. apply update_session_reports. intros row. by split_and!. Qed.
#[export] Instance readiness_reports nodeID ready t : Steps reports_le (update_session nodeID (session_with_readiness ready t)).
Proof. apply update_session_reports. intros row. by split_and!. Qed.
Lemma untouching_reports tables {A} (m : program A) :
  Steps (touches tables) m -> TSessions ∉ tables -> TObservations ∉ tables -> TTombstones ∉ tables -> Steps reports_le m.
Proof. intros Hm H1 H2 H3 db a db' E. apply rtc_once. eapply reports_same; [by eapply Hm|done..]. Qed.
#[export] Instance insert_exclusion_reports n t x : Steps reports_le (insert_exclusion n t x).
Proof. apply (untouching_reports [TExclusions]); [apply _|set_solver..]. Qed.
#[export] Instance delete_exclusions_reports n : Steps reports_le (exec (fun db => Ok (with_work (work_with_exclusions
    (delete_node n (node_target_exclusions (agent_work db))) (agent_work db)) db))).
Proof. apply (untouching_reports [TExclusions]); [apply _|set_solver..]. Qed.
#[export] Instance advance_authority_reports n d e t : Steps reports_le (advance_authority n d e t).
Proof. apply (untouching_reports [TAuthority]); [apply _|set_solver..]. Qed.
#[export] Instance insertNodeOwnerAudit_reports t r n a : Steps reports_le (insertNodeOwnerAudit t r n a).
Proof.
  intros db [] db' (e & mid & E%run_mapping_error_ok & [_ <-]%run_ret_ok)%run_bind_ok; [|apply _].
  apply insertAuditEvent_ok in E as (_ & _ & _ & ->). apply rtc_once. split; reflexivity.
Qed.
#[export] Instance adoptNodeOwnerState_reports n i x b t : Steps reports_le (adoptNodeOwnerState n i x b t).
Proof.
  unfold adoptNodeOwnerState, adoptNodeSharedRunnerIdentity, adoptNodeAvailabilityIntent, adoptNodeTargetExclusions.
  apply _.
Qed.

(** No method of the store takes a report back. *)
Lemma work_reports s m db db' : run (work_program s m) db = (Ok tt, db') -> reports_le db db'.
Proof.
  intros E. destruct m; try (apply (reports_same _ _ _ (work_touches _ _ _ _ E)); cbn [work_tables]; set_solver);
    cbn [work_program] in E.
  - apply RecordAgentSnapshot_ok in E as (_ & digest & t & mid & _ & _ & E & _ & adoption & E1).
    transitivity mid; [by eapply record_snapshot_reports|]. eapply steps_reports; [|exact E1]. apply _.
  - eapply steps_reports; [|exact E]. unfold RecordAgentReadiness. apply _.
  - eapply steps_reports; [|exact E]. unfold RecordNodeOwnerState, commit_adoption. apply _.
Qed.
Lemma act_reports a c : reports_le (database c) (database (controller_act a c)).
Proof.
  destruct a as [s m|s m]; simpl.
  - apply (call_keeps (reports_le (database c))); [reflexivity|]. intros db' (c' & E & <-).
    apply call_view in E. injection E as _ _ _ _ Hw. split; by rewrite Hw.
  - apply (work_keeps (reports_le (database c))); [reflexivity|]. intros db' E. by eapply work_reports.
Qed.

(** What Agents reported is never taken back, whatever history follows and whatever
    fails: the platform a node first reported is fixed and the epoch of its journal never
    decreases; an observation is replaced only by one that is not earlier, of a state it
    can reach, and at the same time by the same state; a failed cleanup keeps its class
    and its time never decreases; none of them is removed. *)
Theorem reports_never_regress actions c :
  let w := agent_work (database c) in let w' := agent_work (database (controller_history actions c)) in
  table_le session_le (agent_session_snapshots w) (agent_session_snapshots w') /\
  table_le observation_le (agent_snapshot_observations w) (agent_snapshot_observations w') /\
  table_le tombstone_le (agent_snapshot_cleanup_tombstones w) (agent_snapshot_cleanup_tombstones w').
Proof.
  cbv zeta. assert (H : reports_le (database c) (database (controller_history actions c))).
  { revert c. induction actions as [|a actions IH]; intros c; simpl; [reflexivity|].
    transitivity (database (controller_act a c)); [apply act_reports|apply IH]. }
  by destruct H.
Qed.

(** The Agent of [WorkDemo] presents its journal after its execution failed: the command
    it accepted, and a runner it still observes. *)
Module SnapshotDemo.
Definition marshal (snapshot : CanonicalSnapshot) : result string := Ok "{}".
Definition sha256 (encoded : string) : string := "0123456789abcdef0123456789abcdef".
Definition observation : ObservationSnapshot := mkObservationSnapshot "e1" ExecutionPreparing 90.
Definition snapshot : NodeAgentSnapshot :=
  mkNodeAgentSnapshot Demo.nodeID OSLinux ArchAMD64 "2.320.0" true AvailabilityStopped (Some ["repo"]) None
    (mkAgentStoreSnapshot 1 [issued_Command WorkDemo.prepare] [observation] []).
Definition digest := "3031323334353637383961626364656630313233343536373839616263646566".
Definition c : connection ControllerDB :=
  controller_act (Work WorkDemo.store (WRecordSnapshot marshal sha256 snapshot)) WorkDemo.c3.
Lemma records : RecordAgentSnapshot marshal sha256 WorkDemo.store snapshot WorkDemo.c3 = (Ok tt, c).
Proof. vm_compute. reflexivity. Qed.
End SnapshotDemo.

Lemma snapshot_becomes_authority_witness :
  current_authority Demo.nodeID SnapshotDemo.digest 1 (database SnapshotDemo.c) /\
  (exists digest, exactly Demo.nodeID (agent_current_snapshot_observations (agent_work (database SnapshotDemo.c)))
     [observation_row digest SnapshotDemo.observation]) /\
  issued_to Demo.nodeID (database WorkDemo.c3) (issued_Command WorkDemo.prepare).
Proof.
  destruct (snapshot_becomes_authority _ _ _ _ _ _ SnapshotDemo.records)
    as (digest & epoch & Hd & Ha & _ & _ & Ho & _ & _ & _ & _ & Hc & _).
  split.
  - assert (He : epoch = 1).
    { assert (H : readUintMetadata (store_metadata (database SnapshotDemo.c)) "controller_epoch" = Ok 1)
        by (vm_compute; reflexivity).
      rewrite (proj1 Ha) in H. injection H as H. exact H. }
    assert (H : nodeAgentSnapshotDigest SnapshotDemo.marshal SnapshotDemo.sha256 SnapshotDemo.snapshot =
      Ok SnapshotDemo.digest) by (vm_compute; reflexivity).
    rewrite Hd in H. injection H as H. rewrite <- H, <- He. exact Ha.
  - split; [exists digest; exact Ho|]. apply Hc. constructor.
Defined.
