(* ===== verification/TeardownProps.v ===== *)
(** * Teardown commands and absent executions

    What authorises the teardown of an execution that is over, that a command keeps the
    authority it was issued with, and what happens to the projection when the store fails
    an execution its node no longer has. *)

From S2P Require Import Prelude GoStd GoEncoding Sql StoreBase EnrollRegistry EnrollPKI Domain Execution Replay Fence Transport AgentStore WorkTables ControllerStore StoreEnroll AuditTrail Management WorkStore WorkAgent WorkReport WorkGitHub ControllerSpec ControllerFacts WorkFacts WorkFrame WorkSpec ControllerHistory ControllerProps WorkProps SnapshotProps.
From Stdlib Require Import Ascii.

(** ** The authority of a command *)

Definition command_issued (commandID : string) (db : ControllerDB) : Prop :=
  is_Some (agent_commands (agent_work db) !! commandID).
Lemma insert_reconciliation_ok commandID digest db db' :
  run (insert_reconciliation commandID digest) db = (Ok tt, db') ->
  isLowerSHA256 digest = true /\ agent_work db' =
    work_with_reconciliations (<[commandID := digest]> (reconciliation_agent_commands (agent_work db))) (agent_work db).
Proof.
  intros E%run_exec_ok. simpl in E. destruct (insert_row _ _ _ _) eqn:Hins; [|done]. simplify_eq/=.
  apply insert_row_ok in Hins as ([Hd _]%andb_true_iff & _ & ->). done.
Qed.
Lemma requireKnown_ok nodeID db db' :
  run (requireKnownEnrolledNode nodeID) db = (Ok tt, db') ->
  exists node, enrolled_nodes db !! nodeID = Some node /\ en_revoked node = false.
Proof.
  unfold requireKnownEnrolledNode. intros ([revoked st] & mid & [E <-]%run_query_ok & E1)%run_bind_ok; [|apply _].
  unfold node_authority in E. destruct (enrolled_nodes db !! nodeID) as [node|]; [|done].
  destruct (node_administrative_states db !! nodeID) as [state|]; [|done]. simplify_eq. exists node. split; [done|].
  destruct (en_revoked node); [by apply run_throw_ok in E1|done].
Qed.

(** What a teardown command needs to be issued. *)
Definition teardown_admissible (issued : IssuedCommand) (digest : string) (db : ControllerDB) : Prop :=
  let nodeID := issued_NodeID issued in let command := issued_Command issued in
  issued_Type issued = CommandCancel /\
  (exists node, enrolled_nodes db !! nodeID = Some node /\ en_revoked node = false) /\
  current_authority nodeID digest (command_ControllerEpoch command) db /\
  (exists row, executions db !! command_ExecutionID command = Some row /\ ex_node_id row = nodeID /\
     ex_state row ∈ [ExecutionReleased; ExecutionFailed]) /\
  exists o, current_observation nodeID (command_ExecutionID command) digest db = Some o /\
    co_state o = command_ExpectedState command.
Lemma loaded_issued commandID db issued :
  loadIssuedAgentCommand commandID db = Ok (Some issued) -> command_issued commandID db.
Proof. unfold loadIssuedAgentCommand, command_issued. by destruct (_ !! commandID). Qed.
Lemma replayed_reconciliation_ok issued digest db db' :
  run (replayed_reconciliation issued digest) db = (Ok true, db') ->
  command_issued (command_ID (issued_Command issued)) db /\
  agentCommandReconciliationAuthority (command_ID (issued_Command issued)) db = Ok (true, digest).
Proof.
  unfold replayed_reconciliation. intros (found & E1 & E)%run_read_bind_ok; [|apply _..].
  destruct found; [|by apply run_ret_ok in E as [? _]].
  apply replayed_command_ok in E1 as Hst; [|done]. split; [by eapply loaded_issued|].
  apply run_read_bind_ok in E as ([reconciliation committed] & [Ha _]%run_query_ok & E); [|apply _..].
  destruct reconciliation; simpl in E; [|by apply run_throw_ok in E].
  case_bool_decide; [by subst|by apply run_throw_ok in E].
Qed.
Lemma CommitReconciliation_ok s issued digest db replayed db' :
  run (CommitAgentReconciliationCommand s issued digest) db = (Ok replayed, db') ->
  validateIssuedAgentCommand issued = None /\
  if replayed then db' = db /\ command_issued (command_ID (issued_Command issued)) db /\
    agentCommandReconciliationAuthority (command_ID (issued_Command issued)) db = Ok (true, digest)
  else teardown_admissible issued digest db /\ ~ command_issued (command_ID (issued_Command issued)) db /\
    reconciliation_agent_commands (agent_work db') =
      <[command_ID (issued_Command issued) := digest]> (reconciliation_agent_commands (agent_work db)) /\
    command_issued (command_ID (issued_Command issued)) db' /\ isLowerSHA256 digest = true.
Proof.
  unfold CommitAgentReconciliationCommand. intros E. read_on E; read_facts.
  - apply run_ret_ok in E as [E ?]. destruct Hend as [[? _]|[Hend ?]]; [by subst|]. simplify_eq.
    split; [done|]. split; [done|]. by eapply replayed_reconciliation_ok.
  - apply run_bind_ok in E as ([] & mid & Hins & E); [|apply _].
    apply run_bind_ok in E as ([] & mid2 & Hrec & E); [|apply _]. committed E Hend. split; [done|].
    destruct x5, x8. apply requireKnown_ok in H3. apply current_epoch_ok in H4.
    apply loadControllerExecution_ok in H5 as (row & Hrow & -> & _). apply requireCurrent_ok in H6.
    apply run_exec_ok in Hins. simpl in Hins. destruct (insert_row _ _ _ _) eqn:Hnew in Hins; [|done].
    apply insert_row_ok in Hnew as (_ & Hnew & ->). simplify_eq.
    apply insert_reconciliation_ok in Hrec as [Hd Hw]. conditions. simpl in *.
    split; [|split; [|split; [by rewrite Hw|split; [|done]]]].
    + split; [done|]. split; [done|]. split; [split; [by rewrite Heqb2|done]|]. split; [by exists row|].
      destruct (current_observation _ _ _ db) as [o|]; [|done]. simpl in H7. injection H7 as ->. by exists x9.
    + unfold command_issued. rewrite Hnew. by intros [].
    + unfold command_issued. rewrite Hw. simpl. by rewrite lookup_insert_eq.
Qed.

Lemma work_no_teardown s m db db' :
  run (work_program s m) db = (Ok tt, db') -> TReconciliations ∉ work_tables m ->
  reconciliation_agent_commands (agent_work db') = reconciliation_agent_commands (agent_work db).
Proof.
  intros E%work_touches Hn. eapply (touches_keep (fun db => reconciliation_agent_commands (agent_work db))); [exact E|].
  intros table Hin d d' Htouch. destruct Htouch as [| | | | | | | | | | | | | | | | | | |dq n|]; try done.
  by rewrite (proj2 (proj2 (quarantined_tables n dq))).
Qed.
(** A command keeps the authority it was issued with. *)
Lemma work_authority s m id db db' :
  run (work_program s m) db = (Ok tt, db') -> command_issued id db ->
  reconciliation_agent_commands (agent_work db') !! id = reconciliation_agent_commands (agent_work db) !! id.
Proof.
  intros E Hi.
  pose proof (work_no_teardown _ _ _ _ E) as Hsame.
  destruct m; try (rewrite Hsame by (cbn [work_tables]; set_solver); done); cbn [work_program] in E.
  apply dropping_ok in E as [[] [_ E]%CommitReconciliation_ok]; [by destruct E as [-> _]|].
  destruct E as (_ & Hnew & -> & _). rewrite lookup_insert_ne; [done|]. intros Heq. by rewrite Heq in Hnew.
Qed.
Lemma command_issued_grows id db db' : work_grows db db' -> command_issued id db -> command_issued id db'.
Proof. intros Hg [row Hrow]. exists row. eapply lookup_weaken; [done|apply (wg_commands _ _ Hg)]. Qed.
Lemma history_authority actions c id :
  command_issued id (database c) ->
  command_issued id (database (controller_history actions c)) /\
  reconciliation_agent_commands (agent_work (database (controller_history actions c))) !! id =
  reconciliation_agent_commands (agent_work (database c)) !! id.
Proof.
  revert c. induction actions as [|a actions IH]; intros c Hi; simpl; [done|].
  set (P := fun db => command_issued id db /\ reconciliation_agent_commands (agent_work db) !! id =
    reconciliation_agent_commands (agent_work (database c)) !! id).
  assert (Hact : P (database (controller_act a c))).
  { destruct a as [s m|s m]; simpl.
    - apply (call_keeps P); [done|]. intros db' (c' & E & <-). apply call_view in E. injection E as _ _ _ _ Hw.
      unfold P, command_issued. by rewrite Hw.
    - apply (work_keeps P); [done|]. intros db' E. split; [|by eapply work_authority].
      eapply command_issued_grows; [by eapply work_program_grows|done]. }
  destruct Hact as [Hi' Hsame]. destruct (IH _ Hi') as [H1 H2]. split; [done|]. by rewrite H2, Hsame.
Qed.

(** What [CommitAgentCommand] issues is not a teardown. *)
Lemma CommitAgentCommand_issues s issued db db' :
  run (CommitAgentCommand s issued) db = (Ok false, db') ->
  ~ command_issued (command_ID (issued_Command issued)) db /\
  command_issued (command_ID (issued_Command issued)) db' /\
  reconciliation_agent_commands (agent_work db') = reconciliation_agent_commands (agent_work db).
Proof.
  unfold CommitAgentCommand. intros E. read_on E; read_facts.
  - apply run_ret_ok in E as [E ?]. destruct Hend as [[? _]|[Hend ?]]; [by subst|]. by simplify_eq.
  - apply run_bind_ok in E as ([] & mid & Hins & E); [|apply _]. committed E Hend.
    apply run_exec_ok in Hins. simpl in Hins. destruct (insert_row _ _ _ _) eqn:Hnew in Hins; [|done].
    apply insert_row_ok in Hnew as (_ & Hnew & ->). simplify_eq. unfold command_issued. rewrite Hnew. simpl.
    rewrite lookup_insert_eq. split_and!; [by intros []|done|done].
Qed.
(** Every teardown is an issued command. *)
Definition teardowns_issued (db : ControllerDB) : Prop :=
  forall id, is_Some (reconciliation_agent_commands (agent_work db) !! id) -> command_issued id db.
Lemma act_teardowns_issued a c : teardowns_issued (database c) -> teardowns_issued (database (controller_act a c)).
Proof.
  intros Hc. destruct a as [s m|s m]; simpl.
  - apply (call_keeps teardowns_issued); [done|]. intros db' (c' & E & <-). apply call_view in E. injection E as _ _ _ _ Hw.
    unfold teardowns_issued, command_issued. by rewrite Hw.
  - apply (work_keeps teardowns_issued); [done|]. intros db' E id Hid.
    destruct (decide (command_issued id (database c))) as [Hi|Hi].
    { eapply command_issued_grows; [by eapply work_program_grows|done]. }
    assert (Hgone : reconciliation_agent_commands (agent_work (database c)) !! id = None).
    { apply eq_None_not_Some. intros H. by apply Hi, Hc. }
    pose proof (work_no_teardown _ _ _ _ E) as Hsame.
    destruct m; try (rewrite Hsame, Hgone in Hid by (cbn [work_tables]; set_solver); by destruct Hid).
    cbn [work_program] in E. apply dropping_ok in E as [[] [_ E]%CommitReconciliation_ok].
    { destruct E as [-> _]. rewrite Hgone in Hid. by destruct Hid. }
    destruct E as (_ & _ & Hrec & Hnew & _). rewrite Hrec, lookup_insert_is_Some in Hid.
    destruct Hid as [<-|[_ Hid]]; [done|]. rewrite Hgone in Hid. by destruct Hid.
Qed.
Lemma history_teardowns_issued actions c :
  teardowns_issued (database c) -> teardowns_issued (database (controller_history actions c)).
Proof.
  revert c. induction actions as [|a actions IH]; intros c Hc; [done|]. simpl. by apply IH, act_teardowns_issued.
Qed.
(** What the store says of an issued command's authority never changes. *)
Lemma history_command_authority actions c id :
  command_issued id (database c) ->
  agentCommandReconciliationAuthority id (database (controller_history actions c)) =
  agentCommandReconciliationAuthority id (database c).
Proof. intros Hi. unfold agentCommandReconciliationAuthority. by rewrite (proj2 (history_authority actions c id Hi)). Qed.
(** A command the store has as an ordinary one cannot be committed as a teardown. *)
Lemma ordinary_stays_ordinary s issued digest c r c' :
  command_issued (command_ID (issued_Command issued)) (database c) ->
  agentCommandIsReconciliation (command_ID (issued_Command issued)) (database c) = Ok false ->
  CommitAgentReconciliationCommand s issued digest c <> (Ok r, c').
Proof.
  intros Hi Hord E. apply sql_run_ok in E; [|unfold CommitAgentReconciliationCommand; apply _].
  apply CommitReconciliation_ok in E as [_ E]. destruct r.
  - destruct E as (_ & _ & Ha). unfold agentCommandIsReconciliation in Hord. by rewrite Ha in Hord.
  - by destruct E as (_ & Hnew & _).
Qed.

(** What [CommitAgentCommand] issued stays an ordinary command. *)
Lemma ordinary_for_ever s ordinary c d later :
  teardowns_issued (database c) -> CommitAgentCommand s ordinary c = (Ok false, d) ->
  let d1 := controller_history later d in
  agentCommandIsReconciliation (command_ID (issued_Command ordinary)) (database d1) = Ok false /\
  forall s3 digest r d2, CommitAgentReconciliationCommand s3 ordinary digest d1 <> (Ok r, d2).
Proof.
  intros Hc E. cbv zeta. apply sql_run_ok in E; [|unfold CommitAgentCommand; apply _].
  apply CommitAgentCommand_issues in E as (Hnew & Hissued & Hsame).
  assert (Hord : agentCommandIsReconciliation (command_ID (issued_Command ordinary))
    (database (controller_history later d)) = Ok false).
  { unfold agentCommandIsReconciliation. rewrite history_command_authority by done.
    unfold agentCommandReconciliationAuthority. rewrite Hsame.
    destruct (reconciliation_agent_commands _ !! _) eqn:Hrec; [|done]. exfalso. apply Hnew, Hc.
    by rewrite Hrec. }
  split; [done|]. intros s3 digest r d2. apply ordinary_stays_ordinary; [|done]. by apply history_authority.
Qed.

(** C13 A teardown has the authority of a snapshot and touches nothing else: when
    [CommitAgentReconciliationCommand] issues a command, in whatever circumstances, it is
    a Cancel of an execution that is over, on an enrolled node whose current snapshot,
    accepted under the current epoch, still observes it in the expected state.  Whether
    a command is a teardown, and of which snapshot, is decided when it is issued and
    never changes: what the method answers to, new or replayed, is a teardown of exactly
    that snapshot for ever after, and what [CommitAgentCommand] issues in any history is
    an ordinary command for ever after, which the method always refuses.  And whatever
    an Agent later reports for a teardown changes neither the desired state nor any
    lease. *)
Theorem teardown_spares_desired_state s issued digest c again c' actions s' u replayed c'' :
  CommitAgentReconciliationCommand s issued digest c = (Ok again, c') ->
  aeu_CommandID u = command_ID (issued_Command issued) ->
  let c1 := controller_history actions c' in
  RecordAgentExecutionUpdate s' u c1 = (Ok replayed, c'') ->
  (again = false -> teardown_admissible issued digest (database c)) /\
  agentCommandReconciliationAuthority (command_ID (issued_Command issued)) (database c1) = Ok (true, digest) /\
  executions (database c'') = executions (database c1) /\
  slot_reservations (database c'') = slot_reservations (database c1) /\
  forall past outs coms s2 ordinary d later,
    CommitAgentCommand s2 ordinary (controller_history past (mkConnection fresh_controller_db outs coms)) =
      (Ok false, d) ->
    let d1 := controller_history later d in
    agentCommandIsReconciliation (command_ID (issued_Command ordinary)) (database d1) = Ok false /\
    forall s3 digest' r d2, CommitAgentReconciliationCommand s3 ordinary digest' d1 <> (Ok r, d2).
Proof.
  intros E Hid. cbv zeta. set (c1 := controller_history actions c'). intros Eu.
  apply sql_run_ok in E; [|unfold CommitAgentReconciliationCommand; apply _].
  apply CommitReconciliation_ok in E as [_ E].
  assert (Hc' : command_issued (command_ID (issued_Command issued)) (database c') /\
    agentCommandReconciliationAuthority (command_ID (issued_Command issued)) (database c') = Ok (true, digest) /\
    (again = false -> teardown_admissible issued digest (database c))).
  { destruct again; [by destruct E as (-> & ? & ?)|]. destruct E as (Hadm & _ & Hrec & Hi & Hd).
    split_and!; try done. unfold agentCommandReconciliationAuthority. by rewrite Hrec, lookup_insert_eq, Hd. }
  destruct Hc' as (Hi & Ha & Hadm). split; [done|]. clear E.
  rewrite <- (history_command_authority actions c' _ Hi) in Ha. fold c1 in Ha.
  assert (Hflag : agentCommandIsReconciliation (command_ID (issued_Command issued)) (database c1) = Ok true)
    by (unfold agentCommandIsReconciliation; by rewrite Ha).
  split; [done|]. apply sql_run_ok in Eu; [|unfold RecordAgentExecutionUpdate; apply _].
  assert (Hkeep : executions (database c'') = executions (database c1) /\
    slot_reservations (database c'') = slot_reservations (database c1)).
  { destruct replayed.
    - apply RecordAgentExecutionUpdate_ok in Eu as (_ & [(_ & -> & _)|(? & _)]); done.
    - apply update_has_effect in Eu as [(i & rec & row & _ & _ & _ & Hr & _ & _ & -> & -> & _) _].
      rewrite Hid, Hflag in Hr. injection Hr as <-. by rewrite andb_false_r. }
  destruct Hkeep. split_and!; [done|done|]. intros past outs coms s2 ordinary d later E.
  eapply ordinary_for_ever; [|exact E]. apply history_teardowns_issued. by intros id [? ?].
Qed.

(** The Controller of [SnapshotDemo] tears down the runner its Agent still observes. *)
Module TeardownDemo.
Definition cancel : IssuedCommand :=
  mkIssued Demo.nodeID CommandCancel (mkCommand "cancel-e1" 1 "e1" ExecutionPreparing WorkDemo.sha).
Definition c1 : connection ControllerDB :=
  controller_act (Work WorkDemo.store (WCommitReconciliation cancel SnapshotDemo.digest)) SnapshotDemo.c.
Definition update : AgentExecutionUpdate :=
  mkAgentUpdate Demo.nodeID "update-2" "cancel-e1" "e1" ExecutionReleased false ExecutionErrorNone WorkDemo.sha.
Definition c2 : connection ControllerDB := controller_act (Work WorkDemo.store (WRecordUpdate update)) c1.
Lemma cancels : CommitAgentReconciliationCommand WorkDemo.store cancel SnapshotDemo.digest SnapshotDemo.c = (Ok false, c1).
Proof. vm_compute. reflexivity. Qed.
Lemma reports_end : RecordAgentExecutionUpdate WorkDemo.store update c1 = (Ok false, c2).
Proof. vm_compute. reflexivity. Qed.
End TeardownDemo.

Lemma teardown_spares_desired_state_witness :
  teardown_admissible TeardownDemo.cancel SnapshotDemo.digest (database SnapshotDemo.c) /\
  executions (database TeardownDemo.c2) = executions (database TeardownDemo.c1).
Proof.
  destruct (teardown_spares_desired_state _ _ _ _ _ _ [] _ TeardownDemo.update _ _ TeardownDemo.cancels eq_refl TeardownDemo.reports_end)
    as (H1 & _ & H2 & _). split; [exact (H1 eq_refl)|exact H2].
Defined.
