(* ===== verification/RestartWf.v ===== *)
(** * What a restart can rely on in the Controller's database

    The rows that [RestartSnapshot] reads and controller_wf and lease_wf do not speak of:
    messages, sessions, commands and claims are valid after every history. *)

From S2P Require Import Prelude GoStd GoEncoding Sql StoreBase EnrollRegistry EnrollPKI Domain Execution Replay SlotLedger Scheduler Transport RunnerUpdate Fence Projection AgentStore WorkTables ControllerStore StoreEnroll AuditTrail Management WorkStore WorkAgent WorkReport WorkGitHub RestartStore ControllerSpec ControllerFacts WorkFacts WorkFrame WorkSpec ControllerHistory ControllerProps WorkProps SnapshotProps TeardownProps.
From Stdlib Require Import Ascii.

(** The epoch of the database, which only [AdvanceEpoch] changes. *)
Definition epoch_of (db : ControllerDB) : result Z := readUintMetadata (store_metadata db) "controller_epoch".
Definition messages_ok (db : ControllerDB) : Prop :=
  map_Forall (fun key row => message_check key.1 key.2 row = true) (processed_messages (agent_work db)).
Definition sessions_ok (db : ControllerDB) : Prop :=
  map_Forall (fun _ row => validate_session row = None) (agent_session_snapshots (agent_work db)).
(** Every command is valid, under its identity, of no later epoch than the Controller's
    and for an execution of its node. *)
Definition command_ok (db : ControllerDB) (commandID : string) (row : AgentCommandRow) : Prop :=
  let issued := ac_issued row in
  commandID = command_ID (issued_Command issued) /\ validateIssuedAgentCommand issued = None /\
  (exists epoch, epoch_of db = Ok epoch /\ command_ControllerEpoch (issued_Command issued) <= epoch) /\
  exists e, executions db !! command_ExecutionID (issued_Command issued) = Some e /\ ex_node_id e = issued_NodeID issued.
Definition commands_ok (db : ControllerDB) : Prop :=
  map_Forall (command_ok db) (agent_commands (agent_work db)).
(** No two claims name one execution. *)
Definition claims_ok (db : ControllerDB) : Prop :=
  forall k1 k2 r1 r2, github_job_claims db !! k1 = Some r1 -> github_job_claims db !! k2 = Some r2 ->
    gc_execution_id r1 = gc_execution_id r2 -> k1 = k2.
Record restart_wf (db : ControllerDB) : Prop := {
  rw_messages : messages_ok db;
  rw_sessions : sessions_ok db;
  rw_commands : commands_ok db;
  rw_claims : claims_ok db }.

(** ** Messages *)

Lemma work_messages s m db db' : run (work_program s m) db = (Ok tt, db') -> messages_ok db -> messages_ok db'.
Proof.
  intros E Hok. unfold messages_ok.
  assert (Hsame : TMessages ∉ work_tables m -> processed_messages (agent_work db') = processed_messages (agent_work db)).
  { intros Hn. apply work_touches in E. eapply (touches_keep (fun db => processed_messages (agent_work db))); [exact E|].
    intros table Hin d d' Htouch. destruct Htouch as [| | | | | | | | | | | | | | | | | | |dq n|]; try done.
    by rewrite (proj2 (proj2 (quarantined_tables n dq))). }
  destruct m; try (rewrite Hsame by (cbn [work_tables]; set_solver); done); cbn [work_program] in E.
  apply dropping_ok in E as [answer [_ E]%Assign_calm].
  apply assignOnce_ok in E as (t & _ & [(_ & -> & _)|(_ & _ & _ & Hc & _ & ->)]); [done|]. simpl.
  by apply map_Forall_insert_2.
Qed.

(** ** Sessions *)

Definition session_version_ok (version : string) : Prop :=
  version = "" \/ (TrimSpace version = version /\ len_string version <= 64).
Lemma session_valid row :
  validate_session row = None <->
  OperatingSystem_Validate (as_operating_system row) "restart_snapshot.node.os" = None /\
  Architecture_Validate (as_architecture row) "restart_snapshot.node.architecture" = None /\
  session_version_ok (as_runner_version row) /\ 0 <= as_max_controller_epoch row /\ 0 < as_received_at row.
Proof.
  unfold validate_session, session_version_ok. destruct (OperatingSystem_Validate _ _); [naive_solver|].
  destruct (Architecture_Validate _ _); [naive_solver|].
  destruct (_ && _) eqn:Hv.
  - split; [done|]. intros (_ & _ & Hver & _). conditions. destruct Hv as [H1 H2]. conditions.
    destruct Hver as [?|[Ht Hl]]; [done|]. destruct H2 as [?|H2]; [done|]. lia.
  - assert (Hver : as_runner_version row = "" \/ (TrimSpace (as_runner_version row) = as_runner_version row /\
      len_string (as_runner_version row) <= 64)).
    { apply andb_false_iff in Hv as [Hv|Hv]; [left|right]; conditions; [done|]. destruct Hv as [? Hv]. split; [done|]. lia. }
    destruct ((as_max_controller_epoch row <? 0) || _) eqn:Hb.
    + split; [done|]. intros (_ & _ & _ & H1 & H2). apply orb_true_iff in Hb as [Hb|Hb].
      * apply Z.ltb_lt in Hb. lia.
      * apply Z.leb_le in Hb. lia.
    + split; [|done]. intros _. apply orb_false_iff in Hb as [H1 H2]. apply Z.ltb_ge in H1. apply Z.leb_gt in H2. done.
Qed.
Lemma session_check_valid row :
  session_check row = true -> session_version_ok (as_runner_version row) -> validate_session row = None.
Proof.
  unfold session_check. intros Hc Hv. apply session_valid. rewrite !andb_true_iff in Hc.
  destruct Hc as ((((Hos & Harch) & He) & Ht) & _). apply bool_decide_eq_true in Hos, Harch.
  rewrite Z.geb_leb in He. apply Z.leb_le in He. rewrite Z.gtb_ltb in Ht. apply Z.ltb_lt in Ht.
  split_and!; try done.
  - rewrite !elem_of_cons, elem_of_nil in Hos. by destruct Hos as [->|[->|[->|[]]]].
  - rewrite !elem_of_cons, elem_of_nil in Harch. by destruct Harch as [->|[->|[]]].
Qed.

Definition sessions_kept (db db' : ControllerDB) : Prop := sessions_ok db -> sessions_ok db'.
#[export] Instance sessions_kept_preorder : PreOrder sessions_kept.
Proof. split; [by intros x H|]. intros x y z H1 H2 H. auto. Qed.
Lemma steps_sessions {A} (m : program A) db a db' : Steps sessions_kept m -> run m db = (Ok a, db') -> sessions_kept db db'.
Proof. intros Hm E. specialize (Hm _ _ _ E). clear E. induction Hm as [|x y z Hxy _ IH]; [reflexivity|]. etransitivity; [exact Hxy|exact IH]. Qed.
Lemma sessions_equal tables db db' : rtc (touches tables) db db' -> TSessions ∉ tables ->
  agent_session_snapshots (agent_work db') = agent_session_snapshots (agent_work db).
Proof.
  intros H Hn. eapply (touches_keep (fun db => agent_session_snapshots (agent_work db))); [exact H|].
  intros table Hin d d' Ht. destruct Ht as [| | | | | | | | | | | | | | | | | | |dq n|]; try done.
  by rewrite (proj2 (proj2 (quarantined_tables n dq))).
Qed.
Lemma sessions_same tables db db' : rtc (touches tables) db db' -> TSessions ∉ tables -> sessions_kept db db'.
Proof. intros H Hn Hok. unfold sessions_ok. by rewrite (sessions_equal _ _ _ H Hn). Qed.
Lemma untouching_sessions tables {A} (m : program A) :
  Steps (touches tables) m -> TSessions ∉ tables -> Steps sessions_kept m.
Proof. intros Hm Hn db a db' E. apply rtc_once. eapply sessions_same; [by eapply Hm|done]. Qed.
Lemma update_session_kept nodeID f :
  (forall row, as_runner_version (f row) = as_runner_version row) -> Steps sessions_kept (update_session nodeID f).
Proof.
  intros Hf. apply statement_steps. intros db a db' E. destruct (_ !! nodeID) as [row|] eqn:Hrow; [|by simplify_eq].
  destruct (session_check (f row)) eqn:Hc; [|done]. simplify_eq/=. apply rtc_once. intros Hok.
  apply map_Forall_insert_2; [|done]. apply session_check_valid; [done|]. rewrite Hf.
  by apply (proj1 (session_valid row)), (Hok _ _ Hrow).
Qed.
#[export] Instance intent_sessions nodeID intent : Steps sessions_kept (update_session nodeID (session_with_intent intent)).
Proof. by apply update_session_kept. Qed.
#[export] Instance shared_sessions nodeID shared : Steps sessions_kept (update_session nodeID (session_with_shared shared)).
Proof. by apply update_session_kept. Qed.
#[export] Instance readiness_sessions nodeID ready t : Steps sessions_kept (update_session nodeID (session_with_readiness ready t)).
Proof. by apply update_session_kept. Qed.
#[export] Instance insert_exclusion_sessions n t x : Steps sessions_kept (insert_exclusion n t x).
Proof. apply (untouching_sessions [TExclusions]); [apply _|set_solver]. Qed.
#[export] Instance delete_exclusions_sessions n : Steps sessions_kept (exec (fun db => Ok (with_work (work_with_exclusions
    (delete_node n (node_target_exclusions (agent_work db))) (agent_work db)) db))).
Proof. apply (untouching_sessions [TExclusions]); [apply _|set_solver]. Qed.
#[export] Instance advance_authority_sessions n d e t : Steps sessions_kept (advance_authority n d e t).
Proof. apply (untouching_sessions [TAuthority]); [apply _|set_solver]. Qed.
#[export] Instance insertNodeOwnerAudit_sessions t r n a : Steps sessions_kept (insertNodeOwnerAudit t r n a).
Proof.
  intros db [] db' (e & mid & E%run_mapping_error_ok & [_ <-]%run_ret_ok)%run_bind_ok; [|apply _].
  apply insertAuditEvent_ok in E as (_ & _ & _ & ->). apply rtc_once. intros H. exact H.
Qed.
#[export] Instance adoptNodeOwnerState_sessions n i x b t : Steps sessions_kept (adoptNodeOwnerState n i x b t).
Proof.
  unfold adoptNodeOwnerState, adoptNodeSharedRunnerIdentity, adoptNodeAvailabilityIntent, adoptNodeTargetExclusions.
  apply _.
Qed.

Lemma upsert_session_kept snapshot t db n db' :
  session_version_ok (nas_RunnerVersion snapshot) -> run (upsert_session snapshot t) db = (Ok n, db') -> sessions_kept db db'.
Proof.
  intros Hv E%run_statement_ok Hok. simpl in E. destruct (session_check _) eqn:Hc in E; [|done]. simpl in E.
  destruct (agent_session_snapshots (agent_work db) !! _) as [old|] eqn:Hs.
  - destruct (_ && _) eqn:Hp in E; simplify_eq/=; [|done]. conditions. apply map_Forall_insert_2; [|done].
    apply session_valid. simpl. pose proof (session_check_valid _ Hc Hv) as Hfresh. apply session_valid in Hfresh. simpl in Hfresh.
    destruct Hp as [-> ->]. tauto.
  - simplify_eq/=. apply map_Forall_insert_2; [|done]. by apply session_check_valid.
Qed.
Lemma snapshot_version_ok snapshot : validateNodeAgentSnapshot snapshot = None -> session_version_ok (nas_RunnerVersion snapshot).
Proof.
  unfold validateNodeAgentSnapshot. intros H. destruct (bool_decide (nas_NodeID snapshot = _)); [done|].
  destruct (OperatingSystem_Validate _ _); [done|]. destruct (Architecture_Validate _ _); [done|].
  destruct (_ && _) eqn:Hv in H; [done|]. apply andb_false_iff in Hv as [Hv|Hv]; conditions; [by left|right].
  destruct Hv as [? Hv]. split; [done|]. lia.
Qed.
Lemma work_sessions s m db db' : run (work_program s m) db = (Ok tt, db') -> sessions_kept db db'.
Proof.
  intros E. destruct m; try (apply (sessions_same _ _ _ (work_touches _ _ _ _ E)); cbn [work_tables]; set_solver);
    cbn [work_program] in E.
  - apply RecordAgentSnapshot_ok in E as (Hv & digest & t & mid & _ & _ & E & _ & adoption & E1).
    transitivity mid; [|eapply steps_sessions; [|exact E1]; apply _].
    apply record_snapshot_ok in E
      as (epoch & d1 & d2 & d3 & d4 & d5 & d6 & d7 & d8 & _ & _ & _ & E & E2 & E3 & E4 & E5 & E6 & E7 & E8 & E9).
    transitivity d1; [by eapply upsert_session_kept, E; apply snapshot_version_ok|].
    apply (sessions_same [TSnapshotCommands; TObservations; TTombstones; TAuthority; TCurrentCommands;
      TCurrentObservations; TCurrentTombstones; TStates]); [|set_solver].
    repeat (etransitivity; [eapply steps_run; [eassumption|apply _]|]). reflexivity.
  - eapply steps_sessions; [|exact E]. unfold RecordAgentReadiness. apply _.
  - eapply steps_sessions; [|exact E]. unfold RecordNodeOwnerState, commit_adoption. apply _.
Qed.

(** ** Commands *)

Lemma insert_agent_command_table issued t db db' :
  run (insert_agent_command issued t) db = (Ok tt, db') ->
  agent_commands (agent_work db') = <[command_ID (issued_Command issued) := mkAgentCommandRow issued t]>
    (agent_commands (agent_work db)).
Proof.
  intros E%run_exec_ok. simpl in E. destruct (insert_row _ _ _ _) as [tab|] eqn:Hins; [|done].
  simplify_eq. by apply insert_row_ok in Hins as (_ & _ & ->).
Qed.
(** The two methods that add one: the command is valid, of the current epoch and for an
    execution of its node. *)
Definition command_added (issued : IssuedCommand) (db db' : ControllerDB) : Prop :=
  validateIssuedAgentCommand issued = None /\
  epoch_of db = Ok (command_ControllerEpoch (issued_Command issued)) /\
  (exists e, executions db !! command_ExecutionID (issued_Command issued) = Some e /\ ex_node_id e = issued_NodeID issued) /\
  exists t, agent_commands (agent_work db') =
    <[command_ID (issued_Command issued) := mkAgentCommandRow issued t]> (agent_commands (agent_work db)).
Lemma commit_command_adds s issued db replayed db' :
  run (CommitAgentCommand s issued) db = (Ok replayed, db') -> db' = db \/ command_added issued db db'.
Proof.
  intros E. pose proof (CommitAgentCommand_ok _ _ _ _ _ E) as (Hv & _ & Hadm).
  destruct replayed; [by left|right]. destruct Hadm as (_ & _ & He & row & Hrow & Hn & _).
  split; [done|]. split; [done|]. split; [by exists row|].
  unfold CommitAgentCommand in E. read_on E; read_facts.
  - apply run_ret_ok in E as [E ?]. destruct Hend as [[? _]|[Hend ?]]; by simplify_eq.
  - apply run_bind_ok in E as ([] & mid & Hins & E); [|apply _]. committed E Hend.
    apply insert_agent_command_table in Hins. eauto.
Qed.
Lemma commit_reconciliation_adds s issued digest db replayed db' :
  run (CommitAgentReconciliationCommand s issued digest) db = (Ok replayed, db') ->
  db' = db \/ command_added issued db db'.
Proof.
  intros E. pose proof (CommitReconciliation_ok _ _ _ _ _ _ E) as (Hv & Hadm).
  destruct replayed; [left; apply Hadm|right].
  destruct Hadm as ((_ & _ & [He _] & (row & Hrow & Hn & _) & _) & _).
  split; [done|]. split; [done|]. split; [by exists row|].
  unfold CommitAgentReconciliationCommand in E. read_on E; read_facts.
  - apply run_ret_ok in E as [E ?]. destruct Hend as [[? _]|[Hend ?]]; by simplify_eq.
  - apply run_bind_ok in E as ([] & mid & Hins & E); [|apply _].
    apply run_bind_ok in E as ([] & mid2 & Hrec & E); [|apply _]. committed E Hend.
    apply insert_agent_command_table in Hins. apply insert_reconciliation_ok in Hrec as [_ Hw]. eexists.
    rewrite Hw. simpl. exact Hins.
Qed.

Lemma work_epoch s m db db' : run (work_program s m) db = (Ok tt, db') -> epoch_of db' = epoch_of db.
Proof.
  intros E%work_touches. unfold epoch_of. f_equal. eapply (touches_keep store_metadata); [exact E|].
  intros table Hin d d' Ht. destruct Ht as [| | | | | | | | | | | | | | | | | | |dq n|]; try done.
  unfold quarantined_db. destruct (_ !! n); [case_bool_decide|]; done.
Qed.
(** What stays true of a command when executions advance and the epoch does. *)
Lemma command_ok_mono db db' id row :
  executions_advance db db' -> (forall epoch, epoch_of db = Ok epoch -> exists epoch', epoch_of db' = Ok epoch' /\ epoch <= epoch') ->
  command_ok db id row -> command_ok db' id row.
Proof.
  intros Hadv Hep (Hid & Hv & (epoch & He & Hle) & e & Hrow & Hn). split; [done|]. split; [done|]. split.
  - destruct (Hep _ He) as (epoch' & He' & Hle'). exists epoch'. split; [done|lia].
  - destruct (Hadv _ _ Hrow) as (e' & He' & st & -> & _). exists (row_with_state st e). split; [done|]. exact Hn.
Qed.
Lemma work_commands s m db db' :
  lease_wf db -> run (work_program s m) db = (Ok tt, db') -> commands_ok db -> commands_ok db'.
Proof.
  intros Hwf E Hok. pose proof (wp_advance _ _ (work_program_progress _ _ _ _ Hwf E)) as Hadv.
  pose proof (work_epoch _ _ _ _ E) as Hep.
  assert (Hmono : forall id row, command_ok db id row -> command_ok db' id row).
  { intros id row. apply command_ok_mono; [done|]. intros epoch He. exists epoch. split; [by rewrite Hep|lia]. }
  assert (Hsame : agent_commands (agent_work db') = agent_commands (agent_work db) -> commands_ok db').
  { intros Heq. unfold commands_ok. rewrite Heq. intros id row Hrow. by apply Hmono, Hok. }
  assert (Hadd : forall issued, db' = db \/ command_added issued db db' -> commands_ok db').
  { intros issued [->|(Hv & He & (e & Hrow & Hn) & t & Htab)]; [done|]. unfold commands_ok. rewrite Htab.
    apply map_Forall_insert_2; [|intros id row Hid; by apply Hmono, Hok]. apply Hmono. split; [done|]. split; [done|].
    split; [|by exists e]. eexists. split; [exact He|simpl; lia]. }
  assert (Htouch : TCommands ∉ work_tables m -> commands_ok db').
  { intros Hn. apply Hsame. apply work_touches in E. eapply (touches_keep (fun db => agent_commands (agent_work db))); [exact E|].
    intros table Hin d d' Ht. destruct Ht as [| | | | | | | | | | | | | | | | | | |dq n|]; try done.
    by rewrite (proj2 (proj2 (quarantined_tables n dq))). }
  destruct m; try (apply Htouch; cbn [work_tables]; set_solver); cbn [work_program] in E.
  - apply dropping_ok in E as [replayed E%commit_command_adds]. eauto.
  - apply dropping_ok in E as [replayed E%commit_reconciliation_adds]. eauto.
Qed.

(** ** Claims *)

Lemma write_claim_ok key row db db' :
  run (write_claim key row) db = (Ok tt, db') ->
  claim_names (gc_execution_id row) key db = false /\ is_Some (executions db !! gc_execution_id row) /\
  db' = with_claims (<[key := row]> (github_job_claims db)) db.
Proof.
  intros E%run_exec_ok. simpl in E. destruct (_ || _) eqn:Hc in E; [done|]. apply orb_false_iff in Hc as [H1 H2].
  destruct (upsert_row _ _ _ _) eqn:Hu in E; [|done]. apply upsert_row_ok in Hu as [_ ->]. simplify_eq. by conditions.
Qed.
Lemma claims_insert key row db :
  claim_names (gc_execution_id row) key db = false -> claims_ok db ->
  claims_ok (with_claims (<[key := row]> (github_job_claims db)) db).
Proof.
  intros Hc Hok.
  assert (Hnone : forall k r, github_job_claims db !! k = Some r -> gc_execution_id r = gc_execution_id row -> k = key).
  { intros k r Hk Hid. destruct (decide (k = key)) as [|Hne]; [done|]. exfalso.
    assert (Ht : claim_names (gc_execution_id row) key db = true); [|congruence].
    apply existsb_exists. exists (k, r). split; [by apply list_elem_of_In, elem_of_map_to_list|].
    by rewrite Hid, bool_decide_eq_true_2, bool_decide_eq_false_2. }
  intros k1 k2 r1 r2. simpl. intros [[<- <-]|[H1 E1]]%lookup_insert_Some [[<- <-]|[H2 E2]]%lookup_insert_Some Hid; [done| | |by eapply Hok].
  - symmetry. by eapply Hnone.
  - by eapply Hnone.
Qed.
Lemma work_claims s m db db' : run (work_program s m) db = (Ok tt, db') -> claims_ok db -> claims_ok db'.
Proof.
  intros E Hok.
  assert (Hsame : forall tables d d', rtc (touches tables) d d' -> TClaims ∉ tables ->
    github_job_claims d' = github_job_claims d).
  { intros tables d d' H Hn. eapply (touches_keep github_job_claims); [exact H|].
    intros table Hin x y Ht. destruct Ht as [| | | | | | | | | | | | | | | | | | |dq n|]; try done.
    unfold quarantined_db. destruct (_ !! n); [case_bool_decide|]; done. }
  assert (Hkeep : forall tables d d', rtc (touches tables) d d' -> TClaims ∉ tables -> claims_ok d -> claims_ok d').
  { intros tables d d' H Hn Hd. unfold claims_ok. by rewrite (Hsame _ _ _ H Hn). }
  destruct m; try (eapply (Hkeep _ _ _ (work_touches _ _ _ _ E)); [cbn [work_tables]; set_solver|done]).
  cbn [work_program] in E. unfold github_program in E.
  apply run_in_tx_recovering_ok in E as (end_ & db1 & E & Hend); [|destruct g; apply _].
  apply run_bind_ok in E as ([] & mid & E & E1); [|destruct g; apply _]. committed E1 Hend. destruct g; cbn beta iota in E.
  - unfold insert_slot_claim in E. read_on E. read_facts.
    apply run_bind_ok in E as ([] & m1 & E1%run_mapping_error_ok & E); [|apply _].
    apply run_bind_ok in E as ([] & m2 & E2%run_mapping_error_ok & E); [|apply _].
    assert (Hplaced : rtc (touches [TExecutions; TReservations]) db m2).
    { etransitivity; [eapply steps_run; [exact E1|apply _]|eapply steps_run; [exact E2|apply _]]. }
    apply write_claim_ok in E as (Hc & _ & ->). apply claims_insert; [done|].
    eapply Hkeep; [exact Hplaced|set_solver|done].
  - eapply (Hkeep [TExecutions]); [eapply steps_run; [exact E|unfold advance_observed; apply _]|set_solver|done].
  - eapply (Hkeep [TExecutions; TReservations; TStates]);
      [eapply steps_run; [exact E|unfold finish_lost_execution, end_lost_execution, check_lost_execution; apply _]|set_solver|done].
  - apply write_claim_ok in E as (Hc & _ & ->). by apply claims_insert.
  - eapply (Hkeep [TAttempts]); [eapply steps_run; [exact E|apply _]|set_solver|done].
  - eapply (Hkeep [TRuntime]); [eapply steps_run; [exact E|apply _]|set_solver|done].
Qed.

(** ** Histories *)

Lemma audited_metadata s a db mid db' : audited_change s a db mid db' -> store_metadata db' = store_metadata mid.
Proof. by intros (t & _ & _ & _ & _ & _ & _ & ->). Qed.
(** Only [AdvanceEpoch] changes the epoch, to the next one. *)
Lemma call_epoch s m db c' :
  controller_call s m (calm db) = (None, c') ->
  store_metadata (database c') = store_metadata db \/
  exists epoch, epoch_of db = Ok epoch /\ epoch_of (database c') = Ok (epoch + 1) /\ 0 < epoch + 1.
Proof.
  destruct m; simpl; intros [a E]%outcome_ok.
  - destruct a. apply CreateToken_ok, createEnrollmentToken_ok in E as (_ & _ & _ & ->). by left.
  - destruct a. apply ConsumeEnrollment_ok in E as (b & a & n & _ & E).
    apply consumeEnrollment_ok in E as (_ & _ & _ & _ & _ & _ & _ & _ & ->). by left.
  - destruct a. apply ConsumeEnrollmentWithAudit_ok in E as (b & a & n & _ & E & Hch). left.
    rewrite (audited_metadata _ _ _ _ _ Hch). done.
  - destruct a. apply FinalizeEnrollment_ok in E as [_ ->]. by left.
  - left. by apply CancelToken_ok in E as [(_ & _ & ->)|(_ & r & row & _ & _ & _ & _ & _ & ->)].
  - destruct a. left. by apply RenewCredential_ok in E as (? & ? & ? & _ & _ & _ & _ & _ & _ & _ & _ & _ & _ & _ & _ & _ & ->).
  - destruct a. left. by apply RevokeNode_ok in E as (? & _ & _ & _ & _ & _ & ->).
  - right. apply AdvanceEpoch_ok in E as (epoch & He & -> & Hn & ->). exists epoch. split; [done|]. split; [|lia].
    simpl. eapply read_update_metadata; [exact He|unfold max_int64, max_uint64 in *; lia].
  - left. apply AppendAuditEvent_ok in E as [Hch _]. by rewrite (audited_metadata _ _ _ _ _ Hch).
  - destruct a. left. apply CreateTokenWithAudit_ok in E as (_ & _ & Hch). by rewrite (audited_metadata _ _ _ _ _ Hch).
  - destruct a. left. apply CancelTokenWithAudit_ok in E as [_ Hch]. by rewrite (audited_metadata _ _ _ _ _ Hch).
  - destruct a. left. apply SetNodeAdministrativeStateWithAudit_ok in E as (_ & _ & _ & mid & Hm & Hch).
    rewrite (audited_metadata _ _ _ _ _ Hch).
    by destruct Hm as (? & ? & _ & _ & _ & [(_ & _ & ->)|(_ & _ & _ & ->)]).
  - left. apply ApplyManagementConfiguration_ok in E as (_ & _ & (mt & _ & -> & _) & _ & p & b & Hch).
    by rewrite (audited_metadata _ _ _ _ _ Hch).
Qed.
Lemma work_advance_refl db : lease_wf db -> executions_advance db db.
Proof. intros Hwf. apply (wp_advance _ _ (progress_refl db Hwf)). Qed.
Lemma call_restart_wf s m db c' :
  lease_wf db -> restart_wf db -> controller_call s m (calm db) = (None, c') -> restart_wf (database c').
Proof.
  intros Hl [H1 H2 H3 H4] E. pose proof (call_view _ _ _ _ E) as [= He Hs Hcl Hat Hw].
  split; unfold messages_ok, sessions_ok, commands_ok, claims_ok; rewrite ?Hw, ?Hcl; try done.
  intros id row Hrow. eapply command_ok_mono; [| |by apply H3].
  - intros id' row' Hrow'. rewrite He. by apply (work_advance_refl db Hl).
  - intros epoch Hep. apply call_epoch in E as [E|(epoch' & E1 & E2 & _)].
    + exists epoch. unfold epoch_of. rewrite E. split; [done|lia].
    + rewrite Hep in E1. injection E1 as <-. exists (epoch + 1). split; [done|lia].
Qed.
Lemma act_restart_wf a c :
  lease_wf (database c) -> restart_wf (database c) -> restart_wf (database (controller_act a c)).
Proof.
  intros Hl Hwf. destruct a as [s m|s m]; simpl.
  - apply (call_keeps restart_wf); [done|]. intros db' (c' & E & <-). by eapply call_restart_wf.
  - apply (work_keeps restart_wf); [done|]. intros db' E. destruct Hwf as [H1 H2 H3 H4]. split.
    + by eapply work_messages.
    + by eapply work_sessions.
    + by eapply work_commands.
    + by eapply work_claims.
Qed.
Lemma fresh_restart_wf : restart_wf fresh_controller_db.
Proof. split; try apply map_Forall_empty. intros k1 k2 r1 r2 H. simpl in H. by rewrite lookup_empty in H. Qed.
Lemma history_restart_wf actions outs coms :
  restart_wf (database (controller_history actions (mkConnection fresh_controller_db outs coms))).
Proof.
  assert (H : forall actions c, lease_wf (database c) -> restart_wf (database c) ->
    restart_wf (database (controller_history actions c))); [|apply H; [apply fresh_leases|apply fresh_restart_wf]].
  clear. induction actions as [|a actions IH]; intros c Hl Hwf; simpl; [done|].
  apply IH; [by apply act_progress|by apply act_restart_wf].
Qed.
