(* ===== verification/RestartProps.v ===== *)
(** * A Controller can be restarted

    What [RestartSnapshot] reads of a database that any history left, [RestoreRestart]
    accepts, and the Controller it builds has exactly the stored executions, leases and
    commands. *)

From S2P Require Import Prelude GoStd GoEncoding Sql StoreBase EnrollRegistry EnrollPKI Domain Execution Replay SlotLedger Scheduler Transport RunnerUpdate Fence Projection RestoreSuccess AgentStore WorkTables ControllerStore StoreEnroll AuditTrail Management WorkStore WorkAgent WorkReport WorkGitHub RestartStore ControllerSpec ControllerFacts WorkFacts WorkFrame WorkSpec ControllerHistory ControllerProps WorkProps SnapshotProps TeardownProps RestartWf.
From Stdlib Require Import Ascii.

(** ** What is read *)

Definition stored_administration (db : ControllerDB) : list NodeAdministration :=
  map (fun row => mkNodeAdministration row.1 (default "" (node_administrative_states db !! row.1)))
    (rows_by_key (enrolled_nodes db)).
Definition reservation_of (row : string * Z * ReservationRow) : SlotReservation :=
  mkSlotReservation (mkSlotKey row.1.1 row.1.2) (mkSlotOwner (sr_target_id row.2) (sr_execution_id row.2)).
Definition stored_reservations (db : ControllerDB) : list SlotReservation :=
  map reservation_of (sort_slice slot_before (map_to_list (slot_reservations db))).
Definition stored_executions (db : ControllerDB) : list ExecutionSnapshot :=
  map (fun row => execution_of row.1 row.2) (rows_by_key (executions db)).
Definition topology_of (db : ControllerDB) (row : string * NodeRow * string * ManagementNodeConfiguration)
    : RestartNodeTopology :=
  let '(nodeID, node, state, configuration) := row in
  let session := agent_session_snapshots (agent_work db) !! nodeID in
  mkTopology nodeID (mnc_DisplayName configuration) (en_current_serial node) (en_credential_epoch node) state
    (mnc_MaxRunners configuration) (bool_decide (is_Some session))
    (from_option as_operating_system "" session) (from_option as_architecture "" session).
Definition stored_topology (db : ControllerDB) : list RestartNodeTopology := map (topology_of db) (configured_nodes db).

Lemma admin_valid_any st f f' : NodeAdministrativeState_Validate st f = None -> NodeAdministrativeState_Validate st f' = None.
Proof. unfold NodeAdministrativeState_Validate. by case_bool_decide. Qed.
(** The row of a node's state agrees with its revocation. *)
Lemma state_row db nodeID st :
  controller_wf db -> node_administrative_states db !! nodeID = Some st ->
  NodeAdministrativeState_Validate st "node.administrative_state" = None /\
  exists row, enrolled_nodes db !! nodeID = Some row /\ Bool.eqb (en_revoked row) (st == NodeRevoked) = true.
Proof.
  intros Hwf Hst. destruct (cwf_states _ Hwf _ _ Hst) as [Hv (row & Hrow & Hiff)]. split; [done|]. exists row.
  split; [done|]. case_bool_decide; destruct (en_revoked row); naive_solver.
Qed.
Lemma enrolled_state db nodeID node :
  controller_wf db -> enrolled_nodes db !! nodeID = Some node -> exists st, node_administrative_states db !! nodeID = Some st.
Proof.
  intros Hwf Hn. pose proof (cwf_states_dom _ Hwf) as Hd. apply elem_of_dom. rewrite Hd. apply elem_of_dom. eauto.
Qed.
Lemma enrolled_configuration db nodeID node :
  controller_wf db -> enrolled_nodes db !! nodeID = Some node ->
  exists configuration, management_node_configurations db !! nodeID = Some configuration.
Proof.
  intros Hwf Hn. pose proof (cwf_configurations_dom _ Hwf) as Hd. apply elem_of_dom. rewrite Hd. apply elem_of_dom. eauto.
Qed.
(** A node's identity is canonical, and so is its serial. *)
Lemma enrolled_identity db nodeID node :
  controller_wf db -> enrolled_nodes db !! nodeID = Some node ->
  TrimSpace nodeID <> "" /\ nodeID <> "" /\ en_current_serial node <> "" /\ 0 < en_credential_epoch node.
Proof.
  intros Hwf Hn. destruct (enrolled_configuration _ _ _ Hwf Hn) as [cfg Hcfg].
  destruct (cfg_nodes _ (cwf_configuration _ Hwf) _ _ Hcfg) as [Hid Hv].
  unfold validateManagementNodeConfiguration in Hv. rewrite Hid in Hv.
  destruct (canonicalRuntimeIdentifier nodeID) eqn:Hc; [|done].
  apply andb_true_iff in Hc as [Hne Ht]. conditions. rewrite Ht.
  destruct (cwf_nodes _ Hwf _ _ Hn) as (Hck & _). unfold node_check in Hck. rewrite !andb_true_iff in Hck.
  destruct Hck as (((_ & Hs) & He) & _). apply andb_true_iff in Hs as [Hs _]. conditions. split_and!; first [done|lia].
Qed.

(** The inner joins lose no node. *)
Lemma elem_of_configured db nodeID node st cfg :
  (nodeID, node, st, cfg) ∈ configured_nodes db <->
  enrolled_nodes db !! nodeID = Some node /\ node_administrative_states db !! nodeID = Some st /\
  management_node_configurations db !! nodeID = Some cfg.
Proof.
  unfold configured_nodes. rewrite list_elem_of_omap. split.
  - intros ([id n] & Hin%elem_of_rows_by_key & E). destruct (node_administrative_states db !! id) eqn:H1; [|done].
    destruct (management_node_configurations db !! id) eqn:H2; [|done]. by simplify_eq.
  - intros (H1 & H2 & H3). exists (nodeID, node). rewrite elem_of_rows_by_key, H2, H3. done.
Qed.
Lemma configured_ids db :
  controller_wf db -> map (fun row => row.1.1.1) (configured_nodes db) = map fst (rows_by_key (enrolled_nodes db)).
Proof.
  intros Hwf. unfold configured_nodes.
  assert (H : Forall (fun row => is_Some (node_administrative_states db !! row.1) /\
    is_Some (management_node_configurations db !! row.1)) (rows_by_key (enrolled_nodes db))).
  { apply Forall_forall. intros [id n] Hin%elem_of_rows_by_key. simpl.
    destruct (enrolled_state _ _ _ Hwf Hin) as [st ->]. destruct (enrolled_configuration _ _ _ Hwf Hin) as [cfg ->]. eauto. }
  induction H as [|[id n] rows [[st Hst] [cfg Hcfg]] _ IH]; simpl in *; [done|]. rewrite Hst, Hcfg. simpl. f_equal. exact IH.
Qed.

Lemma read_administration db :
  controller_wf db -> scan_rows (scan_administration db) (rows_by_key (enrolled_nodes db)) = Ok (stored_administration db).
Proof.
  intros Hwf. apply scan_rows_ok, Forall_forall. intros [nodeID node] Hin%elem_of_rows_by_key.
  destruct (enrolled_state _ _ _ Hwf Hin) as [st Hst]. destruct (state_row _ _ _ Hwf Hst) as (Hv & row & Hrow & Hrev).
  simplify_eq. simpl. rewrite Hst. destruct (enrolled_identity _ _ _ Hwf Hin) as (_ & Hne & _).
  rewrite bool_decide_eq_false_2, (admin_valid_any _ _ _ Hv), Hrev by done. done.
Qed.
Lemma lease_valid db nodeID slot r :
  lease_wf db -> slot_reservations db !! (nodeID, slot) = Some r ->
  exists row, executions db !! sr_execution_id r = Some row /\ active (ex_state row) /\ slot_of row = (nodeID, slot) /\
    sr_target_id r = ex_target_id row /\ nodeID <> "" /\ 0 <= slot /\ sr_execution_id r <> "" /\
    required (sr_target_id r) "slot.owner.target_id" = None.
Proof.
  intros Hwf Hr. destruct (lw_mirror _ Hwf _ _ Hr) as (row & Hrow & Ha & Hk & Hr'). exists row.
  destruct (lw_rows _ Hwf _ _ Hrow) as [Hc Hv]. unfold slot_of in Hk. simplify_eq.
  unfold ExecutionSnapshot_Validate in Hv. simpl in Hv.
  destruct (required (sr_execution_id r) _) eqn:H1; [done|]. apply required_nonempty in H1.
  destruct (required (ex_target_id row) _) eqn:H2; [done|].
  destruct (required (ex_node_id row) _) eqn:H3; [done|]. apply required_nonempty in H3.
  destruct (Z.ltb_spec (ex_slot_index row) 0); [done|]. rewrite Hr'. simpl. split_and!; try done.
  unfold required in *. by destruct (bool_decide (TrimSpace (ex_target_id row) = "")).
Qed.
Lemma read_reservations db :
  lease_wf db -> scan_rows scan_reservation (sort_slice slot_before (map_to_list (slot_reservations db))) = Ok (stored_reservations db).
Proof.
  intros Hwf. apply scan_rows_ok, Forall_forall. intros [[nodeID slot] r] Hin.
  rewrite elem_of_sort_slice in Hin. apply elem_of_map_to_list in Hin.
  destruct (lease_valid _ _ _ _ Hwf Hin) as (row & _ & _ & _ & _ & H1 & H2 & H3 & H4). unfold scan_reservation. simpl.
  rewrite !bool_decide_eq_false_2 by done. replace (slot <? 0) with false by (symmetry; apply Z.ltb_ge; lia). simpl.
  unfold SlotOwner_Validate. simpl. by rewrite H4.
Qed.
Lemma read_executions db :
  lease_wf db -> scan_rows scan_execution_row (rows_by_key (executions db)) = Ok (stored_executions db).
Proof.
  intros Hwf. apply scan_rows_ok, Forall_forall. intros [id row] Hin%elem_of_rows_by_key.
  destruct (lw_rows _ Hwf _ _ Hin) as [Hc Hv]. unfold scan_execution_row. simpl. rewrite Hv.
  unfold execution_check in Hc. apply andb_true_iff in Hc as [_ Ht]. rewrite Z.gtb_ltb in Ht. apply Z.ltb_lt in Ht.
  by replace (ex_created_at row <=? 0) with false by (symmetry; apply Z.leb_gt; lia).
Qed.
Lemma read_messages db :
  messages_ok db -> exists rows, scan_rows scan_message
    (sort_slice pair_before (map_to_list (processed_messages (agent_work db)))) = Ok rows.
Proof.
  intros Hok. eexists. apply (scan_rows_ok _ (fun _ => tt)), Forall_forall. intros [[s m] row] Hin.
  rewrite elem_of_sort_slice in Hin. apply elem_of_map_to_list in Hin. pose proof (Hok _ _ Hin) as Hc. simpl in Hc.
  unfold message_check in Hc. rewrite !andb_true_iff in Hc. destruct Hc as ((((H1 & H2) & H3) & H4) & H5).
  rewrite Z.gtb_ltb in H1, H2, H5. apply Z.ltb_lt in H1, H2, H5. unfold scan_message. rewrite H3.
  replace (s =? 0) with false by (symmetry; apply Z.eqb_neq; lia).
  replace (m =? 0) with false by (symmetry; apply Z.eqb_neq; lia).
  replace (pm_created_at row <=? 0) with false by (symmetry; apply Z.leb_gt; lia).
  rewrite bool_decide_eq_false_2; [done|]. intros Heq. by rewrite Heq in H4.
Qed.
Lemma read_topology db :
  controller_wf db -> sessions_ok db -> scan_rows (scan_topology db) (configured_nodes db) = Ok (stored_topology db).
Proof.
  intros Hwf Hs. apply scan_rows_ok, Forall_forall. intros [[[nodeID node] st] cfg] (Hn & Hst & Hcfg)%elem_of_configured.
  destruct (enrolled_identity _ _ _ Hwf Hn) as (_ & H1 & H2 & H3).
  destruct (cfg_nodes _ (cwf_configuration _ Hwf) _ _ Hcfg) as [_ Hv]. unfold validateManagementNodeConfiguration in Hv.
  destruct (_ || _) eqn:Hb in Hv; [done|]. rewrite !orb_false_iff in Hb. destruct Hb as (((_ & Hname) & Hmax) & _).
  destruct (state_row _ _ _ Hwf Hst) as (Hav & row & Hrow & Hrev). simplify_eq.
  unfold scan_topology. rewrite Hname, Hmax, !bool_decide_eq_false_2 by done.
  replace (en_credential_epoch node =? 0) with false by (symmetry; apply Z.eqb_neq; lia). simpl.
  rewrite (admin_valid_any _ _ _ Hav), Hrev. simpl.
  destruct (agent_session_snapshots (agent_work db) !! nodeID) as [session|] eqn:Hses; simpl; [|done].
  by rewrite (Hs _ _ Hses).
Qed.
Lemma elem_of_issued issued db :
  issued ∈ issued_commands db <-> exists id row, agent_commands (agent_work db) !! id = Some row /\ ac_issued row = issued.
Proof.
  unfold issued_commands. rewrite elem_of_sort_slice, list_elem_of_fmap. split.
  - intros ([id row] & -> & Hin%elem_of_map_to_list). eauto.
  - intros (id & row & Hrow & <-). exists (id, row). by rewrite elem_of_map_to_list.
Qed.
Lemma read_commands db epoch :
  commands_ok db -> epoch_of db = Ok epoch -> scan_rows (scan_issued epoch) (issued_commands db) = Ok (issued_commands db).
Proof.
  intros Hok He. rewrite <- (map_id (issued_commands db)) at 2. apply scan_rows_ok, Forall_forall.
  intros issued (id & row & Hrow & <-)%elem_of_issued.
  destruct (Hok _ _ Hrow) as (_ & Hv & (epoch' & He' & Hle) & _). rewrite He in He'. injection He' as <-. unfold scan_issued. rewrite Hv.
  rewrite Z.gtb_ltb. by rewrite (proj2 (Z.ltb_ge _ _) Hle).
Qed.

(** The snapshot of a database, given its epoch and its fences. *)
Definition snapshot_of (db : ControllerDB) (epoch : Z) (fences : list GitHubReconciliationFence)
    : ControllerRestartSnapshot :=
  mkRestartSnapshot
    (mkControllerSnapshot epoch (stored_administration db) (stored_reservations db) (stored_executions db))
    (management_fleet_max db) (stored_topology db) (issued_commands db) fences.
Lemma RestartSnapshot_reads s db epoch fences :
  requireReady (cs_base s) = None -> controller_wf db -> lease_wf db -> restart_wf db -> epoch_of db = Ok epoch ->
  run (readGitHubReconciliationFences epoch) db = (Ok fences, db) ->
  run (RestartSnapshot s) db = (Ok (snapshot_of db epoch fences), db).
Proof.
  intros Hready Hwf Hl Hr He Hf. unfold RestartSnapshot. rewrite run_require_bind, Hready.
  rewrite run_in_tx by (unfold readControllerSnapshot, readManagementState, readRestartNodeTopology,
    readRestartIssuedCommands, readGitHubReconciliationFences; apply _).
  unfold tx_run. rewrite run_bind by (unfold readControllerSnapshot; apply _).
  unfold readControllerSnapshot, current_epoch. destruct (read_messages _ (rw_messages _ Hr)) as [rows Hm].
  unfold epoch_of in He.
  rewrite run_query_bind, He, run_query_bind, (read_administration _ Hwf), run_query_bind, (read_reservations _ Hl),
    run_query_bind, (read_executions _ Hl), run_query_bind, Hm, run_ret. simpl.
  rewrite run_bind, (readManagementState_wf _ Hwf) by (unfold readManagementState; apply _). simpl.
  unfold readRestartNodeTopology. rewrite run_query_bind, (read_topology _ Hwf (rw_sessions _ Hr)).
  unfold readRestartIssuedCommands. rewrite run_query_bind, (read_commands _ _ (rw_commands _ Hr) He).
  rewrite run_bind, Hf by (unfold readGitHubReconciliationFences; apply _). by rewrite run_ret.
Qed.

(** ** What is restored *)

(** What a restart needs and the store does not check: an execution runs on an enrolled
    node, in a slot inside its configured maximum while it is active; a display name is
    not blank; and a macOS node is configured with the one slot it can have. *)
Record can_restart (db : ControllerDB) : Prop := {
  cr_nodes : forall id row, executions db !! id = Some row -> is_Some (enrolled_nodes db !! ex_node_id row);
  cr_slots : forall id row configuration, executions db !! id = Some row -> active (ex_state row) ->
    management_node_configurations db !! ex_node_id row = Some configuration ->
    ex_slot_index row < mnc_MaxRunners configuration;
  cr_names : forall nodeID configuration, management_node_configurations db !! nodeID = Some configuration ->
    TrimSpace (mnc_DisplayName configuration) <> "";
  cr_macos : forall nodeID configuration session,
    management_node_configurations db !! nodeID = Some configuration ->
    agent_session_snapshots (agent_work db) !! nodeID = Some session -> as_operating_system session = OSMacOS ->
    mnc_MaxRunners configuration <= MacOSNativeRunnerMaxRunners }.

Definition restarted_definition (t : RestartNodeTopology) : NodeDefinition :=
  mkNodeDefinition
    (mkNode (topo_NodeID t) (topo_DisplayName t) (topo_CertificateSerial t) (topo_CredentialEpoch t)
       (if topo_PlatformObserved t then topo_OS t else "") (if topo_PlatformObserved t then topo_Architecture t else "")
       (topo_MaxRunners t) (topo_AdministrativeState t) NodeOffline)
    (negb (topo_PlatformObserved t)) 0 [] RunnerVersionAutoUpdate ManagedRunnerUpdate.
(** A node that can be defined. *)
Definition definable (db : ControllerDB) (nodeID : string) (configuration : ManagementNodeConfiguration) : Prop :=
  TrimSpace (mnc_DisplayName configuration) <> "" /\
  forall session, agent_session_snapshots (agent_work db) !! nodeID = Some session ->
    as_operating_system session = OSMacOS -> mnc_MaxRunners configuration <= MacOSNativeRunnerMaxRunners.
Lemma defined_node db nodeID node st cfg :
  controller_wf db -> sessions_ok db -> definable db nodeID cfg -> (nodeID, node, st, cfg) ∈ configured_nodes db ->
  let t := topology_of db (nodeID, node, st, cfg) in
  restartNodeDefinition t = Ok (restarted_definition t) /\ validateNodeDefinition (restarted_definition t) = None.
Proof.
  intros Hwf Hs [Hdisplay Hmacos] (Hn & Hst & Hcfg)%elem_of_configured. cbv zeta.
  destruct (enrolled_identity _ _ _ Hwf Hn) as (H0 & H1 & H2 & H3).
  destruct (cfg_nodes _ (cwf_configuration _ Hwf) _ _ Hcfg) as [_ Hv]. unfold validateManagementNodeConfiguration in Hv.
  destruct (_ || _) eqn:Hb in Hv; [done|]. rewrite !orb_false_iff in Hb. destruct Hb as (((_ & Hname) & Hmax) & _).
  destruct (state_row _ _ _ Hwf Hst) as (Hav & _). split.
  - unfold restartNodeDefinition. simpl. rewrite Hname, Hmax, !bool_decide_eq_false_2 by (done || lia). done.
  - unfold validateNodeDefinition. simpl. destruct (agent_session_snapshots (agent_work db) !! nodeID) as [session|] eqn:Hses; simpl.
    + destruct (proj1 (session_valid _) (Hs _ _ Hses)) as (Hos & Harch & _).
      unfold Node_Validate, required. simpl. rewrite !bool_decide_eq_false_2 by done.
      unfold OperatingSystem_Validate in *. destruct (bool_decide (as_operating_system session ∈ _)); [|done].
      unfold Architecture_Validate in *. destruct (bool_decide (as_architecture session ∈ _)); [|done].
      rewrite Hmax, (admin_valid_any _ _ _ Hav). destruct (bool_decide (as_operating_system session = OSMacOS)) eqn:Hmac; simpl; [|done].
      apply bool_decide_eq_true in Hmac. pose proof (Hmacos _ eq_refl Hmac) as Hle.
      rewrite Z.gtb_ltb, (proj2 (Z.ltb_ge _ _) Hle). done.
    + rewrite !bool_decide_eq_false_2, Hmax, (admin_valid_any _ _ _ Hav) by done. done.
Qed.
Lemma restarted_node db row :
  controller_wf db -> sessions_ok db -> can_restart db -> row ∈ configured_nodes db ->
  restartNodeDefinition (topology_of db row) = Ok (restarted_definition (topology_of db row)) /\
  validateNodeDefinition (restarted_definition (topology_of db row)) = None.
Proof.
  intros Hwf Hs Hcr Hin. destruct row as [[[nodeID node] st] cfg]. apply defined_node; try done.
  apply elem_of_configured in Hin as (_ & _ & Hcfg). split; [by eapply cr_names|]. intros session Hses Hmac. by eapply cr_macos.
Qed.
Lemma restart_definitions_all topologies :
  Forall (fun t => restartNodeDefinition t = Ok (restarted_definition t)) topologies ->
  restart_definitions topologies = Ok (map restarted_definition topologies).
Proof. induction 1 as [|t rest E _ IH]; simpl; [done|]. by rewrite E, IH. Qed.

Lemma stored_ids db : map admin_NodeID (stored_administration db) = map fst (rows_by_key (enrolled_nodes db)).
Proof. unfold stored_administration. by rewrite map_map. Qed.
Lemma restarted_ids db :
  controller_wf db -> map def_ID (map restarted_definition (stored_topology db)) = map fst (rows_by_key (enrolled_nodes db)).
Proof.
  intros Hwf. rewrite <- (configured_ids _ Hwf). unfold stored_topology. rewrite !map_map. apply map_ext.
  by intros [[[nodeID node] st] cfg].
Qed.
Lemma nodes_restart db :
  controller_wf db -> sessions_ok db -> can_restart db ->
  nodes_restorable (stored_administration db) (map restarted_definition (stored_topology db)).
Proof.
  intros Hwf Hs Hcr. split.
  - apply Forall_forall. intros a (row & -> & Hin)%list_elem_of_fmap. destruct row as [nodeID node].
    apply elem_of_rows_by_key in Hin. destruct (enrolled_state _ _ _ Hwf Hin) as [st Hst].
    destruct (state_row _ _ _ Hwf Hst) as (Hv & _). split; simpl; [by apply (enrolled_identity _ _ _ Hwf Hin)|].
    rewrite Hst. simpl. by eapply admin_valid_any.
  - rewrite stored_ids. apply rows_NoDup.
  - apply Forall_forall. intros d (t & -> & (row & -> & Hin)%list_elem_of_fmap)%list_elem_of_fmap.
    by apply restarted_node.
  - rewrite (restarted_ids _ Hwf). apply rows_NoDup.
  - intros id. by rewrite (restarted_ids _ Hwf), stored_ids.
Qed.
(** The restored nodes: every enrolled one, offline and without capacity, with its
    state and its configured slots. *)
Definition restored_nodes (db : ControllerDB) (nodes : gmap string nodeRuntime) : Prop :=
  forall nodeID n, nodes !! nodeID = Some n <-> exists node st cfg,
    (nodeID, node, st, cfg) ∈ configured_nodes db /\
    n = runtimeForNodeDefinition (restarted_definition (topology_of db (nodeID, node, st, cfg))) st.
Lemma nodes_restarted db :
  controller_wf db -> sessions_ok db -> can_restart db ->
  exists nodes, restoreNodes (stored_administration db) (map restarted_definition (stored_topology db)) = Ok nodes /\
    restored_nodes db nodes.
Proof.
  intros Hwf Hs Hcr. destruct (restoreNodes_succeeds _ _ (nodes_restart _ Hwf Hs Hcr)) as (nodes & E & Hn).
  exists nodes. split; [exact E|]. intros nodeID n. rewrite Hn. clear Hn E. split.
  - intros (d & a & Hd & Ha & Hid & Hid' & ->).
    apply list_elem_of_fmap in Hd as (t & -> & (row & -> & Hin)%list_elem_of_fmap).
    destruct row as [[[id node] st] cfg]. simpl in Hid. unfold def_ID in Hid. simpl in Hid. subst id.
    apply list_elem_of_fmap in Ha as ([id' node'] & -> & Ha). simpl in Hid'. subst id'. exists node, st, cfg.
    split; [done|]. apply elem_of_configured in Hin as (_ & Hst & _). simpl. by rewrite Hst.
  - intros (node & st & cfg & Hin & ->). pose proof Hin as (Hnode & Hst & _)%elem_of_configured.
    exists (restarted_definition (topology_of db (nodeID, node, st, cfg))), (mkNodeAdministration nodeID st).
    split_and!; try done.
    + apply list_elem_of_fmap. eexists. split; [done|]. apply list_elem_of_fmap. eauto.
    + apply list_elem_of_fmap. exists (nodeID, node). simpl. rewrite Hst. split; [done|by apply elem_of_rows_by_key].
Qed.

Lemma restored_node db nodes nodeID node :
  controller_wf db -> restored_nodes db nodes -> enrolled_nodes db !! nodeID = Some node ->
  exists n cfg, nodes !! nodeID = Some n /\ management_node_configurations db !! nodeID = Some cfg /\
    node_MaxRunners (ns_Node (rt_scheduler n)) = mnc_MaxRunners cfg.
Proof.
  intros Hwf Hn Hnode. destruct (enrolled_state _ _ _ Hwf Hnode) as [st Hst].
  destruct (enrolled_configuration _ _ _ Hwf Hnode) as [cfg Hcfg]. eexists _, cfg. split; [|split; [exact Hcfg|]].
  - apply Hn. exists node, st, cfg. split; [by apply elem_of_configured|reflexivity].
  - done.
Qed.
Lemma terminal_agrees state : terminalExecution state = terminalControllerExecution state.
Proof. reflexivity. Qed.
Lemma elem_of_stored_reservations r db :
  r ∈ stored_reservations db <-> exists nodeID slot row, slot_reservations db !! (nodeID, slot) = Some row /\
    r = reservation_of (nodeID, slot, row).
Proof.
  unfold stored_reservations. rewrite list_elem_of_fmap. split.
  - intros ([[nodeID slot] row] & -> & Hin). rewrite elem_of_sort_slice in Hin. apply elem_of_map_to_list in Hin. eauto.
  - intros (nodeID & slot & row & Hrow & ->). exists (nodeID, slot, row). split; [done|].
    by rewrite elem_of_sort_slice, elem_of_map_to_list.
Qed.
Lemma elem_of_stored_executions e db :
  e ∈ stored_executions db <-> exists id row, executions db !! id = Some row /\ e = execution_of id row.
Proof.
  unfold stored_executions. rewrite list_elem_of_fmap. split.
  - intros ([id row] & -> & Hin%elem_of_rows_by_key). eauto.
  - intros (id & row & Hrow & ->). exists (id, row). by rewrite elem_of_rows_by_key.
Qed.
Lemma stored_reservations_by {B} (f : SlotReservation -> B) db :
  (forall k1 k2 r1 r2, slot_reservations db !! k1 = Some r1 -> slot_reservations db !! k2 = Some r2 ->
     f (reservation_of (k1, r1)) = f (reservation_of (k2, r2)) -> k1 = k2) ->
  NoDup (map f (stored_reservations db)).
Proof.
  intros Hinj. unfold stored_reservations. rewrite map_map. apply NoDup_fmap_2_strong.
  - intros [k1 r1] [k2 r2]. rewrite !elem_of_sort_slice, !elem_of_map_to_list. intros H1 H2 E.
    assert (k1 = k2) as -> by eauto. congruence.
  - rewrite sort_slice_perm. apply NoDup_map_to_list.
Qed.
Lemma desired_restart db nodes :
  controller_wf db -> lease_wf db -> can_restart db -> restored_nodes db nodes ->
  desired_restorable nodes (stored_executions db) (stored_reservations db).
Proof.
  intros Hwf Hl Hcr Hn. split.
  - apply Forall_forall. intros r (nodeID & slot & row & Hrow & ->)%elem_of_stored_reservations.
    destruct (lease_valid _ _ _ _ Hl Hrow) as (e & He & Ha & Hs & Ht & H1 & H2 & H3 & H4). unfold slot_of in Hs. simplify_eq.
    destruct (cr_nodes _ Hcr _ _ He) as [node Hnode].
    destruct (restored_node _ _ _ _ Hwf Hn Hnode) as (n & cfg & Hlook & Hcfg & Hmax). split; [done|]. split; [done|].
    split; [exact H4|]. exists n. split; [done|]. simpl. rewrite Hmax. pose proof (cr_slots _ Hcr _ _ _ He Ha Hcfg). lia.
  - apply stored_reservations_by. intros [n1 s1] [n2 s2] r1 r2 _ _ [= -> ->]. done.
  - apply stored_reservations_by. intros [n1 s1] [n2 s2] r1 r2 H1 H2 E. unfold resv_ID in E. simpl in E.
    destruct (lw_mirror _ Hl _ _ H1) as (row1 & E1 & _ & Hk1 & _). destruct (lw_mirror _ Hl _ _ H2) as (row2 & E2 & _ & Hk2 & _).
    rewrite E in E1. congruence.
  - intros r (nodeID & slot & row & Hrow & ->)%elem_of_stored_reservations.
    destruct (lease_valid _ _ _ _ Hl Hrow) as (e & He & _). exists (execution_of (sr_execution_id row) e).
    split; [|done]. apply elem_of_stored_executions. eauto.
  - unfold stored_executions. rewrite map_map. apply rows_NoDup.
  - apply Forall_forall. intros e (id & row & Hrow & ->)%elem_of_stored_executions. split; [apply (lw_rows _ Hl _ _ Hrow)|].
    destruct (cr_nodes _ Hcr _ _ Hrow) as [node Hnode].
    destruct (restored_node _ _ _ _ Hwf Hn Hnode) as (n & cfg & Hlook & _). by exists n.
  - intros e (id & row & Hrow & ->)%elem_of_stored_executions Ht r (nodeID & slot & lease & Hlease & ->)%elem_of_stored_reservations Hid.
    destruct (lease_valid _ _ _ _ Hl Hlease) as (row' & Hrow' & Ha & _). unfold resv_ID in Hid. simpl in Hid. rewrite Hid in Hrow'.
    simplify_eq. simpl in Ht. rewrite terminal_agrees in Ht. congruence.
  - intros e (id & row & Hrow & ->)%elem_of_stored_executions Ht. simpl in Ht. rewrite terminal_agrees in Ht.
    exists (reservation_of (slot_of row, lease_of id row)). split; [|done].
    apply elem_of_stored_reservations. eexists _, _, _. split; [|reflexivity]. by apply (lw_leased _ Hl).
Qed.

(** *** Commands and fences *)

Lemma issued_matches issued :
  validateIssuedAgentCommand issued = None ->
  issued_NodeID issued <> "" /\ CommandType_Validate (issued_Type issued) "commands.type" = None /\
  Command_Validate (issued_Command issued) = None /\
  commandTypeMatchesExpectedState (issued_Type issued) (command_ExpectedState (issued_Command issued)) = true.
Proof.
  unfold validateIssuedAgentCommand, commandTypeMatchesExpectedState. intros H.
  destruct (bool_decide (issued_NodeID issued = "")) eqn:Hn; [done|]. apply bool_decide_eq_false in Hn.
  unfold CommandType_Validate in *. destruct (bool_decide (issued_Type issued ∈ _)) eqn:Ht; [|done].
  destruct (Command_Validate _); [done|]. split_and!; try done.
  apply bool_decide_eq_true in Ht. rewrite !elem_of_cons, elem_of_nil in Ht.
  destruct Ht as [Ht|[Ht|[Ht|[]]]]; rewrite Ht in H |- *; simpl in *.
  - by destruct (bool_decide (_ = ExecutionReserved)).
  - by destruct (bool_decide (_ = ExecutionPreparing)).
  - destruct (bool_decide (_ ∈ _)) eqn:Hin; [|done]. apply bool_decide_eq_true in Hin.
    rewrite !elem_of_cons, elem_of_nil in Hin. by destruct Hin as [->|[->|[->|[]]]].
Qed.
Lemma commands_restart db epoch m :
  commands_ok db -> epoch_of db = Ok epoch -> indexed exec_ID id (stored_executions db) ∅ m ->
  Forall (command_restorable epoch m) (issued_commands db) /\ NoDup (map issued_ID (issued_commands db)).
Proof.
  intros Hok He Hm. split.
  - apply Forall_forall. intros issued (id & row & Hrow & <-)%elem_of_issued.
    destruct (Hok _ _ Hrow) as (_ & Hv & (epoch' & He' & Hle) & e & Hex & Hn). rewrite He in He'. injection He' as <-.
    destruct (issued_matches _ Hv) as (H1 & H2 & H3 & H4). split_and!; try done.
    exists (execution_of (command_ExecutionID (issued_Command (ac_issued row))) e). split; [|exact Hn].
    apply (indexed_lookup _ _ _ _ _ (execution_of _ e) Hm). apply elem_of_stored_executions. eauto.
  - unfold issued_commands. rewrite sort_slice_perm, map_map. apply NoDup_fmap_2_strong; [|apply NoDup_map_to_list].
    intros [k1 r1] [k2 r2]. rewrite !elem_of_map_to_list. intros H1 H2 E. unfold issued_ID in E. simpl in E.
    destruct (Hok _ _ H1) as [-> _]. destruct (Hok _ _ H2) as [-> _]. rewrite E in H1 |- *. congruence.
Qed.

(** The fence that [RestoreRestart] makes of a persisted one. *)
Definition restarted_fence (persisted : GitHubReconciliationFence) : GitHubFence :=
  mkFence (exec_ID (claim_Execution (pfence_Claim persisted))) (claim_ScaleSetID (pfence_Claim persisted))
    (claim_ClaimKey (pfence_Claim persisted)) (claim_State (pfence_Claim persisted)) (pfence_Attempt persisted).
Lemma Forall2_map_eq {A B C} (R : A -> B -> Prop) (f : A -> C) (g : B -> C) l l' :
  Forall2 R l l' -> (forall x y, R x y -> g y = f x) -> map g l' = map f l.
Proof. intros H Hfg. induction H as [|x y l l' Hxy _ IH]; simpl; [done|]. by rewrite IH, (Hfg _ _ Hxy). Qed.
Lemma Forall2_source {A B} (R : A -> B -> Prop) l l' y : Forall2 R l l' -> y ∈ l' -> exists x, x ∈ l /\ R x y.
Proof.
  intros H Hy. apply list_elem_of_lookup in Hy as [i Hi]. destruct (Forall2_lookup_r _ _ _ _ _ H Hi) as (x & Hx & Hr).
  exists x. split; [by eapply list_elem_of_lookup_2|done].
Qed.
Lemma elem_of_ambiguous db key row e :
  (key, row, e) ∈ ambiguous_claims db <->
  github_job_claims db !! key = Some row /\ ambiguous_claim db key row = true /\ executions db !! gc_execution_id row = Some e.
Proof.
  unfold ambiguous_claims. rewrite list_elem_of_omap. split.
  - intros ([k r] & Hin & E). rewrite elem_of_sort_slice in Hin. apply elem_of_map_to_list in Hin.
    destruct (ambiguous_claim db k r) eqn:Ha; [|done]. destruct (executions db !! _) eqn:He; [|done]. by simplify_eq.
  - intros (H1 & H2 & H3). exists (key, row). by rewrite elem_of_sort_slice, elem_of_map_to_list, H2, H3.
Qed.
Lemma ambiguous_sublist db :
  map (fun row => gc_execution_id row.1.2) (ambiguous_claims db) `sublist_of`
  map (fun row => gc_execution_id row.2) (sort_slice pair_before (map_to_list (github_job_claims db))).
Proof.
  unfold ambiguous_claims. induction (sort_slice _ _) as [|[k r] l IH]; simpl; [constructor|].
  destruct (ambiguous_claim db k r); [|by constructor]. destruct (executions db !! _); simpl; by constructor.
Qed.
Lemma ambiguous_unique db :
  claims_ok db -> NoDup (map (fun row => gc_execution_id row.1.2) (ambiguous_claims db)).
Proof.
  intros Hok. eapply sublist_NoDup; [|apply ambiguous_sublist]. apply NoDup_fmap_2_strong.
  - intros [k1 r1] [k2 r2]. rewrite !elem_of_sort_slice, !elem_of_map_to_list. intros H1 H2 E. simpl in E.
    assert (k1 = k2) as -> by eauto. congruence.
  - rewrite sort_slice_perm. apply NoDup_map_to_list.
Qed.

(** A claim as it was scanned. *)
Lemma scan_ambiguous_ok db row claim :
  scan_ambiguous db row = Ok claim ->
  exec_ID (claim_Execution claim) = gc_execution_id row.1.2 /\ claim_State claim = gc_state row.1.2 /\
  claim_ScaleSetID claim <> 0 /\ claim_ClaimKey claim <> 0 /\ gc_execution_id row.1.2 <> "".
Proof.
  destruct row as [[[scale key] row] e]. unfold scan_ambiguous, scanGitHubClaim. cbv zeta. intros E.
  destruct (validateGitHubClaimIdentity _); [done|]. destruct (ExecutionSnapshot_Validate _) eqn:Hv; [done|].
  cbn [claim_ScaleSetID claim_ClaimKey claim_Origin claim_SourceMessageID] in E. destruct (_ || _) eqn:Hb in E; [done|].
  simplify_eq/=. rewrite !orb_false_iff in Hb. destruct Hb as ((H1 & H2) & _). apply Z.eqb_neq in H1, H2.
  split_and!; try done. unfold ExecutionSnapshot_Validate in Hv. simpl in Hv.
  destruct (required (gc_execution_id row) _) eqn:Hr; [done|]. by apply required_nonempty in Hr.
Qed.
(** An attempt that the store accepts for an ambiguous claim. *)
Definition attempt_states : list string :=
  [GitHubJITIntent; GitHubJITGenerationAmbiguous; GitHubJITGenerated; GitHubJITStartDispatching;
   GitHubJITStartAmbiguous; GitHubJITStarted; GitHubJITAgentAccepted; GitHubJITRemovalPending].
Definition fenced_claim_states : list string :=
  [GitHubClaimJITIntent; GitHubClaimJITGenerationAmbiguous; GitHubClaimJITGenerated;
   GitHubClaimStartDispatching; GitHubClaimStartAmbiguous; GitHubClaimReconciliationRequired].
Lemma restart_attempt_ok attempt claimState epoch :
  validateRestartGitHubJITAttempt attempt claimState epoch = None ->
  att_ControllerEpoch attempt <> 0 /\ att_RunnerName attempt <> "" /\ att_State attempt ∈ attempt_states /\
  gitHubClaimMatchesJITState claimState (att_State attempt) = true /\
  (att_State attempt ∈ [GitHubJITStartDispatching; GitHubJITStartAmbiguous] -> att_StartCommandID attempt <> "").
Proof.
  unfold validateRestartGitHubJITAttempt. intros Hv. destruct (_ || _) eqn:Hb in Hv; [done|].
  rewrite !orb_false_iff in Hb. destruct Hb as (((((_ & _) & _) & Hep) & _) & Hname).
  apply Z.eqb_neq in Hep. apply bool_decide_eq_false in Hname. split; [done|]. split; [intros Heq; apply Hname; by rewrite Heq|].
  destruct (gitHubClaimMatchesJITState _ _); [|done]. simpl in Hv.
  destruct (bool_decide (att_State attempt ∈ [GitHubJITIntent; _])) eqn:H1.
  { apply bool_decide_eq_true in H1. split; [set_solver|]. split; [done|]. intros Hin. exfalso. revert H1 Hin.
    rewrite !elem_of_cons, !elem_of_nil. intros [->|[->|[]]] [|[|[]]]; done. }
  destruct (bool_decide (att_State attempt ∈ [GitHubJITGenerated; _; _; _; _])) eqn:H2.
  { apply bool_decide_eq_true in H2. split; [set_solver|]. split; [done|]. intros _.
    destruct (_ || _) eqn:Hb in Hv; [done|]. apply orb_false_iff in Hb as [_ Hb]. by apply bool_decide_eq_false in Hb. }
  destruct (bool_decide (att_State attempt = GitHubJITRemovalPending)) eqn:H3; [|done]. apply bool_decide_eq_true in H3.
  rewrite H3. split; [set_solver|]. split; [done|]. rewrite !elem_of_cons, elem_of_nil. by intros [|[|[]]].
Qed.
Lemma states_match claimState attemptState :
  attemptState ∈ attempt_states -> claimState ∈ fenced_claim_states ->
  gitHubClaimMatchesJITState claimState attemptState = true ->
  githubFenceStatesMatch claimState attemptState = true /\
  (claimState ∈ [GitHubClaimStartDispatching; GitHubClaimStartAmbiguous] ->
   attemptState ∈ [GitHubJITStartDispatching; GitHubJITStartAmbiguous]).
Proof.
  unfold attempt_states, fenced_claim_states. rewrite !elem_of_cons, !elem_of_nil. intros Ha Hc.
  destruct_or!; subst; vm_compute; intros H; try done.
  all: split; [done|]; intros [Hd|[Hd|[]]]; discriminate Hd.
Qed.
(** What the store reads as a fence, the projection accepts as one. *)
Lemma read_fence_valid db epoch claim f :
  exec_ID (claim_Execution claim) <> "" -> claim_ScaleSetID claim <> 0 -> claim_ClaimKey claim <> 0 ->
  claim_State claim = GitHubClaimAcquireAmbiguous \/ claim_State claim ∈ fenced_claim_states ->
  read_fence db epoch claim = Ok f -> pfence_Claim f = claim /\ validateGitHubFence (restarted_fence f) = None.
Proof.
  intros Hid Hs Hk Hst. unfold read_fence. destruct (bool_decide (claim_State claim = GitHubClaimAcquireAmbiguous)) eqn:Hacq.
  - destruct (negb _); [done|]. intros [= <-]. split; [done|]. unfold validateGitHubFence. simpl.
    rewrite !bool_decide_eq_false_2 by done. simpl. by rewrite Hacq.
  - destruct (claim_CurrentAttempt claim <? 1) eqn:Hcur; [done|]. unfold loadGitHubJITAttempt.
    destruct (github_jit_attempts db !! _) as [row|]; [|done].
    destruct (validateRestartGitHubJITAttempt _ _ _) eqn:Hv; [done|]. intros [= <-]. split; [done|].
    apply restart_attempt_ok in Hv as (Hep & Hname & Hin & Hmatch & Hstart). simpl in *.
    apply bool_decide_eq_false in Hacq as Hne. destruct Hst as [?|Hst]; [done|].
    destruct (states_match _ _ Hin Hst Hmatch) as [Hfence Hdispatch].
    unfold validateGitHubFence. simpl. rewrite Hacq, Hfence, (bool_decide_eq_true_2 (_ ∈ _)) by exact Hst.
    rewrite (bool_decide_eq_false_2 (_ = "")) by done. rewrite !(bool_decide_eq_false_2 (_ = 0)) by done.
    rewrite Hcur, (bool_decide_eq_false_2 (gj_runner_name row = "")) by done.
    rewrite !(bool_decide_eq_true_2 (_ = _ :> Z)) by done. simpl.
    destruct (_ || _) eqn:Hdis; simpl; [|done]. rewrite bool_decide_eq_false_2; [done|]. apply Hstart, Hdispatch.
    apply orb_true_iff in Hdis as [Hd|Hd]; apply bool_decide_eq_true in Hd; rewrite Hd; set_solver.
Qed.
Lemma fences_restart db epoch fences m :
  claims_ok db -> run (readGitHubReconciliationFences epoch) db = (Ok fences, db) ->
  indexed exec_ID id (stored_executions db) ∅ m ->
  Forall (fun f => is_Some (m !! fence_ExecutionID f) /\ validateGitHubFence f = None) (map restarted_fence fences) /\
  NoDup (map fence_ExecutionID (map restarted_fence fences)).
Proof.
  intros Hok E Hm. unfold readGitHubReconciliationFences in E. rewrite run_query_bind in E.
  destruct (scan_rows (scan_ambiguous db) _) as [claims|] eqn:Hclaims; [|done]. rewrite run_query in E. injection E as E.
  apply scan_rows_length in Hclaims, E.
  assert (Hids : map (fun f => exec_ID (claim_Execution (pfence_Claim f))) fences =
    map (fun row => gc_execution_id row.1.2) (ambiguous_claims db)).
  { transitivity (map (fun claim => exec_ID (claim_Execution claim)) claims).
    - eapply Forall2_map_eq; [exact E|]. intros claim f Hf. f_equal. f_equal. unfold read_fence in Hf.
      repeat case_match; by simplify_eq.
    - eapply Forall2_map_eq; [exact Hclaims|]. intros row claim Hscan. by apply scan_ambiguous_ok in Hscan as [? _]. }
  split; [|rewrite map_map; simpl; rewrite Hids; by apply ambiguous_unique].
  apply Forall_forall. intros f' (f & -> & Hin)%list_elem_of_fmap.
  destruct (Forall2_source _ _ _ _ E Hin) as (claim & Hclaim & Hf).
  destruct (Forall2_source _ _ _ _ Hclaims Hclaim) as ([[key row] e] & Hrow & Hscan).
  apply elem_of_ambiguous in Hrow as (_ & Ha & He). apply scan_ambiguous_ok in Hscan as (Hid & Hst & H1 & H2 & H3). simpl in *.
  destruct (read_fence_valid db epoch claim f) as [Hpf Hvalid]; [congruence|done|done| |done|].
  - unfold ambiguous_claim in Ha. apply andb_true_iff in Ha as [Ha _]. apply bool_decide_eq_true in Ha.
    rewrite Hst. apply elem_of_cons in Ha as [->|Ha]; [by left|by right].
  - split; [|done]. simpl. rewrite Hpf, Hid. exists (execution_of (gc_execution_id row) e).
    apply (indexed_lookup _ _ _ _ _ (execution_of _ e) Hm). apply elem_of_stored_executions. eauto.
Qed.

(** What the restored indexes hold. *)
Lemma restored_executions db m id e :
  indexed exec_ID Datatypes.id (stored_executions db) ∅ m ->
  m !! id = Some e <-> exists row, executions db !! id = Some row /\ e = execution_of id row.
Proof.
  intros Hm. split.
  - intros Hid. destruct (indexed_empty _ _ _ _ _ _ Hm Hid) as (e' & (id' & row & Hrow & ->)%elem_of_stored_executions & <- & <-).
    by exists row.
  - intros (row & Hrow & ->). apply (indexed_lookup _ _ _ _ _ (execution_of id row) Hm). apply elem_of_stored_executions. eauto.
Qed.
Lemma restored_reservations db m id r :
  lease_wf db -> indexed resv_ID restored_of (stored_reservations db) ∅ m ->
  m !! id = Some r <-> exists row, executions db !! id = Some row /\ active (ex_state row) /\
    r = mkRestoredReservation (ex_target_id row) (mkSlotKey (ex_node_id row) (ex_slot_index row)) id.
Proof.
  intros Hl Hm. split.
  - intros Hid. destruct (indexed_empty _ _ _ _ _ _ Hm Hid) as (r' & (n & sl & lease & Hlease & ->)%elem_of_stored_reservations & <- & <-).
    destruct (lease_valid _ _ _ _ Hl Hlease) as (row & Hrow & Ha & Hs & Ht & _). exists row. split; [done|]. split; [done|].
    unfold slot_of in Hs. simplify_eq. unfold restored_of. simpl. by rewrite Ht.
  - intros (row & Hrow & Ha & ->).
    apply (indexed_lookup _ _ _ _ _ (reservation_of (slot_of row, lease_of id row)) Hm).
    apply elem_of_stored_reservations. eexists _, _, _. split; [|reflexivity]. by apply (lw_leased _ Hl).
Qed.
Lemma restored_commands db m id issued :
  commands_ok db -> indexed issued_ID Datatypes.id (issued_commands db) ∅ m ->
  m !! id = Some issued <-> exists row, agent_commands (agent_work db) !! id = Some row /\ issued = ac_issued row.
Proof.
  intros Hok Hm. split.
  - intros Hid. destruct (indexed_empty _ _ _ _ _ _ Hm Hid) as (i & (id' & row & Hrow & <-)%elem_of_issued & <- & <-).
    destruct (Hok _ _ Hrow) as [-> _]. by exists row.
  - intros (row & Hrow & ->). destruct (Hok _ _ Hrow) as [Hid _]. rewrite Hid.
    apply (indexed_lookup _ _ _ _ _ (ac_issued row) Hm). apply elem_of_issued. eauto.
Qed.
(** [RestoreRestart], from its parts. *)
Lemma RestoreRestart_parts db epoch fences nodes m ids reserved commands by_ fm :
  controller_wf db -> sessions_ok db -> can_restart db -> epoch <> 0 ->
  restoreNodes (stored_administration db) (map restarted_definition (stored_topology db)) = Ok nodes ->
  restoreDesired nodes (stored_executions db) (stored_reservations db) = Ok (m, ids, reserved) ->
  restoreCommands epoch m (issued_commands db) = Ok (commands, by_) ->
  restoreFences m (map restarted_fence fences) ∅ = Ok fm ->
  RestoreRestart (snapshot_of db epoch fences) = Ok (mkController epoch nodes m ids reserved commands by_ fm ∅ 0 true).
Proof.
  intros Hwf Hs Hcr Hne Hnodes Hdesired Hcommands Hfences. unfold RestoreRestart, snapshot_of. simpl.
  rewrite restart_definitions_all.
  - simpl. unfold Restore, ControllerEpoch_Validate. simpl. rewrite bool_decide_eq_false_2 by done.
    rewrite bool_decide_eq_true_2 by done. simpl. rewrite Hnodes. simpl. rewrite Hdesired. simpl.
    rewrite Hcommands. simpl. unfold restarted_fence in Hfences. rewrite Hfences. reflexivity.
  - apply Forall_forall. intros t (row & -> & Hin)%list_elem_of_fmap. by apply restarted_node.
Qed.

(** C14 A Controller can always be restarted from its database: after every history, if
    the epoch was advanced, executions are on enrolled nodes and in configured slots,
    display names are not blank, macOS nodes have one slot, and the provider's ambiguous
    claims can be read, then [RestartSnapshot] succeeds, [RestoreRestart] accepts what it
    read, and the Controller has the stored epoch and exactly the stored executions, for
    every active execution exactly its leased slot and no other reservation, exactly the
    issued commands, and every enrolled node, offline and without capacity. *)
Theorem restart_restores_the_store actions outs coms s epoch fences :
  let db := database (controller_history actions (mkConnection fresh_controller_db outs coms)) in
  requireReady (cs_base s) = None -> epoch_of db = Ok epoch -> epoch <> 0 -> can_restart db ->
  run (readGitHubReconciliationFences epoch) db = (Ok fences, db) ->
  exists snapshot c, run (RestartSnapshot s) db = (Ok snapshot, db) /\ RestoreRestart snapshot = Ok c /\
    ctl_epoch c = epoch /\
    (forall id e, ctl_executions c !! id = Some e <->
       exists row, executions db !! id = Some row /\ e = execution_of id row) /\
    (forall id r, ctl_reservations c !! id = Some r <->
       exists row, executions db !! id = Some row /\ active (ex_state row) /\
         r = mkRestoredReservation (ex_target_id row) (mkSlotKey (ex_node_id row) (ex_slot_index row)) id) /\
    (forall id issued, ctl_commands c !! id = Some issued <->
       exists row, agent_commands (agent_work db) !! id = Some row /\ issued = ac_issued row) /\
    restored_nodes db (ctl_nodes c).
Proof.
  cbv zeta. set (db := database _). intros Hready He Hne Hcr Hf.
  assert (Hwf : controller_wf db) by apply history_wf, fresh_controller_wf.
  assert (Hl : lease_wf db) by apply history_leases. assert (Hr : restart_wf db) by apply history_restart_wf.
  exists (snapshot_of db epoch fences).
  destruct (nodes_restarted _ Hwf (rw_sessions _ Hr) Hcr) as (nodes & Hnodes & Hrestored).
  destruct (restoreDesired_succeeds _ _ _ (desired_restart _ _ Hwf Hl Hcr Hrestored)) as (m & ids & reserved & Hdesired & Hm & Hres).
  destruct (commands_restart _ _ _ (rw_commands _ Hr) He Hm) as [Hc1 Hc2].
  destruct (restoreCommands_succeeds _ _ _ Hc1 Hc2) as (commands & by_ & Hcommands & Hcm).
  destruct (fences_restart _ _ _ _ (rw_claims _ Hr) Hf Hm) as [Hf1 Hf2].
  destruct (restoreFences_succeeds _ _ ∅ Hf1) as (fm & Hfences & _); [by split|].
  exists (mkController epoch nodes m ids reserved commands by_ fm ∅ 0 true).
  split; [by apply RestartSnapshot_reads|]. split; [by apply RestoreRestart_parts; [|apply Hr|..]|]. split; [done|].
  split; [intros; by apply restored_executions|]. split; [intros; by apply restored_reservations|].
  split; [intros; by apply restored_commands, Hcm; apply Hr|exact Hrestored].
Qed.

(** A restart of the Controller of [WorkDemo], after its epoch, an assignment and a
    command. *)
Module RestartDemo.
Definition actions : list controller_action :=
  Demo.setup ++ [Call WorkDemo.store KAdvanceEpoch;
     Work WorkDemo.store (WGitHub (GRuntime {["linux" := mkUpdatePolicy "linux" RunnerVersionPinned "2.320.0" 1]}
       {["repo" := mkBinding "repo" 7 "linux"]}));
     Work WorkDemo.store (WAssign WorkDemo.no_busy Demo.assignment 0 false);
     Work WorkDemo.store (WCommitCommand WorkDemo.prepare)].
Definition db : ControllerDB := database (controller_history actions (mkConnection fresh_controller_db [] [])).
Definition row : ExecutionRow := mkExecutionRow "repo" Demo.nodeID 1 ExecutionReserved 100.
Lemma one_execution : executions db = {["e1" := row]}.
Proof. vm_compute. reflexivity. Qed.
Lemma one_configuration : management_node_configurations db = {[Demo.nodeID := ControllerStore.mkNodeConfiguration Demo.nodeID "first" 2]}.
Proof. vm_compute. reflexivity. Qed.
Lemma no_session : agent_session_snapshots (agent_work db) = ∅.
Proof. vm_compute. reflexivity. Qed.
Lemma restartable : can_restart db.
Proof.
  split.
  - intros id r. rewrite one_execution, lookup_singleton_Some. intros [_ <-]. vm_compute. eauto.
  - intros id r cfg. rewrite one_execution, lookup_singleton_Some. intros [_ <-] _. rewrite one_configuration. simpl.
    rewrite lookup_singleton_eq. intros [= <-]. reflexivity.
  - intros id cfg. rewrite one_configuration, lookup_singleton_Some. intros [_ <-]. vm_compute. discriminate.
  - intros id cfg session. rewrite no_session, lookup_empty. discriminate.
Qed.
End RestartDemo.

Lemma restart_restores_the_store_witness :
  exists snapshot c, run (RestartSnapshot WorkDemo.store) RestartDemo.db = (Ok snapshot, RestartDemo.db) /\
    RestoreRestart snapshot = Ok c /\ ctl_executions c !! "e1" = Some (execution_of "e1" RestartDemo.row) /\
    ctl_commands c !! "prepare-e1" = Some WorkDemo.prepare.
Proof.
  destruct (restart_restores_the_store RestartDemo.actions [] [] WorkDemo.store 1 [])
    as (snapshot & c & H1 & H2 & _ & H3 & _ & H4 & _); [reflexivity|vm_compute; reflexivity|discriminate
    |exact RestartDemo.restartable|vm_compute; reflexivity|].
  exists snapshot, c. split; [exact H1|]. split; [exact H2|]. split.
  - apply H3. exists RestartDemo.row. split; [|reflexivity].
    assert (Hrow : executions RestartDemo.db !! "e1" = Some RestartDemo.row) by (vm_compute; reflexivity). exact Hrow.
  - apply H4. exists (mkAgentCommandRow WorkDemo.prepare 100). split; [|reflexivity].
    assert (Hrow : agent_commands (agent_work RestartDemo.db) !! "prepare-e1" = Some (mkAgentCommandRow WorkDemo.prepare 100))
      by (vm_compute; reflexivity).
    exact Hrow.
Defined.

(** ** A node that stops the restart

    The store accepts two slots for a node before and after its Agent reports macOS
    ([ApplyManagementConfiguration] and [RecordAgentSnapshot] do not look at each other's
    tables), and [RestoreRestart] refuses what it then reads. *)
Definition macos_snapshot : NodeAgentSnapshot :=
  mkNodeAgentSnapshot Demo.nodeID OSMacOS ArchARM64 "2.320.0" true "" None None (mkAgentStoreSnapshot 0 [] [] []).
Definition macos_actions : list controller_action :=
  Demo.setup ++ [Call WorkDemo.store KAdvanceEpoch;
    Work WorkDemo.store (WRecordSnapshot SnapshotDemo.marshal SnapshotDemo.sha256 macos_snapshot)].
Definition macos_db : ControllerDB := database (controller_history macos_actions (mkConnection fresh_controller_db [] [])).
Example macos_slots_stop_restart :
  exists snapshot, run (RestartSnapshot WorkDemo.store) macos_db = (Ok snapshot, macos_db) /\
    map topo_OS (rs_NodeTopology snapshot) = [OSMacOS] /\ map topo_MaxRunners (rs_NodeTopology snapshot) = [2] /\
    RestoreRestart snapshot = Err (domain_invalid "native_runner_capacity_exceeded" "node.max_runners"
      "macOS native mode currently owns exactly one runner slot").
Proof. eexists. split; [vm_compute; reflexivity|]. vm_compute. done. Qed.
