(* ===== verification/ConsumerProps.v ===== *)
(** * What the activation of a session guarantees

    The projection never runs ahead of the database, both know a snapshot under the same
    digest, and a node that enrolled meanwhile joins without a restart. *)

From S2P Require Import Prelude GoStd GoEncoding StoreBase EnrollRegistry EnrollPKI Domain Execution Replay SlotLedger Scheduler Transport RunnerUpdate Fence Projection Reconcile ReconcileInv ReconcileFacts.
From S2P Require Import Sql AgentStore WorkTables ControllerStore StoreEnroll AuditTrail Management WorkStore WorkAgent WorkReport WorkGitHub RestartStore SnapshotConsumer ControllerSpec ControllerFacts WorkFacts WorkFrame WorkSpec ControllerHistory ControllerProps WorkProps SnapshotProps TeardownProps RestartWf RestoreSuccess RestartProps.
From Stdlib Require Import Ascii.

Section properties.
Context (marshal : CanonicalSnapshot -> result string) (sha256 : string -> string).

(** The store and the protocol digest the same canonical snapshot. *)
Lemma digest_agrees snapshot :
  AgentSnapshot_Validate snapshot = None ->
  nodeAgentSnapshotDigest marshal sha256 (snapshot_record snapshot) = AgentSnapshotDigest marshal sha256 snapshot.
Proof.
  intros Hv. unfold AgentSnapshotDigest, nodeAgentSnapshotDigest. rewrite Hv. simpl. f_equal.
  unfold canonicalAgentSnapshot. rewrite !map_map. f_equal.
  - rewrite <- (map_id (snap_Observations snapshot)) at 2. apply map_ext. by intros [].
  - rewrite <- (map_id (snap_CleanupTombstones snapshot)) at 2. apply map_ext. by intros [].
Qed.

(** The projection after an accepted snapshot: the node has it, and its actions carry
    its digest. *)
Definition applied_snapshot (snapshot : AgentSnapshot) (digest : string) (ctl : Controller) : Prop :=
  exists n, ctl_nodes ctl !! snap_NodeID snapshot = Some n /\ rt_snapshot n = snapshot /\ rt_seen n = true /\
    Forall (fun a => action_SnapshotDigest a = digest) (rt_actions n).
Lemma reconciled_or_kept ctl snapshot now ctl' r :
  ReconcileAgentSnapshot marshal sha256 ctl snapshot now = (ctl', r) ->
  (ctl' = ctl /\ exists e, r = Err e) \/
  (exists res digest, r = Ok res /\ AgentSnapshotDigest marshal sha256 snapshot = Ok digest /\ applied_snapshot snapshot digest ctl').
Proof.
  unfold ReconcileAgentSnapshot, reconcileAgentSnapshotAt, check_snapshot. intros E.
  destruct (AgentSnapshot_Validate snapshot); [left; simplify_eq/=; eauto|].
  destruct (AgentSnapshotDigest marshal sha256 snapshot) as [digest|]; [|left; simplify_eq/=; eauto]. cbn beta iota in E.
  destruct (IsZero now); [left; simplify_eq/=; eauto|].
  destruct (check_authority ctl snapshot) as [current|e]; [|left; simplify_eq/=; eauto]. right. simplify_eq/=.
  eexists _, digest. split; [done|]. split; [done|]. eexists. split; [apply lookup_insert_eq|]. split; [done|]. split; [done|].
  simpl. apply Forall_forall. intros a Hin. unfold sortActions in Hin. rewrite elem_of_sort_slice in Hin.
  by apply list_elem_of_fmap in Hin as (a' & -> & _).
Qed.

(** The snapshot is what the database knows of the node, as of [db]. *)
Definition durable_snapshot (snapshot : AgentSnapshot) (digest : string) (db : ControllerDB) : Prop :=
  let nodeID := snap_NodeID snapshot in let journal := nas_Journal (snapshot_record snapshot) in
  let w := agent_work db in
  AgentSnapshotDigest marshal sha256 snapshot = Ok digest /\ (exists epoch, current_authority nodeID digest epoch db) /\
  exactly nodeID (agent_current_snapshot_commands w) (map (command_row digest) (ass_Commands journal)) /\
  exactly nodeID (agent_current_snapshot_observations w) (map (observation_row digest) (ass_Observations journal)) /\
  exactly nodeID (agent_current_snapshot_tombstones w) (map (tombstone_row digest) (ass_CleanupTombstones journal)).
Lemma recorded_durable s snapshot c c' :
  AgentSnapshot_Validate snapshot = None ->
  RecordAgentSnapshot marshal sha256 s (snapshot_record snapshot) c = (Ok tt, c') ->
  exists digest, durable_snapshot snapshot digest (database c').
Proof.
  intros Hv E. apply sql_run_ok in E; [|unfold RecordAgentSnapshot; apply _].
  apply record_current in E as (digest & epoch & Hd & Ha & _ & _ & (H1 & H2 & H3) & _).
  exists digest. rewrite digest_agrees in Hd by done. split; [done|]. split; [by exists epoch|]. by split_and!.
Qed.

Lemma restart_read_only s c : database (RestartSnapshot s c).2 = database c.
Proof.
  assert (H : ReadOnly (RestartSnapshot s)); [|apply H].
  unfold RestartSnapshot, readControllerSnapshot, readManagementState, readRestartNodeTopology,
    readRestartIssuedCommands, readGitHubReconciliationFences. apply _.
Qed.
Lemma ensured_or_kept s ctl nodeID c ctl' e c' :
  EnsureStoreBackedRestartNode s ctl nodeID c = (ctl', e, c') ->
  database c' = database c /\ (e <> None -> ctl' = ctl).
Proof.
  unfold EnsureStoreBackedRestartNode. case_bool_decide; [intros; by simplify_eq|].
  pose proof (restart_read_only s c) as Hro. destruct (RestartSnapshot s c) as [[restart|err] c1]; simpl in Hro; [|intros; by simplify_eq].
  destruct (negb _); [intros; by simplify_eq|]. destruct (List.find _ _) as [topology|]; [|intros; by simplify_eq].
  destruct (EnsureRestartNode ctl topology) as [ctl1 e1] eqn:E. intros. simplify_eq. split; [done|].
  unfold EnsureRestartNode in E. repeat case_match; simplify_eq; done.
Qed.
End properties.

(** C15 The projection never runs ahead of the database: whatever fails in between, when
    [HandleAgentSnapshot] has changed the projection, the snapshot is durable: its digest
    is the current authority over the node in the database, whose current commands,
    observations and tombstones are exactly the reported ones.  When it succeeds, the
    projection holds the same snapshot, and every action it derives for the node carries
    the digest under which the store will accept it. *)
Theorem projection_follows_the_store marshal sha256 s snapshot now later ctl c ctl' e c' :
  HandleAgentSnapshot marshal sha256 s snapshot now later ctl c = (ctl', e, c') ->
  (ctl' = ctl /\ e <> None) \/
  exists digest, durable_snapshot marshal sha256 snapshot digest (database c') /\
    (e = None -> applied_snapshot snapshot digest ctl').
Proof.
  unfold HandleAgentSnapshot. destruct (AgentSnapshot_Validate snapshot) eqn:Hv; [intros; simplify_eq; by left|].
  destruct (RecordAgentSnapshot marshal sha256 s _ c) as [[[]|err] c1] eqn:Hrec; [|intros; simplify_eq; by left].
  intros E. right. destruct (recorded_durable _ _ _ _ _ _ Hv Hrec) as [digest Hd]. exists digest.
  assert (Happ : forall ctl now ctl' r, ReconcileAgentSnapshot marshal sha256 ctl snapshot now = (ctl', r) ->
    error_of r = None -> applied_snapshot snapshot digest ctl').
  { intros ctl0 now0 ctl1 r Hr Hnone. destruct (reconciled_or_kept _ _ _ _ _ _ _ Hr) as [[_ [err ->]]|(res & d & -> & Hd' & Ha)]; [done|].
    destruct Hd as [Hdig _]. rewrite Hdig in Hd'. by injection Hd' as <-. }
  destruct (ReconcileAgentSnapshot marshal sha256 ctl snapshot now) as [ctl1 [res|err]] eqn:Hr.
  { simplify_eq. split; [done|]. intros _. by eapply Happ. }
  destruct (negb _); [by simplify_eq|].
  destruct (EnsureStoreBackedRestartNode s ctl1 _ c1) as [[ctl2 [err2|]] c2] eqn:Hens;
    apply ensured_or_kept in Hens as [Hdb _]; [simplify_eq; by rewrite Hdb|].
  destruct (ReconcileAgentSnapshot marshal sha256 ctl2 snapshot later) as [ctl3 r] eqn:Hr2. simplify_eq.
  rewrite Hdb. split; [done|]. intros Hnone. by eapply Happ.
Qed.

(** ** Nodes that enrolled meanwhile *)

(** The session of a recorded snapshot has its platform. *)
Lemma recorded_platform marshal sha256 s record db db' :
  run (RecordAgentSnapshot marshal sha256 s record) db = (Ok tt, db') ->
  exists session, agent_session_snapshots (agent_work db') !! nas_NodeID record = Some session /\
    as_operating_system session = nas_OS record /\ as_architecture session = nas_Architecture record.
Proof.
  intros E. apply RecordAgentSnapshot_ok in E as (_ & digest & t & mid & _ & _ & E & _ & adoption & Ea).
  apply steps_reports in Ea; [|apply _]. apply record_snapshot_ok in E
    as (epoch & d1 & d2 & d3 & d4 & d5 & d6 & d7 & d8 & _ & _ & _ & E & E2 & E3 & E4 & E5 & E6 & E7 & E8 & E9).
  assert (H1 : exists session, agent_session_snapshots (agent_work d1) !! nas_NodeID record = Some session /\
    as_operating_system session = nas_OS record /\ as_architecture session = nas_Architecture record).
  { apply run_statement_ok in E. simpl in E. destruct (negb _); [done|].
    destruct (agent_session_snapshots (agent_work db) !! _) as [old|]; [destruct (_ && _) eqn:Hp in E|];
      simplify_eq/=; (eexists; split; [apply lookup_insert_eq|]); simpl; [by conditions|done]. }
  assert (Hrest : rtc (touches [TSnapshotCommands; TObservations; TTombstones; TAuthority; TCurrentCommands;
    TCurrentObservations; TCurrentTombstones; TStates]) d1 mid).
  { repeat (etransitivity; [eapply steps_run; [eassumption|apply _]|]). reflexivity. }
  apply sessions_equal in Hrest; [|set_solver]. rewrite <- Hrest in H1.
  destruct H1 as (session & Hs & Hos & Harch). destruct (rl_sessions _ _ Ea _ _ Hs) as (session' & Hs' & H2 & H3 & _).
  exists session'. split; [done|]. split; congruence.
Qed.
Lemma find_topology db nodeID node st cfg :
  controller_wf db -> (nodeID, node, st, cfg) ∈ configured_nodes db ->
  List.find (fun topology => topo_NodeID topology == nodeID) (stored_topology db) = Some (topology_of db (nodeID, node, st, cfg)).
Proof.
  intros Hwf Hin. destruct (List.find _ (stored_topology db)) as [t|] eqn:Hf.
  - apply List.find_some in Hf as [Hin' Hid]. apply list_elem_of_In in Hin'. apply bool_decide_eq_true in Hid.
    apply list_elem_of_fmap in Hin' as ([[[id n] st'] cfg'] & -> & Hin'). simpl in Hid. subst id.
    apply elem_of_configured in Hin as (H1 & H2 & H3), Hin' as (H4 & H5 & H6). by simplify_eq.
  - exfalso. assert (Hmem : List.In (topology_of db (nodeID, node, st, cfg)) (stored_topology db))
      by (apply list_elem_of_In, list_elem_of_fmap; eauto).
    pose proof (List.find_none _ _ Hf _ Hmem) as H. simpl in H. by rewrite bool_decide_eq_true_2 in H.
Qed.
Lemma snapshot_node_named snapshot : AgentSnapshot_Validate snapshot = None -> snap_NodeID snapshot <> "".
Proof. unfold AgentSnapshot_Validate. by case_bool_decide. Qed.

(** An undisturbed connection answers what the store's call returns. *)
Lemma calm_run {A} (m : program A) db a db' : Follows m -> run m db = (Ok a, db') -> m (calm db) = (Ok a, calm db').
Proof.
  intros Hm E. unfold run in E. pose proof (follows_calm (m := m) db) as Hc.
  destruct (m (calm db)) as [r c]. simpl in *. simplify_eq. by rewrite Hc.
Qed.
Lemma recorded_wf actions outs coms marshal sha256 s record db' :
  let db := database (controller_history actions (mkConnection fresh_controller_db outs coms)) in
  run (RecordAgentSnapshot marshal sha256 s record) db = (Ok tt, db') ->
  controller_wf db' /\ lease_wf db' /\ restart_wf db' /\ epoch_of db' = epoch_of db.
Proof.
  cbv zeta. set (db := database _). intros E.
  assert (Hdb : db' = database (controller_act (Work s (WRecordSnapshot marshal sha256 record)) (calm db))).
  { simpl. apply calm_run in E; [|unfold RecordAgentSnapshot; apply _]. by rewrite E. }
  assert (Hl : lease_wf db) by apply history_leases.
  assert (Hep : epoch_of db' = epoch_of db) by by eapply (work_epoch s (WRecordSnapshot marshal sha256 record)).
  split; [|split; [|split; [|done]]]; rewrite Hdb.
  - apply act_wf, history_wf, fresh_controller_wf.
  - by apply (act_progress (Work s (WRecordSnapshot marshal sha256 record)) (calm db)).
  - apply act_restart_wf; [done|]. apply history_restart_wf.
Qed.

(** The node that a fresh read of the database adds to the projection. *)
Definition joining (ctl : Controller) (t : RestartNodeTopology) : Controller :=
  signalChangeLocked (set_node ctl (topo_NodeID t)
    (runtimeForNodeDefinition (restarted_definition t) (topo_AdministrativeState t))).
Lemma node_joins s ctl db nodeID node st cfg epoch fences :
  requireReady (cs_base s) = None -> controller_wf db -> lease_wf db -> restart_wf db ->
  epoch_of db = Ok (ctl_epoch ctl) -> run (readGitHubReconciliationFences epoch) db = (Ok fences, db) ->
  epoch = ctl_epoch ctl -> nodeID <> "" -> ctl_nodes ctl !! nodeID = None -> definable db nodeID cfg ->
  (nodeID, node, st, cfg) ∈ configured_nodes db ->
  EnsureStoreBackedRestartNode s ctl nodeID (calm db) =
    (joining ctl (topology_of db (nodeID, node, st, cfg)), None, calm db).
Proof.
  intros Hready Hwf Hl Hr He Hf -> Hne Hnew Hdef Hin. unfold EnsureStoreBackedRestartNode.
  rewrite bool_decide_eq_false_2 by done.
  rewrite (calm_run _ _ _ _ _ (RestartSnapshot_reads _ _ _ _ Hready Hwf Hl Hr He Hf)).
  simpl. rewrite bool_decide_eq_true_2 by done. simpl. rewrite (find_topology _ _ _ _ _ Hwf Hin).
  destruct (defined_node _ _ _ _ _ Hwf (rw_sessions _ Hr) Hdef Hin) as [H1 H2].
  unfold EnsureRestartNode. rewrite H1, H2. simpl in Hnew |- *. by rewrite Hnew.
Qed.

(** The first reconciliation of an unknown node fails with the code that the consumer
    looks for. *)
Lemma reconcile_unknown marshal sha256 ctl snapshot now digest :
  AgentSnapshot_Validate snapshot = None -> AgentSnapshotDigest marshal sha256 snapshot = Ok digest ->
  IsZero now = false -> ctl_nodes ctl !! snap_NodeID snapshot = None ->
  exists e, ReconcileAgentSnapshot marshal sha256 ctl snapshot now = (ctl, Err e) /\ classified_code e = Some "node_not_found".
Proof.
  intros Hv Hd Hnow Hnone. unfold ReconcileAgentSnapshot, reconcileAgentSnapshotAt, check_snapshot, check_authority.
  rewrite Hv, Hd. cbn beta iota. rewrite Hnow, Hnone. cbn beta iota. eauto.
Qed.
(** The second one finds it. *)
Lemma reconcile_joined marshal sha256 ctl t snapshot later digest :
  AgentSnapshot_Validate snapshot = None -> AgentSnapshotDigest marshal sha256 snapshot = Ok digest ->
  IsZero later = false -> topo_NodeID t = snap_NodeID snapshot ->
  topo_OS t = snap_OS snapshot -> topo_Architecture t = snap_Arch snapshot -> topo_PlatformObserved t = true ->
  snap_MaxControllerEpoch snapshot <= ctl_epoch ctl ->
  check_commands ctl (snap_NodeID snapshot) (snap_Commands snapshot) = None ->
  Z.of_nat (length (activeObservationIDs (snap_Observations snapshot))) <= topo_MaxRunners t ->
  exists ctl' r, ReconcileAgentSnapshot marshal sha256 (joining ctl t) snapshot later = (ctl', Ok r).
Proof.
  intros Hv Hd Hlater Hid Hos Harch Hobs Hepoch Hcommands Hmax.
  assert (Hauth : exists n, check_authority (joining ctl t) snapshot = Ok n).
  { unfold check_authority, joining. rewrite Hid. simpl. rewrite lookup_insert_eq. simpl. rewrite Hobs, Hos, Harch. simpl.
    rewrite !Z.gtb_ltb, (proj2 (Z.ltb_ge _ _) Hepoch), !bool_decide_eq_true_2 by done. simpl.
    rewrite (check_commands_ext ctl), Hcommands by done. rewrite (proj2 (Z.ltb_ge _ _) Hmax). eauto. }
  destruct Hauth as [n Hn]. unfold ReconcileAgentSnapshot, reconcileAgentSnapshotAt, check_snapshot.
  rewrite Hv, Hd. cbn beta iota. rewrite Hlater, Hn. eauto.
Qed.

(** C16 A node that enrolled while the Controller was running joins without a restart:
    after every history of the database, if the store accepts a valid snapshot of a node
    that the projection does not know, the projection has the database's epoch and the
    snapshot's commands, and what the database then says of the node can be read and is
    a valid node with room for the snapshot's runtimes, [HandleAgentSnapshot] succeeds
    and the projection has the node with exactly this snapshot. *)
Theorem enrolled_node_joins marshal sha256 actions outs coms s snapshot now later ctl db' cfg fences :
  let db := database (controller_history actions (mkConnection fresh_controller_db outs coms)) in
  let nodeID := snap_NodeID snapshot in
  requireReady (cs_base s) = None -> AgentSnapshot_Validate snapshot = None ->
  IsZero now = false -> IsZero later = false ->
  run (RecordAgentSnapshot marshal sha256 s (snapshot_record snapshot)) db = (Ok tt, db') ->
  epoch_of db = Ok (ctl_epoch ctl) -> ctl_nodes ctl !! nodeID = None ->
  check_commands ctl nodeID (snap_Commands snapshot) = None ->
  management_node_configurations db' !! nodeID = Some cfg -> definable db' nodeID cfg ->
  Z.of_nat (length (activeObservationIDs (snap_Observations snapshot))) <= mnc_MaxRunners cfg ->
  run (readGitHubReconciliationFences (ctl_epoch ctl)) db' = (Ok fences, db') ->
  exists ctl' digest, HandleAgentSnapshot marshal sha256 s snapshot now later ctl (calm db) = (ctl', None, calm db') /\
    applied_snapshot snapshot digest ctl' /\ durable_snapshot marshal sha256 snapshot digest db'.
Proof.
  cbv zeta. set (db := database _). intros Hready Hv Hnow Hlater E He Hnew Hcommands Hcfg Hdef Hmax Hf.
  destruct (recorded_wf _ _ _ _ _ _ _ _ E) as (Hwf & Hl & Hr & Hep). fold db in Hep. rewrite He in Hep.
  destruct (recorded_platform _ _ _ _ _ _ E) as (session & Hsession & Hos & Harch).
  simpl in Hsession, Hos, Harch. destruct (record_current _ _ _ _ _ _ E) as (d & epoch & _ & _ & Hepoch & Hle & _).
  unfold epoch_of in He. rewrite Hepoch in He. injection He as ->.
  apply calm_run in E; [|unfold RecordAgentSnapshot; apply _].
  destruct (recorded_durable _ _ _ _ _ _ Hv E) as [digest Hdurable]. simpl in Hdurable. pose proof (proj1 Hdurable) as Hd.
  assert (Hin : exists node st, (snap_NodeID snapshot, node, st, cfg) ∈ configured_nodes db').
  { assert (Hrow : exists node, enrolled_nodes db' !! snap_NodeID snapshot = Some node).
    { apply elem_of_dom. rewrite <- (cwf_configurations_dom _ Hwf). apply elem_of_dom. eauto. }
    destruct Hrow as [node Hrow]. destruct (enrolled_state _ _ _ Hwf Hrow) as [st Hst]. exists node, st.
    by apply elem_of_configured. }
  destruct Hin as (node & st & Hin). unfold HandleAgentSnapshot. rewrite Hv, E.
  destruct (reconcile_unknown _ _ _ _ _ _ Hv Hd Hnow Hnew) as (e & -> & Hcode).
  rewrite bool_decide_eq_true_2 by done. simpl.
  rewrite (node_joins _ _ _ _ _ _ _ _ _ Hready Hwf Hl Hr Hep Hf eq_refl (snapshot_node_named _ Hv) Hnew Hdef Hin).
  destruct (reconcile_joined marshal sha256 ctl (topology_of db' (snap_NodeID snapshot, node, st, cfg)) snapshot later digest)
    as (ctl' & r & Hrec); try done; [by simpl; rewrite Hsession..|].
  exists ctl', digest. rewrite Hrec. split; [done|]. split; [|done].
  destruct (reconciled_or_kept _ _ _ _ _ _ _ Hrec) as [[_ [? [=]]]|(res & d' & _ & Hd' & Ha)]. rewrite Hd in Hd'. by injection Hd' as <-.
Qed.

(** The first activation of a node that enrolled while the Controller was running. *)
Module ConsumerDemo.
Definition snapshot : AgentSnapshot :=
  mkAgentSnapshot Demo.nodeID OSLinux ArchAMD64 "2.320.0" true AvailabilityAccepting (Some ["repo"]) None 1 [] [] [].
Definition ctl : Controller := mkController 1 ∅ ∅ [] ∅ ∅ ∅ ∅ ∅ 0 true.
Definition actions : list controller_action := Demo.setup ++ [Call WorkDemo.store KAdvanceEpoch].
Definition db : ControllerDB := database (controller_history actions (mkConnection fresh_controller_db [] [])).
Definition recorded : ControllerDB :=
  (run (RecordAgentSnapshot SnapshotDemo.marshal SnapshotDemo.sha256 WorkDemo.store (snapshot_record snapshot)) db).2.
Definition configuration : ManagementNodeConfiguration := ControllerStore.mkNodeConfiguration Demo.nodeID "first" 2.
Definition activated : consumed :=
  HandleAgentSnapshot SnapshotDemo.marshal SnapshotDemo.sha256 WorkDemo.store snapshot 100 101 ctl (calm db).
Lemma succeeds : activated.1.2 = None.
Proof. vm_compute. reflexivity. Qed.
Lemma definable_node : definable recorded Demo.nodeID configuration.
Proof.
  split; [vm_compute; discriminate|]. intros session Hs.
  assert (H : as_operating_system <$> agent_session_snapshots (agent_work recorded) !! Demo.nodeID = Some OSLinux)
    by (vm_compute; reflexivity).
  rewrite Hs in H. injection H as ->. discriminate.
Qed.
End ConsumerDemo.

Lemma projection_follows_the_store_witness :
  exists digest, durable_snapshot SnapshotDemo.marshal SnapshotDemo.sha256 ConsumerDemo.snapshot digest
    (database ConsumerDemo.activated.2) /\
    applied_snapshot ConsumerDemo.snapshot digest ConsumerDemo.activated.1.1.
Proof.
  assert (E : ConsumerDemo.activated =
    (ConsumerDemo.activated.1.1, ConsumerDemo.activated.1.2, ConsumerDemo.activated.2))
    by (destruct ConsumerDemo.activated as [[? ?] ?]; reflexivity).
  destruct (projection_follows_the_store _ _ _ _ _ _ _ _ _ _ _ E) as [[_ Hfail]|(digest & Hd & Ha)].
  - destruct (Hfail ConsumerDemo.succeeds).
  - exists digest. exact (conj Hd (Ha ConsumerDemo.succeeds)).
Defined.

Lemma enrolled_node_joins_witness :
  exists ctl' digest, ConsumerDemo.activated = (ctl', None, calm ConsumerDemo.recorded) /\
    applied_snapshot ConsumerDemo.snapshot digest ctl'.
Proof.
  destruct (enrolled_node_joins SnapshotDemo.marshal SnapshotDemo.sha256 ConsumerDemo.actions [] [] WorkDemo.store
    ConsumerDemo.snapshot 100 101 ConsumerDemo.ctl ConsumerDemo.recorded ConsumerDemo.configuration [])
    as (ctl' & digest & H & Ha & _); try (vm_compute; reflexivity); [exact ConsumerDemo.definable_node|vm_compute; discriminate|].
  exists ctl', digest. split; [exact H|exact Ha].
Defined.

(** ** A failure that the projection refuses

    For an execution that was being cleaned and that the Agent no longer reports, the
    store commits [failed] and gives the slot back, but the lifecycle has no such step, so
    the projection refuses the execution that the store returned and keeps the
    reservation. *)
Module CleaningDemo.
Definition cleaning : AgentExecutionUpdate :=
  mkAgentUpdate Demo.nodeID "update-1" "prepare-e1" "e1" ExecutionCleaning false "" WorkDemo.sha.
Definition c : connection ControllerDB :=
  controller_act (Work WorkDemo.store (WRecordSnapshot SnapshotDemo.marshal SnapshotDemo.sha256
    (snapshot_record ConsumerDemo.snapshot)))
    (controller_act (Work WorkDemo.store (WRecordUpdate cleaning)) WorkDemo.c2).
Definition ctl : result Controller :=
  match RestartSnapshot WorkDemo.store c with (Ok restart, _) => RestoreRestart restart | (Err e, _) => Err e end.
Definition failed := FailDesiredExecutionFromSnapshot WorkDemo.store Demo.nodeID "e1" ExecutionCleaning SnapshotDemo.digest 1 c.
(** What the projection then asks for, what the store answers, and what becomes of it. *)
Definition divergence : result (list (string * string) * ExecutionSnapshot * bool * error * bool) :=
  let! ctl := ctl ;;
  let ctl := (ReconcileAgentSnapshot SnapshotDemo.marshal SnapshotDemo.sha256 ctl ConsumerDemo.snapshot 100).1 in
  let actions := from_option rt_actions [] (ctl_nodes ctl !! Demo.nodeID) in
  let! next := failed.1 ;;
  let '(ctl', refused) := ApplyDesiredExecution SnapshotDemo.marshal SnapshotDemo.sha256 ctl next 100 in
  Ok (map (fun a => (action_Kind a, action_ExpectedState a)) actions, next,
      bool_decide (slot_reservations (database failed.2) = ∅), refused, bool_decide (is_Some (ctl_reservations ctl' !! "e1"))).
End CleaningDemo.
Example cleaning_failure_diverges :
  CleaningDemo.divergence =
    Ok ([(ActionInspectAndDestroy, ExecutionCleaning)],
        mkExecutionSnapshot "e1" "repo" (mkSlotKey Demo.nodeID 1) ExecutionFailed, true,
        Some (reconcile_invalid "execution_update_regressed" "execution.state" "cannot advance retained desired state"), true).
Proof. vm_compute. reflexivity. Qed.
